(* ===== verification/_CoqProject ===== *)
-Q . S2P
Prelude.v
Process.v
Sockets.v
Epoll.v
Packet.v
Csum.v
TcpOptions.v
OptionLayout.v
OptionOps.v
NodTag.v
RawOption.v
Checked.v
Compression.v
Quicklz.v
QuicklzItems.v
QuicklzDecode.v
QuicklzEncode.v
QuicklzMatch.v
QuicklzCompress.v
QuicklzCodec.v
Dll.v
NodeId.v
Tokens.v
Cli.v
CliMenus.v
CliConsole.v
CliRegister.v
CliServer.v
CliClient.v
Utility.v
Wccp.v
WccpWire.v
WccpGroups.v
WccpHello.v
WccpConfig.v
WccpConsole.v
Ipc.v
Structs.v
IpcServer.v
Domain.v
WorkerPool.v
Session.v
Queue.v
Counters.v
CliShow.v
Driver.v
MemoryManager.v
Netlink.v
KernelModule.v
SessionCleanup.v
Worker.v
Tunnel.v
WorkerVerdict.v
WorkerThread.v
Fetcher.v
FetcherSetup.v
Lifecycle.v
Startup.v
Console.v
