(* ===== verification/Prelude.v ===== *)
(** * OpenNOP: a verified model of the WAN accelerator daemon

    OpenNOP runs on two nodes at the ends of a slow link.  On each node the
    kernel module (src/opennopdrv) diverts forwarded TCP packets to the daemon
    (src/opennopd) through a Netfilter queue.  The daemon's _fetcher_ tracks the
    handshakes in a session table and tags SYN packets with the node's
    accelerator id, in the NOD option of the TCP header; packets of open sessions go
    to the queue of a _worker_.  The worker of the first node on the path compresses
    the payload (_optimize_), the worker of the last one restores it
    (_deoptimize_).  Nodes find each other with the _IPC_ protocol (signed
    HERE_I_AM / I_SEE_YOU messages); only ids of neighbors that are UP are
    accepted.  Other threads remove dead sessions, refill the pool of packet
    buffers, compute traffic rates and send the heartbeat that keeps the
    module diverting packets.  The daemon is configured through a tree of commands that
    clients type on a socket, and can join the service groups of a WCCP router, which
    then redirects the traffic to it.

    ** Reading guide

    File, the source it models, and how state and operations correspond.
    Functions keep their C names; a definition without a C name is a loop or a
    block of the function named in its comment.

    Data and generic parts
    - [Prelude] (this file): the [outcome] monad ([Ret], [Undef] for undefined
      behaviour, [Spin] for a loop out of fuel), machine integers with explicit
      wrap-around ([u8] .. [u64], [htons]), byte buffers with checked loads and stores,
      the tactics [bool_lia], [unbool] and the lemmas of the hint databases.
    - [Process]: programs of calls to the system, as trees; what the system may answer is a
      relation ([System]), [wp] is what holds whatever it answers, [wpc] also where a call may stay
      unanswered, [runs] and [visits] the runs themselves.
    - [Packet]: [struct iphdr] / [struct tcphdr] overlaid on packet bytes.
    - [Dll]: intrusive doubly linked lists (include/list.h and the hand-written
      insertions and removals).  A store maps locations to nodes, [dll] says that a
      head and the store represent a Rocq list.

    The data path
    - [Csum]: csum.c.
    - [TcpOptions]: tcpoptions.c, byte by byte, [__u8] indices included.
    - [OptionLayout], [OptionOps], [NodTag], [RawOption], [Checked]: the specification of
      tcpoptions.c.  A packet [pkt H items d P S] is its header, a list of
      options, padding, payload and the unused rest of the buffer; each function
      of tcpoptions.c is shown to be an operation on the list of options.
    - [Compression]: compression.c, over the interface [Codec] (laws: [CodecLaws]).
    - [Quicklz]: lib/quicklz.c as it is built (level 1, no streaming, x86-64), on buffers with
      pointers as offsets; [QuicklzItems]: the block format, a text as a list of literals and
      matches; [QuicklzDecode]: decompression reads back every valid list;
      [QuicklzEncode], [QuicklzMatch], [QuicklzCompress]: compression writes one;
      [QuicklzCodec]: the two implement [Codec].
    - [WorkerPool], [Session]: the worker slots of worker.c and the session table of
      sessionmanager.c.  [smstate] holds the 65536 bucket heads, the store of
      sessions and the workers' session counts; [table_inv] relates it to a list of
      sessions per bucket, and [live] is the finite map it implements.
    - [Queue]: queuemanager.c, packet.c, memorymanager.c; [fifo] relates a
      head to the list of its packets.  [MemoryManager]: the start and the locks of its thread.
    - [Worker]: what one iteration of [worker_thread] does with a packet; [WorkerVerdict]: that it ends with one
      verdict, and for which packets; [WorkerThread]: the loop, its two halves
      interleaved with the deliveries of the fetcher, and the memory of the thread.
    - [Tunnel]: two nodes with the network between them, as a transition system over [Worker].
    - [Fetcher]: [fetcher_callback], fetcher.c; [FetcherSetup]: the thread around it, a program of
      libnetfilter_queue calls.
    - [SessionCleanup]: sessioncleanup.c; keepalives and the bucket walk.

    The control path
    - [NodeId], [Ipc]: ipc.c and ipc.h: the neighbor list, messages, HMAC check,
      hello rounds with the sockets they open and close, the neighbor commands, and the threads that call them.  HMAC-SHA256 (OpenSSL) is a
      parameter of which only the length of the result is used.
    - [Domain]: the interface through which the data path uses ipc.c
      ([get_opennop_id], [verify_neighbor_in_domain]); [ipc_domain] implements it.
    - [Counters]: counters.c and the metrics of fetcher.c and worker.c.
    - [Driver]: module.c, opennop_netlink.h, healthagent.c and signals.c: heartbeat,
      monitor timer and Netfilter hook; [Netlink]: the messages of healthagent.c byte for byte;
      [KernelModule]: loading, unloading and the commands of the module, its timer on a clock.
    - [Sockets]: sockets.c and the other functions that create sockets, as programs of system calls.
    - [Epoll]: the server loop of sockets.c over any component (class [Delimited]: what a
      component promises about whole messages), with the set of monitored sockets that IPC and WCCP register
      theirs in; [IpcServer]: ipc.c behind it.
    - [Lifecycle]: creation, signalling, end and join of the threads (worker.c, [main] of opennopd.c and the
      guards of the loops), interleaved by a step relation.
    - [Startup]: opennopd.c and the start and join functions of the threads, as programs of calls.
    - [Structs]: the message structures of wccpv2.c and ipc.h, their layout computed, and the functions
      that build and read messages with field names.

    The command line
    - [Tokens]: C strings, [strtok_r], [atoi], [inet_pton].
    - [Cli]: clicommands.c and climanager.c: the tree of commands as a store of nodes, the heads
      of its lists addressed by [command_head]; registration, execution, help, client sessions.
      The handlers are a parameter [run] on an arbitrary state.
    - [CliMenus]: the specification, an ordered menu below each sequence of words, and the
      relation [represents] to the tree; [CliConsole]: the theorems, and the list of the
      program's commands.
    - [CliRegister]: [register_command] run by several threads, word by word; [CliServer]: climanager.c, the
      server with a thread per client; [CliClient]: the client program opennop.c.
    - [Utility]: utility.c, logger.c and the rates; [CliShow]: the show and debug commands with
      the stack arrays they print into.
    - [Console]: the remaining handlers and [run], the dispatch of every command of the program on
      the state [daemon] of the components it touches.

    WCCP (wccpv2.c)
    - [Wccp]: groups, servers and web caches on linked lists, commands, messages, timer.
    - [WccpWire]: the two messages as byte lists with an independent parser; [WccpGroups]: the
      lists as a Rocq list of [group]s; [WccpHello], [WccpConfig], [WccpConsole]: the timer, the
      commands and received messages, and a client session.

    ** What the theorems show

    - _End to end_ ([Tunnel.tunnel_transparent]): two nodes are transparent to a connection in both
      directions, however the network reorders, repeats or loses packets and changes their TTL and checksums;
      below it [Worker.end_to_end_transparency] for one packet, [NodTag.tag_exchange] for the id and [Compression.compression_transparent]
      for the payload, [RawOption.set_get_option] for numbered options and
      [Csum.checksum_verifies] for the sums of the result.
    - _QuickLZ_: for texts of up to 2048 bytes compression ends, stays inside its buffer and loses
      nothing, whatever the buffers and tables held before
      ([QuicklzCodec.quicklz_roundtrip]); so the theorems over [Codec] hold for the library.
    - _Session table_: opening, closing, the two-FIN teardown and the final clearing
      refine operations on a finite map, both directions of a connection find
      the same session, and the invariant holds however the calls of the threads are ordered;
      dead-session detection keeps it, ends, and removes silent sessions.
    - _Packets_: the fetcher opens a session for a SYN, queues tracked packets to
      one worker and leaves foreign ones alone; a worker iteration that ends has given exactly one
      verdict and returned the buffer, it does end for packets of hosts and neighbors
      ([WorkerVerdict.worker_gives_one_verdict]), and the verdicts come in the order of arrival
      ([WorkerThread.worker_keeps_order]); queues are FIFO, the buffer pool neither loses nor duplicates a buffer.
    - _Protocol_: two nodes with the same key bring each other UP, messages without
      proof of the key change nothing, the neighbor commands refine a map from addresses
      to neighbors, and the list is well formed however the moves of the threads are ordered.
    - _Fail-open_: the module diverts packets only within 30 seconds of an UP heartbeat; the heartbeat
      decodes to what was meant, in any kernel with the documented netlink layer.
    - _System calls_: whatever call fails, no function leaks a descriptor ([Sockets.socket_functions_balanced]), the
      fetcher's thread closes what it opened ([FetcherSetup.fetcher_thread_balanced]), and [main] makes every
      call only where the design allows it and exits only before a thread runs, for a reason
      ([Startup.startup_order]).
    - _Server_: whole messages reach the protocol handler once, in order, and only sockets from or to configured
      peers are monitored; messages that arrive together are lost.
    - _Command line_: the tree of pointers is a table of menus for every session; registration by threads
      ends however they interleave, and every command of the program can then be typed; lines typed at the client
      are the commands the daemon runs, if they come one at a time; a client that comes slowly has a thread of its own; a session
      of neighbor lines leaves exactly the configuration it says; what a client can type without
      leaving defined behaviour.
    - _WCCP_: commands, messages and timer refine operations on a list of groups, which stays
      well formed however they are ordered; the messages are what a parser reads back while they fit the buffer.
    - _Where the code goes wrong_: a crafted block that crashes the decompressor, a crafted option that hangs the walk, a full option
      area that ends in a NULL dereference, padding that loses the id, a heartbeat that
      undoes a shutdown, an HMAC over an unchecked length, lists that two threads change at once, and a daemon
      that cannot terminate because it joins threads that never end.

    ** Modelling decisions

    - Buffers and objects: a pointer into a packet is an offset; an access
      outside the object, through NULL or through a freed object is [Undef].
      Allocation is an argument (the location the allocator answers, [None] for
      NULL), which the theorems assume to be fresh.
    - Concurrency: a call on a shared structure is one step, and interleavings are sequences of such steps
      ([Session.table_step], [Ipc.ipc_step], [WccpConfig.wccp_step], the event lists of [Driver],
      [Lifecycle.daemon_step]).  Where the source holds a mutex this is what happens; where it holds none (searches of the
      session table, the neighbor list, the WCCP groups) calls may overlap in the program, which these theorems
      leave out and say so.  What a thread keeps between its calls is modelled: the session pointer of a worker, the neighbor
      the IPC thread stands on; [Session.interleaved_table_ok] and [Ipc.interleaved_ipc_ok] say when it dangles,
      [Ipc.racing_adds_duplicate] and [WccpConfig.racing_groups_duplicate] what an overlap of search and insertion does.
    - The environment of a call is an argument, and may differ from event to event: peers, clocks, what [connect], [fcntl] and
      [epoll_ctl] answer.  Where such a call fails and the source calls [exit], the model answers [None].
    - [delta]: [get_nod_next_header] compares the addresses of its own
      parameters; [delta] is that address difference and the theorems hold for every
      value of it.
    - Fuel: the walks over the option area take fuel, and the theorems hold for any
      fuel of 64 or more: an area has at most 40 bytes and each step of a walk that
      terminates consumes one.  The hang of [NodTag.crafted_option_hangs] is stated for
      every fuel.  [Csum.FOLDS] = 4 carry foldings suffice for any sum below 2^32.
      List walks take [Dll.list_fuel], one more than the number of objects in the
      store.  Running out is the value [Spin], never a default result, and the
      functional theorems state [Ret].
    - QuickLZ: the loops take the size of the text as fuel, each round consumes a byte of it;
      a match is compared for at most 255 bytes.  The table of the decompressor holds pointers
      into the destination, so an entry that was never set is NULL.
    - The host is little endian with 64-bit [size_t].

    - The kernel's generic netlink layer is a parameter ([KernelModule.Genl_documented] is what is documented of
      it).  A join of a thread that runs [epoll_handler] is never answered.
    - System calls: programs that set something up are trees of calls ([Process]); what the calls may answer
      is what their manual pages say (classes such as [Sockets.Documented]), each with a concrete system as a witness.

    ** Not modelled

    The levels 2 and 3 and the streaming mode of QuickLZ are compiled out.  The calls of [logger] are left
    out of the components that make them (the messages are output only; [Utility] has the logger itself, the
    dumps and what a format may do), and so is the text of help.c.  libnetfilter_queue, netlink, epoll, readline
    and pthreads are outside the repository: what the code relies on is stated of them.  Calls of different threads
    on an unlocked structure that overlap, beyond the two cases named above, are not modelled. *)
From stdpp Require Export prelude gmap list fin_maps.
From Stdlib Require Export ZArith Lia.
#[export] Set Default Goal Selector "!".

(** * Outcomes of C code

    [Ret a] is a normal result, [Undef] is behaviour the C standard leaves
    undefined (a NULL or dangling pointer followed, an access outside an
    object, a shift that is too wide), [Spin] is a loop that used up its
    fuel.  Every partial operation of the development is in this monad. *)
Inductive outcome (A : Type) : Type :=
| Ret (a : A)
| Undef
| Spin.
Arguments Ret {A} a.
Arguments Undef {A}.
Arguments Spin {A}.

#[export] Instance outcome_ret : MRet outcome := fun A a => Ret a.
#[export] Instance outcome_bind : MBind outcome := fun A B f m =>
  match m with
  | Ret a => f a
  | Undef => Undef
  | Spin => Spin
  end.

Definition of_option {A} (o : option A) : outcome A :=
  match o with Some a => Ret a | None => Undef end.

(** * Machine integers: unsigned values are kept reduced, wrap-around is explicit. *)
Definition u8 (z : Z) : Z := z mod 2 ^ 8.
Definition u16 (z : Z) : Z := z mod 2 ^ 16.
Definition u32 (z : Z) : Z := z mod 2 ^ 32.
Definition u64 (z : Z) : Z := z mod 2 ^ 64.

(** The host is little endian (x86), so [htons]/[ntohs] swap bytes. *)
Definition ntohs (x : Z) : Z := (x mod 256) * 256 + (x / 256) mod 256.
Definition htons (x : Z) : Z := ntohs x.
Definition ntohl (x : Z) : Z :=
  (x mod 256) * 2 ^ 24 + ((x / 2 ^ 8) mod 256) * 2 ^ 16
  + ((x / 2 ^ 16) mod 256) * 2 ^ 8 + (x / 2 ^ 24) mod 256.
Definition htonl (x : Z) : Z := ntohl x.

(** * Byte buffers: a C object of [length b] bytes, each in [0, 255]. *)
Abbreviation buffer := (list Z).

Definition bytes (b : buffer) : Prop := Forall (fun v => 0 <= v < 256)%Z b.
Definition blen (b : buffer) : Z := Z.of_nat (length b).

Definition rd (b : buffer) (i : Z) : outcome Z :=
  if (0 <=? i)%Z then of_option (b !! Z.to_nat i) else Undef.

Definition wr (b : buffer) (i v : Z) : outcome buffer :=
  if ((0 <=? i) && (i <? blen b))%Z then Ret (<[Z.to_nat i := u8 v]> b) else Undef.

(** The bytes [l] stored at offset [o]. *)
Definition put (b : buffer) (o : Z) (l : list Z) : buffer :=
  take (Z.to_nat o) b ++ l ++ drop (Z.to_nat o + length l) b.

(** The [n] bytes at offset [o]. *)
Definition sub (b : buffer) (o n : Z) : list Z := take (Z.to_nat n) (drop (Z.to_nat o) b).

Definition in_object (b : buffer) (o n : Z) : bool :=
  ((0 <=? o) && (0 <=? n) && (o + n <=? blen b))%Z.

Definition memmove (b : buffer) (dst src n : Z) : outcome buffer :=
  if in_object b dst n && in_object b src n
  then Ret (put b dst (sub b src n)) else Undef.

Definition memset (b : buffer) (dst v n : Z) : outcome buffer :=
  if in_object b dst n then Ret (put b dst (replicate (Z.to_nat n) (u8 v))) else Undef.

(** [memcpy] of [n] bytes from another object. *)
Definition copy_in (b : buffer) (dst : Z) (src : buffer) (soff n : Z) : outcome buffer :=
  if in_object b dst n && in_object src soff n
  then Ret (put b dst (sub src soff n)) else Undef.

(** Loads and stores of wider integers, in host (little-endian) order. *)
Definition ld16 (b : buffer) (i : Z) : outcome Z :=
  x ← rd b i; y ← rd b (i + 1); Ret (x + 256 * y)%Z.

Definition ld32 (b : buffer) (i : Z) : outcome Z :=
  x ← ld16 b i; y ← ld16 b (i + 2); Ret (x + 65536 * y)%Z.

Definition st16 (b : buffer) (i v : Z) : outcome buffer :=
  b ← wr b i v; wr b (i + 1) (v / 256).

Definition st32 (b : buffer) (i v : Z) : outcome buffer :=
  b ← st16 b i v; st16 b (i + 2) (v / 65536).

(** * Notations *)
Declare Scope opennop_scope.
Delimit Scope opennop_scope with onop.

(** Total view of a byte of a buffer, used by specifications and proofs. *)
Definition at_ (b : buffer) (i : Z) : Z := nth (Z.to_nat i) b 0%Z.
Notation "b @@ i" := (at_ b i) (at level 19, left associativity) : opennop_scope.

(** ** Tactics *)

(** Decide a boolean comparison that [lia] settles. *)
Ltac bool_lia :=
  repeat match goal with
  | |- context [Z.ltb ?x ?y] =>
      first [ replace (Z.ltb x y) with true by (symmetry; apply Z.ltb_lt; lia)
            | replace (Z.ltb x y) with false by (symmetry; apply Z.ltb_ge; lia) ]
  | |- context [Z.leb ?x ?y] =>
      first [ replace (Z.leb x y) with true by (symmetry; apply Z.leb_le; lia)
            | replace (Z.leb x y) with false by (symmetry; apply Z.leb_gt; lia) ]
  | |- context [Z.eqb ?x ?y] =>
      first [ replace (Z.eqb x y) with true by (symmetry; apply Z.eqb_eq; lia)
            | replace (Z.eqb x y) with false by (symmetry; apply Z.eqb_neq; lia) ]
  end; cbn [andb orb negb].

(** Turn boolean hypotheses into propositions. *)
Ltac unbool :=
  repeat match goal with
  | H : (_ && _)%bool = true |- _ => apply andb_true_iff in H as [? ?]
  | H : (_ || _)%bool = false |- _ => apply orb_false_iff in H as [? ?]
  | H : negb _ = true |- _ => apply negb_true_iff in H
  | H : negb _ = false |- _ => apply negb_false_iff in H
  | H : Z.ltb _ _ = true |- _ => apply Z.ltb_lt in H
  | H : Z.ltb _ _ = false |- _ => apply Z.ltb_ge in H
  | H : Z.leb _ _ = true |- _ => apply Z.leb_le in H
  | H : Z.leb _ _ = false |- _ => apply Z.leb_gt in H
  | H : Z.eqb _ _ = true |- _ => apply Z.eqb_eq in H
  | H : Z.eqb _ _ = false |- _ => apply Z.eqb_neq in H
  | H : bool_decide _ = true |- _ => apply bool_decide_eq_true in H
  | H : bool_decide _ = false |- _ => apply bool_decide_eq_false in H
  end.

Lemma bind_Ret {A B} (m : outcome A) (f : A → outcome B) b :
  m ≫= f = Ret b ↔ ∃ a, m = Ret a ∧ f a = Ret b.
Proof.
  destruct m as [a| |]; simpl; (split; [intros H; try discriminate; eauto|]).
  all: intros (a' & E & H); by inversion E; subst.
Qed.

Lemma bind_Undef {A B} (m : outcome A) (f : A → outcome B) :
  m ≫= f = Undef ↔ m = Undef ∨ ∃ a, m = Ret a ∧ f a = Undef.
Proof.
  destruct m as [a| |]; simpl; (split; [intros H; try discriminate; eauto|]).
  all: intros [E|(a' & E & H)]; by inversion E; subst.
Qed.

Lemma bind_Spin {A B} (m : outcome A) (f : A → outcome B) :
  m ≫= f = Spin ↔ m = Spin ∨ ∃ a, m = Ret a ∧ f a = Spin.
Proof.
  destruct m as [a| |]; simpl; (split; [intros H; try discriminate; eauto|]).
  all: intros [E|(a' & E & H)]; by inversion E; subst.
Qed.

Lemma ret_bind {A B} (a : A) (f : A → outcome B) : Ret a ≫= f = f a.
Proof. done. Qed.

Lemma bind_assoc {A B C} (m : outcome A) (f : A → outcome B) (g : B → outcome C) :
  (m ≫= f) ≫= g = m ≫= (λ a, f a ≫= g).
Proof. by destruct m. Qed.

(** Open [H : (x ← m; k) = Ret r] step by step. *)
Ltac inv_ret :=
  repeat match goal with
  | H : (_ ≫= _) = Ret _ |- _ =>
      let a := fresh "v" in let E := fresh "E" in
      apply bind_Ret in H as (a & E & H)
  | H : Ret _ = Ret _ |- _ => injection H as H
  | H : Undef = Ret _ |- _ => discriminate H
  | H : Spin = Ret _ |- _ => discriminate H
  end.

(** ** Generic lemmas on machine integers *)
Open Scope Z_scope.
Open Scope opennop_scope.

Lemma u8_small z : 0 <= z < 256 → u8 z = z.
Proof. intros. unfold u8. apply Z.mod_small. lia. Qed.
Lemma u16_small z : 0 <= z < 65536 → u16 z = z.
Proof. intros. unfold u16. apply Z.mod_small. lia. Qed.
Lemma u32_small z : 0 <= z < 2 ^ 32 → u32 z = z.
Proof. apply Z.mod_small. Qed.
Lemma u64_small z : 0 <= z < 2 ^ 64 → u64 z = z.
Proof. apply Z.mod_small. Qed.
Lemma u8_bound z : 0 <= u8 z < 256.
Proof. apply (Z.mod_pos_bound z 256). lia. Qed.
Lemma u16_bound z : 0 <= u16 z < 65536.
Proof. apply (Z.mod_pos_bound z 65536). lia. Qed.
Lemma u32_bound z : 0 <= u32 z < 2 ^ 32.
Proof. apply Z.mod_pos_bound. lia. Qed.

Lemma ntohs_bound x : 0 <= ntohs x < 65536.
Proof.
  unfold ntohs.
  pose proof (Z.mod_pos_bound x 256). pose proof (Z.mod_pos_bound (x / 256) 256). lia.
Qed.

(** Two bytes loaded in host order and swapped are the big-endian value. *)
Lemma ntohs_pair x y : 0 <= x < 256 → 0 <= y < 256 → ntohs (x + 256 * y) = 256 * x + y.
Proof.
  intros Hx Hy. unfold ntohs.
  replace ((x + 256 * y) mod 256) with x by (rewrite (Z.mul_comm 256), Z.mod_add, Z.mod_small; lia).
  replace ((x + 256 * y) / 256) with y by (rewrite (Z.mul_comm 256), Z.div_add, Z.div_small; lia).
  rewrite Z.mod_small; lia.
Qed.

Lemma ntohs_invol x : 0 <= x < 65536 → ntohs (ntohs x) = x.
Proof.
  intros Hx. unfold ntohs at 2.
  rewrite (Z.mod_small (x / 256)) by (split; [apply Z.div_pos; lia | apply Z.div_lt_upper_bound; lia]).
  rewrite Z.add_comm, (Z.mul_comm (x mod 256)).
  rewrite ntohs_pair.
  - pose proof (Z.div_mod x 256). lia.
  - split; [apply Z.div_pos; lia | apply Z.div_lt_upper_bound; lia].
  - apply Z.mod_pos_bound; lia.
Qed.

(** A stored word is its bytes. *)
Lemma u8_pair v : 0 <= v < 65536 → u8 v + 256 * u8 (v / 256) = v.
Proof.
  intros Hv. unfold u8. rewrite (Z.mod_small (v / 256)).
  - pose proof (Z.div_mod v 256). change (2 ^ 8) with 256. lia.
  - change (2 ^ 8) with 256. split; [apply Z.div_pos; lia | apply Z.div_lt_upper_bound; lia].
Qed.

Lemma u8_quad v :
  0 <= v < 2 ^ 32 →
  u8 v + 256 * u8 (v / 256) + 65536 * (u8 (v / 65536) + 256 * u8 (v / 65536 / 256)) = v.
Proof.
  intros Hv.
  assert (Hq : 0 <= v / 65536 < 65536) by (split; [apply Z.div_pos; lia | apply Z.div_lt_upper_bound; lia]).
  rewrite (u8_pair (v / 65536)) by done. unfold u8. change (2 ^ 8) with 256.
  pose proof (Z.div_mod v 256). pose proof (Z.div_mod (v / 256) 256).
  rewrite Z.div_div in H0 by lia. change (256 * 256) with 65536 in H0. lia.
Qed.

(** [ntohl] reverses the four bytes. *)
Lemma ntohl_quad a b c e :
  0 <= a < 256 → 0 <= b < 256 → 0 <= c < 256 → 0 <= e < 256 →
  ntohl (a + 256 * b + 65536 * c + 16777216 * e) = 16777216 * a + 65536 * b + 256 * c + e.
Proof. intros. unfold ntohl. change (2 ^ 24) with 16777216. change (2 ^ 16) with 65536. change (2 ^ 8) with 256. Z.to_euclidean_division_equations. lia. Qed.

Lemma quad_split x : 0 <= x < 2 ^ 32 →
  ∃ a b c e, 0 <= a < 256 ∧ 0 <= b < 256 ∧ 0 <= c < 256 ∧ 0 <= e < 256
    ∧ x = a + 256 * b + 65536 * c + 16777216 * e.
Proof.
  intros Hx. exists (x mod 256), (x / 256 mod 256), (x / 65536 mod 256), (x / 16777216).
  Z.to_euclidean_division_equations. lia.
Qed.

Lemma ntohl_bound x : 0 <= x < 2 ^ 32 → 0 <= ntohl x < 2 ^ 32.
Proof. intros (a & b & c & e & ? & ? & ? & ? & ->)%quad_split. rewrite ntohl_quad by done. lia. Qed.

Lemma ntohl_invol x : 0 <= x < 2 ^ 32 → ntohl (ntohl x) = x.
Proof.
  intros (a & b & c & e & ? & ? & ? & ? & ->)%quad_split. rewrite ntohl_quad by done.
  replace (16777216 * a + 65536 * b + 256 * c + e) with (e + 256 * c + 65536 * b + 16777216 * a) by lia.
  rewrite ntohl_quad by done. lia.
Qed.

(** ** Generic lemmas on buffers *)
Lemma blen_nonneg b : 0 <= blen b.
Proof. unfold blen. lia. Qed.

Lemma at_lookup b i v : 0 <= i → b !! Z.to_nat i = Some v → b @@ i = v.
Proof. intros ? H. unfold at_. apply nth_lookup_Some with (d := 0) in H. done. Qed.

Lemma rd_at b i : 0 <= i < blen b → rd b i = Ret (b @@ i).
Proof.
  intros Hi. unfold rd, blen in *. bool_lia.
  destruct (b !! Z.to_nat i) as [v|] eqn:E; simpl.
  - f_equal. symmetry. apply at_lookup; [lia | done].
  - apply lookup_ge_None in E. lia.
Qed.

Lemma rd_Ret b i v : rd b i = Ret v → 0 <= i < blen b ∧ b @@ i = v.
Proof.
  unfold rd. destruct (Z.leb_spec 0 i); [|done].
  destruct (b !! Z.to_nat i) as [w|] eqn:E; simpl; [|done]. intros [= <-].
  pose proof (lookup_lt_Some _ _ _ E). unfold blen. split; [lia|]. by apply at_lookup.
Qed.

Lemma rd_not_Spin b i : rd b i ≠ Spin.
Proof. unfold rd. destruct (0 <=? i); [|done]. by destruct (b !! Z.to_nat i). Qed.

Lemma at_bytes b i : bytes b → 0 <= b @@ i < 256.
Proof.
  intros Hb. unfold at_. destruct (b !! Z.to_nat i) as [v|] eqn:E.
  - rewrite (nth_lookup_Some _ _ _ _ E). by apply (Forall_lookup_1 _ _ _ _ Hb E).
  - rewrite nth_lookup, E. simpl. lia.
Qed.

Lemma blen_insert b i v : blen (<[Z.to_nat i := v]> b) = blen b.
Proof. unfold blen. by rewrite length_insert. Qed.

Lemma wr_in b i v : 0 <= i < blen b → wr b i v = Ret (<[Z.to_nat i := u8 v]> b).
Proof. intros. unfold wr. by bool_lia. Qed.

Lemma at_insert b i j v :
  0 <= i < blen b → 0 <= j → at_ (<[Z.to_nat i := v]> b) j = if i =? j then v else b @@ j.
Proof.
  intros Hi Hj. unfold at_, blen in *. rewrite !nth_lookup.
  destruct (Z.eqb_spec i j) as [->|Hne].
  - rewrite list_lookup_insert_eq by lia. done.
  - rewrite list_lookup_insert_ne by lia. done.
Qed.

Lemma buffer_ext (b c : buffer) :
  blen b = blen c → (∀ i, 0 <= i < blen b → b @@ i = c @@ i) → b = c.
Proof.
  unfold blen. intros Hl H. apply list_eq. intros n.
  destruct (decide (n < length b)%nat) as [Hn|Hn].
  - assert (Hi : 0 <= Z.of_nat n < Z.of_nat (length b)) by lia.
    specialize (H _ Hi). unfold at_ in H. rewrite Nat2Z.id, !nth_lookup in H.
    destruct (lookup_lt_is_Some_2 b n) as [x Hx]; [lia|].
    destruct (lookup_lt_is_Some_2 c n) as [y Hy]; [lia|].
    rewrite Hx, Hy in *. simpl in H. congruence.
  - rewrite !lookup_ge_None_2 by lia. done.
Qed.

Lemma bytes_insert b i v : bytes b → 0 <= v < 256 → bytes (<[i := v]> b).
Proof. intros. by apply Forall_insert. Qed.

Lemma bytes_app l k : bytes l → bytes k → bytes (l ++ k).
Proof. apply Forall_app_2. Qed.

Lemma blen_app l k : blen (l ++ k) = blen l + blen k.
Proof. unfold blen. rewrite length_app. lia. Qed.

Lemma blen_replicate n x : blen (replicate n x) = Z.of_nat n.
Proof. unfold blen. by rewrite length_replicate. Qed.

Lemma blen_put b o l : 0 <= o → o + blen l <= blen b → blen (put b o l) = blen b.
Proof.
  intros. unfold put, blen in *.
  rewrite !length_app, length_take, length_drop. lia.
Qed.

Lemma blen_sub b o n : in_object b o n = true → blen (sub b o n) = n.
Proof.
  unfold in_object. intros. unbool. unfold sub, blen in *.
  rewrite length_take, length_drop. lia.
Qed.

Lemma put_app pre mid l post :
  length mid = length l →
  put (pre ++ mid ++ post) (blen pre) l = pre ++ l ++ post.
Proof.
  intros Hl. unfold put, blen. rewrite Nat2Z.id.
  rewrite take_app_length. f_equal. f_equal.
  rewrite drop_app_ge by lia. replace (length pre + length l - length pre)%nat with (length mid) by lia.
  apply drop_app_length.
Qed.

Lemma sub_app pre mid post : sub (pre ++ mid ++ post) (blen pre) (blen mid) = mid.
Proof.
  unfold sub, blen. rewrite !Nat2Z.id, drop_app_length. by rewrite take_app_length.
Qed.

Lemma sub_all l : sub l 0 (blen l) = l.
Proof. unfold sub, blen. change (Z.to_nat 0) with O. rewrite Nat2Z.id, drop_0. by apply take_ge. Qed.

Lemma at_app_r pre l i : 0 <= i → at_ (pre ++ l) (blen pre + i) = l @@ i.
Proof.
  intros. unfold at_, blen. rewrite app_nth2 by lia. f_equal. lia.
Qed.

Lemma at_app_l pre l i : 0 <= i < blen pre → at_ (pre ++ l) i = pre @@ i.
Proof. intros. unfold at_, blen in *. rewrite app_nth1 by lia. done. Qed.

Lemma rd_app pre a rest i : i = blen pre → rd (pre ++ a :: rest) i = Ret a.
Proof.
  intros ->. pose proof (blen_nonneg pre). rewrite rd_at.
  - f_equal. rewrite <-(Z.add_0_r (blen pre)). by rewrite at_app_r.
  - rewrite blen_app. pose proof (blen_nonneg rest). unfold blen in *. simpl. lia.
Qed.

Lemma ld16_app pre a b rest i : i = blen pre → ld16 (pre ++ a :: b :: rest) i = Ret (a + 256 * b).
Proof.
  intros ->. unfold ld16. rewrite (rd_app pre a (b :: rest) (blen pre)) by done. cbn [mbind outcome_bind].
  change (a :: b :: rest) with ([a] ++ b :: rest).
  rewrite app_assoc, (rd_app (pre ++ [a])); [done|]. rewrite blen_app. done.
Qed.

Lemma wr_app pre a rest i v : i = blen pre → wr (pre ++ a :: rest) i v = Ret (pre ++ u8 v :: rest).
Proof.
  intros ->. pose proof (blen_nonneg pre). rewrite wr_in.
  - f_equal. unfold blen. rewrite Nat2Z.id. by rewrite insert_app_r_alt, Nat.sub_diag by lia.
  - rewrite blen_app. pose proof (blen_nonneg rest). unfold blen in *. simpl. lia.
Qed.

Lemma memmove_Ret b dst src n :
  in_object b dst n = true → in_object b src n = true →
  memmove b dst src n = Ret (put b dst (sub b src n)).
Proof. intros H1 H2. unfold memmove. by rewrite H1, H2. Qed.

Lemma memset_Ret b dst v n :
  in_object b dst n = true →
  memset b dst v n = Ret (put b dst (replicate (Z.to_nat n) (u8 v))).
Proof. intros H1. unfold memset. by rewrite H1. Qed.

(** Every operation keeps buffers made of bytes. *)
Lemma bytes_sub b o n : bytes b → bytes (sub b o n).
Proof. intros. by apply Forall_take, Forall_drop. Qed.

Lemma bytes_put b o l : bytes b → bytes l → bytes (put b o l).
Proof. intros. unfold put. repeat apply bytes_app; [by apply Forall_take|done|by apply Forall_drop]. Qed.

Lemma bytes_wr b i v b' : bytes b → wr b i v = Ret b' → bytes b'.
Proof.
  intros Hb. unfold wr. destruct (_ && _); [|done]. intros [= <-]. apply bytes_insert; [done|apply u8_bound].
Qed.

Lemma bytes_st16 b i v b' : bytes b → st16 b i v = Ret b' → bytes b'.
Proof.
  intros Hb. unfold st16. intros (b1 & E1 & E2)%bind_Ret. eapply bytes_wr; [|done]. by eapply bytes_wr.
Qed.

Lemma bytes_memset b d v n b' : bytes b → memset b d v n = Ret b' → bytes b'.
Proof.
  intros Hb. unfold memset. destruct (in_object b d n); [|done]. intros [= <-].
  apply bytes_put; [done|]. apply Forall_replicate, u8_bound.
Qed.

Lemma bytes_memmove b d s n b' : bytes b → memmove b d s n = Ret b' → bytes b'.
Proof.
  intros Hb. unfold memmove. destruct (_ && _); [|done]. intros [= <-].
  apply bytes_put; [done|by apply bytes_sub].
Qed.

Lemma bytes_copy_in b d s o n b' : bytes b → bytes s → copy_in b d s o n = Ret b' → bytes b'.
Proof.
  intros Hb Hs. unfold copy_in. destruct (_ && _); [|done]. intros [= <-].
  apply bytes_put; [done|by apply bytes_sub].
Qed.

Lemma sub_put b o l n : in_object b o n = true → blen l = n → sub (put b o l) o n = l.
Proof.
  unfold in_object. intros H <-. unbool. unfold put, sub, blen in *. rewrite Nat2Z.id.
  assert (Hl : length (take (Z.to_nat o) b) = Z.to_nat o) by (rewrite length_take; lia).
  rewrite drop_app_ge by lia. rewrite Hl, Nat.sub_diag, drop_0. by rewrite take_app_length.
Qed.

Lemma at_put_lt b o l i : 0 <= i < o → o <= blen b → put b o l @@ i = b @@ i.
Proof.
  intros Hi Ho. unfold at_, put, blen in *. rewrite !nth_lookup.
  rewrite lookup_app_l by (rewrite length_take; lia). rewrite lookup_take_lt by lia. done.
Qed.

(** ** Runs of zero bytes *)
Definition zeros (z : Z) : list Z := replicate (Z.to_nat z) 0.

Lemma blen_zeros z : 0 <= z → blen (zeros z) = z.
Proof. intros. unfold zeros. rewrite blen_replicate. lia. Qed.

Lemma zeros_bytes z : bytes (zeros z).
Proof. by apply Forall_replicate. Qed.

Lemma zeros_S z : 0 < z → zeros z = 0 :: zeros (z - 1).
Proof. intros. unfold zeros. replace (Z.to_nat z) with (S (Z.to_nat (z - 1))) by lia. done. Qed.

Lemma zeros_add y z : 0 <= y → 0 <= z → zeros y ++ zeros z = zeros (y + z).
Proof. intros. unfold zeros. rewrite <-replicate_add. f_equal. lia. Qed.

(** ** Stores at the end of what has been written *)
Definition le16 (v : Z) : list Z := [u8 v; u8 (v / 256)].
Definition le32 (v : Z) : list Z := le16 v ++ le16 (v / 65536).

Lemma blen_le16 v : blen (le16 v) = 2.
Proof. done. Qed.
Lemma blen_le32 v : blen (le32 v) = 4.
Proof. done. Qed.

Lemma bytes_le16 v : bytes (le16 v).
Proof. repeat constructor; apply u8_bound. Qed.
Lemma bytes_le32 v : bytes (le32 v).
Proof. repeat constructor; apply u8_bound. Qed.

Lemma wr_out b i v : blen b <= i → wr b i v = Undef.
Proof.
  intros. unfold wr. pose proof (blen_nonneg b).
  replace (i <? blen b) with false by (symmetry; apply Z.ltb_ge; lia). by rewrite andb_false_r.
Qed.

Lemma blen_wr b i v b' : wr b i v = Ret b' → blen b' = blen b.
Proof. unfold wr. destruct (_ && _); [|done]. intros [= <-]. apply blen_insert. Qed.

Lemma wr_end A n v : 0 < n → wr (A ++ zeros n) (blen A) v = Ret ((A ++ [u8 v]) ++ zeros (n - 1)).
Proof. intros. rewrite zeros_S by done. rewrite wr_app by done. by rewrite <-app_assoc. Qed.

Lemma st16_end A n v : 2 <= n → st16 (A ++ zeros n) (blen A) v = Ret ((A ++ le16 v) ++ zeros (n - 2)).
Proof.
  intros. unfold st16. rewrite wr_end by lia. cbn [mbind outcome_bind].
  replace (blen A + 1) with (blen (A ++ [u8 v])) by (rewrite blen_app; done).
  rewrite wr_end by lia. rewrite <-(app_assoc A). by replace (n - 1 - 1) with (n - 2) by lia.
Qed.

Lemma st16_out b i v : blen b < i + 2 → st16 b i v = Undef.
Proof.
  intros. unfold st16. destruct (wr b i v) as [b'| |] eqn:E; [|done|].
  - apply blen_wr in E. cbn [mbind outcome_bind]. apply wr_out. lia.
  - unfold wr in E. by destruct (_ && _).
Qed.

Lemma blen_st16 b i v b' : st16 b i v = Ret b' → blen b' = blen b.
Proof. unfold st16. intros (b1 & E1 & E2)%bind_Ret. apply blen_wr in E1, E2. lia. Qed.

Lemma st32_end A n v : 4 <= n → st32 (A ++ zeros n) (blen A) v = Ret ((A ++ le32 v) ++ zeros (n - 4)).
Proof.
  intros. unfold st32. rewrite st16_end by lia. cbn [mbind outcome_bind].
  replace (blen A + 2) with (blen (A ++ le16 v)) by (rewrite blen_app; done).
  rewrite st16_end by lia. rewrite <-(app_assoc A). by replace (n - 2 - 2) with (n - 4) by lia.
Qed.

Lemma st16_not_Spin b i v : st16 b i v ≠ Spin.
Proof.
  unfold st16, wr. destruct (_ && _); [|done]. cbn [mbind outcome_bind]. by destruct (_ && _).
Qed.

Lemma st32_out b i v : blen b < i + 4 → st32 b i v = Undef.
Proof.
  intros. unfold st32. destruct (st16 b i v) as [b'| |] eqn:E; [|done|by apply st16_not_Spin in E].
  apply blen_st16 in E. cbn [mbind outcome_bind]. apply st16_out. lia.
Qed.

Lemma st16_app pre a b rest i v : i = blen pre → st16 (pre ++ a :: b :: rest) i v = Ret (pre ++ le16 v ++ rest).
Proof.
  intros ->. unfold st16. rewrite (wr_app pre a) by done. cbn [mbind outcome_bind].
  change (u8 v :: b :: rest) with ([u8 v] ++ b :: rest). rewrite app_assoc.
  rewrite wr_app by (rewrite blen_app; done). by rewrite <-app_assoc.
Qed.

(** ** Big-endian fields *)
Definition be16 (v : Z) : list Z := [u8 (v / 256); u8 v].
Definition be32 (v : Z) : list Z := be16 (v / 65536) ++ be16 v.

Lemma le16_htons v : le16 (htons v) = be16 v.
Proof.
  unfold le16, be16, htons, ntohs, u8. change (2 ^ 8) with 256.
  pose proof (Z.mod_pos_bound v 256). pose proof (Z.mod_pos_bound (v / 256) 256).
  set (p := v mod 256) in *. set (q := (v / 256) mod 256) in *.
  assert ((p * 256 + q) / 256 = p) as -> by (symmetry; apply (Z.div_unique _ 256 _ q); lia).
  assert ((p * 256 + q) mod 256 = q) as -> by (symmetry; apply (Z.mod_unique _ 256 p); lia).
  by rewrite (Z.mod_small p) by lia.
Qed.

Lemma le32_quad a b c e :
  0 <= a < 256 → 0 <= b < 256 → 0 <= c < 256 → 0 <= e < 256 →
  le32 (e + 256 * c + 65536 * b + 16777216 * a) = [e; c; b; a].
Proof.
  intros Ha Hb Hc He. unfold le32, le16, u8. cbn [app]. change (2 ^ 8) with 256.
  set (x := e + 256 * c + 65536 * b + 16777216 * a).
  assert (x / 256 = c + 256 * (b + 256 * a)) as -> by (symmetry; apply (Z.div_unique x 256 _ e); lia).
  assert (x / 65536 = b + 256 * a) as ->
    by (symmetry; apply (Z.div_unique x 65536 _ (e + 256 * c)); lia).
  assert ((b + 256 * a) / 256 = a) as -> by (symmetry; apply (Z.div_unique _ 256 _ b); lia).
  assert (Hm : ∀ y k, 0 <= y < 256 → (y + 256 * k) mod 256 = y)
    by (intros y k Hy; symmetry; apply (Z.mod_unique _ 256 k); lia).
  unfold x. replace (e + 256 * c + 65536 * b + 16777216 * a) with (e + 256 * (c + 256 * b + 65536 * a)) by lia.
  rewrite !Hm by lia. by rewrite (Z.mod_small a) by lia.
Qed.

Lemma le32_htonl v : le32 (htonl v) = be32 v.
Proof.
  unfold htonl, ntohl, be32, be16, u8. cbn [app]. change (2 ^ 8) with 256.
  rewrite Z.div_div by lia. change (65536 * 256) with (2 ^ 24). change (2 ^ 16) with 65536.
  pose proof (Z.mod_pos_bound v 256). pose proof (Z.mod_pos_bound (v / 256) 256).
  pose proof (Z.mod_pos_bound (v / 65536) 256). pose proof (Z.mod_pos_bound (v / 2 ^ 24) 256).
  rewrite <-le32_quad by lia. f_equal. change (2 ^ 24) with 16777216. lia.
Qed.

Lemma ntohs_be16 v : 0 <= v < 65536 → ntohs (u8 (v / 256) + 256 * u8 v) = v.
Proof.
  intros. unfold ntohs, u8. change (2 ^ 8) with 256. Z.to_euclidean_division_equations. lia.
Qed.

Create HintDb onop.
Create Rewrite HintDb onop_len.
#[export] Hint Resolve u8_bound u16_bound u32_bound ntohs_bound bytes_app bytes_insert at_bytes : onop.
#[export] Hint Rewrite blen_app blen_replicate blen_insert : onop_len.

Lemma ld16_not_Spin b i : ld16 b i ≠ Spin.
Proof.
  unfold ld16. intros [H|(x & _ & [H|(y & _ & H)]%bind_Spin)]%bind_Spin; [by destruct (rd_not_Spin _ _ H)..|done].
Qed.

Lemma ld32_not_Spin b i : ld32 b i ≠ Spin.
Proof.
  unfold ld32. intros [H|(x & _ & [H|(y & _ & H)]%bind_Spin)]%bind_Spin; [by destruct (ld16_not_Spin _ _ H)..|done].
Qed.
