(* ===== verification/Process.v ===== *)
(** * Programs of calls to the system

    Code that sets up sockets, queues and threads is a sequence of calls into the
    C library and the kernel, with decisions on their answers, that may end in
    [exit].  Such a function is a tree of calls; what the system may answer, and how its
    state changes, is a relation, so a statement about a function holds whatever fails. *)
From S2P Require Import Prelude.
#[local] Open Scope Z_scope.
#[local] Open Scope list_scope.

(** A program of calls [C] with integer or pointer answers. *)
Inductive process (C A : Type) : Type :=
| Done (a : A)
| Exit (status : Z)
| Call (c : C) (k : Z → process C A).
Arguments Done {C A} a.
Arguments Exit {C A} status.
Arguments Call {C A} c k.

#[export] Instance process_ret C : MRet (process C) := λ A, Done.
#[export] Instance process_bind C : MBind (process C) := λ A B f, fix bind p :=
  match p with
  | Done a => f a
  | Exit status => Exit status
  | Call c k => Call c (λ r, bind (k r))
  end.

(** One call, and a call whose answer is not looked at. *)
Definition call {C} (c : C) : process C Z := Call c Done.

(** The answers [step] allows a call in a state of the system. *)
Class System (C W : Type) := step : C → W → Z → W → Prop.

Section Wp.
Context {C W : Type} {system : System C W}.

(** Whatever the system answers, a run that returns satisfies [Q], one that exits [E]. *)
Fixpoint wp {A} (p : process C A) (Q : A → W → Prop) (E : Z → W → Prop) (w : W) : Prop :=
  match p with
  | Done a => Q a w
  | Exit status => E status w
  | Call c k => ∀ r w', step c w r w' → wp (k r) Q E w'
  end.

(** The runs themselves. *)
Inductive runs {A} : process C A → W → A + Z → W → Prop :=
| runs_done a w : runs (Done a) w (inl a) w
| runs_exit status w : runs (Exit status) w (inr status) w
| runs_call c k w r w1 o w2 : step c w r w1 → runs (k r) w1 o w2 → runs (Call c k) w o w2.

Lemma wp_runs {A} (p : process C A) Q E w o w' : wp p Q E w → runs p w o w' →
  match o with inl a => Q a w' | inr status => E status w' end.
Proof. intros H Hr. induction Hr as [| |c k w r w1 o w2 Hs _ IH]; [done..|]. apply IH. by apply H. Qed.

Lemma runs_wp {A} (p : process C A) Q E w :
  (∀ o w', runs p w o w' → match o with inl a => Q a w' | inr status => E status w' end) → wp p Q E w.
Proof.
  revert w. induction p as [a|status|c k IH]; intros w H; cbn.
  - apply (H (inl a) w). constructor.
  - apply (H (inr status) w). constructor.
  - intros r w1 Hs. apply IH. intros o w' Hr. apply H. by econstructor.
Qed.

Lemma wp_mono {A} (p : process C A) Q Q' E E' w : wp p Q E w →
  (∀ a w, Q a w → Q' a w) → (∀ s w, E s w → E' s w) → wp p Q' E' w.
Proof.
  intros H HQ HE. revert w H. induction p as [a|status|c k IH]; intros w H; cbn in *; [by apply HQ|by apply HE|].
  intros r w' Hs. apply IH. by apply H.
Qed.

Lemma wp_bind {A B} (p : process C A) (f : A → process C B) Q E w :
  wp (p ≫= f) Q E w ↔ wp p (λ a, wp (f a) Q E) E w.
Proof.
  revert w. induction p as [a|status|c k IH]; intros w; cbn; [done..|].
  split; intros H r w' Hs; apply IH; by apply H.
Qed.

(** As [wp], and every call on the way, answered or not, is made where [B] allows it: what holds of
    a program that is still running, or blocked for good in a call that is never answered. *)
Fixpoint wpc {A} (p : process C A) (Q : A → W → Prop) (E : Z → W → Prop) (B : C → W → Prop) (w : W) : Prop :=
  match p with
  | Done a => Q a w
  | Exit status => E status w
  | Call c k => B c w ∧ ∀ r w', step c w r w' → wpc (k r) Q E B w'
  end.

(** The programs still to run along the runs of one. *)
Inductive visits {A} : process C A → W → process C A → W → Prop :=
| visits_here p w : visits p w p w
| visits_call c k w r w1 p w2 : step c w r w1 → visits (k r) w1 p w2 → visits (Call c k) w p w2.

Lemma wpc_visits {A} (p : process C A) Q E B w p' w' : wpc p Q E B w → visits p w p' w' → wpc p' Q E B w'.
Proof. intros H Hv. induction Hv as [|c k w r w1 p w2 Hs _ IH]; [done|]. apply IH. by apply H. Qed.

Lemma wpc_mono {A} (p : process C A) (Q Q' : A → W → Prop) E B w :
  wpc p Q E B w → (∀ a w, Q a w → Q' a w) → wpc p Q' E B w.
Proof.
  intros H HQ. revert w H. induction p as [a|status|c k IH]; intros w H; cbn in *; [by apply HQ|done|].
  split; [apply H|]. intros r w' Hs. apply IH. by apply H.
Qed.

Lemma wpc_bind {A B} (p : process C A) (f : A → process C B) Q E K w :
  wpc (p ≫= f) Q E K w ↔ wpc p (λ a, wpc (f a) Q E K) E K w.
Proof.
  revert w. induction p as [a|status|c k IH]; intros w; cbn; [done..|].
  split; (intros [HK H]; split; [done|]; intros r w' Hs; apply IH; by apply H).
Qed.

(** A function that returns [a] when nothing fails. *)
Lemma runs_bind {A B} (p : process C A) (f : A → process C B) w a w1 o w2 :
  runs p w (inl a) w1 → runs (f a) w1 o w2 → runs (p ≫= f) w o w2.
Proof.
  remember (inl a) as oa eqn:Eo. intros H. revert Eo.
  induction H as [|status w|c k w r w1 oa w' Hs _ IH]; intros Eo; [|done|].
  - by injection Eo as ->.
  - intros Hf. cbn. econstructor; [exact Hs|]. by apply IH.
Qed.
End Wp.

(** Take a step of a program: after [intros] of the answer and what is documented of it. *)
Ltac wp_step := cbn [wp mbind process_bind mret process_ret].

(** Running a program against a system that computes its answers. *)
Section Exec.
Context {C W : Type} (answer : C → W → Z * W).

Definition computed : System C W := λ c w r w', answer c w = (r, w').

Fixpoint exec {A} (p : process C A) (w : W) : (A + Z) * W :=
  match p with
  | Done a => (inl a, w)
  | Exit status => (inr status, w)
  | Call c k => let '(r, w) := answer c w in exec (k r) w
  end.

Lemma exec_wp {A} (p : process C A) Q E w :
  wp (system := computed) p Q E w → match exec p w with (inl a, w') => Q a w' | (inr s, w') => E s w' end.
Proof.
  revert w. induction p as [a|status|c k IH]; intros w; cbn; [done..|]. intros H.
  destruct (answer c w) as [r w'] eqn:Ea. apply IH. by apply H.
Qed.
End Exec.

(** Running a program against a system that may leave a call unanswered, up to that call. *)
Section Exec_to.
Context {C W : Type} (answer : C → W → option (Z * W)).

Definition answered : System C W := λ c w r w', answer c w = Some (r, w').

Fixpoint exec_to {A} (p : process C A) (w : W) : process C A * W :=
  match p with
  | Call c k => match answer c w with Some (r, w') => exec_to (k r) w' | None => (p, w) end
  | _ => (p, w)
  end.

Lemma exec_to_visits {A} (p : process C A) w : visits (system := answered) p w (exec_to p w).1 (exec_to p w).2.
Proof.
  revert w. induction p as [a|status|c k IH]; intros w; [constructor..|]. cbn [exec_to].
  destruct (answer c w) as [[r w']|] eqn:E; [|constructor]. eapply (visits_call (system := answered)); [exact E|]. apply IH.
Qed.
End Exec_to.
