(* ===== verification/Sockets.v ===== *)
(** * Creating sockets (opennopd/sockets.c, subsystems/healthagent.c, subsystems/climanager.c)

    The functions that create, bind and connect sockets, and the set-up and tear-down
    of an epoll instance, as programs of system calls. *)
From S2P Require Import Prelude Process.
From stdpp Require Import strings.
#[local] Open Scope Z_scope.
#[local] Open Scope list_scope.

(** ** The system *)
Inductive family := AF_INET | AF_UNIX | AF_NETLINK.
Inductive sock_type := SOCK_STREAM | SOCK_DGRAM | SOCK_RAW.
(** [sin_addr] and [sin_port] as they are stored, [sun_path], [nl_groups]. *)
Inductive sockaddr := Inet (s_addr port : Z) | Unix (sun_path : string) | Netlink (groups : Z).

#[export] Instance family_eq_dec : EqDecision family.
Proof. solve_decision. Defined.
#[export] Instance sock_type_eq_dec : EqDecision sock_type.
Proof. solve_decision. Defined.
#[export] Instance sockaddr_eq_dec : EqDecision sockaddr.
Proof. solve_decision. Defined.

Inductive syscall :=
| Socket (f : family) (t : sock_type) (protocol : Z)
| Connect (fd : Z) (a : sockaddr)
| Setsockopt (fd : Z)                   (* SO_REUSEADDR *)
| Bind (fd : Z) (a : sockaddr)
| Listen (fd : Z)
| Accept (fd : Z)
| Getfl (fd : Z)
| Setfl (fd flags : Z)
| Close (fd : Z)
| Unlink (path : string)
| Calloc (n : Z)
| Free (p : Z)
| Epoll_create1
| Epoll_add (epfd fd events : Z).

Definition INADDR_ANY : Z := 0.
Definition O_NONBLOCK : Z := 2048.
Definition EPOLLIN : Z := 1.
Definition EPOLLET : Z := 2 ^ 31.
Definition MAXEVENTS : Z := 64.

(** What is known of an open descriptor. *)
Record descr := Descr {
  d_family : family; d_type : sock_type; d_peer : option sockaddr; d_local : option sockaddr;
  d_listens : bool; d_flags : Z
}.
Inductive file := Sock (d : descr) | Poll (interest : gmap Z Z).

(** The open descriptors, the socket files that exist, the memory that is allocated. *)
Record world := World { files : gmap Z file; sockets_at : gset string; allocated : gset Z }.

Definition set_files (w : world) (f : gmap Z file) : world := World f (sockets_at w) (allocated w).

Definition set_peer (a : sockaddr) (d : descr) : descr := Descr (d_family d) (d_type d) (Some a) (d_local d) (d_listens d) (d_flags d).
Definition set_local (a : sockaddr) (d : descr) : descr := Descr (d_family d) (d_type d) (d_peer d) (Some a) (d_listens d) (d_flags d).
Definition set_listens (d : descr) : descr := Descr (d_family d) (d_type d) (d_peer d) (d_local d) true (d_flags d).
Definition set_flags (flags : Z) (d : descr) : descr := Descr (d_family d) (d_type d) (d_peer d) (d_local d) (d_listens d) flags.

Definition on_socket (f : descr → descr) (x : file) : file := match x with Sock d => Sock (f d) | x => x end.

(** A call on a descriptor fails and changes nothing, or it does what it says. *)
Definition on_descr (fd : Z) (f : descr → descr) (w : world) (r : Z) (w' : world) : Prop :=
  (r = -1 ∧ w' = w) ∨ (r = 0 ∧ ∃ d, files w !! fd = Some (Sock d) ∧ w' = set_files w (<[fd := Sock (f d)]> (files w))).

Definition new_file (x : file) (w : world) (r : Z) (w' : world) : Prop :=
  (r = -1 ∧ w' = w) ∨ (0 <= r ∧ files w !! r = None ∧ w' = set_files w (<[r := x]> (files w))).

(** What the manual pages say of each call. *)
Definition documented (c : syscall) (w : world) (r : Z) (w' : world) : Prop :=
  match c with
  | Socket f t _ => ∃ flags, 0 <= flags ∧ new_file (Sock (Descr f t None None false flags)) w r w'
  | Connect fd a => on_descr fd (set_peer a) w r w' ∧ match a with Unix path => path ∉ sockets_at w → r = -1 | _ => True end
  | Setsockopt fd => on_descr fd id w r w'
  | Bind fd a =>
      (r = -1 ∧ w' = w) ∨
      (r = 0 ∧ ∃ d, files w !! fd = Some (Sock d)
       ∧ w' = World (<[fd := Sock (set_local a d)]> (files w))
                (match a with Unix path => {[path]} ∪ sockets_at w | _ => sockets_at w end) (allocated w))
  | Listen fd => on_descr fd set_listens w r w'
  | Accept fd => ∃ d, 0 <= d_flags d ∧ new_file (Sock d) w r w'
  | Getfl fd => w' = w ∧ (r = -1 ∨ 0 <= r ∧ ∃ d, files w !! fd = Some (Sock d) ∧ d_flags d = r)
  | Setfl fd flags => on_descr fd (set_flags flags) w r w'
  | Close fd => (r = 0 ∨ r = -1) ∧ w' = set_files w (delete fd (files w))
  | Unlink path => w' = World (files w) (sockets_at w ∖ {[path]}) (allocated w)
  | Calloc n => (r = 0 ∧ w' = w) ∨ (r ≠ 0 ∧ r ∉ allocated w ∧ w' = World (files w) (sockets_at w) ({[r]} ∪ allocated w))
  | Free p => w' = World (files w) (sockets_at w) (allocated w ∖ {[p]})
  | Epoll_create1 => new_file (Poll ∅) w r w'
  | Epoll_add epfd fd events =>
      (r = -1 ∧ w' = w) ∨
      (r = 0 ∧ ∃ m, files w !! epfd = Some (Poll m) ∧ is_Some (files w !! fd)
       ∧ w' = set_files w (<[epfd := Poll (<[fd := events]> m)]> (files w)))
  end.

(** Any system that keeps to the manual. *)
Class Documented (s : System syscall world) := is_documented c w r w' : step (System := s) c w r w' → documented c w r w'.

(** ** Clients *)
Definition new_udp_client (serverip port : Z) : process syscall Z :=
  client_socket ← call (Socket AF_INET SOCK_DGRAM 0);
  if client_socket <? 0 then Exit 1 else
  error ← call (Connect client_socket (Inet serverip (htons (u16 port))));
  if error <? 0 then _ ← call (Close client_socket); mret (-1) else mret client_socket.

Definition new_ip_client (serverip port : Z) : process syscall Z :=
  client_socket ← call (Socket AF_INET SOCK_STREAM 0);
  if client_socket <? 0 then Exit 1 else
  error ← call (Connect client_socket (Inet serverip (htons (u16 port))));
  if error <? 0 then _ ← call (Close client_socket); mret (-1) else mret client_socket.

(** [sizeof sun_path] is 108. *)
Definition sun_path (path : string) : string := String.substring 0 107 path.

Definition new_unix_client (path : string) : process syscall Z :=
  client_socket ← call (Socket AF_UNIX SOCK_STREAM 0);
  if client_socket <? 0 then Exit 1 else
  _ ← call (Unlink (sun_path path));
  error ← call (Connect client_socket (Unix (sun_path path)));
  if error <? 0 then Exit 1 else mret client_socket.

(** ** Servers *)
Definition new_ip_server (port : Z) : process syscall Z :=
  server_socket ← call (Socket AF_INET SOCK_STREAM 0);
  if server_socket <? 0 then Exit 1 else
  error ← call (Setsockopt server_socket);
  if error <? 0 then Exit 1 else
  error ← call (Bind server_socket (Inet (htonl INADDR_ANY) (htons (u16 port))));
  if error <? 0 then Exit 1 else
  error ← call (Listen server_socket);
  if error =? -1 then Exit 1 else mret server_socket.

Definition new_unix_server (path : string) : process syscall Z :=
  server_socket ← call (Socket AF_UNIX SOCK_STREAM 0);
  if server_socket <? 0 then Exit 1 else
  _ ← call (Unlink (sun_path path));
  error ← call (Bind server_socket (Unix (sun_path path)));
  if error <? 0 then Exit 1 else
  error ← call (Listen server_socket);
  if error =? -1 then Exit 1 else mret server_socket.

Definition accept_ip_client (server_socket : Z) : process syscall Z :=
  newclient_socket ← call (Accept server_socket);
  if newclient_socket =? -1 then mret (-1) else mret newclient_socket.

Definition accept_unix_client (server_socket : Z) : process syscall Z :=
  newclient_socket ← call (Accept server_socket);
  if newclient_socket =? -1 then mret (-1) else mret newclient_socket.

(** [create_nl_socket] (healthagent.c). *)
Definition create_nl_socket (protocol groups : Z) : process syscall Z :=
  fd ← call (Socket AF_NETLINK SOCK_RAW protocol);
  if fd <? 0 then mret (-1) else
  error ← call (Bind fd (Netlink groups));
  if error <? 0 then _ ← call (Close fd); mret (-1) else mret fd.

(** [start_cli_server] (climanager.c) up to its loop: a failed [socket] is not noticed. *)
Definition OPENNOP_SOCK : string := "/tmp/opennop.sock".

Definition cli_listener : process syscall Z :=
  socket_desc ← call (Socket AF_UNIX SOCK_STREAM 0);
  _ ← call (Unlink OPENNOP_SOCK);
  error ← call (Bind socket_desc (Unix OPENNOP_SOCK));
  if error <? 0 then Exit 1 else
  error ← call (Listen socket_desc);
  if error =? -1 then Exit 1 else mret socket_desc.

(** The connection of the client program, [main] of opennop/opennop.c up to its thread. *)
Definition client_connection : process syscall Z :=
  client_fd ← call (Socket AF_UNIX SOCK_STREAM 0);
  if client_fd =? -1 then Exit 1 else
  error ← call (Connect client_fd (Unix OPENNOP_SOCK));
  if error =? -1 then Exit 1 else mret client_fd.

(** ** Epoll instances *)
Definition make_socket_non_blocking (socket : Z) : process syscall Z :=
  flags ← call (Getfl socket);
  if flags =? -1 then mret (-1) else
  s ← call (Setfl socket (Z.lor flags O_NONBLOCK));
  if s =? -1 then mret (-1) else mret 0.

Definition register_socket (listener_socket epoll_fd : Z) : process syscall Z :=
  if listener_socket <? 0 then Exit 1 else
  error ← make_socket_non_blocking listener_socket;
  if error =? -1 then Exit 1 else
  error ← call (Epoll_add epoll_fd listener_socket (Z.lor EPOLLIN EPOLLET));
  if error =? -1 then Exit 1 else mret error.

(** [struct epoller]; [F] is the type of the callbacks. *)
Record epoller (F : Type) := Epoller {
  socket : Z; epoll_fd : Z; events : Z;
  secure : option F; callback : option F; timeoutfunction : option F; timeout : Z
}.
Arguments Epoller {F}.
Arguments socket {F}.
Arguments epoll_fd {F}.
Arguments events {F}.
Arguments secure {F}.
Arguments callback {F}.
Arguments timeoutfunction {F}.
Arguments timeout {F}.

(** The zero-initialised structure. *)
Definition no_epoller {F} : epoller F := Epoller 0 0 0 None None None 0.

Definition new_ip_epoll_server {F} (server : epoller F) (secure callback : option F) (port : Z)
    (timeoutfunction : option F) (timeout : Z) : process syscall (epoller F * Z) :=
  events ← call (Calloc MAXEVENTS);
  if events =? 0 then Exit 1 else
  epoll_fd ← call Epoll_create1;
  if epoll_fd =? -1 then Exit 1 else
  socket ← (if negb (port =? 0) then new_ip_server port else mret (socket server));
  _ ← (if negb (socket =? 0) then register_socket socket epoll_fd else mret 0);
  mret (Epoller socket epoll_fd events secure callback timeoutfunction timeout, 0).

Definition shutdown_epoll_server {F} (server : epoller F) : process syscall Z :=
  _ ← call (Free (events server));
  _ ← call (Close (socket server));
  mret 0.

Definition OPENNOPD_IPC_PORT : Z := 5000.
Definition OPENNOP_IPC_HELLO : Z := 10000.
Definition HERE_I_AM_T : Z := 10000.

(** The two threads that are epoll servers; [run] is [epoll_handler], the callbacks are functions of [F]. *)
Section Threads.
Context {F : Type} (run : epoller F → process syscall Z).
Context (ipc_check_neighbor ipc_handler hello_neighbors wccp_handler wccp_epoller_timeout : F).

Definition ipc_thread : process syscall Z :=
  '(ipc_server, _) ← new_ip_epoll_server no_epoller (Some ipc_check_neighbor) (Some ipc_handler) OPENNOPD_IPC_PORT
                       (Some hello_neighbors) OPENNOP_IPC_HELLO;
  _ ← run ipc_server;
  _ ← shutdown_epoll_server ipc_server;
  mret 0.

Definition wccp_thread : process syscall Z :=
  '(wccp_epoller, _) ← new_ip_epoll_server no_epoller None (Some wccp_handler) 0 (Some wccp_epoller_timeout) (HERE_I_AM_T - 1000);
  _ ← run wccp_epoller;
  _ ← shutdown_epoll_server wccp_epoller;
  mret 0.
End Threads.

(** ** What they leave open *)

(** A descriptor more, of which [P] holds, or none and a negative result. *)
Definition one_more (P : descr → Prop) (w : world) (r : Z) (w' : world) : Prop :=
  allocated w' = allocated w
  ∧ ((r < 0 ∧ files w' = files w)
     ∨ (0 <= r ∧ files w !! r = None ∧ ∃ d, P d ∧ files w' = <[r := Sock d]> (files w))).

Definition client_of (f : family) (t : sock_type) (a : sockaddr) (d : descr) : Prop :=
  d_family d = f ∧ d_type d = t ∧ d_peer d = Some a ∧ d_listens d = false.
Definition bound_to (f : family) (t : sock_type) (a : sockaddr) (listens : bool) (d : descr) : Prop :=
  d_family d = f ∧ d_type d = t ∧ d_local d = Some a ∧ d_listens d = listens.

(** Follow a program through the documented answers of its next call. *)
Ltac answers :=
  let H := fresh "Hanswer" in
  cbn [wp mbind process_bind mret process_ret call]; intros ? ? H%is_documented; cbn [documented] in H; unfold new_file, on_descr in H;
  repeat match goal with
  | H : ∃ _, _ |- _ => destruct H
  | H : _ ∧ _ |- _ => destruct H
  | H : _ ∨ _ |- _ => destruct H
  end; subst; cbn [wp mbind process_bind mret process_ret call].

(** Decide the test of an answer. *)
Ltac test := repeat first
  [ progress bool_lia
  | progress rewrite ?lookup_insert_eq, ?insert_insert_eq in *
  | match goal with H : Some _ = Some _ |- _ => injection H as H; subst end
  | match goal with H : Sock _ = Sock _ |- _ => injection H as H; subst end
  | progress cbn [files set_files sockets_at allocated wp mbind process_bind mret process_ret call] in * ].

Section Documented.
Context `{!System syscall world} `{!Documented _}.

(** The two ends of a function that opened one descriptor. *)
Lemma opened P w r d w' : 0 <= r → files w !! r = None → files w' = <[r := Sock d]> (files w) →
  allocated w' = allocated w → P d → one_more P w r w'.
Proof. intros. split; [done|]. right. split_and!; [done..|]. by exists d. Qed.

Lemma closed P w r x : files w !! r = None →
  one_more P w (-1) (set_files (set_files w (<[r := x]> (files w))) (delete r (<[r := x]> (files w)))).
Proof. intros. split; [done|]. left. split; [done|]. by apply delete_insert_id. Qed.

Lemma none_more P w : one_more P w (-1) w.
Proof. split; [done|]. by left. Qed.

Lemma udp_client_ok serverip port w :
  wp (new_udp_client serverip port)
    (one_more (client_of AF_INET SOCK_DGRAM (Inet serverip (htons (u16 port)))) w) (λ status _, status = 1) w.
Proof.
  unfold new_udp_client. answers; test; [done|]. answers; test; [answers; test; by apply closed|].
  by eapply opened.
Qed.

Lemma ip_client_ok serverip port w :
  wp (new_ip_client serverip port)
    (one_more (client_of AF_INET SOCK_STREAM (Inet serverip (htons (u16 port)))) w) (λ status _, status = 1) w.
Proof.
  unfold new_ip_client. answers; test; [done|]. answers; test; [answers; test; by apply closed|].
  by eapply opened.
Qed.

Lemma client_connection_ok w :
  wp client_connection (one_more (client_of AF_UNIX SOCK_STREAM (Unix OPENNOP_SOCK)) w) (λ status _, status = 1) w.
Proof.
  unfold client_connection. answers; test; [done|]. answers; test; try done; by eapply opened.
Qed.

Lemma ip_server_ok port w :
  wp (new_ip_server port)
    (one_more (bound_to AF_INET SOCK_STREAM (Inet (htonl INADDR_ANY) (htons (u16 port))) true) w) (λ status _, status = 1) w.
Proof.
  unfold new_ip_server. answers; test; [done|]. answers; test; [done|]. answers; test; [done|]. answers; test; [done|].
  by eapply opened.
Qed.

Lemma unix_server_ok path w :
  wp (new_unix_server path)
    (one_more (bound_to AF_UNIX SOCK_STREAM (Unix (sun_path path)) true) w) (λ status _, status = 1) w.
Proof.
  unfold new_unix_server. answers; test; [done|]. answers. answers; test; [done|]. answers; test; [done|].
  by eapply opened.
Qed.

Lemma nl_socket_ok protocol groups w :
  wp (create_nl_socket protocol groups)
    (one_more (bound_to AF_NETLINK SOCK_RAW (Netlink groups) false) w) (λ status _, False) w.
Proof.
  unfold create_nl_socket. answers; test; [apply none_more|]. answers; test; [answers; test; by apply closed|].
  by eapply opened.
Qed.

Lemma cli_listener_ok w : files w !! (-1) = None →
  wp cli_listener (one_more (bound_to AF_UNIX SOCK_STREAM (Unix OPENNOP_SOCK) true) w) (λ status _, status = 1) w.
Proof.
  intros Hw. unfold cli_listener. answers; answers; answers; test; try done; try congruence; answers; test; try done.
  by eapply opened.
Qed.

Lemma accept_ok ip server_socket w :
  wp (if ip : bool then accept_ip_client server_socket else accept_unix_client server_socket)
    (one_more (λ _, True) w) (λ _ _, False) w.
Proof.
  destruct ip; unfold accept_ip_client, accept_unix_client; answers; test; first [apply none_more|by eapply opened].
Qed.

Lemma non_blocking_ok fd w :
  wp (make_socket_non_blocking fd)
    (λ r w', (r = -1 ∧ w' = w) ∨ (r = 0 ∧ ∃ d, files w !! fd = Some (Sock d)
       ∧ w' = set_files w (<[fd := Sock (set_flags (Z.lor (d_flags d) O_NONBLOCK) d)]> (files w)))) (λ _ _, False) w.
Proof.
  unfold make_socket_non_blocking. answers; test; [by left|]. answers; test; [by left|].
  right. split; [done|]. eexists. split; [done|].
  match goal with H : files w !! fd = _, H' : files w !! fd = _ |- _ => rewrite H in H'; by injection H' as -> end.
Qed.
(** ** The epoll instance *)
Definition watch : Z := Z.lor EPOLLIN EPOLLET.

Lemma register_ok fd epfd w :
  wp (register_socket fd epfd)
    (λ r w', r = 0 ∧ 0 <= fd ∧ ∃ d m, files w !! fd = Some (Sock d) ∧ files w !! epfd = Some (Poll m)
       ∧ w' = set_files w (<[epfd := Poll (<[fd := watch]> m)]> (<[fd := Sock (set_flags (Z.lor (d_flags d) O_NONBLOCK) d)]> (files w))))
    (λ status _, status = 1) w.
Proof.
  unfold register_socket. destruct (Z.ltb_spec fd 0) as [|Hfd]; [done|]. apply wp_bind.
  eapply wp_mono; [apply non_blocking_ok| |done]. intros r w1 [[-> ->]|(-> & d & Hd & ->)]; test; [done|].
  answers; test; [done|]. split_and!; [done..|].
  match goal with H : <[fd := _]> _ !! epfd = Some (Poll _) |- _ =>
    assert (fd ≠ epfd) by (intros ->; by rewrite lookup_insert_eq in H); rewrite lookup_insert_ne in H by done end.
  by do 2 eexists.
Qed.

Lemma nonblock_set x : Z.land (Z.lor x O_NONBLOCK) O_NONBLOCK = O_NONBLOCK.
Proof.
  apply Z.bits_inj'. intros n Hn. rewrite Z.land_spec, Z.lor_spec. by destruct (Z.testbit x n), (Z.testbit O_NONBLOCK n).
Qed.

(** What [new_ip_epoll_server] sets up: the instance and, for a port, its listener. *)
Definition epoll_ready {F} (s c : option F) (port : Z) (tf : option F) (timeout_ : Z) (w : world)
    (e : epoller F) (w' : world) : Prop :=
  secure e = s ∧ callback e = c ∧ timeoutfunction e = tf ∧ timeout e = timeout_
  ∧ events e ≠ 0 ∧ events e ∈ allocated w' ∧ events e ∉ allocated w
  ∧ files w !! epoll_fd e = None
  ∧ files w' !! epoll_fd e = Some (Poll (if socket e =? 0 then ∅ else {[socket e := watch]}))
  ∧ (∀ fd, fd ≠ epoll_fd e → fd ≠ socket e → files w' !! fd = files w !! fd)
  ∧ if port =? 0 then socket e = 0 ∧ files w' !! 0 = files w !! 0
    else 0 <= socket e ∧ socket e ≠ epoll_fd e ∧ files w !! socket e = None
      ∧ ∃ d, files w' !! socket e = Some (Sock d)
         ∧ bound_to AF_INET SOCK_STREAM (Inet (htonl INADDR_ANY) (htons (u16 port))) true d
         ∧ (socket e = 0 ∨ Z.land (d_flags d) O_NONBLOCK = O_NONBLOCK).

Lemma epoll_server_ok {F} (s c : option F) port tf timeout_ w : (port = 0 → is_Some (files w !! 0)) →
  wp (new_ip_epoll_server no_epoller s c port tf timeout_)
    (λ '(e, r) w', r = 0 ∧ epoll_ready s c port tf timeout_ w e w') (λ status _, status = 1) w.
Proof.
  intros Hzero. unfold new_ip_epoll_server. answers; test; [done|].
  answers; test; [done|]. rename r0 into epfd, r into ev. cbn [socket no_epoller].
  destruct (Z.eqb_spec port 0) as [->|Hport]; cbn [negb].
  - test. split; [done|]. unfold epoll_ready. cbn -[Z.eqb]. test. split_and!; try done.
    + by apply elem_of_union_l, elem_of_singleton_2.
    + by intros fd Hfd _; rewrite lookup_insert_ne.
    + destruct (Hzero eq_refl) as [x Hx]. rewrite lookup_insert_ne; [done|]. congruence.
  - apply wp_bind. eapply wp_mono; [apply ip_server_ok| |done]. intros sk w2 (Ha & [[Hsk Hw2]|(Hsk & Hnew & d & Hd & Hw2)]).
    + replace (sk =? 0) with false by (symmetry; apply Z.eqb_neq; lia). cbn [negb]. apply wp_bind.
      eapply wp_mono; [apply register_ok| |done]. intros r w3 (_ & Hneg & _). lia.
    + cbn [files set_files allocated] in *.
      assert (Hne : sk ≠ epfd) by (intros ->; by rewrite lookup_insert_eq in Hnew).
      rewrite lookup_insert_ne in Hnew by done. destruct (Z.eqb_spec sk 0) as [Hz|Hz]; cbn [negb].
      * test. split; [done|]. unfold epoll_ready. cbn -[Z.eqb]. rewrite Ha, Hw2.
        replace (sk =? 0) with true by (by rewrite Hz). replace (port =? 0) with false by (symmetry; by apply Z.eqb_neq).
        split_and!; try done.
        -- by apply elem_of_union_l, elem_of_singleton_2.
        -- by rewrite lookup_insert_ne, lookup_insert_eq.
        -- by intros fd ??; rewrite !lookup_insert_ne.
        -- exists d. split_and!; [by rewrite lookup_insert_eq|done|by left].
      * apply wp_bind. eapply wp_mono; [apply register_ok| |done].
        intros r w3 (-> & _ & d2 & m & Hd2 & Hm & ->). test. split; [done|]. unfold epoll_ready. cbn -[Z.eqb]. rewrite Ha.
        rewrite Hw2 in Hd2, Hm |- *. rewrite lookup_insert_eq in Hd2. injection Hd2 as <-.
        rewrite lookup_insert_ne, lookup_insert_eq in Hm by done. injection Hm as <-.
        replace (sk =? 0) with false by (symmetry; by apply Z.eqb_neq). replace (port =? 0) with false by (symmetry; by apply Z.eqb_neq).
        split_and!; try done.
        -- by apply elem_of_union_l, elem_of_singleton_2.
        -- by rewrite lookup_insert_eq.
        -- by intros fd ??; rewrite !lookup_insert_ne.
        -- eexists. split_and!; [by rewrite lookup_insert_ne, lookup_insert_eq|done|right; apply nonblock_set].
Qed.

(** The listener and the memory are given back, the instance is not. *)
Lemma shutdown_ok {F} (e : epoller F) w :
  wp (shutdown_epoll_server e)
    (λ r w', r = 0 ∧ files w' = delete (socket e) (files w) ∧ allocated w' = allocated w ∖ {[events e]}) (λ _ _, False) w.
Proof. unfold shutdown_epoll_server. answers. answers; done. Qed.

(** The epoll instance of a thread stays open when its loop ends; the WCCP thread, which has no listener, closes the
    descriptor 0, whoever uses it by then. *)
Lemma server_threads_end {F} run (c h f g k : F) w : is_Some (files w !! 0) →
  (∀ e w, wp (run e) (λ _ w', w' = w) (λ status _, status = 1) w) →
  let leaks (w' : world) := ∃ epfd m, files w !! epfd = None ∧ files w' !! epfd = Some (Poll m) in
  wp (ipc_thread run c h f) (λ r w', r = 0 ∧ leaks w') (λ status _, status = 1) w
  ∧ wp (wccp_thread run g k) (λ r w', r = 0 ∧ leaks w' ∧ files w' !! 0 = None) (λ status _, status = 1) w.
Proof.
  intros Hzero Hrun. unfold ipc_thread, wccp_thread.
  split; apply wp_bind; (eapply wp_mono; [by apply epoll_server_ok| |done]); intros [e r] w1 [_ (_ & _ & _ & _ & _ & _ & _ & Hep & Hfe & _ & Hp)];
    apply wp_bind; (eapply wp_mono; [apply Hrun| |done]); intros _ w2 ->; apply wp_bind;
    (eapply wp_mono; [apply shutdown_ok| |done]); intros _ w3 (_ & Hf & _); (split; [done|]); cbn in Hp.
  - destruct Hp as (_ & Hne & _). exists (epoll_fd e). eexists. split; [done|]. rewrite Hf, lookup_delete_ne by done. exact Hfe.
  - destruct Hp as [Hs _]. rewrite Hs in Hf. split; [|by rewrite Hf, lookup_delete_eq].
    exists (epoll_fd e). eexists. split; [done|]. rewrite Hf, lookup_delete_ne; [exact Hfe|].
    intros E. rewrite <-E in Hep. destruct Hzero as [x Hx]. congruence.
Qed.

Lemma unix_client_exits path w : wp (new_unix_client path) (λ _ _, False) (λ status _, status = 1) w.
Proof.
  unfold new_unix_client. answers; test; [done|]. answers; answers; test; try done.
  exfalso. match goal with H : _ → 0 = -1 |- _ => by assert (0 = -1) by (apply H; set_solver) end.
Qed.
End Documented.

(** C27: Whatever fails, no function that creates a socket leaks a descriptor: it exits with status 1,
    or returns a negative number and leaves what was open as it was, or returns a new
    descriptor of the kind it was asked for (connected, bound and listening as it should be) and
    opens nothing else. *)
Theorem socket_functions_balanced (s : System syscall world) w : Documented s → files w !! (-1) = None →
  let exits := λ (status : Z) (_ : world), status = 1 in
  (∀ ip port, wp (new_udp_client ip port) (one_more (client_of AF_INET SOCK_DGRAM (Inet ip (htons (u16 port)))) w) exits w)
  ∧ (∀ ip port, wp (new_ip_client ip port) (one_more (client_of AF_INET SOCK_STREAM (Inet ip (htons (u16 port)))) w) exits w)
  ∧ (∀ port, wp (new_ip_server port)
       (one_more (bound_to AF_INET SOCK_STREAM (Inet (htonl INADDR_ANY) (htons (u16 port))) true) w) exits w)
  ∧ (∀ path, wp (new_unix_server path) (one_more (bound_to AF_UNIX SOCK_STREAM (Unix (sun_path path)) true) w) exits w)
  ∧ wp cli_listener (one_more (bound_to AF_UNIX SOCK_STREAM (Unix OPENNOP_SOCK) true) w) exits w
  ∧ wp client_connection (one_more (client_of AF_UNIX SOCK_STREAM (Unix OPENNOP_SOCK)) w) exits w
  ∧ (∀ protocol groups, wp (create_nl_socket protocol groups)
       (one_more (bound_to AF_NETLINK SOCK_RAW (Netlink groups) false) w) exits w)
  ∧ (∀ fd, wp (accept_ip_client fd) (one_more (λ _, True) w) exits w ∧ wp (accept_unix_client fd) (one_more (λ _, True) w) exits w).
Proof.
  intros Hs Hw exits. split_and!; intros.
  - apply udp_client_ok.
  - apply ip_client_ok.
  - apply ip_server_ok.
  - apply unix_server_ok.
  - by apply cli_listener_ok.
  - apply client_connection_ok.
  - by eapply wp_mono; [apply nl_socket_ok|done|].
  - split; [eapply wp_mono; [apply (accept_ok true)|..]|eapply wp_mono; [apply (accept_ok false)|..]]; done.
Qed.

(** [new_ip_epoll_server] returns 0 with the fields set, a fresh array and a fresh epoll
    instance that watches exactly the listener, which is bound to the port on every address,
    listens and does not block (a listener that got descriptor 0 is taken for none and not
    watched), or exits; nothing else changes.  [shutdown_epoll_server] closes the listener and
    frees the array, and leaves the epoll instance open. *)
Theorem epoll_server_setup (s : System syscall world) {F} (check cb : option F) port tf ms w :
  Documented s → (port = 0 → is_Some (files w !! 0)) →
  wp (new_ip_epoll_server no_epoller check cb port tf ms)
    (λ '(e, r) w', r = 0 ∧ epoll_ready check cb port tf ms w e w'
       ∧ wp (shutdown_epoll_server e)
           (λ r w'', r = 0 ∧ allocated w'' = allocated w' ∖ {[events e]} ∧ files w'' !! socket e = None
              ∧ (socket e ≠ epoll_fd e → ∃ m, files w'' !! epoll_fd e = Some (Poll m))) (λ _ _, False) w')
    (λ status _, status = 1) w.
Proof.
  intros Hs Hzero. eapply wp_mono; [by apply epoll_server_ok| |done]. intros [e r] w' [-> Hready]. split_and!; [done..|].
  eapply wp_mono; [apply shutdown_ok| |done]. intros r w2 (-> & Hf & Ha). split_and!; [done..| |].
  - by rewrite Hf, lookup_delete_eq.
  - intros Hne. rewrite Hf, lookup_delete_ne by done. destruct Hready as (_ & _ & _ & _ & _ & _ & _ & _ & -> & _). eauto.
Qed.

(** [new_unix_client] never returns: it removes the socket file it is about to connect to. *)
Theorem new_unix_client_never_connects (s : System syscall world) path w : Documented s →
  wp (new_unix_client path) (λ _ _, False) (λ status _, status = 1) w.
Proof. intros Hs. apply unix_client_exits. Qed.

(** ** A system *)

(** Descriptors are numbered upwards from 3, nothing fails that need not. *)
Definition above (ks : list Z) : Z := foldr (λ k m, Z.max (k + 1) m) 3 ks.

Lemma above_cons k ks : above (k :: ks) = Z.max (k + 1) (above ks).
Proof. done. Qed.

Lemma above_spec ks k : k ∈ ks → k < above ks.
Proof.
  induction ks as [|k' ks IH]; [by intros ?%not_elem_of_nil|]. rewrite above_cons.
  intros [->|H]%elem_of_cons; [|specialize (IH H)]; lia.
Qed.

Lemma above_3 ks : 3 <= above ks.
Proof. induction ks as [|k ks IH]; [done|]. rewrite above_cons. lia. Qed.

Definition next_fd (w : world) : Z := above (map_to_list (files w)).*1.

Lemma next_fd_fresh w : files w !! next_fd w = None.
Proof.
  destruct (files w !! next_fd w) as [x|] eqn:E; [|done]. exfalso.
  assert (next_fd w ∈ (map_to_list (files w)).*1) as H by (apply list_elem_of_fmap; exists (next_fd w, x); split; [done|by apply elem_of_map_to_list]).
  apply above_spec in H. unfold next_fd in *. lia.
Qed.

Definition open_file (x : file) (w : world) : Z * world := (next_fd w, set_files w (<[next_fd w := x]> (files w))).

Definition update_descr (fd : Z) (f : descr → descr) (w : world) : Z * world :=
  match files w !! fd with
  | Some (Sock d) => (0, set_files w (<[fd := Sock (f d)]> (files w)))
  | _ => (-1, w)
  end.

Definition table_answer (c : syscall) (w : world) : Z * world :=
  match c with
  | Socket f t _ => open_file (Sock (Descr f t None None false 2)) w
  | Connect fd (Unix path) => if decide (path ∈ sockets_at w) then update_descr fd (set_peer (Unix path)) w else (-1, w)
  | Connect fd a => update_descr fd (set_peer a) w
  | Setsockopt fd => update_descr fd id w
  | Bind fd a =>
      let '(r, w') := update_descr fd (set_local a) w in
      (r, if r =? 0 then World (files w') (match a with Unix path => {[path]} ∪ sockets_at w | _ => sockets_at w end) (allocated w) else w)
  | Listen fd => update_descr fd set_listens w
  | Accept _ => open_file (Sock (Descr AF_INET SOCK_STREAM None None false 2)) w
  | Getfl fd => (match files w !! fd with Some (Sock d) => if 0 <=? d_flags d then d_flags d else -1 | _ => -1 end, w)
  | Setfl fd flags => update_descr fd (set_flags flags) w
  | Close fd => (0, set_files w (delete fd (files w)))
  | Unlink path => (0, World (files w) (sockets_at w ∖ {[path]}) (allocated w))
  | Calloc _ => let p := above (elements (allocated w)) in (p, World (files w) (sockets_at w) ({[p]} ∪ allocated w))
  | Free p => (0, World (files w) (sockets_at w) (allocated w ∖ {[p]}))
  | Epoll_create1 => open_file (Poll ∅) w
  | Epoll_add epfd fd events =>
      match files w !! epfd, files w !! fd with
      | Some (Poll m), Some _ => (0, set_files w (<[epfd := Poll (<[fd := events]> m)]> (files w)))
      | _, _ => (-1, w)
      end
  end.

Definition table_system : System syscall world := computed table_answer.

Lemma open_file_new x w : new_file x w (open_file x w).1 (open_file x w).2.
Proof. right. split_and!; [|apply next_fd_fresh|done]. pose proof (above_3 (map_to_list (files w)).*1). unfold open_file, next_fd. cbn. lia. Qed.

Lemma update_descr_on fd f w : on_descr fd f w (update_descr fd f w).1 (update_descr fd f w).2.
Proof.
  unfold update_descr, on_descr. destruct (files w !! fd) as [[d|m]|] eqn:E; [|by left..]. right. split; [done|]. by exists d.
Qed.

Lemma table_documented : Documented table_system.
Proof.
  intros c w r w' H. unfold step, table_system, computed in H.
  destruct c as [f t p|fd a|fd|fd a|fd|fd|fd|fd flags|fd|path|n|p| |epfd fd ev]; cbn [documented table_answer] in *.
  - exists 2. split; [done|]. pose proof (open_file_new (Sock (Descr f t None None false 2)) w) as Hn. by rewrite H in Hn.
  - destruct a as [sa po|path|g].
    + pose proof (update_descr_on fd (set_peer (Inet sa po)) w) as Hn. by rewrite H in Hn.
    + destruct (decide _) as [Hin|Hin]; [|injection H as <- <-; split; [by left|done]].
      pose proof (update_descr_on fd (set_peer (Unix path)) w) as Hn. rewrite H in Hn. by split.
    + pose proof (update_descr_on fd (set_peer (Netlink g)) w) as Hn. by rewrite H in Hn.
  - pose proof (update_descr_on fd id w) as Hn. by rewrite H in Hn.
  - unfold update_descr in H. destruct (files w !! fd) as [[d|m]|] eqn:E; cbn in H; injection H as <- <-; [|by left..].
    right. split; [done|]. by exists d.
  - pose proof (update_descr_on fd set_listens w) as Hn. by rewrite H in Hn.
  - eexists. split; [|pose proof (open_file_new (Sock (Descr AF_INET SOCK_STREAM None None false 2)) w) as Hn; by rewrite H in Hn]. done.
  - injection H as <- <-. split; [done|]. destruct (files w !! fd) as [[d|m]|] eqn:E; [|by left..].
    destruct (Z.leb_spec 0 (d_flags d)); [right|by left]. split; [done|]. by exists d.
  - pose proof (update_descr_on fd (set_flags flags) w) as Hn. by rewrite H in Hn.
  - injection H as <- <-. by split; [left|].
  - by injection H as <- <-.
  - injection H as <- <-. right. pose proof (above_3 (elements (allocated w))). split_and!; [lia| |done].
    intros Hin%elem_of_elements%above_spec. lia.
  - by injection H as <- <-.
  - pose proof (open_file_new (Poll ∅) w) as Hn. by rewrite H in Hn.
  - destruct (files w !! epfd) as [[d|m]|] eqn:E1, (files w !! fd) as [x|] eqn:E2; injection H as <- <-; try by left.
    right. split; [done|]. exists m. split_and!; [done|by eexists|done].
Qed.

(** The daemon at its start: the standard descriptors are open. *)
Definition fresh_world : world :=
  let tty := Sock (Descr AF_UNIX SOCK_STREAM None None false 2) in World {[0 := tty; 1 := tty; 2 := tty]} ∅ ∅.

Example ipc_server_runs :
  match exec table_answer (new_ip_epoll_server (F := unit) no_epoller None None 5000 None 10) fresh_world with
  | (inl (e, 0), w) => (socket e, epoll_fd e, files w !! epoll_fd e) = (4, 3, Some (Poll {[4 := watch]}))
  | _ => False
  end.
Proof. reflexivity. Qed.

Lemma socket_functions_balanced_witness :
  let exits := λ (status : Z) (_ : world), status = 1 in
  (∀ ip port, wp (system := table_system) (new_udp_client ip port)
     (one_more (client_of AF_INET SOCK_DGRAM (Inet ip (htons (u16 port)))) fresh_world) exits fresh_world)
  ∧ wp (system := table_system) cli_listener
      (one_more (bound_to AF_UNIX SOCK_STREAM (Unix OPENNOP_SOCK) true) fresh_world) exits fresh_world.
Proof.
  destruct (socket_functions_balanced table_system fresh_world table_documented eq_refl) as (H1 & _ & _ & _ & H5 & _).
  split; [exact H1|exact H5].
Defined.

Lemma epoll_server_setup_witness :
  wp (system := table_system) (new_ip_epoll_server (F := unit) no_epoller None (Some tt) 5000 None 10)
    (λ '(e, r) w', r = 0 ∧ epoll_ready None (Some tt) 5000 None 10 fresh_world e w'
       ∧ wp (system := table_system) (shutdown_epoll_server e)
           (λ r w'', r = 0 ∧ allocated w'' = allocated w' ∖ {[events e]} ∧ files w'' !! socket e = None
              ∧ (socket e ≠ epoll_fd e → ∃ m, files w'' !! epoll_fd e = Some (Poll m))) (λ _ _, False) w')
    (λ status _, status = 1) fresh_world.
Proof. apply (epoll_server_setup table_system None (Some tt) 5000 None 10 fresh_world table_documented). lia. Defined.
