(* ===== verification/Epoll.v ===== *)
(** * The epoll server (opennopd/sockets.c)

    One loop serves the sockets of a component: the timeout function runs at each
    wake-up, new connections are accepted and checked, and what a connection
    has sent is read into one buffer, which is given to the callback. *)
From S2P Require Import Prelude.
#[local] Open Scope Z_scope.
#[local] Open Scope list_scope.

(** How [recv] ends the reading of a non-blocking socket: nothing more, an error, end of file. *)
Inductive ending := Again | Failed | Closed.

(** An event of [epoll_wait] with what the system calls on its descriptor answer: the sockets
    [accept] returns before -1, the data [recv] returns before it ends.  [E] is what the
    system answers the access check or the callback while it runs; each accepted socket
    comes with the answers of its own turn. *)
Record event (E : Type) := Event {
  ev_fd : Z; EPOLLERR : bool; EPOLLHUP : bool; EPOLLIN : bool;
  accepts : list (Z * E); chunks : list (list Z); ev_end : ending; ev_env : E
}.
Arguments Event {E}.
Arguments ev_fd {E}.
Arguments EPOLLERR {E}.
Arguments EPOLLHUP {E}.
Arguments EPOLLIN {E}.
Arguments accepts {E}.
Arguments chunks {E}.
Arguments ev_end {E}.
Arguments ev_env {E}.

(** The [struct epoller] and the buffer on the stack of [epoll_handler]; [W] is the state of
    the component that is served. *)
Record epoller (W : Type) := Epoller {
  buf : buffer; monitored : list Z; closed : list Z; app : W
}.
Arguments Epoller {W}.
Arguments buf {W}.
Arguments monitored {W}.
Arguments closed {W}.
Arguments app {W}.

Section State.
Context {W : Type}.

Definition set_app (st : epoller W) (w : W) : epoller W := Epoller (buf st) (monitored st) (closed st) w.
Definition set_buf (st : epoller W) (b : buffer) : epoller W := Epoller b (monitored st) (closed st) (app st).

(** Closing a descriptor also ends its monitoring. *)
Definition close (st : epoller W) (fd : Z) : epoller W :=
  Epoller (buf st) (filter (λ x, x ≠ fd) (monitored st)) (fd :: closed st) (app st).

(** [nonblocking] and [pollable] tell whether [fcntl] and [epoll_ctl] succeed for this
    descriptor.  [None]: the program has exited. *)
Definition register_socket (nonblocking pollable : bool) (st : epoller W) (listener_socket : Z)
    : option (epoller W) :=
  if listener_socket <? 0 then None else
  if negb nonblocking then None else
  if pollable then Some (Epoller (buf st) (listener_socket :: monitored st) (closed st) (app st)) else None.
End State.

(** The server of a component: [T] is what the system answers the timeout function, which is
    given the whole [struct epoller] and may register and close sockets itself. *)
Record server (W E T : Type) := Server {
  socket : Z;
  secure : option (E → W → Z → outcome (W * Z));
  callback : E → W → Z → buffer → outcome (W * buffer);
  timeoutfunction : option (T → epoller W → outcome (option (epoller W)));
  nonblocking : E → Z → bool;
  pollable : E → Z → bool
}.
Arguments Server {W E T}.
Arguments socket {W E T}.
Arguments secure {W E T}.
Arguments callback {W E T}.
Arguments timeoutfunction {W E T}.
Arguments nonblocking {W E T}.
Arguments pollable {W E T}.

Section Handler.
Context {W E T : Type} (server_ : server W E T).

Fixpoint accept_loop (clients : list (Z * E)) (st : epoller W) : outcome (option (epoller W)) :=
  match clients with
  | [] => Ret (Some st)
  | (client_socket, e) :: clients =>
      if negb (nonblocking server_ e client_socket) then Ret None else
      let register st :=
        register_socket (nonblocking server_ e client_socket) (pollable server_ e client_socket) st client_socket in
      o ← match secure server_ with
          | Some check =>
              '(w, error) ← check e (app st) client_socket;
              let st := set_app st w in
              Ret (if error =? 1 then register st else Some (close st client_socket))
          | None => Ret (register st)
          end;
      match o with
      | None => Ret None
      | Some st => accept_loop clients st
      end
  end.

(** Every [recv] writes from the start of the buffer. *)
Fixpoint recv_loop (data : list (list Z)) (b : buffer) : outcome buffer :=
  match data with
  | [] => Ret b
  | c :: data => if in_object b 0 (blen c) then recv_loop data (put b 0 c) else Undef
  end.

Definition done_reading (e : ending) : bool := match e with Again => false | _ => true end.

Definition handle_event (st : epoller W) (ev : event E) : outcome (option (epoller W)) :=
  if EPOLLERR ev || EPOLLHUP ev || negb (EPOLLIN ev) then Ret (Some (close st (ev_fd ev)))
  else if ev_fd ev =? socket server_ then accept_loop (accepts ev) st
  else
    b ← recv_loop (chunks ev) (buf st);
    '(w, b) ← callback server_ (ev_env ev) (app st) (ev_fd ev) b;
    let st := set_app (set_buf st b) w in
    Ret (Some (if done_reading (ev_end ev) then close st (ev_fd ev) else st)).

Fixpoint events_loop (evs : list (event E)) (st : epoller W) : outcome (option (epoller W)) :=
  match evs with
  | [] => Ret (Some st)
  | ev :: evs =>
      o ← handle_event st ev;
      match o with None => Ret None | Some st => events_loop evs st end
  end.

(** One round of [while(1)]: [evs] is what [epoll_wait] reports. *)
Definition wakeup (st : epoller W) (t : T) (evs : list (event E)) : outcome (option (epoller W)) :=
  o ← match timeoutfunction server_ with
      | Some f => f t st
      | None => Ret (Some st)
      end;
  match o with None => Ret None | Some st => events_loop evs st end.

(** The first rounds of the loop, which ends only with the program. *)
Fixpoint epoll_handler (rounds : list (T * list (event E))) (st : epoller W) : outcome (option (epoller W)) :=
  match rounds with
  | [] => Ret (Some st)
  | (t, evs) :: rounds =>
      o ← wakeup st t evs;
      match o with None => Ret None | Some st => epoll_handler rounds st end
  end.
End Handler.

Definition IPC_BUFSIZE : nat := Z.to_nat 1024.

(** [new_ip_epoll_server]: the listening socket is the one [new_ip_server] made, 0 without a port. *)
Definition new_ip_epoll_server {W E T} (server_ : server W E T) (e : E) (w : W) : option (epoller W) :=
  let st := Epoller (replicate IPC_BUFSIZE 0) [] [] w in
  if socket server_ =? 0 then Some st
  else register_socket (nonblocking server_ e (socket server_)) (pollable server_ e (socket server_)) st (socket server_).

(** ** Who is monitored *)

(** What the component promises about its descriptors: [keeps] is an invariant of its state,
    [allowed] are the descriptors the access check lets in and those the timeout function
    registers; [env_in], [offered] and [time_in] are the environments, the accepted sockets
    and the timeouts of the run. *)
Section Access.
Context {W E T : Type} (server_ : server W E T).
Context (keeps : W → Prop) (allowed : Z → Prop) (env_in : E → Prop) (offered : Z → E → Prop) (time_in : T → Prop).

Definition check_allowed : Prop :=
  match secure server_ with
  | Some check => ∀ e w fd w' r, offered fd e → keeps w → check e w fd = Ret (w', r) → keeps w' ∧ (r = 1 → allowed fd)
  | None => ∀ fd e, offered fd e → allowed fd
  end.

Definition callback_keeps : Prop :=
  ∀ e w fd b w' b', env_in e → keeps w → callback server_ e w fd b = Ret (w', b') → keeps w'.

Definition run_ok (st st' : epoller W) : Prop :=
  keeps (app st) → keeps (app st') ∧ ∀ fd, fd ∈ monitored st' → fd ∈ monitored st ∨ allowed fd.

Definition timeout_allowed : Prop :=
  ∀ f t st st', timeoutfunction server_ = Some f → time_in t → f t st = Ret (Some st') → run_ok st st'.

Definition event_in (ev : event E) : Prop := env_in (ev_env ev) ∧ Forall (λ ce, offered ce.1 ce.2) (accepts ev).

Context (Hcheck : check_allowed) (Hcall : callback_keeps) (Htime : timeout_allowed).

Lemma run_refl st : run_ok st st.
Proof. intros H. split; [done|]. auto. Qed.

Lemma run_trans st1 st2 st3 : run_ok st1 st2 → run_ok st2 st3 → run_ok st1 st3.
Proof.
  intros H1 H2 Hk. destruct (H1 Hk) as [Hk1 M1]. destruct (H2 Hk1) as [Hk2 M2]. split; [done|].
  intros fd [?%M1|?]%M2; auto.
Qed.

Lemma close_run st fd : run_ok st (close st fd).
Proof. intros H. split; [done|]. intros x Hx. left. simpl in Hx. by apply list_elem_of_filter in Hx as [_ ?]. Qed.

Lemma register_run n p st fd st' : allowed fd → register_socket n p st fd = Some st' → run_ok st st'.
Proof.
  unfold register_socket. intros Ha. destruct (fd <? 0); [done|]. destruct (negb n); [done|].
  destruct p; [|done]. intros [= <-] Hk. split; [done|]. simpl. intros x [->|Hx]%elem_of_cons; auto.
Qed.

Lemma accept_run clients : Forall (λ ce, offered ce.1 ce.2) clients →
  ∀ st st', accept_loop server_ clients st = Ret (Some st') → run_ok st st'.
Proof.
  induction 1 as [|[c e] clients He _ IH]; intros st st' H; [injection H as <-; apply run_refl|].
  cbn [accept_loop] in H. destruct (negb _); [done|]. apply bind_Ret in H as (o & Ho & H).
  destruct o as [st1|]; [|done]. eapply run_trans; [|by apply IH]. clear H.
  pose proof Hcheck as Hc. unfold check_allowed in Hc. destruct (secure server_) as [check|].
  - apply bind_Ret in Ho as ([w r] & E1 & Ho). injection Ho as Ho. intros Hk.
    destruct (Hc e _ c w r He Hk E1) as [Hk' Ha].
    assert (H1 : run_ok (set_app st w) st1).
    { destruct (Z.eqb_spec r 1) as [->|]; [by eapply register_run, Ho; apply Ha|injection Ho as <-; apply close_run]. }
    by apply H1.
  - injection Ho as Ho. by eapply register_run, Ho; eapply Hc.
Qed.

Lemma event_run st ev st' : event_in ev → handle_event server_ st ev = Ret (Some st') → run_ok st st'.
Proof.
  intros [He Ha]. unfold handle_event. destruct (_ || _); [intros [= <-]; apply close_run|].
  destruct (_ =? _); [by apply accept_run|].
  intros (b & _ & ([w b'] & E1 & H)%bind_Ret)%bind_Ret. injection H as <-. intros Hk.
  pose proof (Hcall _ _ _ _ _ _ He Hk E1) as Hk'.
  assert (H1 : run_ok (set_app (set_buf st b') w) (if done_reading (ev_end ev)
    then close (set_app (set_buf st b') w) (ev_fd ev) else set_app (set_buf st b') w))
    by (destruct (done_reading _); [apply close_run|apply run_refl]).
  by apply H1.
Qed.

Lemma events_run evs : Forall event_in evs → ∀ st st', events_loop server_ evs st = Ret (Some st') → run_ok st st'.
Proof.
  induction 1 as [|ev evs He _ IH]; intros st st' H; [injection H as <-; apply run_refl|].
  cbn [events_loop] in H. apply bind_Ret in H as ([st1|] & H1 & H); [|done].
  eapply run_trans; [by eapply event_run|by apply IH].
Qed.

Lemma rounds_run rounds : Forall (λ r, time_in r.1 ∧ Forall event_in r.2) rounds →
  ∀ st st', epoll_handler server_ rounds st = Ret (Some st') → run_ok st st'.
Proof.
  induction 1 as [|[t evs] rounds [Ht He] _ IH]; intros st st' H; [injection H as <-; apply run_refl|].
  cbn [epoll_handler] in H. apply bind_Ret in H as ([st1|] & H1 & H); [|done].
  eapply run_trans; [|by apply IH]. unfold wakeup in H1. apply bind_Ret in H1 as ([st0|] & H0 & H1); [|done].
  eapply run_trans; [|by eapply events_run].
  destruct (timeoutfunction server_) as [f|] eqn:Ef; [|injection H0 as <-; apply run_refl].
  by eapply Htime.
Qed.
End Access.

(** ** What the callback is given *)

(** What a component relies on: a message tells its own length, so what stands behind it in
    the buffer plays no part.  [legal] are the messages this is promised for, [effect] what
    they do; handling one message leaves the others legal. *)
Class Delimited {W E T} (server_ : server W E T) := {
  dl_ok : W → Prop;
  legal : E → W → Z → list Z → Prop;
  effect : E → W → Z → list Z → W → Prop;
  dl_size e w fd m : legal e w fd m → blen m <= 1024;
  dl_callback e w fd m rest : dl_ok w → legal e w fd m →
    ∃ w' b', callback server_ e w fd (m ++ rest) = Ret (w', b') ∧ blen b' = blen (m ++ rest)
      ∧ dl_ok w' ∧ effect e w fd m w';
  dl_stable e w fd m w' e' fd' m' : effect e w fd m w' → legal e' w fd' m' → legal e' w' fd' m'
}.

(** The effects of the messages in order; a message comes with its connection and what the
    system answers while it is handled. *)
Fixpoint handled `{Delimited W E T server_} (ms : list (E * (Z * list Z))) (w w' : W) : Prop :=
  match ms with
  | [] => w' = w
  | (e, (fd, m)) :: ms => ∃ w1, effect e w fd m w1 ∧ handled ms w1 w'
  end.

(** One message [m] has arrived on the connection [fd]. *)
Definition arrival {E} (a : E * (Z * list Z)) : event E := Event a.2.1 false false true [] [a.2.2] Again a.1.

Section Delivery.
Context `{D : Delimited W E T server_}.

Lemma recv_one m (b : buffer) : blen m <= blen b → ∃ rest, recv_loop [m] b = Ret (m ++ rest) ∧ blen (m ++ rest) = blen b.
Proof.
  intros Hm. cbn [recv_loop]. unfold in_object. pose proof (blen_nonneg m). bool_lia.
  unfold put. change (Z.to_nat 0) with 0%nat. cbn [take app]. eexists. split; [done|].
  unfold blen in *. rewrite length_app, length_drop. lia.
Qed.

Lemma arrival_handled st e fd m : dl_ok (app st) → legal e (app st) fd m → fd ≠ socket server_ → blen (buf st) = 1024 →
  ∃ st', handle_event server_ st (arrival (e, (fd, m))) = Ret (Some st') ∧ blen (buf st') = 1024
    ∧ monitored st' = monitored st ∧ closed st' = closed st ∧ dl_ok (app st') ∧ effect e (app st) fd m (app st').
Proof.
  intros Hok Hl Hfd Hb. unfold handle_event, arrival.
  cbn [EPOLLERR EPOLLHUP EPOLLIN ev_fd chunks ev_end ev_env orb negb fst snd].
  rewrite (proj2 (Z.eqb_neq _ _) Hfd).
  destruct (recv_one m (buf st)) as (rest & -> & Hlen); [pose proof (dl_size _ _ _ _ Hl); lia|]. cbn [mbind outcome_bind].
  destruct (dl_callback e (app st) fd m rest Hok Hl) as (w' & b' & -> & Hb' & Hok' & He). cbn [mbind outcome_bind done_reading].
  eexists. split; [done|]. by rewrite <-Hb, <-Hlen.
Qed.

Lemma arrivals_handled ms : ∀ st, dl_ok (app st) →
  Forall (λ a, legal a.1 (app st) a.2.1 a.2.2 ∧ a.2.1 ≠ socket server_) ms → blen (buf st) = 1024 →
  ∃ st', events_loop server_ (arrival <$> ms) st = Ret (Some st') ∧ blen (buf st') = 1024
    ∧ monitored st' = monitored st ∧ closed st' = closed st ∧ dl_ok (app st') ∧ handled ms (app st) (app st').
Proof.
  induction ms as [|[e [fd m]] ms IH]; intros st Hok Hms Hb; [exists st; by split_and!|].
  apply Forall_cons in Hms as [[Hl Hfd] Hms]. cbn [fst snd fmap list_fmap events_loop] in *.
  destruct (arrival_handled st e fd m Hok Hl Hfd Hb) as (st1 & E1 & Hb1 & Hm1 & Hc1 & Hok1 & He).
  rewrite E1. cbn [mbind outcome_bind].
  destruct (IH st1 Hok1) as (st' & E' & Hb' & Hm' & Hc' & Hok' & He'); [|done|].
  { eapply Forall_impl; [exact Hms|]. intros [e' [fd' m']] [Hl' Hf']. split; [|done]. by eapply dl_stable. }
  exists st'. split_and!; [done|done|congruence|congruence|done|]. simpl. eauto.
Qed.
End Delivery.

(** What else the buffer can be. *)
Section Loss.
Context {W E T : Type} (server_ : server W E T).

(** Two messages read in one turn: the callback runs once, on the second, written over the first. *)
Lemma only_last_message st fd m1 m2 en e : fd ≠ socket server_ → blen m1 <= blen (buf st) → blen m2 <= blen (buf st) →
  handle_event server_ st (Event fd false false true [] [m1; m2] en e)
  = ('(w, b) ← callback server_ e (app st) fd (put (put (buf st) 0 m1) 0 m2);
     let st := set_app (set_buf st b) w in
     Ret (Some (if done_reading en then close st fd else st))).
Proof.
  intros Hfd H1 H2. unfold handle_event. cbn [EPOLLERR EPOLLHUP EPOLLIN ev_fd chunks ev_end ev_env orb negb].
  rewrite (proj2 (Z.eqb_neq _ _) Hfd). cbn [recv_loop]. unfold in_object.
  pose proof (blen_nonneg m1). pose proof (blen_nonneg m2). rewrite blen_put by lia. bool_lia. done.
Qed.

(** A connection closed without data: the callback runs on what the buffer still holds. *)
Lemma closed_runs_callback st fd e : fd ≠ socket server_ →
  handle_event server_ st (Event fd false false true [] [] Closed e)
  = ('(w, b) ← callback server_ e (app st) fd (buf st); Ret (Some (close (set_app (set_buf st b) w) fd))).
Proof.
  intros Hfd. unfold handle_event. cbn [EPOLLERR EPOLLHUP EPOLLIN ev_fd chunks ev_end ev_env orb negb].
  by rewrite (proj2 (Z.eqb_neq _ _) Hfd).
Qed.
End Loss.
