(* ===== verification/Packet.v ===== *)
(** * IP and TCP header access

    The daemon overlays [struct iphdr] and [struct tcphdr] on the raw bytes of
    a packet.  A packet is a byte buffer that starts at the IP header; a
    pointer into it is an offset.  Bit-fields follow the little-endian layout
    of <netinet/ip.h> and <netinet/tcp.h>. *)
From S2P Require Import Prelude.

(** ** IP header *)
Definition IPPROTO_TCP : Z := 6.

Definition ip_ihl (p : buffer) : outcome Z := x ← rd p 0; Ret (x mod 16).
Definition ip_tot_len (p : buffer) : outcome Z := ld16 p 2.
Definition set_ip_tot_len (p : buffer) (v : Z) : outcome buffer := st16 p 2 v.
Definition ip_protocol (p : buffer) : outcome Z := rd p 9.
Definition set_ip_check (p : buffer) (v : Z) : outcome buffer := st16 p 10 v.
Definition ip_saddr (p : buffer) : outcome Z := ld32 p 12.
Definition ip_daddr (p : buffer) : outcome Z := ld32 p 16.

(** [tcph = (struct tcphdr * )(((u_int32_t * )ippacket) + iph->ihl)] *)
Definition tcph_of (p : buffer) : outcome Z := h ← ip_ihl p; Ret (4 * h).

(** ** TCP header at offset [t] *)
Definition SIZEOF_TCPHDR : Z := 20.

Definition tcp_source (p : buffer) (t : Z) : outcome Z := ld16 p t.
Definition tcp_dest (p : buffer) (t : Z) : outcome Z := ld16 p (t + 2).
Definition tcp_seq (p : buffer) (t : Z) : outcome Z := ld32 p (t + 4).
Definition set_tcp_seq (p : buffer) (t v : Z) : outcome buffer := st32 p (t + 4) v.
Definition tcp_doff (p : buffer) (t : Z) : outcome Z := x ← rd p (t + 12); Ret (x / 16).
Definition set_tcp_doff (p : buffer) (t v : Z) : outcome buffer :=
  x ← rd p (t + 12); wr p (t + 12) (x mod 16 + 16 * (v mod 16)).
Definition tcp_flags (p : buffer) (t : Z) : outcome Z := rd p (t + 13).
Definition set_tcp_check (p : buffer) (t v : Z) : outcome buffer := st16 p (t + 16) v.

Definition fin_flag (f : Z) : bool := Z.testbit f 0.
Definition syn_flag (f : Z) : bool := Z.testbit f 1.
Definition rst_flag (f : Z) : bool := Z.testbit f 2.
Definition ack_flag (f : Z) : bool := Z.testbit f 4.

(** The verdicts of <linux/netfilter.h> the program gives. *)
Inductive nf_verdict := NF_DROP | NF_ACCEPT | NF_QUEUE.
#[export] Instance nf_verdict_eq_dec : EqDecision nf_verdict.
Proof. solve_decision. Defined.
