(* ===== verification/Csum.v ===== *)
(** * IP and TCP checksums (opennopd/csum.c)

    The sums are C [long]s; the sum of at most 2^16 16-bit words stays far
    below 2^63, so they are unbounded integers here. *)
From S2P Require Import Prelude Packet.

(** [sum += ntohs(buff[i])] for the next [n] words at offset [o]. *)
Fixpoint sum_words (n : nat) (p : buffer) (o sum : Z) : outcome Z :=
  match n with
  | O => Ret sum
  | S n' => w ← ld16 p o; sum_words n' p (o + 2) (sum + ntohs w)
  end.

(** [while (sum >> 16) sum = (sum & 0xFFFF) + (sum >> 16);] *)
Fixpoint fold_carries (n : nat) (sum : Z) : outcome Z :=
  match n with
  | O => Spin
  | S n' =>
      if Z.shiftr sum 16 =? 0 then Ret sum
      else fold_carries n' (Z.land sum 65535 + Z.shiftr sum 16)
  end.

(** [htons((unsigned short) ~sum)] *)
Definition finish_sum (sum : Z) : Z := htons (u16 (Z.lnot sum)).

(** Iterations after which every sum built here has been folded. *)
Definition FOLDS : nat := 4.

Definition tcp_sum_calc (p : buffer) (len_tcp src_addr dest_addr buff : Z) : outcome Z :=
  s0 ← ld16 p src_addr;
  s1 ← ld16 p (src_addr + 2);
  d0 ← ld16 p dest_addr;
  d1 ← ld16 p (dest_addr + 2);
  let prot_tcp := 6 in
  let sum := ntohs s0 + ntohs s1 + ntohs d0 + ntohs d1 + len_tcp + prot_tcp in
  sum ← sum_words (Z.to_nat (len_tcp / 2)) p buff sum;
  sum ← (if len_tcp mod 2 =? 1
         then w ← ld16 p (buff + 2 * (len_tcp / 2)); Ret (sum + ntohs (u8 w))
         else Ret sum);
  sum ← fold_carries FOLDS sum;
  Ret (finish_sum sum).

Definition ip_sum_calc (p : buffer) (len_ip_header buff : Z) : outcome Z :=
  sum ← sum_words (Z.to_nat (len_ip_header / 2)) p buff 0;
  sum ← fold_carries FOLDS sum;
  Ret (finish_sum sum).

Definition checksum (p : buffer) : outcome buffer :=
  proto ← ip_protocol p;
  if proto =? IPPROTO_TCP then
    t ← tcph_of p;
    tot ← ip_tot_len p;
    let tcplen := u16 (ntohs tot - t) in
    p ← set_tcp_check p t 0;
    c ← tcp_sum_calc p tcplen 12 16 t;
    p ← set_tcp_check p t c;
    p ← set_ip_check p 0;
    c ← ip_sum_calc p t 0;
    set_ip_check p c
  else Ret p.

(** * Sums of words *)

(** The sum of [n] big-endian words at offset [o]. *)
Fixpoint wsum (n : nat) (p : buffer) (o : Z) : Z :=
  match n with
  | O => 0
  | S n' => 256 * p @@ o + p @@ (o + 1) + wsum n' p (o + 2)
  end.

Lemma wsum_bound n p o : bytes p → 0 <= wsum n p o <= 65535 * Z.of_nat n.
Proof.
  intros Hb. revert o. induction n as [|n IH]; intros o; cbn [wsum]; [lia|].
  specialize (IH (o + 2)). pose proof (at_bytes p o Hb). pose proof (at_bytes p (o + 1) Hb). lia.
Qed.

Lemma ld16_at p o : bytes p → 0 <= o → o + 2 <= blen p → ld16 p o = Ret (p @@ o + 256 * p @@ (o + 1)).
Proof. intros Hb H1 H2. unfold ld16. rewrite !rd_at by lia. done. Qed.

Lemma ntohs_ld16 p o : bytes p → ntohs (p @@ o + 256 * p @@ (o + 1)) = 256 * p @@ o + p @@ (o + 1).
Proof. intros Hb. apply ntohs_pair; by apply at_bytes. Qed.

Lemma sum_words_spec n p o s :
  bytes p → 0 <= o → o + 2 * Z.of_nat n <= blen p → sum_words n p o s = Ret (s + wsum n p o).
Proof.
  intros Hb. revert o s. induction n as [|n IH]; intros o s H1 H2; cbn [sum_words wsum]; [f_equal; lia|].
  rewrite ld16_at by (done || lia). cbn [mbind outcome_bind]. rewrite ntohs_ld16 by done.
  rewrite IH by lia. f_equal. lia.
Qed.

(** ** Folding the carries *)
Lemma fold_step s : 0 <= s → Z.land s 65535 + Z.shiftr s 16 = s - 65535 * (s / 65536).
Proof.
  intros Hs. change 65535 with (Z.ones 16) at 1. rewrite Z.land_ones, Z.shiftr_div_pow2 by lia.
  change (2 ^ 16) with 65536. pose proof (Z.div_mod s 65536). lia.
Qed.

Lemma fold_carries_spec s : 0 <= s < 2 ^ 32 →
  ∃ r, fold_carries FOLDS s = Ret r ∧ 0 <= r <= 65535 ∧ (∃ k, s = r + 65535 * k) ∧ (r = 0 ↔ s = 0).
Proof.
  assert (Hstep : ∀ n s, 0 <= s → fold_carries (S n) s
    = if s / 65536 =? 0 then Ret s else fold_carries n (s - 65535 * (s / 65536))).
  { intros n z Hz. cbn [fold_carries]. rewrite fold_step by done.
    by rewrite Z.shiftr_div_pow2 by lia. }
  assert (Hdiv : ∀ z, 0 <= z → z = 65536 * (z / 65536) + z mod 65536 ∧ 0 <= z mod 65536 < 65536 ∧ 0 <= z / 65536).
  { intros z Hz. split_and!; [apply Z.div_mod; lia|apply Z.mod_pos_bound; lia..|apply Z.div_pos; lia]. }
  intros Hs. unfold FOLDS. rewrite Hstep by lia. destruct (Hdiv s) as (D1 & D2 & D3); [lia|].
  destruct (Z.eqb_spec (s / 65536) 0) as [E1|E1]; [exists s; split_and!; [done|lia..|by exists 0; lia|done]|].
  set (s1 := s - 65535 * (s / 65536)).
  assert (H1 : 0 < s1 < 131072) by (subst s1; lia).
  rewrite Hstep by lia. destruct (Hdiv s1) as (F1 & F2 & F3); [lia|].
  destruct (Z.eqb_spec (s1 / 65536) 0) as [E2|E2].
  { exists s1. split_and!; [done|lia..|by exists (s / 65536); subst s1; lia|lia]. }
  set (s2 := s1 - 65535 * (s1 / 65536)). assert (H2 : 0 < s2 <= 65535) by (subst s2; lia).
  rewrite Hstep by lia. rewrite (Z.div_small s2) by lia. cbn [Z.eqb].
  exists s2. split_and!; [done|lia..| |lia]. exists (s / 65536 + s1 / 65536). subst s1 s2. lia.
Qed.

Lemma finish_sum_spec r : 0 <= r <= 65535 → finish_sum r = htons (65535 - r).
Proof.
  intros Hr. unfold finish_sum. f_equal. unfold u16. rewrite <-(Z.mod_small (65535 - r) (2 ^ 16)) by lia.
  replace (Z.lnot r) with (65535 - r + -1 * 2 ^ 16) by (unfold Z.lnot; lia).
  by rewrite Z.mod_add.
Qed.

(** Adding the complement of a folded sum makes the sum fold to all ones. *)
Lemma fold_complement s r :
  0 <= s → s + 65535 < 2 ^ 32 → fold_carries FOLDS s = Ret r →
  ∃ r', fold_carries FOLDS (s + (65535 - r)) = Ret r' ∧ finish_sum r' = 0.
Proof.
  intros Hs Hb E. destruct (fold_carries_spec s) as (r1 & E1 & Hr & (k & Hk) & Hz); [lia|].
  rewrite E in E1. injection E1 as <-.
  destruct (fold_carries_spec (s + (65535 - r))) as (r' & E' & Hr' & (k' & Hk') & Hz'); [lia|].
  exists r'. split; [done|]. assert (Hr'' : r' = 65535); [|by subst].
  assert (Hmul : r' = 65535 * (k + 1 - k')) by lia.
  assert (Hne : r' ≠ 0) by (intros ->; destruct Hz' as [Hz' _]; specialize (Hz' eq_refl); lia). lia.
Qed.

(** ** Storing a 16-bit value in network order *)
Definition stored16 (p p' : buffer) (o x : Z) : Prop :=
  blen p' = blen p ∧ p' @@ o = x / 256 ∧ p' @@ (o + 1) = x mod 256
  ∧ (∀ i, 0 <= i → i ≠ o → i ≠ o + 1 → p' @@ i = p @@ i) ∧ bytes p'.

Lemma st16_stored p o x : bytes p → 0 <= o → o + 2 <= blen p → 0 <= x < 65536 →
  ∃ p', st16 p o (htons x) = Ret p' ∧ stored16 p p' o x.
Proof.
  intros Hb H1 H2 Hx. unfold st16. rewrite wr_in by lia. cbn [mbind outcome_bind].
  rewrite wr_in by (rewrite blen_insert; lia).
  assert (Hd : 0 <= x / 256 < 256) by (split; [apply Z.div_pos; lia|apply Z.div_lt_upper_bound; lia]).
  assert (Hm : 0 <= x mod 256 < 256) by (apply Z.mod_pos_bound; lia).
  assert (Eh : htons x = (x mod 256) * 256 + x / 256).
  { unfold htons, ntohs. by rewrite (Z.mod_small (x / 256)). }
  assert (E1 : u8 (htons x) = x / 256).
  { rewrite Eh. unfold u8. rewrite Z.add_comm, Z.mod_add by lia. by apply Z.mod_small. }
  assert (E2 : u8 (htons x / 256) = x mod 256).
  { rewrite Eh, Z.div_add_l, (Z.div_small (x / 256)), Z.add_0_r by lia. by apply u8_small. }
  rewrite E1, E2. eexists. split; [done|]. split_and!.
  - by rewrite !blen_insert.
  - rewrite at_insert by (rewrite ?blen_insert; lia). bool_lia. rewrite at_insert by lia. by bool_lia.
  - rewrite at_insert by (rewrite ?blen_insert; lia). by bool_lia.
  - intros i Hi Hn1 Hn2. rewrite at_insert by (rewrite ?blen_insert; lia). bool_lia.
    rewrite at_insert by lia. by bool_lia.
  - by repeat apply bytes_insert.
Qed.

Lemma wsum_stored n p p' b o x k :
  stored16 p p' o x → 0 <= b → o = b + 2 * k → 0 <= k < Z.of_nat n →
  wsum n p' b = wsum n p b - (256 * p @@ o + p @@ (o + 1)) + x.
Proof.
  intros (_ & H1 & H2 & H3 & _). revert b k. induction n as [|n IH]; intros b k Hb Ho Hk; [lia|].
  assert (Hframe : ∀ m c, o + 1 < c → wsum m p' c = wsum m p c).
  { induction m as [|m IHm]; intros c Hc; [done|]. cbn [wsum]. rewrite IHm by lia.
    rewrite !H3 by lia. done. }
  cbn [wsum]. destruct (decide (k = 0)) as [->|Hk0].
  - replace b with o by lia. rewrite Hframe by lia. rewrite H1, H2. pose proof (Z.div_mod x 256). lia.
  - rewrite (IH (b + 2) (k - 1)) by lia. rewrite !H3 by lia. lia.
Qed.

Lemma wsum_frame n p p' b o x :
  stored16 p p' o x → 0 <= b → o + 1 < b ∨ b + 2 * Z.of_nat n <= o → wsum n p' b = wsum n p b.
Proof.
  intros (_ & _ & _ & H3 & _). revert b. induction n as [|n IH]; intros b Hb Ho; [done|].
  cbn [wsum]. rewrite IH by lia. rewrite !H3 by lia. done.
Qed.

(** ** The two checksums *)
Definition pseudo_sum (p : buffer) : Z := wsum 4 p 12.

Lemma pseudo_eq p :
  pseudo_sum p = (256 * p @@ 12 + p @@ 13) + (256 * p @@ 14 + p @@ 15)
    + (256 * p @@ 16 + p @@ 17) + (256 * p @@ 18 + p @@ 19).
Proof.
  unfold pseudo_sum. cbn [wsum].
  change (12 + 2 + 2 + 2 + 1) with 19. change (12 + 2 + 2 + 2) with 18. change (12 + 2 + 2 + 1) with 17.
  change (12 + 2 + 2) with 16. change (12 + 2 + 1) with 15. change (12 + 2) with 14. change (12 + 1) with 13. lia.
Qed.

Definition tcp_total (p : buffer) (t len : Z) : Z :=
  pseudo_sum p + len + 6 + wsum (Z.to_nat (len / 2)) p t
  + (if len mod 2 =? 1 then 256 * p @@ (t + 2 * (len / 2)) else 0).

Lemma tcp_total_bound p t len : bytes p → 0 <= len <= 65535 → 0 <= tcp_total p t len < 2 ^ 32 - 65535.
Proof.
  intros Hb Hl. unfold tcp_total, pseudo_sum.
  pose proof (wsum_bound 4 p 12 Hb). pose proof (wsum_bound (Z.to_nat (len / 2)) p t Hb) as H2.
  pose proof (at_bytes p (t + 2 * (len / 2)) Hb).
  assert (0 <= len / 2 <= 32767) by (split; [apply Z.div_pos; lia|apply Z.lt_succ_r, Z.div_lt_upper_bound; lia]).
  rewrite Z2Nat.id in H2 by lia. destruct (len mod 2 =? 1); lia.
Qed.

Lemma tcp_sum_calc_spec p t len :
  bytes p → 20 <= t → 0 <= len <= 65535 → t + len + 1 <= blen p →
  tcp_sum_calc p len 12 16 t
  = (r ← fold_carries FOLDS (tcp_total p t len); Ret (finish_sum r)).
Proof.
  intros Hb Ht Hl Hin. unfold tcp_sum_calc.
  rewrite (ld16_at p 12), (ld16_at p (12 + 2)), (ld16_at p 16), (ld16_at p (16 + 2)) by (done || lia).
  cbn [mbind outcome_bind]. rewrite !ntohs_ld16 by done.
  pose proof (Z.div_mod len 2 ltac:(lia)) as Hd. pose proof (Z.mod_pos_bound len 2 ltac:(lia)) as Hm.
  assert (Hq : 0 <= len / 2) by (apply Z.div_pos; lia).
  rewrite sum_words_spec by (rewrite ?Z2Nat.id; done || lia). cbn [mbind outcome_bind].
  unfold tcp_total. rewrite pseudo_eq.
  change (12 + 2 + 1) with 15. change (12 + 2) with 14. change (12 + 1) with 13.
  change (16 + 2 + 1) with 19. change (16 + 2) with 18. change (16 + 1) with 17.
  destruct (Z.eqb_spec (len mod 2) 1) as [Eo|Eo].
  - rewrite ld16_at by (done || lia). cbn [mbind outcome_bind].
    pose proof (at_bytes p (t + 2 * (len / 2)) Hb) as Hb1.
    assert (Eu : ntohs (u8 (p @@ (t + 2 * (len / 2)) + 256 * p @@ (t + 2 * (len / 2) + 1))) = 256 * p @@ (t + 2 * (len / 2))).
    { unfold u8. rewrite (Z.mul_comm 256), Z.mod_add, Z.mod_small by lia.
      rewrite <-(Z.add_0_r (p @@ (t + 2 * (len / 2)))) at 1. change 0 with (256 * 0) at 1.
      rewrite ntohs_pair by lia. lia. }
    rewrite Eu. f_equal; f_equal; lia.
  - cbn [mbind outcome_bind]. rewrite Z.add_0_r. do 2 f_equal; lia.
Qed.

Lemma tcp_total_stored p p' t len x :
  stored16 p p' (t + 16) x → 20 <= t → 20 <= len →
  tcp_total p' t len = tcp_total p t len - (256 * p @@ (t + 16) + p @@ (t + 17)) + x.
Proof.
  intros Hst Ht Hl. unfold tcp_total, pseudo_sum.
  assert (Hq : 10 <= len / 2) by (apply Z.div_le_lower_bound; lia).
  rewrite (wsum_frame 4 p p' 12 (t + 16) x) by (done || lia).
  rewrite (wsum_stored _ p p' t (t + 16) x 8) by (done || lia).
  destruct Hst as (_ & _ & _ & H3 & _). replace (t + 16 + 1) with (t + 17) by lia.
  destruct (len mod 2 =? 1); [rewrite H3 by lia|]; lia.
Qed.

Lemma tcp_total_frame p p' t len x :
  stored16 p p' 10 x → 20 <= t → 0 <= len → tcp_total p' t len = tcp_total p t len.
Proof.
  intros Hst Ht Hl. unfold tcp_total, pseudo_sum.
  rewrite (wsum_frame 4 p p' 12 10 x), (wsum_frame _ p p' t 10 x) by (done || lia).
  assert (Hq : 0 <= len / 2) by (apply Z.div_pos; lia).
  destruct Hst as (_ & _ & _ & H3 & _). destruct (len mod 2 =? 1); [rewrite H3 by lia|]; lia.
Qed.

(** A TCP packet in its buffer: [t] is the offset of the TCP header, [tot] the
    total length; the buffer reaches at least one byte behind the packet. *)
Record tcp_packet (p : buffer) (t tot : Z) : Prop := TcpPacket {
  tp_bytes : bytes p;
  tp_proto : ip_protocol p = Ret IPPROTO_TCP;
  tp_tcph : tcph_of p = Ret t;
  tp_t : 20 <= t;
  tp_tot : ip_tot_len p = Ret (htons tot);
  tp_len : t + 20 <= tot < 65536;
  tp_in : tot + 1 <= blen p
}.

Lemma tcph_even p t : tcph_of p = Ret t → ∃ h, t = 4 * h.
Proof. unfold tcph_of. intros (h & _ & [= <-])%bind_Ret. eauto. Qed.

Lemma ip_sum_calc_spec p h :
  bytes p → 0 <= h → 4 * h <= blen p →
  ip_sum_calc p (4 * h) 0 = (r ← fold_carries FOLDS (wsum (Z.to_nat (2 * h)) p 0); Ret (finish_sum r)).
Proof.
  intros Hb Hh Hl. unfold ip_sum_calc. replace (4 * h / 2) with (2 * h).
  - rewrite sum_words_spec by (rewrite ?Z2Nat.id; done || lia). done.
  - rewrite <-(Z.div_mul (2 * h) 2) by lia. f_equal. lia.
Qed.

Lemma checksum_spec p t tot :
  tcp_packet p t tot →
  ∃ p', checksum p = Ret p' ∧ blen p' = blen p ∧ bytes p'
    ∧ (∀ i, 0 <= i → i ≠ 10 → i ≠ 11 → i ≠ t + 16 → i ≠ t + 17 → p' @@ i = p @@ i)
    ∧ ip_sum_calc p' t 0 = Ret 0 ∧ tcp_sum_calc p' (tot - t) 12 16 t = Ret 0.
Proof.
  intros [Hb Hpr Htc Ht Htot Hlen Hin]. destruct (tcph_even p t Htc) as (h & ->).
  assert (Eip : ∀ q, bytes q → blen q = blen p → ip_sum_calc q (4 * h) 0
    = (r ← fold_carries FOLDS (wsum (Z.to_nat (2 * h)) q 0); Ret (finish_sum r)))
    by (intros; apply ip_sum_calc_spec; [done|lia..]).
  set (t := 4 * h) in *. unfold checksum. rewrite Hpr. cbn [mbind outcome_bind]. rewrite Z.eqb_refl, Htc. cbn [mbind outcome_bind]. rewrite Htot. cbn [mbind outcome_bind].
  assert (Eu : u16 (ntohs (htons tot) - t) = tot - t)
    by (unfold htons; rewrite ntohs_invol, u16_small; lia). rewrite Eu.
  unfold set_tcp_check, set_ip_check.
  destruct (st16_stored p (t + 16) 0 Hb) as (p1 & E1 & S1); [lia..|]. change (htons 0) with 0 in E1.
  rewrite E1. cbn [mbind outcome_bind]. pose proof S1 as (L1 & A1 & B1 & F1 & Hb1).
  rewrite tcp_sum_calc_spec by (done || lia).
  pose proof (tcp_total_bound p1 t (tot - t) Hb1 ltac:(lia)) as Hbd.
  destruct (fold_carries_spec (tcp_total p1 t (tot - t))) as (r & Er & Hr & _); [lia|].
  rewrite Er. cbn [mbind outcome_bind]. rewrite finish_sum_spec by done.
  destruct (st16_stored p1 (t + 16) (65535 - r) Hb1) as (p2 & E2 & S2); [lia..|].
  rewrite E2. cbn [mbind outcome_bind]. pose proof S2 as (L2 & A2 & B2 & F2 & Hb2).
  destruct (st16_stored p2 10 0 Hb2) as (p3 & E3 & S3); [lia..|]. change (htons 0) with 0 in E3.
  rewrite E3. cbn [mbind outcome_bind]. pose proof S3 as (L3 & A3 & B3 & F3 & Hb3).
  rewrite (Eip p3) by (done || lia).
  destruct (fold_carries_spec (wsum (Z.to_nat (2 * h)) p3 0)) as (q & Eq & Hq & _);
    [pose proof (wsum_bound (Z.to_nat (2 * h)) p3 0 Hb3); lia|].
  rewrite Eq. cbn [mbind outcome_bind]. rewrite finish_sum_spec by done.
  destruct (st16_stored p3 10 (65535 - q) Hb3) as (p4 & E4 & S4); [lia..|].
  pose proof S4 as (L4 & A4 & B4 & F4 & Hb4).
  exists p4. split_and!; [done|lia|done| | |].
  - intros i Hi H1 H2 H3 H4. rewrite F4, F3, F2, F1 by lia. done.
  - rewrite (Eip p4) by (done || lia).
    rewrite (wsum_stored _ p3 p4 0 10 (65535 - q) 5) by (done || lia).
    change (10 + 1) with 11 in *. rewrite A3, B3. change (256 * (0 / 256) + 0 mod 256) with 0.
    rewrite Z.sub_0_r.
    destruct (fold_complement (wsum (Z.to_nat (2 * h)) p3 0) q) as (q' & -> & Hf);
      [pose proof (wsum_bound (Z.to_nat (2 * h)) p3 0 Hb3); lia..|done|].
    cbn [mbind outcome_bind]. by rewrite Hf.
  - rewrite tcp_sum_calc_spec by (done || lia).
    rewrite (tcp_total_frame p3 p4 t _ (65535 - q)), (tcp_total_frame p2 p3 t _ 0) by (done || lia).
    rewrite (tcp_total_stored p1 p2 t _ (65535 - r)) by (done || lia).
    replace (t + 17) with (t + 16 + 1) by lia. rewrite A1, B1. change (256 * (0 / 256) + 0 mod 256) with 0.
    rewrite Z.sub_0_r.
    destruct (fold_complement (tcp_total p1 t (tot - t)) r) as (r' & -> & Hf); [lia..|done|].
    cbn [mbind outcome_bind]. by rewrite Hf.
Qed.

(** ** The Internet checksum of RFC 1071

    What a receiver checks, without reference to the code: the one's complement sum of the
    big-endian 16-bit words, an odd byte padded with zero, is all ones.  TCP sums its segment
    behind the pseudo header of RFC 9293: the addresses, a zero, the protocol 6, the length. *)
Fixpoint words16 (l : list Z) : list Z :=
  match l with
  | a :: b :: l => 256 * a + b :: words16 l
  | [a] => [256 * a]
  | [] => []
  end.

Definition ones_add (a b : Z) : Z := if a + b <? 65536 then a + b else a + b - 65535.
Definition ones_sum (l : list Z) : Z := foldr ones_add 0 (words16 l).

Definition pseudo_header (packet : list Z) (len : Z) : list Z :=
  sub packet 12 8 ++ [0; 6; len / 256; len mod 256].

(** [packet] is the whole IP packet, [t] the offset of its TCP header. *)
Definition valid_checksums (packet : list Z) (t : Z) : Prop :=
  ones_sum (take (Z.to_nat t) packet) = 65535
  ∧ ones_sum (pseudo_header packet (blen packet - t) ++ drop (Z.to_nat t) packet) = 65535.

Definition words_total (l : list Z) : Z := foldr Z.add 0 (words16 l).

(** Induction by words. *)
Lemma words16_ind (P : list Z → Prop) :
  P [] → (∀ a, P [a]) → (∀ a b l, P l → P (a :: b :: l)) → ∀ l, P l.
Proof.
  intros H0 H1 H2. fix IH 1. intros [|a [|b l]]; [exact H0|apply H1|apply H2, IH].
Qed.

Lemma words_total_nonneg l : bytes l → 0 <= words_total l.
Proof.
  unfold words_total. induction l as [|a|a b l IH] using words16_ind; intros Hb; [done|..];
    apply Forall_cons in Hb as [Ha Hb]; cbn [words16 foldr]; [lia|].
  apply Forall_cons in Hb as [Hb1 Hb]. specialize (IH Hb). lia.
Qed.

Lemma words_total_app l1 l2 : (length l1 mod 2 = 0)%nat → words_total (l1 ++ l2) = words_total l1 + words_total l2.
Proof.
  unfold words_total. induction l1 as [|a|a b l IH] using words16_ind; intros He; [done|done|].
  cbn [words16 foldr app]. rewrite IH; [lia|]. replace (length (a :: b :: l)) with (length l + 1 * 2)%nat in He by (cbn; lia).
  by rewrite Nat.Div0.mod_add in He.
Qed.

(** The one's complement sum and the plain sum agree modulo 65535. *)
Lemma ones_sum_spec l : bytes l → 0 <= ones_sum l <= 65535 ∧ (∃ k, words_total l = ones_sum l + 65535 * k)
  ∧ (ones_sum l = 0 ↔ words_total l = 0).
Proof.
  unfold ones_sum, words_total. intros Hb.
  assert (Hw : Forall (λ w, 0 <= w <= 65535) (words16 l)).
  { induction l as [|a|a b l IH] using words16_ind; cbn [words16]; [constructor|..];
      apply Forall_cons in Hb as [Ha Hb]; [repeat constructor; lia|].
    apply Forall_cons in Hb as [Hb1 Hb]. constructor; [lia|by apply IH]. }
  induction Hw as [|w ws Hw1 Hws IH]; cbn [foldr]; [split_and!; [done|done|by exists 0|done]|].
  destruct IH as (IH1 & (k & IH2) & IH3).
  assert (0 <= foldr Z.add 0 ws) by (clear -Hws; induction Hws; cbn [foldr]; lia).
  set (x := foldr ones_add 0 ws) in *. clearbody x. unfold ones_add.
  destruct (Z.ltb_spec (w + x) 65536); (split_and!; [lia|lia| |lia]); [exists k|exists (k + 1)]; lia.
Qed.

(** A sum the code folds to zero is valid. *)
Lemma folded_valid l s r : bytes l → words_total l = s → s < 2 ^ 32 →
  fold_carries FOLDS s = Ret r → finish_sum r = 0 → ones_sum l = 65535.
Proof.
  intros Hb <- Hs E Hf. pose proof (words_total_nonneg l Hb).
  destruct (fold_carries_spec (words_total l)) as (r' & E' & Hr & (k & Hk) & Hz); [lia|].
  rewrite E in E'. injection E' as <-. rewrite finish_sum_spec in Hf by done.
  assert (Er : 65535 - r = 0).
  { rewrite <-(ntohs_invol (65535 - r)) by lia. change (ntohs (65535 - r)) with (htons (65535 - r)). by rewrite Hf. }
  destruct (ones_sum_spec l Hb) as (Ho & (k' & Hk') & Hz').
  assert (ones_sum l ≠ 0) by (intros E0; apply Hz' in E0; lia).
  assert (ones_sum l = 65535 * (k + 1 - k')) by lia. nia.
Qed.

Lemma words_total_cons a b l : words_total (a :: b :: l) = 256 * a + b + words_total l.
Proof. done. Qed.

Lemma drop_two p o : 0 <= o → o + 2 <= blen p →
  drop (Z.to_nat o) p = p @@ o :: p @@ (o + 1) :: drop (Z.to_nat (o + 2)) p.
Proof.
  intros Ho Hl. unfold blen in Hl.
  assert (H1 : p !! Z.to_nat o = Some (p @@ o)).
  { destruct (lookup_lt_is_Some_2 p (Z.to_nat o)) as [v Hv]; [lia|]. by rewrite Hv, (at_lookup p o v). }
  assert (H2 : p !! Z.to_nat (o + 1) = Some (p @@ (o + 1))).
  { destruct (lookup_lt_is_Some_2 p (Z.to_nat (o + 1))) as [v Hv]; [lia|]. rewrite Hv, (at_lookup p (o + 1) v); [done|lia|done]. }
  rewrite (drop_S _ _ _ H1). f_equal. replace (S (Z.to_nat o)) with (Z.to_nat (o + 1)) by lia.
  rewrite (drop_S _ _ _ H2). f_equal. f_equal. lia.
Qed.

(** [n] words at [o], then what follows them. *)
Lemma words_total_drop n : ∀ p o, 0 <= o → o + 2 * Z.of_nat n <= blen p →
  words_total (drop (Z.to_nat o) p) = wsum n p o + words_total (drop (Z.to_nat (o + 2 * Z.of_nat n)) p).
Proof.
  induction n as [|n IH]; intros p o Ho Hl.
  - cbn [wsum]. replace (o + 2 * Z.of_nat 0) with o by lia. lia.
  - rewrite drop_two by lia. rewrite words_total_cons, IH by lia. cbn [wsum].
    replace (o + 2 + 2 * Z.of_nat n) with (o + 2 * Z.of_nat (S n)) by lia. lia.
Qed.

Lemma words_total_take n p o : 0 <= o → o + 2 * Z.of_nat n <= blen p →
  words_total (take (2 * n) (drop (Z.to_nat o) p)) = wsum n p o.
Proof.
  intros Ho Hl. unfold blen in Hl.
  assert (He : (length (take (2 * n) (drop (Z.to_nat o) p)) = 2 * n)%nat) by (rewrite length_take, length_drop; lia).
  pose proof (words_total_drop n p o Ho Hl) as H. rewrite <-(take_drop (2 * n) (drop (Z.to_nat o) p)) in H.
  rewrite words_total_app in H by (rewrite He, Nat.mul_comm; apply Nat.Div0.mod_mul).
  rewrite drop_drop in H. replace (Z.to_nat o + 2 * n)%nat with (Z.to_nat (o + 2 * Z.of_nat n)) in H by lia. lia.
Qed.

Lemma words_total_header p h : 0 <= h → 4 * h <= blen p →
  words_total (take (Z.to_nat (4 * h)) p) = wsum (Z.to_nat (2 * h)) p 0.
Proof.
  intros Hh Hl. rewrite <-(words_total_take (Z.to_nat (2 * h)) p 0) by lia.
  change (drop (Z.to_nat 0) p) with p. do 2 f_equal. lia.
Qed.

Lemma words_total_segment p t : 20 <= t → t <= blen p → blen p - t <= 65535 →
  words_total (pseudo_header p (blen p - t) ++ drop (Z.to_nat t) p) = tcp_total p t (blen p - t).
Proof.
  intros Ht Hl Hlen. set (len := blen p - t). unfold pseudo_header, sub.
  assert (E8 : length (take (Z.to_nat 8) (drop (Z.to_nat 12) p)) = 8%nat)
    by (unfold blen in *; rewrite length_take, length_drop; lia).
  rewrite <-app_assoc, words_total_app by (by rewrite E8). rewrite words_total_app by done.
  change (Z.to_nat 8) with (2 * 4)%nat. rewrite words_total_take by lia. fold (pseudo_sum p).
  change (words_total [0; 6; len / 256; len mod 256]) with (256 * 0 + 6 + (256 * (len / 256) + len mod 256 + 0)).
  pose proof (Z.div_mod len 256 ltac:(lia)) as Hdm. pose proof (Z.div_mod len 2 ltac:(lia)) as H2.
  pose proof (Z.mod_pos_bound len 2 ltac:(lia)) as H3. assert (Hq : 0 <= len / 2) by (apply Z.div_pos; lia).
  rewrite (words_total_drop (Z.to_nat (len / 2)) p t) by lia. rewrite Z2Nat.id by done.
  unfold tcp_total. set (o := t + 2 * (len / 2)). assert (Ho : 0 <= o) by lia.
  destruct (Z.eqb_spec (len mod 2) 1) as [Eo|Eo].
  - assert (E1 : drop (Z.to_nat o) p = [p @@ o]).
    { destruct (lookup_lt_is_Some_2 p (Z.to_nat o)) as [v Hv]; [unfold blen in *; lia|].
      rewrite (drop_S _ _ _ Hv), (at_lookup p o v) by done. f_equal. apply drop_ge. unfold blen in *. lia. }
    rewrite E1. change (words_total [p @@ o]) with (256 * p @@ o + 0). lia.
  - rewrite drop_ge by (unfold blen in *; lia). change (words_total []) with 0. lia.
Qed.

(** What lies behind the packet in its buffer plays no part. *)
Lemma wsum_app n p R : ∀ o, 0 <= o → o + 2 * Z.of_nat n <= blen p → wsum n (p ++ R) o = wsum n p o.
Proof.
  induction n as [|n IH]; intros o Ho Hl; [done|]. cbn [wsum]. rewrite IH by lia. by rewrite !at_app_l by lia.
Qed.

Lemma tcp_total_app p R t len : 20 <= t → 0 <= len → t + len <= blen p → tcp_total (p ++ R) t len = tcp_total p t len.
Proof.
  intros Ht Hl Hin. pose proof (Z.div_mod len 2 ltac:(lia)). pose proof (Z.mod_pos_bound len 2 ltac:(lia)).
  assert (0 <= len / 2) by (apply Z.div_pos; lia).
  unfold tcp_total, pseudo_sum. rewrite !wsum_app by lia. destruct (Z.eqb_spec (len mod 2) 1); [|done].
  by rewrite at_app_l by lia.
Qed.

(** The program's own sums against the receiver's. *)
Lemma sums_valid q R t h : t = 4 * h → 20 <= t → t + 20 <= blen q < 65536 → bytes (q ++ R) → 1 <= blen R →
  ip_sum_calc (q ++ R) t 0 = Ret 0 → tcp_sum_calc (q ++ R) (blen q - t) 12 16 t = Ret 0 → valid_checksums q t.
Proof.
  intros -> Ht Hq Hb HR Hip Htcp. pose proof (blen_app q R) as Hqr. pose proof Hb as Hbq. apply Forall_app in Hbq as [Hbq _].
  rewrite ip_sum_calc_spec in Hip by (done || lia). apply bind_Ret in Hip as (r & Er & Hr). injection Hr as Hr.
  rewrite tcp_sum_calc_spec in Htcp by (done || lia). apply bind_Ret in Htcp as (r' & Er' & Hr'). injection Hr' as Hr'.
  rewrite wsum_app in Er by lia. rewrite tcp_total_app in Er' by lia.
  split.
  - eapply folded_valid; [by apply Forall_take|apply words_total_header; lia| |exact Er|exact Hr].
    pose proof (wsum_bound (Z.to_nat (2 * h)) q 0 Hbq). lia.
  - eapply folded_valid; [|apply words_total_segment; lia| |exact Er'|exact Hr'].
    + apply bytes_app; [|by apply Forall_drop]. unfold pseudo_header. apply bytes_app; [by apply bytes_sub|].
      pose proof (Z.mod_pos_bound (blen q - 4 * h) 256 ltac:(lia)).
      assert (0 <= (blen q - 4 * h) / 256 < 256) by (split; [apply Z.div_pos; lia|apply Z.div_lt_upper_bound; lia]).
      repeat constructor; lia.
    + pose proof (tcp_total_bound q (4 * h) (blen q - 4 * h) Hbq ltac:(lia)). lia.
Qed.

Lemma checksum_valid p t tot :
  tcp_packet p t tot →
  ∃ p', checksum p = Ret p' ∧ blen p' = blen p ∧ bytes p'
    ∧ (∀ i, 0 <= i → i ≠ 10 → i ≠ 11 → i ≠ t + 16 → i ≠ t + 17 → p' @@ i = p @@ i)
    ∧ valid_checksums (sub p' 0 tot) t.
Proof.
  intros Hp. destruct (checksum_spec p t tot Hp) as (p' & E & Hl & Hb & Hf & Hip & Htcp). exists p'.
  split_and!; [done..|]. destruct Hp as [_ _ Htc Ht _ Hlen Hin]. destruct (tcph_even p t Htc) as (h & Eh).
  assert (Hin' : in_object p' 0 tot = true) by (unfold in_object; bool_lia; done).
  assert (Es : p' = sub p' 0 tot ++ drop (Z.to_nat tot) p') by (unfold sub; by rewrite drop_0, take_drop).
  apply (sums_valid _ (drop (Z.to_nat tot) p') t h); rewrite ?(blen_sub _ _ _ Hin'), <-?Es; try done; try lia.
  unfold blen in *. rewrite length_drop. lia.
Qed.

(** C17: [checksum] fills in both checksums of a TCP packet that fits in its buffer
    (of odd or even length), in bounds and in a bounded number of carry folds, and changes
    nothing else: by the rule of RFC 1071, stated on the bytes of the packet alone, both the
    IP header and the TCP segment behind its pseudo header are valid. *)
Theorem checksum_verifies p t tot :
  tcp_packet p t tot →
  ∃ p', checksum p = Ret p' ∧ blen p' = blen p
    ∧ (∀ i, 0 <= i → i ≠ 10 → i ≠ 11 → i ≠ t + 16 → i ≠ t + 17 → p' @@ i = p @@ i)
    ∧ valid_checksums (sub p' 0 tot) t.
Proof.
  intros Hp. destruct (checksum_valid p t tot Hp) as (p' & E & Hl & _ & H). by exists p'.
Qed.

(** A SYN of 41 bytes (one byte of data) in a 48-byte buffer. *)
Definition demo_packet : buffer :=
  [69; 0; 0; 41; 0; 0; 64; 0; 64; 6; 0; 0; 10; 0; 0; 1; 10; 0; 0; 2;
   0; 80; 15; 160; 0; 0; 0; 1; 0; 0; 0; 0; 80; 2; 255; 255; 0; 0; 0; 0; 7; 9; 9; 9; 9; 9; 9; 9].

Lemma demo_packet_ok : tcp_packet demo_packet 20 41.
Proof.
  split; try (vm_compute; reflexivity); try lia.
  - repeat constructor; lia.
  - unfold blen. simpl. lia.
Qed.

Lemma checksum_verifies_witness :
  ∃ p', checksum demo_packet = Ret p' ∧ blen p' = blen demo_packet
    ∧ (∀ i, 0 <= i → i ≠ 10 → i ≠ 11 → i ≠ 20 + 16 → i ≠ 20 + 17 → p' @@ i = demo_packet @@ i)
    ∧ valid_checksums (sub p' 0 41) 20.
Proof. apply (checksum_verifies demo_packet 20 41). apply demo_packet_ok. Defined.

(** A valid packet: a SYN from 10.0.0.1 to 10.0.0.2. *)
Example valid_example :
  valid_checksums [69; 0; 0; 40; 0; 0; 64; 0; 64; 6; 38; 206; 10; 0; 0; 1; 10; 0; 0; 2;
                   0; 80; 15; 160; 0; 0; 0; 1; 0; 0; 0; 0; 80; 2; 255; 255; 139; 239; 0; 0] 20.
Proof. split; vm_compute; reflexivity. Qed.
