(* ===== verification/TcpOptions.v ===== *)
(** * TCP options and the Network Optimization Detection option
    (opennopd/tcpoptions.c, include/tcpoptions.h)

    All functions work in place on the packet buffer; [opt] is the offset of
    the option area.  [fuel] bounds the [for] loops whose index is a [__u8]:
    out of fuel is [Spin]. *)
From S2P Require Import Prelude Packet.

Definition TCPOPT_EOL : Z := 0.
Definition TCPOPT_NOP : Z := 1.
Definition NOD : Z := 33.

(** The identifier "ONOP" as a C string without its terminator. *)
Definition ONOP : list Z := [79; 78; 79; 80].

Definition opt_area (p : buffer) : outcome Z := t ← tcph_of p; Ret (t + SIZEOF_TCPHDR).

(** [tcph->doff*4 - sizeof(struct tcphdr)], a [size_t]. *)
Definition opt_limit (p : buffer) : outcome Z :=
  t ← tcph_of p; d ← tcp_doff p t; Ret (u64 (d * 4 - SIZEOF_TCPHDR)).

Definition optlen (p : buffer) (opt offset : Z) : outcome Z :=
  k ← rd p (opt + offset);
  if k <=? TCPOPT_NOP then Ret 1
  else l ← rd p (opt + (offset + 1)); Ret (if l =? 0 then 1 else l).

Section Loops.
Context (fuel : nat).

(** ** Finding an option *)
Fixpoint get_tcpopt_loop (n : nat) (p : buffer) (opt lim num i : Z) : outcome (option Z) :=
  match n with
  | O => Spin
  | S n' =>
      if i <? lim then
        k ← rd p (opt + i);
        if k =? num then Ret (Some (opt + i))
        else l ← optlen p opt i; get_tcpopt_loop n' p opt lim num (u8 (i + l))
      else Ret None
  end.

Definition get_tcpopt (p : buffer) (num : Z) : outcome (option Z) :=
  opt ← opt_area p; lim ← opt_limit p; get_tcpopt_loop fuel p opt lim num 0.

(** ** Dropping the NOP options *)
Fixpoint drop_nops (n : nat) (p : buffer) (opt lim i : Z) : outcome buffer :=
  match n with
  | O => Spin
  | S n' =>
      k ← rd p (opt + i);
      if k =? TCPOPT_NOP then
        p ← memmove p (opt + i) (opt + i + 1) (u64 (lim - i - 1));
        p ← wr p (opt + u64 (lim - 1)) 0;
        drop_nops n' p opt lim i
      else Ret p
  end.

Fixpoint remove_nop_loop (n : nat) (p : buffer) (opt lim i : Z) : outcome buffer :=
  match n with
  | O => Spin
  | S n' =>
      if i <? lim then
        p ← drop_nops fuel p opt lim i;
        l ← optlen p opt i;
        remove_nop_loop n' p opt lim (u8 (i + l))
      else Ret p
  end.

Definition remove_tcpopt_nop (p : buffer) : outcome buffer :=
  opt ← opt_area p;
  t ← tcph_of p;
  d ← tcp_doff p t;
  lim ← opt_limit p;
  if 5 <? d then remove_nop_loop fuel p opt lim 0 else Ret p.

(** ** Free space after the end-of-options mark *)
Fixpoint freespace_loop (n : nat) (p : buffer) (opt lim i : Z) : outcome Z :=
  match n with
  | O => Spin
  | S n' =>
      if i <? lim then
        k ← rd p (opt + i);
        if k =? TCPOPT_EOL then Ret (u8 (lim - i))
        else l ← optlen p opt i; freespace_loop n' p opt lim (u8 (i + l))
      else Ret 0
  end.

Definition get_tcpopt_freespace (p : buffer) : outcome (buffer * Z) :=
  p ← remove_tcpopt_nop p;
  opt ← opt_area p;
  t ← tcph_of p;
  d ← tcp_doff p t;
  lim ← opt_limit p;
  s ← (if 5 <? d then freespace_loop fuel p opt lim 0 else Ret 0);
  Ret (p, s).

(** Words of 4 bytes that [spaceneeded] bytes take. *)
Definition dwords (spaceneeded : Z) : Z :=
  u8 (spaceneeded / 4 + (if spaceneeded mod 4 =? 0 then 0 else 1)).

Definition get_tcpopt_addoff_needed (p : buffer) (bytestoadd : Z) : outcome (buffer * Z) :=
  '(p, optspace) ← get_tcpopt_freespace p;
  Ret (p, if optspace <? bytestoadd then dwords (u8 (bytestoadd - optspace)) else 0).

(** ** Making room *)
Definition shift_tcpopt_space (p : buffer) (location nbytes : Z) : outcome (buffer * Z) :=
  optend ← get_tcpopt p TCPOPT_EOL;
  match optend with
  | Some e =>
      let bytestotcpoptend := u8 (e - location) in
      p ← memmove p (location + nbytes) location bytestotcpoptend;
      p ← memset p location 0 nbytes;
      p ← wr p location 65;
      p ← wr p (location + (nbytes - 1)) 90;
      Ret (p, nbytes)
  | None => Ret (p, 0)
  end.

(** Zeroes [opt[base .. base+n-1]]. *)
Fixpoint zero_loop (n : nat) (p : buffer) (o : Z) : outcome buffer :=
  match n with
  | O => Ret p
  | S n' => p ← wr p o 0; zero_loop n' p (o + 1)
  end.

(** Move the TCP data [addoff] words back and zero the gap. *)
Definition open_gap (p : buffer) (t tot d addoff : Z) : outcome buffer :=
  let opt := t + SIZEOF_TCPHDR in
  let e := opt + d * 4 - SIZEOF_TCPHDR in
  p ← memmove p (e + addoff * 4) e (u64 (ntohs tot - t - d * 4));
  zero_loop (Z.to_nat (addoff * 4)) p e.

Definition add_tcpopt_addoff (p : buffer) (addoff : Z) : outcome (buffer * Z) :=
  t ← tcph_of p;
  if addoff =? 0 then Ret (p, -1) else
  d ← tcp_doff p t;
  if d + addoff <=? 15 then
    tot ← ip_tot_len p;
    p ← open_gap p t tot d addoff;
    p ← set_tcp_doff p t (d + addoff);
    tot ← ip_tot_len p;
    p ← set_ip_tot_len p (htons (u16 (ntohs tot + addoff * 4)));
    Ret (p, 0)
  else Ret (p, -1).

Definition add_tcpopt_bytes (p : buffer) (nbytes : Z) : outcome (buffer * Z) :=
  '(p, addoff) ← get_tcpopt_addoff_needed p nbytes;
  add_tcpopt_addoff p addoff.

Definition set_tcpopt (p : buffer) (num len : Z) : outcome (buffer * option Z) :=
  opt ← get_tcpopt p num;
  match opt with
  | Some o => Ret (p, Some o)
  | None =>
      '(p, addoff) ← get_tcpopt_addoff_needed p 2;
      '(p, _) ← add_tcpopt_addoff p addoff;
      opt ← get_tcpopt p TCPOPT_EOL;
      match opt with
      | Some o => p ← wr p o num; p ← wr p (o + 1) len; Ret (p, Some o)
      | None => Ret (p, None)
      end
  end.
End Loops.

(** ** The NOD option *)

(** [struct nodhdr] at offset [n]: [tot_len], then [idlen:3 | hdr_len:5], then the id. *)
Definition nod_tot_len (p : buffer) (n : Z) : outcome Z := rd p n.
Definition nod_idlen (p : buffer) (n : Z) : outcome Z := x ← rd p (n + 1); Ret (x mod 8).
Definition nod_hdr_len (p : buffer) (n : Z) : outcome Z := x ← rd p (n + 1); Ret (x / 8).
Definition set_nod_tot_len (p : buffer) (n v : Z) : outcome buffer := wr p n v.
Definition set_nod_idlen (p : buffer) (n v : Z) : outcome buffer :=
  x ← rd p (n + 1); wr p (n + 1) (x / 8 * 8 + v mod 8).
Definition set_nod_hdr_len (p : buffer) (n v : Z) : outcome buffer :=
  x ← rd p (n + 1); wr p (n + 1) (x mod 8 + 8 * (v mod 32)).

Fixpoint check_nod_header (p : buffer) (iddata : Z) (id : list Z) : outcome bool :=
  match id with
  | [] => Ret true
  | c :: id' => x ← rd p iddata; if c =? x then check_nod_header p (iddata + 1) id' else Ret false
  end.

Fixpoint set_nod_header_id (p : buffer) (idloc : Z) (id : list Z) : outcome buffer :=
  match id with
  | [] => Ret p
  | c :: id' => p ← wr p idloc c; set_nod_header_id p (idloc + 1) id'
  end.

(** The code compares the addresses of its own parameters: [delta] is
    [(__u8* )&nodh - (__u8* )&nod], which the compiler chooses. *)
Section Nod.
Context (fuel : nat) (delta : Z).

Definition get_nod_next_header (p : buffer) (nod nodh : Z) : outcome (option Z) :=
  olen ← rd p (nod + 1);
  tlen ← nod_tot_len p nodh;
  Ret (if olen <? delta + tlen then Some (nodh + 3 * tlen) else None).

Fixpoint get_nod_header_loop (n : nat) (p : buffer) (nod : Z) (id : list Z) (nodh : Z)
    : outcome (option Z) :=
  match n with
  | O => Spin
  | S n' =>
      il ← nod_idlen p nodh;
      same ← (if il =? blen id then check_nod_header p (nodh + 2) id else Ret false);
      if (same : bool) then Ret (Some nodh)
      else
        next ← get_nod_next_header p nod nodh;
        match next with
        | Some nodh' => get_nod_header_loop n' p nod id nodh'
        | None => Ret None
        end
  end.

Definition get_nod_header (p : buffer) (id : list Z) : outcome (option Z) :=
  nod ← get_tcpopt fuel p NOD;
  match nod with
  | Some o =>
      l ← rd p (o + 1);
      if 2 <? l then get_nod_header_loop fuel p o id (o + 2) else Ret None
  | None => Ret None
  end.

Definition set_nod_header (p : buffer) (id : list Z) : outcome (buffer * Z) :=
  '(p, nod) ← set_tcpopt fuel p NOD 2;
  nodh ← get_nod_header p id;
  match nodh with
  | Some n => Ret (p, n)
  | None =>
      let headerlen := u8 (2 + blen id) in
      '(p, _) ← add_tcpopt_bytes fuel p headerlen;
      nod ← of_option nod;
      l ← rd p (nod + 1);
      '(p, _) ← shift_tcpopt_space fuel p (nod + l) headerlen;
      l ← rd p (nod + 1);
      let n := nod + l in
      p ← wr p (nod + 1) (l + headerlen);
      p ← set_nod_tot_len p n headerlen;
      p ← set_nod_idlen p n (u8 (blen id));
      p ← set_nod_hdr_len p n headerlen;
      p ← set_nod_header_id p (n + 2) id;
      _ ← get_nod_header p id;
      Ret (p, n)
  end.

(** [hdrdta.data_len] and the offset [hdrdta.data] ([None] is NULL). *)
Definition get_nod_header_data (p : buffer) (id : list Z) : outcome (Z * option Z) :=
  nodh ← get_nod_header p id;
  match nodh with
  | Some n =>
      hl ← nod_hdr_len p n;
      il ← nod_idlen p n;
      Ret (if il + 2 <? hl then (u8 (hl - (il + 2)), Some (n + il + 2)) else (0, None))
  | None => Ret (0, None)
  end.

Definition set_nod_header_data (p : buffer) (id data : list Z) : outcome buffer :=
  let len := blen data in
  '(p, nodh) ← set_nod_header p id;
  nod ← get_tcpopt fuel p NOD;
  match nod with
  | None => Ret p
  | Some o =>
      hl ← nod_hdr_len p nodh;
      il ← nod_idlen p nodh;
      if hl =? il + 2 then
        '(p, r) ← add_tcpopt_bytes fuel p len;
        if r =? 0 then
          '(p, fs) ← get_tcpopt_freespace fuel p;
          if len <=? fs then
            hl ← nod_hdr_len p nodh;
            '(p, _) ← shift_tcpopt_space fuel p (nodh + hl) len;
            ol ← rd p (o + 1);
            p ← wr p (o + 1) (ol + len);
            tl ← nod_tot_len p nodh;
            p ← set_nod_tot_len p nodh (tl + len);
            hl ← nod_hdr_len p nodh;
            p ← set_nod_hdr_len p nodh (hl + len);
            il ← nod_idlen p nodh;
            copy_in p (nodh + il + 2) data 0 len
          else Ret p
        else Ret p
      else Ret p
  end.
End Nod.

(** ** Reading and writing an option by number *)
Section Raw.
Context (fuel : nat).

(** [opt[..] << 8*count] is computed in [int]. *)
Definition int_shl (x s : Z) : outcome Z :=
  if (s <? 32) && (Z.shiftl x s <? 2 ^ 31) then Ret (Z.shiftl x s) else Undef.

Fixpoint option_data (count : nat) (p : buffer) (o bytefield acc : Z) : outcome Z :=
  match count with
  | O => Ret acc
  | S c =>
      x ← rd p (o + bytefield);
      v ← int_shl x (8 * Z.of_nat c);
      option_data c p o (u8 (bytefield + 1)) (u64 (acc + v))
  end.

Fixpoint get_option_loop (n : nat) (p : buffer) (opt lim d num i : Z) : outcome Z :=
  match n with
  | O => Spin
  | S n' =>
      if i <? lim then
        k ← rd p (opt + i);
        if k =? num then
          len ← rd p (opt + (i + 1));
          if len <=? d * 4 - i then
            if len =? 2 then Ret 1
            else option_data (Z.to_nat (u8 (len - 2))) p (opt + i) 2 0
          else l ← optlen p opt i; get_option_loop n' p opt lim d num (u8 (i + l))
        else l ← optlen p opt i; get_option_loop n' p opt lim d num (u8 (i + l))
      else Ret 0
  end.

Definition __get_tcp_option (p : buffer) (num : Z) : outcome Z :=
  opt ← opt_area p;
  t ← tcph_of p;
  d ← tcp_doff p t;
  lim ← opt_limit p;
  get_option_loop fuel p opt lim d num 0.

(** [tcpoptdata >> 8*count] on a 64-bit value. *)
Definition u64_shr (x s : Z) : outcome Z := if s <? 64 then Ret (Z.shiftr x s) else Undef.

Fixpoint write_option_data (count : nat) (p : buffer) (o bytefield data : Z) : outcome buffer :=
  match count with
  | O => Ret p
  | S c =>
      v ← u64_shr data (8 * Z.of_nat c);
      p ← wr p (o + bytefield) v;
      write_option_data c p o (u8 (bytefield + 1)) data
  end.

(** Updates the option in place; [None] when it is not there. *)
Fixpoint update_option_loop (n : nat) (p : buffer) (opt lim d num len data i : Z)
    : outcome (option buffer) :=
  match n with
  | O => Spin
  | S n' =>
      if i <? lim then
        k ← rd p (opt + i);
        hit ← (if (k =? num) && (len <=? u32 (d * 4 - i))
               then l ← rd p (opt + (i + 1)); Ret (l =? len) else Ret false);
        if (hit : bool) then
          p ← write_option_data (Z.to_nat (u8 (len - 2))) p (opt + i) 2 data; Ret (Some p)
        else l ← optlen p opt i; update_option_loop n' p opt lim d num len data (u8 (i + l))
      else Ret None
  end.

(** Drops the NOPs up to the end-of-options mark; returns the free space there. *)
Fixpoint compact_loop (n : nat) (p : buffer) (opt lim i : Z) : outcome (buffer * Z) :=
  match n with
  | O => Spin
  | S n' =>
      if i <? lim then
        p ← drop_nops fuel p opt lim i;
        k ← rd p (opt + i);
        if k =? TCPOPT_EOL then Ret (p, u8 (lim - i))
        else l ← optlen p opt i; compact_loop n' p opt lim (u8 (i + l))
      else Ret (p, 0)
  end.

Definition insert_option (p : buffer) (opt t d num len data : Z) : outcome (buffer * Z) :=
  lim ← opt_limit p;
  '(p, optspace) ← (if 5 <? d then compact_loop fuel p opt lim 0 else Ret (p, 0));
  let addoff := if optspace <? len then dwords (u8 (len - optspace)) else 0 in
  if d + addoff <=? 15 then
    tot ← ip_tot_len p;
    p ← (if addoff =? 0 then Ret p else open_gap p t tot d addoff);
    p ← memmove p (opt + len) opt (u64 (lim - optspace));
    p ← wr p opt num;
    p ← wr p (opt + 1) len;
    p ← write_option_data (Z.to_nat (u8 (len - 2))) p opt 2 data;
    p ← (if addoff =? 0 then Ret p else set_tcp_doff p t (d + addoff));
    tot ← ip_tot_len p;
    p ← set_ip_tot_len p (htons (u16 (ntohs tot + addoff * 4)));
    Ret (p, 0)
  else Ret (p, -1).

Definition __set_tcp_option (p : buffer) (num len data : Z) : outcome (buffer * Z) :=
  opt ← opt_area p;
  t ← tcph_of p;
  d ← tcp_doff p t;
  lim ← opt_limit p;
  found ← (if 5 <? d then update_option_loop fuel p opt lim d num len data 0 else Ret None);
  match found with
  | Some p => Ret (p, 0)
  | None => insert_option p opt t d num len data
  end.
End Raw.
