(* ===== verification/OptionLayout.v ===== *)
(** * The option area as a list of options

    A packet is the concatenation of its headers, its option area, its payload
    and the rest of its buffer; the option area is a list of options followed by
    end-of-options padding.  On this view the functions of tcpoptions.c, which
    move bytes in place, are list operations. *)
From S2P Require Import Prelude Packet TcpOptions.

(** ** Options *)
Inductive item := Nop | Opt (kind : Z) (data : list Z).

Definition kind (it : item) : Z := match it with Nop => TCPOPT_NOP | Opt k _ => k end.

Definition enc1 (it : item) : list Z :=
  match it with Nop => [TCPOPT_NOP] | Opt k d => k :: (2 + blen d) :: d end.

Fixpoint enc (items : list item) : list Z :=
  match items with [] => [] | it :: items' => enc1 it ++ enc items' end.

Definition item_ok (it : item) : Prop :=
  match it with Nop => True | Opt k d => 1 < k < 256 ∧ blen d < 254 ∧ bytes d end.

Definition no_nops (items : list item) : list item :=
  filter (λ it, kind it ≠ TCPOPT_NOP) items.

Lemma enc_app l k : enc (l ++ k) = enc l ++ enc k.
Proof. induction l as [|it l IH]; simpl; [done|]. by rewrite IH, app_assoc. Qed.

Lemma enc1_length it : 1 <= blen (enc1 it).
Proof. destruct it as [|k d]; [done|]. unfold blen. simpl. lia. Qed.

Lemma enc_length items : Z.of_nat (length items) <= blen (enc items).
Proof.
  induction items as [|it l IH]; [done|]. simpl enc. rewrite blen_app.
  pose proof (enc1_length it). simpl length. lia.
Qed.

Lemma enc1_bytes it : item_ok it → bytes (enc1 it).
Proof.
  destruct it as [|k d]; simpl; [repeat constructor; done|]. intros (Hk & Hl & Hd).
  pose proof (blen_nonneg d). constructor; [lia|]. constructor; [lia|done].
Qed.

Lemma enc_bytes items : Forall item_ok items → bytes (enc items).
Proof. induction 1; simpl; [constructor|]. apply bytes_app; [by apply enc1_bytes|done]. Qed.

Lemma no_nops_cons it items :
  no_nops (it :: items) = if bool_decide (kind it = TCPOPT_NOP) then no_nops items else it :: no_nops items.
Proof.
  unfold no_nops. case_bool_decide; [by rewrite filter_cons_False by tauto|by rewrite filter_cons_True].
Qed.

Lemma no_nops_ok items : Forall item_ok items → Forall item_ok (no_nops items).
Proof. induction 1 as [|it l Hit Hl IH]; [constructor|]. rewrite no_nops_cons. case_bool_decide; [done|by constructor]. Qed.

Lemma kind_nop it : item_ok it → kind it = TCPOPT_NOP → it = Nop.
Proof. destruct it as [|k d]; [done|]. simpl. unfold TCPOPT_NOP. intros (? & _) ?. lia. Qed.

Lemma kind_pos it : item_ok it → 1 <= kind it.
Proof. destruct it as [|k d]; simpl; [done|]. intros (? & _). lia. Qed.

(** ** Reading the area.  [H] is what precedes it, [R] what follows it. *)
Section Area.
Context (H R : list Z).
Implicit Types (X Y : list Z) (items : list item).

Lemma area_split X Y a : H ++ (X ++ a :: Y) ++ R = (H ++ X) ++ a :: (Y ++ R).
Proof. by rewrite <-!app_assoc. Qed.

Lemma area_rd X Y a : rd (H ++ (X ++ a :: Y) ++ R) (blen H + blen X) = Ret a.
Proof. rewrite area_split. apply rd_app. by rewrite blen_app. Qed.

Lemma area_wr X Y a v :
  wr (H ++ (X ++ a :: Y) ++ R) (blen H + blen X) v = Ret (H ++ (X ++ u8 v :: Y) ++ R).
Proof. rewrite area_split, wr_app by (by rewrite blen_app). by rewrite area_split. Qed.

Lemma optlen_item X Y it :
  item_ok it → optlen (H ++ (X ++ enc1 it ++ Y) ++ R) (blen H) (blen X) = Ret (blen (enc1 it)).
Proof.
  intros Hok. unfold optlen. destruct it as [|k d]; simpl enc1; cbn [app].
  - rewrite area_rd. done.
  - rewrite area_rd. cbn [mbind outcome_bind]. destruct Hok as (Hk & Hl & _).
    unfold TCPOPT_NOP. bool_lia.
    replace (X ++ k :: 2 + blen d :: d ++ Y) with ((X ++ [k]) ++ 2 + blen d :: d ++ Y) by (by rewrite <-app_assoc).
    replace (blen X + 1) with (blen (X ++ [k])) by (by rewrite blen_app).
    rewrite area_rd. cbn [mbind outcome_bind]. pose proof (blen_nonneg d). bool_lia.
    do 2 f_equal. unfold blen. simpl. lia.
Qed.

Lemma optlen_zero X Y : optlen (H ++ (X ++ 0 :: Y) ++ R) (blen H) (blen X) = Ret 1.
Proof. unfold optlen. by rewrite area_rd. Qed.

Lemma area_head X Y it : rd (H ++ (X ++ enc1 it ++ Y) ++ R) (blen H + blen X) = Ret (kind it).
Proof. destruct it; simpl; apply area_rd. Qed.

Lemma regroup X it Y : X ++ enc1 it ++ Y = (X ++ enc1 it) ++ Y.
Proof. apply app_assoc. Qed.

(** *** [get_tcpopt] *)
Lemma loop_hit n X Y a lim :
  blen X < lim →
  get_tcpopt_loop (S n) (H ++ (X ++ a :: Y) ++ R) (blen H) lim a (blen X) = Ret (Some (blen H + blen X)).
Proof. intros Hl. cbn [get_tcpopt_loop]. bool_lia. rewrite area_rd. cbn [mbind outcome_bind]. by rewrite Z.eqb_refl. Qed.

Lemma loop_items items n X Y num lim :
  Forall item_ok items → Forall (λ it, kind it ≠ num) items →
  blen X + blen (enc items) <= lim → lim <= 40 → (length items <= n)%nat →
  get_tcpopt_loop n (H ++ (X ++ enc items ++ Y) ++ R) (blen H) lim num (blen X)
  = get_tcpopt_loop (n - length items) (H ++ (X ++ enc items ++ Y) ++ R) (blen H) lim num
      (blen X + blen (enc items)).
Proof.
  revert n X. induction items as [|it items IH]; intros n X Hok Hk Hl Hlim Hn; simpl in Hn |- *.
  { by rewrite Z.add_0_r, Nat.sub_0_r. }
  destruct n as [|n]; [lia|]. apply Forall_cons in Hok as [Hit Hok]. apply Forall_cons in Hk as [Hki Hk].
  cbn [enc] in Hl. rewrite blen_app in Hl |- *. pose proof (enc1_length it). pose proof (blen_nonneg (enc items)).
  pose proof (blen_nonneg X). cbn [get_tcpopt_loop]. bool_lia. rewrite <-(app_assoc (enc1 it)).
  rewrite area_head. cbn [mbind outcome_bind].
  replace (kind it =? num) with false by (symmetry; by apply Z.eqb_neq).
  rewrite optlen_item by done. cbn [mbind outcome_bind].
  rewrite u8_small by lia. rewrite regroup. rewrite <-blen_app.
  rewrite IH by (try done; rewrite ?blen_app; lia). rewrite blen_app. f_equal. lia.
Qed.

Lemma loop_zeros z n X Y num lim :
  num ≠ 0 → 0 <= z → lim = blen X + z → lim <= 40 → z < Z.of_nat n →
  get_tcpopt_loop n (H ++ (X ++ zeros z ++ Y) ++ R) (blen H) lim num (blen X) = Ret None.
Proof.
  intros Hnum Hz -> Hlim Hn. revert z X Hz Hlim Hn.
  induction n as [|n IH]; intros z X Hz Hlim Hn; [lia|]. cbn [get_tcpopt_loop].
  destruct (decide (z = 0)) as [->|Hz0]; [by bool_lia|].
  pose proof (blen_nonneg X). bool_lia. rewrite zeros_S by lia. cbn [app].
  rewrite area_rd. cbn [mbind outcome_bind]. replace (0 =? num) with false by (symmetry; apply Z.eqb_neq; lia).
  rewrite optlen_zero. cbn [mbind outcome_bind]. rewrite u8_small by lia.
  replace (X ++ 0 :: zeros (z - 1) ++ Y) with ((X ++ [0]) ++ zeros (z - 1) ++ Y) by (by rewrite <-app_assoc).
  replace (blen X + 1) with (blen (X ++ [0])) by (by rewrite blen_app).
  replace (blen X + z) with (blen (X ++ [0]) + (z - 1)) by (rewrite blen_app; change (blen [0]) with 1; lia).
  apply IH; [lia| |lia]. rewrite blen_app. change (blen [0]) with 1. lia.
Qed.
End Area.

(** ** Moving and overwriting segments *)
Lemma rd_app_l H X i : 0 <= i < blen H → rd (H ++ X) i = rd H i.
Proof.
  intros Hi. pose proof (blen_nonneg X). rewrite !rd_at by (rewrite ?blen_app; lia).
  by rewrite at_app_l.
Qed.

Lemma in_object_app L M R o n :
  o = blen L → n = blen M → in_object (L ++ M ++ R) o n = true.
Proof.
  intros -> ->. unfold in_object. rewrite !blen_app. pose proof (blen_nonneg L).
  pose proof (blen_nonneg M). pose proof (blen_nonneg R). by bool_lia.
Qed.

Lemma shift_left L a Y R :
  ∃ z, memmove (L ++ (a :: Y) ++ R) (blen L) (blen L + 1) (blen Y) = Ret (L ++ Y ++ z :: R).
Proof.
  destruct (exists_last (l := a :: Y)) as (Y0 & z & E); [done|].
  assert (Hl : length Y0 = length Y).
  { apply (f_equal length) in E. rewrite length_app in E. simpl in E. lia. }
  exists z. rewrite memmove_Ret.
  - f_equal. replace (blen L + 1) with (blen (L ++ [a])) by (by rewrite blen_app).
    assert (Hs : sub (L ++ (a :: Y) ++ R) (blen (L ++ [a])) (blen Y) = Y).
    { change ((a :: Y) ++ R) with ([a] ++ Y ++ R). rewrite app_assoc. apply sub_app. }
    rewrite Hs, E. rewrite <-(app_assoc Y0). cbn [app]. by rewrite put_app.
  - rewrite E, <-(app_assoc Y0). apply in_object_app; [done|].
    unfold blen. by rewrite Hl.
  - change ((a :: Y) ++ R) with ([a] ++ Y ++ R). rewrite app_assoc. apply in_object_app; [|done].
    by rewrite blen_app.
Qed.

Lemma shift_right L M G R :
  ∃ G', blen G' = blen G
    ∧ memmove (L ++ M ++ G ++ R) (blen L + blen G) (blen L) (blen M) = Ret (L ++ G' ++ M ++ R).
Proof.
  set (T := M ++ G). pose proof (blen_nonneg G). pose proof (blen_nonneg M).
  exists (take (length G) T). split.
  { unfold blen, T. rewrite length_take, length_app. lia. }
  assert (ET : M ++ G ++ R = take (length G) T ++ drop (length G) T ++ R).
  { rewrite app_assoc. fold T. by rewrite app_assoc, take_drop. }
  assert (HM : length (drop (length G) T) = length M).
  { unfold T. rewrite length_drop, length_app. lia. }
  assert (HG : blen (L ++ take (length G) T) = blen L + blen G).
  { rewrite blen_app. f_equal. unfold blen, T. rewrite length_take, length_app. lia. }
  rewrite memmove_Ret.
  - f_equal. rewrite sub_app. rewrite ET, app_assoc, <-HG, put_app by done. by rewrite <-app_assoc.
  - rewrite ET, app_assoc. apply in_object_app; [done|]. unfold blen. by rewrite HM.
  - by apply in_object_app.
Qed.

Lemma memset_seg L G R v n :
  blen G = n → memset (L ++ G ++ R) (blen L) v n = Ret (L ++ replicate (Z.to_nat n) (u8 v) ++ R).
Proof.
  intros <-. rewrite memset_Ret by (by apply in_object_app). f_equal.
  apply put_app. rewrite length_replicate. unfold blen. lia.
Qed.

Lemma zero_loop_seg n L G R :
  length G = n → zero_loop n (L ++ G ++ R) (blen L) = Ret (L ++ replicate n 0 ++ R).
Proof.
  revert L G. induction n as [|n IH]; intros L G Hl; simpl.
  { by destruct G. }
  destruct G as [|g G]; [done|]. injection Hl as Hl. cbn [app]. rewrite wr_app by done.
  cbn [mbind outcome_bind]. change (u8 0) with 0.
  replace (L ++ 0 :: G ++ R) with ((L ++ [0]) ++ G ++ R) by (by rewrite <-app_assoc).
  replace (blen L + 1) with (blen (L ++ [0])) by (by rewrite blen_app).
  rewrite IH by done. by rewrite <-app_assoc.
Qed.

Lemma set_nod_header_id_seg id L G R :
  bytes id → blen G = blen id → set_nod_header_id (L ++ G ++ R) (blen L) id = Ret (L ++ id ++ R).
Proof.
  intros Hb. revert L G. induction Hb as [|c id Hc Hid IH]; intros L G Hl; simpl.
  { destruct G; [done|]. unfold blen in Hl. simpl in Hl. lia. }
  destruct G as [|g G]; [unfold blen in Hl; simpl in Hl; lia|].
  cbn [app]. rewrite wr_app by done. cbn [mbind outcome_bind]. rewrite u8_small by done.
  replace (L ++ c :: G ++ R) with ((L ++ [c]) ++ G ++ R) by (by rewrite <-app_assoc).
  replace (blen L + 1) with (blen (L ++ [c])) by (by rewrite blen_app).
  rewrite IH by (unfold blen in *; simpl in Hl; lia). by rewrite <-app_assoc.
Qed.

Lemma check_nod_header_seg id L R : check_nod_header (L ++ id ++ R) (blen L) id = Ret true.
Proof.
  revert L. induction id as [|c id IH]; intros L; simpl; [done|].
  rewrite rd_app by done. cbn [mbind outcome_bind]. rewrite Z.eqb_refl.
  replace (L ++ c :: id ++ R) with ((L ++ [c]) ++ id ++ R) by (by rewrite <-app_assoc).
  replace (blen L + 1) with (blen (L ++ [c])) by (by rewrite blen_app). apply IH.
Qed.

(** ** The header.  [hdr H t d tot s]: [H] is an IP header of [t] bytes with total
    length [tot] and a TCP header with data offset [d] and sequence number [s]. *)
Record hdr (H : list Z) (t d tot s : Z) : Prop := {
  hdr_len : blen H = t + 20;
  hdr_bytes : bytes H;
  hdr_t : 20 <= t <= 60;
  hdr_tcph : tcph_of H = Ret t;
  hdr_doff : tcp_doff H t = Ret d;
  hdr_d : 5 <= d <= 15;
  hdr_tot : ip_tot_len H = Ret (htons tot);
  hdr_totb : 0 <= tot < 65536;
  hdr_seq : tcp_seq H t = Ret s
}.

(** Two headers that differ at most in the lengths and the sequence number. *)
Record hdr_eqv (t : Z) (H H' : list Z) : Prop := {
  eqv_len : blen H = blen H';
  eqv_rest i : 0 <= i → i ≠ 2 → i ≠ 3 → ¬ (t + 4 <= i < t + 8) → i ≠ t + 12 → H' @@ i = H @@ i;
  eqv_low : (H' @@ (t + 12)) mod 16 = (H @@ (t + 12)) mod 16
}.

#[export] Instance hdr_eqv_equiv t : Equivalence (hdr_eqv t).
Proof.
  split.
  - intros H. by split.
  - intros H K [E1 E2 E3]. split; [done| |done]. intros. symmetry. auto.
  - intros H K L [E1 E2 E3] [F1 F2 F3]. split; [congruence| |congruence].
    intros. rewrite F2 by done. auto.
Qed.

Section HeaderReads.
Context (H : list Z) (t d tot s : Z) (Hh : hdr H t d tot s) (X : list Z).

Lemma tcph_of_hdr : tcph_of (H ++ X) = Ret t.
Proof.
  rewrite <-(hdr_tcph _ _ _ _ _ Hh). unfold tcph_of, ip_ihl. destruct Hh. by rewrite rd_app_l by lia.
Qed.

Lemma tcp_doff_hdr : tcp_doff (H ++ X) t = Ret d.
Proof.
  rewrite <-(hdr_doff _ _ _ _ _ Hh). unfold tcp_doff. destruct Hh. by rewrite rd_app_l by lia.
Qed.

Lemma ip_tot_len_hdr : ip_tot_len (H ++ X) = Ret (htons tot).
Proof.
  rewrite <-(hdr_tot _ _ _ _ _ Hh). unfold ip_tot_len, ld16. destruct Hh. by rewrite !rd_app_l by lia.
Qed.

Lemma tcp_seq_hdr : tcp_seq (H ++ X) t = Ret s.
Proof.
  rewrite <-(hdr_seq _ _ _ _ _ Hh). unfold tcp_seq, ld32, ld16. destruct Hh. by rewrite !rd_app_l by lia.
Qed.

Lemma opt_area_hdr : opt_area (H ++ X) = Ret (blen H).
Proof. unfold opt_area. rewrite tcph_of_hdr. cbn [mbind outcome_bind]. by rewrite (hdr_len _ _ _ _ _ Hh). Qed.

Lemma opt_limit_hdr : opt_limit (H ++ X) = Ret (4 * d - 20).
Proof.
  unfold opt_limit. rewrite tcph_of_hdr. cbn [mbind outcome_bind]. rewrite tcp_doff_hdr.
  cbn [mbind outcome_bind]. pose proof (hdr_d _ _ _ _ _ Hh). unfold SIZEOF_TCPHDR.
  rewrite u64_small by lia. f_equal. lia.
Qed.
End HeaderReads.

(** Header updates. *)
Lemma rd_insert_ne H i j v : i ≠ j → 0 <= i → rd (<[Z.to_nat i := v]> H) j = rd H j.
Proof.
  intros Hij Hi. unfold rd. destruct (Z.leb_spec 0 j); [|done].
  by rewrite list_lookup_insert_ne by lia.
Qed.

Lemma rd_insert_eq H i v : 0 <= i < blen H → rd (<[Z.to_nat i := v]> H) i = Ret v.
Proof.
  intros Hi. unfold rd. bool_lia. unfold blen in *. by rewrite list_lookup_insert_eq by lia.
Qed.

Lemma wr_app_l H X i v : 0 <= i < blen H → wr (H ++ X) i v = Ret (<[Z.to_nat i := u8 v]> H ++ X).
Proof.
  intros Hi. pose proof (blen_nonneg X). rewrite wr_in by (rewrite blen_app; lia). f_equal.
  apply insert_app_l. unfold blen in Hi. lia.
Qed.

Lemma st16_app_l H X i v :
  0 <= i → i + 1 < blen H →
  st16 (H ++ X) i v = Ret (<[Z.to_nat (i + 1) := u8 (v / 256)]> (<[Z.to_nat i := u8 v]> H) ++ X).
Proof.
  intros. unfold st16. rewrite wr_app_l by lia. cbn [mbind outcome_bind].
  by rewrite wr_app_l by (rewrite blen_insert; lia).
Qed.

Lemma nibble_low x d : 0 <= x < 16 → (x + 16 * d) mod 16 = x.
Proof. intros. rewrite (Z.mul_comm 16), Z.mod_add by lia. apply Z.mod_small. lia. Qed.

Lemma nibble_high x d : 0 <= x < 16 → (x + 16 * d) / 16 = d.
Proof. intros. rewrite (Z.mul_comm 16), Z.div_add by lia. rewrite Z.div_small by lia. lia. Qed.

Lemma set_tcp_doff_hdr H t d tot s d' X :
  hdr H t d tot s → 5 <= d' <= 15 →
  ∃ H', set_tcp_doff (H ++ X) t d' = Ret (H' ++ X) ∧ hdr H' t d' tot s ∧ hdr_eqv t H H'.
Proof.
  intros [Hl Hb Ht Hi Hd Hdb Htot Htotb Hs] Hd'. unfold set_tcp_doff. rewrite rd_app_l by lia.
  unfold tcp_doff in Hd. destruct (rd H (t + 12)) as [x| |] eqn:Ex; [|done|done].
  cbn [mbind outcome_bind]. rewrite wr_app_l by lia.
  apply rd_Ret in Ex as Hx. destruct Hx as [Hx1 Hx2]. pose proof (at_bytes H (t + 12) Hb).
  assert (Hm : 0 <= x mod 16 < 16) by (apply Z.mod_pos_bound; lia).
  rewrite (Z.mod_small d') by lia. rewrite u8_small by lia.
  eexists. split; [done|]. split.
  - split; try done.
    + by rewrite blen_insert.
    + apply bytes_insert; [done|lia].
    + unfold tcph_of, ip_ihl. by rewrite rd_insert_ne by lia.
    + unfold tcp_doff. rewrite rd_insert_eq by lia. cbn [mbind outcome_bind]. by rewrite nibble_high.
    + unfold ip_tot_len, ld16. by rewrite !rd_insert_ne by lia.
    + unfold tcp_seq, ld32, ld16. by rewrite !rd_insert_ne by lia.
  - split.
    + by rewrite blen_insert.
    + intros i Hi0 _ _ _ Hne. rewrite at_insert by lia. bool_lia. done.
    + rewrite at_insert by lia. rewrite Z.eqb_refl. rewrite nibble_low by done. by rewrite Hx2.
Qed.

Lemma set_ip_tot_len_hdr H t d tot s tot' X :
  hdr H t d tot s → 0 <= tot' < 65536 →
  ∃ H', set_ip_tot_len (H ++ X) (htons tot') = Ret (H' ++ X) ∧ hdr H' t d tot' s ∧ hdr_eqv t H H'.
Proof.
  intros [Hl Hb Ht Hi Hd Hdb Htot Htotb Hs] Hd'. unfold set_ip_tot_len. rewrite st16_app_l by lia.
  eexists. split; [done|]. pose proof (ntohs_bound tot').
  split.
  - split; try done.
    + by rewrite !blen_insert.
    + apply bytes_insert; [|apply u8_bound]. apply bytes_insert; [done|apply u8_bound].
    + unfold tcph_of, ip_ihl. by rewrite !rd_insert_ne by lia.
    + unfold tcp_doff. by rewrite !rd_insert_ne by lia.
    + unfold ip_tot_len, ld16. rewrite (rd_insert_ne _ _ 2), !rd_insert_eq by (rewrite ?blen_insert; lia).
      cbn [mbind outcome_bind]. f_equal. by apply u8_pair.
    + unfold tcp_seq, ld32, ld16. by rewrite !rd_insert_ne by lia.
  - split.
    + by rewrite !blen_insert.
    + intros i Hi0 H2 H3 _ _. rewrite !at_insert by (rewrite ?blen_insert; lia). bool_lia. done.
    + rewrite !at_insert by (rewrite ?blen_insert; lia). bool_lia. done.
Qed.

Lemma set_tcp_seq_hdr H t d tot s s' X :
  hdr H t d tot s → 0 <= s' < 2 ^ 32 →
  ∃ H', set_tcp_seq (H ++ X) t s' = Ret (H' ++ X) ∧ hdr H' t d tot s' ∧ hdr_eqv t H H'.
Proof.
  intros [Hl Hb Ht Hi Hd Hdb Htot Htotb Hs] Hd'. unfold set_tcp_seq, st32.
  rewrite st16_app_l by lia. cbn [mbind outcome_bind].
  rewrite st16_app_l by (rewrite ?blen_insert; lia).
  eexists. split; [done|]. split.
  - split; try done.
    + by rewrite !blen_insert.
    + repeat (apply bytes_insert; [|apply u8_bound]). done.
    + unfold tcph_of, ip_ihl. by rewrite !rd_insert_ne by lia.
    + unfold tcp_doff. by rewrite !rd_insert_ne by lia.
    + unfold ip_tot_len, ld16. by rewrite !rd_insert_ne by lia.
    + unfold tcp_seq, ld32, ld16.
      rewrite (rd_insert_eq _ (t + 4 + 2 + 1)) by (rewrite ?blen_insert; lia).
      rewrite (rd_insert_ne _ (t + 4 + 2 + 1) (t + 4 + 2)) by lia. rewrite (rd_insert_eq _ (t + 4 + 2)) by (rewrite ?blen_insert; lia).
      rewrite (rd_insert_ne _ (t + 4 + 2 + 1) (t + 4 + 1)), (rd_insert_ne _ (t + 4 + 2) (t + 4 + 1)) by lia.
      rewrite (rd_insert_eq _ (t + 4 + 1)) by (rewrite ?blen_insert; lia).
      rewrite (rd_insert_ne _ (t + 4 + 2 + 1) (t + 4)), (rd_insert_ne _ (t + 4 + 2) (t + 4)), (rd_insert_ne _ (t + 4 + 1) (t + 4)) by lia.
      rewrite (rd_insert_eq _ (t + 4)) by (rewrite ?blen_insert; lia).
      cbn [mbind outcome_bind]. f_equal.
      by apply u8_quad.
  - split.
    + by rewrite !blen_insert.
    + intros i Hi0 H2 H3 Hr _. rewrite !at_insert by (rewrite ?blen_insert; lia). bool_lia. done.
    + rewrite !at_insert by (rewrite ?blen_insert; lia). bool_lia. done.
Qed.

