(* ===== verification/OptionOps.v ===== *)
(** * What the functions of tcpoptions.c do to a packet

    Each lemma gives the result of one function on a packet
    [H ++ area items lim ++ P ++ S]: header, option area of [lim] bytes, payload
    and the unused rest of the buffer.  The theorems at the end are about the
    exchange of accelerator ids in the NOD option and about the packets on which
    the code misbehaves. *)
From S2P Require Import Prelude Packet TcpOptions OptionLayout.

(** The option area: the options and their padding. *)
Definition area (items : list item) (lim : Z) : list Z := enc items ++ zeros (lim - blen (enc items)).

Definition fits (items : list item) (lim : Z) : Prop := Forall item_ok items ∧ blen (enc items) <= lim.

Fixpoint skip_nops (items : list item) : list item :=
  match items with Nop :: items' => skip_nops items' | _ => items end.

Lemma skip_nops_ok items : Forall item_ok items → Forall item_ok (skip_nops items).
Proof. induction 1 as [|it l Hit Hl IH]; [constructor|]. destruct it; [done|by constructor]. Qed.

Lemma skip_nops_no_nops items : no_nops (skip_nops items) = no_nops items.
Proof. induction items as [|it l IH]; [done|]. destruct it; [|done]. by rewrite no_nops_cons. Qed.

Lemma skip_nops_length items : blen (enc (skip_nops items)) <= blen (enc items).
Proof.
  induction items as [|it l IH]; [done|]. destruct it; [|done]. simpl.
  change (TCPOPT_NOP :: enc l) with ([TCPOPT_NOP] ++ enc l). rewrite blen_app. change (blen [TCPOPT_NOP]) with 1. lia.
Qed.

Lemma no_nops_length items : blen (enc (no_nops items)) <= blen (enc items).
Proof.
  induction items as [|it l IH]; [done|]. rewrite no_nops_cons. simpl enc. rewrite blen_app.
  pose proof (enc1_length it). case_bool_decide; simpl; rewrite ?blen_app; lia.
Qed.

Lemma no_nops_fits items lim : fits items lim → fits (no_nops items) lim.
Proof. intros [Hok Hl]. split; [by apply no_nops_ok|]. pose proof (no_nops_length items). lia. Qed.

Lemma area_length items lim : blen (enc items) <= lim → blen (area items lim) = lim.
Proof. intros. unfold area. rewrite blen_app, blen_zeros by lia. lia. Qed.

Lemma area_grow items lim n :
  blen (enc items) <= lim → 0 <= n → area items lim ++ zeros n = area items (lim + n).
Proof. intros. unfold area. rewrite <-app_assoc, zeros_add by lia. do 2 f_equal. lia. Qed.

Lemma no_nops_idem items : no_nops (no_nops items) = no_nops items.
Proof.
  induction items as [|it l IH]; [done|]. rewrite no_nops_cons. case_bool_decide; [done|].
  rewrite no_nops_cons, bool_decide_false by done. by f_equal.
Qed.

Lemma no_nops_app l k : no_nops (l ++ k) = no_nops l ++ no_nops k.
Proof. apply filter_app. Qed.

(** ** Dropping the NOPs *)
Section Loops.
Context (fuel : nat) (Hfuel : (64 <= fuel)%nat) (H R : list Z).

Lemma drop_nops_items todo n X z lim :
  Forall item_ok todo → lim = blen X + blen (enc todo) + z → lim <= 40 → 0 <= z →
  0 < blen (enc todo) + z → (length todo < n)%nat →
  drop_nops n (H ++ (X ++ enc todo ++ zeros z) ++ R) (blen H) lim (blen X)
  = Ret (H ++ (X ++ enc (skip_nops todo)
                 ++ zeros (z + (blen (enc todo) - blen (enc (skip_nops todo))))) ++ R).
Proof.
  intros Hok. revert n z. induction Hok as [|it todo Hit Hok IH]; intros n z -> Hlim Hz Hpos Hn;
    (destruct n as [|n]; [simpl in Hn; lia|]); cbn [drop_nops].
  - cbn [enc skip_nops] in *. change (blen []) with 0 in *. rewrite zeros_S at 1 by lia. cbn [app].
    rewrite area_rd. cbn [mbind outcome_bind Z.eqb TCPOPT_NOP]. change ([] ++ zeros z) with (zeros z).
    by rewrite Z.sub_diag, Z.add_0_r.
  - cbn [enc] in *. rewrite <-(app_assoc (enc1 it)). rewrite area_head. cbn [mbind outcome_bind].
    destruct it as [|k d]; cbn [kind skip_nops enc].
    + rewrite Z.eqb_refl. set (Y := enc todo ++ zeros z).
      pose proof (blen_nonneg X). pose proof (blen_nonneg (enc todo)).
      assert (EY : blen Y = blen (enc todo) + z) by (unfold Y; by rewrite blen_app, blen_zeros).
      assert (E1 : blen (enc1 Nop ++ enc todo) = 1 + blen (enc todo)) by (by rewrite blen_app).
      rewrite E1 in *. destruct (shift_left (H ++ X) TCPOPT_NOP Y R) as (y & E).
      replace (H ++ (X ++ enc1 Nop ++ Y) ++ R) with ((H ++ X) ++ (TCPOPT_NOP :: Y) ++ R) by (by rewrite <-!app_assoc).
      rewrite !u64_small by lia.
      replace (blen X + (1 + blen (enc todo)) + z - blen X - 1) with (blen Y) by lia.
      rewrite <-(blen_app H X). rewrite E. cbn [mbind outcome_bind].
      rewrite (app_assoc (H ++ X) Y), wr_app by (rewrite !blen_app; lia). cbn [mbind outcome_bind].
      change (u8 0) with 0.
      replace (((H ++ X) ++ Y) ++ 0 :: R) with (H ++ (X ++ enc todo ++ zeros (z + 1)) ++ R).
      2:{ unfold Y. rewrite <-(zeros_add z 1) by lia. change (zeros 1) with [0]. by rewrite <-!app_assoc. }
      rewrite IH by (simpl in Hn; lia). do 6 f_equal. lia.
    + destruct Hit as (Hk & _ & _). unfold TCPOPT_NOP. bool_lia. rewrite Z.sub_diag, Z.add_0_r.
      cbn [enc]. by rewrite <-(app_assoc (enc1 _)).
Qed.

(** The head of what [drop_nops] leaves. *)
Lemma skip_nops_cases todo :
  Forall item_ok todo →
  skip_nops todo = [] ∧ no_nops todo = []
  ∨ ∃ it r, skip_nops todo = it :: r ∧ item_ok it ∧ Forall item_ok r ∧ kind it ≠ TCPOPT_NOP
      ∧ no_nops todo = it :: no_nops r.
Proof.
  intros Hok. pose proof (skip_nops_ok todo Hok) as Hs. rewrite <-(skip_nops_no_nops todo).
  induction todo as [|it l IH]; [by left|]. apply Forall_cons in Hok as [Hit Hok].
  destruct it as [|k d]; [by apply IH|]. right. exists (Opt k d), l. cbn [skip_nops] in *.
  apply Forall_cons in Hs as [_ Hs]. destruct Hit as (Hk & Hd). unfold TCPOPT_NOP.
  split; [done|]. split; [by split|]. split; [done|]. split; [simpl; lia|].
  rewrite no_nops_cons. rewrite bool_decide_false; [done|]. unfold TCPOPT_NOP. simpl. lia.
Qed.

Lemma step_item X it Y : X ++ enc1 it ++ Y = (X ++ enc1 it) ++ Y.
Proof. apply app_assoc. Qed.

Lemma remove_nop_items n todo X z lim :
  Forall item_ok todo → lim = blen X + blen (enc todo) + z → lim <= 40 → 0 <= z →
  lim - blen X < Z.of_nat n →
  remove_nop_loop fuel n (H ++ (X ++ enc todo ++ zeros z) ++ R) (blen H) lim (blen X)
  = Ret (H ++ (X ++ enc (no_nops todo) ++ zeros (z + (blen (enc todo) - blen (enc (no_nops todo))))) ++ R).
Proof.
  revert todo X z. induction n as [|n IH]; intros todo X z Hok Hlim H40 Hz Hn;
    pose proof (blen_nonneg X); pose proof (blen_nonneg (enc todo)); [lia|]. cbn [remove_nop_loop].
  destruct (Z.ltb_spec (blen X) lim) as [Hi|Hi].
  2:{ pose proof (enc_length todo). destruct todo; [|simpl in *; lia]. simpl. by rewrite Z.add_0_r. }
  pose proof (enc_length todo). rewrite drop_nops_items by (done || lia). cbn [mbind outcome_bind].
  pose proof (skip_nops_length todo). pose proof (no_nops_length todo).
  destruct (skip_nops_cases todo Hok) as [[Es En]|(it & r & Es & Hit & Hr & Hk & En)]; rewrite Es, En in *.
  - cbn [enc] in *. change (blen []) with 0 in *. cbn [app]. rewrite Z.sub_0_r in *.
    rewrite zeros_S by lia. rewrite optlen_zero. cbn [mbind outcome_bind]. rewrite u8_small by lia.
    replace (X ++ 0 :: zeros (z + blen (enc todo) - 1)) with ((X ++ [0]) ++ enc [] ++ zeros (z + blen (enc todo) - 1))
      by (by rewrite <-app_assoc).
    replace (blen X + 1) with (blen (X ++ [0])) by (by rewrite blen_app).
    rewrite (IH [] (X ++ [0])); rewrite ?blen_app; change (blen [0]) with 1; cbn [enc no_nops filter]; change (blen []) with 0; try done; try lia.
    rewrite Z.add_0_r. cbn. by rewrite <-app_assoc.
  - cbn [enc] in *. rewrite <-(app_assoc (enc1 it)). rewrite optlen_item by done. cbn [mbind outcome_bind].
    rewrite !blen_app in *. pose proof (enc1_length it). pose proof (blen_nonneg (enc r)). rewrite u8_small by lia.
    rewrite (app_assoc X), <-(blen_app X). pose proof (no_nops_length r).
    rewrite IH by (done || rewrite ?blen_app; lia). rewrite <-!app_assoc. do 7 f_equal. lia.
Qed.

Lemma freespace_items items n X z lim :
  Forall item_ok items → lim = blen X + blen (enc items) + z → lim <= 40 → 0 <= z →
  lim - blen X < Z.of_nat n →
  freespace_loop n (H ++ (X ++ enc items ++ zeros z) ++ R) (blen H) lim (blen X) = Ret z.
Proof.
  intros Hok. revert n X. induction Hok as [|it items Hit Hok IH]; intros n X -> H40 Hz Hn;
    pose proof (blen_nonneg X); cbn [enc] in *; rewrite ?blen_app in *.
  - change (blen []) with 0 in *. destruct n as [|n]; [lia|]. cbn [app freespace_loop].
    destruct (decide (z = 0)) as [->|]; [by bool_lia|]. bool_lia.
    rewrite zeros_S, area_rd by lia. cbn [mbind outcome_bind Z.eqb TCPOPT_EOL].
    rewrite u8_small by lia. f_equal. lia.
  - pose proof (enc1_length it). pose proof (blen_nonneg (enc items)).
    destruct n as [|n]; [lia|]. cbn [freespace_loop]. bool_lia.
    rewrite <-(app_assoc (enc1 it)), area_head. cbn [mbind outcome_bind]. pose proof (kind_pos it Hit).
    unfold TCPOPT_EOL. bool_lia. rewrite optlen_item by done. cbn [mbind outcome_bind].
    rewrite u8_small by lia. rewrite (app_assoc X), <-(blen_app X).
    apply IH; rewrite ?blen_app; lia.
Qed.

Lemma compact_items n todo X z lim :
  Forall item_ok todo → lim = blen X + blen (enc todo) + z → lim <= 40 → 0 <= z →
  lim - blen X < Z.of_nat n →
  compact_loop fuel n (H ++ (X ++ enc todo ++ zeros z) ++ R) (blen H) lim (blen X)
  = Ret (H ++ (X ++ enc (no_nops todo) ++ zeros (z + (blen (enc todo) - blen (enc (no_nops todo))))) ++ R,
         z + (blen (enc todo) - blen (enc (no_nops todo)))).
Proof.
  revert todo X z. induction n as [|n IH]; intros todo X z Hok Hlim H40 Hz Hn;
    pose proof (blen_nonneg X); pose proof (blen_nonneg (enc todo)); [lia|]. cbn [compact_loop].
  destruct (Z.ltb_spec (blen X) lim) as [Hi|Hi].
  2:{ pose proof (enc_length todo). destruct todo; [|simpl in *; lia]. simpl in *. change (blen []) with 0 in *.
      replace z with 0 by lia. done. }
  pose proof (enc_length todo). rewrite drop_nops_items by (done || lia). cbn [mbind outcome_bind].
  pose proof (skip_nops_length todo). pose proof (no_nops_length todo).
  destruct (skip_nops_cases todo Hok) as [[Es En]|(it & r & Es & Hit & Hr & Hk & En)]; rewrite Es, En in *.
  - cbn [enc] in *. change (blen []) with 0 in *. cbn [app]. rewrite Z.sub_0_r in *.
    rewrite zeros_S, area_rd by lia. cbn [mbind outcome_bind Z.eqb TCPOPT_EOL].
    rewrite u8_small by lia. do 2 f_equal. lia.
  - cbn [enc] in *. rewrite <-(app_assoc (enc1 it)). rewrite area_head. cbn [mbind outcome_bind].
    pose proof (kind_pos it Hit). unfold TCPOPT_EOL. bool_lia.
    rewrite optlen_item by done. cbn [mbind outcome_bind].
    rewrite !blen_app in *. pose proof (enc1_length it). pose proof (blen_nonneg (enc r)). rewrite u8_small by lia.
    rewrite (app_assoc X), <-(blen_app X). pose proof (no_nops_length r).
    rewrite IH by (done || rewrite ?blen_app; lia). rewrite <-!app_assoc.
    f_equal. f_equal; [|lia]. do 6 f_equal. lia.
Qed.
End Loops.

(** ** Packets *)
Definition pkt (H : list Z) (items : list item) (d : Z) (P S : list Z) : buffer :=
  H ++ area items (4 * d - 20) ++ P ++ S.

(** The padding of the option area. *)
Definition space (items : list item) (d : Z) : Z := 4 * d - 20 - blen (enc items).

Record packet_ok (H : list Z) (t d tot s : Z) (items : list item) (P : list Z) : Prop := {
  ok_hdr : hdr H t d tot s;
  ok_fits : fits items (4 * d - 20);
  ok_tot : tot = t + 4 * d + blen P
}.

Lemma no_nops_packet_ok H t d tot s items P :
  packet_ok H t d tot s items P → packet_ok H t d tot s (no_nops items) P.
Proof. intros []. split; [done| |done]. by apply no_nops_fits. Qed.

(** Arithmetic on lengths. *)
Ltac len_lia := rewrite ?blen_app; try change (blen []) with 0 in *; unfold space in *; lia.

(** The header fields of a packet. *)
Ltac opt_head H := repeat (progress (
  rewrite ?(tcph_of_hdr _ _ _ _ _ H), ?(tcp_doff_hdr _ _ _ _ _ H),
    ?(ip_tot_len_hdr _ _ _ _ _ H), ?(opt_area_hdr _ _ _ _ _ H), ?(opt_limit_hdr _ _ _ _ _ H),
    ?(tcp_seq_hdr _ _ _ _ _ H); cbn [mbind outcome_bind])).

Section Packets.
Context {fuel : nat} (Hfuel : (64 <= fuel)%nat).
Context {H : list Z} {t d tot s : Z} {items : list item} {P S : list Z}.
Context (Hp : packet_ok H t d tot s items P).
Let Hh : hdr H t d tot s := ok_hdr _ _ _ _ _ _ _ Hp.

Lemma pkt_shape :
  pkt H items d P S = H ++ ([] ++ enc items ++ zeros (space items d)) ++ (P ++ S).
Proof. unfold pkt, area, space. done. Qed.

Lemma space_nonneg : 0 <= space items d <= 40.
Proof.
  clear Hfuel.
  pose proof Hp as [Hhd [_ Hf] _]. pose proof (hdr_d _ _ _ _ _ Hhd). unfold space. pose proof (blen_nonneg (enc items)). lia.
Qed.

Lemma lim_bound : 0 <= 4 * d - 20 <= 40.
Proof. clear Hfuel. pose proof (hdr_d _ _ _ _ _ Hh). lia. Qed.

Lemma freespace_pkt :
  get_tcpopt_freespace fuel (pkt H items d P S) = Ret (pkt H (no_nops items) d P S, space (no_nops items) d).
Proof.
  pose proof Hp as [Hhd [Hok Hl] _]. pose proof space_nonneg as Hsp. pose proof lim_bound as Hlim.
  pose proof (no_nops_length items) as Hn. pose proof (no_nops_ok items Hok) as Hnok.
  assert (E : remove_tcpopt_nop fuel (pkt H items d P S) = Ret (pkt H (no_nops items) d P S)).
  { unfold remove_tcpopt_nop, pkt. opt_head Hhd. destruct (Z.ltb_spec 5 d) as [Hd|Hd].
    - fold (pkt H items d P S). rewrite pkt_shape.
      rewrite (remove_nop_items fuel Hfuel H (P ++ S) fuel items []) by (done || len_lia).
      f_equal. unfold area. cbn [app]. do 4 f_equal. len_lia.
    - pose proof (blen_nonneg (enc items)). pose proof (enc_length items).
      assert (E : items = []) by (apply nil_length_inv; lia). rewrite E. done. }
  unfold get_tcpopt_freespace. rewrite E. cbn [mbind outcome_bind]. unfold pkt. opt_head Hhd.
  destruct (Z.ltb_spec 5 d) as [Hd|Hd].
  - unfold area. replace (enc (no_nops items) ++ zeros (4 * d - 20 - blen (enc (no_nops items))))
      with ([] ++ enc (no_nops items) ++ zeros (space (no_nops items) d)) by done.
    rewrite (freespace_items fuel Hfuel H (P ++ S) (no_nops items) fuel [] (space (no_nops items) d))
      by (done || len_lia). done.
  - cbn [mbind outcome_bind]. do 2 f_equal. unfold space in *. pose proof (blen_nonneg (enc (no_nops items))). lia.
Qed.

Lemma addoff_needed_pkt n :
  get_tcpopt_addoff_needed fuel (pkt H items d P S) n
  = Ret (pkt H (no_nops items) d P S,
         if space (no_nops items) d <? n then dwords (u8 (n - space (no_nops items) d)) else 0).
Proof. unfold get_tcpopt_addoff_needed. by rewrite freespace_pkt. Qed.

(** *** Searching *)
Lemma get_tcpopt_items num Y l1 l2 :
  items = l1 ++ l2 → Forall (λ it, kind it ≠ num) l1 → Y = enc l2 ++ zeros (space items d) →
  get_tcpopt fuel (pkt H items d P S) num
  = get_tcpopt_loop (fuel - length l1) (H ++ (enc l1 ++ Y) ++ P ++ S) (blen H) (4 * d - 20) num (blen (enc l1)).
Proof.
  intros E Hk ->. pose proof Hp as [Hhd [Hok Hl] _]. pose proof lim_bound as Hlim.
  rewrite E, enc_app, blen_app in Hl. pose proof (blen_nonneg (enc l2)). pose proof (enc_length l1).
  assert (Ep : pkt H items d P S = H ++ ([] ++ enc l1 ++ enc l2 ++ zeros (space items d)) ++ P ++ S).
  { rewrite pkt_shape, E at 1. by rewrite enc_app, <-(app_assoc (enc l1)). }
  unfold get_tcpopt. rewrite Ep. opt_head Hhd.
  apply (loop_items H (P ++ S) l1 fuel []); try done; try len_lia.
  rewrite E in Hok. by apply Forall_app in Hok as [? _].
Qed.

Lemma get_tcpopt_absent num :
  num ≠ 0 → Forall (λ it, kind it ≠ num) items → get_tcpopt fuel (pkt H items d P S) num = Ret None.
Proof.
  intros Hnum Hk. rewrite (get_tcpopt_items num (enc [] ++ zeros (space items d)) items []) by (done || by rewrite app_nil_r).
  pose proof lim_bound. pose proof space_nonneg. pose proof Hp as [Hhd [Hok Hl] _]. pose proof (enc_length items).
  cbn [enc app]. rewrite <-(app_nil_r (zeros _)).
  apply loop_zeros; unfold space in *; lia.
Qed.

Lemma get_tcpopt_present num data l1 l2 :
  items = l1 ++ Opt num data :: l2 → Forall (λ it, kind it ≠ num) l1 →
  get_tcpopt fuel (pkt H items d P S) num = Ret (Some (blen H + blen (enc l1))).
Proof.
  intros E Hk. rewrite (get_tcpopt_items num (enc (Opt num data :: l2) ++ zeros (space items d)) l1 (Opt num data :: l2)) by done.
  pose proof lim_bound. pose proof Hp as [Hhd [Hok Hl] _]. rewrite E, enc_app, blen_app in Hl.
  pose proof (enc_length l1). cbn [enc enc1 app] in *. pose proof (blen_nonneg (data ++ enc l2)).
  assert (blen (num :: 2 + blen data :: data ++ enc l2) = 2 + blen (data ++ enc l2)) by (unfold blen; simpl; lia).
  destruct (fuel - length l1)%nat as [|n] eqn:En; [lia|]. rewrite loop_hit by lia. done.
Qed.

Lemma get_tcpopt_EOL :
  get_tcpopt fuel (pkt H items d P S) TCPOPT_EOL
  = Ret (if 0 <? space items d then Some (blen H + blen (enc items)) else None).
Proof.
  pose proof Hp as [Hhd [Hok Hl] _]. pose proof lim_bound. pose proof (enc_length items).
  rewrite (get_tcpopt_items TCPOPT_EOL (enc [] ++ zeros (space items d)) items []); [|by rewrite app_nil_r| |done].
  2:{ eapply Forall_impl; [exact Hok|]. intros it Hit. pose proof (kind_pos it Hit). unfold TCPOPT_EOL. lia. }
  cbn [enc app]. pose proof space_nonneg. unfold space in *.
  destruct (fuel - length items)%nat as [|n] eqn:En; [lia|].
  destruct (Z.ltb_spec 0 (4 * d - 20 - blen (enc items))).
  - rewrite zeros_S by lia. rewrite loop_hit by lia. done.
  - cbn [get_tcpopt_loop]. by bool_lia.
Qed.
End Packets.

(** ** Working on one segment of a packet *)
Section Segment.
Context (L M R : list Z).
Local Abbreviation p := (L ++ M ++ R).

Lemma seg_rd k : 0 <= k < blen M → rd p (blen L + k) = Ret (M @@ k).
Proof.
  intros Hk. pose proof (blen_nonneg L). pose proof (blen_nonneg R).
  rewrite rd_at by (rewrite !blen_app; lia). rewrite at_app_r by lia. by rewrite at_app_l.
Qed.

Lemma seg_wr k v : 0 <= k < blen M → wr p (blen L + k) v = Ret (L ++ <[Z.to_nat k := u8 v]> M ++ R).
Proof.
  intros Hk. pose proof (blen_nonneg L). pose proof (blen_nonneg R). unfold blen in *.
  rewrite wr_in by (unfold blen; rewrite !length_app; lia). f_equal.
  rewrite insert_app_r_alt by lia. f_equal.
  replace (Z.to_nat (Z.of_nat (length L) + k) - length L)%nat with (Z.to_nat k) by lia.
  apply insert_app_l. lia.
Qed.

Lemma seg_split k n :
  0 <= k → 0 <= n → k + n <= blen M →
  M = take (Z.to_nat k) M ++ take (Z.to_nat n) (drop (Z.to_nat k) M) ++ drop (Z.to_nat k + Z.to_nat n) M.
Proof. intros. by rewrite <-drop_drop, take_drop, take_drop. Qed.

Lemma seg_put k l : 0 <= k → k + blen l <= blen M → put p (blen L + k) l = L ++ put M k l ++ R.
Proof.
  intros Hk Hl. unfold put, blen in *.
  replace (Z.to_nat (Z.of_nat (length L) + k)) with (length L + Z.to_nat k)%nat by lia.
  rewrite take_app_ge, drop_app_ge by lia.
  replace (length L + Z.to_nat k - length L)%nat with (Z.to_nat k) by lia.
  replace (length L + Z.to_nat k + length l - length L)%nat with (Z.to_nat k + length l)%nat by lia.
  rewrite take_app_le, drop_app_le by lia. by rewrite <-!app_assoc.
Qed.

Lemma seg_in_object k n : 0 <= k → 0 <= n → k + n <= blen M → in_object p (blen L + k) n = true.
Proof.
  intros. unfold in_object. rewrite !blen_app. pose proof (blen_nonneg L). pose proof (blen_nonneg R). by bool_lia.
Qed.

Lemma seg_memset k v n :
  0 <= k → 0 <= n → k + n <= blen M →
  memset p (blen L + k) v n = Ret (L ++ put M k (replicate (Z.to_nat n) (u8 v)) ++ R).
Proof.
  intros. rewrite memset_Ret by (apply seg_in_object; lia). f_equal. apply seg_put; [done|].
  rewrite blen_replicate. lia.
Qed.

Lemma seg_copy_in k l :
  0 <= k → k + blen l <= blen M → copy_in p (blen L + k) l 0 (blen l) = Ret (L ++ put M k l ++ R).
Proof.
  intros. pose proof (blen_nonneg l). unfold copy_in. rewrite seg_in_object by lia.
  replace (in_object l 0 (blen l)) with true by (unfold in_object; by bool_lia).
  cbn [andb]. rewrite sub_all. f_equal. by apply seg_put.
Qed.
End Segment.

Lemma memmove_nothing b dst src : 0 <= dst <= blen b → 0 <= src <= blen b → memmove b dst src 0 = Ret b.
Proof.
  intros. rewrite memmove_Ret by (unfold in_object; by bool_lia). f_equal. unfold put, sub.
  change (Z.to_nat 0) with O. rewrite take_0. cbn [length app]. rewrite Nat.add_0_r. apply take_drop.
Qed.

(** ** Making room *)
Definition words (sp n : Z) : Z := if sp <? n then dwords (u8 (n - sp)) else 0.

Lemma words_spec sp n :
  0 <= sp → 0 <= n <= 40 →
  0 <= words sp n ∧ (n <= sp → words sp n = 0) ∧ (sp < n → n <= sp + 4 * words sp n < n + 4).
Proof.
  intros Hs Hn. unfold words. destruct (Z.ltb_spec sp n); [|lia].
  unfold dwords. rewrite (u8_small (n - sp)) by lia.
  pose proof (Z.div_mod (n - sp) 4 ltac:(lia)). pose proof (Z.mod_pos_bound (n - sp) 4 ltac:(lia)).
  destruct (Z.eqb_spec ((n - sp) mod 4) 0); rewrite u8_small; lia.
Qed.

Lemma open_gap_seg L P S t tot d a :
  blen L = t + 4 * d → tot = t + 4 * d + blen P → 0 <= tot < 65536 → 0 <= a → 4 * a <= blen S →
  open_gap (L ++ P ++ S) t (htons tot) d a = Ret (L ++ zeros (4 * a) ++ P ++ drop (Z.to_nat (4 * a)) S).
Proof.
  intros HL Htot Hb Ha HS. unfold open_gap, SIZEOF_TCPHDR, htons. rewrite ntohs_invol by done.
  pose proof (blen_nonneg P). pose proof (blen_nonneg L). rewrite u64_small by lia.
  replace (t + 20 + d * 4 - 20) with (blen L) by lia. replace (tot - t - d * 4) with (blen P) by lia.
  rewrite <-(take_drop (Z.to_nat (4 * a)) S) at 1.
  assert (HG : blen (take (Z.to_nat (4 * a)) S) = 4 * a) by (unfold blen in *; rewrite length_take; lia).
  destruct (shift_right L P (take (Z.to_nat (4 * a)) S) (drop (Z.to_nat (4 * a)) S)) as (G & HGl & E).
  replace (blen L + a * 4) with (blen L + blen (take (Z.to_nat (4 * a)) S)) by lia.
  rewrite E. cbn [mbind outcome_bind]. replace (a * 4) with (4 * a) by lia.
  apply zero_loop_seg. unfold blen in *. lia.
Qed.

Section Room.
Context {H : list Z} {t d tot s : Z} {items : list item} {P S : list Z}.
Context (Hp : packet_ok H t d tot s items P).

Lemma add_addoff_pkt a :
  0 < a → d + a <= 15 → 4 * a <= blen S → tot + 4 * a < 65536 →
  ∃ H', add_tcpopt_addoff (pkt H items d P S) a
        = Ret (pkt H' items (d + a) P (drop (Z.to_nat (4 * a)) S), 0)
    ∧ packet_ok H' t (d + a) (tot + 4 * a) s items P ∧ hdr_eqv t H H'.
Proof.
  intros Ha Hd HS Ht. pose proof Hp as [Hh Hf Htot]. pose proof Hf as [Hok Hl].
  pose proof (hdr_d _ _ _ _ _ Hh). pose proof (hdr_totb _ _ _ _ _ Hh). pose proof (hdr_len _ _ _ _ _ Hh).
  unfold add_tcpopt_addoff, pkt. opt_head Hh. bool_lia. opt_head Hh.
  rewrite app_assoc, open_gap_seg; [|rewrite blen_app, area_length by done; lia|done..|lia|done].
  cbn [mbind outcome_bind]. rewrite <-app_assoc.
  replace (area items (4 * d - 20) ++ zeros (4 * a) ++ P ++ drop (Z.to_nat (4 * a)) S)
    with (area items (4 * (d + a) - 20) ++ P ++ drop (Z.to_nat (4 * a)) S).
  2:{ rewrite (app_assoc (area _ _) (zeros _)), area_grow by lia. do 2 f_equal. lia. }
  destruct (set_tcp_doff_hdr H t d tot s (d + a) (area items (4 * (d + a) - 20) ++ P ++ drop (Z.to_nat (4 * a)) S) Hh)
    as (K1 & E1 & Hh1 & V1); [lia|]. rewrite E1. cbn [mbind outcome_bind]. opt_head Hh1.
  unfold htons at 2. rewrite ntohs_invol by done. rewrite (Z.mul_comm a), u16_small by lia.
  destruct (set_ip_tot_len_hdr K1 t (d + a) tot s (tot + 4 * a)
    (area items (4 * (d + a) - 20) ++ P ++ drop (Z.to_nat (4 * a)) S) Hh1) as (K2 & E2 & Hh2 & V2); [lia|].
  rewrite E2. cbn [mbind outcome_bind]. exists K2. split; [done|]. split; [|by rewrite V1].
  split; [done|split; [done|lia]|lia].
Qed.

Lemma add_addoff_none : add_tcpopt_addoff (pkt H items d P S) 0 = Ret (pkt H items d P S, -1).
Proof. pose proof Hp as [Hh _ _]. unfold add_tcpopt_addoff, pkt. by opt_head Hh. Qed.
End Room.

Section Ensure.
Context {H : list Z} {t d tot s : Z} {items : list item} {P S : list Z}.
Context (Hp : packet_ok H t d tot s items P).

(** [get_tcpopt_addoff_needed] followed by [add_tcpopt_addoff]. *)
Lemma ensure_pkt n a :
  a = words (space (no_nops items) d) n → 0 <= n <= 40 →
  d + a <= 15 → 4 * a <= blen S → tot + 4 * a < 65536 →
  ∃ H', add_tcpopt_addoff (pkt H (no_nops items) d P S) a
        = Ret (pkt H' (no_nops items) (d + a) P (drop (Z.to_nat (4 * a)) S), if a =? 0 then -1 else 0)
    ∧ packet_ok H' t (d + a) (tot + 4 * a) s (no_nops items) P ∧ hdr_eqv t H H'.
Proof.
  intros Ea Hn Hd HS Ht. apply no_nops_packet_ok in Hp as Hq.
  pose proof (space_nonneg Hq) as Hs.
  destruct (words_spec (space (no_nops items) d) n) as (Hw & _ & _); [lia|lia|]. rewrite <-Ea in Hw.
  destruct (Z.eqb_spec a 0) as [->|Ha].
  - exists H. rewrite (add_addoff_none Hq). rewrite !Z.add_0_r. by split.
  - apply (add_addoff_pkt Hq); lia.
Qed.

Lemma add_bytes_pkt {fuel : nat} (Hfuel : (64 <= fuel)%nat) n a :
  a = words (space (no_nops items) d) n → 0 <= n <= 40 →
  d + a <= 15 → 4 * a <= blen S → tot + 4 * a < 65536 →
  ∃ H', add_tcpopt_bytes fuel (pkt H items d P S) n
        = Ret (pkt H' (no_nops items) (d + a) P (drop (Z.to_nat (4 * a)) S), if a =? 0 then -1 else 0)
    ∧ packet_ok H' t (d + a) (tot + 4 * a) s (no_nops items) P ∧ hdr_eqv t H H'.
Proof.
  intros Ea Hn Hd HS Ht. unfold add_tcpopt_bytes.
  rewrite (addoff_needed_pkt Hfuel Hp). cbn [mbind outcome_bind].
  fold (words (space (no_nops items) d) n). rewrite <-Ea. by apply (ensure_pkt n).
Qed.
End Ensure.
