(* ===== verification/NodTag.v ===== *)
(** * Accelerator ids in the NOD option

    What [set_nod_header_data] and [get_nod_header_data] do together: the tag
    one node writes is the tag the next one reads. *)
From S2P Require Import Prelude Packet TcpOptions OptionLayout OptionOps.

Definition lacks (num : Z) (items : list item) : Prop := Forall (λ it, kind it ≠ num) items.

Lemma no_nops_lacks num items : lacks num items → lacks num (no_nops items).
Proof. induction 1 as [|it l Hit Hl IH]; [constructor|]. rewrite no_nops_cons. case_bool_decide; [done|by constructor]. Qed.

Lemma no_nops_snoc items num data :
  num ≠ TCPOPT_NOP → no_nops (no_nops items ++ [Opt num data]) = no_nops items ++ [Opt num data].
Proof.
  intros Hn. rewrite no_nops_app, no_nops_idem. f_equal. rewrite no_nops_cons. by rewrite bool_decide_false.
Qed.

Lemma enc_snoc items it : enc (items ++ [it]) = enc items ++ enc1 it.
Proof. rewrite enc_app. simpl. by rewrite app_nil_r. Qed.

Lemma pkt_tail H items d P S :
  pkt H items d P S = (H ++ enc items) ++ zeros (space items d) ++ (P ++ S).
Proof. unfold pkt, area. by rewrite <-!app_assoc. Qed.

Lemma space_snoc items it d : space (items ++ [it]) d = space items d - blen (enc1 it).
Proof. unfold space. rewrite enc_snoc, blen_app. lia. Qed.

Lemma pkt_snoc H items it d P S :
  pkt H (items ++ [it]) d P S
  = (H ++ enc items) ++ enc1 it ++ (zeros (space items d - blen (enc1 it)) ++ P ++ S).
Proof. rewrite pkt_tail, space_snoc, enc_snoc. by rewrite <-!app_assoc. Qed.

Lemma pkt_snoc_gap H items it d P S n :
  0 <= n <= space items d - blen (enc1 it) →
  pkt H (items ++ [it]) d P S
  = (H ++ enc items) ++ (enc1 it ++ zeros n) ++ (zeros (space items d - blen (enc1 it) - n) ++ P ++ S).
Proof.
  intros Hn. rewrite pkt_snoc. rewrite <-(app_assoc (enc1 it)), (app_assoc (zeros n)), zeros_add by lia.
  do 4 f_equal. lia.
Qed.

Lemma snoc_packet_ok H t d tot s items P it :
  packet_ok H t d tot s items P → item_ok it → blen (enc1 it) <= space items d →
  packet_ok H t d tot s (items ++ [it]) P.
Proof.
  intros [Hh [Hok Hl] Ht] Hit Hsp. split; [done| |done]. split.
  - apply Forall_app. split; [done|]. by constructor.
  - rewrite enc_snoc, blen_app. unfold space in Hsp. lia.
Qed.

Lemma space_grow items d a : space items (d + a) = space items d + 4 * a.
Proof. unfold space. lia. Qed.

(** Indices into a segment of known length. *)
Ltac seg_in := vm_compute; repeat split; first [discriminate | reflexivity].
Ltac seg_step :=
  first [rewrite seg_wr by seg_in | rewrite seg_rd by seg_in]; cbn [mbind outcome_bind].

(** ** A new option *)
Section SetOption.
Context {fuel : nat} (Hfuel : (64 <= fuel)%nat).
Context {H : list Z} {t d tot s : Z} {items : list item} {P S : list Z}.
Context (Hp : packet_ok H t d tot s items P).

Lemma set_tcpopt_new num a :
  1 < num < 256 → lacks num items → a = words (space (no_nops items) d) 2 →
  d + a <= 15 → 4 * a <= blen S → tot + 4 * a < 65536 →
  ∃ H', set_tcpopt fuel (pkt H items d P S) num 2
        = Ret (pkt H' (no_nops items ++ [Opt num []]) (d + a) P (drop (Z.to_nat (4 * a)) S),
               Some (blen H' + blen (enc (no_nops items))))
    ∧ packet_ok H' t (d + a) (tot + 4 * a) s (no_nops items ++ [Opt num []]) P
    ∧ hdr_eqv t H H'.
Proof.
  intros Hnum Hlack Ea Hd HS Ht. apply no_nops_packet_ok in Hp as Hq. pose proof (space_nonneg Hq).
  destruct (words_spec (space (no_nops items) d) 2) as (Hw & W1 & W2); [lia..|]. rewrite <-Ea in *.
  unfold set_tcpopt. rewrite (get_tcpopt_absent Hfuel Hp) by (done || lia). cbn [mbind outcome_bind].
  rewrite (addoff_needed_pkt Hfuel Hp). cbn [mbind outcome_bind].
  fold (words (space (no_nops items) d) 2). rewrite <-Ea.
  destruct (ensure_pkt (S := S) Hp 2 a) as (H' & E & Hq' & V); [done|lia..|]. exists H'.
  rewrite E. cbn [mbind outcome_bind]. rewrite (get_tcpopt_EOL Hfuel Hq'). rewrite space_grow.
  assert (Hsp : 2 <= space (no_nops items) d + 4 * a) by lia. bool_lia. cbn [mbind outcome_bind].
  split_and!; [|apply snoc_packet_ok; [done|simpl; unfold blen; simpl; split_and!; [lia|lia|lia|constructor]|]|done].
  - rewrite pkt_tail, space_grow.
    replace (zeros (space (no_nops items) d + 4 * a)) with (zeros 2 ++ zeros (space (no_nops items) d + 4 * a - 2))
      by (rewrite zeros_add by lia; f_equal; lia).
    rewrite <-(app_assoc (zeros 2)). rewrite <-blen_app. rewrite <-(Z.add_0_r (blen (H' ++ _))) at 1.
    do 2 seg_step. rewrite pkt_snoc, space_grow.
    by rewrite (u8_small num) by lia.
  - rewrite space_grow. change (blen (enc1 (Opt num []))) with 2. lia.
Qed.
End SetOption.

(** ** Finding the tag *)
Lemma pkt_at H l1 it l2 d P S :
  pkt H (l1 ++ it :: l2) d P S
  = (H ++ enc l1) ++ enc1 it ++ (enc l2 ++ zeros (space (l1 ++ it :: l2) d) ++ P ++ S).
Proof. rewrite pkt_tail, enc_app. cbn [enc]. by rewrite <-!app_assoc. Qed.

Section Find.
Context {H : list Z} {t d tot s : Z} {l1 l2 : list item} {data : list Z} {P S : list Z}.
Local Abbreviation p := (pkt H (l1 ++ Opt NOD data :: l2) d P S).

Lemma nod_rd k : 0 <= k < 2 + blen data → rd p (blen H + blen (enc l1) + k) = Ret ((NOD :: 2 + blen data :: data) @@ k).
Proof.
  intros Hk. rewrite pkt_at, <-blen_app. apply seg_rd. unfold blen in *. simpl. lia.
Qed.

Lemma nod_len : rd p (blen H + blen (enc l1) + 1) = Ret (2 + blen data).
Proof. rewrite nod_rd by (pose proof (blen_nonneg data); lia). done. Qed.

(** The first header of the option: total length, id and header length, id. *)
Lemma nod_word id rest tl hl :
  data = tl :: blen id + 8 * hl :: id ++ rest →
  rd p (blen H + blen (enc l1) + 3) = Ret (blen id + 8 * hl).
Proof. intros Hdata. rewrite nod_rd; rewrite Hdata; [done|]. unfold blen. simpl. lia. Qed.

Context {fuel : nat} (Hfuel : (64 <= fuel)%nat) (delta : Z).
Context (Hp : packet_ok H t d tot s (l1 ++ Opt NOD data :: l2) P) (Hl : lacks NOD l1).

Lemma get_tcpopt_NOD : get_tcpopt fuel p NOD = Ret (Some (blen H + blen (enc l1))).
Proof. by apply (get_tcpopt_present Hfuel Hp NOD data l1 l2). Qed.

Lemma get_nod_header_empty id : data = [] → get_nod_header fuel delta p id = Ret None.
Proof.
  intros Hd. unfold get_nod_header. rewrite get_tcpopt_NOD. cbn [mbind outcome_bind].
  rewrite nod_len. cbn [mbind outcome_bind]. by rewrite Hd.
Qed.

Context (id rest : list Z) (tl hl : Z).
Context (Hdata : data = tl :: blen id + 8 * hl :: id ++ rest) (Hid : blen id < 8).

Lemma get_nod_header_hit :
  get_nod_header fuel delta p id = Ret (Some (blen H + blen (enc l1) + 2)).
Proof.
  pose proof (blen_nonneg id). pose proof (blen_nonneg rest).
  unfold get_nod_header. rewrite get_tcpopt_NOD. cbn [mbind outcome_bind]. rewrite nod_len.
  cbn [mbind outcome_bind].
  assert (Hl2 : 2 < 2 + blen data).
  { rewrite Hdata. unfold blen. simpl. lia. }
  bool_lia. assert (∃ n, fuel = Datatypes.S n) as [n En] by (exists (fuel - 1)%nat; lia).
  rewrite En. cbn [get_nod_header_loop].
  unfold nod_idlen. replace (blen H + blen (enc l1) + 2 + 1) with (blen H + blen (enc l1) + 3) by lia. rewrite (nod_word id rest tl hl Hdata).
  cbn [mbind outcome_bind]. rewrite Z.mul_comm, Z.mod_add, Z.mod_small, Z.eqb_refl by lia.
  assert (Ep : p = ((H ++ enc l1) ++ [NOD; 2 + blen data; tl; blen id + 8 * hl])
                     ++ id ++ (rest ++ enc l2 ++ zeros (space (l1 ++ Opt NOD data :: l2) d) ++ P ++ S)).
  { rewrite pkt_at. cbn [enc1]. set (z := 2 + blen data). set (sp := space _ _). rewrite Hdata.
    rewrite <-!app_assoc. cbn [app]. by rewrite <-app_assoc. }
  rewrite Ep. set (L := (H ++ enc l1) ++ _).
  replace (blen H + blen (enc l1) + 2 + 2) with (blen L) by (unfold L; rewrite !blen_app; unfold blen; simpl; lia).
  rewrite check_nod_header_seg. done.
Qed.

Lemma get_nod_header_data_hit :
  0 <= hl < 32 →
  get_nod_header_data fuel delta p id
  = Ret (if blen id + 2 <? hl then (u8 (hl - (blen id + 2)), Some (blen H + blen (enc l1) + 4 + blen id))
         else (0, None)).
Proof.
  intros Hhl. pose proof (blen_nonneg id). unfold get_nod_header_data. rewrite get_nod_header_hit.
  cbn [mbind outcome_bind]. unfold nod_hdr_len, nod_idlen.
  replace (blen H + blen (enc l1) + 2 + 1) with (blen H + blen (enc l1) + 3) by lia. rewrite (nod_word id rest tl hl Hdata). cbn [mbind outcome_bind].
  rewrite (Z.mul_comm 8), Z.mod_add, Z.div_add, Z.mod_small, Z.div_small, Z.add_0_l by lia.
  destruct (blen id + 2 <? hl); [|done]. do 3 f_equal. lia.
Qed.
End Find.

(** ** Room at the end of the options *)
Definition gap (n : Z) : list Z := <[Z.to_nat (n - 1) := 90]> (<[O := 65]> (zeros n)).

Lemma shift_end {fuel H t d tot s items P S} n :
  (64 <= fuel)%nat → packet_ok H t d tot s items P → 0 < n <= space items d →
  shift_tcpopt_space fuel (pkt H items d P S) (blen H + blen (enc items)) n
  = Ret ((H ++ enc items) ++ gap n ++ (zeros (space items d - n) ++ P ++ S), n).
Proof.
  intros Hfuel Hp Hn. unfold shift_tcpopt_space. rewrite (get_tcpopt_EOL Hfuel Hp). bool_lia.
  cbn [mbind outcome_bind]. rewrite Z.sub_diag. change (u8 0) with 0.
  assert (Hb : blen (pkt H items d P S) = blen H + blen (enc items) + space items d + blen P + blen S).
  { rewrite pkt_tail, !blen_app, blen_zeros by lia. lia. }
  pose proof (blen_nonneg H). pose proof (blen_nonneg (enc items)). pose proof (blen_nonneg P). pose proof (blen_nonneg S).
  rewrite memmove_nothing by lia. cbn [mbind outcome_bind]. rewrite pkt_tail.
  replace (zeros (space items d)) with (zeros n ++ zeros (space items d - n)) by (rewrite zeros_add by lia; f_equal; lia).
  rewrite <-(app_assoc (zeros n)), <-blen_app.
  rewrite memset_seg by (apply blen_zeros; lia). cbn [mbind outcome_bind]. change (u8 0) with 0. fold (zeros n).
  rewrite <-(Z.add_0_r (blen (H ++ enc items))) at 1.
  rewrite seg_wr by (rewrite blen_zeros; lia). cbn [mbind outcome_bind].
  rewrite seg_wr by (rewrite blen_insert, blen_zeros; lia). done.
Qed.

(** ** Writing the tag *)
Lemma seg_rd_at {L M R} i k : i = blen L + k → 0 <= k < blen M → rd (L ++ M ++ R) i = Ret (M @@ k).
Proof. intros ->. apply seg_rd. Qed.

Lemma seg_wr_at {L M R} i k v :
  i = blen L + k → 0 <= k < blen M → wr (L ++ M ++ R) i v = Ret (L ++ <[Z.to_nat k := u8 v]> M ++ R).
Proof. intros ->. apply seg_wr. Qed.

Ltac seg_at k :=
  first [rewrite (seg_rd_at _ k); [|lia|seg_in] | rewrite (seg_wr_at _ k); [|lia|seg_in]];
  cbn [mbind outcome_bind].

Definition nod_tag (data : list Z) : item :=
  Opt NOD (6 + blen data :: 4 + 8 * (6 + blen data) :: ONOP ++ data).

Lemma drop_words a b (S : list Z) : 0 <= a → 0 <= b →
  drop (Z.to_nat (4 * b)) (drop (Z.to_nat (4 * a)) S) = drop (Z.to_nat (4 * (a + b))) S.
Proof. intros. rewrite drop_drop. f_equal. lia. Qed.

Lemma blen_drop n (S : list Z) : 0 <= n <= blen S → blen (drop (Z.to_nat n) S) = blen S - n.
Proof. intros. unfold blen in *. rewrite length_drop. lia. Qed.

Lemma tag_hdr_len K l d P S :
  nod_hdr_len (pkt K (l ++ [nod_tag []]) d P S) (blen K + blen (enc l) + 2) = Ret 6.
Proof.
  unfold nod_hdr_len. replace (blen K + blen (enc l) + 2 + 1) with (blen K + blen (enc l) + 3) by lia.
  unfold nod_tag. rewrite nod_rd by seg_in. done.
Qed.

Lemma tag_idlen K l d P S :
  nod_idlen (pkt K (l ++ [nod_tag []]) d P S) (blen K + blen (enc l) + 2) = Ret 4.
Proof.
  unfold nod_idlen. replace (blen K + blen (enc l) + 2 + 1) with (blen K + blen (enc l) + 3) by lia.
  unfold nod_tag. rewrite nod_rd by seg_in. done.
Qed.

Section WriteTag.
Context {fuel : nat} (Hfuel : (64 <= fuel)%nat) (delta : Z).
Context {H : list Z} {t d tot s : Z} {items : list item} {P S : list Z}.
Context (Hp : packet_ok H t d tot s items P) (Hl : lacks NOD items).
Local Abbreviation its := (no_nops items).
Local Abbreviation sp := (space (no_nops items) d).

(** The bytes [set_nod_header] writes once there is room for them. *)
Definition write_nod_header (p : buffer) (nod : Z) : outcome (buffer * Z) :=
  l ← rd p (nod + 1);
  '(p, _) ← shift_tcpopt_space fuel p (nod + l) 6;
  l ← rd p (nod + 1);
  let n := nod + l in
  p ← wr p (nod + 1) (l + 6);
  p ← set_nod_tot_len p n 6;
  p ← set_nod_idlen p n (u8 (blen ONOP));
  p ← set_nod_hdr_len p n 6;
  p ← set_nod_header_id p (n + 2) ONOP;
  _ ← get_nod_header fuel delta p ONOP;
  Ret (p, n).

Lemma write_nod_header_pkt K d' tot' S' :
  packet_ok K t d' tot' s (its ++ [Opt NOD []]) P → 6 <= space (its ++ [Opt NOD []]) d' →
  write_nod_header (pkt K (its ++ [Opt NOD []]) d' P S') (blen K + blen (enc its))
  = Ret (pkt K (its ++ [nod_tag []]) d' P S', blen K + blen (enc its) + 2)
  ∧ packet_ok K t d' tot' s (its ++ [nod_tag []]) P.
Proof.
  intros Hq Hsp. unfold write_nod_header. rewrite nod_len. cbn [mbind outcome_bind].
  change (2 + blen []) with 2.
  assert (El : blen K + blen (enc its) + 2 = blen K + blen (enc (its ++ [Opt NOD []]))).
  { rewrite enc_snoc, blen_app. change (blen (enc1 (Opt NOD []))) with 2. lia. }
  rewrite El, (shift_end 6 Hfuel Hq) by lia. rewrite <-El. cbn [mbind outcome_bind].
  assert (Hok : packet_ok K t d' tot' s (its ++ [nod_tag []]) P).
  { destruct Hq as [Hh [Hi Hlen] Ht]. apply Forall_app in Hi as [Hi _]. rewrite space_snoc in Hsp.
    rewrite enc_snoc, blen_app in Hlen. change (blen (enc1 (Opt NOD []))) with 2 in *.
    apply snoc_packet_ok; [split; [done|split; [done|lia]|done]| |].
    - vm_compute. repeat (constructor || split || discriminate).
    - change (blen (enc1 (nod_tag []))) with 8. lia. }
  split; [|done].
  assert (E : pkt K (its ++ [nod_tag []]) d' P S'
    = (K ++ enc its) ++ enc1 (nod_tag []) ++ zeros (space (its ++ [Opt NOD []]) d' - 6) ++ P ++ S').
  { rewrite pkt_snoc, space_snoc. change (blen (enc1 (nod_tag []))) with 8.
    change (blen (enc1 (Opt NOD []))) with 2. do 4 f_equal. lia. }
  assert (Eg : get_nod_header fuel delta (pkt K (its ++ [nod_tag []]) d' P S') ONOP
               = Ret (Some (blen K + blen (enc its) + 2))).
  { by apply (get_nod_header_hit Hfuel delta Hok (no_nops_lacks _ _ Hl) ONOP [] 6 6). }
  rewrite E in Eg |- *. rewrite enc_snoc, (app_assoc K), <-(app_assoc (K ++ enc its)), (app_assoc (enc1 (Opt NOD []))).
  rewrite <-(blen_app K) in *. set (L := K ++ enc its) in *.
  unfold set_nod_tot_len, set_nod_idlen, set_nod_hdr_len. cbn [set_nod_header_id ONOP].
  seg_at 1. change ((enc1 (Opt NOD []) ++ gap 6) @@ 1) with 2.
  seg_at 1. seg_at 2. seg_at 3. seg_at 3. seg_at 3. seg_at 3. seg_at 4. seg_at 5. seg_at 6. seg_at 7.
  match goal with |- context [L ++ ?M ++ _] => change M with (enc1 (nod_tag [])) end.
  rewrite Eg. done.
Qed.

Lemma no_nops_tag data : no_nops (its ++ [nod_tag data]) = its ++ [nod_tag data].
Proof. by apply no_nops_snoc. Qed.

Lemma set_nod_header_new a1 a2 :
  a1 = words sp 2 → a2 = words (sp + 4 * a1 - 2) 6 →
  d + a1 + a2 <= 15 → 4 * (a1 + a2) <= blen S → tot + 4 * (a1 + a2) < 65536 →
  ∃ H', set_nod_header fuel delta (pkt H items d P S) ONOP
        = Ret (pkt H' (its ++ [nod_tag []]) (d + (a1 + a2)) P (drop (Z.to_nat (4 * (a1 + a2))) S),
               blen H' + blen (enc its) + 2)
    ∧ packet_ok H' t (d + (a1 + a2)) (tot + 4 * (a1 + a2)) s (its ++ [nod_tag []]) P
    ∧ hdr_eqv t H H'.
Proof.
  intros Ea1 Ea2 Hd HS Ht. pose proof (space_nonneg (no_nops_packet_ok _ _ _ _ _ _ _ Hp)).
  destruct (words_spec sp 2) as (Hw & W1 & W2); [lia..|]. rewrite <-Ea1 in *.
  destruct (words_spec (sp + 4 * a1 - 2) 6) as (Hv & V1 & V2); [lia..|]. rewrite <-Ea2 in *.
  destruct (set_tcpopt_new (S := S) Hfuel Hp NOD a1) as (H1 & E1 & Hp1 & Q1); [done|done|done|lia..|].
  unfold set_nod_header. rewrite E1. cbn [mbind outcome_bind].
  rewrite (get_nod_header_empty Hfuel delta Hp1 (no_nops_lacks _ _ Hl)) by done. cbn [mbind outcome_bind].
  change (u8 (2 + blen ONOP)) with 6.
  assert (En : no_nops (its ++ [Opt NOD []]) = its ++ [Opt NOD []]) by (by apply no_nops_snoc).
  destruct (add_bytes_pkt (S := drop (Z.to_nat (4 * a1)) S) Hp1 Hfuel 6 a2) as (H2 & E2 & Hp2 & Q2).
  { rewrite En, space_snoc, space_grow. change (blen (enc1 (Opt NOD []))) with 2. done. }
  { lia. } { lia. } { rewrite blen_drop by lia. lia. } { lia. }
  rewrite E2. cbn [mbind outcome_bind of_option]. rewrite En in *. rewrite drop_words by lia.
  pose proof (hdr_len _ _ _ _ _ (ok_hdr _ _ _ _ _ _ _ Hp1)). pose proof (hdr_len _ _ _ _ _ (ok_hdr _ _ _ _ _ _ _ Hp2)).
  replace (blen H1 + blen (enc its)) with (blen H2 + blen (enc its)) by lia.
  destruct (write_nod_header_pkt H2 _ _ (drop (Z.to_nat (4 * (a1 + a2))) S) Hp2) as [E3 Hp3].
  { rewrite !space_grow, space_snoc. change (blen (enc1 (Opt NOD []))) with 2. lia. }
  replace (d + (a1 + a2)) with (d + a1 + a2) by lia. replace (tot + 4 * (a1 + a2)) with (tot + 4 * a1 + 4 * a2) by lia.
  exists H2. split; [exact E3|]. split; [done|]. by rewrite Q1.
Qed.

(** The bytes [set_nod_header_data] writes once there is room for them. *)
Definition write_nod_data (p : buffer) (o nodh len : Z) (data : list Z) : outcome buffer :=
  hl ← nod_hdr_len p nodh;
  '(p, _) ← shift_tcpopt_space fuel p (nodh + hl) len;
  ol ← rd p (o + 1);
  p ← wr p (o + 1) (ol + len);
  tl ← nod_tot_len p nodh;
  p ← set_nod_tot_len p nodh (tl + len);
  hl ← nod_hdr_len p nodh;
  p ← set_nod_hdr_len p nodh (hl + len);
  il ← nod_idlen p nodh;
  copy_in p (nodh + il + 2) data 0 len.

Lemma write_nod_data_pkt K d' tot' S' x y z w :
  bytes [x; y; z; w] →
  packet_ok K t d' tot' s (its ++ [nod_tag []]) P → 4 <= space (its ++ [nod_tag []]) d' →
  write_nod_data (pkt K (its ++ [nod_tag []]) d' P S') (blen K + blen (enc its))
    (blen K + blen (enc its) + 2) 4 [x; y; z; w]
  = Ret (pkt K (its ++ [nod_tag [x; y; z; w]]) d' P S')
  ∧ packet_ok K t d' tot' s (its ++ [nod_tag [x; y; z; w]]) P.
Proof.
  intros Hb Hq Hsp. unfold write_nod_data.
  assert (Hok : packet_ok K t d' tot' s (its ++ [nod_tag [x; y; z; w]]) P).
  { destruct Hq as [Hh [Hi Hlen] Ht]. apply Forall_app in Hi as [Hi _]. rewrite space_snoc in Hsp.
    rewrite enc_snoc, blen_app in Hlen. change (blen (enc1 (nod_tag []))) with 8 in *.
    apply snoc_packet_ok; [split; [done|split; [done|lia]|done]| |].
    - split; [done|]. split; [done|]. repeat (constructor; [done|]). done.
    - change (blen (enc1 (nod_tag [x; y; z; w]))) with 12. lia. }
  split; [|done].
  rewrite tag_hdr_len. cbn [mbind outcome_bind].
  replace (blen K + blen (enc its) + 2 + 6) with (blen K + blen (enc (its ++ [nod_tag []]))).
  2:{ rewrite enc_snoc, blen_app. change (blen (enc1 (nod_tag []))) with 8. lia. }
  rewrite (shift_end 4 Hfuel Hq) by lia. cbn [mbind outcome_bind].
  assert (E : pkt K (its ++ [nod_tag [x; y; z; w]]) d' P S'
    = (K ++ enc its) ++ enc1 (nod_tag [x; y; z; w]) ++ zeros (space (its ++ [nod_tag []]) d' - 4) ++ P ++ S').
  { rewrite pkt_snoc, space_snoc. change (blen (enc1 (nod_tag []))) with 8.
    change (blen (enc1 (nod_tag [x; y; z; w]))) with 12. do 4 f_equal. lia. }
  rewrite E. rewrite enc_snoc, (app_assoc K), <-(app_assoc (K ++ enc its)), (app_assoc (enc1 (nod_tag []))).
  rewrite <-(blen_app K). set (L := K ++ enc its).
  unfold set_nod_tot_len, nod_tot_len, nod_hdr_len, set_nod_hdr_len, nod_idlen.
  seg_at 1. change ((enc1 (nod_tag []) ++ gap 4) @@ 1) with 8.
  seg_at 1. seg_at 2. seg_at 2. seg_at 3. seg_at 3. seg_at 3.
  match goal with |- copy_in (L ++ ?M ++ ?R) ?o _ _ _ = _ =>
    replace o with (blen L + 8) by (rewrite <-!Z.add_assoc; f_equal);
    pose proof (seg_copy_in L M R 8 [x; y; z; w] ltac:(done) ltac:(seg_in)) as Ec end.
  change (blen [x; y; z; w]) with 4 in Ec. rewrite Ec. done.
Qed.
End WriteTag.

(** ** The exchange of ids *)
Section Exchange.
Context {fuel : nat} (Hfuel : (64 <= fuel)%nat) (delta : Z).
Context {H : list Z} {t d tot s : Z} {items : list item} {P S : list Z}.
Context (Hp : packet_ok H t d tot s items P) (Hl : lacks NOD items).
Local Abbreviation its := (no_nops items).
Local Abbreviation sp := (space (no_nops items) d).

(** [set_nod_header] followed by the second half of [set_nod_header_data]. *)
Lemma set_nod_header_data_steps id a1 a2 a3 :
  blen id = 4 → bytes id →
  a1 = words sp 2 → a2 = words (sp + 4 * a1 - 2) 6 → a3 = words (sp + 4 * (a1 + a2) - 8) 4 →
  d + (a1 + a2 + a3) <= 15 → 4 * (a1 + a2 + a3) <= blen S → tot + 4 * (a1 + a2 + a3) < 65536 →
  ∃ H', set_nod_header_data fuel delta (pkt H items d P S) ONOP id
        = Ret (pkt H' (its ++ [nod_tag (if a3 =? 0 then [] else id)]) (d + (a1 + a2 + a3)) P
                 (drop (Z.to_nat (4 * (a1 + a2 + a3))) S))
    ∧ packet_ok H' t (d + (a1 + a2 + a3)) (tot + 4 * (a1 + a2 + a3)) s
        (its ++ [nod_tag (if a3 =? 0 then [] else id)]) P
    ∧ hdr_eqv t H H'.
Proof.
  intros Hid Hb Ea1 Ea2 Ea3 Hd HS Ht.
  pose proof (space_nonneg (no_nops_packet_ok _ _ _ _ _ _ _ Hp)).
  destruct (words_spec sp 2) as (Hw & W1 & W2); [lia..|]. rewrite <-Ea1 in *.
  destruct (words_spec (sp + 4 * a1 - 2) 6) as (Hv & V1 & V2); [lia..|]. rewrite <-Ea2 in *.
  destruct (words_spec (sp + 4 * (a1 + a2) - 8) 4) as (Hu & U1 & U2); [lia..|]. rewrite <-Ea3 in *.
  destruct (set_nod_header_new (S := S) Hfuel delta Hp Hl a1 a2) as (H1 & E1 & Hp1 & Q1); [done|done|lia..|].
  unfold set_nod_header_data. rewrite E1. cbn [mbind outcome_bind]. rewrite Hid.
  assert (Hl1 : lacks NOD its) by (by apply no_nops_lacks).
  rewrite (get_tcpopt_NOD (l2 := []) Hfuel Hp1 Hl1). cbn [mbind outcome_bind].
  rewrite tag_hdr_len. cbn [mbind outcome_bind]. rewrite tag_idlen. cbn [mbind outcome_bind].
  match goal with |- context [if ?b then _ else _] => change b with true end. cbn match.
  destruct (add_bytes_pkt (S := drop (Z.to_nat (4 * (a1 + a2))) S) Hp1 Hfuel 4 a3) as (H2 & E2 & Hp2 & Q2).
  { rewrite no_nops_tag, space_snoc, space_grow. change (blen (enc1 (nod_tag []))) with 8. done. }
  { lia. } { lia. } { rewrite blen_drop by lia. lia. } { lia. }
  rewrite E2. cbn [mbind outcome_bind]. rewrite no_nops_tag in *. rewrite drop_words by lia.
  pose proof (hdr_len _ _ _ _ _ (ok_hdr _ _ _ _ _ _ _ Hp1)). pose proof (hdr_len _ _ _ _ _ (ok_hdr _ _ _ _ _ _ _ Hp2)).
  replace (d + (a1 + a2 + a3)) with (d + (a1 + a2) + a3) by lia.
  replace (tot + 4 * (a1 + a2 + a3)) with (tot + 4 * (a1 + a2) + 4 * a3) by lia.
  destruct (Z.eqb_spec a3 0) as [E0|E0].
  { cbn match. exists H2. split; [done|]. split; [done|]. by rewrite Q1. }
  cbn [Z.eqb]. rewrite (freespace_pkt Hfuel Hp2), no_nops_tag. cbn [mbind outcome_bind].
  assert (Hsp : 4 <= space (its ++ [nod_tag []]) (d + (a1 + a2) + a3)).
  { rewrite !space_grow, space_snoc. change (blen (enc1 (nod_tag []))) with 8. lia. }
  bool_lia. destruct id as [|x [|y [|z [|w [|]]]]]; try (unfold blen in Hid; simpl in Hid; lia).
  destruct (write_nod_data_pkt Hfuel H2 _ _ (drop (Z.to_nat (4 * (a1 + a2 + a3))) S) x y z w Hb Hp2 Hsp) as [E3 Hp3].
  replace (blen H1) with (blen H2) by lia. exists H2. split; [exact E3|]. split; [exact Hp3|]. by rewrite Q1.
Qed.
End Exchange.

Lemma set_tag_result {fuel} (delta : Z) {H t d tot s items P S} id a :
  (64 <= fuel)%nat → packet_ok H t d tot s items P → lacks NOD items →
  bytes id → blen id = 4 →
  space (no_nops items) d < 12 → a = words (space (no_nops items) d) 12 →
  d + a <= 15 → 4 * a <= blen S → tot + 4 * a < 65536 →
  ∃ H', set_nod_header_data fuel delta (pkt H items d P S) ONOP id
        = Ret (pkt H' (no_nops items ++ [nod_tag id]) (d + a) P (drop (Z.to_nat (4 * a)) S))
    ∧ packet_ok H' t (d + a) (tot + 4 * a) s (no_nops items ++ [nod_tag id]) P ∧ hdr_eqv t H H'.
Proof.
  intros Hfuel Hp Hl Hb Hid Hsp Ea Hd HS Ht. set (sp := space (no_nops items) d) in *.
  assert (Hsp0 : 0 <= sp <= 40) by apply (space_nonneg (no_nops_packet_ok _ _ _ _ _ _ _ Hp)).
  set (a1 := words sp 2). set (a2 := words (sp + 4 * a1 - 2) 6). set (a3 := words (sp + 4 * (a1 + a2) - 8) 4).
  pose proof (words_spec sp 2 ltac:(lia) ltac:(lia)) as W1. fold a1 in W1.
  pose proof (words_spec (sp + 4 * a1 - 2) 6 ltac:(lia) ltac:(lia)) as W2. fold a2 in W2.
  pose proof (words_spec (sp + 4 * (a1 + a2) - 8) 4 ltac:(lia) ltac:(lia)) as W3. fold a3 in W3.
  pose proof (words_spec sp 12 ltac:(lia) ltac:(lia)) as W. rewrite <-Ea in W.
  assert (Ha : a = a1 + a2 + a3) by lia. assert (Ha3 : a3 ≠ 0) by lia.
  destruct (set_nod_header_data_steps (S := S) Hfuel delta Hp Hl id a1 a2 a3) as (H' & E & Hp' & Q); [done..|lia|lia|lia|].
  rewrite <-Ha in *. replace (a3 =? 0) with false in * by (symmetry; by apply Z.eqb_neq). by exists H'.
Qed.

(** What the reader finds, whatever options precede the tag. *)
Lemma tag_read {fuel} (delta : Z) {H t d tot s l P S} id :
  (64 <= fuel)%nat → packet_ok H t d tot s (l ++ [nod_tag id]) P → lacks NOD l → blen id = 4 →
  ∃ off, get_nod_header_data fuel delta (pkt H (l ++ [nod_tag id]) d P S) ONOP = Ret (4, Some off)
    ∧ in_object (pkt H (l ++ [nod_tag id]) d P S) off 4 = true
    ∧ sub (pkt H (l ++ [nod_tag id]) d P S) off 4 = id.
Proof.
  intros Hfuel Hp Hl Hid. exists (blen H + blen (enc l) + 8). split.
  { pose proof (get_nod_header_data_hit (S := S) (l2 := []) Hfuel delta Hp Hl ONOP id (6 + blen id) (6 + blen id)) as G.
    change (blen ONOP) with 4 in G. rewrite Hid in G. unfold nod_tag. rewrite Hid. rewrite G; [|done..].
    cbn. do 3 f_equal. lia. }
  rewrite pkt_snoc. unfold nod_tag. rewrite Hid. set (L := (H ++ enc l)). set (R := zeros _ ++ P ++ _).
  set (M := [NOD; 2 + blen (6 + 4 :: 4 + 8 * (6 + 4) :: ONOP ++ id); 6 + 4; 4 + 8 * (6 + 4)] ++ ONOP).
  replace (L ++ enc1 (Opt NOD (6 + 4 :: 4 + 8 * (6 + 4) :: ONOP ++ id)) ++ R) with ((L ++ M) ++ id ++ R)
    by (unfold M; rewrite <-!app_assoc; cbn [enc1 app]; by rewrite <-app_assoc).
  replace (blen H + blen (enc l) + 8) with (blen (L ++ M)) by (unfold L; rewrite !blen_app; done).
  split; [by apply in_object_app|]. rewrite <-Hid. apply sub_app.
Qed.

(** C2: a node tags a packet with its accelerator id and the next node reads it:
    when the option area (without its NOPs) has less than 12 bytes of padding and
    can grow, [set_nod_header_data] succeeds, [get_nod_header_data] on its result
    returns the 4 bytes of the id, and between them nothing is lost: the payload,
    every option but the NOPs, the sequence number and all header fields but the
    lengths are kept, and both lengths grow by the words that were needed. *)
Theorem tag_exchange fuel delta H t d tot s items P S id a :
  (64 <= fuel)%nat → packet_ok H t d tot s items P → lacks NOD items →
  bytes id → blen id = 4 →
  space (no_nops items) d < 12 → a = words (space (no_nops items) d) 12 →
  d + a <= 15 → 4 * a <= blen S → tot + 4 * a < 65536 →
  ∃ H' off, let p' := pkt H' (no_nops items ++ [nod_tag id]) (d + a) P (drop (Z.to_nat (4 * a)) S) in
    set_nod_header_data fuel delta (pkt H items d P S) ONOP id = Ret p'
    ∧ packet_ok H' t (d + a) (tot + 4 * a) s (no_nops items ++ [nod_tag id]) P ∧ hdr_eqv t H H'
    ∧ get_nod_header_data fuel delta p' ONOP = Ret (4, Some off) ∧ sub p' off 4 = id.
Proof.
  intros Hfuel Hp Hl Hb Hid Hsp Ea Hd HS Ht.
  destruct (set_tag_result (S := S) delta id a Hfuel Hp Hl Hb Hid Hsp Ea Hd HS Ht) as (H' & E & Hp' & V).
  destruct (tag_read (S := drop (Z.to_nat (4 * a)) S) delta id Hfuel Hp' (no_nops_lacks _ _ Hl) Hid) as (off & E2 & _ & E3).
  by exists H', off.
Qed.

(** A SYN of 49 bytes: MSS, two NOPs, SACK-permitted and one byte of payload. *)
Definition demo_header (d tot : Z) : list Z :=
  [69; 0; tot / 256; tot mod 256; 0; 0; 0; 0; 64; 6; 0; 0; 10; 0; 0; 1; 10; 0; 0; 2]
  ++ [15; 160; 0; 80; 0; 0; 1; 44; 0; 0; 0; 0; 16 * d; 2; 250; 240; 0; 0; 0; 0].

Definition demo_items : list item := [Opt 2 [5; 180]; Nop; Nop; Opt 4 []].

Lemma demo_hdr d tot : 5 <= d <= 15 → 0 <= tot < 65536 → hdr (demo_header d tot) 20 d tot 738263040.
Proof.
  intros Hd Ht. assert (Hq : 0 <= tot / 256 < 256) by (split; [apply Z.div_pos; lia | apply Z.div_lt_upper_bound; lia]).
  pose proof (Z.mod_pos_bound tot 256 ltac:(lia)).
  split; try done; try lia.
  - repeat first [apply Forall_cons; split; [lia|] | apply Forall_nil]. done.
  - unfold tcp_doff. change (rd _ (20 + 12)) with (Ret (16 * d)). cbn [mbind outcome_bind].
    by rewrite Z.mul_comm, Z.div_mul by lia.
  - unfold ip_tot_len, ld16. change (rd (demo_header d tot) 2) with (Ret (tot / 256)).
    change (rd (demo_header d tot) (2 + 1)) with (Ret (tot mod 256)). cbn [mbind outcome_bind].
    unfold htons, ntohs. rewrite (Z.mod_small (tot / 256)) by done. f_equal. lia.
Qed.

Lemma demo_syn_ok : packet_ok (demo_header 7 49) 20 7 49 738263040 demo_items [42].
Proof.
  split; [apply demo_hdr; lia| |done]. split; [|done].
  repeat constructor; vm_compute; try discriminate; done.
Qed.

Lemma tag_exchange_witness :
  ∃ H' off, let p' := pkt H' [Opt 2 [5; 180]; Opt 4 []; nod_tag [10; 0; 0; 9]] 10 [42] [0; 0] in
    set_nod_header_data 64 (-8) (pkt (demo_header 7 49) demo_items 7 [42] (replicate 14 0)) ONOP [10; 0; 0; 9] = Ret p'
    ∧ packet_ok H' 20 10 61 738263040 [Opt 2 [5; 180]; Opt 4 []; nod_tag [10; 0; 0; 9]] [42]
    ∧ hdr_eqv 20 (demo_header 7 49) H'
    ∧ get_nod_header_data 64 (-8) p' ONOP = Ret (4, Some off) ∧ sub p' off 4 = [10; 0; 0; 9].
Proof.
  apply (tag_exchange 64 (-8) (demo_header 7 49) 20 7 49 738263040 demo_items [42] (replicate 14 0) [10; 0; 0; 9] 3);
    try (vm_compute; reflexivity); try (vm_compute; discriminate).
  - apply demo_syn_ok.
  - repeat constructor; discriminate.
  - repeat constructor; lia.
Defined.

(** With 12 or more bytes of padding after the options the tag loses its id:
    [add_tcpopt_addoff] reports failure when it has nothing to add, so
    [set_nod_header_data] writes only the empty header and the reader gets nothing. *)
Theorem padding_loses_id fuel delta H t d tot s items P S id :
  (64 <= fuel)%nat → packet_ok H t d tot s items P → lacks NOD items →
  bytes id → blen id = 4 → 12 <= space (no_nops items) d →
  ∃ H', let p' := pkt H' (no_nops items ++ [nod_tag []]) d P S in
    set_nod_header_data fuel delta (pkt H items d P S) ONOP id = Ret p'
    ∧ get_nod_header_data fuel delta p' ONOP = Ret (0, None).
Proof.
  intros Hfuel Hp Hl Hb Hid Hsp. pose proof Hp as [[] _ _]. pose proof (blen_nonneg S).
  assert (W : ∀ n sp, 0 <= n <= 12 → n <= sp → 0 = words sp n).
  { intros n sp ? ?. destruct (words_spec sp n) as (_ & E & _); [lia..|]. by rewrite E. }
  destruct (set_nod_header_data_steps (S := S) Hfuel delta Hp Hl id 0 0 0) as (H' & E & Hp' & Q);
    [done|done|apply W; lia..|lia|lia|lia|].
  exists H'. rewrite !Z.add_0_r in *. cbn [Z.eqb] in *. split; [exact E|].
  assert (Hl' : lacks NOD (no_nops items)) by (by apply no_nops_lacks).
  rewrite (get_nod_header_data_hit (l2 := []) Hfuel delta Hp' Hl' ONOP [] 6 6); done.
Qed.

Lemma demo_padded_ok : packet_ok (demo_header 9 57) 20 9 57 738263040 [Nop] [42].
Proof. split; [apply demo_hdr; lia| |done]. split; [|done]. repeat constructor; vm_compute; done. Qed.

Lemma padding_loses_id_witness :
  ∃ H', let p' := pkt H' [nod_tag []] 9 [42] [] in
    set_nod_header_data 64 (-8) (pkt (demo_header 9 57) [Nop] 9 [42] []) ONOP [10; 0; 0; 9] = Ret p'
    ∧ get_nod_header_data 64 (-8) p' ONOP = Ret (0, None).
Proof.
  apply (padding_loses_id 64 (-8) (demo_header 9 57) 20 9 57 738263040 [Nop] [42] [] [10; 0; 0; 9]);
    try (vm_compute; reflexivity); try (vm_compute; discriminate).
  - apply demo_padded_ok.
  - repeat constructor; discriminate.
  - repeat constructor; lia.
Defined.

(** A packet whose 40 bytes of options leave no padding crashes the node that
    wants to tag it: there is no room for the option and no way to grow, and the
    NULL that [set_tcpopt] returns is dereferenced. *)
Theorem full_area_null fuel delta H t tot s items P S id :
  (64 <= fuel)%nat → packet_ok H t 15 tot s items P → lacks NOD items →
  space (no_nops items) 15 = 0 →
  set_nod_header_data fuel delta (pkt H items 15 P S) ONOP id = Undef.
Proof.
  intros Hfuel Hp Hl Hsp. pose proof (no_nops_packet_ok _ _ _ _ _ _ _ Hp) as Hq. pose proof (ok_hdr _ _ _ _ _ _ _ Hp) as Hh.
  assert (Hno : ∀ its a, 0 < a → add_tcpopt_addoff (pkt H its 15 P S) a = Ret (pkt H its 15 P S, -1)).
  { intros its a Ha. unfold add_tcpopt_addoff, pkt. opt_head Hh. by bool_lia. }
  assert (E : set_tcpopt fuel (pkt H items 15 P S) NOD 2 = Ret (pkt H (no_nops items) 15 P S, None)).
  { unfold set_tcpopt. rewrite (get_tcpopt_absent Hfuel Hp) by done. cbn [mbind outcome_bind].
    rewrite (addoff_needed_pkt Hfuel Hp). cbn [mbind outcome_bind]. rewrite Hsp.
    change (if 0 <? 2 then dwords (u8 (2 - 0)) else 0) with 1. rewrite Hno by done. cbn [mbind outcome_bind].
    rewrite (get_tcpopt_EOL Hfuel Hq), Hsp. done. }
  assert (G : get_nod_header fuel delta (pkt H (no_nops items) 15 P S) ONOP = Ret None).
  { unfold get_nod_header. by rewrite (get_tcpopt_absent Hfuel Hq) by (done || by apply no_nops_lacks). }
  unfold set_nod_header_data, set_nod_header. rewrite E. cbn [mbind outcome_bind]. rewrite G. cbn [mbind outcome_bind]. change (u8 (2 + blen ONOP)) with 6. unfold add_tcpopt_bytes.
  rewrite (addoff_needed_pkt Hfuel Hq). cbn [mbind outcome_bind]. rewrite no_nops_idem, Hsp.
  change (if 0 <? 6 then dwords (u8 (6 - 0)) else 0) with 2. by rewrite Hno.
Qed.

Definition full_items : list item := [Opt 8 (replicate 8 0); Opt 5 (replicate 28 0)].

Lemma full_area_null_witness :
  set_nod_header_data 64 (-8) (pkt (demo_header 15 81) full_items 15 [42] []) ONOP [10; 0; 0; 9] = Undef.
Proof.
  apply (full_area_null 64 (-8) (demo_header 15 81) 20 81 738263040 full_items [42]).
  - lia.
  - split; [apply demo_hdr; lia| |done]. split; [|done]. repeat constructor; vm_compute; done || discriminate.
  - repeat constructor; discriminate.
  - reflexivity.
Defined.

(** Three bytes of options hang the packet thread: after a NOP, an option with
    length 255 wraps the 8-bit index back to the NOP, so the search for any other
    option never ends, whatever follows. *)
Theorem crafted_option_hangs H t d tot s k num R :
  hdr H t d tot s → 5 < d → 1 < k < 256 → num ≠ 1 → num ≠ k →
  ∀ fuel, get_tcpopt fuel (H ++ 1 :: k :: 255 :: R) num = Spin.
Proof.
  intros Hh Hd Hk Hn1 Hnk fuel. unfold get_tcpopt. opt_head Hh.
  pose proof (hdr_d _ _ _ _ _ Hh). set (p := H ++ 1 :: k :: 255 :: R).
  assert (R0 : rd p (blen H + 0) = Ret 1) by (apply rd_app; lia).
  assert (R1 : rd p (blen H + 1) = Ret k).
  { unfold p. change (1 :: k :: 255 :: R) with ([1] ++ k :: 255 :: R). rewrite app_assoc. apply rd_app. by rewrite blen_app. }
  assert (R2 : rd p (blen H + (1 + 1)) = Ret 255).
  { unfold p. change (1 :: k :: 255 :: R) with ([1; k] ++ 255 :: R). rewrite app_assoc. apply rd_app. by rewrite blen_app. }
  assert (L : ∀ n, get_tcpopt_loop n p (blen H) (4 * d - 20) num 0 = Spin
                   ∧ get_tcpopt_loop n p (blen H) (4 * d - 20) num 1 = Spin).
  { induction n as [|n [IH0 IH1]]; [done|]. cbn [get_tcpopt_loop]. bool_lia. unfold optlen.
    rewrite R0, R1. cbn [mbind outcome_bind]. unfold TCPOPT_NOP. rewrite R2. cbn [mbind outcome_bind].
    bool_lia. split; [exact IH1|exact IH0]. }
  apply L.
Qed.

Lemma crafted_option_hangs_witness :
  get_tcpopt 1000 (demo_header 6 44 ++ 1 :: 9 :: 255 :: [0]) NOD = Spin.
Proof.
  apply (crafted_option_hangs (demo_header 6 44) 20 6 44 738263040 9 NOD [0]);
    [apply demo_hdr; lia|lia|lia|discriminate|discriminate].
Defined.
