(* ===== verification/RawOption.v ===== *)
(** * Options by number

    [__get_tcp_option] and [__set_tcp_option] as lookup and update of the list of
    options; used for the MSS and for the mark of compressed packets. *)
From S2P Require Import Prelude Packet TcpOptions OptionLayout OptionOps NodTag.

(** Equality of concatenations. *)
Ltac app_norm := repeat (progress (rewrite <-?app_assoc; cbn [app])); reflexivity.

(** ** Big-endian values *)
Definition be (l : list Z) : Z := foldl (λ a x, 256 * a + x) 0 l.

Fixpoint be_bytes (n : nat) (v : Z) : list Z :=
  match n with O => [] | S c => u8 (Z.shiftr v (8 * Z.of_nat c)) :: be_bytes c v end.

Lemma be_bytes_length n v : length (be_bytes n v) = n.
Proof. induction n; simpl; congruence. Qed.

Lemma be_bytes_bytes n v : bytes (be_bytes n v).
Proof. induction n; simpl; constructor; [apply u8_bound|done]. Qed.

Lemma be_acc l a : foldl (λ a x, 256 * a + x) a l = a * 256 ^ blen l + be l.
Proof.
  unfold be. revert a. induction l as [|x l IH]; intros a; cbn [foldl]; [change (blen []) with 0; lia|].
  rewrite (IH (256 * a + x)), (IH (256 * 0 + x)). change (x :: l) with ([x] ++ l). rewrite blen_app. change (blen [x]) with 1.
  pose proof (blen_nonneg l). rewrite Z.pow_add_r by lia. lia.
Qed.

Lemma be_cons x l : be (x :: l) = x * 256 ^ blen l + be l.
Proof. unfold be at 1. cbn [foldl]. rewrite be_acc. lia. Qed.

Lemma be_bound l : bytes l → 0 <= be l < 256 ^ blen l.
Proof.
  induction 1 as [|x l Hx Hl IH]; [done|]. rewrite be_cons. change (x :: l) with ([x] ++ l).
  rewrite blen_app. change (blen [x]) with 1. pose proof (blen_nonneg l). rewrite Z.pow_add_r by lia. nia.
Qed.

Lemma be_be_bytes n v : 0 <= v < 256 ^ Z.of_nat n → be (be_bytes n v) = v.
Proof.
  intros Hv. assert (G : be (be_bytes n v) = v mod 256 ^ Z.of_nat n).
  { clear Hv. induction n as [|n IH]; simpl be_bytes; [by rewrite Z.mod_1_r|].
    rewrite be_cons, IH. unfold blen. rewrite be_bytes_length. unfold u8.
    rewrite Z.shiftr_div_pow2 by lia. rewrite (Z.pow_mul_r 2 8) by lia. change (2 ^ 8) with 256.
    replace (Z.of_nat (S n)) with (Z.of_nat n + 1) by lia.
    rewrite Z.pow_add_r by lia. rewrite (Z.rem_mul_r v (256 ^ Z.of_nat n) (256 ^ 1)) by lia.
    change (256 ^ 1) with 256. lia. }
  rewrite G. by apply Z.mod_small.
Qed.

(** ** Reading and writing the data of an option *)
Lemma int_shl_small x c : 0 <= x < 256 → (c < 3)%nat → int_shl x (8 * Z.of_nat c) = Ret (x * 256 ^ Z.of_nat c).
Proof.
  intros Hx Hc. unfold int_shl. rewrite Z.shiftl_mul_pow2 by lia. rewrite Z.pow_mul_r by lia. change (2 ^ 8) with 256.
  assert (Hb : 256 ^ Z.of_nat c <= 256 ^ 2) by (apply Z.pow_le_mono_r; lia). change (256 ^ 2) with 65536 in Hb.
  assert (Hb0 : 0 < 256 ^ Z.of_nat c) by lia.
  assert (x * 256 ^ Z.of_nat c < 2 ^ 31) by nia. by bool_lia.
Qed.

Lemma option_data_seg data L R o bf acc :
  bytes data → (length data <= 3)%nat → o + bf = blen L → 0 <= bf → bf + blen data < 256 →
  0 <= acc → acc + be data < 2 ^ 64 →
  option_data (length data) (L ++ data ++ R) o bf acc = Ret (acc + be data).
Proof.
  intros Hb. revert L bf acc. induction Hb as [|x data Hx Hb IH]; intros L bf acc Hl Ho Hbf Hbf2 Ha Hs;
    cbn [option_data length app] in *.
  { f_equal. change (be []) with 0. lia. }
  pose proof (be_bound data Hb) as Hbd. pose proof (blen_nonneg data) as Hn.
  assert (Hlen : blen (x :: data) = 1 + blen data) by (unfold blen; cbn [length]; lia).
  rewrite be_cons in *. rewrite rd_app by lia. cbn [mbind outcome_bind].
  rewrite int_shl_small by lia. cbn [mbind outcome_bind]. fold (blen data) in *.
  assert (Hx0 : 0 <= x * 256 ^ blen data) by (apply Z.mul_nonneg_nonneg; lia).
  rewrite u8_small, u64_small by lia.
  change (x :: data ++ R) with ([x] ++ data ++ R). rewrite app_assoc.
  rewrite IH; [f_equal; lia|lia|rewrite blen_app; change (blen [x]) with 1; lia|lia..].
Qed.

Lemma write_option_data_seg n G L R o bf v :
  length G = n → (n <= 8)%nat → o + bf = blen L → 0 <= bf → bf + Z.of_nat n < 256 →
  write_option_data n (L ++ G ++ R) o bf v = Ret (L ++ be_bytes n v ++ R).
Proof.
  revert G L bf. induction n as [|n IH]; intros G L bf Hl Hn Ho Hbf Hbf2; simpl.
  { by destruct G. }
  destruct G as [|g G]; [done|]. injection Hl as Hl. unfold u64_shr. bool_lia. cbn [mbind outcome_bind].
  cbn [app]. rewrite wr_app by lia. cbn [mbind outcome_bind]. rewrite (u8_small (bf + 1)) by lia.
  set (y := u8 _). change (y :: G ++ R) with ([y] ++ G ++ R). rewrite app_assoc.
  rewrite IH; [by rewrite <-app_assoc|done|lia|rewrite blen_app; change (blen [y]) with 1; lia|lia|lia].
Qed.

(** ** The option loops *)
Section RawLoops.
Context (H R : list Z) (d : Z) (Hd : 5 <= d <= 15).
Local Abbreviation lim := (4 * d - 20).

Lemma get_option_skip items n X Y num :
  Forall item_ok items → lacks num items → blen X + blen (enc items) <= lim →
  (length items <= n)%nat →
  get_option_loop n (H ++ (X ++ enc items ++ Y) ++ R) (blen H) lim d num (blen X)
  = get_option_loop (n - length items) (H ++ (X ++ enc items ++ Y) ++ R) (blen H) lim d num
      (blen X + blen (enc items)).
Proof.
  revert n X. induction items as [|it items IH]; intros n X Hok Hk Hl Hn; cbn [length enc] in *.
  { change (blen []) with 0. by rewrite Z.add_0_r, Nat.sub_0_r. }
  destruct n as [|n]; [lia|]. apply Forall_cons in Hok as [Hit Hok]. apply Forall_cons in Hk as [Hki Hk].
  rewrite blen_app in *. pose proof (enc1_length it). pose proof (blen_nonneg (enc items)).
  pose proof (blen_nonneg X). cbn [get_option_loop]. bool_lia. rewrite <-(app_assoc (enc1 it)).
  rewrite area_head. cbn [mbind outcome_bind].
  replace (kind it =? num) with false by (symmetry; by apply Z.eqb_neq).
  rewrite optlen_item by done. cbn [mbind outcome_bind].
  rewrite u8_small by lia. rewrite (app_assoc X), <-(blen_app X).
  rewrite IH by (try done; rewrite ?blen_app; lia). rewrite blen_app. f_equal. lia.
Qed.

Lemma get_option_zeros z n X Y num :
  num ≠ 0 → 0 <= z → lim = blen X + z → z < Z.of_nat n →
  get_option_loop n (H ++ (X ++ zeros z ++ Y) ++ R) (blen H) lim d num (blen X) = Ret 0.
Proof.
  intros Hnum. revert z X. induction n as [|n IH]; intros z X Hz Hlim Hn; [lia|]. cbn [get_option_loop].
  destruct (decide (z = 0)) as [->|Hz0]; [by bool_lia|].
  pose proof (blen_nonneg X). bool_lia. rewrite zeros_S by lia. cbn [app].
  rewrite area_rd. cbn [mbind outcome_bind]. replace (0 =? num) with false by (symmetry; apply Z.eqb_neq; lia).
  rewrite optlen_zero. cbn [mbind outcome_bind]. rewrite u8_small by lia.
  replace (X ++ 0 :: zeros (z - 1) ++ Y) with ((X ++ [0]) ++ zeros (z - 1) ++ Y) by (by rewrite <-app_assoc).
  replace (blen X + 1) with (blen (X ++ [0])) by (by rewrite blen_app).
  apply IH; rewrite ?blen_app; change (blen [0]) with 1; lia.
Qed.

Lemma update_option_skip items n X Y num len v :
  Forall item_ok items → lacks num items → blen X + blen (enc items) <= lim →
  (length items <= n)%nat →
  update_option_loop n (H ++ (X ++ enc items ++ Y) ++ R) (blen H) lim d num len v (blen X)
  = update_option_loop (n - length items) (H ++ (X ++ enc items ++ Y) ++ R) (blen H) lim d num len v
      (blen X + blen (enc items)).
Proof.
  revert n X. induction items as [|it items IH]; intros n X Hok Hk Hl Hn; cbn [length enc] in *.
  { change (blen []) with 0. by rewrite Z.add_0_r, Nat.sub_0_r. }
  destruct n as [|n]; [lia|]. apply Forall_cons in Hok as [Hit Hok]. apply Forall_cons in Hk as [Hki Hk].
  rewrite blen_app in *. pose proof (enc1_length it). pose proof (blen_nonneg (enc items)).
  pose proof (blen_nonneg X). cbn [update_option_loop]. bool_lia. rewrite <-(app_assoc (enc1 it)).
  rewrite area_head. cbn [mbind outcome_bind].
  replace (kind it =? num) with false by (symmetry; by apply Z.eqb_neq). cbn [andb mbind outcome_bind].
  rewrite optlen_item by done. cbn [mbind outcome_bind].
  rewrite u8_small by lia. rewrite (app_assoc X), <-(blen_app X).
  rewrite IH by (try done; rewrite ?blen_app; lia). rewrite blen_app. f_equal. lia.
Qed.

Lemma update_option_zeros z n X Y num len v :
  num ≠ 0 → 0 <= z → lim = blen X + z → z < Z.of_nat n →
  update_option_loop n (H ++ (X ++ zeros z ++ Y) ++ R) (blen H) lim d num len v (blen X) = Ret None.
Proof.
  intros Hnum. revert z X. induction n as [|n IH]; intros z X Hz Hlim Hn; [lia|]. cbn [update_option_loop].
  destruct (decide (z = 0)) as [->|Hz0]; [by bool_lia|].
  pose proof (blen_nonneg X). bool_lia. rewrite zeros_S by lia. cbn [app].
  rewrite area_rd. cbn [mbind outcome_bind]. replace (0 =? num) with false by (symmetry; apply Z.eqb_neq; lia).
  cbn [andb mbind outcome_bind]. rewrite optlen_zero. cbn [mbind outcome_bind]. rewrite u8_small by lia.
  replace (X ++ 0 :: zeros (z - 1) ++ Y) with ((X ++ [0]) ++ zeros (z - 1) ++ Y) by (by rewrite <-app_assoc).
  replace (blen X + 1) with (blen (X ++ [0])) by (by rewrite blen_app).
  apply IH; rewrite ?blen_app; change (blen [0]) with 1; lia.
Qed.
End RawLoops.

(** The new lengths in the header. *)
Lemma set_lengths H t d tot s a X :
  hdr H t d tot s → 0 <= a → d + a <= 15 → tot + 4 * a < 65536 →
  ∃ H', (p ← (if a =? 0 then Ret (H ++ X) else set_tcp_doff (H ++ X) t (d + a));
         tot ← ip_tot_len p;
         p ← set_ip_tot_len p (htons (u16 (ntohs tot + a * 4))); Ret (p, 0)) = Ret (H' ++ X, 0)
    ∧ hdr H' t (d + a) (tot + 4 * a) s ∧ hdr_eqv t H H'.
Proof.
  intros Hh Ha Hda Ht. pose proof (hdr_d _ _ _ _ _ Hh). pose proof (hdr_totb _ _ _ _ _ Hh).
  assert (E1 : ∃ K, (if a =? 0 then Ret (H ++ X) else set_tcp_doff (H ++ X) t (d + a)) = Ret (K ++ X)
                     ∧ hdr K t (d + a) tot s ∧ hdr_eqv t H K).
  { destruct (Z.eqb_spec a 0) as [->|]; [|apply set_tcp_doff_hdr with (d := d); [done|lia]].
    exists H. rewrite Z.add_0_r. by split. }
  destruct E1 as (K & E1 & HK & V1). rewrite E1. cbn [mbind outcome_bind]. opt_head HK.
  unfold htons at 2. rewrite ntohs_invol by done. rewrite (Z.mul_comm a), u16_small by lia.
  destruct (set_ip_tot_len_hdr K t (d + a) tot s (tot + 4 * a) X HK) as (H' & E2 & Hh' & V2); [lia|].
  rewrite E2. exists H'. split; [done|]. split; [done|]. by rewrite V1.
Qed.

(** ** Lookup *)
Section Raw.
Context {fuel : nat} (Hfuel : (64 <= fuel)%nat).
Context {H : list Z} {t d tot s : Z} {items : list item} {P S : list Z}.
Context (Hp : packet_ok H t d tot s items P).

Lemma get_option_absent num :
  num ≠ 0 → lacks num items → __get_tcp_option fuel (pkt H items d P S) num = Ret 0.
Proof.
  intros Hn Hl. pose proof Hp as [Hh [Hok Hlen] _]. pose proof (hdr_d _ _ _ _ _ Hh) as Hd.
  pose proof (enc_length items) as He. unfold __get_tcp_option. rewrite (pkt_shape (H := H)). opt_head Hh.
  rewrite (get_option_skip H (P ++ S) d Hd items fuel [] (zeros (space items d))) by (done || len_lia).
  change (blen []) with 0. rewrite Z.add_0_l. cbn [app].
  rewrite <-(app_nil_r (zeros _)). apply get_option_zeros; try done; len_lia.
Qed.

Lemma get_option_present num data l1 l2 :
  items = l1 ++ Opt num data :: l2 → lacks num l1 → 0 < blen data <= 3 →
  __get_tcp_option fuel (pkt H items d P S) num = Ret (be data).
Proof.
  intros E Hl Hdata. pose proof Hp as [Hh [Hok Hlen] _]. pose proof (hdr_d _ _ _ _ _ Hh) as Hd.
  rewrite E in Hok, Hlen. rewrite enc_app, blen_app in Hlen. cbn [enc] in Hlen. rewrite blen_app in Hlen.
  apply Forall_app in Hok as [Hok1 Hok2]. apply Forall_cons in Hok2 as [(Hk & Hdl & Hb) _].
  pose proof (enc_length l1). pose proof (blen_nonneg (enc l1)). pose proof (blen_nonneg (enc l2)).
  assert (He1 : blen (enc1 (Opt num data)) = 2 + blen data) by (unfold blen; cbn [enc1 length]; lia).
  unfold __get_tcp_option. rewrite E, pkt_shape, enc_app. set (z := zeros _). opt_head Hh.
  rewrite <-(app_assoc (enc l1)).
  rewrite (get_option_skip H (P ++ S) d Hd l1 fuel []) by (done || len_lia).
  change (blen []) with 0. rewrite Z.add_0_l. cbn [app enc enc1].
  destruct (fuel - length l1)%nat as [|n] eqn:En; [lia|]. cbn [get_option_loop]. bool_lia.
  rewrite area_rd. cbn [mbind outcome_bind]. rewrite Z.eqb_refl.
  set (Y := data ++ (enc l2 ++ z)).
  replace (enc l1 ++ num :: 2 + blen data :: (data ++ enc l2) ++ z)
    with ((enc l1 ++ [num]) ++ 2 + blen data :: Y) by (unfold Y; by rewrite <-!app_assoc).
  replace (blen (enc l1) + 1) with (blen (enc l1 ++ [num])) by (by rewrite blen_app).
  rewrite area_rd. cbn [mbind outcome_bind]. bool_lia. rewrite u8_small by lia.
  replace (Z.to_nat (2 + blen data - 2)) with (length data) by (unfold blen; lia).
  replace (H ++ ((enc l1 ++ [num]) ++ 2 + blen data :: Y) ++ P ++ S)
    with ((H ++ enc l1 ++ [num; 2 + blen data]) ++ data ++ (enc l2 ++ z ++ P ++ S))
    by (unfold Y; app_norm).
  pose proof (be_bound data Hb). assert (256 ^ blen data <= 256 ^ 3) by (apply Z.pow_le_mono_r; lia).
  change (256 ^ 3) with 16777216 in *.
  rewrite option_data_seg; [done|done|unfold blen in *; lia|rewrite !blen_app; unfold blen; cbn [length]; lia|lia..].
Qed.

(** ** Update in place *)
Lemma set_option_present num old l1 l2 v :
  items = l1 ++ Opt num old :: l2 → lacks num l1 → blen old <= 8 →
  __set_tcp_option fuel (pkt H items d P S) num (2 + blen old) v
  = Ret (pkt H (l1 ++ Opt num (be_bytes (length old) v) :: l2) d P S, 0)
  ∧ packet_ok H t d tot s (l1 ++ Opt num (be_bytes (length old) v) :: l2) P.
Proof.
  intros E Hl Hold. pose proof Hp as [Hh [Hok Hlen] Htot]. pose proof (hdr_d _ _ _ _ _ Hh) as Hd.
  rewrite E in Hok, Hlen. rewrite enc_app, blen_app in Hlen. cbn [enc] in Hlen. rewrite blen_app in Hlen.
  apply Forall_app in Hok as [Hok1 Hok2]. apply Forall_cons in Hok2 as [(Hk & Hdl & Hb) Hok2].
  pose proof (enc_length l1). pose proof (blen_nonneg (enc l1)). pose proof (blen_nonneg (enc l2)).
  pose proof (blen_nonneg old).
  assert (He1 : blen (enc1 (Opt num old)) = 2 + blen old) by (unfold blen; cbn [enc1 length]; lia).
  set (new := be_bytes (length old) v).
  assert (Hnew : blen new = blen old) by (unfold blen, new; by rewrite be_bytes_length).
  assert (He2 : blen (enc (l1 ++ Opt num new :: l2)) = blen (enc items)).
  { rewrite E, !enc_app, !blen_app. cbn [enc]. rewrite !blen_app. f_equal. f_equal.
    unfold blen in *. cbn [enc1 length]. lia. }
  split.
  2:{ split; [done| |done]. split; [|rewrite He2, E, enc_app, blen_app; cbn [enc]; rewrite blen_app; lia].
      apply Forall_app. split; [done|]. constructor; [|done]. split; [done|].
      split; [lia|apply be_bytes_bytes]. }
  unfold __set_tcp_option. assert (Esp : space (l1 ++ Opt num new :: l2) d = space items d) by (unfold space; by rewrite He2).
  rewrite (pkt_at _ l1 (Opt num new)), Esp, E, pkt_shape, enc_app. set (z := zeros _). opt_head Hh.
  rewrite <-(app_assoc (enc l1)). bool_lia.
  rewrite (update_option_skip H (P ++ S) d Hd l1 fuel []) by (done || len_lia).
  change (blen []) with 0. rewrite Z.add_0_l. cbn [app enc enc1].
  destruct (fuel - length l1)%nat as [|n] eqn:En; [lia|]. cbn [update_option_loop]. bool_lia.
  rewrite area_rd. cbn [mbind outcome_bind]. rewrite Z.eqb_refl. rewrite u32_small by lia. bool_lia.
  set (Y := old ++ (enc l2 ++ z)).
  replace (enc l1 ++ num :: 2 + blen old :: (old ++ enc l2) ++ z)
    with ((enc l1 ++ [num]) ++ 2 + blen old :: Y) by (unfold Y; app_norm).
  replace (blen (enc l1) + 1) with (blen (enc l1 ++ [num])) by (by rewrite blen_app).
  rewrite area_rd. cbn [mbind outcome_bind]. rewrite Z.eqb_refl. rewrite u8_small by lia.
  replace (Z.to_nat (2 + blen old - 2)) with (length old) by (unfold blen; lia).
  replace (H ++ ((enc l1 ++ [num]) ++ 2 + blen old :: Y) ++ P ++ S)
    with ((H ++ enc l1 ++ [num; 2 + blen old]) ++ old ++ (enc l2 ++ z ++ P ++ S)) by (unfold Y; app_norm).
  rewrite write_option_data_seg; [|done|unfold blen in Hold; lia|rewrite !blen_app; unfold blen; cbn [length]; lia|lia|unfold blen in *; lia].
  cbn [mbind outcome_bind]. fold new. do 2 f_equal. rewrite Hnew. app_norm.
Qed.

(** ** Insertion in front *)
Lemma insert_gap its lim' R len num v :
  fits its lim' → 2 <= len <= 10 → len <= lim' - blen (enc its) →
  (p ← memmove (H ++ area its lim' ++ R) (blen H + len) (blen H) (blen (enc its));
   p ← wr p (blen H) num; p ← wr p (blen H + 1) len;
   write_option_data (Z.to_nat (u8 (len - 2))) p (blen H) 2 v)
  = Ret (H ++ (u8 num :: len :: be_bytes (Z.to_nat (len - 2)) v)
           ++ enc its ++ zeros (lim' - blen (enc its) - len) ++ R).
Proof.
  intros [Hok Hl] Hlen Hsp. pose proof (blen_nonneg (enc its)).
  assert (Hz : blen (zeros len) = len) by (apply blen_zeros; lia).
  unfold area. replace (zeros (lim' - blen (enc its))) with (zeros len ++ zeros (lim' - blen (enc its) - len))
    by (rewrite zeros_add by lia; f_equal; lia).
  destruct (shift_right H (enc its) (zeros len) (zeros (lim' - blen (enc its) - len) ++ R)) as (G & HG & E).
  rewrite Hz in *. rewrite <-!(app_assoc (enc its)), <-(app_assoc (zeros len)), E. cbn [mbind outcome_bind].
  destruct G as [|g0 [|g1 G]]; try (unfold blen in HG; cbn [length] in HG; lia).
  cbn [app]. rewrite wr_app by done. cbn [mbind outcome_bind].
  set (T := G ++ enc its ++ _). change (u8 num :: g1 :: T) with ([u8 num] ++ g1 :: T). rewrite app_assoc.
  rewrite wr_app by (by rewrite blen_app). cbn [mbind outcome_bind]. rewrite (u8_small len) by lia.
  rewrite (u8_small (len - 2)) by lia. unfold T.
  replace ((H ++ [u8 num]) ++ len :: G ++ enc its ++ zeros (lim' - blen (enc its) - len) ++ R)
    with ((H ++ [u8 num; len]) ++ G ++ enc its ++ zeros (lim' - blen (enc its) - len) ++ R) by app_norm.
  rewrite write_option_data_seg; [f_equal; app_norm|unfold blen in HG; cbn [length] in HG; lia|lia
    |rewrite blen_app; unfold blen; cbn [length]; lia|lia|lia].
Qed.

Lemma update_option_absent num len v :
  num ≠ 0 → lacks num items →
  (if 5 <? d then update_option_loop fuel (pkt H items d P S) (blen H) (4 * d - 20) d num len v 0 else Ret None)
  = Ret None.
Proof.
  intros Hn Hl. pose proof Hp as [Hh [Hok Hlen] _]. pose proof (hdr_d _ _ _ _ _ Hh) as Hd.
  pose proof (enc_length items) as He. destruct (Z.ltb_spec 5 d); [|done]. rewrite pkt_shape.
  rewrite (update_option_skip H (P ++ S) d Hd items fuel [] (zeros (space items d))) by (done || len_lia).
  change (blen []) with 0. rewrite Z.add_0_l. cbn [app].
  rewrite <-(app_nil_r (zeros _)). apply update_option_zeros; try done; len_lia.
Qed.

Lemma compact_pkt :
  (if 5 <? d then compact_loop fuel fuel (pkt H items d P S) (blen H) (4 * d - 20) 0
   else Ret (pkt H items d P S, 0))
  = Ret (pkt H (no_nops items) d P S, space (no_nops items) d).
Proof.
  pose proof Hp as [Hh [Hok Hlen] _]. pose proof (hdr_d _ _ _ _ _ Hh) as Hd. pose proof (space_nonneg Hp).
  pose proof (no_nops_length items). destruct (Z.ltb_spec 5 d).
  - rewrite pkt_shape.
    rewrite (compact_items fuel Hfuel H (P ++ S) fuel items []) by (done || len_lia).
    do 2 f_equal; [|len_lia]. unfold pkt, area. cbn [app]. do 4 f_equal. len_lia.
  - pose proof (enc_length items). pose proof (blen_nonneg (enc items)).
    assert (E : items = []) by (apply nil_length_inv; lia). rewrite E. do 2 f_equal.
    unfold space. change (blen (enc (no_nops []))) with 0. lia.
Qed.

Lemma set_option_absent num len v a :
  1 < num < 256 → 2 <= len <= 10 → lacks num items → a = words (space (no_nops items) d) len →
  d + a <= 15 → 4 * a <= blen S → tot + 4 * a < 65536 →
  ∃ H', __set_tcp_option fuel (pkt H items d P S) num len v
        = Ret (pkt H' (Opt num (be_bytes (Z.to_nat (len - 2)) v) :: no_nops items) (d + a) P
                 (drop (Z.to_nat (4 * a)) S), 0)
    ∧ packet_ok H' t (d + a) (tot + 4 * a) s (Opt num (be_bytes (Z.to_nat (len - 2)) v) :: no_nops items) P
    ∧ hdr_eqv t H H'.
Proof.
  intros Hnum Hlen Hl Ea Had HS Htb. pose proof (no_nops_packet_ok _ _ _ _ _ _ _ Hp) as Hq.
  pose proof Hq as [Hh [Hok Hle] Htot]. pose proof (hdr_d _ _ _ _ _ Hh) as Hd. pose proof (space_nonneg Hq) as Hsp.
  destruct (words_spec (space (no_nops items) d) len) as (Hw & W1 & W2); [lia..|]. rewrite <-Ea in *.
  pose proof (hdr_totb _ _ _ _ _ Hh). pose proof (hdr_len _ _ _ _ _ Hh).
  unfold __set_tcp_option, insert_option.
  assert (Ep : ∀ l, pkt H l d P S = H ++ (area l (4 * d - 20) ++ P ++ S)) by done.
  rewrite (Ep items). opt_head Hh. rewrite <-Ep.
  rewrite update_option_absent by (done || lia). cbn [mbind outcome_bind].
  rewrite (Ep items). opt_head Hh. rewrite <-Ep, compact_pkt.
  cbn [mbind outcome_bind]. fold (words (space (no_nops items) d) len). rewrite <-Ea. bool_lia.
  rewrite (Ep (no_nops items)). opt_head Hh. rewrite <-Ep. set (its := no_nops items) in *. set (S' := drop (Z.to_nat (4 * a)) S).
  assert (Eg : (if a =? 0 then Ret (pkt H its d P S) else open_gap (pkt H its d P S) t (htons tot) d a)
               = Ret (H ++ area its (4 * (d + a) - 20) ++ P ++ S')).
  { replace (4 * (d + a) - 20) with (4 * d - 20 + 4 * a) by lia. rewrite <-area_grow by lia.
    destruct (Z.eqb_spec a 0) as [->|]; unfold pkt.
    - unfold S'. change (zeros (4 * 0)) with (@nil Z). by rewrite app_nil_r.
    - rewrite app_assoc, open_gap_seg; [|rewrite blen_app, area_length by done; lia|done..|lia|done].
      f_equal. unfold S'. app_norm. }
  rewrite Eg. cbn [mbind outcome_bind]. clear Eg.
  replace (4 * d - 20 - space its d) with (blen (enc its)) by (unfold space; lia).
  rewrite (u64_small (blen (enc its))) by (pose proof (blen_nonneg (enc its)); lia).
  assert (Hf : fits its (4 * (d + a) - 20)) by (split; [done|lia]).
  pose proof (insert_gap its (4 * (d + a) - 20) (P ++ S') len num v Hf Hlen ltac:(unfold space in *; lia)) as Ei.
  set (new := Opt num (be_bytes (Z.to_nat (len - 2)) v)) in *.
  assert (Hbl : 2 + blen (be_bytes (Z.to_nat (len - 2)) v) = len) by (unfold blen; rewrite be_bytes_length; lia).
  assert (Enew : u8 num :: len :: be_bytes (Z.to_nat (len - 2)) v = enc1 new).
  { unfold new. cbn [enc1]. rewrite Hbl. by rewrite u8_small by lia. }
  assert (Hnew : blen (enc1 new) = len) by (unfold new, blen in *; cbn [enc1 length]; lia).
  apply bind_Ret in Ei as (p1 & E1 & Ei). apply bind_Ret in Ei as (p2 & E2 & Ei). apply bind_Ret in Ei as (p3 & E3 & Ei).
  rewrite E1. cbn [mbind outcome_bind]. rewrite E2. cbn [mbind outcome_bind]. rewrite E3. cbn [mbind outcome_bind].
  rewrite Ei, Enew. cbn [mbind outcome_bind]. clear E1 E2 E3 Ei.
  set (Q := enc1 new ++ enc its ++ zeros _ ++ P ++ S').
  assert (EQ : ∀ K, K ++ Q = pkt K (new :: its) (d + a) P S').
  { intros K. unfold Q, pkt, area. cbn [enc]. rewrite blen_app, Hnew.
    replace (4 * (d + a) - 20 - (len + blen (enc its))) with (4 * (d + a) - 20 - blen (enc its) - len) by lia. app_norm. }
  destruct (set_lengths H t d tot s a Q Hh) as (H' & E' & Hh' & V); [lia..|].
  rewrite E', EQ. exists H'. split; [done|]. split; [|done].
  split; [done| |lia]. split; [|cbn [enc]; rewrite blen_app; unfold space in *; lia].
  constructor; [|done]. split; [done|]. split; [lia|apply be_bytes_bytes].
Qed.
End Raw.

(** ** The option list after a successful [__set_tcp_option] *)
Inductive option_set (items : list item) (d num len v : Z) : list item → Z → Prop :=
| set_old l1 old l2 :
    items = l1 ++ Opt num old :: l2 → lacks num l1 → 2 + blen old = len →
    option_set items d num len v (l1 ++ Opt num (be_bytes (length old) v) :: l2) 0
| set_new a :
    lacks num items → a = words (space (no_nops items) d) len →
    option_set items d num len v (Opt num (be_bytes (Z.to_nat (len - 2)) v) :: no_nops items) a.

Lemma set_option_result {fuel H t d tot s items P S num len v items' a} :
  (64 <= fuel)%nat → packet_ok H t d tot s items P →
  1 < num < 256 → 2 <= len <= 10 → option_set items d num len v items' a →
  d + a <= 15 → 4 * a <= blen S → tot + 4 * a < 65536 →
  ∃ H', __set_tcp_option fuel (pkt H items d P S) num len v
        = Ret (pkt H' items' (d + a) P (drop (Z.to_nat (4 * a)) S), 0)
    ∧ packet_ok H' t (d + a) (tot + 4 * a) s items' P ∧ hdr_eqv t H H'.
Proof.
  intros Hfuel Hp Hnum Hlen Hset Hd HS Ht. destruct Hset as [l1 old l2 E Hl Hold|a Hl Ea].
  - destruct (set_option_present (S := S) Hfuel Hp num old l1 l2 v E Hl) as [Es Hp']; [lia|].
    rewrite Hold in Es. exists H. by rewrite !Z.add_0_r.
  - by apply (set_option_absent Hfuel Hp num len v a).
Qed.

Lemma option_set_read items d num len v items' a :
  0 <= v < 256 ^ (len - 2) → 3 <= len <= 5 → option_set items d num len v items' a →
  ∃ l1 data l2, items' = l1 ++ Opt num data :: l2 ∧ lacks num l1 ∧ 0 < blen data <= 3 ∧ be data = v.
Proof.
  intros Hv Hlen Hset.
  assert (Hbe : ∀ n, Z.of_nat n = len - 2 → 0 < blen (be_bytes n v) <= 3 ∧ be (be_bytes n v) = v).
  { intros n Hn. unfold blen. rewrite be_bytes_length. split; [lia|]. apply be_be_bytes. by rewrite Hn. }
  destruct Hset as [l1 old l2 E Hl Hold|a Hl Ea].
  - exists l1, (be_bytes (length old) v), l2. split; [done|]. split; [done|]. apply Hbe. unfold blen in Hold. lia.
  - exists [], (be_bytes (Z.to_nat (len - 2)) v), (no_nops items). split; [done|]. split; [constructor|]. apply Hbe. lia.
Qed.

(** C18: [__set_tcp_option] then [__get_tcp_option] is a round trip: an option of the
    same length is overwritten in place, a missing one is inserted in front of the
    others (their NOPs give way first, then the payload moves back by whole words),
    and the value read back is the value written.  Payload, sequence number and the
    other options are kept; the two lengths in the headers are adjusted. *)
Theorem set_get_option fuel H t d tot s items P S num len v items' a :
  (64 <= fuel)%nat → packet_ok H t d tot s items P →
  1 < num < 256 → 3 <= len <= 5 → 0 <= v < 256 ^ (len - 2) →
  option_set items d num len v items' a →
  d + a <= 15 → 4 * a <= blen S → tot + 4 * a < 65536 →
  ∃ H', let p' := pkt H' items' (d + a) P (drop (Z.to_nat (4 * a)) S) in
    __set_tcp_option fuel (pkt H items d P S) num len v = Ret (p', 0)
    ∧ packet_ok H' t (d + a) (tot + 4 * a) s items' P ∧ hdr_eqv t H H'
    ∧ __get_tcp_option fuel p' num = Ret v.
Proof.
  intros Hfuel Hp Hnum Hlen Hv Hset Hd HS Ht.
  assert (Hlen' : 2 <= len <= 10) by lia.
  destruct (set_option_result Hfuel Hp Hnum Hlen' Hset Hd HS Ht) as (H' & E & Hp' & V).
  destruct (option_set_read _ _ _ _ _ _ _ Hv Hlen Hset) as (l1 & data & l2 & E' & Hl & Hdata & <-).
  exists H'. split; [done|]. split; [done|]. split; [done|]. by apply (get_option_present Hfuel Hp' num data l1 l2).
Qed.

Lemma set_get_option_witness :
  ∃ H', let p' := pkt H' [Opt 2 [5; 120]; Nop; Nop; Opt 4 []] 7 [42] (replicate 14 0) in
    __set_tcp_option 64 (pkt (demo_header 7 49) demo_items 7 [42] (replicate 14 0)) 2 4 1400 = Ret (p', 0)
    ∧ packet_ok H' 20 7 49 738263040 [Opt 2 [5; 120]; Nop; Nop; Opt 4 []] [42]
    ∧ hdr_eqv 20 (demo_header 7 49) H' ∧ __get_tcp_option 64 p' 2 = Ret 1400.
Proof.
  apply (set_get_option 64 (demo_header 7 49) 20 7 49 738263040 demo_items [42] (replicate 14 0) 2 4 1400
    [Opt 2 [5; 120]; Nop; Nop; Opt 4 []] 0); try lia.
  - apply demo_syn_ok.
  - apply (set_old demo_items 7 2 4 1400 [] [5; 180] [Nop; Nop; Opt 4 []]); [done|constructor|done].
  - by vm_compute.
Defined.
