(* ===== verification/Checked.v ===== *)
(** * Checksums of structured packets

    [checksum] changes two fields of each header and leaves the structure of the
    packet alone. *)
From S2P Require Import Prelude Packet Csum TcpOptions OptionLayout OptionOps.

(** A header whose checksum fields may differ. *)
Definition checksums_differ (t : Z) (H H' : list Z) : Prop :=
  blen H' = blen H ∧ ∀ i, 0 <= i → i ≠ 10 → i ≠ 11 → i ≠ t + 16 → i ≠ t + 17 → H' @@ i = H @@ i.

Lemma rd_same H H' i : blen H' = blen H → 0 <= i < blen H → H' @@ i = H @@ i → rd H' i = rd H i.
Proof. intros El Hi E. rewrite !rd_at by lia. by rewrite E. Qed.

Lemma checksums_differ_hdr H H' t d tot s :
  hdr H t d tot s → checksums_differ t H H' → bytes H' → hdr H' t d tot s.
Proof.
  intros [Hl Hb Ht Hi Hd Hdb Htot Htotb Hs] [El Ea] Hb'.
  assert (Er : ∀ i, 0 <= i < blen H → i ≠ 10 → i ≠ 11 → i ≠ t + 16 → i ≠ t + 17 → rd H' i = rd H i).
  { intros i Hr ? ? ? ?. apply rd_same; [done|done|]. apply Ea; lia. }
  split; try done.
  - lia.
  - rewrite <-Hi. unfold tcph_of, ip_ihl. by rewrite Er by lia.
  - rewrite <-Hd. unfold tcp_doff. by rewrite Er by lia.
  - rewrite <-Htot. unfold ip_tot_len, ld16. by rewrite !Er by lia.
  - rewrite <-Hs. unfold tcp_seq, ld32, ld16. by rewrite !Er by lia.
Qed.

Lemma area_bytes items lim : Forall item_ok items → bytes (area items lim).
Proof. intros. apply bytes_app; [by apply enc_bytes|apply zeros_bytes]. Qed.

Lemma pkt_bytes {H t d tot s items P S} :
  packet_ok H t d tot s items P → bytes P → bytes S → bytes (pkt H items d P S).
Proof.
  intros [Hh [Hok _] _] HP HS. unfold pkt.
  apply bytes_app; [apply (hdr_bytes _ _ _ _ _ Hh)|]. apply bytes_app; [by apply area_bytes|by apply bytes_app].
Qed.

Lemma pkt_blen {H t d tot s items P S} :
  packet_ok H t d tot s items P → blen (pkt H items d P S) = tot + blen S.
Proof.
  intros [Hh [Hok Hl] ->]. unfold pkt. rewrite !blen_app, area_length by done.
  pose proof (hdr_len _ _ _ _ _ Hh). lia.
Qed.

Lemma checksum_pkt {H t d tot s items P S} :
  packet_ok H t d tot s items P → rd H 9 = Ret IPPROTO_TCP → bytes P → bytes S → 1 <= blen S →
  ∃ H', checksum (pkt H items d P S) = Ret (pkt H' items d P S)
    ∧ packet_ok H' t d tot s items P ∧ checksums_differ t H H'
    ∧ valid_checksums (pkt H' items d P []) t.
Proof.
  intros Hp Hproto HP HS Hl. pose proof Hp as [Hh Hf Htot]. pose proof (hdr_len _ _ _ _ _ Hh) as Hlen.
  pose proof (hdr_t _ _ _ _ _ Hh). pose proof (hdr_d _ _ _ _ _ Hh). pose proof (hdr_totb _ _ _ _ _ Hh).
  pose proof (blen_nonneg P).
  assert (Htp : tcp_packet (pkt H items d P S) t tot).
  { split; [by apply (pkt_bytes Hp)| |unfold pkt; by opt_head Hh|lia|unfold pkt; by opt_head Hh|lia|].
    - unfold ip_protocol, pkt. by rewrite rd_app_l by lia.
    - rewrite (pkt_blen Hp). lia. }
  destruct (checksum_valid _ _ _ Htp) as (p' & E & El & Hb & Ea & Hv).
  set (X := area items (4 * d - 20) ++ P ++ S).
  assert (Ep : p' = take (length H) p' ++ X).
  { rewrite <-(take_drop (length H) p') at 1. f_equal. apply buffer_ext.
    - unfold blen in *. rewrite length_drop. unfold pkt in El. fold X in El. rewrite length_app in El. lia.
    - intros i Hi. assert (Hx : drop (length H) p' @@ i = p' @@ (blen H + i)).
      { rewrite <-(take_drop (length H) p') at 2. set (T := take (length H) p').
        assert (HT : blen T = blen H).
        { unfold T, blen, pkt in *. fold X in El. rewrite length_app in El. rewrite length_take. lia. }
        rewrite <-HT. by rewrite at_app_r by lia. }
      rewrite Hx, Ea by lia. unfold pkt. fold X. by rewrite at_app_r by lia. }
  assert (HT : blen (take (length H) p') = blen H).
  { unfold blen, pkt in *. fold X in El. rewrite length_app in El. rewrite length_take. lia. }
  exists (take (length H) p'). unfold pkt. fold X. rewrite <-Ep.
  assert (Hcd : checksums_differ t H (take (length H) p')).
  { split; [done|]. intros i Hi ? ? ? ?. destruct (decide (i < blen H)) as [Hi2|Hi2].
    - rewrite <-(at_app_l (take (length H) p') X i) by lia. rewrite <-Ep, Ea by lia.
      unfold pkt. fold X. by rewrite at_app_l by lia.
    - unfold at_. rewrite !nth_overflow; unfold blen in *; [done|lia|lia]. }
  assert (Hp' : packet_ok (take (length H) p') t d tot s items P).
  { split; [|done|done]. apply (checksums_differ_hdr H); [done|done|]. by apply Forall_take. }
  split_and!; [done|done|done|]. assert (Es : sub p' 0 tot = pkt (take (length H) p') items d P []); [|unfold pkt in Es; by rewrite <-Es].
  pose proof (pkt_blen (S := []) Hp') as Hl0. change (blen []) with 0 in Hl0. rewrite Z.add_0_r in Hl0.
  assert (E2 : p' = pkt (take (length H) p') items d P [] ++ S).
  { rewrite Ep at 1. unfold X, pkt. by rewrite app_nil_r, <-!app_assoc. }
  rewrite E2 at 1. rewrite <-Hl0 at 1. apply (sub_app []).
Qed.
