(* ===== verification/Compression.v ===== *)
(** * Compression of the TCP payload (opennopd/compression.c)

    The codec is an interface, which [QuicklzCodec] implements: [qlz_compress] maps the
    payload to its compressed form, [qlz_decompress] reads a compressed block at the
    head of the bytes it is given (the block carries its own length).  Both states are
    zeroed before each call, so the two are functions of their input; what a call does outside
    its buffers is [Undef]. *)
From S2P Require Import Prelude Packet TcpOptions OptionLayout OptionOps NodTag RawOption.

Class Codec := {
  qlz_compress : list Z → outcome (list Z);
  qlz_decompress : list Z → outcome (list Z)
}.

(** [me->lzbuffer = calloc(1, BUFSIZE + 400)] *)
Definition BUFSIZE : Z := 2048.
Definition LZBUFSZ : Z := BUFSIZE + 400.

(** What the daemon relies on for payloads that fit a packet buffer: compression succeeds, a
    block is not empty, is decompressed to the bytes it was made from whatever follows it,
    and is at most 400 bytes longer than they are (lib/quicklz.c documents the
    block header and the size of the destination buffer).  Nothing is promised for bytes that
    the compressor did not make. *)
Class CodecLaws (C : Codec) := {
  qlz_compresses l : 0 < blen l <= BUFSIZE → ∃ lz, qlz_compress l = Ret lz ∧ 0 < blen lz <= blen l + 400 ∧ (bytes l → bytes lz);
  qlz_roundtrip l lz rest :
    bytes l → 0 < blen l <= BUFSIZE → qlz_compress l = Ret lz → qlz_decompress (lz ++ rest) = Ret l
}.

Lemma qlz_size `{CodecLaws} l lz : 0 < blen l <= BUFSIZE → qlz_compress l = Ret lz → 0 < blen lz <= blen l + 400.
Proof. intros Hl E. destruct (qlz_compresses l Hl) as (lz' & E' & Hb & _). congruence. Qed.

Lemma qlz_bytes `{CodecLaws} l lz : 0 < blen l <= BUFSIZE → qlz_compress l = Ret lz → bytes l → bytes lz.
Proof. intros Hl E. destruct (qlz_compresses l Hl) as (lz' & E' & _ & Hb). rewrite E in E'. by injection E' as ->. Qed.

(** TCP option 31 flags a compressed packet; the sequence number moves by 8000. *)
Definition COMPRESSED_OPTION : Z := 31.
Definition SEQ_SHIFT : Z := 8000.

Section Compression.
Context `{Codec} (fuel : nat).

(** The [__u16] size of the TCP data. *)
Definition tcp_data_size (p : buffer) (t : Z) : outcome Z :=
  tot ← ip_tot_len p; d ← tcp_doff p t; Ret (u16 (u16 (ntohs tot - t) - d * 4)).

(** The codec writes its output in [lzbuffer]. *)
Definition in_lzbuffer (l : list Z) : outcome (list Z) :=
  if blen l <=? LZBUFSZ then Ret l else Undef.

(** [have_lz] and [have_state] say that the two buffers were allocated;
    [compression] is the global switch. *)
Definition tcp_compress (compression have_lz have_state : bool) (p : buffer)
    : outcome (buffer * Z) :=
  if have_state && compression then
    proto ← ip_protocol p;
    if proto =? IPPROTO_TCP then
      t ← tcph_of p;
      oldsize ← tcp_data_size p t;
      d ← tcp_doff p t;
      let tcpdata := t + d * 4 in
      if 0 <? oldsize then
        if have_lz then
          if in_object p tcpdata oldsize then
            lz ← qlz_compress (sub p tcpdata oldsize);
            lz ← in_lzbuffer lz;
            let newsize := u16 (blen lz) in
            if newsize <? oldsize then
              p ← copy_in p tcpdata lz 0 newsize;
              tot ← ip_tot_len p;
              p ← set_ip_tot_len p (htons (u16 (ntohs tot - (oldsize - newsize))));
              '(p, _) ← __set_tcp_option fuel p COMPRESSED_OPTION 3 1;
              s ← tcp_seq p t;
              p ← set_tcp_seq p t (htonl (u32 (ntohl s + SEQ_SHIFT)));
              Ret (p, 1)
            else Ret (p, 1)
          else Undef
        else Ret (p, 0)
      else Ret (p, 1)
    else Ret (p, 1)
  else Ret (p, 1).

Definition tcp_decompress (have_lz have_state : bool) (p : buffer) : outcome (buffer * Z) :=
  if have_state then
    proto ← ip_protocol p;
    if proto =? IPPROTO_TCP then
      t ← tcph_of p;
      oldsize ← tcp_data_size p t;
      d ← tcp_doff p t;
      let tcpdata := t + d * 4 in
      if (0 <? oldsize) && have_lz then
        lz ← qlz_decompress (drop (Z.to_nat tcpdata) p);
        lz ← in_lzbuffer lz;
        let newsize := u16 (blen lz) in
        p ← copy_in p tcpdata lz 0 newsize;
        tot ← ip_tot_len p;
        p ← set_ip_tot_len p (htons (u16 (ntohs tot + (newsize - oldsize))));
        '(p, _) ← __set_tcp_option fuel p COMPRESSED_OPTION 3 0;
        s ← tcp_seq p t;
        p ← set_tcp_seq p t (htonl (u32 (ntohl s - SEQ_SHIFT)));
        Ret (p, 1)
      else Ret (p, 0)
    else Ret (p, 0)
  else Ret (p, 0).
End Compression.

(** The CLI commands that set the switch. *)
Definition cli_compression_enable (compression : bool) : bool := true.
Definition cli_compression_disable (compression : bool) : bool := false.

(** The sequence number [s] (in network order) moved by [k]. *)
Definition seq_add (s k : Z) : Z := htonl (u32 (ntohl s + k)).

Lemma seq_add_bound s k : 0 <= seq_add s k < 2 ^ 32.
Proof. apply ntohl_bound, u32_bound. Qed.

Lemma seq_add_back s k : 0 <= s < 2 ^ 32 → seq_add (seq_add s k) (- k) = s.
Proof.
  intros Hs. unfold seq_add, htonl. rewrite ntohl_invol by apply u32_bound. pose proof (ntohl_bound s Hs).
  unfold u32. rewrite Zplus_mod_idemp_l. replace (ntohl s + k + - k) with (ntohl s) by lia.
  rewrite Z.mod_small by done. by apply ntohl_invol.
Qed.

Lemma hdr_seq_bound H t d tot s : hdr H t d tot s → 0 <= s < 2 ^ 32.
Proof.
  intros [Hl Hb Ht _ _ _ _ _ Hs]. unfold tcp_seq, ld32, ld16 in Hs. rewrite !rd_at in Hs by lia.
  cbn [mbind outcome_bind] in Hs. injection Hs as <-.
  pose proof (at_bytes H (t + 4) Hb). pose proof (at_bytes H (t + 4 + 1) Hb).
  pose proof (at_bytes H (t + 4 + 2) Hb). pose proof (at_bytes H (t + 4 + 2 + 1) Hb). lia.
Qed.

(** ** What both directions share *)
Section Steps.
Context {fuel : nat} (Hfuel : (64 <= fuel)%nat).
Context {H : list Z} {t d tot s : Z} {items : list item} {P S : list Z}.
Context (Hp : packet_ok H t d tot s items P).

Lemma tcp_data_size_pkt : tcp_data_size (pkt H items d P S) t = Ret (blen P).
Proof.
  clear Hfuel. pose proof Hp as [Hh _ Ht]. pose proof (hdr_totb _ _ _ _ _ Hh). pose proof (hdr_d _ _ _ _ _ Hh).
  pose proof (hdr_t _ _ _ _ _ Hh). pose proof (blen_nonneg P). unfold tcp_data_size, pkt. opt_head Hh.
  unfold htons. rewrite ntohs_invol by done. rewrite (u16_small (tot - t)), u16_small by lia. f_equal. lia.
Qed.

Lemma tcph_of_pkt : tcph_of (pkt H items d P S) = Ret t.
Proof. pose proof Hp as [Hh _ _]. unfold pkt. by opt_head Hh. Qed.

Lemma tcp_doff_pkt : tcp_doff (pkt H items d P S) t = Ret d.
Proof. pose proof Hp as [Hh _ _]. unfold pkt. by opt_head Hh. Qed.

Lemma pkt_payload : pkt H items d P S = (H ++ area items (4 * d - 20)) ++ P ++ S ∧ blen (H ++ area items (4 * d - 20)) = t + d * 4.
Proof.
  clear Hfuel. pose proof Hp as [Hh [Hok Hl] Ht]. unfold pkt. rewrite app_assoc. split; [done|].
  rewrite blen_app, area_length by done. pose proof (hdr_len _ _ _ _ _ Hh). lia.
Qed.

Lemma replace_payload lz :
  blen lz <= blen P + blen S → t + 4 * d + blen lz < 65536 →
  ∃ K1, (p ← copy_in (pkt H items d P S) (t + d * 4) lz 0 (blen lz);
         tot ← ip_tot_len p; set_ip_tot_len p (htons (u16 (ntohs tot + (blen lz - blen P)))))
        = Ret (pkt K1 items d lz (drop (length lz) (P ++ S)))
    ∧ packet_ok K1 t d (t + 4 * d + blen lz) s items lz ∧ hdr_eqv t H K1.
Proof.
  clear Hfuel. intros Hl Ht. pose proof Hp as [Hh Hf Htot]. pose proof (blen_nonneg lz).
  pose proof (hdr_totb _ _ _ _ _ Hh). pose proof (hdr_d _ _ _ _ _ Hh). pose proof (hdr_t _ _ _ _ _ Hh).
  pose proof (seg_copy_in (H ++ area items (4 * d - 20)) (P ++ S) [] 0 lz ltac:(lia)) as Ec.
  destruct pkt_payload as [Ep El]. rewrite El, Z.add_0_r, blen_app, app_nil_r, <-Ep in Ec.
  rewrite Ec by lia. cbn [mbind outcome_bind]. clear Ec Ep El.
  replace ((H ++ area items (4 * d - 20)) ++ put (P ++ S) 0 lz ++ [])
    with (H ++ area items (4 * d - 20) ++ lz ++ drop (length lz) (P ++ S)) by (by rewrite app_nil_r, <-app_assoc).
  opt_head Hh. unfold htons at 2. rewrite ntohs_invol by done. rewrite u16_small by lia.
  destruct (set_ip_tot_len_hdr H t d tot s (t + 4 * d + blen lz)
    (area items (4 * d - 20) ++ lz ++ drop (length lz) (P ++ S)) Hh) as (K1 & E1 & Kh1 & V); [lia|].
  exists K1. replace (tot + (blen lz - blen P)) with (t + 4 * d + blen lz) by lia. split; [exact E1|].
  split; [by split|done].
Qed.

Lemma mark_and_shift v items' a k :
  option_set items d COMPRESSED_OPTION 3 v items' a →
  d + a <= 15 → 4 * a <= blen S → tot + 4 * a < 65536 →
  ∃ K1, ('(p, _) ← __set_tcp_option fuel (pkt H items d P S) COMPRESSED_OPTION 3 v;
         s ← tcp_seq p t; p ← set_tcp_seq p t (htonl (u32 (ntohl s + k))); Ret (p, 1))
        = Ret (pkt K1 items' (d + a) P (drop (Z.to_nat (4 * a)) S), 1)
    ∧ packet_ok K1 t (d + a) (tot + 4 * a) (seq_add s k) items' P ∧ hdr_eqv t H K1.
Proof.
  intros Hset Hd HS Ht. unfold COMPRESSED_OPTION in *.
  assert (Hn : 1 < 31 < 256) by lia. assert (Hl : 2 <= 3 <= 10) by lia.
  destruct (set_option_result (S := S) Hfuel Hp Hn Hl Hset Hd HS Ht) as (K1 & E & Kp1 & V1).
  rewrite E. cbn [mbind outcome_bind]. pose proof Kp1 as [Kh1 Kf1 Kt1]. unfold pkt at 1 2. opt_head Kh1.
  fold (seq_add s k).
  destruct (set_tcp_seq_hdr K1 t (d + a) (tot + 4 * a) s (seq_add s k)
    (area items' (4 * (d + a) - 20) ++ P ++ drop (Z.to_nat (4 * a)) S) Kh1 (seq_add_bound s k)) as (K2 & E2 & Kh2 & V2).
  rewrite E2. exists K2. split; [done|]. split; [by split|]. by rewrite V1.
Qed.

Lemma protocol_pkt : rd H 9 = Ret IPPROTO_TCP → ip_protocol (pkt H items d P S) = Ret IPPROTO_TCP.
Proof.
  clear Hfuel. pose proof (hdr_len _ _ _ _ _ (ok_hdr _ _ _ _ _ _ _ Hp)). pose proof (hdr_t _ _ _ _ _ (ok_hdr _ _ _ _ _ _ _ Hp)).
  intros <-. unfold ip_protocol, pkt. by rewrite rd_app_l by lia.
Qed.
End Steps.

(** ** The two directions *)
Section Directions.
Context `{CodecLaws} {fuel : nat} (Hfuel : (64 <= fuel)%nat).
Context {h : list Z} {t d tot s : Z} {items : list item} {P S : list Z}.
Context (Hp : packet_ok h t d tot s items P) (Hproto : rd h 9 = Ret IPPROTO_TCP) (HP : 0 < blen P <= BUFSIZE).

Lemma tcp_compress_pkt lz items' a :
  qlz_compress P = Ret lz → blen lz < blen P → option_set items d COMPRESSED_OPTION 3 1 items' a →
  d + a <= 15 → 4 * a <= blen S → tot + 4 * a < 65536 →
  ∃ K S', tcp_compress fuel true true true (pkt h items d P S)
        = Ret (pkt K items' (d + a) lz S', 1)
    ∧ packet_ok K t (d + a) (t + 4 * (d + a) + blen lz) (seq_add s SEQ_SHIFT) items' lz
    ∧ hdr_eqv t h K ∧ blen lz + blen S' + 4 * a = blen P + blen S ∧ ∃ k, S' = drop k (P ++ S).
Proof.
  intros Elz Hlz Hset Hd HS Ht. pose proof Hp as [Hh Hf Htot].
  pose proof (hdr_totb _ _ _ _ _ Hh) as Hb. pose proof (blen_nonneg lz) as Hlz0. unfold BUFSIZE in HP.
  unfold tcp_compress. cbn [andb]. rewrite (protocol_pkt Hp Hproto). cbn [mbind outcome_bind].
  change (IPPROTO_TCP =? IPPROTO_TCP) with true. cbn match.
  rewrite (tcph_of_pkt Hp). cbn [mbind outcome_bind]. rewrite (tcp_data_size_pkt Hp). cbn [mbind outcome_bind].
  rewrite (tcp_doff_pkt Hp). cbn [mbind outcome_bind]. bool_lia. destruct (pkt_payload (S := S) Hp) as [Ep El].
  assert (Eo : in_object (pkt h items d P S) (t + d * 4) (blen P) = true).
  { rewrite Ep. by apply in_object_app. }
  assert (Esub : sub (pkt h items d P S) (t + d * 4) (blen P) = P) by (rewrite Ep, <-El; apply sub_app).
  rewrite Eo, Esub, Elz. cbn [mbind outcome_bind]. unfold in_lzbuffer, LZBUFSZ, BUFSIZE. bool_lia. cbn [mbind outcome_bind].
  rewrite u16_small by lia. bool_lia.
  destruct (replace_payload (S := S) Hp lz) as (K1 & E1 & Hp1 & V1); [pose proof (blen_nonneg S); lia|lia|].
  apply bind_Ret in E1 as (p1 & E1a & E1). rewrite E1a. cbn [mbind outcome_bind].
  apply bind_Ret in E1 as (tt & E1b & E1). rewrite E1b. cbn [mbind outcome_bind].
  replace (ntohs tt - (blen P - blen lz)) with (ntohs tt + (blen lz - blen P)) by lia. rewrite E1. cbn [mbind outcome_bind].
  set (S1 := drop (length lz) (P ++ S)) in *.
  assert (HS1 : blen lz + blen S1 = blen P + blen S).
  { unfold S1. replace (length lz) with (Z.to_nat (blen lz)) by (unfold blen; lia).
    rewrite blen_drop by (rewrite blen_app; pose proof (blen_nonneg S); lia). rewrite blen_app. lia. }
  destruct (mark_and_shift (S := S1) Hfuel Hp1 1 items' a SEQ_SHIFT Hset Hd) as (K2 & E2 & Hp2 & V2); [lia|lia|].
  rewrite E2. exists K2, (drop (Z.to_nat (4 * a)) S1). split; [done|]. split.
  { replace (t + 4 * (d + a) + blen lz) with (t + 4 * d + blen lz + 4 * a) by lia. done. }
  split; [by rewrite V1|].
  assert (0 <= a).
  { destruct Hset as [|a' Hl ->]; [lia|]. pose proof (space_nonneg (no_nops_packet_ok _ _ _ _ _ _ _ Hp)) as Hsp.
    destruct (words_spec (space (no_nops items) d) 3 ltac:(lia) ltac:(lia)) as [? _]. lia. }
  split; [rewrite blen_drop by lia; lia|]. unfold S1. rewrite drop_drop. by eexists.
Qed.

Lemma tcp_decompress_pkt Q v items' :
  qlz_decompress (P ++ S) = Ret Q → 0 < blen Q <= BUFSIZE →
  option_set items d COMPRESSED_OPTION 3 0 items' v → v = 0 →
  t + 4 * d + blen Q < 65536 → blen Q <= blen P + blen S →
  ∃ K S', tcp_decompress fuel true true (pkt h items d P S) = Ret (pkt K items' d Q S', 1)
    ∧ packet_ok K t d (t + 4 * d + blen Q) (seq_add s (- SEQ_SHIFT)) items' Q ∧ hdr_eqv t h K
    ∧ S' = drop (length Q) (P ++ S).
Proof.
  intros HQ HQb Hset -> Ht HS. pose proof Hp as [Hh Hf Htot].
  pose proof (hdr_totb _ _ _ _ _ Hh) as Hb. unfold BUFSIZE in *.
  unfold tcp_decompress. rewrite (protocol_pkt Hp Hproto). cbn [mbind outcome_bind].
  change (IPPROTO_TCP =? IPPROTO_TCP) with true. cbn match.
  rewrite (tcph_of_pkt Hp). cbn [mbind outcome_bind]. rewrite (tcp_data_size_pkt Hp). cbn [mbind outcome_bind].
  rewrite (tcp_doff_pkt Hp). cbn [mbind outcome_bind]. bool_lia. destruct (pkt_payload (S := S) Hp) as [Ep El].
  assert (Edrop : drop (Z.to_nat (t + d * 4)) (pkt h items d P S) = P ++ S).
  { rewrite Ep, <-El. unfold blen. rewrite Nat2Z.id. apply drop_app_length. }
  rewrite Edrop, HQ. cbn [mbind outcome_bind]. unfold in_lzbuffer, LZBUFSZ, BUFSIZE. bool_lia. cbn [mbind outcome_bind].
  rewrite u16_small by lia.
  destruct (replace_payload (S := S) Hp Q HS Ht) as (K1 & E1 & Hp1 & V1).
  apply bind_Ret in E1 as (p1 & E1a & E1). rewrite E1a. cbn [mbind outcome_bind].
  apply bind_Ret in E1 as (tt & E1b & E1). rewrite E1b. cbn [mbind outcome_bind].
  rewrite E1. cbn [mbind outcome_bind].
  pose proof (hdr_d _ _ _ _ _ Hh). pose proof (blen_nonneg (drop (length Q) (P ++ S))).
  destruct (mark_and_shift (S := drop (length Q) (P ++ S)) Hfuel Hp1 0 items' 0 (- SEQ_SHIFT) Hset) as (K2 & E2 & Hp2 & V2);
    [lia..|].
  rewrite !Z.add_0_r in *. unfold Z.sub in E2 |- *. rewrite E2. eexists K2, _. split; [done|]. split; [done|]. split; [by rewrite V1|done].
Qed.
End Directions.

(** C3: compression is transparent: when the compressed payload is smaller,
    [tcp_compress] replaces it, marks the packet with option 31 and moves the
    sequence number; whatever header and trailing bytes the marked packet arrives
    with, [tcp_decompress] on the other side gives back the payload, the sequence
    number and the options (the mark is left with value 0).  It holds for every
    codec whose decompressor inverts its compressor. *)
Theorem compression_transparent `{CodecLaws} fuel h t d tot s items P S lz items' a :
  (64 <= fuel)%nat → packet_ok h t d tot s items P → rd h 9 = Ret IPPROTO_TCP →
  bytes P → 0 < blen P <= BUFSIZE → qlz_compress P = Ret lz → blen lz < blen P →
  option_set items d COMPRESSED_OPTION 3 1 items' a →
  d + a <= 15 → 4 * a <= blen S → tot + 4 * a < 65536 →
  ∃ K S', tcp_compress fuel true true true (pkt h items d P S) = Ret (pkt K items' (d + a) lz S', 1)
    ∧ packet_ok K t (d + a) (t + 4 * (d + a) + blen lz) (seq_add s SEQ_SHIFT) items' lz
    ∧ hdr_eqv t h K
    ∧ ∀ h2 S2 items2, packet_ok h2 t (d + a) (t + 4 * (d + a) + blen lz) (seq_add s SEQ_SHIFT) items' lz →
        rd h2 9 = Ret IPPROTO_TCP → blen P <= blen lz + blen S2 →
        option_set items' (d + a) COMPRESSED_OPTION 3 0 items2 0 →
        ∃ K2 S3, tcp_decompress fuel true true (pkt h2 items' (d + a) lz S2)
                   = Ret (pkt K2 items2 (d + a) P S3, 1)
          ∧ packet_ok K2 t (d + a) (tot + 4 * a) s items2 P ∧ hdr_eqv t h2 K2.
Proof.
  intros Hfuel Hp Hproto HPb HP Elz Hlz Hset Hd HS Ht.
  destruct (tcp_compress_pkt Hfuel Hp Hproto HP lz items' a Elz Hlz Hset Hd HS Ht) as (K & S' & E & HpK & V & _ & _).
  exists K, S'. split; [done|]. split; [done|]. split; [done|]. intros h2 S2 items2 Hp2 Hproto2 HS2 Hset2.
  pose proof (qlz_size P lz HP Elz).
  destruct (tcp_decompress_pkt (S := S2) Hfuel Hp2 Hproto2 ltac:(lia) P 0 items2) as (K2 & S3 & E2 & Hp3 & V2 & _);
    [by apply qlz_roundtrip|done|done|done| |done|].
  { destruct Hp as [_ _ ->]. lia. }
  exists K2, S3. split; [done|]. split; [|done].
  rewrite seq_add_back in Hp3 by exact (hdr_seq_bound _ _ _ _ _ (ok_hdr _ _ _ _ _ _ _ Hp)).
  destruct Hp as [_ _ ->]. replace (t + 4 * d + blen P + 4 * a) with (t + 4 * (d + a) + blen P) by lia. done.
Qed.

(** A codec that packs runs: [1; length; byte] for a run, [0; length; bytes] otherwise. *)
Definition two_bytes (n : Z) : list Z := [n mod 256; n / 256].

Definition run_compress (l : list Z) : list Z :=
  let x := hd 0 l in
  if bool_decide (l = replicate (length l) x) then 1 :: two_bytes (blen l) ++ [x]
  else 0 :: two_bytes (blen l) ++ l.

Definition run_decompress (b : list Z) : list Z :=
  match b with
  | 1 :: x :: y :: v :: _ => replicate (Z.to_nat (x + 256 * y)) v
  | 0 :: x :: y :: l => take (Z.to_nat (x + 256 * y)) l
  | _ => []
  end.

Definition run_codec : Codec := {| qlz_compress l := Ret (run_compress l); qlz_decompress b := Ret (run_decompress b) |}.

Lemma two_bytes_value n : Z.to_nat (n mod 256 + 256 * (n / 256)) = Z.to_nat n.
Proof. pose proof (Z.div_mod n 256). f_equal. lia. Qed.

Lemma run_codec_laws : CodecLaws run_codec.
Proof.
  split; simpl.
  - intros l Hl. eexists. split; [done|]. assert (Htwo : bytes (two_bytes (blen l))).
    { unfold BUFSIZE in Hl. pose proof (Z.mod_pos_bound (blen l) 256 ltac:(lia)).
      assert (0 <= blen l / 256 < 256) by (split; [apply Z.div_pos; lia|apply Z.div_lt_upper_bound; lia]).
      unfold two_bytes. repeat (apply Forall_cons; split; [lia|]). by apply Forall_nil. }
    split; [unfold run_compress; case_bool_decide; unfold blen; cbn [length app two_bytes]; lia|].
    intros Hb. unfold run_compress. case_bool_decide; (apply Forall_cons; split; [lia|]; apply bytes_app; [done|]); [|done].
    apply Forall_cons. split; [|by apply Forall_nil]. destruct Hb as [|x l' Hx _]; cbn; lia.
  - intros l lz rest Hb Hl [= <-]. f_equal. unfold run_compress. case_bool_decide as E; cbn [app two_bytes run_decompress];
      rewrite two_bytes_value; unfold blen; rewrite Nat2Z.id; [done|apply take_app_length].
Qed.

Definition run_items : list item := [Opt COMPRESSED_OPTION [1]; Opt 2 [5; 180]; Opt 4 []].

Lemma compression_transparent_witness :
  ∃ K S', tcp_compress (H := run_codec) 64 true true true
            (pkt (demo_header 7 58) demo_items 7 (replicate 10 65) (replicate 14 0))
          = Ret (pkt K run_items 8 [1; 10; 0; 65] S', 1)
    ∧ packet_ok K 20 8 56 (seq_add 738263040 SEQ_SHIFT) run_items [1; 10; 0; 65]
    ∧ hdr_eqv 20 (demo_header 7 58) K
    ∧ ∀ h2 S2 items2, packet_ok h2 20 8 56 (seq_add 738263040 SEQ_SHIFT) run_items [1; 10; 0; 65] →
        rd h2 9 = Ret IPPROTO_TCP → 10 <= 4 + blen S2 →
        option_set run_items 8 COMPRESSED_OPTION 3 0 items2 0 →
        ∃ K2 S3, tcp_decompress (H := run_codec) 64 true true (pkt h2 run_items 8 [1; 10; 0; 65] S2)
                   = Ret (pkt K2 items2 8 (replicate 10 65) S3, 1)
          ∧ packet_ok K2 20 8 62 738263040 items2 (replicate 10 65) ∧ hdr_eqv 20 h2 K2.
Proof.
  pose proof run_codec_laws.
  apply (compression_transparent (C := run_codec) 64 (demo_header 7 58) 20 7 58 738263040 demo_items (replicate 10 65) (replicate 14 0)
    [1; 10; 0; 65] run_items 1); try done; try lia.
  - split; [apply demo_hdr; lia| |done]. apply demo_syn_ok.
  - by apply Forall_replicate.
  - apply set_new; [repeat constructor; done|done].
Defined.

(** [tcp_compress] never makes a packet longer: a packet without payload, or
    whose payload the codec does not shrink, leaves it byte for byte as it was, and
    the codec's output always fits the worker's buffer. *)
Theorem incompressible_untouched `{CodecLaws} fuel h t d tot s items P S :
  packet_ok h t d tot s items P → rd h 9 = Ret IPPROTO_TCP → blen P <= BUFSIZE →
  blen P = 0 ∨ (∃ lz, qlz_compress P = Ret lz ∧ blen P <= blen lz) →
  tcp_compress fuel true true true (pkt h items d P S) = Ret (pkt h items d P S, 1).
Proof.
  intros Hp Hproto HP Hcase. pose proof Hp as [Hh _ _].
  unfold tcp_compress. cbn [andb]. rewrite (protocol_pkt Hp Hproto). cbn [mbind outcome_bind].
  change (IPPROTO_TCP =? IPPROTO_TCP) with true. cbn match.
  rewrite (tcph_of_pkt Hp). cbn [mbind outcome_bind]. rewrite (tcp_data_size_pkt Hp). cbn [mbind outcome_bind].
  rewrite (tcp_doff_pkt Hp). cbn [mbind outcome_bind]. destruct (Z.ltb_spec 0 (blen P)) as [H0|]; [|done].
  destruct Hcase as [?|(lz & Elz & Hle)]; [lia|]. pose proof (qlz_size P lz ltac:(lia) Elz) as Hb. unfold BUFSIZE in HP.
  destruct (pkt_payload (S := S) Hp) as [Ep El].
  assert (Eo : in_object (pkt h items d P S) (t + d * 4) (blen P) = true) by (rewrite Ep; by apply in_object_app).
  assert (Esub : sub (pkt h items d P S) (t + d * 4) (blen P) = P) by (rewrite Ep, <-El; apply sub_app).
  rewrite Eo, Esub, Elz. cbn [mbind outcome_bind]. unfold in_lzbuffer, LZBUFSZ, BUFSIZE. bool_lia. cbn [mbind outcome_bind].
  rewrite u16_small by lia. by bool_lia.
Qed.

Lemma incompressible_untouched_witness :
  tcp_compress (H := run_codec) 64 true true true (pkt (demo_header 7 50) demo_items 7 [1; 2] [])
  = Ret (pkt (demo_header 7 50) demo_items 7 [1; 2] [], 1).
Proof.
  pose proof run_codec_laws.
  apply (incompressible_untouched (C := run_codec) 64 (demo_header 7 50) 20 7 50 738263040 demo_items [1; 2] []);
    [|done|done|right; by eexists].
  split; [apply demo_hdr; lia| |done]. apply demo_syn_ok.
Defined.
