(* ===== verification/Quicklz.v ===== *)
(** * The compression library (lib/quicklz.c)

    QuickLZ 1.5.0 as the daemon builds it: level 1, no streaming buffer, not memory
    safe, on x86-64 (unaligned 32-bit accesses, offsets of the compressor's table as
    32-bit numbers).  Pointers are offsets into the source or destination object. *)
From S2P Require Import Prelude.
#[local] Open Scope Z_scope.
#[local] Open Scope list_scope.

Definition QLZ_HASH_VALUES : Z := 4096.
Definition MINOFFSET : Z := 2.
Definition UNCONDITIONAL_MATCHLEN : Z := 6.
Definition UNCOMPRESSED_END : Z := 4.
Definition CWORD_LEN : Z := 4.

(** The table of the compressor; an entry that was never set is zero. *)
Record qlz_state_compress := CState { c_cache : gmap Z Z; c_offset : gmap Z Z }.

(** The table of the decompressor: pointers into the destination, NULL where it was never
    set.  [hash_counter] is written and never read at this level. *)
Abbreviation qlz_state_decompress := (gmap Z Z).

Definition reset_table_compress (state : qlz_state_compress) : qlz_state_compress := CState (c_cache state) ∅.

Definition hash_func (i : Z) : Z := Z.land (Z.lxor (Z.shiftr i 12) i) (QLZ_HASH_VALUES - 1).

Definition fast_read (b : buffer) (src bytes : Z) : outcome Z :=
  if (1 <=? bytes) && (bytes <=? 4) then ld32 b src else Ret 0.

(** Three bytes are stored as four. *)
Definition fast_write (f : Z) (b : buffer) (dst bytes : Z) : outcome buffer :=
  if (bytes =? 4) || (bytes =? 3) then st32 b dst f
  else if bytes =? 2 then st16 b dst f
  else if bytes =? 1 then wr b dst f else Ret b.

Definition hashat (b : buffer) (src : Z) : outcome Z := fetch ← fast_read b src 3; Ret (hash_func fetch).

(** [same src n]: the [n] bytes behind [src] are equal to it. *)
Fixpoint same (b : buffer) (src : Z) (n : nat) : outcome bool :=
  match n with
  | O => Ret true
  | S k => x ← rd b (src + Z.of_nat n); y ← rd b src; if x =? y then same b src k else Ret false
  end.

(** ** Compression *)

(** The variables of [qlz_compress_core]. *)
Record encoder := Encoder {
  src : Z; cword_ptr : Z; dst : Z; cword_val : Z; fetch : Z; lits : Z;
  out : buffer; state : qlz_state_compress
}.

Section Compress.
Context (source : buffer) (destination size : Z).

Definition last_byte : Z := size - 1.
Definition last_matchstart : Z := last_byte - UNCONDITIONAL_MATCHLEN - UNCOMPRESSED_END.

(** Store uncompressed if the compression ratio is too low. *)
Definition too_low (e : encoder) : bool :=
  (Z.shiftr size 1 <? src e) && (src e - Z.shiftr (src e) 5 <? dst e - destination).

Definition next_cword (e : encoder) : outcome encoder :=
  b ← fast_write (Z.lor (Z.shiftr (cword_val e) 1) (2 ^ 31)) (out e) (cword_ptr e) CWORD_LEN;
  Ret (Encoder (src e) (dst e) (dst e + CWORD_LEN) (2 ^ 31) (fetch e) (lits e) b (state e)).

(** The innermost loop: how far the text at [o] and at [old_src] agree. *)
Fixpoint match_loop (fuel : nat) (o old_src src remaining : Z) : outcome Z :=
  match fuel with
  | O => Spin
  | S fuel =>
      x ← rd source (o + (src - old_src)); y ← rd source src;
      if (x =? y) && (src - old_src <? remaining) then match_loop fuel o old_src (src + 1) remaining else Ret src
  end.

(** [src] behind a match of at least four bytes. *)
Definition match_end (o old_src : Z) : outcome Z :=
  let src := old_src + 4 in
  x ← rd source (o + (src - old_src)); y ← rd source src;
  if x =? y then
    let src := src + 1 in
    x ← rd source (o + (src - old_src)); y ← rd source src;
    if x =? y then
      let q := last_byte - UNCOMPRESSED_END - (src - 5) + 1 in
      let remaining := if 255 <? q then 255 else q in
      match_loop 256 o old_src (src + 1) remaining
    else Ret src
  else Ret src.

(** Whether the entry [o] of the table is used. *)
Definition usable (e : encoder) (cached o : Z) : outcome bool :=
  if (Z.land cached (2 ^ 24 - 1) =? 0) && negb (o =? 0) then
    if MINOFFSET <? src e - o then Ret true
    else if (src e =? o + 1) && (3 <=? lits e) && (3 <? src e) then same source (src e - 3) 6
    else Ret false
  else Ret false.

(** The body of a match; [hash] is shifted already. *)
Definition compress_match (e : encoder) (cached o hash : Z) : outcome (Z * Z * buffer) :=
  if negb (cached =? 0) then
    b ← fast_write (Z.lor (3 - 2) hash) (out e) (dst e) 2;
    Ret (src e + 3, dst e + 2, b)
  else
    end_ ← match_end o (src e);
    let matchlen := end_ - src e in
    if matchlen <? 18 then
      b ← fast_write (Z.lor (matchlen - 2) hash) (out e) (dst e) 2; Ret (end_, dst e + 2, b)
    else
      b ← fast_write (Z.lor (Z.shiftl matchlen 16) hash) (out e) (dst e) 3; Ret (end_, dst e + 3, b).

(** One round of the first loop, behind the control word. *)
Definition compress_item (e : encoder) : outcome encoder :=
  let hash := hash_func (fetch e) in
  let cached := Z.lxor (fetch e) (default 0 (c_cache (state e) !! hash)) in
  let o := default 0 (c_offset (state e) !! hash) in
  let state := CState (<[hash := fetch e]> (c_cache (state e))) (<[hash := u32 (src e)]> (c_offset (state e))) in
  use ← usable e cached o;
  if use : bool then
    let hash := Z.shiftl hash 4 in
    let cword_val := Z.lor (Z.shiftr (cword_val e) 1) (2 ^ 31) in
    '(src, dst, b) ← compress_match e cached o hash;
    fetch ← fast_read source src 3;
    Ret (Encoder src (cword_ptr e) dst cword_val fetch 0 b state)
  else
    c ← rd source (src e);
    b ← wr (out e) (dst e) c;
    fetch ← fast_read source (src e + 1) 3;
    Ret (Encoder (src e + 1) (cword_ptr e) (dst e + 1) (Z.shiftr (cword_val e) 1) fetch (lits e + 1) b state).

(** The first loop; [None] for the early [return 0]. *)
Fixpoint compress_loop (fuel : nat) (e : encoder) : outcome (option encoder * buffer) :=
  if src e <=? last_matchstart then
    match fuel with
    | O => Spin
    | S fuel =>
        if Z.land (cword_val e) 1 =? 1 then
          if too_low e then Ret (None, out e) else
          e ← next_cword e;
          fetch ← fast_read source (src e) 3;
          e ← compress_item (Encoder (src e) (cword_ptr e) (dst e) (cword_val e) fetch (lits e) (out e) (state e));
          compress_loop fuel e
        else e ← compress_item e; compress_loop fuel e
    end
  else Ret (Some e, out e).

(** One round of the second loop, behind the control word. *)
Definition literal_item (e : encoder) : outcome encoder :=
  state ← (if src e <=? last_byte - 3 then
             fetch ← fast_read source (src e) 3;
             let hash := hash_func fetch in
             Ret (CState (<[hash := fetch]> (c_cache (state e))) (<[hash := u32 (src e)]> (c_offset (state e))))
           else Ret (state e));
  c ← rd source (src e);
  b ← wr (out e) (dst e) c;
  Ret (Encoder (src e + 1) (cword_ptr e) (dst e + 1) (Z.shiftr (cword_val e) 1) (fetch e) (lits e) b state).

Fixpoint literal_loop (fuel : nat) (e : encoder) : outcome encoder :=
  if src e <=? last_byte then
    match fuel with
    | O => Spin
    | S fuel =>
        e ← (if Z.land (cword_val e) 1 =? 1 then next_cword e else Ret e);
        e ← literal_item e;
        literal_loop fuel e
    end
  else Ret e.

Fixpoint last_shift (fuel : nat) (cword_val : Z) : outcome Z :=
  if Z.land cword_val 1 =? 1 then Ret cword_val
  else match fuel with O => Spin | S fuel => last_shift fuel (Z.shiftr cword_val 1) end.

(** [b] is the object [destination] points into; the result is the buffer and the size. *)
Definition qlz_compress_core (b : buffer) (st : qlz_state_compress) : outcome (buffer * Z) :=
  fetch ← (if 0 <=? last_matchstart then fast_read source 0 3 else Ret 0);
  '(r, b) ← compress_loop (Z.to_nat size) (Encoder 0 destination (destination + CWORD_LEN) (2 ^ 31) fetch 0 b st);
  match r with
  | None => Ret (b, 0)
  | Some e =>
      e ← literal_loop (Z.to_nat size) e;
      w ← last_shift 32 (cword_val e);
      b ← fast_write (Z.lor (Z.shiftr w 1) (2 ^ 31)) (out e) (cword_ptr e) CWORD_LEN;
      Ret (b, if dst e - destination <? 9 then 9 else dst e - destination)
  end.
End Compress.

(** The header of a block of [r] bytes. *)
Definition write_header (b : buffer) (base size r compressed : Z) : outcome buffer :=
  b ← (if base =? 3 then
         b ← wr b 0 (Z.lor 0 compressed); b ← wr b 1 r; wr b 2 size
       else
         b ← wr b 0 (Z.lor 2 compressed); b ← fast_write (u32 r) b 1 4; fast_write (u32 size) b 5 4);
  flags ← rd b 0;
  wr b 0 (Z.lor (Z.lor flags (Z.shiftl 1 2)) (Z.shiftl 1 6)).

(** [qlz_compress] of the first [size] bytes of [source] to the start of [b]. *)
Definition qlz_compress (source b : buffer) (size : Z) (st : qlz_state_compress) : outcome (buffer * Z) :=
  if (size =? 0) || (2 ^ 32 - 1 - 400 <? size) then Ret (b, 0) else
  let base := if size <? 216 then 3 else 9 in
  '(b, n) ← qlz_compress_core source base size b (reset_table_compress st);
  let r := base + n in
  '(b, r, compressed) ← (if r =? base then b ← copy_in b base source 0 size; Ret (b, size + base, 0)
                         else Ret (b, r, 1));
  b ← write_header b base size r compressed;
  Ret (b, r).

(** ** Decompression *)
Definition size_field_length (source : buffer) : outcome Z :=
  flags ← rd source 0; Ret (if Z.land flags 2 =? 2 then 4 else 1).

Definition qlz_size_decompressed (source : buffer) : outcome Z :=
  n ← size_field_length source;
  r ← fast_read source (1 + n) n;
  Ret (Z.land r (Z.shiftr (2 ^ 32 - 1) ((4 - n) * 8))).

Definition qlz_size_compressed (source : buffer) : outcome Z :=
  n ← size_field_length source;
  r ← fast_read source 1 n;
  Ret (Z.land r (Z.shiftr (2 ^ 32 - 1) ((4 - n) * 8))).

Definition qlz_size_header (source : buffer) : outcome Z :=
  n ← size_field_length source; Ret (2 * n + 1).

(** Four bytes from one place to another. *)
Definition copy4 (b : buffer) (src : Z) (d : buffer) (dst : Z) : outcome buffer := v ← ld32 b src; st32 d dst v.

(** The loop of [memcpy_up], inside one object: blocks of four bytes, three bytes apart. *)
Fixpoint memcpy_up (fuel : nat) (b : buffer) (dst src n f : Z) : outcome buffer :=
  match fuel with
  | O => Spin
  | S fuel =>
      b ← copy4 b (src + f) b (dst + f);
      let f := f + (MINOFFSET + 1) in
      if f <? n then memcpy_up fuel b dst src n f else Ret b
  end.

Definition update_hash (st : qlz_state_decompress) (b : buffer) (s : Z) : outcome qlz_state_decompress :=
  hash ← hashat b s; Ret (<[hash := s]> st).

(** [update_hash_upto]: the positions behind [lh] up to [max]. *)
Fixpoint update_hash_upto (fuel : nat) (st : qlz_state_decompress) (b : buffer) (lh max : Z)
    : outcome (qlz_state_decompress * Z) :=
  if lh <? max then
    match fuel with
    | O => Spin
    | S fuel => st ← update_hash st b (lh + 1); update_hash_upto fuel st b (lh + 1) max
    end
  else Ret (st, lh).

(** [bitlut]: the literals before the next match, four at most. *)
Definition bitlut (w : Z) : Z := nth (Z.to_nat (Z.land w 15)) [4; 0; 1; 0; 2; 0; 1; 0; 3; 0; 1; 0; 2; 0; 1; 0] 0.

(** The loop over the last literals. *)
Fixpoint last_literals (fuel : nat) (source d : buffer) (src dst last_destination_byte cword_val : Z) : outcome buffer :=
  if dst <=? last_destination_byte then
    match fuel with
    | O => Spin
    | S fuel =>
        let '(src, cword_val) := if cword_val =? 1 then (src + CWORD_LEN, 2 ^ 31) else (src, cword_val) in
        c ← rd source src;
        d ← wr d dst c;
        last_literals fuel source d (src + 1) (dst + 1) last_destination_byte (Z.shiftr cword_val 1)
    end
  else Ret d.

(** The loop of [qlz_decompress_core]; [d] is the destination. *)
Fixpoint decompress_loop (fuel : nat) (source d : buffer) (size src dst cword_val last_hashed : Z)
    (st : qlz_state_decompress) : outcome (buffer * Z) :=
  match fuel with
  | O => Spin
  | S fuel =>
      let last_destination_byte := size - 1 in
      let last_matchstart := last_destination_byte - UNCONDITIONAL_MATCHLEN - UNCOMPRESSED_END in
      '(cword_val, src) ← (if cword_val =? 1 then w ← fast_read source src CWORD_LEN; Ret (w, src + CWORD_LEN)
                           else Ret (cword_val, src));
      fetch ← fast_read source src 4;
      if Z.land cword_val 1 =? 1 then
        let cword_val := Z.shiftr cword_val 1 in
        let hash := Z.land (Z.shiftr fetch 4) 4095 in
        offset2 ← of_option (st !! hash);
        '(matchlen, src) ← (if negb (Z.land fetch 15 =? 0) then Ret (Z.land fetch 15 + 2, src + 2)
                            else n ← rd source (src + 2); Ret (n, src + 3));
        d ← memcpy_up 256 d dst offset2 matchlen 0;
        let dst := dst + matchlen in
        '(st, _) ← update_hash_upto (Z.to_nat size) st d last_hashed (dst - matchlen);
        decompress_loop fuel source d size src dst cword_val (dst - 1) st
      else if dst <? last_matchstart then
        let n := bitlut cword_val in
        d ← copy4 source src d dst;
        let dst := dst + n in
        '(st, last_hashed) ← update_hash_upto (Z.to_nat size) st d last_hashed (dst - 3);
        decompress_loop fuel source d size (src + n) dst (Z.shiftr cword_val n) last_hashed st
      else
        d ← last_literals (Z.to_nat size) source d src dst last_destination_byte cword_val;
        '(_, _) ← update_hash_upto (Z.to_nat size) st d last_hashed (last_destination_byte - 3);
        Ret (d, size)
  end.

Definition qlz_decompress_core (source d : buffer) (size : Z) (st : qlz_state_decompress) : outcome (buffer * Z) :=
  src ← qlz_size_header source;
  _ ← qlz_size_compressed source;
  decompress_loop (S (Z.to_nat size)) source d size src 0 1 (-1) st.

Definition qlz_decompress (source d : buffer) (st : qlz_state_decompress) : outcome (buffer * Z) :=
  dsiz ← qlz_size_decompressed source;
  flags ← rd source 0;
  if Z.land flags 1 =? 1 then qlz_decompress_core source d dsiz st
  else h ← qlz_size_header source; d ← copy_in d 0 source h dsiz; Ret (d, dsiz).

(** ** The two functions, evaluated *)
Definition demo_text : list Z := concat (replicate 9 [104; 101; 108; 108; 111; 32; 119]) ++ replicate 40 122 ++ [1; 2; 3; 4; 5].

Example quicklz_demo :
  ('(b, n) ← qlz_compress demo_text (zeros 200) (blen demo_text) (CState ∅ ∅);
   '(d, m) ← qlz_decompress (sub b 0 n) (zeros 108) ∅;
   Ret (n, m, d)) = Ret (29, 108, demo_text).
Proof. vm_compute. reflexivity. Qed.
