(* ===== verification/QuicklzItems.v ===== *)
(** * A compressed block as a list of items

    The reference for the format of lib/quicklz.c: a text is covered by literals
    and by matches, which name an earlier place by its hash; the items are laid
    out in groups of 31 behind a control word with one flag each. *)
From S2P Require Import Prelude Quicklz.
From Stdlib Require Import Sorting.Sorted.
#[local] Open Scope Z_scope.
#[local] Open Scope list_scope.

Inductive item := Lit | Match (h n : Z).

Definition span (it : item) : Z := match it with Lit => 1 | Match _ n => n end.
Definition flag (it : item) : Z := match it with Lit => 0 | Match _ _ => 1 end.

(** The bytes of an item at position [p] of the text [l]. *)
Definition body (l : list Z) (p : Z) (it : item) : list Z :=
  match it with
  | Lit => [l @@ p]
  | Match h n => if n <? 18 then le16 (n - 2 + 16 * h) else le16 (16 * h) ++ [n]
  end.

(** With [r] free slots in the current group: the flags still to come in its control word, and
    the bytes that follow. *)
Fixpoint encode (l : list Z) (r : nat) (p : Z) (its : list item) : Z * list Z :=
  match its with
  | [] => (0, [])
  | it :: its =>
      let '(f, bs) := encode l (match r with O => 30%nat | S r => r end) (p + span it) its in
      match r with
      | O => (0, le32 (2 ^ 31 + flag it + 2 * f) ++ body l p it ++ bs)
      | S _ => (flag it + 2 * f, body l p it ++ bs)
      end
  end.

(** ** Which lists of items stand for a text *)

(** The hash of the three bytes at [v]. *)
Definition hash_at (l : list Z) (v : Z) : Z := hash_func (l @@ v + 256 * l @@ (v + 1) + 65536 * l @@ (v + 2)).

(** The latest of the positions [V] up to [lim] with hash [h]. *)
Definition latest (l : list Z) (V : list Z) (lim h : Z) : option Z :=
  List.find (λ v, (v <=? lim) && (hash_at l v =? h)) V.

(** [V]: the positions that were looked at, that is those of literals and of the starts of
    matches, the last one first. *)
Fixpoint valid (l : list Z) (V : list Z) (p : Z) (its : list item) : Prop :=
  match its with
  | [] => p = blen l
  | it :: its =>
      match it with
      | Lit => True
      | Match h n =>
          0 <= h < QLZ_HASH_VALUES ∧ 3 <= n <= 255 ∧ p <= last_matchstart (blen l) ∧ p + n <= blen l - UNCOMPRESSED_END
          ∧ ∃ q, latest l V (p - 3) h = Some q ∧ ∀ i, 0 <= i < n → l @@ (q + i) = l @@ (p + i)
      end ∧ valid l (p :: V) (p + span it) its
  end.

(** ** Layout *)
Lemma flag_bound it : 0 <= flag it <= 1.
Proof. destruct it; simpl; lia. Qed.

Lemma encode_flags l its : ∀ r p, 0 <= (encode l r p its).1 < 2 ^ Z.of_nat r.
Proof.
  induction its as [|it its IH]; intros r p; cbn [encode].
  - simpl. pose proof (Z.pow_pos_nonneg 2 (Z.of_nat r)). lia.
  - specialize (IH (match r with O => 30%nat | S r => r end) (p + span it)).
    destruct (encode _ _ _ its) as [f bs]. pose proof (flag_bound it). destruct r as [|r]; simpl fst in *; [simpl; lia|].
    rewrite Nat2Z.inj_succ, Z.pow_succ_r by lia. lia.
Qed.

(** A new group. *)
Lemma encode_group l p it its :
  encode l 0 p (it :: its) = (0, le32 (2 ^ 31 + (encode l 31 p (it :: its)).1) ++ (encode l 31 p (it :: its)).2).
Proof.
  cbn [encode]. destruct (encode l 30 (p + span it) its) as [f bs]. cbn [fst snd]. do 3 f_equal. lia.
Qed.

Lemma encode_item l r p it its :
  encode l (S r) p (it :: its)
  = (flag it + 2 * (encode l r (p + span it) its).1, body l p it ++ (encode l r (p + span it) its).2).
Proof. cbn [encode]. by destruct (encode l r (p + span it) its). Qed.

Lemma blen_body l p it : 1 <= blen (body l p it) <= 3.
Proof. destruct it as [|h n]; simpl; [done|]. destruct (n <? 18); unfold blen; simpl; lia. Qed.

(** The last four bytes of the text are literals, so as many bytes of the block remain. *)
Lemma encode_remaining l its : ∀ V r p, valid l V p its →
  Z.min 4 (blen l - p) + (if (r =? 0)%nat && negb (blen l =? p) then 4 else 0) <= blen (encode l r p its).2.
Proof.
  induction its as [|it its IH]; intros V r p; cbn [valid].
  - intros ->. rewrite Z.eqb_refl, andb_false_r. simpl. change (blen []) with 0. lia.
  - intros [Hi Hv]. specialize (IH _ (match r with O => 30%nat | S r => r end) _ Hv). cbn [encode].
    destruct (encode _ _ _ its) as [f bs]. cbn [snd] in IH.
    assert (Hb : Z.min 4 (blen l - p) <= blen (body l p it) + blen bs).
    { destruct it as [|h n]; cbn [span] in *.
      - pose proof (blen_body l p Lit). destruct (_ && _); lia.
      - destruct Hi as (_ & Hn & _ & He & _). unfold UNCOMPRESSED_END in He. pose proof (blen_body l p (Match h n)).
        destruct (_ && _); lia. }
    destruct r as [|r]; cbn [snd]; rewrite ?blen_app, ?blen_le32.
    + change (0 =? 0)%nat with true. destruct (negb (blen l =? p)); cbn [andb]; lia.
    + change (S r =? 0)%nat with false. cbn [andb]. lia.
Qed.

(** ** Hashes *)
Lemma hash_func_range i : 0 <= hash_func i < QLZ_HASH_VALUES.
Proof.
  unfold hash_func. change (QLZ_HASH_VALUES - 1) with (Z.ones 12). rewrite Z.land_ones by lia.
  change QLZ_HASH_VALUES with (2 ^ 12). apply Z.mod_pos_bound. lia.
Qed.

(** Only the low 24 bits count. *)
Lemma hash_func_low i : hash_func (i mod 2 ^ 24) = hash_func i.
Proof.
  unfold hash_func. change (QLZ_HASH_VALUES - 1) with (Z.ones 12). apply Z.bits_inj'. intros k Hk.
  rewrite !Z.land_spec, !Z.lxor_spec, !Z.shiftr_spec by lia.
  destruct (Z.lt_ge_cases k 12).
  - rewrite !Z.mod_pow2_bits_low by lia. done.
  - by rewrite Z.ones_spec_high, !andb_false_r by lia.
Qed.

Lemma hash_word l v w : bytes l → 0 <= v → v + 4 <= blen l → ld32 l v = Ret w → hash_func w = hash_at l v.
Proof.
  intros Hl Hv Hb. unfold ld32, ld16. rewrite !rd_at by lia. cbn [mbind outcome_bind]. intros [= <-].
  replace (v + 2 + 1) with (v + 3) by lia.
  rewrite <-(hash_func_low (_ + 65536 * (_ + _))). unfold hash_at. f_equal.
  pose proof (at_bytes l v Hl). pose proof (at_bytes l (v + 1) Hl). pose proof (at_bytes l (v + 2) Hl). pose proof (at_bytes l (v + 3) Hl).
  change (2 ^ 24) with 16777216. Z.to_euclidean_division_equations. lia.
Qed.

(** ** Positions looked at, in decreasing order *)
Definition looked (V : list Z) (p : Z) : Prop := StronglySorted Z.gt V ∧ Forall (λ v, 0 <= v < p) V.

Lemma looked_nil : looked [] 0.
Proof. split; constructor. Qed.

Lemma looked_cons V p q : looked V p → 0 <= p < q → looked (p :: V) q.
Proof.
  intros [H1 H2] Hq. split.
  - constructor; [done|]. eapply Forall_impl; [exact H2|]. simpl. lia.
  - constructor; [done|]. eapply Forall_impl; [exact H2|]. simpl. lia.
Qed.

Lemma latest_Some l V lim h q : latest l V lim h = Some q → q ∈ V ∧ q <= lim ∧ hash_at l q = h.
Proof.
  intros H. apply List.find_some in H as [H1 H2]. unbool. split; [by apply list_elem_of_In|done].
Qed.

Lemma latest_ext l V lim lim' h : (∀ v, v ∈ V → v <= lim ↔ v <= lim') → latest l V lim h = latest l V lim' h.
Proof.
  unfold latest. induction V as [|v V IH]; intros H; [done|]. cbn [List.find].
  assert ((v <=? lim) = (v <=? lim')) as ->.
  { pose proof (H v ltac:(left)). destruct (Z.leb_spec v lim), (Z.leb_spec v lim'); lia || done. }
  rewrite IH; [done|]. intros w Hw. apply H. by right.
Qed.

(** One more position allowed. *)
Lemma latest_step l V p v h : looked V p → v ∈ V →
  latest l V v h = if hash_at l v =? h then Some v else latest l V (v - 1) h.
Proof.
  intros [Hs _]. unfold latest. induction V as [|w V IH]; intros Hv; [by apply not_elem_of_nil in Hv|].
  apply StronglySorted_inv in Hs as [Hs Hw]. cbn [List.find]. apply elem_of_cons in Hv as [<-|Hv].
  - bool_lia. destruct (hash_at l v =? h); [done|].
    apply latest_ext. intros x Hx. rewrite Forall_forall in Hw. specialize (Hw x Hx). lia.
  - rewrite Forall_forall in Hw. pose proof (Hw v Hv). bool_lia. by apply IH.
Qed.

(** [k] literals from [p] on. *)
Fixpoint looked_at (k : nat) (p : Z) (V : list Z) : list Z :=
  match k with O => V | S k => looked_at k (p + 1) (p :: V) end.

Lemma looked_looked_at k : ∀ p V, 0 <= p → looked V p → looked (looked_at k p V) (p + Z.of_nat k).
Proof.
  induction k as [|k IH]; intros p V Hp H; cbn [looked_at]; [by rewrite Z.add_0_r|].
  replace (p + Z.of_nat (S k)) with (p + 1 + Z.of_nat k) by lia. apply IH; [lia|]. apply looked_cons; [done|lia].
Qed.

Lemma elem_looked_at k : ∀ p V v, v ∈ looked_at k p V ↔ v ∈ V ∨ p <= v < p + Z.of_nat k.
Proof.
  induction k as [|k IH]; intros p V v; cbn [looked_at].
  - split; [by left|]. intros [|]; [done|lia].
  - rewrite IH, elem_of_cons. split.
    + intros [[->|]|]; [right; lia|by left|right; lia].
    + intros [|]; [by left; right|]. destruct (decide (v = p)); [by left; left|right; lia].
Qed.

Lemma latest_looked_at l k : ∀ p V lim h, lim < p → latest l (looked_at k p V) lim h = latest l V lim h.
Proof.
  induction k as [|k IH]; intros p V lim h Hp; cbn [looked_at]; [done|]. rewrite IH by lia.
  unfold latest. cbn [List.find]. destruct (Z.leb_spec p lim); [lia|done].
Qed.

(** ** Control words *)
Lemma land_1 x : Z.land x 1 = x mod 2.
Proof. change 1 with (Z.ones 1) at 1. by rewrite Z.land_ones. Qed.

Lemma shiftr_1 x : Z.shiftr x 1 = x / 2.
Proof. by rewrite Z.shiftr_div_pow2. Qed.

Lemma pow2_S r : 2 ^ Z.of_nat (S r) = 2 * 2 ^ Z.of_nat r.
Proof. rewrite Nat2Z.inj_succ, Z.pow_succ_r by lia. done. Qed.

Lemma pow2_pos r : 0 < 2 ^ Z.of_nat r.
Proof. apply Z.pow_pos_nonneg; lia. Qed.

Lemma ld32_le32 pre v rest : 0 <= v < 2 ^ 32 → ld32 (pre ++ le32 v ++ rest) (blen pre) = Ret v.
Proof.
  intros Hv. unfold le32, le16, ld32. cbn [app]. rewrite (ld16_app pre _ _ _ (blen pre)) by done. cbn [mbind outcome_bind].
  change (u8 v :: u8 (v / 256) :: u8 (v / 65536) :: u8 (v / 65536 / 256) :: rest)
    with ([u8 v; u8 (v / 256)] ++ u8 (v / 65536) :: u8 (v / 65536 / 256) :: rest).
  rewrite app_assoc, ld16_app by (rewrite blen_app; done). cbn [mbind outcome_bind]. by rewrite u8_quad by lia.
Qed.

(** A load inside an object. *)
Lemma ld32_at b i : 0 <= i → i + 4 <= blen b →
  ld32 b i = Ret (b @@ i + 256 * b @@ (i + 1) + 65536 * (b @@ (i + 2) + 256 * b @@ (i + 3))).
Proof.
  intros Hi Hb. unfold ld32, ld16. rewrite !rd_at by lia. cbn [mbind outcome_bind]. by replace (i + 2 + 1) with (i + 3) by lia.
Qed.
