(* ===== verification/QuicklzDecode.v ===== *)
(** * Decompression reads back every valid block

    The loop of [qlz_decompress_core] on the layout of a list of items: whatever
    stands in the destination and in the table before, and whatever follows the
    block, the text comes out. *)
From S2P Require Import Prelude Quicklz QuicklzItems.
#[local] Open Scope Z_scope.
#[local] Open Scope list_scope.

(** ** Memory *)
Lemma copy4_spec b i d o : bytes b → 0 <= i → i + 4 <= blen b → 0 <= o → o + 4 <= blen d →
  ∃ d', copy4 b i d o = Ret d' ∧ blen d' = blen d ∧ (bytes d → bytes d')
    ∧ ∀ j, 0 <= j → d' @@ j = if (o <=? j) && (j <? o + 4) then b @@ (i + j - o) else d @@ j.
Proof.
  intros Hb Hi Hib Ho Hod. unfold copy4, ld32, ld16. rewrite !rd_at by lia. cbn [mbind outcome_bind].
  replace (i + 2 + 1) with (i + 3) by lia.
  pose proof (at_bytes b i Hb). pose proof (at_bytes b (i + 1) Hb). pose proof (at_bytes b (i + 2) Hb). pose proof (at_bytes b (i + 3) Hb).
  set (v := b @@ i + 256 * b @@ (i + 1) + 65536 * (b @@ (i + 2) + 256 * b @@ (i + 3))).
  assert (E0 : u8 v = b @@ i) by (unfold u8, v; change (2 ^ 8) with 256; Z.to_euclidean_division_equations; lia).
  assert (E1 : u8 (v / 256) = b @@ (i + 1)) by (unfold u8, v; change (2 ^ 8) with 256; Z.to_euclidean_division_equations; lia).
  assert (E2 : u8 (v / 65536) = b @@ (i + 2)) by (unfold u8, v; change (2 ^ 8) with 256; Z.to_euclidean_division_equations; lia).
  assert (E3 : u8 (v / 65536 / 256) = b @@ (i + 3)) by (unfold u8, v; change (2 ^ 8) with 256; Z.to_euclidean_division_equations; lia).
  clearbody v. unfold st32, st16. rewrite wr_in by lia. cbn [mbind outcome_bind].
  rewrite wr_in by (rewrite blen_insert; lia). cbn [mbind outcome_bind].
  rewrite wr_in by (rewrite !blen_insert; lia). cbn [mbind outcome_bind].
  rewrite wr_in by (rewrite !blen_insert; lia). rewrite E0, E1, E2, E3.
  eexists. split; [reflexivity|]. rewrite !blen_insert. split; [done|]. split.
  - intros Hd. repeat apply bytes_insert; done.
  - intros j Hj. rewrite !at_insert by (rewrite ?blen_insert; lia).
    repeat match goal with |- context [Z.eqb ?x ?y] => destruct (Z.eqb_spec x y) end;
      destruct (Z.leb_spec o j), (Z.ltb_spec j (o + 4)); cbn [andb]; try lia; f_equal; lia.
Qed.

(** The first [p] bytes of the destination are those of the text. *)
Definition agree (d l : list Z) (p : Z) : Prop := ∀ i, 0 <= i < p → d @@ i = l @@ i.

Lemma agree_le d l p q : agree d l p → q <= p → agree d l q.
Proof. intros H Hq i Hi. apply H. lia. Qed.

(** ** The table *)
Definition table_ok (l : list Z) (st : qlz_state_decompress) (V : list Z) (lim : Z) : Prop :=
  ∀ h q, latest l V lim h = Some q → st !! h = Some q.

Lemma hashat_agree d l v : bytes d → agree d l (v + 3) → 0 <= v → v + 4 <= blen d → hashat d v = Ret (hash_at l v).
Proof.
  intros Hd Ha Hv Hb. unfold hashat. change (fast_read d v 3) with (ld32 d v).
  destruct (ld32 d v) as [w| |] eqn:E.
  - cbn [mbind outcome_bind]. rewrite (hash_word d v w) by done. unfold hash_at. rewrite !Ha by lia. done.
  - exfalso. unfold ld32, ld16 in E. rewrite !rd_at in E by lia. done.
  - by destruct (ld32_not_Spin d v).
Qed.

Lemma update_hash_upto_spec l V p : looked V p → ∀ fuel st d lh max,
  bytes d → agree d l (max + 3) → max + 4 <= blen d → -1 <= lh → (∀ v, lh < v <= max → v ∈ V) →
  (Z.to_nat (max - lh) <= fuel)%nat → table_ok l st V lh →
  ∃ st', update_hash_upto fuel st d lh max = Ret (st', Z.max lh max) ∧ table_ok l st' V (Z.max lh max).
Proof.
  intros HV. induction fuel as [|fuel IH]; intros st d lh max Hd Ha Hm Hlh Hin Hf Ht; cbn [update_hash_upto].
  - destruct (Z.ltb_spec lh max); [lia|]. rewrite Z.max_l by lia. eauto.
  - destruct (Z.ltb_spec lh max) as [Hlt|]; [|rewrite Z.max_l by lia; eauto]. unfold update_hash.
    rewrite (hashat_agree d l) by first [done | lia | eapply agree_le; [done|lia]]. cbn [mbind outcome_bind].
    destruct (IH (<[hash_at l (lh + 1) := lh + 1]> st) d (lh + 1) max) as (st' & E & Ht');
      [done|done|done|lia|intros v Hv; apply Hin; lia|lia| |].
    + intros h q. rewrite (latest_step l V p) by (try done; apply Hin; lia). destruct (Z.eqb_spec (hash_at l (lh + 1)) h) as [<-|Hne].
      * intros [= <-]. by rewrite lookup_insert_eq.
      * replace (lh + 1 - 1) with lh by lia. intros H. rewrite lookup_insert_ne by done. by apply Ht.
    + rewrite E. replace (Z.max (lh + 1) max) with (Z.max lh max) in * by lia. eauto.
Qed.

Lemma table_ok_ext l st V lim lim' : (∀ v, v ∈ V → v <= lim ↔ v <= lim') → table_ok l st V lim → table_ok l st V lim'.
Proof. intros H Ht h q Hq. apply Ht. by rewrite (latest_ext l V lim lim' h H). Qed.

(** ** Matches *)
Lemma memcpy_up_spec l p q n : 0 <= q → q + 3 <= p → (∀ i, 0 <= i < n → l @@ (q + i) = l @@ (p + i)) →
  ∀ fuel d f, bytes d → 0 <= f < n → n - f <= 3 * Z.of_nat fuel → p + n + 3 <= blen d → agree d l (p + f) →
  ∃ d', memcpy_up fuel d p q n f = Ret d' ∧ bytes d' ∧ blen d' = blen d ∧ agree d' l (p + n).
Proof.
  intros Hq Hqp Hl. induction fuel as [|fuel IH]; intros d f Hd Hf Hn Hb Ha; [lia|]. cbn [memcpy_up].
  destruct (copy4_spec d (q + f) d (p + f)) as (d1 & -> & Hb1 & Hd1 & H1); [done|lia..|]. specialize (Hd1 Hd).
  cbn [mbind outcome_bind]. change (MINOFFSET + 1) with 3.
  assert (Ha1 : agree d1 l (p + Z.min (f + 3) n)).
  { intros i Hi. rewrite H1 by lia. destruct (Z.leb_spec (p + f) i); cbn [andb]; [|apply Ha; lia].
    bool_lia. replace (q + f + i - (p + f)) with (q + (i - p)) by lia. rewrite Ha by lia. rewrite Hl by lia. f_equal. lia. }
  destruct (Z.ltb_spec (f + 3) n).
  - destruct (IH d1 (f + 3)) as (d2 & -> & Hd2 & Hb2 & Ha2); [done|lia..| |].
    + rewrite Z.min_l in Ha1 by lia. eapply agree_le; [exact Ha1|lia].
    + exists d2. split_and!; [done..|lia|done].
  - exists d1. rewrite Z.min_r in Ha1 by lia. by split_and!.
Qed.

(** ** Literals *)

(** The literals a control word announces. *)
Lemma bitlut_spec r f : (0 < r)%nat → 0 <= f < 2 ^ Z.of_nat r → (2 ^ Z.of_nat r + f) mod 2 = 0 →
  ∃ n, bitlut (2 ^ Z.of_nat r + f) = Z.of_nat n ∧ (1 <= n <= 4)%nat ∧ (n <= r)%nat
    ∧ (2 ^ Z.of_nat n | 2 ^ Z.of_nat r + f).
Proof.
  intros Hr Hf Hev. set (w := 2 ^ Z.of_nat r + f) in *.
  assert (Hle : ∀ n, (2 ^ Z.of_nat n | w) → (n <= r)%nat).
  { intros n Hn. apply Z.divide_pos_le in Hn; [|pose proof (pow2_pos r); lia]. apply Nat.nlt_ge. intros Hlt.
    assert (2 ^ Z.of_nat (S r) <= 2 ^ Z.of_nat n) by (apply Z.pow_le_mono_r; lia). rewrite pow2_S in *. lia. }
  assert (Hw : 0 <= w) by (pose proof (pow2_pos r); lia). clearbody w. unfold bitlut.
  change 15 with (Z.ones 4). rewrite Z.land_ones by lia. change (2 ^ 4) with 16.
  assert (Hm : 0 <= w mod 16 < 16) by (apply Z.mod_pos_bound; lia).
  assert (Hdiv : ∀ n m, 2 ^ Z.of_nat n = m → m <> 0 → w mod m = 0 → (2 ^ Z.of_nat n | w)).
  { intros n m <- Hne H. by apply Z.mod_divide. }
  pose proof (Hdiv 1%nat 2 eq_refl ltac:(lia)) as H1. pose proof (Hdiv 2%nat 4 eq_refl ltac:(lia)) as H2.
  pose proof (Hdiv 3%nat 8 eq_refl ltac:(lia)) as H3. pose proof (Hdiv 4%nat 16 eq_refl ltac:(lia)) as H4. clear Hdiv.
  assert (Hk : ∃ k, (k < 8)%nat ∧ w mod 16 = 2 * Z.of_nat k).
  { exists (Z.to_nat (w mod 16 / 2)). Z.to_euclidean_division_equations. lia. }
  destruct Hk as (k & Hk & E). rewrite E.
  destruct k as [|[|[|[|[|[|[|[|k]]]]]]]]; [..|lia]; cbn -[Z.pow Z.modulo];
    [exists 4%nat|exists 1%nat|exists 2%nat|exists 1%nat|exists 3%nat|exists 1%nat|exists 2%nat|exists 1%nat].
  all: split_and!; [done|lia|lia|apply Hle|]; first [apply H1|apply H2|apply H3|apply H4];
    clear Hle H1 H2 H3 H4; Z.to_euclidean_division_equations; lia.
Qed.

Lemma lits_split l n : ∀ r V p its, (n <= r)%nat → valid l V p its → p + Z.of_nat n <= blen l →
  (2 ^ Z.of_nat n | 2 ^ Z.of_nat r + (encode l r p its).1) →
  ∃ its' ls, (encode l r p its).2 = ls ++ (encode l (r - n) (p + Z.of_nat n) its').2
    ∧ blen ls = Z.of_nat n ∧ (∀ i, 0 <= i < Z.of_nat n → ls @@ i = l @@ (p + i))
    ∧ valid l (looked_at n p V) (p + Z.of_nat n) its'
    ∧ (2 ^ Z.of_nat r + (encode l r p its).1) / 2 ^ Z.of_nat n
      = 2 ^ Z.of_nat (r - n) + (encode l (r - n) (p + Z.of_nat n) its').1.
Proof.
  induction n as [|n IH]; intros r V p its Hn Hv Hp Hdiv.
  - exists its, []. rewrite Nat.sub_0_r, Z.add_0_r. change (2 ^ Z.of_nat 0) with 1. rewrite Z.div_1_r. split_and!; [done..|lia|done|done].
  - destruct r as [|r]; [lia|]. destruct its as [|it its]; [cbn [valid] in Hv; lia|]. cbn [valid] in Hv. destruct Hv as [Hit Hv].
    rewrite encode_item in Hdiv |- *. cbn [fst snd] in *. set (f := (encode l r (p + span it) its).1) in *.
    rewrite !pow2_S in Hdiv.
    assert (it = Lit) as ->.
    { destruct it as [|h m]; [done|]. exfalso. cbn [flag] in Hdiv. apply Z.mod_divide in Hdiv; [|pose proof (pow2_pos n); lia].
      destruct (Z.mod_divide (2 * 2 ^ Z.of_nat r + (1 + 2 * f)) (2 * 2 ^ Z.of_nat n)) as [[c Hc] _]; [pose proof (pow2_pos n); lia|done|].
      nia. }
    cbn [flag span] in *. replace (2 * 2 ^ Z.of_nat r + (0 + 2 * f)) with (2 * (2 ^ Z.of_nat r + f)) in * by lia.
    destruct (IH r (p :: V) (p + 1) its) as (its' & ls & E & Hls & Hat & Hv' & Hq); [lia|done|lia| |].
    { apply Z.mul_divide_cancel_l in Hdiv; [done|lia]. }
    replace (p + Z.of_nat (S n)) with (p + 1 + Z.of_nat n) by lia. cbn [Nat.sub looked_at].
    exists its', (l @@ p :: ls). split_and!.
    + rewrite E. done.
    + unfold blen in *. cbn [length]. lia.
    + intros i Hi. destruct (Z.eq_dec i 0) as [->|Hne]; [by rewrite Z.add_0_r|].
      replace i with (blen [l @@ p] + (i - 1)) at 1 by (change (blen [l @@ p]) with 1; lia).
      change (l @@ p :: ls) with ([l @@ p] ++ ls). rewrite at_app_r by lia. rewrite Hat by lia. f_equal. lia.
    + done.
    + rewrite <-Hq, !pow2_S. fold f. rewrite <-(Z.div_mul_cancel_l (2 ^ Z.of_nat r + f) (2 ^ Z.of_nat n) 2); [|pose proof (pow2_pos n); lia|lia].
      f_equal. lia.
Qed.

(** Behind the last place where a match may start. *)
Lemma all_lits l its : ∀ V p, valid l V p its → last_matchstart (blen l) < p →
  ∃ k, its = replicate k Lit ∧ p + Z.of_nat k = blen l.
Proof.
  induction its as [|it its IH]; intros V p Hv Hp; cbn [valid] in Hv.
  - exists O. cbn. split; [done|lia].
  - destruct Hv as [Hit Hv]. destruct it as [|h n]; [|lia]. cbn [span] in Hv.
    destruct (IH _ _ Hv) as (k & -> & Hk); [lia|]. exists (S k). split; [done|lia].
Qed.

Lemma encode_lits l k : ∀ r p, (encode l r p (replicate k Lit)).1 = 0.
Proof.
  induction k as [|k IH]; intros r p; [done|]. cbn [replicate encode].
  specialize (IH (match r with O => 30%nat | S r => r end) (p + span Lit)).
  destruct (encode _ _ _ (replicate k Lit)) as [f bs]. simpl in IH. subst f. by destruct r.
Qed.

Lemma last_literals_spec l source rest : bytes l → ∀ k fuel pre r p d,
  (k <= fuel)%nat → 0 <= p → p + Z.of_nat k = blen l → source = pre ++ (encode l r p (replicate k Lit)).2 ++ rest →
  blen l <= blen d → bytes d → agree d l p →
  ∃ d', last_literals fuel source d (blen pre) p (blen l - 1) (2 ^ Z.of_nat r) = Ret d'
    ∧ blen d' = blen d ∧ bytes d' ∧ agree d' l (blen l).
Proof.
  intros Hl. induction k as [|k IH]; intros fuel pre r p d Hf Hp Hk Hs Hd Hbd Ha.
  - exists d. rewrite Z.add_0_r in Hk. subst p. split_and!; [|done..]. destruct fuel; cbn [last_literals]; bool_lia; done.
  - destruct fuel as [|fuel]; [lia|]. cbn [last_literals]. bool_lia.
    assert (∃ pre' r', (if 2 ^ Z.of_nat r =? 1 then (blen pre + CWORD_LEN, 2 ^ 31) else (blen pre, 2 ^ Z.of_nat r))
        = (blen pre', 2 ^ Z.of_nat (S r'))
        ∧ source = pre' ++ l @@ p :: (encode l r' (p + 1) (replicate k Lit)).2 ++ rest) as (pre' & r' & -> & Hs').
    { cbn [replicate] in Hs. destruct r as [|r].
      - exists (pre ++ le32 (2 ^ 31 + (encode l 31 p (Lit :: replicate k Lit)).1)), 30%nat. rewrite blen_app. split; [done|].
        rewrite Hs, encode_group. cbn [snd]. rewrite encode_item. cbn [snd body]. by rewrite <-!app_assoc.
      - exists pre, r. rewrite pow2_S. pose proof (pow2_pos r). bool_lia. split; [done|].
        rewrite Hs, encode_item. done. }
    rewrite Hs', (rd_app pre') by done. cbn [mbind outcome_bind]. rewrite wr_in by lia. cbn [mbind outcome_bind].
    pose proof (at_bytes l p Hl). rewrite u8_small by done. rewrite shiftr_1, pow2_S, Z.mul_comm, Z.div_mul by lia.
    destruct (IH fuel (pre' ++ [l @@ p]) r' (p + 1) (<[Z.to_nat p := l @@ p]> d)) as (d' & E & Hb' & Hd' & Ha');
      [lia|lia|lia|by rewrite <-app_assoc|by rewrite blen_insert|by apply bytes_insert| |].
    + intros i Hi. rewrite at_insert by lia. destruct (Z.eqb_spec p i) as [->|]; [done|]. apply Ha. lia.
    + rewrite Hs', blen_app in E. change (blen [l @@ p]) with 1 in E. exists d'. rewrite E, Hb', blen_insert. done.
Qed.

(** A match as it is read. *)
Lemma match_fetch l p h n pre tail source :
  source = pre ++ body l p (Match h n) ++ tail → blen pre + 4 <= blen source →
  0 <= h < QLZ_HASH_VALUES → 3 <= n <= 255 →
  ∃ w, fast_read source (blen pre) 4 = Ret w ∧ Z.land (Z.shiftr w 4) 4095 = h
    ∧ (if negb (Z.land w 15 =? 0) then Ret (Z.land w 15 + 2, blen pre + 2)
       else m ← rd source (blen pre + 2); Ret (m, blen pre + 3)) = Ret (n, blen (pre ++ body l p (Match h n))).
Proof.
  unfold QLZ_HASH_VALUES. intros Hs Hb Hh Hn. change (fast_read source (blen pre) 4) with (ld32 source (blen pre)).
  pose proof (blen_nonneg pre). rewrite ld32_at by lia. set (y := source @@ (blen pre + 2) + 256 * source @@ (blen pre + 3)).
  assert (∃ x, le16 x = take 2 (body l p (Match h n)) ∧ 0 <= x < 65536 ∧ x / 16 = h ∧ x mod 16 = if n <? 18 then n - 2 else 0)
    as (x & Ex & Hx & Hdiv & Hmod).
  { cbn [body]. destruct (Z.ltb_spec n 18); [exists (n - 2 + 16 * h)|exists (16 * h)];
      (split; [done|]); Z.to_euclidean_division_equations; lia. }
  assert (Hx' : source @@ blen pre + 256 * source @@ (blen pre + 1) = x).
  { assert (∃ bs, body l p (Match h n) = le16 x ++ bs) as [bs E] by (rewrite Ex; eexists; symmetry; apply take_drop).
    rewrite Hs, E, <-(Z.add_0_r (blen pre)) at 1. rewrite Hs, E, !at_app_r by lia. unfold le16. cbn [app]. unfold at_. cbn [nth Z.to_nat].
    apply u8_pair. lia. }
  eexists. split; [reflexivity|]. rewrite Hx'. split.
  - change 4095 with (Z.ones 12). rewrite Z.land_ones, Z.shiftr_div_pow2 by lia. change (2 ^ 4) with 16. change (2 ^ 12) with 4096.
    clearbody y. clear - Hx Hdiv Hh. Z.to_euclidean_division_equations. lia.
  - change 15 with (Z.ones 4). rewrite Z.land_ones by lia. change (2 ^ 4) with 16.
    replace ((x + 65536 * y) mod 16) with (x mod 16) by (clearbody y; clear; Z.to_euclidean_division_equations; lia).
    rewrite Hmod, blen_app. cbn [body]. destruct (Z.ltb_spec n 18); bool_lia.
    + rewrite blen_le16. f_equal. f_equal; lia.
    + rewrite Hs. cbn [body]. replace (n <? 18) with false by (symmetry; apply Z.ltb_ge; lia). rewrite <-(app_assoc (le16 _)).
      change ([n] ++ tail) with (n :: tail). rewrite (app_assoc pre), rd_app by (rewrite blen_app; done). done.
Qed.

(** ** The loop *)
Section Loop.
Context (l source rest : list Z) (Hl : bytes l) (Hbytes : bytes source).

(** The variables of the loop in front of the items [its]: [r] slots of the control word are
    left, [pre] is what was read, [V] are the positions that were passed. *)
Record decoding (its : list item) (V : list Z) (r : nat) (p : Z) (pre : list Z) (lh : Z) (d : buffer)
    (st : qlz_state_decompress) : Prop := {
  dc_valid : valid l V p its;
  dc_looked : looked V p;
  dc_source : source = pre ++ (encode l r p its).2 ++ rest;
  dc_dest : bytes d ∧ blen l <= blen d ∧ agree d l p;
  dc_hashed : -1 <= lh < p;
  dc_behind : ∀ v, lh < v < p → v ∈ V;
  dc_lim : ∀ v, v ∈ V → v <= lh ↔ v <= p - 3;
  dc_table : table_ok l st V lh;
  dc_room : 0 < p <= blen l - 4 ∨ p = 0 ∧ 0 < blen l ∧ blen pre + (if (r =? 0)%nat then 8 else 4) <= blen source
}.

Definition cword (r : nat) (p : Z) (its : list item) : Z := 2 ^ Z.of_nat r + (encode l r p its).1.

Lemma cword_range r p its : 2 ^ Z.of_nat r <= cword r p its < 2 ^ Z.of_nat (S r).
Proof. unfold cword. pose proof (encode_flags l its r p). rewrite pow2_S. lia. Qed.

(** The control word, and four more bytes. *)
Lemma fetch_cword its V r p pre lh d st : decoding its V r p pre lh d st →
  ∃ r' pre', (if cword r p its =? 1 then w ← fast_read source (blen pre) CWORD_LEN; Ret (w, blen pre + CWORD_LEN)
              else Ret (cword r p its, blen pre)) = Ret (cword (S r') p its, blen pre')
    ∧ decoding its V (S r') p pre' lh d st ∧ blen pre' + 4 <= blen source.
Proof.
  intros [Hv Hlo Hs Hd Hh Hb Hlim Ht Hr]. pose proof (blen_nonneg rest).
  assert (its <> []) as Hne by (intros ->; cbn in Hv; lia).
  destruct r as [|r].
  - destruct its as [|it its]; [done|]. exists 30%nat, (pre ++ le32 (cword 31 p (it :: its))).
    pose proof (cword_range 0 p (it :: its)). change (2 ^ Z.of_nat 0) with 1 in *. change (2 ^ Z.of_nat 1) with 2 in *. bool_lia.
    assert (0 <= cword 31 p (it :: its) < 2 ^ 32).
    { pose proof (cword_range 31 p (it :: its)) as [Hc1 Hc2]. split; [|exact Hc2]. pose proof (pow2_pos 31). lia. }
    rewrite encode_group in Hs. cbn [snd] in Hs. change (2 ^ 31 + _) with (cword 31 p (it :: its)) in Hs. rewrite <-app_assoc in Hs.
    change (fast_read source (blen pre) CWORD_LEN) with (ld32 source (blen pre)). rewrite Hs at 1. rewrite ld32_le32 by lia.
    cbn [mbind outcome_bind]. rewrite blen_app. split; [done|]. rewrite app_assoc in Hs. split.
    + split; try done. cbn [Nat.eqb] in *. rewrite blen_app, blen_le32. lia.
    + pose proof (encode_remaining l _ V 31 p Hv). pose proof (f_equal blen Hs) as E. rewrite !blen_app, blen_le32 in *.
      cbn [Nat.eqb andb] in *. lia.
  - exists r, pre. pose proof (cword_range (S r) p its). rewrite pow2_S in *. pose proof (pow2_pos r). bool_lia.
    split_and!; [done|done|]. pose proof (encode_remaining l _ V (S r) p Hv). pose proof (f_equal blen Hs) as E. rewrite !blen_app in *.
    cbn [Nat.eqb andb] in *. lia.
Qed.

(** A match. *)
Lemma decode_match h n its V r p pre lh d st : decoding (Match h n :: its) V (S r) p pre lh d st →
  ∃ q d' st', st !! h = Some q ∧ memcpy_up 256 d p q n 0 = Ret d'
    ∧ update_hash_upto (Z.to_nat (blen l)) st d' lh p = Ret (st', p) ∧ blen d' = blen d
    ∧ decoding its (p :: V) r (p + n) (pre ++ body l p (Match h n)) (p + n - 1) d' st'.
Proof.
  intros [Hv Hlo Hs (Hd & Hbd & Ha) Hh Hb Hlim Ht Hr]. cbn [valid span] in Hv.
  destruct Hv as [(Hrh & Hn & Hp & Hpn & q & Hq & Heq) Hv]. unfold last_matchstart, last_byte, UNCOMPRESSED_END, UNCONDITIONAL_MATCHLEN in *.
  pose proof (latest_Some _ _ _ _ _ Hq) as (Hin & Hle & _). destruct (Hlo) as [_ Hall]. rewrite Forall_forall in Hall.
  pose proof (Hall q Hin). exists q.
  destruct (memcpy_up_spec l p q n ltac:(lia) ltac:(lia) Heq 256 d 0) as (d' & E1 & Hd' & Hb' & Ha');
    [done|lia|lia|lia|by rewrite Z.add_0_r|].
  destruct (update_hash_upto_spec l (p :: V) (p + n) (looked_cons V p (p + n) Hlo ltac:(lia)) (Z.to_nat (blen l)) st d' lh p)
    as (st' & E2 & Ht'); [done|eapply agree_le; [done|lia]|lia|lia| |lia| |].
  { intros v Hv'. destruct (Z.eq_dec v p) as [->|]; [by left|]. right. apply Hb. lia. }
  { intros h' q' H'. apply Ht. revert H'. unfold latest. cbn [List.find]. by bool_lia. }
  rewrite Z.max_r in E2, Ht' by lia. exists d', st'. split_and!; [|done|done|done|].
  { apply Ht. by rewrite (latest_ext l V lh (p - 3)). }
  assert (HV' : ∀ v, v ∈ p :: V → 0 <= v <= p).
  { intros v [->|Hv']%elem_of_cons; [lia|]. specialize (Hall v Hv'). lia. }
  split; try done.
  - apply looked_cons; [done|lia].
  - rewrite encode_item in Hs. cbn [snd span] in Hs. by rewrite <-!app_assoc in *.
  - split_and!; [done|lia|done].
  - lia.
  - intros v Hv'. lia.
  - intros v Hv'%HV'. lia.
  - eapply table_ok_ext; [|exact Ht']. intros v Hv'%HV'. lia.
  - left. lia.
Qed.

(** Up to four literals. *)
Lemma decode_lits it its V r p pre lh d st : decoding (it :: its) V (S r) p pre lh d st → flag it = 0 →
  p < last_matchstart (blen l) → blen pre + 4 <= blen source →
  ∃ n its' pre' r' V' d' st' lh', bitlut (cword (S r) p (it :: its)) = n ∧ 1 <= n
    ∧ copy4 source (blen pre) d p = Ret d' ∧ blen d' = blen d
    ∧ update_hash_upto (Z.to_nat (blen l)) st d' lh (p + n - 3) = Ret (st', lh')
    ∧ blen pre' = blen pre + n ∧ Z.shiftr (cword (S r) p (it :: its)) n = cword r' (p + n) its'
    ∧ decoding its' V' r' (p + n) pre' lh' d' st'.
Proof.
  intros [Hv Hlo Hs (Hd & Hbd & Ha) Hh Hb Hlim Ht Hr] Hflag Hp Hroom. pose proof (blen_nonneg pre).
  unfold last_matchstart, last_byte, UNCOMPRESSED_END, UNCONDITIONAL_MATCHLEN in *.
  destruct (bitlut_spec (S r) (encode l (S r) p (it :: its)).1) as (n & En & Hn & Hnr & Hdiv); [lia|apply encode_flags| |].
  { rewrite encode_item. cbn [fst]. rewrite Hflag, pow2_S. clear. Z.to_euclidean_division_equations. lia. }
  destruct (lits_split l n (S r) V p (it :: its)) as (its' & ls & Ebs & Hls & Hat & Hv' & Ecw); [done|done|lia|done|].
  destruct (copy4_spec source (blen pre) d p Hbytes) as (d' & E1 & Hb' & Hd' & H1); [lia..|]. specialize (Hd' Hd).
  assert (Ha' : agree d' l (p + Z.of_nat n)).
  { intros i Hi. rewrite H1 by lia. destruct (Z.leb_spec p i); cbn [andb]; [|apply Ha; lia]. bool_lia.
    rewrite Hs, Ebs. replace (blen pre + i - p) with (blen pre + (i - p)) by lia. rewrite at_app_r by lia.
    rewrite <-app_assoc, at_app_l by lia. rewrite Hat by lia. f_equal. lia. }
  assert (HV : ∀ v, lh < v < p + Z.of_nat n → v ∈ looked_at n p V).
  { intros v Hv''. apply elem_looked_at. destruct (Z.lt_ge_cases v p); [left; apply Hb; lia|right; lia]. }
  destruct (update_hash_upto_spec l _ _ (looked_looked_at n p V ltac:(lia) Hlo) (Z.to_nat (blen l)) st d' lh (p + Z.of_nat n - 3))
    as (st' & E2 & Ht'); [done|eapply agree_le; [done|lia]|lia|lia|intros v Hv''; apply HV; lia|lia| |].
  { intros h' q' H'. apply Ht. by rewrite latest_looked_at in H' by lia. }
  exists (Z.of_nat n), its', (pre ++ ls), (S r - n)%nat, (looked_at n p V), d', st', (Z.max lh (p + Z.of_nat n - 3)).
  split_and!; [done|lia|done|done|done|by rewrite blen_app, Hls|by rewrite Z.shiftr_div_pow2 by lia|].
  split; try done.
  - apply looked_looked_at; [lia|done].
  - by rewrite Hs, Ebs, <-!app_assoc.
  - split_and!; [done|lia|done].
  - lia.
  - intros v Hv''. apply HV. lia.
  - intros v [Hv''|Hv'']%elem_looked_at; [|lia]. specialize (Hlim v Hv'').
    destruct Hlo as [_ Hall]. rewrite Forall_forall in Hall. specialize (Hall v Hv''). lia.
  - left. lia.
Qed.
(** The rest of the text. *)
Lemma decode_last its V r p pre lh d st : decoding its V (S r) p pre lh d st →
  last_matchstart (blen l) <= p → match its with it :: _ => flag it = 0 | [] => True end →
  ∃ d' r', last_literals (Z.to_nat (blen l)) source d (blen pre) p (blen l - 1) (cword (S r) p its) = Ret d'
    ∧ update_hash_upto (Z.to_nat (blen l)) st d' lh (blen l - 1 - 3) = Ret r'
    ∧ blen d' = blen d ∧ bytes d' ∧ agree d' l (blen l).
Proof.
  intros [Hv Hlo Hs (Hd & Hbd & Ha) Hh Hb Hlim Ht Hr] Hp Hflag.
  assert (∃ k, its = replicate k Lit ∧ p + Z.of_nat k = blen l) as (k & -> & Hk).
  { destruct its as [|it its]; [apply (all_lits _ [] V p Hv); cbn in Hv; unfold last_matchstart, last_byte, UNCONDITIONAL_MATCHLEN, UNCOMPRESSED_END in *; lia|].
    destruct it as [|h n]; [|done]. destruct Hv as [_ Hv]. cbn [span] in Hv.
    destruct (all_lits _ _ _ _ Hv) as (k & -> & Hk); [lia|]. exists (S k). split; [done|lia]. }
  destruct (last_literals_spec l source rest Hl k (Z.to_nat (blen l)) pre (S r) p d) as (d' & E1 & Hb' & Hd' & Ha');
    [lia|lia|done|done|done|done|done|].
  unfold cword. rewrite encode_lits, Z.add_0_r. exists d'.
  destruct (update_hash_upto_spec l _ _ (looked_looked_at k p V ltac:(lia) Hlo) (Z.to_nat (blen l)) st d' lh (blen l - 1 - 3))
    as (st' & E2 & _); [done|eapply agree_le; [done|lia]|lia|lia| |lia| |].
  { intros v Hv'. apply elem_looked_at. destruct (Z.lt_ge_cases v p); [left; apply Hb; lia|right; lia]. }
  { intros h' q' H'. apply Ht. by rewrite latest_looked_at in H' by lia. }
  eexists. by split_and!.
Qed.

(** What the loop makes of the items: the text. *)
Lemma decompress_loop_spec fuel : ∀ its V r p pre lh d st,
  blen l - p < Z.of_nat fuel → decoding its V r p pre lh d st →
  ∃ d', decompress_loop fuel source d (blen l) (blen pre) p (cword r p its) lh st = Ret (d', blen l)
    ∧ blen d' = blen d ∧ bytes d' ∧ agree d' l (blen l).
Proof.
  induction fuel as [|fuel IH]; intros its V r p pre lh d st Hf Hdc.
  { destruct Hdc as [_ _ _ _ _ _ _ _ Hr]. lia. }
  destruct (fetch_cword _ _ _ _ _ _ _ _ Hdc) as (r' & pre' & E & Hdc' & Hroom). clear Hdc. cbn [decompress_loop].
  rewrite E. cbn [mbind outcome_bind]. clear E pre r. pose proof (blen_nonneg pre').
  change (blen l - 1 - UNCONDITIONAL_MATCHLEN - UNCOMPRESSED_END) with (last_matchstart (blen l)).
  destruct its as [|it its]; [destruct Hdc' as [Hv _ _ _ _ _ _ _ Hr]; cbn in Hv; lia|].
  assert (Elow : Z.land (cword (S r') p (it :: its)) 1 = flag it).
  { rewrite land_1. unfold cword. rewrite encode_item, pow2_S. cbn [fst]. pose proof (flag_bound it). clear - H0.
    Z.to_euclidean_division_equations. lia. }
  rewrite Elow. destruct it as [|h n].
  - change (flag Lit =? 1) with false. cbn iota.
    change (fast_read source (blen pre') 4) with (ld32 source (blen pre')). rewrite ld32_at by lia. cbn [mbind outcome_bind].
    destruct (Z.ltb_spec p (last_matchstart (blen l))).
    + destruct (decode_lits _ _ _ _ _ _ _ _ _ Hdc') as (n & its' & pre2 & r2 & V2 & d2 & st2 & lh2 & -> & Hn & -> & Hb & E2 & Ep & Ew & Hdc2);
        [done|done|done|]. cbn [mbind outcome_bind]. rewrite E2. cbn [mbind outcome_bind]. rewrite Ew, <-Ep.
      destruct (IH its' V2 r2 (p + n) pre2 lh2 d2 st2 ltac:(lia) Hdc2) as (d3 & E3 & Hb3 & ?). exists d3. by rewrite E3, Hb3, Hb.
    + destruct (decode_last _ _ _ _ _ _ _ _ Hdc' ltac:(lia) eq_refl) as (d2 & rr & -> & E2 & ?). cbn [mbind outcome_bind].
      rewrite E2. cbn [mbind outcome_bind]. destruct rr. by exists d2.
  - change (flag (Match h n) =? 1) with true. cbn iota.
    destruct (decode_match _ _ _ _ _ _ _ _ _ _ Hdc') as (q & d2 & st2 & Eq & E1 & E2 & Hb & Hdc2).
    destruct Hdc' as [[(Hh & Hn & _) _] _ Hs _ _ _ _ _ _].
    rewrite encode_item in Hs. cbn [snd] in Hs. rewrite <-app_assoc in Hs.
    destruct (match_fetch l p h n pre' _ source Hs Hroom Hh ltac:(lia)) as (w & Ew & Eh & E3). rewrite Ew.
    cbn [mbind outcome_bind]. rewrite Eh, Eq. cbn [of_option mbind outcome_bind]. rewrite E3. cbn [mbind outcome_bind]. rewrite E1. cbn [mbind outcome_bind].
    replace (p + n - n) with p by lia. rewrite E2. cbn [mbind outcome_bind].
    replace (Z.shiftr (cword (S r') p (Match h n :: its)) 1) with (cword r' (p + n) its).
    + destruct (IH its (p :: V) r' (p + n) _ _ d2 st2 ltac:(lia) Hdc2) as (d3 & E4 & Hb3 & ?). exists d3. by rewrite E4, Hb3, Hb.
    + rewrite shiftr_1. unfold cword. rewrite encode_item, pow2_S. cbn [fst flag span]. clear. Z.to_euclidean_division_equations. lia.
Qed.
End Loop.

(** ** Blocks *)

(** The header of a text of [size] bytes in a block of [r] bytes; the last bit of the first byte
    tells whether it is compressed. *)
Definition header (size r compressed : Z) : list Z :=
  if size <? 216 then [68 + compressed; u8 r; u8 size] else [70 + compressed] ++ le32 r ++ le32 size.

Definition header_length (size : Z) : Z := if size <? 216 then 3 else 9.

Lemma blen_header size r c : blen (header size r c) = header_length size.
Proof. unfold header, header_length. by destruct (size <? 216). Qed.

Lemma header_spec size r c rest : 0 <= size < 2 ^ 32 → 0 <= r < 2 ^ 32 → c = 0 ∨ c = 1 → 3 <= blen rest →
  let source := header size r c ++ rest in
  qlz_size_decompressed source = Ret size ∧ qlz_size_header source = Ret (header_length size)
  ∧ (∃ n, qlz_size_compressed source = Ret n) ∧ ∃ flags, rd source 0 = Ret flags ∧ Z.land flags 1 = c.
Proof.
  intros Hs Hr Hc Hrest source. unfold qlz_size_decompressed, qlz_size_header, qlz_size_compressed, size_field_length.
  assert (Hlen : blen source = header_length size + blen rest) by (unfold source; by rewrite blen_app, blen_header).
  unfold header in source. unfold header_length in *. destruct (Z.ltb_spec size 216) as [Hlt|Hge].
  - assert (E : rd source 0 = Ret (68 + c)) by (unfold source; by apply (rd_app [])).
    rewrite E. cbn [mbind outcome_bind]. replace (Z.land (68 + c) 2 =? 2) with false by (by destruct Hc as [-> | ->]).
    split_and!; [|done| |by exists (68 + c); destruct Hc as [-> | ->]].
    + change (fast_read source (1 + 1) 1) with (ld32 source 2). rewrite ld32_at by lia. cbn [mbind outcome_bind]. f_equal.
      change (source @@ 2) with (u8 size). rewrite u8_small by lia. change (Z.shiftr _ _) with (Z.ones 8). rewrite Z.land_ones by lia.
      set (y := source @@ (2 + 1)). set (z := source @@ (2 + 2) + _). change (2 ^ 8) with 256. clearbody y z. clear - Hlt Hs.
      Z.to_euclidean_division_equations. lia.
    + change (fast_read source 1 1) with (ld32 source 1). rewrite ld32_at by lia. eexists. reflexivity.
  - assert (E : rd source 0 = Ret (70 + c)) by (unfold source; by apply (rd_app [])).
    rewrite E. cbn [mbind outcome_bind]. replace (Z.land (70 + c) 2 =? 2) with true by (by destruct Hc as [-> | ->]).
    split_and!; [|done| |by exists (70 + c); destruct Hc as [-> | ->]].
    + change (fast_read source (1 + 4) 4) with (ld32 source 5). unfold source.
      change (([70 + c] ++ le32 r ++ le32 size) ++ rest) with (([70 + c] ++ le32 r) ++ le32 size ++ rest).
      change 5 with (blen ([70 + c] ++ le32 r)). rewrite ld32_le32 by lia. cbn [mbind outcome_bind]. f_equal.
      change (Z.shiftr _ _) with (Z.ones 32). rewrite Z.land_ones by lia. by apply Z.mod_small.
    + change (fast_read source 1 4) with (ld32 source 1). rewrite ld32_at by lia. eexists. reflexivity.
Qed.

Lemma agree_take d l : agree d l (blen l) → blen l <= blen d → sub d 0 (blen l) = l.
Proof.
  intros Ha Hb. pose proof (blen_nonneg l).
  assert (Hs : blen (sub d 0 (blen l)) = blen l) by (apply blen_sub; unfold in_object; by bool_lia).
  apply buffer_ext; [done|]. rewrite Hs. intros i Hi. rewrite <-(Ha i Hi). unfold sub, at_. rewrite drop_0.
  rewrite !nth_lookup, lookup_take_lt by lia. done.
Qed.

(** The layout of a valid list of items is decompressed to the text. *)
Lemma qlz_decompress_items l its r rest d st : bytes l → bytes d → bytes rest → 0 < blen l < 2 ^ 32 → 0 <= r < 2 ^ 32 →
  blen l <= blen d → valid l [] 0 its → 8 <= blen ((encode l 0 0 its).2 ++ rest) → bytes (encode l 0 0 its).2 →
  ∃ d', qlz_decompress (header (blen l) r 1 ++ (encode l 0 0 its).2 ++ rest) d st = Ret (d', blen l)
    ∧ blen d' = blen d ∧ sub d' 0 (blen l) = l.
Proof.
  intros Hl Hd Hrest Hlen Hr Hb Hv Hroom Henc.
  destruct (header_spec (blen l) r 1 ((encode l 0 0 its).2 ++ rest)) as (E1 & E2 & (n & E3) & flags & E4 & E5);
    [lia|done|by right|lia|]. unfold qlz_decompress, qlz_decompress_core.
  rewrite E1. cbn [mbind outcome_bind]. rewrite E4. cbn [mbind outcome_bind]. rewrite E5. cbn [Z.eqb Pos.eqb].
  rewrite E2. cbn [mbind outcome_bind]. rewrite E3. cbn [mbind outcome_bind].
  assert (Hcw : its ≠ [] → cword l 0 0 its = 1) by (intros; pose proof (cword_range l 0 0 its); cbn in *; lia).
  assert (its ≠ []) as Hne by (intros ->; cbn in Hv; lia). specialize (Hcw Hne).
  set (source := header _ _ _ ++ _) in *.
  destruct (decompress_loop_spec l source rest Hl) with (fuel := S (Z.to_nat (blen l))) (its := its) (V := @nil Z) (r := O) (p := 0)
    (pre := header (blen l) r 1) (lh := -1) (d := d) (st := st) as (d' & E & Hb' & Hd' & Ha').
  - unfold source. repeat apply bytes_app; try done. unfold header. pose proof (u8_bound r). pose proof (u8_bound (blen l)).
    destruct (_ <? _); repeat constructor; try lia; apply u8_bound.
  - lia.
  - split; try done.
    + apply looked_nil.
    + split_and!; [done|lia|]. intros i Hi. lia.
    + intros v Hv'. lia.
    + intros v Hv'. by apply not_elem_of_nil in Hv'.
    + right. unfold source. rewrite (blen_app (header _ _ _)). cbn [Nat.eqb]. lia.
  - rewrite blen_header, Hcw in E. rewrite E. exists d'. split_and!; [done|done|]. apply agree_take; [done|lia].
Qed.

(** A stored block. *)
Lemma qlz_decompress_stored l r rest d st : 3 <= blen l < 2 ^ 32 → 0 <= r < 2 ^ 32 → blen l <= blen d →
  ∃ d', qlz_decompress (header (blen l) r 0 ++ l ++ rest) d st = Ret (d', blen l) ∧ blen d' = blen d ∧ sub d' 0 (blen l) = l.
Proof.
  intros Hl Hr Hb. pose proof (blen_nonneg rest).
  destruct (header_spec (blen l) r 0 (l ++ rest)) as (E1 & E2 & _ & flags & E4 & E5); [lia|done|by left|rewrite blen_app; lia|].
  unfold qlz_decompress. rewrite E1. cbn [mbind outcome_bind]. rewrite E4. cbn [mbind outcome_bind]. rewrite E5. cbn [Z.eqb].
  rewrite E2. cbn [mbind outcome_bind]. unfold copy_in.
  assert (in_object d 0 (blen l) = true) as Hin by (unfold in_object; by bool_lia). rewrite Hin.
  assert (in_object (header (blen l) r 0 ++ l ++ rest) (header_length (blen l)) (blen l) = true) as ->.
  { unfold in_object. rewrite !blen_app, blen_header. unfold header_length. destruct (_ <? _); by bool_lia. }
  cbn [andb mbind outcome_bind]. rewrite <-(blen_header _ r 0), sub_app. eexists. split; [reflexivity|].
  split; [by rewrite blen_put by lia|]. by apply sub_put.
Qed.
