(* ===== verification/QuicklzEncode.v ===== *)
(** * What compression writes

    [qlz_compress_core] lays out a list of items that is valid for the text, whatever
    the table of the previous call left in its cache; or it gives up and the text is
    stored.  [qlz_compress] makes a block of either that [qlz_decompress] reads back. *)
From S2P Require Import Prelude Quicklz QuicklzItems QuicklzDecode.
#[local] Open Scope Z_scope.
#[local] Open Scope list_scope.

(** ** Words *)
Lemma lor_add a h k : 0 <= k → 0 <= a < 2 ^ k → 0 <= h → Z.lor a (Z.shiftl h k) = a + 2 ^ k * h.
Proof.
  intros Hk Ha Hh. rewrite Z.shiftl_mul_pow2 by lia.
  assert (Z.land a (h * 2 ^ k) = 0) as E.
  { apply Z.bits_inj'. intros i Hi. rewrite Z.land_spec, Z.bits_0. destruct (Z.lt_ge_cases i k).
    - by rewrite Z.mul_pow2_bits_low, andb_false_r.
    - rewrite <-(Z.mod_small a (2 ^ k)) by done. by rewrite Z.mod_pow2_bits_high. }
  pose proof (Z.add_lor_land a (h * 2 ^ k)). lia.
Qed.

Lemma st32_over P Y G v : blen Y = 4 → st32 (P ++ Y ++ G) (blen P) v = Ret (P ++ le32 v ++ G).
Proof.
  intros HY. destruct Y as [|a [|b [|c [|d [|]]]]]; unfold blen in HY; simpl in HY; try lia. unfold st32. cbn [app].
  rewrite (st16_app P _ _ _ (blen P)) by done. cbn [mbind outcome_bind]. rewrite app_assoc, st16_app by (rewrite blen_app; done).
  unfold le32. by rewrite <-!app_assoc.
Qed.

Lemma st16_over P Y G v : blen Y = 2 → st16 (P ++ Y ++ G) (blen P) v = Ret (P ++ le16 v ++ G).
Proof.
  intros HY. destruct Y as [|a [|b [|]]]; unfold blen in HY; simpl in HY; try lia. by apply st16_app.
Qed.

(** The flags of a control word that has [r] free slots: a one in front of them, one behind. *)
Definition open_cword (r : nat) (F : Z) : Z := 2 ^ Z.of_nat r * (1 + 2 * F).

Lemma open_cword_low r F : Z.land (open_cword r F) 1 = if (r =? 0)%nat then 1 else 0.
Proof.
  rewrite land_1. unfold open_cword. destruct r as [|r]; cbn [Nat.eqb].
  - change (2 ^ Z.of_nat 0) with 1. Z.to_euclidean_division_equations. lia.
  - rewrite pow2_S, <-Z.mul_assoc, Z.mul_comm, Z.mod_mul by lia. done.
Qed.

Lemma open_cword_lit r F : Z.shiftr (open_cword (S r) F) 1 = open_cword r F.
Proof. rewrite shiftr_1. unfold open_cword. rewrite pow2_S, <-Z.mul_assoc, Z.mul_comm, Z.div_mul by lia. done. Qed.

Lemma pow2_split r k : (r <= k)%nat → 2 ^ Z.of_nat r * 2 ^ Z.of_nat (k - r) = 2 ^ Z.of_nat k.
Proof. intros H. rewrite <-Z.pow_add_r by lia. f_equal. lia. Qed.

Lemma open_cword_match r F : (r <= 30)%nat → 0 <= F < 2 ^ Z.of_nat (30 - r) →
  Z.lor (Z.shiftr (open_cword (S r) F) 1) (2 ^ 31) = open_cword r (F + 2 ^ Z.of_nat (30 - r)).
Proof.
  intros Hr HF. rewrite open_cword_lit. change (2 ^ 31) with (Z.shiftl 1 31).
  pose proof (pow2_split r 30 Hr) as E. change (2 ^ Z.of_nat 30) with 1073741824 in E. pose proof (pow2_pos r).
  unfold open_cword. rewrite lor_add; change (2 ^ 31) with 2147483648; nia || lia.
Qed.

(** The control word of a full group, and of the last one. *)
Lemma close_cword F : 0 <= F < 2 ^ 31 → Z.lor (Z.shiftr (open_cword 0 F) 1) (2 ^ 31) = 2 ^ 31 + F.
Proof.
  intros HF. rewrite shiftr_1. unfold open_cword. change (2 ^ Z.of_nat 0) with 1. rewrite Z.mul_1_l.
  replace ((1 + 2 * F) / 2) with F by (clear; Z.to_euclidean_division_equations; lia).
  change (2 ^ 31) with (Z.shiftl 1 31) at 1. rewrite lor_add; lia.
Qed.

Lemma last_shift_spec fuel : ∀ r F, (r < fuel)%nat → last_shift fuel (open_cword r F) = Ret (open_cword 0 F).
Proof.
  induction fuel as [|fuel IH]; intros r F Hr; [lia|]. cbn [last_shift]. rewrite open_cword_low.
  destruct r as [|r]; [done|]. change (0 =? 1) with false. cbn iota. change (S r =? 0)%nat with false. cbn iota.
  rewrite open_cword_lit. apply IH. lia.
Qed.

(** ** The output *)
Section Core.
Context (l : list Z) (destination total : Z).
Context (Hl : bytes l) (Htotal : 31 * (destination + blen l + 8) + 4 * blen l <= 31 * total).

(** The output at position [p] of the text: [A] is behind it, the control word of the current
    group is still open, [r] of its slots are free, and [B] are the items of the group. *)
Record writing (r : nat) (F : Z) (A B : list Z) (p : Z) (e : encoder) : Prop := {
  wt_out : ∃ X G, blen X = 4 ∧ out e = A ++ X ++ B ++ G;
  wt_bytes : bytes (out e);
  wt_len : blen (out e) = total;
  wt_ptr : cword_ptr e = blen A;
  wt_dst : dst e = blen A + 4 + blen B;
  wt_cword : cword_val e = open_cword r F;
  wt_flags : (r <= 31)%nat ∧ 0 <= F < 2 ^ Z.of_nat (31 - r);
  wt_src : src e = p;
  wt_room : 31 * (dst e - destination) <= 31 * p + 124 + 4 * (p - (31 - Z.of_nat r))
}.

(** The layout of the rest of the text in place: [n] is the end of the output. *)
Definition yields (V : list Z) (r : nat) (F : Z) (A B : list Z) (p : Z) (b : buffer) (n : Z) : Prop :=
  ∃ its G, valid l V p its ∧ n = blen A + 4 + blen B + blen (encode l r p its).2
    ∧ b = A ++ le32 (2 ^ 31 + F + 2 ^ Z.of_nat (31 - r) * (encode l r p its).1) ++ B ++ (encode l r p its).2 ++ G.

(** An item whose flag is put into the control word and whose body is put behind the others. *)
Lemma yields_item V r F A B p b n it :
  (r <= 30)%nat → (∀ its, valid l (p :: V) (p + span it) its → valid l V p (it :: its)) →
  yields (p :: V) r (F + 2 ^ Z.of_nat (30 - r) * flag it) A (B ++ body l p it) (p + span it) b n → yields V (S r) F A B p b n.
Proof.
  intros Hr Hit (its & G & Hv & Hn & Hb). exists (it :: its), G. rewrite encode_item. cbn [fst snd].
  split_and!; [by apply Hit|rewrite Hn, !blen_app; lia|]. rewrite Hb, <-!app_assoc. set (f := (encode _ _ _ _).1).
  replace (31 - r)%nat with (S (30 - r)) by lia. change (31 - S r)%nat with (30 - r)%nat. rewrite pow2_S.
  by replace (2 ^ 31 + (F + 2 ^ Z.of_nat (30 - r) * flag it) + 2 * 2 ^ Z.of_nat (30 - r) * f)
    with (2 ^ 31 + F + 2 ^ Z.of_nat (30 - r) * (flag it + 2 * f)) by lia.
Qed.

(** A new group. *)
Lemma yields_group V F A B p b n : p < blen l →
  yields V 31 0 (A ++ le32 (2 ^ 31 + F) ++ B) [] p b n → yields V 0 F A B p b n.
Proof.
  intros Hp (its & G & Hv & Hn & Hb). exists its, G. destruct its as [|it its]; [cbn in Hv; lia|].
  rewrite encode_group. cbn [fst snd]. change (31 - 31)%nat with 0%nat in Hb. change (2 ^ Z.of_nat 0) with 1 in Hb.
  split_and!; [done|rewrite Hn, !blen_app, !blen_le32; change (blen []) with 0; lia|]. rewrite Hb, <-!app_assoc. cbn [app].
  set (f := (encode _ _ _ _).1). by replace (2 ^ 31 + F + 2 ^ Z.of_nat (31 - 0) * 0) with (2 ^ 31 + F) by lia;
    replace (2 ^ 31 + 0 + 1 * f) with (2 ^ 31 + f) by lia.
Qed.

Lemma writing_fits r F A B p e X G : writing r F A B p e → p <= blen l → out e = A ++ X ++ B ++ G → blen X = 4 →
  4 <= blen G.
Proof.
  intros [_ _ Hlen _ Hd _ [Hr _] _ Hroom] Hp Ho HX. rewrite Ho, !blen_app in Hlen. lia.
Qed.

(** A new group is begun. *)
Lemma next_cword_spec F A B p e : writing 0 F A B p e → 0 <= p <= blen l →
  ∃ e', next_cword e = Ret e' ∧ writing 31 0 (A ++ le32 (2 ^ 31 + F) ++ B) [] p e'
    ∧ fetch e' = fetch e ∧ lits e' = lits e ∧ state e' = state e.
Proof.
  intros Hw Hp. pose proof Hw as [(X & G & HX & Ho) Hbytes Hlen Hptr Hdst Hcw [Hr HF] Hsrc Hroom].
  pose proof (writing_fits _ _ _ _ _ _ _ _ Hw ltac:(lia) Ho HX) as HG. change (31 - 0)%nat with 31%nat in *.
  unfold next_cword. rewrite Hcw, close_cword by done.
  change (fast_write (2 ^ 31 + F) (out e) (cword_ptr e) CWORD_LEN) with (st32 (out e) (cword_ptr e) (2 ^ 31 + F)).
  rewrite Ho, Hptr, st32_over by done. cbn [mbind outcome_bind]. eexists. split; [reflexivity|]. split; [|done]. split; try done; cbn -[le32 app Nat.sub].
  - exists (take 4 G), (drop 4 G). split.
    + unfold blen in *. rewrite length_take. lia.
    + cbn [app]. by rewrite <-!app_assoc, take_drop.
  - rewrite Ho in Hbytes. apply Forall_app in Hbytes as [H1 [H2 H3]%Forall_app]. apply bytes_app; [done|]. apply bytes_app; [apply bytes_le32|done].
  - rewrite <-Hlen, Ho, !blen_app, blen_le32. lia.
  - rewrite Hdst, !blen_app, blen_le32. lia.
  - rewrite Hdst, !blen_app, blen_le32. change (blen []) with 0. unfold CWORD_LEN. lia.
  - rewrite Hdst. unfold CWORD_LEN. rewrite Hdst in Hroom. lia.
Qed.
(** The output with the body of one more item. *)
Definition written (A B bs : list Z) (b : buffer) : Prop :=
  (∃ X G, blen X = 4 ∧ b = A ++ X ++ (B ++ bs) ++ G) ∧ bytes b ∧ blen b = total.

(** A store behind the output: [Y] is overwritten. *)
Lemma written_over r F A B p e bs : writing r F A B p e → p <= blen l → blen bs <= 4 → bytes bs →
  ∃ P Y G, out e = P ++ Y ++ G ∧ blen P = dst e ∧ blen Y = blen bs ∧ ∀ pad k, bs = k ++ pad → written A B k (P ++ bs ++ G).
Proof.
  intros Hw Hp Hbs Hb. pose proof Hw as [(X & G & HX & Ho) Hbytes Hlen _ Hdst _ _ _ _].
  pose proof (writing_fits _ _ _ _ _ _ _ _ Hw Hp Ho HX) as HG. pose proof (blen_nonneg bs).
  exists (A ++ X ++ B), (take (length bs) G), (drop (length bs) G). rewrite take_drop. split_and!.
  - by rewrite Ho, <-!app_assoc.
  - rewrite !blen_app. lia.
  - unfold blen in *. rewrite length_take. lia.
  - intros pad k ->. split_and!.
    + exists X, (pad ++ drop (length (k ++ pad)) G). split; [done|]. by rewrite <-!app_assoc.
    + rewrite Ho in Hbytes. apply Forall_app in Hbytes as [HA [HX' [HB HG']%Forall_app]%Forall_app].
      apply bytes_app; [repeat apply bytes_app; done|]. apply bytes_app; [done|by apply Forall_drop].
    + rewrite <-Hlen, Ho, !blen_app in *. unfold blen in *. rewrite length_drop, length_app. lia.
Qed.

Lemma write_lit r F A B p e : writing r F A B p e → 0 <= p < blen l →
  ∃ b, wr (out e) (dst e) (l @@ p) = Ret b ∧ written A B (body l p Lit) b.
Proof.
  intros Hw Hp. pose proof (at_bytes l p Hl).
  destruct (written_over _ _ _ _ _ _ [l @@ p] Hw) as (P & Y & G & -> & <- & HY & Hk); [lia|done|by apply Forall_singleton|].
  destruct Y as [|y [|]]; unfold blen in HY; simpl in HY; try lia. cbn [app]. rewrite wr_app, u8_small by done.
  eexists. split; [reflexivity|]. by apply (Hk []).
Qed.

(** The two forms of a match. *)
Lemma write_match r F A B p e h n : writing r F A B p e → p <= blen l → 0 <= h < QLZ_HASH_VALUES → 3 <= n <= 255 →
  ∃ b, (if n <? 18 then fast_write (Z.lor (n - 2) (Z.shiftl h 4)) (out e) (dst e) 2
        else fast_write (Z.lor (Z.shiftl n 16) (Z.shiftl h 4)) (out e) (dst e) 3) = Ret b
    ∧ written A B (body l p (Match h n)) b.
Proof.
  unfold QLZ_HASH_VALUES. intros Hw Hp Hh Hn. cbn [body]. destruct (Z.ltb_spec n 18).
  - destruct (written_over _ _ _ _ _ _ (le16 (n - 2 + 16 * h)) Hw) as (P & Y & G & -> & <- & HY & Hk); [lia|done|apply bytes_le16|].
    rewrite lor_add by lia. change (fast_write ?v ?b ?i 2) with (st16 b i v). rewrite st16_over by done.
    eexists. split; [reflexivity|]. apply (Hk []). by rewrite app_nil_r.
  - assert (E : le32 (16 * h + 65536 * n) = (le16 (16 * h) ++ [n]) ++ [0]).
    { unfold le32, le16, u8. cbn [app]. change (2 ^ 8) with 256. f_equal; [|f_equal; [|f_equal; [|f_equal]]].
      all: Z.to_euclidean_division_equations; lia. }
    destruct (written_over _ _ _ _ _ _ (le32 (16 * h + 65536 * n)) Hw) as (P & Y & G & -> & <- & HY & Hk); [lia|done|apply bytes_le32|].
    rewrite Z.lor_comm, (Z.shiftl_mul_pow2 h 4), (Z.mul_comm h) by lia. change (2 ^ 4) with 16. rewrite lor_add by (change (2 ^ 16) with 65536; lia).
    change (2 ^ 16) with 65536. change (fast_write ?v ?b ?i 3) with (st32 b i v). rewrite st32_over by done.
    eexists. split; [reflexivity|]. by apply (Hk [0]).
Qed.

Lemma writing_item r F A B p e it e2 : writing (S r) F A B p e → blen (body l p it) <= span it →
  written A B (body l p it) (out e2) → cword_ptr e2 = cword_ptr e → dst e2 = dst e + blen (body l p it) →
  cword_val e2 = match it with Lit => Z.shiftr (cword_val e) 1 | _ => Z.lor (Z.shiftr (cword_val e) 1) (2 ^ 31) end →
  src e2 = p + span it →
  writing r (F + 2 ^ Z.of_nat (30 - r) * flag it) A (B ++ body l p it) (p + span it) e2.
Proof.
  intros [_ _ _ Hptr Hdst Hcw [Hr HF] _ Hroom] Hle (Ho & Hb & Hlen) Hptr2 Hdst2 Hcw2 Hsrc2. pose proof (blen_body l p it).
  change (31 - S r)%nat with (30 - r)%nat in HF. split; try done.
  - congruence.
  - rewrite Hdst2, blen_app. lia.
  - rewrite Hcw2, Hcw. destruct it as [|h n]; cbn [flag].
    + rewrite Z.mul_0_r, Z.add_0_r. apply open_cword_lit.
    + rewrite Z.mul_1_r. apply open_cword_match; [lia|done].
  - split; [lia|]. replace (31 - r)%nat with (S (30 - r)) by lia. rewrite pow2_S. pose proof (flag_bound it).
    pose proof (pow2_pos (30 - r)). destruct it; cbn [flag] in *; lia.
  - lia.
Qed.
(** ** The last literals *)
Lemma literal_item_spec r F A B p e : writing (S r) F A B p e → 0 <= p < blen l →
  ∃ e', literal_item l (blen l) e = Ret e' ∧ writing r (F + 2 ^ Z.of_nat (30 - r) * flag Lit) A (B ++ body l p Lit) (p + 1) e'.
Proof.
  intros Hw Hp. pose proof (wt_src _ _ _ _ _ _ Hw) as Hsrc. destruct (write_lit _ _ _ _ _ _ Hw Hp) as (b & Eb & Hb).
  assert (∃ st, literal_item l (blen l) e = Ret (Encoder (p + 1) (cword_ptr e) (dst e + 1) (Z.shiftr (cword_val e) 1) (fetch e) (lits e) b st))
    as (st & ->).
  { unfold literal_item. rewrite Hsrc. unfold last_byte. destruct (Z.leb_spec p (blen l - 1 - 3)).
    1: change (fast_read l p 3) with (ld32 l p); rewrite ld32_at by lia.
    all: cbn [mbind outcome_bind]; rewrite rd_at by lia; cbn [mbind outcome_bind]; rewrite Eb; by eexists. }
  eexists. split; [reflexivity|]. by apply (writing_item r F A B p e Lit).
Qed.

Lemma literal_loop_spec fuel : ∀ V r F A B p e, writing r F A B p e → 0 <= p <= blen l → blen l - p <= Z.of_nat fuel →
  ∃ e' w b, literal_loop l (blen l) fuel e = Ret e' ∧ last_shift 32 (cword_val e') = Ret w
    ∧ fast_write (Z.lor (Z.shiftr w 1) (2 ^ 31)) (out e') (cword_ptr e') CWORD_LEN = Ret b
    ∧ yields V r F A B p b (dst e') ∧ bytes b ∧ blen b = total ∧ 31 * (dst e' - destination) <= 35 * blen l + 124.
Proof.
  induction fuel as [|fuel IH]; intros V r F A B p e Hw Hp Hf; cbn [literal_loop].
  all: rewrite (wt_src _ _ _ _ _ _ Hw); unfold last_byte.
  all: destruct (Z.leb_spec p (blen l - 1)); [try lia|].
  2: assert (∃ r' F' A' B' e2, (if Z.land (cword_val e) 1 =? 1 then next_cword e else Ret e) = Ret e2
      ∧ writing (S r') F' A' B' p e2 ∧ ∀ b n, yields V (S r') F' A' B' p b n → yields V r F A B p b n)
      as (r' & F' & A' & B' & e2 & -> & Hw2 & Hy).
  2: { rewrite (wt_cword _ _ _ _ _ _ Hw), open_cword_low. destruct r as [|r]; cbn [Nat.eqb Z.eqb Pos.eqb].
       - destruct (next_cword_spec _ _ _ _ _ Hw Hp) as (e2 & -> & Hw2 & _). do 5 eexists. split_and!; [done|exact Hw2|].
         intros b n. apply yields_group. lia.
       - do 5 eexists. split_and!; [done|exact Hw|]. done. }
  2: { cbn [mbind outcome_bind]. destruct (literal_item_spec _ _ _ _ _ _ Hw2 ltac:(lia)) as (e3 & -> & Hw3). cbn [mbind outcome_bind].
       destruct (IH (p :: V) _ _ _ _ _ _ Hw3 ltac:(lia) ltac:(lia)) as (e' & w & b & -> & E1 & E2 & Hyy & Hb).
       exists e', w, b. split_and!; try done; try apply Hb. apply Hy. eapply (yields_item V r' F' A' B' p b _ Lit); [|done|exact Hyy].
       destruct (wt_flags _ _ _ _ _ _ Hw2). lia. }
  (* the last control word *)
  all: assert (p = blen l) as -> by lia; pose proof Hw as [(X & G & HX & Ho) Hbytes Hlen Hptr Hdst Hcw [Hr HF] _ Hroom].
  all: exists e, (open_cword 0 F), (A ++ le32 (2 ^ 31 + F) ++ B ++ G).
  all: assert (2 ^ Z.of_nat (31 - r) <= 2 ^ 31) by (apply Z.pow_le_mono_r; lia).
  all: split; [done|split; [rewrite Hcw; apply last_shift_spec; lia|split]].
  1, 3: rewrite close_cword by lia; change (fast_write ?v ?b ?i CWORD_LEN) with (st32 b i v); rewrite Ho, Hptr; by apply st32_over.
  all: rewrite Ho in Hbytes, Hlen; apply Forall_app in Hbytes as [H1 [H2 H3]%Forall_app]; rewrite !blen_app in Hlen.
  all: split_and!; [|apply bytes_app; [done|apply bytes_app; [apply bytes_le32|done]]|rewrite !blen_app, blen_le32; lia|lia].
  all: exists [], G; cbn [encode fst snd]; change (blen []) with 0; rewrite Z.mul_0_r, !Z.add_0_r; by split_and!.
Qed.
End Core.
