(* ===== verification/QuicklzMatch.v ===== *)
(** * How compression finds its matches

    The entries of the compressor's table are the latest positions with their hash,
    with the four bytes that stood there; what [compress_item] makes of an entry is a
    literal or a match the decompressor will find again. *)
From S2P Require Import Prelude Quicklz QuicklzItems QuicklzDecode QuicklzEncode.
#[local] Open Scope Z_scope.
#[local] Open Scope list_scope.

(** ** Comparisons *)
Lemma same_Ret b s n : 0 <= s → s + Z.of_nat n < blen b → ∃ r, same b s n = Ret r.
Proof.
  intros Hs. induction n as [|n IH]; intros Hb; cbn [same]; [by eexists|]. rewrite !rd_at by lia. cbn [mbind outcome_bind].
  destruct (_ =? _); [apply IH; lia|by eexists].
Qed.

Lemma same_true b s n : 0 <= s → s + Z.of_nat n < blen b → same b s n = Ret true →
  ∀ i, 0 <= i <= Z.of_nat n → b @@ (s + i) = b @@ s.
Proof.
  intros Hs. induction n as [|n IH]; intros Hb; cbn [same].
  - intros _ i Hi. by replace (s + i) with s by lia.
  - rewrite !rd_at by lia. cbn [mbind outcome_bind]. destruct (Z.eqb_spec (b @@ (s + Z.of_nat (S n))) (b @@ s)) as [E|]; [|done].
    intros H i Hi. destruct (Z.eq_dec i (Z.of_nat (S n))) as [->|]; [done|]. apply IH; [lia|done|lia].
Qed.

Definition word_at (l : list Z) (i : Z) : Z := l @@ i + 256 * l @@ (i + 1) + 65536 * (l @@ (i + 2) + 256 * l @@ (i + 3)).

Lemma ld32_word l i : 0 <= i → i + 4 <= blen l → ld32 l i = Ret (word_at l i).
Proof. apply ld32_at. Qed.

(** The low 24 bits of the exclusive or. *)
Lemma lxor_low w v : Z.land (Z.lxor w v) (2 ^ 24 - 1) = 0 → w mod 2 ^ 24 = v mod 2 ^ 24.
Proof.
  change (2 ^ 24 - 1) with (Z.ones 24). intros H. rewrite <-!Z.land_ones by lia. apply Z.lxor_eq.
  rewrite <-H. apply Z.bits_inj'. intros i Hi. rewrite Z.lxor_spec, !Z.land_spec, Z.lxor_spec.
  by destruct (Z.testbit w i), (Z.testbit v i), (Z.testbit (Z.ones 24) i).
Qed.

Lemma word_eq3 l o p : bytes l → Z.land (Z.lxor (word_at l p) (word_at l o)) (2 ^ 24 - 1) = 0 →
  ∀ i, 0 <= i < 3 → l @@ (o + i) = l @@ (p + i).
Proof.
  intros Hl H%lxor_low. unfold word_at in H. change (2 ^ 24) with 16777216 in H.
  pose proof (at_bytes l o Hl). pose proof (at_bytes l (o + 1) Hl). pose proof (at_bytes l (o + 2) Hl). pose proof (at_bytes l (o + 3) Hl).
  pose proof (at_bytes l p Hl). pose proof (at_bytes l (p + 1) Hl). pose proof (at_bytes l (p + 2) Hl). pose proof (at_bytes l (p + 3) Hl).
  assert (l @@ o = l @@ p ∧ l @@ (o + 1) = l @@ (p + 1) ∧ l @@ (o + 2) = l @@ (p + 2)) as (E0 & E1 & E2)
    by (Z.to_euclidean_division_equations; lia).
  intros i Hi. assert (i = 0 ∨ i = 1 ∨ i = 2) as [-> |[-> | ->]] by lia; [|done..]. by rewrite !Z.add_0_r.
Qed.

Lemma word_eq4 l o p : bytes l → Z.lxor (word_at l p) (word_at l o) = 0 → ∀ i, 0 <= i < 4 → l @@ (o + i) = l @@ (p + i).
Proof.
  intros Hl H i Hi. pose proof (word_eq3 l o p Hl ltac:(by rewrite H)) as H3. destruct (Z.eq_dec i 3) as [->|]; [|apply H3; lia].
  apply Z.lxor_eq in H. unfold word_at in H. pose proof (H3 0 ltac:(lia)) as E0. rewrite !Z.add_0_r in E0.
  rewrite (H3 1), (H3 2), E0 in H by lia. lia.
Qed.

(** How far two places agree, up to [n] bytes. *)
Definition agrees (l : list Z) (o p n : Z) : Prop := ∀ i, 0 <= i < n → l @@ (o + i) = l @@ (p + i).

Lemma agrees_S l o p n : agrees l o p n → l @@ (o + n) = l @@ (p + n) → agrees l o p (n + 1).
Proof. intros H E i Hi. destruct (Z.eq_dec i n) as [->|]; [done|]. apply H. lia. Qed.

Lemma match_loop_spec l o p remaining : 0 <= o < p → p + remaining < blen l → ∀ fuel n,
  n <= remaining → remaining - n < Z.of_nat fuel → 0 <= n → agrees l o p n →
  ∃ m, match_loop l fuel o p (p + n) remaining = Ret (p + m) ∧ n <= m <= remaining ∧ agrees l o p m.
Proof.
  intros Ho Hp. induction fuel as [|fuel IH]; intros n Hn Hf Hn0 Ha; [lia|]. cbn [match_loop].
  replace (p + n - p) with n by lia. rewrite !rd_at by lia. cbn [mbind outcome_bind].
  destruct (Z.eqb_spec (l @@ (o + n)) (l @@ (p + n))) as [E|]; [|by exists n; split_and!; [|lia|lia|]].
  cbn [andb]. destruct (Z.ltb_spec n remaining); [|by exists n; split_and!; [|lia|lia|]].
  destruct (IH (n + 1)) as (m & Em & Hm & Ham); [lia|lia|lia|by apply agrees_S|]. exists m.
  replace (p + n + 1) with (p + (n + 1)) by lia. rewrite Em. split_and!; [done|lia|lia|done].
Qed.

Lemma match_end_spec l o p : 0 <= o < p → p <= last_matchstart (blen l) → agrees l o p 4 →
  ∃ n, match_end l (blen l) o p = Ret (p + n) ∧ 4 <= n <= 255 ∧ p + n <= blen l - UNCOMPRESSED_END ∧ agrees l o p n.
Proof.
  unfold last_matchstart, last_byte, UNCONDITIONAL_MATCHLEN, UNCOMPRESSED_END, match_end, last_byte. intros Ho Hp H4. cbv zeta.
  replace (p + 4 - p) with 4 by lia. rewrite !rd_at by lia. cbn [mbind outcome_bind].
  destruct (Z.eqb_spec (l @@ (o + 4)) (l @@ (p + 4))) as [E4|]; [|exists 4; split_and!; [done|lia..|done]].
  replace (p + 4 + 1) with (p + 5) by lia. replace (p + 5 - p) with 5 by lia. rewrite ?rd_at by lia. cbn [mbind outcome_bind].
  pose proof (agrees_S _ _ _ _ H4 E4) as H5.
  destruct (Z.eqb_spec (l @@ (o + 5)) (l @@ (p + 5))) as [E5|]; [|exists 5; split_and!; [done|lia..|done]].
  pose proof (agrees_S _ _ _ _ H5 E5) as H6. unfold UNCOMPRESSED_END. cbv zeta.
  set (q := blen l - 1 - 4 - (p + 5 - 5) + 1). set (remaining := if 255 <? q then 255 else q).
  assert (Hq : remaining <= q ∧ 6 <= remaining <= 255) by (unfold remaining, q; destruct (Z.ltb_spec 255 (blen l - 1 - 4 - (p + 5 - 5) + 1)); lia).
  destruct (match_loop_spec l o p remaining Ho ltac:(lia) 256 6) as (n & E & Hn & Hag); [lia|lia|lia|done|].
  exists n. replace (p + 5 + 1) with (p + 6) by lia. rewrite E. split_and!; [done|lia..|done].
Qed.

(** ** The table *)
Definition table_inv (l V : list Z) (p : Z) (st : qlz_state_compress) : Prop :=
  ∀ h o, c_offset st !! h = Some o → o ≠ 0 → latest l V (p - 1) h = Some o ∧ c_cache st !! h = Some (word_at l o).

Lemma table_inv_reset l st : table_inv l [] 0 (reset_table_compress st).
Proof. intros h o. cbn. by rewrite lookup_empty. Qed.

Lemma table_inv_step l V p q st w : table_inv l V p st → looked V p → 0 <= p < q → p < 2 ^ 32 → w = word_at l p →
  hash_func w = hash_at l p →
  table_inv l (p :: V) q (CState (<[hash_func w := w]> (c_cache st)) (<[hash_func w := u32 p]> (c_offset st))).
Proof.
  intros Ht [_ Hall] Hq Hp -> Ew h o. cbn [c_offset c_cache]. rewrite u32_small by lia. unfold latest. cbn [List.find]. bool_lia.
  rewrite Ew. destruct (Z.eqb_spec (hash_at l p) h) as [<-|Hne].
  - rewrite !lookup_insert_eq. intros [= <-] _. done.
  - rewrite !lookup_insert_ne by done. intros Ho Hz. destruct (Ht h o Ho Hz) as [H1 H2]. split; [|done].
    rewrite <-H1. apply (latest_ext l V (q - 1) (p - 1)). intros v Hv. rewrite Forall_forall in Hall. specialize (Hall v Hv). lia.
Qed.

(** An entry found with a higher limit. *)
Lemma latest_lower l V lim lim' h o : latest l V lim h = Some o → o <= lim' <= lim → latest l V lim' h = Some o.
Proof.
  unfold latest. intros H Ho. induction V as [|v V IH]; [done|]. cbn [List.find] in *.
  destruct (Z.leb_spec v lim); cbn [andb] in H.
  - destruct (Z.eqb_spec (hash_at l v) h); [injection H as ->; by bool_lia|]. rewrite andb_false_r. by apply IH.
  - bool_lia. by apply IH.
Qed.

(** The last literals were looked at one by one. *)
Definition run_of (V : list Z) (p lits : Z) : Prop := 0 <= lits ∧ ∀ i, Z.of_nat i < lits → V !! i = Some (p - 1 - Z.of_nat i).

(** The place the decompressor will find for a match that starts two bytes or less behind it. *)
Lemma run_match l V p lits h n : run_of V p lits → 3 <= lits → 3 < p → same l (p - 3) 6 = Ret true → p + 3 < blen l →
  hash_at l p = h → agrees l (p - 1) p n → ∃ q, latest l V (p - 3) h = Some q ∧ agrees l q p n.
Proof.
  intros [_ Hrun] H3 Hp Hsame Hb <- Hag.
  pose proof (Hrun 0%nat ltac:(lia)) as R0. pose proof (Hrun 1%nat ltac:(lia)) as R1. pose proof (Hrun 2%nat ltac:(lia)) as R2. clear Hrun.
  destruct V as [|v0 [|v1 [|v2 V]]]; try discriminate. injection R0 as ->. injection R1 as ->. injection R2 as ->.
  pose proof (same_true l (p - 3) 6 ltac:(lia) ltac:(lia) Hsame) as Hs. set (x := l @@ (p - 3)) in *.
  assert (Hx : ∀ j, p - 3 <= j <= p + 3 → l @@ j = x).
  { intros j Hj. replace j with (p - 3 + (j - (p - 3))) by lia. apply Hs. lia. }
  exists (p - 3). split.
  - unfold latest. cbn [List.find]. replace (p - 1 - Z.of_nat 2) with (p - 3) by lia. bool_lia.
    assert (hash_at l (p - 3) = hash_at l p) as -> by (unfold hash_at; by rewrite !Hx by lia). by rewrite Z.eqb_refl.
  - assert (Hall : ∀ k : nat, Z.of_nat k < n → l @@ (p + Z.of_nat k) = x).
    { induction k as [|k IH]; intros Hk; [apply Hx; lia|]. rewrite <-(Hag (Z.of_nat (S k))) by lia.
      replace (p - 1 + Z.of_nat (S k)) with (p + Z.of_nat k) by lia. apply IH. lia. }
    intros i Hi. rewrite <-(Z2Nat.id i) by lia. rewrite Hall by lia. destruct (Z.lt_ge_cases i 3).
    + apply Hx. lia.
    + replace (p - 3 + Z.of_nat (Z.to_nat i)) with (p + Z.of_nat (Z.to_nat (i - 3))) by lia. apply Hall. lia.
Qed.

Section Item.
Context (l : list Z) (Hl : bytes l) (Hlen : blen l < 2 ^ 32).

Lemma usable_spec V p e : src e = p → 0 <= p <= last_matchstart (blen l) → looked V p → table_inv l V p (state e) →
  fetch e = word_at l p → run_of V p (lits e) →
  let h := hash_func (fetch e) in
  let cached := Z.lxor (fetch e) (default 0 (c_cache (state e) !! h)) in
  let o := default 0 (c_offset (state e) !! h) in
  ∃ use : bool, usable l e cached o = Ret use
    ∧ if use then 0 <= o < p ∧ agrees l o p 3 ∧ (cached = 0 → agrees l o p 4)
        ∧ ∀ n, agrees l o p n → ∃ q, latest l V (p - 3) h = Some q ∧ agrees l q p n
      else True.
Proof.
  intros Hsrc Hp Hlo Ht Hf Hrun h cached o. unfold usable. unfold last_matchstart, last_byte, UNCONDITIONAL_MATCHLEN, UNCOMPRESSED_END in Hp.
  destruct (Z.eqb_spec (Z.land cached (2 ^ 24 - 1)) 0) as [Hc|]; [|by exists false].
  destruct (Z.eqb_spec o 0) as [|Ho]; [by exists false|]. cbn [andb negb].
  assert (c_offset (state e) !! h = Some o) as Eo.
  { unfold o in *. by destruct (c_offset (state e) !! h). }
  destruct (Ht h o Eo Ho) as [Hlat Hcache].
  pose proof (latest_Some _ _ _ _ _ Hlat) as (Hin & Hle & _). pose proof (proj2 Hlo) as Hall. rewrite Forall_forall in Hall.
  specialize (Hall o Hin). simpl in Hall. unfold cached in *. rewrite Hcache in *. cbn [default from_option id] in *. rewrite Hf in Hc |- *.
  assert (Hag : agrees l o p 3) by exact (word_eq3 l o p Hl Hc).
  assert (Hag4 : Z.lxor (word_at l p) (word_at l o) = 0 → agrees l o p 4) by (intros Hz; exact (word_eq4 l o p Hl Hz)).
  rewrite Hsrc. unfold MINOFFSET. destruct (Z.ltb_spec 2 (p - o)).
  { exists true. split; [done|]. split_and!; [lia|lia|done|done|]. intros n Hn. exists o. split; [|done].
    eapply latest_lower; [exact Hlat|lia]. }
  destruct (Z.eqb_spec p (o + 1)) as [->|]; cbn [andb]; [|by exists false].
  destruct (Z.leb_spec 3 (lits e)); cbn [andb]; [|by exists false].
  destruct (Z.ltb_spec 3 (o + 1)); [|by exists false].
  destruct (same_Ret l (o + 1 - 3) 6) as [r Er]; [lia|lia|]. rewrite Er. exists r. split; [done|]. destruct r; [|done].
  split_and!; [lia|lia|done|done|]. intros n Hn. eapply run_match; [done|lia|lia|done|lia| |by replace (o + 1 - 1) with o by lia].
  unfold h. rewrite Hf. symmetry. eapply hash_word; [done| | |]; [| |apply ld32_word]; lia.
Qed.
End Item.
