(* ===== verification/QuicklzCompress.v ===== *)
(** * Compression lays out the text

    [qlz_compress_core] and [qlz_compress] on any buffer with the 400 bytes to spare
    that the library asks for: what stands in front of the result is a block that
    [qlz_decompress] turns back into the text. *)
From S2P Require Import Prelude Quicklz QuicklzItems QuicklzDecode QuicklzEncode QuicklzMatch.
#[local] Open Scope Z_scope.
#[local] Open Scope list_scope.

Section Compress.
Context (l : list Z) (destination total : Z).
Context (Hl : bytes l) (Hlen : blen l < 2 ^ 32) (Htotal : 31 * (destination + blen l + 8) + 4 * blen l <= 31 * total).

Abbreviation writing := (writing destination total).

(** The variables of the first loop. *)
Record compressing (V : list Z) (r : nat) (F : Z) (A B : list Z) (p : Z) (e : encoder) : Prop := {
  cp_writing : writing r F A B p e;
  cp_looked : looked V p;
  cp_pos : 0 <= p <= blen l;
  cp_table : table_inv l V p (state e);
  cp_fetch : p <= last_matchstart (blen l) → fetch e = word_at l p;
  cp_run : run_of V p (lits e)
}.

(** What a round may do at position [p]. *)
Definition item_ok (V : list Z) (p : Z) (it : item) : Prop :=
  1 <= span it ∧ blen (body l p it) <= span it ∧ p + span it <= blen l - UNCOMPRESSED_END
  ∧ ∀ its, valid l (p :: V) (p + span it) its → valid l V p (it :: its).

Lemma match_ok V p h q n : 0 <= h < QLZ_HASH_VALUES → 3 <= n <= 255 → p <= last_matchstart (blen l) →
  p + n <= blen l - UNCOMPRESSED_END → latest l V (p - 3) h = Some q → agrees l q p n → item_ok V p (Match h n).
Proof.
  intros Hh Hn Hp Hpn Hq Hag. split_and!; [cbn; lia| |done|].
  - cbn [body span]. destruct (Z.ltb_spec n 18); rewrite ?blen_app, blen_le16; [lia|]. change (blen [n]) with 1. lia.
  - intros its Hv. cbn [valid]. split; [|done]. split_and!; try lia. by exists q.
Qed.

Lemma compress_match_spec r F A B p e cached o h : writing r F A B p e → p <= last_matchstart (blen l) →
  0 <= h < QLZ_HASH_VALUES → 0 <= o < p → agrees l o p 3 → (cached = 0 → agrees l o p 4) →
  ∃ n b, compress_match l (blen l) e cached o (Z.shiftl h 4) = Ret (p + n, dst e + blen (body l p (Match h n)), b)
    ∧ 3 <= n <= 255 ∧ p + n <= blen l - UNCOMPRESSED_END ∧ agrees l o p n ∧ written total A B (body l p (Match h n)) b.
Proof.
  intros Hw Hpm Hh Ho H3 H4. unfold compress_match. rewrite (wt_src _ _ _ _ _ _ _ _ Hw).
  pose proof Hpm as Hpm'. unfold last_matchstart, last_byte, UNCONDITIONAL_MATCHLEN, UNCOMPRESSED_END in Hpm'.
  destruct (Z.eqb_spec cached 0) as [Ec|]; cbn [negb].
  - destruct (match_end_spec l o p Ho Hpm (H4 Ec)) as (n & -> & Hn & Hpn & Hag). cbn [mbind outcome_bind].
    replace (p + n - p) with n by lia.
    destruct (write_match l destination total Htotal _ _ _ _ _ _ h n Hw ltac:(lia) Hh ltac:(lia)) as (b & E & Hb).
    exists n, b. split; [|split_and!; [lia|lia|done|done|done]]. revert E. cbn [body].
    destruct (n <? 18); intros ->; done.
  - destruct (write_match l destination total Htotal _ _ _ _ _ _ h 3 Hw ltac:(lia) Hh ltac:(lia)) as (b & E & Hb).
    change (3 <? 18) with true in E. cbn iota in E. rewrite E. exists 3, b. split; [done|].
    unfold UNCOMPRESSED_END. split_and!; [lia|lia|lia|done|done].
Qed.

Lemma compress_item_spec V r F A B p e : compressing V (S r) F A B p e → p <= last_matchstart (blen l) →
  ∃ it e', compress_item l (blen l) e = Ret e' ∧ item_ok V p it
    ∧ compressing (p :: V) r (F + 2 ^ Z.of_nat (30 - r) * flag it) A (B ++ body l p it) (p + span it) e'.
Proof.
  intros [Hw Hlo Hp Ht Hf Hrun] Hpm. specialize (Hf Hpm). pose proof (wt_src _ _ _ _ _ _ _ _ Hw) as Hsrc.
  pose proof Hpm as Hpm'. unfold last_matchstart, last_byte, UNCONDITIONAL_MATCHLEN, UNCOMPRESSED_END in Hpm'.
  assert (Eh : hash_func (fetch e) = hash_at l p).
  { rewrite Hf. eapply hash_word; [done| | |apply ld32_word]; lia. }
  destruct (usable_spec l Hl V p e Hsrc ltac:(lia) Hlo Ht Hf Hrun) as (use & Euse & Huse).
  assert (Htab : ∀ q, p < q → table_inv l (p :: V) q (CState (<[hash_func (fetch e) := fetch e]> (c_cache (state e)))
      (<[hash_func (fetch e) := u32 p]> (c_offset (state e))))).
  { intros q Hq. apply (table_inv_step l V p); try done; lia. }
  assert (Hfast : ∀ q, 0 <= q → q + 4 <= blen l → fast_read l q 3 = Ret (word_at l q)) by apply ld32_word.
  unfold compress_item. rewrite Euse. cbn [mbind outcome_bind]. rewrite Hsrc. destruct use.
  - destruct Huse as (Ho & H3 & H4 & Hq).
    set (cached := Z.lxor _ _) in *. set (o := default 0 (c_offset _ !! _)) in *. set (h := hash_func (fetch e)) in *.
    assert (Hh : 0 <= h < QLZ_HASH_VALUES) by apply hash_func_range.
    destruct (compress_match_spec _ _ _ _ _ _ cached o h Hw Hpm Hh Ho H3 H4) as (n & b & -> & Hn & Hpn & Hag & Hwr).
    cbn [mbind outcome_bind]. unfold UNCOMPRESSED_END in Hpn. rewrite Hfast by lia. cbn [mbind outcome_bind].
    destruct (Hq n Hag) as (q & Elat & Hqag). eexists (Match h n), _. split; [reflexivity|].
    assert (Hok : item_ok V p (Match h n)) by (eapply match_ok; try done; unfold UNCOMPRESSED_END; lia).
    split; [done|]. destruct Hok as (_ & Hbody & _). cbn [span]. split.
    + by apply (writing_item l destination total r F A B p e (Match h n)).
    + apply looked_cons; [done|lia].
    + lia.
    + apply Htab. lia.
    + done.
    + split; [done|]. cbn. lia.
  - rewrite rd_at by lia. cbn [mbind outcome_bind].
    destruct (write_lit l destination total Hl Htotal _ _ _ _ _ _ Hw ltac:(lia)) as (b & -> & Hwr). cbn [mbind outcome_bind].
    rewrite Hfast by lia. cbn [mbind outcome_bind]. eexists Lit, _. split; [reflexivity|]. split.
    { unfold item_ok, UNCOMPRESSED_END. cbn [span]. split_and!; [lia|done|lia|]. intros its Hv. by cbn [valid]. }
    cbn [span]. split.
    + by apply (writing_item l destination total r F A B p e Lit).
    + apply looked_cons; [done|lia].
    + lia.
    + apply Htab. lia.
    + done.
    + destruct Hrun as [H0 Hrun]. split; [cbn; lia|]. cbn [lits]. intros [|i] Hi; [cbn; f_equal; lia|].
      cbn [lookup list_lookup]. rewrite Hrun by lia. f_equal. lia.
Qed.
(** The rest of the output follows from what the loops do next. *)
Lemma compress_loop_spec fuel : ∀ V r F A B p e, compressing V r F A B p e → blen l - p <= Z.of_nat fuel →
  ∃ res b, compress_loop l destination (blen l) fuel e = Ret (res, b)
    ∧ match res with
      | None => bytes b ∧ blen b = total ∧ 3 <= blen l
      | Some e' => ∃ V' r' F' A' B' p', writing r' F' A' B' p' e' ∧ 0 <= p' <= blen l
          ∧ ∀ b n, yields l V' r' F' A' B' p' b n → yields l V r F A B p b n
      end.
Proof.
  induction fuel as [|fuel IH]; intros V r F A B p e Hc Hf; cbn [compress_loop].
  all: pose proof Hc as [Hw Hlo Hp Ht Hfe Hrun]; rewrite (wt_src _ _ _ _ _ _ _ _ Hw).
  all: destruct (Z.leb_spec p (last_matchstart (blen l))) as [Hpm|];
    [|by exists (Some e), (out e); split; [|exists V, r, F, A, B, p; split_and!; [|lia|lia|]]].
  all: pose proof Hpm as Hpm'; unfold last_matchstart, last_byte, UNCONDITIONAL_MATCHLEN, UNCOMPRESSED_END in Hpm'.
  1: lia.
  (* one round of an open group *)
  assert (Hround : ∀ r F A B e, compressing V (S r) F A B p e → ∃ res b,
    (e ← compress_item l (blen l) e; compress_loop l destination (blen l) fuel e) = Ret (res, b)
    ∧ match res with
      | None => bytes b ∧ blen b = total ∧ 3 <= blen l
      | Some e' => ∃ V' r' F' A' B' p', writing r' F' A' B' p' e' ∧ 0 <= p' <= blen l
          ∧ ∀ b n, yields l V' r' F' A' B' p' b n → yields l V (S r) F A B p b n
      end).
  { clear - IH Hpm Hf Hl Hlen Htotal. intros r F A B e Hc.
    destruct (compress_item_spec V r F A B p e Hc Hpm) as (it & e' & -> & (Hspan & _ & _ & Hok) & Hc'). cbn [mbind outcome_bind].
    destruct (IH _ _ _ _ _ _ _ Hc' ltac:(lia)) as (res & b & E & Hres). exists res, b. split; [done|]. destruct res as [e2|]; [|done].
    destruct Hres as (V' & r' & F' & A' & B' & p' & Hw' & Hp' & Hy). exists V', r', F', A', B', p'. split_and!; [done|lia|lia|].
    intros b' n' Hb'. eapply yields_item; [|exact Hok|by apply Hy].
    destruct Hc as [Hw _ _ _ _ _]. destruct (wt_flags _ _ _ _ _ _ _ _ Hw). lia. }
  rewrite (wt_cword _ _ _ _ _ _ _ _ Hw), open_cword_low. destruct r as [|r]; cbn [Nat.eqb Z.eqb Pos.eqb]; [|by apply Hround].
  destruct (too_low _ _ _).
  { exists None, (out e). split; [done|]. split_and!; [apply Hw|apply Hw|lia]. }
  destruct (next_cword_spec l destination total Htotal F A B p e Hw Hp) as (e' & -> & Hw' & Efe & Eli & Est). cbn [mbind outcome_bind].
  rewrite (wt_src _ _ _ _ _ _ _ _ Hw'). change (fast_read l p 3) with (ld32 l p). rewrite ld32_word by lia. cbn [mbind outcome_bind].
  edestruct (Hround 30%nat) as (res & b & -> & Hres); [split; [..|done|]|].
  - destruct Hw' as [? ? ? ? ? ? ? Hs ?]. split; try done; cbn. 
  - done.
  - done.
  - by rewrite Est.
  - by rewrite Eli.
  - exists res, b. split; [done|]. destruct res as [e2|]; [|done].
    destruct Hres as (V' & r' & F' & A' & B' & p' & Hw2 & Hp' & Hy). exists V', r', F', A', B', p'. split_and!; [done|lia|lia|].
    intros b' n' Hb'. apply yields_group; [lia|]. by apply Hy.
Qed.
(** The first and the second loop on a fresh output behind [A]. *)
Lemma qlz_compress_core_spec A R st : 0 < blen l → blen A = destination → bytes (A ++ R) → blen (A ++ R) = total →
  ∃ b n, qlz_compress_core l destination (blen l) (A ++ R) (reset_table_compress st) = Ret (b, n) ∧ bytes b ∧ blen b = total
    ∧ (n = 0 ∧ 3 <= blen l
       ∨ ∃ its G, valid l [] 0 its ∧ b = A ++ (encode l 0 0 its).2 ++ G ∧ n = Z.max 9 (blen (encode l 0 0 its).2)
           ∧ 31 * n <= 35 * blen l + 248).
Proof.
  intros Hpos HA Hb Htot. pose proof (blen_nonneg A). unfold qlz_compress_core.
  assert (∃ f, (if 0 <=? last_matchstart (blen l) then fast_read l 0 3 else Ret 0) = Ret f
      ∧ (0 <= last_matchstart (blen l) → f = word_at l 0)) as (f & -> & Hf).
  { destruct (Z.leb_spec 0 (last_matchstart (blen l))) as [Hm|]; [|exists 0; split; [done|lia]].
    exists (word_at l 0). split; [|done]. apply ld32_word; [done|].
    unfold last_matchstart, last_byte, UNCONDITIONAL_MATCHLEN, UNCOMPRESSED_END in Hm. lia. }
  cbn [mbind outcome_bind]. rewrite blen_app in Htot.
  set (e0 := Encoder 0 destination (destination + CWORD_LEN) (2 ^ 31) f 0 (A ++ R) (reset_table_compress st)).
  assert (Hc : compressing [] 31 0 A [] 0 e0).
  { split; [split; try done; cbn|..].
    - exists (take 4 R), (drop 4 R). cbn [app]. rewrite take_drop. split; [|done]. unfold blen in *. rewrite length_take. lia.
    - by rewrite blen_app.
    - change (blen []) with 0. unfold CWORD_LEN. lia.
    - unfold CWORD_LEN. lia.
    - apply looked_nil.
    - lia.
    - apply table_inv_reset.
    - done.
    - split; [done|]. cbn. lia. }
  destruct (compress_loop_spec (Z.to_nat (blen l)) _ _ _ _ _ _ _ Hc ltac:(lia)) as (res & b & -> & Hres). cbn [mbind outcome_bind].
  destruct res as [e|]; [|destruct Hres as (? & ? & ?); exists b, 0; split; [done|]; split_and!; [done|done|by left]].
  destruct Hres as (V & r & F & A' & B & p & Hw & Hp & Hy).
  destruct (literal_loop_spec l destination total Hl Htotal (Z.to_nat (blen l)) V r F A' B p e Hw Hp ltac:(lia))
    as (e' & w & b' & -> & E1 & E2 & Hyy & Hb' & Hlen' & Hroom). cbn [mbind outcome_bind]. rewrite E1. cbn [mbind outcome_bind].
  rewrite E2. cbn [mbind outcome_bind]. eexists b', _. split; [reflexivity|]. split_and!; [done|done|right].
  apply Hy in Hyy as (its & G & Hv & Hn & Hbb). change (31 - 31)%nat with 0%nat in Hbb. change (2 ^ Z.of_nat 0) with 1 in Hbb.
  destruct its as [|it its]; [cbn in Hv; lia|]. exists (it :: its), G. rewrite encode_group. cbn [snd]. rewrite blen_app, blen_le32.
  set (fb := encode l 31 0 (it :: its)) in *. change (blen []) with 0 in Hn. split_and!; [done| | |].
  - rewrite Hbb. cbn [app]. rewrite <-(app_assoc (le32 _)). by replace (2 ^ 31 + 0 + 1 * fb.1) with (2 ^ 31 + fb.1) by lia.
  - destruct (Z.ltb_spec (dst e' - destination) 9); lia.
  - destruct (Z.ltb_spec (dst e' - destination) 9); lia.
Qed.
End Compress.

(** ** Blocks *)

Lemma wr_0 a R v : wr (a :: R) 0 v = Ret (u8 v :: R).
Proof. by apply (wr_app []). Qed.
Lemma wr_1 a b R v : wr (a :: b :: R) 1 v = Ret (a :: u8 v :: R).
Proof. by apply (wr_app [a]). Qed.
Lemma wr_2 a b c R v : wr (a :: b :: c :: R) 2 v = Ret (a :: b :: u8 v :: R).
Proof. by apply (wr_app [a; b]). Qed.
Lemma rd_0 a R : rd (a :: R) 0 = Ret a.
Proof. by apply (rd_app []). Qed.

Lemma write_header_spec A R size r c : blen A = header_length size → c = 0 ∨ c = 1 → 0 <= size < 2 ^ 32 → 0 <= r < 2 ^ 32 →
  write_header (A ++ R) (header_length size) size r c = Ret (header size r c ++ R).
Proof.
  unfold write_header, header_length, header. intros HA Hc Hs Hr. destruct (Z.ltb_spec size 216) as [Hlt|Hge].
  - destruct A as [|a0 [|a1 [|a2 [|]]]]; unfold blen in HA; simpl in HA; try lia. cbn [Z.eqb Pos.eqb app].
    rewrite wr_0. cbn [mbind outcome_bind]. rewrite wr_1. cbn [mbind outcome_bind]. rewrite wr_2. cbn [mbind outcome_bind].
    rewrite rd_0. cbn [mbind outcome_bind]. rewrite wr_0. by destruct Hc as [-> | ->].
  - destruct A as [|a0 A]; unfold blen in HA; cbn [length] in HA; [lia|]. cbn [Z.eqb Pos.eqb app].
    rewrite wr_0. cbn [mbind outcome_bind]. rewrite !u32_small by lia. set (f := u8 _).
    change (fast_write r ?b 1 4) with (st32 b (blen [f]) r). change (f :: A ++ R) with ([f] ++ A ++ R).
    rewrite <-(take_drop 4 A), <-app_assoc, st32_over by (unfold blen; rewrite length_take; lia). cbn [mbind outcome_bind].
    change (fast_write size ?b 5 4) with (st32 b (blen ([f] ++ le32 r)) size). rewrite (app_assoc [f]), st32_over
      by (unfold blen; rewrite length_drop; lia). cbn [mbind outcome_bind]. rewrite <-!(app_assoc [_]), <-(app_assoc (le32 r)).
    change ([f] ++ ?x) with (f :: x). rewrite rd_0. cbn [mbind outcome_bind]. rewrite wr_0. unfold f. by destruct Hc as [-> | ->].
Qed.

(** The blocks for a text: [k] is the part of the buffer that is left. *)
Definition block (l : list Z) (r : Z) (bs : list Z) : Prop :=
  (bs = header (blen l) r 0 ++ l ∧ 3 <= blen l)
  ∨ ∃ its pad, bs = header (blen l) r 1 ++ (encode l 0 0 its).2 ++ pad ∧ valid l [] 0 its ∧ 9 <= blen ((encode l 0 0 its).2 ++ pad).

Lemma sub_prefix P G n : blen P <= n → sub (P ++ G) 0 n = P ++ take (Z.to_nat n - length P) G.
Proof. intros Hn. unfold sub, blen in *. rewrite drop_0, take_app. f_equal. apply take_ge. lia. Qed.

Lemma header_bytes size r c : 0 <= c <= 1 → bytes (header size r c).
Proof.
  intros Hc. unfold header. destruct (_ <? _).
  - repeat constructor; try lia; apply u8_bound.
  - apply bytes_app; [apply Forall_singleton; lia|]. apply bytes_app; apply bytes_le32.
Qed.

Lemma qlz_compress_spec l b st : bytes l → bytes b → 0 < blen l < 2 ^ 31 →
  31 * (header_length (blen l) + blen l + 8) + 4 * blen l <= 31 * blen b →
  ∃ b' r, qlz_compress l b (blen l) st = Ret (b', r) ∧ bytes b' ∧ blen b' = blen b
    ∧ 0 < r ∧ 31 * r <= 35 * blen l + 31 * header_length (blen l) + 279 ∧ r <= blen b ∧ block l r (sub b' 0 r).
Proof.
  intros Hl Hb Hpos Htot. unfold qlz_compress. set (base := header_length (blen l)) in *.
  assert (Hbase : 3 <= base <= 9) by (unfold base, header_length; destruct (blen l <? 216); lia).
  assert (Hwh : ∀ A R r c, blen A = base → c = 0 ∨ c = 1 → 0 <= r < 2 ^ 32 →
    write_header (A ++ R) base (blen l) r c = Ret (header (blen l) r c ++ R))
    by (intros A R r c HA Hc Hr; apply write_header_spec; [done|done|lia|done]).
  replace ((blen l =? 0) || (2 ^ 32 - 1 - 400 <? blen l)) with false by (by bool_lia).
  change (if blen l <? 216 then 3 else 9) with base.
  assert (HA : blen (take (Z.to_nat base) b) = base) by (unfold blen in *; rewrite length_take; lia).
  destruct (qlz_compress_core_spec l base (blen b) Hl ltac:(lia) Htot (take (Z.to_nat base) b) (drop (Z.to_nat base) b) st)
    as (b1 & n & E & Hb1 & Hlen1 & Hn); [lia|done|by rewrite take_drop|by rewrite take_drop|].
  rewrite take_drop in E. rewrite E. cbn [mbind outcome_bind]. clear E.
  destruct Hn as [[-> Hl3]|(its & G & Hv & -> & -> & Hn)].
  - rewrite Z.add_0_r, Z.eqb_refl. unfold copy_in. rewrite sub_all.
    replace (in_object b1 base (blen l) && in_object l 0 (blen l)) with true by (unfold in_object; by bool_lia).
    cbn [mbind outcome_bind]. unfold put. assert (HA1 : blen (take (Z.to_nat base) b1) = base) by (unfold blen in *; rewrite length_take; lia).
    rewrite Hwh by (first [done|lia|by left]). cbn [mbind outcome_bind].
    eexists _, _. split; [reflexivity|]. set (G := drop _ b1). pose proof (blen_header (blen l) (blen l + base) 0) as HH. fold base in HH.
    split_and!; [| |lia|lia|lia|left; split; [|done]].
    + apply bytes_app; [apply header_bytes; lia|]. apply bytes_app; [done|]. by apply Forall_drop.
    + rewrite !blen_app, HH. unfold G, blen in *. rewrite length_drop. lia.
    + rewrite app_assoc, sub_prefix by (rewrite blen_app; lia). replace (_ - _)%nat with 0%nat; [by rewrite app_nil_r|].
      pose proof (blen_app (header (blen l) (blen l + base) 0) l) as E. unfold blen in *. lia.
  - set (enc := (encode l 0 0 its).2) in *. replace (base + Z.max 9 (blen enc) =? base) with false by (symmetry; apply Z.eqb_neq; lia).
    cbn [mbind outcome_bind]. set (r := base + Z.max 9 (blen enc)) in *.
    rewrite Hwh by (first [done|lia|by right]). cbn [mbind outcome_bind].
    eexists _, _. split; [reflexivity|]. pose proof (blen_header (blen l) r 1) as HH. fold base in HH.
    rewrite !blen_app, HA in Hlen1. apply Forall_app in Hb1 as [_ Hb1]. split_and!; [| |lia|lia|lia|right].
    + apply bytes_app; [apply header_bytes; lia|done].
    + rewrite !blen_app. lia.
    + exists its. eexists. rewrite app_assoc, sub_prefix by (rewrite blen_app; lia). rewrite <-app_assoc. split_and!; [done|done|].
      assert (r = base + Z.max 9 (blen enc)) as Er by done. fold enc. rewrite blen_app. unfold blen in *. rewrite length_take, length_app. lia.
Qed.

(** What was compressed is read back, whatever follows the block. *)
Lemma qlz_decompress_block l r bs rest d st : bytes l → bytes d → bytes bs → bytes rest → 0 < blen l < 2 ^ 32 → 0 <= r < 2 ^ 32 →
  blen l <= blen d → block l r bs →
  ∃ d', qlz_decompress (bs ++ rest) d st = Ret (d', blen l) ∧ blen d' = blen d ∧ sub d' 0 (blen l) = l.
Proof.
  intros Hl Hd Hbs Hrest Hlen Hr Hb [[-> H3]|(its & pad & -> & Hv & H9)].
  - rewrite <-app_assoc. apply qlz_decompress_stored; lia.
  - rewrite <-!app_assoc. apply Forall_app in Hbs as [_ [He Hpad]%Forall_app]. rewrite blen_app in H9. pose proof (blen_nonneg rest).
    apply qlz_decompress_items; try done; [by apply bytes_app|rewrite !blen_app; lia].
Qed.
