(* ===== verification/QuicklzCodec.v ===== *)
(** * QuickLZ as the codec of the daemon

    The two functions of lib/quicklz.c with the buffers of a worker discharge what
    compression.c expects of them ([CodecLaws]); and what the decompressor does with a
    block that was not made by the compressor. *)
From S2P Require Import Prelude Compression Quicklz QuicklzItems QuicklzDecode QuicklzEncode QuicklzMatch QuicklzCompress.
#[local] Open Scope Z_scope.
#[local] Open Scope list_scope.

Lemma quicklz_block l b st : bytes l → bytes b → 0 < blen l <= BUFSIZE → blen l + 400 <= blen b →
  ∃ b' r, Quicklz.qlz_compress l b (blen l) st = Ret (b', r) ∧ bytes b' ∧ blen b' = blen b
    ∧ 0 < r <= blen l + 400 ∧ block l r (sub b' 0 r).
Proof.
  unfold BUFSIZE. intros Hl Hb Hlen Hroom.
  assert (3 <= header_length (blen l) <= 9) by (unfold header_length; destruct (blen l <? 216); lia).
  destruct (qlz_compress_spec l b st) as (b' & r & E & Hb' & Hlen' & Hr & Hr' & _ & Hbl); [done|done|lia|lia|].
  exists b', r. split_and!; try done; lia.
Qed.

(** C4: the compression library loses nothing: for every text of 1 to 2048 bytes,
    compression into a buffer that is 400 bytes longer stays inside it, whatever stood
    in it and in the table, and writes a block from which decompression, into any large
    enough buffer, with any table, and with anything behind the block, returns the text. *)
Theorem quicklz_roundtrip l b st : bytes l → bytes b → 0 < blen l <= BUFSIZE → blen l + 400 <= blen b →
  ∃ b' r, Quicklz.qlz_compress l b (blen l) st = Ret (b', r) ∧ blen b' = blen b ∧ 0 < r <= blen l + 400
    ∧ ∀ rest d st', bytes rest → bytes d → blen l <= blen d →
        ∃ d', Quicklz.qlz_decompress (sub b' 0 r ++ rest) d st' = Ret (d', blen l) ∧ blen d' = blen d ∧ sub d' 0 (blen l) = l.
Proof.
  intros Hl Hb Hlen Hroom. destruct (quicklz_block l b st Hl Hb Hlen Hroom) as (b' & r & E & Hb' & Hlen' & Hr & Hbl).
  exists b', r. split_and!; [done..|lia|lia|]. unfold BUFSIZE in *. intros rest d st' Hrest Hd Hdl.
  apply (qlz_decompress_block l r); try done; try lia. by apply bytes_sub.
Qed.

Lemma quicklz_roundtrip_witness :
  ∃ b' r, Quicklz.qlz_compress [1; 2; 3] (replicate 403 7) 3 (CState {[ 5 := 77 ]} {[ 5 := 1 ]}) = Ret (b', r)
    ∧ blen b' = 403 ∧ 0 < r <= 403
    ∧ ∀ rest d st', bytes rest → bytes d → 3 <= blen d →
        ∃ d', Quicklz.qlz_decompress (sub b' 0 r ++ rest) d st' = Ret (d', 3) ∧ blen d' = blen d ∧ sub d' 0 3 = [1; 2; 3].
Proof.
  apply (quicklz_roundtrip [1; 2; 3] (replicate 403 7)); [by repeat constructor|by apply Forall_replicate|done|done].
Defined.

(** The codec: the worker's [lzbuffer] is the destination of both calls, and the states are
    the zeroed ones. *)
#[export] Instance quicklz_codec : Codec := {|
  Compression.qlz_compress l :=
    '(b, r) ← Quicklz.qlz_compress (map u8 l) (zeros LZBUFSZ) (blen l) (CState ∅ ∅); Ret (sub b 0 r);
  Compression.qlz_decompress b :=
    '(d, n) ← Quicklz.qlz_decompress (map u8 b) (zeros LZBUFSZ) ∅; Ret (sub d 0 n)
|}.

Lemma bytes_map_u8 l : bytes (map u8 l).
Proof. apply Forall_forall. intros x (y & <- & _)%list_elem_of_In%in_map_iff. apply u8_bound. Qed.

Lemma map_u8_bytes l : bytes l → map u8 l = l.
Proof. induction 1 as [|x l Hx _ IH]; [done|]. cbn [map]. by rewrite u8_small, IH. Qed.

Lemma blen_map_u8 l : blen (map u8 l) = blen l.
Proof. unfold blen. by rewrite length_map. Qed.

(** C5: the library keeps the promises that compression.c relies on. *)
Theorem quicklz_implements_codec : CodecLaws quicklz_codec.
Proof.
  assert (Hz : bytes (zeros LZBUFSZ)) by apply zeros_bytes.
  assert (Hzl : blen (zeros LZBUFSZ) = LZBUFSZ) by done.
  assert (Hblock : ∀ l, 0 < blen l <= BUFSIZE → ∃ b r,
    Quicklz.qlz_compress (map u8 l) (zeros LZBUFSZ) (blen l) (CState ∅ ∅) = Ret (b, r) ∧ bytes b
    ∧ blen (sub b 0 r) = r ∧ 0 < r <= blen l + 400 ∧ block (map u8 l) r (sub b 0 r)).
  { intros l Hl. destruct (quicklz_block (map u8 l) (zeros LZBUFSZ) (CState ∅ ∅)) as (b & r & E & Hb & Hbl & Hr & Hbk);
      [apply bytes_map_u8|done|by rewrite blen_map_u8|rewrite blen_map_u8, Hzl; unfold LZBUFSZ; lia|].
    rewrite blen_map_u8 in E, Hr. exists b, r. rewrite Hzl in Hbl. unfold LZBUFSZ in *. split_and!; try done; try lia.
    apply blen_sub. unfold in_object. rewrite Hbl. by bool_lia. }
  split.
  - intros l Hlen. destruct (Hblock l Hlen) as (b & r & E & Hb & Hsub & Hr & _).
    cbn [Compression.qlz_compress quicklz_codec]. rewrite E. eexists. split; [done|]. rewrite Hsub. split; [done|].
    intros _. by apply bytes_sub.
  - intros l lz rest Hl Hlen Elz. destruct (Hblock l Hlen) as (b & r & E & Hb & Hsub & Hr & Hbk).
    cbn [Compression.qlz_compress Compression.qlz_decompress quicklz_codec] in *. rewrite E in Elz. injection Elz as <-.
    rewrite map_app, (map_u8_bytes (sub b 0 r)) by (by apply bytes_sub). rewrite (map_u8_bytes l) in Hbk by done.
    destruct (qlz_decompress_block l r (sub b 0 r) (map u8 rest) (zeros LZBUFSZ) ∅) as (d & -> & _ & Hd);
      try done; unfold LZBUFSZ, BUFSIZE in *; [by apply bytes_sub|apply bytes_map_u8|lia|lia|rewrite Hzl; lia|].
    cbn [mbind outcome_bind]. by rewrite Hd.
Qed.

(** Nothing in a received block is checked: this one begins with a match, and the entry of the
    table that it names was never set. *)
Definition crafted_block : list Z := [69; 14; 20] ++ le32 (2 ^ 31 + 1) ++ [17; 0] ++ replicate 5 0.

(** The decompressor follows a NULL pointer on a 14-byte block that announces 20
    bytes of text, whatever the destination: all reads before that are inside the block, and the
    destination is large enough. *)
Theorem crafted_block_crashes d : Quicklz.qlz_decompress crafted_block d ∅ = Undef ∧ blen crafted_block = 14
  ∧ Quicklz.qlz_size_compressed crafted_block = Ret 14 ∧ Quicklz.qlz_size_decompressed crafted_block = Ret 20.
Proof. split_and!; vm_compute; reflexivity. Qed.

(** The daemon's codec passes this on: nothing between the network and the library looks at the block. *)
Example crafted_block_reaches_codec : Compression.qlz_decompress crafted_block = Undef.
Proof. vm_compute. reflexivity. Qed.
