(* ===== verification/Dll.v ===== *)
(** * Intrusive doubly linked lists

    Sessions, packets, neighbors, counters, commands and WCCP objects are all
    kept on intrusive lists: each object holds its own [next] and [prev]
    pointers and a head holds the first, the last and a count.  This file
    models the store such lists live in and the shape they keep, so that each
    component's own insertion and removal code can be shown to implement a
    list.  [insert_list_item] is the generic insertion of include/list.h. *)
From S2P Require Import Prelude.

Abbreviation loc := positive.

(** An object with its two link fields. *)
Record node (A : Type) := Node { n_next : option loc; n_prev : option loc; n_data : A }.
Arguments Node {A}.
Arguments n_next {A}.
Arguments n_prev {A}.
Arguments n_data {A}.

Abbreviation heap A := (gmap loc (node A)).

(** A list head: [next], [prev] and the [qlen]/[count] field. *)
Record dhead := DHead { h_next : option loc; h_prev : option loc; h_len : Z }.

Definition empty_head : dhead := DHead None None 0.

(** A list never holds more objects than the store: this much fuel is enough. *)
Definition list_fuel {A} (h : heap A) : nat := S (size h).

(** ** Field access through a pointer; NULL and dangling pointers are undefined. *)
Section Access.
Context {A : Type}.

Definition deref (h : heap A) (q : option loc) : outcome (loc * node A) :=
  match q with
  | Some x => match h !! x with Some n => Ret (x, n) | None => Undef end
  | None => Undef
  end.

Definition load (h : heap A) (q : option loc) : outcome (node A) :=
  '(_, n) ← deref h q; Ret n.

Definition store_next (h : heap A) (q v : option loc) : outcome (heap A) :=
  '(x, n) ← deref h q; Ret (<[x := Node v (n_prev n) (n_data n)]> h).

Definition store_prev (h : heap A) (q v : option loc) : outcome (heap A) :=
  '(x, n) ← deref h q; Ret (<[x := Node (n_next n) v (n_data n)]> h).

Definition store_data (h : heap A) (q : option loc) (v : A) : outcome (heap A) :=
  '(x, n) ← deref h q; Ret (<[x := Node (n_next n) (n_prev n) v]> h).

Definition free (h : heap A) (q : option loc) : outcome (heap A) :=
  '(x, _) ← deref h q; Ret (delete x h).

(** [insert_list_item(head, item)] of include/list.h ([item->head] is not kept). *)
Definition insert_list_item (h : heap A) (hd : dhead) (item : option loc)
    : outcome (heap A * dhead) :=
  match item with
  | None => Ret (h, hd)
  | Some _ =>
      match h_next hd with
      | None =>
          h ← store_next h item None;
          h ← store_prev h item None;
          Ret (h, DHead item item (h_len hd + 1))
      | Some _ =>
          h ← store_next h (h_prev hd) item;
          h ← store_prev h item (h_prev hd);
          h ← store_next h item None;
          Ret (h, DHead (h_next hd) item (h_len hd + 1))
      end
  end.

(** Taking the object with links [nd] out of the list of [hd]: the case
    analysis that [clearsession] and [del_neighbor] share. *)
Definition unlink (h : heap A) (hd : dhead) (nd : node A) : outcome (heap A * dhead) :=
  match n_next nd, n_prev nd with
  | None, None => Ret (h, DHead None None (h_len hd))
  | Some _, None =>
      h ← store_prev h (n_next nd) None; Ret (h, DHead (n_next nd) (h_prev hd) (h_len hd))
  | None, Some _ =>
      h ← store_next h (n_prev nd) None; Ret (h, DHead (h_next hd) (n_prev nd) (h_len hd))
  | Some _, Some _ =>
      h ← store_next h (n_prev nd) (n_next nd);
      h ← store_prev h (n_next nd) (n_prev nd);
      Ret (h, hd)
  end.
End Access.

(** ** The shape of a list *)
Definition first (l : list loc) (d : option loc) : option loc :=
  match l with x :: _ => Some x | [] => d end.
Definition final (d : option loc) (l : list loc) : option loc :=
  match last l with Some x => Some x | None => d end.

(** [seg h Q prv l nxt]: the objects [l] are linked one after the other, the
    first has [prv] before it, the last [nxt] after it, and each satisfies [Q]. *)
Fixpoint seg {A} (h : heap A) (Q : A → Prop) (prv : option loc) (l : list loc) (nxt : option loc)
    : Prop :=
  match l with
  | [] => True
  | x :: l' => ∃ d, h !! x = Some (Node (first l' nxt) prv d) ∧ Q d ∧ seg h Q (Some x) l' nxt
  end.

Definition dll {A} (h : heap A) (Q : A → Prop) (hd : dhead) (l : list loc) : Prop :=
  NoDup l ∧ h_next hd = first l None ∧ h_prev hd = final None l ∧ seg h Q None l None.

(** Payload of an object. *)
Definition data_at {A} (h : heap A) (x : loc) : option A := n_data <$> h !! x.

Section Shape.
Context {A : Type} (Q : A → Prop).
Implicit Types (h : heap A) (l : list loc) (x y : loc) (d : A).

Lemma final_app prv l y : final prv (l ++ [y]) = Some y.
Proof. unfold final. by rewrite last_snoc. Qed.

Lemma final_cons prv x l : final prv (x :: l) = final (Some x) l.
Proof. unfold final. rewrite last_cons. by destruct (last l). Qed.

Lemma seg_app h prv l k nxt :
  seg h Q prv (l ++ k) nxt ↔ seg h Q prv l (first k nxt) ∧ seg h Q (final prv l) k nxt.
Proof.
  revert prv. induction l as [|x l IH]; intros prv; simpl; [tauto|].
  rewrite final_cons. setoid_rewrite IH.
  assert (first (l ++ k) nxt = first l (first k nxt)) as -> by (by destruct l).
  naive_solver.
Qed.

Lemma seg_ext h h' prv l nxt :
  (∀ x, x ∈ l → h' !! x = h !! x) → seg h Q prv l nxt → seg h' Q prv l nxt.
Proof.
  revert prv. induction l as [|x l IH]; intros prv Hx; simpl; [done|].
  intros (d & Hl & Hq & Hs). exists d. rewrite Hx by set_solver.
  split_and!; [done|done|]. apply IH; [set_solver|done].
Qed.

Lemma seg_insert h prv l nxt x v : x ∉ l → seg h Q prv l nxt → seg (<[x:=v]> h) Q prv l nxt.
Proof. intros Hx. apply seg_ext. intros y Hy. by rewrite lookup_insert_ne by set_solver. Qed.

Lemma seg_delete h prv l nxt x : x ∉ l → seg h Q prv l nxt → seg (delete x h) Q prv l nxt.
Proof. intros Hx. apply seg_ext. intros y Hy. by rewrite lookup_delete_ne by set_solver. Qed.

Lemma seg_elem h prv l nxt x : seg h Q prv l nxt → x ∈ l → ∃ n, h !! x = Some n ∧ Q (n_data n).
Proof.
  revert prv. induction l as [|y l IH]; intros prv; simpl; [set_solver|].
  intros (d & Hl & Hq & Hs) [->|Hx]%elem_of_cons; [eauto|]. by eapply IH.
Qed.

(** Changing the link that enters or leaves a segment. *)
Lemma seg_set_next h prv l x d nxt nxt' :
  x ∉ l → seg h Q prv (l ++ [x]) nxt → h !! x = Some (Node nxt (final prv l) d) →
  seg (<[x := Node nxt' (final prv l) d]> h) Q prv (l ++ [x]) nxt'.
Proof.
  intros Hx Hs Hl. apply seg_app in Hs as [Hs1 (d' & Hl' & Hq & _)]. simpl in *.
  rewrite Hl in Hl'. injection Hl' as ->.
  apply seg_app. split; simpl; [by apply seg_insert|].
  exists d'. by rewrite lookup_insert_eq.
Qed.

Lemma seg_set_prev h prv prv' x l nxt d :
  x ∉ l → seg h Q prv (x :: l) nxt → h !! x = Some (Node (first l nxt) prv d) →
  seg (<[x := Node (first l nxt) prv' d]> h) Q prv' (x :: l) nxt.
Proof.
  intros Hx (d' & Hl' & Hq & Hs) Hl. rewrite Hl in Hl'. injection Hl' as ->.
  exists d'. rewrite lookup_insert_eq. split_and!; [done|done|]. by apply seg_insert.
Qed.

Lemma seg_set_data h prv l nxt x n d :
  x ∈ l → NoDup l → h !! x = Some n → Q d →
  seg h Q prv l nxt → seg (<[x := Node (n_next n) (n_prev n) d]> h) Q prv l nxt.
Proof.
  revert prv. induction l as [|y l IH]; intros prv Hx Hnd Hl Hq; simpl; [set_solver|].
  apply NoDup_cons in Hnd as [Hy Hnd].
  intros (d' & Hl' & Hq' & Hs). destruct (decide (x = y)) as [->|Hne].
  - rewrite Hl in Hl'. injection Hl' as ->. exists d. rewrite lookup_insert_eq.
    split_and!; [done|done|]. by apply seg_insert.
  - exists d'. rewrite lookup_insert_ne by done. split_and!; [done|done|].
    apply IH; [set_solver|done|done|done|done].
Qed.

Lemma seg_next_loc h prv l nxt x n : seg h Q prv l nxt → NoDup l → x ∈ l → h !! x = Some n →
  ∃ l1 l2, l = l1 ++ x :: l2 ∧ n_next n = first l2 nxt ∧ n_prev n = final prv l1 ∧ Q (n_data n).
Proof.
  intros Hs Hnd Hx Hl. apply list_elem_of_split in Hx as (l1 & l2 & ->).
  apply seg_app in Hs as [_ (d & Hl' & Hq & _)]. rewrite Hl in Hl'. injection Hl' as ->.
  by exists l1, l2.
Qed.

Lemma seg_final_lookup h prv l x nxt :
  seg h Q prv (l ++ [x]) nxt → ∃ d, h !! x = Some (Node nxt (final prv l) d) ∧ Q d.
Proof. intros [_ (d & Hl & Hq & _)]%seg_app. eauto. Qed.
End Shape.

(** ** What the operations do to the payloads and to other lists *)
Definition payload {A} (h : heap A) : gmap loc A := n_data <$> h.

(** [h'] differs from [h] in links only, and only at objects of [l]. *)
Definition relinked {A} (h h' : heap A) (l : list loc) : Prop :=
  payload h' = payload h ∧ ∀ z, z ∉ l → h' !! z = h !! z.

Section Payload.
Context {A : Type}.
Implicit Types (h : heap A) (l : list loc) (x y : loc) (d : A).

Lemma payload_lookup h x : payload h !! x = n_data <$> h !! x.
Proof. apply lookup_fmap. Qed.

Lemma payload_insert h x n : payload (<[x := n]> h) = <[x := n_data n]> (payload h).
Proof. apply fmap_insert. Qed.

Lemma payload_delete h x : payload (delete x h) = delete x (payload h).
Proof. apply fmap_delete. Qed.

Lemma payload_size h : size (payload h) = size h.
Proof. apply map_size_fmap. Qed.

Lemma payload_Some h x d : payload h !! x = Some d ↔ ∃ n, h !! x = Some n ∧ n_data n = d.
Proof. rewrite payload_lookup, fmap_Some. naive_solver. Qed.

Lemma relinked_refl h l : relinked h h l.
Proof. done. Qed.

Lemma relinked_trans h1 h2 h3 l : relinked h1 h2 l → relinked h2 h3 l → relinked h1 h3 l.
Proof. intros [P1 L1] [P2 L2]. split; [congruence|]. intros z Hz. by rewrite L2, L1. Qed.

Lemma relinked_mono h h' l k : (∀ z, z ∈ l → z ∈ k) → relinked h h' l → relinked h h' k.
Proof. intros Hs [P L]. split; [done|]. intros z Hz. apply L. naive_solver. Qed.

Lemma relinked_insert h x n v p l :
  h !! x = Some n → x ∈ l → relinked h (<[x := Node v p (n_data n)]> h) l.
Proof.
  intros Hl Hx. split.
  - rewrite payload_insert. apply insert_id. rewrite payload_lookup. by rewrite Hl.
  - intros z Hz. by rewrite lookup_insert_ne by set_solver.
Qed.

Lemma relinked_size h h' l : relinked h h' l → size h' = size h.
Proof. intros [P _]. by rewrite <-!payload_size, P. Qed.

Lemma relinked_data h h' l x n :
  relinked h h' l → h !! x = Some n → ∃ n', h' !! x = Some n' ∧ n_data n' = n_data n.
Proof.
  intros [P _] Hl. apply payload_Some. rewrite P. apply payload_Some. eauto.
Qed.

End Payload.

Section Ops.
Context {A : Type} (Q : A → Prop).
Implicit Types (h : heap A) (l : list loc) (x y : loc) (d : A).

Lemma seg_relinked h h' l k prv nxt :
  relinked h h' l → (∀ x, x ∈ k → x ∉ l) → seg h Q prv k nxt → seg h' Q prv k nxt.
Proof. intros [_ L] Hd. apply seg_ext. auto. Qed.

Lemma dll_relinked h h' hd l k :
  relinked h h' l → (∀ x, x ∈ k → x ∉ l) → dll h Q hd k → dll h' Q hd k.
Proof.
  intros R Hd (Hn & H1 & H2 & Hs). split_and!; [done..|]. by eapply seg_relinked.
Qed.

Lemma dll_insert_ne h hd l x n : x ∉ l → dll h Q hd l → dll (<[x := n]> h) Q hd l.
Proof. intros Hx (Hn & H1 & H2 & Hs). split_and!; [done..|]. by apply seg_insert. Qed.

Lemma dll_delete_ne h hd l x : x ∉ l → dll h Q hd l → dll (delete x h) Q hd l.
Proof. intros Hx (Hn & H1 & H2 & Hs). split_and!; [done..|]. by apply seg_delete. Qed.

Lemma dll_nil h hd : dll h Q hd [] ↔ h_next hd = None ∧ h_prev hd = None.
Proof. unfold dll, final. simpl. split; [naive_solver|]. intros []. split_and!; [constructor|done..]. Qed.

Lemma dll_next_None h hd l : dll h Q hd l → h_next hd = None ↔ l = [].
Proof. intros (_ & -> & _). by destruct l. Qed.

Lemma dll_elem h hd l x : dll h Q hd l → x ∈ l → ∃ n, h !! x = Some n ∧ Q (n_data n).
Proof. intros (_ & _ & _ & Hs). by eapply seg_elem. Qed.

Lemma dll_length h hd l : dll h Q hd l → (length l <= size h)%nat.
Proof.
  intros Hd. pose proof Hd as (Hn & _).
  assert (size (list_to_set l : gset loc) = length l) as <- by (by apply size_list_to_set).
  rewrite <-(size_dom h). apply subseteq_size. intros x Hx. apply elem_of_list_to_set in Hx.
  apply elem_of_dom. destruct (dll_elem _ _ _ _ Hd Hx) as (n & -> & _). by eexists.
Qed.

(** Linking a fresh object behind the last one. *)
Lemma dll_append h hd l x d len :
  dll h Q hd l → l ≠ [] → x ∉ l → h !! x = Some (Node None None d) → Q d →
  ∃ h1 h2,
    store_prev h (Some x) (h_prev hd) = Ret h1
    ∧ load h1 (Some x) = Ret (Node None (h_prev hd) d)
    ∧ store_next h1 (h_prev hd) (Some x) = Ret h2
    ∧ relinked h h2 (x :: l)
    ∧ dll h2 Q (DHead (h_next hd) (Some x) len) (l ++ [x]).
Proof.
  intros (Hn & H1 & H2 & Hs) Hne Hx Hl Hq.
  destruct (exists_last Hne) as (l' & y & ->).
  rewrite H2, final_app.
  destruct (seg_final_lookup _ _ _ _ _ _ Hs) as (dy & Hy & Hqy).
  assert (x ≠ y) by set_solver.
  assert (y ∉ l') by (apply NoDup_app in Hn; set_solver).
  eexists _, _. split_and!.
  - unfold store_prev, deref. rewrite Hl. simpl. reflexivity.
  - unfold load, deref. simpl. by rewrite lookup_insert_eq.
  - unfold store_next, deref. rewrite lookup_insert_ne by done. rewrite Hy. simpl. reflexivity.
  - eapply relinked_trans.
    + apply (relinked_insert _ x (Node None None d)); [done|set_solver].
    + apply (relinked_insert _ y (Node None (final None l') dy));
        [by rewrite lookup_insert_ne|set_solver].
  - split_and!; simpl.
    + apply NoDup_app. split_and!; [done|set_solver|by apply NoDup_singleton].
    + rewrite H1. by destruct l'.
    + by rewrite final_app.
    + apply seg_app. split.
      * apply seg_set_next with (nxt := None); [done|by apply seg_insert|].
        by rewrite lookup_insert_ne.
      * rewrite final_app. simpl. exists d.
        rewrite lookup_insert_ne, lookup_insert_eq by done. done.
Qed.

(** The same when the link of the last object is written first. *)
Lemma dll_link_last h hd l x d len :
  dll h Q hd l → l ≠ [] → x ∉ l → h !! x = Some (Node None None d) → Q d →
  ∃ h1 h2,
    store_next h (h_prev hd) (Some x) = Ret h1
    ∧ store_prev h1 (Some x) (h_prev hd) = Ret h2
    ∧ h2 !! x = Some (Node None (h_prev hd) d)
    ∧ relinked h h2 (x :: l)
    ∧ dll h2 Q (DHead (h_next hd) (Some x) len) (l ++ [x]).
Proof.
  intros Hd Hne Hx Hl Hq.
  destruct (dll_append h hd l x d len Hd Hne Hx Hl Hq) as (h1 & h2 & E1 & _ & E2 & R & Hd2).
  unfold store_prev, deref in E1. rewrite Hl in E1. simpl in E1. injection E1 as <-.
  destruct (exists_last Hne) as (l' & y & ->). destruct Hd as (_ & _ & H2 & _).
  rewrite H2, final_app in *. assert (x ≠ y) by set_solver.
  unfold store_next, deref in E2 |- *. rewrite lookup_insert_ne in E2 by done.
  destruct (h !! y) as [ny|] eqn:Ey; [|done]. simpl in E2. injection E2 as <-.
  rewrite insert_insert_ne in * by done.
  eexists _, _. split_and!; [done| | |done|done].
  - unfold store_prev, deref. rewrite lookup_insert_ne by done. by rewrite Hl.
  - by rewrite lookup_insert_eq.
Qed.

Lemma dll_single h x d len : h !! x = Some (Node None None d) → Q d →
  dll h Q (DHead (Some x) (Some x) len) [x].
Proof. intros Hl Hq. split_and!; [apply NoDup_singleton|done..|]. exists d. done. Qed.

(** [insert_list_item] appends a fresh object. *)
Lemma insert_list_item_spec h hd l x d :
  dll h Q hd l → x ∉ l → h !! x = Some (Node None None d) → Q d →
  ∃ h' hd', insert_list_item h hd (Some x) = Ret (h', hd') ∧ relinked h h' (x :: l)
    ∧ h_len hd' = h_len hd + 1 ∧ dll h' Q hd' (l ++ [x]).
Proof.
  intros Hd Hx Hl Hq. pose proof Hd as (_ & H1 & _). unfold insert_list_item. rewrite H1.
  destruct l as [|y l]; cbn [first].
  - exists h, (DHead (Some x) (Some x) (h_len hd + 1)). split_and!; [|done|done|by eapply dll_single].
    unfold store_next, store_prev, deref. rewrite Hl. simpl. rewrite lookup_insert_eq. simpl.
    by rewrite insert_insert_eq, insert_id.
  - destruct (dll_link_last h hd (y :: l) x d (h_len hd + 1) Hd) as (h1 & h2 & E1 & E2 & Ex & R & Hd2);
      [done..|].
    rewrite E1. cbn [mbind outcome_bind]. rewrite E2. cbn [mbind outcome_bind].
    unfold store_next, deref. rewrite Ex. cbn [mbind outcome_bind n_prev n_data].
    rewrite insert_id by done. exists h2. eexists. split_and!; [done..|]. cbn [first] in H1. by rewrite <-H1.
Qed.

(** Changing the payload of any object keeps the shape. *)
Lemma dll_set_data h hd l x n d :
  h !! x = Some n → Q d → dll h Q hd l → dll (<[x := Node (n_next n) (n_prev n) d]> h) Q hd l.
Proof.
  intros Hl Hq Hd. destruct (decide (x ∈ l)) as [Hx|Hx]; [|by apply dll_insert_ne].
  destruct Hd as (Hn & H1 & H2 & Hs). split_and!; [done..|]. by apply seg_set_data.
Qed.

(** The objects around [x] are all different. *)
Lemma nodup_around (l1 : list loc) x l2 : NoDup (l1 ++ x :: l2) →
  NoDup (l1 ++ l2) ∧ x ∉ l1 ∧ x ∉ l2 ∧ NoDup l1 ∧ NoDup l2 ∧ (∀ z, z ∈ l1 → z ∉ l2).
Proof.
  intros (N1 & Hd & [Hx N2]%NoDup_cons)%NoDup_app.
  split_and!; [apply NoDup_app; split_and!; set_solver|set_solver..].
Qed.

Lemma store_next_last h k y prv nxt v :
  seg h Q prv (k ++ [y]) nxt → y ∉ k →
  ∃ h', store_next h (Some y) v = Ret h' ∧ relinked h h' [y] ∧ seg h' Q prv (k ++ [y]) v.
Proof.
  intros Hs Hy. destruct (seg_final_lookup _ _ _ _ _ _ Hs) as (dy & Hl & _).
  exists (<[y := Node v (final prv k) dy]> h). split_and!.
  - unfold store_next, deref. by rewrite Hl.
  - apply (relinked_insert h y (Node nxt (final prv k) dy)); [done|set_solver].
  - by apply seg_set_next with (nxt := nxt).
Qed.

Lemma store_prev_first h z k prv nxt v :
  seg h Q prv (z :: k) nxt → z ∉ k →
  ∃ h', store_prev h (Some z) v = Ret h' ∧ relinked h h' [z] ∧ seg h' Q v (z :: k) nxt.
Proof.
  intros Hs Hz. destruct Hs as (dz & Hl & Hq & Hs).
  exists (<[z := Node (first k nxt) v dz]> h). split_and!.
  - unfold store_prev, deref. by rewrite Hl.
  - apply (relinked_insert h z (Node (first k nxt) prv dz)); [done|set_solver].
  - apply seg_set_prev with (prv := prv); [done| |done]. by exists dz.
Qed.
(** The four cases of the code. *)
Lemma unlink_spec h hd l1 x l2 nd :
  dll h Q hd (l1 ++ x :: l2) → h !! x = Some nd →
  ∃ h' hd', unlink h hd nd = Ret (h', hd')
    ∧ relinked h h' (l1 ++ l2) ∧ h_len hd' = h_len hd ∧ dll h' Q hd' (l1 ++ l2).
Proof.
  intros (Hn & H1 & H2 & Hs) Hl.
  apply nodup_around in Hn as (HN & Hx1 & Hx2 & Hn1 & Hn2 & Hd).
  apply seg_app in Hs as [Hs1 (d & Hl' & Hq & Hs2)]. simpl in Hs1, Hs2.
  rewrite Hl in Hl'. injection Hl' as ->. unfold unlink. simpl.
  assert (E1 : l1 = [] ∨ ∃ k y, l1 = k ++ [y]).
  { destruct l1 as [|a l1]; [by left|right].
    destruct (exists_last (l := a :: l1)) as (k & y & ->); [done|eauto]. }
  destruct E1 as [->|(k & y & ->)]; destruct l2 as [|z l2]; simpl in *.
  - eexists _, _. split_and!; [done..|]. by apply dll_nil.
  - apply NoDup_cons in Hn2 as [Hz Hn2].
    destruct (store_prev_first _ _ _ _ _ None Hs2 Hz) as (h' & -> & R & Hs').
    eexists _, _. split_and!; [done|by eapply relinked_mono; [|done]; set_solver|done|].
    split_and!; [done|done|simpl; by rewrite H2, !final_cons|done].
  - rewrite app_nil_r in *.
    assert (Hy : y ∉ k) by (apply NoDup_app in Hn1; set_solver).
    rewrite final_app.
    destruct (store_next_last _ _ _ _ _ None Hs1 Hy) as (h' & -> & R & Hs').
    eexists _, _. split_and!; [done|by eapply relinked_mono; [|done]; set_solver|done|].
    split_and!; [done|rewrite H1; by destruct k|simpl; by rewrite final_app|done].
  - apply NoDup_cons in Hn2 as [Hz Hn2].
    assert (Hy : y ∉ k) by (apply NoDup_app in Hn1; set_solver).
    rewrite final_app.
    destruct (store_next_last _ _ _ _ _ (Some z) Hs1 Hy) as (h1 & E & R1 & Hs1'). simpl.
    rewrite E. simpl.
    assert (Hs2' : seg h1 Q (Some x) (z :: l2) None) by (eapply seg_relinked; [done|set_solver|done]).
    destruct (store_prev_first _ _ _ _ _ (Some y) Hs2' Hz) as (h2 & E2 & R2 & Hs2'').
    rewrite E2. eexists _, _. split_and!; [done| |done|].
    + eapply relinked_trans; [eapply relinked_mono; [|done]|eapply relinked_mono; [|done]]; set_solver.
    + split_and!; [done|rewrite H1; by destruct k| |].
      * rewrite H2. unfold final. rewrite !last_app, !last_cons. by destruct (last l2).
      * apply seg_app. rewrite final_app. split; [|done].
        eapply seg_relinked; [done|set_solver|done].
Qed.
End Ops.
