(* ===== verification/NodeId.v ===== *)
(** * Node identifiers (the id helpers of opennopd/subsystems/ipc.c)

    An OpenNOP id is [OPENNOP_IPC_ID_LENGTH] bytes; [None] is a NULL pointer. *)
From S2P Require Import Prelude.

Definition OPENNOP_IPC_ID_LENGTH : nat := 4.
Definition zero_id : list Z := replicate OPENNOP_IPC_ID_LENGTH 0.

Fixpoint compare_ids (n : nat) (a b : list Z) (i : Z) : bool :=
  match n with
  | O => true
  | S n' => if a @@ i =? b @@ i then compare_ids n' a b (i + 1) else false
  end.

Definition compare_opennopid (first second : option (list Z)) : bool :=
  match first, second with
  | Some a, Some b => compare_ids OPENNOP_IPC_ID_LENGTH a b 0
  | _, _ => false
  end.

Fixpoint nonzero_id (n : nat) (a : list Z) (i : Z) : bool :=
  match n with
  | O => false
  | S n' => if a @@ i =? 0 then nonzero_id n' a (i + 1) else true
  end.

Definition check_opennopid (id : option (list Z)) : bool :=
  match id with
  | Some a => nonzero_id OPENNOP_IPC_ID_LENGTH a 0
  | None => false
  end.

Definition save_opennopid (source : option (list Z)) (destination : list Z) : list Z * Z :=
  match source with
  | Some a => (take OPENNOP_IPC_ID_LENGTH a ++ drop OPENNOP_IPC_ID_LENGTH destination, 0)
  | None => (destination, -1)
  end.

(** [r] is the value of [random()]; the id is its first four bytes. *)
Definition generate_opennopid (r : Z) : list Z :=
  [u8 r; u8 (r / 256); u8 (r / 65536); u8 (r / 16777216)].

(** ** Facts *)
Definition is_id (a : list Z) : Prop := length a = OPENNOP_IPC_ID_LENGTH ∧ bytes a.

Lemma is_id_inv a : is_id a → ∃ w x y z, a = [w; x; y; z].
Proof.
  intros [Hl _]. unfold OPENNOP_IPC_ID_LENGTH in Hl.
  do 4 (destruct a as [|? a]; [done|]). destruct a; [eauto|done].
Qed.

Lemma compare_opennopid_eq a b :
  is_id a → is_id b → compare_opennopid (Some a) (Some b) = bool_decide (a = b).
Proof.
  intros (w & x & y & z & ->)%is_id_inv (w' & x' & y' & z' & ->)%is_id_inv.
  unfold compare_opennopid, OPENNOP_IPC_ID_LENGTH, compare_ids, at_. simpl.
  repeat match goal with |- context [?x =? ?y] => destruct (Z.eqb_spec x y) end.
  all: symmetry; first [apply bool_decide_eq_true | apply bool_decide_eq_false]; congruence.
Qed.

Lemma check_opennopid_zero a :
  is_id a → check_opennopid (Some a) = bool_decide (a ≠ zero_id).
Proof.
  intros (w & x & y & z & ->)%is_id_inv.
  unfold check_opennopid, OPENNOP_IPC_ID_LENGTH, nonzero_id, at_, zero_id. simpl.
  repeat match goal with |- context [?x =? ?y] => destruct (Z.eqb_spec x y) end.
  all: symmetry; first [apply bool_decide_eq_true | apply bool_decide_eq_false]; congruence.
Qed.

Lemma save_opennopid_id a b : is_id a → is_id b → save_opennopid (Some a) b = (a, 0).
Proof.
  intros (w & x & y & z & ->)%is_id_inv (w' & x' & y' & z' & ->)%is_id_inv. done.
Qed.

Lemma generate_opennopid_is_id r : is_id (generate_opennopid r).
Proof.
  split; [done|]. unfold bytes, generate_opennopid.
  repeat constructor; pose proof (u8_bound r); pose proof (u8_bound (r / 256));
    pose proof (u8_bound (r / 65536)); pose proof (u8_bound (r / 16777216)); lia.
Qed.
#[export] Hint Resolve generate_opennopid_is_id : onop.
