(* ===== verification/Tokens.v ===== *)
(** * C strings and the words of a command line

    A C string is a [string] without NUL characters.  [strtok_r] with the
    delimiter string of clicommands.c, [strcmp] as equality, [isdigit], [atoi]
    and [inet_pton] as the libc documents them. *)
From S2P Require Import Prelude.
From stdpp Require Export strings.
From Stdlib Require Export Ascii.

#[local] Open Scope char_scope.
#[local] Open Scope Z_scope.

(** [delimiters] of clicommands.c. *)
Definition is_delimiter (c : ascii) : bool := bool_decide (c = " ").

Fixpoint skip_delimiters (s : string) : string :=
  match s with
  | String c s' => if is_delimiter c then skip_delimiters s' else s
  | EmptyString => EmptyString
  end.

(** The characters up to the next delimiter, and what follows it. *)
Fixpoint split_token (s : string) : string * string :=
  match s with
  | String c s' =>
      if is_delimiter c then (EmptyString, s')
      else let '(t, r) := split_token s' in (String c t, r)
  | EmptyString => (EmptyString, EmptyString)
  end.

(** [strtok_r]: the next token and the rest of the string, [None] for NULL. *)
Definition strtok_r (s : string) : option (string * string) :=
  match skip_delimiters s with
  | EmptyString => None
  | s => Some (split_token s)
  end.

(** All the tokens a loop over [strtok_r] sees. *)
Fixpoint tokens_from (fuel : nat) (s : string) : list string :=
  match fuel with
  | O => []
  | S fuel => match strtok_r s with Some (t, r) => t :: tokens_from fuel r | None => [] end
  end.
Definition tokens (s : string) : list string := tokens_from (S (String.length s)) s.

(** The C string at the start of a buffer: everything before the first NUL. *)
Fixpoint c_string (s : string) : string :=
  match s with
  | String c s' => if bool_decide (c = zero) then EmptyString else String c (c_string s')
  | EmptyString => EmptyString
  end.

(** ** Digits *)
Definition digit (c : ascii) : option Z :=
  let v := Z.of_N (N_of_ascii c) - 48 in
  if (0 <=? v) && (v <=? 9) then Some v else None.

Definition isdigit (c : ascii) : bool := bool_decide (is_Some (digit c)).

Fixpoint isstringdigits (s : string) : bool :=
  match s with
  | String c s' => if isdigit c then isstringdigits s' else false
  | EmptyString => true
  end.

(** The value of the leading digits. *)
Fixpoint digits_value (s : string) (acc : Z) : Z :=
  match s with
  | String c s' => match digit c with Some d => digits_value s' (10 * acc + d) | None => acc end
  | EmptyString => acc
  end.

(** [atoi] of a string of digits; a value that is not an [int] is undefined. *)
Definition atoi (s : string) : outcome Z :=
  let v := digits_value s 0 in if v <? 2 ^ 31 then Ret v else Undef.

(** [inet_pton(AF_INET, ...)]: the four octets of a dotted quad, [None] for a
    result other than 1.  [seen] tells whether the current octet has a digit. *)
Fixpoint pton_loop (s : string) (done : list Z) (cur : Z) (seen : bool) : option (list Z) :=
  match s with
  | EmptyString => if (length done =? 3)%nat && seen then Some (done ++ [cur]) else None
  | String c s' =>
      match digit c with
      | Some d =>
          if seen && (cur =? 0) then None
          else if 255 <? 10 * cur + d then None
          else pton_loop s' done (10 * cur + d) true
      | None =>
          if bool_decide (c = ".") && seen
          then if (length done =? 3)%nat then None else pton_loop s' (done ++ [cur]) 0 false
          else None
      end
  end.

(** The address as the [__u32] the octets overlay. *)
Definition inet_pton (s : string) : option Z :=
  match pton_loop s [] 0 false with
  | Some [a; b; c; d] => Some (a + 256 * b + 65536 * c + 2 ^ 24 * d)
  | _ => None
  end.

(** * Facts *)

(** A word of a command: not empty and without delimiters. *)
Fixpoint no_delimiter (s : string) : bool :=
  match s with String c s' => negb (is_delimiter c) && no_delimiter s' | EmptyString => true end.
Definition is_word (s : string) : bool := negb (bool_decide (s = EmptyString)) && no_delimiter s.

(** Words separated by single spaces. *)
Fixpoint join_words (ws : list string) : string :=
  match ws with
  | [] => EmptyString
  | [w] => w
  | w :: ws => w +:+ String " " (join_words ws)
  end.

Lemma length_append s t : String.length (s +:+ t) = (String.length s + String.length t)%nat.
Proof. induction s as [|c s IH]; [done|]. simpl. f_equal. exact IH. Qed.

Lemma split_word w r : no_delimiter w = true → split_token (w +:+ String " " r) = (w, r).
Proof.
  induction w as [|c w IH]; [done|]. simpl. intros [Hc Hw]%andb_true_iff.
  apply negb_true_iff in Hc. rewrite Hc. change (String.append w (String " " r)) with (w +:+ String " " r).
  by rewrite IH.
Qed.

Lemma split_last w : no_delimiter w = true → split_token w = (w, EmptyString).
Proof.
  induction w as [|c w IH]; [done|]. simpl. intros [Hc Hw]%andb_true_iff.
  apply negb_true_iff in Hc. rewrite Hc. by rewrite IH.
Qed.

Lemma word_cons w : is_word w = true → ∃ c w', w = String c w' ∧ is_delimiter c = false ∧ no_delimiter w = true.
Proof.
  unfold is_word. destruct w as [|c w]; [done|]. intros [_ H]%andb_true_iff. exists c, w.
  pose proof H as [Hc _]%andb_true_iff. by apply negb_true_iff in Hc.
Qed.

Lemma strtok_head c s : is_delimiter c = false → strtok_r (String c s) = Some (split_token (String c s)).
Proof. intros Hc. unfold strtok_r. cbn [skip_delimiters]. by rewrite Hc. Qed.

Lemma strtok_word w r : is_word w = true → strtok_r (w +:+ String " " r) = Some (w, r).
Proof.
  intros (c & w' & -> & Hc & Hw)%word_cons. rewrite <-(split_word _ r Hw). by apply strtok_head.
Qed.

Lemma strtok_last w : is_word w = true → strtok_r w = Some (w, EmptyString).
Proof.
  intros (c & w' & -> & Hc & Hw)%word_cons. rewrite <-(split_last _ Hw). by apply strtok_head.
Qed.

(** Tokens of a line are the words it was written with. *)
Lemma tokens_join_words ws : forallb is_word ws = true → tokens (join_words ws) = ws.
Proof.
  unfold tokens. intros Hw. assert (Hf : (String.length (join_words ws) < S (String.length (join_words ws)))%nat) by lia.
  revert Hf. generalize (S (String.length (join_words ws))) as fuel.
  induction ws as [|w ws IH]; intros fuel Hf.
  { by destruct fuel. }
  simpl in Hw. apply andb_true_iff in Hw as [Hw Hws]. destruct fuel as [|fuel]; [lia|].
  destruct ws as [|w2 ws].
  - simpl join_words. cbn [tokens_from]. rewrite strtok_last by done. by destruct fuel.
  - change (join_words (w :: w2 :: ws)) with (w +:+ String " " (join_words (w2 :: ws))) in *.
    cbn [tokens_from]. rewrite strtok_word by done. f_equal. apply IH; [done|].
    rewrite length_append in Hf. simpl String.length in Hf. simpl. simpl in Hf. lia.
Qed.

(** Every token is a word. *)
Lemma skip_delimiters_head s c s' : skip_delimiters s = String c s' → is_delimiter c = false.
Proof.
  induction s as [|a s IH]; [done|]. simpl. destruct (is_delimiter a) eqn:E; [done|].
  by intros [= <- _].
Qed.

Lemma split_no_delimiter s : no_delimiter (split_token s).1 = true.
Proof.
  induction s as [|c s IH]; [done|]. simpl. destruct (is_delimiter c) eqn:E; [done|].
  destruct (split_token s) as [t r]. simpl in *. by rewrite E.
Qed.

Lemma strtok_is_word s t r : strtok_r s = Some (t, r) → is_word t = true.
Proof.
  unfold strtok_r. destruct (skip_delimiters s) as [|c s'] eqn:E; [done|].
  apply skip_delimiters_head in E. intros H.
  assert (H' : split_token (String c s') = (t, r)) by congruence. clear H.
  pose proof (split_no_delimiter (String c s')) as Hn. rewrite H' in Hn. cbn [fst] in Hn.
  cbn [split_token] in H'. rewrite E in H'. destruct (split_token s') as [t' r'].
  injection H' as <- _. unfold is_word. by rewrite Hn.
Qed.

Lemma tokens_are_words s : forallb is_word (tokens s) = true.
Proof.
  unfold tokens. generalize (S (String.length s)) as fuel. intros fuel. revert s.
  induction fuel as [|fuel IH]; intros s; [done|]. simpl.
  destruct (strtok_r s) as [[t r]|] eqn:E; [|done]. simpl. by rewrite (strtok_is_word _ _ _ E), IH.
Qed.

Lemma inet_pton_bound s v : inet_pton s = Some v → 0 <= v < 2 ^ 32.
Proof.
  unfold inet_pton.
  assert (H : ∀ s done cur seen l, Forall (λ x, 0 <= x < 256) done → 0 <= cur < 256 →
    pton_loop s done cur seen = Some l → Forall (λ x, 0 <= x < 256) l).
  { intros t. induction t as [|c t IH]; intros dn cur seen l Hd Hc; simpl.
    - case_match; [|done]. intros [= <-]. apply Forall_app. split; [done|by constructor].
    - destruct (digit c) as [d|] eqn:E.
      + unfold digit in E. case_match eqn:E2; [|done]. injection E as <-. unbool.
        case_match; [done|]. case_match eqn:E3; [done|]. unbool. apply IH; [done|lia].
      + case_match; [|done]. case_match; [done|]. apply IH; [|lia].
        apply Forall_app. split; [done|by constructor]. }
  destruct (pton_loop s [] 0 false) as [l|] eqn:E; [|done].
  apply H in E; [|constructor|lia].
  destruct l as [|a [|b [|c [|d []]]]]; try done. intros [= <-].
  rewrite !Forall_cons in E. lia.
Qed.

Example inet_pton_ex : inet_pton "10.0.0.1" = Some (10 + 2 ^ 24) ∧ inet_pton "10.0.0" = None
  ∧ inet_pton "10.0.0.256" = None ∧ inet_pton "10.00.0.1" = None.
Proof. by vm_compute. Qed.
