(* ===== verification/Cli.v ===== *)
(** * The command line interface (opennopd/subsystems/clicommands.c, climanager.c)

    Commands form a tree: a mode is the head of a list of commands, and each
    command holds the head of the list of its children.  The heads are
    addressed by [command_head]: one of the static modes, or the child head
    inside a command.  The specification is a table of menus: the ordered
    commands below each sequence of words. *)
From S2P Require Import Prelude Dll Tokens.
From stdpp Require Import pretty.
#[local] Open Scope Z_scope.
#[local] Open Scope list_scope.

(** The static [struct command_head]s of the program. *)
Inductive mode := globalmode | testmode | cli_wccp_mode.
#[export] Instance mode_eq_dec : EqDecision mode.
Proof. solve_decision. Defined.
#[export] Instance mode_countable : Countable mode.
Proof.
  refine (inj_countable' (λ m, match m with globalmode => 0%nat | testmode => 1%nat | cli_wccp_mode => 2%nat end)
    (λ n, match n with 0%nat => globalmode | 1%nat => testmode | _ => cli_wccp_mode end) _).
  by intros [].
Defined.

(** The functions the program registers. *)
Inductive t_commandfunction :=
| cli_quit | cli_mode_test | cli_mode_test_exit | cli_show_params
| cli_show_version | cli_show_compression | cli_show_workers | cli_show_fetcher
| cli_show_sessionss | cli_compression_enable | cli_compression_disable
| cli_show_dead_session_detection | cli_dead_session_detection_enable
| cli_dead_session_detection_disable
| cli_neighbor | cli_no_neighbor | cli_show_neighbors | cli_set_key | cli_show_key
| cli_show_neighbor | cli_debug_ipc
| cli_enter_wccp_mode | cli_wccp_server | cli_wccp_password | cli_exit_wccp_mode.
#[export] Instance t_commandfunction_eq_dec : EqDecision t_commandfunction.
Proof. solve_decision. Defined.

(** [struct command]; the links are those of the list node it lives in. *)
Record command := Command {
  cmd_name : string; command_handler : option t_commandfunction; child : dhead;
  hasparams : bool; hidden : bool
}.

(** A pointer to a [struct command_head]. *)
Inductive command_head := Mode (m : mode) | Child (x : loc).
#[export] Instance command_head_eq_dec : EqDecision command_head.
Proof. solve_decision. Defined.

Record clistate := CliState { modes : mode → dhead; cheap : heap command }.

Definition initial_cli : clistate := CliState (λ _, empty_head) ∅.

Definition prompt (m : mode) : string :=
  match m with
  | globalmode => "opennopd# " | testmode => "" | cli_wccp_mode => "opennopd->wccp# "
  end.

Definition set_cheap (s : clistate) (h : heap command) : clistate := CliState (modes s) h.
Definition set_mode (s : clistate) (m : mode) (hd : dhead) : clistate :=
  CliState (λ m', if decide (m' = m) then hd else modes s m') (cheap s).
Definition set_child (c : command) (hd : dhead) : command :=
  Command (cmd_name c) (command_handler c) hd (hasparams c) (hidden c).

Definition get_head (s : clistate) (r : command_head) : outcome dhead :=
  match r with
  | Mode m => Ret (modes s m)
  | Child x => nd ← load (cheap s) (Some x); Ret (child (n_data nd))
  end.

Definition put_head (s : clistate) (r : command_head) (hd : dhead) : outcome clistate :=
  match r with
  | Mode m => Ret (set_mode s m hd)
  | Child x =>
      nd ← load (cheap s) (Some x);
      h ← store_data (cheap s) (Some x) (set_child (n_data nd) hd);
      Ret (set_cheap s h)
  end.

(** ** Registration *)

Fixpoint find_loop (fuel : nat) (h : heap command) (q : option loc) (command_name : string)
    : outcome (option loc) :=
  match q, fuel with
  | None, _ => Ret None
  | Some _, O => Spin
  | Some x, S fuel =>
      nd ← load h q;
      if bool_decide (cmd_name (n_data nd) = command_name) then Ret (Some x)
      else find_loop fuel h (n_next nd) command_name
  end.

Definition find_command (s : clistate) (r : command_head) (command_name : string)
    : outcome (option loc) :=
  hd ← get_head s r;
  find_loop (list_fuel (cheap s)) (cheap s) (h_next hd) command_name.

(** What [malloc] answers: a location ([None] for NULL) and the bytes found there,
    of which [allocate_command] leaves [hidden] as it is. *)
Record malloc_answer := Malloc { where_ : option loc; garbage_hidden : bool }.

Definition allocate_command (s : clistate) (a : malloc_answer) : option (clistate * loc) :=
  match where_ a with
  | None => None                                    (* exit(1) *)
  | Some x =>
      let c := Command "" None empty_head false (garbage_hidden a) in
      Some (set_cheap s (<[x := Node None None c]> (cheap s)), x)
  end.

Definition set_name (c : command) (token : string) : command :=
  Command token (command_handler c) (child c) (hasparams c) (hidden c).

(** Linking the new command [x] behind the last one of the node. *)
Definition append_command (s : clistate) (r : command_head) (x : loc) : outcome clistate :=
  hd ← get_head s r;
  match h_next hd with
  | None => put_head s r (DHead (Some x) (Some x) (h_len hd))
  | Some _ =>
      h ← store_next (cheap s) (h_prev hd) (Some x);
      h ← store_prev h (Some x) (h_prev hd);
      put_head (set_cheap s h) r (DHead (h_next hd) (Some x) (h_len hd))
  end.

(** One token of [register_command]; [None] when the program has exited. *)
Definition register_token (s : clistate) (r : command_head) (token : string) (a : malloc_answer)
    : outcome (option (clistate * loc)) :=
  currentcommand ← find_command s r token;
  match currentcommand with
  | Some x => Ret (Some (s, x))
  | None =>
      match allocate_command s a with
      | None => Ret None
      | Some (s, x) =>
          nd ← load (cheap s) (Some x);
          h ← store_data (cheap s) (Some x) (set_name (n_data nd) token);
          s ← append_command (set_cheap s h) r x;
          Ret (Some (s, x))
      end
  end.

Fixpoint register_loop (ts : list string) (s : clistate) (r : command_head)
    (cur : option loc) (a : nat → malloc_answer) : outcome (option (clistate * option loc)) :=
  match ts with
  | [] => Ret (Some (s, cur))
  | token :: ts =>
      o ← register_token s r token (a 0%nat);
      match o with
      | None => Ret None
      | Some (s, x) => register_loop ts s (Child x) (Some x) (λ n, a (S n))
      end
  end.

(** [a n] is the answer to the allocation for the [n]-th token, if there is one. *)
Definition register_command (s : clistate) (m : option mode) (command_name : string)
    (handler_function : t_commandfunction) (hasparams hidden : bool) (a : nat → malloc_answer)
    : outcome (option clistate) :=
  o ← register_loop (tokens command_name) s (Mode (default globalmode m)) None a;
  match o with
  | None => Ret None
  | Some (s, None) => Ret (Some s)
  | Some (s, Some x) =>
      nd ← load (cheap s) (Some x);
      h ← store_data (cheap s) (Some x)
            (Command (cmd_name (n_data nd)) (Some handler_function) (child (n_data nd)) hasparams hidden);
      Ret (Some (set_cheap s h))
  end.

(** ** Execution *)

(** [struct commandresult]; [data] points to a WCCP service group. *)
Record commandresult := CommandResult { finished : Z; r_mode : option mode; r_data : option loc }.

Definition newline : string := String (ascii_of_nat 10) EmptyString.

(** The line [cli_help] sends for a command. *)
Definition help_line (count : Z) (name : string) : string :=
  "[" +:+ pretty count +:+ "]: [" +:+ name +:+ "] " +:+ newline.

Fixpoint help_loop (fuel : nat) (h : heap command) (q : option loc) (count : Z) : outcome (list string) :=
  match q, fuel with
  | None, _ => Ret []
  | Some _, O => Spin
  | Some _, S fuel =>
      nd ← load h q;
      if hidden (n_data nd) then help_loop fuel h (n_next nd) count
      else ls ← help_loop fuel h (n_next nd) (count + 1);
           Ret (help_line count (cmd_name (n_data nd)) :: ls)
  end.

Definition cli_help (s : clistate) (r : command_head) : outcome (list string) :=
  hd ← get_head s r; help_loop (list_fuel (cheap s)) (cheap s) (h_next hd) 1.

(** The loop over the rest of the node from the command that was found: the first one
    of that name that has a handler. *)
Fixpoint handler_loop (fuel : nat) (h : heap command) (q : option loc) (token : string)
    : outcome (option (t_commandfunction * bool)) :=
  match q, fuel with
  | None, _ => Ret None
  | Some _, O => Spin
  | Some _, S fuel =>
      nd ← load h q;
      match command_handler (n_data nd) with
      | Some f =>
          if bool_decide (cmd_name (n_data nd) = token) then Ret (Some (f, hasparams (n_data nd)))
          else handler_loop fuel h (n_next nd) token
      | None => handler_loop fuel h (n_next nd) token
      end
  end.

Definition is_help (token : string) : bool := bool_decide (token = "help" ∨ token = "?").

(** [cli_mode_prompt]. *)
Definition cli_mode_prompt (m : option mode) : string :=
  match m with Some m => prompt m | None => "opennopd# " end.

Section Execute.
(** The rest of the daemon: a handler gets its parameters and the data of the mode and
    answers with the new state, its result and the messages it sent to the client. *)
Context {W : Type} (run : t_commandfunction → list string → option loc → W →
                          outcome (W * commandresult * list string)).

Fixpoint execute_loop (ts : list string) (s : clistate) (node : command_head) (data : option loc)
    (result : commandresult) (w : W) : outcome (W * commandresult * list string) :=
  match ts with
  | [] => Ret (w, result, [])
  | token :: ts =>
      if is_help token then (ls ← cli_help s node; Ret (w, result, ls)) else
      currentcommand ← find_command s node token;
      match currentcommand with
      | None => ls ← cli_help s node; Ret (w, result, ls)
      | Some x =>
          nd ← load (cheap s) (Some x);
          match h_next (child (n_data nd)) with
          | Some _ => execute_loop ts s (Child x) data result w
          | None =>
              found ← handler_loop (list_fuel (cheap s)) (cheap s) (Some x) token;
              match found with
              | Some (f, params) => run f (if params : bool then ts else []) data w
              | None => execute_loop ts s node data result w
              end
          end
      end
  end.

Definition execute_commands (s : clistate) (m : option mode) (data : option loc)
    (command_name : string) (w : W) : outcome (W * commandresult * list string) :=
  let currentnode := Mode (default globalmode m) in
  let result := CommandResult 0 m None in
  hd ← get_head s currentnode;
  match h_next hd with
  | None => Ret (w, result, [])
  | Some _ =>
      '(w, result, out) ← execute_loop (tokens command_name) s currentnode data result w;
      Ret (w, result, out ++ (if finished result =? 1 then [] else [cli_mode_prompt (r_mode result)]))
  end.

(** The loop of [client_handler]: [msgs] is what [recv] delivers until it fails or the
    peer closes; the last byte of each message is overwritten with NUL. *)
Definition message_line (m : string) : string := c_string (String.substring 0 (pred (String.length m)) m).

Fixpoint client_loop (msgs : list string) (s : clistate) (m : option mode) (data : option loc) (w : W)
    : outcome (W * list string) :=
  match msgs with
  | [] => Ret (w, [])
  | msg :: msgs =>
      '(w, result, out) ← execute_commands s m data (message_line msg) w;
      if finished result =? 0 then
        '(w, out') ← client_loop msgs s (r_mode result) (r_data result) w;
        Ret (w, out ++ out')
      else Ret (w, out)
  end.

Definition client_handler (s : clistate) (msgs : list string) (w : W) : outcome (W * list string) :=
  '(w, out) ← client_loop msgs s None None w; Ret (w, "opennopd# " :: out).
End Execute.
