(* ===== verification/CliMenus.v ===== *)
(** * The command tree as menus

    What clicommands.c promises: the tree of pointers represents, for every
    mode and every sequence of words, an ordered menu.  Registration adds to the
    menus, execution walks them. *)
From S2P Require Import Prelude Dll Tokens Cli.
From stdpp Require Import pretty.
#[local] Open Scope Z_scope.
#[local] Open Scope list_scope.

(** * The specification *)

Record entry := Entry { e_handler : option t_commandfunction; e_hasparams : bool; e_hidden : bool }.
Abbreviation menu := (list (string * entry)).

(** The menu below each sequence of words of a mode. *)
Definition directory : Type := mode → list string → menu.

Definition no_commands : directory := λ _ _, [].

Fixpoint menu_find (t : string) (mn : menu) : option entry :=
  match mn with
  | [] => None
  | (n, e) :: mn => if bool_decide (n = t) then Some e else menu_find t mn
  end.

Definition dir_update (D : directory) (m : mode) (p : list string) (mn : menu) : directory :=
  λ m' p', if decide ((m', p') = (m, p)) then mn else D m' p'.

(** A word that is not on the menu is added at its end, without handler; [hid] is what
    [malloc] left in its [hidden] field. *)
Definition dir_token (D : directory) (m : mode) (p : list string) (t : string) (hid : bool) : directory :=
  match menu_find t (D m p) with
  | Some _ => D
  | None => dir_update D m p (D m p ++ [(t, Entry None false hid)])
  end.

Definition dir_set (D : directory) (m : mode) (p : list string) (t : string) (e : entry) : directory :=
  dir_update D m p ((λ ne : string * entry, if bool_decide (ne.1 = t) then (t, e) else ne) <$> D m p).

Fixpoint dir_words (D : directory) (m : mode) (p ts : list string) (hids : nat → bool) : directory :=
  match ts with
  | [] => D
  | t :: ts => dir_words (dir_token D m p t (hids 0%nat)) m (p ++ [t]) ts (λ n, hids (S n))
  end.

(** Registering a command of at least one word. *)
Definition dir_register (D : directory) (m : mode) (ts : list string) (f : t_commandfunction)
    (params hid : bool) (hids : nat → bool) : directory :=
  match last ts with
  | None => D
  | Some t => dir_set (dir_words D m [] ts hids) m (removelast ts) t (Entry (Some f) params hid)
  end.

(** What a line makes the interface do. *)
Inductive action := Nothing | Help (mn : menu) | Run (f : t_commandfunction) (params : list string).

Fixpoint dispatch (D : directory) (m : mode) (p ts : list string) : action :=
  match ts with
  | [] => Nothing
  | t :: ts =>
      if is_help t then Help (D m p) else
      match menu_find t (D m p) with
      | None => Help (D m p)
      | Some e =>
          match D m (p ++ [t]) with
          | _ :: _ => dispatch D m (p ++ [t]) ts
          | [] =>
              match e_handler e with
              | Some f => Run f (if e_hasparams e then ts else [])
              | None => dispatch D m p ts
              end
          end
      end
  end.

(** The help of a menu: its visible commands, numbered. *)
Fixpoint help_lines (count : Z) (mn : menu) : list string :=
  match mn with
  | [] => []
  | (n, e) :: mn =>
      if e_hidden e then help_lines count mn else help_line count n :: help_lines (count + 1) mn
  end.

(** * The tree behind it

    [L] labels each command of the store, [B] lists the commands of each head. *)
Definition entry_of (c : command) : entry := Entry (command_handler c) (hasparams c) (hidden c).
Definition label (c : command) : string * entry := (cmd_name c, entry_of c).
Definition labels (h : heap command) : gmap loc (string * entry) := label <$> payload h.

Definition menu_at (L : gmap loc (string * entry)) (l : list loc) : menu := omap (λ x, L !! x) l.
#[local] Arguments menu_at : simpl never.

Fixpoint named (L : gmap loc (string * entry)) (l : list loc) (t : string) : option loc :=
  match l with
  | [] => None
  | x :: l =>
      match L !! x with
      | Some (n, _) => if bool_decide (n = t) then Some x else named L l t
      | None => named L l t
      end
  end.

Fixpoint resolve (L : gmap loc (string * entry)) (B : command_head → list loc) (r : command_head)
    (p : list string) : option command_head :=
  match p with
  | [] => Some r
  | t :: p => match named L (B r) t with Some x => resolve L B (Child x) p | None => None end
  end.

Definition valid (L : gmap loc (string * entry)) (r : command_head) : Prop :=
  match r with Mode _ => True | Child x => is_Some (L !! x) end.

Record tree_ok (L : gmap loc (string * entry)) (B : command_head → list loc) : Prop := TreeOk {
  to_listed r x : x ∈ B r → is_Some (L !! x);
  to_valid r x : x ∈ B r → valid L r;
  to_names r : NoDup (menu_at L (B r)).*1;
  to_owner r1 r2 x : x ∈ B r1 → x ∈ B r2 → r1 = r2
}.

Definition menus (L : gmap loc (string * entry)) (B : command_head → list loc) : directory :=
  λ m p, match resolve L B (Mode m) p with Some r => menu_at L (B r) | None => [] end.

Record cli_inv (s : clistate) (B : command_head → list loc) : Prop := CliInv {
  ci_dll r hd : get_head s r = Ret hd → dll (cheap s) (λ _, True) hd (B r);
  ci_tree : tree_ok (labels (cheap s)) B
}.

(** The interface's state represents a directory. *)
Definition represents (s : clistate) (D : directory) : Prop :=
  ∃ B, cli_inv s B ∧ ∀ m p, D m p = menus (labels (cheap s)) B m p.

(** ** Menus and names *)
Section Tree.
Context (L : gmap loc (string * entry)).
Implicit Types (l : list loc) (x : loc) (t : string).

Lemma menu_at_app l k : menu_at L (l ++ k) = menu_at L l ++ menu_at L k.
Proof. apply omap_app. Qed.

Lemma menu_at_step x l :
  menu_at L (x :: l) = match L !! x with Some ne => ne :: menu_at L l | None => menu_at L l end.
Proof. done. Qed.

Lemma menu_at_cons x l ne : L !! x = Some ne → menu_at L (x :: l) = ne :: menu_at L l.
Proof. intros H. unfold menu_at. simpl. by rewrite H. Qed.

Lemma named_find l t : (∀ x, x ∈ l → is_Some (L !! x)) →
  match named L l t with
  | Some x => x ∈ l ∧ ∃ e, L !! x = Some (t, e) ∧ menu_find t (menu_at L l) = Some e
  | None => menu_find t (menu_at L l) = None
  end.
Proof.
  induction l as [|x l IH]; intros Hl; [done|]. cbn [named].
  destruct (Hl x) as [[n e] Hx]; [set_solver|]. rewrite menu_at_step, Hx. simpl.
  case_bool_decide as E; [subst; split; [set_solver|eauto]|].
  specialize (IH (λ y Hy, Hl y (list_elem_of_further _ _ _ Hy))).
  destruct (named L l t); [|done]. destruct IH as [Hy He]. split; [set_solver|done].
Qed.

Lemma named_Some l t x : named L l t = Some x → x ∈ l ∧ ∃ e, L !! x = Some (t, e).
Proof.
  induction l as [|y l IH]; simpl; [done|]. destruct (L !! y) as [[n e]|] eqn:E.
  - case_bool_decide; [|intros H1%IH; set_solver]. intros [= <-]. subst. split; [set_solver|eauto].
  - intros H1%IH. set_solver.
Qed.

Lemma named_app l k t :
  named L (l ++ k) t = match named L l t with Some x => Some x | None => named L k t end.
Proof. induction l as [|y l IH]; simpl; [done|]. repeat case_match; done. Qed.

Lemma menu_find_None t mn : menu_find t mn = None ↔ t ∉ mn.*1.
Proof.
  induction mn as [|[n e] mn IH]; simpl; [set_solver|].
  case_bool_decide; subst; [split; [done|set_solver]|]. rewrite IH. set_solver.
Qed.

Lemma resolve_snoc B r p t :
  resolve L B r (p ++ [t]) = match resolve L B r p with
                             | Some r' => Child <$> named L (B r') t
                             | None => None
                             end.
Proof.
  revert r. induction p as [|a p IH]; intros r; simpl.
  - by destruct (named L (B r) t).
  - destruct (named L (B r) a); [apply IH|done].
Qed.

(** Different words lead to different heads. *)
Lemma resolve_inj B m p m' p' r : tree_ok L B →
  resolve L B (Mode m) p = Some r → resolve L B (Mode m') p' = Some r → m = m' ∧ p = p'.
Proof.
  intros Ht. revert p' r. induction p as [|t p IH] using rev_ind; intros p' r.
  - simpl. intros [= <-]. destruct p' as [|t' p' _] using rev_ind; [by intros [= <-]|].
    rewrite resolve_snoc. destruct (resolve L B (Mode m') p'); [|done].
    by destruct (named L (B c) t').
  - rewrite resolve_snoc. destruct (resolve L B (Mode m) p) as [r1|] eqn:E1; [|done].
    destruct (named L (B r1) t) as [x|] eqn:N1; [|done]. intros [= <-].
    destruct p' as [|t' p' _] using rev_ind; [done|]. rewrite resolve_snoc.
    destruct (resolve L B (Mode m') p') as [r2|] eqn:E2; [|done].
    destruct (named L (B r2) t') as [y|] eqn:N2; [|done]. intros [= ->].
    apply named_Some in N1 as [I1 [e1 K1]], N2 as [I2 [e2 K2]].
    assert (r1 = r2) as -> by (by eapply to_owner). rewrite K1 in K2. injection K2 as -> _.
    by destruct (IH _ _ eq_refl E2) as [-> ->].
Qed.

Lemma resolve_valid B r p r' : valid L r → resolve L B r p = Some r' → valid L r'.
Proof.
  revert r. induction p as [|t p IH]; intros r Hv; simpl; [by intros [= <-]|].
  destruct (named L (B r) t) as [x|] eqn:N; [|done]. apply IH.
  apply named_Some in N as [_ [e K]]. simpl. by rewrite K.
Qed.
End Tree.

(** ** Adding a command to a head *)
Section Add.
Context (L : gmap loc (string * entry)) (B : command_head → list loc).
Context (r : command_head) (x : loc) (t : string) (e : entry).
Context (Ht : tree_ok L B) (Hv : valid L r) (Hx : L !! x = None) (Hn : named L (B r) t = None).

Definition added_L : gmap loc (string * entry) := <[x := (t, e)]> L.
Definition added_B : command_head → list loc := λ r', if decide (r' = r) then B r ++ [x] else B r'.

Lemma fresh_everywhere r' : x ∉ B r'.
Proof. intros H%(to_listed _ _ Ht). rewrite Hx in H. by destruct H. Qed.

Lemma fresh_childless : B (Child x) = [].
Proof.
  destruct (B (Child x)) as [|y l] eqn:E; [done|].
  assert (Hy : valid L (Child x)) by (eapply (to_valid _ _ Ht (Child x) y); rewrite E; set_solver).
  simpl in Hy. rewrite Hx in Hy. by destruct Hy.
Qed.

Lemma added_fresh_head : added_B (Child x) = [].
Proof.
  unfold added_B. case_decide as E; [|apply fresh_childless].
  subst r. simpl in Hv. rewrite Hx in Hv. by destruct Hv.
Qed.

Lemma named_added l a : x ∉ l → named added_L l a = named L l a.
Proof.
  unfold added_L. induction l as [|y l IH]; intros Hl; simpl; [done|].
  rewrite lookup_insert_ne by set_solver. rewrite IH by set_solver. done.
Qed.

Lemma menu_at_added l : x ∉ l → menu_at added_L l = menu_at L l.
Proof.
  unfold added_L. induction l as [|y l IH]; intros Hl; [done|]. rewrite !menu_at_step.
  rewrite lookup_insert_ne by set_solver. rewrite IH by set_solver. done.
Qed.

Lemma named_added_B z a :
  named added_L (added_B z) a = if decide (z = r ∧ a = t) then Some x else named L (B z) a.
Proof.
  unfold added_B. destruct (decide (z = r)) as [->|Hz].
  - rewrite named_app, named_added by apply fresh_everywhere.
    destruct (named L (B r) a) as [y|] eqn:E.
    + rewrite decide_False; [done|]. intros [_ ->]. by rewrite Hn in E.
    + simpl. unfold added_L. rewrite lookup_insert_eq. case_bool_decide as E2.
      * subst. by rewrite decide_True.
      * rewrite decide_False by naive_solver. done.
  - rewrite named_added by apply fresh_everywhere. rewrite decide_False by naive_solver. done.
Qed.

Lemma menu_at_added_B z :
  menu_at added_L (added_B z)
  = if decide (z = r) then menu_at L (B r) ++ [(t, e)] else menu_at L (B z).
Proof.
  unfold added_B. case_decide; [|by rewrite menu_at_added by apply fresh_everywhere].
  rewrite menu_at_app, menu_at_added by apply fresh_everywhere. f_equal.
  apply (menu_at_cons added_L x []). apply lookup_insert_eq.
Qed.

Lemma resolve_added r0 q a :
  resolve added_L added_B r0 (q ++ [a])
  = if decide (resolve L B r0 q = Some r ∧ a = t) then Some (Child x) else resolve L B r0 (q ++ [a]).
Proof.
  revert a. induction q as [|b q IH] using rev_ind; intros a.
  - rewrite !resolve_snoc. cbn [resolve]. rewrite named_added_B.
    destruct (decide (r0 = r ∧ a = t)) as [[-> ->]|Hd]; [by rewrite decide_True|].
    rewrite decide_False by naive_solver. done.
  - rewrite (resolve_snoc added_L), IH, (resolve_snoc L B r0 (q ++ [b])).
    destruct (decide (resolve L B r0 q = Some r ∧ b = t)) as [[E ->]|Hd].
    + rewrite (resolve_snoc L B r0 q t), E, Hn. simpl.
      by rewrite added_fresh_head.
    + destruct (resolve L B r0 (q ++ [b])) as [z|]; [|by rewrite decide_False by naive_solver].
      rewrite named_added_B. destruct (decide (z = r ∧ a = t)) as [[-> ->]|Hd2].
      * by rewrite decide_True.
      * rewrite decide_False by naive_solver. done.
Qed.

Lemma resolve_added_at r0 q : resolve L B r0 q = Some r →
  resolve added_L added_B r0 (q ++ [t]) = Some (Child x).
Proof. intros E. rewrite resolve_added. by rewrite decide_True. Qed.

(** Nothing that was on the way moves. *)
Lemma resolve_mono r0 q z : resolve L B r0 q = Some z → resolve added_L added_B r0 q = Some z.
Proof.
  destruct q as [|a q _] using rev_ind; [done|]. intros H. rewrite resolve_added.
  rewrite decide_False; [done|]. intros [E ->]. by rewrite resolve_snoc, E, Hn in H.
Qed.

Lemma tree_added : tree_ok added_L added_B.
Proof.
  assert (Hl : ∀ y, is_Some (L !! y) → is_Some (added_L !! y)).
  { intros y Hy. unfold added_L. destruct (decide (x = y)) as [->|]; [rewrite lookup_insert_eq; eauto|].
    by rewrite lookup_insert_ne. }
  assert (Hval : ∀ r', valid L r' → valid added_L r') by (intros []; simpl; auto).
  split.
  - unfold added_B. intros r' y. case_decide; [|intros H1%(to_listed _ _ Ht); auto].
    rewrite elem_of_app, list_elem_of_singleton. intros [H1%(to_listed _ _ Ht)| ->]; [auto|].
    unfold added_L. rewrite lookup_insert_eq. eauto.
  - unfold added_B. intros r' y. case_decide; [subst; auto|]. intros H1%(to_valid _ _ Ht). auto.
  - intros r'. rewrite menu_at_added_B. case_decide; [|apply (to_names _ _ Ht)].
    rewrite fmap_app. apply NoDup_app. split_and!; [apply (to_names _ _ Ht)| |apply NoDup_singleton].
    pose proof (named_find L (B r) t (to_listed _ _ Ht r)) as Ha. rewrite Hn in Ha.
    apply menu_find_None in Ha. set_solver.
  - assert (Hb : ∀ r' y, y ∈ added_B r' → y ∈ B r' ∨ (r' = r ∧ y = x)).
    { unfold added_B. intros r' y. case_decide; [subst; set_solver|auto]. }
    intros r1 r2 y [H1|[E1 Ey1]]%Hb [H2|[E2 Ey2]]%Hb; [by eapply to_owner| | |congruence].
    + rewrite Ey2 in H1. by apply fresh_everywhere in H1.
    + rewrite Ey1 in H2. by apply fresh_everywhere in H2.
Qed.

Lemma menus_added m p : resolve L B (Mode m) p = Some r →
  ∀ m' p', menus added_L added_B m' p'
    = dir_update (menus L B) m p (menus L B m p ++ [(t, e)]) m' p'.
Proof.
  intros E m' p'. unfold dir_update, menus at 1.
  assert (Hbase : ∀ z, resolve L B (Mode m') p' = Some z →
    menu_at added_L (added_B z)
    = if decide ((m', p') = (m, p)) then menus L B m p ++ [(t, e)] else menus L B m' p').
  { intros z Ez. rewrite menu_at_added_B. destruct (decide (z = r)) as [->|Hz].
    - destruct (resolve_inj L B m p m' p' r Ht E Ez) as [-> ->].
      rewrite decide_True by done. unfold menus. by rewrite E.
    - rewrite decide_False by (intros [= -> ->]; congruence). unfold menus. by rewrite Ez. }
  destruct p' as [|a q _] using rev_ind; [by apply Hbase|].
  rewrite resolve_added.
  destruct (decide (resolve L B (Mode m') q = Some r ∧ a = t)) as [[Eq ->]|Hd].
  - rewrite added_fresh_head.
    assert (En : resolve L B (Mode m') (q ++ [t]) = None) by (rewrite resolve_snoc, Eq, Hn; done).
    rewrite decide_False by (intros [= -> <-]; congruence). unfold menus. by rewrite En.
  - destruct (resolve L B (Mode m') (q ++ [a])) as [z|] eqn:Ez; [by apply Hbase|].
    rewrite decide_False by (intros [= -> <-]; congruence). unfold menus. by rewrite Ez.
Qed.
End Add.

(** ** Changing the entry of a command *)
Section SetEntry.
Context (L : gmap loc (string * entry)) (B : command_head → list loc).
Context (x : loc) (t : string) (e0 e : entry).
Context (Ht : tree_ok L B) (Hx : L !! x = Some (t, e0)).

Lemma named_set l a : named (<[x := (t, e)]> L) l a = named L l a.
Proof.
  induction l as [|y l IH]; [done|]. cbn [named]. rewrite IH.
  destruct (decide (x = y)) as [<-|]; [by rewrite lookup_insert_eq, Hx|by rewrite lookup_insert_ne].
Qed.

Lemma resolve_set r p : resolve (<[x := (t, e)]> L) B r p = resolve L B r p.
Proof.
  revert r. induction p as [|a p IH]; intros r; [done|]. cbn [resolve]. rewrite named_set.
  by destruct (named L (B r) a).
Qed.

Definition set_entry (mn : menu) : menu :=
  (λ ne : string * entry, if bool_decide (ne.1 = t) then (t, e) else ne) <$> mn.

Lemma set_entry_notin mn : t ∉ mn.*1 → set_entry mn = mn.
Proof.
  induction mn as [|[n e1] mn IH]; intros H; [done|]. cbn in H |- *.
  rewrite bool_decide_false by set_solver. f_equal. apply IH. set_solver.
Qed.

Lemma menu_at_set_ne l : x ∉ l → menu_at (<[x := (t, e)]> L) l = menu_at L l.
Proof.
  induction l as [|y l IH]; intros Hl; [done|]. rewrite !menu_at_step.
  rewrite lookup_insert_ne by set_solver. by rewrite IH by set_solver.
Qed.

Lemma menu_at_set l : (∀ y, y ∈ l → is_Some (L !! y)) → NoDup (menu_at L l).*1 → x ∈ l →
  menu_at (<[x := (t, e)]> L) l = set_entry (menu_at L l).
Proof.
  induction l as [|y l IH]; intros Hl HN Hin; [set_solver|].
  destruct (Hl y) as [[n e1] Hy]; [set_solver|].
  rewrite (menu_at_cons L y l _ Hy) in HN |- *. simpl in HN. apply NoDup_cons in HN as [Hny HN].
  destruct (decide (x = y)) as [<-|Hne].
  - rewrite Hx in Hy. injection Hy as <- <-.
    rewrite menu_at_step, lookup_insert_eq. cbn. rewrite bool_decide_true by done. f_equal.
    change (menu_at (<[x:=(t, e)]> L) l = set_entry (menu_at L l)). rewrite set_entry_notin by done.
    apply menu_at_set_ne. intros Hxl. apply Hny, list_elem_of_fmap. exists (t, e0). split; [done|].
    unfold menu_at. apply list_elem_of_omap. eauto.
  - assert (Hxl : x ∈ l) by set_solver.
    rewrite menu_at_step, lookup_insert_ne, Hy by done. cbn. rewrite bool_decide_false.
    + f_equal. apply IH; [set_solver|done|done].
    + intros ->. apply Hny, list_elem_of_fmap. exists (t, e0). split; [done|].
      unfold menu_at. apply list_elem_of_omap. eauto.
Qed.

Lemma set_entry_names mn : (set_entry mn).*1 = mn.*1.
Proof.
  induction mn as [|[n e1] mn IH]; [done|]. cbn. case_bool_decide; subst; cbn; f_equal; apply IH.
Qed.

Lemma tree_set : tree_ok (<[x := (t, e)]> L) B.
Proof.
  assert (Hl : ∀ y, is_Some (L !! y) → is_Some (<[x := (t, e)]> L !! y)).
  { intros y Hy. destruct (decide (x = y)) as [->|]; [rewrite lookup_insert_eq; eauto|].
    by rewrite lookup_insert_ne. }
  destruct Ht as [H1 H2 H3 H4]. split; [eauto| |intros r|done].
  - intros r y Hy%H2. destruct r; simpl in *; auto.
  - destruct (decide (x ∈ B r)); [|by rewrite menu_at_set_ne].
    rewrite menu_at_set; [|eauto..]. by rewrite set_entry_names.
Qed.

Lemma menus_set m p r : resolve L B (Mode m) p = Some r → x ∈ B r →
  ∀ m' p', menus (<[x := (t, e)]> L) B m' p' = dir_set (menus L B) m p t e m' p'.
Proof.
  intros E Hin m' p'. unfold dir_set, dir_update, menus at 1. rewrite resolve_set.
  destruct (resolve L B (Mode m') p') as [r'|] eqn:E'.
  - destruct (decide (r' = r)) as [->|Hne].
    + destruct (resolve_inj L B m p m' p' r Ht E E') as [-> ->]. rewrite decide_True by done.
      rewrite menu_at_set; [|by eapply to_listed|by apply to_names|done]. unfold menus. by rewrite E.
    + rewrite decide_False by (intros [= -> ->]; congruence). unfold menus. rewrite E'.
      apply menu_at_set_ne. intros H. apply Hne. by eapply to_owner.
  - rewrite decide_False by (intros [= -> ->]; congruence). unfold menus. by rewrite E'.
Qed.
End SetEntry.

(** * The pointer operations on menus *)

(** ** Labels and heads *)
Lemma labels_insert h x n : labels (<[x := n]> h) = <[x := label (n_data n)]> (labels h).
Proof. unfold labels. by rewrite payload_insert, fmap_insert. Qed.

Lemma labels_lookup h x : labels h !! x = (λ n, label (n_data n)) <$> h !! x.
Proof. unfold labels. rewrite lookup_fmap, payload_lookup. by destruct (h !! x). Qed.

Lemma labels_relinked h h' l : relinked h h' l → labels h' = labels h.
Proof. intros [E _]. unfold labels. by rewrite E. Qed.

Lemma labels_Some h x ne : labels h !! x = Some ne → ∃ n, h !! x = Some n ∧ label (n_data n) = ne.
Proof. rewrite labels_lookup, fmap_Some. naive_solver. Qed.

Lemma get_head_payload s r :
  get_head s r = match r with
                 | Mode m => Ret (modes s m)
                 | Child x => match payload (cheap s) !! x with Some c => Ret (child c) | None => Undef end
                 end.
Proof.
  destruct r as [m|x]; [done|]. unfold get_head, load, deref. rewrite payload_lookup.
  by destruct (cheap s !! x).
Qed.

Lemma get_head_relinked s h l r : relinked (cheap s) h l → get_head (set_cheap s h) r = get_head s r.
Proof. intros [E _]. rewrite !get_head_payload. simpl. by rewrite E. Qed.

Lemma get_head_valid s r : valid (labels (cheap s)) r → ∃ hd, get_head s r = Ret hd.
Proof.
  rewrite get_head_payload. destruct r as [m|x]; [eauto|]. simpl.
  rewrite labels_lookup, payload_lookup. intros [ne Hne]. destruct (cheap s !! x); [eauto|done].
Qed.

(** Writing a head changes that head only, and no label. *)
Lemma put_head_spec s r hd' : valid (labels (cheap s)) r →
  ∃ s', put_head s r hd' = Ret s' ∧ labels (cheap s') = labels (cheap s)
    ∧ (∀ r', get_head s' r' = if decide (r' = r) then Ret hd' else get_head s r')
    ∧ (∀ hd l, dll (cheap s) (λ _, True) hd l → dll (cheap s') (λ _, True) hd l).
Proof.
  destruct r as [m|x]; simpl.
  - intros _. eexists. split_and!; [done|done| |done]. intros [m'|y]; simpl.
    + case_decide as E1; case_decide as E2; try done; [by subst|by injection E2].
    + done.
  - rewrite labels_lookup. destruct (cheap s !! x) as [n|] eqn:Ex; [|by intros [? ?]]. intros _.
    unfold load, store_data, deref. rewrite !Ex. cbn [mbind outcome_bind].
    eexists. split_and!; [done| | |].
    + simpl. rewrite labels_insert. apply insert_id. rewrite labels_lookup, Ex. done.
    + intros r'. rewrite !get_head_payload. destruct r' as [m|y]; [done|]. simpl.
      rewrite payload_insert. simpl. destruct (decide (x = y)) as [<-|Hne].
      * rewrite lookup_insert_eq, decide_True by done. done.
      * rewrite lookup_insert_ne, decide_False by naive_solver. done.
    + intros hd l Hd. by apply dll_set_data.
Qed.

(** ** The walks over a node *)
Lemma find_loop_spec h prv l fuel t :
  seg h (λ _, True) prv l None → (length l < fuel)%nat →
  find_loop fuel h (first l None) t = Ret (named (labels h) l t).
Proof.
  revert prv fuel. induction l as [|x l IH]; intros prv [|fuel] Hs Hf; simpl in *; [lia|done|lia|].
  destruct Hs as (d & Hx & _ & Hs). unfold load, deref. rewrite Hx. simpl.
  rewrite labels_lookup, Hx. simpl. case_bool_decide; [done|]. rewrite (IH (Some x)); [done|done|lia].
Qed.

Lemma help_loop_spec h prv l fuel count :
  seg h (λ _, True) prv l None → (length l < fuel)%nat →
  help_loop fuel h (first l None) count = Ret (help_lines count (menu_at (labels h) l)).
Proof.
  revert prv fuel count. induction l as [|x l IH]; intros prv [|fuel] count Hs Hf; simpl in *; [lia|done|lia|].
  destruct Hs as (d & Hx & _ & Hs). unfold load, deref. rewrite Hx. simpl.
  rewrite menu_at_step, labels_lookup, Hx. simpl.
  destruct (hidden d); rewrite (IH (Some x)) by (done || lia); done.
Qed.

(** The commands from [x] on that are called [t] and have a handler. *)
Fixpoint first_handler (mn : menu) (t : string) : option (t_commandfunction * bool) :=
  match mn with
  | [] => None
  | (n, e) :: mn =>
      match e_handler e with
      | Some f => if bool_decide (n = t) then Some (f, e_hasparams e) else first_handler mn t
      | None => first_handler mn t
      end
  end.

Lemma handler_loop_spec h prv l fuel t :
  seg h (λ _, True) prv l None → (length l < fuel)%nat →
  handler_loop fuel h (first l None) t = Ret (first_handler (menu_at (labels h) l) t).
Proof.
  revert prv fuel. induction l as [|x l IH]; intros prv [|fuel] Hs Hf; simpl in *; [lia|done|lia|].
  destruct Hs as (d & Hx & _ & Hs). unfold load, deref. rewrite Hx. simpl.
  rewrite menu_at_step, labels_lookup, Hx. simpl.
  destruct (command_handler d); [case_bool_decide; [done|]|]; by rewrite (IH (Some x)) by (done || lia).
Qed.

Lemma first_handler_notin mn t : t ∉ mn.*1 → first_handler mn t = None.
Proof.
  induction mn as [|[n e] mn IH]; intros H; [done|]. cbn in H |- *.
  rewrite bool_decide_false by set_solver. rewrite IH by set_solver. by destruct (e_handler e).
Qed.

Section Walks.
Context (s : clistate) (B : command_head → list loc) (Hi : cli_inv s B).

Lemma head_list r : valid (labels (cheap s)) r →
  ∃ hd, get_head s r = Ret hd ∧ h_next hd = first (B r) None ∧ seg (cheap s) (λ _, True) None (B r) None
    ∧ (length (B r) < list_fuel (cheap s))%nat.
Proof.
  intros [hd E]%get_head_valid. pose proof (ci_dll _ _ Hi _ _ E) as Hd. exists hd.
  pose proof (dll_length _ _ _ _ Hd). destruct Hd as (_ & H1 & _ & Hs). unfold list_fuel.
  split_and!; [done..|lia].
Qed.

Lemma find_command_spec r t : valid (labels (cheap s)) r →
  find_command s r t = Ret (named (labels (cheap s)) (B r) t).
Proof.
  intros (hd & E & H1 & Hs & Hf)%head_list. unfold find_command. rewrite E. cbn [mbind outcome_bind].
  rewrite H1. by eapply find_loop_spec.
Qed.

Lemma cli_help_spec r : valid (labels (cheap s)) r →
  cli_help s r = Ret (help_lines 1 (menu_at (labels (cheap s)) (B r))).
Proof.
  intros (hd & E & H1 & Hs & Hf)%head_list. unfold cli_help. rewrite E. cbn [mbind outcome_bind].
  rewrite H1. by eapply help_loop_spec.
Qed.

(** The search for a handler ends at the command that was found. *)
Lemma handler_found r t x e : valid (labels (cheap s)) r →
  named (labels (cheap s)) (B r) t = Some x → labels (cheap s) !! x = Some (t, e) →
  handler_loop (list_fuel (cheap s)) (cheap s) (Some x) t
  = Ret ((λ f, (f, e_hasparams e)) <$> e_handler e).
Proof.
  intros (hd & _ & _ & Hs & Hf)%head_list Hn Hx.
  pose proof (to_names _ _ (ci_tree _ _ Hi) r) as HN.
  apply named_Some in Hn as [Hin _]. apply list_elem_of_split in Hin as (l1 & l2 & E). rewrite E in *.
  apply seg_app in Hs as [_ Hs]. rewrite menu_at_app, fmap_app, (menu_at_cons _ _ _ _ Hx) in HN.
  apply NoDup_app in HN as (_ & _ & HN). apply NoDup_cons in HN as [HN _].
  change (Some x) with (first (x :: l2) None). erewrite handler_loop_spec; [|exact Hs|].
  - f_equal. rewrite (menu_at_cons _ _ _ _ Hx). cbn [first_handler].
    rewrite first_handler_notin by done. destruct (e_handler e); [|done]. by rewrite bool_decide_true.
  - rewrite length_app in Hf. lia.
Qed.
End Walks.

(** ** Registration *)

(** [append_command] links a fresh command behind those of the node. *)
Lemma append_command_spec s B r x c :
  (∀ r' hd, get_head s r' = Ret hd → dll (cheap s) (λ _, True) hd (B r')) →
  valid (labels (cheap s)) r → (∀ r', x ∉ B r') → (∀ r1 r2 y, y ∈ B r1 → y ∈ B r2 → r1 = r2) →
  cheap s !! x = Some (Node None None c) →
  ∃ s', append_command s r x = Ret s' ∧ labels (cheap s') = labels (cheap s)
    ∧ ∀ r' hd, get_head s' r' = Ret hd → dll (cheap s') (λ _, True) hd (added_B B r x r').
Proof.
  intros Hd Hv Hx Ho Hc. destruct (get_head_valid s r Hv) as [hd E].
  pose proof (Hd r hd E) as Hr. pose proof Hr as (_ & H1 & _).
  unfold append_command. rewrite E. cbn [mbind outcome_bind]. rewrite H1.
  destruct (B r) as [|y l] eqn:EB; cbn [first].
  - destruct (put_head_spec s r (DHead (Some x) (Some x) (h_len hd)) Hv) as (s' & E' & EL & Eh & Ed).
    exists s'. split_and!; [done|done|]. intros r' hd'. rewrite Eh. unfold added_B. case_decide as Er.
    + intros [= <-]. rewrite EB. apply Ed. by eapply dll_single.
    + intros H%Hd. by apply Ed.
  - destruct (dll_link_last (λ _, True) (cheap s) hd (y :: l) x c (h_len hd) Hr) as (h1 & h2 & E1 & E2 & _ & R & Hd2);
      [done|by rewrite <-EB|done|done|].
    rewrite E1. cbn [mbind outcome_bind]. rewrite E2. cbn [mbind outcome_bind].
    assert (Hv2 : valid (labels (cheap (set_cheap s h2))) r)
      by (simpl; by rewrite (labels_relinked _ _ _ R)).
    cbn [first] in H1. rewrite <-H1.
    destruct (put_head_spec _ r (DHead (h_next hd) (Some x) (h_len hd)) Hv2) as (s' & E' & EL & Eh & Ed).
    exists s'. split_and!; [done|rewrite EL; apply (labels_relinked _ _ _ R)|]. intros r' hd'. rewrite Eh.
    rewrite (get_head_relinked _ _ _ _ R). unfold added_B. case_decide as Er.
    + intros [= <-]. apply Ed. simpl. by rewrite EB.
    + intros H%Hd. apply Ed. eapply dll_relinked; [exact R| |done].
      intros z Hz Hin%elem_of_cons. destruct Hin as [->|Hin]; [by eapply Hx|].
      apply Er. eapply Ho; [done|]. by rewrite EB.
Qed.

(** One token: the command is found, or created at the end of the node. *)
Lemma register_token_spec s B r t a : cli_inv s B → valid (labels (cheap s)) r →
  (∀ x, where_ a = Some x → cheap s !! x = None) →
  match named (labels (cheap s)) (B r) t, where_ a with
  | Some x, _ => register_token s r t a = Ret (Some (s, x))
  | None, None => register_token s r t a = Ret None
  | None, Some x => ∃ s', register_token s r t a = Ret (Some (s', x))
      ∧ labels (cheap s') = added_L (labels (cheap s)) x t (Entry None false (garbage_hidden a))
      ∧ cli_inv s' (added_B B r x)
  end.
Proof.
  intros Hi Hv Ha. unfold register_token. rewrite (find_command_spec s B Hi r t Hv). cbn [mbind outcome_bind].
  destruct (named (labels (cheap s)) (B r) t) as [x|] eqn:Hn; [done|].
  unfold allocate_command. destruct (where_ a) as [x|] eqn:Ew; [|done].
  pose proof (Ha x eq_refl) as Hx. assert (HxL : labels (cheap s) !! x = None) by (by rewrite labels_lookup, Hx).
  unfold load, store_data, deref. cbn [cheap set_cheap mbind outcome_bind]. rewrite lookup_insert_eq.
  cbn [mbind outcome_bind]. rewrite insert_insert_eq. set (c := set_name _ t).
  set (s1 := set_cheap _ _).
  assert (EL : labels (cheap s1) = added_L (labels (cheap s)) x t (Entry None false (garbage_hidden a)))
    by (unfold s1; simpl; by rewrite labels_insert).
  assert (Hg : ∀ r', get_head s1 r' = if decide (r' = Child x) then Ret empty_head else get_head s r').
  { intros r'. rewrite !get_head_payload. unfold s1. simpl. rewrite payload_insert. destruct r' as [m|y].
    { done. }
    destruct (decide (x = y)) as [<-|Hne].
    - by rewrite lookup_insert_eq, decide_True.
    - rewrite lookup_insert_ne, decide_False by naive_solver. done. }
  pose proof (ci_tree _ _ Hi) as Ht.
  destruct (append_command_spec s1 B r x c) as (s' & E' & EL' & Hd').
  - intros r' hd. rewrite Hg. case_decide as Er.
    + subst r'. intros [= <-]. rewrite (fresh_childless (labels (cheap s)) B r x t Ht Hv HxL Hn). by apply dll_nil.
    + intros H%(ci_dll _ _ Hi). apply dll_insert_ne; [|done]. by eapply fresh_everywhere.
  - rewrite EL. destruct r as [m|y]; [done|]. simpl in Hv |- *. unfold added_L.
    rewrite lookup_insert_ne; [done|]. intros ->. rewrite HxL in Hv. by destruct Hv.
  - intros r'. by eapply fresh_everywhere.
  - apply (to_owner _ _ Ht).
  - unfold s1. simpl. apply lookup_insert_eq.
  - rewrite E'. cbn [mbind outcome_bind]. exists s'. split_and!; [done|by rewrite EL', EL|].
    split; [done|]. rewrite EL', EL. by apply tree_added.
Qed.

(** The locations [malloc] returns are not in use and differ from each other. *)
Definition fresh_answers (s : clistate) (a : nat → malloc_answer) : Prop :=
  (∀ n x, where_ (a n) = Some x → cheap s !! x = None)
  ∧ (∀ n k x, where_ (a n) = Some x → where_ (a k) = Some x → n = k).

Definition hids (a : nat → malloc_answer) : nat → bool := λ n, garbage_hidden (a n).

Lemma labels_None h x : labels h !! x = None ↔ h !! x = None.
Proof. rewrite labels_lookup. by destruct (h !! x). Qed.

(** What [currentcommand] holds when the loop is at [r]. *)
Definition cur_at (r : command_head) (cur : option loc) : Prop :=
  cur = match r with Mode _ => None | Child x => Some x end.

(** One word changes the menus as [dir_token] says and leads to the command of that word. *)
Lemma register_token_menus D m s B p r t a :
  cli_inv s B → (∀ m' p', D m' p' = menus (labels (cheap s)) B m' p') →
  resolve (labels (cheap s)) B (Mode m) p = Some r →
  (∀ x, where_ a = Some x → cheap s !! x = None) → is_Some (where_ a) →
  ∃ s' B' x, register_token s r t a = Ret (Some (s', x)) ∧ cli_inv s' B'
    ∧ (∀ m' p', dir_token D m p t (garbage_hidden a) m' p' = menus (labels (cheap s')) B' m' p')
    ∧ resolve (labels (cheap s')) B' (Mode m) (p ++ [t]) = Some (Child x)
    ∧ (∀ y, where_ a ≠ Some y → cheap s !! y = None → cheap s' !! y = None)
    ∧ (∀ m' p' z, resolve (labels (cheap s)) B (Mode m') p' = Some z → resolve (labels (cheap s')) B' (Mode m') p' = Some z).
Proof.
  intros Hi HD Hr Hf Hm. pose proof (ci_tree _ _ Hi) as Ht.
  assert (Hv : valid (labels (cheap s)) r) by (by eapply (resolve_valid _ _ (Mode m))).
  pose proof (register_token_spec s B r t a Hi Hv Hf) as Hs.
  pose proof (named_find _ (B r) t (to_listed _ _ Ht r)) as Ha.
  assert (HDr : D m p = menu_at (labels (cheap s)) (B r)) by (rewrite HD; unfold menus; by rewrite Hr).
  unfold dir_token. rewrite HDr.
  destruct (named (labels (cheap s)) (B r) t) as [x|] eqn:Hn.
  - destruct Ha as (_ & e & _ & ->). exists s, B, x. split_and!; [done|done|done| |done|done].
    by rewrite resolve_snoc, Hr, Hn.
  - rewrite Ha. destruct (where_ a) as [x|] eqn:Ew; [|by destruct Hm].
    destruct Hs as (s' & E & EL & Hi'). exists s', (added_B B r x), x. rewrite EL.
    assert (HxL : labels (cheap s) !! x = None) by (by apply labels_None, Hf).
    split_and!; [done|done| |by apply resolve_added_at| |by intros; apply resolve_mono].
    + intros m' p'. rewrite (menus_added _ _ r x t _ Ht Hv HxL Hn m p Hr).
      unfold dir_update. case_decide; [|apply HD]. unfold menus. by rewrite Hr.
    + intros y Hy H. apply labels_None. rewrite EL. unfold added_L.
      rewrite lookup_insert_ne by congruence. by apply labels_None.
Qed.

(** The loop over the words of a name: the menus on the way get the missing words. *)
Lemma register_loop_spec m ts : ∀ D s B p r cur a,
  cli_inv s B → (∀ m' p', D m' p' = menus (labels (cheap s)) B m' p') →
  resolve (labels (cheap s)) B (Mode m) p = Some r → cur_at r cur → fresh_answers s a →
  (∀ n, is_Some (where_ (a n))) →
  ∃ s' B' r' cur', register_loop ts s r cur a = Ret (Some (s', cur')) ∧ cli_inv s' B'
    ∧ (∀ m' p', dir_words D m p ts (hids a) m' p' = menus (labels (cheap s')) B' m' p')
    ∧ resolve (labels (cheap s')) B' (Mode m) (p ++ ts) = Some r' ∧ cur_at r' cur'.
Proof.
  induction ts as [|t ts IH]; intros D s B p r cur a Hi HD Hr Hc Hf Hm.
  { exists s, B, r, cur. by rewrite app_nil_r. }
  destruct Hf as [F1 F2]. cbn [register_loop dir_words].
  destruct (register_token_menus D m s B p r t (a 0%nat) Hi HD Hr (F1 0%nat) (Hm 0%nat))
    as (s1 & B1 & x & E & Hi1 & HD1 & Hr1 & Hfr & _).
  rewrite E. cbn [mbind outcome_bind].
  destruct (IH _ s1 B1 (p ++ [t]) (Child x) (Some x) (λ n, a (S n)) Hi1 HD1 Hr1 eq_refl)
    as (s' & B' & r' & cur' & E' & Hi' & HD' & Hr' & Hc').
  { split; [|intros n k y H1 H2; specialize (F2 (S n) (S k) y H1 H2); lia].
    intros n y H1. apply Hfr; [|by eapply F1]. intros H2. by specialize (F2 _ _ _ H1 H2). }
  { intros n. apply Hm. }
  rewrite <-app_assoc in Hr'. by exists s', B', r', cur'.
Qed.

Lemma dir_set_ext D D' m p t e : (∀ m' p', D m' p' = D' m' p') →
  ∀ m' p', dir_set D m p t e m' p' = dir_set D' m p t e m' p'.
Proof. intros H m' p'. unfold dir_set, dir_update. case_decide; by rewrite H. Qed.

(** Storing fields of the command [x] that the words [q ++ [t]] lead to: the tree keeps its shape. *)
Lemma store_entry_at D s B m q t x c : cli_inv s B →
  (∀ m' p', D m' p' = menus (labels (cheap s)) B m' p') →
  resolve (labels (cheap s)) B (Mode m) (q ++ [t]) = Some (Child x) →
  (∃ n, cheap s !! x = Some n ∧ cmd_name c = cmd_name (n_data n) ∧ child c = child (n_data n)) →
  ∃ h, store_data (cheap s) (Some x) c = Ret h ∧ cli_inv (set_cheap s h) B
    ∧ (∀ m' p', dir_set D m q t (entry_of c) m' p' = menus (labels h) B m' p')
    ∧ (∀ m' p', resolve (labels h) B (Mode m') p' = resolve (labels (cheap s)) B (Mode m') p').
Proof.
  intros Hi HD Hr (n & Hx & En & Ec). rewrite resolve_snoc in Hr.
  destruct (resolve (labels (cheap s)) B (Mode m) q) as [r|] eqn:Eq; [|done].
  destruct (named (labels (cheap s)) (B r) t) as [y|] eqn:Ey; [|done]. injection Hr as ->.
  apply named_Some in Ey as [Hin [e0 Hl]]. pose proof (ci_tree _ _ Hi) as Ht.
  unfold store_data, deref. rewrite Hx. cbn [mbind outcome_bind]. eexists. split; [done|].
  assert (EL : labels (<[x := Node (n_next n) (n_prev n) c]> (cheap s)) = <[x := (t, entry_of c)]> (labels (cheap s))).
  { rewrite labels_insert. unfold label. simpl. rewrite En. rewrite labels_lookup, Hx in Hl.
    simpl in Hl. by injection Hl as -> _. }
  rewrite EL. split_and!.
  - split; simpl; [|rewrite EL; by eapply tree_set]. intros r' hd E. apply dll_set_data; [done..|].
    apply (ci_dll _ _ Hi). rewrite <-E, !get_head_payload. destruct r' as [m'|z]; [done|]. simpl.
    rewrite payload_insert. simpl. destruct (decide (x = z)) as [<-|Hne].
    + by rewrite lookup_insert_eq, payload_lookup, Hx, Ec.
    + by rewrite lookup_insert_ne.
  - intros m' p'. rewrite (menus_set _ B x t e0 _ Ht Hl m q r Eq Hin). by apply dir_set_ext.
  - intros m' p'. by eapply resolve_set.
Qed.

Lemma store_entry_spec D s B m q t x c : cli_inv s B →
  (∀ m' p', D m' p' = menus (labels (cheap s)) B m' p') →
  resolve (labels (cheap s)) B (Mode m) (q ++ [t]) = Some (Child x) →
  (∃ n, cheap s !! x = Some n ∧ cmd_name c = cmd_name (n_data n) ∧ child c = child (n_data n)) →
  ∃ h, store_data (cheap s) (Some x) c = Ret h
    ∧ represents (set_cheap s h) (dir_set D m q t (entry_of c)).
Proof.
  intros Hi HD Hr Hx. destruct (store_entry_at D s B m q t x c Hi HD Hr Hx) as (h & E & Hi' & HD' & _).
  exists h. split; [done|]. by exists B.
Qed.

Lemma cli_inv_initial : represents initial_cli no_commands.
Proof.
  exists (λ _, []). split.
  - split; [intros [m|x] hd; simpl; [intros [= <-]; by apply dll_nil|done]|].
    split; [set_solver|set_solver|intros r; constructor|set_solver].
  - intros m p. unfold menus. by destruct p.
Qed.
