(* ===== verification/CliConsole.v ===== *)
(** * What the command line interface promises

    Registration and execution implement the menus; every command of a
    registration list without conflicts runs its own handler, in whatever order
    the threads registered them; the program's own list has no conflicts. *)
From S2P Require Import Prelude Dll Tokens Cli CliMenus.
From stdpp Require Import pretty.
#[local] Open Scope Z_scope.
#[local] Open Scope list_scope.

(** * Execution walks the menus *)
Section Execution.
Context {W : Type} (run : t_commandfunction → list string → option loc → W →
                          outcome (W * commandresult * list string)).

(** What the interface does with an action. *)
Definition perform (act : action) (result : commandresult) (data : option loc) (w : W)
    : outcome (W * commandresult * list string) :=
  match act with
  | Nothing => Ret (w, result, [])
  | Help mn => Ret (w, result, help_lines 1 mn)
  | Run f params => run f params data w
  end.

(** A line on the menus [D]. *)
Definition console_line (D : directory) (m : option mode) (data : option loc) (line : string) (w : W)
    : outcome (W * commandresult * list string) :=
  match D (default globalmode m) [] with
  | [] => Ret (w, CommandResult 0 m None, [])
  | _ :: _ =>
      '(w, result, out) ← perform (dispatch D (default globalmode m) [] (tokens line))
                            (CommandResult 0 m None) data w;
      Ret (w, result, out ++ (if finished result =? 1 then [] else [cli_mode_prompt (r_mode result)]))
  end.

(** A client session on the menus [D]. *)
Fixpoint console_session (D : directory) (msgs : list string) (m : option mode) (data : option loc) (w : W)
    : outcome (W * list string) :=
  match msgs with
  | [] => Ret (w, [])
  | msg :: msgs =>
      '(w, result, out) ← console_line D m data (message_line msg) w;
      if finished result =? 0 then
        '(w, out') ← console_session D msgs (r_mode result) (r_data result) w;
        Ret (w, out ++ out')
      else Ret (w, out)
  end.

Lemma execute_loop_spec D s B m data result w : cli_inv s B →
  (∀ m' p', D m' p' = menus (labels (cheap s)) B m' p') →
  ∀ ts p r, resolve (labels (cheap s)) B (Mode m) p = Some r →
  execute_loop run ts s r data result w = perform (dispatch D m p ts) result data w.
Proof.
  intros Hi HD ts. pose proof (ci_tree _ _ Hi) as Ht.
  induction ts as [|t ts IH]; intros p r Hr; [done|]. cbn [execute_loop dispatch].
  assert (Hv : valid (labels (cheap s)) r) by (by eapply (resolve_valid _ _ (Mode m))).
  assert (HDr : D m p = menu_at (labels (cheap s)) (B r)) by (rewrite HD; unfold menus; by rewrite Hr).
  rewrite (cli_help_spec s B Hi r Hv), (find_command_spec s B Hi r t Hv). cbn [mbind outcome_bind].
  rewrite HDr. destruct (is_help t); [done|].
  pose proof (named_find _ (B r) t (to_listed _ _ Ht r)) as Ha.
  destruct (named (labels (cheap s)) (B r) t) as [x|] eqn:Hn; [|by rewrite Ha].
  destruct Ha as (Hin & e & Hx & ->).
  assert (Hr' : resolve (labels (cheap s)) B (Mode m) (p ++ [t]) = Some (Child x))
    by (rewrite resolve_snoc, Hr, Hn; done).
  assert (Hvx : valid (labels (cheap s)) (Child x)) by (by eexists).
  assert (HDx : D m (p ++ [t]) = menu_at (labels (cheap s)) (B (Child x)))
    by (rewrite HD; unfold menus; by rewrite Hr').
  destruct (head_list s B Hi (Child x) Hvx) as (hd & E & H1 & _).
  rewrite get_head_payload, payload_lookup in E. unfold load, deref.
  destruct (cheap s !! x) as [n|] eqn:Ex; [|done]. simpl in E. injection E as E.
  cbn [mbind outcome_bind]. rewrite E, H1, HDx. destruct (B (Child x)) as [|y l] eqn:EB; cbn [first].
  - rewrite (handler_found s B Hi r t x e Hv Hn Hx). cbn [mbind outcome_bind].
    unfold menu_at. simpl. destruct (e_handler e); [done|]. by apply IH.
  - destruct (to_listed _ _ Ht (Child x) y) as [ne Hy]; [rewrite EB; set_solver|].
    rewrite (menu_at_cons _ _ _ _ Hy). by apply IH.
Qed.

Lemma execute_commands_spec s D m data line w : represents s D →
  execute_commands run s m data line w = console_line D m data line w.
Proof.
  intros (B & Hi & HD). unfold execute_commands, console_line. pose proof (ci_tree _ _ Hi) as Ht.
  set (mm := default globalmode m). destruct (head_list s B Hi (Mode mm) I) as (hd & E & H1 & _).
  rewrite E. cbn [mbind outcome_bind]. rewrite H1, HD. unfold menus at 1. cbn [resolve].
  destruct (B (Mode mm)) as [|y l] eqn:EB; [done|]. cbn [first].
  destruct (to_listed _ _ Ht (Mode mm) y) as [ne Hy]; [rewrite EB; set_solver|].
  rewrite (menu_at_cons _ _ _ _ Hy). by rewrite (execute_loop_spec D s B mm _ _ _ Hi HD _ [] (Mode mm)).
Qed.
End Execution.

(** C28: the command line interface behaves as its menus say.  Whatever the handlers do,
    a client session on the tree of commands (any messages, any mode changes) sends the
    client the same lines and leaves the daemon in the same state as the session on the
    menus the tree represents: one command at most runs per line, with the rest of the
    words if it takes parameters; an unknown word or "help" lists the visible commands of
    the menu it was typed in. *)
Theorem session_follows_menus {W} (run : t_commandfunction → list string → option loc → W →
    outcome (W * commandresult * list string)) s D msgs w :
  represents s D →
  client_handler run s msgs w
  = ('(w, out) ← console_session run D msgs None None w; Ret (w, cli_mode_prompt None :: out)).
Proof.
  intros Hs. unfold client_handler. f_equal.
  generalize (None : option mode) as m, (None : option loc) as data. revert w.
  induction msgs as [|msg msgs IH]; intros w m data; [done|]. cbn [client_loop console_session].
  rewrite (execute_commands_spec run s D) by done.
  destruct (console_line run D m data (message_line msg) w) as [[[w' res] out]| |]; [|done..].
  cbn [mbind outcome_bind]. by rewrite IH.
Qed.

Lemma register_command_spec s D m name f params hid a :
  represents s D → fresh_answers s a → (∀ n, is_Some (where_ (a n))) →
  ∃ s', register_command s m name f params hid a = Ret (Some s')
    ∧ represents s' (dir_register D (default globalmode m) (tokens name) f params hid (hids a)).
Proof.
  intros (B & Hi & HD) Hf Hm. unfold register_command, dir_register. set (mm := default globalmode m).
  destruct (register_loop_spec mm (tokens name) D s B [] (Mode mm) None a Hi HD eq_refl eq_refl Hf Hm)
    as (s' & B' & r' & cur & E & Hi' & HD' & Hr' & Hc).
  rewrite E. cbn [mbind outcome_bind]. rewrite app_nil_l in Hr'.
  destruct (tokens name) as [|t q _] using rev_ind.
  - injection Hr' as <-. rewrite Hc. exists s'. split; [done|]. by exists B'.
  - rewrite last_snoc, removelast_last. pose proof Hr' as Hr2. rewrite resolve_snoc in Hr2.
    destruct (resolve (labels (cheap s')) B' (Mode mm) q) as [r|]; [|done].
    destruct (named (labels (cheap s')) (B' r) t) as [x|] eqn:Hn; [|done]. injection Hr2 as <-.
    rewrite Hc. apply named_Some in Hn as [_ [e Hx]]. apply labels_Some in Hx as (n & Hx & _).
    unfold load at 1, deref. rewrite Hx. cbn [mbind outcome_bind].
    edestruct (store_entry_spec _ s' B' mm q t x
      (Command (cmd_name (n_data n)) (Some f) (child (n_data n)) params hid) Hi' HD' Hr')
      as (h & E2 & Hrep); [by exists n|]. rewrite E2. cbn [mbind outcome_bind]. by eexists.
Qed.

(** Registering a command implements its registration on the menus: the missing words
    of its name are appended to the menus on the way, the last word gets the handler, and
    nothing else changes.  The visibility of a word that is not itself a command is
    whatever [malloc] left there. *)
Theorem register_command_refines s D m name f params hid a :
  represents s D → fresh_answers s a → (∀ n, is_Some (where_ (a n))) →
  ∃ s', register_command s m name f params hid a = Ret (Some s')
    ∧ represents s' (dir_register D (default globalmode m) (tokens name) f params hid (hids a)).
Proof. apply register_command_spec. Qed.

(** * Registration lists *)
Record registration := Reg {
  g_mode : mode; g_words : list string; g_handler : t_commandfunction; g_params : bool; g_hidden : bool
}.
#[export] Instance registration_eq_dec : EqDecision registration.
Proof. solve_decision. Defined.

Definition register_menu (D : directory) (g : registration) (hids : nat → bool) : directory :=
  dir_register D (g_mode g) (g_words g) (g_handler g) (g_params g) (g_hidden g) hids.

(** The menus after a list of registrations, the last one first. *)
Fixpoint menus_of (gs : list (registration * (nat → bool))) : directory :=
  match gs with
  | [] => no_commands
  | (g, hids) :: gs => register_menu (menus_of gs) g hids
  end.

(** No command's name continues another's. *)
Definition no_conflict (gs : list registration) : Prop :=
  Forall (λ g, Forall (λ g', g_mode g = g_mode g' → g_words g `prefix_of` g_words g' → g = g') gs) gs.
#[export] Instance no_conflict_dec gs : Decision (no_conflict gs).
Proof. unfold no_conflict. apply _. Defined.

(** A name is made of words, none of which asks for help. *)
Definition well_named (g : registration) : bool :=
  negb (bool_decide (g_words g = [])) && forallb (λ t, is_word t && negb (is_help t)) (g_words g).

(** ** What registration does to the entries *)
Lemma menu_find_snoc t a e mn :
  menu_find t (mn ++ [(a, e)]) = match menu_find t mn with Some e' => Some e' | None => if bool_decide (a = t) then Some e else None end.
Proof. induction mn as [|[n e'] mn IH]; simpl; [done|]. by destruct (bool_decide (n = t)). Qed.

Lemma menu_find_dir_token D m p t hid m' q a :
  menu_find a (dir_token D m p t hid m' q)
  = match menu_find a (D m' q) with
    | Some e => Some e
    | None => if bool_decide ((m', q, a) = (m, p, t)) then Some (Entry None false hid) else None
    end.
Proof.
  unfold dir_token. destruct (menu_find t (D m p)) as [e|] eqn:E.
  - destruct (menu_find a (D m' q)) eqn:E2; [done|]. rewrite bool_decide_false; [done|]. intros [= -> -> ->].
    by rewrite E in E2.
  - unfold dir_update. case_decide as Hd.
    + injection Hd as -> ->. rewrite menu_find_snoc. destruct (menu_find a (D m p)); [done|].
      destruct (decide (t = a)) as [->|Hne]; [by rewrite !bool_decide_true|].
      by rewrite !bool_decide_false by congruence.
    + destruct (menu_find a (D m' q)); [done|]. rewrite bool_decide_false; [done|]. congruence.
Qed.

(** [q ++ [a]] is one of the words [p ++ ts] names on the way. *)
Definition on_the_way (p ts q : list string) (a : string) : Prop :=
  ∃ k1 k2, ts = k1 ++ a :: k2 ∧ q = p ++ k1.

Lemma menu_find_dir_words D m ts : ∀ p hids m' q a,
  match menu_find a (D m' q) with
  | Some e => menu_find a (dir_words D m p ts hids m' q) = Some e
  | None =>
      (m' = m ∧ on_the_way p ts q a ∧ ∃ hid, menu_find a (dir_words D m p ts hids m' q) = Some (Entry None false hid))
      ∨ (¬ (m' = m ∧ on_the_way p ts q a) ∧ menu_find a (dir_words D m p ts hids m' q) = None)
  end.
Proof.
  revert D. induction ts as [|t ts IH]; intros D p hids m' q a; cbn [dir_words].
  - destruct (menu_find a (D m' q)); [done|]. right. split; [|done]. by intros (_ & [] & k2 & ? & _).
  - specialize (IH (dir_token D m p t (hids 0%nat)) (p ++ [t]) (λ n, hids (S n)) m' q a).
    rewrite menu_find_dir_token in IH. destruct (menu_find a (D m' q)) as [e|] eqn:E; [done|].
    case_bool_decide as Hb.
    + injection Hb as -> -> ->. left. split_and!; [done| |by exists (hids 0%nat)].
      exists [], ts. by rewrite app_nil_r.
    + destruct IH as [(-> & (k1 & k2 & -> & ->) & H)|(Hn & H)].
      * left. split_and!; [done| |done]. exists (t :: k1), k2. by rewrite <-app_assoc.
      * right. split; [|done]. intros (-> & k1 & k2 & Ek & ->). apply Hn. split; [done|].
        destruct k1 as [|b k1]; injection Ek as -> ->.
        -- exfalso. apply Hb. by rewrite app_nil_r.
        -- exists k1, k2. by rewrite <-app_assoc.
Qed.

Lemma menu_find_set_entry t e a mn :
  menu_find a (set_entry t e mn)
  = if bool_decide (a = t) then (λ _, e) <$> menu_find a mn else menu_find a mn.
Proof.
  induction mn as [|[n e'] mn IH]; [by case_bool_decide|].
  change (set_entry t e ((n, e') :: mn)) with ((if bool_decide (n = t) then (t, e) else (n, e')) :: set_entry t e mn).
  cbn [menu_find]. destruct (decide (n = t)) as [->|Hnt].
  - rewrite (bool_decide_true (t = t)) by done. cbn [menu_find]. rewrite IH.
    destruct (decide (t = a)) as [->|Hta]; [by rewrite !bool_decide_true|].
    by rewrite !bool_decide_false by congruence.
  - rewrite (bool_decide_false (n = t)) by done. cbn [menu_find]. rewrite IH.
    destruct (decide (n = a)) as [->|Hna].
    + rewrite (bool_decide_true (a = a)), bool_decide_false by congruence. done.
    + by rewrite (bool_decide_false (n = a)) by done.
Qed.

Lemma menu_find_dir_set D m p t e m' q a :
  menu_find a (dir_set D m p t e m' q)
  = if bool_decide ((m', q, a) = (m, p, t)) then (λ _, e) <$> menu_find a (D m p) else menu_find a (D m' q).
Proof.
  unfold dir_set, dir_update. case_decide as Hd.
  - injection Hd as -> ->. change (menu_find a (set_entry t e (D m p)) =
      (if bool_decide ((m, p, a) = (m, p, t)) then (λ _, e) <$> menu_find a (D m p) else menu_find a (D m p))).
    rewrite menu_find_set_entry. destruct (decide (a = t)) as [->|]; [by rewrite !bool_decide_true|].
    by rewrite !bool_decide_false by congruence.
  - by rewrite bool_decide_false by congruence.
Qed.

Lemma menu_find_nonempty mn : mn ≠ [] ↔ ∃ t e, menu_find t mn = Some e.
Proof.
  split.
  - destruct mn as [|[n e] mn]; [done|]. intros _. exists n, e. simpl. by rewrite bool_decide_true.
  - by intros (t & e & H) ->.
Qed.

(** The entries after one registration. *)
Lemma menu_find_register D g hids m q a : g_words g ≠ [] →
  match decide (m = g_mode g ∧ q ++ [a] = g_words g) with
  | left _ => menu_find a (register_menu D g hids m q) = Some (Entry (Some (g_handler g)) (g_params g) (g_hidden g))
  | right _ =>
      match menu_find a (D m q) with
      | Some e => menu_find a (register_menu D g hids m q) = Some e
      | None => is_Some (menu_find a (register_menu D g hids m q)) ↔ m = g_mode g ∧ on_the_way [] (g_words g) q a
      end
  end.
Proof.
  intros Hne. destruct (exists_last Hne) as (p & t & E). unfold register_menu, dir_register.
  rewrite E, last_snoc, removelast_last, menu_find_dir_set.
  pose proof (menu_find_dir_words D (g_mode g) (p ++ [t]) [] hids m q a) as H.
  destruct (decide (m = g_mode g ∧ q ++ [a] = p ++ [t])) as [[-> Hq]|Hn].
  - apply app_inj_tail in Hq as [-> ->]. rewrite bool_decide_true by done.
    assert (Hs : is_Some (menu_find t (dir_words D (g_mode g) [] (p ++ [t]) hids (g_mode g) p))).
    { destruct (menu_find t (D (g_mode g) p)); [by rewrite H|].
      destruct H as [(_ & _ & hid & ->)|(Hn & _)]; [done|]. exfalso. apply Hn. split; [done|]. by exists p, []. }
    by destruct Hs as [e ->].
  - rewrite bool_decide_false by (intros [= -> -> ->]; by apply Hn).
    destruct (menu_find a (D m q)); [done|]. destruct H as [(-> & Hw & hid & ->)|(Hw & ->)].
    + split; [done|eauto].
    + split; [by intros [? ?]|done].
Qed.

(** ** The menus of a list without conflicts *)
Section Menus.
Implicit Types (gs : list (registration * (nat → bool))) (g : registration).

Definition named_list gs : Prop := Forall (λ g, well_named g = true) gs.*1.

Lemma well_named_nonempty g : well_named g = true → g_words g ≠ [].
Proof. unfold well_named. intros [H _]%andb_true_iff E. by rewrite E in H. Qed.

Lemma well_named_word g q a k : well_named g = true → g_words g = q ++ a :: k →
  is_word a = true ∧ is_help a = false.
Proof.
  unfold well_named. intros [_ H]%andb_true_iff E. rewrite E, forallb_app in H.
  apply andb_true_iff in H as [_ H]. simpl in H. apply andb_true_iff in H as [H _].
  apply andb_true_iff in H as [H1 H2]. split; [done|by apply negb_true_iff].
Qed.

Lemma no_conflict_elem gs g g' : no_conflict gs.*1 → g ∈ gs.*1 → g' ∈ gs.*1 →
  g_mode g = g_mode g' → g_words g `prefix_of` g_words g' → g = g'.
Proof.
  intros H Hg Hg' Hm Hp. unfold no_conflict in H. rewrite Forall_forall in H.
  specialize (H g Hg). rewrite Forall_forall in H. by apply H.
Qed.

Lemma no_conflict_tail g h gs : no_conflict ((g, h) :: gs).*1 → no_conflict gs.*1.
Proof.
  intros H. unfold no_conflict. rewrite !Forall_forall. intros g1 H1. rewrite Forall_forall. intros g2 H2 Hm Hp.
  eapply (no_conflict_elem ((g, h) :: gs)); [done|cbn; set_solver..|done|done].
Qed.

(** Only the words of some command are on a menu. *)
Lemma menus_of_way gs m q a e : named_list gs → menu_find a (menus_of gs m q) = Some e →
  ∃ g, g ∈ gs.*1 ∧ g_mode g = m ∧ ∃ k, g_words g = q ++ a :: k.
Proof.
  induction gs as [|[g hids] gs IH]; intros Hn H; [done|].
  apply Forall_cons in Hn as [Hg Hn]. cbn in H.
  pose proof (menu_find_register (menus_of gs) g hids m q a (well_named_nonempty _ Hg)) as Hr.
  destruct (decide (m = g_mode g ∧ q ++ [a] = g_words g)) as [[-> Hq]|_].
  { exists g. split_and!; [cbn; set_solver|done|by exists []]. }
  destruct (menu_find a (menus_of gs m q)) as [e1|].
  - assert (He1 : Some e1 = Some e) by congruence.
    destruct (IH Hn He1) as (g' & Hin & H'). exists g'. split; [cbn; set_solver|done].
  - rewrite H in Hr. destruct (proj1 Hr ltac:(eauto)) as (-> & k1 & k2 & E & ->).
    exists g. split_and!; [cbn; set_solver|done|by exists k2].
Qed.

(** Every word of a command is on its menu, the last one with the command's entry. *)
Lemma menus_of_entry gs g q a k : named_list gs → no_conflict gs.*1 → g ∈ gs.*1 → g_words g = q ++ a :: k →
  ∃ e, menu_find a (menus_of gs (g_mode g) q) = Some e
    ∧ (k = [] → e = Entry (Some (g_handler g)) (g_params g) (g_hidden g)).
Proof.
  induction gs as [|[g1 hids] gs IH]; intros Hn Hc Hg E; [by apply not_elem_of_nil in Hg|].
  pose proof Hn as [Hg1 Hn']%Forall_cons. cbn.
  pose proof (menu_find_register (menus_of gs) g1 hids (g_mode g) q a (well_named_nonempty _ Hg1)) as Hr.
  destruct (decide (g_mode g = g_mode g1 ∧ q ++ [a] = g_words g1)) as [[Em Eq]|Hd].
  - eexists. split; [exact Hr|]. intros ->.
    assert (g = g1) as ->; [|done].
    apply (no_conflict_elem _ _ _ Hc Hg); [cbn; set_solver|done|]. rewrite E, <-Eq. done.
  - cbn in Hg. apply elem_of_cons in Hg as [->|Hg].
    + assert (Hk : k ≠ []) by (intros ->; by apply Hd).
      destruct (menu_find a (menus_of gs (g_mode g1) q)) as [e|]; [by exists e|].
      destruct (proj2 Hr) as [e He]; [split; [done|]; by exists q, k|]. by exists e.
    + destruct (IH Hn' (no_conflict_tail _ _ _ Hc) Hg E) as (e & He & Hk). rewrite He in Hr. by exists e.
Qed.

(** The menus of [D] are those of the commands [gs], in whatever order. *)
Definition offers (D : directory) (gs : list registration) : Prop :=
  (∀ m q a e, menu_find a (D m q) = Some e → ∃ g, g ∈ gs ∧ g_mode g = m ∧ ∃ k, g_words g = q ++ a :: k)
  ∧ ∀ g q a k, g ∈ gs → g_words g = q ++ a :: k → ∃ e, menu_find a (D (g_mode g) q) = Some e
      ∧ (k = [] → e = Entry (Some (g_handler g)) (g_params g) (g_hidden g)).

Lemma menus_of_offers gs : named_list gs → no_conflict gs.*1 → offers (menus_of gs) gs.*1.
Proof. split; [by intros; eapply menus_of_way|by intros; eapply menus_of_entry]. Qed.

Lemma no_conflict_prefix hs g g' : no_conflict hs → g ∈ hs → g' ∈ hs →
  g_mode g = g_mode g' → g_words g `prefix_of` g_words g' → g = g'.
Proof.
  intros H Hg Hg' Hm Hp. unfold no_conflict in H. rewrite Forall_forall in H.
  specialize (H g Hg). rewrite Forall_forall in H. by apply H.
Qed.

(** The words of a command lead to its handler; the rest of the line are its parameters. *)
Lemma dispatch_offered D hs g ps : offers D hs → Forall (λ g, well_named g = true) hs → no_conflict hs → g ∈ hs →
  ∀ k q, g_words g = q ++ k → k ≠ [] →
  dispatch D (g_mode g) q (k ++ ps) = Run (g_handler g) (if g_params g then ps else []).
Proof.
  intros [Hway Hentry] Hn Hc Hg. assert (Hw : well_named g = true) by (by eapply Forall_forall in Hg; [|exact Hn]).
  induction k as [|a k IH]; intros q E Hk; [done|]. cbn.
  destruct (well_named_word g q a k Hw E) as [_ ->].
  destruct (Hentry g q a k Hg E) as (e & -> & He). destruct k as [|b k].
  - destruct (D (g_mode g) (q ++ [a])) as [|[n e1] mn] eqn:ED; [by rewrite He by done|]. exfalso.
    destruct (Hway (g_mode g) (q ++ [a]) n e1) as (g' & Hg' & Hm & k & E').
    { rewrite ED. cbn. by rewrite bool_decide_true. }
    assert (g = g') as <-.
    { apply (no_conflict_prefix hs _ _ Hc Hg Hg'); [done|]. rewrite E, E'. by apply prefix_app_r. }
    rewrite E in E'. apply (f_equal length) in E'. rewrite !length_app in E'. simpl in E'. lia.
  - destruct (Hentry g (q ++ [a]) b k Hg) as (e' & He' & _); [by rewrite <-app_assoc|].
    destruct (D (g_mode g) (q ++ [a])) as [|x mn] eqn:ED; [done|].
    apply IH; [by rewrite <-app_assoc|done].
Qed.

(** Conversely, a line only ever runs the handler of the command its first words name. *)
Lemma dispatch_sound gs m f ps : named_list gs → no_conflict gs.*1 →
  ∀ ts q, dispatch (menus_of gs) m q ts = Run f ps →
  ∃ g k ws, g ∈ gs.*1 ∧ g_mode g = m ∧ ts = ws ++ k ∧ g_words g = q ++ ws
    ∧ f = g_handler g ∧ ps = if g_params g then k else [].
Proof.
  intros Hn Hc. induction ts as [|t ts IH]; intros q H; [done|]. cbn [dispatch] in H.
  destruct (is_help t); [done|]. destruct (menu_find t (menus_of gs m q)) as [e|] eqn:Et; [|done].
  destruct (menus_of_way gs m q t e Hn Et) as (g & Hg & Hm & k & Eg).
  destruct (menus_of gs m (q ++ [t])) as [|x mn] eqn:ED.
  - assert (k = []) as ->.
    { destruct k as [|b k]; [done|]. rewrite <-Hm in ED.
      destruct (menus_of_entry gs g (q ++ [t]) b k Hn Hc Hg) as (e' & He' & _); [by rewrite <-app_assoc|].
      by rewrite ED in He'. }
    destruct (menus_of_entry gs g q t [] Hn Hc Hg Eg) as (e' & He' & Ee). rewrite Hm, Et in He'. injection He' as <-.
    rewrite Ee in H by done. cbn in H. injection H as <- <-. by exists g, ts, [t].
  - destruct (IH (q ++ [t]) H) as (g' & k' & ws & Hg' & Hm' & -> & Ew & -> & ->).
    exists g', k', (t :: ws). split_and!; [done..|by rewrite Ew, <-app_assoc|done|done].
Qed.
End Menus.

(** * The program's commands *)

(** The trees that registering a list of commands one after the other can lead to, for any
    answers of [malloc]. *)
Definition mode_arg (m : mode) : option mode := match m with globalmode => None | _ => Some m end.

Inductive registered : clistate → list registration → Prop :=
| registered_none : registered initial_cli []
| registered_one s gs g a s' :
    registered s gs → fresh_answers s a → (∀ n, is_Some (where_ (a n))) →
    register_command s (mode_arg (g_mode g)) (join_words (g_words g)) (g_handler g) (g_params g) (g_hidden g) a
    = Ret (Some s') →
    registered s' (g :: gs).

(** The calls of [register_command] in climanager.c, clicommands.c, opennopd.c,
    sessioncleanup.c, ipc.c and wccpv2.c. *)
Definition program_commands : list registration :=
  [ Reg globalmode ["quit"] cli_quit false false;
    Reg globalmode ["exit"] cli_quit false true;
    Reg globalmode ["end"] cli_quit false true;
    Reg globalmode ["test"] cli_mode_test false true;
    Reg testmode ["exit"] cli_mode_test_exit false false;
    Reg testmode ["show"; "parameters"] cli_show_params true false;
    Reg globalmode ["show"; "version"] cli_show_version false false;
    Reg globalmode ["show"; "compression"] cli_show_compression false false;
    Reg globalmode ["show"; "workers"] cli_show_workers false false;
    Reg globalmode ["show"; "fetcher"] cli_show_fetcher false false;
    Reg globalmode ["show"; "sessions"] cli_show_sessionss false false;
    Reg globalmode ["compression"; "enable"] cli_compression_enable false false;
    Reg globalmode ["compression"; "disable"] cli_compression_disable false false;
    Reg globalmode ["show"; "dead"; "session"; "detection"] cli_show_dead_session_detection false false;
    Reg globalmode ["dead"; "session"; "detection"; "enable"] cli_dead_session_detection_enable false false;
    Reg globalmode ["dead"; "session"; "detection"; "disable"] cli_dead_session_detection_disable false false;
    Reg globalmode ["neighbor"] cli_neighbor true false;
    Reg globalmode ["no"; "neighbor"] cli_no_neighbor true false;
    Reg globalmode ["show"; "neighbors"] cli_show_neighbors false false;
    Reg globalmode ["key"] cli_set_key true true;
    Reg globalmode ["show"; "key"] cli_show_key false true;
    Reg globalmode ["show"; "neighbor"] cli_show_neighbor true true;
    Reg globalmode ["debug"; "ipc"] cli_debug_ipc true false;
    Reg globalmode ["wccp"] cli_enter_wccp_mode true true;
    Reg cli_wccp_mode ["server"] cli_wccp_server true false;
    Reg cli_wccp_mode ["password"] cli_wccp_password true false;
    Reg cli_wccp_mode ["exit"] cli_exit_wccp_mode false false ].

Lemma well_named_words g : well_named g = true → forallb is_word (g_words g) = true.
Proof.
  unfold well_named. intros [_ Hw]%andb_true_iff. rewrite forallb_forall in Hw |- *.
  intros t Ht. by apply Hw, andb_true_iff in Ht as [? _].
Qed.

Lemma registered_represents s gs : registered s gs → forallb well_named gs = true →
  ∃ hs, hs.*1 = gs ∧ represents s (menus_of hs).
Proof.
  induction 1 as [|s gs g a s' Hr IH Hf Hm E]; intros Hw.
  { exists []. split; [done|]. apply cli_inv_initial. }
  simpl in Hw. apply andb_true_iff in Hw as [Hg Hw]. destruct (IH Hw) as (hs & <- & Hrep).
  exists ((g, hids a) :: hs). split; [done|].
  destruct (register_command_spec s _ (mode_arg (g_mode g)) (join_words (g_words g)) (g_handler g)
    (g_params g) (g_hidden g) a Hrep Hf Hm) as (s2 & E2 & Hrep2).
  rewrite E in E2. injection E2 as <-. cbn. unfold register_menu.
  rewrite tokens_join_words in Hrep2.
  - by destruct (g_mode g).
  - by apply well_named_words.
Qed.

(** A line that starts with the words of an offered command runs that command. *)
Lemma offered_command_runs {W} (run : t_commandfunction → list string → option loc → W →
    outcome (W * commandresult * list string)) s D hs g ps m data w :
  represents s D → offers D hs → Forall (λ g, well_named g = true) hs → no_conflict hs → g ∈ hs →
  forallb is_word ps = true → default globalmode m = g_mode g →
  execute_commands run s m data (join_words (g_words g ++ ps)) w
  = ('(w, result, out) ← run (g_handler g) (if g_params g then ps else []) data w;
     Ret (w, result, out ++ (if finished result =? 1 then [] else [cli_mode_prompt (r_mode result)]))).
Proof.
  intros Hrep Hoff Hn Hc Hg Hps Hm.
  rewrite (execute_commands_spec run s _ m data _ w Hrep). unfold console_line. rewrite Hm.
  assert (Hwg : well_named g = true) by (by eapply Forall_forall in Hg; [|exact Hn]).
  pose proof (well_named_nonempty g Hwg) as Hne.
  rewrite tokens_join_words.
  - rewrite (dispatch_offered D hs g ps Hoff Hn Hc Hg (g_words g) [] eq_refl Hne). cbn [perform].
    destruct (g_words g) as [|a k] eqn:E; [done|].
    destruct (proj2 Hoff g [] a k Hg E) as (e & He & _).
    by destruct (D (g_mode g) []).
  - rewrite forallb_app. apply andb_true_iff. split; [by apply well_named_words|done].
Qed.

Lemma registered_command_runs {W} (run : t_commandfunction → list string → option loc → W →
    outcome (W * commandresult * list string)) s gs g ps m data w :
  registered s gs → forallb well_named gs = true → no_conflict gs → g ∈ gs →
  forallb is_word ps = true → default globalmode m = g_mode g →
  execute_commands run s m data (join_words (g_words g ++ ps)) w
  = ('(w, result, out) ← run (g_handler g) (if g_params g then ps else []) data w;
     Ret (w, result, out ++ (if finished result =? 1 then [] else [cli_mode_prompt (r_mode result)]))).
Proof.
  intros Hr Hw Hc Hg Hps Hm. destruct (registered_represents s gs Hr Hw) as (hs & <- & Hrep).
  assert (Hn : named_list hs).
  { apply Forall_forall. rewrite forallb_forall in Hw. intros g' H'. by apply Hw, list_elem_of_In. }
  by eapply offered_command_runs; [|apply menus_of_offers|..].
Qed.

Lemma program_no_conflict : no_conflict program_commands.
Proof. apply (bool_decide_unpack _). by vm_compute. Qed.

Lemma no_conflict_perm gs gs' : gs ≡ₚ gs' → no_conflict gs → no_conflict gs'.
Proof.
  intros Hp H. unfold no_conflict in *. rewrite <-Hp. eapply Forall_impl; [exact H|].
  intros g Hg. by rewrite <-Hp.
Qed.

Lemma forallb_perm {A} (f : A → bool) l k : l ≡ₚ k → forallb f l = true → forallb f k = true.
Proof. intros Hp. rewrite !forallb_forall. intros H x Hx. apply H. by apply (Permutation_in _ (symmetry Hp)). Qed.

(** Every command of the program can be typed.  In whatever order the threads register
    the program's commands, and whatever [malloc] left in the nodes, a line made of the
    words of a command and of any parameters runs the handler of that command, exactly
    once, with those parameters (none if it takes none), and shows the prompt of the mode
    the handler chose. *)
Theorem program_command_runs {W} (run : t_commandfunction → list string → option loc → W →
    outcome (W * commandresult * list string)) s gs g ps m data w :
  registered s gs → gs ≡ₚ program_commands → g ∈ program_commands →
  forallb is_word ps = true → default globalmode m = g_mode g →
  execute_commands run s m data (join_words (g_words g ++ ps)) w
  = ('(w, result, out) ← run (g_handler g) (if g_params g then ps else []) data w;
     Ret (w, result, out ++ (if finished result =? 1 then [] else [cli_mode_prompt (r_mode result)]))).
Proof.
  intros Hr Hp Hg Hps Hm. eapply registered_command_runs; [done| | |by rewrite Hp|done|done].
  - by apply (forallb_perm _ program_commands).
  - apply (no_conflict_perm program_commands); [done|apply program_no_conflict].
Qed.

(** ** Witnesses *)

(** Answers of [malloc] from a bound on, so that nothing clashes. *)
Definition answers_from (base : loc) (n : nat) : malloc_answer := Malloc (Some (base + Pos.of_succ_nat n)%positive) true.

Lemma answers_fresh (s : clistate) : ∃ base, fresh_answers s (answers_from base).
Proof.
  assert (∃ base, ∀ x, x ∈ dom (cheap s) → (x <= base)%positive) as [base Hb].
  { generalize (dom (cheap s) : gset loc). intros X. induction X as [|x X _ [b Hb]] using set_ind_L.
    - exists 1%positive. set_solver.
    - exists (Pos.max x b). intros y [->%elem_of_singleton|Hy%Hb]%elem_of_union; lia. }
  exists base. split.
  - intros n x [= <-]. apply not_elem_of_dom. intros H%Hb. lia.
  - intros n k x [= <-] [= E]. lia.
Qed.

Lemma registrable gs : forallb well_named gs = true → ∃ s, registered s gs.
Proof.
  induction gs as [|g gs IH]; intros Hw; [exists initial_cli; constructor|].
  simpl in Hw. apply andb_true_iff in Hw as [_ Hw]. destruct (IH Hw) as [s Hs].
  destruct (registered_represents s gs Hs Hw) as (hs & _ & Hrep). destruct (answers_fresh s) as [base Hf].
  destruct (register_command_spec s _ (mode_arg (g_mode g)) (join_words (g_words g)) (g_handler g)
    (g_params g) (g_hidden g) _ Hrep Hf (λ n, ltac:(by eexists))) as (s' & E & _).
  exists s'. by eapply registered_one; [..|exact E].
Qed.

(** A daemon whose handlers record their parameters. *)
Definition demo_run (f : t_commandfunction) (ps : list string) (data : option loc) (w : list (list string))
    : outcome (list (list string) * commandresult * list string) :=
  Ret (ps :: w, CommandResult (if bool_decide (f = cli_quit) then 1 else 0) None None, []).

Fixpoint demo_register (gs : list registration) (base : loc) (s : clistate) : outcome (option clistate) :=
  match gs with
  | [] => Ret (Some s)
  | g :: gs =>
      o ← register_command s (mode_arg (g_mode g)) (join_words (g_words g)) (g_handler g) (g_params g)
            (g_hidden g) (answers_from base);
      match o with Some s => demo_register gs (base + 10) s | None => Ret None end
  end.

(** The pointer code itself, evaluated: registration, help, a command with parameters, quit. *)
Example demo_session :
  (o ← demo_register program_commands 1 initial_cli;
   match o with
   | Some s => client_handler demo_run s ["no help" +:+ newline; "  no  neighbor 10.0.0.1 " +:+ newline;
                                          "quit" +:+ newline; "show version" +:+ newline] []
   | None => Undef
   end)
  = Ret ([[]; ["10.0.0.1"]],
         ["opennopd# "; "[1]: [neighbor] " +:+ newline; "opennopd# "; "opennopd# "]).
Proof. by vm_compute. Qed.

Lemma session_follows_menus_witness :
  client_handler demo_run initial_cli ["quit" +:+ newline] []
  = ('(w, out) ← console_session demo_run no_commands ["quit" +:+ newline] None None [];
     Ret (w, cli_mode_prompt None :: out)).
Proof. apply (session_follows_menus demo_run initial_cli no_commands). apply cli_inv_initial. Defined.

Lemma register_command_refines_witness :
  ∃ s', register_command initial_cli None "show version" cli_show_version false false (answers_from 1) = Ret (Some s')
    ∧ represents s' (dir_register no_commands globalmode (tokens "show version") cli_show_version false false
        (hids (answers_from 1))).
Proof.
  apply (register_command_refines initial_cli no_commands None).
  - apply cli_inv_initial.
  - split; [done|]. intros n k x [= <-] [= E]. lia.
  - by eexists.
Defined.

Lemma program_command_runs_witness :
  ∃ s, registered s program_commands ∧
    execute_commands demo_run s None None (join_words (["no"; "neighbor"] ++ ["10.0.0.1"])) []
    = Ret ([["10.0.0.1"]], CommandResult 0 None None, ["opennopd# "]).
Proof.
  destruct (registrable program_commands) as [s Hs]; [by vm_compute|]. exists s. split; [done|].
  refine (program_command_runs demo_run s program_commands
    (Reg globalmode ["no"; "neighbor"] cli_no_neighbor true false) ["10.0.0.1"] None None [] Hs _ _ _ _).
  - done.
  - unfold program_commands. by repeat (apply list_elem_of_here || apply list_elem_of_further).
  - done.
  - done.
Defined.
