(* ===== verification/CliRegister.v ===== *)
(** * Registration by many threads (opennopd/subsystems/clicommands.c)

    Every subsystem registers its commands in a thread of its own.  [register_command] holds the
    lock of a node only while it looks for one word there and adds it; the fields of the command
    it ends at are stored without a lock.  So the threads interleave word by word and
    store by store. *)
From S2P Require Import Prelude Dll Tokens Cli CliMenus CliConsole.
#[local] Open Scope Z_scope.
#[local] Open Scope list_scope.

(** ** Threads *)

(** Inside [register_command]: the words not yet looked up, [currentnode], [currentcommand], and how many of
    the last three assignments were made. *)
Record task := Task { t_reg : registration; t_rest : list string; t_node : command_head; t_cur : option loc; t_stores : nat }.

(** A thread: the commands it has registered, the one it is registering, those it will. *)
Record registrar := Registrar { r_done : list registration; r_doing : option task; r_todo : list registration }.

Definition begin_task (g : registration) : task :=
  Task g (tokens (join_words (g_words g))) (Mode (default globalmode (mode_arg (g_mode g)))) None 0.

(** The assignments behind the loop. *)
Definition store_field (k : nat) (g : registration) (c : command) : command :=
  match k with
  | 0%nat => Command (cmd_name c) (Some (g_handler g)) (child c) (hasparams c) (hidden c)
  | 1%nat => Command (cmd_name c) (command_handler c) (child c) (g_params g) (hidden c)
  | _ => Command (cmd_name c) (command_handler c) (child c) (hasparams c) (g_hidden g)
  end.

Inductive register_step : clistate * list registrar → clistate * list registrar → Prop :=
| register_begins s ts i done_ g todo : ts !! i = Some (Registrar done_ None (g :: todo)) →
    register_step (s, ts) (s, <[i := Registrar done_ (Some (begin_task g)) todo]> ts)
| register_word s s' ts i done_ g t rest r cur todo x y hid :
    ts !! i = Some (Registrar done_ (Some (Task g (t :: rest) r cur 0)) todo) →
    cheap s !! x = None →                   (* what malloc would return *)
    register_token s r t (Malloc (Some x) hid) = Ret (Some (s', y)) →
    register_step (s, ts) (s', <[i := Registrar done_ (Some (Task g rest (Child y) (Some y) 0)) todo]> ts)
| register_stores s h ts i done_ g r x k nd todo :
    ts !! i = Some (Registrar done_ (Some (Task g [] r (Some x) k)) todo) → (k < 3)%nat →
    load (cheap s) (Some x) = Ret nd → store_data (cheap s) (Some x) (store_field k g (n_data nd)) = Ret h →
    register_step (s, ts) (set_cheap s h, <[i := Registrar done_ (Some (Task g [] r (Some x) (S k))) todo]> ts)
| register_returns s ts i done_ g r cur k todo :
    ts !! i = Some (Registrar done_ (Some (Task g [] r cur k)) todo) → cur = None ∨ k = 3%nat →
    register_step (s, ts) (s, <[i := Registrar (done_ ++ [g]) None todo]> ts).

Definition start_registrars (lists : list (list registration)) : list registrar := Registrar [] None <$> lists.

Definition all_registered (ts : list registrar) : Prop := Forall (λ t, r_doing t = None ∧ r_todo t = []) ts.

(** ** What a thread has achieved *)

(** The command [g] has its entry, as far as [k] assignments go. *)
Definition entry_has (k : nat) (g : registration) (e : entry) : Prop :=
  ((1 <= k)%nat → e_handler e = Some (g_handler g)) ∧ ((2 <= k)%nat → e_hasparams e = g_params g)
  ∧ ((3 <= k)%nat → e_hidden e = g_hidden g).

Section Shape.
Context (L : gmap loc (string * entry)) (B : command_head → list loc).

(** The words [p] lead to [r], and the entry there has the first [k] assignments of [g]. *)
Definition reached (g : registration) (p : list string) (r : command_head) (k : nat) : Prop :=
  resolve L B (Mode (g_mode g)) p = Some r
  ∧ ∀ q a, p = q ++ [a] → ∃ e, menu_find a (menus L B (g_mode g) q) = Some e ∧ entry_has k g e.

Definition task_ok (t : task) : Prop :=
  ∃ p, g_words (t_reg t) = p ++ t_rest t ∧ cur_at (t_node t) (t_cur t) ∧ (t_rest t ≠ [] → t_stores t = 0%nat)
     ∧ (t_stores t <= 3)%nat ∧ reached (t_reg t) p (t_node t) (t_stores t).

Definition registrar_ok (gs : list registration) (t : registrar) : Prop :=
  (∀ g, g ∈ r_done t → ∃ r, reached g (g_words g) r 3)
  ∧ (∀ k, r_doing t = Some k → task_ok k)
  ∧ (∀ g, g ∈ r_done t ++ (t_reg <$> option_list (r_doing t)) ++ r_todo t → g ∈ gs).
End Shape.

Record register_inv (gs : list registration) (st : clistate * list registrar) (B : command_head → list loc) : Prop := RegisterInv {
  ri_cli : cli_inv st.1 B;
  ri_threads i t : st.2 !! i = Some t → registrar_ok (labels (cheap st.1)) B gs t;
  ri_way m q a e : menu_find a (menus (labels (cheap st.1)) B m q) = Some e →
    ∃ g, g ∈ gs ∧ g_mode g = m ∧ ∃ k, g_words g = q ++ a :: k
}.

(** A word on a menu is a word that leads on. *)
Lemma menu_find_resolve L B m q a : tree_ok L B →
  is_Some (menu_find a (menus L B m q)) ↔ is_Some (resolve L B (Mode m) (q ++ [a])).
Proof.
  intros Ht. rewrite resolve_snoc. unfold menus. destruct (resolve L B (Mode m) q) as [r|]; [|by split; intros []].
  pose proof (named_find L (B r) a (to_listed _ _ Ht r)) as H. destruct (named L (B r) a) as [x|].
  - destruct H as (_ & e & _ & ->). cbn. split; eauto.
  - rewrite H. by split; intros [].
Qed.

(** What leads on leads somewhere. *)
Lemma resolve_prefix L B r p q z : resolve L B r (p ++ q) = Some z → is_Some (resolve L B r p).
Proof.
  revert r. induction p as [|a p IH]; intros r H; [by eexists|]. cbn in *. destruct (named L (B r) a); [by eapply IH|done].
Qed.

(** The tree grows by a word, or an entry is changed: what was reached stays reached. *)
Section Grow.
Context (L L' : gmap loc (string * entry)) (B B' : command_head → list loc).
Context (Hmono : ∀ m p z, resolve L B (Mode m) p = Some z → resolve L' B' (Mode m) p = Some z).

Lemma reached_grow g p r k : reached L B g p r k →
  (∀ q a e, p = q ++ [a] → menu_find a (menus L B (g_mode g) q) = Some e → entry_has k g e →
     ∃ e', menu_find a (menus L' B' (g_mode g) q) = Some e' ∧ entry_has k g e') →
  reached L' B' g p r k.
Proof. intros [Hr He] H. split; [by apply Hmono|]. intros q a E. destruct (He q a E) as (e & H1 & H2). by eapply H. Qed.
End Grow.

Lemma entry_has_zero g e : entry_has 0 g e.
Proof. repeat split; lia. Qed.

(** ** The steps *)
Section Steps.
Context (gs : list registration) (Hn : Forall (λ g, well_named g = true) gs) (Hc : no_conflict gs).

Lemma inv_threads s s' ts i t B B' :
  register_inv gs (s, ts) B → cli_inv s' B' →
  (∀ t, registrar_ok (labels (cheap s)) B gs t → registrar_ok (labels (cheap s')) B' gs t) →
  registrar_ok (labels (cheap s')) B' gs t →
  (∀ m q a e, menu_find a (menus (labels (cheap s')) B' m q) = Some e →
     ∃ g, g ∈ gs ∧ g_mode g = m ∧ ∃ k, g_words g = q ++ a :: k) →
  register_inv gs (s', <[i := t]> ts) B'.
Proof.
  intros Hi Hi' Hmono Ht Hway. split; [done| |done]. intros j t' [(_ & <- & _)|[_ Hj]]%list_lookup_insert_Some; [done|].
  by apply Hmono, (ri_threads _ _ _ Hi j).
Qed.

Lemma register_begins_inv s ts i done_ g todo B : register_inv gs (s, ts) B →
  ts !! i = Some (Registrar done_ None (g :: todo)) →
  register_inv gs (s, <[i := Registrar done_ (Some (begin_task g)) todo]> ts) B.
Proof.
  intros Hi Hts. destruct (ri_threads _ _ _ Hi i _ Hts) as (H1 & _ & H3). cbn in H3.
  assert (g ∈ gs) as Hg by (apply H3; set_solver). pose proof (proj1 (Forall_forall _ _) Hn g Hg) as Hw.
  eapply inv_threads; [done|apply Hi|done| |apply Hi]. split_and!; cbn; [done| |done].
  intros k [= <-]. exists []. cbn [begin_task t_reg t_rest t_node t_cur t_stores app]. rewrite tokens_join_words by (by apply well_named_words).
  split_and!; [done| |done|lia|]; [by destruct (g_mode g)|].
  split; [by destruct (g_mode g)|]. intros [] ?; done.
Qed.

Lemma register_returns_inv s ts i done_ g r cur k todo B : register_inv gs (s, ts) B →
  ts !! i = Some (Registrar done_ (Some (Task g [] r cur k)) todo) → cur = None ∨ k = 3%nat →
  register_inv gs (s, <[i := Registrar (done_ ++ [g]) None todo]> ts) B.
Proof.
  intros Hi Hts Hk. destruct (ri_threads _ _ _ Hi i _ Hts) as (H1 & H2 & H3). cbn in H3.
  assert (g ∈ gs) as Hg by (apply H3; set_solver). pose proof (proj1 (Forall_forall _ _) Hn g Hg) as Hw.
  destruct (H2 _ eq_refl) as (p & Hp & Hcur & _ & _ & Hr). cbn in Hp, Hcur, Hr. rewrite app_nil_r in Hp. subst p.
  eapply inv_threads; [done|apply Hi|done| |apply Hi]. split_and!; cbn; [|done|].
  - intros g' [Hd| ->%list_elem_of_singleton]%elem_of_app; [by apply H1|].
    destruct Hk as [->| ->]; [|by exists r]. exfalso.
    destruct (exists_last (well_named_nonempty g Hw)) as (q & a & E). destruct Hr as [Hr _].
    rewrite E, resolve_snoc in Hr. destruct (resolve _ _ _ q); [|done].
    destruct (named _ _ a); [|done]. injection Hr as <-. done.
  - intros g'. rewrite <-app_assoc. cbn. apply H3.
Qed.

Lemma register_word_inv s s' ts i done_ g t rest r cur todo x y hid B : register_inv gs (s, ts) B →
  ts !! i = Some (Registrar done_ (Some (Task g (t :: rest) r cur 0)) todo) → cheap s !! x = None →
  register_token s r t (Malloc (Some x) hid) = Ret (Some (s', y)) →
  ∃ B', register_inv gs (s', <[i := Registrar done_ (Some (Task g rest (Child y) (Some y) 0)) todo]> ts) B'.
Proof.
  intros Hi Hts Hx Htok. destruct (ri_threads _ _ _ Hi i _ Hts) as (H1 & H2 & H3). cbn in H3.
  assert (g ∈ gs) as Hg by (apply H3; set_solver).
  destruct (H2 _ eq_refl) as (p & Hp & _ & _ & _ & Hr & _). cbn in Hp, Hr.
  destruct (register_token_menus _ (g_mode g) s B p r t (Malloc (Some x) hid) (ri_cli _ _ _ Hi) (λ _ _, eq_refl) Hr)
    as (s1 & B' & x1 & E & Hi' & HD & Hr' & _ & Hmono); [by intros ? [= <-]|by eexists|].
  rewrite Htok in E. injection E as <- <-. cbn [garbage_hidden] in HD.
  assert (Hfind : ∀ m q a e, menu_find a (menus (labels (cheap s)) B m q) = Some e →
    menu_find a (menus (labels (cheap s')) B' m q) = Some e).
  { intros m q a e H. rewrite <-HD, menu_find_dir_token. by rewrite H. }
  assert (Hkeep : ∀ g p r k, reached (labels (cheap s)) B g p r k → reached (labels (cheap s')) B' g p r k).
  { intros g' p' r' k' H. eapply reached_grow; [exact Hmono|exact H|]. intros q a e _ He Hh. exists e. split; [by apply Hfind|done]. }
  exists B'. eapply inv_threads; [exact Hi|exact Hi'| | |].
  - intros th (G1 & G2 & G3). split_and!; [|intros k Hk|done].
    + intros g' Hg'. destruct (G1 g' Hg') as [r' Hr1]. exists r'. by apply Hkeep.
    + destruct (G2 k Hk) as (p' & ? & ? & ? & ? & ?). exists p'. split_and!; [done..|by apply Hkeep].
  - split_and!; cbn; [|intros k [= <-]|done].
    + intros g' Hg'. destruct (H1 g' Hg') as [r' Hr1]. exists r'. by apply Hkeep.
    + exists (p ++ [t]). cbn. split_and!; [by rewrite <-app_assoc|done|done|lia|]. split; [exact Hr'|].
      intros q a [-> ->]%app_inj_tail. 
      destruct (proj2 (menu_find_resolve (labels (cheap s')) B' (g_mode g) q a (ci_tree _ _ Hi'))) as [e He]; [by eexists|].
      exists e. split; [done|apply entry_has_zero].
  - intros m q a e. rewrite <-HD, menu_find_dir_token.
    destruct (menu_find a (menus (labels (cheap s)) B m q)) as [e1|] eqn:Em.
    + intros _. by eapply (ri_way _ _ _ Hi).
    + case_bool_decide as Hd; [|done]. injection Hd as -> -> ->. intros _. exists g. split_and!; [done..|]. by exists rest.
Qed.

(** An assignment keeps what earlier ones of the same command have done, and adds its own. *)
Lemma entry_has_stored k j g c : entry_has j g (entry_of c) → entry_has j g (entry_of (store_field k g c)).
Proof. intros (H1 & H2 & H3). destruct k as [|[|k]]; repeat split; cbn; auto. Qed.

Lemma entry_has_next k g c : (k < 3)%nat → entry_has k g (entry_of c) → entry_has (S k) g (entry_of (store_field k g c)).
Proof. intros Hk (H1 & H2 & H3). destruct k as [|[|[|k]]]; [..|lia]; repeat split; cbn; intros; auto with lia; lia. Qed.

(** The entry of the command that the words lead to. *)
Lemma entry_found s B m q t x nd : cli_inv s B → cheap s !! x = Some nd →
  resolve (labels (cheap s)) B (Mode m) (q ++ [t]) = Some (Child x) →
  menu_find t (menus (labels (cheap s)) B m q) = Some (entry_of (n_data nd)).
Proof.
  intros Hi Hx Hr. rewrite resolve_snoc in Hr. unfold menus. destruct (resolve _ B _ q) as [r|]; [|done].
  pose proof (named_find _ (B r) t (to_listed _ _ (ci_tree _ _ Hi) r)) as Ha.
  destruct (named _ (B r) t) as [y|]; [|done]. injection Hr as ->. destruct Ha as (_ & e' & Hl & Ha).
  rewrite labels_lookup, Hx in Hl. injection Hl as _ Hl. congruence.
Qed.

Lemma register_stores_inv s h ts i done_ g r x k nd todo B : register_inv gs (s, ts) B →
  ts !! i = Some (Registrar done_ (Some (Task g [] r (Some x) k)) todo) → (k < 3)%nat →
  load (cheap s) (Some x) = Ret nd → store_data (cheap s) (Some x) (store_field k g (n_data nd)) = Ret h →
  register_inv gs (set_cheap s h, <[i := Registrar done_ (Some (Task g [] r (Some x) (S k))) todo]> ts) B.
Proof.
  intros Hi Hts Hk Hload Hstore. destruct (ri_threads _ _ _ Hi i _ Hts) as (H1 & H2 & H3). cbn in H3.
  assert (g ∈ gs) as Hg by (apply H3; set_solver). pose proof (proj1 (Forall_forall _ _) Hn g Hg) as Hw.
  destruct (H2 _ eq_refl) as (p & Hp & Hcur & _ & _ & Hr & He). cbn in Hp, Hcur, Hr, He.
  rewrite app_nil_r in Hp. subst p. destruct (exists_last (well_named_nonempty g Hw)) as (q & t & E).
  destruct r as [m|x']; [done|]. injection Hcur as <-. rewrite E in Hr.
  assert (Hx : cheap s !! x = Some nd) by (unfold load, deref in Hload; destruct (cheap s !! x); [by injection Hload as ->|done]).
  destruct (store_entry_at _ s B (g_mode g) q t x (store_field k g (n_data nd)) (ri_cli _ _ _ Hi) (λ _ _, eq_refl) Hr)
    as (h' & E' & Hi' & HD & Hres); [by exists nd; destruct k as [|[|k]]|].
  rewrite Hstore in E'. injection E' as <-.
  pose proof (entry_found s B (g_mode g) q t x nd (ri_cli _ _ _ Hi) Hx Hr) as Hf.
  assert (Hh0 : entry_has k g (entry_of (n_data nd))) by (destruct (He q t E) as (e & Hf' & ?); congruence).
  assert (Hset : ∀ m q' a, menu_find a (menus (labels h) B m q')
    = if bool_decide ((m, q', a) = (g_mode g, q, t)) then Some (entry_of (store_field k g (n_data nd)))
      else menu_find a (menus (labels (cheap s)) B m q')).
  { intros m q' a. rewrite <-HD, menu_find_dir_set. case_bool_decide as Hd; [|done]. injection Hd as -> -> ->. by rewrite Hf. }
  assert (Hsame : ∀ g' q' a, g' ∈ gs → (g_mode g', q', a) = (g_mode g, q, t) → g_words g' = q' ++ [a] → g' = g).
  { intros g' q' a Hg' [= Em -> ->] Ew. apply (no_conflict_prefix gs); [done..|]. by rewrite Ew, E. }
  assert (Hkeep : ∀ g' p' r' k', k' = 0%nat ∨ (g' ∈ gs ∧ p' = g_words g') → reached (labels (cheap s)) B g' p' r' k' →
    reached (labels h) B g' p' r' k').
  { intros g' p' r' k' Hcase H. eapply reached_grow; [|exact H|]; [intros m p z; by rewrite Hres|].
    intros q' a e Ew He' Hh'. rewrite Hset. case_bool_decide as Hd; [|by exists e]. eexists. split; [done|].
    destruct Hcase as [->|[Hg' ->]]; [apply entry_has_zero|].
    assert (g' = g) as -> by (by eapply Hsame). injection Hd as -> ->.
    rewrite Hf in He'. injection He' as <-. by apply entry_has_stored. }
  eapply inv_threads; [exact Hi|exact Hi'| | |].
  - intros th (G1 & G2 & G3). split_and!; [|intros k' Hk'|done]; cbn.
    + intros g' Hg'. destruct (G1 g' Hg') as [r' Hr1]. exists r'. apply Hkeep; [|done]. right. split; [|done].
      apply G3. set_solver.
    + destruct (G2 k' Hk') as (p' & Hw' & Hcur' & Hz & Hle & Hr1). exists p'. split_and!; [done..|]. apply Hkeep; [|done].
      destruct (t_rest k') as [|b l]; [right|left; by apply Hz]. rewrite app_nil_r in Hw'. split; [|done].
      apply G3. rewrite Hk'. set_solver.
  - split_and!; cbn; [|intros k' [= <-]|done].
    + intros g' Hg'. destruct (H1 g' Hg') as [r' Hr1]. exists r'. apply Hkeep; [|done]. right. split; [|done]. apply H3. set_solver.
    + exists (g_words g). cbn. split_and!; [by rewrite app_nil_r|done|done|lia|].
      split; [by rewrite E, Hres|]. intros q' a Ew. rewrite E in Ew. apply app_inj_tail in Ew as [-> ->].
      rewrite Hset, bool_decide_true by done. eexists. split; [done|]. by apply entry_has_next.
  - intros m q' a e. cbn [cheap set_cheap]. rewrite Hset. case_bool_decide as Hd; [|apply (ri_way _ _ _ Hi)].
    injection Hd as -> -> ->. intros _. exists g. split_and!; [done..|]. by exists [].
Qed.

Lemma register_step_inv st st' B : register_inv gs st B → register_step st st' → ∃ B', register_inv gs st' B'.
Proof.
  intros Hi Hs. destruct Hs.
  - exists B. by eapply register_begins_inv.
  - by eapply register_word_inv.
  - exists B. by eapply register_stores_inv.
  - exists B. by eapply register_returns_inv.
Qed.

(** ** Progress *)

(** The steps a thread has before it. *)
Definition task_left (t : task) : nat := length (t_rest t) + (3 - t_stores t) + 1.
Definition registrar_left (t : registrar) : nat :=
  match r_doing t with Some k => task_left k | None => 0 end + sum_list_with (λ g, S (task_left (begin_task g))) (r_todo t).
Definition steps_left (ts : list registrar) : nat := sum_list_with registrar_left ts.

Lemma steps_left_insert ts i t t' : ts !! i = Some t → (registrar_left t' < registrar_left t)%nat →
  (steps_left (<[i := t']> ts) < steps_left ts)%nat.
Proof.
  unfold steps_left. revert i. induction ts as [|t0 ts IH]; intros [|i] H Hlt; [done|done| |].
  - injection H as ->. cbn. lia.
  - specialize (IH i H Hlt). change (<[S i := t']> (t0 :: ts)) with (t0 :: <[i := t']> ts). cbn [sum_list_with]. lia.
Qed.

Lemma step_decreases st st' : register_step st st' → (steps_left st'.2 < steps_left st.2)%nat.
Proof.
  intros Hs. destruct Hs as [? ? ? ? ? ? H|? ? ? ? ? ? ? ? ? ? ? ? ? ? H|? ? ? ? ? ? ? ? ? ? ? H|? ? ? ? ? ? ? ? ? H]; cbn [snd];
    (eapply steps_left_insert; [exact H|]); unfold registrar_left; cbn [r_doing r_todo sum_list_with].
  - lia.
  - unfold task_left. cbn [t_rest t_stores length]. lia.
  - unfold task_left. cbn [t_rest t_stores length]. lia.
  - unfold task_left. lia.
Qed.

Lemma steps_bounded n : ∀ st st', nsteps register_step n st st' → (n <= steps_left st.2)%nat.
Proof.
  induction n as [|n IH]; intros st st' H; [lia|].
  inversion H as [|? ? st1 ? Hs Hns]; subst. pose proof (step_decreases _ _ Hs). specialize (IH _ _ Hns). lia.
Qed.

Lemma register_progress s ts B : register_inv gs (s, ts) B → ¬ all_registered ts → ∃ st', register_step (s, ts) st'.
Proof.
  intros Hi Hnot. apply not_Forall_Exists, Exists_exists in Hnot; [|intros; solve_decision].
  destruct Hnot as (t & (i & Hts)%list_elem_of_lookup & Hnot). pose proof (ri_threads _ _ _ Hi i t Hts) as (_ & H2 & H3).
  destruct t as [done_ [[g rest r cur k]|] todo]; cbn in *.
  - assert (g ∈ gs) as Hg by (apply H3; set_solver). pose proof (proj1 (Forall_forall _ _) Hn g Hg) as Hw.
    destruct (H2 _ eq_refl) as (p & Hp & Hcur & Hz & Hle & Hr & _). cbn in *. destruct rest as [|t rest].
    + destruct (decide (k = 3%nat)) as [->|Hk]; [eexists; by eapply register_returns; [|right]|].
      rewrite app_nil_r in Hp. subst p. destruct r as [m|x].
      { eexists. eapply register_returns; [done|by left]. }
      unfold cur_at in Hcur. subst cur. pose proof (resolve_valid _ _ (Mode (g_mode g)) _ _ I Hr) as [le Hl].
      rewrite labels_lookup in Hl. destruct (cheap s !! x) as [nd|] eqn:Hx; [|done].
      eexists. eapply register_stores; [done|lia|unfold load, deref; by rewrite Hx|unfold store_data, deref; by rewrite Hx].
    + rewrite Hz in * by done.
      destruct (register_token_menus _ (g_mode g) s B p r t (Malloc (Some (fresh (dom (cheap s)))) false) (ri_cli _ _ _ Hi) (λ _ _, eq_refl) Hr)
        as (s1 & B' & x1 & E & _); [intros ? [= <-]; apply not_elem_of_dom, is_fresh|by eexists|].
      eexists. eapply register_word; [done| |exact E]. apply not_elem_of_dom, is_fresh.
  - destruct todo as [|g todo]; [by destruct Hnot|]. eexists. by eapply register_begins.
Qed.

Lemma registration_can_end n st B : register_inv gs st B → (steps_left st.2 <= n)%nat →
  ∃ st', rtc register_step st st' ∧ all_registered st'.2.
Proof.
  revert st B. induction n as [|n IH]; intros [s ts] B Hi Hn';
    (destruct (decide (all_registered ts)) as [Hall|Hnot]; [by exists (s, ts)|]);
    destruct (register_progress s ts B Hi Hnot) as [st1 Hs]; pose proof (step_decreases _ _ Hs); cbn in *; [lia|].
  destruct (register_step_inv _ _ _ Hi Hs) as [B1 Hi1]. destruct (IH st1 B1 Hi1) as (st' & Hr & Hall); [lia|].
  exists st'. split; [by eapply rtc_l|done].
Qed.

(** ** The end *)
Lemma all_offered s ts B : register_inv gs (s, ts) B → all_registered ts →
  (∀ g, g ∈ gs → ∃ i t, ts !! i = Some t ∧ g ∈ r_done t) → offers (menus (labels (cheap s)) B) gs.
Proof.
  intros Hi Hall Hdone. split; [apply (ri_way _ _ _ Hi)|]. intros g q a k Hg E.
  destruct (Hdone g Hg) as (i & t & Ht & Hgd). destruct (ri_threads _ _ _ Hi i t Ht) as (H1 & _ & _).
  destruct (H1 g Hgd) as (r & Hr & He). pose proof (ci_tree _ _ (ri_cli _ _ _ Hi)) as Htree. cbn [fst] in *.
  destruct k as [|b k].
  - destruct (He q a E) as ([f p hid] & Hf & Hh1 & Hh2 & Hh3). eexists. split; [exact Hf|]. intros _. cbn in *.
    rewrite Hh1, Hh2, Hh3 by lia. done.
  - destruct (proj2 (menu_find_resolve (labels (cheap s)) B (g_mode g) q a Htree)) as [e He']; [|by exists e].
    rewrite E in Hr. replace (q ++ a :: b :: k) with ((q ++ [a]) ++ b :: k) in Hr by (by rewrite <-app_assoc).
    by eapply resolve_prefix.
Qed.
End Steps.

(** Nothing is forgotten. *)
Definition commands_of (t : registrar) : list registration := r_done t ++ (t_reg <$> option_list (r_doing t)) ++ r_todo t.

Definition all_commands (ts : list registrar) : list (list registration) := commands_of <$> ts.

Lemma step_commands st st' : register_step st st' → all_commands st'.2 = all_commands st.2.
Proof.
  assert (∀ ts i (t t' : registrar), ts !! i = Some t → commands_of t' = commands_of t →
    all_commands (<[i := t']> ts) = all_commands ts) as H.
  { intros ts i t t' Ht E. unfold all_commands. rewrite list_fmap_insert, E. apply list_insert_id. by rewrite list_lookup_fmap, Ht. }
  intros Hs. destruct Hs; cbn [snd]; (eapply H; [done|]); unfold commands_of; cbn; [done..|]. by rewrite <-app_assoc.
Qed.

Lemma registrars_start_inv gs lists : gs = concat lists → register_inv gs (initial_cli, start_registrars lists) (λ _, []).
Proof.
  intros ->. split.
  - split; [intros [m|x] hd; simpl; [intros [= <-]; by apply dll_nil|done]|].
    split; [set_solver|set_solver|intros r; constructor|set_solver].
  - intros i t. cbn. unfold start_registrars. rewrite list_lookup_fmap. intros (gs & Hg & ->)%fmap_Some.
    split_and!; cbn; [set_solver|done|]. intros g Hin. rewrite list_elem_of_In, in_concat. exists gs.
    rewrite <-!list_elem_of_In. split; [by eapply list_elem_of_lookup_2|done].
  - intros m q a e. cbn. unfold menus. destruct (resolve _ _ _ q) as [r|]; [by destruct r|done].
Qed.

Lemma reached_commands lists st : rtc register_step (initial_cli, start_registrars lists) st →
  all_commands st.2 = lists.
Proof.
  revert st. apply rtc_ind_r.
  - cbn [snd]. unfold all_commands, start_registrars. rewrite <-list_fmap_compose. rewrite (list_fmap_ext _ id); [apply list_fmap_id|done].
  - intros st st' _ Hs IH. by rewrite (step_commands _ _ Hs).
Qed.

Lemma reached_inv lists st : Forall (λ g, well_named g = true) (concat lists) → no_conflict (concat lists) →
  rtc register_step (initial_cli, start_registrars lists) st → ∃ B, register_inv (concat lists) st B.
Proof.
  intros Hn Hc. revert st. apply rtc_ind_r; [eexists; by apply registrars_start_inv|].
  intros st st' _ Hs [B HB]. by eapply register_step_inv.
Qed.

Lemma registered_done lists st : rtc register_step (initial_cli, start_registrars lists) st → all_registered st.2 →
  ∀ g, g ∈ concat lists → ∃ i t, st.2 !! i = Some t ∧ g ∈ r_done t.
Proof.
  intros Hr Hall g Hg. rewrite <-(reached_commands lists st Hr), list_elem_of_In, in_concat in Hg.
  destruct Hg as (l & Hl & Hg). apply list_elem_of_In in Hl, Hg. unfold all_commands in Hl.
  apply list_elem_of_fmap in Hl as (t & -> & Ht). pose proof Ht as (i & Hi)%list_elem_of_lookup.
  exists i, t. split; [done|]. destruct (proj1 (Forall_forall _ _) Hall t Ht) as [Hd Htodo].
  unfold commands_of in Hg. rewrite Hd, Htodo in Hg. cbn in Hg. by rewrite app_nil_r in Hg.
Qed.

(** C29: Registration by concurrent threads.  However the commands of the program are spread over threads and
    however these interleave, word by word and assignment by assignment, and whatever [malloc] leaves in
    the nodes: registration ends, after a number of steps known beforehand, and is never stuck; and then the
    words of every command, followed by any parameters, run its handler, exactly once, with those
    parameters (none if it takes none), and show the prompt of the mode the handler chose. *)
Theorem program_registered lists st :
  concat lists ≡ₚ program_commands → rtc register_step (initial_cli, start_registrars lists) st →
  (∀ n st', nsteps register_step n st st' → (n <= steps_left st.2)%nat)
  ∧ (∃ st', rtc register_step st st' ∧ all_registered st'.2)
  ∧ (all_registered st.2 → ∀ W (run : t_commandfunction → list string → option loc → W → outcome (W * commandresult * list string)) g ps m data w,
       g ∈ program_commands → forallb is_word ps = true → default globalmode m = g_mode g →
       execute_commands run st.1 m data (join_words (g_words g ++ ps)) w
       = ('(w, result, out) ← run (g_handler g) (if g_params g then ps else []) data w;
          Ret (w, result, out ++ (if finished result =? 1 then [] else [cli_mode_prompt (r_mode result)])))).
Proof.
  intros Hp Hr.
  assert (Hn : Forall (λ g, well_named g = true) (concat lists)) by (rewrite Hp; repeat constructor).
  assert (Hc : no_conflict (concat lists)) by (apply (no_conflict_perm program_commands); [done|apply program_no_conflict]).
  destruct (reached_inv lists st Hn Hc Hr) as [B HB]. split_and!.
  - intros n st'. apply steps_bounded.
  - by eapply registration_can_end.
  - intros Hall W run g ps m data w Hg Hps Hm. destruct st as [s ts]. cbn in *.
    eapply (offered_command_runs run s (menus (labels (cheap s)) B) (concat lists)); [|eapply all_offered; [done|done|by eapply (registered_done lists (s, ts))]| | |by rewrite Hp| |]; try done.
    exists B. split; [apply HB|done].
Qed.

(** ** Witness *)

(** The threads of the program that register commands: the command line manager, and [main] with the commands of dead
    session detection, [start_ipc] and [start_wccp] first. *)
Definition program_threads : list (list registration) :=
  [take 6 program_commands; drop 13 program_commands ++ take 7 (drop 6 program_commands)].

Lemma program_registered_witness :
  ∃ st, rtc register_step (initial_cli, start_registrars program_threads) st ∧ all_registered st.2
    ∧ execute_commands demo_run st.1 None None (join_words (["no"; "neighbor"] ++ ["10.0.0.1"])) []
      = Ret ([["10.0.0.1"]], CommandResult 0 None None, ["opennopd# "]).
Proof.
  assert (Hp : concat program_threads ≡ₚ program_commands) by (apply (bool_decide_unpack _); by vm_compute).
  destruct (program_registered program_threads _ Hp (rtc_refl _ _)) as (_ & (st & Hr & Hall) & _).
  destruct (program_registered program_threads st Hp Hr) as (_ & _ & Hrun). exists st. split_and!; [exact Hr|exact Hall|].
  refine (Hrun Hall _ demo_run (Reg globalmode ["no"; "neighbor"] cli_no_neighbor true false) ["10.0.0.1"] None None [] _ _ _).
  - unfold program_commands. by repeat (apply list_elem_of_here || apply list_elem_of_further).
  - done.
  - done.
Defined.
