(* ===== verification/CliServer.v ===== *)
(** * The command line server (opennopd/subsystems/climanager.c)

    The loop of [start_cli_server] and the threads of [client_handler], interleaved
    with the clients on their stream sockets.  The tree of commands is complete; a
    command runs as one step. *)
From S2P Require Import Prelude Dll Tokens Cli CliMenus CliConsole.
#[local] Open Scope Z_scope.
#[local] Open Scope list_scope.

Definition MAX_BUFFER_SIZE : Z := 1024.

(** ** State *)

(** Where [start_cli_server] is: in [accept], before [pthread_create], or behind its loop. *)
Inductive server_pc := Accepting | Creating | Left.

(** A thread of [client_handler]: not yet at its first line, in [recv] with its local
    variables, or returned with [finish]. *)
Inductive thread :=
| Starting
| Session (sock : Z) (m : option mode) (data : option loc)
| Ended (finish : bool).

(** A connection: what the client sent, the part of it that no [recv] has delivered, the
    messages that were delivered and what the daemon sent. *)
Record connection := Connection {
  sent : string; inbox : string; received : list string; outbox : list string; gone : bool
}.

(** [client_sock] is the local variable whose address every thread gets; [open] says which
    connection a descriptor of the daemon is, [daemon] is the state the commands work on. *)
Record server (W : Type) := Server {
  at_ : server_pc; client_sock : Z; threads : list thread;
  open : gmap Z nat; connections : list connection; daemon : W
}.
Arguments Server {W}.
Arguments at_ {W}.
Arguments client_sock {W}.
Arguments threads {W}.
Arguments open {W}.
Arguments connections {W}.
Arguments daemon {W}.

Definition new_connection : connection := Connection "" "" [] [] false.
Definition add_output (out : list string) (c : connection) : connection :=
  Connection (sent c) (inbox c) (received c) (outbox c ++ out) (gone c).
Definition add_input (text : string) (c : connection) : connection :=
  Connection (sent c +:+ text) (inbox c +:+ text) (received c) (outbox c) (gone c).
Definition deliver (msg rest : string) (c : connection) : connection :=
  Connection (sent c) rest (received c ++ [msg]) (outbox c) (gone c).
Definition leave (c : connection) : connection :=
  Connection (sent c) (inbox c) (received c) (outbox c) true.

Definition start_server {W} (w : W) : server W := Server Accepting 0 [] ∅ [] w.

Section Server.
Context {W : Type} (run : t_commandfunction → list string → option loc → W →
                          outcome (W * commandresult * list string)) (s : clistate).

(** [cli_prompt] on a descriptor that may not be open. *)
Definition send_prompt (st : server W) (sock : Z) : list connection :=
  match open st !! sock with
  | Some c => alter (add_output [cli_mode_prompt None]) c (connections st)
  | None => connections st
  end.

(** What may come out of [recv]: a non-empty piece of what was sent, as long as the buffer at most. *)
Definition chunk_of (inbox msg rest : string) : Prop :=
  inbox = msg +:+ rest ∧ 0 < Z.of_nat (String.length msg) <= MAX_BUFFER_SIZE.

Inductive server_step : server W → server W → Prop :=
| accept_connection fd st : at_ st = Accepting → 0 <= fd → open st !! fd = None →
    server_step st (Server (if fd =? 0 then Left else Creating) fd (threads st)
      (<[fd := length (connections st)]> (open st)) (connections st ++ [new_connection]) (daemon st))
| accept_fails st : at_ st = Accepting → (* -1 is not 0 either *)
    server_step st (Server Creating (-1) (threads st) (open st) (connections st) (daemon st))
| create_thread st : at_ st = Creating →
    server_step st (Server Accepting (client_sock st) (threads st ++ [Starting]) (open st) (connections st) (daemon st))
| create_fails st : at_ st = Creating → (* the result is a positive error number *)
    server_step st (Server Accepting (client_sock st) (threads st) (open st) (connections st) (daemon st))
| thread_starts i st : threads st !! i = Some Starting →
    server_step st (Server (at_ st) (client_sock st) (<[i := Session (client_sock st) None None]> (threads st))
      (open st) (send_prompt st (client_sock st)) (daemon st))
| thread_receives i sock m data c cn msg rest w result out st :
    threads st !! i = Some (Session sock m data) → open st !! sock = Some c → connections st !! c = Some cn →
    chunk_of (inbox cn) msg rest →
    execute_commands run s m data (message_line msg) (daemon st) = Ret (w, result, out) →
    let stays := finished result =? 0 in
    server_step st (Server (at_ st) (client_sock st)
      (<[i := if stays then Session sock (r_mode result) (r_data result) else Ended true]> (threads st))
      (if stays then open st else delete sock (open st))
      (<[c := add_output out (deliver msg rest cn)]> (connections st)) w)
| thread_disconnected i sock m data c cn st :
    threads st !! i = Some (Session sock m data) → open st !! sock = Some c → connections st !! c = Some cn →
    gone cn = true →
    server_step st (Server (at_ st) (client_sock st) (<[i := Ended false]> (threads st)) (open st) (connections st) (daemon st))
| thread_bad_descriptor i sock m data st :
    threads st !! i = Some (Session sock m data) → open st !! sock = None →
    server_step st (Server (at_ st) (client_sock st) (<[i := Ended false]> (threads st)) (open st) (connections st) (daemon st))
| client_sends c cn text st : connections st !! c = Some cn → gone cn = false →
    server_step st (Server (at_ st) (client_sock st) (threads st) (open st) (<[c := add_input text cn]> (connections st)) (daemon st))
| client_leaves c cn st : connections st !! c = Some cn →
    server_step st (Server (at_ st) (client_sock st) (threads st) (open st) (<[c := leave cn]> (connections st)) (daemon st)).

(** ** Sessions *)

(** The messages of a session, its mode, data and output after them, and whether a command ended it;
    between two messages other sessions may change the state of the daemon. *)
Inductive conversation : list string → option mode → option loc → list string → bool → Prop :=
| conversation_start : conversation [] None None [cli_mode_prompt None] false
| conversation_message msgs m data out msg w w' result out' :
    conversation msgs m data out false →
    execute_commands run s m data (message_line msg) w = Ret (w', result, out') →
    conversation (msgs ++ [msg]) (r_mode result) (r_data result) (out ++ out') (negb (finished result =? 0)).

(** A connection taken up slowly: [accept] returns a new descriptor, and is only called when every thread has
    read its argument; threads can be created. *)
Definition orderly (st st' : server W) : Prop :=
  match at_ st, at_ st' with
  | Accepting, Creating => Starting ∉ threads st ∧ 0 < client_sock st'
  | Accepting, Left => False
  | Creating, Accepting => threads st' = threads st ++ [Starting]
  | _, _ => True
  end.

Definition orderly_step (st st' : server W) : Prop := server_step st st' ∧ orderly st st'.

(** What connection [c] and the thread of the same number have to do with each other. *)
Definition paired (st : server W) (c : nat) (cn : connection) (t : option thread) : Prop :=
  sent cn = foldr String.append (inbox cn) (received cn)
  ∧ match t with
    | None => at_ st = Creating ∧ open st !! client_sock st = Some c ∧ received cn = [] ∧ outbox cn = []
    | Some Starting => open st !! client_sock st = Some c ∧ received cn = [] ∧ outbox cn = []
    | Some (Session sock m data) => open st !! sock = Some c ∧ conversation (received cn) m data (outbox cn) false
    | Some (Ended finish) => ((∃ fd, open st !! fd = Some c) ↔ finish = false)
        ∧ ∃ m data, conversation (received cn) m data (outbox cn) finish
    end.

(** As many threads as connections, but for the one being created, each with its own connection. *)
Record server_inv (st : server W) : Prop := ServerInv {
  si_threads : length (connections st) = match at_ st with Creating => S (length (threads st)) | _ => length (threads st) end;
  si_open fd c : open st !! fd = Some c → (c < length (connections st))%nat;
  si_inj fd fd' c : open st !! fd = Some c → open st !! fd' = Some c → fd = fd';
  si_last c : threads st !! c = Some Starting → at_ st = Accepting ∧ S c = length (connections st);
  si_paired c cn : connections st !! c = Some cn → paired st c cn (threads st !! c)
}.

(** ** The invariant *)
Lemma concat_snoc l x rest : foldr String.append rest (l ++ [x]) = foldr String.append (x +:+ rest) l.
Proof. by rewrite foldr_app. Qed.

Lemma string_app_assoc (a b c : string) : (a +:+ b) +:+ c = a +:+ b +:+ c.
Proof. induction a as [|x a IH]; [done|]. change (String x ((a +:+ b) +:+ c) = String x (a +:+ b +:+ c)). by rewrite IH. Qed.

Lemma concat_add l rest x : foldr String.append (rest +:+ x) l = foldr String.append rest l +:+ x.
Proof. induction l as [|a l IH]; [done|]. cbn [foldr]. by rewrite IH, string_app_assoc. Qed.

Lemma alter_as_insert {A} (f : A → A) (l : list A) i x : l !! i = Some x → alter f i l = <[i := f x]> l.
Proof. revert i. induction l as [|y l IH]; intros [|i] H; [done..|by injection H as ->|]. cbn. f_equal. by apply IH. Qed.

(** What happens to others leaves a pair alone. *)
Lemma paired_frame st st' c cn t : at_ st' = at_ st → client_sock st' = client_sock st →
  (∀ fd, open st' !! fd = Some c ↔ open st !! fd = Some c) → paired st c cn t → paired st' c cn t.
Proof.
  intros Ha Hc Ho [Hs Ht]. split; [done|]. destruct t as [[|sock m data|finish]|]; rewrite ?Ha, ?Hc, ?Ho; [done..| |done].
  destruct Ht as [Hex Hconv]. split; [|done]. rewrite <- Hex. by setoid_rewrite Ho.
Qed.

(** A connection is replaced, its thread too; the descriptors of the others stay. *)
Lemma inv_update st st' c cn cn' : server_inv st → connections st !! c = Some cn → connections st' = <[c := cn']> (connections st) →
  at_ st' = at_ st → client_sock st' = client_sock st → length (threads st') = length (threads st) →
  (∀ c', c' ≠ c → threads st' !! c' = threads st !! c') → (threads st' !! c = Some Starting → threads st !! c = Some Starting) →
  (∀ fd c', open st' !! fd = Some c' → open st !! fd = Some c') →
  (∀ fd c', c' ≠ c → open st !! fd = Some c' → open st' !! fd = Some c') →
  paired st' c cn' (threads st' !! c) → server_inv st'.
Proof.
  intros Hi Hc Hcs Ha Hk Hl Hoth Hst Hsub Hkeep Hp. split.
  - rewrite Hcs, length_insert, Ha, Hl. apply Hi.
  - intros fd c' Hfd. rewrite Hcs, length_insert. eapply si_open; eauto.
  - intros fd fd' c' H1 H2. eapply si_inj; eauto.
  - intros c' Hc'. rewrite Ha, Hcs, length_insert. apply Hi. destruct (decide (c' = c)) as [->|Hne]; [by apply Hst|].
    by rewrite <- Hoth.
  - intros c' cn2. rewrite Hcs. destruct (decide (c' = c)) as [->|Hne].
    + rewrite list_lookup_insert_eq by (by eapply lookup_lt_Some). by intros [= <-].
    + rewrite list_lookup_insert_ne by done. intros Hc2. rewrite Hoth by done.
      eapply paired_frame; [done|done| |by apply (si_paired _ Hi)]. intros fd. split; [by apply Hsub|by apply Hkeep].
Qed.

Lemma inv_start w : server_inv (start_server w).
Proof. by split. Qed.

Lemma inv_accept st fd : server_inv st → at_ st = Accepting → Starting ∉ threads st → 0 < fd → open st !! fd = None →
  server_inv (Server Creating fd (threads st) (<[fd := length (connections st)]> (open st))
    (connections st ++ [new_connection]) (daemon st)).
Proof.
  intros Hi Ha Hs Hfd Hnew. pose proof (si_threads _ Hi) as Hl. rewrite Ha in Hl. split; cbn.
  - rewrite length_app. cbn. lia.
  - intros fd' c [[<- <-]|[Hne H]]%lookup_insert_Some; rewrite length_app; cbn; [lia|].
    apply (si_open _ Hi) in H. lia.
  - intros fd1 fd2 c [[<- <-]|[Hne1 H1]]%lookup_insert_Some [[<- H]|[Hne2 H2]]%lookup_insert_Some; [done| | |by eapply si_inj].
    + apply (si_open _ Hi) in H2. lia.
    + subst c. apply (si_open _ Hi) in H1. lia.
  - intros c H. by destruct Hs; eapply list_elem_of_lookup_2.
  - intros c cn [H|[Hge H]]%lookup_app_Some.
    + pose proof (lookup_lt_Some _ _ _ H) as Hc. destruct (lookup_lt_is_Some_2 (threads st) c) as [t Ht]; [lia|].
      pose proof (si_paired _ Hi c cn H) as [Hs' Hp]. rewrite Ht in Hp |- *. split; [done|].
      destruct t as [|sock m data|finish]; cbn.
      * by destruct Hs; eapply list_elem_of_lookup_2.
      * destruct Hp as [Ho Hp]. split; [|done]. rewrite lookup_insert_ne; [done|]. intros <-. congruence.
      * destruct Hp as [Ho Hp]. split; [|done]. rewrite <- Ho. split; intros [fd' H'].
        -- exists fd'. apply lookup_insert_Some in H' as [[_ ?]|[_ H']]; [lia|done].
        -- exists fd'. rewrite lookup_insert_ne; [done|]. intros <-. congruence.
    + apply list_lookup_singleton_Some in H as [Hz <-]. assert (c = length (connections st)) as -> by lia.
      rewrite lookup_ge_None_2 by lia. split; [done|]. split_and!; [done| |done..]. cbn. by rewrite lookup_insert_eq.
Qed.

Lemma inv_create st : server_inv st → at_ st = Creating →
  server_inv (Server Accepting (client_sock st) (threads st ++ [Starting]) (open st) (connections st) (daemon st)).
Proof.
  intros Hi Ha. pose proof (si_threads _ Hi) as Hl. rewrite Ha in Hl. split; cbn.
  - rewrite length_app. cbn. lia.
  - apply Hi.
  - apply Hi.
  - intros c [H|[Hge H]]%lookup_app_Some.
    + apply (si_last _ Hi) in H as [H _]. congruence.
    + apply list_lookup_singleton_Some in H as [Hz _]. split; [done|lia].
  - intros c cn H. pose proof (si_paired _ Hi c cn H) as [Hs Hp]. split; [done|]. cbn.
    destruct (decide (c = length (threads st))) as [->|Hne].
    + rewrite lookup_app_r, Nat.sub_diag by lia. rewrite lookup_ge_None_2 in Hp by lia. cbn. tauto.
    + pose proof (lookup_lt_Some _ _ _ H). rewrite lookup_app_l by lia.
      destruct (lookup_lt_is_Some_2 (threads st) c) as [t Ht]; [lia|]. by rewrite Ht in Hp |- *.
Qed.

(** The connection a session's descriptor stands for is its own. *)
Lemma session_own st i sock m data c cn : server_inv st → threads st !! i = Some (Session sock m data) →
  open st !! sock = Some c → connections st !! c = Some cn → i = c.
Proof.
  intros Hi Ht Ho Hc. pose proof (si_threads _ Hi) as Hl. pose proof (lookup_lt_Some _ _ _ Ht).
  destruct (lookup_lt_is_Some_2 (connections st) i) as [cn' H']; [destruct (at_ st); lia|].
  pose proof (si_paired _ Hi i cn' H') as [_ Hp]. rewrite Ht in Hp. destruct Hp as [Ho' _]. congruence.
Qed.

Lemma inv_receive st i sock m data c cn msg rest w result out : server_inv st →
  threads st !! i = Some (Session sock m data) → open st !! sock = Some c → connections st !! c = Some cn →
  chunk_of (inbox cn) msg rest →
  execute_commands run s m data (message_line msg) (daemon st) = Ret (w, result, out) →
  let stays := finished result =? 0 in
  server_inv (Server (at_ st) (client_sock st)
    (<[i := if stays then Session sock (r_mode result) (r_data result) else Ended true]> (threads st))
    (if stays then open st else delete sock (open st))
    (<[c := add_output out (deliver msg rest cn)]> (connections st)) w).
Proof.
  intros Hi Ht Ho Hc [Hin _] Hx stays. assert (i = c) as -> by (by eapply session_own).
  pose proof (lookup_lt_Some _ _ _ Ht) as Hlt.
  pose proof (si_paired _ Hi c cn Hc) as [Hs Hp]. rewrite Ht in Hp. destruct Hp as [_ Hconv].
  apply (inv_update st _ c cn (add_output out (deliver msg rest cn)) Hi Hc); cbn; try done.
  - by rewrite length_insert.
  - intros c' Hne. by rewrite list_lookup_insert_ne.
  - rewrite list_lookup_insert_eq by done. by destruct stays.
  - intros fd c'. destruct stays; [done|]. by intros [_ H]%lookup_delete_Some.
  - intros fd c' Hne H. destruct stays; [done|]. rewrite lookup_delete_ne; [done|]. intros <-. congruence.
  - rewrite list_lookup_insert_eq by done. split; cbn; [by rewrite Hs, concat_snoc, Hin|].
    pose proof (conversation_message _ _ _ _ _ _ _ _ _ Hconv Hx) as Hconv'. subst stays.
    destruct (finished result =? 0); [by split|]. split; [|by do 2 eexists]. split; [|done].
    intros [fd [Hne Hfd]%lookup_delete_Some]. destruct Hne. by eapply si_inj.
Qed.

Lemma inv_starts st i : server_inv st → threads st !! i = Some Starting →
  server_inv (Server (at_ st) (client_sock st) (<[i := Session (client_sock st) None None]> (threads st))
    (open st) (send_prompt st (client_sock st)) (daemon st)).
Proof.
  intros Hi Ht. pose proof (si_last _ Hi i Ht) as [Ha Hlast]. pose proof (lookup_lt_Some _ _ _ Ht) as Hlt.
  destruct (lookup_lt_is_Some_2 (connections st) i) as [cn Hc]; [lia|].
  pose proof (si_paired _ Hi i cn Hc) as [Hs Hp]. rewrite Ht in Hp. destruct Hp as (Ho & Hr & Hb).
  apply (inv_update st _ i cn (add_output [cli_mode_prompt None] cn) Hi Hc); cbn; try done.
  - unfold send_prompt. rewrite Ho. by apply alter_as_insert.
  - by rewrite length_insert.
  - intros c' Hne. by rewrite list_lookup_insert_ne.
  - rewrite list_lookup_insert_eq by done. split; [done|]. cbn. split; [done|]. rewrite Hr, Hb. apply conversation_start.
Qed.

Lemma inv_disconnected st i sock m data c cn : server_inv st → threads st !! i = Some (Session sock m data) →
  open st !! sock = Some c → connections st !! c = Some cn →
  server_inv (Server (at_ st) (client_sock st) (<[i := Ended false]> (threads st)) (open st) (connections st) (daemon st)).
Proof.
  intros Hi Ht Ho Hc. assert (i = c) as -> by (by eapply session_own). pose proof (lookup_lt_Some _ _ _ Ht) as Hlt.
  pose proof (si_paired _ Hi c cn Hc) as [Hs Hp]. rewrite Ht in Hp. destruct Hp as [_ Hconv].
  apply (inv_update st _ c cn cn Hi Hc); cbn; try done.
  - by rewrite list_insert_id.
  - by rewrite length_insert.
  - intros c' Hne. by rewrite list_lookup_insert_ne.
  - by rewrite list_lookup_insert_eq by done.
  - rewrite list_lookup_insert_eq by done. split; [done|]. split; [|by do 2 eexists]. split; [done|]. intros _. by exists sock.
Qed.

(** What a client does changes neither threads nor descriptors. *)
Lemma inv_client st c cn cn' : server_inv st → connections st !! c = Some cn →
  received cn' = received cn → outbox cn' = outbox cn → sent cn' = foldr String.append (inbox cn') (received cn') →
  server_inv (Server (at_ st) (client_sock st) (threads st) (open st) (<[c := cn']> (connections st)) (daemon st)).
Proof.
  intros Hi Hc Hr Hb Hs'. apply (inv_update st _ c cn cn' Hi Hc); try done.
  pose proof (si_paired _ Hi c cn Hc) as [Hs Hp]. split; [done|]. cbn. by rewrite Hr, Hb.
Qed.

Lemma inv_step st st' : server_inv st → orderly_step st st' → server_inv st'.
Proof.
  intros Hi [Hstep Ho]. destruct Hstep as [fd st Ha Hfd Hnew|st Ha|st Ha|st Ha|i st Ht|i sock m data c cn msg rest w result out st Ht Hop Hc Hin Hx stays|i sock m data c cn st Ht Hop Hc Hg|i sock m data st Ht Hop|c cn text st Hc Hg|c cn st Hc]; unfold orderly in Ho; cbn in Ho.
  - rewrite Ha in Ho. destruct (Z.eqb_spec fd 0); [done|]. destruct Ho. by apply inv_accept.
  - rewrite Ha in Ho. lia.
  - by apply inv_create.
  - rewrite Ha in Ho. apply (f_equal length) in Ho. rewrite length_app in Ho. cbn in Ho. lia.
  - by apply inv_starts.
  - by eapply inv_receive.
  - by eapply inv_disconnected.
  - pose proof (si_threads _ Hi) as Hl. pose proof (lookup_lt_Some _ _ _ Ht).
    destruct (lookup_lt_is_Some_2 (connections st) i) as [cn' H']; [destruct (at_ st); lia|].
    pose proof (si_paired _ Hi i cn' H') as [_ Hp]. rewrite Ht in Hp. destruct Hp. congruence.
  - pose proof (si_paired _ Hi c cn Hc) as [Hs _].
    eapply inv_client; [done..|]. cbn. by rewrite concat_add, Hs.
  - pose proof (si_paired _ Hi c cn Hc) as [Hs _]. by eapply inv_client.
Qed.
End Server.

(** * What the server promises *)

(** C30: When clients come slowly enough ([accept] is only called once every thread has read its argument) and
    nothing fails (each [accept] returns a descriptor above 0 and each [pthread_create] makes its thread), the server of the command line gives each connection its own thread:
    there are as many threads as connections, the thread of number c reads connection c only, gets
    every byte the client sent in order and once, its output is that of a conversation with the commands of the
    messages it got, and its descriptor is closed exactly when a command ended the session; a client that leaves costs a
    descriptor for ever. *)
Theorem cli_server_pairs {W} (run : t_commandfunction → list string → option loc → W → outcome (W * commandresult * list string))
    s w st :
  rtc (orderly_step run s) (start_server w) st →
  length (connections st) = (match at_ st with Creating => S (length (threads st)) | _ => length (threads st) end)
  ∧ (∀ fd fd' c, open st !! fd = Some c → open st !! fd' = Some c → fd = fd')
  ∧ ∀ c cn, connections st !! c = Some cn →
      sent cn = foldr String.append (inbox cn) (received cn)
      ∧ match threads st !! c with
        | None => at_ st = Creating ∧ open st !! client_sock st = Some c
        | Some Starting => open st !! client_sock st = Some c
        | Some (Session sock m data) => open st !! sock = Some c ∧ conversation run s (received cn) m data (outbox cn) false
        | Some (Ended finish) => ((∃ fd, open st !! fd = Some c) ↔ finish = false)
            ∧ ∃ m data, conversation run s (received cn) m data (outbox cn) finish
        end.
Proof.
  intros Hr. assert (server_inv run s st) as Hi by (revert st Hr; apply rtc_ind_r; [apply inv_start|intros; by eapply inv_step]).
  split_and!; [apply Hi|by apply Hi|]. intros c cn Hc. pose proof (si_paired _ _ _ Hi c cn Hc) as [Hs Hp]. split; [done|].
  destruct (threads st !! c) as [[| |]|]; naive_solver.
Qed.

(** ** Clients that come too fast *)
Section Unserved.
Context {W : Type} (run : t_commandfunction → list string → option loc → W →
                          outcome (W * commandresult * list string)) (s : clistate).

(** No thread has the descriptor of connection [c], and none can get it. *)
Record unserved (fd : Z) (c : nat) (st : server W) : Prop := Unserved {
  un_fd : 0 <= fd;
  un_open : open st !! fd = Some c;
  un_only fd' : open st !! fd' = Some c → fd' = fd;
  un_fresh : client_sock st ≠ fd;
  un_bound fd' c' : open st !! fd' = Some c' → (c' < length (connections st))%nat;
  un_threads i sock m data : threads st !! i = Some (Session sock m data) → sock ≠ fd;
  un_quiet cn : connections st !! c = Some cn → received cn = [] ∧ outbox cn = []
}.

(** A step that opens nothing. *)
Lemma unserved_update fd c st st' : unserved fd c st →
  open st' = open st ∨ (∃ sock, sock ≠ fd ∧ open st' = delete sock (open st)) → client_sock st' ≠ fd →
  (∀ i sock m data, threads st' !! i = Some (Session sock m data) → sock ≠ fd) → length (connections st') = length (connections st) →
  (∀ cn, connections st' !! c = Some cn → received cn = [] ∧ outbox cn = []) → unserved fd c st'.
Proof.
  intros Hu Ho Hk Ht Hl Hq.
  assert (∀ fd' c', open st' !! fd' = Some c' → open st !! fd' = Some c') as Hsub.
  { destruct Ho as [->|(sock & Hne & ->)]; [done|]. by intros fd' c' [_ ?]%lookup_delete_Some. }
  split; [apply Hu| | |done| |done|done].
  - destruct Ho as [->|(sock & Hne & ->)]; [|rewrite lookup_delete_ne by done]; apply Hu.
  - intros fd' H. by apply (un_only _ _ _ Hu), Hsub.
  - intros fd' c' H%Hsub. rewrite Hl. by eapply un_bound.
Qed.

Lemma threads_update fd c st i t : unserved fd c st → (∀ sock m data, t = Session sock m data → sock ≠ fd) →
  ∀ j sock m data, <[i := t]> (threads st) !! j = Some (Session sock m data) → sock ≠ fd.
Proof.
  intros Hu Ht j sock m data [(_ & H & _)|[_ H]]%list_lookup_insert_Some; [by eapply Ht|by eapply un_threads].
Qed.

(** A session on another descriptor is a session with another connection. *)
Lemma session_other fd c st sock d cn cn' : unserved fd c st → sock ≠ fd → open st !! sock = Some d →
  ∀ x, <[d := cn']> (connections st) !! c = Some x → connections st !! d = Some cn → received x = [] ∧ outbox x = [].
Proof.
  intros Hu Hne Ho x. destruct (decide (d = c)) as [->|Hd].
  - by destruct Hne; apply (un_only _ _ _ Hu).
  - rewrite list_lookup_insert_ne by done. intros H _. by apply (un_quiet _ _ _ Hu).
Qed.

Lemma client_quiet fd c st d cn cn' : unserved fd c st → connections st !! d = Some cn →
  received cn' = received cn → outbox cn' = outbox cn →
  ∀ x, <[d := cn']> (connections st) !! c = Some x → received x = [] ∧ outbox x = [].
Proof.
  intros Hu Hc Hr Ho x [(-> & <- & _)|[_ H]]%list_lookup_insert_Some; [rewrite Hr, Ho|]; by apply (un_quiet _ _ _ Hu).
Qed.

Lemma unserved_accept fd c st fd' pc : unserved fd c st → open st !! fd' = None →
  unserved fd c (Server pc fd' (threads st) (<[fd' := length (connections st)]> (open st))
    (connections st ++ [new_connection]) (daemon st)).
Proof.
  intros Hu Hnew. assert (fd ≠ fd') by (intros <-; pose proof (un_open _ _ _ Hu); congruence).
  pose proof (un_bound _ _ _ Hu fd c (un_open _ _ _ Hu)) as Hlt. split; cbn; [apply Hu| | |done| |apply Hu|].
  - rewrite lookup_insert_ne by done. apply Hu.
  - intros fd2 [[_ <-]|[_ H2]]%lookup_insert_Some; [lia|by eapply un_only].
  - intros fd2 c2 [[_ <-]|[_ H2%(un_bound _ _ _ Hu)]]%lookup_insert_Some; rewrite length_app; cbn; lia.
  - intros cn. rewrite lookup_app_l by done. apply Hu.
Qed.

Lemma unserved_step fd c st st' : unserved fd c st → server_step run s st st' → unserved fd c st'.
Proof.
  intros Hu Hstep. pose proof (un_fd _ _ _ Hu) as Hpos. pose proof (un_fresh _ _ _ Hu) as Hf.
  destruct Hstep as [fd' st Ha Hfd Hnew|st Ha|st Ha|st Ha|i st Ht|i sock m data d cn msg rest w result out st Ht Hop Hc Hin Hx stays|i sock m data d cn st Ht Hop Hc Hg|i sock m data st Ht Hop|d cn text st Hc Hg|d cn st Hc];
    [by apply unserved_accept|..];
    apply (unserved_update fd c st _ Hu); cbn; try done; try apply Hu; try by left.
  - lia.
  - intros i sock m data [H|[_ H]]%lookup_app_Some; [by eapply un_threads|]. by apply list_lookup_singleton_Some in H as [_ ?].
  - eapply threads_update; [done|]. by intros ??? [= <- _ _].
  - unfold send_prompt. destruct (open st !! client_sock st); [apply length_alter|done].
  - unfold send_prompt. destruct (open st !! client_sock st) as [d|] eqn:Ho; [|apply Hu]. intros x.
    destruct (decide (d = c)) as [->|Hd]; [by destruct Hf; apply (un_only _ _ _ Hu)|].
    rewrite list_lookup_alter_ne by done. apply Hu.
  - destruct stays; [by left|]. right. exists sock. split; [by eapply un_threads|done].
  - eapply threads_update; [done|]. intros ???. destruct stays; [|done]. intros [= <- _ _]. by eapply un_threads.
  - by rewrite length_insert.
  - intros x H. by eapply session_other; [| |exact Hop|exact H|]; [done|eapply un_threads|done].
  - by eapply threads_update.
  - by eapply threads_update.
  - by rewrite length_insert.
  - by eapply client_quiet.
  - by rewrite length_insert.
  - by eapply client_quiet.
Qed.
End Unserved.

(** When a second client is accepted before the thread of the first has read its argument, both threads
    serve the second client; the first is never served: whatever happens afterwards, it gets
    no prompt and nothing it sends is read. *)
Theorem overtaken_client_unserved {W} (run : t_commandfunction → list string → option loc → W → outcome (W * commandresult * list string))
    s (w : W) fd fd' : 0 < fd → 0 < fd' → fd ≠ fd' →
  ∃ st, rtc (server_step run s) (start_server w) st
    ∧ threads st = [Session fd' None None; Session fd' None None]
    ∧ ∀ st', rtc (server_step run s) st st' → ∃ cn, connections st' !! 0%nat = Some cn ∧ received cn = [] ∧ outbox cn = [].
Proof.
  intros Hfd Hfd' Hne. eexists. split_and!.
  - eapply rtc_l; [apply (accept_connection run s fd); [done|lia|done]|]. replace (fd =? 0) with false by lia.
    eapply rtc_l; [by apply create_thread|].
    eapply rtc_l; [apply (accept_connection run s fd'); [done|lia|cbn; by rewrite lookup_insert_ne]|]. replace (fd' =? 0) with false by lia.
    eapply rtc_l; [by apply create_thread|].
    eapply rtc_l; [by apply (thread_starts run s 0)|]. by apply rtc_once, (thread_starts run s 1).
  - done.
  - unfold send_prompt. cbn. rewrite !lookup_insert_eq. cbn. intros st' Hr.
    assert (unserved fd 0 st') as Hu.
    { revert st' Hr. apply rtc_ind_r; [|intros; by eapply unserved_step].
      split; cbn; [lia|by rewrite lookup_insert_ne, lookup_insert_eq| |done| | |].
      - intros fd2 [[_ ?]|[_ [[? _]|[_ ?]]%lookup_insert_Some]]%lookup_insert_Some; done.
      - intros fd2 c2 [[_ <-]|[_ [[_ <-]|[_ ?]]%lookup_insert_Some]]%lookup_insert_Some; [lia|lia|done].
      - intros [|[|i]] sock m data [= <- _ _]; done.
      - by intros cn [= <-]. }
    pose proof (un_bound _ _ _ Hu fd 0 (un_open _ _ _ Hu)) as Hlt. apply lookup_lt_is_Some_2 in Hlt as [cn Hcn].
    exists cn. split; [done|]. by apply (un_quiet _ _ _ Hu).
Qed.

(** ** Witnesses *)

(** The state after a client was accepted, typed [quit] and was served. *)
Definition quit_run (f : t_commandfunction) (ps : list string) (data : option loc) (w : Z) : outcome (Z * commandresult * list string) :=
  Ret (w + 1, CommandResult (if bool_decide (f = cli_quit) then 1 else 0) None None, []).

Definition quit_tree : clistate :=
  match register_command initial_cli None "quit" cli_quit false false (answers_from 1) with Ret (Some s) => s | _ => initial_cli end.

Definition served : server Z :=
  Server Accepting 4 [Ended true] ∅
    [Connection ("quit" +:+ newline) "" ["quit" +:+ newline] [cli_mode_prompt None] false] 1.

Definition typed_quit : server Z :=
  Server Accepting 4 [Session 4 None None] {[4 := 0%nat]}
    [Connection ("quit" +:+ newline) ("quit" +:+ newline) [] [cli_mode_prompt None] false] 0.

Lemma served_reachable : rtc (orderly_step quit_run quit_tree) (start_server 0) served.
Proof.
  transitivity typed_quit.
  - eapply rtc_l; [split; [apply (accept_connection _ _ 4); done|cbn; split; [by intros ?%not_elem_of_nil|done]]|].
    eapply rtc_l; [split; [by apply create_thread|done]|].
    eapply rtc_l; [split; [by apply (thread_starts _ _ 0)|done]|]. cbn.
    apply rtc_once. split; [|done]. by apply (client_sends _ _ 0 (add_output [cli_mode_prompt None] new_connection) ("quit" +:+ newline)).
  - apply rtc_once. split; [|done].
    by apply (thread_receives quit_run quit_tree 0 4 None None 0
      (Connection ("quit" +:+ newline) ("quit" +:+ newline) [] [cli_mode_prompt None] false)
      ("quit" +:+ newline) "" 1 (CommandResult 1 None None) [] typed_quit).
Qed.

Lemma cli_server_pairs_witness :
  length (connections served) = length (threads served) ∧ ∀ fd, open served !! fd ≠ Some 0%nat.
Proof.
  destruct (cli_server_pairs quit_run quit_tree 0 served served_reachable) as (H1 & _ & H3). split; [exact H1|].
  intros fd Hfd. destruct (H3 0%nat _ eq_refl) as [_ [Hiff _]]. by assert (true = false) by (apply Hiff; by exists fd).
Defined.

Lemma overtaken_client_unserved_witness :
  ∃ st, rtc (server_step quit_run quit_tree) (start_server 0) st
    ∧ threads st = [Session 5 None None; Session 5 None None]
    ∧ ∀ st', rtc (server_step quit_run quit_tree) st st' → ∃ cn, connections st' !! 0%nat = Some cn ∧ received cn = [] ∧ outbox cn = [].
Proof. by apply (overtaken_client_unserved quit_run quit_tree 0 4 5). Defined.
