(* ===== verification/CliClient.v ===== *)
(** * The command line client (opennop/opennop.c)

    The loop of [main] over what [readline] answers, the thread that prints what the
    server sends, and the way of a typed line to its command. *)
From S2P Require Import Prelude Dll Tokens Cli CliMenus CliConsole CliServer.
#[local] Open Scope Z_scope.
#[local] Open Scope list_scope.

Definition len (s : string) : Z := Z.of_nat (String.length s).

(** How a loop of the program ends; [Blocked] when it waits for the next answer. *)
Inductive ending := Blocked | Returns | Exits (status : Z).

(** ** Output *)

(** [fromserver_handler]: the answers of [recv] ([None] for -1) to what it prints.
    [server_reply] has [MAX_BUFFER_SIZE] bytes, and the byte behind the answer is cleared. *)
Fixpoint fromserver_handler (client_fd : Z) (answers : list (option string)) : outcome (string * ending) :=
  match answers with
  | [] => Ret ("", Blocked)
  | None :: _ => Ret ("", Returns)
  | Some server_reply :: answers =>
      if client_fd =? 0 then Ret ("", Returns) else
      if 0 <? len server_reply then
        if len server_reply <? MAX_BUFFER_SIZE then
          '(printed, e) ← fromserver_handler client_fd answers; Ret (c_string server_reply +:+ printed, e)
        else Undef
      else Ret ("", Exits 1)
  end.

(** ** Input *)

(** What [readline] answers: a C string in [room] bytes of its own; and whether [send] succeeds. *)
Record input := Input { text : string; room : Z; send_ok : bool }.

(** [strcat(input, "\n")] writes two bytes behind the text. *)
Definition strcat_newline (i : input) : outcome string :=
  if len (text i) + 2 <=? room i then Ret (text i +:+ newline) else Undef.

(** The loop of [main]: the messages it sends, and how it is left ([None] is end of file). *)
Fixpoint input_loop (inputs : list (option input)) : outcome (list string * ending) :=
  match inputs with
  | [] => Ret ([], Blocked)
  | None :: _ => Ret ([], Returns)
  | Some i :: inputs =>
      line ← strcat_newline i;
      if send_ok i then '(sends, e) ← input_loop inputs; Ret (line :: sends, e) else Ret ([], Exits 1)
  end.

(** ** Specification *)

(** A session in which the daemon gets the typed lines one by one. *)
Section Lines.
Context {W : Type} (run : t_commandfunction → list string → option loc → W →
                          outcome (W * commandresult * list string)) (s : clistate).

Fixpoint lines_session (lines : list string) (m : option mode) (data : option loc) (w : W) : outcome (W * list string) :=
  match lines with
  | [] => Ret (w, [])
  | line :: lines =>
      '(w, result, out) ← execute_commands run s m data line w;
      if finished result =? 0 then
        '(w, out') ← lines_session lines (r_mode result) (r_data result) w; Ret (w, out ++ out')
      else Ret (w, out)
  end.
End Lines.

(** What [readline] answers, a line without its newline; and what its buffer must have beyond that, which [readline]
    does not promise: a second byte behind the text. *)
Fixpoint newline_free (s : string) : bool :=
  match s with EmptyString => true | String c s => negb (bool_decide (c = ascii_of_nat 10)) && newline_free s end.
Definition readline_line (line : string) : Prop := c_string line = line ∧ newline_free line = true.
Definition spare_byte (i : input) : Prop := len (text i) + 2 <= room i.

(** How the loop ends behind the lines that were sent. *)
Definition then_ends (rest : list (option input)) (e : ending) : Prop :=
  match rest with
  | [] => e = Blocked
  | None :: _ => e = Returns
  | Some i :: _ => spare_byte i ∧ send_ok i = false ∧ e = Exits 1
  end.

(** What the daemon's [recv] answers when the lines come one at a time: each answer is one line with its newline,
    and fits the buffer. *)
Definition one_line (chunk : string) : Prop :=
  (∃ line, newline_free line = true ∧ chunk = line +:+ newline) ∧ len chunk <= MAX_BUFFER_SIZE.

Lemma length_cat' a b : String.length (a +:+ b) = (String.length a + String.length b)%nat.
Proof. induction a as [|c a IH]; [done|]. change (S (String.length (a +:+ b)) = S (String.length a + String.length b)). by rewrite IH. Qed.

Lemma substring_cat a b : String.substring 0 (String.length a) (a +:+ b) = a.
Proof.
  induction a as [|c a IH]; [by destruct b|].
  change (String c (String.substring 0 (String.length a) (a +:+ b)) = String c a). by rewrite IH.
Qed.

(** The server reads a line back as it was typed. *)
Lemma message_line_typed line : c_string line = line → message_line (line +:+ newline) = line.
Proof.
  intros H. unfold message_line. rewrite length_cat'. change (String.length newline) with 1%nat.
  replace (pred (String.length line + 1)) with (String.length line) by lia. by rewrite substring_cat.
Qed.

Lemma sends_typed inputs rest : Forall spare_byte inputs → Forall (λ i, send_ok i = true) inputs →
  input_loop (map Some inputs ++ rest)
  = '(sends, e) ← input_loop rest; Ret (map (λ i, text i +:+ newline) inputs ++ sends, e).
Proof.
  induction 1 as [|i inputs Hr _ IH]; intros Hs.
  { cbn [map app]. by destruct (input_loop rest) as [[sends e]| |]. }
  apply Forall_cons in Hs as [Hi Hs]. cbn [map app input_loop]. unfold strcat_newline.
  replace (len (text i) + 2 <=? room i) with true by (symmetry; by apply Z.leb_le). cbn [mbind outcome_bind].
  rewrite Hi, IH by done. by destruct (input_loop rest) as [[sends e]| |].
Qed.

Lemma ends_typed rest e : then_ends rest e → input_loop rest = Ret ([], e).
Proof.
  destruct rest as [|[i|] rest]; cbn [then_ends input_loop]; [by intros ->| |by intros ->].
  intros (Hr & Hs & ->). unfold strcat_newline.
  replace (len (text i) + 2 <=? room i) with true by (symmetry; by apply Z.leb_le). cbn [mbind outcome_bind]. by rewrite Hs.
Qed.

(** Lines with their newlines are told apart in the stream. *)
Lemma line_split a b x y : newline_free a = true → newline_free b = true →
  (a +:+ newline) +:+ x = (b +:+ newline) +:+ y → a = b ∧ x = y.
Proof.
  assert (∀ z, ("" +:+ newline) +:+ z = String (ascii_of_nat 10) z) as Hnil by done.
  assert (∀ c l z, (String c l +:+ newline) +:+ z = String c ((l +:+ newline) +:+ z)) as Hcons by done.
  revert b. induction a as [|c a IH]; intros [|d b] Ha Hb; rewrite ?Hnil, ?Hcons.
  - by intros [= ->].
  - intros [= <- _]. done.
  - intros [= -> _]. done.
  - apply andb_true_iff in Ha as [_ Ha], Hb as [_ Hb]. intros [= -> H]. by destruct (IH b Ha Hb H) as [-> ->].
Qed.

Fixpoint joined (l : list string) : string := match l with [] => "" | x :: l => x +:+ joined l end.

Lemma one_at_a_time lines chunks : Forall (λ l, newline_free l = true) lines → Forall one_line chunks →
  joined chunks = joined (map (λ l, l +:+ newline) lines) → chunks = map (λ l, l +:+ newline) lines.
Proof.
  intros Hl. revert chunks. induction Hl as [|l lines Hl _ IH]; intros [|k chunks] Hc; cbn [map joined].
  - done.
  - apply Forall_cons in Hc as [[(x & _ & ->) _] _]. by destruct x.
  - by destruct l.
  - apply Forall_cons in Hc as [[(x & Hx & ->) _] Hc]. intros [-> E]%line_split; [|done..]. f_equal. by apply IH.
Qed.

Section Runs.
Context {W : Type} (run : t_commandfunction → list string → option loc → W → outcome (W * commandresult * list string)) (s : clistate).

Lemma lines_run lines m data w : Forall readline_line lines →
  client_loop run (map (λ l, l +:+ newline) lines) s m data w = lines_session run s lines m data w.
Proof.
  intros Hl. revert m data w. induction Hl as [|l lines [Hc _] _ IH]; intros m data w; [done|]. cbn [map client_loop lines_session].
  rewrite message_line_typed by done. destruct (execute_commands _ _ _ _ _ _) as [[[w1 r] o]| |]; [|done..].
  cbn [mbind outcome_bind]. destruct (finished r =? 0); [|done]. by rewrite IH.
Qed.
End Runs.

(** C31: A session typed at the client program, under three assumptions the statement names: [readline] leaves a second byte behind each line, which it does not
    promise (without it the program is undefined, the last conjunct); the [send] of each of these lines succeeds (one that fails ends the
    program with status 1); and the daemon's [recv] answers one line at a time, as when each is typed after the last was read.
    Then the program sends the lines, each with a newline, and whatever one-line answers make up that
    stream, the daemon runs exactly the typed lines in order, each once, until one of them ends the session. *)
Theorem typed_lines_run {W} (run : t_commandfunction → list string → option loc → W → outcome (W * commandresult * list string))
    s inputs rest e :
  Forall (λ i, readline_line (text i)) inputs → Forall spare_byte inputs → Forall (λ i, send_ok i = true) inputs →
  then_ends rest e →
  (∃ sends, input_loop (map Some inputs ++ rest) = Ret (sends, e)
    ∧ ∀ chunks w, joined chunks = joined sends → Forall one_line chunks →
        client_handler run s chunks w
        = '(w, out) ← lines_session run s (map text inputs) None None w; Ret (w, cli_mode_prompt None :: out))
  ∧ ∀ i later, ¬ spare_byte i → input_loop (map Some inputs ++ Some i :: later) = Undef.
Proof.
  intros Hl Hr Hs He. split.
  - eexists. split; [by rewrite sends_typed, (ends_typed rest e)|]. intros chunks w Hj Hc.
    rewrite app_nil_r, <-(map_map text (λ l, l +:+ newline)) in Hj.
    assert (Forall readline_line (map text inputs)) as Hl' by by apply Forall_map.
    apply one_at_a_time in Hj as ->; [|eapply Forall_impl; [exact Hl'|by intros ? []]|done].
    unfold client_handler. by rewrite lines_run.
  - intros i later Hi. rewrite sends_typed by done. cbn [input_loop]. unfold strcat_newline.
    by replace (len (text i) + 2 <=? room i) with false by (symmetry; apply Z.leb_gt; unfold spare_byte in Hi; lia).
Qed.

(** The two buffers: the program is undefined on a line whose buffer is exactly full, and on a piece
    of the output that fills [server_reply]. *)
Theorem client_overruns line rest reply answers fd :
  (∀ ok, input_loop (Some (Input line (len line + 1) ok) :: rest) = Undef)
  ∧ (fd ≠ 0 → len reply = MAX_BUFFER_SIZE → fromserver_handler fd (Some reply :: answers) = Undef).
Proof.
  split.
  - intros ok. cbn [input_loop]. unfold strcat_newline. cbn [text room].
    by replace (len line + 2 <=? len line + 1) with false by lia.
  - intros Hfd Hl. cbn [fromserver_handler]. rewrite Hl. by replace (fd =? 0) with false by lia.
Qed.

(** Shorter answers are printed up to their first NUL, and the program ends with the server. *)
Lemma replies_printed fd replies : fd ≠ 0 → Forall (λ r, 0 < len r < MAX_BUFFER_SIZE) replies →
  fromserver_handler fd (map Some replies ++ [Some ""]) = Ret (foldr String.append "" (map c_string replies), Exits 1).
Proof.
  intros Hfd. assert ((fd =? 0) = false) as E by lia. induction 1 as [|r replies Hr _ IH]; cbn [map app fromserver_handler foldr]; rewrite E; [done|].
  replace (0 <? len r) with true by lia. replace (len r <? MAX_BUFFER_SIZE) with true by lia. by rewrite IH.
Qed.

(** Two lines the server receives as one message are one command: here the first does not run,
    nor does the second. *)
Example joined_lines_lost :
  (o ← demo_register program_commands 1 initial_cli;
   match o with
   | Some s => '(w1, _) ← client_handler demo_run s ["no neighbor 10.0.0.1" +:+ newline; "show version" +:+ newline] [];
               '(w2, _) ← client_handler demo_run s [("no neighbor 10.0.0.1" +:+ newline) +:+ "show version" +:+ newline] [];
               Ret (w1, w2)
   | None => Undef
   end)
  = Ret ([[]; ["10.0.0.1"]], [["10.0.0.1" +:+ newline +:+ "show"; "version"]]).
Proof. by vm_compute. Qed.

Definition demo_inputs : list input := [Input "show version" 16 true; Input "quit" 6 true].

(** Two lines, the second of which has its byte but no more, and a third whose [send] fails. *)
Lemma typed_lines_run_witness :
  (∃ sends, input_loop (map Some demo_inputs ++ [Some (Input "end" 8 false)]) = Ret (sends, Exits 1)
    ∧ ∀ chunks w, joined chunks = joined sends → Forall one_line chunks →
        client_handler demo_run initial_cli chunks w
        = '(w, out) ← lines_session demo_run initial_cli (map text demo_inputs) None None w; Ret (w, cli_mode_prompt None :: out))
  ∧ ∀ i later, ¬ spare_byte i → input_loop (map Some demo_inputs ++ Some i :: later) = Undef.
Proof.
  apply (typed_lines_run demo_run initial_cli demo_inputs [Some (Input "end" 8 false)] (Exits 1)).
  - by repeat constructor.
  - repeat constructor; unfold spare_byte; by vm_compute.
  - by repeat constructor.
  - split_and!; [unfold spare_byte; by vm_compute|done..].
Defined.
