(* ===== verification/Utility.v ===== *)
(** * Logging, the local address, dumps and rates
    (opennopd/logger.c, opennopd/utility.c, [bytestostringbps] of clicommands.c)

    The helpers every part of the daemon calls.  A dump is built with [strcat] in
    a [LOGSZ] buffer; a 33-byte and a 17-byte buffer hold its pieces. *)
From S2P Require Import Prelude Tokens Cli.
From stdpp Require Import pretty.
#[local] Open Scope Z_scope.
#[local] Open Scope list_scope.

(** ** Logging *)
Definition LOGGING_OFF : Z := 0.
Definition LOGGING_FATAL : Z := 1.
Definition LOGGING_ERROR : Z := 2.
Definition LOGGING_WARN : Z := 4.
Definition LOGGING_INFO : Z := 8.
Definition LOGGING_DEBUG : Z := 16.
Definition LOGGING_TRACE : Z := 32.
Definition LOGGING_ALL : Z := 64.
Definition LOGGING_LEVEL : Z := LOGGING_WARN.
Definition logging_levels : list Z :=
  [LOGGING_FATAL; LOGGING_ERROR; LOGGING_WARN; LOGGING_INFO; LOGGING_DEBUG; LOGGING_TRACE; LOGGING_ALL].

Definition should_i_log (messagelevel componentlevel : Z) : bool :=
  (messagelevel <=? LOGGING_LEVEL) || (componentlevel =? LOGGING_ALL)
  || (Z.land componentlevel messagelevel =? messagelevel).

(** What [printf] and [syslog] make of a format with no arguments: [%%] is a per cent sign and
    [%m] the text of [errno]; any other conversion reads an argument that was not passed. *)
Fixpoint formatted (errno format : string) : outcome string :=
  match format with
  | EmptyString => Ret EmptyString
  | String c format =>
      if bool_decide (c = "%"%char) then
        match format with
        | String d format =>
            if bool_decide (d = "%"%char) then text ← formatted errno format; Ret (String "%" text)
            else if bool_decide (d = "m"%char) then text ← formatted errno format; Ret (errno +:+ text)
            else Undef
        | EmptyString => Undef
        end
      else text ← formatted errno format; Ret (String c text)
  end.

Inductive log_entry := To_syslog (text : string) | To_screen (text : string).

Section logging.
  Context (isdaemon : bool) (errno : string).

(** Every message goes out with the priority [LOG_INFO], whatever its level is. *)
Definition sent (text : string) : log_entry := if isdaemon then To_syslog text else To_screen text.
Definition logger (message : string) (log : list log_entry) : outcome (list log_entry) :=
  text ← formatted errno message; Ret (log ++ [sent text]).

Definition logger2 (messagelevel componentlevel : Z) (message : string) (log : list log_entry) : outcome (list log_entry) :=
  if should_i_log messagelevel componentlevel then logger message log else Ret log.
End logging.

(** ** The local address *)

(** A network interface: its address, if it has one, whether that is an IPv4 address, and
    whether [getnameinfo] succeeds on it.  The address is the 32-bit value as stored, in
    network order. *)
Record interface := Interface { ifa_addr : option Z; is_inet : bool; named : bool }.

Definition LOOPBACKIP : Z := 16777343.

(** [None]: the program has exited. *)
Fixpoint local_ip_loop (ifs : list interface) (localID : Z) : option Z :=
  match ifs with
  | [] => Some localID
  | ifa :: ifs =>
      match ifa_addr ifa with
      | Some tempIP =>
          if is_inet ifa then
            if named ifa then
              local_ip_loop ifs
                (if (localID <? tempIP) && negb (tempIP =? LOOPBACKIP) then tempIP else localID)
            else None
          else local_ip_loop ifs localID
      | None => local_ip_loop ifs localID
      end
  end.

(** [None] for the argument: [getifaddrs] failed. *)
Definition get_local_ip (ifs : option (list interface)) : option Z :=
  ifs ← ifs; localID ← local_ip_loop ifs 0; if localID =? 0 then None else Some localID.

(** ** Dumps *)
Definition LOGSZ : nat := Z.to_nat 4096.

(** [strcat(message, temp)]. *)
Definition strcat (message temp : string) : outcome string :=
  let m := message +:+ temp in if (String.length m <? LOGSZ)%nat then Ret m else Undef.

Definition hex_digit (v : Z) : ascii :=
  ascii_of_nat (Z.to_nat (if v <? 10 then 48 + v else 55 + v)).
Definition hex2 (v : Z) : string := String (hex_digit (v / 16)) (String (hex_digit (v mod 16)) "").
(** [%.8X] of a 32-bit value. *)
Definition hex8 (v : Z) : string :=
  hex2 (v / 2 ^ 24 mod 256) +:+ hex2 (v / 2 ^ 16 mod 256) +:+ hex2 (v / 2 ^ 8 mod 256) +:+ hex2 (v mod 256).

(** The character shown for a byte. *)
Definition shown (b : Z) : Z := if (b <? 32) || (126 <? b) then 46 else b.

(** [%s] of [line], which ends at the first NUL. *)
Fixpoint line_text (line : list Z) : string :=
  match line with
  | [] => EmptyString
  | c :: line => if c =? 0 then EmptyString else String (ascii_of_nat (Z.to_nat c)) (line_text line)
  end.

(** The first loop: [i] bytes are done, [bytes] is the total. *)
Fixpoint dump_loop (data : list Z) (i addr bytes : Z) (line : list Z) (message : string)
    : outcome (list Z * string) :=
  match data with
  | [] => Ret (line, message)
  | b :: data =>
      let line := <[Z.to_nat (i mod 16) := shown b]> line in
      message ← strcat message (hex2 b);
      let i := i + 1 in
      message ← (if i mod 4 =? 0 then
                   if i mod 16 =? 0 then
                     if i <? bytes - 1
                     then strcat message (" | " +:+ line_text line +:+ newline +:+ hex8 (u32 (addr + i)) +:+ " | ")
                     else Ret message
                   else strcat message " "
                 else Ret message);
      dump_loop data i addr bytes line message
  end.

(** The second loop pads the last row; [k] rounds remain. *)
Fixpoint pad_loop (k : nat) (i : Z) (message : string) : outcome string :=
  match k with
  | O => Ret message
  | S k => message ← strcat message (if i mod 4 =? 0 then "   " else "  "); pad_loop k (i + 1) message
  end.

(** The message [binary_dump] builds; [addr] is the address printed for [data]. *)
Definition dump_message (data : list Z) (addr : Z) : outcome string :=
  let bytes := blen data in
  message ← strcat ("Binary Dump:" +:+ newline) (hex8 (u32 addr) +:+ " | ");
  '(line, message) ← dump_loop data 0 addr bytes (zeros 17) message;
  message ← pad_loop (Z.to_nat ((16 - bytes mod 16) mod 16)) bytes message;
  strcat message (" | " +:+ line_text line +:+ newline).

Definition binary_dump (isdaemon : bool) (errno header : string) (data : list Z) (addr : Z) (log : list log_entry)
    : outcome (list log_entry) :=
  log ← logger2 isdaemon errno LOGGING_ALL LOGGING_ALL header log;
  message ← dump_message data addr;
  logger2 isdaemon errno LOGGING_ALL LOGGING_ALL message log.

(** ** Rates *)

(** Conversion of a 32-bit value to [int]. *)
Definition s32 (v : Z) : Z := if v <? 2 ^ 31 then v else v - 2 ^ 32.

Definition bytestostringbps (count : Z) : string :=
  let bits := s32 (u32 (count * 8)) in
  if bits <? 1024 then pretty bits +:+ " bps"
  else if 1024 <=? bits / 1024 / 1024 then
    pretty (bits / 1024 / 1024 / 1024) +:+ "." +:+ pretty (bits / 1024 / 1024 mod 1024 / 10) +:+ " Gbps"
  else if 1024 <=? bits / 1024 then
    pretty (bits / 1024 / 1024) +:+ "." +:+ pretty (bits / 1024 mod 1024 / 10) +:+ " Mbps"
  else pretty (bits / 1024) +:+ "." +:+ pretty (bits mod 1024 / 10) +:+ " Kbps".

(** * Theorems *)

(** ** Logging: levels up to WARN always, the others when asked for. *)
Lemma should_i_log_levels : ∀ m, m ∈ logging_levels → ∀ c, 0 <= c <= 64 →
  should_i_log m c = (m <=? LOGGING_WARN) || (c =? LOGGING_ALL) || Z.testbit c (Z.log2 m).
Proof.
  intros m Hm c Hc. unfold should_i_log. change LOGGING_LEVEL with LOGGING_WARN. f_equal.
  assert (E : ∃ n, 0 <= n ∧ m = 2 ^ n).
  { unfold logging_levels in Hm. repeat (apply elem_of_cons in Hm as [->|Hm]; [|]); [by exists 0|by exists 1|by exists 2|by exists 3|by exists 4|by exists 5|by exists 6|by apply not_elem_of_nil in Hm]. }
  destruct E as (n & Hn & ->). rewrite Z.log2_pow2 by done.
  destruct (Z.eqb_spec (Z.land c (2 ^ n)) (2 ^ n)) as [E|E].
  - assert (H : Z.testbit (Z.land c (2 ^ n)) n = true) by (by rewrite E, Z.pow2_bits_true).
    rewrite Z.land_spec, Z.pow2_bits_true, andb_true_r in H by done. done.
  - symmetry. apply not_true_is_false. intros H. apply E. apply Z.bits_inj'. intros k Hk.
    rewrite Z.land_spec, Z.pow2_bits_eqb by done. destruct (Z.eqb_spec n k) as [<-|]; [by rewrite H|apply andb_false_r].
Qed.

(** ** The local address *)
Definition usable (ifa : interface) : option Z :=
  match ifa_addr ifa with
  | Some a => if is_inet ifa && negb (a =? LOOPBACKIP) then Some a else None
  | None => None
  end.
Definition lookup_fails (ifa : interface) : bool :=
  match ifa_addr ifa with Some _ => is_inet ifa && negb (named ifa) | None => false end.

Lemma local_ip_loop_max ifs : ∀ id,
  local_ip_loop ifs id = if existsb lookup_fails ifs then None else Some (foldr Z.max id (omap usable ifs)).
Proof.
  induction ifs as [|ifa ifs IH]; intros id; [done|]. cbn [local_ip_loop existsb omap list_omap].
  unfold lookup_fails at 1, usable at 1. destruct (ifa_addr ifa) as [a|]; [|by rewrite IH].
  destruct (is_inet ifa); cbn [andb negb orb]; [|by rewrite IH].
  destruct (named ifa); cbn [negb orb]; [|done]. rewrite IH. destruct (existsb _ _); [done|]. f_equal.
  destruct (a =? LOOPBACKIP); cbn [negb andb]; [by rewrite andb_false_r|]. rewrite andb_true_r. cbn [foldr].
  generalize (omap usable ifs) as l. induction l as [|b l IHl]; cbn [foldr]; [destruct (Z.ltb_spec id a); lia|].
  rewrite IHl. lia.
Qed.

(** The address [get_local_ip] returns.  It is the largest of the IPv4 addresses other than
    127.0.0.1, as 32-bit values in network order, whatever the order of the interfaces; the
    program exits exactly when there is none, or an address cannot be looked up. *)
Theorem get_local_ip_largest ifs : Forall (λ a, 0 < a < 2 ^ 32) (omap usable ifs) →
  match get_local_ip (Some ifs) with
  | Some ip => existsb lookup_fails ifs = false ∧ ip ∈ omap usable ifs ∧ ∀ a, a ∈ omap usable ifs → a <= ip
  | None => existsb lookup_fails ifs = true ∨ omap usable ifs = []
  end.
Proof.
  intros Hp. unfold get_local_ip. cbn [mbind option_bind]. rewrite local_ip_loop_max.
  destruct (existsb lookup_fails ifs); cbn [mbind option_bind]; [by left|].
  assert (H : ∀ l, Forall (λ a, 0 < a < 2 ^ 32) l →
    (l = [] ∧ foldr Z.max 0 l = 0) ∨ (0 < foldr Z.max 0 l ∧ foldr Z.max 0 l ∈ l ∧ ∀ a, a ∈ l → a <= foldr Z.max 0 l)).
  { clear. induction l as [|b l IH]; [by left|]. intros [Hb Hl]%Forall_cons. right. cbn [foldr].
    destruct (IH Hl) as [[-> E]|(H0 & H1 & H2)].
    - rewrite E, Z.max_l by lia. split_and!; [lia|left|]. intros a [->|Ha]%elem_of_cons; [lia|by apply not_elem_of_nil in Ha].
    - destruct (Z.max_spec b (foldr Z.max 0 l)) as [[Hlt ->]|[Hge ->]].
      + split_and!; [lia|by right|]. intros a [->|Ha]%elem_of_cons; [lia|by apply H2].
      + split_and!; [lia|left|]. intros a [->|Ha%H2]%elem_of_cons; lia. }
  destruct (H _ Hp) as [[-> ->]|(H0 & H1 & H2)]; [by right|].
  destruct (Z.eqb_spec (foldr Z.max 0 (omap usable ifs)) 0); [lia|]. done.
Qed.

(** The order is that of the stored bytes read from the last: 9.0.0.3 wins over 10.0.0.2. *)
Example get_local_ip_not_dotted_order :
  let ip a b c d := a + 256 * b + 65536 * c + 16777216 * d in
  get_local_ip (Some [Interface (Some (ip 10 0 0 2)) true true; Interface (Some (ip 9 0 0 3)) true true])
  = Some (ip 9 0 0 3).
Proof. reflexivity. Qed.

Lemma get_local_ip_largest_witness :
  get_local_ip (Some [Interface (Some LOOPBACKIP) true true; Interface (Some 33554442) true true]) = Some 33554442 ∧
  existsb lookup_fails [Interface (Some LOOPBACKIP) true true; Interface (Some 33554442) true true] = false ∧
  33554442 ∈ [33554442] ∧ ∀ a, a ∈ [33554442] → a <= 33554442.
Proof.
  split; [reflexivity|].
  refine (get_local_ip_largest [Interface (Some LOOPBACKIP) true true; Interface (Some 33554442) true true] _).
  constructor; [|constructor]. lia.
Defined.

(** ** Rates *)

(** Rates.  Below 2^28 bytes per second the text is the number of bits, or the number of whole
    Kbit, Mbit or Gbit (in powers of 1024) and, behind a point, a tenth of the remaining
    1024ths: a number from 0 to 102, not a decimal fraction. *)
Theorem bytestostringbps_value count : 0 <= count < 2 ^ 28 →
  (8 * count < 1024 ∧ bytestostringbps count = pretty (8 * count) +:+ " bps") ∨
  ∃ I D U name, (U, name) ∈ [(1024, " Kbps"%string); (1024 ^ 2, " Mbps"%string); (1024 ^ 3, " Gbps"%string)] ∧
    bytestostringbps count = pretty I +:+ "." +:+ pretty D +:+ name ∧
    I * U <= 8 * count < (I + 1) * U ∧ 1 <= I < 1024 ∧ 0 <= D <= 102 ∧
    10 * D * (U / 1024) <= 8 * count - I * U < 10 * (D + 1) * (U / 1024).
Proof.
  intros Hc. unfold bytestostringbps.
  assert (E : s32 (u32 (count * 8)) = 8 * count).
  { unfold u32. rewrite Z.mod_small by lia. unfold s32. destruct (Z.ltb_spec (count * 8) (2 ^ 31)); lia. }
  rewrite E. destruct (Z.ltb_spec (8 * count) 1024); [by left|right].
  destruct (Z.leb_spec 1024 (8 * count / 1024 / 1024)); [|destruct (Z.leb_spec 1024 (8 * count / 1024))].
  - eexists _, _, (1024 ^ 3), _. split; [by do 2 right; left|]. split; [done|].
    change (1024 ^ 3 / 1024) with 1048576. change (1024 ^ 3) with 1073741824. Z.to_euclidean_division_equations. lia.
  - eexists _, _, (1024 ^ 2), _. split; [by right; left|]. split; [done|].
    change (1024 ^ 2 / 1024) with 1024. change (1024 ^ 2) with 1048576. Z.to_euclidean_division_equations. lia.
  - eexists _, _, 1024, _. split; [by left|]. split; [done|].
    change (1024 / 1024) with 1. Z.to_euclidean_division_equations. lia.
Qed.

(** From 2^28 bytes per second on the [int] is negative, and then starts again at 0. *)
Example bytestostringbps_overflow : bytestostringbps (2 ^ 28) = "-2147483648 bps"%string ∧ bytestostringbps (2 ^ 29) = "0 bps"%string.
Proof. by vm_compute. Qed.

Example bytestostringbps_fraction : bytestostringbps (2 ^ 18 - 128) = "1.102 Mbps"%string.
Proof. by vm_compute. Qed.

Lemma bytestostringbps_value_witness :
  (8 * 1000 < 1024 ∧ bytestostringbps 1000 = pretty (8 * 1000) +:+ " bps") ∨
  ∃ I D U name, (U, name) ∈ [(1024, " Kbps"%string); (1024 ^ 2, " Mbps"%string); (1024 ^ 3, " Gbps"%string)] ∧
    bytestostringbps 1000 = pretty I +:+ "." +:+ pretty D +:+ name ∧
    I * U <= 8 * 1000 < (I + 1) * U ∧ 1 <= I < 1024 ∧ 0 <= D <= 102 ∧
    10 * D * (U / 1024) <= 8 * 1000 - I * U < 10 * (D + 1) * (U / 1024).
Proof. apply bytestostringbps_value. lia. Defined.

(** ** Dumps fit their buffer *)
Lemma length_cat a b : String.length (a +:+ b) = (String.length a + String.length b)%nat.
Proof. induction a as [|c a IH]; simpl; [done|]. by rewrite IH. Qed.

Lemma strcat_fits m t n : Z.of_nat (String.length m) + Z.of_nat (String.length t) <= n → n < 4096 →
  ∃ m', strcat m t = Ret m' ∧ Z.of_nat (String.length m') <= n.
Proof.
  intros H Hn. unfold strcat. cbv zeta. rewrite length_cat. unfold LOGSZ.
  destruct (Nat.ltb_spec (String.length m + String.length t) (Z.to_nat 4096)); [|lia].
  eexists. split; [done|]. rewrite length_cat. lia.
Qed.

Lemma length_hex8 v : String.length (hex8 v) = 8%nat.
Proof. done. Qed.

(** The text of a row never exceeds 16 characters: the 17th is NUL. *)
Lemma length_line line : line !! 16%nat = Some 0 → (String.length (line_text line) <= 16)%nat.
Proof.
  assert (H : ∀ k l, l !! k = Some 0 → (String.length (line_text l) <= k)%nat).
  { induction k as [|k IH]; intros [|c l] Hl; [done| |done|]; cbn [line_text].
    - injection Hl as ->. done.
    - destruct (c =? 0); simpl; [lia|]. apply IH in Hl. lia. }
  apply H.
Qed.

(** The most that can be in the buffer when [i] bytes are done. *)
Definition dump_bound (i : Z) : Z := 24 + 66 * (i / 16) + 2 * (i mod 16) + i mod 16 / 4.

Lemma dump_bound_step i : 0 <= i →
  dump_bound (i + 1) = dump_bound i + 2 + if (i + 1) mod 4 =? 0 then if (i + 1) mod 16 =? 0 then 31 else 1 else 0.
Proof.
  intros Hi. unfold dump_bound. destruct (Z.eqb_spec ((i + 1) mod 4) 0), (Z.eqb_spec ((i + 1) mod 16) 0);
    Z.to_euclidean_division_equations; lia.
Qed.

Lemma dump_bound_mono i j : 0 <= i <= j → dump_bound i <= dump_bound j.
Proof. unfold dump_bound. intros H. Z.to_euclidean_division_equations. lia. Qed.

Lemma dump_loop_fits data addr bytes : ∀ i line m,
  0 <= i → i + blen data = bytes → bytes <= 976 → line !! 16%nat = Some 0 →
  Z.of_nat (String.length m) <= dump_bound i →
  ∃ line' m', dump_loop data i addr bytes line m = Ret (line', m') ∧ line' !! 16%nat = Some 0
    ∧ Z.of_nat (String.length m') <= dump_bound bytes - (if (0 <? blen data) && (bytes mod 16 =? 0) then 31 else 0).
Proof.
  induction data as [|b data IH]; intros i line m Hi Hn Hb Hl Hm.
  { exists line, m. split; [done|]. split; [done|]. change (blen []) with 0 in *. simpl. replace bytes with i by lia. lia. }
  assert (Hn' : blen (b :: data) = blen data + 1) by (unfold blen; simpl; lia). pose proof (blen_nonneg data).
  cbn [dump_loop]. set (line1 := <[Z.to_nat (i mod 16) := shown b]> line).
  pose proof (Z.mod_pos_bound i 16 ltac:(done)) as Hmod.
  assert (Hl1 : line1 !! 16%nat = Some 0) by (unfold line1; rewrite list_lookup_insert_ne by lia; done).
  pose proof (dump_bound_step i Hi) as Hs. pose proof (dump_bound_mono (i + 1) 976 ltac:(lia)) as Hmax.
  change (dump_bound 976) with 4050 in Hmax.
  destruct (strcat_fits m (hex2 b) (dump_bound i + 2)) as (m1 & -> & Hm1); [simpl; lia| |].
  { destruct ((i + 1) mod 4 =? 0), ((i + 1) mod 16 =? 0); lia. }
  cbn [mbind outcome_bind].
  assert (Hlast : data = [] → i + 1 = bytes) by (intros ->; change (blen []) with 0 in *; lia).
  assert (Hsep : ∃ m2, (if (i + 1) mod 4 =? 0 then
                   if (i + 1) mod 16 =? 0 then
                     if i + 1 <? bytes - 1
                     then strcat m1 (" | " +:+ line_text line1 +:+ newline +:+ hex8 (u32 (addr + (i + 1))) +:+ " | ")
                     else Ret m1
                   else strcat m1 " "
                 else Ret m1) = Ret m2 ∧ Z.of_nat (String.length m2) <= dump_bound (i + 1)
                 ∧ (i + 1 = bytes → (i + 1) mod 16 = 0 → Z.of_nat (String.length m2) <= dump_bound (i + 1) - 31)).
  { clear IH Hn Hb Hm Hlast. revert Hs.
    destruct (Z.eqb_spec ((i + 1) mod 4) 0); [|intros Hs; exists m1; split_and!; [done|lia|intros _ H4; exfalso; clear Hs; Z.to_euclidean_division_equations; lia]].
    destruct (Z.eqb_spec ((i + 1) mod 16) 0); intros Hs.
    - destruct (Z.ltb_spec (i + 1) (bytes - 1)); [|exists m1; split_and!; [done|lia|lia]].
      pose proof (length_line _ Hl1).
      destruct (strcat_fits m1 (" | " +:+ line_text line1 +:+ newline +:+ hex8 (u32 (addr + (i + 1))) +:+ " | ")
                  (dump_bound (i + 1))) as (m2 & -> & Hm2); [rewrite !length_cat, length_hex8; simpl; lia|lia|].
      exists m2. split_and!; [done|lia|lia].
    - destruct (strcat_fits m1 " " (dump_bound (i + 1))) as (m2 & -> & Hm2); [simpl; lia|lia|].
      exists m2. split_and!; [done|lia|lia]. }
  destruct Hsep as (m2 & -> & Hm2 & Hm2'). cbn [mbind outcome_bind].
  destruct (decide (data = [])) as [->|Hne].
  - specialize (Hlast eq_refl). change (blen []) with 0 in *. exists line1, m2. split; [done|]. split; [done|].
    change (0 <? blen [b]) with true. cbn [andb]. rewrite Hlast in *.
    destruct (Z.eqb_spec (bytes mod 16) 0) as [E|E]; [specialize (Hm2' eq_refl E)|]; lia.
  - destruct (IH (i + 1) line1 m2) as (line' & m' & -> & Hl' & Hm'); [lia|clear Hs; lia|lia|done|done|].
    exists line', m'. split; [done|]. split; [done|].
    assert (0 < blen data) by (destruct data; [done|unfold blen; simpl; lia]).
    rewrite (proj2 (Z.ltb_lt 0 (blen data))) in Hm' by done.
    rewrite (proj2 (Z.ltb_lt 0 (blen (b :: data)))) by lia. exact Hm'.
Qed.

Lemma pad_loop_fits k : ∀ i m n, 0 <= i → Z.of_nat (String.length m) + 3 * Z.of_nat k <= n → n < 4096 →
  ∃ m', pad_loop k i m = Ret m' ∧ Z.of_nat (String.length m') <= n.
Proof.
  induction k as [|k IH]; intros i m n Hi Hm Hn; [exists m; split; [done|lia]|]. cbn [pad_loop].
  destruct (strcat_fits m (if i mod 4 =? 0 then "   " else "  ") (Z.of_nat (String.length m) + 3)) as (m1 & -> & H1);
    [destruct (_ =? _); simpl; lia|lia|]. cbn [mbind outcome_bind]. apply IH; lia.
Qed.

(** A dump of up to 940 bytes fits the [LOGSZ] buffer it is built in: no [strcat] writes
    past its end, for every address and every content. *)
Lemma dump_message_fits data addr : blen data <= 940 →
  ∃ m, dump_message data addr = Ret m ∧ Z.of_nat (String.length m) < 4096.
Proof.
  intros Hd. pose proof (blen_nonneg data). unfold dump_message.
  destruct (strcat_fits ("Binary Dump:" +:+ newline) (hex8 (u32 addr) +:+ " | ") 24) as (m0 & -> & H0); [done|done|].
  cbn [mbind outcome_bind].
  destruct (dump_loop_fits data addr (blen data) 0 (zeros 17) m0) as (line & m1 & -> & Hl & H1); [lia|lia|lia|done|done|].
  cbn [mbind outcome_bind].
  pose proof (dump_bound_mono (blen data) 940 ltac:(lia)) as Hb. change (dump_bound 940) with 3879 in Hb.
  assert (Hm1 : Z.of_nat (String.length m1) <= 3879) by (destruct ((0 <? blen data) && _) in H1; lia).
  destruct (pad_loop_fits (Z.to_nat ((16 - blen data mod 16) mod 16)) (blen data) m1 4000) as (m2 & -> & Hm2); [lia| |lia|].
  { pose proof (Z.mod_pos_bound (16 - blen data mod 16) 16). lia. }
  cbn [mbind outcome_bind]. pose proof (length_line _ Hl).
  destruct (strcat_fits m2 (" | " +:+ line_text line +:+ newline) 4095) as (m3 & -> & Hm3);
    [rewrite !length_cat; simpl; lia|lia|]. exists m3. split; [done|lia].
Qed.

(** ** Formats: a message without a per cent sign is sent as it is. *)
Fixpoint unformatted (s : string) : bool :=
  match s with EmptyString => true | String c s => negb (bool_decide (c = "%"%char)) && unformatted s end.

Lemma formatted_plain errno s : unformatted s = true → formatted errno s = Ret s.
Proof.
  induction s as [|c s IH]; cbn [unformatted formatted]; [done|]. intros [Hc Hs]%andb_true_iff.
  destruct (bool_decide _); [done|]. by rewrite IH.
Qed.

Lemma plain_app a b : unformatted (a +:+ b) = unformatted a && unformatted b.
Proof.
  induction a as [|c a IH]; [done|]. change (String c a +:+ b) with (String c (a +:+ b)).
  cbn [unformatted]. by rewrite IH, andb_assoc.
Qed.

Lemma plain_hex2 v : 0 <= v < 256 → unformatted (hex2 v) = true.
Proof.
  intros Hv. assert (H : forallb (λ k, unformatted (hex2 (Z.of_nat k))) (seq 0 256) = true) by (by vm_compute).
  rewrite <-(Z2Nat.id v) by lia. apply (proj1 (forallb_forall _ _) H), in_seq. lia.
Qed.

Lemma plain_hex8 v : unformatted (hex8 v) = true.
Proof. unfold hex8. rewrite !plain_app, !plain_hex2 by (apply Z.mod_pos_bound; lia). done. Qed.

(** A character of [line] that is no per cent sign. *)
Definition literal (c : Z) : Prop := 0 <= c < 256 ∧ c ≠ 37.

Lemma plain_line line : Forall literal line → unformatted (line_text line) = true.
Proof.
  induction 1 as [|c line [Hc Hn] _ IH]; [done|]. cbn [line_text]. destruct (c =? 0); [done|]. cbn [unformatted].
  rewrite IH, bool_decide_false; [done|]. intros E. apply (f_equal nat_of_ascii) in E.
  rewrite nat_ascii_embedding in E by lia. change (nat_of_ascii "%") with 37%nat in E. lia.
Qed.

Lemma strcat_plain m t m' : strcat m t = Ret m' → unformatted m = true → unformatted t = true → unformatted m' = true.
Proof. unfold strcat. destruct (_ <? _)%nat; [|done]. intros [= <-] Hm Ht. by rewrite plain_app, Hm. Qed.

Lemma shown_literal b : literal b → literal (shown b).
Proof. unfold literal, shown. destruct ((b <? 32) || (126 <? b)); [lia|done]. Qed.

Lemma dump_loop_plain data addr bytes : Forall literal data → ∀ i line m line' m',
  dump_loop data i addr bytes line m = Ret (line', m') → Forall literal line → unformatted m = true →
  Forall literal line' ∧ unformatted m' = true.
Proof.
  induction 1 as [|b data Hb _ IH]; cbn [dump_loop]; intros i line m line' m' E Hl Hm; [by injection E as <- <-|].
  destruct (strcat m (hex2 b)) as [m1| |] eqn:E1; cbn [mbind outcome_bind] in E; [|done..].
  apply strcat_plain in E1; [|done|by apply plain_hex2, Hb].
  assert (Hl' : Forall literal (<[Z.to_nat (i mod 16):=shown b]> line)) by (by apply Forall_insert, shown_literal).
  set (line1 := <[_:=_]> line) in *. clearbody line1.
  match type of E with ?x ≫= _ = _ => destruct x as [m2| |] eqn:E2 end;
    cbn [mbind outcome_bind] in E; [|done..].
  refine (IH _ _ _ _ _ E Hl' _). destruct (_ =? 0); [destruct (_ =? 0); [destruct (_ <? _)|]|]; try congruence.
  - apply strcat_plain in E2; [done|done|]. by rewrite !plain_app, plain_line, plain_hex8.
  - by apply strcat_plain in E2.
Qed.

Lemma pad_loop_plain k : ∀ i m m', pad_loop k i m = Ret m' → unformatted m = true → unformatted m' = true.
Proof.
  induction k as [|k IH]; cbn [pad_loop]; intros i m m' E Hm; [by injection E as <-|].
  destruct (strcat _ _) as [m1| |] eqn:E1; cbn [mbind outcome_bind] in E; [|done..].
  apply (IH _ _ _ E). apply strcat_plain in E1; [done|done|]. by destruct (_ =? 0).
Qed.

Lemma dump_message_plain data addr m : Forall literal data → dump_message data addr = Ret m → unformatted m = true.
Proof.
  intros Hd E. unfold dump_message in E.
  destruct (strcat ("Binary Dump:" +:+ newline) _) as [m0| |] eqn:E0; cbn [mbind outcome_bind] in E; [|done..].
  apply strcat_plain in E0; [|done|by rewrite plain_app, plain_hex8].
  destruct (dump_loop _ _ _ _ _ _) as [[line m1]| |] eqn:E1; cbn [mbind outcome_bind] in E; [|done..].
  apply dump_loop_plain in E1 as [Hl H1]; [|done|by apply Forall_replicate|done].
  destruct (pad_loop _ _ _) as [m2| |] eqn:E2; cbn [mbind outcome_bind] in E; [|done..].
  apply pad_loop_plain in E2; [|done]. apply strcat_plain in E; [done|done|]. by rewrite !plain_app, plain_line.
Qed.

(** A dump of up to 940 bytes with no per cent sign among them: nothing overflows, and two
    entries are logged whatever the levels are. *)
Theorem binary_dump_fits isdaemon errno header data addr log :
  blen data <= 940 → Forall literal data → unformatted header = true →
  ∃ m, dump_message data addr = Ret m ∧
    binary_dump isdaemon errno header data addr log = Ret (log ++ [sent isdaemon header; sent isdaemon m]).
Proof.
  intros Hd Hp Hh. destruct (dump_message_fits data addr Hd) as (m & E & _). exists m. split; [done|].
  unfold binary_dump, logger2, logger. cbn [should_i_log LOGGING_ALL LOGGING_LEVEL]. rewrite formatted_plain by done.
  cbn. rewrite E. cbn. rewrite formatted_plain by (by eapply dump_message_plain). cbn. by rewrite <-app_assoc.
Qed.

Lemma binary_dump_fits_witness :
  ∃ m, dump_message (replicate 38 171) 0 = Ret m ∧
    binary_dump true "" "Header" (replicate 38 171) 0 [] = Ret ([] ++ [To_syslog "Header"; To_syslog m]).
Proof. apply (binary_dump_fits true); [by vm_compute|by apply Forall_replicate|done]. Defined.

(** The bytes a dump shows are part of the format: a neighbor that takes the identifier [%n%n]
    makes the daemon write through an argument that is not there. *)
Example dumped_identifier isdaemon errno log :
  binary_dump isdaemon errno "ipc.c Saving neighbor ID: " [37; 110; 37; 110] 4096 log = Undef.
Proof. by vm_compute. Qed.

(** What a dump looks like, where the rows are whole. *)
Example binary_dump_row :
  dump_message [79; 112; 101; 110; 78; 79; 80; 0; 1; 2; 3; 65; 66; 67; 68; 69] 4096
  = Ret ("Binary Dump:" +:+ newline +:+ "00001000 | 4F70656E 4E4F5000 01020341 42434445 | OpenNOP....ABCDE" +:+ newline).
Proof. by vm_compute. Qed.

(** A row of one byte is not started on a line of its own, and the text of a partial row ends
    with what the row before left there. *)
Example binary_dump_17 :
  dump_message (replicate 16 65 ++ [66]) 0
  = Ret ("Binary Dump:" +:+ newline +:+ "00000000 | 41414141 41414141 41414141 4141414142"
         +:+ "        " +:+ "         " +:+ "         " +:+ "       " +:+ " | BAAAAAAAAAAAAAAA" +:+ newline).
Proof. vm_compute. reflexivity. Qed.
