(* ===== verification/Wccp.v ===== *)
(** * WCCPv2 (opennopd/subsystems/wccpv2.c)

    Service groups, each with a list of WCCP servers (routers) and a list of web
    caches; the messages to the servers, built in place in a 1024-byte buffer;
    the I_SEE_YOU messages received from them; and the configuration commands.
    A pointer into a message is an offset. *)
From S2P Require Import Prelude Dll Tokens Cli Epoll.
#[local] Open Scope Z_scope.
#[local] Open Scope list_scope.

Definition WCCP2_HERE_I_AM : Z := 10.
Definition WCCP2_I_SEE_YOU : Z := 11.
Definition WCCP2_REDIRECT_ASSIGN : Z := 12.
Definition WCCP2_VERSION : Z := 512.
Definition WCCP2_SECURITY_INFO : Z := 0.
Definition WCCP2_NO_SECURITY : Z := 0.
Definition WCCP2_SERVICE_INFO : Z := 1.
Definition WCCP2_SERVICE_DYNAMIC : Z := 1.
Definition WCCP2_ROUTER_ID_INFO : Z := 2.
Definition WCCP2_WC_ID_INFO : Z := 3.
Definition WCCP2_WC_VIEW_INFO : Z := 5.
Definition WCCP2_REDIRECT_ASSIGNMENT : Z := 6.
Definition WCCP2_CAPABILITY_INFO : Z := 8.
Definition WCCP2_FORWARDING_METHOD : Z := 1.
Definition WCCP2_PACKET_RETURN_METHOD : Z := 3.
Definition WCCP2_FORWARDING_METHOD_L2 : Z := 2.
Definition WCCP2_PACKET_RETURN_METHOD_L2 : Z := 2.

(** ** State.  Addresses are in network order, as they stand in the packets. *)
Record wccp_server := WccpServer { ipaddress : Z; router_id : Z; sock : Z; hellotimer : Z }.
Record wccp_webcache := WccpWebcache { wc_ipaddress : Z }.
Record wccp_service_group := ServiceGroup {
  group_id : Z; change_number : Z; servers : dhead; webcaches : dhead
}.

Record wccpstate := WccpState {
  wccp_service_groups : dhead;
  gheap : heap wccp_service_group;
  srvheap : heap wccp_server;
  wcheap : heap wccp_webcache;
  wsent : list (Z * list Z)          (* messages given to [send], latest first *)
}.

Definition initialize_wccp_service_groups : wccpstate := WccpState empty_head ∅ ∅ ∅ [].

Definition set_gheap (s : wccpstate) (h : heap wccp_service_group) : wccpstate :=
  WccpState (wccp_service_groups s) h (srvheap s) (wcheap s) (wsent s).
Definition set_srvheap (s : wccpstate) (h : heap wccp_server) : wccpstate :=
  WccpState (wccp_service_groups s) (gheap s) h (wcheap s) (wsent s).
Definition set_wcheap (s : wccpstate) (h : heap wccp_webcache) : wccpstate :=
  WccpState (wccp_service_groups s) (gheap s) (srvheap s) h (wsent s).

Definition set_servers (g : wccp_service_group) (hd : dhead) : wccp_service_group :=
  ServiceGroup (group_id g) (change_number g) hd (webcaches g).
Definition set_webcaches (g : wccp_service_group) (hd : dhead) : wccp_service_group :=
  ServiceGroup (group_id g) (change_number g) (servers g) hd.
Definition set_change_number (g : wccp_service_group) (v : Z) : wccp_service_group :=
  ServiceGroup (group_id g) v (servers g) (webcaches g).
Definition set_router_id (v : wccp_server) (id : Z) : wccp_server :=
  WccpServer (ipaddress v) id (sock v) (hellotimer v).
Definition set_sock (v : wccp_server) (fd : Z) : wccp_server :=
  WccpServer (ipaddress v) (router_id v) fd (hellotimer v).
Definition set_hellotimer (v : wccp_server) (t : Z) : wccp_server :=
  WccpServer (ipaddress v) (router_id v) (sock v) t.

(** The three searches are the same walk with a different test. *)
Fixpoint find_item {A} (fuel : nat) (h : heap A) (q : option loc) (f : A → bool) : outcome (option loc) :=
  match q, fuel with
  | None, _ => Ret None
  | Some _, O => Spin
  | Some x, S fuel =>
      nd ← load h q; if f (n_data nd) then Ret (Some x) else find_item fuel h (n_next nd) f
  end.

Definition find_wccp_service_group (s : wccpstate) (servicegroup : Z) : outcome (option loc) :=
  find_item (list_fuel (gheap s)) (gheap s) (h_next (wccp_service_groups s))
    (λ g, group_id g =? servicegroup).

Definition find_wccp_server (s : wccpstate) (service_group : option loc) (serverip : Z) : outcome (option loc) :=
  g ← load (gheap s) service_group;
  find_item (list_fuel (srvheap s)) (srvheap s) (h_next (servers (n_data g)))
    (λ v, ipaddress v =? serverip).

Definition find_wccp_webcache (s : wccpstate) (service_group : option loc) (webcacheip : Z) : outcome (option loc) :=
  g ← load (gheap s) service_group;
  find_item (list_fuel (wcheap s)) (wcheap s) (h_next (webcaches (n_data g)))
    (λ v, wc_ipaddress v =? webcacheip).

(** Allocation: [a] is what [malloc] answers. *)
Definition allocate {A} (h : heap A) (a : option loc) (d : A) : heap A :=
  match a with Some x => <[x := Node None None d]> h | None => h end.

Definition allocate_wccp_service_group (servicegroup : Z) : wccp_service_group :=
  ServiceGroup servicegroup 0 empty_head empty_head.
Definition allocate_wccp_server (serverip now : Z) : wccp_server := WccpServer serverip 0 0 now.
Definition allocate_wccp_webcache (webcacheip : Z) : wccp_webcache := WccpWebcache webcacheip.

(** ** Configuration *)

Definition cli_enter_wccp_help : list string := ["Usage: wccp <service group (0-254)>" +:+ newline].
Definition cli_wccp_server_help : list string := ["Usage: server <ip address>" +:+ newline].

(** What [cli_enter_wccp_mode] does once the search has found no group. *)
Definition new_service_group (servicegroup : Z) (a : option loc) (s : wccpstate)
    : outcome (wccpstate * commandresult * list string) :=
  let h := allocate (gheap s) a (allocate_wccp_service_group servicegroup) in
  '(h, hd) ← insert_list_item h (wccp_service_groups s) a;
  Ret (WccpState hd h (srvheap s) (wcheap s) (wsent s),
       CommandResult 0 (Some cli_wccp_mode) a, ["No service group." +:+ newline]).

Definition cli_enter_wccp_mode (parameters : list string) (a : option loc) (s : wccpstate)
    : outcome (wccpstate * commandresult * list string) :=
  let none := CommandResult 0 None None in
  match parameters with
  | [p] =>
      if isstringdigits p then
        temp ← atoi p;
        if (0 <=? temp) && (temp <=? 254) then
          let servicegroup := u8 temp in
          current ← find_wccp_service_group s servicegroup;
          match current with
          | Some x => Ret (s, CommandResult 0 (Some cli_wccp_mode) (Some x), [])
          | None => new_service_group servicegroup a s
          end
        else Ret (s, none, cli_enter_wccp_help)
      else Ret (s, none, cli_enter_wccp_help)
  | _ => Ret (s, none, cli_enter_wccp_help)
  end.

Definition cli_exit_wccp_mode (s : wccpstate) : outcome (wccpstate * commandresult * list string) :=
  Ret (s, CommandResult 0 None None, []).

Definition cli_wccp_server (parameters : list string) (data : option loc) (now : Z) (a : option loc)
    (s : wccpstate) : outcome (wccpstate * commandresult * list string) :=
  match data with
  | None => Ret (s, CommandResult 0 None None, [])
  | Some _ =>
      let result := CommandResult 0 (Some cli_wccp_mode) data in
      match parameters with
      | [p] =>
          match inet_pton p with
          | None => Ret (s, result, cli_wccp_server_help)
          | Some serverIP =>
              current ← find_wccp_server s data serverIP;
              match current with
              | Some _ => Ret (s, result, [])
              | None =>
                  let h := allocate (srvheap s) a (allocate_wccp_server serverIP now) in
                  g ← load (gheap s) data;
                  '(h, hd) ← insert_list_item h (servers (n_data g)) a;
                  gh ← store_data (gheap s) data (set_servers (n_data g) hd);
                  Ret (set_srvheap (set_gheap s gh) h, result, ["No server found." +:+ newline])
              end
          end
      | _ => Ret (s, result, cli_wccp_server_help)
      end
  end.

Definition cli_wccp_password (s : wccpstate) : outcome (wccpstate * commandresult * list string) :=
  Ret (s, CommandResult 0 (Some cli_wccp_mode) None, []).

(** ** Building messages.  The header is at offset 0: type, version, length. *)

Definition get_wccp_message_length (b : buffer) : outcome Z := l ← ld16 b 6; Ret (ntohs l + 8).

(** [length] is the component's length field, in network order. *)
Definition update_wccp_message_length (b : buffer) (length : Z) : outcome buffer :=
  l ← ld16 b 6; st16 b 6 (htons (ntohs l + ntohs length + 4)).

(** [component->length = htons(ntohs(component->length) + n)]; the length field is at [o + 2]. *)
Definition grow_component (b : buffer) (o n : Z) : outcome buffer :=
  l ← ld16 b (o + 2); st16 b (o + 2) (htons (ntohs l + n)).

Definition close_component (b : buffer) (o : Z) : outcome buffer :=
  l ← ld16 b (o + 2); update_wccp_message_length b l.

(** [wccp_add_here_i_am_header] and [wccp_add_redirect_assign_header]. *)
Definition add_header (b : buffer) (type : Z) : outcome buffer :=
  b ← st32 b 0 (htonl type);
  b ← st16 b 4 (htons WCCP2_VERSION);
  st16 b 6 (htons 0).

Definition wccp_add_security_component (b : buffer) : outcome buffer :=
  o ← get_wccp_message_length b;
  b ← st16 b o (htons WCCP2_SECURITY_INFO);
  b ← st16 b (o + 2) (htons 4);
  b ← st32 b (o + 4) (htonl WCCP2_NO_SECURITY);
  close_component b o.

(** [service_id] is one byte: the store keeps the low byte of [htons(group_id)]. *)
Definition wccp_add_service_component (b : buffer) (group_id : Z) : outcome buffer :=
  o ← get_wccp_message_length b;
  b ← st16 b o (htons WCCP2_SERVICE_INFO);
  b ← st16 b (o + 2) (htons 24);
  b ← wr b (o + 4) WCCP2_SERVICE_DYNAMIC;
  b ← wr b (o + 5) (htons group_id);
  b ← wr b (o + 6) 200;
  b ← wr b (o + 7) 0;
  b ← st32 b (o + 8) (htonl 15);
  close_component b o.

Definition wccp_add_router_id_component (b : buffer) (routerip : Z) : outcome buffer :=
  o ← get_wccp_message_length b;
  b ← st16 b o (htons WCCP2_ROUTER_ID_INFO);
  b ← st16 b (o + 2) (htons 16);
  b ← st32 b (o + 4) routerip;
  b ← st32 b (o + 12) 0;
  close_component b o.

Definition wccp_add_webcache_id_component (b : buffer) (local_ip : Z) : outcome buffer :=
  o ← get_wccp_message_length b;
  b ← st16 b o (htons WCCP2_WC_ID_INFO);
  b ← st16 b (o + 2) (htons 44);
  b ← st32 b (o + 4) local_ip;
  b ← st16 b (o + 8) (htons 0);
  b ← st16 b (o + 44) 0;
  b ← st16 b (o + 46) 0;
  close_component b o.

(** The loop over the servers: [p] is where the next element goes, [elem] writes it
    and [n] is its size; [o] is the component. *)
Fixpoint add_routers (fuel : nat) (h : heap wccp_server) (q : option loc)
    (elem : buffer → Z → wccp_server → outcome buffer) (n o : Z) (b : buffer) (p : Z) : outcome buffer :=
  match q, fuel with
  | None, _ => Ret b
  | Some _, O => Spin
  | Some _, S fuel =>
      nd ← load h q;
      b ← elem b p (n_data nd);
      b ← grow_component b o n;
      add_routers fuel h (n_next nd) elem n o b (p + n)
  end.

Fixpoint add_webcaches (fuel : nat) (h : heap wccp_webcache) (q : option loc) (o : Z) (b : buffer) (p : Z)
    : outcome buffer :=
  match q, fuel with
  | None, _ => Ret b
  | Some _, O => Spin
  | Some _, S fuel =>
      nd ← load h q;
      b ← st32 b p (wc_ipaddress (n_data nd));
      b ← grow_component b o 4;
      add_webcaches fuel h (n_next nd) o b (p + 4)
  end.

(** The part both list components share, from the number of routers at [p] on: the count,
    the elements, the number of web caches and their addresses. *)
Definition add_lists (s : wccpstate) (g : wccp_service_group)
    (elem : buffer → Z → wccp_server → outcome buffer) (n o p : Z) (b : buffer) : outcome (buffer * Z) :=
  b ← st32 b p (htonl (u32 (h_len (servers g))));
  b ← grow_component b o 4;
  b ← add_routers (list_fuel (srvheap s)) (srvheap s) (h_next (servers g)) elem n o b (p + 4);
  let num_webcaches := if 0 <? h_len (servers g) then p + 4 + h_len (servers g) * n else p + 4 in
  b ← st32 b num_webcaches (htonl (u32 (h_len (webcaches g))));
  b ← grow_component b o 4;
  b ← add_webcaches (list_fuel (wcheap s)) (wcheap s) (h_next (webcaches g)) o b (num_webcaches + 4);
  Ret (b, num_webcaches).

Definition router_id_element (b : buffer) (p : Z) (v : wccp_server) : outcome buffer :=
  b ← st32 b p (ipaddress v); st32 b (p + 4) (htonl (router_id v)).

Definition wccp_add_webcache_view_component (s : wccpstate) (g : wccp_service_group) (b : buffer) : outcome buffer :=
  o ← get_wccp_message_length b;
  b ← st16 b o (htons WCCP2_WC_VIEW_INFO);
  b ← st16 b (o + 2) (htons 4);
  b ← st32 b (o + 4) (htonl (change_number g));
  '(b, _) ← add_lists s g router_id_element 8 o (o + 8) b;
  close_component b o.

(** [o] is the capability info component. *)
Definition wccp_add_capability_element (b : buffer) (o capability_type value : Z) : outcome buffer :=
  l ← ld16 b (o + 2);
  let p := o + ntohs l + 4 in
  b ← st16 b p (htons capability_type);
  b ← st16 b (p + 2) (htons 4);
  b ← st32 b (p + 4) (htonl value);
  grow_component b o 8.

Definition wccp_add_capability_info (b : buffer) : outcome buffer :=
  o ← get_wccp_message_length b;
  b ← st16 b o (htons WCCP2_CAPABILITY_INFO);
  b ← st16 b (o + 2) (htons 0);
  b ← wccp_add_capability_element b o WCCP2_FORWARDING_METHOD WCCP2_FORWARDING_METHOD_L2;
  b ← wccp_add_capability_element b o WCCP2_PACKET_RETURN_METHOD WCCP2_PACKET_RETURN_METHOD_L2;
  close_component b o.

Definition router_assignment_element (change : Z) (b : buffer) (p : Z) (v : wccp_server) : outcome buffer :=
  b ← st32 b p (ipaddress v);
  b ← st32 b (p + 4) (htonl (u32 (router_id v + 1)));
  st32 b (p + 8) (htonl change).

Fixpoint clear_buckets (n : nat) (b : buffer) (p : Z) : outcome buffer :=
  match n with O => Ret b | S n => b ← wr b p (htons 0); clear_buckets n b (p + 1) end.

Definition wccp_add_assignment_info_component (s : wccpstate) (g : wccp_service_group) (local_ip : Z) (b : buffer)
    : outcome buffer :=
  o ← get_wccp_message_length b;
  b ← st16 b o (htons WCCP2_REDIRECT_ASSIGNMENT);
  b ← st32 b (o + 4) local_ip;
  b ← st32 b (o + 8) (htonl (change_number g));
  b ← st16 b (o + 2) (htons 8);
  '(b, num_webcaches) ← add_lists s g (router_assignment_element (change_number g)) 12 o (o + 12) b;
  let buckets := if 0 <? h_len (webcaches g) then num_webcaches + 4 + h_len (webcaches g) * 4
                 else num_webcaches + 4 in
  b ← clear_buckets 256 b buckets;
  b ← grow_component b o 256;
  close_component b o.

Definition WCCP_BUFSIZE : nat := 1024.

(** The buffer [wccp_send_message] has built when it calls [send]; [None] for a type it
    does not know. *)
Definition wccp_message (s : wccpstate) (g : wccp_service_group) (local_ip messagetype : Z)
    : outcome (option buffer) :=
  let b := replicate WCCP_BUFSIZE 0 in
  if messagetype =? WCCP2_HERE_I_AM then
    b ← add_header b WCCP2_HERE_I_AM;
    b ← wccp_add_security_component b;
    b ← wccp_add_service_component b (group_id g);
    b ← wccp_add_webcache_id_component b local_ip;
    b ← wccp_add_webcache_view_component s g b;
    b ← wccp_add_capability_info b;
    Ret (Some b)
  else if messagetype =? WCCP2_REDIRECT_ASSIGN then
    b ← add_header b WCCP2_REDIRECT_ASSIGN;
    b ← wccp_add_security_component b;
    b ← wccp_add_service_component b (group_id g);
    b ← wccp_add_assignment_info_component s g local_ip b;
    Ret (Some b)
  else Ret None.

Definition wccp_send_message (s : wccpstate) (g : wccp_service_group) (this_wccp_server : wccp_server)
    (local_ip messagetype : Z) : outcome wccpstate :=
  o ← wccp_message s g local_ip messagetype;
  match o with
  | None => Ret s
  | Some b =>
      l ← get_wccp_message_length b;
      if in_object b 0 l
      then Ret (WccpState (wccp_service_groups s) (gheap s) (srvheap s) (wcheap s)
                  ((sock this_wccp_server, sub b 0 l) :: wsent s))
      else Undef
  end.

(** ** Sending, once per server and wake-up of the epoll loop *)

(** What the system calls of one server's turn answer: the time stored in its hello timer,
    [get_local_ip] for either message, [new_udp_client] (negative on failure), and whether
    [fcntl] and [epoll_ctl] succeed on the new socket.  [None]: the call ends the program. *)
Record turn := Turn {
  turn_time : Z; here_ip : option Z; assign_ip : option Z;
  new_udp_client : option Z; udp_fcntl_ok : bool; udp_epoll_ctl_ok : bool
}.

(** For one wake-up: the time it starts with, and the turn of the [j]-th server of the
    [i]-th group. *)
Record wccp_env := WccpEnv { wccp_time : Z; at_server : nat → nat → turn }.

(** It runs on the whole [struct epoller].  [None]: the program has exited. *)
Definition wccp_process_server (t : turn) (st : epoller wccpstate) (group server : option loc)
    : outcome (option (epoller wccpstate)) :=
  let s := app st in
  v ← load (srvheap s) server;
  if sock (n_data v) =? 0 then
    match new_udp_client t with
    | None => Ret None
    | Some client =>
        if 0 <=? client then
          h ← store_data (srvheap s) server (set_sock (n_data v) client);
          Ret (register_socket (udp_fcntl_ok t) (udp_epoll_ctl_ok t) (set_app st (set_srvheap s h)) client)
        else Ret (Some st)
    end
  else
    g ← load (gheap s) group;
    match here_ip t with
    | None => Ret None
    | Some ip =>
        s ← wccp_send_message s (n_data g) (n_data v) ip WCCP2_HERE_I_AM;
        match assign_ip t with
        | None => Ret None
        | Some ip => s ← wccp_send_message s (n_data g) (n_data v) ip WCCP2_REDIRECT_ASSIGN; Ret (Some (set_app st s))
        end
    end.

(** One turn of the inner loop of [wccp_epoller_timeout]. *)
Definition server_turn (time : Z) (t : turn) (st : epoller wccpstate) (group server : option loc)
    : outcome (option (epoller wccpstate)) :=
  v ← load (srvheap (app st)) server;
  if 9 <=? time - hellotimer (n_data v) then
    h ← store_data (srvheap (app st)) server (set_hellotimer (n_data v) (turn_time t));
    wccp_process_server t (set_app st (set_srvheap (app st) h)) group server
  else Ret (Some st).

Fixpoint servers_loop (fuel : nat) (time : Z) (turns : nat → turn) (st : epoller wccpstate) (group q : option loc)
    : outcome (option (epoller wccpstate)) :=
  match q, fuel with
  | None, _ => Ret (Some st)
  | Some _, O => Spin
  | Some _, S fuel =>
      o ← server_turn time (turns 0%nat) st group q;
      match o with
      | None => Ret None
      | Some st => v ← load (srvheap (app st)) q; servers_loop fuel time (λ j, turns (S j)) st group (n_next v)
      end
  end.

Fixpoint groups_loop (fuel : nat) (time : Z) (turns : nat → nat → turn) (st : epoller wccpstate) (q : option loc)
    : outcome (option (epoller wccpstate)) :=
  match q, fuel with
  | None, _ => Ret (Some st)
  | Some _, O => Spin
  | Some _, S fuel =>
      g ← load (gheap (app st)) q;
      o ← servers_loop (list_fuel (srvheap (app st))) time (turns 0%nat) st q (h_next (servers (n_data g)));
      match o with
      | None => Ret None
      | Some st => g ← load (gheap (app st)) q; groups_loop fuel time (λ i, turns (S i)) st (n_next g)
      end
  end.

Definition wccp_epoller_timeout (env : wccp_env) (st : epoller wccpstate) : outcome (option (epoller wccpstate)) :=
  groups_loop (list_fuel (gheap (app st))) (wccp_time env) (at_server env) st (h_next (wccp_service_groups (app st))).

(** ** Receiving.  [m] is the receive buffer. *)

(** The loop that adds web caches: the pointer into the message is not advanced in it, so
    every round looks at the address at offset [w]. *)
Fixpoint add_caches_loop (k : nat) (s : wccpstate) (group : option loc) (m : buffer) (w : Z)
    (a : nat → option loc) : outcome wccpstate :=
  match k with
  | O => Ret s
  | S k =>
      ip ← ld32 m w;
      found ← find_wccp_webcache s group ip;
      s ← match found with
          | Some _ => Ret s
          | None =>
              let h := allocate (wcheap s) (a 0%nat) (allocate_wccp_webcache ip) in
              g ← load (gheap s) group;
              '(h, hd) ← insert_list_item h (webcaches (n_data g)) (a 0%nat);
              gh ← store_data (gheap s) group (set_webcaches (n_data g) hd);
              Ret (set_wcheap (set_gheap s gh) h)
          end;
      add_caches_loop k s group m w (λ n, a (S n))
  end.

(** [sizeof(struct wccp_webcache_id_element)] *)
Definition WEBCACHE_ID_ELEMENT : Z := 44.

(** The reads of the second pass: [webcache[i].cache_ip] for every [i < k]. *)
Fixpoint read_caches (k : nat) (m : buffer) (w : Z) : outcome unit :=
  match k with
  | O => Ret tt
  | S k => _ ← ld32 m w; read_caches k m (w + WEBCACHE_ID_ELEMENT)
  end.

Fixpoint compare_loop (fuel : nat) (h : heap wccp_webcache) (q : option loc) (k : nat) (m : buffer) (w : Z)
    : outcome unit :=
  match q, fuel with
  | None, _ => Ret tt
  | Some _, O => Spin
  | Some _, S fuel =>
      nd ← load h q; _ ← read_caches k m w; compare_loop fuel h (n_next nd) k m w
  end.

Definition process_wccp_router_view_component (s : wccpstate) (group : option loc) (m : buffer) (o : Z)
    (a : nat → option loc) : outcome wccpstate :=
  g ← load (gheap s) group;
  cn ← ld32 m (o + 4);
  if ntohl cn =? change_number (n_data g) then Ret s else
  gh ← store_data (gheap s) group (set_change_number (n_data g) (ntohl cn));
  let s := set_gheap s gh in
  let num_routers := o + 16 in
  n ← ld32 m num_routers;
  let num_webcaches := num_routers + 4 * (ntohl n + 1) in
  k ← ld32 m num_webcaches;
  let k := ntohl k in
  if 0 <? k then
    s ← add_caches_loop (Z.to_nat k) s group m (num_webcaches + 4) a;
    g ← load (gheap s) group;
    _ ← compare_loop (list_fuel (wcheap s)) (wcheap s) (h_next (webcaches (n_data g))) (Z.to_nat k) m
          (num_webcaches + 4);
    Ret s
  else Ret s.

Definition process_wccp_router_id_component (s : wccpstate) (group : option loc) (m : buffer) (o : Z)
    (a : nat → option loc) : outcome wccpstate :=
  ip ← ld32 m (o + 4);
  server ← find_wccp_server s group ip;
  match server with
  | None => Ret s
  | Some _ =>
      id ← ld32 m (o + 8);
      v ← load (srvheap s) server;
      h ← store_data (srvheap s) server (set_router_id (n_data v) (ntohl id));
      l ← ld16 m (o + 2);
      process_wccp_router_view_component (set_srvheap s h) group m (o + ntohs l + 4) a
  end.

(** The byte [service_id] is widened, swapped and cut to a byte again by the parameter of
    [find_wccp_service_group]. *)
Definition process_wccp_service_component (s : wccpstate) (m : buffer) (o : Z) (a : nat → option loc)
    : outcome wccpstate :=
  service_id ← rd m (o + 5);
  group ← find_wccp_service_group s (u8 (ntohs service_id));
  match group with
  | None => Ret s
  | Some _ => l ← ld16 m (o + 2); process_wccp_router_id_component s group m (o + ntohs l + 4) a
  end.

Definition process_wccp_security_component (s : wccpstate) (m : buffer) (o : Z) (a : nat → option loc)
    : outcome wccpstate :=
  l ← ld16 m (o + 2);
  _ ← ld32 m (o + 4);
  process_wccp_service_component s m (o + ntohs l + 4) a.

Definition wccp_handler (s : wccpstate) (m : buffer) (a : nat → option loc) : outcome wccpstate :=
  type ← ld32 m 0;
  if ntohl type =? WCCP2_I_SEE_YOU then process_wccp_security_component s m 8 a else Ret s.
