(* ===== verification/WccpWire.v ===== *)
(** * The wire format of the WCCP messages

    A message is a header and a sequence of components, each a type, a length
    and a body.  The functions of wccpv2.c, which write fields at computed
    offsets and keep two length fields up to date, produce exactly that; a
    message that does not fit the buffer is written past its end. *)
From S2P Require Import Prelude Dll Cli Wccp.
#[local] Open Scope Z_scope.
#[local] Open Scope list_scope.

(** * The format *)
Definition component (type : Z) (body : list Z) : list Z := be16 type ++ be16 (blen body) ++ body.
Definition message (type : Z) (body : list Z) : list Z :=
  be32 type ++ be16 WCCP2_VERSION ++ be16 (blen body) ++ body.

(** The reference decoder of a message body. *)
Fixpoint parse_components (fuel : nat) (l : list Z) : option (list (Z * list Z)) :=
  match l, fuel with
  | [], _ => Some []
  | t1 :: t2 :: l1 :: l2 :: rest, S fuel =>
      let n := 256 * l1 + l2 in
      if n <=? blen rest
      then cs ← parse_components fuel (drop (Z.to_nat n) rest);
           Some ((256 * t1 + t2, take (Z.to_nat n) rest) :: cs)
      else None
  | _, _ => None
  end.

Definition encode (cs : list (Z * list Z)) : list Z := concat ((λ c, component c.1 c.2) <$> cs).

(** ** The bodies *)
Definition security_body : list Z := be32 0.
Definition service_body : list Z := [1; 0; 200; 0] ++ be32 15 ++ zeros 16.
Definition webcache_id_body (ip : Z) : list Z := le32 ip ++ zeros 40.
Definition capability_body : list Z :=
  be16 1 ++ be16 4 ++ be32 2 ++ be16 3 ++ be16 4 ++ be32 2.

Definition lists_body (elem : wccp_server → list Z) (vs : list wccp_server) (ws : list wccp_webcache) : list Z :=
  be32 (Z.of_nat (length vs)) ++ concat (elem <$> vs)
  ++ be32 (Z.of_nat (length ws)) ++ concat ((λ w, le32 (wc_ipaddress w)) <$> ws).

Definition view_router (v : wccp_server) : list Z := le32 (ipaddress v) ++ be32 (router_id v).
Definition assigned_router (change : Z) (v : wccp_server) : list Z :=
  le32 (ipaddress v) ++ be32 (u32 (router_id v + 1)) ++ be32 change.

Definition view_body (change : Z) (vs : list wccp_server) (ws : list wccp_webcache) : list Z :=
  be32 change ++ lists_body view_router vs ws.
Definition assignment_body (ip change : Z) (vs : list wccp_server) (ws : list wccp_webcache) : list Z :=
  le32 ip ++ be32 change ++ lists_body (assigned_router change) vs ws ++ zeros 256.

(** The components of the two messages. *)
Definition here_i_am (ip change : Z) (vs : list wccp_server) (ws : list wccp_webcache) : list (Z * list Z) :=
  [ (WCCP2_SECURITY_INFO, security_body); (WCCP2_SERVICE_INFO, service_body);
    (WCCP2_WC_ID_INFO, webcache_id_body ip); (WCCP2_WC_VIEW_INFO, view_body change vs ws);
    (WCCP2_CAPABILITY_INFO, capability_body) ].
Definition redirect_assign (ip change : Z) (vs : list wccp_server) (ws : list wccp_webcache) : list (Z * list Z) :=
  [ (WCCP2_SECURITY_INFO, security_body); (WCCP2_SERVICE_INFO, service_body);
    (WCCP2_REDIRECT_ASSIGNMENT, assignment_body ip change vs ws) ].

(** * Buffers under construction *)

(** A complete message followed by the unused, zeroed rest of the buffer. *)
Definition closed (type : Z) (body : list Z) (n : Z) : buffer := message type body ++ zeros n.

(** A component at the end of [M] with length field [len] and the [body] written so far. *)
Definition opened (M : list Z) (type : Z) (body : list Z) (len n : Z) : buffer :=
  (M ++ be16 type ++ be16 len ++ body) ++ zeros n.

Lemma blen_message type body : blen (message type body) = blen body + 8.
Proof. unfold message. rewrite !blen_app. unfold blen. simpl. lia. Qed.

Lemma blen_component type body : blen (component type body) = blen body + 4.
Proof. unfold component. rewrite !blen_app. unfold blen. simpl. lia. Qed.

Lemma blen_opened M type body : blen (M ++ be16 type ++ be16 0 ++ body) = blen M + 4 + blen body.
Proof. rewrite !blen_app. unfold blen. simpl. lia. Qed.

Lemma blen_be32 v : blen (be32 v) = 4.
Proof. done. Qed.
Lemma blen_be16 v : blen (be16 v) = 2.
Proof. done. Qed.

Section Open.
Context (M : list Z) (type : Z).

Lemma opened_end body len : blen (M ++ be16 type ++ be16 len ++ body) = blen M + 4 + blen body.
Proof. rewrite !blen_app. unfold blen. simpl. lia. Qed.

Lemma opened_append body len n b' k :
  ((M ++ be16 type ++ be16 len ++ body) ++ b') ++ zeros (n - k) = opened M type (body ++ b') len (n - k).
Proof. unfold opened. by rewrite <-!app_assoc. Qed.

Lemma opened_wr body len n v p : 0 < n → p = blen M + 4 + blen body →
  wr (opened M type body len n) p v = Ret (opened M type (body ++ [u8 v]) len (n - 1)).
Proof. intros Hn ->. rewrite <-(opened_end body len). unfold opened at 1. rewrite wr_end by done. by rewrite opened_append. Qed.

Lemma opened_st16 body len n v p : 2 <= n → p = blen M + 4 + blen body →
  st16 (opened M type body len n) p v = Ret (opened M type (body ++ le16 v) len (n - 2)).
Proof. intros Hn ->. rewrite <-(opened_end body len). unfold opened at 1. rewrite st16_end by done. by rewrite opened_append. Qed.

Lemma opened_st32 body len n v p : 4 <= n → p = blen M + 4 + blen body →
  st32 (opened M type body len n) p v = Ret (opened M type (body ++ le32 v) len (n - 4)).
Proof. intros Hn ->. rewrite <-(opened_end body len). unfold opened at 1. rewrite st32_end by done. by rewrite opened_append. Qed.

Lemma opened_st32_out body len n v p : 0 <= n < 4 → p = blen M + 4 + blen body →
  st32 (opened M type body len n) p v = Undef.
Proof.
  intros Hn ->. apply st32_out. unfold opened. rewrite blen_app, opened_end, blen_zeros by lia. lia.
Qed.

(** Zero bytes of the rest count as part of the body. *)
Lemma opened_skip body len n k : 0 <= k <= n → opened M type body len n = opened M type (body ++ zeros k) len (n - k).
Proof.
  intros Hk. unfold opened. rewrite <-!app_assoc. do 4 f_equal. rewrite zeros_add by lia. f_equal. lia.
Qed.

Lemma opened_len body len n : 0 <= len < 65536 →
  ld16 (opened M type body len n) (blen M + 2) = Ret (u8 (len / 256) + 256 * u8 len).
Proof.
  intros Hl. unfold opened. rewrite <-!app_assoc.
  change (M ++ be16 type ++ ?x) with (M ++ (be16 type ++ x)). rewrite app_assoc.
  apply ld16_app. rewrite blen_app. done.
Qed.

Lemma opened_set_len body len len' n :
  st16 (opened M type body len n) (blen M + 2) (htons len') = Ret (opened M type body len' n).
Proof.
  unfold opened. rewrite <-!app_assoc. rewrite (app_assoc M). cbn [be16 app].
  rewrite st16_app by (rewrite blen_app; done). rewrite le16_htons.
  by rewrite <-!app_assoc.
Qed.

Lemma opened_grow body len n k : 0 <= len < 65536 →
  grow_component (opened M type body len n) (blen M) k = Ret (opened M type body (len + k) n).
Proof.
  intros Hl. unfold grow_component. rewrite opened_len by done. cbn [mbind outcome_bind].
  rewrite ntohs_be16 by done. apply opened_set_len.
Qed.
End Open.

(** ** Messages as opened components

    The header has the shape of a component: its version is in the place of the type. *)
Lemma closed_opened type body n : closed type body n = opened (be32 type) WCCP2_VERSION body (blen body) n.
Proof. done. Qed.

Lemma opened_nested type bodyM len0 t body len n :
  opened (be32 type ++ be16 WCCP2_VERSION ++ be16 len0 ++ bodyM) t body len n
  = opened (be32 type) WCCP2_VERSION (bodyM ++ be16 t ++ be16 len ++ body) len0 n.
Proof. unfold opened. by rewrite <-!app_assoc. Qed.

Lemma message_length type body n : blen body < 65536 →
  get_wccp_message_length (closed type body n) = Ret (blen (message type body)).
Proof.
  intros Hb. pose proof (blen_nonneg body). unfold get_wccp_message_length. rewrite closed_opened.
  change 6 with (blen (be32 type) + 2). rewrite opened_len by lia. cbn [mbind outcome_bind].
  by rewrite ntohs_be16, blen_message by lia.
Qed.

Lemma header_closed n type : 8 <= n → add_header (zeros n) type = Ret (closed type [] (n - 8)).
Proof.
  intros Hn. unfold add_header. pose proof (st32_end [] n (htonl type)) as E. cbn [app] in E.
  change (blen []) with 0 in E. rewrite E by lia. clear E.
  cbn [mbind outcome_bind app]. rewrite le32_htonl.
  pose proof (st16_end (be32 type) (n - 4) (htons WCCP2_VERSION)) as E.
  change (blen (be32 type)) with 4 in E. rewrite E by lia. clear E. cbn [mbind outcome_bind]. rewrite le16_htons.
  pose proof (st16_end (be32 type ++ be16 WCCP2_VERSION) (n - 4 - 2) (htons 0)) as E.
  change (blen (be32 type ++ be16 WCCP2_VERSION)) with 6 in E. rewrite E by lia. clear E. rewrite le16_htons.
  unfold closed, message. rewrite <-!app_assoc. replace (n - 4 - 2 - 2) with (n - 8) by lia. done.
Qed.

(** Writing the type of a component; its length field still holds zero bytes. *)
Lemma opened_start M n t : 4 <= n → st16 (M ++ zeros n) (blen M) (htons t) = Ret (opened M t [] 0 (n - 4)).
Proof.
  intros Hn. rewrite st16_end by lia. rewrite le16_htons. unfold opened. rewrite app_nil_r, <-!app_assoc.
  do 3 f_equal. rewrite (zeros_S (n - 2)), (zeros_S (n - 2 - 1)) by lia. cbn [be16 app]. unfold u8. simpl.
  do 3 f_equal. lia.
Qed.

Lemma opened_start_out M n t : 0 <= n < 4 → (b ← st16 (M ++ zeros n) (blen M) (htons t);
  st16 b (blen M + 2) (htons 0)) = Undef.
Proof.
  intros Hn. destruct (decide (2 <= n)).
  - rewrite st16_end by lia. cbn [mbind outcome_bind]. apply st16_out.
    rewrite !blen_app, blen_zeros by lia. change (blen (le16 (htons t))) with 2. lia.
  - rewrite st16_out; [done|]. rewrite blen_app, blen_zeros by lia. lia.
Qed.

(** Closing a component completes the message. *)
Lemma opened_close type bodyM t body n : blen bodyM + 4 + blen body < 65536 →
  close_component (opened (message type bodyM) t body (blen body) n) (blen (message type bodyM))
  = Ret (closed type (bodyM ++ component t body) n).
Proof.
  intros Hb. pose proof (blen_nonneg body). pose proof (blen_nonneg bodyM).
  unfold close_component. rewrite opened_len by lia. cbn [mbind outcome_bind].
  unfold update_wccp_message_length. unfold message. rewrite opened_nested.
  change 6 with (blen (be32 type) + 2). rewrite opened_len by lia. cbn [mbind outcome_bind].
  rewrite !ntohs_be16 by lia. rewrite opened_set_len. rewrite closed_opened. do 2 f_equal.
  unfold component. rewrite !blen_app. unfold blen. simpl. lia.
Qed.

(** ** The fixed components *)
Ltac build := cbn [mbind outcome_bind]; rewrite ?opened_set_len; cbn [mbind outcome_bind].

Lemma security_component type bodyM n : 8 <= n → blen bodyM + 8 < 65536 →
  wccp_add_security_component (closed type bodyM n)
  = Ret (closed type (bodyM ++ component WCCP2_SECURITY_INFO security_body) (n - 8)).
Proof.
  intros Hn Hb. unfold wccp_add_security_component. rewrite message_length by lia. cbn [mbind outcome_bind].
  unfold closed at 1. rewrite opened_start by lia. build.
  rewrite opened_st32; [|lia|change (blen []) with 0; lia]. build. rewrite le32_htonl. cbn [app].
  rewrite (opened_close _ _ _ security_body) by (change (blen security_body) with 4; lia).
  by replace (n - 4 - 4) with (n - 8) by lia.
Qed.

(** Lengths of what is written. *)
Lemma blen_cons a l : blen (a :: l) = blen l + 1.
Proof. unfold blen. simpl. lia. Qed.
Lemma blen_empty : blen [] = 0.
Proof. done. Qed.
Create Rewrite HintDb wire_len.
#[export] Hint Rewrite blen_app blen_cons blen_empty blen_le32 blen_be32 blen_be16 : wire_len.
Ltac lens := autorewrite with wire_len; try lia.

(** One store at the end of the opened component. *)
Ltac put32 := rewrite opened_st32; [|lia|lens]; cbn [mbind outcome_bind]; rewrite ?le32_htonl.
Ltac put16 := rewrite opened_st16; [|lia|lens]; cbn [mbind outcome_bind]; rewrite ?le16_htons.
Ltac put8 := rewrite opened_wr; [|lia|lens]; cbn [mbind outcome_bind].

Lemma service_id_byte g : 0 <= g < 256 → u8 (htons g) = 0.
Proof.
  intros Hg. unfold u8, htons, ntohs. change (2 ^ 8) with 256. rewrite (Z.div_small g) by lia.
  rewrite (Z.mod_small g), (Z.mod_small 0) by lia. rewrite Z.add_0_r. apply Z.mod_mul. lia.
Qed.

Lemma service_component type bodyM n g : 28 <= n → blen bodyM + 28 < 65536 → 0 <= g < 256 →
  wccp_add_service_component (closed type bodyM n) g
  = Ret (closed type (bodyM ++ component WCCP2_SERVICE_INFO service_body) (n - 28)).
Proof.
  intros Hn Hb Hg. unfold wccp_add_service_component. rewrite message_length by lia. cbn [mbind outcome_bind].
  unfold closed at 1. rewrite opened_start by lia. build. do 4 put8. put32.
  rewrite (opened_skip _ _ _ _ _ 16) by lia. rewrite service_id_byte by done.
  change (((((([] ++ [u8 WCCP2_SERVICE_DYNAMIC]) ++ [0]) ++ [u8 200]) ++ [u8 0]) ++ be32 15) ++ zeros 16)
    with service_body. change 24 with (blen service_body) at 1.
  rewrite opened_close by (change (blen service_body) with 24; lia).
  do 2 f_equal. lia.
Qed.

Lemma put_zeros A n k i v : 0 <= k → k + 2 <= n → i = blen A + k → v = 0 → st16 (A ++ zeros n) i v = Ret (A ++ zeros n).
Proof.
  intros Hk Hn -> ->. replace (zeros n) with (zeros k ++ zeros (n - k)) by (rewrite zeros_add by lia; f_equal; lia).
  rewrite app_assoc. replace (blen A + k) with (blen (A ++ zeros k)) by (rewrite blen_app, blen_zeros by lia; done).
  rewrite st16_end by lia. rewrite <-app_assoc. do 2 f_equal.
  rewrite (zeros_S (n - k)), (zeros_S (n - k - 1)) by lia. cbn. do 3 f_equal. lia.
Qed.

Lemma webcache_id_component type bodyM n ip : 48 <= n → blen bodyM + 48 < 65536 →
  wccp_add_webcache_id_component (closed type bodyM n) ip
  = Ret (closed type (bodyM ++ component WCCP2_WC_ID_INFO (webcache_id_body ip)) (n - 48)).
Proof.
  intros Hn Hb. unfold wccp_add_webcache_id_component. rewrite message_length by lia. cbn [mbind outcome_bind].
  unfold closed at 1. rewrite opened_start by lia. build. put32. cbn [app].
  assert (Hz : ∀ k i, 0 <= k → k + 2 <= n - 8 → i = blen (message type bodyM) + 8 + k →
    st16 (opened (message type bodyM) WCCP2_WC_ID_INFO (le32 ip) 44 (n - 4 - 4)) i 0
    = Ret (opened (message type bodyM) WCCP2_WC_ID_INFO (le32 ip) 44 (n - 4 - 4))).
  { intros k i Hk Hkn ->. unfold opened. apply (put_zeros _ _ k); [lia|lia| |done].
    rewrite opened_end, blen_le32. lia. }
  change (htons 0) with 0.
  rewrite (Hz 0) by lia. build. rewrite (Hz 36) by lia. build. rewrite (Hz 38) by lia. build.
  rewrite (opened_skip _ _ _ _ _ 40) by lia. change (le32 ip ++ zeros 40) with (webcache_id_body ip).
  change 44 with (blen (webcache_id_body ip)) at 1.
  rewrite opened_close by (change (blen (webcache_id_body ip)) with 44; lia). do 2 f_equal. lia.
Qed.

(** ** The lists of routers and web caches *)
Section Lists.
Context (M : list Z) (type : Z).

(** An element writer appends [enc v], of [k] bytes, or runs past the buffer. *)
Definition writes (elem : buffer → Z → wccp_server → outcome buffer) (enc : wccp_server → list Z) (k : Z) : Prop :=
  0 < k ∧ (∀ v, blen (enc v) = k) ∧
  ∀ body len n v p, 0 <= n → p = blen M + 4 + blen body →
    elem (opened M type body len n) p v
    = if k <=? n then Ret (opened M type (body ++ enc v) len (n - k)) else Undef.

Lemma st32_if body len n v p : 0 <= n → p = blen M + 4 + blen body →
  st32 (opened M type body len n) p v
  = if 4 <=? n then Ret (opened M type (body ++ le32 v) len (n - 4)) else Undef.
Proof.
  intros Hn Hp. destruct (Z.leb_spec 4 n); [by apply opened_st32|by apply opened_st32_out].
Qed.

Lemma add_routers_spec elem enc k h prv l vs : writes elem enc k →
  seg h (λ _, True) prv l None → Forall2 (λ x v, payload h !! x = Some v) l vs →
  ∀ fuel body len n p, (length l < fuel)%nat → 0 <= n → 0 <= len → len + n < 65536 →
  p = blen M + 4 + blen body →
  add_routers fuel h (first l None) elem k (blen M) (opened M type body len n) p
  = if k * Z.of_nat (length vs) <=? n
    then Ret (opened M type (body ++ concat (enc <$> vs)) (len + k * Z.of_nat (length vs))
                (n - k * Z.of_nat (length vs)))
    else Undef.
Proof.
  intros (Hk & Hl & He) Hs Hv. revert prv Hs.
  induction Hv as [|x v l vs Hx Hv IH]; intros prv Hs [|fuel] body len n p Hf Hn Hlen Hmax Hp; simpl in Hf; try lia.
  - rewrite Z.mul_0_r, app_nil_r, Z.add_0_r, Z.sub_0_r. simpl. by bool_lia.
  - destruct Hs as (d & Hd & _ & Hs). cbn [add_routers first]. unfold load, deref. rewrite Hd.
    rewrite payload_lookup, Hd in Hx. injection Hx as ->. cbn [mbind outcome_bind n_data n_next].
    cbn [length]. rewrite He by done. destruct (Z.leb_spec k n).
    + cbn [mbind outcome_bind]. rewrite opened_grow by nia. cbn [mbind outcome_bind].
      rewrite (IH (Some x)); [|done|lia|lia|lia|lia|rewrite blen_app, Hl; lia].
      replace (k * Z.of_nat (S (length vs))) with (k + k * Z.of_nat (length vs)) by lia.
      cbn [fmap list_fmap concat]. rewrite <-app_assoc.
      destruct (Z.leb_spec (k * Z.of_nat (length vs)) (n - k)); bool_lia; [|done].
      do 2 f_equal; lia.
    + cbn [mbind outcome_bind]. by replace (k * Z.of_nat (S (length vs)) <=? n) with false
        by (symmetry; apply Z.leb_gt; nia).
Qed.

Lemma add_webcaches_spec h prv l ws :
  seg h (λ _, True) prv l None → Forall2 (λ x v, payload h !! x = Some v) l ws →
  ∀ fuel body len n p, (length l < fuel)%nat → 0 <= n → 0 <= len → len + n < 65536 →
  p = blen M + 4 + blen body →
  add_webcaches fuel h (first l None) (blen M) (opened M type body len n) p
  = if 4 * Z.of_nat (length ws) <=? n
    then Ret (opened M type (body ++ concat ((λ w, le32 (wc_ipaddress w)) <$> ws)) (len + 4 * Z.of_nat (length ws))
                (n - 4 * Z.of_nat (length ws)))
    else Undef.
Proof.
  intros Hs Hv. revert prv Hs.
  induction Hv as [|x v l vs Hx Hv IH]; intros prv Hs [|fuel] body len n p Hf Hn Hlen Hmax Hp; simpl in Hf; try lia.
  - rewrite Z.mul_0_r, app_nil_r, Z.add_0_r, Z.sub_0_r. simpl. by bool_lia.
  - destruct Hs as (d & Hd & _ & Hs). cbn [add_webcaches first]. unfold load, deref. rewrite Hd.
    rewrite payload_lookup, Hd in Hx. injection Hx as ->. cbn [mbind outcome_bind n_data n_next].
    cbn [length]. rewrite st32_if by done. destruct (Z.leb_spec 4 n).
    + cbn [mbind outcome_bind]. rewrite opened_grow by lia. cbn [mbind outcome_bind].
      rewrite (IH (Some x)); [|done|lia|lia|lia|lia|rewrite blen_app, blen_le32; lia].
      cbn [fmap list_fmap concat]. rewrite <-app_assoc.
      destruct (Z.leb_spec (4 * Z.of_nat (length vs)) (n - 4)); bool_lia; [|done].
      do 2 f_equal; lia.
    + cbn [mbind outcome_bind]. by bool_lia.
Qed.
End Lists.

(** The servers and web caches of a group. *)
Definition lists_of {A} (h : heap A) (hd : dhead) (vs : list A) : Prop :=
  ∃ l, dll h (λ _, True) hd l ∧ h_len hd = Z.of_nat (length l) ∧ Forall2 (λ x v, payload h !! x = Some v) l vs.

Lemma lists_of_len {A} (h : heap A) hd vs : lists_of h hd vs → h_len hd = Z.of_nat (length vs).
Proof. intros (l & _ & -> & H%Forall2_length). lia. Qed.

Lemma blen_concat {A} (enc : A → list Z) k vs : (∀ v, blen (enc v) = k) → blen (concat (enc <$> vs)) = k * Z.of_nat (length vs).
Proof.
  intros H. induction vs as [|v vs IH]; [rewrite Z.mul_0_r; done|].
  cbn [fmap list_fmap concat length]. rewrite blen_app, H, IH. lia.
Qed.

Definition lists_size (k : Z) (vs : list wccp_server) (ws : list wccp_webcache) : Z :=
  8 + k * Z.of_nat (length vs) + 4 * Z.of_nat (length ws).

(** A count is stored modulo 2^32. *)
Lemma be32_u32 v : be32 (u32 v) = be32 v.
Proof.
  unfold be32, be16, u32, u8. change (2 ^ 8) with 256. change (2 ^ 32) with 4294967296.
  pose proof (Z.div_mod v 4294967296 ltac:(lia)) as E.
  set (q := v / 4294967296) in E. set (r := v mod 4294967296) in *. rewrite E.
  assert (D : ∀ x c k, 0 < k → (k * c + x) / k = x / k + c)
    by (intros x c k Hk; rewrite (Z.add_comm (k * c)), (Z.mul_comm k), Z.div_add by lia; done).
  assert (Hm : ∀ x c, (x + 256 * c) mod 256 = x mod 256)
    by (intros x c; rewrite (Z.mul_comm 256), Z.mod_add by lia; done).
  replace (4294967296 * q + r) with (65536 * (65536 * q) + r) by lia. rewrite (D r (65536 * q) 65536) by lia.
  replace (65536 * (65536 * q) + r) with (256 * (16777216 * q) + r) by lia. rewrite (D r (16777216 * q) 256) by lia.
  replace (r / 65536 + 65536 * q) with (256 * (256 * q) + r / 65536) by lia. rewrite (D (r / 65536) (256 * q) 256) by lia.
  replace (r / 256 + 16777216 * q) with (r / 256 + 256 * (65536 * q)) by lia.
  replace (256 * (256 * q) + r / 65536) with (r / 65536 + 256 * (256 * q)) by lia.
  replace (256 * (16777216 * q) + r) with (r + 256 * (16777216 * q)) by lia.
  by rewrite !Hm.
Qed.

Lemma blen_lists enc k vs ws : (∀ v, blen (enc v) = k) → blen (lists_body enc vs ws) = lists_size k vs ws.
Proof.
  intros H. unfold lists_body, lists_size. rewrite !blen_app, (blen_concat enc k) by done.
  rewrite (blen_concat _ 4) by done. rewrite !blen_be32. lia.
Qed.

Section GroupLists.
Context (M : list Z) (type : Z) (s : wccpstate) (g : wccp_service_group)
        (vs : list wccp_server) (ws : list wccp_webcache).
Context (Hvs : lists_of (srvheap s) (servers g) vs) (Hws : lists_of (wcheap s) (webcaches g) ws).

Lemma add_lists_spec elem enc k body len n p : writes M type elem enc k →
  0 <= n → 0 <= len → len + n < 65536 → p = blen M + 4 + blen body →
  add_lists s g elem k (blen M) p (opened M type body len n)
  = if lists_size k vs ws <=? n
    then Ret (opened M type (body ++ lists_body enc vs ws) (len + lists_size k vs ws) (n - lists_size k vs ws),
              p + 4 + k * Z.of_nat (length vs))
    else Undef.
Proof.
  intros Hw Hn Hlen Hmax Hp. pose proof (lists_of_len _ _ _ Hvs) as Lv. pose proof (lists_of_len _ _ _ Hws) as Lw.
  destruct Hvs as (l & Dv & _ & Fv), Hws as (l' & Dw & _ & Fw).
  pose proof (dll_length _ _ _ _ Dv). pose proof (dll_length _ _ _ _ Dw).
  destruct Dv as (_ & Nv & _ & Sv), Dw as (_ & Nw & _ & Sw). pose proof Hw as (Hk & Hl & _).
  unfold add_lists, lists_size in *. rewrite Lv, Lw, Nv, Nw.
  set (nv := Z.of_nat (length vs)) in *. set (nw := Z.of_nat (length ws)) in *.
  rewrite st32_if by done. rewrite le32_htonl, be32_u32.
  destruct (Z.leb_spec 4 n); [|cbn [mbind outcome_bind]; by bool_lia].
  cbn [mbind outcome_bind]. rewrite opened_grow by lia. cbn [mbind outcome_bind].
  rewrite (add_routers_spec M type elem enc k (srvheap s) None l vs Hw Sv Fv);
    [|unfold list_fuel; lia|lia|lia|lia|rewrite blen_app, blen_be32; lia].
  fold nv. destruct (Z.leb_spec (k * nv) (n - 4)); [|cbn [mbind outcome_bind]; by bool_lia].
  cbn [mbind outcome_bind].
  replace (if 0 <? nv then p + 4 + nv * k else p + 4) with (p + 4 + k * nv)
    by (destruct (Z.ltb_spec 0 nv); nia).
  assert (Hq : p + 4 + k * nv = blen M + 4 + blen ((body ++ be32 nv) ++ concat (enc <$> vs)))
    by (rewrite !blen_app, blen_be32, (blen_concat enc k) by done; fold nv; lia).
  rewrite st32_if by (exact Hq || lia). rewrite le32_htonl, be32_u32.
  destruct (Z.leb_spec 4 (n - 4 - k * nv)); [|cbn [mbind outcome_bind]; by bool_lia].
  cbn [mbind outcome_bind]. rewrite opened_grow by lia. cbn [mbind outcome_bind].
  rewrite (add_webcaches_spec M type (wcheap s) None l' ws Sw Fw);
    [|unfold list_fuel; lia|lia|lia|lia|rewrite (blen_app _ (be32 nw)), blen_be32; lia].
  fold nw. destruct (Z.leb_spec (4 * nw) (n - 4 - k * nv - 4)); [|cbn [mbind outcome_bind]; by bool_lia].
  cbn [mbind outcome_bind]. bool_lia. unfold lists_body. fold nv nw. rewrite <-!app_assoc.
  do 3 f_equal; lia.
Qed.
End GroupLists.

Lemma router_id_writes M type : writes M type router_id_element view_router 8.
Proof.
  split; [lia|]. split; [done|]. intros body len n v p Hn Hp. unfold router_id_element, view_router.
  rewrite st32_if by done. destruct (Z.leb_spec 4 n); [|cbn [mbind outcome_bind]; by bool_lia].
  cbn [mbind outcome_bind]. rewrite st32_if by (lia || (rewrite blen_app, blen_le32; lia)). rewrite le32_htonl.
  destruct (Z.leb_spec 4 (n - 4)); bool_lia; [|done]. rewrite <-app_assoc. do 2 f_equal. lia.
Qed.

Lemma assignment_writes M type change :
  writes M type (router_assignment_element change) (assigned_router change) 12.
Proof.
  split; [lia|]. split; [done|]. intros body len n v p Hn Hp. unfold router_assignment_element, assigned_router.
  rewrite st32_if by done. destruct (Z.leb_spec 4 n); [|cbn [mbind outcome_bind]; by bool_lia].
  cbn [mbind outcome_bind]. rewrite st32_if by (lia || (rewrite blen_app, blen_le32; lia)). rewrite le32_htonl.
  destruct (Z.leb_spec 4 (n - 4)); [|cbn [mbind outcome_bind]; by bool_lia].
  cbn [mbind outcome_bind]. rewrite st32_if by (lia || (rewrite !blen_app, blen_le32, blen_be32; lia)).
  rewrite le32_htonl. destruct (Z.leb_spec 4 (n - 4 - 4)); bool_lia; [|done].
  rewrite <-!app_assoc. do 2 f_equal. lia.
Qed.

(** ** The components with lists, and those behind them *)
Section Components.
Context (s : wccpstate) (g : wccp_service_group) (vs : list wccp_server) (ws : list wccp_webcache).
Context (Hvs : lists_of (srvheap s) (servers g) vs) (Hws : lists_of (wcheap s) (webcaches g) ws).

Lemma view_component type bodyM n : 16 <= n → blen bodyM + n < 65536 →
  wccp_add_webcache_view_component s g (closed type bodyM n)
  = if 8 + lists_size 8 vs ws <=? n
    then Ret (closed type (bodyM ++ component WCCP2_WC_VIEW_INFO (view_body (change_number g) vs ws))
                (n - (8 + lists_size 8 vs ws)))
    else Undef.
Proof.
  intros Hn Hb. unfold wccp_add_webcache_view_component. rewrite message_length by lia.
  cbn [mbind outcome_bind]. unfold closed at 1. rewrite opened_start by lia. build. put32. cbn [app].
  assert (0 <= lists_size 8 vs ws) by (unfold lists_size; lia).
  rewrite (add_lists_spec _ _ s g vs ws Hvs Hws router_id_element view_router 8 (be32 (change_number g)));
    [|apply router_id_writes|lia|lia|pose proof (blen_nonneg bodyM); lia|rewrite blen_be32; lia].
  destruct (Z.leb_spec (lists_size 8 vs ws) (n - 4 - 4)); cbn [mbind outcome_bind]; [|by bool_lia].
  bool_lia. change (be32 (change_number g) ++ lists_body view_router vs ws) with (view_body (change_number g) vs ws).
  assert (Hv : 4 + lists_size 8 vs ws = blen (view_body (change_number g) vs ws))
    by (unfold view_body; rewrite blen_app, blen_be32, (blen_lists view_router 8) by done; lia).
  rewrite Hv. rewrite opened_close by lia. do 2 f_equal. lia.
Qed.

Lemma zero_buckets_spec k A n : 0 <= n →
  clear_buckets k (A ++ zeros n) (blen A) = if Z.of_nat k <=? n then Ret (A ++ zeros n) else Undef.
Proof.
  revert A n. induction k as [|k IH]; intros A n Hn; [simpl; by bool_lia|]. cbn [clear_buckets].
  destruct (Z.leb_spec 1 n).
  - rewrite wr_end by lia. cbn [mbind outcome_bind]. change (u8 (htons 0)) with 0.
    replace (blen A + 1) with (blen (A ++ [0])) by (rewrite blen_app; done). rewrite IH by lia.
    rewrite <-app_assoc. replace ([0] ++ zeros (n - 1)) with (zeros n) by (rewrite (zeros_S n) by lia; done).
    destruct (Z.leb_spec (Z.of_nat k) (n - 1)); by bool_lia.
  - rewrite wr_out by (rewrite blen_app, blen_zeros by lia; lia). cbn [mbind outcome_bind]. by bool_lia.
Qed.

Lemma assignment_component type bodyM n ip : 28 <= n → blen bodyM + n < 65536 →
  wccp_add_assignment_info_component s g ip (closed type bodyM n)
  = if 268 + lists_size 12 vs ws <=? n
    then Ret (closed type (bodyM ++ component WCCP2_REDIRECT_ASSIGNMENT (assignment_body ip (change_number g) vs ws))
                (n - (268 + lists_size 12 vs ws)))
    else Undef.
Proof.
  intros Hn Hb. assert (0 <= lists_size 12 vs ws) by (unfold lists_size; lia). pose proof (blen_nonneg bodyM).
  unfold wccp_add_assignment_info_component. rewrite message_length by lia.
  cbn [mbind outcome_bind]. unfold closed at 1. rewrite opened_start by lia. cbn [mbind outcome_bind].
  put32. put32. build. cbn [app].
  rewrite (add_lists_spec _ _ s g vs ws Hvs Hws _ (assigned_router (change_number g)) 12 (le32 ip ++ be32 (change_number g)));
    [|apply assignment_writes|lia|lia|lia|rewrite blen_app, blen_le32, blen_be32; lia].
  destruct (Z.leb_spec (lists_size 12 vs ws) (n - 4 - 4 - 4)); cbn [mbind outcome_bind]; [|by bool_lia].
  set (body := (le32 ip ++ be32 (change_number g)) ++ lists_body (assigned_router (change_number g)) vs ws).
  assert (Hbl : blen body = 8 + lists_size 12 vs ws)
    by (unfold body; rewrite !blen_app, blen_le32, blen_be32, (blen_lists _ 12) by done; lia).
  rewrite (lists_of_len _ _ _ Hws).
  match goal with |- context [clear_buckets 256 _ ?x] =>
    replace x with (blen (message type bodyM ++ be16 WCCP2_REDIRECT_ASSIGNMENT ++ be16 (8 + lists_size 12 vs ws) ++ body))
      by (rewrite opened_end, Hbl; unfold lists_size; destruct (Z.ltb_spec 0 (Z.of_nat (length ws))); lia) end.
  unfold opened at 1. rewrite zero_buckets_spec by lia. change (Z.of_nat 256) with 256.
  destruct (Z.leb_spec 256 (n - 4 - 4 - 4 - lists_size 12 vs ws)); cbn [mbind outcome_bind]; [|by bool_lia].
  bool_lia.
  match goal with |- context [grow_component ?b _ _] =>
    change b with (opened (message type bodyM) WCCP2_REDIRECT_ASSIGNMENT body (8 + lists_size 12 vs ws)
      (n - 4 - 4 - 4 - lists_size 12 vs ws)) end.
  rewrite (opened_skip _ _ body _ _ 256), opened_grow by lia. cbn [mbind outcome_bind].
  assert (E : body ++ zeros 256 = assignment_body ip (change_number g) vs ws)
    by (unfold body, assignment_body; by rewrite <-!app_assoc).
  assert (El : 8 + lists_size 12 vs ws + 256 = blen (body ++ zeros 256))
    by (rewrite blen_app, Hbl, blen_zeros by lia; lia).
  rewrite El, opened_close, E by (rewrite blen_app, Hbl, blen_zeros by lia; lia). do 2 f_equal. lia.
Qed.
End Components.

Lemma capability_element M type body n t v : 0 <= n → blen body + 8 < 65536 →
  wccp_add_capability_element (opened M type body (blen body) n) (blen M) t v
  = if 8 <=? n
    then Ret (opened M type (body ++ be16 t ++ be16 4 ++ be32 v) (blen body + 8) (n - 8))
    else Undef.
Proof.
  intros Hn Hb. pose proof (blen_nonneg body). unfold wccp_add_capability_element.
  rewrite opened_len by lia. cbn [mbind outcome_bind]. rewrite ntohs_be16 by lia.
  assert (Hout : ∀ bd m x p, 0 <= m < 2 → p = blen M + 4 + blen bd →
    st16 (opened M type bd (blen body) m) p x = Undef).
  { intros bd m x p Hm ->. apply st16_out. unfold opened. rewrite blen_app, opened_end, blen_zeros by lia. lia. }
  destruct (Z.leb_spec 2 n); [|rewrite Hout by lia; by bool_lia]. put16.
  destruct (Z.leb_spec 2 (n - 2)); [|rewrite Hout by lens; by bool_lia]. put16.
  rewrite st32_if by (lia || lens). rewrite le32_htonl.
  destruct (Z.leb_spec 4 (n - 2 - 2)); [|by bool_lia]. cbn [mbind outcome_bind]. bool_lia.
  rewrite opened_grow by lia. do 2 f_equal; [|lia]. by rewrite <-!app_assoc.
Qed.

Lemma capability_component type bodyM n : 0 <= n → blen bodyM + 20 < 65536 →
  wccp_add_capability_info (closed type bodyM n)
  = if 20 <=? n then Ret (closed type (bodyM ++ component WCCP2_CAPABILITY_INFO capability_body) (n - 20))
    else Undef.
Proof.
  intros Hn Hb. unfold wccp_add_capability_info. rewrite message_length by lia. cbn [mbind outcome_bind].
  unfold closed at 1. destruct (Z.leb_spec 4 n).
  - rewrite opened_start by lia. build.
    change 0 with (blen []) at 1. rewrite capability_element by (done || lia).
    destruct (Z.leb_spec 8 (n - 4)); [|by bool_lia]. cbn [mbind outcome_bind app].
    set (body1 := be16 WCCP2_FORWARDING_METHOD ++ be16 4 ++ be32 WCCP2_FORWARDING_METHOD_L2).
    change (blen [] + 8) with (blen body1). rewrite capability_element by (done || lia).
    destruct (Z.leb_spec 8 (n - 4 - 8)); [|by bool_lia]. cbn [mbind outcome_bind]. bool_lia.
    change (body1 ++ be16 WCCP2_PACKET_RETURN_METHOD ++ be16 4 ++ be32 WCCP2_PACKET_RETURN_METHOD_L2)
      with capability_body. change (blen body1 + 8) with (blen capability_body).
    rewrite opened_close by (change (blen capability_body) with 16; lia). do 2 f_equal. lia.
  - bool_lia. pose proof (opened_start_out (message type bodyM) n WCCP2_CAPABILITY_INFO ltac:(lia)) as E.
    destruct (st16 (message type bodyM ++ zeros n) (blen (message type bodyM)) (htons WCCP2_CAPABILITY_INFO))
      as [b| |]; cbn [mbind outcome_bind] in *; [by rewrite E|done|done].
Qed.

(** ** The messages *)
Lemma encode_app cs c : encode (cs ++ [c]) = encode cs ++ component c.1 c.2.
Proof. unfold encode. rewrite fmap_app, concat_app. cbn. by rewrite app_nil_r. Qed.

Section Messages.
Context (s : wccpstate) (g : wccp_service_group) (vs : list wccp_server) (ws : list wccp_webcache) (ip : Z).
Context (Hvs : lists_of (srvheap s) (servers g) vs) (Hws : lists_of (wcheap s) (webcaches g) ws).
Context (Hg : 0 <= group_id g < 256).

Lemma closed_eq type a b x y : a = b → x = y → Ret (Some (closed type a x)) = Ret (Some (closed type b y)).
Proof. by intros -> ->. Qed.

Lemma here_i_am_message :
  wccp_message s g ip WCCP2_HERE_I_AM
  = let size := 120 + lists_size 8 vs ws in
    if size <=? 1024
    then Ret (Some (closed WCCP2_HERE_I_AM (encode (here_i_am ip (change_number g) vs ws)) (1024 - size)))
    else Undef.
Proof.
  assert (0 <= lists_size 8 vs ws) by (unfold lists_size; lia).
  unfold wccp_message. change (WCCP2_HERE_I_AM =? WCCP2_HERE_I_AM) with true. cbv iota.
  change (replicate WCCP_BUFSIZE 0) with (zeros 1024). rewrite header_closed by lia. cbn [mbind outcome_bind].
  rewrite security_component by (change (blen []) with 0; lia). cbn [mbind outcome_bind].
  rewrite service_component by (done || (lens; rewrite ?blen_component; change (blen security_body) with 4; lia)).
  cbn [mbind outcome_bind].
  set (b2 := ([] ++ component WCCP2_SECURITY_INFO security_body) ++ component WCCP2_SERVICE_INFO service_body).
  assert (L2 : blen b2 = 36) by done.
  rewrite webcache_id_component by lia. cbn [mbind outcome_bind].
  set (b3 := b2 ++ component WCCP2_WC_ID_INFO (webcache_id_body ip)).
  assert (L3 : blen b3 = 84) by done.
  rewrite (view_component s g vs ws Hvs Hws) by lia.
  destruct (Z.leb_spec (8 + lists_size 8 vs ws) (1024 - 8 - 8 - 28 - 48)); cbn [mbind outcome_bind]; [|by bool_lia].
  assert (Lv : blen (view_body (change_number g) vs ws) = 4 + lists_size 8 vs ws)
    by (unfold view_body; rewrite blen_app, blen_be32, (blen_lists view_router 8) by done; done).
  rewrite capability_component by (rewrite ?blen_app, ?blen_component; lia).
  destruct (Z.leb_spec 20 (1024 - 8 - 8 - 28 - 48 - (8 + lists_size 8 vs ws))); cbn [mbind outcome_bind]; bool_lia; [|done].
  apply closed_eq; [|lia]. unfold b3, b2, here_i_am, encode.
  cbn [fmap list_fmap concat fst snd app]. by rewrite app_nil_r, <-!app_assoc.
Qed.

Lemma redirect_assign_message :
  wccp_message s g ip WCCP2_REDIRECT_ASSIGN
  = let size := 312 + lists_size 12 vs ws in
    if size <=? 1024
    then Ret (Some (closed WCCP2_REDIRECT_ASSIGN (encode (redirect_assign ip (change_number g) vs ws)) (1024 - size)))
    else Undef.
Proof.
  assert (0 <= lists_size 12 vs ws) by (unfold lists_size; lia).
  unfold wccp_message. change (WCCP2_REDIRECT_ASSIGN =? WCCP2_HERE_I_AM) with false.
  change (WCCP2_REDIRECT_ASSIGN =? WCCP2_REDIRECT_ASSIGN) with true. cbv iota.
  change (replicate WCCP_BUFSIZE 0) with (zeros 1024). rewrite header_closed by lia. cbn [mbind outcome_bind].
  rewrite security_component by (change (blen []) with 0; lia). cbn [mbind outcome_bind].
  rewrite service_component by (done || (lens; rewrite ?blen_component; change (blen security_body) with 4; lia)).
  cbn [mbind outcome_bind].
  set (b2 := ([] ++ component WCCP2_SECURITY_INFO security_body) ++ component WCCP2_SERVICE_INFO service_body).
  assert (L2 : blen b2 = 36) by done.
  rewrite (assignment_component s g vs ws Hvs Hws) by lia.
  destruct (Z.leb_spec (268 + lists_size 12 vs ws) (1024 - 8 - 8 - 28)); cbn [mbind outcome_bind]; bool_lia; [|done].
  apply closed_eq; [|lia]. unfold b2, redirect_assign, encode.
  cbn [fmap list_fmap concat fst snd app]. by rewrite app_nil_r, <-!app_assoc.
Qed.
End Messages.

(** ** Decoding *)
Lemma be16_value v : 0 <= v < 65536 → 256 * u8 (v / 256) + u8 v = v.
Proof. intros Hv. pose proof (u8_pair v Hv). unfold u8 in *. change (2 ^ 8) with 256 in *. lia. Qed.

Lemma parse_encode cs : Forall (λ c, 0 <= c.1 < 65536 ∧ blen c.2 < 65536) cs →
  ∀ fuel, (length cs <= fuel)%nat → parse_components fuel (encode cs) = Some cs.
Proof.
  induction 1 as [|[t body] cs [Ht Hb] Hcs IH]; intros fuel Hf; [by destruct fuel|].
  destruct fuel as [|fuel]; [simpl in Hf; lia|]. pose proof (blen_nonneg body). cbn [fst snd] in *.
  change (encode ((t, body) :: cs)) with (component t body ++ encode cs).
  unfold component. rewrite <-!app_assoc. cbn [be16 app parse_components].
  rewrite !be16_value by lia. rewrite blen_app. pose proof (blen_nonneg (encode cs)). bool_lia.
  unfold blen. rewrite Nat2Z.id, take_app_length, drop_app_length. rewrite IH; [done|]. simpl in Hf. lia.
Qed.

Definition group_components (messagetype ip change : Z) (vs : list wccp_server) (ws : list wccp_webcache)
    : list (Z * list Z) :=
  if messagetype =? WCCP2_HERE_I_AM then here_i_am ip change vs ws else redirect_assign ip change vs ws.

Lemma blen_view_body change vs ws : blen (view_body change vs ws) = 4 + lists_size 8 vs ws.
Proof. unfold view_body. by rewrite blen_app, blen_be32, (blen_lists view_router 8) by done. Qed.

Lemma blen_assignment_body ip change vs ws : blen (assignment_body ip change vs ws) = 264 + lists_size 12 vs ws.
Proof.
  unfold assignment_body. rewrite !blen_app, blen_be32, blen_le32, (blen_lists _ 12), blen_zeros by done. lia.
Qed.

Lemma blen_here_i_am ip change vs ws : blen (encode (here_i_am ip change vs ws)) = 112 + lists_size 8 vs ws.
Proof.
  unfold here_i_am, encode. cbn [fmap list_fmap concat fst snd].
  rewrite !blen_app, !blen_component, blen_view_body. change (blen security_body) with 4.
  change (blen service_body) with 24. change (blen (webcache_id_body ip)) with 44.
  change (blen capability_body) with 16. change (blen []) with 0. lia.
Qed.

Lemma blen_redirect_assign ip change vs ws :
  blen (encode (redirect_assign ip change vs ws)) = 304 + lists_size 12 vs ws.
Proof.
  unfold redirect_assign, encode. cbn [fmap list_fmap concat fst snd].
  rewrite !blen_app, !blen_component, blen_assignment_body. change (blen security_body) with 4.
  change (blen service_body) with 24. change (blen []) with 0. lia.
Qed.

(** Every component of a message that fits has a length the decoder can read. *)
Lemma small_components cs : (∀ c, c ∈ cs → 0 <= c.1 < 65536) → blen (encode cs) < 65536 →
  parse_components (length cs) (encode cs) = Some cs.
Proof.
  intros Ht Hb. apply parse_encode; [|done]. apply Forall_forall. intros c Hc. split; [by apply Ht|].
  apply list_elem_of_split in Hc as (l1 & l2 & ->). unfold encode in Hb.
  rewrite fmap_app, concat_app, blen_app in Hb. cbn [fmap list_fmap concat] in Hb.
  rewrite blen_app, blen_component in Hb.
  pose proof (blen_nonneg (concat ((λ c, component c.1 c.2) <$> l1))).
  pose proof (blen_nonneg (concat ((λ c, component c.1 c.2) <$> l2))). lia.
Qed.

Lemma group_component_types t ip change vs ws c : c ∈ group_components t ip change vs ws → 0 <= c.1 < 65536.
Proof.
  unfold group_components, here_i_am, redirect_assign.
  destruct (t =? WCCP2_HERE_I_AM); intros Hc;
    repeat (apply elem_of_cons in Hc as [->|Hc]; [done|]); by apply not_elem_of_nil in Hc.
Qed.

(** [send] is given the message without the unused rest of the buffer. *)
Lemma send_closed s g v ip t body : blen body + 8 <= 1024 →
  wccp_message s g ip t = Ret (Some (closed t body (1016 - blen body))) →
  wccp_send_message s g v ip t
  = Ret (WccpState (wccp_service_groups s) (gheap s) (srvheap s) (wcheap s) ((sock v, message t body) :: wsent s)).
Proof.
  intros Hb E. unfold wccp_send_message. rewrite E. cbn [mbind outcome_bind].
  pose proof (blen_message t body). pose proof (blen_nonneg body).
  rewrite message_length by lia. cbn [mbind outcome_bind]. unfold closed.
  assert (Hin : in_object (message t body ++ zeros (1016 - blen body)) 0 (blen (message t body)) = true)
    by (unfold in_object; rewrite blen_app, blen_zeros by lia; by bool_lia).
  rewrite Hin. do 3 f_equal. f_equal. apply (sub_app []).
Qed.

Definition group_message (t ip change : Z) (vs : list wccp_server) (ws : list wccp_webcache) : list Z :=
  message t (encode (group_components t ip change vs ws)).

Lemma blen_group_message t ip change vs ws : t = WCCP2_HERE_I_AM ∨ t = WCCP2_REDIRECT_ASSIGN →
  blen (group_message t ip change vs ws)
  = if t =? WCCP2_HERE_I_AM then 128 + 8 * Z.of_nat (length vs) + 4 * Z.of_nat (length ws)
    else 320 + 12 * Z.of_nat (length vs) + 4 * Z.of_nat (length ws).
Proof.
  unfold group_message. rewrite blen_message. unfold group_components. intros [-> | ->].
  - change (WCCP2_HERE_I_AM =? WCCP2_HERE_I_AM) with true. cbv iota.
    rewrite blen_here_i_am. unfold lists_size. lia.
  - change (WCCP2_REDIRECT_ASSIGN =? WCCP2_HERE_I_AM) with false. cbv iota.
    rewrite blen_redirect_assign. unfold lists_size. lia.
Qed.

(** What is given to [send], whatever the size of the group. *)
Lemma send_spec s g v vs ws ip t :
  lists_of (srvheap s) (servers g) vs → lists_of (wcheap s) (webcaches g) ws →
  0 <= group_id g < 256 → t = WCCP2_HERE_I_AM ∨ t = WCCP2_REDIRECT_ASSIGN →
  let m := group_message t ip (change_number g) vs ws in
  wccp_send_message s g v ip t
  = if blen m <=? 1024
    then Ret (WccpState (wccp_service_groups s) (gheap s) (srvheap s) (wcheap s) ((sock v, m) :: wsent s))
    else Undef.
Proof.
  intros Hvs Hws Hg Ht m. subst m. unfold group_message. rewrite blen_message.
  destruct Ht as [-> | ->]; unfold group_components.
  - change (WCCP2_HERE_I_AM =? WCCP2_HERE_I_AM) with true. cbv iota.
    pose proof (here_i_am_message s g vs ws ip Hvs Hws Hg) as E. cbv zeta in E.
    pose proof (blen_here_i_am ip (change_number g) vs ws) as Hl.
    replace (120 + lists_size 8 vs ws) with (blen (encode (here_i_am ip (change_number g) vs ws)) + 8) in E by lia.
    destruct (Z.leb_spec (blen (encode (here_i_am ip (change_number g) vs ws)) + 8) 1024).
    + apply send_closed; [lia|]. rewrite E. apply closed_eq; [done|lia].
    + unfold wccp_send_message. by rewrite E.
  - change (WCCP2_REDIRECT_ASSIGN =? WCCP2_HERE_I_AM) with false. cbv iota.
    pose proof (redirect_assign_message s g vs ws ip Hvs Hws Hg) as E. cbv zeta in E.
    pose proof (blen_redirect_assign ip (change_number g) vs ws) as Hl.
    replace (312 + lists_size 12 vs ws) with (blen (encode (redirect_assign ip (change_number g) vs ws)) + 8) in E by lia.
    destruct (Z.leb_spec (blen (encode (redirect_assign ip (change_number g) vs ws)) + 8) 1024).
    + apply send_closed; [lia|]. rewrite E. apply closed_eq; [done|lia].
    + unfold wccp_send_message. by rewrite E.
Qed.

(** C34: the messages to a WCCP server.  When the whole message fits in the 1024-byte buffer,
    what is sent is the header with the right length followed by the components the draft
    lists for that type, describing every server and web cache of the group in order, and
    the reference decoder gives the components back.  A message that does not fit (from
    113 servers on, or 59 for the assignment) is written past the end of the buffer.  The
    service id in the message is 0 whatever the group is. *)
Theorem wccp_messages s g v vs ws ip t :
  lists_of (srvheap s) (servers g) vs → lists_of (wcheap s) (webcaches g) ws →
  0 <= group_id g < 256 → t = WCCP2_HERE_I_AM ∨ t = WCCP2_REDIRECT_ASSIGN →
  let cs := group_components t ip (change_number g) vs ws in
  let m := message t (encode cs) in
  (blen m = if t =? WCCP2_HERE_I_AM then 128 + 8 * Z.of_nat (length vs) + 4 * Z.of_nat (length ws)
            else 320 + 12 * Z.of_nat (length vs) + 4 * Z.of_nat (length ws)) ∧
  if blen m <=? 1024
  then wccp_send_message s g v ip t
       = Ret (WccpState (wccp_service_groups s) (gheap s) (srvheap s) (wcheap s) ((sock v, m) :: wsent s))
       ∧ parse_components (length cs) (encode cs) = Some cs
  else wccp_send_message s g v ip t = Undef.
Proof.
  intros Hvs Hws Hg Ht cs m. split; [by apply blen_group_message|].
  pose proof (send_spec s g v vs ws ip t Hvs Hws Hg Ht) as E. cbv zeta in E. fold m in E.
  assert (Hm : blen m = blen (encode cs) + 8) by apply blen_message.
  change (group_message t ip (change_number g) vs ws) with m in E.
  destruct (Z.leb_spec (blen m) 1024); [|done]. split; [done|].
  apply small_components; [apply group_component_types|lia].
Qed.

(** One group with one server and one web cache. *)
Definition demo_wccp_server : wccp_server := WccpServer 16777226 7 5 0.
Definition demo_wccp_webcache : wccp_webcache := WccpWebcache 33554442.
Definition demo_wccp_group : wccp_service_group :=
  ServiceGroup 61 3 (DHead (Some 1%positive) (Some 1%positive) 1) (DHead (Some 1%positive) (Some 1%positive) 1).
Definition demo_wccp_state : wccpstate :=
  WccpState (DHead (Some 1%positive) (Some 1%positive) 1) {[1%positive := Node None None demo_wccp_group]}
    {[1%positive := Node None None demo_wccp_server]} {[1%positive := Node None None demo_wccp_webcache]} [].

Lemma lists_of_single {A} (x : loc) (v : A) :
  lists_of {[x := Node None None v]} (DHead (Some x) (Some x) 1) [v].
Proof.
  exists [x]. split_and!; [|done|].
  - split_and!; [apply NoDup_singleton|done|done|]. exists v. by rewrite lookup_singleton_eq.
  - constructor; [|constructor]. by rewrite payload_lookup, lookup_singleton_eq.
Qed.

Lemma wccp_messages_witness :
  let cs := redirect_assign 67108874 3 [demo_wccp_server] [demo_wccp_webcache] in
  wccp_send_message demo_wccp_state demo_wccp_group demo_wccp_server 67108874 WCCP2_REDIRECT_ASSIGN
  = Ret (WccpState (wccp_service_groups demo_wccp_state) (gheap demo_wccp_state) (srvheap demo_wccp_state)
           (wcheap demo_wccp_state) [(5, message WCCP2_REDIRECT_ASSIGN (encode cs))])
  ∧ parse_components 3 (encode cs) = Some cs.
Proof.
  refine (proj2 (wccp_messages demo_wccp_state demo_wccp_group demo_wccp_server [demo_wccp_server]
    [demo_wccp_webcache] 67108874 WCCP2_REDIRECT_ASSIGN _ _ _ _)).
  - apply (lists_of_single 1%positive).
  - apply (lists_of_single 1%positive).
  - cbn. lia.
  - by right.
Defined.
