(* ===== verification/WccpGroups.v ===== *)
(** * The service groups of wccpv2.c as a list

    The pointer structure (groups, and for each group a list of servers and a
    list of web caches) represents a list of groups with their members;
    configuration, received messages and the periodic hello act on that list. *)
From stdpp Require Import functions.
From S2P Require Import Prelude Dll Tokens Cli Wccp.
#[local] Open Scope Z_scope.
#[local] Open Scope list_scope.

(** * The specification *)
Record group := Group {
  gr_id : Z; gr_change : Z; gr_servers : list wccp_server; gr_webcaches : list wccp_webcache
}.

(** Acting on the group with id [n]. *)
Definition on_group (n : Z) (f : group → group) (G : list group) : list group :=
  (λ g, if gr_id g =? n then f g else g) <$> G.

Definition has_group (n : Z) (G : list group) : bool := existsb (λ g, gr_id g =? n) G.

(** [wccp <n>]: the group is created unless it is there. *)
Definition enter_group (n : Z) (G : list group) : list group :=
  if has_group n G then G else G ++ [Group n 0 [] []].

(** [server <ip>]: the server is added at the end unless it is there. *)
Definition add_server (ip now : Z) (g : group) : group :=
  if existsb (λ v, ipaddress v =? ip) (gr_servers g) then g
  else Group (gr_id g) (gr_change g) (gr_servers g ++ [allocate_wccp_server ip now]) (gr_webcaches g).

Definition add_webcache (ip : Z) (g : group) : group :=
  if existsb (λ w, wc_ipaddress w =? ip) (gr_webcaches g) then g
  else Group (gr_id g) (gr_change g) (gr_servers g) (gr_webcaches g ++ [allocate_wccp_webcache ip]).

Definition set_change (c : Z) (g : group) : group := Group (gr_id g) c (gr_servers g) (gr_webcaches g).

Fixpoint update_first {A} (f : A → bool) (u : A → A) (l : list A) : list A :=
  match l with [] => [] | x :: l => if f x then u x :: l else x :: update_first f u l end.

(** The server with address [ip] gets the router id it has sent. *)
Definition learn_id (ip id : Z) (g : group) : group :=
  Group (gr_id g) (gr_change g)
    (update_first (λ v, ipaddress v =? ip) (λ v, set_router_id v id) (gr_servers g)) (gr_webcaches g).

(** The router view component at [o]: of the web caches it lists the first is added to the
    group, and all are read. *)
Definition router_view (m : buffer) (o n change : Z) (G : list group) : outcome (list group) :=
  cn ← ld32 m (o + 4);
  if ntohl cn =? change then Ret G else
  let G := on_group n (set_change (ntohl cn)) G in
  r ← ld32 m (o + 16);
  let caches := o + 16 + 4 * (ntohl r + 1) in
  k ← ld32 m caches;
  if 0 <? ntohl k then
    first ← ld32 m (caches + 4);
    _ ← read_caches (Z.to_nat (ntohl k)) m (caches + 4);
    Ret (on_group n (add_webcache first) G)
  else Ret G.

Definition find_group (n : Z) (G : list group) : option group := List.find (λ g, gr_id g =? n) G.

(** An I_SEE_YOU message [m]: the service id in it is read and plays no part, the group is
    always group 0. *)
Definition see_you (m : buffer) (G : list group) : outcome (list group) :=
  type ← ld32 m 0;
  if negb (ntohl type =? WCCP2_I_SEE_YOU) then Ret G else
  l ← ld16 m 10; _ ← ld32 m 12;
  let service := 8 + ntohs l + 4 in
  _ ← rd m (service + 5);
  match find_group 0 G with
  | None => Ret G
  | Some g =>
      l ← ld16 m (service + 2);
      let router := service + ntohs l + 4 in
      ip ← ld32 m (router + 4);
      if existsb (λ v, ipaddress v =? ip) (gr_servers g) then
        id ← ld32 m (router + 8);
        l ← ld16 m (router + 2);
        router_view m (router + ntohs l + 4) 0 (gr_change g) (on_group 0 (learn_id ip (ntohl id)) G)
      else Ret G
  end.

(** * The representation *)
Definition members {A} (m : gmap loc A) (l : list loc) : list A := omap (λ x, m !! x) l.
#[local] Arguments members : simpl never.

(** A head whose list is [l], with the right count. *)
Definition counted {A} (h : heap A) (hd : dhead) (l : list loc) : Prop :=
  dll h (λ _, True) hd l ∧ h_len hd = Z.of_nat (length l).

(** [gl] lists the groups, [S x] and [C x] the servers and the web caches of group [x]. *)
Record wccp_inv (s : wccpstate) (gl : list loc) (S C : loc → list loc) : Prop := WccpInv {
  wi_groups : counted (gheap s) (wccp_service_groups s) gl;
  wi_listed x : x ∈ gl ↔ is_Some (gheap s !! x);
  wi_servers x d : payload (gheap s) !! x = Some d → counted (srvheap s) (servers d) (S x);
  wi_webcaches x d : payload (gheap s) !! x = Some d → counted (wcheap s) (webcaches d) (C x);
  wi_outside x : gheap s !! x = None → S x = [] ∧ C x = [];
  wi_S x y z : z ∈ S x → z ∈ S y → x = y;
  wi_C x y z : z ∈ C x → z ∈ C y → x = y;
  wi_ids x y d e : payload (gheap s) !! x = Some d → payload (gheap s) !! y = Some e →
    group_id d = group_id e → x = y;
  wi_byte x d : payload (gheap s) !! x = Some d → 0 <= group_id d < 256
}.

Definition view (s : wccpstate) (S C : loc → list loc) (x : loc) : option group :=
  (λ d, Group (group_id d) (change_number d) (members (payload (srvheap s)) (S x))
          (members (payload (wcheap s)) (C x))) <$> payload (gheap s) !! x.
Definition views (s : wccpstate) (S C : loc → list loc) (gl : list loc) : list group := omap (view s S C) gl.
#[local] Arguments views : simpl never.

Definition represents (s : wccpstate) (G : list group) : Prop :=
  ∃ gl S C, wccp_inv s gl S C ∧ G = views s S C gl.

(** The pointer [x] leads to the group with id [n]. *)
Definition points_to_group (s : wccpstate) (x : loc) (n : Z) : Prop :=
  ∃ d, payload (gheap s) !! x = Some d ∧ group_id d = n.

(** ** Lists of members *)
Section Members.
Context {A : Type}.
Implicit Types (m : gmap loc A) (h : heap A) (l : list loc).

Lemma members_step m x l :
  members m (x :: l) = match m !! x with Some v => v :: members m l | None => members m l end.
Proof. done. Qed.

Lemma members_app m l k : members m (l ++ k) = members m l ++ members m k.
Proof. apply omap_app. Qed.

Lemma members_ext m m' l : (∀ x, x ∈ l → m' !! x = m !! x) → members m' l = members m l.
Proof.
  induction l as [|x l IH]; intros H; [done|]. rewrite !members_step.
  rewrite H, IH by set_solver. done.
Qed.

Lemma members_all m l : (∀ x, x ∈ l → is_Some (m !! x)) → Forall2 (λ x v, m !! x = Some v) l (members m l).
Proof.
  induction l as [|x l IH]; intros H; [constructor|]. rewrite members_step.
  destruct (H x) as [v Hv]; [set_solver|]. rewrite Hv. constructor; [done|]. apply IH. set_solver.
Qed.

Lemma counted_listed h hd l x : counted h hd l → x ∈ l → is_Some (payload h !! x).
Proof. intros [Hd _] Hx. rewrite payload_lookup. destruct (dll_elem _ _ _ _ _ Hd Hx) as (n & -> & _). by eexists. Qed.

(** The walk that looks for an object. *)
Fixpoint find_loc (m : gmap loc A) (l : list loc) (f : A → bool) : option loc :=
  match l with
  | [] => None
  | x :: l => match m !! x with
              | Some v => if f v then Some x else find_loc m l f
              | None => find_loc m l f
              end
  end.

Lemma find_item_spec h prv l fuel f : seg h (λ _, True) prv l None → (length l < fuel)%nat →
  find_item fuel h (first l None) f = Ret (find_loc (payload h) l f).
Proof.
  revert prv fuel. induction l as [|x l IH]; intros prv [|fuel] Hs Hf; simpl in *; [lia|done|lia|].
  destruct Hs as (d & Hx & _ & Hs). unfold load, deref. rewrite Hx. simpl.
  rewrite payload_lookup, Hx. simpl. destruct (f d); [done|]. rewrite (IH (Some x)); [done|done|lia].
Qed.

Lemma find_counted h hd l f : counted h hd l →
  find_item (list_fuel h) h (h_next hd) f = Ret (find_loc (payload h) l f).
Proof.
  intros [Hd _]. pose proof (dll_length _ _ _ _ Hd). destruct Hd as (_ & -> & _ & Hs).
  eapply find_item_spec; [done|]. unfold list_fuel. lia.
Qed.

Lemma find_loc_spec m l f :
  match find_loc m l f with
  | Some x => x ∈ l ∧ ∃ v, m !! x = Some v ∧ f v = true
  | None => existsb f (members m l) = false
  end.
Proof.
  induction l as [|x l IH]; [done|]. cbn [find_loc]. rewrite members_step. destruct (m !! x) as [v|] eqn:E.
  - destruct (f v) eqn:Ef; [split; [set_solver|eauto]|]. cbn. rewrite Ef.
    destruct (find_loc m l f); [destruct IH; split; [set_solver|done]|done].
  - destruct (find_loc m l f); [destruct IH; split; [set_solver|done]|done].
Qed.

Lemma find_loc_existsb m l f : existsb f (members m l) = bool_decide (is_Some (find_loc m l f)).
Proof.
  pose proof (find_loc_spec m l f) as H. destruct (find_loc m l f) as [x|] eqn:E.
  - rewrite bool_decide_true by eauto. destruct H as [Hx (v & Hv & Hf)]. apply existsb_exists. exists v.
    split; [|done]. apply list_elem_of_In. unfold members. apply list_elem_of_omap. eauto.
  - by rewrite bool_decide_false by (by intros [? ?]).
Qed.

(** Allocating an object and appending it to a list. *)
Lemma append_member h hd l y v : counted h hd l → h !! y = None →
  ∃ h' hd', insert_list_item (allocate h (Some y) v) hd (Some y) = Ret (h', hd')
    ∧ counted h' hd' (l ++ [y]) ∧ payload h' = <[y := v]> (payload h)
    ∧ (∀ hd2 l2, counted h hd2 l2 → (∀ z, z ∈ l2 → z ∉ l) → counted h' hd2 l2).
Proof.
  intros [Hd Hc] Hy. assert (Hl : ∀ hd2 l2, dll h (λ _, True) hd2 l2 → y ∉ l2).
  { intros hd2 l2 Hd2 Hin. destruct (dll_elem _ _ _ _ _ Hd2 Hin) as (n & Hn & _). by rewrite Hy in Hn. }
  cbn [allocate].
  destruct (insert_list_item_spec (λ _, True) (<[y := Node None None v]> h) hd l y v)
    as (h' & hd' & E & R & Hlen & Hd'); [by apply dll_insert_ne; [by eapply Hl|]|by eapply Hl|by rewrite lookup_insert_eq|done|].
  exists h', hd'. split_and!; [done| | |].
  - split; [done|]. rewrite Hlen, Hc, length_app. simpl. lia.
  - destruct R as [-> _]. apply payload_insert.
  - intros hd2 l2 [Hd2 Hc2] Hdis. split; [|done]. eapply dll_relinked; [exact R| |].
    + intros z Hz [->|Hin]%elem_of_cons; [by apply (Hl _ _ Hd2)|by apply (Hdis z)].
    + apply dll_insert_ne; [by eapply Hl|done].
Qed.

Lemma counted_set_data h hd l x n d : h !! x = Some n → counted h hd l →
  counted (<[x := Node (n_next n) (n_prev n) d]> h) hd l.
Proof. intros Hx [Hd Hc]. split; [|done]. by apply dll_set_data. Qed.
End Members.

(** ** Groups seen from the store *)
Lemma views_step s S C x gl :
  views s S C (x :: gl) = match view s S C x with Some g => g :: views s S C gl | None => views s S C gl end.
Proof. done. Qed.

Lemma views_app s S C gl k : views s S C (gl ++ k) = views s S C gl ++ views s S C k.
Proof. apply omap_app. Qed.

Lemma view_spec s S C x d : payload (gheap s) !! x = Some d →
  view s S C x = Some (Group (group_id d) (change_number d) (members (payload (srvheap s)) (S x))
                        (members (payload (wcheap s)) (C x))).
Proof. intros Hx. unfold view. by rewrite Hx. Qed.

Lemma views_map s S C s' S' C' gl f :
  (∀ x, x ∈ gl → view s' S' C' x = f <$> view s S C x) → views s' S' C' gl = f <$> views s S C gl.
Proof.
  induction gl as [|x gl IH]; intros H; [done|]. rewrite !views_step, H, IH by set_solver.
  by destruct (view s S C x).
Qed.

Lemma find_group_spec s gl S C n : wccp_inv s gl S C →
  ∃ r, find_wccp_service_group s n = Ret r ∧
  match r with
  | Some x => ∃ d, payload (gheap s) !! x = Some d ∧ group_id d = n ∧ has_group n (views s S C gl) = true
  | None => has_group n (views s S C gl) = false ∧ ∀ x d, payload (gheap s) !! x = Some d → group_id d ≠ n
  end.
Proof.
  intros I. eexists. split; [unfold find_wccp_service_group; rewrite (find_counted _ _ gl); [done|apply (wi_groups _ _ _ _ I)]|].
  set (f := λ g : wccp_service_group, group_id g =? n).
  assert (E : has_group n (views s S C gl) = existsb f (members (payload (gheap s)) gl)).
  { clear I. unfold has_group. induction gl as [|x gl IH]; [done|]. rewrite views_step, members_step. unfold view.
    destruct (payload (gheap s) !! x) as [d|]; cbn; [by rewrite IH|done]. }
  pose proof (find_loc_spec (payload (gheap s)) gl f) as F. rewrite E, find_loc_existsb.
  destruct (find_loc (payload (gheap s)) gl f) as [x|].
  - destruct F as [_ (d & Hd & Hf)]. exists d. apply Z.eqb_eq in Hf. by rewrite bool_decide_true by eauto.
  - split; [by rewrite bool_decide_false by (by intros [])|]. intros x d Hx Hn.
    assert (Hf : existsb f (members (payload (gheap s)) gl) = true); [|congruence].
    apply existsb_exists. exists d. split; [|by apply Z.eqb_eq].
    apply list_elem_of_In, list_elem_of_omap. exists x. split; [|done].
    apply (wi_listed _ _ _ _ I). apply payload_Some in Hx as (nd & -> & _). by eexists.
Qed.

Lemma has_group_Some n G : has_group n G = true ↔ ∃ g, g ∈ G ∧ gr_id g = n.
Proof.
  unfold has_group. rewrite existsb_exists. setoid_rewrite <-list_elem_of_In. setoid_rewrite Z.eqb_eq. done.
Qed.

(** Changing one group: its own data, its servers, its web caches. *)
Section Update.
Variables (s : wccpstate) (gl : list loc) (S C : loc → list loc).
Hypothesis I : wccp_inv s gl S C.
Variables (x : loc) (nd : node wccp_service_group).
Hypothesis Hx : gheap s !! x = Some nd.
Variables (d' : wccp_service_group) (hs : heap wccp_server) (hw : heap wccp_webcache)
  (ls lw : list loc) (sent : list (Z * list Z)).
Hypothesis Hid : group_id d' = group_id (n_data nd).
Hypothesis Hs : counted hs (servers d') ls.
Hypothesis Hw : counted hw (webcaches d') lw.
Hypothesis Hs' : ∀ z d, z ≠ x → payload (gheap s) !! z = Some d → counted hs (servers d) (S z).
Hypothesis Hw' : ∀ z d, z ≠ x → payload (gheap s) !! z = Some d → counted hw (webcaches d) (C z).
Hypothesis Ds : ∀ y z, z ∈ ls → z ∈ S y → y = x.
Hypothesis Dw : ∀ y z, z ∈ lw → z ∈ C y → y = x.

Definition updated : wccpstate :=
  WccpState (wccp_service_groups s) (<[x := Node (n_next nd) (n_prev nd) d']> (gheap s)) hs hw sent.

Lemma updated_payload : payload (gheap updated) = <[x := d']> (payload (gheap s)).
Proof. apply payload_insert. Qed.

Lemma updated_inv : wccp_inv updated gl (<[x := ls]> S) (<[x := lw]> C).
Proof.
  assert (Hpx : payload (gheap s) !! x = Some (n_data nd)) by (by rewrite payload_lookup, Hx).
  destruct I as [I1 I2 I3 I4 I5 I6 I7 I8 I9].
  constructor; simpl; try rewrite updated_payload; cbn [gheap updated].
  - by apply counted_set_data.
  - intros z. rewrite I2. destruct (decide (z = x)) as [->|Hz].
    + rewrite lookup_insert_eq, Hx. split; intros _; by eexists.
    + by rewrite lookup_insert_ne.
  - intros z d. destruct (decide (z = x)) as [->|Hz].
    + rewrite payload_insert, lookup_insert_eq, fn_lookup_insert. by intros [= <-].
    + rewrite payload_insert, lookup_insert_ne, fn_lookup_insert_ne by done. by apply Hs'.
  - intros z d. destruct (decide (z = x)) as [->|Hz].
    + rewrite payload_insert, lookup_insert_eq, fn_lookup_insert. by intros [= <-].
    + rewrite payload_insert, lookup_insert_ne, fn_lookup_insert_ne by done. by apply Hw'.
  - intros z. destruct (decide (z = x)) as [->|Hz]; [by rewrite lookup_insert_eq|].
    rewrite lookup_insert_ne, !fn_lookup_insert_ne by done. apply I5.
  - intros y1 y2 z. destruct (decide (y1 = x)) as [->|H1], (decide (y2 = x)) as [->|H2];
      rewrite ?fn_lookup_insert, ?fn_lookup_insert_ne by done; eauto; intros; symmetry; eauto.
  - intros y1 y2 z. destruct (decide (y1 = x)) as [->|H1], (decide (y2 = x)) as [->|H2];
      rewrite ?fn_lookup_insert, ?fn_lookup_insert_ne by done; eauto; intros; symmetry; eauto.
  - intros y1 y2 e1 e2. rewrite payload_insert.
    destruct (decide (y1 = x)) as [->|H1], (decide (y2 = x)) as [->|H2];
      rewrite ?lookup_insert_eq, ?lookup_insert_ne by done; [done| | |by apply I8].
    + intros [= <-] ?. rewrite Hid. by apply I8.
    + intros ? [= <-]. rewrite Hid. by apply I8.
  - intros y e. rewrite payload_insert. destruct (decide (y = x)) as [->|H1].
    + rewrite lookup_insert_eq. intros [= <-]. rewrite Hid. by eapply I9.
    + rewrite lookup_insert_ne by done. apply I9.
Qed.

Lemma updated_views f :
  (∀ y z, y ≠ x → z ∈ S y → payload hs !! z = payload (srvheap s) !! z) →
  (∀ y z, y ≠ x → z ∈ C y → payload hw !! z = payload (wcheap s) !! z) →
  f (Group (group_id (n_data nd)) (change_number (n_data nd)) (members (payload (srvheap s)) (S x))
      (members (payload (wcheap s)) (C x)))
  = Group (group_id d') (change_number d') (members (payload hs) ls) (members (payload hw) lw) →
  views updated (<[x := ls]> S) (<[x := lw]> C) gl = on_group (group_id (n_data nd)) f (views s S C gl).
Proof.
  intros Es Ew Hf. unfold on_group. apply views_map. intros y _. unfold view.
  rewrite updated_payload. destruct (decide (y = x)) as [->|Hy].
  - rewrite lookup_insert_eq, !fn_lookup_insert, payload_lookup, Hx. cbn -[members]. rewrite Z.eqb_refl. by f_equal.
  - rewrite lookup_insert_ne, !fn_lookup_insert_ne by done.
    destruct (payload (gheap s) !! y) as [e|] eqn:He; [|done]. cbn -[members].
    destruct (Z.eqb_spec (group_id e) (group_id (n_data nd))) as [E|E].
    + destruct Hy. eapply (wi_ids _ _ _ _ I); [done|by rewrite payload_lookup, Hx|done].
    + do 2 f_equal; apply members_ext; eauto.
Qed.
End Update.

(** ** Configuration *)

(** A new group. *)
Lemma create_group s gl S C y n : wccp_inv s gl S C → gheap s !! y = None → 0 <= n < 256 →
  (∀ x d, payload (gheap s) !! x = Some d → group_id d ≠ n) →
  ∃ h hd, insert_list_item (allocate (gheap s) (Some y) (allocate_wccp_service_group n))
            (wccp_service_groups s) (Some y) = Ret (h, hd)
    ∧ payload h !! y = Some (allocate_wccp_service_group n)
    ∧ wccp_inv (WccpState hd h (srvheap s) (wcheap s) (wsent s)) (gl ++ [y]) S C
    ∧ views (WccpState hd h (srvheap s) (wcheap s) (wsent s)) S C (gl ++ [y])
      = views s S C gl ++ [Group n 0 [] []].
Proof.
  intros I Hy Hn Hfresh. destruct I as [I1 I2 I3 I4 I5 I6 I7 I8 I9].
  destruct (append_member _ _ _ y (allocate_wccp_service_group n) I1 Hy) as (h & hd & E & Hc & Hp & _).
  destruct (I5 y Hy) as [Sy Cy].
  assert (Hall : ∀ z d, payload h !! z = Some d →
    (z = y ∧ d = allocate_wccp_service_group n) ∨ (z ≠ y ∧ payload (gheap s) !! z = Some d)).
  { intros z d. rewrite Hp. destruct (decide (z = y)) as [->|Hz].
    - rewrite lookup_insert_eq. intros [= <-]. by left.
    - rewrite lookup_insert_ne by done. by right. }
  assert (Hdom : ∀ z, is_Some (h !! z) ↔ z = y ∨ is_Some (gheap s !! z)).
  { intros z. rewrite <-(fmap_is_Some n_data), <-payload_lookup, Hp, lookup_insert_is_Some', payload_lookup, fmap_is_Some.
    naive_solver. }
  assert (Hnil : ∀ A (k : heap A), counted k empty_head []) by (intros; split; [by apply dll_nil|done]).
  exists h, hd. split_and!; [done|by rewrite Hp, lookup_insert_eq| |].
  - constructor; cbn [gheap wccp_service_groups srvheap wcheap]; [done| | | | |done|done| |].
    + intros z. rewrite elem_of_app, list_elem_of_singleton, I2, Hdom. tauto.
    + intros z d [[-> ->]|[_ Hz]]%Hall; [rewrite Sy; apply Hnil|by apply I3].
    + intros z d [[-> ->]|[_ Hz]]%Hall; [rewrite Cy; apply Hnil|by apply I4].
    + intros z Hz. apply I5. apply eq_None_not_Some. intros Hs. apply eq_None_not_Some in Hz. apply Hz, Hdom. by right.
    + intros z1 z2 d e [[-> ->]|[? H1]]%Hall [[-> ->]|[? H2]]%Hall Hid; [done| | |by eapply I8];
        simpl in Hid; [destruct (Hfresh _ _ H2)|destruct (Hfresh _ _ H1)]; congruence.
    + intros z d [[-> ->]|[_ Hz]]%Hall; [done|by eapply I9].
  - rewrite views_app. f_equal.
    + rewrite <-(list_fmap_id (views s S C gl)). apply views_map. intros z Hz%I2. rewrite option_fmap_id. unfold view.
      cbn [gheap srvheap wcheap]. rewrite Hp, lookup_insert_ne; [done|]. intros <-. rewrite Hy in Hz. by destruct Hz.
    + unfold views. cbn [omap list_omap]. unfold view. cbn [gheap srvheap wcheap].
      by rewrite Hp, lookup_insert_eq, Sy, Cy.
Qed.

Lemma enter_group_refines s G y p n : represents s G → gheap s !! y = None →
  isstringdigits p = true → atoi p = Ret n → 0 <= n <= 254 →
  ∃ s' x out, cli_enter_wccp_mode [p] (Some y) s = Ret (s', CommandResult 0 (Some cli_wccp_mode) (Some x), out)
    ∧ represents s' (enter_group n G) ∧ points_to_group s' x n.
Proof.
  intros (gl & S & C & I & ->) Hy Hp Hn Hr. cbn [cli_enter_wccp_mode]. rewrite Hp, Hn. cbn [mbind outcome_bind].
  rewrite (proj2 (Z.leb_le 0 n)), (proj2 (Z.leb_le n 254)) by lia. cbn [andb].
  replace (u8 n) with n by (unfold u8; rewrite Z.mod_small; lia).
  destruct (find_group_spec s gl S C n I) as ([x|] & -> & F); cbn [mbind outcome_bind].
  - destruct F as (d & Hd & Hid & Hh). eexists s, x, []. split; [done|]. unfold enter_group. rewrite Hh.
    split; [by exists gl, S, C|by exists d].
  - destruct F as [Hh Hf]. unfold new_service_group.
    destruct (create_group s gl S C y n I Hy) as (h & hd & -> & Hl & I' & V); [lia|done|].
    cbn [mbind outcome_bind]. eexists _, y, _. split; [done|]. unfold enter_group. rewrite Hh. split.
    + exists (gl ++ [y]), S, C. by rewrite V.
    + by exists (allocate_wccp_service_group n).
Qed.

(** An object of no list. *)
Lemma fresh_server s gl S C z : wccp_inv s gl S C → srvheap s !! z = None → ∀ y, z ∉ S y.
Proof.
  intros I Hz y Hin. destruct (gheap s !! y) as [e|] eqn:He.
  - assert (Hp : payload (gheap s) !! y = Some (n_data e)) by (by rewrite payload_lookup, He).
    destruct (counted_listed _ _ _ _ (wi_servers _ _ _ _ I _ _ Hp) Hin) as [v Hv].
    by rewrite payload_lookup, Hz in Hv.
  - destruct (wi_outside _ _ _ _ I y He) as [E _]. rewrite E in Hin. by apply not_elem_of_nil in Hin.
Qed.

Lemma fresh_webcache s gl S C z : wccp_inv s gl S C → wcheap s !! z = None → ∀ y, z ∉ C y.
Proof.
  intros I Hz y Hin. destruct (gheap s !! y) as [e|] eqn:He.
  - assert (Hp : payload (gheap s) !! y = Some (n_data e)) by (by rewrite payload_lookup, He).
    destruct (counted_listed _ _ _ _ (wi_webcaches _ _ _ _ I _ _ Hp) Hin) as [v Hv].
    by rewrite payload_lookup, Hz in Hv.
  - destruct (wi_outside _ _ _ _ I y He) as [_ E]. rewrite E in Hin. by apply not_elem_of_nil in Hin.
Qed.

Lemma on_group_same s gl S C x d f : wccp_inv s gl S C → payload (gheap s) !! x = Some d →
  (∀ g, view s S C x = Some g → f g = g) → on_group (group_id d) f (views s S C gl) = views s S C gl.
Proof.
  intros I Hd Hf. unfold on_group. symmetry. apply views_map. intros y _.
  destruct (view s S C y) as [g|] eqn:E; [|done]. simpl. f_equal.
  destruct (Z.eqb_spec (gr_id g) (group_id d)) as [Hid|Hid]; [|done].
  unfold view in E. destruct (payload (gheap s) !! y) as [e|] eqn:He; [|done]. injection E as <-.
  assert (y = x) as -> by (by eapply (wi_ids _ _ _ _ I)). symmetry. apply Hf. by rewrite (view_spec _ _ _ _ _ He).
Qed.

(** ** Servers and web caches *)
Lemma members_update_first {A} (m : gmap loc A) l f u y v :
  NoDup l → find_loc m l f = Some y → m !! y = Some v →
  members (<[y := u v]> m) l = update_first f u (members m l).
Proof.
  induction l as [|x l IH]; intros Hn Hf Hv; [done|]. apply NoDup_cons in Hn as [Hx Hn].
  cbn [find_loc] in Hf. rewrite !members_step. destruct (m !! x) as [w|] eqn:E.
  - destruct (f w) eqn:Ew.
    + injection Hf as <-. rewrite E in Hv. injection Hv as <-. rewrite lookup_insert_eq. cbn [update_first]. rewrite Ew.
      f_equal. apply members_ext. intros z Hz. rewrite lookup_insert_ne; [done|]. by intros <-.
    + assert (x ≠ y) by (intros ->; pose proof (find_loc_spec m l f) as F; rewrite Hf in F; by destruct F).
      rewrite lookup_insert_ne, E by done. cbn [update_first]. by rewrite Ew, IH.
  - assert (x ≠ y) by (intros ->; congruence). rewrite lookup_insert_ne, E by done. by apply IH.
Qed.

(** Changing the data of a server of group [x]. *)
Lemma server_inv s gl S C y n v : wccp_inv s gl S C → srvheap s !! y = Some n →
  wccp_inv (set_srvheap s (<[y := Node (n_next n) (n_prev n) v]> (srvheap s))) gl S C.
Proof.
  intros I Hy. destruct I as [I1 I2 I3 I4 I5 I6 I7 I8 I9].
  constructor; cbn [gheap wccp_service_groups srvheap wcheap set_srvheap]; eauto.
  intros x d Hx. apply counted_set_data; eauto.
Qed.

Lemma server_views s gl S C x d y n v f : wccp_inv s gl S C → payload (gheap s) !! x = Some d →
  srvheap s !! y = Some n → y ∈ S x →
  f (Group (group_id d) (change_number d) (members (payload (srvheap s)) (S x)) (members (payload (wcheap s)) (C x)))
  = Group (group_id d) (change_number d) (members (<[y := v]> (payload (srvheap s))) (S x))
      (members (payload (wcheap s)) (C x)) →
  views (set_srvheap s (<[y := Node (n_next n) (n_prev n) v]> (srvheap s))) S C gl
  = on_group (group_id d) f (views s S C gl).
Proof.
  intros I Hd Hy Hin Hf. unfold on_group. apply views_map. intros z _. unfold view.
  cbn [gheap srvheap wcheap set_srvheap].
  destruct (payload (gheap s) !! z) as [e|] eqn:He; [|done]. cbn -[members]. rewrite payload_insert. cbn [n_data].
  destruct (Z.eqb_spec (group_id e) (group_id d)) as [E|E].
  - assert (z = x) as -> by (by eapply (wi_ids _ _ _ _ I)).
    assert (e = d) as -> by congruence. by rewrite Hf.
  - do 2 f_equal. apply members_ext. intros w Hw. rewrite lookup_insert_ne; [done|]. intros <-.
    apply E. assert (z = x) as -> by (by eapply (wi_S _ _ _ _ I)). congruence.
Qed.

(** A new server of a group. *)
Lemma add_server_refines s G x n p ip now z : represents s G → points_to_group s x n →
  inet_pton p = Some ip → srvheap s !! z = None →
  ∃ s' out, cli_wccp_server [p] (Some x) now (Some z) s
            = Ret (s', CommandResult 0 (Some cli_wccp_mode) (Some x), out)
    ∧ represents s' (on_group n (add_server ip now) G) ∧ points_to_group s' x n.
Proof.
  intros (gl & S & C & I & ->) (d & Hd & Hid) Hip Hz.
  pose proof (proj1 (payload_Some _ _ _) Hd) as (nd & Hx & <-).
  cbn [cli_wccp_server]. rewrite Hip. unfold find_wccp_server, load, deref. rewrite Hx. cbn [mbind outcome_bind].
  pose proof (wi_servers _ _ _ _ I _ _ Hd) as Hc.
  rewrite (find_counted _ _ _ _ Hc). cbn [mbind outcome_bind].
  pose proof (find_loc_existsb (payload (srvheap s)) (S x) (λ v, ipaddress v =? ip)) as F.
  destruct (find_loc (payload (srvheap s)) (S x) (λ v, ipaddress v =? ip)) as [v|].
  - rewrite bool_decide_true in F by eauto. eexists s, []. split; [done|]. split; [|by exists (n_data nd)].
    exists gl, S, C. split; [done|]. rewrite <-Hid. apply (on_group_same _ _ _ _ x _ _ I Hd).
    intros g. rewrite (view_spec _ _ _ _ _ Hd). intros [= <-]. unfold add_server. cbn [gr_servers]. by rewrite F.
  - rewrite bool_decide_false in F by (by intros []).
    destruct (append_member _ _ _ z (allocate_wccp_server ip now) Hc Hz) as (h & hd & -> & Hc' & Hp & Hother).
    cbn [mbind outcome_bind]. unfold store_data, deref. rewrite Hx. cbn [mbind outcome_bind].
    pose proof (fresh_server _ _ _ _ _ I Hz) as Hnz.
    eexists _, _. split; [done|]. split.
    + exists gl, (<[x := S x ++ [z]]> S), (<[x := C x]> C). split.
      * apply (updated_inv s gl S C I x nd Hx (set_servers (n_data nd) hd) h (wcheap s)); [done|done| | | | |].
        -- exact (wi_webcaches _ _ _ _ I _ _ Hd).
        -- intros y e Hy He. apply Hother; [by apply (wi_servers _ _ _ _ I)|].
           intros w Hw1 Hw2. apply Hy. by eapply (wi_S _ _ _ _ I).
        -- intros y e _ He. by apply (wi_webcaches _ _ _ _ I).
        -- intros y w [Hw|Hw%list_elem_of_singleton]%elem_of_app Hy; [by eapply (wi_S _ _ _ _ I)|].
           subst w. by destruct (Hnz y).
        -- intros y w Hw Hy. by eapply (wi_C _ _ _ _ I).
      * rewrite <-Hid. symmetry. apply (updated_views s gl S C I x nd Hx (set_servers (n_data nd) hd) h (wcheap s)).
        -- intros y w Hy Hw. rewrite Hp, lookup_insert_ne; [done|]. intros <-. by destruct (Hnz y).
        -- done.
        -- unfold add_server. cbn [gr_servers gr_id gr_change gr_webcaches set_servers group_id change_number webcaches].
           rewrite F, members_app. f_equal. f_equal.
           ++ symmetry. apply members_ext. intros w Hw. rewrite Hp, lookup_insert_ne; [done|]. intros <-. by destruct (Hnz x).
           ++ unfold members. simpl. by rewrite Hp, lookup_insert_eq.
    + eexists. split; [simpl; rewrite payload_insert; by rewrite lookup_insert_eq|done].
Qed.

(** A group that already lists the address keeps its web caches. *)
Lemma find_cache_spec s gl S C x d ip : wccp_inv s gl S C → payload (gheap s) !! x = Some d →
  ∃ r, find_wccp_webcache s (Some x) ip = Ret r ∧
    existsb (λ w, wc_ipaddress w =? ip) (members (payload (wcheap s)) (C x)) = bool_decide (is_Some r).
Proof.
  intros I Hd. pose proof (proj1 (payload_Some _ _ _) Hd) as (nd & Hx & E).
  unfold find_wccp_webcache, load, deref. rewrite Hx. cbn [mbind outcome_bind]. rewrite E.
  rewrite (find_counted _ _ _ _ (wi_webcaches _ _ _ _ I _ _ Hd)). eexists. split; [done|]. apply find_loc_existsb.
Qed.

Lemma caches_loop_found k s group m w a ip x : ld32 m w = Ret ip →
  find_wccp_webcache s group ip = Ret (Some x) → add_caches_loop k s group m w a = Ret s.
Proof.
  intros Hip Hf. revert a. induction k as [|k IH]; intros a; [done|]. cbn [add_caches_loop].
  rewrite Hip. cbn [mbind outcome_bind]. rewrite Hf. cbn [mbind outcome_bind]. apply IH.
Qed.

(** A new web cache, linked behind the last one. *)
Lemma insert_webcache s gl S C x nd ip z : wccp_inv s gl S C → gheap s !! x = Some nd → wcheap s !! z = None →
  existsb (λ w, wc_ipaddress w =? ip) (members (payload (wcheap s)) (C x)) = false →
  ∃ h hd, insert_list_item (allocate (wcheap s) (Some z) (allocate_wccp_webcache ip)) (webcaches (n_data nd)) (Some z)
          = Ret (h, hd) ∧
    let d := set_webcaches (n_data nd) hd in
    let s' := set_wcheap (set_gheap s (<[x := Node (n_next nd) (n_prev nd) d]> (gheap s))) h in
    wccp_inv s' gl (<[x := S x]> S) (<[x := C x ++ [z]]> C) ∧ payload (gheap s') !! x = Some d
    ∧ existsb (λ w, wc_ipaddress w =? ip) (members (payload (wcheap s')) (C x ++ [z])) = true
    ∧ views s' (<[x := S x]> S) (<[x := C x ++ [z]]> C) gl
      = on_group (group_id (n_data nd)) (add_webcache ip) (views s S C gl).
Proof.
  intros I Hx Hz F. assert (Hd : payload (gheap s) !! x = Some (n_data nd)) by (by rewrite payload_lookup, Hx).
  pose proof (wi_webcaches _ _ _ _ I _ _ Hd) as Hc.
  destruct (append_member _ _ _ z (allocate_wccp_webcache ip) Hc Hz) as (h & hd & E & Hc' & Hp & Hother).
  pose proof (fresh_webcache _ _ _ _ _ I Hz) as Hnz.
  exists h, hd. split; [done|]. cbv zeta. split_and!.
  - apply (updated_inv s gl S C I x nd Hx (set_webcaches (n_data nd) hd) (srvheap s) h); [done| |done| | | |].
    + exact (wi_servers _ _ _ _ I _ _ Hd).
    + intros y e _ He. by apply (wi_servers _ _ _ _ I).
    + intros y e Hy He. apply Hother; [by apply (wi_webcaches _ _ _ _ I)|].
      intros v Hv1 Hv2. apply Hy. by eapply (wi_C _ _ _ _ I).
    + intros y v Hv Hy. by eapply (wi_S _ _ _ _ I).
    + intros y v [Hv|Hv%list_elem_of_singleton]%elem_of_app Hy; [by eapply (wi_C _ _ _ _ I)|].
      subst v. by destruct (Hnz y).
  - cbn [gheap set_wcheap set_gheap]. by rewrite payload_insert, lookup_insert_eq.
  - rewrite members_app, existsb_app. apply orb_true_iff. right. unfold members.
    cbn [wcheap set_wcheap omap list_omap]. rewrite Hp, lookup_insert_eq. cbn. by rewrite Z.eqb_refl.
  - apply (updated_views s gl S C I x nd Hx (set_webcaches (n_data nd) hd) (srvheap s) h).
    + done.
    + intros y v Hy Hv. rewrite Hp, lookup_insert_ne; [done|]. intros <-. by destruct (Hnz y).
    + unfold add_webcache. cbn [gr_servers gr_id gr_change gr_webcaches set_webcaches group_id change_number servers].
      rewrite F, members_app. do 2 f_equal.
      * symmetry. apply members_ext. intros v Hv. rewrite Hp, lookup_insert_ne; [done|]. intros <-. by destruct (Hnz x).
      * unfold members. simpl. by rewrite Hp, lookup_insert_eq.
Qed.

(** The loop adds the first web cache of the message and no other. *)
Lemma caches_loop_refines s gl S C x d k m w a ip z : wccp_inv s gl S C → payload (gheap s) !! x = Some d →
  ld32 m w = Ret ip → a 0%nat = Some z → wcheap s !! z = None →
  ∃ s' d' S' C', add_caches_loop (Datatypes.S k) s (Some x) m w a = Ret s' ∧ wccp_inv s' gl S' C'
    ∧ payload (gheap s') !! x = Some d' ∧ C' x ≠ []
    ∧ views s' S' C' gl = on_group (group_id d) (add_webcache ip) (views s S C gl).
Proof.
  intros I Hd Hip Ha Hz. cbn [add_caches_loop]. rewrite Hip. cbn [mbind outcome_bind].
  destruct (find_cache_spec s gl S C x d ip I Hd) as (r & E & F). rewrite E. cbn [mbind outcome_bind].
  destruct r as [c|].
  - rewrite bool_decide_true in F by eauto. cbn [mbind outcome_bind].
    rewrite (caches_loop_found _ _ _ _ _ _ _ _ Hip E).
    exists s, d, S, C. split_and!; [done..| |].
    + intros HC. rewrite HC in F. done.
    + symmetry. apply (on_group_same _ _ _ _ _ _ _ I Hd). intros g. rewrite (view_spec _ _ _ _ _ Hd). intros [= <-].
      unfold add_webcache. cbn [gr_webcaches]. by rewrite F.
  - rewrite bool_decide_false in F by (by intros []). rewrite Ha.
    pose proof (proj1 (payload_Some _ _ _) Hd) as (nd & Hx & <-).
    unfold load, deref. rewrite Hx. cbn [mbind outcome_bind].
    destruct (insert_webcache _ _ _ _ _ _ ip z I Hx Hz F) as (h & hd & -> & I' & Hd' & Hf & V).
    cbn [mbind outcome_bind]. unfold store_data, deref. rewrite Hx. cbn [mbind outcome_bind].
    destruct (find_cache_spec _ _ _ _ _ _ ip I' Hd') as (r & E' & F'). rewrite fn_lookup_insert, Hf in F'.
    symmetry in F'. apply bool_decide_eq_true_1 in F' as [c ->].
    rewrite (caches_loop_found _ _ _ _ _ _ _ _ Hip E').
    eexists _, _, _, _. split_and!; [done|exact I'|exact Hd'| |exact V].
    rewrite fn_lookup_insert. by destruct (C x).
Qed.

(** Every web cache of the message is read. *)
Lemma compare_loop_reads h prv l fuel k m w : seg h (λ _, True) prv l None → (length l < fuel)%nat → l ≠ [] →
  compare_loop fuel h (first l None) k m w = read_caches k m w.
Proof.
  revert prv fuel. induction l as [|x l IH]; intros prv [|fuel] Hs Hf Hl; simpl in *; [done|done|lia|].
  destruct Hs as (d & Hx & _ & Hs). unfold load, deref. rewrite Hx. cbn [mbind outcome_bind n_next n_data].
  destruct (read_caches k m w) as [[]| |] eqn:E; cbn [mbind outcome_bind]; [|done|done].
  destruct l as [|y l]; [by destruct fuel|]. eapply IH; [done|simpl in *; lia|done].
Qed.

(** ** Messages received *)
Lemma load_Some {A} (h : heap A) x n : h !! x = Some n → load h (Some x) = Ret n.
Proof. unfold load, deref. by intros ->. Qed.

Lemma store_data_Some {A} (h : heap A) x n v : h !! x = Some n →
  store_data h (Some x) v = Ret (<[x := Node (n_next n) (n_prev n) v]> h).
Proof. unfold store_data, deref. by intros ->. Qed.

(** The detailed computation does what the computation on groups does. *)
Definition agrees (o : outcome wccpstate) (r : outcome (list group)) : Prop :=
  match r with
  | Ret G => ∃ s, o = Ret s ∧ represents s G
  | Undef => o = Undef
  | Spin => o = Spin
  end.

(** Both read the same field of the message. *)
Lemma agrees_read {A} (r : outcome A) (k : A → outcome wccpstate) (k' : A → outcome (list group)) :
  (∀ v, r = Ret v → agrees (k v) (k' v)) → agrees (v ← r; k v) (v ← r; k' v).
Proof. destruct r; simpl; auto. Qed.

Lemma ntohs_byte v : 0 <= v < 256 → u8 (ntohs v) = 0.
Proof. intros Hv. unfold u8, ntohs. rewrite Z.div_small, Z.mod_0_l, Z.add_0_r by lia. by apply Z_mod_mult. Qed.

Lemma set_change_inv s gl S C x nd c : wccp_inv s gl S C → gheap s !! x = Some nd →
  ∃ S' C', let s' := set_gheap s (<[x := Node (n_next nd) (n_prev nd) (set_change_number (n_data nd) c)]> (gheap s)) in
  wccp_inv s' gl S' C' ∧ views s' S' C' gl = on_group (group_id (n_data nd)) (set_change c) (views s S C gl).
Proof.
  intros I Hx. assert (Hd : payload (gheap s) !! x = Some (n_data nd)) by (by rewrite payload_lookup, Hx).
  exists (<[x := S x]> S), (<[x := C x]> C). split.
  - apply (updated_inv s gl S C I x nd Hx (set_change_number (n_data nd) c) (srvheap s) (wcheap s)); [done| | | | | |].
    + exact (wi_servers _ _ _ _ I _ _ Hd).
    + exact (wi_webcaches _ _ _ _ I _ _ Hd).
    + intros y e _. apply (wi_servers _ _ _ _ I).
    + intros y e _. apply (wi_webcaches _ _ _ _ I).
    + intros y v Hv Hy. by eapply (wi_S _ _ _ _ I).
    + intros y v Hv Hy. by eapply (wi_C _ _ _ _ I).
  - by apply (updated_views s gl S C I x nd Hx (set_change_number (n_data nd) c) (srvheap s) (wcheap s)).
Qed.

Lemma router_view_refines s gl S C x d m o a z : wccp_inv s gl S C → payload (gheap s) !! x = Some d →
  a 0%nat = Some z → wcheap s !! z = None →
  agrees (process_wccp_router_view_component s (Some x) m o a)
    (router_view m o (group_id d) (change_number d) (views s S C gl)).
Proof.
  intros I Hd Ha Hz. pose proof (proj1 (payload_Some _ _ _) Hd) as (nd & Hx & <-).
  unfold process_wccp_router_view_component, router_view. rewrite (load_Some _ _ _ Hx). cbn [mbind outcome_bind].
  apply agrees_read. intros cn _. destruct (ntohl cn =? change_number (n_data nd)).
  { exists s. split; [done|]. by exists gl, S, C. }
  rewrite (store_data_Some _ _ _ _ Hx). cbn [mbind outcome_bind].
  destruct (set_change_inv s gl S C x nd (ntohl cn) I Hx) as (S1 & C1 & I1 & V1). cbv zeta in I1, V1. rewrite <-V1.
  set (s1 := set_gheap _ _) in *. apply agrees_read. intros r _. apply agrees_read. intros k _.
  destruct (0 <? ntohl k) eqn:Hk; [|exists s1; split; [done|by exists gl, S1, C1]].
  destruct (Z.to_nat (ntohl k)) as [|k'] eqn:Ek; [apply Z.ltb_lt in Hk; lia|].
  set (w := o + 16 + 4 * (ntohl r + 1) + 4).
  destruct (ld32 m w) as [ip| |] eqn:Hip; [|cbn [add_caches_loop]; by rewrite Hip..].
  assert (Hd1 : payload (gheap s1) !! x = Some (set_change_number (n_data nd) (ntohl cn)))
    by (unfold s1; cbn [gheap set_gheap]; by rewrite payload_insert, lookup_insert_eq).
  destruct (caches_loop_refines s1 gl S1 C1 x _ k' m w a ip z I1 Hd1 Hip Ha Hz) as (s2 & d2 & S2 & C2 & -> & I2 & Hd2 & HC2 & V2).
  cbn [mbind outcome_bind]. pose proof (proj1 (payload_Some _ _ _) Hd2) as (nd2 & Hx2 & <-).
  rewrite (load_Some _ _ _ Hx2). cbn [mbind outcome_bind].
  pose proof (wi_webcaches _ _ _ _ I2 _ _ Hd2) as [Hc2 _].
  assert (Hf : (length (C2 x) < list_fuel (wcheap s2))%nat) by (pose proof (dll_length _ _ _ _ Hc2); unfold list_fuel; lia).
  destruct Hc2 as (_ & -> & _ & Hs2). rewrite (compare_loop_reads _ None) by done.
  apply agrees_read. intros [] _. exists s2. split; [done|]. exists gl, S2, C2. split; [done|].
  rewrite V2. done.
Qed.

Lemma find_group_views s gl S C x d : wccp_inv s gl S C → payload (gheap s) !! x = Some d →
  find_group (group_id d) (views s S C gl) = view s S C x.
Proof.
  intros I Hd. assert (Hx : x ∈ gl).
  { apply (wi_listed _ _ _ _ I). apply payload_Some in Hd as (nd & -> & _). by eexists. }
  rewrite (view_spec _ _ _ _ _ Hd). set (g := Group _ _ _ _).
  assert (Hg : g ∈ views s S C gl) by (apply list_elem_of_omap; exists x; split; [done|by apply view_spec]).
  unfold find_group. destruct (List.find _ _) as [g'|] eqn:E.
  - apply find_some in E as [Hin Hn]. apply list_elem_of_In, list_elem_of_omap in Hin as (y & _ & Hy).
    apply Z.eqb_eq in Hn. destruct (payload (gheap s) !! y) as [e|] eqn:He; unfold view in Hy; rewrite He in Hy; [|done].
    injection Hy as <-. assert (y = x) as -> by (by eapply (wi_ids _ _ _ _ I)).
    assert (e = d) as -> by congruence. done.
  - apply list_elem_of_In in Hg. pose proof (List.find_none _ _ E g Hg) as Hn. cbn in Hn. by rewrite Z.eqb_refl in Hn.
Qed.

Lemma find_group_None s gl S C n : has_group n (views s S C gl) = false → find_group n (views s S C gl) = None.
Proof.
  intros H. unfold find_group. destruct (List.find _ _) as [g|] eqn:E; [|done].
  apply find_some in E. assert (Hb : existsb (λ g, gr_id g =? n) (views s S C gl) = true) by (apply existsb_exists; eauto).
  unfold has_group in H. congruence.
Qed.

(** The handler is [see_you]. *)
Lemma handler_refines s G m a z : represents s G → bytes m → a 0%nat = Some z → wcheap s !! z = None →
  agrees (wccp_handler s m a) (see_you m G).
Proof.
  intros (gl & S & C & I & ->) Hm Ha Hz. assert (Hs : represents s (views s S C gl)) by (by exists gl, S, C).
  unfold wccp_handler, see_you. apply agrees_read. intros type _. destruct (ntohl type =? _); cbn [negb]; [|by exists s].
  unfold process_wccp_security_component. apply agrees_read. intros l _. apply agrees_read. intros _ _.
  unfold process_wccp_service_component. apply agrees_read. intros id Hid.
  apply rd_Ret in Hid as [_ <-]. rewrite ntohs_byte by (by apply at_bytes).
  destruct (find_group_spec s gl S C 0 I) as ([x|] & -> & F); cbn [mbind outcome_bind].
  2:{ destruct F as [F _]. rewrite (find_group_None _ _ _ _ _ F). by exists s. }
  destruct F as (d & Hd & Hid & _). rewrite <-Hid. rewrite (find_group_views _ _ _ _ _ _ I Hd), (view_spec _ _ _ _ _ Hd).
  apply agrees_read. intros l2 _. unfold process_wccp_router_id_component. apply agrees_read. intros ip _.
  pose proof (proj1 (payload_Some _ _ _) Hd) as (nd & Hx & <-).
  unfold find_wccp_server. rewrite (load_Some _ _ _ Hx). cbn [mbind outcome_bind gr_servers gr_change].
  pose proof (wi_servers _ _ _ _ I _ _ Hd) as Hc. rewrite (find_counted _ _ _ _ Hc). cbn [mbind outcome_bind].
  rewrite find_loc_existsb. destruct (find_loc _ _ _) as [y|] eqn:Ey.
  2:{ rewrite bool_decide_false by (by intros []). by exists s. }
  rewrite bool_decide_true by eauto. apply agrees_read. intros rid _.
  pose proof (find_loc_spec (payload (srvheap s)) (S x) (λ v, ipaddress v =? ip)) as Fy. rewrite Ey in Fy.
  destruct Fy as [Hy (v & Hv & _)]. pose proof (proj1 (payload_Some _ _ _) Hv) as (nv & Hny & <-).
  rewrite (load_Some _ _ _ Hny). cbn [mbind outcome_bind]. rewrite (store_data_Some _ _ _ _ Hny). cbn [mbind outcome_bind].
  apply agrees_read. intros l3 _. unfold router_view.
  pose proof (server_inv s gl S C y nv (set_router_id (n_data nv) (ntohl rid)) I Hny) as I'.
  rewrite <-(server_views s gl S C x (n_data nd) y nv (set_router_id (n_data nv) (ntohl rid)) _ I Hd Hny Hy).
  - exact (router_view_refines _ gl S C x (n_data nd) m _ a z I' Hd Ha Hz).
  - unfold learn_id. cbn [gr_id gr_change gr_servers gr_webcaches]. f_equal. symmetry.
    apply (members_update_first _ _ _ (λ v, set_router_id v (ntohl rid)) y (n_data nv)); [|done|done]. destruct Hc as [[Hn _] _]. done.
Qed.
