(* ===== verification/WccpHello.v ===== *)
(** * The periodic messages of wccpv2.c

    [wccp_epoller_timeout] walks over the groups and their servers.  What it does
    to the list of groups, and what it sends, is stated here server by server. *)
From S2P Require Import Prelude Dll Tokens Cli Epoll Wccp WccpWire WccpGroups.
#[local] Open Scope Z_scope.
#[local] Open Scope list_scope.

(** * The specification *)

(** What a turn does besides the change of its server: the messages sent, latest first, and
    the sockets registered.  [None]: the program ends. *)
Definition deeds (A : Type) : Type := outcome (option (A * list (Z * list Z) * list Z)).

Definition fits (l : list Z) : bool := blen l <=? 1024.

(** The two messages a server with a socket gets. *)
Definition hello (t : turn) (g : group) (fd : Z) : outcome (option (list (Z * list Z))) :=
  let body type ip := group_message type ip (gr_change g) (gr_servers g) (gr_webcaches g) in
  match here_ip t with
  | None => Ret None
  | Some ip =>
      let here := body WCCP2_HERE_I_AM ip in
      if negb (fits here) then Undef else
      match assign_ip t with
      | None => Ret None
      | Some ip =>
          let assign := body WCCP2_REDIRECT_ASSIGN ip in
          if fits assign then Ret (Some [(fd, assign); (fd, here)]) else Undef
      end
  end.

(** One server: nothing for nine seconds, then a socket, or the messages if it has one. *)
Definition server_tick (time : Z) (t : turn) (g : group) (v : wccp_server) : deeds wccp_server :=
  if 9 <=? time - hellotimer v then
    let v' := set_hellotimer v (turn_time t) in
    if sock v =? 0 then
      match new_udp_client t with
      | None => Ret None
      | Some client =>
          if 0 <=? client then
            Ret (if udp_fcntl_ok t && udp_epoll_ctl_ok t then Some (set_sock v' client, [], [client]) else None)
          else Ret (Some (v', [], []))
      end
    else
      o ← hello t g (sock v);
      Ret (match o with Some ms => Some (v', ms, []) | None => None end)
  else Ret (Some (v, [], [])).

Fixpoint servers_tick (time : Z) (turns : nat → turn) (g : group) (vs : list wccp_server) : deeds (list wccp_server) :=
  match vs with
  | [] => Ret (Some ([], [], []))
  | v :: vs =>
      o ← server_tick time (turns 0%nat) g v;
      match o with
      | None => Ret None
      | Some (v, m1, f1) =>
          o ← servers_tick time (λ j, turns (S j)) g vs;
          Ret (match o with Some (vs, m2, f2) => Some (v :: vs, m2 ++ m1, f2 ++ f1) | None => None end)
      end
  end.

Fixpoint tick (time : Z) (turns : nat → nat → turn) (G : list group) : deeds (list group) :=
  match G with
  | [] => Ret (Some ([], [], []))
  | g :: G =>
      o ← servers_tick time (turns 0%nat) g (gr_servers g);
      match o with
      | None => Ret None
      | Some (vs, m1, f1) =>
          o ← tick time (λ i, turns (S i)) G;
          Ret (match o with
               | Some (G, m2, f2) =>
                   Some (Group (gr_id g) (gr_change g) vs (gr_webcaches g) :: G, m2 ++ m1, f2 ++ f1)
               | None => None
               end)
      end
  end.

(** * What the messages depend on *)

Definition wire_id (v : wccp_server) : Z * Z := (ipaddress v, router_id v).

Lemma concat_wire_id (enc : wccp_server → list Z) (enc' : Z * Z → list Z) vs vs' :
  (∀ v, enc v = enc' (wire_id v)) → wire_id <$> vs = wire_id <$> vs' → concat (enc <$> vs) = concat (enc <$> vs').
Proof.
  intros He H. assert (E : ∀ us : list wccp_server, enc <$> us = enc' <$> (wire_id <$> us)).
  { intros us. rewrite <-list_fmap_compose. by apply list_fmap_ext. }
  by rewrite !E, H.
Qed.

Lemma lists_body_ext enc enc' vs vs' ws : (∀ v, enc v = enc' (wire_id v)) → wire_id <$> vs = wire_id <$> vs' →
  lists_body enc vs ws = lists_body enc vs' ws.
Proof.
  intros He H. unfold lists_body. rewrite (concat_wire_id enc enc' vs vs' He H).
  assert (E : length vs = length vs') by (by rewrite <-(length_fmap wire_id vs), H, length_fmap). by rewrite E.
Qed.

Lemma group_message_ext t ip c vs vs' ws : wire_id <$> vs = wire_id <$> vs' →
  group_message t ip c vs ws = group_message t ip c vs' ws.
Proof.
  intros H. unfold group_message. f_equal. f_equal. unfold group_components, here_i_am, redirect_assign, view_body, assignment_body.
  rewrite (lists_body_ext view_router (λ p, le32 p.1 ++ be32 p.2) vs vs' ws) by done.
  by rewrite (lists_body_ext (assigned_router c) (λ p, le32 p.1 ++ be32 (u32 (p.2 + 1)) ++ be32 c) vs vs' ws).
Qed.

Lemma server_tick_wire time t g v v' ms fds : server_tick time t g v = Ret (Some (v', ms, fds)) → wire_id v' = wire_id v.
Proof.
  unfold server_tick. destruct (9 <=? _); [|intros E; by injection E as <- _ _]. destruct (sock v =? 0).
  - destruct (new_udp_client t) as [c|]; [|done]. destruct (0 <=? c); [|intros E; by injection E as <- _ _].
    destruct (_ && _); [|done]. intros E; by injection E as <- _ _.
  - intros ([ms'|] & _ & E)%bind_Ret; [|done]. by injection E as <- _ _.
Qed.

(** * The walk *)
Lemma lists_of_counted {A} (h : heap A) hd l : counted h hd l → lists_of h hd (members (payload h) l).
Proof.
  intros [Hd Hc]. exists l. split_and!; [done|done|]. apply members_all. intros x Hx. by eapply counted_listed.
Qed.

Section Walk.
Variables (time : Z) (gl : list loc) (S C : loc → list loc) (x : loc) (d : wccp_service_group) (g : group).

(** [s] agrees with the group [g] as far as the messages go. *)
Record walking (s : wccpstate) : Prop := Walking {
  wk_inv : wccp_inv s gl S C;
  wk_group : payload (gheap s) !! x = Some d;
  wk_change : change_number d = gr_change g;
  wk_caches : members (payload (wcheap s)) (C x) = gr_webcaches g;
  wk_servers : wire_id <$> members (payload (srvheap s)) (S x) = wire_id <$> gr_servers g
}.

(** The state after server [y] has become [v] and [ms] has been sent. *)
Definition stepped (s : wccpstate) (y : loc) (n : node wccp_server) (v : wccp_server) (ms : list (Z * list Z)) : wccpstate :=
  WccpState (wccp_service_groups s) (gheap s) (<[y := Node (n_next n) (n_prev n) v]> (srvheap s)) (wcheap s)
    (ms ++ wsent s).

Lemma sent_inv s sent : wccp_inv s gl S C →
  wccp_inv (WccpState (wccp_service_groups s) (gheap s) (srvheap s) (wcheap s) sent) gl S C.
Proof. intros I. destruct I. by constructor. Qed.

Lemma members_wire (m : gmap loc wccp_server) l y v v' : m !! y = Some v → wire_id v' = wire_id v →
  wire_id <$> members (<[y := v']> m) l = wire_id <$> members m l.
Proof.
  intros Hy Hw. induction l as [|z l IH]; [done|]. rewrite !members_step.
  destruct (decide (z = y)) as [->|Hz].
  - rewrite lookup_insert_eq, Hy. cbn -[members]. by rewrite IH, Hw.
  - rewrite lookup_insert_ne by done. destruct (m !! z); cbn -[members]; by rewrite IH.
Qed.

Lemma walking_step s y n v ms : walking s → srvheap s !! y = Some n → wire_id v = wire_id (n_data n) →
  walking (stepped s y n v ms).
Proof.
  intros [I Hg Hc Hw Hs] Hy Hv. constructor; [|done..|].
  - exact (sent_inv _ (ms ++ wsent s) (server_inv s gl S C y n v I Hy)).
  - cbn [srvheap stepped]. rewrite payload_insert. cbn [n_data].
    rewrite <-Hs. apply members_wire with (n_data n); [by rewrite payload_lookup, Hy|done].
Qed.

(** The registration of sockets, latest first. *)
Definition with_sockets (st : epoller wccpstate) (fds : list Z) (s : wccpstate) : epoller wccpstate :=
  Epoller (buf st) (fds ++ monitored st) (Epoll.closed st) s.

(** The two messages. *)
Lemma hello_refines t s y : walking s → ∀ v, srvheap s !! y = Some v →
  ∀ (A : Type) (k : wccpstate → option A),
  match here_ip t with
  | None => Ret None
  | Some ip =>
      s ← wccp_send_message s d (n_data v) ip WCCP2_HERE_I_AM;
      match assign_ip t with
      | None => Ret None
      | Some ip => s ← wccp_send_message s d (n_data v) ip WCCP2_REDIRECT_ASSIGN; Ret (k s)
      end
  end
  = match hello t g (sock (n_data v)) with
    | Ret (Some ms) => Ret (k (WccpState (wccp_service_groups s) (gheap s) (srvheap s) (wcheap s) (ms ++ wsent s)))
    | Ret None => Ret None
    | Undef => Undef
    | Spin => Spin
    end.
Proof.
  intros [I Hg Hc Hw Hs] v Hv A k.
  pose proof (lists_of_counted _ _ _ (wi_servers _ _ _ _ I _ _ Hg)) as L1.
  pose proof (lists_of_counted _ _ _ (wi_webcaches _ _ _ _ I _ _ Hg)) as L2.
  pose proof (wi_byte _ _ _ _ I _ _ Hg) as Hb.
  unfold hello, fits. destruct (here_ip t) as [ip|]; [|done].
  rewrite <-Hc, <-Hw, <-(group_message_ext _ _ _ _ _ _ Hs). rewrite (send_spec s d _ _ _ _ _ L1 L2 Hb) by (by left).
  set (here := group_message WCCP2_HERE_I_AM _ _ _ _).
  destruct (blen here <=? 1024); cbn [negb mbind outcome_bind]; [|done].
  destruct (assign_ip t) as [ip'|]; [|done]. rewrite <-(group_message_ext _ _ _ _ _ _ Hs).
  set (s1 := WccpState _ _ _ _ _). rewrite (send_spec s1 d _ _ _ _ _ L1 L2 Hb) by (by right).
  by destruct (blen _ <=? 1024).
Qed.

Lemma server_tick_refines t st y : walking (app st) → ∀ n, srvheap (app st) !! y = Some n →
  server_turn time t st (Some x) (Some y)
  = match server_tick time t g (n_data n) with
    | Ret (Some (v, ms, fds)) => Ret (Some (with_sockets st fds (stepped (app st) y n v ms)))
    | Ret None => Ret None
    | Undef => Undef
    | Spin => Spin
    end.
Proof.
  intros W n Hy. unfold server_turn, server_tick. rewrite (load_Some _ _ _ Hy). cbn [mbind outcome_bind].
  destruct (9 <=? _).
  2:{ unfold stepped, with_sockets. cbn [app]. rewrite insert_id by (rewrite Hy; by destruct n). by destruct st as [? ? ? []]. }
  rewrite (store_data_Some _ _ _ _ Hy). cbn [mbind outcome_bind]. unfold wccp_process_server. cbn [app set_app].
  set (v := set_hellotimer (n_data n) (turn_time t)). cbn [srvheap set_srvheap].
  assert (Hy' : <[y := Node (n_next n) (n_prev n) v]> (srvheap (app st)) !! y = Some (Node (n_next n) (n_prev n) v))
    by apply lookup_insert_eq.
  rewrite (load_Some _ _ _ Hy'). cbn [mbind outcome_bind n_data].
  change (sock v) with (sock (n_data n)).
  destruct (sock (n_data n) =? 0).
  - destruct (new_udp_client t) as [c|]; [|done]. destruct (Z.leb_spec 0 c); [|done].
    rewrite (store_data_Some _ _ _ _ Hy'). cbn [mbind outcome_bind n_next n_prev]. rewrite insert_insert_eq.
    unfold register_socket. rewrite (proj2 (Z.ltb_ge _ _)) by done.
    by destruct (udp_fcntl_ok t), (udp_epoll_ctl_ok t).
  - pose proof (walking_step (app st) y n v [] W Hy eq_refl) as W1.
    pose proof (proj1 (payload_Some _ _ _) (wk_group _ W)) as (nd & Hx & Hnd).
    rewrite (load_Some (gheap (set_srvheap (app st) _)) x nd Hx). cbn [mbind outcome_bind]. rewrite Hnd.
    rewrite (hello_refines t _ y W1 _ Hy'). cbn [n_data].
    change (sock v) with (sock (n_data n)).
    by destruct (hello t g (sock (n_data n))) as [[ms|]| |].
Qed.

(** What a walk leaves behind. *)
Definition walked (st st' : epoller wccpstate) (ms : list (Z * list Z)) (fds : list Z) : Prop :=
  wsent (app st') = ms ++ wsent (app st) ∧ monitored st' = fds ++ monitored st
  ∧ Epoll.closed st' = Epoll.closed st ∧ buf st' = buf st.

Lemma servers_loop_refines l2 : ∀ l1 prv fuel turns st, walking (app st) → S x = l1 ++ l2 →
  seg (srvheap (app st)) (λ _, True) prv l2 None → (length l2 < fuel)%nat →
  match servers_tick time turns g (members (payload (srvheap (app st))) l2) with
  | Ret (Some (vs, ms, fds)) => ∃ st', servers_loop fuel time turns st (Some x) (first l2 None) = Ret (Some st')
      ∧ walking (app st') ∧ gheap (app st') = gheap (app st) ∧ wcheap (app st') = wcheap (app st)
      ∧ wccp_service_groups (app st') = wccp_service_groups (app st)
      ∧ walked st st' ms fds ∧ members (payload (srvheap (app st'))) l2 = vs
      ∧ ∀ z, z ∉ l2 → payload (srvheap (app st')) !! z = payload (srvheap (app st)) !! z
  | Ret None => servers_loop fuel time turns st (Some x) (first l2 None) = Ret None
  | Undef => servers_loop fuel time turns st (Some x) (first l2 None) = Undef
  | Spin => False
  end.
Proof.
  induction l2 as [|y l2 IH]; intros l1 prv [|fuel] turns st W Hl Hseg Hf; cbn [length] in Hf; try lia.
  { exists st. by split_and!. }
  destruct Hseg as (v & Hy & _ & Hseg). rewrite members_step, payload_lookup, Hy. cbn [fmap option_fmap option_map n_data].
  cbn [servers_tick servers_loop first].
  pose proof (server_tick_refines (turns 0%nat) st y W _ Hy) as T. cbn [n_data] in T. rewrite T. clear T.
  destruct (server_tick time (turns 0%nat) g v) as [[[[v' m1] f1]|]| |] eqn:Et; cbn [mbind outcome_bind]; [|done|done|].
  2:{ unfold server_tick, hello in Et. revert Et. repeat case_match; done. }
  set (s1 := stepped (app st) y _ v' m1). set (st1 := with_sockets st f1 s1).
  assert (W1 : walking s1) by (apply walking_step; [done|done|by eapply server_tick_wire]).
  assert (Hn : NoDup (S x)) by (by destruct (wi_servers _ _ _ _ (wk_inv _ W) _ _ (wk_group _ W)) as [[? _] _]).
  assert (Hy2 : y ∉ l2) by (rewrite Hl in Hn; apply NoDup_app in Hn as (_ & _ & Hn); by apply NoDup_cons in Hn as [? _]).
  assert (Hp : payload (srvheap s1) = <[y := v']> (payload (srvheap (app st)))) by apply payload_insert.
  rewrite (load_Some (srvheap (app st1)) y (Node (first l2 None) prv v')) by apply lookup_insert_eq. cbn [mbind outcome_bind n_next].
  pose proof (IH (l1 ++ [y]) (Some y) fuel (λ j, turns (Datatypes.S j)) st1 W1) as H. rewrite <-app_assoc in H.
  specialize (H Hl). cbn [app st1 with_sockets] in H. rewrite (members_ext _ (payload (srvheap s1)) l2) in H
    by (intros z Hz; rewrite Hp, lookup_insert_ne; [done|congruence]).
  specialize (H ltac:(by apply seg_insert) ltac:(lia)). fold st1 in H.
  destruct (servers_tick time _ g (members (payload (srvheap (app st))) l2)) as [[[[vs m2] f2]|]| |];
    cbn [mbind outcome_bind]; [|done|done|done].
  destruct H as (st' & -> & W' & Hg & Hw & Hh & (Hsent & Hmon & Hc & Hb) & Hm & Ho).
  exists st'. split_and!; [done..| | |].
  - split_and!; [rewrite Hsent; apply (app_assoc m2 m1)|rewrite Hmon; apply (app_assoc f2 f1)|done|done].
  - rewrite members_step, Ho, Hp, lookup_insert_eq, Hm by done. done.
  - intros z [Hz1 Hz2]%not_elem_of_cons. by rewrite Ho, Hp, lookup_insert_ne by congruence.
Qed.
End Walk.

Lemma group_view_ext s s' S C y : gheap s' = gheap s → wcheap s' = wcheap s →
  (∀ z, z ∈ S y → payload (srvheap s') !! z = payload (srvheap s) !! z) → view s' S C y = view s S C y.
Proof. intros Hg Hw H. unfold view. rewrite Hg, Hw. by rewrite (members_ext _ _ _ H). Qed.

Lemma groups_loop_refines time gl S C k : ∀ prv fuel turns st, wccp_inv (app st) gl S C →
  NoDup k → seg (gheap (app st)) (λ _, True) prv k None → (length k < fuel)%nat →
  match tick time turns (views (app st) S C k) with
  | Ret (Some (G, ms, fds)) => ∃ st', groups_loop fuel time turns st (first k None) = Ret (Some st')
      ∧ wccp_inv (app st') gl S C ∧ walked st st' ms fds ∧ views (app st') S C k = G
      ∧ ∀ y, y ∉ k → view (app st') S C y = view (app st) S C y
  | Ret None => groups_loop fuel time turns st (first k None) = Ret None
  | Undef => groups_loop fuel time turns st (first k None) = Undef
  | Spin => False
  end.
Proof.
  induction k as [|x k IH]; intros prv [|fuel] turns st I Hk Hseg Hf; cbn [length] in Hf; try lia.
  { exists st. by split_and!. }
  apply NoDup_cons in Hk as [Hxk Hk]. destruct Hseg as (d & Hx & _ & Hseg).
  assert (Hd : payload (gheap (app st)) !! x = Some d) by (by rewrite payload_lookup, Hx).
  rewrite views_step, (view_spec _ _ _ _ _ Hd). set (g := Group _ _ _ _).
  cbn [tick groups_loop first]. rewrite (load_Some _ _ _ Hx). cbn [mbind outcome_bind n_data].
  assert (W : walking gl S C x d g (app st)) by (by constructor).
  pose proof (wi_servers _ _ _ _ I _ _ Hd) as [Hdll _].
  pose proof (dll_length _ _ _ _ Hdll) as Hlen. destruct Hdll as (_ & E & _ & Hs). rewrite E.
  pose proof (servers_loop_refines time gl S C x d g (S x) [] None (list_fuel (srvheap (app st))) (turns 0%nat) st W
                eq_refl Hs ltac:(unfold list_fuel; lia)) as T.
  cbn [gr_servers g]. fold g.
  destruct (servers_tick time (turns 0%nat) g (members (payload (srvheap (app st))) (S x))) as [[[[vs m1] f1]|]| |];
    cbn [mbind outcome_bind]; [|by rewrite T|by rewrite T|done].
  destruct T as (st1 & -> & W1 & Hg1 & Hw1 & Hh1 & (Hs1 & Hf1 & Hc1 & Hb1) & Hm1 & Ho1). cbn [mbind outcome_bind].
  pose proof (wk_inv _ _ _ _ _ _ _ W1) as I1.
  assert (Hv1 : ∀ y, y ≠ x → view (app st1) S C y = view (app st) S C y).
  { intros y Hy. apply group_view_ext; [done|done|]. intros z Hz. apply Ho1. intros Hz'. apply Hy. by eapply (wi_S _ _ _ _ I). }
  assert (Hx1 : view (app st1) S C x = Some (Group (gr_id g) (gr_change g) vs (gr_webcaches g))).
  { rewrite (view_spec _ _ _ _ d) by (by rewrite Hg1). rewrite Hm1, Hw1. done. }
  rewrite (load_Some (gheap (app st1)) x (Node (first k None) prv d)) by (by rewrite Hg1). cbn [mbind outcome_bind n_next].
  pose proof (IH (Some x) fuel (λ i, turns (Datatypes.S i)) st1 I1 Hk ltac:(by rewrite Hg1) ltac:(lia)) as H.
  assert (Ek : views (app st1) S C k = views (app st) S C k).
  { rewrite <-(list_fmap_id (views (app st) S C k)). apply views_map. intros y Hy. rewrite option_fmap_id. apply Hv1. congruence. }
  rewrite Ek in H. destruct (tick time _ (views (app st) S C k)) as [[[[G m2] f2]|]| |]; cbn [mbind outcome_bind]; [|done..].
  destruct H as (st' & -> & I' & (Hsent & Hmon & Hc & Hb) & HG & Ho). exists st'. split_and!; [done|done| | |].
  - split_and!; [rewrite Hsent, Hs1; apply app_assoc|rewrite Hmon, Hf1; apply app_assoc|congruence|congruence].
  - rewrite views_step, Ho, Hx1, HG by done. done.
  - intros y [Hy1 Hy2]%not_elem_of_cons. rewrite Ho by done. by apply Hv1.
Qed.

Lemma epoller_timeout_ticks env st G : represents (app st) G →
  match tick (wccp_time env) (at_server env) G with
  | Ret (Some (G', ms, fds)) =>
      ∃ st', wccp_epoller_timeout env st = Ret (Some st') ∧ represents (app st') G' ∧ walked st st' ms fds
  | Ret None => wccp_epoller_timeout env st = Ret None
  | Undef => wccp_epoller_timeout env st = Undef
  | Spin => False
  end.
Proof.
  intros (gl & S & C & I & ->). unfold wccp_epoller_timeout.
  pose proof (wi_groups _ _ _ _ I) as [Hd _]. pose proof (dll_length _ _ _ _ Hd). destruct Hd as (Hn & -> & _ & Hs).
  pose proof (groups_loop_refines (wccp_time env) gl S C gl None (list_fuel (gheap (app st))) (at_server env) st I Hn Hs
    ltac:(unfold list_fuel; lia)) as T.
  destruct (tick _ _ (views (app st) S C gl)) as [[[[G' ms] fds]|]| |]; [|done|done|done].
  destruct T as (st' & -> & I' & Hw & HG & _). exists st'. split_and!; [done| |done]. by exists gl, S, C.
Qed.

(** C38: one wake-up of the WCCP timer.  Walking the linked groups and their linked servers is
    the walk over the list of groups: a server is left alone for nine seconds after its last
    turn; its next turn opens a socket to it and registers it with the epoll instance, every
    later one sends it the two messages, which describe all the servers and web caches of its
    group.  Beyond these servers, messages and registered sockets nothing changes.  The
    program ends where the first turn says so: no socket can be made or registered, or the
    host has no address.  A group that no longer fits a message is the one undefined case, and
    the walk always ends. *)
Theorem wccp_timer_refines env st G : represents (app st) G →
  match tick (wccp_time env) (at_server env) G with
  | Ret (Some (G', ms, fds)) =>
      ∃ st', wccp_epoller_timeout env st = Ret (Some st') ∧ represents (app st') G'
        ∧ wsent (app st') = ms ++ wsent (app st) ∧ monitored st' = fds ++ monitored st
        ∧ Epoll.closed st' = Epoll.closed st ∧ buf st' = buf st
  | Ret None => wccp_epoller_timeout env st = Ret None
  | Undef => wccp_epoller_timeout env st = Undef
  | Spin => False
  end.
Proof. apply epoller_timeout_ticks. Qed.

(** The demonstration state represents one group. *)
Definition demo_groups : list group := [Group 61 3 [demo_wccp_server] [demo_wccp_webcache]].

Lemma demo_represents : represents demo_wccp_state demo_groups.
Proof.
  exists [1%positive], (λ x, if decide (x = 1%positive) then [1%positive] else []),
    (λ x, if decide (x = 1%positive) then [1%positive] else []).
  assert (Hsingle : ∀ A (v : A), counted {[1%positive := Node None None v]} (DHead (Some 1%positive) (Some 1%positive) 1) [1%positive]).
  { intros A v. split; [|done]. split_and!; [apply NoDup_singleton|done|done|]. exists v. by rewrite lookup_singleton_eq. }
  assert (Hone : ∀ x d, payload (gheap demo_wccp_state) !! x = Some d → x = 1%positive ∧ d = demo_wccp_group).
  { intros x d. rewrite payload_lookup. cbn [gheap demo_wccp_state].
    destruct (decide (x = 1%positive)) as [->|Hx]; [rewrite lookup_singleton_eq; by intros [= <-]|].
    by rewrite lookup_singleton_ne. }
  split; [|done]. constructor.
  - apply Hsingle.
  - intros x. rewrite list_elem_of_singleton. cbn [gheap demo_wccp_state]. rewrite lookup_singleton_is_Some. naive_solver.
  - intros x d [-> ->]%Hone. apply Hsingle.
  - intros x d [-> ->]%Hone. apply Hsingle.
  - intros x Hx. cbn [gheap demo_wccp_state] in Hx. apply lookup_singleton_None in Hx. by rewrite !decide_False by congruence.
  - intros x y z. by destruct (decide (x = 1%positive)) as [->|], (decide (y = 1%positive)) as [->|]; rewrite ?elem_of_nil.
  - intros x y z. by destruct (decide (x = 1%positive)) as [->|], (decide (y = 1%positive)) as [->|]; rewrite ?elem_of_nil.
  - intros x y d e [-> _]%Hone [-> _]%Hone. done.
  - intros x d [_ ->]%Hone. simpl. lia.
Qed.

(** A second server, 10.0.0.2, without a socket: the first gets its messages, and a socket to
    the second is opened and registered. *)
Definition two_turns : wccp_env :=
  WccpEnv 9 (λ _ j, Turn 10 (Some 67108874) (Some 67108874) (Some (6 + Z.of_nat j)) true true).

Definition demo_two_servers : wccpstate :=
  match cli_wccp_server ["10.0.0.2"%string] (Some 1%positive) 0 (Some 2%positive) demo_wccp_state with
  | Ret (s, _, _) => s
  | _ => demo_wccp_state
  end.

Lemma demo_two_represents :
  represents demo_two_servers [Group 61 3 [demo_wccp_server; WccpServer 33554442 0 0 0] [demo_wccp_webcache]].
Proof.
  destruct (add_server_refines demo_wccp_state demo_groups 1%positive 61 "10.0.0.2" 33554442 0 2%positive)
    as (s' & out & E & R & _); [apply demo_represents|by exists demo_wccp_group|by vm_compute|by vm_compute|].
  unfold demo_two_servers. rewrite E. exact R.
Qed.

Lemma wccp_timer_refines_witness :
  ∃ st', wccp_epoller_timeout two_turns (Epoller [] [] [] demo_two_servers) = Ret (Some st')
  ∧ represents (app st') [Group 61 3 [WccpServer 16777226 7 5 10; WccpServer 33554442 0 7 10] [demo_wccp_webcache]]
  ∧ length (wsent (app st')) = 2%nat ∧ monitored st' = [7].
Proof.
  pose proof (wccp_timer_refines two_turns (Epoller [] [] [] demo_two_servers) _ demo_two_represents) as H.
  destruct (tick (wccp_time two_turns) (at_server two_turns)
    [Group 61 3 [demo_wccp_server; WccpServer 33554442 0 0 0] [demo_wccp_webcache]]) as [[[[G ms] fds]|]| |] eqn:E;
    [|vm_compute in E; discriminate E..].
  destruct H as (st' & H & R & Hs & Hm & _). exists st'. split; [exact H|]. vm_compute in E. injection E as <- <- <-.
  split; [exact R|]. split; [|exact Hm]. rewrite Hs. vm_compute. reflexivity.
Defined.
