(* ===== verification/WccpConfig.v ===== *)
(** * What the WCCP commands and messages do to the groups

    The commands [wccp <n>] and [server <ip>] and the I_SEE_YOU messages, in
    every case, in terms of the list of groups that the state represents. *)
From Stdlib Require Import Decimal DecimalString.
From S2P Require Import Prelude Dll Tokens Cli Epoll Wccp WccpWire WccpGroups WccpHello.
#[local] Open Scope Z_scope.
#[local] Open Scope list_scope.

(** The parameter of [wccp]: one decimal number from 0 to 254, read by the Standard Library's
    parser of decimal numbers; a number that is not an [int] is undefined. *)
Definition group_number (parameters : list string) : outcome (option Z) :=
  match parameters with
  | [p] =>
      match NilEmpty.uint_of_string p with
      | Some d =>
          let n := Z.of_nat (Nat.of_uint d) in
          if 2 ^ 31 <=? n then Undef else Ret (if n <=? 254 then Some n else None)
      | None => Ret None
      end
  | _ => Ret None
  end.

(** [isstringdigits] and [atoi] against that parser. *)
Lemma digit_parsed c d :
  match digit c with
  | Some v => 0 <= v ∧ ∃ d', uint_of_char c (Some d) = Some d'
      ∧ ∀ acc, Z.of_nat (Nat.of_uint_acc d' acc) = Z.of_nat (Nat.of_uint_acc d (10 * acc + Z.to_nat v))
  | None => uint_of_char c (Some d) = None
  end.
Proof.
  destruct c as [[] [] [] [] [] [] [] []];
    match goal with |- context [digit ?c] => let v := eval vm_compute in (digit c) in change (digit c) with v end;
    cbv iota; try reflexivity.
  all: split; [lia|]; eexists; split; [reflexivity|]; intros acc.
  all: cbn [Nat.of_uint_acc]; rewrite Nat.tail_mul_spec; do 2 f_equal; lia.
Qed.

Lemma number_parsed p : ∀ acc,
  match NilEmpty.uint_of_string p with
  | Some d => isstringdigits p = true ∧ digits_value p (Z.of_nat acc) = Z.of_nat (Nat.of_uint_acc d acc)
  | None => isstringdigits p = false
  end.
Proof.
  induction p as [|c p IH]; intros acc; [done|]. cbn [NilEmpty.uint_of_string isstringdigits digits_value].
  unfold isdigit. destruct (NilEmpty.uint_of_string p) as [d|].
  - pose proof (digit_parsed c d) as H. destruct (digit c) as [v|].
    + destruct H as (Hv & d' & -> & Hd). rewrite bool_decide_true by eauto.
      destruct (IH (10 * acc + Z.to_nat v)%nat) as [H1 H2]. split; [done|]. rewrite Hd, <-H2. f_equal. lia.
    + rewrite H. by rewrite bool_decide_false by (by intros [? ?]).
  - assert (E : uint_of_char c None = None) by done. rewrite E. rewrite (IH 0%nat). by destruct (bool_decide _).
Qed.

Lemma group_number_code p : group_number [p] =
  if isstringdigits p then n ← atoi p; Ret (if (0 <=? n) && (n <=? 254) then Some n else None) else Ret None.
Proof.
  cbn [group_number]. pose proof (number_parsed p 0) as H. destruct (NilEmpty.uint_of_string p) as [d|].
  - destruct H as [-> H]. unfold atoi. change (Z.of_nat 0) with 0 in H. rewrite H. unfold Nat.of_uint.
    set (n := Z.of_nat _). assert (0 <= n) by lia.
    destruct (Z.leb_spec (2 ^ 31) n), (Z.ltb_spec n (2 ^ 31)); try lia; [done|]. cbn [mbind outcome_bind].
    by rewrite (proj2 (Z.leb_le 0 n)).
  - by rewrite H.
Qed.

(** The parameter of [server]: one dotted address. *)
Definition server_address (parameters : list string) : option Z :=
  match parameters with [p] => inet_pton p | _ => None end.

Lemma wccp_command s G ps y : represents s G → gheap s !! y = None →
  match group_number ps with
  | Ret (Some n) => ∃ s' x out, cli_enter_wccp_mode ps (Some y) s = Ret (s', CommandResult 0 (Some cli_wccp_mode) (Some x), out)
                    ∧ represents s' (enter_group n G) ∧ points_to_group s' x n
  | Ret None => cli_enter_wccp_mode ps (Some y) s = Ret (s, CommandResult 0 None None, cli_enter_wccp_help)
  | _ => cli_enter_wccp_mode ps (Some y) s = Undef
  end.
Proof.
  intros R Hy. destruct ps as [|p [|q ps]]; [done| |done]. rewrite group_number_code. destruct (isstringdigits p) eqn:Hp.
  2:{ cbn [cli_enter_wccp_mode]. by rewrite Hp. }
  destruct (atoi p) as [n| |] eqn:Hn; cbn [mbind outcome_bind].
  - destruct (Z.leb_spec 0 n), (Z.leb_spec n 254); cbn [andb]; [by apply (enter_group_refines s G y p n)|..];
      cbn [cli_enter_wccp_mode]; rewrite Hp, Hn; cbn [mbind outcome_bind];
      destruct (Z.leb_spec 0 n), (Z.leb_spec n 254); (lia || done).
  - cbn [cli_enter_wccp_mode]. by rewrite Hp, Hn.
  - unfold atoi in Hn. by destruct (_ <? _).
Qed.

Lemma server_command s G ps now z x n : represents s G → srvheap s !! z = None → points_to_group s x n →
  match server_address ps with
  | Some ip => ∃ s' out, cli_wccp_server ps (Some x) now (Some z) s = Ret (s', CommandResult 0 (Some cli_wccp_mode) (Some x), out)
               ∧ represents s' (on_group n (add_server ip now) G) ∧ points_to_group s' x n
  | None => cli_wccp_server ps (Some x) now (Some z) s
            = Ret (s, CommandResult 0 (Some cli_wccp_mode) (Some x), cli_wccp_server_help)
  end.
Proof.
  intros R Hz Hx. destruct ps as [|p [|q ps]]; [done| |done]. cbn [server_address].
  destruct (inet_pton p) as [ip|] eqn:Hip; [by apply (add_server_refines s G x n)|].
  cbn [cli_wccp_server]. by rewrite Hip.
Qed.

(** C35: the configuration commands.  [wccp <n>] enters the mode of group [n], created unless it
    is there; [server <ip>] in the mode of a group adds the server at the end of that group
    unless it is there, touches no other group, and stays in the mode.  Any other parameters
    change nothing: [wccp] then stays outside the mode, [server] stays in it.  Without a group
    [server] leaves the mode. *)
Theorem wccp_configuration s G ps now y z : represents s G → gheap s !! y = None → srvheap s !! z = None →
  match group_number ps with
  | Ret (Some n) => ∃ s' x out, cli_enter_wccp_mode ps (Some y) s = Ret (s', CommandResult 0 (Some cli_wccp_mode) (Some x), out)
                    ∧ represents s' (enter_group n G) ∧ points_to_group s' x n
  | Ret None => cli_enter_wccp_mode ps (Some y) s = Ret (s, CommandResult 0 None None, cli_enter_wccp_help)
  | _ => cli_enter_wccp_mode ps (Some y) s = Undef
  end ∧
  (∀ x n, points_to_group s x n →
   match server_address ps with
   | Some ip => ∃ s' out, cli_wccp_server ps (Some x) now (Some z) s = Ret (s', CommandResult 0 (Some cli_wccp_mode) (Some x), out)
                ∧ represents s' (on_group n (add_server ip now) G) ∧ points_to_group s' x n
   | None => cli_wccp_server ps (Some x) now (Some z) s
             = Ret (s, CommandResult 0 (Some cli_wccp_mode) (Some x), cli_wccp_server_help)
   end) ∧
  cli_wccp_server ps None now (Some z) s = Ret (s, CommandResult 0 None None, []).
Proof.
  intros R Hy Hz. split_and!; [by apply wccp_command| |done]. intros x n. by apply server_command.
Qed.

(** The demonstration: group 61 exists, its server 10.0.0.1 too; group 7 and 10.0.0.2 do not. *)
Definition demo_pointer : loc := 1%positive.

Lemma wccp_configuration_witness :
  (∃ s' x out, cli_enter_wccp_mode ["7"%string] (Some 2%positive) demo_wccp_state
     = Ret (s', CommandResult 0 (Some cli_wccp_mode) (Some x), out)
   ∧ represents s' (demo_groups ++ [Group 7 0 [] []]) ∧ points_to_group s' x 7) ∧
  (∃ s' out, cli_wccp_server ["10.0.0.2"%string] (Some demo_pointer) 100 (Some 2%positive) demo_wccp_state
     = Ret (s', CommandResult 0 (Some cli_wccp_mode) (Some demo_pointer), out)
   ∧ represents s' [Group 61 3 [demo_wccp_server; WccpServer 33554442 0 0 100] [demo_wccp_webcache]]
   ∧ points_to_group s' demo_pointer 61).
Proof.
  split.
  - exact (proj1 (wccp_configuration demo_wccp_state demo_groups ["7"%string] 0 2%positive 2%positive
             demo_represents eq_refl eq_refl)).
  - refine (proj1 (proj2 (wccp_configuration demo_wccp_state demo_groups ["10.0.0.2"%string] 100 2%positive 2%positive
             demo_represents eq_refl eq_refl)) demo_pointer 61 _).
    exists demo_wccp_group. by split.
Defined.

(** C36: a message from a server.  Whatever bytes are received, the handler does to the linked
    groups what [see_you] does to the list of groups: a message of another type, from an
    unknown server, or when there is no group 0, changes nothing; otherwise the server's
    router id is taken over, and if the change number differs it is taken over too and the
    first web cache listed joins the group.  A length or count that points past the buffer
    is followed there. *)
Theorem wccp_handler_refines s G m a z : represents s G → bytes m → a 0%nat = Some z → wcheap s !! z = None →
  match see_you m G with
  | Ret G' => ∃ s', wccp_handler s m a = Ret s' ∧ represents s' G'
  | Undef => wccp_handler s m a = Undef
  | Spin => wccp_handler s m a = Spin
  end.
Proof. intros R Hm Ha Hz. exact (handler_refines s G m a z R Hm Ha Hz). Qed.

(** An I_SEE_YOU message: security, service [id], the router id component with [ip] and [rid],
    and a view with change number [cn], no routers and the web caches [ws] (44 bytes each),
    their number said to be [k]. *)
Definition see_you_message (id : Z) (ip rid cn k : Z) (ws : list Z) : buffer :=
  message WCCP2_I_SEE_YOU
    (component WCCP2_SECURITY_INFO (be32 0) ++ component WCCP2_SERVICE_INFO ([1; id; 0; 0] ++ zeros 20)
     ++ component WCCP2_ROUTER_ID_INFO (le32 ip ++ be32 rid ++ zeros 8)
     ++ component 4 (be32 cn ++ zeros 8 ++ be32 0 ++ be32 k ++ concat ((λ w, le32 w ++ zeros 40) <$> ws))).

Definition group_0 : list group := [Group 0 3 [demo_wccp_server] []].

(** The group named in the message plays no part; of two web caches one is added. *)
Example see_you_adds_first :
  see_you (see_you_message 61 16777226 9 4 2 [11; 12]) group_0
  = Ret [Group 0 4 [WccpServer 16777226 9 5 0] [WccpWebcache 11]].
Proof. vm_compute. reflexivity. Qed.

(** Two web caches announced, one sent: the second is read behind the message. *)
Example see_you_count_unchecked : see_you (see_you_message 0 16777226 9 4 2 [11]) group_0 = Undef.
Proof. vm_compute. reflexivity. Qed.

(** Without a group 0 no message has an effect. *)
Lemma see_you_needs_group_0 m G : has_group 0 G = false → see_you m G = Ret G ∨ see_you m G = Undef.
Proof.
  intros H. assert (F : find_group 0 G = None).
  { unfold find_group. destruct (List.find _ G) as [g|] eqn:E; [|done]. apply find_some in E.
    unfold has_group in H. rewrite (proj2 (existsb_exists _ _)) in H by eauto. done. }
  unfold see_you. destruct (ld32 m 0) as [t| |] eqn:E0; cbn [mbind outcome_bind]; [|by right|by destruct (ld32_not_Spin m 0)].
  destruct (negb _); [by left|].
  destruct (ld16 m 10) as [l| |] eqn:E1; cbn [mbind outcome_bind]; [|by right|by destruct (ld16_not_Spin m 10)].
  destruct (ld32 m 12) as [v| |] eqn:E2; cbn [mbind outcome_bind]; [|by right|by destruct (ld32_not_Spin m 12)].
  destruct (rd m _) as [i| |] eqn:E3; cbn [mbind outcome_bind]; [|by right|by destruct (rd_not_Spin m _ E3)].
  rewrite F. by left.
Qed.

(** * What the threads do to the state

    The CLI clients give the two commands; the WCCP thread handles messages and, in its
    wake-ups, gives the servers their turns.  A mode's data pointer is one that [wccp]
    returned; groups and servers are never freed.  The code takes no lock: that the accesses
    of two moves do not mix is an assumption here, and [racing_groups_duplicate] shows that
    the program needs it. *)
Inductive wccp_step : epoller wccpstate → epoller wccpstate → Prop :=
  | step_wccp ps y st s' r out : gheap (app st) !! y = None →
      cli_enter_wccp_mode ps (Some y) (app st) = Ret (s', r, out) → wccp_step st (set_app st s')
  | step_server ps x now z st s' r out : is_Some (gheap (app st) !! x) → srvheap (app st) !! z = None →
      cli_wccp_server ps (Some x) now (Some z) (app st) = Ret (s', r, out) → wccp_step st (set_app st s')
  | step_message m a z st s' : bytes m → a 0%nat = Some z → wcheap (app st) !! z = None →
      wccp_handler (app st) m a = Ret s' → wccp_step st (set_app st s')
  | step_turn time t st x y st' : is_Some (gheap (app st) !! x) →
      server_turn time t st (Some x) (Some y) = Ret (Some st') → wccp_step st st'.

(** A group: its number fits the command's range, no server and no web cache is there twice. *)
Definition group_ok (g : group) : Prop :=
  0 <= gr_id g <= 254 ∧ NoDup (ipaddress <$> gr_servers g) ∧ NoDup (wc_ipaddress <$> gr_webcaches g).
Definition groups_ok (G : list group) : Prop := NoDup (gr_id <$> G) ∧ Forall group_ok G.

Lemma existsb_not_in {A} (f : A → Z) n l : existsb (λ v, f v =? n) l = false → n ∉ f <$> l.
Proof.
  intros H (v & -> & Hv)%list_elem_of_fmap. assert (existsb (λ w, f w =? f v) l = true); [|congruence].
  apply existsb_exists. exists v. split; [by apply list_elem_of_In|]. apply Z.eqb_refl.
Qed.

Lemma NoDup_snoc {A} (l : list A) x : NoDup l → x ∉ l → NoDup (l ++ [x]).
Proof. intros Hl Hx. apply NoDup_app. split_and!; [done|set_solver|apply NoDup_singleton]. Qed.

Lemma on_group_ok n f G : (∀ g, gr_id (f g) = gr_id g) → (∀ g, group_ok g → group_ok (f g)) →
  groups_ok G → groups_ok (on_group n f G).
Proof.
  intros Hid Hf [Hn Hok]. split.
  - assert (E : gr_id <$> on_group n f G = gr_id <$> G); [|by rewrite E].
    unfold on_group. rewrite <-list_fmap_compose. apply list_fmap_ext. intros _ g _. simpl. by destruct (_ =? _).
  - apply Forall_fmap. eapply Forall_impl; [exact Hok|]. intros g Hg. simpl. destruct (_ =? _); auto.
Qed.

Lemma enter_group_ok n G : 0 <= n <= 254 → groups_ok G → groups_ok (enter_group n G).
Proof.
  intros Hn [Hd Hok]. unfold enter_group. destruct (has_group n G) eqn:E; [done|]. split.
  - rewrite fmap_app. apply NoDup_snoc; [done|]. by apply existsb_not_in.
  - apply Forall_app. split; [done|]. constructor; [|done]. split_and!; simpl; [lia..|constructor|constructor].
Qed.

Lemma add_server_ok ip now g : group_ok g → group_ok (add_server ip now g).
Proof.
  intros (Hi & Hs & Hw). unfold add_server. destruct (existsb _ _) eqn:E; [done|]. split_and!; simpl; [lia..| |done].
  rewrite fmap_app. apply NoDup_snoc; [done|]. by apply existsb_not_in.
Qed.

Lemma add_webcache_ok ip g : group_ok g → group_ok (add_webcache ip g).
Proof.
  intros (Hi & Hs & Hw). unfold add_webcache. destruct (existsb _ _) eqn:E; [done|]. split_and!; simpl; [lia..|done|].
  rewrite fmap_app. apply NoDup_snoc; [done|]. by apply existsb_not_in.
Qed.

Lemma learn_id_ok ip id g : group_ok g → group_ok (learn_id ip id g).
Proof.
  intros (Hi & Hs & Hw). split_and!; simpl; [lia..| |done].
  assert (E : ipaddress <$> update_first (λ v, ipaddress v =? ip) (λ v, set_router_id v id) (gr_servers g)
              = ipaddress <$> gr_servers g); [|by rewrite E].
  clear. induction (gr_servers g) as [|v vs IH]; [done|]. cbn [update_first].
  destruct (ipaddress v =? ip); [done|]. cbn [fmap list_fmap]. f_equal. exact IH.
Qed.

Lemma router_view_ok m o n c G G' : groups_ok G → router_view m o n c G = Ret G' → groups_ok G'.
Proof.
  intros HG. unfold router_view. intros (cn & _ & H)%bind_Ret. destruct (ntohl cn =? c); [by injection H as <-|].
  assert (H1 : groups_ok (on_group n (set_change (ntohl cn)) G)) by (by apply on_group_ok).
  apply bind_Ret in H as (r & _ & (k & _ & H)%bind_Ret). destruct (0 <? ntohl k); [|by injection H as <-].
  apply bind_Ret in H as (ip & _ & (u & _ & H)%bind_Ret). injection H as <-.
  apply on_group_ok; [|by apply add_webcache_ok|done]. intros g. unfold add_webcache. by destruct (existsb _ _).
Qed.

Lemma see_you_ok m G G' : groups_ok G → see_you m G = Ret G' → groups_ok G'.
Proof.
  intros HG. unfold see_you. intros (t & _ & H)%bind_Ret. destruct (negb _); [by injection H as <-|].
  apply bind_Ret in H as (l & _ & (v & _ & (i & _ & H)%bind_Ret)%bind_Ret).
  destruct (find_group 0 G) as [g|]; [|by injection H as <-].
  apply bind_Ret in H as (l2 & _ & (ip & _ & H)%bind_Ret). destruct (existsb _ _); [|by injection H as <-].
  apply bind_Ret in H as (id & _ & (l3 & _ & H)%bind_Ret). eapply router_view_ok; [|exact H].
  apply on_group_ok; [done|by apply learn_id_ok|done].
Qed.

Lemma group_number_range ps n : group_number ps = Ret (Some n) → 0 <= n <= 254.
Proof.
  destruct ps as [|p [|q ps]]; [done| |done]. cbn [group_number]. destruct (NilEmpty.uint_of_string p) as [d|]; [|done].
  destruct (_ <=? _); [done|]. destruct (Z.leb_spec (Z.of_nat (Nat.of_uint d)) 254); [|done]. intros [= <-]. lia.
Qed.

(** A turn of any server keeps the structure, the numbers and the addresses. *)
Lemma same_addresses s s' S C gl :
  (∀ x, x ∈ gl → match view s S C x, view s' S C x with
     | Some g, Some g' => gr_id g' = gr_id g ∧ wire_id <$> gr_servers g' = wire_id <$> gr_servers g
                          ∧ gr_webcaches g' = gr_webcaches g
     | None, None => True
     | _, _ => False
     end) →
  groups_ok (views s S C gl) → groups_ok (views s' S C gl).
Proof.
  intros H [Hd Hok].
  assert (E : gr_id <$> views s' S C gl = gr_id <$> views s S C gl
              ∧ Forall group_ok (views s' S C gl)); [|by split; [rewrite (proj1 E)|apply E]].
  clear Hd. induction gl as [|x gl IH]; [done|]. rewrite !views_step in *.
  specialize (H x (list_elem_of_here x gl)) as Hx. assert (H' := λ y Hy, H y (list_elem_of_further y x gl Hy)).
  destruct (view s S C x) as [g|], (view s' S C x) as [g'|]; [|done|done|by apply IH].
  apply Forall_cons in Hok as [(Hi & Hs & Hw) Hok]. destruct (IH H' Hok) as [IH1 IH2]. destruct Hx as (E1 & E2 & E3).
  split; [cbn [fmap list_fmap]; by rewrite E1, IH1|]. constructor; [|done]. split_and!; [lia|lia| |by rewrite E3].
  assert (Ea : ∀ vs : list wccp_server, ipaddress <$> vs = fst <$> (wire_id <$> vs))
    by (intros vs; rewrite <-list_fmap_compose; by apply list_fmap_ext).
  by rewrite Ea, E2, <-Ea.
Qed.

Lemma server_turn_ok time t st x y st' G : represents (app st) G → groups_ok G → is_Some (gheap (app st) !! x) →
  server_turn time t st (Some x) (Some y) = Ret (Some st') → ∃ G', represents (app st') G' ∧ groups_ok G'.
Proof.
  intros (gl & S & C & I & ->) HG [nd Hx] H.
  destruct (srvheap (app st) !! y) as [n|] eqn:Hy;
    [|unfold server_turn, load, deref in H; by rewrite Hy in H].
  set (d := n_data nd). assert (Hd : payload (gheap (app st)) !! x = Some d) by (by rewrite payload_lookup, Hx).
  set (g := Group (group_id d) (change_number d) (members (payload (srvheap (app st))) (S x))
              (members (payload (wcheap (app st))) (C x))).
  assert (W : walking gl S C x d g (app st)) by (by constructor).
  rewrite (server_tick_refines time gl S C x d g t st y W n Hy) in H.
  destruct (server_tick time t g (n_data n)) as [[[[v ms] fds]|]| |] eqn:Et; [|done..].
  injection H as <-. cbn [app with_sockets]. pose proof (server_tick_wire _ _ _ _ _ _ _ Et) as Ev.
  pose proof (walking_step gl S C x d g (app st) y n v ms W Hy Ev) as W'.
  exists (views (stepped (app st) y n v ms) S C gl). split; [by exists gl, S, C; split; [apply (wk_inv _ _ _ _ _ _ _ W')|]|].
  eapply same_addresses, HG. intros z _. unfold view. cbn [gheap wcheap srvheap stepped].
  destruct (payload (gheap (app st)) !! z) as [e|]; [|done]. cbn -[members]. split_and!; [done| |done].
  rewrite payload_insert. cbn [n_data]. apply (members_wire _ _ _ (n_data n)); [by rewrite payload_lookup, Hy|done].
Qed.

Lemma represents_init : represents initialize_wccp_service_groups [].
Proof.
  exists [], (λ _, []), (λ _, []). split; [|done].
  constructor; simpl; try (intros; by rewrite ?lookup_empty in * || set_solver).
  - split; [by apply dll_nil|done].
  - intros x. rewrite elem_of_nil, lookup_empty. split; [done|by intros []].
Qed.

Lemma wccp_step_ok st st' G : represents (app st) G → groups_ok G → wccp_step st st' →
  ∃ G', represents (app st') G' ∧ groups_ok G'.
Proof.
  intros R HG H. destruct H as [ps y st s' r out Hy H | ps x now z st s' r out [nd Hx] Hz H | m a z st s' Hm Ha Hz H
    | time t st x y st' Hx H]; cbn [app set_app].
  - pose proof (wccp_command (app st) G ps y R Hy) as C. destruct (group_number ps) as [[n|]| |] eqn:En; [| |congruence..].
    + destruct C as (s1 & x & o & E & R' & _). rewrite E in H. injection H as <- _ _. eexists. split; [exact R'|].
      apply enter_group_ok; [by eapply group_number_range|done].
    + rewrite C in H. injection H as <- _ _. eauto.
  - assert (P : points_to_group (app st) x (group_id (n_data nd))) by (exists (n_data nd); by rewrite payload_lookup, Hx).
    pose proof (server_command (app st) G ps now z x _ R Hz P) as C. destruct (server_address ps) as [ip|].
    + destruct C as (s1 & o & E & R' & _). rewrite E in H. injection H as <- _ _. eexists. split; [exact R'|].
      apply on_group_ok; [|by apply add_server_ok|done]. intros g. unfold add_server. by destruct (existsb _ _).
    + rewrite C in H. injection H as <- _ _. eauto.
  - pose proof (handler_refines (app st) G m a z R Hm Ha Hz) as C. unfold agrees in C.
    destruct (see_you m G) as [G'| |] eqn:E; [|congruence..]. destruct C as (s1 & E' & R').
    rewrite E' in H. injection H as <-. eexists. split; [exact R'|]. by eapply see_you_ok.
  - by eapply server_turn_ok.
Qed.

(** A wake-up of the timer is such turns, one after the other. *)
Lemma servers_loop_turns time fuel : ∀ turns st x q st', is_Some (gheap (app st) !! x) →
  servers_loop fuel time turns st (Some x) q = Ret (Some st') → rtc wccp_step st st'.
Proof.
  induction fuel as [|fuel IH]; intros turns st x [y|] st' Hx H; cbn [servers_loop] in H; try (by injection H as <-); [done|].
  apply bind_Ret in H as ([st1|] & H1 & H); [|done]. apply bind_Ret in H as (v & _ & H).
  eapply rtc_l; [by eapply step_turn|]. eapply IH; [|exact H].
  clear -Hx H1. revert H1. generalize (turns 0%nat). intros t H1. unfold server_turn in H1. apply bind_Ret in H1 as (w & _ & H1).
  destruct (9 <=? _); [|by injection H1 as <-]. apply bind_Ret in H1 as (h & _ & H1).
  unfold wccp_process_server in H1. apply bind_Ret in H1 as (v1 & _ & H1). destruct (_ =? 0).
  - destruct (new_udp_client t) as [c|]; [|done]. destruct (0 <=? c); [|by injection H1 as <-].
    apply bind_Ret in H1 as (h2 & _ & H1). injection H1 as H1. unfold register_socket in H1.
    revert H1. repeat case_match; try done. by intros [= <-].
  - apply bind_Ret in H1 as (g & _ & H1). destruct (here_ip t); [|done].
    apply bind_Ret in H1 as (s1 & E1 & H1). destruct (assign_ip t); [|done].
    apply bind_Ret in H1 as (s2 & E2 & H1). injection H1 as <-.
    assert (Hs : ∀ s d v ip ty s', wccp_send_message s d v ip ty = Ret s' → gheap s' = gheap s).
    { intros s d v2 ip ty s'. unfold wccp_send_message. intros ([b|] & _ & E)%bind_Ret; [|by injection E as <-].
      apply bind_Ret in E as (l & _ & E). destruct (in_object _ _ _); [|done]. by injection E as <-. }
    cbn [app set_app]. rewrite (Hs _ _ _ _ _ _ E2), (Hs _ _ _ _ _ _ E1). done.
Qed.

(** C37: the commands of the clients, the messages and the servers' turns in any order.  The source
    takes no lock: each of them is one step here, and what happens when two overlap is outside this statement
    ([racing_groups_duplicate] is one such case).  In every state reached from start-up the linked structure is a list of groups: each
    head counts its list, lists are disjoint, every group number is between 0 and 254 and
    occurs once, and no group has a server or a web cache twice. *)
Theorem wccp_moves_wellformed st st' : app st = initialize_wccp_service_groups → rtc wccp_step st st' →
  ∃ G, represents (app st') G ∧ groups_ok G.
Proof.
  intros E Hs. assert (H : ∃ G, represents (app st) G ∧ groups_ok G).
  { exists []. rewrite E. split; [apply represents_init|by split; constructor]. }
  clear E. revert H. induction Hs as [st|st st1 st2 H1 Hs IH]; [done|]. intros (G & R & HG).
  apply IH. by eapply wccp_step_ok.
Qed.

Lemma wccp_moves_wellformed_witness :
  ∃ st' G, represents (app st') G ∧ groups_ok G ∧ h_len (wccp_service_groups (app st')) = 1 ∧ monitored st' = [5].
Proof.
  set (st := Epoller [] [] [] initialize_wccp_service_groups).
  destruct (cli_enter_wccp_mode ["61"%string] (Some 1%positive) (app st)) as [[[s1 r1] o1]| |] eqn:E1;
    [|vm_compute in E1; discriminate E1..].
  destruct (cli_wccp_server ["10.0.0.1"%string] (Some 1%positive) 0 (Some 1%positive) s1) as [[[s2 r2] o2]| |] eqn:E2;
    [|vm_compute in E1; injection E1 as <- <- <-; vm_compute in E2; discriminate E2..].
  destruct (server_turn 9 (Turn 9 None None (Some 5) true true) (set_app (set_app st s1) s2) (Some 1%positive) (Some 1%positive))
    as [[st'|]| |] eqn:E3;
    [|vm_compute in E1; injection E1 as <- <- <-; vm_compute in E2; injection E2 as <- <- <-; vm_compute in E3; discriminate E3..].
  assert (H1 : is_Some (gheap s1 !! 1%positive) ∧ srvheap s1 !! 1%positive = None).
  { vm_compute in E1. injection E1 as <- _ _. split; [by eexists|reflexivity]. }
  assert (H2 : is_Some (gheap s2 !! 1%positive)).
  { vm_compute in E1. injection E1 as <- _ _. vm_compute in E2. injection E2 as <- _ _. by eexists. }
  exists st'. destruct (wccp_moves_wellformed st st' eq_refl) as (G & R & HG).
  - eapply rtc_l; [eapply step_wccp; [|exact E1]; reflexivity|].
    eapply rtc_l; [eapply step_server; [apply H1|apply H1|exact E2]|].
    eapply rtc_l; [eapply step_turn; [exact H2|exact E3]|apply rtc_refl].
  - exists G. split; [exact R|]. split; [exact HG|].
    vm_compute in E1. injection E1 as <- _ _. vm_compute in E2. injection E2 as <- _ _.
    vm_compute in E3. injection E3 as <-. split; reflexivity.
Defined.

(** Two clients give [wccp <n>] and both searches find nothing before either group is linked,
    which no lock prevents: the number is there twice. *)
Theorem racing_groups_duplicate s G n x y : represents s G → has_group n G = false → 0 <= n <= 254 →
  gheap s !! x = None → gheap s !! y = None → x ≠ y →
  ∃ s1 s2 r1 r2 o1 o2, new_service_group n (Some x) s = Ret (s1, r1, o1) ∧ new_service_group n (Some y) s1 = Ret (s2, r2, o2)
    ∧ points_to_group s2 x n ∧ points_to_group s2 y n ∧ ∀ G', ¬ represents s2 G'.
Proof.
  intros (gl & S & C & I & ->) Hh Hn Hx Hy Hxy.
  assert (Hf : ∀ z d, payload (gheap s) !! z = Some d → group_id d ≠ n).
  { destruct (find_group_spec s gl S C n I) as ([z|] & _ & F); [|by destruct F].
    destruct F as (d & _ & _ & F). congruence. }
  unfold new_service_group. destruct (create_group s gl S C x n I Hx) as (h & hd & -> & Hpx & I' & _); [lia|done|].
  cbn [mbind outcome_bind gheap wccp_service_groups].
  assert (Hy' : h !! y = None).
  { destruct (h !! y) as [nd|] eqn:E; [|done]. exfalso.
    assert (Hin : y ∈ gl ++ [x]) by (apply (wi_listed _ _ _ _ I'); cbn [gheap]; rewrite E; by eexists).
    apply elem_of_app in Hin as [Hin|Hin%list_elem_of_singleton]; [|congruence].
    apply (wi_listed _ _ _ _ I) in Hin. rewrite Hy in Hin. by destruct Hin. }
  destruct (append_member _ _ _ y (allocate_wccp_service_group n) (wi_groups _ _ _ _ I') Hy') as (h2 & hd2 & E2 & _ & Hp & _).
  cbn [mbind outcome_bind gheap wccp_service_groups] in *.
  assert (Px : payload h2 !! x = Some (allocate_wccp_service_group n)) by (rewrite Hp, lookup_insert_ne; [done|congruence]).
  assert (Py : payload h2 !! y = Some (allocate_wccp_service_group n)) by (rewrite Hp; apply lookup_insert_eq).
  eexists _, _, _, _, _, _. split; [done|].
  split; [cbn [gheap wccp_service_groups]; rewrite E2; cbn [mbind outcome_bind]; done|]. split_and!.
  - eexists. split; [exact Px|done].
  - eexists. split; [exact Py|done].
  - intros G' (gl2 & S2 & C2 & I2 & _). apply Hxy. by eapply (wi_ids _ _ _ _ I2).
Qed.

Lemma racing_groups_duplicate_witness :
  ∃ s1 s2 r1 r2 o1 o2, new_service_group 7 (Some 2%positive) demo_wccp_state = Ret (s1, r1, o1)
    ∧ new_service_group 7 (Some 3%positive) s1 = Ret (s2, r2, o2)
    ∧ points_to_group s2 2%positive 7 ∧ points_to_group s2 3%positive 7 ∧ ∀ G', ¬ represents s2 G'.
Proof. by apply (racing_groups_duplicate demo_wccp_state demo_groups 7 2%positive 3%positive demo_represents). Defined.

Lemma wccp_handler_refines_witness :
  ∃ s', wccp_handler demo_wccp_state (see_you_message 61 16777226 9 4 1 [11]) (λ _, Some 2%positive) = Ret s'
  ∧ represents s' demo_groups.
Proof.
  refine (wccp_handler_refines demo_wccp_state demo_groups (see_you_message 61 16777226 9 4 1 [11])
            (λ _, Some 2%positive) 2%positive demo_represents _ eq_refl eq_refl).
  apply (bool_decide_eq_true_1 (Forall (λ v, 0 <= v ∧ v < 256) _)). vm_compute. reflexivity.
Defined.
