(* ===== verification/WccpConsole.v ===== *)
(** * Configuring WCCP from the command line

    The WCCP commands behind the command line interface: the mode and its data
    pointer travel from one line of a session to the next. *)
From S2P Require Import Prelude Dll Tokens Cli CliMenus CliConsole Wccp WccpWire WccpGroups WccpHello WccpConfig.
#[local] Open Scope Z_scope.
#[local] Open Scope list_scope.

Section Daemon.
(** The allocator, the time, and the commands of the other components. *)
Context (malloc_group malloc_server : wccpstate → loc) (now : Z).
Context (others : t_commandfunction → list string → option loc → wccpstate →
                  outcome (wccpstate * commandresult * list string)).
Hypothesis malloc_group_fresh : ∀ w, gheap w !! malloc_group w = None.
Hypothesis malloc_server_fresh : ∀ w, srvheap w !! malloc_server w = None.

Definition wccp_run (f : t_commandfunction) (ps : list string) (data : option loc) (w : wccpstate)
    : outcome (wccpstate * commandresult * list string) :=
  match f with
  | Cli.cli_enter_wccp_mode => Wccp.cli_enter_wccp_mode ps (Some (malloc_group w)) w
  | Cli.cli_wccp_server => Wccp.cli_wccp_server ps data now (Some (malloc_server w)) w
  | Cli.cli_wccp_password => Wccp.cli_wccp_password w
  | Cli.cli_exit_wccp_mode => Wccp.cli_exit_wccp_mode w
  | _ => others f ps data w
  end.

Variables (s : clistate) (gs : list registration).
Hypothesis Hs : registered s gs.
Hypothesis Hgs : gs ≡ₚ program_commands.

(** A line of a program command, in its mode. *)
Lemma command_line g ps m data w : g ∈ program_commands → forallb is_word ps = true → default globalmode m = g_mode g →
  execute_commands wccp_run s m data (join_words (g_words g ++ ps)) w
  = ('(w, result, out) ← wccp_run (g_handler g) (if g_params g then ps else []) data w;
     Ret (w, result, out ++ (if finished result =? 1 then [] else [cli_mode_prompt (r_mode result)]))).
Proof.
  intros Hg Hps Hm. eapply registered_command_runs; [exact Hs| | |by rewrite Hgs|done|done].
  - by apply (forallb_perm _ program_commands).
  - apply (no_conflict_perm program_commands); [done|apply program_no_conflict].
Qed.

Lemma wccp_registered : Reg globalmode ["wccp"] Cli.cli_enter_wccp_mode true true ∈ program_commands.
Proof. unfold program_commands. by repeat (apply list_elem_of_here || apply list_elem_of_further). Qed.
Lemma server_registered : Reg cli_wccp_mode ["server"] Cli.cli_wccp_server true false ∈ program_commands.
Proof. unfold program_commands. by repeat (apply list_elem_of_here || apply list_elem_of_further). Qed.

(** The line [wccp <p>] of a group number. *)
Lemma wccp_line w G p n : represents w G → is_word p = true →
  group_number [p] = Ret (Some n) → ∀ data,
  ∃ w' x out, execute_commands wccp_run s None data (join_words ["wccp"; p]) w
    = Ret (w', CommandResult 0 (Some cli_wccp_mode) (Some x), out)
    ∧ represents w' (enter_group n G) ∧ points_to_group w' x n.
Proof.
  intros R Hp Hn data. pose proof (wccp_command w G [p] (malloc_group w) R (malloc_group_fresh w)) as C.
  rewrite Hn in C. destruct C as (w' & x & out & E & R' & P).
  pose proof (command_line _ [p] None data w wccp_registered ltac:(simpl; by rewrite Hp) eq_refl) as L.
  change (join_words ["wccp"; p]) with (join_words (["wccp"] ++ [p])). cbn [g_words g_handler g_params wccp_run] in L.
  rewrite L, E. cbn [mbind outcome_bind]. eauto 10.
Qed.

Lemma server_line w G x n q ip : represents w G → points_to_group w x n → is_word q = true → server_address [q] = Some ip →
  ∃ w' out, execute_commands wccp_run s (Some cli_wccp_mode) (Some x) (join_words ["server"; q]) w
    = Ret (w', CommandResult 0 (Some cli_wccp_mode) (Some x), out)
    ∧ represents w' (on_group n (add_server ip now) G).
Proof.
  intros R P Hq Hip. pose proof (server_command w G [q] now (malloc_server w) x n R (malloc_server_fresh w) P) as C.
  rewrite Hip in C. destruct C as (w' & out & E & R' & _).
  pose proof (command_line _ [q] (Some cli_wccp_mode) (Some x) w server_registered ltac:(simpl; by rewrite Hq) eq_refl) as L.
  change (join_words ["server"; q]) with (join_words (["server"] ++ [q])). cbn [g_words g_handler g_params wccp_run] in L.
  rewrite L, E. cbn [mbind outcome_bind]. eauto 10.
Qed.

Lemma server_line_lost w q : is_word q = true →
  execute_commands wccp_run s (Some cli_wccp_mode) None (join_words ["server"; q]) w
  = Ret (w, CommandResult 0 None None, [prompt globalmode]).
Proof.
  intros Hq. pose proof (command_line _ [q] (Some cli_wccp_mode) None w server_registered ltac:(simpl; by rewrite Hq) eq_refl) as L.
  change (join_words ["server"; q]) with (join_words (["server"] ++ [q])). cbn [g_words g_handler g_params wccp_run] in L.
  by rewrite L.
Qed.

(** An empty line, or one that asks for help: the mode stays, its data does not. *)
Definition idle_line (line : string) : bool :=
  match tokens line with [] => true | t :: _ => is_help t end.

Lemma idle_line_result m data line w : idle_line line = true →
  ∃ out, execute_commands wccp_run s m data line w = Ret (w, CommandResult 0 m None, out).
Proof.
  intros Hi. destruct (registered_represents s gs Hs) as (hs & _ & Hrep).
  { by apply (forallb_perm _ program_commands). }
  rewrite (execute_commands_spec wccp_run s _ m data line w Hrep). unfold console_line, idle_line in *.
  destruct (menus_of hs (default globalmode m) []); [by eexists|].
  destruct (tokens line) as [|t ts]; cbn [dispatch perform]; [by eexists|]. rewrite Hi. by eexists.
Qed.

(** Configuring a server in one session.  After [wccp <n>] the line [server <ip>] adds the
    server to group [n], created if need be.  With an empty line or a request for help in
    between, the session is still shown the prompt of the group, but the server is not added
    and the next prompt is the global one. *)
Theorem wccp_session w G m1 m0 m2 p n q ip :
  represents w G → is_word p = true → is_word q = true →
  group_number [p] = Ret (Some n) → server_address [q] = Some ip →
  message_line m1 = join_words ["wccp"; p] → message_line m2 = join_words ["server"; q] →
  idle_line (message_line m0) = true →
  (∃ w' out, client_handler wccp_run s [m1; m2] w = Ret (w', out)
     ∧ represents w' (on_group n (add_server ip now) (enter_group n G))) ∧
  (∃ w' out, client_handler wccp_run s [m1; m0; m2] w = Ret (w', out) ∧ represents w' (enter_group n G)
     ∧ last out = Some (prompt globalmode)).
Proof.
  intros R Hp Hq Hn Hip H1 H2 H0. unfold client_handler. cbn [client_loop]. rewrite H1, H2.
  destruct (wccp_line w G p n R Hp Hn None) as (w1 & x & o1 & -> & R1 & P1). cbn [mbind outcome_bind finished r_mode r_data].
  change (0 =? 0) with true. cbv iota. split.
  - destruct (server_line w1 _ x n q ip R1 P1 Hq Hip) as (w2 & o2 & -> & R2). cbn [mbind outcome_bind finished].
    change (0 =? 0) with true. cbv iota. cbn [mbind outcome_bind]. eauto.
  - destruct (idle_line_result (Some cli_wccp_mode) (Some x) (message_line m0) w1 H0) as (o0 & ->).
    cbn [mbind outcome_bind finished r_mode r_data]. change (0 =? 0) with true. cbv iota.
    rewrite server_line_lost by done. cbn [mbind outcome_bind finished r_mode r_data]. change (0 =? 0) with true. cbv iota.
    cbn [mbind outcome_bind]. eexists _, _. split; [done|]. split; [done|].
    rewrite app_nil_r, app_comm_cons, !app_assoc. apply last_snoc.
Qed.
End Daemon.

(** ** Witness: a daemon that knows the WCCP commands only. *)
Definition no_others (f : t_commandfunction) (ps : list string) (data : option loc) (w : wccpstate)
    : outcome (wccpstate * commandresult * list string) := Ret (w, CommandResult 0 None None, []).

Lemma fresh_lookup {A} (h : gmap loc A) : h !! fresh (dom h) = None.
Proof. apply not_elem_of_dom, is_fresh. Qed.

Lemma wccp_session_witness :
  ∃ s, registered s program_commands ∧
  ∃ w' out, client_handler (wccp_run (λ w, fresh (dom (gheap w))) (λ w, fresh (dom (srvheap w))) 100 no_others) s
       ["wccp 7" +:+ newline; newline; "server 10.0.0.2" +:+ newline] demo_wccp_state = Ret (w', out)
    ∧ represents w' (demo_groups ++ [Group 7 0 [] []]) ∧ last out = Some (prompt globalmode).
Proof.
  destruct (registrable program_commands) as [s Hs]; [by vm_compute|]. exists s. split; [exact Hs|].
  refine (proj2 (wccp_session (λ w, fresh (dom (gheap w))) (λ w, fresh (dom (srvheap w))) 100 no_others _ _ s
    program_commands Hs _ demo_wccp_state demo_groups ("wccp 7" +:+ newline) newline ("server 10.0.0.2" +:+ newline)
    "7" 7 "10.0.0.2" 33554442 demo_represents _ _ _ _ _ _ _)); try reflexivity; intros w; apply fresh_lookup.
Defined.
