(* ===== verification/Ipc.v ===== *)
(** * Neighbors and the inter-node protocol (opennopd/subsystems/ipc.c, include/ipc.h)

    A node keeps a list of configured neighbors, exchanges HERE_I_AM and
    I_SEE_YOU messages with them (signed with HMAC-SHA256 when a key is set)
    and accepts the accelerator id of a neighbor that is UP. *)
From S2P Require Import Prelude Dll NodeId Epoll.

(** ** Data *)
Inductive neighborstate := DOWN | ATTEMPT | ESTABLISHED | SHUTTINGDOWN | UP.
#[export] Instance neighborstate_eq_dec : EqDecision neighborstate.
Proof. solve_decision. Defined.

Definition state_num (s : neighborstate) : Z :=
  match s with DOWN => 0 | ATTEMPT => 1 | ESTABLISHED => 2 | SHUTTINGDOWN => 3 | UP => 4 end.

Definition OPENNOP_IPC_KEY_LENGTH : nat := 65.
Definition IPC_MAX_MESSAGE_SIZE : nat := Z.to_nat 1024.
Definition zero_key : list Z := replicate OPENNOP_IPC_KEY_LENGTH 0.

Record neighbor := Neighbor {
  NeighborIP : Z; nb_state : neighborstate; nb_id : list Z; sock : Z;
  nb_key : list Z; hellotimer : Z; timer : Z
}.

Record ipcstate := IpcState {
  ipchead : dhead;
  nheap : heap neighbor;
  opennop_localid : list Z;
  key : list Z;
  sent : list (Z * list Z)       (* messages given to [send], latest first *)
}.

(** What the operating system answers while one message is handled or one neighbor
    visited: the IPv4 peer of a socket, the time, the socket [new_ip_client] opens
    (negative on failure; [None] when it ends the program), the result of [send], and
    whether [fcntl] and [epoll_ctl] succeed on a socket. *)
Record ipc_env := IpcEnv {
  getpeername : Z → option Z;
  now : Z;
  new_ip_client : Z → option Z;
  send_result : Z → list Z → Z;
  fcntl_ok : Z → bool;
  epoll_ctl_ok : Z → bool
}.

(** For a round of hellos: the time it starts with, and the answers at each neighbor. *)
Record hello_env := HelloEnv { currenttime : Z; at_neighbor : loc → ipc_env }.

Definition OPENNOP_MSG_TYPE_IPC : Z := 1.
Definition OPENNOP_MSG_VERSION : Z := 1.
Definition OPENNOP_MSG_SECURITY_NO : Z := 0.
Definition OPENNOP_MSG_SECURITY_SHA : Z := 1.
Definition OPENNOP_DEFAULT_HEADER_LENGTH : Z := 8.
Definition OPENNOP_IPC_HERE_I_AM : Z := 1.
Definition OPENNOP_IPC_I_SEE_YOU : Z := 2.
Definition HMAC_LENGTH : Z := 32.

(** ** Small state updates *)
Definition set_nb_state (n : neighbor) (v : neighborstate) : neighbor :=
  Neighbor (NeighborIP n) v (nb_id n) (sock n) (nb_key n) (hellotimer n) (timer n).
Definition set_nb_id (n : neighbor) (v : list Z) : neighbor :=
  Neighbor (NeighborIP n) (nb_state n) v (sock n) (nb_key n) (hellotimer n) (timer n).
Definition set_nb_sock (n : neighbor) (v : Z) : neighbor :=
  Neighbor (NeighborIP n) (nb_state n) (nb_id n) v (nb_key n) (hellotimer n) (timer n).
Definition set_nb_key (n : neighbor) (v : list Z) : neighbor :=
  Neighbor (NeighborIP n) (nb_state n) (nb_id n) (sock n) v (hellotimer n) (timer n).
Definition set_nb_hellotimer (n : neighbor) (v : Z) : neighbor :=
  Neighbor (NeighborIP n) (nb_state n) (nb_id n) (sock n) (nb_key n) v (timer n).
Definition set_nb_timer (n : neighbor) (v : Z) : neighbor :=
  Neighbor (NeighborIP n) (nb_state n) (nb_id n) (sock n) (nb_key n) (hellotimer n) v.

Definition set_list (s : ipcstate) (h : heap neighbor) (hd : dhead) : ipcstate :=
  IpcState hd h (opennop_localid s) (key s) (sent s).
Definition set_nheap (s : ipcstate) (h : heap neighbor) : ipcstate := set_list s h (ipchead s).
Definition log_send (s : ipcstate) (m : Z * list Z) : ipcstate :=
  IpcState (ipchead s) (nheap s) (opennop_localid s) (key s) (m :: sent s).
Definition set_local_key (s : ipcstate) (k : list Z) : ipcstate :=
  IpcState (ipchead s) (nheap s) (opennop_localid s) k (sent s).

(** [neighbor->field = ...] through a pointer. *)
Definition update_neighbor (s : ipcstate) (x : loc) (f : neighbor → neighbor) : outcome ipcstate :=
  nd ← load (nheap s) (Some x);
  h ← store_data (nheap s) (Some x) (f (n_data nd));
  Ret (set_nheap s h).

(** [strcmp(key, "") == 0] *)
Definition key_is_empty (k : list Z) : bool := k @@ 0 =? 0.

(** ** Searching the list *)
Fixpoint find_neighbor (n : nat) (h : heap neighbor) (cur : option loc) (f : neighbor → bool)
    : outcome (option loc) :=
  match n with
  | O => Spin
  | S n' =>
      match cur with
      | None => Ret None
      | Some x =>
          nd ← load h (Some x);
          if f (n_data nd) then Ret (Some x) else find_neighbor n' h (n_next nd) f
      end
  end.

Definition find_in (s : ipcstate) (f : neighbor → bool) : outcome (option loc) :=
  find_neighbor (list_fuel (nheap s)) (nheap s) (h_next (ipchead s)) f.

Definition find_neighbor_by_u32 (s : ipcstate) (ip : Z) : outcome (option loc) :=
  find_in s (λ n, NeighborIP n =? ip).

(** The same walk, for the address of a [struct in_addr]. *)
Definition find_neighbor_by_addr (s : ipcstate) (s_addr : Z) : outcome (option loc) :=
  find_in s (λ n, NeighborIP n =? s_addr).

Definition find_neighbor_by_socket (env : ipc_env) (s : ipcstate) (fd : Z) : outcome (option loc) :=
  match getpeername env fd with
  | Some addr => find_neighbor_by_addr s addr
  | None => Ret None
  end.

Definition verify_neighbor_in_domain (s : ipcstate) (neighborid : option (list Z)) : outcome bool :=
  x ← find_in s (λ n, compare_opennopid (Some (nb_id n)) neighborid && bool_decide (nb_state n = UP));
  Ret (bool_decide (is_Some x)).

(** ** Configuration: adding and deleting neighbors *)
Definition set_neighbor_key (n : neighbor) (k : option (list Z)) : outcome neighbor :=
  match k with
  | None => Ret (set_nb_key n zero_key)
  | Some l => v ← copy_in zero_key 0 l 0 (blen l); Ret (set_nb_key n v)
  end.

(** [garbage] is what [malloc] left in the id and key fields. *)
Definition allocate_neighbor (garbage : list Z * list Z) (time ip : Z) (k : option (list Z))
    : outcome neighbor :=
  let n := Neighbor ip DOWN (0 :: drop 1 garbage.1) 0 (0 :: drop 1 garbage.2) time time in
  match k with Some _ => set_neighbor_key n k | None => Ret n end.

(** What [add_update_neighbor] does once the search has found no neighbor; [a] is the
    address [malloc] returned ([allocate_neighbor] exits on NULL). *)
Definition append_neighbor (s : ipcstate) (a : loc) (n : neighbor) : outcome ipcstate :=
  let h := <[a := Node None None n]> (nheap s) in
  match h_next (ipchead s) with
  | None => Ret (set_list s h (DHead (Some a) (Some a) (h_len (ipchead s))))
  | Some _ =>
      h ← store_prev h (Some a) (h_prev (ipchead s));
      h ← store_next h (h_prev (ipchead s)) (Some a);
      Ret (set_list s h (DHead (h_next (ipchead s)) (Some a) (h_len (ipchead s))))
  end.

Definition add_neighbor (s : ipcstate) (a : loc) (garbage : list Z * list Z) (time ip : Z)
    (k : option (list Z)) : outcome ipcstate :=
  n ← allocate_neighbor garbage time ip k; append_neighbor s a n.

Definition add_update_neighbor (s : ipcstate) (a : loc) (garbage : list Z * list Z) (time ip : Z)
    (k : option (list Z)) : outcome ipcstate :=
  found ← find_neighbor_by_u32 s ip;
  match found with
  | Some x =>
      nd ← load (nheap s) (Some x);
      n ← set_neighbor_key (n_data nd) k;
      h ← store_data (nheap s) (Some x) n;
      Ret (set_nheap s h)
  | None => add_neighbor s a garbage time ip k
  end.

Definition del_neighbor (s : ipcstate) (ip : Z) : outcome ipcstate :=
  found ← find_neighbor_by_u32 s ip;
  match found with
  | None => Ret s
  | Some x =>
      nd ← load (nheap s) (Some x);
      '(h, hd) ← unlink (nheap s) (ipchead s) nd;
      h ← free h (Some x);
      Ret (set_list s h hd)
  end.

(** A CLI key parameter is a C string of at most 64 characters. *)
Definition key_param_ok (k : option (list Z)) : bool :=
  match k with Some l => blen l <=? 64 | None => true end.

(** [ip] is the result of [inet_pton]; an invalid input only prints the help text. *)
Definition cli_neighbor (s : ipcstate) (a : loc) (garbage : list Z * list Z) (time : Z)
    (ip : option Z) (k : option (list Z)) : outcome ipcstate :=
  match ip with
  | Some ip => if key_param_ok k then add_update_neighbor s a garbage time ip k else Ret s
  | None => Ret s
  end.

Definition cli_no_neighbor (s : ipcstate) (ip : option Z) : outcome ipcstate :=
  match ip with Some ip => del_neighbor s ip | None => Ret s end.

Definition cli_set_key (s : ipcstate) (params : list (list Z)) : outcome ipcstate :=
  match params with
  | [] => Ret (set_local_key s zero_key)
  | [k] =>
      if blen k <=? 64 then v ← copy_in zero_key 0 k 0 (blen k); Ret (set_local_key s v) else Ret s
  | _ => Ret s
  end.

Section Protocol.
(** [hmac key data] is OpenSSL's HMAC-SHA256. *)
Context (hmac : list Z → list Z → list Z) (env : ipc_env).

(** ** Neighbor state *)
Definition ipc_set_neighbor_state (s : ipcstate) (fd : Z) (v : neighborstate) : outcome ipcstate :=
  x ← find_neighbor_by_socket env s fd;
  match x with
  | Some x => update_neighbor s x (λ n, set_nb_timer (set_nb_state n v) (now env))
  | None => Ret s
  end.

(** ** Message layout *)
Definition msg_type (m : buffer) : outcome Z := rd m 0.
Definition msg_length (m : buffer) : outcome Z := ld16 m 4.
Definition msg_security (m : buffer) : outcome Z := rd m 6.

(** Returns the message, its [securitydata] and its [messages] offset. *)
Definition get_header_data (m : buffer) : outcome (buffer * option Z * Z) :=
  sec ← msg_security m;
  if sec =? 1 then
    len ← msg_length m;
    m ← st16 m 4 (u16 (len + HMAC_LENGTH));
    Ret (m, Some 8, 8 + HMAC_LENGTH)
  else Ret (m, None, 8).

(** The first 64 bytes of the key and [data->length] bytes of the message. *)
Definition calculate_hmac_sha256 (m : buffer) (k : list Z) (result : Z) : outcome buffer :=
  len ← msg_length m;
  if in_object m 0 len && in_object k 0 64
  then copy_in m result (hmac (sub k 0 64) (sub m 0 len)) 0 HMAC_LENGTH
  else Undef.

(** ** Sending *)
Definition initialize_opennop_ipc_header (s : ipcstate) (m : buffer) : outcome buffer :=
  m ← wr m 0 OPENNOP_MSG_TYPE_IPC;
  m ← st16 m 2 OPENNOP_MSG_VERSION;
  m ← st16 m 4 OPENNOP_DEFAULT_HEADER_LENGTH;
  m ← wr m 6 (if key_is_empty (key s) then OPENNOP_MSG_SECURITY_NO else OPENNOP_MSG_SECURITY_SHA);
  wr m 7 0.

(** [add_hello_message] and [ipc_add_i_see_you_message] differ in the type only. *)
Definition add_message (s : ipcstate) (m : buffer) (type : Z) : outcome buffer :=
  o ← msg_length m;
  m ← st16 m o type;
  m ← st16 m (o + 2) 8;
  m ← copy_in m (o + 4) (opennop_localid s) 0 (Z.of_nat OPENNOP_IPC_ID_LENGTH);
  l ← ld16 m (o + 2);
  st16 m 4 (u16 (o + l)).

Definition add_hello_message (s : ipcstate) (m : buffer) := add_message s m OPENNOP_IPC_HERE_I_AM.
Definition ipc_add_i_see_you_message (s : ipcstate) (m : buffer) :=
  add_message s m OPENNOP_IPC_I_SEE_YOU.

Definition build_message (s : ipcstate) (messagetype : Z) : outcome buffer :=
  m ← initialize_opennop_ipc_header s (replicate IPC_MAX_MESSAGE_SIZE 0);
  '(m, sec, _) ← get_header_data m;
  m ← (if messagetype =? OPENNOP_IPC_HERE_I_AM then add_hello_message s m
       else if messagetype =? OPENNOP_IPC_I_SEE_YOU then ipc_add_i_see_you_message s m
       else Ret m);
  match sec with
  | Some o => calculate_hmac_sha256 m (key s) o
  | None => Ret m
  end.

Definition ipc_tx_message (s : ipcstate) (socket : Z) (m : buffer) : outcome (ipcstate * Z) :=
  len ← msg_length m;
  if in_object m 0 len then
    let bs := sub m 0 len in Ret (log_send s (socket, bs), send_result env socket bs)
  else Undef.

Definition ipc_send_message (s : ipcstate) (socket messagetype : Z) : outcome (ipcstate * Z) :=
  m ← build_message s messagetype; ipc_tx_message s socket m.

(** ** Receiving *)
Definition save_peer_id (s : ipcstate) (fd : Z) (m : buffer) (o : Z) : outcome ipcstate :=
  x ← find_neighbor_by_socket env s fd;
  match x with
  | Some x =>
      if in_object m (o + 4) (Z.of_nat OPENNOP_IPC_ID_LENGTH) then
        update_neighbor s x
          (λ n, set_nb_id n (save_opennopid (Some (sub m (o + 4) 4)) (nb_id n)).1)
      else Undef
  | None => Ret s
  end.

Definition process_message (s : ipcstate) (fd : Z) (m : buffer) : outcome (ipcstate * Z) :=
  '(m, _, o) ← get_header_data m;
  ty ← ld16 m o;
  if ty =? OPENNOP_IPC_HERE_I_AM then
    '(s, _) ← ipc_send_message s fd OPENNOP_IPC_I_SEE_YOU;
    s ← save_peer_id s fd m o;
    Ret (s, 0)
  else if ty =? OPENNOP_IPC_I_SEE_YOU then
    s ← save_peer_id s fd m o;
    s ← ipc_set_neighbor_state s fd UP;
    Ret (s, 0)
  else Ret (s, 0).

Definition check_hmac_sha256 (s : ipcstate) (fd : Z) (m : buffer) : outcome (ipcstate * Z) :=
  x ← find_neighbor_by_socket env s fd;
  match x with
  | Some x =>
      nd ← load (nheap s) (Some x);
      if in_object m 8 HMAC_LENGTH then
        let securitydata := sub m 8 HMAC_LENGTH in
        m ← memset m 8 0 HMAC_LENGTH;
        m ← calculate_hmac_sha256 m (nb_key (n_data nd)) 8;
        if bool_decide (securitydata = sub m 8 HMAC_LENGTH)
        then process_message s fd m else Ret (s, -1)
      else Undef
  | None => Ret (s, -1)
  end.

Definition validate_security (s : ipcstate) (fd : Z) (m : buffer) (security : Z)
    : outcome (ipcstate * Z) :=
  sec ← msg_security m;
  if sec =? security then
    if sec =? OPENNOP_MSG_SECURITY_NO then process_message s fd m else check_hmac_sha256 s fd m
  else Ret (s, -1).

Definition check_security (s : ipcstate) (fd : Z) (m : buffer) : outcome (ipcstate * Z) :=
  x ← find_neighbor_by_socket env s fd;
  match x with
  | Some x =>
      nd ← load (nheap s) (Some x);
      validate_security s fd m
        (if key_is_empty (nb_key (n_data nd)) then OPENNOP_MSG_SECURITY_NO
         else OPENNOP_MSG_SECURITY_SHA)
  | None => Ret (s, -1)
  end.

Definition ipc_handler (s : ipcstate) (fd : Z) (m : buffer) : outcome (ipcstate * Z) :=
  ty ← msg_type m;
  if ty =? OPENNOP_MSG_TYPE_IPC then check_security s fd m else Ret (s, 0).

(** The access check of a new connection: 1 when it comes from a neighbor. *)
Definition ipc_check_neighbor (s : ipcstate) (fd : Z) : outcome (ipcstate * Z) :=
  x ← find_neighbor_by_socket env s fd;
  match x with
  | Some x =>
      s ← update_neighbor s x
            (λ n, set_nb_timer (set_nb_state (set_nb_sock n fd) ATTEMPT) (now env));
      Ret (s, 1)
  | None => Ret (s, 0)
  end.

End Protocol.

(** ** The periodic hello

    It runs on the whole [struct epoller]: a new connection is registered with the epoll
    instance, a failed one is closed.  [None]: the program has exited. *)
Section Periodic.
Context (hmac : list Z → list Z → list Z).

Definition hello_neighbor (h : hello_env) (st : epoller ipcstate) (x : loc) : outcome (option (epoller ipcstate)) :=
  let env := at_neighbor h x in
  let time := currenttime h in
  nd ← load (nheap (app st)) (Some x);
  let n := n_data nd in
  if bool_decide (nb_state n = DOWN) && (30 <=? time - hellotimer n) then
    s ← update_neighbor (app st) x (λ n, set_nb_hellotimer n time);
    if sock n =? 0 then
      match new_ip_client env (NeighborIP n) with
      | None => Ret None
      | Some newsocket =>
          if 0 <=? newsocket then
            s ← update_neighbor s x (λ n, set_nb_state (set_nb_sock n newsocket) ATTEMPT);
            Ret (register_socket (fcntl_ok env newsocket) (epoll_ctl_ok env newsocket) (set_app st s) newsocket)
          else Ret (Some (set_app st s))
      end
    else s ← update_neighbor s x (λ n, set_nb_state n ATTEMPT); Ret (Some (set_app st s))
  else if (state_num ATTEMPT <=? state_num (nb_state n)) && (10 <=? time - hellotimer n) then
    if negb (sock n =? 0) then
      s ← update_neighbor (app st) x (λ n, set_nb_hellotimer n time);
      s ← (if bool_decide (nb_state n = UP) && (30 <? time - timer n)
           then ipc_set_neighbor_state env s (sock n) DOWN else Ret s);
      '(s, error) ← ipc_send_message hmac env s (sock n) OPENNOP_IPC_HERE_I_AM;
      if error <? 0 then
        s ← update_neighbor s x (λ n, set_nb_sock (set_nb_state n DOWN) 0);
        Ret (Some (set_app (close st (sock n)) s))
      else Ret (Some (set_app st s))
    else Ret (Some st)
  else Ret (Some st).

Fixpoint hello_loop (n : nat) (h : hello_env) (st : epoller ipcstate) (cur : option loc)
    : outcome (option (epoller ipcstate)) :=
  match n with
  | O => Spin
  | S n' =>
      match cur with
      | None => Ret (Some st)
      | Some x =>
          o ← hello_neighbor h st x;
          match o with
          | None => Ret None
          | Some st => nd ← load (nheap (app st)) (Some x); hello_loop n' h st (n_next nd)
          end
      end
  end.

Definition hello_neighbors (h : hello_env) (st : epoller ipcstate) : outcome (option (epoller ipcstate)) :=
  hello_loop (list_fuel (nheap (app st))) h st (h_next (ipchead (app st))).
End Periodic.

(** The state [start_ipc] leaves; [r] is [random()]. *)
Definition start_ipc (r : Z) : ipcstate := IpcState empty_head ∅ (generate_opennopid r) zero_key [].

(** * The neighbor list *)
Definition nb_ok (n : neighbor) : Prop :=
  is_id (nb_id n) ∧ length (nb_key n) = OPENNOP_IPC_KEY_LENGTH
  ∧ nb_state n ≠ ESTABLISHED ∧ nb_state n ≠ SHUTTINGDOWN.

(** The neighbors, by address of the object. *)
Definition neighbors (s : ipcstate) : gmap loc neighbor := payload (nheap s).

Definition ips_unique (m : gmap loc neighbor) : Prop :=
  ∀ x y n k, m !! x = Some n → m !! y = Some k → NeighborIP n = NeighborIP k → x = y.

(** [l] is the list order: every neighbor is on it, once, with its own address;
    the local id and key have their sizes. *)
Record ipc_inv (s : ipcstate) (l : list loc) : Prop := IpcInv {
  ii_dll : dll (nheap s) nb_ok (ipchead s) l;
  ii_listed : ∀ x n, nheap s !! x = Some n → x ∈ l;
  ii_ips : ips_unique (neighbors s);
  ii_id : is_id (opennop_localid s);
  ii_key : length (key s) = OPENNOP_IPC_KEY_LENGTH
}.

Definition ipc_ok (s : ipcstate) : Prop := ∃ l, ipc_inv s l.

Lemma find_neighbor_spec h prv l fuel f :
  seg h nb_ok prv l None → (length l < fuel)%nat →
  ∃ r, find_neighbor fuel h (first l None) f = Ret r
    ∧ match r with
      | Some x => x ∈ l ∧ ∃ n, payload h !! x = Some n ∧ f n = true
      | None => ∀ x n, x ∈ l → payload h !! x = Some n → f n = false
      end.
Proof.
  revert prv fuel. induction l as [|x l IH]; intros prv [|fuel] Hs Hf; simpl in *; [lia| |lia|].
  { exists None. split; [done|]. set_solver. }
  destruct Hs as (d & Hl & Hq & Hs). unfold load, deref. rewrite Hl. simpl.
  assert (Hpx : payload h !! x = Some d) by (apply payload_Some; eauto).
  destruct (f d) eqn:Em.
  - exists (Some x). split; [done|]. split; [set_solver|]. eauto.
  - destruct (IH (Some x) fuel Hs ltac:(lia)) as (r & -> & Hr). exists r. split; [done|].
    destruct r as [y|]; [destruct Hr as [Hy Hr]; split; [set_solver|done]|].
    intros y e [->|Hy]%elem_of_cons He; [congruence|by eapply Hr].
Qed.

Lemma find_in_spec s f :
  ipc_ok s →
  ∃ r, find_in s f = Ret r
    ∧ match r with
      | Some x => ∃ n, neighbors s !! x = Some n ∧ f n = true
      | None => ∀ x n, neighbors s !! x = Some n → f n = false
      end.
Proof.
  intros (l & Hi). pose proof (ii_dll _ _ Hi) as Hd. pose proof Hd as (_ & Hn & _ & Hs).
  unfold find_in. rewrite Hn.
  destruct (find_neighbor_spec _ _ _ (list_fuel (nheap s)) f Hs) as (r & -> & Hr).
  { pose proof (dll_length _ _ _ _ Hd). unfold list_fuel. lia. }
  exists r. split; [done|]. destruct r as [x|]; [by destruct Hr as [_ Hr]|].
  intros x n Hx. pose proof Hx as (nd & Hnd & _)%payload_Some. eapply Hr; [|done].
  by eapply ii_listed.
Qed.

Lemma find_by_ip s ip :
  ipc_ok s →
  find_neighbor_by_u32 s ip = Ret None ∧ (∀ x n, neighbors s !! x = Some n → NeighborIP n ≠ ip)
  ∨ ∃ x n, find_neighbor_by_u32 s ip = Ret (Some x) ∧ neighbors s !! x = Some n ∧ NeighborIP n = ip.
Proof.
  intros Hok. unfold find_neighbor_by_u32.
  destruct (find_in_spec s (λ n, NeighborIP n =? ip) Hok) as ([x|] & -> & Hr).
  - right. destruct Hr as (n & Hn & E). apply Z.eqb_eq in E. eauto.
  - left. split; [done|]. intros x n Hn E%Z.eqb_eq. by rewrite (Hr x n Hn) in E.
Qed.

Lemma find_known s ip x n :
  ipc_ok s → neighbors s !! x = Some n → NeighborIP n = ip → find_neighbor_by_u32 s ip = Ret (Some x).
Proof.
  intros Hok Hx Hip. destruct (find_by_ip s ip Hok) as [[_ Hno]|(y & k & -> & Hy & Hk)].
  - by destruct (Hno x n).
  - destruct Hok as (l & Hi). do 2 f_equal. apply (ii_ips _ _ Hi y x k n); congruence.
Qed.

Lemma neighbors_node s x n : neighbors s !! x = Some n → ∃ nd, nheap s !! x = Some nd ∧ n_data nd = n.
Proof. apply payload_Some. Qed.

Lemma neighbor_nb_ok s x n : ipc_ok s → neighbors s !! x = Some n → nb_ok n.
Proof.
  intros (l & Hi) (nd & Hnd & <-)%neighbors_node.
  destruct (dll_elem _ _ _ _ x (ii_dll _ _ Hi)) as (nd' & Hnd' & Hok); [by eapply ii_listed|].
  congruence.
Qed.

(** Storing through a neighbor pointer. *)
Lemma store_neighbor_inv s l x n n' :
  ipc_inv s l → neighbors s !! x = Some n → nb_ok n' → NeighborIP n' = NeighborIP n →
  ∃ h, store_data (nheap s) (Some x) n' = Ret h
    ∧ ipc_inv (set_nheap s h) l ∧ neighbors (set_nheap s h) = <[x := n']> (neighbors s).
Proof.
  intros Hi Hx Hok Hip. pose proof Hx as (nd & Hnd & E)%neighbors_node.
  unfold store_data, deref. rewrite Hnd. simpl. eexists. split; [done|].
  assert (Hl : neighbors (set_nheap s (<[x := Node (n_next nd) (n_prev nd) n']> (nheap s)))
    = <[x := n']> (neighbors s)) by apply payload_insert.
  split; [|done]. pose proof (ii_dll _ _ Hi) as (HN & H1 & H2 & Hs).
  assert (Hin : x ∈ l) by (by eapply ii_listed).
  split; simpl; [split_and!; [done..|]|intros y m Hy|rewrite Hl|apply (ii_id _ _ Hi)|apply (ii_key _ _ Hi)].
  - by apply seg_set_data with (n := nd).
  - apply lookup_insert_Some in Hy as [[<- _]|[_ Hy]]; [done|]. by eapply ii_listed.
  - intros y z m k Hy Hz.
    apply lookup_insert_Some in Hy as [[<- <-]|[? Hy]];
      apply lookup_insert_Some in Hz as [[<- <-]|[? Hz]]; intros E'; [done|..].
    + apply (ii_ips _ _ Hi x z n k); congruence.
    + apply (ii_ips _ _ Hi y x m n); congruence.
    + by apply (ii_ips _ _ Hi y z m k).
Qed.

Lemma update_neighbor_inv s l x n f :
  ipc_inv s l → neighbors s !! x = Some n → nb_ok (f n) → NeighborIP (f n) = NeighborIP n →
  ∃ s', update_neighbor s x f = Ret s' ∧ ipc_inv s' l ∧ neighbors s' = <[x := f n]> (neighbors s)
    ∧ s' = set_nheap s (nheap s').
Proof.
  intros Hok Hx Hf Hip. destruct (store_neighbor_inv s l x n (f n) Hok Hx Hf Hip) as (h & E & Hok' & Hl).
  pose proof Hx as (nd & Hnd & Ed)%neighbors_node.
  unfold update_neighbor, load. unfold deref at 1. rewrite Hnd. simpl. rewrite Ed, E. simpl.
  eexists. split_and!; [done..|]. done.
Qed.

Lemma update_neighbor_ok s x n f :
  ipc_ok s → neighbors s !! x = Some n → nb_ok (f n) → NeighborIP (f n) = NeighborIP n →
  ∃ s', update_neighbor s x f = Ret s' ∧ ipc_ok s' ∧ neighbors s' = <[x := f n]> (neighbors s)
    ∧ s' = set_nheap s (nheap s').
Proof.
  intros (l & Hi) Hx Hf Hip.
  destruct (update_neighbor_inv s l x n f Hi Hx Hf Hip) as (s' & E & Hi' & H). exists s'.
  split_and!; [done|by exists l|apply H..].
Qed.

Lemma ipc_inv_log s m l : ipc_inv (log_send s m) l ↔ ipc_inv s l.
Proof. split; intros [? ? ? ? ?]; by split. Qed.

Lemma ipc_ok_log s m : ipc_ok (log_send s m) ↔ ipc_ok s.
Proof. split; intros (l & [? ? ? ? ?]); exists l; by split. Qed.

(** ** Configuration *)
Definition key_field (l : list Z) : list Z := l ++ replicate (OPENNOP_IPC_KEY_LENGTH - length l) 0.

Lemma copy_key l : blen l <= 65 → copy_in zero_key 0 l 0 (blen l) = Ret (key_field l).
Proof.
  intros Hl. assert (Hn : (length l <= OPENNOP_IPC_KEY_LENGTH)%nat)
    by (unfold blen in Hl; unfold OPENNOP_IPC_KEY_LENGTH; lia).
  unfold copy_in, in_object. change (blen zero_key) with 65. pose proof (blen_nonneg l). bool_lia.
  f_equal. unfold put, sub, key_field. change (Z.to_nat 0) with O.
  unfold blen. rewrite Nat2Z.id, drop_0, firstn_all. simpl (take 0 zero_key).
  rewrite Nat.add_0_l. unfold zero_key. by rewrite drop_replicate.
Qed.

Lemma key_field_length l : blen l <= 65 → length (key_field l) = OPENNOP_IPC_KEY_LENGTH.
Proof.
  intros Hl. unfold key_field, OPENNOP_IPC_KEY_LENGTH, blen in *. rewrite length_app, length_replicate. lia.
Qed.

(** The key a neighbor ends up with. *)
Definition new_key (k : option (list Z)) : list Z :=
  match k with Some l => key_field l | None => zero_key end.

Lemma set_neighbor_key_ok n k :
  key_param_ok k = true → set_neighbor_key n k = Ret (set_nb_key n (new_key k)).
Proof.
  destruct k as [l|]; simpl; [|done]. intros Hl. unbool. by rewrite copy_key by lia.
Qed.

Lemma new_key_length k : key_param_ok k = true → length (new_key k) = OPENNOP_IPC_KEY_LENGTH.
Proof. destruct k as [l|]; simpl; [|done]. intros Hl. unbool. apply key_field_length. lia. Qed.

(** What [malloc] may leave in the fields the code does not write. *)
Definition garbage_ok (g : list Z * list Z) : Prop :=
  is_id g.1 ∧ length g.2 = OPENNOP_IPC_KEY_LENGTH.

Lemma allocate_neighbor_ok g time ip k :
  garbage_ok g → key_param_ok k = true →
  ∃ n, allocate_neighbor g time ip k = Ret n ∧ nb_ok n
    ∧ NeighborIP n = ip ∧ nb_state n = DOWN ∧ sock n = 0
    ∧ key_is_empty (nb_key n) = key_is_empty (new_key k)
    ∧ (k ≠ None → nb_key n = new_key k).
Proof.
  intros [Hid Hl] Hk. destruct (is_id_inv _ Hid) as (a & b & c & d & E). destruct Hid as [_ Hb].
  rewrite E in Hb. unfold allocate_neighbor. rewrite E.
  destruct g.2 as [|x g2] eqn:E2; [done|].
  destruct k as [l|]; [rewrite set_neighbor_key_ok by done|].
  all: eexists; split; [reflexivity|]; split_and!; simpl; try done.
  all: unfold nb_ok; simpl; split_and!; try done.
  all: try (split; [done|]; repeat (apply Forall_cons in Hb as [? Hb]); repeat (constructor; [done||lia|]); constructor).
  apply (new_key_length (Some l) Hk).
Qed.

(** Linking a new node at the end; its address need not be new to the configuration. *)
Lemma append_neighbor_spec s l a n :
  dll (nheap s) nb_ok (ipchead s) l → nheap s !! a = None → nb_ok n →
  ∃ h' hd', append_neighbor s a n = Ret (set_list s h' hd')
    ∧ dll h' nb_ok hd' (l ++ [a]) ∧ payload h' = <[a := n]> (neighbors s).
Proof.
  intros Hd Ha Hn. unfold append_neighbor. set (h := <[a := Node None None n]> (nheap s)).
  assert (Hal : a ∉ l).
  { intros Hin. destruct (dll_elem _ _ _ _ _ Hd Hin) as (nd & Hnd & _). congruence. }
  assert (Ha0 : h !! a = Some (Node None None n)) by apply lookup_insert_eq.
  assert (Hd0 : dll h nb_ok (ipchead s) l) by (by apply dll_insert_ne).
  assert (∃ h' hd', (match h_next (ipchead s) with
        | None => Ret (set_list s h (DHead (Some a) (Some a) (h_len (ipchead s))))
        | Some _ =>
            h ← store_prev h (Some a) (h_prev (ipchead s));
            h ← store_next h (h_prev (ipchead s)) (Some a);
            Ret (set_list s h (DHead (h_next (ipchead s)) (Some a) (h_len (ipchead s))))
        end) = Ret (set_list s h' hd') ∧ relinked h h' (a :: l) ∧ dll h' nb_ok hd' (l ++ [a]))
    as (h' & hd' & E & R & D).
  { destruct (h_next (ipchead s)) as [y|] eqn:En.
    - assert (Hne : l ≠ []) by (intros ->; destruct Hd as (_ & H1 & _); by rewrite En in H1).
      destruct (dll_append _ _ _ _ _ _ (h_len (ipchead s)) Hd0 Hne Hal Ha0 Hn)
        as (h1 & h2 & E1 & _ & E2 & R & D).
      rewrite E1. cbn [mbind outcome_bind]. rewrite E2. cbn [mbind outcome_bind]. rewrite <-En. eauto.
    - apply (dll_next_None _ _ _ _ Hd) in En as ->. eexists _, _. split_and!; [done|done|].
      by apply (dll_single _ _ _ n). }
  exists h', hd'. split_and!; [exact E|exact D|]. destruct R as [-> _]. unfold h. by rewrite payload_insert.
Qed.

Lemma add_fresh_neighbor s l a n :
  ipc_inv s l → nheap s !! a = None → nb_ok n →
  (∀ x m, neighbors s !! x = Some m → NeighborIP m ≠ NeighborIP n) →
  ∃ s', append_neighbor s a n = Ret s' ∧ ipc_inv s' (l ++ [a]) ∧ neighbors s' = <[a := n]> (neighbors s).
Proof.
  intros Hi Ha Hn Hip. destruct (append_neighbor_spec s l a n (ii_dll _ _ Hi) Ha Hn) as (h' & hd' & E & D & Hl).
  rewrite E. eexists. split; [done|]. split; [|done]. split; simpl.
  - done.
  - intros x m Hx. assert (Hp : payload h' !! x = Some (n_data m)) by (apply payload_Some; eauto).
    rewrite Hl in Hp. apply lookup_insert_Some in Hp as [[<- _]|[_ Hp]]; [set_solver|].
    apply neighbors_node in Hp as (nd & Hnd & _). apply elem_of_app. left. by eapply ii_listed.
  - unfold neighbors at 1. simpl. rewrite Hl. intros x y m k Hx Hy.
    apply lookup_insert_Some in Hx as [[<- <-]|[? Hx]];
      apply lookup_insert_Some in Hy as [[<- <-]|[? Hy]]; intros E'; [done|..].
    + by destruct (Hip y k).
    + by destruct (Hip x m).
    + by apply (ii_ips _ _ Hi x y m k).
  - apply (ii_id _ _ Hi).
  - apply (ii_key _ _ Hi).
Qed.

Lemma del_neighbor_spec s l x n :
  ipc_inv s l → neighbors s !! x = Some n →
  ∃ s' l', del_neighbor s (NeighborIP n) = Ret s' ∧ ipc_inv s' l' ∧ neighbors s' = delete x (neighbors s).
Proof.
  intros Hi Hx. assert (Hok : ipc_ok s) by (by exists l).
  pose proof Hx as (nd & Hnd & _)%neighbors_node. pose proof (ii_dll _ _ Hi) as Hd.
  assert (Hin : x ∈ l) by (by eapply ii_listed).
  apply list_elem_of_split in Hin as (l1 & l2 & ->). pose proof Hd as (HN & _).
  destruct (unlink_spec _ _ _ _ _ _ _ Hd Hnd) as (h & hd & E & R & _ & D).
  destruct (relinked_data _ _ _ _ _ R Hnd) as (nd' & Hnd' & _).
  unfold del_neighbor. rewrite (find_known s (NeighborIP n) x n) by done. cbn [mbind outcome_bind].
  unfold load, free, deref. rewrite Hnd. cbn [mbind outcome_bind]. rewrite E. cbn [mbind outcome_bind].
  rewrite Hnd'. cbn [mbind outcome_bind].
  assert (Hl : payload (delete x h) = delete x (neighbors s)).
  { rewrite payload_delete. by destruct R as [-> _]. }
  assert (Hx12 : x ∉ l1 ++ l2) by (apply nodup_around in HN; set_solver).
  eexists _, (l1 ++ l2). split_and!; [done| |done]. split; simpl.
  - by apply dll_delete_ne.
  - intros y m Hy. assert (Hp : payload (delete x h) !! y = Some (n_data m)) by (apply payload_Some; eauto).
    rewrite Hl in Hp. apply lookup_delete_Some in Hp as [Hne Hp].
    apply neighbors_node in Hp as (nd2 & Hnd2 & _). pose proof (ii_listed _ _ Hi _ _ Hnd2). set_solver.
  - unfold neighbors at 1. simpl. rewrite Hl. intros y z m k [_ Hy]%lookup_delete_Some [_ Hz]%lookup_delete_Some.
    by apply (ii_ips _ _ Hi).
  - apply (ii_id _ _ Hi).
  - apply (ii_key _ _ Hi).
Qed.

(** * The messages *)

(** A HERE_I_AM or I_SEE_YOU message. *)
Definition hello_body (type : Z) (id : list Z) : list Z := [type; 0; 8; 0] ++ id.
Definition plain_message (type : Z) (id : list Z) : list Z :=
  [1; 0; 1; 0; 16; 0; 0; 0] ++ hello_body type id.
Definition signed_message (mac : list Z) (type : Z) (id : list Z) : list Z :=
  [1; 0; 1; 0; 48; 0; 1; 0] ++ mac ++ hello_body type id.
Definition no_mac : list Z := replicate 32 0.

Definition hello_type (type : Z) : Prop := type = OPENNOP_IPC_HERE_I_AM ∨ type = OPENNOP_IPC_I_SEE_YOU.

Section Wire.
Context (hmac : list Z → list Z → list Z).
Context (hmac_length : ∀ k d, length (hmac k d) = 32%nat).

Definition mac_of (k : list Z) (type : Z) (id : list Z) : list Z :=
  hmac (take 64 k) (signed_message no_mac type id).

(** What a node with local key [k] and id [id] puts on the wire. *)
Definition wire (k : list Z) (type : Z) (id : list Z) : list Z :=
  if key_is_empty k then plain_message type id else signed_message (mac_of k type id) type id.

Lemma copy_mac pre mid post mac :
  length mid = 32%nat → length mac = 32%nat →
  copy_in (pre ++ mid ++ post) (blen pre) mac 0 32 = Ret (pre ++ mac ++ post).
Proof.
  intros Hm Hl. unfold copy_in, in_object. pose proof (blen_nonneg pre).
  assert (Em : blen mid = 32) by (unfold blen; lia). assert (El : blen mac = 32) by (unfold blen; lia).
  rewrite !blen_app, Em, El. pose proof (blen_nonneg post). bool_lia. f_equal.
  unfold sub. change (Z.to_nat 0) with O. rewrite drop_0. change (Z.to_nat 32) with 32%nat.
  rewrite take_ge by lia. apply put_app. lia.
Qed.

Lemma take_key k : length k = OPENNOP_IPC_KEY_LENGTH → in_object k 0 64 = true ∧ sub k 0 64 = take 64 k.
Proof.
  intros Hk. unfold in_object, sub, blen. rewrite Hk. split; [done|].
  change (Z.to_nat 0) with O. by rewrite drop_0.
Qed.

Lemma calculate_hmac_signed old k type id rest :
  length old = 32%nat → length k = OPENNOP_IPC_KEY_LENGTH → is_id id →
  calculate_hmac_sha256 hmac (signed_message old type id ++ rest) k 8
  = Ret (signed_message (hmac (take 64 k) (signed_message old type id)) type id ++ rest).
Proof.
  intros Ho Hk (w & x & y & z & ->)%is_id_inv.
  destruct (take_key k Hk) as [Hin Hsub]. unfold calculate_hmac_sha256.
  change (msg_length _) with (Ret 48). cbn [mbind outcome_bind]. rewrite Hin, Hsub.
  assert (Hlen : blen (signed_message old type [w; x; y; z]) = 48).
  { unfold signed_message, hello_body. rewrite !blen_app. unfold blen. rewrite Ho. done. }
  assert (Hobj : in_object (signed_message old type [w; x; y; z] ++ rest) 0 48 = true).
  { unfold in_object. rewrite blen_app, Hlen. pose proof (blen_nonneg rest). by bool_lia. }
  rewrite Hobj. cbn [andb].
  assert (Hs : sub (signed_message old type [w; x; y; z] ++ rest) 0 48 = signed_message old type [w; x; y; z]).
  { rewrite <-Hlen. apply (sub_app []). }
  rewrite Hs. unfold signed_message at 1 3. rewrite <-!app_assoc.
  change 8 with (blen [1; 0; 1; 0; 48; 0; 1; 0]) at 1.
  by rewrite copy_mac.
Qed.

Lemma build_message_wire s type :
  is_id (opennop_localid s) → length (key s) = OPENNOP_IPC_KEY_LENGTH → hello_type type →
  ∃ pad, build_message hmac s type = Ret (wire (key s) type (opennop_localid s) ++ pad).
Proof.
  intros Hid Hk Ht. unfold build_message, wire, initialize_opennop_ipc_header.
  destruct (key_is_empty (key s)) eqn:Ee.
  - destruct (is_id_inv _ Hid) as (w & x & y & z & E).
    exists (replicate (Z.to_nat 1008) 0).
    unfold add_hello_message, ipc_add_i_see_you_message, add_message. rewrite E.
    destruct Ht as [-> | ->]; vm_compute; reflexivity.
  - exists (replicate (Z.to_nat 976) 0).
    assert (∀ m0 : outcome (buffer * option Z * Z), m0 = Ret (([1; 0; 1; 0; 40; 0; 1; 0] ++ replicate (Z.to_nat 1016) 0, Some 8, 40)) →
      ('(m, sec, _) ← m0;
       m ← (if type =? OPENNOP_IPC_HERE_I_AM then add_hello_message s m
            else if type =? OPENNOP_IPC_I_SEE_YOU then ipc_add_i_see_you_message s m else Ret m);
       match sec with Some o => calculate_hmac_sha256 hmac m (key s) o | None => Ret m end)
      = Ret (signed_message (mac_of (key s) type (opennop_localid s)) type (opennop_localid s)
             ++ replicate (Z.to_nat 976) 0)) as Hb.
    { intros m0 ->. cbn [mbind outcome_bind].
      assert (Ea : ∀ ty, hello_type ty → add_message s ([1; 0; 1; 0; 40; 0; 1; 0] ++ replicate (Z.to_nat 1016) 0) ty
        = Ret (signed_message no_mac ty (opennop_localid s) ++ replicate (Z.to_nat 976) 0)).
      { intros ty Hty. destruct (is_id_inv _ Hid) as (w & x & y & z & E).
        unfold add_message. rewrite E. destruct Hty as [-> | ->]; vm_compute; reflexivity. }
      unfold add_hello_message, ipc_add_i_see_you_message.
      destruct Ht as [-> | ->]; cbn -[add_message calculate_hmac_sha256 replicate signed_message app];
        rewrite Ea by (first [by left | by right]); cbn [mbind outcome_bind];
        by rewrite calculate_hmac_signed. }
    match goal with |- ?m1 ≫= _ = _ => assert (E1 : m1 = Ret ([1; 0; 1; 0; 8; 0; 1; 0] ++ replicate (Z.to_nat 1016) 0)) end.
    { vm_compute. reflexivity. }
    rewrite E1. cbn [mbind outcome_bind]. apply Hb. vm_compute. reflexivity.
Qed.

(** A received message: the header [hd] (8 bytes), the MAC if any, the body. *)
Definition received (hd mac : list Z) (type : Z) (id rest : list Z) : list Z :=
  hd ++ mac ++ hello_body type id ++ rest.

Lemma body_type hd mac type id rest o :
  o = blen hd + blen mac → ld16 (received hd mac type id rest) o = Ret type.
Proof.
  intros ->. unfold received, hello_body. rewrite app_assoc. simpl.
  rewrite (ld16_app (hd ++ mac)); [f_equal; lia|by rewrite blen_app].
Qed.

Lemma body_id hd mac type id rest o :
  o = blen hd + blen mac → is_id id →
  in_object (received hd mac type id rest) (o + 4) 4 = true
  ∧ sub (received hd mac type id rest) (o + 4) 4 = id.
Proof.
  intros -> Hid. assert (Hl : blen id = 4) by (unfold blen; destruct Hid as [-> _]; done).
  assert (E : received hd mac type id rest = (hd ++ mac ++ [type; 0; 8; 0]) ++ id ++ rest).
  { unfold received, hello_body. by rewrite <-!app_assoc. }
  assert (Hp : blen (hd ++ mac ++ [type; 0; 8; 0]) = blen hd + blen mac + 4).
  { rewrite !blen_app. change (blen [type; 0; 8; 0]) with 4. lia. }
  rewrite E, <-Hp. split.
  - unfold in_object. rewrite (blen_app _ (id ++ rest)), (blen_app id), Hl.
    pose proof (blen_nonneg (hd ++ mac ++ [type; 0; 8; 0])). pose proof (blen_nonneg rest). by bool_lia.
  - rewrite <-Hl. apply sub_app.
Qed.

Context (env : ipc_env).

Lemma peer_known s fd ip x n :
  ipc_ok s → getpeername env fd = Some ip → neighbors s !! x = Some n → NeighborIP n = ip →
  find_neighbor_by_socket env s fd = Ret (Some x).
Proof.
  intros Hok Hg Hx Hip. unfold find_neighbor_by_socket. rewrite Hg.
  by apply (find_known s ip x n).
Qed.

Lemma peer_log s m fd : find_neighbor_by_socket env (log_send s m) fd = find_neighbor_by_socket env s fd.
Proof. done. Qed.

Lemma save_peer_id_ok s fd ip x n m o id :
  ipc_ok s → getpeername env fd = Some ip → neighbors s !! x = Some n → NeighborIP n = ip →
  in_object m (o + 4) 4 = true → sub m (o + 4) 4 = id → is_id id →
  ∃ s', save_peer_id env s fd m o = Ret s' ∧ ipc_ok s' ∧ neighbors s' = <[x := set_nb_id n id]> (neighbors s)
    ∧ s' = set_nheap s (nheap s').
Proof.
  intros Hok Hg Hx Hip Hin Hsub Hid. unfold save_peer_id.
  rewrite (peer_known s fd ip x n) by done. cbn [mbind outcome_bind].
  change (Z.of_nat OPENNOP_IPC_ID_LENGTH) with 4. rewrite Hin, Hsub.
  destruct (neighbor_nb_ok s x n Hok Hx) as (Hidn & Hkn & Hsn).
  assert (Es : (save_opennopid (Some id) (nb_id n)).1 = id) by (by rewrite save_opennopid_id).
  destruct (update_neighbor_ok s x n (λ n, set_nb_id n (save_opennopid (Some id) (nb_id n)).1) Hok Hx)
    as (s' & E & Hok' & Hl & Hs'); [rewrite Es; by split|done|].
  rewrite Es in Hl. eauto 10.
Qed.

Lemma ipc_send_message_ok s fd type :
  is_id (opennop_localid s) → length (key s) = OPENNOP_IPC_KEY_LENGTH → hello_type type →
  let w := wire (key s) type (opennop_localid s) in
  ipc_send_message hmac env s fd type = Ret (log_send s (fd, w), send_result env fd w).
Proof.
  intros Hid Hk Ht w. destruct (build_message_wire s type Hid Hk Ht) as (pad & E).
  unfold ipc_send_message. rewrite E. cbn [mbind outcome_bind]. fold w. unfold ipc_tx_message.
  assert (Hw : msg_length (w ++ pad) = Ret (blen w)).
  { destruct (is_id_inv _ Hid) as (a & b & c & d & Ei). unfold w, wire.
    destruct (key_is_empty (key s)).
    - by rewrite Ei.
    - unfold signed_message. rewrite !blen_app. unfold mac_of, blen at 2. rewrite hmac_length.
      unfold hello_body. by rewrite Ei. }
  rewrite Hw. cbn [mbind outcome_bind].
  assert (Hin : in_object (w ++ pad) 0 (blen w) = true).
  { unfold in_object. rewrite blen_app. pose proof (blen_nonneg w). pose proof (blen_nonneg pad). by bool_lia. }
  rewrite Hin. by rewrite (sub_app [] w pad : sub (w ++ pad) 0 (blen w) = w).
Qed.

(** The effect a hello message has on the neighbor it came from. *)
Definition after_hello (type : Z) (id : list Z) (n : neighbor) : neighbor :=
  if type =? OPENNOP_IPC_I_SEE_YOU then set_nb_timer (set_nb_state (set_nb_id n id) UP) (now env)
  else set_nb_id n id.

Definition reply_to (s : ipcstate) (type fd : Z) : list (Z * list Z) :=
  if type =? OPENNOP_IPC_HERE_I_AM
  then (fd, wire (key s) OPENNOP_IPC_I_SEE_YOU (opennop_localid s)) :: sent s else sent s.

Lemma process_hello s fd ip x n m hd mac type id rest :
  ipc_ok s → getpeername env fd = Some ip → neighbors s !! x = Some n → NeighborIP n = ip →
  hello_type type → is_id id → blen hd = 8 →
  (∃ sec, get_header_data m = Ret (received hd mac type id rest, sec, 8 + blen mac)) →
  ∃ s', process_message hmac env s fd m = Ret (s', 0) ∧ ipc_ok s'
    ∧ neighbors s' = <[x := after_hello type id n]> (neighbors s) ∧ sent s' = reply_to s type fd.
Proof.
  intros Hok Hg Hx Hip Ht Hid Hhd (sec & Em). unfold process_message. rewrite Em. cbn [mbind outcome_bind].
  rewrite body_type by lia. cbn [mbind outcome_bind].
  destruct (body_id hd mac type id rest (8 + blen mac)) as [Hin Hsub]; [lia|done|].
  pose proof Hok as (l & Hi).
  destruct Ht as [-> | ->].
  - change (OPENNOP_IPC_HERE_I_AM =? OPENNOP_IPC_HERE_I_AM) with true. cbn iota.
    rewrite ipc_send_message_ok by (apply (ii_id _ _ Hi) || apply (ii_key _ _ Hi) || by right).
    cbn [mbind outcome_bind].
    destruct (save_peer_id_ok (log_send s (fd, wire (key s) OPENNOP_IPC_I_SEE_YOU (opennop_localid s)))
      fd ip x n (received hd mac OPENNOP_IPC_HERE_I_AM id rest) (8 + blen mac) id)
      as (s' & E & Hok' & Hl & Hs'); [by apply ipc_ok_log|done..|].
    rewrite E. cbn [mbind outcome_bind]. exists s'. split_and!; [done|done|done|]. by rewrite Hs'.
  - change (OPENNOP_IPC_I_SEE_YOU =? OPENNOP_IPC_HERE_I_AM) with false.
    change (OPENNOP_IPC_I_SEE_YOU =? OPENNOP_IPC_I_SEE_YOU) with true. cbn iota.
    destruct (save_peer_id_ok s fd ip x n (received hd mac OPENNOP_IPC_I_SEE_YOU id rest) (8 + blen mac) id)
      as (s1 & E & Hok1 & Hl & Hs1); [done..|].
    rewrite E. cbn [mbind outcome_bind].
    assert (Hx1 : neighbors s1 !! x = Some (set_nb_id n id)) by (rewrite Hl; apply lookup_insert_eq).
    unfold ipc_set_neighbor_state. rewrite (peer_known s1 fd ip x _ Hok1 Hg Hx1) by done.
    cbn [mbind outcome_bind].
    destruct (neighbor_nb_ok s x n Hok Hx) as (Hidn & Hkn & Hsn).
    destruct (update_neighbor_ok s1 x (set_nb_id n id) (λ n, set_nb_timer (set_nb_state n UP) (now env)) Hok1 Hx1)
      as (s' & E' & Hok' & Hl' & Hs'); [by split_and!|done|].
    rewrite E'. cbn [mbind outcome_bind]. exists s'. split_and!; [done|done| |].
    + rewrite Hl', Hl. apply insert_insert_eq.
    + by rewrite Hs', Hs1.
Qed.

(** ** Receiving *)
Lemma get_header_plain type id rest :
  get_header_data (plain_message type id ++ rest)
  = Ret (received [1; 0; 1; 0; 16; 0; 0; 0] [] type id rest, None, 8).
Proof. unfold plain_message, received. by rewrite <-!app_assoc. Qed.

Lemma signed_received mac type id rest :
  signed_message mac type id ++ rest = received [1; 0; 1; 0; 48; 0; 1; 0] mac type id rest.
Proof. unfold signed_message, received. by rewrite <-!app_assoc. Qed.

Lemma get_header_signed mac type id rest :
  get_header_data (signed_message mac type id ++ rest)
  = Ret (received [1; 0; 1; 0; 80; 0; 1; 0] mac type id rest, Some 8, 40).
Proof.
  rewrite signed_received. unfold received. set (l := mac ++ hello_body type id ++ rest).
  change ([1; 0; 1; 0; 48; 0; 1; 0] ++ l) with (1 :: 0 :: 1 :: 0 :: 48 :: 0 :: 1 :: 0 :: l).
  unfold get_header_data.
  change (msg_security _) with (Ret 1 : outcome Z). cbn [mbind outcome_bind].
  change (1 =? 1) with true. cbn iota. change (msg_length _) with (Ret 48 : outcome Z).
  cbn [mbind outcome_bind]. unfold st16. pose proof (blen_nonneg l).
  rewrite wr_in by (unfold blen in *; cbn [length]; lia). cbn [mbind outcome_bind].
  rewrite wr_in by (rewrite blen_insert; unfold blen in *; cbn [length]; lia).
  reflexivity.
Qed.

(** The MAC field of a signed message. *)
Lemma mac_in_message mac type id rest : length mac = 32%nat →
  in_object (signed_message mac type id ++ rest) 8 32 = true
  ∧ sub (signed_message mac type id ++ rest) 8 32 = mac
  ∧ put (signed_message mac type id ++ rest) 8 no_mac = signed_message no_mac type id ++ rest.
Proof.
  intros Hl. assert (Ek : blen mac = 32) by (unfold blen; lia). unfold signed_message.
  rewrite <-!app_assoc. change 8 with (blen [1; 0; 1; 0; 48; 0; 1; 0]). split_and!.
  - rewrite <-Ek. unfold in_object. rewrite (blen_app _ (mac ++ _)), (blen_app mac).
    pose proof (blen_nonneg (hello_body type id ++ rest)). pose proof (blen_nonneg mac).
    pose proof (blen_nonneg [1; 0; 1; 0; 48; 0; 1; 0]). by bool_lia.
  - rewrite <-Ek. apply sub_app.
  - apply put_app. by rewrite Hl.
Qed.

Lemma check_hmac_signed s fd ip x n mac type id rest :
  ipc_ok s → getpeername env fd = Some ip → neighbors s !! x = Some n → NeighborIP n = ip →
  length mac = 32%nat → is_id id →
  check_hmac_sha256 hmac env s fd (signed_message mac type id ++ rest)
  = if bool_decide (mac = mac_of (nb_key n) type id)
    then process_message hmac env s fd
           (signed_message (mac_of (nb_key n) type id) type id ++ rest)
    else Ret (s, -1).
Proof.
  intros Hok Hg Hx Hip Hm Hid. unfold check_hmac_sha256.
  rewrite (peer_known s fd ip x n) by done. cbn [mbind outcome_bind].
  pose proof Hx as (nd & Hnd & Ed)%neighbors_node. unfold load, deref. rewrite Hnd.
  cbn [mbind outcome_bind]. rewrite Ed.
  destruct (neighbor_nb_ok s x n Hok Hx) as (_ & Hk & _). unfold HMAC_LENGTH.
  destruct (mac_in_message mac type id rest Hm) as (H1 & H2 & Hp). rewrite H1, H2.
  rewrite memset_Ret by done. cbn [mbind outcome_bind].
  change (replicate (Z.to_nat 32) (u8 0)) with no_mac.
  rewrite Hp, calculate_hmac_signed by done. cbn [mbind outcome_bind].
  fold (mac_of (nb_key n) type id).
  assert (Hl : length (mac_of (nb_key n) type id) = 32%nat) by apply hmac_length.
  by destruct (mac_in_message _ type id rest Hl) as (_ & -> & _).
Qed.

Lemma key_empty_take k k' :
  length k = OPENNOP_IPC_KEY_LENGTH → length k' = OPENNOP_IPC_KEY_LENGTH →
  take 64 k = take 64 k' → key_is_empty k = key_is_empty k'.
Proof.
  destruct k as [|a k]; [done|]. destruct k' as [|b k']; [done|]. intros _ _ [= -> _]. done.
Qed.

(** What the handler does with an IPC message from a configured neighbor. *)
Lemma ipc_handler_known s fd ip x n m sec :
  ipc_ok s → getpeername env fd = Some ip → neighbors s !! x = Some n → NeighborIP n = ip →
  msg_type m = Ret OPENNOP_MSG_TYPE_IPC → msg_security m = Ret sec →
  ipc_handler hmac env s fd m
  = if sec =? (if key_is_empty (nb_key n) then OPENNOP_MSG_SECURITY_NO else OPENNOP_MSG_SECURITY_SHA)
    then if sec =? OPENNOP_MSG_SECURITY_NO then process_message hmac env s fd m
         else check_hmac_sha256 hmac env s fd m
    else Ret (s, -1).
Proof.
  intros Hok Hg Hx Hip Ht Hs. pose proof Hx as (nd & Hnd & Ed)%neighbors_node.
  unfold ipc_handler. rewrite Ht. cbn [mbind outcome_bind]. rewrite Z.eqb_refl.
  unfold check_security. rewrite (peer_known s fd ip x n) by done. cbn [mbind outcome_bind].
  unfold load, deref. rewrite Hnd. cbn [mbind outcome_bind]. rewrite Ed.
  unfold validate_security. by rewrite Hs.
Qed.

Lemma wire_key k k' type id : length k = OPENNOP_IPC_KEY_LENGTH → length k' = OPENNOP_IPC_KEY_LENGTH →
  take 64 k = take 64 k' → wire k type id = wire k' type id.
Proof. intros H1 H2 E. unfold wire, mac_of. by rewrite (key_empty_take _ _ H1 H2 E), E. Qed.

(** A hello message made with the neighbor's key, whatever stands behind it in the buffer. *)
Lemma hello_received s fd ip x n type id rest :
  ipc_ok s → hello_type type → is_id id →
  getpeername env fd = Some ip → neighbors s !! x = Some n → NeighborIP n = ip →
  ∃ s', ipc_handler hmac env s fd (wire (nb_key n) type id ++ rest) = Ret (s', 0)
    ∧ ipc_ok s' ∧ neighbors s' = <[x := after_hello type id n]> (neighbors s) ∧ sent s' = reply_to s type fd.
Proof.
  intros Hok Ht Hid Hg Hx Hip. unfold wire. destruct (key_is_empty (nb_key n)) eqn:Hke.
  - rewrite (ipc_handler_known s fd ip x n _ 0) by done. rewrite Hke.
    destruct (process_hello s fd ip x n (plain_message type id ++ rest)
      [1; 0; 1; 0; 16; 0; 0; 0] [] type id rest) as (s' & E' & H1 & H2 & H3); [done..| |eauto 10].
    exists None. apply get_header_plain.
  - rewrite (ipc_handler_known s fd ip x n _ 1) by done. rewrite Hke.
    change (1 =? OPENNOP_MSG_SECURITY_SHA) with true. change (1 =? OPENNOP_MSG_SECURITY_NO) with false. cbn iota.
    rewrite (check_hmac_signed s fd ip x n) by (done || apply hmac_length).
    rewrite bool_decide_eq_true_2 by done.
    destruct (process_hello s fd ip x n (signed_message (mac_of (nb_key n) type id) type id ++ rest)
      [1; 0; 1; 0; 80; 0; 1; 0] (mac_of (nb_key n) type id) type id rest)
      as (s' & E' & H1 & H2 & H3); [done..| |eauto 10].
    exists (Some 8). rewrite get_header_signed. unfold blen at 1, mac_of. by rewrite hmac_length.
Qed.

(** C14: two nodes that configured each other with the same key (or none) understand
    each other: what [ipc_send_message] of the first puts on the wire is accepted
    by [ipc_handler] of the second, which records the sender's id; an I_SEE_YOU also
    marks the neighbor UP, a HERE_I_AM is answered with the receiver's own signed
    I_SEE_YOU.  It holds for every HMAC function with 32-byte results. *)
Theorem hello_exchange a s fd ip x n type rest :
  ipc_ok a → ipc_ok s → hello_type type →
  getpeername env fd = Some ip → neighbors s !! x = Some n → NeighborIP n = ip →
  take 64 (nb_key n) = take 64 (key a) →
  ∃ pad s', build_message hmac a type = Ret (wire (key a) type (opennop_localid a) ++ pad)
    ∧ ipc_handler hmac env s fd (wire (key a) type (opennop_localid a) ++ rest) = Ret (s', 0)
    ∧ ipc_ok s' ∧ neighbors s' = <[x := after_hello type (opennop_localid a) n]> (neighbors s)
    ∧ sent s' = reply_to s type fd.
Proof.
  intros (la & Ha) Hok Ht Hg Hx Hip Hkeys.
  destruct (build_message_wire a type (ii_id _ _ Ha) (ii_key _ _ Ha) Ht) as (pad & E). exists pad. rewrite E.
  destruct (neighbor_nb_ok s x n Hok Hx) as (_ & Hkn & _).
  rewrite <-(wire_key (nb_key n) (key a)) by (done || apply (ii_key _ _ Ha)).
  destruct (hello_received s fd ip x n type (opennop_localid a) rest) as (s' & H); [done| |apply (ii_id _ _ Ha)|done..|].
  - done.
  - by exists s'.
Qed.

(** The message [m] shows that its sender knows what the neighbor at the other end
    of [fd] shares with this node. *)
Definition authentic (s : ipcstate) (fd : Z) (m : buffer) : Prop :=
  ∃ ip x n, getpeername env fd = Some ip ∧ neighbors s !! x = Some n ∧ NeighborIP n = ip
    ∧ if key_is_empty (nb_key n) then msg_security m = Ret OPENNOP_MSG_SECURITY_NO
      else msg_security m = Ret OPENNOP_MSG_SECURITY_SHA
           ∧ ∃ len, msg_length m = Ret len
             ∧ sub m 8 32 = hmac (take 64 (nb_key n)) (sub (put m 8 no_mac) 0 len).

Lemma check_hmac_eq s fd ip x n m len :
  ipc_ok s → getpeername env fd = Some ip → neighbors s !! x = Some n → NeighborIP n = ip →
  in_object m 8 32 = true → msg_length m = Ret len →
  let mac := hmac (take 64 (nb_key n)) (sub (put m 8 no_mac) 0 len) in
  check_hmac_sha256 hmac env s fd m
  = if in_object m 0 len then
      if bool_decide (sub m 8 32 = mac) then process_message hmac env s fd (put (put m 8 no_mac) 8 mac)
      else Ret (s, -1)
    else Undef.
Proof.
  intros Hok Hg Hx Hip Eo Hl mac. unfold check_hmac_sha256. rewrite (peer_known s fd ip x n) by done.
  pose proof Hx as (nd & Hnd & Ed)%neighbors_node. destruct (neighbor_nb_ok s x n Hok Hx) as (_ & Hk & _).
  unfold load, deref. cbn [mbind outcome_bind]. rewrite Hnd. cbn [mbind outcome_bind]. rewrite Ed.
  unfold HMAC_LENGTH. rewrite Eo, memset_Ret by done. cbn [mbind outcome_bind].
  change (replicate (Z.to_nat 32) (u8 0)) with no_mac. set (m0 := put m 8 no_mac).
  pose proof Eo as Hr. unfold in_object in Hr. unbool.
  assert (Hb : blen m0 = blen m) by (apply blen_put; [lia|]; change (blen no_mac) with 32; lia).
  assert (Ho : ∀ o k, in_object m0 o k = in_object m o k) by (intros; unfold in_object; by rewrite Hb).
  assert (Hml : msg_length m0 = Ret len).
  { rewrite <-Hl. unfold msg_length, ld16. rewrite !rd_at by lia. cbn [mbind outcome_bind].
    unfold m0. rewrite !at_put_lt by lia. done. }
  unfold calculate_hmac_sha256. rewrite Hml. destruct (take_key _ Hk) as [-> ->].
  cbn [mbind outcome_bind]. rewrite Ho. destruct (in_object m 0 len); cbn [andb]; [|done].
  assert (Hmac : blen mac = 32) by (unfold blen, mac; by rewrite hmac_length).
  unfold copy_in, HMAC_LENGTH. rewrite (Ho 8 32), Eo. assert (E0 : in_object mac 0 32 = true) by (unfold in_object; by rewrite Hmac).
  change (hmac (take 64 (nb_key n)) (sub m0 0 len)) with mac.
  rewrite E0. cbn [andb mbind outcome_bind]. assert (Es : sub mac 0 32 = mac) by (rewrite <-Hmac; apply sub_all).
  rewrite Es.
  rewrite sub_put; [done|by rewrite Ho|done].
Qed.

Lemma check_hmac_short s fd ip x n m :
  ipc_ok s → getpeername env fd = Some ip → neighbors s !! x = Some n → NeighborIP n = ip →
  in_object m 8 32 = false → check_hmac_sha256 hmac env s fd m = Undef.
Proof.
  intros Hok Hg Hx Hip Eo. unfold check_hmac_sha256. rewrite (peer_known s fd ip x n) by done.
  pose proof Hx as (nd & Hnd & Ed)%neighbors_node.
  unfold load, deref. cbn [mbind outcome_bind]. rewrite Hnd. cbn [mbind outcome_bind].
  unfold HMAC_LENGTH. by rewrite Eo.
Qed.

Lemma msg_length_in m : in_object m 8 32 = true → ∃ len, msg_length m = Ret len.
Proof.
  unfold in_object. intros H. unbool. unfold msg_length, ld16. rewrite !rd_at by lia. simpl. eauto.
Qed.

Lemma header_in m : 40 <= blen m → (∃ ty, msg_type m = Ret ty) ∧ (∃ sec, msg_security m = Ret sec) ∧ in_object m 8 32 = true.
Proof.
  intros H. unfold msg_type, msg_security, in_object. rewrite !rd_at by lia. bool_lia. eauto.
Qed.

(** C15: a message of at least 40 bytes that does not carry proof of the shared key changes
    nothing: it is not answered, no neighbor's id, state or timer moves, and -1 is returned
    for it (0 when it is not an IPC message at all).  In particular a neighbor with a key
    never accepts an unsigned message, and messages from unknown peers are dropped.  The
    exception is a message whose length field reaches behind the buffer, where the handler
    reads behind it. *)
Theorem unauthentic_ignored s fd m :
  ipc_ok s → bytes m → 40 <= blen m → ¬ authentic s fd m →
  ipc_handler hmac env s fd m
    = Ret (s, if m @@ 0 =? OPENNOP_MSG_TYPE_IPC then -1 else 0)
  ∨ ∃ len, msg_length m = Ret len ∧ blen m < len ∧ ipc_handler hmac env s fd m = Undef.
Proof.
  intros Hok Hb Hm Ha. destruct (header_in m Hm) as ((ty & Et) & (sec & Hsec) & Eo).
  assert (E0 : m @@ 0 = ty) by (unfold msg_type in Et; rewrite rd_at in Et by lia; by injection Et).
  rewrite E0. destruct (Z.eqb_spec ty OPENNOP_MSG_TYPE_IPC) as [->|Hty].
  2: { left. unfold ipc_handler. rewrite Et. cbn [mbind outcome_bind]. by rewrite (proj2 (Z.eqb_neq _ _) Hty). }
  destruct (getpeername env fd) as [ip|] eqn:Hg.
  2: { left. unfold ipc_handler, check_security, find_neighbor_by_socket. by rewrite Et, Hg. }
  destruct (find_by_ip s ip Hok) as [[Ef _]|(x & n & _ & Hx & Hip)].
  { left. unfold ipc_handler, check_security, find_neighbor_by_socket, find_neighbor_by_addr. rewrite Et, Hg.
    unfold find_neighbor_by_u32 in Ef. by rewrite Ef. }
  rewrite (ipc_handler_known s fd ip x n m sec) by done. destruct (key_is_empty (nb_key n)) eqn:Ek.
  - destruct (Z.eqb_spec sec OPENNOP_MSG_SECURITY_NO) as [->|]; [|by left].
    destruct Ha. exists ip, x, n. by rewrite Ek.
  - destruct (Z.eqb_spec sec OPENNOP_MSG_SECURITY_SHA) as [->|]; [|by left].
    change (OPENNOP_MSG_SECURITY_SHA =? OPENNOP_MSG_SECURITY_NO) with false. cbn iota.
    destruct (msg_length_in m Eo) as (len & El). rewrite (check_hmac_eq s fd ip x n m len) by done.
    destruct (in_object m 0 len) eqn:Eio.
    + left. case_bool_decide as Hd; [|done]. destruct Ha. exists ip, x, n. rewrite Ek. eauto 10.
    + right. exists len. split_and!; [done| |done]. unfold in_object in Eio.
      assert (0 <= len); [|unbool; lia].
      unfold msg_length, ld16 in El. rewrite !rd_at in El by lia. cbn [mbind outcome_bind] in El.
      injection El as <-. pose proof (at_bytes m 4 Hb). pose proof (at_bytes m (4 + 1) Hb). lia.
Qed.

(** The length field of a signed message is used before anything is verified:
    for a neighbor with a key, a message whose length field exceeds the receive
    buffer makes the handler read behind the buffer. *)
Theorem hmac_overread s fd ip x n m len :
  ipc_ok s → getpeername env fd = Some ip → neighbors s !! x = Some n → NeighborIP n = ip →
  key_is_empty (nb_key n) = false →
  msg_type m = Ret OPENNOP_MSG_TYPE_IPC → msg_security m = Ret OPENNOP_MSG_SECURITY_SHA →
  in_object m 8 HMAC_LENGTH = true →
  msg_length m = Ret len → blen m < len →
  ipc_handler hmac env s fd m = Undef.
Proof.
  intros Hok Hg Hx Hip Hk Ht Hs Hin Hl Hlen.
  rewrite (ipc_handler_known s fd ip x n m OPENNOP_MSG_SECURITY_SHA), Hk by done.
  change (OPENNOP_MSG_SECURITY_SHA =? OPENNOP_MSG_SECURITY_SHA) with true.
  change (OPENNOP_MSG_SECURITY_SHA =? OPENNOP_MSG_SECURITY_NO) with false. cbn iota.
  rewrite (check_hmac_eq s fd ip x n m len) by done.
  replace (in_object m 0 len) with false; [done|]. unfold in_object. pose proof (blen_nonneg m).
  by bool_lia.
Qed.
End Wire.

(** * The periodic hello *)
Section Hello.
Context (hmac : list Z → list Z → list Z).
Context (hmac_length : ∀ k d, length (hmac k d) = 32%nat).

(** *** What one round does to one neighbor, the answers at it being [env]. *)
Section OneNeighbor.
Context (env : ipc_env) (time : Z).

Definition connects (n : neighbor) : bool :=
  bool_decide (nb_state n = DOWN) && (30 <=? time - hellotimer n) && (sock n =? 0).
Definition greets (n : neighbor) : bool :=
  negb (bool_decide (nb_state n = DOWN)) && (10 <=? time - hellotimer n) && negb (sock n =? 0).

Definition hello_result (hello : list Z) (n : neighbor) : neighbor :=
  if connects n then
    let n1 := set_nb_hellotimer n time in
    match new_ip_client env (NeighborIP n) with
    | Some fd => if 0 <=? fd then set_nb_state (set_nb_sock n1 fd) ATTEMPT else n1
    | None => n1
    end
  else if bool_decide (nb_state n = DOWN) && (30 <=? time - hellotimer n) then
    set_nb_state (set_nb_hellotimer n time) ATTEMPT
  else if greets n then
    let n1 := set_nb_hellotimer n time in
    let n2 := if bool_decide (nb_state n = UP) && (30 <? time - timer n)
              then set_nb_timer (set_nb_state n1 DOWN) (now env) else n1 in
    if send_result env (sock n) hello <? 0 then set_nb_sock (set_nb_state n2 DOWN) 0 else n2
  else n.

(** The program ends: the connection cannot be made for lack of a socket, or not registered. *)
Definition hello_exits (n : neighbor) : bool :=
  connects n && match new_ip_client env (NeighborIP n) with
                | Some fd => (0 <=? fd) && negb (fcntl_ok env fd && epoll_ctl_ok env fd)
                | None => true
                end.

(** The messages to it, the socket opened to it, the socket to it that is closed. *)
Definition hello_sent (hello : list Z) (n : neighbor) : list (Z * list Z) :=
  if greets n then [(sock n, hello)] else [].
Definition hello_opened (n : neighbor) : list Z :=
  if connects n then
    match new_ip_client env (NeighborIP n) with Some fd => if 0 <=? fd then [fd] else [] | None => [] end
  else [].
Definition hello_closed (hello : list Z) (n : neighbor) : list Z :=
  if greets n && (send_result env (sock n) hello <? 0) then [sock n] else [].

Lemma hello_result_ok hello n : nb_ok n → nb_ok (hello_result hello n).
Proof.
  intros (Hi & Hk & H1 & H2). unfold hello_result. repeat case_match; split_and!; simpl; done.
Qed.

Lemma hello_result_same hello n :
  NeighborIP (hello_result hello n) = NeighborIP n ∧ nb_key (hello_result hello n) = nb_key n.
Proof. unfold hello_result. by repeat case_match. Qed.
End OneNeighbor.

(** *** The round, as a function of the neighbors, the messages sent and the descriptors. *)
Record view := View {
  v_neighbors : gmap loc neighbor; v_sent : list (Z * list Z); v_monitored : list Z; v_closed : list Z
}.

Definition view_of (st : epoller ipcstate) : view :=
  View (neighbors (app st)) (sent (app st)) (monitored st) (closed st).

Definition hello_view (h : hello_env) (hello : list Z) (o : option view) (x : loc) : option view :=
  v ← o;
  match v_neighbors v !! x with
  | Some n =>
      let env := at_neighbor h x in
      let time := currenttime h in
      if hello_exits env time n then None else
      Some (View (<[x := hello_result env time hello n]> (v_neighbors v))
                 (hello_sent time hello n ++ v_sent v)
                 (hello_opened env time n ++ filter (λ fd, fd ∉ hello_closed env time hello n) (v_monitored v))
                 (hello_closed env time hello n ++ v_closed v))
  | None => Some v
  end.

(** The socket of a neighbor is connected to it, as its visit will be told. *)
Definition connected (h : hello_env) (x : loc) (n : neighbor) : Prop :=
  sock n ≠ 0 → getpeername (at_neighbor h x) (sock n) = Some (NeighborIP n).

Lemma set_state_known env s l x n fd v :
  ipc_inv s l → neighbors s !! x = Some n → getpeername env fd = Some (NeighborIP n) →
  v ≠ ESTABLISHED → v ≠ SHUTTINGDOWN →
  ∃ s', ipc_set_neighbor_state env s fd v = Ret s' ∧ ipc_inv s' l
    ∧ neighbors s' = <[x := set_nb_timer (set_nb_state n v) (now env)]> (neighbors s)
    ∧ s' = set_nheap s (nheap s').
Proof.
  intros Hi Hx Hg H1 H2. assert (Hok : ipc_ok s) by (by exists l).
  unfold ipc_set_neighbor_state. rewrite (peer_known env s fd (NeighborIP n) x n) by done.
  cbn [mbind outcome_bind]. destruct (neighbor_nb_ok s x n Hok Hx) as (Ha & Hb & _).
  apply (update_neighbor_inv s l x n (λ n, set_nb_timer (set_nb_state n v) (now env))); [done..| |done].
  by split_and!.
Qed.

Lemma same_fields s s' :
  s' = set_nheap s (nheap s') → sent s' = sent s ∧ key s' = key s ∧ opennop_localid s' = opennop_localid s.
Proof. by intros ->. Qed.

(** Two updates of one neighbor. *)
Lemma update_twice s l x n f g :
  ipc_inv s l → neighbors s !! x = Some n → nb_ok (f n) → NeighborIP (f n) = NeighborIP n →
  nb_ok (g (f n)) → NeighborIP (g (f n)) = NeighborIP n →
  ∃ s1 s', update_neighbor s x f = Ret s1 ∧ update_neighbor s1 x g = Ret s' ∧ ipc_inv s' l
    ∧ ipc_inv s1 l ∧ neighbors s1 = <[x := f n]> (neighbors s) ∧ s1 = set_nheap s (nheap s1)
    ∧ neighbors s' = <[x := g (f n)]> (neighbors s) ∧ s' = set_nheap s (nheap s').
Proof.
  intros Hi Hx Hf Hfi Hg Hgi.
  destruct (update_neighbor_inv s l x n f Hi Hx Hf Hfi) as (s1 & E1 & Hi1 & Hl1 & Hs1).
  assert (Hx1 : neighbors s1 !! x = Some (f n)) by (rewrite Hl1; apply lookup_insert_eq).
  destruct (update_neighbor_inv s1 l x (f n) g Hi1 Hx1 Hg) as (s' & E & Hi' & Hl & Hs'); [congruence|].
  exists s1, s'. split_and!; [done..| |].
  - rewrite Hl, Hl1. apply insert_insert_eq.
  - rewrite Hs', Hs1. done.
Qed.

(** What a visit leaves: the list, the local id and key, the buffer. *)
Definition visit_kept (st st' : epoller ipcstate) (l : list loc) : Prop :=
  ipc_inv (app st') l ∧ key (app st') = key (app st)
  ∧ opennop_localid (app st') = opennop_localid (app st) ∧ buf st' = buf st.

Definition wire_of (s : ipcstate) : list Z := wire hmac (key s) OPENNOP_IPC_HERE_I_AM (opennop_localid s).

Lemma filter_nothing (l : list Z) : filter (λ fd, fd ∉ @nil Z) l = l.
Proof. induction l as [|x l IH]; [done|]. rewrite filter_cons_True by set_solver. by rewrite IH. Qed.

Lemma filter_one (y : Z) (l : list Z) : filter (λ fd, fd ∉ [y]) l = filter (λ fd, fd ≠ y) l.
Proof. apply list_filter_iff. intros z. set_solver. Qed.

Lemma register_spec (b1 b2 : bool) (st : epoller ipcstate) fd :
  0 <= fd →
  register_socket b1 b2 st fd
  = if b1 && b2 then Some (Epoller (buf st) (fd :: monitored st) (closed st) (app st)) else None.
Proof. intros H. unfold register_socket. bool_lia. by destruct b1, b2. Qed.

(** A neighbor that is greeted. *)
Lemma hello_contact h st l x n :
  ipc_inv (app st) l → neighbors (app st) !! x = Some n →
  getpeername (at_neighbor h x) (sock n) = Some (NeighborIP n) →
  let env := at_neighbor h x in let time := currenttime h in
  let silent := bool_decide (nb_state n = UP) && (30 <? time - timer n) in
  let n1 := set_nb_hellotimer n time in
  let n2 := if silent then set_nb_timer (set_nb_state n1 DOWN) (now env) else n1 in
  let failed := send_result env (sock n) (wire_of (app st)) <? 0 in
  ∃ s', (s ← update_neighbor (app st) x (λ n, set_nb_hellotimer n time);
      s ← (if silent then ipc_set_neighbor_state env s (sock n) DOWN else Ret s);
      '(s, error) ← ipc_send_message hmac env s (sock n) OPENNOP_IPC_HERE_I_AM;
      if error <? 0 then
        s ← update_neighbor s x (λ n, set_nb_sock (set_nb_state n DOWN) 0);
        Ret (Some (set_app (close st (sock n)) s))
      else Ret (Some (set_app st s)))
    = Ret (Some (set_app (if failed then close st (sock n) else st) s'))
    ∧ ipc_inv s' l
    ∧ neighbors s' = <[x := if failed then set_nb_sock (set_nb_state n2 DOWN) 0 else n2]> (neighbors (app st))
    ∧ sent s' = (sock n, wire_of (app st)) :: sent (app st) ∧ key s' = key (app st)
    ∧ opennop_localid s' = opennop_localid (app st).
Proof.
  intros Hi Hx Hp env time silent n1 n2 failed. assert (Hok : ipc_ok (app st)) by (by exists l).
  destruct (neighbor_nb_ok (app st) x n Hok Hx) as (Hid & Hk & Hs1 & Hs2).
  destruct (update_neighbor_inv (app st) l x n (λ n, set_nb_hellotimer n time) Hi Hx)
    as (sa & Ea & Hia & Hla & Hsa); [by split_and!|done|].
  rewrite Ea. cbn [mbind outcome_bind]. destruct (same_fields _ _ Hsa) as (Fa1 & Fa2 & Fa3).
  assert (Hxa : neighbors sa !! x = Some n1) by (rewrite Hla; apply lookup_insert_eq).
  assert (∃ sb, (if silent then ipc_set_neighbor_state env sa (sock n) DOWN else Ret sa) = Ret sb
    ∧ ipc_inv sb l ∧ neighbors sb = <[x := n2]> (neighbors (app st)) ∧ sb = set_nheap (app st) (nheap sb))
    as (sb & Eb & Hib & Hlb & Hsb).
  { unfold n2. destruct silent; [|by exists sa].
    destruct (set_state_known env sa l x n1 (sock n) DOWN) as (sb & Eb & Hib & Hlb & Hsb); [done..|].
    exists sb. split_and!; [done|done| |by rewrite Hsb, Hsa]. rewrite Hlb, Hla. apply insert_insert_eq. }
  rewrite Eb. cbn [mbind outcome_bind]. destruct (same_fields _ _ Hsb) as (Fb1 & Fb2 & Fb3).
  rewrite (ipc_send_message_ok hmac hmac_length) by (done || apply (ii_id _ _ Hib) || apply (ii_key _ _ Hib) || by left).
  cbn [mbind outcome_bind]. rewrite Fb2, Fb3. fold (wire_of (app st)). fold failed.
  assert (Hn2 : nb_state n2 ≠ ESTABLISHED ∧ nb_state n2 ≠ SHUTTINGDOWN ∧ nb_id n2 = nb_id n ∧ nb_key n2 = nb_key n)
    by (unfold n2; destruct silent; done).
  destruct Hn2 as (Hn2a & Hn2b & Hn2c & Hn2d).
  destruct failed.
  - destruct (update_neighbor_inv (log_send sb (sock n, wire_of (app st))) l x n2 (λ n, set_nb_sock (set_nb_state n DOWN) 0))
      as (sc & Ec & Hic & Hlc & Hsc); [by apply ipc_inv_log| | | |].
    + change (neighbors (log_send sb _)) with (neighbors sb). rewrite Hlb. apply lookup_insert_eq.
    + split_and!; simpl; [by rewrite Hn2c|by rewrite Hn2d|done..].
    + done.
    + rewrite Ec. exists sc. destruct (same_fields _ _ Hsc) as (-> & -> & ->).
      split_and!; [done|done| |simpl; by rewrite Fb1|done|done].
      rewrite Hlc. change (neighbors (log_send sb _)) with (neighbors sb).
      rewrite Hlb. apply insert_insert_eq.
  - exists (log_send sb (sock n, wire_of (app st))).
    split_and!; [done|by apply ipc_inv_log|done|simpl; by rewrite Fb1|done|done].
Qed.

(** A neighbor that is connected to. *)
Lemma hello_connect h st l x n :
  ipc_inv (app st) l → neighbors (app st) !! x = Some n → connects (currenttime h) n = true →
  ∃ o, hello_neighbor hmac h st x = Ret o
    ∧ view_of <$> o = hello_view h (wire_of (app st)) (Some (view_of st)) x
    ∧ ∀ st', o = Some st' → visit_kept st st' l.
Proof.
  intros Hi Hx Hc. pose proof Hx as (nd & Hnd & Ed)%neighbors_node.
  destruct (neighbor_nb_ok (app st) x n (ex_intro _ l Hi) Hx) as (Hid & Hk & Hs1 & Hs2).
  pose proof Hc as Hc'. unfold connects in Hc'. apply andb_true_iff in Hc' as [Hdue E0].
  unfold hello_neighbor, load, deref. rewrite Hnd. cbn [mbind outcome_bind]. rewrite Ed, Hdue, E0.
  unfold hello_view, view_of. cbn [option_bind mbind v_neighbors v_sent v_monitored v_closed].
  rewrite Hx. unfold hello_exits, hello_opened, hello_closed, hello_sent, hello_result. rewrite Hc. cbn [andb].
  assert (Hg : greets (currenttime h) n = false).
  { unfold greets. apply andb_true_iff in Hdue as [-> _]. done. }
  rewrite Hg. cbn [andb app]. rewrite filter_nothing.
  destruct (update_twice (app st) l x n (λ n, set_nb_hellotimer n (currenttime h))
    (λ m, set_nb_state (set_nb_sock m (default 0 (new_ip_client (at_neighbor h x) (NeighborIP n)))) ATTEMPT) Hi Hx)
    as (s1 & s2 & E1 & E2 & Hi2 & Hi1 & Hn1 & Hq1 & Hn2 & Hq2); [done..|].
  destruct (same_fields _ _ Hq1) as (F1 & F2 & F3). destruct (same_fields _ _ Hq2) as (G1 & G2 & G3).
  rewrite E1. cbn [mbind outcome_bind].
  destruct (new_ip_client (at_neighbor h x) (NeighborIP n)) as [fd|]; cbn [default] in *; [|by exists None].
  destruct (Z.leb_spec 0 fd); cbn [andb negb].
  - cbn [from_option id] in E2, Hn2. rewrite E2. cbn [mbind outcome_bind]. rewrite register_spec by done.
    destruct (fcntl_ok (at_neighbor h x) fd && epoll_ctl_ok (at_neighbor h x) fd); cbn [negb]; [|by exists None].
    eexists. split; [done|]. split; [|intros ? E; by injection E as <-].
    cbn [fmap option_fmap option_map monitored closed app set_app]. by rewrite Hn2, G1.
  - eexists. split; [done|]. split; [|intros ? E; by injection E as <-].
    cbn [fmap option_fmap option_map monitored closed app set_app]. by rewrite Hn1, F1.
Qed.

Lemma hello_neighbor_spec h st l x n :
  ipc_inv (app st) l → neighbors (app st) !! x = Some n → connected h x n →
  ∃ o, hello_neighbor hmac h st x = Ret o
    ∧ view_of <$> o = hello_view h (wire_of (app st)) (Some (view_of st)) x
    ∧ ∀ st', o = Some st' → visit_kept st st' l.
Proof.
  intros Hi Hx Hcon. destruct (connects (currenttime h) n) eqn:Hc; [by eapply hello_connect|].
  pose proof Hx as (nd & Hnd & Ed)%neighbors_node.
  destruct (neighbor_nb_ok (app st) x n (ex_intro _ l Hi) Hx) as (Hid & Hk & Hs1 & Hs2).
  assert (Hst : (state_num ATTEMPT <=? state_num (nb_state n)) = negb (bool_decide (nb_state n = DOWN)))
    by (destruct (nb_state n); done).
  unfold hello_neighbor, load, deref. rewrite Hnd. cbn [mbind outcome_bind]. rewrite Ed, Hst.
  unfold hello_view, view_of. cbn [option_bind mbind v_neighbors v_sent v_monitored v_closed].
  rewrite Hx. unfold hello_exits, hello_opened, hello_closed, hello_sent, hello_result. rewrite Hc. cbn [andb].
  destruct (bool_decide (nb_state n = DOWN) && (30 <=? currenttime h - hellotimer n)) eqn:Hdue.
  - unfold connects in Hc. rewrite Hdue in Hc. cbn [andb] in Hc. rewrite Hc.
    assert (Hg : greets (currenttime h) n = false) by (unfold greets; apply andb_true_iff in Hdue as [-> _]; done).
    rewrite Hg. cbn [andb app]. rewrite filter_nothing.
    destruct (update_twice (app st) l x n (λ n, set_nb_hellotimer n (currenttime h)) (λ m, set_nb_state m ATTEMPT) Hi Hx)
      as (s1 & s2 & E1 & E2 & Hi2 & _ & _ & _ & Hn2 & Hq2); [done..|].
    destruct (same_fields _ _ Hq2) as (G1 & G2 & G3). rewrite E1. cbn [mbind outcome_bind]. rewrite E2.
    cbn [mbind outcome_bind]. eexists. split; [done|]. split; [|intros ? E; by injection E as <-].
    cbn [fmap option_fmap option_map monitored closed app set_app]. by rewrite Hn2, G1.
  - destruct (greets (currenttime h) n) eqn:Hg.
    + pose proof Hg as Hg'. unfold greets in Hg'. apply andb_true_iff in Hg' as [-> E0]. rewrite E0. cbn [andb].
      destruct (hello_contact h st l x n Hi Hx) as (s' & -> & Hi' & Hn & Hs & Hk' & Hid').
      { apply Hcon. unbool. done. }
      eexists. split; [done|]. split; [|intros ? E; injection E as <-; by destruct (_ <? _)].
      cbn [fmap option_fmap option_map monitored closed app set_app]. rewrite Hn, Hs.
      destruct (_ <? _); cbn [close monitored closed app buf]; [by rewrite filter_one|by rewrite filter_nothing].
    + assert (E : ∀ X Y : outcome (option (epoller ipcstate)),
        (if negb (bool_decide (nb_state n = DOWN)) && (10 <=? currenttime h - hellotimer n)
         then if negb (sock n =? 0) then X else Y else Y) = Y).
      { intros X Y. unfold greets in Hg. destruct (_ && (10 <=? _)); [|done]. cbn [andb] in Hg. by rewrite Hg. }
      rewrite E. exists (Some st). split; [done|]. cbn [andb app]. rewrite filter_nothing, insert_id by done.
      split; [done|]. intros ? E1; by injection E1 as <-.
Qed.

Lemma hello_view_None h w k : foldl (hello_view h w) None k = None.
Proof. by induction k. Qed.

Lemma hello_view_other h w v x v' y : hello_view h w (Some v) x = Some v' → y ≠ x →
  v_neighbors v' !! y = v_neighbors v !! y.
Proof.
  unfold hello_view. cbn [mbind option_bind]. destruct (v_neighbors v !! x); [|intros E; by injection E as <-].
  destruct (hello_exits _ _ _); [done|]. intros E Hy. injection E as <-. cbn [v_neighbors]. by rewrite lookup_insert_ne.
Qed.

Lemma hello_loop_spec h k pre st fuel :
  ipc_inv (app st) (pre ++ k) → (length k < fuel)%nat →
  (∀ x n, x ∈ k → neighbors (app st) !! x = Some n → connected h x n) →
  ∃ o, hello_loop hmac fuel h st (first k None) = Ret o
    ∧ view_of <$> o = foldl (hello_view h (wire_of (app st))) (Some (view_of st)) k
    ∧ ∀ st', o = Some st' → visit_kept st st' (pre ++ k).
Proof.
  revert pre st fuel. induction k as [|x k IH]; intros pre st [|fuel] Hi Hf Hc; simpl in Hf; try lia.
  { exists (Some st). split_and!; [done|done|]. intros ? E; by injection E as <-. }
  pose proof (ii_dll _ _ Hi) as Hd. pose proof Hd as (HN & _).
  assert (Hin : x ∈ pre ++ x :: k) by set_solver.
  destruct (dll_elem _ _ _ _ x Hd Hin) as (nd & Hnd & _).
  assert (Hx : neighbors (app st) !! x = Some (n_data nd)) by (apply payload_Some; eauto).
  destruct (hello_neighbor_spec h st (pre ++ x :: k) x (n_data nd) Hi Hx) as (o & E1 & Hv & Hk1);
    [by apply (Hc x); [set_solver|]|].
  cbn [hello_loop first foldl]. rewrite E1. cbn [mbind outcome_bind]. rewrite <-Hv.
  destruct o as [st1|]; [|exists None; cbn [fmap option_fmap option_map]; by rewrite hello_view_None].
  destruct (Hk1 st1 eq_refl) as (Hi1 & Hkey & Hid & Hbuf).
  pose proof (ii_dll _ _ Hi1) as (_ & _ & _ & [_ (d1 & Hnd1 & _)]%seg_app). simpl in Hnd1.
  unfold load, deref. rewrite Hnd1. cbn [mbind outcome_bind n_next].
  apply nodup_around in HN as (_ & _ & Hxk & _).
  destruct (IH (pre ++ [x]) st1 fuel) as (o & E & Hv' & Hk').
  { by rewrite <-app_assoc. }
  { lia. }
  { intros y n Hy Hyn. apply (Hc y n); [set_solver|]. symmetry in Hv. cbn [fmap option_fmap option_map] in Hv.
    rewrite <-Hyn. symmetry. apply (hello_view_other _ _ _ _ _ y Hv). set_solver. }
  exists o. split; [done|]. split.
  - rewrite Hv'. unfold wire_of. by rewrite Hkey, Hid.
  - intros st' ->. destruct (Hk' st' eq_refl) as (A1 & A2 & A3 & A4).
    rewrite <-app_assoc in A1. split_and!; [exact A1|congruence..].
Qed.

(** One round of hellos visits every configured neighbor exactly once, in list order, and
    does to each what the protocol says ([hello_view]): it connects to a neighbor that is
    down and registers the new socket, greets a connected one, marks it DOWN when it was UP
    but silent for 30 seconds, and marks it DOWN and closes its socket when the greeting
    cannot be sent; one HERE_I_AM goes out per due connection.  The round always ends: it
    returns, or ends the program where a new socket cannot be made or registered. *)
Lemma hello_round st h :
  ipc_ok (app st) → (∀ x n, neighbors (app st) !! x = Some n → connected h x n) →
  ∃ o l, hello_neighbors hmac h st = Ret o
    ∧ NoDup l ∧ (∀ x, x ∈ l ↔ is_Some (neighbors (app st) !! x))
    ∧ view_of <$> o = foldl (hello_view h (wire_of (app st))) (Some (view_of st)) l
    ∧ ∀ st', o = Some st' → visit_kept st st' l.
Proof.
  intros (l & Hi) Hc. pose proof (ii_dll _ _ Hi) as Hd. pose proof Hd as (HN & Hn & _).
  destruct (hello_loop_spec h l [] st (list_fuel (nheap (app st))) Hi) as (o & E & Hv & Hk).
  { pose proof (dll_length _ _ _ _ Hd). unfold list_fuel. lia. }
  { intros x n _. apply Hc. }
  exists o, l. unfold hello_neighbors. rewrite Hn. split_and!; [done|done| |done|done].
  intros x. split.
  - intros Hx. destruct (dll_elem _ _ _ _ x Hd Hx) as (nd & Hnd & _).
    unfold neighbors. rewrite payload_lookup, Hnd. by eexists.
  - intros [n (nd & Hnd & _)%neighbors_node]. by eapply ii_listed.
Qed.
End Hello.

(** * Properties of the configuration and the domain *)
Lemma add_update_inv s a g time ip k :
  ipc_ok s → nheap s !! a = None → garbage_ok g → key_param_ok k = true →
  ∃ s', add_update_neighbor s a g time ip k = Ret s' ∧ ipc_ok s'
    ∧ ((∃ x n, neighbors s !! x = Some n ∧ NeighborIP n = ip
          ∧ neighbors s' = <[x := set_nb_key n (new_key k)]> (neighbors s))
       ∨ (∀ x n, neighbors s !! x = Some n → NeighborIP n ≠ ip)
         ∧ ∃ n, neighbors s' = <[a := n]> (neighbors s) ∧ NeighborIP n = ip ∧ nb_state n = DOWN
             ∧ sock n = 0 ∧ key_is_empty (nb_key n) = key_is_empty (new_key k)
             ∧ (k ≠ None → nb_key n = new_key k)).
Proof.
  intros Hok Ha Hg Hk. unfold add_update_neighbor.
  destruct (find_by_ip s ip Hok) as [[-> Hno]|(x & n & -> & Hx & Hip)]; cbn [mbind outcome_bind].
  - unfold add_neighbor. destruct (allocate_neighbor_ok g time ip k Hg Hk) as (n & -> & Hn & Hip & Hst & Hso & Hke & Hkk).
    cbn [mbind outcome_bind]. destruct Hok as (l & Hi).
    destruct (add_fresh_neighbor s l a n Hi Ha Hn) as (s' & E & Hi' & Hl); [by rewrite Hip|].
    exists s'. split_and!; [done|by eexists|]. right. split; [done|]. exists n. done.
  - pose proof Hok as (l & Hi). pose proof Hx as (nd & Hnd & Ed)%neighbors_node.
    unfold load. unfold deref at 1. rewrite Hnd. cbn [mbind outcome_bind]. rewrite Ed.
    rewrite set_neighbor_key_ok by done. cbn [mbind outcome_bind].
    destruct (neighbor_nb_ok s x n Hok Hx) as (H1 & _ & H2 & H3).
    destruct (store_neighbor_inv s l x n (set_nb_key n (new_key k)) Hi Hx) as (h & E & Hi' & Hl).
    { split_and!; [done|by apply new_key_length|done..]. }
    { done. }
    rewrite E. cbn [mbind outcome_bind]. exists (set_nheap s h). split_and!; [done|by exists l|].
    left. by exists x, n.
Qed.

Lemma del_inv s ip :
  ipc_ok s → ∃ s', del_neighbor s ip = Ret s' ∧ ipc_ok s'
    ∧ ∀ x n, neighbors s' !! x = Some n ↔ neighbors s !! x = Some n ∧ NeighborIP n ≠ ip.
Proof.
  intros Hok. destruct (find_by_ip s ip Hok) as [[E Hno]|(x & n & E & Hx & <-)].
  - exists s. unfold del_neighbor. rewrite E. split_and!; [done..|].
    intros x n. split; [|by intros [? _]]. intros Hx. split; [done|by eapply Hno].
  - pose proof Hok as (l & Hi). destruct (del_neighbor_spec s l x n Hi Hx) as (s' & l' & E' & Hi' & Hl).
    exists s'. split_and!; [done|by exists l'|]. intros y k. rewrite Hl, lookup_delete_Some. split.
    + intros [Hne Hy]. split; [done|]. intros Ek. apply Hne. by apply (ii_ips _ _ Hi x y n k).
    + intros [Hy Hk]. split; [|done]. intros <-. congruence.
Qed.

(** The commands "neighbor" and "no neighbor" implement a map from addresses to
    neighbors: the first changes only the key of a neighbor that exists and
    otherwise adds one that is DOWN and not connected; the second removes the
    neighbor with that address and no other.  Both keep the list well formed. *)
Theorem neighbor_config_refines s a g time ip k :
  ipc_ok s → nheap s !! a = None → garbage_ok g → key_param_ok k = true →
  (∃ s', cli_neighbor s a g time (Some ip) k = Ret s' ∧ ipc_ok s'
    ∧ (∃ x n, neighbors s' !! x = Some n ∧ NeighborIP n = ip ∧ (k ≠ None → nb_key n = new_key k)
         ∧ (∀ m, neighbors s !! x = Some m → n = set_nb_key m (new_key k))
         ∧ (neighbors s !! x = None → nb_state n = DOWN ∧ sock n = 0)
         ∧ (∀ y, y ≠ x → neighbors s' !! y = neighbors s !! y)))
  ∧ (∃ s', cli_no_neighbor s (Some ip) = Ret s' ∧ ipc_ok s'
       ∧ ∀ x n, neighbors s' !! x = Some n ↔ neighbors s !! x = Some n ∧ NeighborIP n ≠ ip).
Proof.
  intros Hok Ha Hg Hk. split; [|by apply del_inv].
  destruct (add_update_inv s a g time ip k Hok Ha Hg Hk) as (s' & E & Hok' & H).
  exists s'. unfold cli_neighbor. rewrite Hk. split_and!; [done..|].
  destruct H as [(x & n & Hx & Hip & Hl)|(Hno & n & Hl & Hip & Hst & Hso & _ & Hkk)].
  - exists x, (set_nb_key n (new_key k)). rewrite Hl, lookup_insert_eq. split_and!; [done..| |by rewrite Hx|].
    + rewrite Hx. by intros m [= ->].
    + intros y Hy. by rewrite lookup_insert_ne.
  - exists a, n. rewrite Hl, lookup_insert_eq.
    assert (Hna : neighbors s !! a = None) by (unfold neighbors; rewrite payload_lookup; by rewrite Ha).
    split_and!; [done..| |done|].
    + by rewrite Hna.
    + intros y Hy. by rewrite lookup_insert_ne.
Qed.

Definition zero_garbage : list Z * list Z := (zero_id, zero_key).

Lemma start_ipc_ok r : ipc_ok (start_ipc r).
Proof.
  exists []. split; simpl.
  - by apply dll_nil.
  - done.
  - intros x y n k Hx. unfold neighbors, payload in Hx. simpl in Hx. by rewrite fmap_empty, lookup_empty in Hx.
  - apply generate_opennopid_is_id.
  - done.
Qed.

Lemma zero_garbage_ok : garbage_ok zero_garbage.
Proof. split; [|done]. split; [done|]. repeat constructor; done. Qed.

Lemma neighbor_config_refines_witness :
  (∃ s', cli_neighbor (start_ipc 5) 1 zero_garbage 100 (Some 167772161) (Some [107]) = Ret s' ∧ ipc_ok s'
    ∧ (∃ x n, neighbors s' !! x = Some n ∧ NeighborIP n = 167772161 ∧ (Some [107] ≠ None → nb_key n = new_key (Some [107]))
         ∧ (∀ m, neighbors (start_ipc 5) !! x = Some m → n = set_nb_key m (new_key (Some [107])))
         ∧ (neighbors (start_ipc 5) !! x = None → nb_state n = DOWN ∧ sock n = 0)
         ∧ (∀ y, y ≠ x → neighbors s' !! y = neighbors (start_ipc 5) !! y)))
  ∧ (∃ s', cli_no_neighbor (start_ipc 5) (Some 167772161) = Ret s' ∧ ipc_ok s'
       ∧ ∀ x n, neighbors s' !! x = Some n ↔ neighbors (start_ipc 5) !! x = Some n ∧ NeighborIP n ≠ 167772161).
Proof.
  apply (neighbor_config_refines (start_ipc 5) 1 zero_garbage 100 167772161 (Some [107])).
  - apply start_ipc_ok.
  - done.
  - apply zero_garbage_ok.
  - done.
Defined.

Lemma verify_spec s id :
  ipc_ok s → is_id id →
  ∃ b, verify_neighbor_in_domain s (Some id) = Ret b
    ∧ (b = true ↔ ∃ x n, neighbors s !! x = Some n ∧ nb_state n = UP ∧ nb_id n = id).
Proof.
  intros Hok Hid. unfold verify_neighbor_in_domain.
  destruct (find_in_spec s (λ n, compare_opennopid (Some (nb_id n)) (Some id) && bool_decide (nb_state n = UP)) Hok)
    as (r & -> & Hr). cbn [mbind outcome_bind]. eexists. split; [done|].
  rewrite bool_decide_eq_true. destruct r as [x|]; split.
  - intros _. destruct Hr as (n & Hn & Hf). unbool. exists x, n. split_and!; [done..|].
    destruct (neighbor_nb_ok s x n Hok Hn) as (Hin & _).
    match goal with H : compare_opennopid _ _ = true |- _ => rewrite compare_opennopid_eq in H by done; by unbool end.
  - intros _. by eexists.
  - by intros [? ?].
  - intros (x & n & Hn & Hst & Hi). specialize (Hr x n Hn). destruct (neighbor_nb_ok s x n Hok Hn) as (Hin & _).
    rewrite compare_opennopid_eq in Hr by done. rewrite Hi, Hst in Hr. by rewrite !bool_decide_eq_true_2 in Hr.
Qed.

(** * Reachable states of the component *)
Section Reach.
Context (hmac : list Z → list Z → list Z).
Context (hmac_length : ∀ k d, length (hmac k d) = 32%nat).

Lemma listed_neighbor s l x : ipc_inv s l → x ∈ l → ∃ n, neighbors s !! x = Some n.
Proof.
  intros Hi Hx. destruct (dll_elem _ _ _ _ x (ii_dll _ _ Hi) Hx) as (nd & Hnd & _).
  exists (n_data nd). apply payload_Some. eauto.
Qed.

(** Any change of a listed neighbor that keeps its address and [nb_ok]. *)
Lemma update_listed s l x f :
  ipc_inv s l → x ∈ l → (∀ n, nb_ok n → nb_ok (f n) ∧ NeighborIP (f n) = NeighborIP n) →
  ∃ s', update_neighbor s x f = Ret s' ∧ ipc_inv s' l.
Proof.
  intros Hi Hx Hf. destruct (listed_neighbor s l x Hi Hx) as (n & Hn).
  destruct (Hf n) as [H1 H2]; [apply (neighbor_nb_ok s x n); [by exists l|done]|].
  destruct (update_neighbor_inv s l x n f Hi Hn H1 H2) as (s' & E & Hi' & _). eauto.
Qed.

Lemma find_listed env s l fd :
  ipc_inv s l → ∃ r, find_neighbor_by_socket env s fd = Ret r ∧ ∀ x, r = Some x → x ∈ l.
Proof.
  intros Hi. unfold find_neighbor_by_socket. destruct (getpeername env fd) as [ip|]; [|by exists None].
  destruct (find_by_ip s ip) as [[E _]|(x & n & E & (nd & Hnd & _)%neighbors_node & _)]; [by exists l|..].
  - exists None. done.
  - exists (Some x). split; [done|]. intros ? [= <-]. by eapply ii_listed.
Qed.

Lemma set_state_inv env s l fd v :
  ipc_inv s l → v ≠ ESTABLISHED → v ≠ SHUTTINGDOWN →
  ∃ s', ipc_set_neighbor_state env s fd v = Ret s' ∧ ipc_inv s' l.
Proof.
  intros Hi H1 H2. unfold ipc_set_neighbor_state.
  destruct (find_listed env s l fd Hi) as ([x|] & -> & Hx); cbn [mbind outcome_bind]; [|eauto].
  apply update_listed; [done|by apply Hx|]. intros n (? & ? & _). by split_and!.
Qed.

Lemma send_inv env s l fd type :
  ipc_inv s l → hello_type type →
  ∃ w r, ipc_send_message hmac env s fd type = Ret (log_send s (fd, w), r) ∧ ipc_inv (log_send s (fd, w)) l.
Proof.
  intros Hi Ht. rewrite (ipc_send_message_ok hmac hmac_length env s fd type) by
    (done || apply (ii_id _ _ Hi) || apply (ii_key _ _ Hi)).
  eexists _, _. split; [done|]. by apply ipc_inv_log.
Qed.

Lemma hello_neighbor_inv h st l x :
  ipc_inv (app st) l → x ∈ l →
  ∃ o, hello_neighbor hmac h st x = Ret o ∧ ∀ st', o = Some st' → ipc_inv (app st') l ∧ buf st' = buf st.
Proof.
  intros Hi Hx. destruct (listed_neighbor (app st) l x Hi Hx) as (n & Hn).
  pose proof Hn as (nd & Hnd & Ed)%neighbors_node.
  unfold hello_neighbor, load, deref. rewrite Hnd. cbn [mbind outcome_bind]. rewrite Ed.
  destruct (update_listed (app st) l x (λ n, set_nb_hellotimer n (currenttime h)) Hi Hx) as (s1 & -> & Hi1); [done|].
  cbn [mbind outcome_bind]. destruct (bool_decide _ && (30 <=? _)).
  { destruct (sock n =? 0).
    - destruct (new_ip_client _ _) as [fd|]; [|by exists None]. destruct (Z.leb_spec 0 fd) as [Hfd|].
      + destruct (update_listed s1 l x (λ n, set_nb_state (set_nb_sock n fd) ATTEMPT) Hi1 Hx) as (s2 & -> & Hi2);
          [intros m (? & ? & ? & ?); by split_and!|].
        cbn [mbind outcome_bind]. rewrite register_spec by done. eexists. split; [done|].
        intros st'. destruct (_ && _); [|done]. intros E; by injection E as <-.
      + eexists. split; [done|]. intros ? E; by injection E as <-.
    - destruct (update_listed s1 l x (λ n, set_nb_state n ATTEMPT) Hi1 Hx) as (s2 & -> & Hi2);
        [intros m (? & ? & ? & ?); by split_and!|].
      eexists. split; [done|]. intros ? E; by injection E as <-. }
  destruct (_ && (10 <=? _)); [|eexists; split; [done|]; intros ? E; by injection E as <-].
  destruct (negb _); [|eexists; split; [done|]; intros ? E; by injection E as <-].
  assert (∃ s2, (if bool_decide (nb_state n = UP) && (30 <? currenttime h - timer n)
    then ipc_set_neighbor_state (at_neighbor h x) s1 (sock n) DOWN else Ret s1) = Ret s2 ∧ ipc_inv s2 l) as (s2 & -> & Hi2).
  { destruct (_ && _); [|eauto]. by apply set_state_inv. }
  cbn [mbind outcome_bind].
  destruct (send_inv (at_neighbor h x) s2 l (sock n) OPENNOP_IPC_HERE_I_AM Hi2) as (w & r & -> & Hi3); [by left|].
  cbn [mbind outcome_bind]. destruct (r <? 0); [|eexists; split; [done|]; intros ? E; by injection E as <-].
  destruct (update_listed (log_send s2 (sock n, w)) l x (λ n, set_nb_sock (set_nb_state n DOWN) 0) Hi3 Hx) as (s4 & -> & Hi4);
    [intros m (? & ? & ? & ?); by split_and!|].
  eexists. split; [done|]. intros ? E; by injection E as <-.
Qed.

Lemma hello_loop_inv h k pre st fuel :
  ipc_inv (app st) (pre ++ k) → (length k < fuel)%nat →
  ∃ o, hello_loop hmac fuel h st (first k None) = Ret o
    ∧ ∀ st', o = Some st' → ipc_inv (app st') (pre ++ k) ∧ buf st' = buf st.
Proof.
  revert pre st fuel. induction k as [|x k IH]; intros pre st [|fuel] Hi Hf; simpl in Hf; try lia.
  { exists (Some st). split; [done|]. intros ? E; by injection E as <-. }
  destruct (hello_neighbor_inv h st _ x Hi) as (o & E1 & H1); [set_solver|].
  cbn [hello_loop first]. rewrite E1. cbn [mbind outcome_bind].
  destruct o as [st1|]; [|by exists None]. destruct (H1 st1 eq_refl) as [Hi1 Hb1].
  pose proof (ii_dll _ _ Hi1) as (_ & _ & _ & [_ (d1 & Hnd1 & _)]%seg_app). simpl in Hnd1.
  destruct (IH (pre ++ [x]) st1 fuel) as (o & E & H2); [by rewrite <-app_assoc|lia|].
  exists o. unfold load, deref. rewrite Hnd1. cbn [mbind outcome_bind n_next]. split; [done|].
  intros st' ->. destruct (H2 st' eq_refl) as [H3 H4]. rewrite <-app_assoc in H3. by rewrite H4.
Qed.

Lemma hello_neighbors_inv h st :
  ipc_ok (app st) →
  ∃ o, hello_neighbors hmac h st = Ret o ∧ ∀ st', o = Some st' → ipc_ok (app st') ∧ buf st' = buf st.
Proof.
  intros (l & Hi). pose proof (ii_dll _ _ Hi) as Hd. pose proof Hd as (_ & Hn & _).
  destruct (hello_loop_inv h l [] st (list_fuel (nheap (app st))) Hi) as (o & E & H).
  { pose proof (dll_length _ _ _ _ Hd). unfold list_fuel. lia. }
  exists o. unfold hello_neighbors. rewrite Hn. split; [done|]. intros st' Ho.
  destruct (H st' Ho) as [Hi' Hb]. split; [by exists l|done].
Qed.

Lemma save_peer_inv env s l fd m o s' :
  ipc_inv s l → bytes m → save_peer_id env s fd m o = Ret s' → ipc_inv s' l.
Proof.
  intros Hi Hb. unfold save_peer_id.
  destruct (find_listed env s l fd Hi) as ([x|] & -> & Hx); cbn [mbind outcome_bind]; [|by intros [= <-]].
  destruct (in_object _ _ _) eqn:Eo; [|done]. intros E.
  assert (Hid : is_id (sub m (o + 4) 4)).
  { split; [|by apply Forall_take, Forall_drop].
    apply blen_sub in Eo. unfold blen in Eo. change (Z.of_nat OPENNOP_IPC_ID_LENGTH) with 4 in Eo.
    unfold OPENNOP_IPC_ID_LENGTH. lia. }
  destruct (update_listed s l x (λ n, set_nb_id n (save_opennopid (Some (sub m (o + 4) 4)) (nb_id n)).1) Hi (Hx x eq_refl))
    as (s1 & E1 & Hi1); [|congruence].
  intros n (H1 & H2 & H3 & H4). split; [|done]. split_and!; [|done..]. cbn [set_nb_id nb_id].
  by rewrite save_opennopid_id.
Qed.

Lemma process_message_inv env s l fd m s' r :
  ipc_inv s l → bytes m → process_message hmac env s fd m = Ret (s', r) → ipc_inv s' l.
Proof.
  intros Hi Hb E. unfold process_message in E. apply bind_Ret in E as ([[m1 sec] o] & E1 & E).
  assert (Hb1 : bytes m1).
  { unfold get_header_data in E1. apply bind_Ret in E1 as (se & _ & E1).
    destruct (se =? 1); [|congruence]. apply bind_Ret in E1 as (len & _ & E1).
    apply bind_Ret in E1 as (m2 & E2 & E1). injection E1 as <- _ _. by eapply bytes_st16. }
  apply bind_Ret in E as (ty & _ & E). destruct (ty =? OPENNOP_IPC_HERE_I_AM).
  - destruct (send_inv env s l fd OPENNOP_IPC_I_SEE_YOU Hi) as (w & r1 & Es & Hi1); [by right|].
    rewrite Es in E. cbn [mbind outcome_bind] in E. apply bind_Ret in E as (s2 & E2 & [= <- _]).
    by eapply save_peer_inv.
  - destruct (ty =? OPENNOP_IPC_I_SEE_YOU); [|by injection E as <- _].
    apply bind_Ret in E as (s1 & E2 & E). apply bind_Ret in E as (s2 & E3 & [= <- _]).
    apply (save_peer_inv env s l) in E2; [|done..].
    destruct (set_state_inv env s1 l fd UP E2) as (s3 & E4 & Hi4); [done..|]. congruence.
Qed.

Lemma ipc_handler_inv env s l fd m s' r :
  ipc_inv s l → bytes m → (∀ k d, bytes (hmac k d)) →
  ipc_handler hmac env s fd m = Ret (s', r) → ipc_inv s' l.
Proof.
  intros Hi Hb Hh E. unfold ipc_handler in E. apply bind_Ret in E as (ty & _ & E).
  destruct (ty =? _); [|by injection E as <- _]. unfold check_security in E.
  destruct (find_listed env s l fd Hi) as ([x|] & Ef & Hx); rewrite Ef in E; cbn [mbind outcome_bind] in E;
    [|by injection E as <- _].
  apply bind_Ret in E as (nd & _ & E). unfold validate_security in E. apply bind_Ret in E as (sec & _ & E).
  destruct (sec =? _); [|by injection E as <- _]. destruct (sec =? _); [by eapply process_message_inv|].
  unfold check_hmac_sha256 in E. rewrite Ef in E. cbn [mbind outcome_bind] in E.
  apply bind_Ret in E as (nd2 & _ & E). destruct (in_object m 8 HMAC_LENGTH); [|done].
  apply bind_Ret in E as (m1 & E1 & E). apply bind_Ret in E as (m2 & E2 & E).
  case_bool_decide; [|by injection E as <- _].
  eapply process_message_inv; [done| |done].
  unfold calculate_hmac_sha256 in E2. apply bind_Ret in E2 as (len & _ & E2).
  destruct (_ && _); [|done]. eapply bytes_copy_in; [|apply Hh|done]. by eapply bytes_memset.
Qed.

Lemma cli_neighbor_ok s a g time ip k s' :
  nheap s !! a = None → garbage_ok g → cli_neighbor s a g time ip k = Ret s' → ipc_ok s → ipc_ok s'.
Proof.
  intros Ha Hg E Hok. unfold cli_neighbor in E. destruct ip as [ip|]; [|congruence].
  destruct (key_param_ok k) eqn:Ek; [|congruence].
  destruct (add_update_inv s a g time ip k Hok Ha Hg Ek) as (s1 & E1 & Hok1 & _). congruence.
Qed.

Lemma cli_no_neighbor_ok s ip s' : cli_no_neighbor s ip = Ret s' → ipc_ok s → ipc_ok s'.
Proof.
  intros E Hok. destruct ip as [ip|]; simpl in E; [|congruence].
  destruct (del_inv s ip Hok) as (s1 & E1 & Hok1 & _). congruence.
Qed.

Lemma cli_set_key_ok s params s' : cli_set_key s params = Ret s' → ipc_ok s → ipc_ok s'.
Proof.
  intros E (l & [H1 H2 H3 H4 H5]). exists l.
  destruct params as [|k [|]]; simpl in E; [injection E as <-; by split| |injection E as <-; by split].
  destruct (Z.leb_spec (blen k) 64); [|injection E as <-; by split].
  rewrite copy_key in E by lia. cbn [mbind outcome_bind] in E. injection E as <-.
  split; [done..|]. apply key_field_length. lia.
Qed.

Lemma ipc_check_neighbor_ok env s fd s' r : ipc_check_neighbor env s fd = Ret (s', r) → ipc_ok s → ipc_ok s'.
Proof.
  intros E (l & Hi). exists l. unfold ipc_check_neighbor in E.
  destruct (find_listed env s l fd Hi) as ([x|] & Ef & Hx); rewrite Ef in E; cbn [mbind outcome_bind] in E;
    [|by injection E as <- _].
  destruct (update_listed s l x (λ n, set_nb_timer (set_nb_state (set_nb_sock n fd) ATTEMPT) (now env)) Hi (Hx x eq_refl))
    as (s1 & E1 & Hi1); [intros n (? & ? & ? & ?); by split_and!|].
  rewrite E1 in E. cbn [mbind outcome_bind] in E. by injection E as <- _.
Qed.

(** *** The moves of the threads

    The IPC thread handles messages and connections and walks the list in its rounds of
    hellos; the threads of CLI clients change the list and the key meanwhile.  A move is one
    command, one message, one connection, one visit of a neighbor or one step of the walk.
    The code takes no lock: that the accesses of two moves do not mix is an assumption here,
    and [racing_adds_duplicate] shows that the program needs it. *)
Inductive walk := Idle | At (h : hello_env) (cur : option loc) | Visited (h : hello_env) (x : loc).

Record ipc_threads := Threads { served : epoller ipcstate; position : walk }.

Inductive ipc_step : ipc_threads → ipc_threads → Prop :=
| step_add st p a g time ip k s' :
    nheap (app st) !! a = None → garbage_ok g → cli_neighbor (app st) a g time ip k = Ret s' →
    ipc_step (Threads st p) (Threads (set_app st s') p)
| step_del st p ip s' : cli_no_neighbor (app st) ip = Ret s' → ipc_step (Threads st p) (Threads (set_app st s') p)
| step_key st p params s' : cli_set_key (app st) params = Ret s' → ipc_step (Threads st p) (Threads (set_app st s') p)
| step_receive st env fd m s' r :
    bytes m → ipc_handler hmac env (app st) fd m = Ret (s', r) → ipc_step (Threads st Idle) (Threads (set_app st s') Idle)
| step_accept st env fd s' r :
    ipc_check_neighbor env (app st) fd = Ret (s', r) → ipc_step (Threads st Idle) (Threads (set_app st s') Idle)
| step_round st h : ipc_step (Threads st Idle) (Threads st (At h (h_next (ipchead (app st)))))
| step_visit st h x st' :
    hello_neighbor hmac h st x = Ret (Some st') → ipc_step (Threads st (At h (Some x))) (Threads st' (Visited h x))
| step_next st h x nd :
    load (nheap (app st)) (Some x) = Ret nd → ipc_step (Threads st (Visited h x)) (Threads st (At h (n_next nd)))
| step_finish st h : ipc_step (Threads st (At h None)) (Threads st Idle).

(** The walk made in these moves, with nothing between them, is the loop of [hello_neighbors]. *)
Lemma hello_loop_moves fuel h cur st st' :
  hello_loop hmac fuel h st cur = Ret (Some st') → rtc ipc_step (Threads st (At h cur)) (Threads st' Idle).
Proof.
  revert cur st. induction fuel as [|fuel IH]; intros cur st E; [done|]. destruct cur as [x|]; cbn [hello_loop] in E.
  - apply bind_Ret in E as ([st1|] & E1 & E); [|done]. apply bind_Ret in E as (nd & E2 & E).
    eapply rtc_l; [by eapply step_visit|]. eapply rtc_l; [by eapply step_next|]. by apply IH.
  - injection E as <-. eapply rtc_l; [apply step_finish|apply rtc_refl].
Qed.

Lemma hello_visit_freed h st x : neighbors (app st) !! x = None →
  hello_neighbor hmac h st x = Undef ∧ load (nheap (app st)) (Some x) = Undef.
Proof.
  intros Hx. assert (E : nheap (app st) !! x = None).
  { unfold neighbors in Hx. rewrite payload_lookup in Hx. by destruct (nheap (app st) !! x). }
  unfold hello_neighbor, load, deref. by rewrite E.
Qed.

Lemma ipc_step_ok t t' :
  (∀ k d, bytes (hmac k d)) → ipc_step t t' → ipc_ok (app (served t)) → ipc_ok (app (served t')).
Proof.
  intros Hh Hs Hok. destruct Hs as [st p a g time ip k s' Ha Hg E|st p ip s' E|st p params s' E|st env fd m s' r Hb E
    |st env fd s' r E|st h|st h x st' E|st h x nd E|st h]; cbn [served app set_app] in *; try done.
  - by eapply cli_neighbor_ok.
  - by eapply cli_no_neighbor_ok.
  - by eapply cli_set_key_ok.
  - destruct Hok as (l & Hi). exists l. by eapply ipc_handler_inv.
  - by eapply ipc_check_neighbor_ok.
  - destruct (neighbors (app st) !! x) as [n|] eqn:Hx; [|by destruct (hello_visit_freed h st x Hx); congruence].
    destruct Hok as (l & Hi). pose proof Hx as (nd & Hnd & _)%neighbors_node.
    destruct (hello_neighbor_inv h st l x Hi) as (o & E1 & H1); [by eapply ii_listed|].
    rewrite E in E1. injection E1 as <-. exists l. by apply H1.
Qed.

(** What the next step of the walk does: where the neighbor it stands on has been deleted,
    it uses freed memory. *)
Definition next_move (t : ipc_threads) : Prop :=
  match position t with
  | At h (Some x) =>
      match neighbors (app (served t)) !! x with
      | Some _ => ∃ o, hello_neighbor hmac h (served t) x = Ret o
      | None => hello_neighbor hmac h (served t) x = Undef
      end
  | Visited h x =>
      match neighbors (app (served t)) !! x with
      | Some _ => ∃ nd, load (nheap (app (served t))) (Some x) = Ret nd
      | None => load (nheap (app (served t))) (Some x) = Undef
      end
  | _ => True
  end.

(** C21: the moves of the CLI threads and of the IPC thread, in any order, also while the
    IPC thread is in the middle of a round of hellos.  The source takes no lock: a command, a message and the
    visit of one neighbor are each one move here, and what happens when they overlap is outside this
    statement ([racing_adds_duplicate] is one such case).  The neighbor list then stays
    well formed with one neighbor per address, and no neighbor is ever in the documented
    states ESTABLISHED or SHUTTINGDOWN.  The walk goes on as long as the neighbor it stands
    on is configured; when "no neighbor" has deleted that one, its next move uses the freed
    node. *)
Theorem interleaved_ipc_ok r st t :
  (∀ k d, bytes (hmac k d)) → app st = start_ipc r → rtc ipc_step (Threads st Idle) t →
  ipc_ok (app (served t))
  ∧ (∀ x n, neighbors (app (served t)) !! x = Some n → nb_state n = DOWN ∨ nb_state n = ATTEMPT ∨ nb_state n = UP)
  ∧ next_move t.
Proof.
  intros Hh H0 Hr. assert (Hok : ipc_ok (app (served t))).
  { assert (Hok0 : ipc_ok (app (served (Threads st Idle)))) by (cbn [served]; rewrite H0; apply start_ipc_ok).
    clear H0. revert Hok0. induction Hr as [|t1 t2 t3 Hs _ IH]; [done|]. intros Hok0. apply IH. by eapply ipc_step_ok. }
  split_and!; [done| |].
  - intros x n Hx. destruct (neighbor_nb_ok _ x n Hok Hx) as (_ & _ & H1 & H2). destruct (nb_state n); auto; done.
  - unfold next_move. destruct (position t) as [|h [x|]|h x]; [done| |done|];
      destruct (neighbors (app (served t)) !! x) as [n|] eqn:Hx; try (by apply hello_visit_freed).
    + destruct Hok as (l & Hi). pose proof Hx as (nd & Hnd & _)%neighbors_node.
      destruct (hello_neighbor_inv h (served t) l x Hi) as (o & E & _); [by eapply ii_listed|]. by exists o.
    + pose proof Hx as (nd & Hnd & _)%neighbors_node. exists nd. unfold load, deref. by rewrite Hnd.
Qed.
End Reach.

(** Two clients add the same neighbor and both searches find nothing before either node is
    linked, which no lock prevents: the address is configured twice. *)
Theorem racing_adds_duplicate s a b g time ip k :
  ipc_ok s → garbage_ok g → key_param_ok k = true →
  find_neighbor_by_u32 s ip = Ret None → nheap s !! a = None → nheap s !! b = None → a ≠ b →
  ∃ s1 s2 n, add_neighbor s a g time ip k = Ret s1 ∧ add_neighbor s1 b g time ip k = Ret s2
    ∧ neighbors s2 = <[b := n]> (<[a := n]> (neighbors s)) ∧ NeighborIP n = ip ∧ ¬ ips_unique (neighbors s2).
Proof.
  intros (l & Hi) Hg Hk _ Ha Hb Hab. unfold add_neighbor.
  destruct (allocate_neighbor_ok g time ip k Hg Hk) as (n & -> & Hn & Hip & _). cbn [mbind outcome_bind].
  destruct (append_neighbor_spec s l a n (ii_dll _ _ Hi) Ha Hn) as (h1 & hd1 & -> & D1 & L1).
  assert (Hb1 : h1 !! b = None).
  { assert (E : payload h1 !! b = None); [|by rewrite payload_lookup in E; destruct (h1 !! b)].
    rewrite L1, lookup_insert_ne by done. unfold neighbors. by rewrite payload_lookup, Hb. }
  destruct (append_neighbor_spec (set_list s h1 hd1) (l ++ [a]) b n D1 Hb1 Hn) as (h2 & hd2 & E2 & _ & L2).
  eexists _, _, n. split_and!; [done|exact E2| |done|].
  - unfold neighbors at 1. cbn [nheap set_list]. rewrite L2. unfold neighbors at 1. cbn [nheap set_list]. by rewrite L1.
  - intros Hu. apply Hab. unfold neighbors at 1 in Hu. cbn [nheap set_list] in Hu. rewrite L2 in Hu.
    unfold neighbors in Hu. cbn [nheap set_list] in Hu. rewrite L1 in Hu.
    apply (Hu a b n n); [|apply lookup_insert_eq|done]. rewrite lookup_insert_ne by done. apply lookup_insert_eq.
Qed.

Lemma racing_adds_duplicate_witness :
  ∃ s1 s2 n, add_neighbor (start_ipc 5) 1 zero_garbage 100 167772161 None = Ret s1
    ∧ add_neighbor s1 2 zero_garbage 100 167772161 None = Ret s2
    ∧ neighbors s2 = <[2%positive := n]> (<[1%positive := n]> (neighbors (start_ipc 5)))
    ∧ NeighborIP n = 167772161 ∧ ¬ ips_unique (neighbors s2).
Proof.
  apply (racing_adds_duplicate (start_ipc 5) 1 2 zero_garbage 100 167772161 None).
  - apply start_ipc_ok.
  - apply zero_garbage_ok.
  - reflexivity.
  - vm_compute. reflexivity.
  - reflexivity.
  - reflexivity.
  - discriminate.
Defined.

(** ** A concrete node, used by the witnesses: one neighbor, 10.0.0.1, with key "k". *)
Definition demo_hmac (k d : list Z) : list Z := replicate 32 (u8 (foldr Z.add 0 k + foldr Z.add 0 d)).
Definition demo_env : ipc_env :=
  IpcEnv (λ fd, if fd =? 7 then Some 167772161 else None) 1000 (λ _, Some 9) (λ _ _, 0) (λ _, true) (λ _, true).
Definition demo_hello : hello_env := HelloEnv 1000 (λ _, demo_env).
Definition demo_ipc : ipcstate :=
  match cli_neighbor (start_ipc 5) 1 zero_garbage 100 (Some 167772161) (Some [107]) with
  | Ret s => match cli_set_key s [[107]] with Ret s => s | _ => s end
  | _ => start_ipc 5
  end.
Definition demo_neighbor : neighbor :=
  Neighbor 167772161 DOWN [0; 0; 0; 0] 0 (key_field [107]) 100 100.

Lemma demo_hmac_length k d : length (demo_hmac k d) = 32%nat.
Proof. apply length_replicate. Qed.

Lemma demo_hmac_bytes k d : bytes (demo_hmac k d).
Proof. apply Forall_replicate, u8_bound. Qed.

Definition demo_added : ipcstate :=
  match cli_neighbor (start_ipc 5) 1 zero_garbage 100 (Some 167772161) (Some [107]) with Ret s => s | _ => start_ipc 5 end.

Lemma demo_ok : ipc_ok demo_ipc.
Proof.
  apply (cli_set_key_ok demo_added [[107]]); [by vm_compute|].
  apply (cli_neighbor_ok (start_ipc 5) 1 zero_garbage 100 (Some 167772161) (Some [107]));
    [done|apply zero_garbage_ok|by vm_compute|apply start_ipc_ok].
Qed.

(** The neighbor is deleted while the round of hellos stands on it. *)
Definition demo_served (s : ipcstate) : epoller ipcstate := Epoller (replicate IPC_BUFSIZE 0) [3] [] s.

Lemma interleaved_ipc_ok_witness :
  ∃ t, rtc (ipc_step demo_hmac) (Threads (demo_served (start_ipc 5)) Idle) t
    ∧ position t = Visited demo_hello 1%positive ∧ monitored (served t) = [9; 3]
    ∧ ipc_ok (app (served t)) ∧ load (nheap (app (served t))) (Some 1%positive) = Undef.
Proof.
  destruct (hello_neighbor demo_hmac demo_hello (demo_served demo_added) 1) as [[st1|]| |] eqn:E1;
    [|vm_compute in E1; discriminate E1..].
  destruct (cli_no_neighbor (app st1) (Some 167772161)) as [s2| |] eqn:E2;
    [|vm_compute in E1; injection E1 as <-; vm_compute in E2; discriminate E2..].
  assert (Hr : rtc (ipc_step demo_hmac) (Threads (demo_served (start_ipc 5)) Idle)
    (Threads (set_app st1 s2) (Visited demo_hello 1%positive))).
  { eapply rtc_l.
    { apply (step_add demo_hmac _ _ 1 zero_garbage 100 (Some 167772161) (Some [107]) demo_added);
        [done|apply zero_garbage_ok|by vm_compute]. }
    eapply rtc_l; [apply (step_round demo_hmac _ demo_hello)|].
    eapply rtc_l; [apply (step_visit demo_hmac _ _ _ st1 E1)|].
    eapply rtc_l; [apply (step_del demo_hmac _ _ (Some 167772161) s2 E2)|apply rtc_refl]. }
  destruct (interleaved_ipc_ok demo_hmac demo_hmac_length 5 (demo_served (start_ipc 5)) _ demo_hmac_bytes eq_refl Hr)
    as (Hok & _ & Hm).
  eexists. split; [exact Hr|]. split; [reflexivity|]. split; [|split; [exact Hok|]].
  - vm_compute in E1. injection E1 as <-. reflexivity.
  - assert (Hx : neighbors s2 !! 1%positive = None).
    { vm_compute in E1. injection E1 as <-. vm_compute in E2. injection E2 as <-. reflexivity. }
    unfold next_move in Hm. cbn [position served app set_app] in Hm. rewrite Hx in Hm. exact Hm.
Defined.

Lemma hello_exchange_witness :
  ∃ pad s', build_message demo_hmac demo_ipc OPENNOP_IPC_I_SEE_YOU
      = Ret (wire demo_hmac (key demo_ipc) OPENNOP_IPC_I_SEE_YOU (opennop_localid demo_ipc) ++ pad)
    ∧ ipc_handler demo_hmac demo_env demo_ipc 7
        (wire demo_hmac (key demo_ipc) OPENNOP_IPC_I_SEE_YOU (opennop_localid demo_ipc) ++ [0; 0]) = Ret (s', 0)
    ∧ ipc_ok s'
    ∧ neighbors s' = <[1%positive := after_hello demo_env OPENNOP_IPC_I_SEE_YOU (opennop_localid demo_ipc) demo_neighbor]>
        (neighbors demo_ipc)
    ∧ sent s' = reply_to demo_hmac demo_ipc OPENNOP_IPC_I_SEE_YOU 7.
Proof.
  apply (hello_exchange demo_hmac demo_hmac_length demo_env demo_ipc demo_ipc 7 167772161 1 demo_neighbor
    OPENNOP_IPC_I_SEE_YOU [0; 0]).
  - apply demo_ok.
  - apply demo_ok.
  - by right.
  - reflexivity.
  - vm_compute. reflexivity.
  - reflexivity.
  - vm_compute. reflexivity.
Defined.

(** An unsigned I_SEE_YOU in the name of a neighbor that has a key. *)
Lemma unauthentic_ignored_witness :
  ipc_handler demo_hmac demo_env demo_ipc 7 (plain_message 2 [1; 2; 3; 4] ++ replicate 1008 0) = Ret (demo_ipc, -1).
Proof.
  destruct (unauthentic_ignored demo_hmac demo_hmac_length demo_env demo_ipc 7 (plain_message 2 [1; 2; 3; 4] ++ replicate 1008 0))
    as [E|(len & El & Hl & _)].
  - apply demo_ok.
  - apply bytes_app; [repeat constructor; done|by apply Forall_replicate].
  - vm_compute. discriminate.
  - intros (ip & x & n & Hg & Hx & Hip & Hk). injection Hg as <-.
    assert (E : neighbors demo_ipc = {[ 1%positive := demo_neighbor ]}) by (vm_compute; reflexivity).
    rewrite E in Hx. apply lookup_singleton_Some in Hx as [_ <-]. destruct Hk as [Hs _]. discriminate Hs.
  - exact E.
  - exfalso. vm_compute in El. injection El as <-. vm_compute in Hl. discriminate Hl.
Defined.

Lemma hmac_overread_witness :
  ipc_handler demo_hmac demo_env demo_ipc 7 ([1; 0; 1; 0; 0; 8; 1; 0] ++ replicate 100 0) = Undef.
Proof.
  apply (hmac_overread demo_hmac demo_hmac_length demo_env demo_ipc 7 167772161 1 demo_neighbor _ 2048).
  - apply demo_ok.
  - reflexivity.
  - vm_compute. reflexivity.
  - reflexivity.
  - vm_compute. reflexivity.
  - vm_compute. reflexivity.
  - vm_compute. reflexivity.
  - vm_compute. reflexivity.
  - vm_compute. reflexivity.
  - vm_compute. reflexivity.
Defined.

