(* ===== verification/Structs.v ===== *)
(** * Layout of the message structures (opennopd/subsystems/wccpv2.c, include/ipc.h)

    [Wccp] and [Ipc] write and read messages at byte offsets.  Here the structures are declared
    as in the C files, their offsets computed by the rules of the x86-64 ABI, and the builders and readers
    written with field names; both versions are shown to be the same functions. *)
From S2P Require Import Prelude Dll NodeId Cli Wccp Ipc.
From stdpp Require Import strings.
#[local] Open Scope Z_scope.
#[local] Open Scope list_scope.

(** ** C types *)
Inductive ctype :=
| U8 | U16 | U32
| Array (n : Z) (t : ctype)
| Struct (fields : list (string * ctype)).

Definition round_up (o a : Z) : Z := (o + a - 1) / a * a.

Fixpoint alignof (t : ctype) : Z :=
  match t with
  | U8 => 1 | U16 => 2 | U32 => 4
  | Array _ t => alignof t
  | Struct fs => (fix go fs := match fs with [] => 1 | (_, t) :: fs => Z.max (alignof t) (go fs) end) fs
  end.

Fixpoint sizeof (t : ctype) : Z :=
  match t with
  | U8 => 1 | U16 => 2 | U32 => 4
  | Array n t => n * sizeof t
  | Struct fs =>
      round_up ((fix go fs o := match fs with [] => o | (_, t) :: fs => go fs (round_up o (alignof t) + sizeof t) end) fs 0)
        (alignof (Struct fs))
  end.

(** The offset and type of a member; [o] is where the next member goes at the earliest. *)
Fixpoint member (fs : list (string * ctype)) (f : string) (o : Z) : option (Z * ctype) :=
  match fs with
  | [] => None
  | (g, t) :: fs =>
      let o := round_up o (alignof t) in
      if bool_decide (f = g) then Some (o, t) else member fs f (o + sizeof t)
  end.

(** A path of member names, as in [header.type]. *)
Fixpoint offsetof (t : ctype) (path : list string) : option (Z * ctype) :=
  match path, t with
  | [], _ => Some (0, t)
  | f :: path, Struct fs =>
      '(o, t) ← member fs f 0; '(o', t) ← offsetof t path; Some (o + o', t)
  | _, _ => None
  end.

(** [p->path = v] and [p->path] for a pointer [p] to a [t] at offset [o] of the buffer. *)
Definition set_field (t : ctype) (b : buffer) (o : Z) (path : list string) (v : Z) : outcome buffer :=
  match offsetof t path with
  | Some (i, U8) => wr b (o + i) v
  | Some (i, U16) => st16 b (o + i) v
  | Some (i, U32) => st32 b (o + i) v
  | _ => Undef
  end.

Definition get_field (t : ctype) (b : buffer) (o : Z) (path : list string) : outcome Z :=
  match offsetof t path with
  | Some (i, U8) => rd b (o + i)
  | Some (i, U16) => ld16 b (o + i)
  | Some (i, U32) => ld32 b (o + i)
  | _ => Undef
  end.

(** ** The structures of wccpv2.c *)
Definition wccp2_message_header : ctype := Struct [("type", U32); ("version", U16); ("length", U16)].
Definition wccp_security_info : ctype := Struct [("type", U16); ("length", U16); ("security_option", U32)].
Definition wccp_service_info : ctype :=
  Struct [("type", U16); ("length", U16); ("service_type", U8); ("service_id", U8); ("priority", U8); ("protocol", U8);
          ("service_flags", U32); ("ports", Array 8 U8)].
Definition wccp_router_id_element : ctype := Struct [("router_id", U32); ("receive_id", U32)].
Definition wccp_webcache_id_element : ctype :=
  Struct [("cache_ip", U32); ("hash_revision", U16); ("reserved", U16); ("bucket", Array 8 U32); ("weight", U16); ("status", U16)].
Definition wccp_router_id_info : ctype :=
  Struct [("type", U16); ("length", U16); ("router_ip", U32); ("router_id", U32); ("send_to", U32); ("num_received_from", U32)].
Definition wccp_webcache_id_info : ctype :=
  Struct [("type", U16); ("length", U16); ("cache_ip", U32); ("hash_revision", U16); ("reserved", U16); ("bucket", Array 8 U32);
          ("weight", U16); ("status", U16)].
Definition wccp_webcache_view_info : ctype := Struct [("type", U16); ("length", U16); ("change_number", U32)].
Definition wccp_assignment_key_element : ctype := Struct [("key_ip_address", U32); ("key_change_number", U32)].
Definition wccp_router_view_info : ctype :=
  Struct [("type", U16); ("length", U16); ("change_number", U32); ("assignment_key", wccp_assignment_key_element)].
Definition wccp_capability_info : ctype := Struct [("type", U16); ("length", U16)].
Definition wccp_capability_element : ctype := Struct [("type", U16); ("length", U16); ("value", U32)].
Definition wccp_router_assignment_element : ctype := Struct [("router_id", U32); ("receive_id", U32); ("change_number", U32)].
Definition wccp_assignment_info : ctype :=
  Struct [("type", U16); ("length", U16); ("assignment_key", wccp_assignment_key_element)].

(** ** The structures of ipc.h *)
Definition opennop_ipc_header : ctype :=
  Struct [("type", U8); ("header_length", U8); ("version", U16); ("length", U16); ("security", U8); ("antireplay", U8)].
Definition opennop_message_header : ctype := Struct [("type", U16); ("length", U16)].
Definition opennop_hello_message : ctype := Struct [("header", opennop_message_header); ("id", Array 4 U8)].
Definition ipc_message_i_see_you : ctype := Struct [("header", opennop_message_header); ("id", Array 4 U8)].

(** ** The functions of wccpv2.c with field names *)
Definition message_length (b : buffer) : outcome Z :=
  l ← get_field wccp2_message_header b 0 ["length"]; Ret (ntohs l + sizeof wccp2_message_header).

Definition update_message_length (b : buffer) (length : Z) : outcome buffer :=
  l ← get_field wccp2_message_header b 0 ["length"];
  set_field wccp2_message_header b 0 ["length"] (htons (ntohs l + ntohs length + 4)).

Definition message_header (b : buffer) (type : Z) : outcome buffer :=
  b ← set_field wccp2_message_header b 0 ["type"] (htonl type);
  b ← set_field wccp2_message_header b 0 ["version"] (htons WCCP2_VERSION);
  set_field wccp2_message_header b 0 ["length"] (htons 0).

(** [component->length = htons(ntohs(component->length) + n)] *)
Definition grow_length (t : ctype) (b : buffer) (o n : Z) : outcome buffer :=
  l ← get_field t b o ["length"]; set_field t b o ["length"] (htons (ntohs l + n)).

(** The end of every component function. *)
Definition count_component (t : ctype) (b : buffer) (o : Z) : outcome buffer :=
  l ← get_field t b o ["length"]; update_message_length b l.

Definition security_component (b : buffer) : outcome buffer :=
  o ← message_length b;
  b ← set_field wccp_security_info b o ["type"] (htons WCCP2_SECURITY_INFO);
  b ← set_field wccp_security_info b o ["length"] (htons 4);
  b ← set_field wccp_security_info b o ["security_option"] (htonl WCCP2_NO_SECURITY);
  count_component wccp_security_info b o.

Definition service_component (b : buffer) (group_id : Z) : outcome buffer :=
  o ← message_length b;
  b ← set_field wccp_service_info b o ["type"] (htons WCCP2_SERVICE_INFO);
  b ← set_field wccp_service_info b o ["length"] (htons 24);
  b ← set_field wccp_service_info b o ["service_type"] WCCP2_SERVICE_DYNAMIC;
  b ← set_field wccp_service_info b o ["service_id"] (htons group_id);
  b ← set_field wccp_service_info b o ["priority"] 200;
  b ← set_field wccp_service_info b o ["protocol"] 0;
  b ← set_field wccp_service_info b o ["service_flags"] (htonl 15);
  count_component wccp_service_info b o.

Definition router_id_component (b : buffer) (routerip : Z) : outcome buffer :=
  o ← message_length b;
  b ← set_field wccp_router_id_info b o ["type"] (htons WCCP2_ROUTER_ID_INFO);
  b ← set_field wccp_router_id_info b o ["length"] (htons 16);
  b ← set_field wccp_router_id_info b o ["router_ip"] routerip;
  b ← set_field wccp_router_id_info b o ["send_to"] 0;
  count_component wccp_router_id_info b o.

Definition webcache_id_component (b : buffer) (local_ip : Z) : outcome buffer :=
  o ← message_length b;
  b ← set_field wccp_webcache_id_info b o ["type"] (htons WCCP2_WC_ID_INFO);
  b ← set_field wccp_webcache_id_info b o ["length"] (htons 44);
  b ← set_field wccp_webcache_id_info b o ["cache_ip"] local_ip;
  b ← set_field wccp_webcache_id_info b o ["hash_revision"] (htons 0);
  b ← set_field wccp_webcache_id_info b o ["weight"] 0;
  b ← set_field wccp_webcache_id_info b o ["status"] 0;
  count_component wccp_webcache_id_info b o.

Definition router_id_entry (b : buffer) (p : Z) (v : wccp_server) : outcome buffer :=
  b ← set_field wccp_router_id_element b p ["router_id"] (ipaddress v);
  set_field wccp_router_id_element b p ["receive_id"] (htonl (router_id v)).

Definition webcache_view_component (s : wccpstate) (g : wccp_service_group) (b : buffer) : outcome buffer :=
  o ← message_length b;
  b ← set_field wccp_webcache_view_info b o ["type"] (htons WCCP2_WC_VIEW_INFO);
  b ← set_field wccp_webcache_view_info b o ["length"] (htons 4);
  b ← set_field wccp_webcache_view_info b o ["change_number"] (htonl (change_number g));
  '(b, _) ← add_lists s g router_id_entry (sizeof wccp_router_id_element) o (o + sizeof wccp_webcache_view_info) b;
  count_component wccp_webcache_view_info b o.

Definition capability_element (b : buffer) (o capability_type value : Z) : outcome buffer :=
  l ← get_field wccp_capability_info b o ["length"];
  let p := o + ntohs l + 4 in
  b ← set_field wccp_capability_element b p ["type"] (htons capability_type);
  b ← set_field wccp_capability_element b p ["length"] (htons 4);
  b ← set_field wccp_capability_element b p ["value"] (htonl value);
  grow_length wccp_capability_info b o (sizeof wccp_capability_element).

Definition capability_info (b : buffer) : outcome buffer :=
  o ← message_length b;
  b ← set_field wccp_capability_info b o ["type"] (htons WCCP2_CAPABILITY_INFO);
  b ← set_field wccp_capability_info b o ["length"] (htons 0);
  b ← capability_element b o WCCP2_FORWARDING_METHOD WCCP2_FORWARDING_METHOD_L2;
  b ← capability_element b o WCCP2_PACKET_RETURN_METHOD WCCP2_PACKET_RETURN_METHOD_L2;
  count_component wccp_capability_info b o.

Definition router_assignment_entry (change : Z) (b : buffer) (p : Z) (v : wccp_server) : outcome buffer :=
  b ← set_field wccp_router_assignment_element b p ["router_id"] (ipaddress v);
  b ← set_field wccp_router_assignment_element b p ["receive_id"] (htonl (u32 (router_id v + 1)));
  set_field wccp_router_assignment_element b p ["change_number"] (htonl change).

Definition assignment_info_component (s : wccpstate) (g : wccp_service_group) (local_ip : Z) (b : buffer) : outcome buffer :=
  o ← message_length b;
  b ← set_field wccp_assignment_info b o ["type"] (htons WCCP2_REDIRECT_ASSIGNMENT);
  b ← set_field wccp_assignment_info b o ["assignment_key"; "key_ip_address"] local_ip;
  b ← set_field wccp_assignment_info b o ["assignment_key"; "key_change_number"] (htonl (change_number g));
  b ← set_field wccp_assignment_info b o ["length"] (htons 8);
  '(b, num_webcaches) ← add_lists s g (router_assignment_entry (change_number g)) (sizeof wccp_router_assignment_element) o
                          (o + sizeof wccp_assignment_info) b;
  let buckets := if 0 <? h_len (webcaches g) then num_webcaches + 4 + h_len (webcaches g) * sizeof U32 else num_webcaches + 4 in
  b ← clear_buckets 256 b buckets;
  b ← grow_length wccp_assignment_info b o 256;
  count_component wccp_assignment_info b o.

(** *** Received messages *)
Definition router_view_component (s : wccpstate) (group : option loc) (m : buffer) (o : Z) (a : nat → option loc) : outcome wccpstate :=
  g ← load (gheap s) group;
  cn ← get_field wccp_router_view_info m o ["change_number"];
  if ntohl cn =? change_number (n_data g) then Ret s else
  gh ← store_data (gheap s) group (set_change_number (n_data g) (ntohl cn));
  let s := set_gheap s gh in
  let num_routers := o + sizeof wccp_router_view_info in
  n ← get_field U32 m num_routers [];
  let num_webcaches := num_routers + sizeof U32 * (ntohl n + 1) in
  k ← get_field U32 m num_webcaches [];
  let k := ntohl k in
  if 0 <? k then
    s ← add_caches_loop (Z.to_nat k) s group m (num_webcaches + sizeof U32) a;
    g ← load (gheap s) group;
    _ ← compare_loop (list_fuel (wcheap s)) (wcheap s) (h_next (webcaches (n_data g))) (Z.to_nat k) m
          (num_webcaches + sizeof U32);
    Ret s
  else Ret s.

Definition received_router_id (s : wccpstate) (group : option loc) (m : buffer) (o : Z) (a : nat → option loc) : outcome wccpstate :=
  ip ← get_field wccp_router_id_info m o ["router_ip"];
  server ← find_wccp_server s group ip;
  match server with
  | None => Ret s
  | Some _ =>
      id ← get_field wccp_router_id_info m o ["router_id"];
      v ← load (srvheap s) server;
      h ← store_data (srvheap s) server (set_router_id (n_data v) (ntohl id));
      l ← get_field wccp_router_id_info m o ["length"];
      router_view_component (set_srvheap s h) group m (o + ntohs l + 4) a
  end.

Definition received_service (s : wccpstate) (m : buffer) (o : Z) (a : nat → option loc) : outcome wccpstate :=
  service_id ← get_field wccp_service_info m o ["service_id"];
  group ← find_wccp_service_group s (u8 (ntohs service_id));
  match group with
  | None => Ret s
  | Some _ => l ← get_field wccp_service_info m o ["length"]; received_router_id s group m (o + ntohs l + 4) a
  end.

Definition received_security (s : wccpstate) (m : buffer) (o : Z) (a : nat → option loc) : outcome wccpstate :=
  l ← get_field wccp_security_info m o ["length"];
  _ ← get_field wccp_security_info m o ["security_option"];
  received_service s m (o + ntohs l + 4) a.

Definition received_message (s : wccpstate) (m : buffer) (a : nat → option loc) : outcome wccpstate :=
  type ← get_field wccp2_message_header m 0 ["type"];
  if ntohl type =? WCCP2_I_SEE_YOU then received_security s m (sizeof wccp2_message_header) a else Ret s.

(** ** The functions of ipc.c with field names *)
Definition ipc_header (s : ipcstate) (m : buffer) : outcome buffer :=
  m ← set_field opennop_ipc_header m 0 ["type"] OPENNOP_MSG_TYPE_IPC;
  m ← set_field opennop_ipc_header m 0 ["version"] OPENNOP_MSG_VERSION;
  m ← set_field opennop_ipc_header m 0 ["length"] OPENNOP_DEFAULT_HEADER_LENGTH;
  m ← set_field opennop_ipc_header m 0 ["security"]
        (if key_is_empty (key s) then OPENNOP_MSG_SECURITY_NO else OPENNOP_MSG_SECURITY_SHA);
  set_field opennop_ipc_header m 0 ["antireplay"] 0.

Definition ipc_header_data (m : buffer) : outcome (buffer * option Z * Z) :=
  sec ← get_field opennop_ipc_header m 0 ["security"];
  if sec =? 1 then
    len ← get_field opennop_ipc_header m 0 ["length"];
    m ← set_field opennop_ipc_header m 0 ["length"] (u16 (len + HMAC_LENGTH));
    Ret (m, Some (sizeof opennop_ipc_header), sizeof opennop_ipc_header + HMAC_LENGTH)
  else Ret (m, None, sizeof opennop_ipc_header).

(** [add_hello_message] with [opennop_hello_message], [ipc_add_i_see_you_message] with [ipc_message_i_see_you]. *)
Definition ipc_message (t : ctype) (s : ipcstate) (m : buffer) (type : Z) : outcome buffer :=
  o ← get_field opennop_ipc_header m 0 ["length"];
  m ← set_field t m o ["header"; "type"] type;
  m ← set_field t m o ["header"; "length"] (sizeof t);
  m ← match offsetof t ["id"] with
      | Some (i, Array n U8) => copy_in m (o + i) (opennop_localid s) 0 n
      | _ => Undef
      end;
  l ← get_field t m o ["header"; "length"];
  set_field opennop_ipc_header m 0 ["length"] (u16 (o + l)).

(** * The layouts agree *)

Lemma bind_eq {A B} (m m' : outcome A) (f f' : A → outcome B) : m = m' → (∀ a, f a = f' a) → (m ≫= f) = (m' ≫= f').
Proof. intros -> Hf. by destruct m'; cbn. Qed.

(** One step of two programs at a time; at a field access the offset is computed. *)
Ltac same_step :=
  match goal with
  | |- (_ ≫= _) = (_ ≫= _) => apply bind_eq; [|intros ?]
  | |- context [offsetof ?t ?p] => let r := eval vm_compute in (offsetof t p) in change (offsetof t p) with r; cbv iota beta
  | |- context [set_field] => unfold set_field
  | |- context [get_field] => unfold get_field
  end.
Ltac same := repeat first [reflexivity | rewrite !Z.add_0_r; reflexivity | same_step].

(** No structure has padding: each is as long as its members together. *)
Fixpoint members_size (t : ctype) : Z :=
  match t with
  | U8 => 1 | U16 => 2 | U32 => 4
  | Array n t => n * members_size t
  | Struct fs => (fix go fs := match fs with [] => 0 | (_, t) :: fs => members_size t + go fs end) fs
  end.

Definition message_structs : list (ctype * Z) :=
  [(wccp2_message_header, 8); (wccp_security_info, 8); (wccp_service_info, 20); (wccp_router_id_element, 8);
   (wccp_webcache_id_element, 44); (wccp_router_id_info, 20); (wccp_webcache_id_info, 48); (wccp_webcache_view_info, 8);
   (wccp_assignment_key_element, 8); (wccp_router_view_info, 16); (wccp_capability_info, 4); (wccp_capability_element, 8);
   (wccp_router_assignment_element, 12); (wccp_assignment_info, 12);
   (opennop_ipc_header, 8); (opennop_message_header, 4); (opennop_hello_message, 8); (ipc_message_i_see_you, 8)].

Lemma no_padding t n : (t, n) ∈ message_structs → sizeof t = n ∧ members_size t = n.
Proof.
  intros H. assert (Hb : forallb (λ '(t, n), (sizeof t =? n) && (members_size t =? n)) message_structs = true) by reflexivity.
  rewrite forallb_forall in Hb. apply list_elem_of_In, Hb in H. lia.
Qed.

Lemma message_length_typed b : message_length b = get_wccp_message_length b.
Proof. unfold message_length, get_wccp_message_length. same. Qed.

Lemma update_message_length_typed b l : update_message_length b l = update_wccp_message_length b l.
Proof. unfold update_message_length, update_wccp_message_length. same. Qed.

Lemma add_routers_ext fuel h q elem elem' n o b p : (∀ b p v, elem b p v = elem' b p v) →
  add_routers fuel h q elem n o b p = add_routers fuel h q elem' n o b p.
Proof.
  intros He. revert q b p. induction fuel as [|fuel IH]; intros [x|] b p; [done..| |done]. cbn [add_routers].
  apply bind_eq; [done|intros nd]. apply bind_eq; [apply He|intros b1]. apply bind_eq; [done|intros b2]. apply IH.
Qed.

Lemma add_lists_ext s g elem elem' n o p b : (∀ b p v, elem b p v = elem' b p v) → add_lists s g elem n o p b = add_lists s g elem' n o p b.
Proof. intros He. unfold add_lists. do 2 (apply bind_eq; [done|intros ?]). apply bind_eq; [by apply add_routers_ext|done]. Qed.

(** The service component is announced with the length of the protocol, 24 bytes behind its type and length; the structure,
    whose ports are bytes, is 8 bytes shorter. *)
Example service_info_short : sizeof wccp_service_info = 24 + 4 - 8.
Proof. reflexivity. Qed.

Lemma router_view_typed s group m o a : router_view_component s group m o a = process_wccp_router_view_component s group m o a.
Proof.
  unfold router_view_component, process_wccp_router_view_component. apply bind_eq; [done|intros g]. apply bind_eq; [same|intros cn].
  destruct (ntohl cn =? change_number (n_data g)); [done|]. apply bind_eq; [done|intros gh].
  change (sizeof wccp_router_view_info) with 16. apply bind_eq; [same|intros n]. change (sizeof U32) with 4. apply bind_eq; [same|done].
Qed.

Lemma received_router_id_typed s group m o a : received_router_id s group m o a = process_wccp_router_id_component s group m o a.
Proof.
  unfold received_router_id, process_wccp_router_id_component. apply bind_eq; [done|intros ip]. apply bind_eq; [done|intros [x|]]; [|done].
  do 4 (apply bind_eq; [done|intros ?]). apply router_view_typed.
Qed.

(** The functions of the two files are the ones with field names. *)
Theorem wccp_functions_typed s g m b type local_ip a :
  message_header b type = add_header b type
  ∧ security_component b = wccp_add_security_component b
  ∧ service_component b (group_id g) = wccp_add_service_component b (group_id g)
  ∧ router_id_component b local_ip = wccp_add_router_id_component b local_ip
  ∧ webcache_id_component b local_ip = wccp_add_webcache_id_component b local_ip
  ∧ webcache_view_component s g b = wccp_add_webcache_view_component s g b
  ∧ capability_info b = wccp_add_capability_info b
  ∧ assignment_info_component s g local_ip b = wccp_add_assignment_info_component s g local_ip b
  ∧ received_message s m a = wccp_handler s m a.
Proof.
  split_and!.
  - unfold message_header, add_header. same.
  - unfold security_component, wccp_add_security_component. same.
  - unfold service_component, wccp_add_service_component. same.
  - unfold router_id_component, wccp_add_router_id_component. same.
  - unfold webcache_id_component, wccp_add_webcache_id_component. same.
  - unfold webcache_view_component, wccp_add_webcache_view_component. do 4 (apply bind_eq; [same|intros ?]).
    apply bind_eq; [|intros []; same]. apply (add_lists_ext s g router_id_entry router_id_element 8). intros b' p v. unfold router_id_entry, router_id_element. same.
  - unfold capability_info, wccp_add_capability_info. do 3 (apply bind_eq; [same|intros ?]).
    do 2 (apply bind_eq; [unfold capability_element, wccp_add_capability_element; same|intros ?]). same.
  - unfold assignment_info_component, wccp_add_assignment_info_component. do 5 (apply bind_eq; [same|intros ?]).
    apply bind_eq; [|intros []; same]. apply (add_lists_ext s g (router_assignment_entry (change_number g)) (router_assignment_element (change_number g)) 12). intros b' p v. unfold router_assignment_entry, router_assignment_element. same.
  - unfold received_message, wccp_handler. apply bind_eq; [same|intros type']. destruct (ntohl type' =? WCCP2_I_SEE_YOU); [|done].
    do 2 (apply bind_eq; [done|intros ?]). apply bind_eq; [done|intros sid]. apply bind_eq; [done|intros [x|]]; [|done].
    apply bind_eq; [done|intros l]. apply received_router_id_typed.
Qed.

Theorem ipc_functions_typed s m :
  ipc_header s m = initialize_opennop_ipc_header s m
  ∧ ipc_header_data m = get_header_data m
  ∧ ipc_message opennop_hello_message s m OPENNOP_IPC_HERE_I_AM = add_hello_message s m
  ∧ ipc_message ipc_message_i_see_you s m OPENNOP_IPC_I_SEE_YOU = ipc_add_i_see_you_message s m.
Proof.
  split_and!.
  - unfold ipc_header, initialize_opennop_ipc_header. same.
  - unfold ipc_header_data, get_header_data. same.
  - unfold ipc_message, add_hello_message, add_message. same.
  - unfold ipc_message, ipc_add_i_see_you_message, add_message. same.
Qed.
