(* ===== verification/IpcServer.v ===== *)
(** * The neighbor protocol behind its epoll server (ipc.c over sockets.c)

    [ipc_thread] runs [epoll_handler] with [ipc_check_neighbor] as the access
    check, [ipc_handler] as the callback and [hello_neighbors] as the timeout
    function, which registers and closes sockets itself.  The handler works on the server's
    buffer in place. *)
From S2P Require Import Prelude Dll NodeId Ipc Epoll.
#[local] Open Scope Z_scope.
#[local] Open Scope list_scope.

Section Ipc.
Context (hmac : list Z → list Z → list Z).
Context (hmac_length : ∀ k d, length (hmac k d) = 32%nat).

(** ** What [ipc_handler] leaves in the buffer *)
Definition process_buffer (m : buffer) : outcome buffer := '(m, _, _) ← get_header_data m; Ret m.

Definition check_hmac_buffer (env : ipc_env) (s : ipcstate) (fd : Z) (m : buffer) : outcome buffer :=
  x ← find_neighbor_by_socket env s fd;
  match x with
  | Some x =>
      nd ← load (nheap s) (Some x);
      if in_object m 8 HMAC_LENGTH then
        let securitydata := sub m 8 HMAC_LENGTH in
        m ← memset m 8 0 HMAC_LENGTH;
        m ← calculate_hmac_sha256 hmac m (nb_key (n_data nd)) 8;
        if bool_decide (securitydata = sub m 8 HMAC_LENGTH) then process_buffer m else Ret m
      else Undef
  | None => Ret m
  end.

Definition validate_buffer (env : ipc_env) (s : ipcstate) (fd : Z) (m : buffer) (security : Z) : outcome buffer :=
  sec ← msg_security m;
  if sec =? security then
    if sec =? OPENNOP_MSG_SECURITY_NO then process_buffer m else check_hmac_buffer env s fd m
  else Ret m.

Definition handler_buffer (env : ipc_env) (s : ipcstate) (fd : Z) (m : buffer) : outcome buffer :=
  ty ← msg_type m;
  if ty =? OPENNOP_MSG_TYPE_IPC then
    x ← find_neighbor_by_socket env s fd;
    match x with
    | Some x =>
        nd ← load (nheap s) (Some x);
        validate_buffer env s fd m (if key_is_empty (nb_key (n_data nd)) then OPENNOP_MSG_SECURITY_NO
                                else OPENNOP_MSG_SECURITY_SHA)
    | None => Ret m
    end
  else Ret m.

(** The callback: the state, and the buffer as it is left. *)
Definition ipc_callback (env : ipc_env) (s : ipcstate) (fd : Z) (m : buffer) : outcome (ipcstate * buffer) :=
  '(s', _) ← ipc_handler hmac env s fd m; m' ← handler_buffer env s fd m; Ret (s', m').

(** [ipc_thread]'s server; [listener] is its listening socket. *)
Definition ipc_server (listener : Z) : server ipcstate ipc_env hello_env :=
  Server listener (Some ipc_check_neighbor) ipc_callback (Some (hello_neighbors hmac)) fcntl_ok epoll_ctl_ok.

(** ** A hello message, in the buffer *)
Lemma hello_buffer env s fd ip x n type id rest :
  ipc_ok s → getpeername env fd = Some ip → neighbors s !! x = Some n → NeighborIP n = ip → is_id id →
  ∃ m', handler_buffer env s fd (wire hmac (nb_key n) type id ++ rest) = Ret m'
    ∧ blen m' = blen (wire hmac (nb_key n) type id ++ rest)
    ∧ (key_is_empty (nb_key n) = true → m' = wire hmac (nb_key n) type id ++ rest).
Proof.
  intros Hok Hg Hx Hip Hid. pose proof Hx as (nd & Hnd & Ed)%neighbors_node.
  unfold handler_buffer, wire. destruct (key_is_empty (nb_key n)) eqn:Ek.
  - change (msg_type _) with (Ret 1). cbn [mbind outcome_bind]. change (1 =? OPENNOP_MSG_TYPE_IPC) with true. cbv iota.
    rewrite (peer_known env s fd ip x n) by done. unfold load, deref. cbn [mbind outcome_bind]. rewrite Hnd.
    cbn [mbind outcome_bind]. rewrite Ed, Ek. unfold validate_buffer. change (msg_security _) with (Ret 0).
    cbn [mbind outcome_bind]. change (0 =? OPENNOP_MSG_SECURITY_NO) with true. cbv iota.
    unfold process_buffer. rewrite get_header_plain. cbn [mbind outcome_bind]. eexists. split; [done|].
    assert (E : received [1; 0; 1; 0; 16; 0; 0; 0] [] type id rest = plain_message type id ++ rest)
      by (unfold plain_message, received; by rewrite <-!app_assoc).
    by rewrite E.
  - change (msg_type _) with (Ret 1). cbn [mbind outcome_bind]. change (1 =? OPENNOP_MSG_TYPE_IPC) with true. cbv iota.
    rewrite (peer_known env s fd ip x n) by done. unfold load, deref. cbn [mbind outcome_bind]. rewrite Hnd.
    cbn [mbind outcome_bind]. rewrite Ed, Ek. unfold validate_buffer. change (msg_security _) with (Ret 1).
    cbn [mbind outcome_bind]. change (1 =? OPENNOP_MSG_SECURITY_SHA) with true.
    change (1 =? OPENNOP_MSG_SECURITY_NO) with false. cbv iota.
    unfold check_hmac_buffer. rewrite (peer_known env s fd ip x n) by done. unfold load, deref.
    cbn [mbind outcome_bind]. rewrite Hnd. cbn [mbind outcome_bind]. rewrite Ed.
    destruct (neighbor_nb_ok s x n Hok Hx) as (_ & Hk & _). set (mac := mac_of hmac (nb_key n) type id).
    assert (Hmac : length mac = 32%nat) by apply hmac_length.
    destruct (mac_in_message mac type id rest Hmac) as (H1 & H2 & H3).
    unfold HMAC_LENGTH. rewrite H1, H2, memset_Ret by done. cbn [mbind outcome_bind].
    change (replicate (Z.to_nat 32) (u8 0)) with no_mac. rewrite H3.
    rewrite (calculate_hmac_signed hmac hmac_length) by done. cbn [mbind outcome_bind].
    change (hmac (take 64 (nb_key n)) (signed_message no_mac type id)) with mac.
    rewrite H2, bool_decide_true by done. unfold process_buffer. rewrite get_header_signed. cbn [mbind outcome_bind].
    eexists. split; [done|]. split; [|done]. rewrite signed_received. unfold received. by rewrite !blen_app.
Qed.
End Ipc.

(** ** What the operations leave of the configuration: the addresses and the keys *)
Definition configured (s : ipcstate) : gmap loc (Z * list Z) := (λ n, (NeighborIP n, nb_key n)) <$> neighbors s.

Lemma configured_neighbor s s' x n :
  configured s' = configured s → neighbors s' !! x = Some n →
  ∃ k, neighbors s !! x = Some k ∧ NeighborIP k = NeighborIP n ∧ nb_key k = nb_key n.
Proof.
  intros E Hx. assert (E' : configured s !! x = Some (NeighborIP n, nb_key n))
    by (rewrite <-E; unfold configured; by rewrite lookup_fmap, Hx).
  unfold configured in E'. rewrite lookup_fmap in E'. destruct (neighbors s !! x) as [k|]; [|done].
  injection E' as H1 H2. by exists k.
Qed.

Lemma update_configured s x f s' :
  (∀ n, NeighborIP (f n) = NeighborIP n ∧ nb_key (f n) = nb_key n) →
  update_neighbor s x f = Ret s' → configured s' = configured s.
Proof.
  intros Hf E. unfold update_neighbor, load, store_data, deref in E.
  destruct (nheap s !! x) as [nd|] eqn:Hx; [|done]. cbn [mbind outcome_bind] in E. injection E as <-.
  unfold configured, neighbors. cbn [nheap set_nheap set_list]. rewrite payload_insert, fmap_insert.
  destruct (Hf (n_data nd)) as [H1 H2]. rewrite insert_id; [done|]. rewrite lookup_fmap, payload_lookup, Hx.
  cbn [fmap option_fmap option_map n_data]. by rewrite H1, H2.
Qed.

Lemma found_neighbor n h cur f x : find_neighbor n h cur f = Ret (Some x) →
  ∃ d, payload h !! x = Some d ∧ f d = true.
Proof.
  revert cur. induction n as [|n IH]; intros cur E; [done|]. cbn [find_neighbor] in E.
  destruct cur as [y|]; [|done]. unfold load, deref in E. destruct (h !! y) as [nd|] eqn:Hy; [|done].
  cbn [mbind outcome_bind] in E. destruct (f (n_data nd)) eqn:Ef; [|by eapply IH].
  injection E as <-. exists (n_data nd). split; [|done]. apply payload_Some. eauto.
Qed.

Lemma found_by_socket env s fd x : find_neighbor_by_socket env s fd = Ret (Some x) →
  ∃ n, neighbors s !! x = Some n ∧ getpeername env fd = Some (NeighborIP n).
Proof.
  unfold find_neighbor_by_socket. destruct (getpeername env fd) as [ip|]; [|done].
  intros (n & Hn & Hip)%found_neighbor. exists n. apply Z.eqb_eq in Hip. by rewrite Hip.
Qed.

Section Keep.
Context (hmac : list Z → list Z → list Z).

Lemma state_configured env s fd v s' : ipc_set_neighbor_state env s fd v = Ret s' → configured s' = configured s.
Proof.
  unfold ipc_set_neighbor_state. intros ([x|] & _ & E)%bind_Ret; [|congruence].
  eapply update_configured, E. done.
Qed.

Lemma send_configured env s fd type s' r :
  ipc_send_message hmac env s fd type = Ret (s', r) → configured s' = configured s.
Proof.
  unfold ipc_send_message. intros (m & _ & E)%bind_Ret. unfold ipc_tx_message in E.
  apply bind_Ret in E as (len & _ & E). destruct (in_object _ _ _); [|done]. injection E as <- _. done.
Qed.

Lemma save_peer_configured env s fd m o s' : save_peer_id env s fd m o = Ret s' → configured s' = configured s.
Proof.
  unfold save_peer_id. intros ([x|] & _ & E)%bind_Ret; [|congruence].
  destruct (in_object _ _ _); [|done]. eapply update_configured, E. done.
Qed.

Lemma process_configured env s fd m s' r : process_message hmac env s fd m = Ret (s', r) → configured s' = configured s.
Proof.
  unfold process_message. intros ([[m1 sec] o1] & _ & (ty & _ & E)%bind_Ret)%bind_Ret.
  destruct (ty =? _).
  - apply bind_Ret in E as ([s1 r1] & E1 & E). apply bind_Ret in E as (s2 & E2 & E). injection E as <- _.
    apply send_configured in E1. apply save_peer_configured in E2. congruence.
  - destruct (ty =? _); [|by injection E as <- _].
    apply bind_Ret in E as (s1 & E1 & E). apply bind_Ret in E as (s2 & E2 & E). injection E as <- _.
    apply save_peer_configured in E1. apply state_configured in E2. congruence.
Qed.

Lemma handler_configured env s fd m s' r : ipc_handler hmac env s fd m = Ret (s', r) → configured s' = configured s.
Proof.
  unfold ipc_handler. intros (ty & _ & E)%bind_Ret. destruct (ty =? _); [|by injection E as <- _].
  unfold check_security in E. apply bind_Ret in E as ([x|] & _ & E); [|by injection E as <- _].
  apply bind_Ret in E as (nd & _ & E). unfold validate_security in E. apply bind_Ret in E as (sec & _ & E).
  destruct (sec =? _); [|by injection E as <- _]. destruct (sec =? _); [by eapply process_configured|].
  unfold check_hmac_sha256 in E. apply bind_Ret in E as ([y|] & _ & E); [|by injection E as <- _].
  apply bind_Ret in E as (nd2 & _ & E). destruct (in_object _ _ _); [|done].
  apply bind_Ret in E as (m1 & _ & E). apply bind_Ret in E as (m2 & _ & E).
  case_bool_decide; [by eapply process_configured|by injection E as <- _].
Qed.

Lemma check_configured env s fd s' r : ipc_check_neighbor env s fd = Ret (s', r) →
  configured s' = configured s
  ∧ (r = 1 → ∃ x n, neighbors s !! x = Some n ∧ getpeername env fd = Some (NeighborIP n)).
Proof.
  unfold ipc_check_neighbor. intros ([x|] & Ef & E)%bind_Ret; [|by injection E as <- <-].
  apply bind_Ret in E as (s1 & E1 & E). injection E as <- _. split; [by eapply update_configured, E1|].
  intros _. apply found_by_socket in Ef as (n & ? & ?). by exists x, n.
Qed.

(** A visit only adds the socket it has opened to the address of the neighbor. *)
Lemma hello_neighbor_configured h st x st' : hello_neighbor hmac h st x = Ret (Some st') →
  configured (app st') = configured (app st)
  ∧ ∀ fd, fd ∈ monitored st' → fd ∈ monitored st
      ∨ ∃ n, neighbors (app st) !! x = Some n ∧ new_ip_client (at_neighbor h x) (NeighborIP n) = Some fd.
Proof.
  unfold hello_neighbor, load, deref. destruct (nheap (app st) !! x) as [nd|] eqn:Hx; [|done]. cbn [mbind outcome_bind].
  assert (Hn : neighbors (app st) !! x = Some (n_data nd)) by (apply payload_Some; eauto).
  destruct (bool_decide _ && (30 <=? _)).
  - intros (s1 & E1 & E)%bind_Ret. apply update_configured in E1; [|done]. destruct (sock (n_data nd) =? 0).
    + destruct (new_ip_client _ _) as [fd|] eqn:Ec; [|done]. destruct (Z.leb_spec 0 fd).
      * apply bind_Ret in E as (s2 & E2 & E). apply update_configured in E2; [|done]. injection E as E.
        rewrite register_spec in E by done. destruct (_ && _); [|done]. injection E as <-.
        split; [cbn [app set_app]; congruence|]. cbn [monitored set_app]. intros z [->|Hz]%elem_of_cons; eauto.
      * injection E as <-. split; [done|]. auto.
    + apply bind_Ret in E as (s2 & E2 & E). apply update_configured in E2; [|done]. injection E as <-.
      split; [cbn [app set_app]; congruence|]. auto.
  - destruct (_ && (10 <=? _)); [|intros E; injection E as <-; auto].
    destruct (negb _); [|intros E; injection E as <-; auto].
    intros (s1 & E1 & (s2 & E2 & ([s3 r] & E3 & E)%bind_Ret)%bind_Ret)%bind_Ret.
    apply update_configured in E1; [|done]. apply send_configured in E3.
    assert (E2' : configured s2 = configured s1) by (destruct (_ && _); [by eapply state_configured|congruence]).
    destruct (r <? 0).
    + apply bind_Ret in E as (s4 & E4 & E). apply update_configured in E4; [|done]. injection E as <-.
      split; [cbn [app set_app]; congruence|]. cbn [monitored set_app close].
      intros z Hz. apply list_elem_of_filter in Hz as [_ Hz]. auto.
    + injection E as <-. split; [cbn [app set_app]; congruence|]. auto.
Qed.

Lemma hello_loop_configured h n : ∀ cur st st', hello_loop hmac n h st cur = Ret (Some st') →
  configured (app st') = configured (app st)
  ∧ ∀ fd, fd ∈ monitored st' → fd ∈ monitored st
      ∨ ∃ x k, neighbors (app st) !! x = Some k ∧ new_ip_client (at_neighbor h x) (NeighborIP k) = Some fd.
Proof.
  induction n as [|n IH]; intros cur st st' E; [done|]. cbn [hello_loop] in E.
  destruct cur as [x|]; [|injection E as <-; auto].
  apply bind_Ret in E as ([st1|] & E1 & E); [|done]. apply bind_Ret in E as (nd & _ & E).
  destruct (hello_neighbor_configured _ _ _ _ E1) as [C1 M1]. destruct (IH _ _ _ E) as [C2 M2].
  split; [congruence|]. intros fd [Hfd|(y & k & Hy & Hk)]%M2.
  - apply M1 in Hfd as [?|(k & ? & ?)]; [by left|right; eauto].
  - right. destruct (configured_neighbor _ _ y k C1 Hy) as (k0 & Hk0 & Hip & _). exists y, k0. by rewrite Hip.
Qed.
End Keep.

(** ** The protocol's messages tell their own length *)
Section Serve.
Context (hmac : list Z → list Z → list Z).
Context (hmac_length : ∀ k d, length (hmac k d) = 32%nat).

(** A hello of the configured neighbor at the other end of [fd]: [n], stored at [x]. *)
Definition hello_of (env : ipc_env) (s : ipcstate) (fd : Z) (m : list Z) (x : loc) (n : neighbor) (type : Z) (id : list Z) : Prop :=
  getpeername env fd = Some (NeighborIP n) ∧ neighbors s !! x = Some n ∧ hello_type type ∧ is_id id
  ∧ m = wire hmac (nb_key n) type id.

Definition hello_legal (env : ipc_env) (s : ipcstate) (fd : Z) (m : list Z) : Prop :=
  ∃ x n type id, hello_of env s fd m x n type id.

Definition hello_effect (env : ipc_env) (s : ipcstate) (fd : Z) (m : list Z) (s' : ipcstate) : Prop :=
  ∃ x n type id, hello_of env s fd m x n type id
    ∧ neighbors s' = <[x := after_hello env type id n]> (neighbors s) ∧ sent s' = reply_to hmac s type fd.

Lemma blen_wire k type id : is_id id → blen (wire hmac k type id) <= 48.
Proof.
  intros [Hl _]. unfold wire. destruct (key_is_empty k).
  - unfold plain_message, hello_body. rewrite !blen_app. unfold blen. rewrite Hl. done.
  - unfold signed_message, mac_of, hello_body. rewrite !blen_app. unfold blen. rewrite hmac_length, Hl. done.
Qed.

Lemma after_hello_same env type id n :
  NeighborIP (after_hello env type id n) = NeighborIP n ∧ nb_key (after_hello env type id n) = nb_key n.
Proof. unfold after_hello. by destruct (_ =? _). Qed.

Variable listener : Z.
Let srv := ipc_server hmac listener.

#[export] Program Instance ipc_delimited : Delimited srv := {
  dl_ok := ipc_ok; legal := hello_legal; effect := hello_effect
}.
Next Obligation.
  intros env s fd m (x & n & type & id & _ & _ & _ & Hid & ->). pose proof (blen_wire (nb_key n) type id Hid). lia.
Qed.
Next Obligation.
  intros env s fd m rest Hok (x & n & type & id & Hg & Hx & Ht & Hid & ->).
  destruct (hello_received hmac hmac_length env s fd (NeighborIP n) x n type id rest) as (s' & E & Hok' & Hn & Hs); [done..|].
  destruct (hello_buffer hmac hmac_length env s fd (NeighborIP n) x n type id rest) as (m' & E' & Hb & _); [done..|].
  exists s', m'. cbn [callback srv ipc_server]. unfold ipc_callback. rewrite E. cbn [mbind outcome_bind]. rewrite E'.
  split_and!; [done|done|done|]. exists x, n, type, id. by split_and!.
Qed.
Next Obligation.
  intros env s fd m s' env' fd' m' (x & n & type & id & (Hg & Hx & _ & _ & _) & Hn & _)
    (y & k & type' & id' & Hg' & Hy & Ht' & Hid' & ->).
  destruct (decide (x = y)) as [<-|Hxy].
  - rewrite Hx in Hy. injection Hy as <-. destruct (after_hello_same env type id n) as [H1 H2].
    exists x, (after_hello env type id n), type', id'. split_and!; [by rewrite H1|by rewrite Hn, lookup_insert_eq|done..|].
    by rewrite H2.
  - exists y, k, type', id'. split_and!; [done|by rewrite Hn, lookup_insert_ne|done..].
Qed.

Lemma legal_configured env s s' fd m : configured s' = configured s → hello_legal env s fd m → hello_legal env s' fd m.
Proof.
  intros E (x & n & type & id & Hg & Hx & Ht & Hid & ->).
  destruct (configured_neighbor s' s x n) as (k & Hk & Hip & Hkey); [done|done|].
  exists x, k, type, id. split_and!; [by rewrite Hip|done|done|done|by rewrite Hkey].
Qed.

(** C39: one wake-up of the protocol's thread in which every ready connection delivers one
    whole message of its neighbor.  The round of hellos comes first, and always ends: where
    the sockets of the neighbors are connected to them it does to the neighbors, the messages
    and the descriptors what [hello_view] says at each neighbor in list order, registering
    the connections it opens and closing those that fail, and the program exits only where a
    visit says so.  After it each message is handled exactly once, in order, with the
    connection it came from, whatever earlier messages have left in the shared buffer, and
    no further connection is dropped or added. *)
Theorem ipc_server_delivers st h ms :
  ipc_ok (app st) → blen (buf st) = 1024 →
  Forall (λ a, hello_legal a.1 (app st) a.2.1 a.2.2 ∧ a.2.1 ≠ listener) ms →
  ∃ o, hello_neighbors hmac h st = Ret o
    ∧ ((∀ x n, neighbors (app st) !! x = Some n → connected h x n) →
       ∃ l, NoDup l ∧ (∀ x, x ∈ l ↔ is_Some (neighbors (app st) !! x))
         ∧ view_of <$> o = foldl (hello_view h (wire_of hmac (app st))) (Some (view_of st)) l)
    ∧ match o with
      | None => wakeup srv st h (arrival <$> ms) = Ret None
      | Some st1 =>
          ∃ st', wakeup srv st h (arrival <$> ms) = Ret (Some st') ∧ handled ms (app st1) (app st')
            ∧ ipc_ok (app st') ∧ blen (buf st') = 1024 ∧ monitored st' = monitored st1 ∧ closed st' = closed st1
      end.
Proof.
  intros Hok Hb Hms. destruct (hello_neighbors_inv hmac hmac_length h st Hok) as (o & E & Ho).
  exists o. split_and!; [done| |].
  - intros Hc. destruct (hello_round hmac hmac_length st h Hok Hc) as (o' & l & E' & H1 & H2 & H3 & _).
    rewrite E in E'. injection E' as <-. by exists l.
  - unfold wakeup. cbn [timeoutfunction srv ipc_server]. rewrite E. cbn [mbind outcome_bind].
    destruct o as [st1|]; [|done]. destruct (Ho st1 eq_refl) as [Hok1 Hb1].
    destruct (hello_loop_configured hmac h _ _ _ _ E) as [Hcf _].
    destruct (arrivals_handled ms st1) as (st' & E' & Hb' & Hm & Hc & Hok' & He); [done| |congruence|].
    + eapply Forall_impl; [exact Hms|]. intros [e [fd m]] [Hl Hfd]. split; [|done]. by eapply legal_configured.
    + exists st'. by split_and!.
Qed.

(** C40: who is monitored.  As long as the configuration is not changed, whatever happens on
    its sockets and in its rounds of hellos, the server only ever monitors descriptors it
    started with, accepted connections whose peer has the address of a configured neighbor,
    and sockets that a round of hellos has opened to the address of a configured neighbor. *)
Theorem ipc_server_access rounds st st' fd :
  epoll_handler srv rounds st = Ret (Some st') → fd ∈ monitored st' →
  fd ∈ monitored st
  ∨ (∃ h evs ev env x n, (h, evs) ∈ rounds ∧ ev ∈ evs ∧ (fd, env) ∈ accepts ev
       ∧ neighbors (app st) !! x = Some n ∧ getpeername env fd = Some (NeighborIP n))
  ∨ (∃ h evs x n, (h, evs) ∈ rounds
       ∧ neighbors (app st) !! x = Some n ∧ new_ip_client (at_neighbor h x) (NeighborIP n) = Some fd).
Proof.
  intros H Hfd.
  set (accepted := λ fd env, ∃ h evs ev, (h, evs) ∈ rounds ∧ ev ∈ evs ∧ (fd, env) ∈ accepts ev).
  set (timed := λ h, ∃ evs, (h, evs) ∈ rounds).
  set (allowed := λ fd, (∃ env x n, accepted fd env ∧ neighbors (app st) !! x = Some n ∧ getpeername env fd = Some (NeighborIP n))
    ∨ (∃ h x n, timed h ∧ neighbors (app st) !! x = Some n ∧ new_ip_client (at_neighbor h x) (NeighborIP n) = Some fd)).
  destruct (rounds_run srv (λ s, configured s = configured (app st)) allowed (λ _, True) accepted timed)
    with rounds st st' as [_ Hm]; [..|done| |].
  - intros env s f s' r Ha Hs E. destruct (check_configured _ _ _ _ _ E) as [Hc Hr]. split; [congruence|].
    intros Hr1. destruct (Hr Hr1) as (x & n & Hx & Hg). left.
    destruct (configured_neighbor _ _ x n Hs Hx) as (k & Hk & Hip & _). exists env, x, k. by rewrite Hip.
  - intros env s f b s' b' _ Hs E. cbn [callback srv ipc_server] in E. unfold ipc_callback in E.
    apply bind_Ret in E as ([s1 r] & E1 & E). apply bind_Ret in E as (m' & _ & E). injection E as <- _.
    apply handler_configured in E1. congruence.
  - intros f h st1 st2 [= <-] Ht E Hk. destruct (hello_loop_configured _ _ _ _ _ _ E) as [Hc Hm].
    split; [congruence|]. intros z [?|(x & n & Hx & Hn)]%Hm; [by left|right; right].
    destruct (configured_neighbor _ _ x n Hk Hx) as (k & Hk' & Hip & _). exists h, x, k. by rewrite Hip.
  - apply Forall_forall. intros [h evs] Hr. split; [by exists evs|]. apply Forall_forall. intros ev Hev. split; [done|].
    apply Forall_forall. intros [c env] Hc. by exists h, evs, ev.
  - done.
  - destruct (Hm fd Hfd) as [?|[(env & x & n & (h & evs & ev & ? & ? & ?) & ? & ?)|(h & x & n & (evs & ?) & ? & ?)]];
      [by left|right; left; eauto 15|right; right; eauto 10].
Qed.

Lemma put_prefix (b : buffer) m : ∃ rest, put b 0 m = m ++ rest.
Proof. unfold put. change (Z.to_nat 0) with 0%nat. cbn [take app]. by eexists. Qed.

Lemma callback_effect env s fd m rest : ipc_ok s → hello_legal env s fd m →
  ∃ s' b', ipc_callback hmac env s fd (m ++ rest) = Ret (s', b') ∧ hello_effect env s fd m s'.
Proof.
  intros Hok Hl. destruct (@dl_callback _ _ _ srv ipc_delimited env s fd m rest Hok Hl) as (s' & b' & E & _ & _ & He). by exists s', b'.
Qed.

(** Two messages of a neighbor that are ready together.  Read by two calls of [recv], only
    the second is handled; read by one call, only the first.  The other message is lost: a
    HERE_I_AM in that place is never answered. *)
Theorem burst_loses_messages env st fd m1 m2 :
  ipc_ok (app st) → blen (buf st) = 1024 → fd ≠ listener → hello_legal env (app st) fd m1 → hello_legal env (app st) fd m2 →
  (∃ st', handle_event srv st (Event fd false false true [] [m1; m2] Again env) = Ret (Some st')
          ∧ hello_effect env (app st) fd m2 (app st')) ∧
  (∃ st', handle_event srv st (Event fd false false true [] [m1 ++ m2] Again env) = Ret (Some st')
          ∧ hello_effect env (app st) fd m1 (app st')).
Proof.
  intros Hok Hb Hfd H1 H2.
  pose proof (@dl_size _ _ _ srv ipc_delimited _ _ _ _ H1) as L1. pose proof (@dl_size _ _ _ srv ipc_delimited _ _ _ _ H2) as L2.
  assert (S1 : blen (m1 ++ m2) <= 1024).
  { destruct H1 as (x1 & n1 & t1 & id1 & _ & _ & _ & Hid1 & ->), H2 as (x2 & n2 & t2 & id2 & _ & _ & _ & Hid2 & ->).
    rewrite blen_app. pose proof (blen_wire (nb_key n1) t1 id1 Hid1). pose proof (blen_wire (nb_key n2) t2 id2 Hid2). lia. }
  split.
  - rewrite only_last_message by (done || lia). destruct (put_prefix (put (buf st) 0 m1) m2) as (rest & ->).
    destruct (callback_effect env (app st) fd m2 rest Hok H2) as (s' & b' & E & He).
    cbn [callback srv ipc_server]. rewrite E. cbn [mbind outcome_bind done_reading]. by eexists.
  - unfold handle_event. cbn [EPOLLERR EPOLLHUP EPOLLIN ev_fd chunks ev_end ev_env orb negb socket srv ipc_server].
    rewrite (proj2 (Z.eqb_neq _ _) Hfd). destruct (recv_one (m1 ++ m2) (buf st)) as (rest & -> & _); [lia|].
    cbn [mbind outcome_bind]. rewrite <-app_assoc.
    destruct (callback_effect env (app st) fd m1 (m2 ++ rest) Hok H1) as (s' & b' & E & He).
    cbn [callback srv ipc_server]. rewrite E. cbn [mbind outcome_bind done_reading]. by eexists.
Qed.

(** A connection that closes.  Without keys, when neighbor [k] closes its connection in the
    wake-up after a hello of neighbor [n], the hello is handled a second time, as a message
    of [k]: [k] gets the id of [n], and after an I_SEE_YOU is UP although it has just gone. *)
Theorem closing_replays_message env env' st fd fd' x n y k type id :
  ipc_ok (app st) → blen (buf st) = 1024 → fd ≠ listener → fd' ≠ listener →
  hello_of env (app st) fd (wire hmac (nb_key n) type id) x n type id →
  key_is_empty (nb_key n) = true → key_is_empty (nb_key k) = true →
  getpeername env' fd' = Some (NeighborIP k) → neighbors (app st) !! y = Some k → x ≠ y →
  ∃ st', events_loop srv [arrival (env, (fd, wire hmac (nb_key n) type id)); Event fd' false false true [] [] Closed env'] st
         = Ret (Some st')
    ∧ neighbors (app st') = <[y := after_hello env' type id k]> (<[x := after_hello env type id n]> (neighbors (app st)))
    ∧ fd' ∈ closed st'.
Proof.
  intros Hok Hb Hfd Hfd' (Hg & Hx & Ht & Hid & _) Hkn Hkk Hg' Hy Hxy.
  set (m := wire hmac (nb_key n) type id). pose proof (blen_wire (nb_key n) type id Hid) as Hm. fold m in Hm.
  destruct (recv_one m (buf st)) as (rest & Er & _); [lia|].
  destruct (hello_received hmac hmac_length env (app st) fd (NeighborIP n) x n type id rest) as (s1 & E1 & Hok1 & Hn1 & _); [done..|].
  destruct (hello_buffer hmac hmac_length env (app st) fd (NeighborIP n) x n type id rest) as (m' & E1' & _ & Hm'); [done..|].
  fold m in E1, E1', Hm'.
  assert (H1 : handle_event srv st (arrival (env, (fd, m))) = Ret (Some (set_app (set_buf st (m ++ rest)) s1))).
  { unfold handle_event, arrival. cbn [EPOLLERR EPOLLHUP EPOLLIN ev_fd chunks ev_end ev_env orb negb fst snd socket srv ipc_server].
    rewrite (proj2 (Z.eqb_neq _ _) Hfd), Er. cbn [mbind outcome_bind callback srv ipc_server]. unfold ipc_callback.
    rewrite E1. cbn [mbind outcome_bind]. by rewrite E1', (Hm' Hkn). }
  cbn [events_loop]. rewrite H1. cbn [mbind outcome_bind].
  rewrite closed_runs_callback by done. cbn [callback srv ipc_server app set_app buf set_buf]. unfold ipc_callback.
  assert (Em : m = wire hmac (nb_key k) type id) by (unfold m, wire; by rewrite Hkn, Hkk). rewrite Em.
  assert (Hy1 : neighbors s1 !! y = Some k) by (by rewrite Hn1, lookup_insert_ne).
  destruct (hello_received hmac hmac_length env' s1 fd' (NeighborIP k) y k type id rest) as (s2 & E2 & _ & Hn2 & _); [done..|].
  destruct (hello_buffer hmac hmac_length env' s1 fd' (NeighborIP k) y k type id rest) as (m2 & E2' & _); [done..|].
  rewrite E2. cbn [mbind outcome_bind]. rewrite E2'. cbn [mbind outcome_bind].
  eexists. split; [done|]. cbn [app close closed set_app set_buf]. rewrite Hn2, Hn1. split; [done|]. by left.
Qed.
End Serve.

(** ** Witnesses: a keyless node with the neighbors 10.0.0.1 (socket 7) and 10.0.0.2 (socket 8). *)
Definition two_env : ipc_env :=
  IpcEnv (λ fd, if fd =? 7 then Some 167772161 else if fd =? 8 then Some 167772162 else None) 100 (λ _, Some (-1)) (λ _ _, 0) (λ _, true) (λ _, true).
Definition two_hello : hello_env := HelloEnv 100 (λ _, two_env).
Definition one_neighbor : ipcstate :=
  match cli_neighbor (start_ipc 5) 1 zero_garbage 100 (Some 167772161) None with Ret s => s | _ => start_ipc 5 end.
Definition two_neighbors : ipcstate :=
  match cli_neighbor one_neighbor 2 zero_garbage 100 (Some 167772162) None with Ret s => s | _ => start_ipc 5 end.
Definition first_neighbor : neighbor := Neighbor 167772161 DOWN [0; 0; 0; 0] 0 zero_key 100 100.
Definition second_neighbor : neighbor := Neighbor 167772162 DOWN [0; 0; 0; 0] 0 zero_key 100 100.
Definition two_server : server ipcstate ipc_env hello_env := ipc_server demo_hmac 3.
Definition two_started : epoller ipcstate := Epoller (replicate IPC_BUFSIZE 0) [8; 7; 3] [] two_neighbors.

Lemma two_ok : ipc_ok two_neighbors.
Proof.
  apply (cli_neighbor_ok one_neighbor 2 zero_garbage 100 (Some 167772162) None);
    [by vm_compute|apply zero_garbage_ok|by vm_compute|].
  apply (cli_neighbor_ok (start_ipc 5) 1 zero_garbage 100 (Some 167772161) None);
    [done|apply zero_garbage_ok|by vm_compute|apply start_ipc_ok].
Qed.

Lemma id_1234 : is_id [1; 2; 3; 4].
Proof. split; [done|]. repeat constructor; done. Qed.

Lemma first_hello type : hello_type type →
  hello_of demo_hmac two_env two_neighbors 7 (plain_message type [1; 2; 3; 4]) 1 first_neighbor type [1; 2; 3; 4].
Proof. intros Ht. split_and!; [done|by vm_compute|done|apply id_1234|done]. Qed.

(** At time 140 both neighbors are due: the round connects to the first (socket 9) and cannot
    reach the second; then the message on socket 7 is handled. *)
Definition late_env : ipc_env :=
  IpcEnv (λ fd, if fd =? 7 then Some 167772161 else None) 140 (λ ip, Some (if ip =? 167772161 then 9 else -1))
    (λ _ _, 0) (λ _, true) (λ _, true).
Definition late_hello : hello_env := HelloEnv 140 (λ _, late_env).

Lemma ipc_server_delivers_witness :
  ∃ st1 st', hello_neighbors demo_hmac late_hello two_started = Ret (Some st1) ∧ monitored st1 = [9; 8; 7; 3]
    ∧ wakeup two_server two_started late_hello [arrival (late_env, (7, plain_message 2 [1; 2; 3; 4]))] = Ret (Some st')
    ∧ monitored st' = [9; 8; 7; 3].
Proof.
  destruct (ipc_server_delivers demo_hmac demo_hmac_length 3 two_started late_hello
    [(late_env, (7, plain_message 2 [1; 2; 3; 4]))]) as (o & E & _ & H).
  - apply two_ok.
  - vm_compute. reflexivity.
  - constructor; [|constructor]. split; [|discriminate]. exists 1%positive, first_neighbor, 2, [1; 2; 3; 4].
    split_and!; [reflexivity|vm_compute; reflexivity|by right|apply id_1234|reflexivity].
  - destruct o as [st1|]; [|vm_compute in E; discriminate E].
    destruct H as (st' & E' & _ & _ & _ & Hm & _). exists st1, st'.
    assert (M : monitored st1 = [9; 8; 7; 3]) by (vm_compute in E; injection E as <-; reflexivity).
    split; [exact E|]. split; [exact M|]. split; [exact E'|]. rewrite Hm. exact M.
Defined.

Lemma ipc_server_access_witness :
  let rounds := [(late_hello, [Event 3 false false true [(7, two_env); (10, two_env)] [] Again two_env])] in
  ∃ st', epoll_handler two_server rounds (Epoller (replicate IPC_BUFSIZE 0) [3] [] two_neighbors) = Ret (Some st')
    ∧ monitored st' = [7; 9; 3] ∧ closed st' = [10]
    ∧ (9 ∈ [3]
       ∨ (∃ h evs ev env x n, (h, evs) ∈ rounds ∧ ev ∈ evs ∧ (9, env) ∈ accepts ev
            ∧ neighbors two_neighbors !! x = Some n ∧ getpeername env 9 = Some (NeighborIP n))
       ∨ (∃ h evs x n, (h, evs) ∈ rounds
            ∧ neighbors two_neighbors !! x = Some n ∧ new_ip_client (at_neighbor h x) (NeighborIP n) = Some 9)).
Proof.
  intros rounds.
  destruct (epoll_handler two_server rounds (Epoller (replicate IPC_BUFSIZE 0) [3] [] two_neighbors)) as [[st'|]| |] eqn:E;
    [|vm_compute in E; discriminate E..].
  exists st'. assert (H : monitored st' = [7; 9; 3] ∧ closed st' = [10]).
  { vm_compute in E. injection E as <-. split; reflexivity. }
  destruct H as [H7 H10]. split; [reflexivity|]. split; [exact H7|]. split; [exact H10|].
  refine (ipc_server_access demo_hmac 3 rounds (Epoller (replicate IPC_BUFSIZE 0) [3] [] two_neighbors) st' 9 E _).
  rewrite H7. right. left.
Defined.

Lemma burst_loses_messages_witness :
  ∃ st', handle_event two_server two_started
           (Event 7 false false true [] [plain_message 1 [1; 2; 3; 4]; plain_message 2 [1; 2; 3; 4]] Again two_env) = Ret (Some st')
    ∧ hello_effect demo_hmac two_env two_neighbors 7 (plain_message 2 [1; 2; 3; 4]) (app st').
Proof.
  refine (proj1 (burst_loses_messages demo_hmac demo_hmac_length 3 two_env two_started 7
    (plain_message 1 [1; 2; 3; 4]) (plain_message 2 [1; 2; 3; 4]) _ _ _ _ _)).
  - apply two_ok.
  - vm_compute. reflexivity.
  - discriminate.
  - do 4 eexists. apply first_hello. by left.
  - do 4 eexists. apply first_hello. by right.
Defined.

Lemma closing_replays_message_witness :
  ∃ st', events_loop two_server [arrival (two_env, (7, plain_message 2 [1; 2; 3; 4])); Event 8 false false true [] [] Closed two_env] two_started
         = Ret (Some st')
    ∧ (nb_state <$> neighbors (app st') !! 2%positive) = Some UP ∧ 8 ∈ closed st'.
Proof.
  destruct (closing_replays_message demo_hmac demo_hmac_length 3 two_env two_env two_started 7 8 1
    first_neighbor 2 second_neighbor 2 [1; 2; 3; 4]) as (st' & E & Hn & Hc).
  - apply two_ok.
  - vm_compute. reflexivity.
  - discriminate.
  - discriminate.
  - apply first_hello. by right.
  - reflexivity.
  - reflexivity.
  - reflexivity.
  - vm_compute. reflexivity.
  - discriminate.
  - exists st'. split; [exact E|]. split; [|exact Hc]. rewrite Hn, lookup_insert_eq. reflexivity.
Defined.
