(* ===== verification/Domain.v ===== *)
(** * The accelerator domain as the data path sees it

    The fetcher and the workers use the IPC component through two calls only:
    [get_opennop_id] and [verify_neighbor_in_domain].  [Domain] is that
    interface; [ipc_domain] is its implementation over the neighbor list. *)
From S2P Require Import Prelude Packet NodeId Ipc.

Class Domain := {
  get_opennop_id : list Z;
  in_domain : option (list Z) → outcome bool
}.

(** What the data path relies on: the local id is an id, a NULL id is never a
    neighbor, and every id gets an answer. *)
Class DomainLaws (D : Domain) := {
  my_id_ok : is_id get_opennop_id;
  in_domain_null b : in_domain None = Ret b → b = false;
  in_domain_total id : is_id id → ∃ b, in_domain (Some id) = Ret b
}.

#[export] Instance ipc_domain (s : ipcstate) : Domain := {|
  get_opennop_id := opennop_localid s;
  in_domain := verify_neighbor_in_domain s
|}.

(** The four bytes a [remoteID] pointer into a packet points at. *)
Definition remote_id (p : buffer) (o : option Z) : outcome (option (list Z)) :=
  match o with
  | None => Ret None
  | Some o => if in_object p o (Z.of_nat OPENNOP_IPC_ID_LENGTH) then Ret (Some (sub p o 4)) else Undef
  end.

(** [(remoteID != NULL) && verify_neighbor_in_domain(remoteID) == true] *)
Definition from_neighbor `{Domain} (p : buffer) (o : option Z) : outcome bool :=
  match o with
  | None => Ret false
  | Some _ => id ← remote_id p o; in_domain id
  end.

(** ** Netfilter verdicts *)
(** One [nfq_set_verdict] call; [v_data] is [None] for [(0, NULL)]. *)
Record verdict := Verdict { v_hq : Z; v_id : Z; v_kind : nf_verdict; v_data : option buffer }.

(** A verdict that carries the first [ntohs(iph->tot_len)] bytes of the packet. *)
Definition accept_with (hq id : Z) (p : buffer) (tot : Z) : outcome verdict :=
  if in_object p 0 (ntohs tot)
  then Ret (Verdict hq id NF_ACCEPT (Some (sub p 0 (ntohs tot)))) else Undef.

(** * Facts *)

(** A domain with no neighbors. *)
Definition lonely_domain (me : list Z) : Domain := {|
  get_opennop_id := me;
  in_domain _ := Ret false
|}.

Lemma lonely_laws me : is_id me → DomainLaws (lonely_domain me).
Proof. intros H. split; [done| |by eexists]. by intros b [= <-]. Qed.

Lemma sub_is_id p o : bytes p → in_object p o 4 = true → is_id (sub p o 4).
Proof.
  intros Hb Ho. split; [|by apply bytes_sub]. apply blen_sub in Ho. unfold blen in Ho.
  unfold OPENNOP_IPC_ID_LENGTH. lia.
Qed.

(** * Properties *)

(** The neighbor list keeps what the data path relies on: an id is accepted
    exactly when some neighbor that is UP has it, every id gets an answer, NULL never
    passes, and the local id is an id. *)
Theorem ipc_domain_laws s :
  ipc_ok s →
  DomainLaws (ipc_domain s)
  ∧ ∀ id, is_id id → (in_domain (Domain := ipc_domain s) (Some id) = Ret true ↔
      ∃ x n, neighbors s !! x = Some n ∧ nb_state n = UP ∧ nb_id n = id).
Proof.
  intros Hok. split; [split|].
  - destruct Hok as (l & Hi). apply (ii_id _ _ Hi).
  - intros b. simpl. unfold verify_neighbor_in_domain.
    destruct (find_in_spec s (λ n, compare_opennopid (Some (nb_id n)) None && bool_decide (nb_state n = UP)) Hok)
      as ([x|] & -> & Hr); cbn [mbind outcome_bind]; [by destruct Hr as (n & _ & Hr)|].
    by intros [= <-].
  - intros id Hid. destruct (verify_spec s id Hok Hid) as (b & E & _). by exists b.
  - intros id Hid. destruct (verify_spec s id Hok Hid) as (b & E & Hb). simpl. rewrite E.
    rewrite <-Hb. split; [by intros [= ->]|by intros ->].
Qed.

Lemma ipc_domain_laws_witness :
  DomainLaws (ipc_domain demo_ipc)
  ∧ ∀ id, is_id id → (in_domain (Domain := ipc_domain demo_ipc) (Some id) = Ret true ↔
      ∃ x n, neighbors demo_ipc !! x = Some n ∧ nb_state n = UP ∧ nb_id n = id).
Proof. apply (ipc_domain_laws demo_ipc demo_ok). Defined.
