(* ===== verification/WorkerPool.v ===== *)
(** * Worker slots and their session counters (opennopd/subsystems/worker.c)

    [workers[MAXWORKERS]] keeps, for each worker, how many sessions are
    assigned to it; [numworkers] is how many workers run. *)
From S2P Require Import Prelude.

Definition MAXWORKERS : Z := 255.

Record wpool := WPool { numworkers : Z; w_sessions : list Z }.

Definition get_workers (w : wpool) : Z := numworkers w.
Definition set_workers (w : wpool) (desired : Z) : wpool := WPool (u8 desired) (w_sessions w).

Definition get_worker_sessions (w : wpool) (i : Z) : outcome Z := rd (w_sessions w) i.

Definition set_worker_sessions (w : wpool) (i v : Z) : outcome wpool :=
  if (0 <=? i) && (i <? blen (w_sessions w))
  then Ret (WPool (numworkers w) (<[Z.to_nat i := v]> (w_sessions w))) else Undef.

Definition increment_worker_sessions (w : wpool) (i : Z) : outcome wpool :=
  n ← get_worker_sessions w i; set_worker_sessions w i (u32 (n + 1)).

Definition decrement_worker_sessions (w : wpool) (i : Z) : outcome wpool :=
  n ← get_worker_sessions w i; set_worker_sessions w i (u32 (n - 1)).

(** The zero-initialised table. *)
Definition initial_wpool : wpool := WPool 0 (replicate (Z.to_nat MAXWORKERS) 0).

(** The loop of [insertsession] that picks the queue of a new session. *)
Fixpoint pick_queue (n : nat) (w : wpool) (i queuenum : Z) : outcome Z :=
  match n with
  | O => Ret queuenum
  | S n' =>
      a ← get_worker_sessions w queuenum;
      b ← get_worker_sessions w i;
      pick_queue n' w (i + 1) (if b <? a then (if i <? get_workers w then u8 i else queuenum) else queuenum)
  end.

Definition assign_queue (w : wpool) : outcome Z :=
  pick_queue (Z.to_nat (get_workers w)) w 0 0.

(** ** Facts *)
Definition pool_ok (w : wpool) : Prop :=
  blen (w_sessions w) = MAXWORKERS ∧ 0 <= numworkers w <= MAXWORKERS.

Lemma get_worker_sessions_Ret w i : pool_ok w → 0 <= i < MAXWORKERS →
  get_worker_sessions w i = Ret (w_sessions w @@ i).
Proof. intros [Hl _] Hi. unfold get_worker_sessions. apply rd_at. lia. Qed.

Lemma set_worker_sessions_Ret w i v : pool_ok w → 0 <= i < MAXWORKERS →
  set_worker_sessions w i v = Ret (WPool (numworkers w) (<[Z.to_nat i := v]> (w_sessions w))).
Proof. intros [Hl _] Hi. unfold set_worker_sessions. rewrite Hl. by bool_lia. Qed.

(** [r] has no more sessions than any running worker, and is the first such. *)
Definition least_loaded (w : wpool) (r : Z) : Prop :=
  0 <= r < Z.max 1 (numworkers w)
  ∧ (∀ j, 0 <= j < numworkers w → w_sessions w @@ r <= w_sessions w @@ j)
  ∧ (∀ j, 0 <= j < r → w_sessions w @@ r < w_sessions w @@ j).

Lemma pick_queue_spec w n i q :
  pool_ok w → 0 <= q < Z.max 1 (numworkers w) → 0 <= i → i + Z.of_nat n = numworkers w →
  (∀ j, 0 <= j < i → w_sessions w @@ q <= w_sessions w @@ j) →
  (∀ j, 0 <= j < q → w_sessions w @@ q < w_sessions w @@ j) → q <= i →
  ∃ r, pick_queue n w i q = Ret r ∧ least_loaded w r.
Proof.
  intros Hok Hq Hi Hn Hle Hlt Hqi.
  assert (Hm : 0 <= numworkers w <= MAXWORKERS) by apply Hok. unfold MAXWORKERS in Hm.
  revert i q Hq Hi Hn Hle Hlt Hqi.
  induction n as [|n IH]; intros i q Hq Hi Hn Hle Hlt Hqi; simpl.
  { exists q. split; [done|]. split_and!; [lia..| |done]. intros j Hj. apply Hle. lia. }
  rewrite !get_worker_sessions_Ret by (done || unfold MAXWORKERS; lia). simpl.
  unfold get_workers. rewrite u8_small by lia.
  destruct (Z.ltb_spec (w_sessions w @@ i) (w_sessions w @@ q)) as [Hlt'|Hge].
  - replace (i <? numworkers w) with true by (symmetry; apply Z.ltb_lt; lia).
    apply IH; [lia..| | |lia].
    + intros j Hj. destruct (decide (j = i)) as [->|]; [done|].
      assert (w_sessions w @@ q <= w_sessions w @@ j) by (apply Hle; lia). lia.
    + intros j Hj. assert (w_sessions w @@ q <= w_sessions w @@ j) by (apply Hle; lia). lia.
  - apply IH; [lia..| |done|lia].
    intros j Hj. destruct (decide (j = i)) as [->|]; [done|]. apply Hle. lia.
Qed.

Lemma assign_queue_spec w : pool_ok w → ∃ r, assign_queue w = Ret r ∧ least_loaded w r.
Proof.
  intros Hok. pose proof Hok as [_ Hm]. unfold MAXWORKERS in *. unfold assign_queue, get_workers.
  apply pick_queue_spec; [done|lia..].
Qed.
