(* ===== verification/Session.v ===== *)
(** * The session table (opennopd/sessionmanager.c, include/session.h)

    A hash table of 65536 buckets; each bucket is an intrusive list of
    sessions.  The state holds the bucket heads, the store of session objects
    and the workers' session counters. *)
From S2P Require Import Prelude Packet Dll NodeId WorkerPool.

(** ** Data *)
Record endpoint := Endpoint {
  address : Z; port : Z;
  previoussequence : Z; sequence : Z; nextsequence : Z;
  accelerator : list Z
}.

(** [client] and [server] point at the address of one of the two endpoints. *)
Inductive side := LargerSide | SmallerSide.
#[export] Instance side_eq_dec : EqDecision side.
Proof. solve_decision. Defined.

Record session := Session {
  s_head : Z;                      (* index of the bucket [head] points at *)
  client : option side; server : option side;
  larger : endpoint; smaller : endpoint;
  deadcounter : Z; state : Z; queue : Z
}.

(** <netinet/tcp.h> *)
Definition TCP_ESTABLISHED : Z := 1.
Definition TCP_SYN_SENT : Z := 2.
Definition TCP_CLOSING : Z := 11.

Definition SESSIONBUCKETS : Z := 65536.

Record smstate := SMState {
  sessiontable : gmap Z dhead;
  sheap : heap session;
  workers : wpool
}.

(** A bucket that was never touched is zero. *)
Definition getsessionhead (s : smstate) (i : Z) : dhead := default empty_head (sessiontable s !! i).

Definition set_bucket (s : smstate) (i : Z) (hd : dhead) : smstate :=
  SMState (<[i := hd]> (sessiontable s)) (sheap s) (workers s).
Definition set_sheap (s : smstate) (h : heap session) : smstate :=
  SMState (sessiontable s) h (workers s).
Definition set_wpool (s : smstate) (w : wpool) : smstate :=
  SMState (sessiontable s) (sheap s) w.

Definition initialize_sessiontable (s : smstate) : smstate :=
  SMState ((λ hd, DHead None None (h_len hd)) <$> sessiontable s) (sheap s) (workers s).

(** ** Hashing and ordering *)
Definition sessionhash (largerIP largerIPPort smallerIP smallerIPPort : Z) : Z :=
  let hash1 := u16 (Z.shiftr (Z.lxor largerIP smallerIP) 16) in
  let hash2 := u16 (Z.lxor largerIP smallerIP) in
  let hash3 := u16 (Z.lxor hash1 hash2) in
  let hash4 := u16 (Z.lxor largerIPPort smallerIPPort) in
  u16 (Z.lxor hash3 hash4).

(** Every caller passes the smaller IP in the place of the larger port and the
    larger port in the place of the smaller IP; the call converts them to the
    parameter types [__u16] and [__u32]. *)
Definition bucket_of (largerIP largerIPPort smallerIP smallerIPPort : Z) : Z :=
  sessionhash largerIP (u16 smallerIP) (u32 largerIPPort) smallerIPPort.

(** [largerIP, largerIPPort, smallerIP, smallerIPPort] *)
Definition sort_sockets (saddr source daddr dest : Z) : Z * Z * Z * Z :=
  if daddr <? saddr then (saddr, source, daddr, dest) else (daddr, dest, saddr, source).

(** ** Insertion, search and removal *)
Definition new_endpoint (a p : Z) : endpoint := Endpoint a p 0 0 0 zero_id.

Definition new_session (hash queuenum lIP lPort sIP sPort : Z) : session :=
  Session hash None None (new_endpoint lIP lPort) (new_endpoint sIP sPort) 0 0 queuenum.

(** [a] is what [calloc] returned. *)
Definition insertsession (s : smstate) (a : option loc) (lIP lPort sIP sPort : Z)
    : outcome (smstate * option loc) :=
  let hash := bucket_of lIP lPort sIP sPort in
  queuenum ← assign_queue (workers s);
  match a with
  | None => Ret (s, None)
  | Some x =>
      let h := <[x := Node None None (new_session hash queuenum lIP lPort sIP sPort)]> (sheap s) in
      w ← increment_worker_sessions (workers s) queuenum;
      let hd := getsessionhead s hash in
      '(h, hd) ←
        (if h_len hd =? 0 then Ret (h, DHead (Some x) (Some x) (h_len hd))
         else
           h ← store_prev h (Some x) (h_prev hd);
           n ← load h (Some x);
           h ← store_next h (n_prev n) (Some x);
           Ret (h, DHead (h_next hd) (Some x) (h_len hd)));
      let hd := DHead (h_next hd) (h_prev hd) (u32 (h_len hd + 1)) in
      Ret (set_wpool (set_bucket (set_sheap s h) hash hd) w, Some x)
  end.

Definition session_matches (d : session) (lIP lPort sIP sPort : Z) : bool :=
  (address (larger d) =? lIP) && (port (larger d) =? lPort)
  && (address (smaller d) =? sIP) && (port (smaller d) =? sPort).

Fixpoint search (n : nat) (h : heap session) (cur : option loc) (lIP lPort sIP sPort : Z)
    : outcome (option loc) :=
  match n with
  | O => Spin
  | S n' =>
      match cur with
      | None => Ret None
      | Some x =>
          nd ← load h (Some x);
          if session_matches (n_data nd) lIP lPort sIP sPort then Ret (Some x)
          else search n' h (n_next nd) lIP lPort sIP sPort
      end
  end.

Definition getsession (s : smstate) (lIP lPort sIP sPort : Z) : outcome (option loc) :=
  search (list_fuel (sheap s)) (sheap s)
    (h_next (getsessionhead s (bucket_of lIP lPort sIP sPort))) lIP lPort sIP sPort.

Definition clearsession (s : smstate) (cur : option loc) : outcome smstate :=
  match cur with
  | None => Ret s
  | Some x =>
      nd ← load (sheap s) (Some x);
      let b := s_head (n_data nd) in
      '(h, hd) ← unlink (sheap s) (getsessionhead s b) nd;
      let hd := DHead (h_next hd) (h_prev hd) (u32 (h_len hd - 1)) in
      w ← decrement_worker_sessions (workers s) (queue (n_data nd));
      h ← free h (Some x);
      Ret (set_wpool (set_bucket (set_sheap s h) b hd) w)
  end.

(** ** Freeing the table at exit *)
Fixpoint freemem_loop (n : nat) (h : heap session) (hd : dhead) (cur : option loc)
    : outcome (heap session * dhead) :=
  match n with
  | O => Spin
  | S n' =>
      match h_next hd with
      | None => Ret (h, hd)
      | Some _ =>
          nd ← load h cur;
          h ← (match n_prev nd with
               | Some _ => h ← free h (n_prev nd); store_prev h cur None
               | None => Ret h
               end);
          match n_next nd with
          | Some _ => freemem_loop n' h hd (n_next nd)
          | None => h ← free h cur; freemem_loop n' h (DHead None None (h_len hd)) None
          end
      end
  end.

Definition freemem (h : heap session) (hd : dhead) : outcome (heap session * dhead) :=
  match h_next hd with
  | None => Ret (h, hd)
  | Some _ => freemem_loop (S (list_fuel h)) h hd (h_next hd)
  end.

Fixpoint clear_buckets (n : nat) (s : smstate) (i : Z) : outcome smstate :=
  match n with
  | O => Ret s
  | S n' =>
      s ← (match h_next (getsessionhead s i) with
           | Some _ =>
               '(h, hd) ← freemem (sheap s) (getsessionhead s i);
               Ret (set_bucket (set_sheap s h) i hd)
           | None => Ret s
           end);
      clear_buckets n' s (i + 1)
  end.

Definition clear_sessiontable (s : smstate) : outcome smstate :=
  clear_buckets (Z.to_nat SESSIONBUCKETS) s 0.

(** ** Per-packet session tracking *)
Definition set_endpoint_seq (e : endpoint) (sq nx : Z) : endpoint :=
  Endpoint (address e) (port e) (previoussequence e) sq nx (accelerator e).
Definition set_endpoint_accel (e : endpoint) (id : list Z) : endpoint :=
  Endpoint (address e) (port e) (previoussequence e) (sequence e) (nextsequence e) id.

Definition endpoint_at (d : session) (w : side) : endpoint :=
  match w with LargerSide => larger d | SmallerSide => smaller d end.
Definition set_endpoint (d : session) (w : side) (e : endpoint) : session :=
  match w with
  | LargerSide => Session (s_head d) (client d) (server d) e (smaller d) (deadcounter d) (state d) (queue d)
  | SmallerSide => Session (s_head d) (client d) (server d) (larger d) e (deadcounter d) (state d) (queue d)
  end.
Definition set_deadcounter (d : session) (v : Z) : session :=
  Session (s_head d) (client d) (server d) (larger d) (smaller d) v (state d) (queue d).
Definition set_state (d : session) (v : Z) : session :=
  Session (s_head d) (client d) (server d) (larger d) (smaller d) (deadcounter d) v (queue d).
Definition set_client_server (d : session) (c v : side) : session :=
  Session (s_head d) (Some c) (Some v) (larger d) (smaller d) (deadcounter d) (state d) (queue d).

(** Sequence number, SYN flag and payload length of the packet at hand. *)
Definition payload_len (p : buffer) (t : Z) : outcome Z :=
  tot ← ip_tot_len p; d ← tcp_doff p t; Ret (ntohs tot - t - d * 4).

Definition __updateseq (seq : Z) (syn : bool) (len : Z) (d : session) (source : side) : session :=
  let e := endpoint_at d source in
  if (seq =? nextsequence e) || negb (seq =? u32 (sequence e - 1)) then
    set_deadcounter
      (set_endpoint d source (set_endpoint_seq e seq (u32 (if syn then seq + 1 else seq + len)))) 0
  else d.

(** Which endpoint a packet comes from. *)
Definition source_side (p : buffer) (largerIP : Z) : outcome side :=
  a ← ip_saddr p; Ret (if a =? largerIP then LargerSide else SmallerSide).

Definition updateseq (p : buffer) (t largerIP : Z) (d : session) : outcome (session * Z) :=
  if largerIP =? 0 then Ret (d, -1) else
  w ← source_side p largerIP;
  s ← tcp_seq p t;
  f ← tcp_flags p t;
  len ← payload_len p t;
  Ret (__updateseq (ntohl s) (syn_flag f) len d w, 0).

Definition sourceisclient (p : buffer) (largerIP : Z) (d : session) : outcome (session * Z) :=
  if largerIP =? 0 then Ret (d, -1) else
  w ← source_side p largerIP;
  Ret (match w with
       | LargerSide => set_client_server d LargerSide SmallerSide
       | SmallerSide => set_client_server d SmallerSide LargerSide
       end, 0).

Definition saveacceleratorid (p : buffer) (largerIP : Z) (id : option (list Z)) (d : session)
    : outcome (session * Z) :=
  if largerIP =? 0 then Ret (d, -1) else
  w ← source_side p largerIP;
  let e := endpoint_at d w in
  Ret (set_endpoint d w (set_endpoint_accel e (save_opennopid id (accelerator e)).1), 0).

(** Whether both ends are accelerated and one of the accelerators is this node. *)
Definition session_accelerated (me : list Z) (d : session) : bool :=
  let la := Some (accelerator (larger d)) in
  let sa := Some (accelerator (smaller d)) in
  (compare_opennopid la (Some me) || compare_opennopid sa (Some me))
  && (check_opennopid la && check_opennopid sa && negb (compare_opennopid la sa)).

(** The rows [cli_show_sessionss] prints for a bucket: client address, larger
    port, server address, smaller port, whether the session is optimized. *)
Definition show_row (me : list Z) (d : session) : option (Z * Z * Z * Z * bool) :=
  match client d, server d with
  | Some c, Some v =>
      Some (address (endpoint_at d c), ntohs (port (larger d)),
            address (endpoint_at d v), ntohs (port (smaller d)), session_accelerated me d)
  | _, _ => None
  end.

Fixpoint show_bucket (n : nat) (h : heap session) (me : list Z) (cur : option loc)
    : outcome (list (Z * Z * Z * Z * bool)) :=
  match n with
  | O => Spin
  | S n' =>
      match cur with
      | None => Ret []
      | Some x =>
          nd ← load h (Some x);
          r ← show_bucket n' h me (n_next nd);
          Ret (match show_row me (n_data nd) with Some row => row :: r | None => r end)
      end
  end.

(** ** Closing (opennopd/subsystems/worker.c) *)
Definition closingsession (s : smstate) (cur : option loc) : outcome (smstate * option loc) :=
  match cur with
  | None => Ret (s, None)
  | Some x =>
      nd ← load (sheap s) (Some x);
      if state (n_data nd) =? TCP_ESTABLISHED then
        h ← store_data (sheap s) (Some x) (set_state (n_data nd) TCP_CLOSING);
        Ret (set_sheap s h, Some x)
      else if state (n_data nd) =? TCP_CLOSING then
        s ← clearsession s (Some x); Ret (s, None)
      else Ret (s, Some x)
  end.

(** [thissession->field = ...] through a pointer. *)
Definition with_session (s : smstate) (cur : option loc)
    (f : session → outcome (session * Z)) : outcome smstate :=
  nd ← load (sheap s) cur;
  '(d, _) ← f (n_data nd);
  h ← store_data (sheap s) cur d;
  Ret (set_sheap s h).

(** * Invariant of the table

    [B] is the abstract table: the sessions of each bucket, in list order. *)
Definition in_bucket (b : Z) (d : session) : Prop :=
  s_head d = b
  ∧ bucket_of (address (larger d)) (port (larger d)) (address (smaller d)) (port (smaller d)) = b
  ∧ 0 <= queue d < MAXWORKERS.

(** Live sessions assigned to worker [q]. *)
Definition sessions_on (q : Z) (m : gmap loc session) : Z :=
  Z.of_nat (size (filter (λ kd, queue kd.2 = q) m)).

Definition live (s : smstate) : gmap loc session := payload (sheap s).

Definition workers_ok (w : wpool) (m : gmap loc session) : Prop :=
  pool_ok w ∧ ∀ q, 0 <= q < MAXWORKERS → w_sessions w @@ q = sessions_on q m.

Record table_inv (s : smstate) (B : Z → list loc) : Prop := TableInv {
  inv_dll : ∀ b, dll (sheap s) (in_bucket b) (getsessionhead s b) (B b);
  inv_len : ∀ b, h_len (getsessionhead s b) = Z.of_nat (length (B b));
  inv_listed : ∀ x n, sheap s !! x = Some n → x ∈ B (s_head (n_data n));
  inv_size : Z.of_nat (size (sheap s)) < 2 ^ 32;
  inv_workers : workers_ok (workers s) (live s)
}.

(** ** Session counters *)
Lemma sessions_on_insert q m x d :
  m !! x = None → sessions_on q (<[x := d]> m) = sessions_on q m + (if queue d =? q then 1 else 0).
Proof.
  intros Hx. unfold sessions_on. destruct (Z.eqb_spec (queue d) q) as [E|E].
  - rewrite map_filter_insert_True by done. rewrite map_size_insert_None; [lia|].
    apply map_lookup_filter_None. by left.
  - rewrite map_filter_insert_False by done. rewrite delete_id by done. lia.
Qed.

Lemma sessions_on_delete q m x d :
  m !! x = Some d → sessions_on q (delete x m) = sessions_on q m - (if queue d =? q then 1 else 0).
Proof.
  intros Hx. rewrite <-(insert_delete_id m x d Hx) at 2.
  rewrite sessions_on_insert by apply lookup_delete_eq. lia.
Qed.

Lemma sessions_on_update q m x d d' :
  m !! x = Some d → queue d' = queue d → sessions_on q (<[x := d']> m) = sessions_on q m.
Proof.
  intros Hx E. rewrite <-insert_delete_eq.
  rewrite sessions_on_insert by apply lookup_delete_eq. rewrite E.
  rewrite (sessions_on_delete _ _ _ _ Hx). lia.
Qed.

Lemma sessions_on_bound q m : 0 <= sessions_on q m <= Z.of_nat (size m).
Proof.
  unfold sessions_on. split; [lia|]. apply inj_le, map_subseteq_size, map_filter_subseteq.
Qed.

Lemma increment_ok w m x d :
  workers_ok w m → m !! x = None → 0 <= queue d < MAXWORKERS →
  Z.of_nat (size m) + 1 < 2 ^ 32 →
  ∃ w', increment_worker_sessions w (queue d) = Ret w' ∧ workers_ok w' (<[x := d]> m)
        ∧ numworkers w' = numworkers w.
Proof.
  intros [Hp Hw] Hx Hq Hs. unfold increment_worker_sessions.
  rewrite get_worker_sessions_Ret by done. simpl. rewrite set_worker_sessions_Ret by done.
  eexists. split; [done|]. split; [|done]. destruct Hp as [Hl Hn].
  split; [split; simpl; [by rewrite blen_insert|done]|].
  intros q Hq'. simpl. rewrite at_insert by lia. rewrite sessions_on_insert by done.
  pose proof (sessions_on_bound (queue d) m). rewrite !Hw by done.
  destruct (Z.eqb_spec (queue d) q) as [<-|]; [rewrite u32_small; lia|lia].
Qed.

Lemma decrement_ok w m x d :
  workers_ok w m → m !! x = Some d → 0 <= queue d < MAXWORKERS →
  Z.of_nat (size m) < 2 ^ 32 →
  ∃ w', decrement_worker_sessions w (queue d) = Ret w' ∧ workers_ok w' (delete x m).
Proof.
  intros [Hp Hw] Hx Hq Hs. unfold decrement_worker_sessions.
  rewrite get_worker_sessions_Ret by done. simpl. rewrite set_worker_sessions_Ret by done.
  eexists. split; [done|]. destruct Hp as [Hl Hn].
  split; [split; simpl; [by rewrite blen_insert|done]|].
  intros q Hq'. simpl. rewrite at_insert by lia. rewrite (sessions_on_delete _ _ _ _ Hx).
  pose proof (sessions_on_bound (queue d) m). pose proof (sessions_on_bound (queue d) (delete x m)) as Hb.
  rewrite (sessions_on_delete _ _ _ _ Hx), Z.eqb_refl in Hb. rewrite !Hw by done.
  destruct (Z.eqb_spec (queue d) q) as [<-|]; [rewrite u32_small; lia|lia].
Qed.

(** ** The operations preserve the invariant *)
Definition update_bucket (B : Z → list loc) (b : Z) (l : list loc) : Z → list loc :=
  λ c, if decide (c = b) then l else B c.

Lemma head_set_bucket s h w i hd b :
  getsessionhead (set_wpool (set_bucket (set_sheap s h) i hd) w) b
  = if decide (b = i) then hd else getsessionhead s b.
Proof.
  unfold getsessionhead. simpl. destruct (decide (b = i)) as [->|Hne].
  - by rewrite lookup_insert_eq.
  - by rewrite lookup_insert_ne.
Qed.

Lemma bucket_of_range a p c q : 0 <= bucket_of a p c q < SESSIONBUCKETS.
Proof. unfold bucket_of, sessionhash, SESSIONBUCKETS. apply u16_bound. Qed.

Section Table.
Context (s : smstate) (B : Z → list loc) (Hinv : table_inv s B).

Lemma listed_inv b x : x ∈ B b → ∃ n, sheap s !! x = Some n ∧ in_bucket b (n_data n).
Proof. apply dll_elem with (hd := getsessionhead s b). by apply inv_dll. Qed.

Lemma buckets_disjoint b c x : x ∈ B b → x ∈ B c → b = c.
Proof.
  intros (n & Hn & Hb & _)%listed_inv (n' & Hn' & Hc & _)%listed_inv. congruence.
Qed.

Lemma fresh_unlisted x b : sheap s !! x = None → x ∉ B b.
Proof. intros Hx (n & Hn & _)%listed_inv. congruence. Qed.

Lemma bucket_length b : Z.of_nat (length (B b)) < 2 ^ 32.
Proof.
  pose proof (dll_length _ _ _ _ (inv_dll _ _ Hinv b)). pose proof (inv_size _ _ Hinv). lia.
Qed.

Lemma bucket_empty b : h_len (getsessionhead s b) = 0 ↔ B b = [].
Proof.
  rewrite (inv_len _ _ Hinv). split; [|by intros ->]. destruct (B b); simpl; [done|lia].
Qed.

Lemma live_Some x d : live s !! x = Some d ↔ ∃ n, sheap s !! x = Some n ∧ n_data n = d.
Proof. apply payload_Some. Qed.

Lemma live_listed x d : live s !! x = Some d → x ∈ B (s_head d) ∧ in_bucket (s_head d) d.
Proof.
  intros (n & Hn & <-)%live_Some. pose proof (inv_listed _ _ Hinv _ _ Hn) as Hx.
  split; [done|]. destruct (listed_inv _ _ Hx) as (n' & Hn' & Hb). congruence.
Qed.

(** A session in the part of the store that one bucket owns. *)
Lemma other_bucket_kept h b c l :
  relinked (sheap s) h l → (∀ x, x ∈ l → x ∈ B b ∨ sheap s !! x = None) → c ≠ b →
  dll h (in_bucket c) (getsessionhead s c) (B c).
Proof.
  intros R Hl Hc. eapply dll_relinked; [done| |by apply inv_dll].
  intros x Hx Hxl. destruct (Hl x Hxl) as [Hb|Hn].
  - by apply Hc, (buckets_disjoint _ _ x).
  - by apply (fresh_unlisted x c Hn).
Qed.
End Table.

(** A fresh session linked behind the last one of its bucket. *)
Lemma append_bucket s B b x d :
  table_inv s B → sheap s !! x = None → in_bucket b d →
  let h := <[x := Node None None d]> (sheap s) in let hd := getsessionhead s b in
  ∃ h' nx, (if h_len hd =? 0 then Ret (h, DHead (Some x) (Some x) (h_len hd))
            else h0 ← store_prev h (Some x) (h_prev hd);
                 n ← load h0 (Some x); h1 ← store_next h0 (n_prev n) (Some x);
                 Ret (h1, DHead (h_next hd) (Some x) (h_len hd)))
    = Ret (h', DHead nx (Some x) (h_len hd))
    ∧ relinked h h' (x :: B b) ∧ ∀ len, dll h' (in_bucket b) (DHead nx (Some x) len) (B b ++ [x]).
Proof.
  intros Hinv Hx Hd h hd. assert (Hxl : h !! x = Some (Node None None d)) by apply lookup_insert_eq.
  pose proof (fresh_unlisted _ _ Hinv x b Hx) as Hxb.
  assert (Hdll : dll h (in_bucket b) hd (B b)) by (apply dll_insert_ne; [done|by apply inv_dll]).
  unfold hd in *. destruct (Z.eqb_spec (h_len (getsessionhead s b)) 0) as [E0|E0].
  - apply (bucket_empty _ _ Hinv) in E0. eexists _, _. split_and!; [done|done|].
    intros len. rewrite E0. simpl. by eapply dll_single.
  - assert (Hne : B b ≠ []) by (by rewrite <- (bucket_empty _ _ Hinv)).
    destruct (dll_append _ _ _ _ _ _ 0 Hdll Hne Hxb Hxl Hd) as (h1 & h2 & E1 & E2 & E3 & R & D).
    rewrite E1. simpl. rewrite E2. simpl. rewrite E3. simpl.
    eexists _, _. split_and!; [done|done|]. intros len. by destruct D as (? & ? & ? & ?).
Qed.

(** The table with a session more at the end of bucket [b]. *)
Lemma table_inv_appended s B b x d h' nx w :
  table_inv s B → sheap s !! x = None → s_head d = b → Z.of_nat (size (sheap s)) + 1 < 2 ^ 32 →
  relinked (<[x := Node None None d]> (sheap s)) h' (x :: B b) →
  (∀ len, dll h' (in_bucket b) (DHead nx (Some x) len) (B b ++ [x])) → workers_ok w (<[x := d]> (live s)) →
  let hd := DHead nx (Some x) (u32 (h_len (getsessionhead s b) + 1)) in
  payload h' = <[x := d]> (live s)
  ∧ table_inv (set_wpool (set_bucket (set_sheap s h') b hd) w) (update_bucket B b (B b ++ [x])).
Proof.
  intros Hinv Hx Ed Hs R Hdll' Hw hd. assert (Hlx : live s !! x = None) by (unfold live; rewrite payload_lookup; by rewrite Hx).
  assert (Hlive : payload h' = <[x := d]> (live s)) by (destruct R as [-> _]; by rewrite payload_insert).
  split; [done|]. split; [intros c|intros c|..]; simpl.
  - rewrite head_set_bucket. unfold update_bucket. destruct (decide (c = b)) as [->|Hc]; [apply Hdll'|].
    eapply dll_relinked; [done| |apply dll_insert_ne; [by eapply fresh_unlisted|by apply inv_dll]].
    intros y Hy [->|Hyb]%elem_of_cons; [by eapply fresh_unlisted|].
    by apply Hc, (buckets_disjoint _ _ Hinv _ _ y).
  - rewrite head_set_bucket. unfold update_bucket. destruct (decide (c = b)) as [->|Hc]; simpl; [|by apply inv_len].
    rewrite (inv_len _ _ Hinv), length_app. simpl.
    pose proof (dll_length _ _ _ _ (inv_dll _ _ Hinv b)). rewrite u32_small; lia.
  - intros y n Hy. assert (Hpy : payload h' !! y = Some (n_data n)) by (apply payload_Some; eauto).
    rewrite Hlive in Hpy. unfold update_bucket. apply lookup_insert_Some in Hpy as [[<- <-]|[Hne Hpy]].
    + rewrite decide_True by done. set_solver.
    + destruct (live_listed _ _ Hinv _ _ Hpy) as [Hin _].
      destruct (decide (s_head (n_data n) = b)) as [<-|]; [|done]. set_solver.
  - rewrite <-payload_size, Hlive, map_size_insert_None by done. unfold live. rewrite payload_size. lia.
  - unfold live. simpl. by rewrite Hlive.
Qed.

Lemma insertsession_inv s B x lIP lPort sIP sPort :
  table_inv s B → sheap s !! x = None → Z.of_nat (size (sheap s)) + 1 < 2 ^ 32 →
  let b := bucket_of lIP lPort sIP sPort in
  ∃ s' q, insertsession s (Some x) lIP lPort sIP sPort = Ret (s', Some x)
    ∧ least_loaded (workers s) q
    ∧ live s' = <[x := new_session b q lIP lPort sIP sPort]> (live s)
    ∧ table_inv s' (update_bucket B b (B b ++ [x]))
    ∧ numworkers (workers s') = numworkers (workers s).
Proof.
  intros Hinv Hx Hs b. unfold insertsession. fold b.
  assert (Hb : bucket_of lIP lPort sIP sPort = b) by done. clearbody b.
  destruct (inv_workers _ _ Hinv) as [Hp Hw]. destruct (assign_queue_spec _ Hp) as (q & -> & Hq). simpl.
  set (d := new_session b q lIP lPort sIP sPort).
  assert (Hqr : 0 <= queue d < MAXWORKERS).
  { destruct Hq as [Hq _]. destruct Hp as [_ Hn]. unfold MAXWORKERS in *. simpl. lia. }
  assert (Hlx : live s !! x = None) by (unfold live; rewrite payload_lookup; by rewrite Hx).
  destruct (increment_ok _ _ _ _ (conj Hp Hw) Hlx Hqr) as (w & Ew & Hw' & Hnw); [unfold live; by rewrite payload_size|].
  simpl in Ew. rewrite Ew. simpl.
  assert (Hd : in_bucket b d) by (split_and!; [done|exact Hb|apply Hqr..]).
  destruct (append_bucket s B b x d Hinv Hx Hd) as (h' & nx & E & R & Hdll'). rewrite E. simpl.
  destruct (table_inv_appended s B b x d h' nx w Hinv Hx eq_refl Hs R Hdll' Hw') as [Hlive Hi].
  eexists _, q. split_and!; [done|done| |exact Hi|done]. exact Hlive.
Qed.

Definition without (x : loc) (l : list loc) : list loc := filter (λ y : loc, y ≠ x) l.

Lemma without_notin x l : x ∉ l → without x l = l.
Proof.
  intros Hx. unfold without. induction l as [|y l IH]; [done|].
  rewrite filter_cons_True by set_solver. f_equal. apply IH. set_solver.
Qed.

Lemma without_app l1 x l2 : NoDup (l1 ++ x :: l2) → without x (l1 ++ x :: l2) = l1 ++ l2.
Proof.
  intros (_ & H1 & [H2 _]%NoDup_cons)%NoDup_app. unfold without.
  rewrite filter_app, (filter_cons_False _ x) by tauto.
  f_equal; apply without_notin; [set_solver|done].
Qed.

Lemma clearsession_inv s B x d :
  table_inv s B → live s !! x = Some d →
  ∃ s', clearsession s (Some x) = Ret s'
    ∧ live s' = delete x (live s)
    ∧ table_inv s' (update_bucket B (s_head d) (without x (B (s_head d)))).
Proof.
  intros Hinv Hlx. destruct (live_listed _ _ Hinv _ _ Hlx) as [Hxb Hbk].
  pose proof Hlx as (nd & Hnd & Ed)%live_Some.
  set (b := s_head d) in *. assert (Hb : s_head d = b) by done. clearbody b.
  pose proof (inv_dll _ _ Hinv b) as Hdll. pose proof Hdll as (HN & _).
  apply list_elem_of_split in Hxb as (l1 & l2 & EB). rewrite EB in Hdll, HN.
  destruct (unlink_spec _ _ _ _ _ _ _ Hdll Hnd) as (h & hd & E & R & El & D).
  destruct (decrement_ok _ _ _ _ (inv_workers _ _ Hinv) Hlx) as (w & Ew & Hw);
    [apply Hbk|unfold live; rewrite payload_size; apply (inv_size _ _ Hinv)|].
  assert (Hxh : is_Some (h !! x)).
  { destruct (relinked_data _ _ _ _ _ R Hnd) as (n' & -> & _). by eexists. }
  destruct Hxh as (n' & Hn').
  unfold clearsession, load, deref. rewrite Hnd. simpl. rewrite Ed, Hb, E. simpl. rewrite Ew. simpl.
  unfold free, deref. rewrite Hn'. simpl.
  assert (Hlive : payload (delete x h) = delete x (live s)).
  { rewrite payload_delete. by destruct R as [-> _]. }
  rewrite EB, without_app by done.
  assert (Hx12 : x ∉ l1 ++ l2) by (apply nodup_around in HN; set_solver).
  eexists. split_and!; [done|by rewrite <-Hlive|].
  split; [intros c|intros c|..]; simpl.
  - rewrite head_set_bucket. unfold update_bucket. destruct (decide (c = b)) as [->|Hc].
    + destruct (dll_delete_ne _ _ _ _ x Hx12 D) as (? & ? & ? & ?). done.
    + apply dll_delete_ne.
      { intros Hxc. apply Hc. apply (buckets_disjoint _ _ Hinv _ _ x Hxc). rewrite EB. set_solver. }
      eapply (other_bucket_kept _ _ Hinv _ b); [done| |done].
      intros y Hy. left. rewrite EB. set_solver.
  - rewrite head_set_bucket. unfold update_bucket. destruct (decide (c = b)) as [->|Hc]; simpl;
      [|by apply inv_len].
    pose proof (bucket_length _ _ Hinv b) as Hlen. rewrite El, (inv_len _ _ Hinv).
    rewrite EB in Hlen |- *. rewrite length_app in Hlen |- *. simpl in Hlen |- *.
    rewrite length_app, u32_small; lia.
  - intros y n Hy. assert (Hpy : payload (delete x h) !! y = Some (n_data n)) by (apply payload_Some; eauto).
    rewrite Hlive in Hpy. apply lookup_delete_Some in Hpy as [Hne Hpy].
    destruct (live_listed _ _ Hinv _ _ Hpy) as [Hin _].
    unfold update_bucket. destruct (decide (s_head (n_data n) = b)) as [Eb|]; [|done].
    rewrite Eb, EB in Hin. set_solver.
  - rewrite <-payload_size, Hlive. pose proof (inv_size _ _ Hinv).
    pose proof (map_subseteq_size _ _ (delete_subseteq (live s) x)) as Hle.
    unfold live in Hle at 2. rewrite payload_size in Hle. lia.
  - unfold live. simpl. by rewrite Hlive.
Qed.

(** ** Search *)
Definition key_of (d : session) : Z * Z * Z * Z :=
  (address (larger d), port (larger d), address (smaller d), port (smaller d)).

Lemma session_matches_spec d a p c q : session_matches d a p c q = true ↔ key_of d = (a, p, c, q).
Proof.
  unfold session_matches, key_of. rewrite !andb_true_iff, !Z.eqb_eq. naive_solver.
Qed.

Lemma search_spec h Q prv l fuel a p c q :
  seg h Q prv l None → (length l < fuel)%nat →
  ∃ r, search fuel h (first l None) a p c q = Ret r
    ∧ match r with
      | Some x => x ∈ l ∧ ∃ d, payload h !! x = Some d ∧ key_of d = (a, p, c, q)
      | None => ∀ x d, x ∈ l → payload h !! x = Some d → key_of d ≠ (a, p, c, q)
      end.
Proof.
  revert prv fuel. induction l as [|x l IH]; intros prv [|fuel] Hs Hf; simpl in *; [lia| |lia|].
  { exists None. split; [done|]. set_solver. }
  destruct Hs as (d & Hl & Hq & Hs). unfold load, deref. rewrite Hl. simpl.
  assert (Hpx : payload h !! x = Some d) by (apply payload_Some; eauto).
  destruct (session_matches d a p c q) eqn:Em.
  - exists (Some x). split; [done|]. split; [set_solver|].
    exists d. split; [done|]. by apply session_matches_spec.
  - destruct (IH (Some x) fuel Hs ltac:(lia)) as (r & -> & Hr). exists r. split; [done|].
    destruct r as [y|]; [destruct Hr as [Hy Hr]; split; [set_solver|done]|].
    intros y e [->|Hy]%elem_of_cons He; [|by eapply Hr].
    intros Hk%session_matches_spec. congruence.
Qed.

(** What a search answers: a live session with that key, or that there is none. *)
Definition found (m : gmap loc session) (a p c q : Z) (r : option loc) : Prop :=
  match r with
  | Some x => ∃ d, m !! x = Some d ∧ key_of d = (a, p, c, q)
  | None => ∀ x d, m !! x = Some d → key_of d ≠ (a, p, c, q)
  end.

Lemma getsession_inv s B a p c q :
  table_inv s B → ∃ r, getsession s a p c q = Ret r ∧ found (live s) a p c q r.
Proof.
  intros Hinv. set (b := bucket_of a p c q).
  pose proof (inv_dll _ _ Hinv b) as Hd. pose proof Hd as (_ & Hn & _ & Hs).
  destruct (search_spec _ _ _ _ (list_fuel (sheap s)) a p c q Hs) as (r & E & Hr).
  { pose proof (dll_length _ _ _ _ Hd). unfold list_fuel. lia. }
  exists r. split.
  - unfold getsession. fold b. by rewrite Hn.
  - destruct r as [x|]; simpl in *; [by destruct Hr as [_ Hr]|].
    intros x d Hx Hk. destruct (live_listed _ _ Hinv _ _ Hx) as [Hin (_ & Hbk & _)].
    injection Hk as E1 E2 E3 E4. rewrite E1, E2, E3, E4 in Hbk. fold b in Hbk.
    eapply (Hr x d); [by rewrite Hbk|done|]. unfold key_of. congruence.
Qed.

(** At most one session per key. *)
Definition keys_unique (m : gmap loc session) : Prop :=
  ∀ x y d e, m !! x = Some d → m !! y = Some e → key_of d = key_of e → x = y.

(** ** Updates of a live session *)
Definition same_identity (d d' : session) : Prop :=
  s_head d' = s_head d ∧ key_of d' = key_of d ∧ queue d' = queue d.

Lemma in_bucket_same b d d' : same_identity d d' → in_bucket b d → in_bucket b d'.
Proof.
  unfold same_identity, key_of. intros (E1 & [= Ea Eb Ec Ed] & E3) (H1 & H2 & H3).
  unfold in_bucket. rewrite E1, E3, Ea, Eb, Ec, Ed. done.
Qed.

Lemma table_inv_update s B x n d' :
  table_inv s B → sheap s !! x = Some n → same_identity (n_data n) d' →
  let s' := set_sheap s (<[x := Node (n_next n) (n_prev n) d']> (sheap s)) in
  live s' = <[x := d']> (live s) ∧ table_inv s' B.
Proof.
  intros Hinv Hn Hid s'.
  assert (Hlive : live s' = <[x := d']> (live s)) by apply payload_insert.
  assert (Hlx : live s !! x = Some (n_data n)) by (apply payload_Some; eauto).
  split; [done|]. destruct (inv_workers _ _ Hinv) as [Hp Hw].
  split; [intros b|apply (inv_len _ _ Hinv)|..]; simpl.
  - change (getsessionhead s' b) with (getsessionhead s b).
    pose proof (inv_dll _ _ Hinv b) as Hd. pose proof Hd as (HN & H1 & H2 & Hs).
    split_and!; [done..|]. destruct (decide (x ∈ B b)) as [Hin|Hin]; [|by apply seg_insert].
    apply seg_set_data with (n := n); [done..| |done].
    destruct (dll_elem _ _ _ _ _ Hd Hin) as (n' & Hn' & Hb). rewrite Hn in Hn'.
    injection Hn' as <-. by apply in_bucket_same with (n_data n).
  - intros y n' Hy. apply lookup_insert_Some in Hy as [[<- <-]|[_ Hy]]; simpl.
    + destruct Hid as [-> _]. by apply (inv_listed _ _ Hinv).
    + by apply (inv_listed _ _ Hinv).
  - rewrite map_size_insert_Some by eauto. apply (inv_size _ _ Hinv).
  - rewrite Hlive. split; [done|]. intros q Hq. simpl.
    rewrite (sessions_on_update _ _ _ _ _ Hlx) by apply Hid. by apply Hw.
Qed.

Lemma with_session_inv s B x d d' r f :
  table_inv s B → live s !! x = Some d → f d = Ret (d', r) → same_identity d d' →
  ∃ s', with_session s (Some x) f = Ret s' ∧ live s' = <[x := d']> (live s)
    ∧ table_inv s' B ∧ workers s' = workers s.
Proof.
  intros Hinv (n & Hn & <-)%live_Some Hf Hid.
  destruct (table_inv_update _ _ _ _ _ Hinv Hn Hid) as [Hl Hi].
  eexists. split_and!; [|exact Hl|exact Hi|done].
  unfold with_session, load, store_data, deref. rewrite Hn. simpl. by rewrite Hf.
Qed.

Lemma keys_unique_update m x d d' :
  keys_unique m → m !! x = Some d → key_of d' = key_of d → keys_unique (<[x := d']> m).
Proof.
  intros Hu Hx Hk y z e f Hy Hz.
  apply lookup_insert_Some in Hy as [[<- <-]|[? Hy]];
    apply lookup_insert_Some in Hz as [[<- <-]|[? Hz]]; intros E; [done|..].
  - apply (Hu x z d f); congruence.
  - apply (Hu y x e d); congruence.
  - by apply (Hu y z e f).
Qed.

Lemma keys_unique_delete m x : keys_unique m → keys_unique (delete x m).
Proof.
  intros Hu y z e f [_ Hy]%lookup_delete_Some [_ Hz]%lookup_delete_Some. by apply Hu.
Qed.

Lemma keys_unique_insert m x d :
  keys_unique m → (∀ y e, m !! y = Some e → key_of e ≠ key_of d) → keys_unique (<[x := d]> m).
Proof.
  intros Hu Hk y z e f Hy Hz.
  apply lookup_insert_Some in Hy as [[<- <-]|[? Hy]];
    apply lookup_insert_Some in Hz as [[<- <-]|[? Hz]]; intros E; [done|..].
  - by destruct (Hk z f).
  - by destruct (Hk y e).
  - by apply (Hu y z e f).
Qed.

(** ** Freeing a list *)
(** [h'] is [h] without the objects of [l]. *)
Definition erased (h h' : heap session) (l : list loc) : Prop :=
  ∀ z, (z ∈ l → h' !! z = None) ∧ (z ∉ l → h' !! z = h !! z).

Lemma freemem_loop_spec (Q : session → Prop) fuel (h : heap session) hd l x prv :
  seg h Q prv (x :: l) None → NoDup (x :: l) → h_next hd ≠ None → (length l + 1 < fuel)%nat →
  (∀ y, prv = Some y → y ∉ x :: l ∧ is_Some (h !! y)) →
  ∃ h', freemem_loop fuel h hd (Some x) = Ret (h', DHead None None (h_len hd))
    ∧ erased h h' (match prv with Some y => y :: x :: l | None => x :: l end).
Proof.
  revert h prv x fuel. induction l as [|y l IH]; intros h prv x [|fuel] Hs HN Hhd Hf Hprv; try lia.
  all: apply NoDup_cons in HN as [Hx HN]; simpl in Hf; cbn [freemem_loop].
  all: destruct (h_next hd) as [nx|]; [|done].
  all: destruct Hs as (d & Hl & Hq & Hs); unfold load, deref; rewrite Hl; cbn [mbind outcome_bind n_prev n_next].
  all: assert (∃ h1, (match prv with
    | Some _ => h0 ← free h prv; store_prev h0 (Some x) None | None => Ret h end) = Ret h1
    ∧ (∀ z, prv = Some z → h1 !! z = None) ∧ is_Some (h1 !! x)
    ∧ (∀ z, z ≠ x → prv ≠ Some z → h1 !! z = h !! z)) as (h1 & E1 & Hz1 & Hx1 & Hr1).
  1, 3: destruct prv as [w|]; [|by exists h; split_and!; [..|by eexists|]].
  1, 2: destruct (Hprv w eq_refl) as [Hw [nw Hnw]];
    unfold free, store_prev, deref; rewrite Hnw; cbn [mbind outcome_bind];
    rewrite lookup_delete_ne by set_solver; rewrite Hl; cbn [mbind outcome_bind];
    eexists; split_and!; [done| |by rewrite lookup_insert_eq|].
  1, 3: intros z [= <-]; rewrite lookup_insert_ne by set_solver; apply lookup_delete_eq.
  1, 2: intros z Hzx Hzw; rewrite lookup_insert_ne, lookup_delete_ne by congruence; done.
  all: rewrite E1; cbn [mbind outcome_bind].
  - destruct Hx1 as [n1 Hn1]. simpl. unfold free, deref. rewrite Hn1. simpl.
    destruct fuel as [|fuel]; [lia|]. simpl. eexists. split; [done|].
    intros z. destruct (decide (z = x)) as [->|Hzx].
    { rewrite lookup_delete_eq. split; [done|]. destruct prv; set_solver. }
    rewrite lookup_delete_ne by done.
    destruct prv as [w|]; split; intros Hz; [| |set_solver|by apply Hr1].
    + apply Hz1. set_solver.
    + apply Hr1; set_solver.
  - simpl first. cbn iota.
    assert (Hs1 : seg h1 Q (Some x) (y :: l) None).
    { eapply seg_ext; [|exact Hs]. intros z Hz. apply Hr1; [set_solver|].
      intros ->. destruct (Hprv z eq_refl). set_solver. }
    destruct (IH h1 (Some x) y fuel Hs1) as (h' & E & He); [done|congruence|lia| |].
    { intros z [= <-]. done. }
    rewrite E. eexists. split; [done|]. intros z. destruct (He z) as [He1 He2].
    destruct prv as [w|]; split; intros Hz.
    + destruct (decide (z ∈ x :: y :: l)) as [Hin|Hin]; [by apply He1|].
      rewrite He2 by done. apply Hz1. set_solver.
    + rewrite He2 by set_solver. apply Hr1; set_solver.
    + by apply He1.
    + rewrite He2 by done. apply Hr1; [set_solver|done].
Qed.

Lemma freemem_spec (Q : session → Prop) (h : heap session) hd l :
  dll h Q hd l → l ≠ [] →
  ∃ h', freemem h hd = Ret (h', DHead None None (h_len hd)) ∧ erased h h' l.
Proof.
  intros Hd Hne. pose proof Hd as (HN & Hn & _ & Hs). destruct l as [|x l]; [done|].
  unfold freemem. rewrite Hn. cbn [first].
  apply (freemem_loop_spec Q _ h hd l x None); [done|done|by rewrite Hn| |done].
  pose proof (dll_length _ _ _ _ Hd). simpl in *. unfold list_fuel. lia.
Qed.

(** The table while [clear_sessiontable] runs: the buckets below [i] are gone. *)
Definition cleared_below (i : Z) (s : smstate) (B : Z → list loc) : Prop :=
  (∀ b, b < i → h_next (getsessionhead s b) = None ∧ h_prev (getsessionhead s b) = None)
  ∧ (∀ b, i <= b → dll (sheap s) (in_bucket b) (getsessionhead s b) (B b))
  ∧ (∀ x n, sheap s !! x = Some n → i <= s_head (n_data n) ∧ x ∈ B (s_head (n_data n))).

Lemma cleared_step i s B h' :
  cleared_below i s B → erased (sheap s) h' (B i) →
  cleared_below (i + 1) (set_bucket (set_sheap s h') i (DHead None None (h_len (getsessionhead s i)))) B.
Proof.
  intros (H1 & H2 & H3) He.
  assert (Hh : ∀ b, getsessionhead (set_bucket (set_sheap s h') i
      (DHead None None (h_len (getsessionhead s i)))) b
      = if decide (b = i) then DHead None None (h_len (getsessionhead s i)) else getsessionhead s b)
    by (intros b; apply (head_set_bucket s h' (workers s) i)).
  split_and!.
  - intros b Hb. rewrite Hh. destruct (decide (b = i)); [done|]. apply H1. lia.
  - intros b Hb. rewrite Hh. rewrite decide_False by lia.
    pose proof (H2 b ltac:(lia)) as Hd. pose proof (H2 i ltac:(lia)) as Hdi.
    destruct Hd as (HN & Ha & Hb' & Hs). split_and!; [done..|].
    eapply seg_ext; [|exact Hs]. intros x Hx. simpl. apply (He x). intros Hxi.
    destruct (seg_elem _ _ _ _ _ _ Hs Hx) as (n & Hn & [Hnb _]).
    destruct (dll_elem _ _ _ _ _ Hdi Hxi) as (n' & Hn' & [Hni _]).
    rewrite Hn in Hn'. injection Hn' as <-. lia.
  - simpl. intros x n Hx. destruct (decide (x ∈ B i)) as [Hin|Hin].
    { destruct (He x) as [He1 _]. rewrite He1 in Hx by done. done. }
    destruct (He x) as [_ He2]. rewrite He2 in Hx by done.
    destruct (H3 x n Hx) as [Hle Hxb]. split; [|done].
    destruct (decide (s_head (n_data n) = i)) as [<-|]; [done|lia].
Qed.

Lemma clear_buckets_spec n s B i :
  cleared_below i s B → ∃ s', clear_buckets n s i = Ret s' ∧ cleared_below (i + Z.of_nat n) s' B.
Proof.
  revert s i. induction n as [|n IH]; intros s i Hc; cbn [clear_buckets].
  { exists s. split; [done|]. by replace (i + Z.of_nat 0) with i by lia. }
  pose proof Hc as (H1 & H2 & H3). pose proof (H2 i ltac:(lia)) as Hd.
  assert (∃ s1, (match h_next (getsessionhead s i) with
    | Some _ => '(h, hd) ← freemem (sheap s) (getsessionhead s i); Ret (set_bucket (set_sheap s h) i hd)
    | None => Ret s end) = Ret s1 ∧ cleared_below (i + 1) s1 B) as (s1 & E1 & Hc1).
  { destruct (decide (B i = [])) as [E|E].
    - pose proof (proj2 (dll_next_None _ _ _ _ Hd) E) as En. rewrite En.
      exists s. split; [done|]. rewrite E in Hd. apply dll_nil in Hd as [Ha Hb].
      split_and!.
      + intros b Hb'. destruct (decide (b = i)) as [->|]; [done|]. apply H1. lia.
      + intros b Hb'. apply H2. lia.
      + intros x m Hx. destruct (H3 x m Hx) as [Hle Hin]. split; [|done].
        destruct (decide (s_head (n_data m) = i)) as [Ei|]; [|lia].
        rewrite Ei, E in Hin. by apply not_elem_of_nil in Hin.
    - destruct (freemem_spec _ _ _ _ Hd E) as (h' & Ef & He). rewrite Ef.
      destruct (h_next (getsessionhead s i)) as [nx|] eqn:En.
      + eexists. split; [done|]. by apply cleared_step.
      + apply (dll_next_None _ _ _ _ Hd) in En. done. }
  rewrite E1. simpl. destruct (IH s1 (i + 1) Hc1) as (s' & E' & Hc').
  exists s'. split; [done|]. by replace (i + Z.of_nat (S n)) with (i + 1 + Z.of_nat n) by lia.
Qed.

(** ** The empty table *)
Definition empty_table (workers_running : Z) : smstate :=
  SMState ∅ ∅ (set_workers initial_wpool workers_running).

Lemma empty_table_inv n : 0 <= n <= MAXWORKERS → table_inv (empty_table n) (λ _, []).
Proof.
  intros Hn. split; simpl.
  - intros b. by apply dll_nil.
  - done.
  - intros x m Hx. by rewrite lookup_empty in Hx.
  - rewrite map_size_empty. lia.
  - split; [split|].
    + reflexivity.
    + simpl. unfold MAXWORKERS in *. rewrite u8_small; lia.
    + intros q Hq. unfold sessions_on, live, payload, empty_table. cbn [sheap].
      rewrite fmap_empty, map_filter_empty, map_size_empty. unfold at_.
      rewrite nth_lookup. change (w_sessions _) with (replicate (Z.to_nat MAXWORKERS) 0).
      rewrite lookup_replicate_2 by lia. done.
Qed.

Definition table_ok (s : smstate) : Prop := ∃ B, table_inv s B ∧ keys_unique (live s).

Lemma closingsession_inv s B x d :
  table_inv s B → live s !! x = Some d →
  ∃ s' r, closingsession s (Some x) = Ret (s', r)
    ∧ (if state d =? TCP_ESTABLISHED then r = Some x ∧ live s' = <[x := set_state d TCP_CLOSING]> (live s)
       else if state d =? TCP_CLOSING then r = None ∧ live s' = delete x (live s)
       else r = Some x ∧ s' = s)
    ∧ ∃ B', table_inv s' B'.
Proof.
  intros Hinv Hx. pose proof Hx as (n & Hn & Ed)%live_Some.
  unfold closingsession, load, deref. rewrite Hn. cbn [mbind outcome_bind]. rewrite Ed.
  destruct (state d =? TCP_ESTABLISHED).
  - destruct (with_session_inv s B x d (set_state d TCP_CLOSING) 0 (λ d, Ret (set_state d TCP_CLOSING, 0)))
      as (s' & E & Hl & Hi & _); [done..|].
    unfold with_session, load, deref in E. rewrite Hn in E. simpl in E. rewrite Ed in E.
    destruct (store_data (sheap s) (Some x) (set_state d TCP_CLOSING)) as [h| |]; simpl in *; [|done..].
    injection E as <-. eexists _, _. split_and!; [done|done|done|by eexists].
  - destruct (state d =? TCP_CLOSING).
    + destruct (clearsession_inv _ _ _ _ Hinv Hx) as (s' & E & Hl & Hi).
      rewrite E. cbn [mbind outcome_bind]. eexists _, _. split_and!; [done|done|done|by eexists].
    + eexists _, _. split_and!; [done|done|done|by eexists].
Qed.

Lemma insert_found s B x a p c q :
  table_inv s B → keys_unique (live s) → getsession s a p c q = Ret None →
  sheap s !! x = None → Z.of_nat (size (sheap s)) + 1 < 2 ^ 32 →
  ∃ s' d, insertsession s (Some x) a p c q = Ret (s', Some x)
    ∧ live s' = <[x := d]> (live s) ∧ key_of d = (a, p, c, q)
    ∧ least_loaded (workers s) (queue d)
    ∧ (∃ B', table_inv s' B') ∧ keys_unique (live s').
Proof.
  intros Hinv Hu Hg Hx Hs.
  destruct (insertsession_inv s B x a p c q Hinv Hx Hs) as (s' & k & E & Hk & Hl & Hi & _).
  eexists s', _. split_and!; [done|exact Hl|done|done|by eexists|].
  rewrite Hl. apply keys_unique_insert; [done|].
  destruct (getsession_inv s B a p c q Hinv) as (r & E' & Hr). rewrite Hg in E'.
  injection E' as <-. intros y e. by apply Hr.
Qed.

Lemma getsession_iff s x d a p c q :
  table_ok s → live s !! x = Some d → key_of d = (a, p, c, q) → getsession s a p c q = Ret (Some x).
Proof.
  intros (B & Hinv & Hu) Hx Hk.
  destruct (getsession_inv s B a p c q Hinv) as ([y|] & -> & Hr).
  - destruct Hr as (e & He & Hke). do 2 f_equal. apply (Hu y x e d); congruence.
  - by destruct (Hr x d Hx).
Qed.

(** The calls, when they return. *)
Lemma insert_ok s x a p c q s' :
  table_ok s → (∀ y d, live s !! y = Some d → key_of d ≠ (a, p, c, q)) → sheap s !! x = None →
  Z.of_nat (size (sheap s)) + 1 < 2 ^ 32 → insertsession s (Some x) a p c q = Ret (s', Some x) → table_ok s'.
Proof.
  intros (B & Hinv & Hu) Hno Hx Hs E.
  assert (Hg : getsession s a p c q = Ret None).
  { destruct (getsession_inv s B a p c q Hinv) as ([y|] & -> & Hr); [|done]. destruct Hr as (d & Hd & Hk). by destruct (Hno y d). }
  destruct (insert_found s B x a p c q) as (s1 & d & E1 & _ & _ & _ & (B' & Hi) & Hu'); [done..|].
  rewrite E in E1. injection E1 as <-. by exists B'.
Qed.

Lemma clear_ok s x d s' : table_ok s → live s !! x = Some d → clearsession s (Some x) = Ret s' →
  table_ok s' ∧ live s' = delete x (live s).
Proof.
  intros (B & Hinv & Hu) Hx E. destruct (clearsession_inv s B x d Hinv Hx) as (s1 & E1 & Hl & Hi).
  rewrite E in E1. injection E1 as <-. split; [|done]. eexists. split; [done|]. rewrite Hl. by apply keys_unique_delete.
Qed.

Lemma closing_ok s x d s' r : table_ok s → live s !! x = Some d → closingsession s (Some x) = Ret (s', r) →
  table_ok s' ∧ ∀ y e', live s' !! y = Some e' → ∃ e, live s !! y = Some e ∧ key_of e' = key_of e.
Proof.
  intros (B & Hinv & Hu) Hx E. destruct (closingsession_inv s B x d Hinv Hx) as (s1 & r1 & E1 & Hc & (B' & Hi)).
  rewrite E in E1. injection E1 as <- <-. destruct (_ =? _); [|destruct (_ =? _)].
  - destruct Hc as [_ Hl]. split; [exists B'; split; [done|]; rewrite Hl; by eapply keys_unique_update|].
    intros y e'. rewrite Hl. intros [[<- <-]|[_ Hy]]%lookup_insert_Some; eauto.
  - destruct Hc as [_ Hl]. split; [exists B'; split; [done|]; rewrite Hl; by apply keys_unique_delete|].
    intros y e'. rewrite Hl. intros [_ Hy]%lookup_delete_Some. eauto.
  - destruct Hc as [_ ->]. split; [by exists B'|]. eauto.
Qed.

(** What an update of a session through a pointer may change. *)
Definition keeps_identity (f : session → outcome (session * Z)) : Prop :=
  ∀ d d' r, f d = Ret (d', r) → same_identity d d'.

Lemma track_ok s x d f s' : table_ok s → live s !! x = Some d → keeps_identity f → with_session s (Some x) f = Ret s' →
  table_ok s' ∧ ∃ d', live s' = <[x := d']> (live s) ∧ key_of d' = key_of d.
Proof.
  intros (B & Hinv & Hu) Hx Hf E. pose proof Hx as (n & Hn & Ed)%live_Some.
  assert (Ef : ∃ d' r, f d = Ret (d', r)).
  { unfold with_session, load, deref in E. rewrite Hn in E. cbn [mbind outcome_bind] in E. rewrite Ed in E.
    apply bind_Ret in E as ([d' r] & E & _). eauto. }
  destruct Ef as (d' & r & Ef). pose proof (Hf _ _ _ Ef) as Hid.
  destruct (with_session_inv s B x d d' r f) as (s1 & E1 & Hl & Hi & _); [done..|].
  rewrite E in E1. injection E1 as <-. split; [|exists d'; split; [done|apply Hid]].
  exists B. split; [done|]. rewrite Hl. eapply keys_unique_update; [done..|apply Hid].
Qed.

(** * The threads on the table

    The fetcher, the two threads of each worker and the cleanup thread get session pointers
    from the table and use them in later calls.  [held] is the pointer each of them holds,
    [missed] the connection that the fetcher has last looked up in vain; only the fetcher opens
    sessions.  A move is one call.  [insertsession] and [clearsession] lock the bucket while
    they link and unlink; [getsession] locks nothing and [clearsession] frees outside of the
    lock: that the accesses of two calls do not mix is an assumption here. *)
Record table_threads := Threads {
  table : smstate; held : gmap nat loc; missed : option (Z * Z * Z * Z)
}.

Definition fetcher_thread : nat := 0.

(** What a thread holds after a call that returned [r]. *)
Definition hold (m : gmap nat loc) (t : nat) (r : option loc) : gmap nat loc :=
  match r with Some x => <[t := x]> m | None => delete t m end.

Inductive table_step : table_threads → table_threads → Prop :=
| step_lookup s m k t a p c q r :
    getsession s a p c q = Ret r →
    table_step (Threads s m k)
      (Threads s (hold m t r) (if decide (t = fetcher_thread) then match r with None => Some (a, p, c, q) | _ => None end else k))
| step_open s m x a p c q s' :
    sheap s !! x = None → Z.of_nat (size (sheap s)) + 1 < 2 ^ 32 →
    insertsession s (Some x) a p c q = Ret (s', Some x) →
    table_step (Threads s m (Some (a, p, c, q))) (Threads s' (<[fetcher_thread := x]> m) None)
| step_clear s m k t x s' :
    m !! t = Some x → clearsession s (Some x) = Ret s' → table_step (Threads s m k) (Threads s' (delete t m) k)
| step_closing s m k t x s' r :
    m !! t = Some x → closingsession s (Some x) = Ret (s', r) → table_step (Threads s m k) (Threads s' (hold m t r) k)
| step_track s m k t x f s' :
    m !! t = Some x → keeps_identity f → with_session s (Some x) f = Ret s' → table_step (Threads s m k) (Threads s' m k)
| step_head s m k t b : table_step (Threads s m k) (Threads s (hold m t (h_next (getsessionhead s b))) k)
| step_next s m k t x nd :
    m !! t = Some x → load (sheap s) (Some x) = Ret nd → table_step (Threads s m k) (Threads s (hold m t (n_next nd)) k).

(** The connection the fetcher has missed is still without a session. *)
Definition still_missing (st : table_threads) : Prop :=
  ∀ k x d, missed st = Some k → live (table st) !! x = Some d → key_of d ≠ k.

Lemma freed_uses s x : live s !! x = None →
  clearsession s (Some x) = Undef ∧ closingsession s (Some x) = Undef ∧ load (sheap s) (Some x) = Undef
  ∧ ∀ f, with_session s (Some x) f = Undef.
Proof.
  intros Hx. assert (E : sheap s !! x = None).
  { unfold live in Hx. rewrite payload_lookup in Hx. by destruct (sheap s !! x). }
  unfold clearsession, closingsession, with_session, load, deref. rewrite E. split_and!; [done..|]. intros f. done.
Qed.

Lemma used_live s x d' : (∃ s', clearsession s (Some x) = Ret s') ∨ (∃ s' r, closingsession s (Some x) = Ret (s', r))
  ∨ (∃ f s', with_session s (Some x) f = Ret s') → live s !! x = d' → is_Some d'.
Proof.
  intros H Hx. destruct d' as [d|]; [by eexists|]. destruct (freed_uses s x Hx) as (H1 & H2 & _ & H3).
  destruct H as [(s' & E)|[(s' & r & E)|(f & s' & E)]]; [congruence|congruence|by rewrite H3 in E].
Qed.

Lemma table_step_ok st st' : table_step st st' → table_ok (table st) ∧ still_missing st →
  table_ok (table st') ∧ still_missing st'.
Proof.
  intros Hs [Hok Hm]. unfold still_missing in *. destruct Hs as [s m k t a p c q r E|s m x a p c q s' Hx Hz E|s m k t x s' Ht E
    |s m k t x s' r Ht E|s m k t x f s' Ht Hf E|s m k t b|s m k t x nd Ht E]; cbn [table missed] in *; try done.
  - split; [done|]. destruct (decide _); [|done]. destruct r as [y|]; [done|]. intros k' y d [= <-] Hy.
    destruct Hok as (B & Hinv & _). destruct (getsession_inv s B a p c q Hinv) as (r & E' & Hr). rewrite E in E'.
    injection E' as <-. by apply (Hr y d).
  - split; [|done]. eapply insert_ok; [done| |done..]. intros y d Hy. by apply (Hm _ y d).
  - destruct (used_live s x _ ltac:(eauto) eq_refl) as [d Hx].
    destruct (clear_ok s x d s' Hok Hx E) as [Hok' Hl]. split; [done|]. intros k' y e Hk'. rewrite Hl.
    intros [_ Hy]%lookup_delete_Some. by eapply Hm.
  - destruct (used_live s x _ ltac:(eauto) eq_refl) as [d Hx].
    destruct (closing_ok s x d s' r Hok Hx E) as [Hok' Hl]. split; [done|]. intros k' y e Hk' Hy.
    destruct (Hl y e Hy) as (e0 & He0 & ->). by eapply Hm.
  - destruct (used_live s x _ ltac:(eauto 10) eq_refl) as [d Hx].
    destruct (track_ok s x d f s' Hok Hx Hf E) as (Hok' & d' & Hl & Hk). split; [done|]. intros k' y e Hk'. rewrite Hl.
    intros [[<- <-]|[_ Hy]]%lookup_insert_Some; [rewrite Hk|]; by eapply Hm.
Qed.

(** * Properties *)
Definition fresh_for (s : smstate) (x : loc) : Prop :=
  sheap s !! x = None ∧ Z.of_nat (size (sheap s)) + 1 < 2 ^ 32.

(** C6: opening a session refines insertion in a map from keys to sessions:
    when no live session has the key, [insertsession] adds exactly one new
    session with it, unaccelerated and in no TCP state, on the first worker that
    has the fewest sessions; the table keeps its invariant and a search for the
    key now finds the new session. *)
Theorem session_open_refines s x a p c q :
  table_ok s → fresh_for s x → getsession s a p c q = Ret None →
  ∃ s' n, insertsession s (Some x) a p c q = Ret (s', Some x)
    ∧ least_loaded (workers s) n
    ∧ live s' = <[x := new_session (bucket_of a p c q) n a p c q]> (live s)
    ∧ table_ok s' ∧ getsession s' a p c q = Ret (Some x).
Proof.
  intros (B & Hi & Hu) [Hx Hs] Hg.
  destruct (insertsession_inv s B x a p c q Hi Hx Hs) as (s' & n & E & Hn & Hl & _).
  destruct (insert_found s B x a p c q) as (s1 & d & E1 & Hl1 & Hk & _ & (B' & Hi') & Hu'); [done..|].
  rewrite E in E1. injection E1 as <-.
  assert (Hok : table_ok s') by (by exists B').
  exists s', n. split_and!; [done..|].
  apply (getsession_iff s' x d); [done| |done]. rewrite Hl1. apply lookup_insert_eq.
Qed.

Lemma session_open_refines_witness :
  ∃ s' n, insertsession (empty_table 2) (Some 1%positive) 20 80 10 4000 = Ret (s', Some 1%positive)
    ∧ least_loaded (workers (empty_table 2)) n
    ∧ live s' = <[1%positive := new_session (bucket_of 20 80 10 4000) n 20 80 10 4000]> (live (empty_table 2))
    ∧ table_ok s' ∧ getsession s' 20 80 10 4000 = Ret (Some 1%positive).
Proof.
  apply session_open_refines.
  - exists (λ _, []). split; [by apply empty_table_inv|]. intros y z d e Hy.
    unfold live, payload in Hy. simpl in Hy. by rewrite fmap_empty, lookup_empty in Hy.
  - done.
  - reflexivity.
Defined.

(** C7: removing a session refines deletion from the map: [clearsession] on a live
    session is always defined, removes it and no other, takes one off its worker's
    count, keeps the invariant, and a search for its key then finds nothing. *)
Theorem session_close_refines s x d :
  table_ok s → live s !! x = Some d →
  ∃ s', clearsession s (Some x) = Ret s'
    ∧ live s' = delete x (live s)
    ∧ w_sessions (workers s') @@ queue d = w_sessions (workers s) @@ queue d - 1
    ∧ table_ok s'
    ∧ (let '(a, p, c, q) := key_of d in getsession s' a p c q = Ret None).
Proof.
  intros (B & Hi & Hu) Hx.
  destruct (clearsession_inv s B x d Hi Hx) as (s' & E & Hl & Hi').
  exists s'. split_and!; [done|done| | |].
  - destruct (live_listed _ _ Hi _ _ Hx) as [_ (_ & _ & Hq)].
    destruct (inv_workers _ _ Hi) as [_ Hw]. destruct (inv_workers _ _ Hi') as [_ Hw'].
    rewrite Hw, Hw', Hl, (sessions_on_delete _ _ _ _ Hx), Z.eqb_refl by done. done.
  - eexists. split; [done|]. rewrite Hl. by apply keys_unique_delete.
  - unfold key_of. destruct (getsession_inv _ _ (address (larger d)) (port (larger d))
      (address (smaller d)) (port (smaller d)) Hi') as ([y|] & -> & Hr); [|done].
    destruct Hr as (e & He & Hk). rewrite Hl in He. apply lookup_delete_Some in He as [Hne He].
    destruct Hne. apply (Hu x y d e); [done..|]. by rewrite Hk.
Qed.

(** One session on the empty table of two workers. *)
Definition one_session : smstate :=
  match insertsession (empty_table 2) (Some 1%positive) 20 80 10 4000 with
  | Ret (s, _) => s
  | _ => empty_table 2
  end.

Lemma empty_table_ok n : 0 <= n <= MAXWORKERS → table_ok (empty_table n).
Proof.
  intros Hn. exists (λ _, []). split; [by apply empty_table_inv|]. intros y z d e Hy.
  unfold live, payload in Hy. simpl in Hy. by rewrite fmap_empty, lookup_empty in Hy.
Qed.

Lemma one_session_ok : table_ok one_session.
Proof.
  apply (insert_ok (empty_table 2) 1 20 80 10 4000); [by apply empty_table_ok| |reflexivity..].
  intros y d Hy. unfold live, payload in Hy. simpl in Hy. by rewrite fmap_empty, lookup_empty in Hy.
Qed.

Lemma session_close_refines_witness :
  ∃ s', clearsession one_session (Some 1%positive) = Ret s' ∧ live s' = delete 1%positive (live one_session)
    ∧ w_sessions (workers s') @@ 0 = w_sessions (workers one_session) @@ 0 - 1
    ∧ table_ok s' ∧ getsession s' 20 80 10 4000 = Ret None.
Proof.
  apply (session_close_refines one_session 1 (new_session (bucket_of 20 80 10 4000) 0 20 80 10 4000)).
  - apply one_session_ok.
  - reflexivity.
Defined.

(** C8: the calls of all the threads on the table, in any order, each thread holding on to its
    pointer while the others make their calls.  Each call is one step: the source locks the
    bucket while a session is linked or unlinked, but not during the search and the uses of the pointer
    that search returns, so what a search sees in the middle of another thread's unlinking is outside
    this statement.  From the empty table on, each
    bucket is a well-formed list of exactly its sessions, the bucket counts and the workers'
    session counts are exact, and no two sessions share a key.  A thread whose session is still
    there can use it; when another thread has cleared the session it holds, each of its next
    calls uses freed memory. *)
Theorem interleaved_table_ok n st :
  0 <= n <= MAXWORKERS → rtc table_step (Threads (empty_table n) ∅ None) st →
  table_ok (table st)
  ∧ ∀ t x, held st !! t = Some x →
      match live (table st) !! x with
      | Some _ => ∃ s', clearsession (table st) (Some x) = Ret s' ∧ table_ok s'
      | None => clearsession (table st) (Some x) = Undef ∧ closingsession (table st) (Some x) = Undef
                ∧ ∀ f, with_session (table st) (Some x) f = Undef
      end.
Proof.
  intros Hn Hr. assert (H : table_ok (table st) ∧ still_missing st).
  { assert (H0 : table_ok (table (Threads (empty_table n) ∅ None)) ∧ still_missing (Threads (empty_table n) ∅ None))
      by (split; [by apply empty_table_ok|by intros k x d]).
    revert H0. clear Hn. induction Hr as [|s1 s2 s3 Hs _ IH]; [done|]. intros H0. apply IH. by eapply table_step_ok. }
  destruct H as [Hok _]. split; [done|]. intros t x _. destruct (live (table st) !! x) as [d|] eqn:Hx.
  - pose proof Hok as (B & Hinv & _). destruct (clearsession_inv (table st) B x d Hinv Hx) as (s' & E & _).
    exists s'. split; [done|]. by destruct (clear_ok _ x d s' Hok Hx E).
  - destruct (freed_uses _ x Hx) as (H1 & H2 & _ & H3). done.
Qed.

(** The fetcher opens a session, two workers look it up and both take it for theirs to clear. *)
Lemma interleaved_table_ok_witness :
  ∃ st, rtc table_step (Threads (empty_table 2) ∅ None) st ∧ table_ok (table st)
    ∧ held st !! 2%nat = Some 1%positive ∧ clearsession (table st) (Some 1%positive) = Undef.
Proof.
  destruct (clearsession one_session (Some 1%positive)) as [s'| |] eqn:E; [|vm_compute in E; discriminate E..].
  set (m1 := <[fetcher_thread := 1%positive]> (∅ : gmap nat loc)).
  set (m2 := <[2%nat := 1%positive]> (<[1%nat := 1%positive]> m1)).
  assert (Hr : rtc table_step (Threads (empty_table 2) ∅ None) (Threads s' (delete 1%nat m2) None)).
  { eapply rtc_l; [apply (step_lookup _ _ _ fetcher_thread 20 80 10 4000 None); reflexivity|].
    eapply rtc_l; [apply (step_open _ _ 1%positive 20 80 10 4000 one_session); reflexivity|].
    eapply rtc_l; [apply (step_lookup _ _ _ 1%nat 20 80 10 4000 (Some 1%positive)); vm_compute; reflexivity|].
    eapply rtc_l; [apply (step_lookup _ _ _ 2%nat 20 80 10 4000 (Some 1%positive)); vm_compute; reflexivity|].
    eapply rtc_l; [eapply (step_clear _ _ _ 1%nat 1%positive s'); [reflexivity|exact E]|apply rtc_refl]. }
  destruct (interleaved_table_ok 2 _ ltac:(done) Hr) as [Hok Hh].
  eexists. split; [exact Hr|]. split; [exact Hok|]. split; [reflexivity|].
  assert (Hx : live s' !! 1%positive = None) by (vm_compute in E; injection E as <-; reflexivity).
  specialize (Hh 2%nat 1%positive eq_refl). cbn [table] in Hh. rewrite Hx in Hh. apply Hh.
Defined.

(** At exit [clear_sessiontable] frees every session and leaves every bucket
    empty, without touching freed memory. *)
Theorem clear_sessiontable_frees s :
  table_ok s → ∃ s', clear_sessiontable s = Ret s' ∧ sheap s' = ∅
    ∧ ∀ b, 0 <= b < SESSIONBUCKETS →
        h_next (getsessionhead s' b) = None ∧ h_prev (getsessionhead s' b) = None.
Proof.
  intros (B & Hi & _).
  assert (Hc : cleared_below 0 s B).
  { split_and!.
    - intros b Hb. destruct (B b) as [|x l] eqn:EB.
      + apply (dll_nil (in_bucket b) (sheap s)). rewrite <-EB. apply (inv_dll _ _ Hi).
      + destruct (listed_inv _ _ Hi b x) as (n & _ & (_ & Hr & _)); [rewrite EB; set_solver|].
        pose proof (bucket_of_range (address (larger (n_data n))) (port (larger (n_data n)))
          (address (smaller (n_data n))) (port (smaller (n_data n)))). lia.
    - intros b _. apply (inv_dll _ _ Hi).
    - intros x n Hx. pose proof (inv_listed _ _ Hi x n Hx) as Hin. split; [|done].
      destruct (listed_inv _ _ Hi _ _ Hin) as (n' & Hn' & (_ & Hr & _)).
      rewrite <-Hr. apply bucket_of_range. }
  destruct (clear_buckets_spec (Z.to_nat SESSIONBUCKETS) s B 0 Hc) as (s' & E & H1 & H2 & H3).
  exists s'. split_and!; [done| |].
  - apply map_eq. intros x. rewrite lookup_empty. destruct (sheap s' !! x) as [n|] eqn:Hx; [|done].
    destruct (H3 x n Hx) as [Hle Hin].
    destruct (dll_elem _ _ _ _ _ (H2 _ Hle) Hin) as (n' & _ & (_ & Hr & _)).
    pose proof (bucket_of_range (address (larger (n_data n'))) (port (larger (n_data n')))
      (address (smaller (n_data n'))) (port (smaller (n_data n')))). lia.
  - intros b Hb. apply H1. lia.
Qed.

Lemma clear_sessiontable_frees_witness :
  ∃ s', clear_sessiontable one_session = Ret s' ∧ sheap s' = ∅
    ∧ ∀ b, 0 <= b < SESSIONBUCKETS →
        h_next (getsessionhead s' b) = None ∧ h_prev (getsessionhead s' b) = None.
Proof. apply (clear_sessiontable_frees one_session). apply one_session_ok. Defined.

(** C9: both directions of a connection between two different addresses share one session: the
    session opened for a SYN from [sa:so] to [da:de] is the one a search for a packet from [da:de]
    to [sa:so] finds, whichever address is larger. *)
Theorem reply_finds_session s x sa so da de :
  table_ok s → fresh_for s x → sa ≠ da →
  (let '(a, p, c, q) := sort_sockets sa so da de in
   getsession s a p c q = Ret None →
   ∃ s', insertsession s (Some x) a p c q = Ret (s', Some x)
     ∧ let '(a', p', c', q') := sort_sockets da de sa so in
       getsession s' a' p' c' q' = Ret (Some x)).
Proof.
  intros (B & Hi & Hu) [Hx Hs] Hne.
  assert (E : sort_sockets da de sa so = sort_sockets sa so da de).
  { unfold sort_sockets. destruct (Z.ltb_spec da sa), (Z.ltb_spec sa da); try done; lia. }
  rewrite E. destruct (sort_sockets sa so da de) as [[[a p] c] q]. intros Hg.
  destruct (insert_found s B x a p c q) as (s1 & d & E1 & Hl1 & Hk & _ & (B' & Hi') & Hu'); [done..|].
  exists s1. split; [done|]. apply (getsession_iff s1 x d); [by exists B'| |done].
  rewrite Hl1. apply lookup_insert_eq.
Qed.

Lemma reply_finds_session_witness :
  ∃ s', insertsession (empty_table 1) (Some 1%positive) 20 80 10 4000 = Ret (s', Some 1%positive)
    ∧ getsession s' 20 80 10 4000 = Ret (Some 1%positive).
Proof.
  apply (reply_finds_session (empty_table 1) 1 10 4000 20 80).
  - by apply empty_table_ok.
  - done.
  - done.
  - reflexivity.
Defined.

(** The first FIN of an established session marks it as closing and the second
    one, from the other side, removes it; in any other state FINs change nothing. *)
Theorem two_fins_close s x d :
  table_ok s → live s !! x = Some d →
  if state d =? TCP_ESTABLISHED then
    ∃ s1 s2, closingsession s (Some x) = Ret (s1, Some x)
      ∧ live s1 = <[x := set_state d TCP_CLOSING]> (live s)
      ∧ closingsession s1 (Some x) = Ret (s2, None) ∧ live s2 = delete x (live s)
  else if state d =? TCP_CLOSING then
    ∃ s1, closingsession s (Some x) = Ret (s1, None) ∧ live s1 = delete x (live s)
  else closingsession s (Some x) = Ret (s, Some x).
Proof.
  intros (B & Hi & Hu) Hx.
  destruct (closingsession_inv s B x d Hi Hx) as (s1 & r & E & Hc & (B' & Hi')). revert Hc.
  destruct (state d =? TCP_ESTABLISHED).
  - intros [-> Hl].
    assert (Hx1 : live s1 !! x = Some (set_state d TCP_CLOSING)) by (rewrite Hl; apply lookup_insert_eq).
    destruct (closingsession_inv s1 B' x _ Hi' Hx1) as (s2 & r2 & E2 & Hc2 & _).
    destruct Hc2 as [-> Hl2]. exists s1, s2. split_and!; [done..|].
    by rewrite Hl2, Hl, delete_insert_eq.
  - destruct (state d =? TCP_CLOSING); [intros [-> Hl]; by exists s1|]. intros [-> ->]. done.
Qed.

Lemma two_fins_close_witness : closingsession one_session (Some 1%positive) = Ret (one_session, Some 1%positive).
Proof.
  apply (two_fins_close one_session 1 (new_session (bucket_of 20 80 10 4000) 0 20 80 10 4000)).
  - apply one_session_ok.
  - reflexivity.
Defined.

(** ** Sequence tracking *)

(** The segments of [lens] bytes that one side sends in order from [seq]. *)
Fixpoint track_stream (d : session) (w : side) (seq : Z) (lens : list Z) : session :=
  match lens with
  | [] => d
  | n :: lens' => track_stream (__updateseq (u32 seq) false n d w) w (seq + n) lens'
  end.

Lemma endpoint_set_endpoint d w e v :
  endpoint_at (set_endpoint d w e) v = if decide (v = w) then e else endpoint_at d v.
Proof. by destruct v, w. Qed.

Lemma updateseq_expected d w seq syn len :
  seq = nextsequence (endpoint_at d w) →
  __updateseq seq syn len d w =
    set_deadcounter (set_endpoint d w (set_endpoint_seq (endpoint_at d w) seq
      (u32 (if syn then seq + 1 else seq + len)))) 0.
Proof. intros ->. unfold __updateseq. by rewrite Z.eqb_refl. Qed.

Lemma endpoint_at_deadcounter d v w : endpoint_at (set_deadcounter d v) w = endpoint_at d w.
Proof. by destruct w. Qed.

Lemma track_stream_spec lens d w seq :
  nextsequence (endpoint_at d w) = u32 seq →
  let d' := track_stream d w seq lens in
  nextsequence (endpoint_at d' w) = u32 (seq + foldr Z.add 0 lens)
  ∧ (∀ v, v ≠ w → endpoint_at d' v = endpoint_at d v)
  ∧ same_identity d d' ∧ (lens ≠ [] → deadcounter d' = 0).
Proof.
  revert d seq. induction lens as [|n lens IH]; intros d seq Hn; cbn [track_stream foldr].
  { by rewrite Z.add_0_r. }
  set (d1 := __updateseq (u32 seq) false n d w).
  assert (E1 : d1 = set_deadcounter (set_endpoint d w (set_endpoint_seq (endpoint_at d w) (u32 seq)
      (u32 (u32 seq + n)))) 0) by (by apply updateseq_expected).
  assert (Hn1 : nextsequence (endpoint_at d1 w) = u32 (seq + n)).
  { rewrite E1, endpoint_at_deadcounter, endpoint_set_endpoint, decide_True by done. simpl.
    unfold u32. rewrite Zplus_mod_idemp_l. done. }
  destruct (IH d1 (seq + n) Hn1) as (H1 & H2 & H3 & H4). split_and!.
  - rewrite H1. f_equal. lia.
  - intros v Hv. rewrite H2 by done.
    by rewrite E1, endpoint_at_deadcounter, endpoint_set_endpoint, decide_False.
  - destruct H3 as (A1 & A2 & A3). unfold same_identity. rewrite A1, A2, A3, E1. by destruct w.
  - intros _. destruct lens as [|m lens]; [simpl; by rewrite E1|]. by apply H4.
Qed.

(** A side of a new session whose SYN with sequence number [isn] is followed by
    in-order segments of [lens] bytes has as its expected sequence number
    [isn + 1] plus all the bytes, modulo 2^32; the other side and the session's
    identity are untouched.  It holds for every [isn], also for 2^32 - 1, whose SYN
    the code takes for a keepalive. *)
Theorem stream_tracked b k a p c q w isn lens :
  0 <= isn < 2 ^ 32 →
  let d := new_session b k a p c q in
  let d' := track_stream (__updateseq isn true 0 d w) w (isn + 1) lens in
  nextsequence (endpoint_at d' w) = u32 (isn + 1 + foldr Z.add 0 lens)
  ∧ (∀ v, v ≠ w → endpoint_at d' v = endpoint_at d v)
  ∧ same_identity d d' ∧ deadcounter d' = 0.
Proof.
  intros Hi d d'.
  assert (H1 : nextsequence (endpoint_at (__updateseq isn true 0 d w) w) = u32 (isn + 1)
    ∧ (∀ v, v ≠ w → endpoint_at (__updateseq isn true 0 d w) v = endpoint_at d v)
    ∧ same_identity d (__updateseq isn true 0 d w) ∧ deadcounter (__updateseq isn true 0 d w) = 0).
  { unfold __updateseq. destruct (_ || _) eqn:E.
    - split_and!; [by destruct w|by destruct v, w|by destruct w|done].
    - unbool. split_and!; [|done..]. replace isn with (2 ^ 32 - 1); [by destruct w|].
      destruct w; simpl in *; unfold u32 in *; change ((0 - 1) mod 2 ^ 32) with (2 ^ 32 - 1) in *; lia. }
  destruct H1 as (N1 & O1 & I1 & D1).
  destruct (track_stream_spec lens _ w (isn + 1) N1) as (N2 & O2 & I2 & D2).
  split_and!; [done| | |].
  - intros v Hv. unfold d'. by rewrite O2, O1.
  - unfold d', same_identity in *. destruct I1 as (<- & <- & <-). done.
  - destruct lens; [done|]. by apply D2.
Qed.

Lemma stream_tracked_witness :
  let d := new_session 0 0 20 80 10 4000 in
  let d' := track_stream (__updateseq (2 ^ 32 - 2) true 0 d SmallerSide) SmallerSide (2 ^ 32 - 2 + 1) [1460; 40] in
  nextsequence (endpoint_at d' SmallerSide) = u32 (2 ^ 32 - 2 + 1 + foldr Z.add 0 [1460; 40])
  ∧ (∀ v, v ≠ SmallerSide → endpoint_at d' v = endpoint_at d v)
  ∧ same_identity d d' ∧ deadcounter d' = 0.
Proof. apply (stream_tracked 0 0 20 80 10 4000 SmallerSide (2 ^ 32 - 2) [1460; 40]). lia. Defined.
