(* ===== verification/Queue.v ===== *)
(** * Packet queues and the packet buffer pool
    (opennopd/queuemanager.c, opennopd/packet.c, opennopd/subsystems/memorymanager.c)

    All packet buffers live in one store; a queue is a head into it.  Each
    operation runs under the queue's mutex and is one atomic step here. *)
From S2P Require Import Prelude Dll.

(** [#define BUFSIZE 2048]: the size of [data] in [struct packet]. *)
Definition PACKET_BUFSIZE : nat := Z.to_nat 2048.

Record packet := Packet { pk_hq : Z; pk_id : Z; pk_data : buffer }.

(** A buffer as [calloc] or [memset] leaves it. *)
Definition zero_packet : packet := Packet 0 0 (replicate PACKET_BUFSIZE 0).

(** ** packet.c *)

(** [a] is what [calloc] returned; the code writes through it unchecked. *)
Definition newpacket (h : heap packet) (a : option loc) : outcome (heap packet * loc) :=
  match a with
  | Some x => Ret (<[x := Node None None zero_packet]> h, x)
  | None => Undef
  end.

Definition save_packet (h : heap packet) (thispacket : option loc) (hq id ret : Z)
    (originalpacket : buffer) : outcome (heap packet) :=
  n ← load h thispacket;
  d ← copy_in (pk_data (n_data n)) 0 originalpacket 0 (u64 ret);
  store_data h thispacket (Packet hq id d).

(** ** queuemanager.c *)
Definition queue_packet (h : heap packet) (q : dhead) (thispacket : option loc)
    : outcome (heap packet * dhead * Z) :=
  match thispacket with
  | None => Ret (h, q, -1)
  | Some _ =>
      if h_len q =? 0 then
        Ret (h, DHead thispacket thispacket (u32 (h_len q + 1)), 0)
      else
        h ← store_prev h thispacket (h_prev q);
        n ← load h thispacket;
        h ← store_next h (n_prev n) thispacket;
        Ret (h, DHead (h_next q) thispacket (u32 (h_len q + 1)), 0)
  end.

(** Whether [dequeue_packet] sleeps on the condition variable before it goes on. *)
Definition dequeue_waits (q : dhead) (signal : bool) : bool := (h_len q =? 0) && signal.

(** [dequeue_packet] once it does not wait any more. *)
Definition dequeue_packet (h : heap packet) (q : dhead)
    : outcome (heap packet * dhead * option loc) :=
  match h_next q with
  | Some x =>
      n ← load h (Some x);
      h ← store_next h (Some x) None;
      h ← store_prev h (Some x) None;
      Ret (h, DHead (n_next n) (h_prev q) (u32 (h_len q - 1)), Some x)
  | None => Ret (h, q, None)
  end.

(** Returns the store, [fromqueue], [toqueue] and how many were moved. *)
Definition move_queued_packets (h : heap packet) (fromqueue toqueue : dhead)
    : outcome (heap packet * dhead * dhead * Z) :=
  let start := h_next fromqueue in
  let end_ := h_prev fromqueue in
  let qlen := h_len fromqueue in
  match h_next toqueue with
  | None => Ret (h, empty_head, DHead start end_ qlen, qlen)
  | Some _ =>
      h ← store_prev h start (h_prev toqueue);
      h ← store_next h (h_prev toqueue) start;
      Ret (h, empty_head, DHead (h_next toqueue) end_ (u32 (h_len toqueue + qlen)), qlen)
  end.

(** ** memorymanager.c *)
Definition initialfreepacketbuffers : Z := 1000.
Definition minfreepacketbuffers : Z := 500.
Definition packetbufferstoallocate : Z := 100.

Record pool := Pool { freepacketbuffers : dhead; allocatedpacketbuffers : Z }.

(** One [calloc] answer of [answers] per buffer to allocate. *)
Fixpoint allocatefreepacketbuffers (h : heap packet) (queue : dhead) (answers : list (option loc))
    : outcome (heap packet * dhead) :=
  match answers with
  | [] => Ret (h, queue)
  | a :: answers' =>
      '(h, x) ← newpacket h a;
      '(h, queue, _) ← queue_packet h queue (Some x);
      allocatefreepacketbuffers h queue answers'
  end.

(** The start-up of [memorymanager_function] (its first allocation, when
    [staging] is the zeroed local head) and each iteration of its loop:
    allocate, then move the staged buffers to the pool. *)
Definition memorymanager_step (h : heap packet) (staging : dhead) (pl : pool)
    (answers : list (option loc)) : outcome (heap packet * dhead * pool) :=
  '(h, staging) ← allocatefreepacketbuffers h staging answers;
  '(h, staging, fr, n) ← move_queued_packets h staging (freepacketbuffers pl);
  Ret (h, staging, Pool fr (u32 (allocatedpacketbuffers pl + n))).

(** Whether an iteration of the loop first sleeps until it is signalled. *)
Definition memorymanager_waits (pl : pool) : bool :=
  minfreepacketbuffers <=? h_len (freepacketbuffers pl).

(** Returns the buffer and whether the memory manager was signalled. *)
Definition get_freepacket_buffer (h : heap packet) (pl : pool) (a : option loc)
    : outcome (heap packet * pool * option loc * bool) :=
  '(h, pl, thispacket, signalled) ←
    (if 0 <? h_len (freepacketbuffers pl) then
       let low := h_len (freepacketbuffers pl) <? minfreepacketbuffers in
       '(h, fr, x) ← dequeue_packet h (freepacketbuffers pl);
       Ret (h, Pool fr (allocatedpacketbuffers pl), x, low)
     else
       '(h, x) ← newpacket h a;
       Ret (h, Pool (freepacketbuffers pl) (u32 (allocatedpacketbuffers pl + 1)), Some x, true));
  match thispacket with
  | Some x =>
      _ ← load h (Some x);
      Ret (<[x := Node None None zero_packet]> h, pl, Some x, signalled)
  | None => Ret (h, pl, None, signalled)
  end.

Definition put_freepacket_buffer (h : heap packet) (pl : pool) (thispacket : option loc)
    : outcome (heap packet * pool * Z) :=
  '(h, fr, r) ← queue_packet h (freepacketbuffers pl) thispacket;
  Ret (h, Pool fr (allocatedpacketbuffers pl), r).

(** * A queue is a FIFO list

    Only [next] links matter: [prev] of the first packet may be stale. *)
Section Fifo.
Context {A : Type}.
Implicit Types (h : heap A) (l : list loc).

Fixpoint chain h l : Prop :=
  match l with
  | [] => True
  | x :: l' => (∃ n, h !! x = Some n ∧ n_next n = first l' None) ∧ chain h l'
  end.

Definition fifo h (q : dhead) l : Prop :=
  NoDup l ∧ h_next q = first l None ∧ (l ≠ [] → h_prev q = last l)
  ∧ h_len q = Z.of_nat (length l) ∧ chain h l.

Lemma chain_ext h h' l : (∀ x, x ∈ l → h' !! x = h !! x) → chain h l → chain h' l.
Proof.
  induction l as [|x l IH]; [done|]. intros Hx [(n & Hn & E) Hc]. split.
  - exists n. by rewrite Hx by set_solver.
  - apply IH; [set_solver|done].
Qed.

Lemma chain_elem h l x : chain h l → x ∈ l → is_Some (h !! x).
Proof.
  induction l as [|y l IH]; [set_solver|]. intros [(n & Hn & _) Hc] [->|Hx]%elem_of_cons; eauto.
Qed.

Lemma fifo_relinked h h' q l k :
  relinked h h' k → (∀ x, x ∈ l → x ∉ k) → fifo h q l → fifo h' q l.
Proof.
  intros [_ R] Hd (HN & H1 & H2 & H3 & Hc). split_and!; [done..|].
  eapply chain_ext; [|done]. auto.
Qed.

Lemma fifo_nil h : fifo h empty_head [].
Proof. split_and!; [constructor|done..]. Qed.

(** Hanging the objects [k], whose first is [x], behind the last one, [y]. *)
Lemma chain_join h h' l y k nx :
  chain h (l ++ [y]) → y ∉ l → chain h' k → first k None = Some nx →
  (∀ z, z ∈ l → h' !! z = h !! z) → (∃ m, h' !! y = Some m ∧ n_next m = Some nx) →
  chain h' (l ++ y :: k).
Proof.
  intros Hc Hy Hk Hf Hz Hvy. induction l as [|z l IH]; simpl in *; [by rewrite Hf|].
  destruct Hc as [(m & Hm & Em) Hc]. split.
  - exists m. rewrite Hz by set_solver. split; [done|]. rewrite Em. by destruct l.
  - apply IH; [done|set_solver..].
Qed.
End Fifo.

(** An object that is in no queue, ready to be queued. *)
Definition idle {A} (h : heap A) (x : loc) : Prop := ∃ n, h !! x = Some n ∧ n_next n = None.

Lemma idle_relinked {A} (h h' : heap A) k x : relinked h h' k → x ∉ k → idle h x → idle h' x.
Proof. intros [_ R] Hx (n & Hn & E). exists n. by rewrite R. Qed.

Lemma last_split (l : list loc) : l ≠ [] → ∃ l' y, l = l' ++ [y].
Proof. intros Hne. destruct (exists_last Hne) as (l' & y & ->). eauto. Qed.

Lemma queue_packet_fifo h q l x :
  fifo h q l → x ∉ l → idle h x → Z.of_nat (length l) + 1 < 2 ^ 32 →
  ∃ h' q', queue_packet h q (Some x) = Ret (h', q', 0) ∧ fifo h' q' (l ++ [x]) ∧ relinked h h' (x :: l).
Proof.
  intros (HN & H1 & H2 & H3 & Hc) Hx (n & Hn & En) Hlen.
  assert (HN' : NoDup (l ++ [x])) by (apply NoDup_app; split_and!; [done|set_solver|apply NoDup_singleton]).
  unfold queue_packet. rewrite H3. destruct (Z.eqb_spec (Z.of_nat (length l)) 0) as [E0|E0].
  { destruct l; [|simpl in E0; lia]. eexists _, _. split_and!; [done| |done].
    split_and!; [done..|]. split; [by exists n|done]. }
  assert (Hne : l ≠ []) by (by intros ->). destruct (last_split l Hne) as (k & y & ->).
  rewrite H2, last_snoc in * by done.
  assert (Hyk : y ∉ k) by (apply NoDup_app in HN; set_solver).
  assert (Hxy : x ≠ y) by set_solver.
  destruct (chain_elem _ _ y Hc) as [ny Hny]; [set_solver|].
  unfold store_prev, store_next, load, deref. rewrite Hn. cbn [mbind outcome_bind].
  rewrite lookup_insert_eq. cbn [mbind outcome_bind n_prev].
  rewrite lookup_insert_ne by done. rewrite Hny. cbn [mbind outcome_bind].
  eexists _, _. split; [reflexivity|]. split.
  - split_and!; [done|rewrite H1; by destruct k|intros _; by rewrite last_snoc| |].
    + cbn [h_len]. rewrite u32_small by lia. rewrite (length_app _ [x]). simpl. lia.
    + rewrite <-app_assoc. simpl. eapply (chain_join h _ k y [x] x); [done|done| |done| |].
      * split; [|done]. eexists. rewrite lookup_insert_ne, lookup_insert_eq by done. by split.
      * intros z Hz. rewrite !lookup_insert_ne by set_solver. done.
      * eexists. rewrite lookup_insert_eq. by split.
  - eapply relinked_trans.
    + apply (relinked_insert h x n); [done|set_solver].
    + apply (relinked_insert _ y ny); [by rewrite lookup_insert_ne|set_solver].
Qed.

Lemma dequeue_packet_fifo h q l :
  fifo h q l → Z.of_nat (length l) < 2 ^ 32 →
  match l with
  | [] => dequeue_packet h q = Ret (h, q, None)
  | x :: l' => ∃ h' q', dequeue_packet h q = Ret (h', q', Some x) ∧ fifo h' q' l'
                 ∧ relinked h h' [x] ∧ idle h' x
  end.
Proof.
  intros (HN & H1 & H2 & H3 & Hc) Hlen. unfold dequeue_packet. rewrite H1.
  destruct l as [|x l]; simpl in *; [done|].
  apply NoDup_cons in HN as [Hx HN]. destruct Hc as [(n & Hn & En) Hc].
  unfold load, store_next, store_prev, deref. rewrite Hn. simpl.
  rewrite lookup_insert_eq. simpl. eexists _, _. split_and!; [done|split_and!| |].
  - done.
  - done.
  - intros Hne. rewrite H2, last_cons by done. by destruct (last l) eqn:E; [|apply last_None in E].
  - simpl. rewrite H3, u32_small; lia.
  - eapply chain_ext; [|done]. intros z Hz. rewrite !lookup_insert_ne by set_solver. done.
  - rewrite insert_insert_eq. apply (relinked_insert h x n); [done|set_solver].
  - eexists. rewrite lookup_insert_eq. by split.
Qed.

Lemma move_fifo h q1 q2 l1 l2 :
  fifo h q1 l1 → fifo h q2 l2 → (∀ x, x ∈ l1 → x ∉ l2) → (l1 = [] → l2 = []) →
  Z.of_nat (length l1 + length l2) < 2 ^ 32 →
  ∃ h' q', move_queued_packets h q1 q2 = Ret (h', empty_head, q', Z.of_nat (length l1))
    ∧ fifo h' q' (l2 ++ l1) ∧ relinked h h' (l2 ++ l1).
Proof.
  intros (HN1 & A1 & A2 & A3 & C1) (HN2 & B1 & B2 & B3 & C2) Hd Hne Hlen.
  unfold move_queued_packets. rewrite A1, A3, B1. destruct l2 as [|y l2]; cbn [first].
  { eexists _, _. split_and!; [done| |done]. split_and!; done. }
  destruct l1 as [|x l1]; [by specialize (Hne eq_refl)|]. cbn [first].
  assert (Hne2 : y :: l2 ≠ []) by done. set (m2 := y :: l2) in *.
  assert (Hy : Some y = first m2 None) by done. clearbody m2.
  destruct (last_split m2 Hne2) as (k & z & ->). rewrite B2, last_snoc by done.
  destruct C1 as [(nx & Hnx & Ex) C1].
  apply NoDup_cons in HN1 as [Hx1 HN1].
  assert (Hzk : z ∉ k) by (apply NoDup_app in HN2; set_solver).
  assert (Hzx : x ≠ z) by (intros ->; apply (Hd z); set_solver).
  destruct (chain_elem _ _ z C2) as [nz Hnz]; [set_solver|].
  unfold store_prev, store_next, deref. rewrite Hnx. simpl.
  rewrite lookup_insert_ne by done. rewrite Hnz. simpl.
  eexists _, _. split; [reflexivity|]. split.
  - split_and!.
    + apply NoDup_app. split_and!; [done| |by apply NoDup_cons]. intros w Hw Hw'. by apply (Hd w).
    + cbn [h_next]. rewrite Hy. by destruct k.
    + intros _. cbn [h_prev]. rewrite A2 by done. rewrite last_app.
      destruct (last (x :: l1)) eqn:E; [done|]. by apply last_None in E.
    + cbn [h_len]. rewrite B3. rewrite u32_small; rewrite !length_app in *; simpl in *; lia.
    + rewrite <-app_assoc. simpl. eapply (chain_join h _ k z (x :: l1) x); [done|done| |done| |].
      * split.
        { eexists. rewrite lookup_insert_ne, lookup_insert_eq by done. by split. }
        eapply chain_ext; [|done]. intros w Hw. rewrite !lookup_insert_ne; [done|set_solver|].
        intros <-. apply (Hd z); set_solver.
      * intros w Hw. rewrite !lookup_insert_ne; [done| |set_solver].
        intros <-. apply (Hd x); set_solver.
      * eexists. rewrite lookup_insert_eq. by split.
  - eapply relinked_trans.
    + apply (relinked_insert h x nx); [done|set_solver].
    + apply (relinked_insert _ z nz); [by rewrite lookup_insert_ne|set_solver].
Qed.

(** ** The pool of free buffers *)
Lemma get_freepacket_buffer_spec h pl l a :
  fifo h (freepacketbuffers pl) l → Z.of_nat (length l) < 2 ^ 32 →
  match l with
  | x :: l' => ∃ h' fr, get_freepacket_buffer h pl a
      = Ret (h', Pool fr (allocatedpacketbuffers pl), Some x, Z.of_nat (length l) <? minfreepacketbuffers)
      ∧ fifo h' fr l' ∧ h' !! x = Some (Node None None zero_packet) ∧ ∀ z, z ≠ x → h' !! z = h !! z
  | [] =>
      match a with
      | Some x => get_freepacket_buffer h pl a
          = Ret (<[x := Node None None zero_packet]> h,
                 Pool (freepacketbuffers pl) (u32 (allocatedpacketbuffers pl + 1)), Some x, true)
      | None => get_freepacket_buffer h pl a = Undef
      end
  end.
Proof.
  intros Hf Hlen. pose proof Hf as (HN & _ & _ & Hl & _).
  pose proof (dequeue_packet_fifo _ _ _ Hf Hlen) as Hd. unfold get_freepacket_buffer. rewrite Hl.
  destruct l as [|x l].
  - simpl. destruct a as [x|]; [|done]. simpl. unfold load, deref. rewrite lookup_insert_eq. simpl.
    by rewrite insert_insert_eq.
  - destruct Hd as (h1 & fr & E & Hf' & [_ R] & (n & Hn & _)).
    replace (0 <? Z.of_nat (length (x :: l))) with true by (symmetry; apply Z.ltb_lt; simpl; lia).
    rewrite E. cbn [mbind outcome_bind]. unfold load, deref. rewrite Hn. cbn [mbind outcome_bind].
    apply NoDup_cons in HN as [Hx _].
    eexists _, _. split_and!; [done| |apply lookup_insert_eq|].
    + destruct Hf' as (H1 & H2 & H3 & H4 & Hc). split_and!; [done..|].
      eapply chain_ext; [|done]. intros z Hz. by rewrite lookup_insert_ne by set_solver.
    + intros z Hz. rewrite lookup_insert_ne by done. apply R. set_solver.
Qed.

Lemma put_freepacket_buffer_spec h pl l x :
  fifo h (freepacketbuffers pl) l → x ∉ l → idle h x → Z.of_nat (length l) + 1 < 2 ^ 32 →
  ∃ h' fr, put_freepacket_buffer h pl (Some x) = Ret (h', Pool fr (allocatedpacketbuffers pl), 0)
    ∧ fifo h' fr (l ++ [x]) ∧ relinked h h' (x :: l).
Proof.
  intros Hf Hx Hi Hlen. destruct (queue_packet_fifo _ _ _ _ Hf Hx Hi Hlen) as (h' & q & E & Hf' & R).
  unfold put_freepacket_buffer. rewrite E. by eexists _, _.
Qed.

(** Allocating buffers at the locations [xs] into the staging queue. *)
Lemma allocate_spec xs h q l :
  fifo h q l → NoDup xs → (∀ x, x ∈ xs → h !! x = None) →
  Z.of_nat (length l + length xs) < 2 ^ 32 →
  ∃ h' q', allocatefreepacketbuffers h q (Some <$> xs) = Ret (h', q')
    ∧ fifo h' q' (l ++ xs) ∧ payload h' = foldr (λ x, <[x := zero_packet]>) (payload h) xs
    ∧ (∀ z, z ∉ l → z ∉ xs → h' !! z = h !! z).
Proof.
  revert h q l. induction xs as [|x xs IH]; intros h q l Hf HN Hfr Hlen.
  { exists h, q. rewrite app_nil_r. done. }
  apply NoDup_cons in HN as [Hx HN]. simpl in Hlen.
  assert (Hxl : x ∉ l).
  { intros Hin. destruct Hf as (_ & _ & _ & _ & Hc). destruct (chain_elem _ _ _ Hc Hin) as [n Hn].
    rewrite (Hfr x) in Hn by set_solver. done. }
  set (h0 := <[x := Node None None zero_packet]> h).
  assert (Hf0 : fifo h0 q l).
  { destruct Hf as (H1 & H2 & H3 & H4 & Hc). split_and!; [done..|].
    eapply chain_ext; [|done]. intros z Hz. unfold h0. by rewrite lookup_insert_ne by set_solver. }
  assert (Hi0 : idle h0 x) by (eexists; unfold h0; rewrite lookup_insert_eq; by split).
  destruct (queue_packet_fifo h0 q l x Hf0 Hxl Hi0) as (h1 & q1 & E & Hf1 & R); [lia|].
  destruct (IH h1 q1 (l ++ [x])) as (h' & q' & E' & Hf' & Hp & Ho); [done|done| | |].
  { intros z Hz. destruct R as [_ R]. rewrite R.
    - unfold h0. rewrite lookup_insert_ne by set_solver. apply Hfr. set_solver.
    - intros [->|Hzl]%elem_of_cons; [done|]. destruct Hf as (_ & _ & _ & _ & Hc).
      destruct (chain_elem _ _ _ Hc Hzl) as [n Hn]. rewrite (Hfr z) in Hn by set_solver. done. }
  { rewrite length_app. simpl. lia. }
  exists h', q'. split_and!.
  - cbn [fmap list_fmap allocatefreepacketbuffers newpacket mbind outcome_bind]. fold h0. rewrite E.
    cbn [mbind outcome_bind]. done.
  - by rewrite <-app_assoc in Hf'.
  - rewrite Hp. simpl. destruct R as [-> _]. unfold h0. rewrite payload_insert. simpl.
    clear -Hx. induction xs as [|y xs IH]; [done|]. simpl. rewrite IH by set_solver.
    apply insert_insert_ne. set_solver.
  - intros z Hz Hzx. rewrite Ho by set_solver. destruct R as [_ R]. rewrite R by set_solver.
    unfold h0. by rewrite lookup_insert_ne by set_solver.
Qed.

(** * Properties *)

(** ** A queue against its specification, a list *)
Inductive queue_op := Enqueue (x : loc) | Dequeue.

(** [None] when the client queues a buffer that already is in the queue. *)
Fixpoint spec_run (l : list loc) (ops : list queue_op) : option (list loc * list (option loc)) :=
  match ops with
  | [] => Some (l, [])
  | Enqueue x :: ops' =>
      if bool_decide (x ∈ l) then None else spec_run (l ++ [x]) ops'
  | Dequeue :: ops' => '(l', out) ← spec_run (tail l) ops'; Some (l', head l :: out)
  end.

Fixpoint queue_run (h : heap packet) (q : dhead) (ops : list queue_op)
    : outcome (heap packet * dhead * list (option loc)) :=
  match ops with
  | [] => Ret (h, q, [])
  | Enqueue x :: ops' => '(h, q, _) ← queue_packet h q (Some x); queue_run h q ops'
  | Dequeue :: ops' =>
      '(h, q, r) ← dequeue_packet h q;
      '(h, q, out) ← queue_run h q ops';
      Ret (h, q, r :: out)
  end.

Definition buffers_of (ops : list queue_op) : list loc :=
  omap (λ o, match o with Enqueue x => Some x | Dequeue => None end) ops.

(** C16: the packet queue is a FIFO list: for every sequence of [queue_packet] and
    [dequeue_packet] calls on allocated buffers that never queues a buffer that is
    already in the queue, the calls are all defined, hand the packets out in the
    order they were queued (and nothing from an empty queue), never change a
    packet's contents, and keep the count exact. *)
Theorem queue_implements_fifo ops h q l l' out :
  fifo h q l → (∀ x, x ∈ buffers_of ops → x ∉ l → idle h x) →
  Z.of_nat (length l + length ops) < 2 ^ 32 →
  spec_run l ops = Some (l', out) →
  ∃ h' q', queue_run h q ops = Ret (h', q', out) ∧ fifo h' q' l' ∧ payload h' = payload h.
Proof.
  revert h q l out. induction ops as [|[x|] ops IH]; intros h q l out Hf Hi Hlen Hs;
    cbn [queue_run spec_run] in *; simpl in Hi, Hlen.
  - injection Hs as <- <-. by eexists _, _.
  - case_bool_decide as Hx; [done|].
    destruct (queue_packet_fifo h q l x Hf Hx) as (h1 & q1 & E & Hf1 & R); [apply Hi; set_solver|lia|].
    destruct (IH h1 q1 (l ++ [x]) out Hf1) as (h' & q' & E' & Hf' & Hp); [|rewrite length_app; simpl; lia|done|].
    { intros y Hy Hyl. eapply idle_relinked; [done|set_solver|]. apply Hi; set_solver. }
    exists h', q'. rewrite E. cbn [mbind outcome_bind]. split_and!; [done..|]. destruct R as [<- _]. done.
  - destruct (spec_run (tail l) ops) as [[l1 out1]|] eqn:Es; [|done]. simpl in Hs. injection Hs as <- <-.
    pose proof (dequeue_packet_fifo h q l Hf ltac:(lia)) as Hd. destruct l as [|x l].
    + destruct (IH h q [] out1 Hf) as (h' & q' & E' & Hf' & Hp); [done|simpl; lia|done|].
      exists h', q'. rewrite Hd. cbn [mbind outcome_bind]. rewrite E'. done.
    + destruct Hd as (h1 & q1 & E & Hf1 & R & Hid).
      destruct (IH h1 q1 l out1 Hf1) as (h' & q' & E' & Hf' & Hp); [|simpl in *; lia|done|].
      { intros y Hy Hyl. destruct (decide (y = x)) as [->|Hne]; [done|].
        eapply idle_relinked; [done|set_solver|]. apply Hi; set_solver. }
      exists h', q'. rewrite E. cbn [mbind outcome_bind]. rewrite E'. split_and!; [done..|].
      destruct R as [<- _]. done.
Qed.

(** Two allocated buffers in no queue. *)
Definition two_buffers : heap packet :=
  <[1%positive := Node None None zero_packet]> {[ 2%positive := Node None None zero_packet ]}.

Lemma two_buffers_idle x : x ∈ [1%positive; 2%positive] → idle two_buffers x.
Proof.
  intros Hx. eexists. repeat (apply elem_of_cons in Hx as [->|Hx]); [by split..|].
  by apply not_elem_of_nil in Hx.
Qed.

Lemma queue_implements_fifo_witness :
  ∃ h' q', queue_run two_buffers empty_head [Enqueue 1; Enqueue 2; Dequeue; Enqueue 1; Dequeue; Dequeue; Dequeue]%positive
           = Ret (h', q', [Some 1%positive; Some 2%positive; Some 1%positive; None])
    ∧ fifo h' q' [] ∧ payload h' = payload two_buffers.
Proof.
  apply (queue_implements_fifo _ two_buffers empty_head [] []).
  - apply fifo_nil.
  - intros x Hx _. apply two_buffers_idle. revert Hx. simpl. set_solver.
  - simpl. lia.
  - reflexivity.
Defined.

(** [move_queued_packets] empties the source and appends all its packets, in
    order, to the destination and returns how many there were; but with an empty
    source and a destination that holds packets it follows a NULL pointer. *)
Theorem move_queued_packets_appends h q1 q2 l1 l2 :
  fifo h q1 l1 → fifo h q2 l2 → (∀ x, x ∈ l1 → x ∉ l2) →
  Z.of_nat (length l1 + length l2) < 2 ^ 32 →
  if bool_decide (l1 = []) && negb (bool_decide (l2 = []))
  then move_queued_packets h q1 q2 = Undef
  else ∃ h' q', move_queued_packets h q1 q2 = Ret (h', empty_head, q', Z.of_nat (length l1))
         ∧ fifo h' q' (l2 ++ l1) ∧ payload h' = payload h.
Proof.
  intros H1 H2 Hd Hlen.
  destruct (bool_decide (l1 = [])) eqn:E1, (bool_decide (l2 = [])) eqn:E2; simpl;
    try (destruct (move_fifo h q1 q2 l1 l2) as (h' & q' & E & Hf & [R _]);
         [done|done|done|unbool; congruence|done|by eexists _, _]).
  unbool. destruct H1 as (_ & H1 & _). destruct H2 as (_ & H2 & _).
  unfold move_queued_packets. rewrite H1, H2, E1. destruct l2; [done|]. done.
Qed.

Lemma move_queued_packets_appends_witness :
  ∃ h' q', move_queued_packets two_buffers (DHead (Some 1%positive) (Some 1%positive) 1) empty_head
           = Ret (h', empty_head, q', 1)
    ∧ fifo h' q' [1%positive] ∧ payload h' = payload two_buffers.
Proof.
  apply (move_queued_packets_appends two_buffers (DHead (Some 1%positive) (Some 1%positive) 1) empty_head
    [1%positive] []).
  - split_and!; [apply NoDup_singleton|done..|]. split; [|done]. apply two_buffers_idle. set_solver.
  - apply fifo_nil.
  - set_solver.
  - simpl. lia.
Defined.

(** A buffer handed back with [put_freepacket_buffer] goes behind the other
    free buffers, and [get_freepacket_buffer] hands out the first free one, zeroed
    and unlinked, without touching any other packet; only an empty pool makes it
    allocate (and count) a new one. *)
Theorem buffer_pool_cycle h pl l x a :
  fifo h (freepacketbuffers pl) l → x ∉ l → idle h x → Z.of_nat (length l) + 1 < 2 ^ 32 →
  ∃ h1 fr1, put_freepacket_buffer h pl (Some x) = Ret (h1, Pool fr1 (allocatedpacketbuffers pl), 0)
    ∧ fifo h1 fr1 (l ++ [x]) ∧ payload h1 = payload h
    ∧ ∃ y h2 fr2 s, get_freepacket_buffer h1 (Pool fr1 (allocatedpacketbuffers pl)) a
        = Ret (h2, Pool fr2 (allocatedpacketbuffers pl), Some y, s)
      ∧ y :: tail (l ++ [x]) = l ++ [x] ∧ fifo h2 fr2 (tail (l ++ [x]))
      ∧ h2 !! y = Some (Node None None zero_packet) ∧ ∀ z, z ≠ y → h2 !! z = h1 !! z.
Proof.
  intros Hf Hx Hi Hlen. destruct (put_freepacket_buffer_spec h pl l x) as (h1 & fr1 & E & Hf1 & R); [done..|].
  exists h1, fr1. split_and!; [done|done|apply R|].
  pose proof (get_freepacket_buffer_spec h1 (Pool fr1 (allocatedpacketbuffers pl)) (l ++ [x]) a Hf1) as Hg.
  destruct (l ++ [x]) as [|y k] eqn:El; [by destruct l|].
  destruct Hg as (h2 & fr2 & Eg & Hf2 & Hy & Ho).
  { rewrite <-El, length_app. simpl. lia. }
  eexists y, h2, fr2, _. done.
Qed.

Lemma buffer_pool_cycle_witness :
  ∃ h1 fr1, put_freepacket_buffer two_buffers (Pool empty_head 0) (Some 2%positive) = Ret (h1, Pool fr1 0, 0)
    ∧ fifo h1 fr1 [2%positive] ∧ payload h1 = payload two_buffers
    ∧ ∃ y h2 fr2 s, get_freepacket_buffer h1 (Pool fr1 0) None = Ret (h2, Pool fr2 0, Some y, s)
      ∧ [y] = [2%positive] ∧ fifo h2 fr2 []
      ∧ h2 !! y = Some (Node None None zero_packet) ∧ ∀ z, z ≠ y → h2 !! z = h1 !! z.
Proof.
  apply (buffer_pool_cycle two_buffers (Pool empty_head 0) [] 2 None).
  - apply fifo_nil.
  - set_solver.
  - apply two_buffers_idle. set_solver.
  - simpl. lia.
Defined.

(** One iteration of the memory manager puts exactly the buffers it allocated,
    zeroed, behind the free ones, counts them and leaves the staging queue empty. *)
Theorem memorymanager_step_refills h pl l xs :
  fifo h (freepacketbuffers pl) l → NoDup xs → xs ≠ [] → (∀ x, x ∈ xs → h !! x = None) →
  Z.of_nat (length l + length xs) < 2 ^ 32 →
  ∃ h' fr, memorymanager_step h empty_head pl (Some <$> xs)
      = Ret (h', empty_head, Pool fr (u32 (allocatedpacketbuffers pl + Z.of_nat (length xs))))
    ∧ fifo h' fr (l ++ xs)
    ∧ payload h' = foldr (λ x, <[x := zero_packet]>) (payload h) xs.
Proof.
  intros Hf HN Hne Hfr Hlen.
  destruct (allocate_spec xs h empty_head [] (fifo_nil h) HN Hfr) as (h1 & q1 & E & Hf1 & Hp & Ho);
    [simpl; lia|].
  assert (Hd : ∀ x, x ∈ l → x ∉ xs).
  { intros x Hx Hxs. destruct Hf as (_ & _ & _ & _ & Hc). destruct (chain_elem _ _ _ Hc Hx) as [n Hn].
    by rewrite (Hfr x Hxs) in Hn. }
  assert (Hfl : fifo h1 (freepacketbuffers pl) l).
  { destruct Hf as (H1 & H2 & H3 & H4 & Hc). split_and!; [done..|].
    eapply chain_ext; [|done]. intros z Hz. apply Ho; [set_solver|by apply Hd]. }
  destruct (move_fifo h1 q1 (freepacketbuffers pl) xs l) as (h2 & q2 & E2 & Hf2 & R);
    [done|done|set_solver|done|lia|].
  unfold memorymanager_step. rewrite E. simpl. rewrite E2. simpl.
  eexists _, _. split_and!; [done|done|]. destruct R as [-> _]. done.
Qed.

Lemma memorymanager_step_refills_witness :
  ∃ h' fr, memorymanager_step ∅ empty_head (Pool empty_head 0) [Some 1%positive; Some 2%positive]
      = Ret (h', empty_head, Pool fr (u32 2)) ∧ fifo h' fr [1%positive; 2%positive]
    ∧ payload h' = <[1%positive := zero_packet]> (<[2%positive := zero_packet]> (payload ∅)).
Proof.
  apply (memorymanager_step_refills ∅ (Pool empty_head 0) [] [1%positive; 2%positive]).
  - apply fifo_nil.
  - repeat constructor; set_solver.
  - done.
  - done.
  - simpl. lia.
Defined.
