(* ===== verification/Counters.v ===== *)
(** * Traffic counters (opennopd/subsystems/counters.c and the metrics of
    fetcher.c and worker.c)

    Counters are [__u32] and roll over; rates are computed every
    [UPDATECOUNTERSTIMER] seconds by the registered handlers. *)
From S2P Require Import Prelude Dll.

Definition UPDATECOUNTERSTIMER : Z := 5.

(** [(1UL << (sizeof(__u32) * 8)) / 2] *)
Definition rate_scale : Z := Z.shiftl 1 32 / 2.

(** The result is an [int]: the unsigned quotient converted to it. *)
Definition to_int (z : Z) : Z := if z <? 2 ^ 31 then z else z - 2 ^ 32.

Definition calculate_ppsbps (previouscount currentcount : Z) : Z :=
  if previouscount <? currentcount
  then to_int (u32 (currentcount - previouscount) / UPDATECOUNTERSTIMER)
  else to_int (u32 (u32 (currentcount + u32 rate_scale) - u32 (previouscount + u32 rate_scale))
               / UPDATECOUNTERSTIMER).

(** One counter with its previous value and its rate. *)
Record metric := Metric { m_count : Z; m_previous : Z; m_rate : Z }.

Definition zero_metric : metric := Metric 0 0 0.
Definition update_metric (m : metric) : metric :=
  Metric (m_count m) (m_count m) (u32 (calculate_ppsbps (m_previous m) (m_count m))).
Definition add_metric (m : metric) (v : Z) : metric :=
  Metric (u32 (m_count m + v)) (m_previous m) (m_rate m).

Record fetchercounters := FetcherCounters { f_packets : metric; f_bytesin : metric }.
Record workercounters := WorkerCounters { w_packets : metric; w_bytesin : metric; w_bytesout : metric }.

Definition counter_updatefetchermetrics (c : fetchercounters) : fetchercounters :=
  FetcherCounters (update_metric (f_packets c)) (update_metric (f_bytesin c)).
Definition counter_updateworkermetrics (c : workercounters) : workercounters :=
  WorkerCounters (update_metric (w_packets c)) (update_metric (w_bytesin c))
    (update_metric (w_bytesout c)).

(** ** The registry: a list of handlers with the data they are called on. *)
Record counter := Counter { c_handler : Z; c_data : Z }.

(** [a] is the address [allocate_counter] returned (it exits when out of memory). *)
Definition register_counter (h : heap counter) (counters : dhead) (a : loc) (handler data : Z)
    : outcome (heap counter * dhead) :=
  let h := <[a := Node None None (Counter handler data)]> h in
  match h_next counters with
  | None => Ret (h, DHead (Some a) (Some a) (h_len counters))
  | Some _ =>
      h ← store_prev h (Some a) (h_prev counters);
      h ← store_next h (h_prev counters) (Some a);
      Ret (h, DHead (h_next counters) (Some a) (h_len counters))
  end.

(** The calls [execute_counters] makes, in order. *)
Fixpoint run_counters (n : nat) (h : heap counter) (cur : option loc) : outcome (list counter) :=
  match n with
  | O => Spin
  | S n' =>
      match cur with
      | None => Ret []
      | Some x =>
          nd ← load h (Some x);
          r ← run_counters n' h (n_next nd);
          Ret (n_data nd :: r)
      end
  end.

Definition execute_counters (h : heap counter) (counters : dhead) : outcome (list counter) :=
  run_counters (list_fuel h) h (h_next counters).

(** * Facts *)
Lemma ppsbps_diff p c :
  0 <= p < 2 ^ 32 → 0 <= c < 2 ^ 32 →
  calculate_ppsbps p c = ((c - p) mod 2 ^ 32) / UPDATECOUNTERSTIMER.
Proof.
  intros Hp Hc. unfold calculate_ppsbps, UPDATECOUNTERSTIMER.
  assert (Hq : ∀ z, to_int (u32 z / 5) = u32 z / 5).
  { intros z. pose proof (u32_bound z). unfold to_int.
    replace (u32 z / 5 <? 2 ^ 31) with true; [done|].
    symmetry. apply Z.ltb_lt, Z.div_lt_upper_bound; lia. }
  destruct (p <? c); rewrite Hq; [done|]. f_equal. unfold u32.
  rewrite <-Zminus_mod. f_equal. lia.
Qed.

Lemma rate_bound p c : 0 <= p < 2 ^ 32 → 0 <= c < 2 ^ 32 → 0 <= calculate_ppsbps p c < 2 ^ 31.
Proof.
  intros Hp Hc. rewrite ppsbps_diff by done. unfold UPDATECOUNTERSTIMER.
  pose proof (Z.mod_pos_bound (c - p) (2 ^ 32)). split.
  - apply Z.div_pos; lia.
  - apply Z.div_lt_upper_bound; lia.
Qed.

(** A counter right after an update. *)
Definition metric_fresh (m : metric) : Prop := 0 <= m_count m < 2 ^ 32 ∧ m_previous m = m_count m.

Lemma register_counter_spec h hd l a hnd d :
  dll h (λ _, True) hd l → h !! a = None →
  ∃ h' hd', register_counter h hd a hnd d = Ret (h', hd')
    ∧ dll h' (λ _, True) hd' (l ++ [a]) ∧ payload h' = <[a := Counter hnd d]> (payload h).
Proof.
  intros Hd Ha. unfold register_counter. set (h0 := <[a := Node None None (Counter hnd d)]> h).
  assert (Hal : a ∉ l).
  { intros Hin. destruct (dll_elem _ _ _ _ _ Hd Hin) as (n & Hn & _). congruence. }
  assert (Hd0 : dll h0 (λ _, True) hd l) by (by apply dll_insert_ne).
  assert (Ha0 : h0 !! a = Some (Node None None (Counter hnd d))) by apply lookup_insert_eq.
  destruct (h_next hd) as [x|] eqn:En.
  - assert (Hne : l ≠ []).
    { intros ->. destruct Hd as (_ & H1 & _). by rewrite En in H1. }
    destruct (dll_append _ _ _ _ _ _ (h_len hd) Hd0 Hne Hal Ha0 I) as (h1 & h2 & E1 & _ & E2 & R & D).
    rewrite E1. cbn [mbind outcome_bind]. rewrite E2. cbn [mbind outcome_bind].
    rewrite <-En. eexists _, _. split_and!; [done|done|].
    destruct R as [-> _]. unfold h0. by rewrite payload_insert.
  - apply (dll_next_None _ _ _ _ Hd) in En as ->. eexists _, _. split_and!; [done| |].
    + by apply (dll_single _ _ _ (Counter hnd d)).
    + unfold h0. by rewrite payload_insert.
Qed.

Lemma run_counters_spec h prv l fuel :
  seg h (λ _, True) prv l None → (length l < fuel)%nat →
  run_counters fuel h (first l None) = Ret (omap (λ x, payload h !! x) l).
Proof.
  revert prv fuel. induction l as [|x l IH]; intros prv [|fuel] Hs Hf; simpl in *; [lia|done|lia|].
  destruct Hs as (d & Hl & _ & Hs). unfold load, deref. rewrite Hl. simpl.
  rewrite (IH (Some x) fuel Hs) by lia. simpl.
  by rewrite payload_lookup, Hl.
Qed.

Lemma execute_counters_spec h hd l :
  dll h (λ _, True) hd l → execute_counters h hd = Ret (omap (λ x, payload h !! x) l).
Proof.
  intros Hd. pose proof Hd as (_ & Hn & _ & Hs). unfold execute_counters. rewrite Hn.
  eapply run_counters_spec; [done|]. pose proof (dll_length _ _ _ _ Hd). unfold list_fuel. lia.
Qed.

(** Registering the handlers [cs] at the fresh locations [xs]. *)
Fixpoint register_all (h : heap counter) (hd : dhead) (cs : list (loc * counter))
    : outcome (heap counter * dhead) :=
  match cs with
  | [] => Ret (h, hd)
  | (a, c) :: cs' => '(h, hd) ← register_counter h hd a (c_handler c) (c_data c); register_all h hd cs'
  end.

Lemma register_all_spec cs h hd l :
  dll h (λ _, True) hd l → NoDup cs.*1 → (∀ a, a ∈ cs.*1 → h !! a = None) →
  ∃ h' hd', register_all h hd cs = Ret (h', hd') ∧ dll h' (λ _, True) hd' (l ++ cs.*1)
    ∧ (∀ x, x ∉ cs.*1 → payload h' !! x = payload h !! x)
    ∧ omap (λ x, payload h' !! x) cs.*1 = cs.*2.
Proof.
  revert h hd l. induction cs as [|[a c] cs IH]; intros h hd l Hd HN Hfr; cbn [register_all].
  { exists h, hd. simpl. by rewrite app_nil_r. }
  simpl in HN, Hfr. apply NoDup_cons in HN as [Ha HN].
  destruct (register_counter_spec h hd l a (c_handler c) (c_data c) Hd) as (h1 & hd1 & E & D & P);
    [apply Hfr; set_solver|].
  destruct (IH h1 hd1 (l ++ [a]) D HN) as (h' & hd' & E' & D' & P' & O').
  { intros b Hb. assert (Hpb : payload h1 !! b = None).
    { rewrite P, lookup_insert_ne by set_solver. rewrite payload_lookup, Hfr by set_solver. done. }
    rewrite payload_lookup in Hpb. by destruct (h1 !! b). }
  rewrite E. cbn [mbind outcome_bind]. exists h', hd'. split_and!; [done|by rewrite <-app_assoc in D'| |].
  - intros x Hx. simpl in Hx. rewrite P' by set_solver. rewrite P, lookup_insert_ne by set_solver. done.
  - cbn [fmap list_fmap omap list_omap fst snd]. rewrite P', P, lookup_insert_eq by done.
    destruct c. cbn. f_equal. exact O'.
Qed.

(** * Properties *)

(** C24: the rate of a counter is the number of events since its last update,
    divided by the update interval, also when the 32-bit counter rolled over in
    between; the update makes the current count the next reference. *)
Theorem metric_rate m v :
  metric_fresh m → 0 <= v < 2 ^ 32 →
  let m' := update_metric (add_metric m v) in
  m_rate m' = v / UPDATECOUNTERSTIMER ∧ m_count m' = (m_count m + v) mod 2 ^ 32 ∧ metric_fresh m'.
Proof.
  intros [Hm Hp] Hv m'. unfold m', update_metric, add_metric. simpl. rewrite Hp.
  pose proof (u32_bound (m_count m + v)) as Hb.
  split_and!; [|done|done..].
  pose proof (rate_bound (m_count m) (u32 (m_count m + v)) Hm Hb).
  rewrite u32_small by lia. rewrite ppsbps_diff by done. f_equal. unfold u32.
  rewrite Zminus_mod_idemp_l. replace (m_count m + v - m_count m) with v by lia. by apply Z.mod_small.
Qed.

Lemma metric_rate_witness :
  let m' := update_metric (add_metric (Metric 4294967290 4294967290 0) 100) in
  m_rate m' = 100 / UPDATECOUNTERSTIMER ∧ m_count m' = (4294967290 + 100) mod 2 ^ 32 ∧ metric_fresh m'.
Proof. apply (metric_rate (Metric 4294967290 4294967290 0) 100); [split; simpl; lia|lia]. Defined.

(** One round of the counters thread calls every registered handler exactly
    once, on the data it was registered with, in the order of registration. *)
Theorem counters_run_in_order cs :
  NoDup cs.*1 →
  ∃ h hd, register_all ∅ empty_head cs = Ret (h, hd) ∧ execute_counters h hd = Ret cs.*2.
Proof.
  intros HN. destruct (register_all_spec cs ∅ empty_head []) as (h & hd & E & D & _ & O);
    [by apply dll_nil|done|done|].
  exists h, hd. split; [done|]. rewrite (execute_counters_spec _ _ _ D). f_equal. exact O.
Qed.

Lemma counters_run_in_order_witness :
  ∃ h hd, register_all ∅ empty_head [(1%positive, Counter 7 70); (2%positive, Counter 8 80)] = Ret (h, hd)
    ∧ execute_counters h hd = Ret [Counter 7 70; Counter 8 80].
Proof.
  apply (counters_run_in_order [(1%positive, Counter 7 70); (2%positive, Counter 8 80)]).
  repeat constructor; set_solver.
Defined.
