(* ===== verification/CliShow.v ===== *)
(** * The show commands (clicommands.c, worker.c, fetcher.c, sessionmanager.c, ipc.c,
    compression.c, sessioncleanup.c)

    Each command formats a line into small arrays of its own with [sprintf] and
    concatenates them.  An array of [n] characters holds a text of less than [n];
    a longer one is written past its end. *)
From S2P Require Import Prelude Dll NodeId Tokens Cli Utility Counters Session Ipc.
From stdpp Require Import pretty.
#[local] Open Scope Z_scope.
#[local] Open Scope list_scope.

Definition MAX_BUFFER_SIZE : nat := Z.to_nat 1024.

(** [sprintf] of [text] into an array of [n] characters. *)
Definition sprintf (n : Z) (text : string) : outcome string :=
  if Z.of_nat (String.length text) <? n then Ret text else Undef.

Fixpoint spaces (n : nat) : string := match n with O => "" | S n => String " " (spaces n) end.

(** [%-<n>s]. *)
Definition left (n : nat) (text : string) : string := text +:+ spaces (n - String.length text).

(** [inet_ntop] of an IPv4 address in network order. *)
Definition inet_ntop (ip : Z) : string :=
  pretty (u8 ip) +:+ "." +:+ pretty (u8 (ip / 2 ^ 8)) +:+ "." +:+ pretty (u8 (ip / 2 ^ 16)) +:+ "." +:+ pretty (u8 (ip / 2 ^ 24)).

(** ** Workers *)
Definition worker_rule : string := "-------------------------------------------------------------------------------" +:+ newline.
Definition worker_header : list string :=
  [ worker_rule; "|  5 sec  |          optimization           |          deoptimization         |" +:+ newline;
    worker_rule; "|  worker |  pps  |     in     |     out    |  pps  |     in     |     out    |" +:+ newline; worker_rule ].

(** [bytestostringbps] into [bps\[11\]], then into a column of 14 characters. *)
Definition rate_column (v : Z) : outcome string :=
  bps ← sprintf 11 (bytestostringbps v); sprintf 14 ("| " +:+ left 11 bps).
Definition pps_column (v : Z) : outcome string := sprintf 9 ("| " +:+ left 6 (pretty v)).

Definition worker_row (i : nat) (w : workercounters * workercounters) : outcome string :=
  col1 ← sprintf 11 ("|    " +:+ left 5 (pretty (Z.of_nat i)));
  col2 ← pps_column (m_rate (w_packets w.1));
  col3 ← rate_column (m_rate (w_bytesin w.1));
  col4 ← rate_column (m_rate (w_bytesout w.1));
  col5 ← pps_column (m_rate (w_packets w.2));
  col6 ← rate_column (m_rate (w_bytesin w.2));
  col7 ← rate_column (m_rate (w_bytesout w.2));
  sprintf 1024 (col1 +:+ col2 +:+ col3 +:+ col4 +:+ col5 +:+ col6 +:+ col7 +:+ "|" +:+ newline).

Fixpoint worker_rows (i : nat) (ws : list (workercounters * workercounters)) : outcome (list string) :=
  match ws with
  | [] => Ret []
  | w :: ws => row ← worker_row i w; rows ← worker_rows (S i) ws; Ret (row :: rows)
  end.

(** A total is a [__u32]. *)
Definition total (f : workercounters * workercounters → metric) (ws : list (workercounters * workercounters)) : Z :=
  u32 (foldr Z.add 0 ((λ w, m_rate (f w)) <$> ws)).

(** The rates of the first [get_workers()] workers. *)
Definition cli_show_workers (ws : list (workercounters * workercounters)) : outcome (list string) :=
  rows ← worker_rows 0 ws;
  optimizationbpsin ← sprintf 9 (bytestostringbps (total (λ w, w_bytesin w.1) ws));
  optimizationbpsout ← sprintf 9 (bytestostringbps (total (λ w, w_bytesout w.1) ws));
  deoptimizationbpsin ← sprintf 9 (bytestostringbps (total (λ w, w_bytesin w.2) ws));
  deoptimizationbpsout ← sprintf 9 (bytestostringbps (total (λ w, w_bytesout w.2) ws));
  msg ← sprintf 1024 ("|  total  | " +:+ left 6 (pretty (total (λ w, w_packets w.1) ws)) +:+ "| " +:+ left 11 optimizationbpsin
    +:+ "| " +:+ left 11 optimizationbpsout +:+ "| " +:+ left 6 (pretty (total (λ w, w_packets w.2) ws))
    +:+ "| " +:+ left 11 deoptimizationbpsin +:+ "| " +:+ left 11 deoptimizationbpsout +:+ "|" +:+ newline);
  Ret (worker_header ++ rows ++ [worker_rule; msg; worker_rule]).

(** ** The fetcher *)
Definition fetcher_rule : string := "------------------------" +:+ newline.

Definition cli_show_fetcher (c : fetchercounters) : outcome (list string) :=
  let ppsbps := m_rate (f_packets c) in
  _ ← sprintf 11 (bytestostringbps ppsbps);
  col1 ← sprintf 11 ("| " +:+ left 8 (pretty ppsbps));
  col2 ← rate_column (m_rate (f_bytesin c));
  msg ← sprintf 1024 (col1 +:+ col2 +:+ "|" +:+ newline);
  Ret [ fetcher_rule; "|  5 sec  |  fetcher   |" +:+ newline; fetcher_rule;
        "|   pps   |     in     |" +:+ newline; fetcher_rule; msg; fetcher_rule ].

(** ** Sessions *)
Definition session_rule : string :=
  "--------------------------------------------------------------------------------------" +:+ newline.
Definition session_header : list string :=
  [ session_rule; "|  Index  |   Client IP    | Client Port |    Server IP   | Server Port | Optimizing |" +:+ newline;
    session_rule ].

Definition session_line (i : Z) (row : Z * Z * Z * Z * bool) : outcome string :=
  let '(client, cport, server, sport, accelerated) := row in
  col1 ← sprintf 10 ("|  " +:+ left 7 (pretty i));
  col2 ← sprintf 18 ("| " +:+ left 15 (inet_ntop client));
  col3 ← sprintf 14 ("|   " +:+ left 10 (pretty cport));
  col4 ← sprintf 18 ("| " +:+ left 15 (inet_ntop server));
  col5 ← sprintf 14 ("|   " +:+ left 10 (pretty sport));
  col6 ← sprintf 14 (if accelerated : bool then "|     Yes    " else "|     No     ");
  sprintf 1024 (col1 +:+ col2 +:+ col3 +:+ col4 +:+ col5 +:+ col6 +:+ "|" +:+ newline).

Fixpoint session_lines (i : Z) (rows : list (Z * Z * Z * Z * bool)) : outcome (list string) :=
  match rows with
  | [] => Ret []
  | row :: rows => l ← session_line i row; ls ← session_lines i rows; Ret (l :: ls)
  end.

(** [n] buckets from number [i] on. *)
Fixpoint buckets_loop (n : nat) (me : list Z) (s : smstate) (i : Z) : outcome (list string) :=
  match n with
  | O => Ret []
  | S n =>
      rows ← show_bucket (list_fuel (sheap s)) (sheap s) me (h_next (getsessionhead s i));
      ls ← session_lines i rows;
      rest ← buckets_loop n me s (i + 1);
      Ret (ls ++ rest)
  end.

Definition cli_show_sessionss (me : list Z) (s : smstate) : outcome (list string) :=
  ls ← buckets_loop (Z.to_nat SESSIONBUCKETS) me s 0; Ret (session_header ++ ls).

(** ** Neighbors *)
Definition neighbor_rule : string :=
  "---------------------------------------------------------------------------------------------------------" +:+ newline.
Definition neighbor_header : list string :=
  [ neighbor_rule;
    "|   Neighbor IP   |        ID        |                               Key                                |" +:+ newline;
    neighbor_rule ].

(** The text at a byte array: up to its first NUL. *)
Fixpoint text_at (l : list Z) : string :=
  match l with
  | [] => EmptyString
  | c :: l => if c =? 0 then EmptyString else String (ascii_of_nat (Z.to_nat c)) (text_at l)
  end.

(** The id has no NUL: what is printed goes on with the fields behind it, [sock] and [key]. *)
Definition neighbor_line (n : neighbor) : outcome string :=
  col1 ← sprintf 19 ("| " +:+ left 16 (inet_ntop (NeighborIP n)));
  col2 ← sprintf 33 ("| " +:+ left 17 (text_at (nb_id n ++ le32 (sock n) ++ nb_key n)));
  col3 ← sprintf 68 ("| " +:+ left 65 (text_at (nb_key n)));
  sprintf 1024 (col1 +:+ col2 +:+ col3 +:+ "|" +:+ newline).

Fixpoint neighbor_lines (fuel : nat) (h : heap neighbor) (q : option loc) : outcome (list string) :=
  match q, fuel with
  | None, _ => Ret []
  | Some _, O => Spin
  | Some _, S fuel =>
      nd ← load h q; l ← neighbor_line (n_data nd); ls ← neighbor_lines fuel h (n_next nd); Ret (l :: ls)
  end.

Definition cli_show_neighbors (s : ipcstate) : outcome (list string) :=
  ls ← neighbor_lines (list_fuel (nheap s)) (nheap s) (h_next (ipchead s));
  Ret (neighbor_header ++ ls ++ [neighbor_rule]).

Definition state_text (s : neighborstate) : string :=
  match s with
  | DOWN => "state = down" | ATTEMPT => "state = attempt" | ESTABLISHED => "state = established"
  | UP => "state = up" | SHUTTINGDOWN => "state = unknown?"
  end +:+ newline.

Definition id_hex (id : list Z) : string := foldr (λ b s, hex2 b +:+ s) "" id.
Definition id_shown (id : list Z) : string := text_at (shown <$> id).

Definition cli_display_neighbor_details (n : neighbor) : list string :=
  [ "Neighbor: " +:+ inet_ntop (NeighborIP n) +:+ newline;
    "ID: " +:+ id_hex (nb_id n) +:+ " | " +:+ id_shown (nb_id n) +:+ newline;
    state_text (nb_state n) ].

Definition cli_show_neighbor_help : list string := ["Usage: show neighbor <ip address> " +:+ newline].

Definition cli_show_neighbor (parameters : list string) (s : ipcstate) : outcome (list string) :=
  let '(out, ip) := match parameters with [p] => ([], inet_pton p) | _ => (cli_show_neighbor_help, None) end in
  match ip with
  | None => Ret (out ++ cli_show_neighbor_help)
  | Some ip =>
      x ← find_neighbor_by_u32 s ip;
      match x with
      | None => Ret out
      | Some x => nd ← load (nheap s) (Some x); Ret (out ++ cli_display_neighbor_details (n_data nd))
      end
  end.

(** ** Switches *)
Definition cli_show_compression (compression : bool) : list string :=
  [(if compression then "compression enabled" else "compression disabled") +:+ newline].
Definition cli_show_dead_session_detection (dead_session_detection : bool) : list string :=
  [(if dead_session_detection then "dead session detection enabled" else "dead session detection disabled") +:+ newline].

Definition cli_debug_ipc_help : list string := ["off" +:+ newline; "debug" +:+ newline; "all" +:+ newline].
Definition cli_debug_ipc (parameters : list string) (DEBUG_IPC : Z) : outcome (Z * list string) :=
  match parameters with
  | [p] =>
      let level := if bool_decide (p = "off"%string) then LOGGING_OFF
                   else if bool_decide (p = "debug"%string) then LOGGING_DEBUG
                   else if bool_decide (p = "all"%string) then LOGGING_ALL else DEBUG_IPC in
      msg ← sprintf 1024 ("ipc debug level = " +:+ p +:+ newline); Ret (level, [msg])
  | _ => Ret (DEBUG_IPC, cli_debug_ipc_help)
  end.

(** * Theorems *)

(** ** Lengths *)
Lemma pretty_N_go_length k : ∀ x s, (x < 10 ^ N.of_nat k)%N → (String.length (pretty_N_go x s) <= k + String.length s)%nat.
Proof.
  induction k as [|k IH]; intros x s Hx; destruct (decide (0 < x)%N) as [Hp|Hp].
  - simpl in Hx. lia.
  - replace x with 0%N by lia. by rewrite pretty_N_go_0.
  - rewrite pretty_N_go_step by done. etrans; [apply IH|simpl; lia].
    apply N.Div0.div_lt_upper_bound. rewrite Nat2N.inj_succ, N.pow_succ_r' in Hx. lia.
  - replace x with 0%N by lia. rewrite pretty_N_go_0. lia.
Qed.

Lemma pretty_N_go_long k : ∀ x s, (10 ^ N.of_nat k <= x)%N → (k + String.length s < String.length (pretty_N_go x s))%nat.
Proof.
  assert (H0 : ∀ n x s, (N.to_nat x < n)%nat → (String.length s <= String.length (pretty_N_go x s))%nat).
  { induction n as [|n IH]; intros x s Hn; [lia|]. destruct (decide (0 < x)%N) as [Hp|Hp].
    - rewrite pretty_N_go_step by done. etrans; [|apply IH]; [simpl; lia|].
      assert (x / 10 < x)%N by (by apply N.div_lt). lia.
    - replace x with 0%N by lia. by rewrite pretty_N_go_0. }
  induction k as [|k IH]; intros x s Hx.
  - simpl in Hx. rewrite pretty_N_go_step by lia. eapply Nat.lt_le_trans; [|eapply H0; apply Nat.lt_succ_diag_r]. simpl. lia.
  - rewrite Nat2N.inj_succ, N.pow_succ_r' in Hx. rewrite pretty_N_go_step by lia.
    eapply Nat.le_lt_trans; [|apply IH]; [simpl; lia|]. apply N.div_le_lower_bound; lia.
Qed.

Lemma pretty_short z k : 0 <= z < 10 ^ Z.of_nat k → (0 < k)%nat → (String.length (pretty z) <= k)%nat.
Proof.
  intros Hz Hk. destruct z as [|p|p]; [simpl; lia| |lia].
  change (pretty (Z.pos p)) with (pretty (N.pos p)). unfold pretty, pretty_N. rewrite decide_False by done.
  etrans; [apply (pretty_N_go_length k)|simpl; lia]. apply N2Z.inj_lt. rewrite N2Z.inj_pow. rewrite nat_N_Z. lia.
Qed.

Lemma pretty_long z k : 10 ^ Z.of_nat k <= z → (k < String.length (pretty z))%nat.
Proof.
  intros Hz. assert (0 < 10 ^ Z.of_nat k) by (apply Z.pow_pos_nonneg; lia). destruct z as [|p|p]; [lia| |lia].
  change (pretty (Z.pos p)) with (pretty (N.pos p)). unfold pretty, pretty_N. rewrite decide_False by done.
  eapply Nat.le_lt_trans; [|apply (pretty_N_go_long k)]; [simpl; lia|].
  apply N2Z.inj_le. rewrite N2Z.inj_pow, nat_N_Z. lia.
Qed.

Lemma length_spaces n : String.length (spaces n) = n.
Proof. induction n; simpl; congruence. Qed.

Lemma length_left n t : String.length (left n t) = Nat.max n (String.length t).
Proof. unfold left. rewrite length_cat, length_spaces. lia. Qed.

Lemma sprintf_Ret n t : Z.of_nat (String.length t) < n → sprintf n t = Ret t.
Proof. intros H. unfold sprintf. by rewrite (proj2 (Z.ltb_lt _ _) H). Qed.

Lemma sprintf_Undef n t : n <= Z.of_nat (String.length t) → sprintf n t = Undef.
Proof. intros H. unfold sprintf. by rewrite (proj2 (Z.ltb_ge _ _) H). Qed.

(** ** Workers *)
Definition rate_fits (n v : Z) : bool := Z.of_nat (String.length (bytestostringbps v)) <? n.

Lemma sprintf_rate n v : sprintf n (bytestostringbps v) = if rate_fits n v then Ret (bytestostringbps v) else Undef.
Proof. done. Qed.

Definition rate_text (v : Z) : string := "| " +:+ left 11 (bytestostringbps v).
Definition pps_text (v : Z) : string := "| " +:+ left 6 (pretty v).

Lemma length_rate_text v : rate_fits 11 v = true → String.length (rate_text v) = 13%nat.
Proof. intros E. unfold rate_fits in E. unfold rate_text. rewrite length_cat, length_left. simpl. lia. Qed.

Lemma rate_column_spec v : rate_column v = if rate_fits 11 v then Ret (rate_text v) else Undef.
Proof.
  unfold rate_column. rewrite sprintf_rate. destruct (rate_fits 11 v) eqn:E; [|done]. cbn [mbind outcome_bind].
  apply sprintf_Ret. fold (rate_text v). rewrite length_rate_text by done. lia.
Qed.

Lemma pps_column_spec v : 0 <= v < 1000000 → pps_column v = Ret (pps_text v) ∧ String.length (pps_text v) = 8%nat.
Proof.
  intros Hv. pose proof (pretty_short v 6 Hv ltac:(lia)). unfold pps_column, pps_text.
  assert (E : String.length ("| " +:+ left 6 (pretty v)) = 8%nat) by (rewrite length_cat, length_left; simpl; lia).
  split; [|done]. apply sprintf_Ret. rewrite E. lia.
Qed.

Definition worker_fits (w : workercounters * workercounters) : bool :=
  rate_fits 11 (m_rate (w_bytesin w.1)) && rate_fits 11 (m_rate (w_bytesout w.1))
  && rate_fits 11 (m_rate (w_bytesin w.2)) && rate_fits 11 (m_rate (w_bytesout w.2)).

Definition worker_text (i : nat) (w : workercounters * workercounters) : string :=
  ("|    " +:+ left 5 (pretty (Z.of_nat i))) +:+ pps_text (m_rate (w_packets w.1))
  +:+ rate_text (m_rate (w_bytesin w.1)) +:+ rate_text (m_rate (w_bytesout w.1))
  +:+ pps_text (m_rate (w_packets w.2)) +:+ rate_text (m_rate (w_bytesin w.2))
  +:+ rate_text (m_rate (w_bytesout w.2)) +:+ "|" +:+ newline.

Definition slow (w : workercounters * workercounters) : Prop :=
  0 <= m_rate (w_packets w.1) < 1000000 ∧ 0 <= m_rate (w_packets w.2) < 1000000.

Lemma worker_row_spec i w : Z.of_nat i < 100000 → slow w →
  worker_row i w = if worker_fits w then Ret (worker_text i w) else Undef.
Proof.
  intros Hi [H1 H2]. unfold worker_row, worker_fits.
  destruct (pps_column_spec _ H1) as [-> L2], (pps_column_spec _ H2) as [-> L5]. rewrite !rate_column_spec.
  pose proof (pretty_short (Z.of_nat i) 5 ltac:(change (10 ^ Z.of_nat 5) with 100000; lia) ltac:(lia)) as Hp.
  assert (L1 : String.length ("|    " +:+ left 5 (pretty (Z.of_nat i))) = 10%nat) by (rewrite length_cat, length_left; simpl; lia).
  unfold worker_text. set (col1 := "|    " +:+ left 5 (pretty (Z.of_nat i))) in *. clearbody col1.
  rewrite sprintf_Ret by (rewrite L1; lia). cbn [mbind outcome_bind].
  destruct (rate_fits 11 (m_rate (w_bytesin w.1))) eqn:E3; cbn [mbind outcome_bind andb]; [|done].
  destruct (rate_fits 11 (m_rate (w_bytesout w.1))) eqn:E4; cbn [mbind outcome_bind andb]; [|done].
  destruct (rate_fits 11 (m_rate (w_bytesin w.2))) eqn:E6; cbn [mbind outcome_bind andb]; [|done].
  destruct (rate_fits 11 (m_rate (w_bytesout w.2))) eqn:E7; cbn [mbind outcome_bind andb]; [|done].
  apply length_rate_text in E3, E4, E6, E7. apply sprintf_Ret.
  rewrite !(length_cat col1), !(length_cat (pps_text _)), !(length_cat (rate_text _)), !(length_cat (pps_text _)), !(length_cat (rate_text _)).
  rewrite L1, L2, L5, E3, E4, E6, E7. simpl. lia.
Qed.

Lemma worker_rows_spec ws : ∀ i, Z.of_nat i + Z.of_nat (length ws) < 100000 → Forall slow ws →
  worker_rows i ws = if forallb worker_fits ws then Ret (imap (λ k, worker_text (i + k)) ws) else Undef.
Proof.
  induction ws as [|w ws IH]; intros i Hi Hs; [done|]. apply Forall_cons in Hs as [Hw Hs]. cbn [length] in Hi.
  cbn [worker_rows forallb]. rewrite worker_row_spec by (done || lia).
  destruct (worker_fits w); cbn [mbind outcome_bind andb]; [|done]. rewrite IH by (done || lia).
  destruct (forallb worker_fits ws); cbn [mbind outcome_bind]; [|done]. rewrite imap_cons, Nat.add_0_r. do 2 f_equal.
  apply imap_ext. intros k x _. simpl. by rewrite Nat.add_succ_r.
Qed.

(** The four totals, in the order they are formatted. *)
Definition totals (ws : list (workercounters * workercounters)) : list Z :=
  [ total (λ w, w_bytesin w.1) ws; total (λ w, w_bytesout w.1) ws;
    total (λ w, w_bytesin w.2) ws; total (λ w, w_bytesout w.2) ws ].

Definition total_text (ws : list (workercounters * workercounters)) : string :=
  "|  total  | " +:+ left 6 (pretty (total (λ w, w_packets w.1) ws))
  +:+ "| " +:+ left 11 (bytestostringbps (total (λ w, w_bytesin w.1) ws))
  +:+ "| " +:+ left 11 (bytestostringbps (total (λ w, w_bytesout w.1) ws))
  +:+ "| " +:+ left 6 (pretty (total (λ w, w_packets w.2) ws))
  +:+ "| " +:+ left 11 (bytestostringbps (total (λ w, w_bytesin w.2) ws))
  +:+ "| " +:+ left 11 (bytestostringbps (total (λ w, w_bytesout w.2) ws)) +:+ "|" +:+ newline.

Lemma length_total_text ws : forallb (rate_fits 9) (totals ws) = true → Z.of_nat (String.length (total_text ws)) < 1024.
Proof.
  unfold totals. cbn [forallb]. rewrite !andb_true_iff. unfold rate_fits. rewrite !Z.ltb_lt. intros (H1 & H2 & H3 & H4 & _).
  assert (Hp : ∀ f, (String.length (pretty (total f ws)) <= 10)%nat).
  { intros f. apply pretty_short; [|lia]. pose proof (u32_bound (foldr Z.add 0 ((λ w, m_rate (f w)) <$> ws))).
    change (10 ^ Z.of_nat 10) with 10000000000. unfold total. lia. }
  pose proof (Hp (λ w, w_packets w.1)) as P1. pose proof (Hp (λ w, w_packets w.2)) as P2. clear Hp.
  unfold total_text. rewrite !length_cat, !length_left. simpl String.length at 1. 
  change (String.length "| ") with 2%nat. change (String.length "|") with 1%nat. change (String.length newline) with 1%nat. lia.
Qed.

(** [show workers].  For less than 10^6 packets per second, the table (one row per worker,
    then the totals) is sent exactly when every rate is at most 10 characters long and every
    total at most 8; otherwise an array on the stack is overrun.  That happens for every
    total from 10 Kbit/s to 1 Mbit/s. *)
Theorem cli_show_workers_fits ws : Z.of_nat (length ws) < 100000 → Forall slow ws →
  cli_show_workers ws
  = (if forallb worker_fits ws && forallb (rate_fits 9) (totals ws)
     then Ret (worker_header ++ imap worker_text ws ++ [worker_rule; total_text ws; worker_rule])
     else Undef)
  ∧ ∀ t, t ∈ totals ws → 1280 <= t < 131072 → cli_show_workers ws = Undef.
Proof.
  intros Hn Hs.
  assert (E : cli_show_workers ws
    = if forallb worker_fits ws && forallb (rate_fits 9) (totals ws)
      then Ret (worker_header ++ imap worker_text ws ++ [worker_rule; total_text ws; worker_rule]) else Undef).
  { unfold cli_show_workers. rewrite worker_rows_spec by (done || (simpl; lia)).
    destruct (forallb worker_fits ws); cbn [mbind outcome_bind andb]; [|done].
    pose proof (length_total_text ws) as Hl. unfold totals in *. cbn [forallb] in *. rewrite !sprintf_rate.
    destruct (rate_fits 9 (total (λ w, w_bytesin w.1) ws)); cbn [mbind outcome_bind andb] in *; [|done].
    destruct (rate_fits 9 (total (λ w, w_bytesout w.1) ws)); cbn [mbind outcome_bind andb] in *; [|done].
    destruct (rate_fits 9 (total (λ w, w_bytesin w.2) ws)); cbn [mbind outcome_bind andb] in *; [|done].
    destruct (rate_fits 9 (total (λ w, w_bytesout w.2) ws)); cbn [mbind outcome_bind andb] in *; [|done].
    fold (total_text ws). rewrite sprintf_Ret by (by apply Hl). done. }
  split; [done|]. intros t Ht Hr. rewrite E. assert (F : rate_fits 9 t = false).
  { unfold rate_fits. apply Z.ltb_ge. unfold bytestostringbps.
    assert (Es : s32 (u32 (t * 8)) = 8 * t).
    { rewrite u32_small by lia. unfold s32. destruct (Z.ltb_spec (t * 8) (2 ^ 31)); lia. }
    rewrite Es. destruct (Z.ltb_spec (8 * t) 1024); [lia|].
    assert (Hk : 10 <= 8 * t / 1024 < 1024) by (Z.to_euclidean_division_equations; lia).
    destruct (Z.leb_spec 1024 (8 * t / 1024 / 1024)); [Z.to_euclidean_division_equations; lia|].
    destruct (Z.leb_spec 1024 (8 * t / 1024)); [lia|].
    pose proof (pretty_long (8 * t / 1024) 1 ltac:(simpl; lia)) as L1.
    assert (Hd : 0 <= 8 * t mod 1024 / 10) by (Z.to_euclidean_division_equations; lia).
    assert (L2 : (1 <= String.length (pretty (8 * t mod 1024 / 10)%Z))%nat).
    { destruct (decide (8 * t mod 1024 / 10 = 0)) as [->|]; [simpl; lia|].
      pose proof (pretty_long (8 * t mod 1024 / 10) 0 ltac:(simpl; lia)). lia. }
    rewrite !length_cat. simpl. lia. }
  assert (F2 : forallb (rate_fits 9) (totals ws) = false).
  { apply not_true_is_false. intros H. rewrite forallb_forall in H. specialize (H t). rewrite F in H.
    discriminate H. by apply list_elem_of_In. }
  by rewrite F2, andb_false_r.
Qed.

(** One worker receiving 1280 bytes in each second. *)
Definition rate_metric (v : Z) : metric := Metric 0 0 v.
Definition idle_counters : workercounters := WorkerCounters (rate_metric 0) (rate_metric 0) (rate_metric 0).

Lemma cli_show_workers_fits_witness :
  cli_show_workers [(WorkerCounters (rate_metric 1) (rate_metric 1280) (rate_metric 60), idle_counters)] = Undef.
Proof.
  refine (proj2 (cli_show_workers_fits [(WorkerCounters (rate_metric 1) (rate_metric 1280) (rate_metric 60), idle_counters)]
    _ _) 1280 _ _).
  - reflexivity.
  - constructor; [|constructor]. split; simpl; lia.
  - vm_compute. left.
  - lia.
Defined.

(** ** Sessions *)
Lemma session_line_overruns i row : session_line i row = Undef.
Proof.
  destruct row as [[[[c cp] v] vp] acc]. unfold session_line. rewrite (sprintf_Undef 10 ("|  " +:+ left 7 (pretty i))); [done|].
  rewrite length_cat, length_left. simpl. lia.
Qed.

(** A session [show sessions] has a line for. *)
Definition displayed (d : session) : Prop := is_Some (client d) ∧ is_Some (server d).

Lemma show_bucket_spec h Q me prv l fuel : seg h Q prv l None → (length l < fuel)%nat →
  ∃ rows, show_bucket fuel h me (first l None) = Ret rows
    ∧ (rows = [] ↔ ∀ x d, x ∈ l → payload h !! x = Some d → ¬ displayed d).
Proof.
  revert prv fuel. induction l as [|x l IH]; intros prv [|fuel] Hs Hf; cbn [length] in Hf; try lia.
  { exists []. split; [done|]. split; [|done]. intros _ x d Hx. by apply not_elem_of_nil in Hx. }
  destruct Hs as (d & Hx & _ & Hs). destruct (IH (Some x) fuel Hs ltac:(lia)) as (rows & E & Hr).
  cbn [show_bucket first]. unfold load, deref. rewrite Hx. cbn [mbind outcome_bind n_next n_data]. rewrite E. cbn [mbind outcome_bind].
  assert (Hpx : payload h !! x = Some d) by (by rewrite payload_lookup, Hx).
  eexists. split; [done|]. unfold show_row, displayed.
  destruct (client d) as [c|] eqn:Ec; [destruct (server d) as [v|] eqn:Ev|].
  - split; [done|]. intros H. destruct (H x d ltac:(left) Hpx). rewrite Ec, Ev. split; by eexists.
  - rewrite Hr. split; intros H y e Hy He; [|by apply (H y e); [right|]].
    apply elem_of_cons in Hy as [->|Hy]; [|by apply (H y)]. rewrite Hpx in He. injection He as <-. rewrite Ev. intros [_ []]. done.
  - rewrite Hr. split; intros H y e Hy He; [|by apply (H y e); [right|]].
    apply elem_of_cons in Hy as [->|Hy]; [|by apply (H y)]. rewrite Hpx in He. injection He as <-. rewrite Ec. intros [[] _]. done.
Qed.

Lemma buckets_loop_spec me s B n : table_inv s B → ∀ i,
  ((∀ b x d, i <= b < i + Z.of_nat n → x ∈ B b → live s !! x = Some d → ¬ displayed d) → buckets_loop n me s i = Ret []) ∧
  ((∃ b x d, i <= b < i + Z.of_nat n ∧ x ∈ B b ∧ live s !! x = Some d ∧ displayed d) → buckets_loop n me s i = Undef).
Proof.
  intros Hi. induction n as [|n IH]; intros i.
  { split; [done|]. intros (b & x & d & Hb & _). lia. }
  pose proof (inv_dll _ _ Hi i) as Hd. pose proof (dll_length _ _ _ _ Hd). destruct Hd as (_ & Hn & _ & Hs).
  destruct (show_bucket_spec (sheap s) _ me None (B i) (list_fuel (sheap s)) Hs ltac:(unfold list_fuel; lia)) as (rows & E & Hr).
  cbn [buckets_loop]. rewrite Hn, E. cbn [mbind outcome_bind]. destruct (IH (i + 1)) as [IH1 IH2]. split.
  - intros H0. assert (rows = []) as ->.
    { apply Hr. intros x d Hx Hl. apply (H0 i x d); [lia|done|done]. }
    cbn [session_lines mbind outcome_bind]. rewrite IH1; [done|]. intros b x d Hb. apply H0. lia.
  - intros (b & x & d & Hb & Hx & Hl & Hdisp). destruct rows as [|row rows].
    + cbn [session_lines mbind outcome_bind]. rewrite IH2; [done|].
      exists b, x, d. split_and!; [|lia|done..]. destruct (decide (b = i)) as [->|]; [|lia].
      by destruct (proj1 Hr eq_refl x d Hx Hl).
    + cbn [session_lines]. by rewrite session_line_overruns.
Qed.

(** [show sessions].  With no session whose client and server are known, the header alone is
    sent.  As soon as the table holds one such session the command overruns the array of the
    first column, whose text is ten characters and whose array holds nine. *)
Theorem cli_show_sessionss_overruns me s : table_ok s →
  ((∀ x d, live s !! x = Some d → ¬ displayed d) → cli_show_sessionss me s = Ret session_header) ∧
  ((∃ x d, live s !! x = Some d ∧ displayed d) → cli_show_sessionss me s = Undef).
Proof.
  intros (B & Hi & _). unfold cli_show_sessionss.
  destruct (buckets_loop_spec me s B (Z.to_nat SESSIONBUCKETS) Hi 0) as [H1 H2]. split.
  - intros H. rewrite H1; [done|]. intros b x d _ _. apply H.
  - intros (x & d & Hl & Hd). rewrite H2; [done|].
    pose proof Hl as (n & Hn & Ed)%live_Some. pose proof (inv_listed _ _ Hi x n Hn) as Hx. rewrite Ed in Hx.
    destruct (dll_elem _ _ _ _ _ (inv_dll _ _ Hi (s_head d)) Hx) as (n' & Hn' & Hb & Hbk & _).
    rewrite Hn in Hn'. injection Hn' as <-. rewrite Ed in Hbk.
    exists (s_head d), x, d. split; [|done].
    change (0 + Z.of_nat (Z.to_nat SESSIONBUCKETS)) with SESSIONBUCKETS. rewrite <-Hbk. apply bucket_of_range.
Qed.

Lemma cli_show_sessionss_overruns_witness :
  cli_show_sessionss [1; 2; 3; 4] one_session = Ret session_header.
Proof.
  refine (proj1 (cli_show_sessionss_overruns [1; 2; 3; 4] one_session one_session_ok) _).
  intros x d H. assert (E : live one_session = {[1%positive := new_session (bucket_of 20 80 10 4000) 0 20 80 10 4000]}) by (vm_compute; reflexivity).
  rewrite E in H. apply lookup_singleton_Some in H as [_ <-]. intros [[c Hc] _]. discriminate Hc.
Defined.
