(* ===== verification/Driver.v ===== *)
(** * The heartbeat between daemon and kernel module
    (opennopdrv/module.c, opennopdrv/opennop_netlink.h,
    opennopd/subsystems/healthagent.c, opennopd/signals.c)

    The module queues TCP packets to the daemon only while it believes the
    daemon is up.  The daemon's health agent sends "UP" or "DOWN" every few
    seconds; a kernel timer marks the daemon down when heartbeats stop. *)
From S2P Require Import Prelude Packet.

(** ** The daemon's service state (include/opennopd.h) *)
Definition STOPPED : Z := -1.
Definition STOPPING : Z := 0.
Definition RUNNING : Z := 1.

Inductive signal := SIGHUP | SIGTERM | SIGQUIT | SIGOTHER.

(** [signal_handler]: the new [servicestate] and whether it started the shutdown
    ([fetcher_graceful_exit], [shutdown_workers]). *)
Definition signal_handler (servicestate : Z) (sig : signal) : Z * bool :=
  match sig with
  | SIGTERM =>
      if servicestate =? RUNNING then (STOPPING, true)
      else if servicestate =? STOPPING then (STOPPED, false)
      else (STOPPED, false)
  | _ => (servicestate, false)
  end.

(** ** Heartbeat messages *)
Inductive heartbeat := HB_UP | HB_DOWN | HB_OTHER.

(** The text [send_hb] puts in the message. *)
Definition send_hb (servicestate : Z) : heartbeat :=
  if RUNNING <=? servicestate then HB_UP else HB_DOWN.

(** Whether [healthagent_function] goes on sending. *)
Definition healthagent_runs (servicestate : Z) : bool := STOPPING <=? servicestate.
Definition healthtimer : Z := 5.

(** ** The kernel module *)
Inductive daemon_state := DAEMON_DOWN | DAEMON_UP.
#[export] Instance daemon_state_eq_dec : EqDecision daemon_state.
Proof. solve_decision. Defined.

Definition HBINTERVAL : Z := 5.
Definition hbintervals : Z := 3.

Record module_state := Module_ { daemonstate : daemon_state; tv_lasthb : Z }.

Definition initial_module : module_state := Module_ DAEMON_DOWN 0.

(** [tv_now] is the wall clock in seconds. *)
Definition daemonmonitor_function (m : module_state) (tv_now : Z) : module_state :=
  let timespan := hbintervals * HBINTERVAL in
  Module_ (if tv_lasthb m <=? tv_now - timespan then DAEMON_DOWN else DAEMON_UP) (tv_lasthb m).

(** [None] is a message without the attribute. *)
Definition opennop_nl_cmd_hb (m : module_state) (tv_now : Z) (msg : option heartbeat) : module_state :=
  match msg with
  | Some HB_UP => Module_ DAEMON_UP tv_now
  | Some HB_DOWN => Module_ DAEMON_DOWN (tv_lasthb m)
  | _ => m
  end.

(** The netfilter hook; [host] is [pkt_type == PACKET_HOST]. *)
Record skb := Skb { pkt_host : bool; eth_ip : bool; ip_proto : Z }.

Definition queue_function (m : module_state) (s : option skb) : nf_verdict :=
  match s with
  | Some s =>
      if pkt_host s && eth_ip s then
        if ip_proto s =? IPPROTO_TCP then
          if bool_decide (daemonstate m = DAEMON_UP) then NF_QUEUE else NF_ACCEPT
        else NF_ACCEPT
      else NF_ACCEPT
  | None => NF_ACCEPT
  end.

(** ** What happens to the module over time *)
Inductive module_event :=
| Heartbeat (msg : option heartbeat)
| MonitorTick.

Definition module_step (m : module_state) (e : Z * module_event) : module_state :=
  match e with
  | (t, Heartbeat msg) => opennop_nl_cmd_hb m t msg
  | (t, MonitorTick) => daemonmonitor_function m t
  end.

Definition module_run (m : module_state) (es : list (Z * module_event)) : module_state :=
  foldl module_step m es.

(** * Facts *)

(** Events that carry no "UP" heartbeat. *)
Definition no_up (es : list (Z * module_event)) : Prop :=
  Forall (λ e, e.2 ≠ Heartbeat (Some HB_UP)) es.

Lemma run_app m es es' : module_run m (es ++ es') = module_run (module_run m es) es'.
Proof. apply foldl_app. Qed.

Lemma no_up_lasthb es m : no_up es → tv_lasthb (module_run m es) = tv_lasthb m.
Proof.
  intros H. revert m. induction H as [|[t e] es He _ IH]; intros m; [done|].
  simpl in *. rewrite IH. destruct e as [[[]|]|]; done.
Qed.

Lemma queue_iff_up m s :
  queue_function m s = NF_QUEUE ↔
  daemonstate m = DAEMON_UP ∧ ∃ k, s = Some k ∧ pkt_host k = true ∧ eth_ip k = true ∧ ip_proto k = IPPROTO_TCP.
Proof.
  unfold queue_function. destruct s as [[ho et pr]|]; simpl; [|naive_solver].
  destruct (ho && et) eqn:E1; [|split; [done|]; intros (_ & k & [= <-] & ? & ? & _); simpl in *; by subst].
  unbool. destruct (Z.eqb_spec pr IPPROTO_TCP) as [->|];
    [|split; [done|]; intros (_ & k & [= <-] & _ & _ & ?); done].
  case_bool_decide; naive_solver.
Qed.

(** * Properties *)

(** Fail-open: the module hands a packet to the daemon only while it believes
    the daemon is up, and a daemon that sends no "UP" heartbeat for 15 seconds
    (crashed, stopped, or only sending "DOWN") is noticed by the first monitor tick
    after that: from it to the next "UP" no packet is queued. *)
Theorem silent_daemon_bypassed m es t es' :
  no_up es → no_up es' →
  tv_lasthb m + hbintervals * HBINTERVAL <= t →
  Forall (λ e, t <= e.1) es' →
  ∀ s, queue_function (module_run m (es ++ (t, MonitorTick) :: es')) s = NF_ACCEPT.
Proof.
  intros H1 H2 Ht Hs s.
  assert (Hd : daemonstate (module_run m (es ++ (t, MonitorTick) :: es')) = DAEMON_DOWN).
  { rewrite run_app. simpl. set (m1 := daemonmonitor_function (module_run m es) t).
    assert (Hm1 : daemonstate m1 = DAEMON_DOWN ∧ tv_lasthb m1 = tv_lasthb m).
    { unfold m1, daemonmonitor_function. simpl. rewrite (no_up_lasthb es m H1).
      replace (tv_lasthb m <=? t - hbintervals * HBINTERVAL) with true; [done|].
      symmetry. apply Z.leb_le. lia. }
    destruct Hm1 as [Hd1 Hl1]. revert Hd1 Hl1. generalize m1. clear m1.
    induction Hs as [|[t' e] es' Ht' _ IH]; intros m1 Hd1 Hl1; [done|].
    apply Forall_cons in H2 as [He H2]. simpl in *. apply IH; [done|..].
    - destruct e as [[[]|]|]; try done; simpl. rewrite Hl1.
      replace (tv_lasthb m <=? t' - hbintervals * HBINTERVAL) with true; [done|].
      symmetry. apply Z.leb_le. lia.
    - destruct e as [[[]|]|]; done. }
  destruct (queue_function (module_run m _) s) eqn:E; [|done|].
  - unfold queue_function in E. repeat case_match; done.
  - apply queue_iff_up in E as [E _]. congruence.
Qed.

Lemma silent_daemon_bypassed_witness :
  queue_function (module_run (Module_ DAEMON_UP 100)
    ([(105, Heartbeat (Some HB_DOWN))] ++ (115, MonitorTick) :: [(120, Heartbeat (Some HB_DOWN))]))
    (Some (Skb true true 6)) = NF_ACCEPT.
Proof.
  apply (silent_daemon_bypassed (Module_ DAEMON_UP 100) [(105, Heartbeat (Some HB_DOWN))] 115
    [(120, Heartbeat (Some HB_DOWN))]); repeat constructor; done || lia.
Defined.

(** An "UP" heartbeat makes the module queue TCP packets for this host at
    once, and a monitor tick keeps it so as long as a heartbeat came within the
    last 15 seconds. *)
Theorem live_daemon_used m t t' :
  t' < t + hbintervals * HBINTERVAL →
  let m1 := module_step m (t, Heartbeat (Some HB_UP)) in
  let m2 := module_step m1 (t', MonitorTick) in
  ∀ s, (queue_function m1 s = NF_QUEUE ↔
          ∃ k, s = Some k ∧ pkt_host k = true ∧ eth_ip k = true ∧ ip_proto k = IPPROTO_TCP)
    ∧ queue_function m2 s = queue_function m1 s.
Proof.
  intros Ht m1 m2 s. assert (E : m2 = m1).
  { unfold m2, m1. simpl. unfold daemonmonitor_function. simpl.
    replace (t <=? t' - hbintervals * HBINTERVAL) with false; [done|].
    symmetry. apply Z.leb_gt. lia. }
  rewrite E. split; [|done]. rewrite queue_iff_up. naive_solver.
Qed.

Lemma live_daemon_used_witness :
  let m1 := module_step initial_module (100, Heartbeat (Some HB_UP)) in
  let m2 := module_step m1 (110, MonitorTick) in
  let s := Some (Skb true true IPPROTO_TCP) in
  (queue_function m1 s = NF_QUEUE ↔
     ∃ k, s = Some k ∧ pkt_host k = true ∧ eth_ip k = true ∧ ip_proto k = IPPROTO_TCP)
  ∧ queue_function m2 s = queue_function m1 s.
Proof.
  apply (live_daemon_used initial_module 100 110 ltac:(done) (Some (Skb true true IPPROTO_TCP))).
Defined.

(** A "DOWN" heartbeat is undone by the next monitor tick when the last "UP"
    is less than 15 seconds old: after a SIGTERM the health agent reports "DOWN",
    but the module then queues packets again to the daemon that is stopping. *)
Theorem down_heartbeat_undone m t t' :
  tv_lasthb m <= t → t' < tv_lasthb m + hbintervals * HBINTERVAL →
  let '(st, _) := signal_handler RUNNING SIGTERM in
  let m1 := module_step m (t, Heartbeat (Some (send_hb st))) in
  (∀ s, queue_function m1 s = NF_ACCEPT)
  ∧ queue_function (module_step m1 (t', MonitorTick)) (Some (Skb true true IPPROTO_TCP)) = NF_QUEUE.
Proof.
  intros H1 H2. simpl. split.
  - intros s. destruct (queue_function _ s) eqn:E; [|done|].
    + unfold queue_function in E. repeat case_match; done.
    + apply queue_iff_up in E as [E _]. done.
  - unfold daemonmonitor_function. simpl.
    replace (tv_lasthb m <=? t' - hbintervals * HBINTERVAL) with false; [done|].
    symmetry. apply Z.leb_gt. lia.
Qed.

Lemma down_heartbeat_undone_witness :
  let '(st, _) := signal_handler RUNNING SIGTERM in
  let m1 := module_step (Module_ DAEMON_UP 100) (103, Heartbeat (Some (send_hb st))) in
  (∀ s, queue_function m1 s = NF_ACCEPT)
  ∧ queue_function (module_step m1 (110, MonitorTick)) (Some (Skb true true IPPROTO_TCP)) = NF_QUEUE.
Proof. apply (down_heartbeat_undone (Module_ DAEMON_UP 100) 103 110); [simpl; lia|done]. Defined.
