(* ===== verification/MemoryManager.v ===== *)
(** * The thread of the memory manager (opennopd/subsystems/memorymanager.c)

    Its start, which empties the count of the pool that other threads already use, and the
    locks of its loop.  What an iteration does to the pool is [Queue.memorymanager_step]. *)
From S2P Require Import Prelude Process Dll Driver Queue.
#[local] Open Scope Z_scope.
#[local] Open Scope list_scope.

(** ** The start *)

(** [qlen = 0]; the links stay. *)
Definition reset_count (q : dhead) : dhead := DHead (h_next q) (h_prev q) 0.

(** [staging] is what stands on the stack, [answers] the answers for [initialfreepacketbuffers] buffers. *)
Definition memorymanager_start (h : heap packet) (staging : dhead) (pl : pool) (answers : list (option loc))
    : outcome (heap packet * dhead * pool) :=
  memorymanager_step h (reset_count staging) (Pool (reset_count (freepacketbuffers pl)) 0) answers.

(** ** The locks *)
Inductive mutex := mylock | pool_lock | staging_lock.
#[export] Instance mutex_eq_dec : EqDecision mutex.
Proof. solve_decision. Defined.
#[export] Instance mutex_countable : Countable mutex.
Proof.
  refine (inj_countable' (λ m, match m with mylock => 0%nat | pool_lock => 1%nat | staging_lock => 2%nat end)
    (λ n, match n with 0%nat => mylock | 1%nat => pool_lock | _ => staging_lock end) _).
  by intros [].
Defined.

Inductive mm_call :=
| Lock (m : mutex) | Unlock (m : mutex)
| Cond_wait                          (* on [mysignal] with [mylock] *)
| Get_servicestate
| Pool_qlen
| Reset_counts                       (* an assignment of the start *)
| Allocatefreepacketbuffers (n : Z)
| Move_queued_packets.

(** The mutexes the thread holds; whether it gave back one it did not hold, or took one it held. *)
Record locks := Locks { held : gset mutex; mistaken : bool }.

Definition mm_answers (c : mm_call) (w : locks) (r : Z) (w' : locks) : Prop :=
  match c with
  | Lock m => w' = Locks ({[m]} ∪ held w) (mistaken w || bool_decide (m ∈ held w))
  | Unlock m => w' = Locks (held w ∖ {[m]}) (mistaken w || negb (bool_decide (m ∈ held w)))
  | Cond_wait => w' = Locks (held w) (mistaken w || negb (bool_decide (mylock ∈ held w)))
  | _ => w' = w
  end.

Class Locks_documented (s : System mm_call locks) := locks_keep c w r w' : step (System := s) c w r w' → mm_answers c w r w'.

(** The three blocks that initialise a count under its lock. *)
Definition locked_reset (m : mutex) : process mm_call Z :=
  _ ← call (Lock m); _ ← call Reset_counts; call (Unlock m).

(** [allocatefreepacketbuffers] and [move_queued_packets] take the locks of the queues themselves and give them back. *)
Definition memorymanager_init : process mm_call Z :=
  _ ← locked_reset mylock;
  _ ← locked_reset pool_lock;
  _ ← locked_reset staging_lock;
  _ ← call (Allocatefreepacketbuffers initialfreepacketbuffers);
  _ ← call (Lock mylock);
  _ ← call Move_queued_packets;
  call (Unlock mylock).

(** One iteration of the loop. *)
Definition memorymanager_iteration : process mm_call Z :=
  _ ← call (Lock pool_lock);
  qlen ← call Pool_qlen;
  _ ← (if minfreepacketbuffers <=? qlen
       then _ ← call (Unlock pool_lock); _ ← call (Lock mylock); call Cond_wait
       else call (Unlock pool_lock));
  _ ← call (Unlock mylock);
  _ ← call (Allocatefreepacketbuffers packetbufferstoallocate);
  _ ← call (Lock mylock);
  _ ← call Move_queued_packets;
  call (Unlock mylock).

Fixpoint memorymanager_loop (n : nat) : process mm_call bool :=
  match n with
  | O => mret false
  | S n =>
      servicestate ← call Get_servicestate;
      if STOPPING <=? servicestate then _ ← memorymanager_iteration; memorymanager_loop n else mret true
  end.

(** Whether the thread has returned after [n] iterations. *)
Definition memorymanager_function (n : nat) : process mm_call bool :=
  _ ← memorymanager_init; memorymanager_loop n.

(** * Theorems *)

(** ** The pool *)

(** What stands on the stack does not matter. *)
Lemma allocate_reset h q xs : xs ≠ [] →
  allocatefreepacketbuffers h (reset_count q) (Some <$> xs) = allocatefreepacketbuffers h empty_head (Some <$> xs).
Proof.
  destruct xs as [|x xs]; [done|]. intros _. rewrite fmap_cons. cbn [allocatefreepacketbuffers]. by destruct (newpacket h (Some x)) as [[h1 y]| |].
Qed.

(** Moving to a queue whose count was reset: everything is linked, only what was moved is counted. *)
Lemma move_reset h q1 q2 l1 l2 :
  fifo h q1 l1 → fifo h q2 l2 → (∀ x, x ∈ l1 → x ∉ l2) → (l1 = [] → l2 = []) →
  Z.of_nat (length l1 + length l2) < 2 ^ 32 →
  ∃ h' q', fifo h' q' (l2 ++ l1) ∧ relinked h h' (l2 ++ l1)
    ∧ move_queued_packets h q1 (reset_count q2)
      = Ret (h', empty_head, DHead (h_next q') (h_prev q') (Z.of_nat (length l1)), Z.of_nat (length l1)).
Proof.
  intros H1 H2 Hd Hne Hl. destruct (move_fifo h q1 q2 l1 l2 H1 H2 Hd Hne Hl) as (h' & q' & E & Hf & Hr).
  exists h', q'. split_and!; [done..|]. pose proof H1 as (_ & _ & _ & Hlen & _).
  unfold move_queued_packets in *. cbn [h_next h_prev h_len reset_count]. rewrite Hlen in *.
  destruct (h_next q2) as [x|]; [|by injection E as <- <-].
  destruct (store_prev h _ _) as [h1| |]; [|done..]. cbn [mbind outcome_bind] in E |- *.
  destruct (store_next h1 _ _) as [h2| |]; [|done..]. cbn [mbind outcome_bind] in E |- *. injection E as <- <-. cbn [h_next h_prev].
  by rewrite u32_small by lia.
Qed.

(** The start of the memory manager.  It puts its buffers behind the ones that other threads have already given
    back to the pool, but counts only its own: the count of the pool and the count of buffers
    are those of the new buffers, and the old ones are linked and not counted for ever. *)
Theorem memorymanager_start_uncounts h staging pl l xs :
  fifo h (freepacketbuffers pl) l → NoDup xs → xs ≠ [] → (∀ x, x ∈ xs → h !! x = None) →
  Z.of_nat (length l + length xs) < 2 ^ 32 →
  ∃ h' q, memorymanager_start h staging pl (Some <$> xs)
      = Ret (h', empty_head, Pool (DHead (h_next q) (h_prev q) (Z.of_nat (length xs))) (Z.of_nat (length xs)))
    ∧ fifo h' q (l ++ xs).
Proof.
  intros Hf HN Hne Hfr Hlen. unfold memorymanager_start, memorymanager_step. rewrite allocate_reset by done.
  destruct (allocate_spec xs h empty_head [] (fifo_nil h) HN Hfr) as (h1 & q1 & E & Hf1 & Hp & Ho); [simpl; lia|].
  assert (Hd : ∀ x, x ∈ l → x ∉ xs).
  { intros x Hx Hxs. destruct Hf as (_ & _ & _ & _ & Hc). destruct (chain_elem _ _ _ Hc Hx) as [n Hn].
    by rewrite (Hfr x Hxs) in Hn. }
  assert (Hfl : fifo h1 (freepacketbuffers pl) l).
  { destruct Hf as (H1 & H2 & H3 & H4 & Hc). split_and!; [done..|].
    eapply chain_ext; [|done]. intros z Hz. apply Ho; [set_solver|by apply Hd]. }
  destruct (move_reset h1 q1 (freepacketbuffers pl) xs l) as (h2 & q2 & Hf2 & _ & E2); [done|done|set_solver|done|lia|].
  rewrite E. cbn [mbind outcome_bind freepacketbuffers allocatedpacketbuffers]. rewrite E2. cbn [mbind outcome_bind].
  rewrite Z.add_0_l, u32_small by lia. by eexists _, _.
Qed.

Lemma memorymanager_start_uncounts_witness :
  ∃ h' q, memorymanager_start two_buffers (DHead (Some 7%positive) None 99) (Pool (DHead (Some 1%positive) (Some 1%positive) 1) 5) [Some 3%positive; Some 4%positive]
      = Ret (h', empty_head, Pool (DHead (h_next q) (h_prev q) 2) 2)
    ∧ fifo h' q [1%positive; 3%positive; 4%positive].
Proof.
  apply (memorymanager_start_uncounts two_buffers (DHead (Some 7%positive) None 99) (Pool (DHead (Some 1%positive) (Some 1%positive) 1) 5) [1%positive] [3%positive; 4%positive]).
  - split_and!; [apply NoDup_singleton|done|done|done|cbn; by eauto].
  - repeat constructor; set_solver.
  - done.
  - intros x Hx. repeat (apply elem_of_cons in Hx as [->|Hx]); [done..|]. by apply not_elem_of_nil in Hx.
  - done.
Defined.

(** ** The locks *)
Section Locks.
Context `{!System mm_call locks} `{!Locks_documented _}.

Ltac lock_step :=
  let H := fresh "Hanswer" in cbn [wp mbind process_bind mret process_ret call]; intros ? ? H%locks_keep; cbn [mm_answers held mistaken] in H; subst.
Lemma init_locks w : held w = ∅ → wp memorymanager_init (λ _ w', w' = w) (λ _ _, False) w.
Proof.
  intros Hw. destruct w as [hs b]. cbn in Hw. subst hs. unfold memorymanager_init, locked_reset.
  repeat lock_step. destruct b; by vm_compute.
Qed.

Lemma iteration_locks w (low : bool) : held w = ∅ →
  (∀ w r w', step Pool_qlen w r w' → (r <? minfreepacketbuffers) = low) →
  wp memorymanager_iteration (λ _ w', w' = Locks ∅ (mistaken w || low)) (λ _ _, False) w.
Proof.
  intros Hw Hq. destruct w as [hs b]. cbn in Hw. subst hs. unfold memorymanager_iteration.
  lock_step. intros qlen w' Hs. pose proof (Hq _ _ _ Hs) as Hlow. apply locks_keep in Hs. cbn in Hs. subst w'.
  rewrite Z.leb_antisym, Hlow. destruct low; cbn [negb];
    repeat lock_step; destruct b; by vm_compute.
Qed.
End Locks.

(** The locks of the memory manager.  While the pool is full enough its thread gives back every lock it takes
    and nothing else, in every iteration; in an iteration that finds fewer than 500 buffers it
    unlocks [mylock] without holding it. *)
Theorem memorymanager_lock_discipline (s : System mm_call locks) n low : Locks_documented s →
  (∀ w r w', step (System := s) Pool_qlen w r w' → (r <? minfreepacketbuffers) = low) →
  wp (memorymanager_function n) (λ _ w', held w' = ∅ ∧ (low = false → mistaken w' = false)) (λ _ _, False) (Locks ∅ false)
  ∧ ∀ b, wp memorymanager_iteration (λ _ w', held w' = ∅ ∧ mistaken w' = b || low) (λ _ _, False) (Locks ∅ b).
Proof.
  intros Hs Hq. split.
  - unfold memorymanager_function. apply wp_bind. eapply wp_mono; [by apply init_locks| |done]. intros _ w ->.
    assert (L : ∀ b, (low = false → b = false) →
      wp (memorymanager_loop n) (λ _ w', held w' = ∅ ∧ (low = false → mistaken w' = false)) (λ _ _, False) (Locks ∅ b)).
    { induction n as [|n IH]; intros b Hb; [done|]. cbn [memorymanager_loop wp mbind process_bind call].
      intros st w' Hst%locks_keep. cbn in Hst. subst w'. destruct (STOPPING <=? st); [|done].
      apply wp_bind. eapply wp_mono; [by apply (iteration_locks _ low)| |done]. intros _ w ->. apply IH. cbn.
      intros ->. by rewrite Hb. }
    by apply L.
  - intros b. eapply wp_mono; [by apply (iteration_locks _ low)| |done]. by intros _ w ->.
Qed.

Definition lock_table (qlen : Z) (c : mm_call) (w : locks) : Z * locks :=
  match c with
  | Lock m => (0, Locks ({[m]} ∪ held w) (mistaken w || bool_decide (m ∈ held w)))
  | Unlock m => (0, Locks (held w ∖ {[m]}) (mistaken w || negb (bool_decide (m ∈ held w))))
  | Cond_wait => (0, Locks (held w) (mistaken w || negb (bool_decide (mylock ∈ held w))))
  | Get_servicestate => (RUNNING, w)
  | Pool_qlen => (qlen, w)
  | Reset_counts | Allocatefreepacketbuffers _ | Move_queued_packets => (0, w)
  end.

Lemma lock_table_documented qlen : Locks_documented (computed (lock_table qlen)).
Proof. intros c w r w' H. unfold step, computed in H. destruct c; injection H as <- <-; done. Qed.

(** With 20 buffers. *)
Lemma memorymanager_lock_discipline_witness :
  wp (system := computed (lock_table 20)) memorymanager_iteration (λ _ w', held w' = ∅ ∧ mistaken w' = true) (λ _ _, False) (Locks ∅ false).
Proof.
  destruct (memorymanager_lock_discipline (computed (lock_table 20)) 3 true (lock_table_documented 20)) as [_ H].
  - intros w r w' E. unfold step, computed in E. by injection E as <- _.
  - exact (H false).
Defined.
