(* ===== verification/Netlink.v ===== *)
(** * The health agent's netlink messages (opennopd/subsystems/healthagent.c)

    [get_family_id] asks the kernel for the number of the OPENNOP family,
    [send_hb] sends the heartbeat to it.  The messages are built in structures on
    the stack that are not cleared: [garbage] is what stands there. *)
From S2P Require Import Prelude Packet Driver.
#[local] Open Scope Z_scope.
#[local] Open Scope list_scope.

Definition GENL_ID_CTRL : Z := 16.
Definition NLMSG_ERROR : Z := 2.
Definition NLM_F_REQUEST : Z := 1.
Definition CTRL_CMD_GETFAMILY : Z := 3.
Definition CTRL_ATTR_FAMILY_ID : Z := 1.
Definition CTRL_ATTR_FAMILY_NAME : Z := 2.
Definition OPENNOP_CMD_HB : Z := 2.
Definition OPENNOP_A_MSG : Z := 1.

(** The headers: 16 bytes [nlmsghdr], 4 bytes [genlmsghdr], then the attributes; the whole
    structure has 276 bytes. *)
Definition NLMSG_HDRLEN : Z := 16.
Definition GENLMSG_DATA : Z := 20.
Definition NLA_HDRLEN : Z := 4.
Definition REQ_SIZE : nat := Z.to_nat 276.
Definition align4 (n : Z) : Z := Z.land (n + 3) (-4).

(** A string with its NUL. *)
Definition OPENNOP_NAME : list Z := [79; 80; 69; 78; 78; 79; 80; 0].
Definition UP_TEXT : list Z := [85; 80; 0].
Definition DOWN_TEXT : list Z := [68; 79; 87; 78; 0].

(** The fields [get_family_id] and [send_hb] both set. *)
Definition request_header (m : buffer) (type seq pid cmd : Z) : outcome buffer :=
  m ← st16 m 4 type;
  m ← st16 m 6 NLM_F_REQUEST;
  m ← st32 m 8 seq;
  m ← st32 m 12 pid;
  m ← st32 m 0 (NLMSG_HDRLEN + 4);
  wr m 16 cmd.

(** The attribute with [data], and the length of the message. *)
Definition request_attribute (m : buffer) (type : Z) (data : list Z) : outcome buffer :=
  let nla_len := blen data + NLA_HDRLEN in
  m ← st16 m (GENLMSG_DATA + 2) type;
  m ← st16 m GENLMSG_DATA nla_len;
  m ← copy_in m (GENLMSG_DATA + NLA_HDRLEN) data 0 (blen data);
  l ← ld32 m 0;
  st32 m 0 (l + align4 nla_len).

Definition family_request (garbage : buffer) (pid : Z) : outcome buffer :=
  m ← request_header garbage GENL_ID_CTRL 0 pid CTRL_CMD_GETFAMILY;
  m ← wr m 17 1;
  request_attribute m CTRL_ATTR_FAMILY_NAME OPENNOP_NAME.

(** [message\[14\]] is not cleared either; [sprintf] writes the text and its NUL. *)
Definition hb_request (garbage message : buffer) (id pid servicestate : Z) : outcome buffer :=
  m ← request_header garbage (u16 id) 60 pid OPENNOP_CMD_HB;
  let text := if RUNNING <=? servicestate then UP_TEXT else DOWN_TEXT in
  message ← copy_in message 0 text 0 (blen text);
  request_attribute m OPENNOP_A_MSG message.

(** What [send] and [sendto] are given. *)
Definition request_bytes (m : buffer) : outcome (list Z) :=
  l ← ld32 m 0; if in_object m 0 l then Ret (sub m 0 l) else Undef.

(** [sendto_fd]: [answers] are the results of [sendto] with whether [errno] is then [EAGAIN];
    the result is what was handed over in pieces, and the return value. *)
Fixpoint sendto_fd (answers : list (Z * bool)) (buf : list Z) : outcome (list (list Z) * Z) :=
  match answers with
  | [] => Spin
  | (r, again) :: answers =>
      if blen buf <=? r then Ret ([buf], 0)
      else if 0 <? r then
        '(ps, e) ← sendto_fd answers (drop (Z.to_nat r) buf); Ret (take (Z.to_nat r) buf :: ps, e)
      else if again then sendto_fd answers buf else Ret ([], -1)
  end.

(** The answer of the controller: [ans] is the structure after [recv], [rep_len] its result. *)
Definition NLMSG_OK (nlmsg_len len : Z) : bool :=
  (NLMSG_HDRLEN <=? len) && (NLMSG_HDRLEN <=? nlmsg_len) && (nlmsg_len <=? len).

Definition parse_family (ans : buffer) (rep_len : Z) : outcome Z :=
  if rep_len <? 0 then Ret (-1) else
  len ← ld32 ans 0;
  if negb (NLMSG_OK len rep_len) then Ret (-1) else
  type ← ld16 ans 4;
  if type =? NLMSG_ERROR then Ret (-1) else
  nla_len ← ld16 ans GENLMSG_DATA;
  let na := GENLMSG_DATA + align4 nla_len in
  nla_type ← ld16 ans (na + 2);
  if nla_type =? CTRL_ATTR_FAMILY_ID then ld16 ans (na + NLA_HDRLEN) else Ret 0.

Definition get_family_id (garbage : buffer) (pid : Z) (answers : list (Z * bool)) (ans : buffer) (rep_len : Z)
    : outcome (list (list Z) * Z) :=
  m ← family_request garbage pid;
  req ← request_bytes m;
  '(ps, e) ← sendto_fd answers req;
  if e <? 0 then Ret (ps, -1) else id ← parse_family ans rep_len; Ret (ps, id).

(** ** The receiver's side: a reference decoder *)

(** The NUL-terminated text of the first attribute, as [strcmp] compares it. *)
Fixpoint starts_with (s m : list Z) : bool :=
  match s, m with
  | [], _ => true
  | a :: s, b :: m => (a =? b) && starts_with s m
  | _ :: _, [] => false
  end.

Definition heartbeat_of (data : list Z) : heartbeat :=
  if starts_with UP_TEXT data then HB_UP else if starts_with DOWN_TEXT data then HB_DOWN else HB_OTHER.

(** The bytes of a generic netlink message with one attribute, as netlink(7) and
    linux/netlink.h lay them out: the length of the whole message, a multiple of 4, type, flags,
    sequence number, port, then command, version and a reserved word, then the attribute, its
    length without the padding, its number and its data. *)
Definition genl_message (bs : list Z) (type flags cmd attr : Z) (data : list Z) : Prop :=
  ∃ seq port version r1 r2 pad,
    bs = le32 (blen bs) ++ le16 type ++ le16 flags ++ le32 seq ++ le32 port ++ [cmd; version; r1; r2]
         ++ le16 (4 + blen data) ++ le16 attr ++ data ++ pad
    ∧ blen bs mod 4 = 0 ∧ blen pad < 4
    ∧ 0 <= type < 65536 ∧ 0 <= cmd < 256 ∧ 0 <= attr < 65536 ∧ 4 + blen data < 65536 ∧ blen bs < 2 ^ 32.

(** Bit 0 of the flags is NLM_F_REQUEST. *)
Definition is_request (flags : Z) : Prop := Z.testbit flags 0 = true.

(** * Theorems *)

(** ** Sending in pieces *)

(** Everything that was handed over is a prefix of the message; with the result 0 all of it
    was. *)
Lemma sendto_fd_pieces answers : ∀ buf ps e, sendto_fd answers buf = Ret (ps, e) →
  (e = 0 ∧ concat ps = buf) ∨ (e = -1 ∧ concat ps `prefix_of` buf).
Proof.
  induction answers as [|[r again] answers IH]; intros b ps e H; [done|]. cbn [sendto_fd] in H.
  destruct (blen b <=? r); [injection H as <- <-; left; split; [done|apply app_nil_r]|].
  destruct (0 <? r).
  - apply bind_Ret in H as ([ps' e'] & H & E). injection E as <- <-. apply IH in H as [[-> H]|[-> H]].
    + left. split; [done|]. cbn [concat]. rewrite H. apply take_drop.
    + right. split; [done|]. cbn [concat]. rewrite <-(take_drop (Z.to_nat r) b) at 2. by apply prefix_app.
  - destruct again; [by apply IH|]. injection H as <- <-. right. split; [done|]. apply prefix_nil.
Qed.

(** ** The layout of a request *)
Ltac len_lia := unfold blen in *; cbn [length] in *; lia.
(** The first store at a known offset of a buffer whose first bytes are spelled out. *)
Ltac store_one :=
  match goal with
  | |- context [wr ?b ?i ?v] =>
      let j := eval vm_compute in i in change (wr b i v) with (wr b j v);
      rewrite (wr_in b j v) by len_lia;
      let n := eval vm_compute in (Z.to_nat j) in change (Z.to_nat j) with n;
      cbn [insert list_insert mbind outcome_bind]
  end.
Ltac stores := unfold st32, st16; cbn [mbind outcome_bind]; repeat store_one.

Lemma header_layout g type seq pid cmd : blen g = 276 →
  ∃ v r1 r2 rest, request_header g type seq pid cmd
    = Ret (le32 20 ++ le16 type ++ le16 1 ++ le32 seq ++ le32 pid ++ [u8 cmd; v; r1; r2] ++ rest) ∧ blen rest = 256.
Proof.
  intros Hg. do 20 (destruct g as [|? g]; [discriminate Hg|]). assert (Hr : blen g = 256) by len_lia.
  unfold request_header. stores. do 4 eexists. split; [reflexivity|done].
Qed.

Lemma ld32_front a b c e rest : ld32 (a :: b :: c :: e :: rest) 0 = Ret (a + 256 * b + 65536 * (c + 256 * e)).
Proof. done. Qed.

Lemma attribute_layout H rest type d : blen H = 16 → blen rest = 256 → blen d <= 200 →
  ∃ rest', request_attribute (le32 20 ++ H ++ rest) type d
    = Ret (le32 (20 + align4 (blen d + 4)) ++ H ++ le16 (blen d + 4) ++ le16 type ++ d ++ rest') ∧ blen rest' = 252 - blen d.
Proof.
  intros HH Hr Hd. pose proof (blen_nonneg d).
  do 16 (destruct H as [|? H]; [discriminate HH|]). destruct H as [|? H]; [|len_lia].
  do 4 (destruct rest as [|? rest]; [discriminate Hr|]). assert (Hr' : blen rest = 252) by len_lia.
  unfold request_attribute. change (le32 20) with [20; 0; 0; 0]. cbn [app]. stores. unfold copy_in.
  match goal with |- context [in_object ?b (GENLMSG_DATA + NLA_HDRLEN) ?n] =>
    assert (E1 : in_object b (GENLMSG_DATA + NLA_HDRLEN) n = true) end.
  { unfold in_object. change (GENLMSG_DATA + NLA_HDRLEN) with 24. rewrite !andb_true_iff, !Z.leb_le. len_lia. }
  assert (E2 : in_object d 0 (blen d) = true) by (unfold in_object; rewrite !andb_true_iff, !Z.leb_le; lia).
  rewrite E1, E2, sub_all. cbn [andb mbind outcome_bind]. change (GENLMSG_DATA + NLA_HDRLEN) with 24.
  unfold put. change (Z.to_nat 24) with 24%nat. cbn [take drop Nat.add app].
  assert (Hl : blen (drop (length d) rest) = 252 - blen d) by (unfold blen in *; rewrite length_drop; lia).
  set (tail := drop (length d) rest) in *.
  assert (Hb : blen (d ++ tail) = 252) by (rewrite blen_app; lia). set (body := d ++ tail) in *.
  rewrite ld32_front.
  cbn [mbind outcome_bind]. change (20 + 256 * 0 + 65536 * (0 + 256 * 0)) with 20.
  stores. exists tail. split; [reflexivity|done].
Qed.

(** A request of the daemon, on the wire. *)
Definition request_wire (type seq pid cmd v r1 r2 attr : Z) (data pad : list Z) : list Z :=
  le32 (20 + align4 (blen data + 4)) ++ (le16 type ++ le16 1 ++ le32 seq ++ le32 pid ++ [u8 cmd; v; r1; r2])
  ++ le16 (blen data + 4) ++ le16 attr ++ data ++ pad.

Lemma request_layout g type seq pid cmd attr data : blen g = 276 → blen data <= 200 →
  ∃ v r1 r2 rest, (m ← request_header g type seq pid cmd; request_attribute m attr data)
      = Ret (request_wire type seq pid cmd v r1 r2 attr data rest) ∧ blen rest = 252 - blen data.
Proof.
  intros Hg Hd. destruct (header_layout g type seq pid cmd Hg) as (v & r1 & r2 & rest & -> & Hr).
  cbn [mbind outcome_bind].
  destruct (attribute_layout (le16 type ++ le16 1 ++ le32 seq ++ le32 pid ++ [u8 cmd; v; r1; r2]) rest attr data)
    as (rest' & E & Hr'); [done|done|done|]. rewrite <-!app_assoc in E. rewrite E.
  exists v, r1, r2, rest'. split; [|done]. unfold request_wire. by rewrite <-!app_assoc.
Qed.

(** What is sent of it: the message up to the padding of the attribute. *)
Lemma request_sent type seq pid cmd v r1 r2 attr data rest : blen data = 14 → blen rest = 238 →
  ∃ p1 p2, request_bytes (request_wire type seq pid cmd v r1 r2 attr data rest)
           = Ret (request_wire type seq pid cmd v r1 r2 attr data [p1; p2]).
Proof.
  intros Hd Hr. unfold request_wire. rewrite Hd. change (20 + align4 (14 + 4)) with 40. change (14 + 4) with 18.
  do 2 (destruct rest as [|? rest]; [discriminate Hr|]). do 14 (destruct data as [|? data]; [discriminate Hd|]).
  destruct data; [|len_lia]. eexists _, _. unfold request_bytes.
  change (le32 40) with [40; 0; 0; 0]. cbn [app]. rewrite ld32_front. cbn [mbind outcome_bind].
  change (40 + 256 * 0 + 65536 * (0 + 256 * 0)) with 40.
  match goal with |- context [in_object ?b 0 40] => assert (E : in_object b 0 40 = true) end.
  { unfold in_object. rewrite !andb_true_iff, !Z.leb_le. cbn [le16 le32 app]. len_lia. }
  rewrite E. reflexivity.
Qed.

Lemma message_of_wire type seq pid cmd v r1 r2 attr data p1 p2 : blen data = 14 → 0 <= type < 65536 → 0 <= cmd < 256 →
  0 <= attr < 65536 →
  genl_message (request_wire type seq pid cmd v r1 r2 attr data [p1; p2]) type 1 cmd attr data.
Proof.
  intros Hd Ht Hc Ha. unfold request_wire. rewrite Hd. change (20 + align4 (14 + 4)) with 40. change (14 + 4) with (4 + 14).
  assert (Hb : blen (le32 40 ++ (le16 type ++ le16 1 ++ le32 seq ++ le32 pid ++ [u8 cmd; v; r1; r2])
    ++ le16 (4 + 14) ++ le16 attr ++ data ++ [p1; p2]) = 40) by (rewrite !blen_app, Hd; done).
  exists seq, pid, v, r1, r2, [p1; p2]. rewrite Hb, Hd, (u8_small cmd) by done.
  split_and!; try done; try lia.
Qed.

(** The message of a heartbeat decodes to what was meant, in an attribute with a NUL. *)
Lemma hb_request_decodes garbage message id pid servicestate :
  blen garbage = 276 → blen message = 14 →
  ∃ m bs data, hb_request garbage message id pid servicestate = Ret m ∧ request_bytes m = Ret bs
    ∧ genl_message bs (u16 id) 1 OPENNOP_CMD_HB OPENNOP_A_MSG data
    ∧ heartbeat_of data = send_hb servicestate ∧ 0 ∈ data.
Proof.
  intros Hg Hm. unfold hb_request.
  assert (E : ∃ data, copy_in message 0 (if RUNNING <=? servicestate then UP_TEXT else DOWN_TEXT) 0
      (blen (if RUNNING <=? servicestate then UP_TEXT else DOWN_TEXT)) = Ret data ∧ blen data = 14
      ∧ heartbeat_of data = send_hb servicestate ∧ 0 ∈ data).
  { do 14 (destruct message as [|? message]; [discriminate Hm|]). destruct message; [|len_lia].
    unfold send_hb. destruct (RUNNING <=? servicestate); (eexists; split; [reflexivity|]; split_and!; [reflexivity..|]);
      [apply (list_elem_of_lookup_2 _ 2)|apply (list_elem_of_lookup_2 _ 4)]; reflexivity. }
  destruct E as (data & E & Hd & Hh & Hz).
  destruct (request_layout garbage (u16 id) 60 pid OPENNOP_CMD_HB OPENNOP_A_MSG data Hg) as (v & r1 & r2 & rest & L & Hr); [lia|].
  destruct (request_header garbage (u16 id) 60 pid OPENNOP_CMD_HB) as [m0| |]; cbn [mbind outcome_bind] in L |- *; [|done..].
  rewrite E. cbn [mbind outcome_bind]. rewrite L.
  destruct (request_sent (u16 id) 60 pid OPENNOP_CMD_HB v r1 r2 OPENNOP_A_MSG data rest Hd) as (p1 & p2 & Hs); [lia|].
  eexists _, _, data. split; [done|]. split; [exact Hs|]. split; [|done].
  apply message_of_wire; [done|apply u16_bound|done|done].
Qed.

(** The heartbeat.  Whatever stands on the stack, the message [send_hb] hands to the kernel is
    a well-formed request, is addressed to the family it was told (65535 when there is none) with the
    heartbeat command, and its attribute reads as UP exactly while the service runs. *)
Theorem heartbeat_wire garbage message id pid servicestate :
  blen garbage = 276 → blen message = 14 →
  ∃ m bs data, hb_request garbage message id pid servicestate = Ret m ∧ request_bytes m = Ret bs
    ∧ (∃ flags, is_request flags ∧ genl_message bs (u16 id) flags OPENNOP_CMD_HB OPENNOP_A_MSG data)
    ∧ heartbeat_of data = send_hb servicestate.
Proof.
  intros Hg Hm. destruct (hb_request_decodes garbage message id pid servicestate Hg Hm) as (m & bs & data & H1 & H2 & H3 & H4 & _).
  exists m, bs, data. split_and!; [done|done|by exists 1|done].
Qed.

Lemma heartbeat_wire_witness :
  ∃ m bs data, hb_request (replicate 276 7) (replicate 14 9) (-1) 100 0 = Ret m ∧ request_bytes m = Ret bs
    ∧ (∃ flags, is_request flags ∧ genl_message bs 65535 flags 2 1 data) ∧ heartbeat_of data = HB_DOWN.
Proof. apply (heartbeat_wire (replicate 276 7) (replicate 14 9) (-1) 100 0); reflexivity. Defined.

(** ** The family number *)

(** The controller's answer: the family's name, then its number, then more attributes. *)
Definition attribute (type : Z) (data : list Z) : list Z :=
  le16 (blen data + 4) ++ le16 type ++ data ++ zeros (align4 (blen data) - blen data).

Definition family_reply (len hdr : list Z) (name : list Z) (id : Z) (more : list Z) : buffer :=
  len ++ hdr ++ attribute CTRL_ATTR_FAMILY_NAME name ++ attribute CTRL_ATTR_FAMILY_ID (le16 id) ++ more.

Lemma align4_eq n : align4 n = 4 * ((n + 3) / 4).
Proof.
  unfold align4. change (-4) with (Z.lnot (Z.ones 2)). rewrite <-Z.ldiff_land, Z.ldiff_ones_r by done.
  rewrite Z.shiftl_mul_pow2, Z.shiftr_div_pow2 by done. change (2 ^ 2) with 4. lia.
Qed.

Lemma ld16_le16 pre v rest i : i = blen pre → 0 <= v < 65536 → ld16 (pre ++ le16 v ++ rest) i = Ret v.
Proof. intros Hi Hv. unfold le16. cbn [app]. rewrite ld16_app by done. by rewrite u8_pair. Qed.

(** The number of the family.  When the kernel answers with the name and the number of the
    family, as the generic netlink controller does, [get_family_id] returns that number,
    whatever the length of the name and whatever follows; an error message, a truncated
    answer or a failed [recv] give -1. *)
Theorem get_family_id_found len hdr name id more type rep_len :
  0 <= len < 2 ^ 32 → blen hdr = 16 → ld16 hdr 0 = Ret type → 0 <= id < 65536 → blen name < 65000 →
  let ans := family_reply (le32 len) hdr name id more in
  parse_family ans rep_len
  = Ret (if rep_len <? 0 then -1 else if negb (NLMSG_OK len rep_len) then -1
         else if type =? NLMSG_ERROR then -1 else id).
Proof.
  intros Hl Hh Ht Hid Hn ans. unfold parse_family. destruct (rep_len <? 0); [done|].
  pose proof (blen_nonneg name) as Hn0.
  assert (E0 : ld32 ans 0 = Ret len).
  { unfold ans, family_reply, le32. cbn [le16 app]. rewrite ld32_front. by rewrite u8_quad. }
  rewrite E0. cbn [mbind outcome_bind]. destruct (NLMSG_OK len rep_len); cbn [negb]; [|done].
  do 16 (destruct hdr as [|? hdr]; [discriminate Hh|]). destruct hdr; [|len_lia].
  assert (E4 : ld16 ans 4 = Ret type) by exact Ht. rewrite E4. cbn [mbind outcome_bind].
  destruct (type =? NLMSG_ERROR); [done|].
  set (pre := le32 len ++ [z; z0; z1; z2; z3; z4; z5; z6; z7; z8; z9; z10; z11; z12; z13; z14]).
  set (tail := attribute CTRL_ATTR_FAMILY_ID (le16 id) ++ more).
  assert (Ea : ans = pre ++ le16 (blen name + 4) ++ le16 CTRL_ATTR_FAMILY_NAME ++ name ++ zeros (align4 (blen name) - blen name) ++ tail).
  { unfold ans, family_reply, attribute, pre, tail. by rewrite <-!app_assoc. }
  assert (E20 : ld16 ans GENLMSG_DATA = Ret (blen name + 4)) by (rewrite Ea; apply ld16_le16; [done|lia]).
  rewrite E20. cbn [mbind outcome_bind].
  assert (Ha : 0 <= align4 (blen name) - blen name) by (rewrite align4_eq; Z.to_euclidean_division_equations; lia).
  set (pre2 := pre ++ le16 (blen name + 4) ++ le16 CTRL_ATTR_FAMILY_NAME ++ name ++ zeros (align4 (blen name) - blen name)).
  assert (Hp2 : blen pre2 = GENLMSG_DATA + align4 (blen name + 4)).
  { unfold pre2. rewrite !blen_app, blen_zeros by done. change (blen pre) with 20. change (blen (le16 _)) with 2.
    rewrite !align4_eq in *. unfold GENLMSG_DATA. Z.to_euclidean_division_equations. lia. }
  assert (Ea2 : ans = pre2 ++ le16 6 ++ le16 CTRL_ATTR_FAMILY_ID ++ le16 id ++ zeros 2 ++ more).
  { rewrite Ea. unfold pre2, tail, attribute. by rewrite <-!app_assoc. }
  rewrite <-Hp2.
  assert (E22 : ld16 ans (blen pre2 + 2) = Ret CTRL_ATTR_FAMILY_ID).
  { rewrite Ea2, app_assoc. apply ld16_le16; [|done]. rewrite blen_app. done. }
  assert (E24 : ld16 ans (blen pre2 + NLA_HDRLEN) = Ret id).
  { rewrite Ea2, 2!app_assoc. apply ld16_le16; [|done]. rewrite !blen_app. change (blen (le16 _)) with 2. unfold NLA_HDRLEN. lia. }
  rewrite E22. cbn [mbind outcome_bind]. by rewrite E24.
Qed.

(** OPENNOP has number 27. *)
Lemma get_family_id_found_witness :
  parse_family (family_reply (le32 44) ([16; 0] ++ zeros 14) OPENNOP_NAME 27 (zeros 100)) 44 = Ret 27.
Proof. apply (get_family_id_found 44 ([16; 0] ++ zeros 14) OPENNOP_NAME 27 (zeros 100) 16 44); [lia|reflexivity|reflexivity|lia|reflexivity]. Defined.

(** The length of the first attribute is not checked against the answer. *)
Example get_family_id_overread :
  parse_family (le32 24 ++ [16; 0] ++ zeros 14 ++ le16 60000 ++ le16 2 ++ zeros 252) 24 = Undef.
Proof. vm_compute. reflexivity. Qed.
