(* ===== verification/KernelModule.v ===== *)
(** * The kernel module around its hook (opennopdrv/module.c, opennopdrv/opennop_netlink.h)

    Loading and unloading, the table of netlink commands with the noop and the echo
    command, and the periodic monitor timer.  Heartbeat, monitor and hook
    themselves are in [Driver].  The functions of the kernel are calls with the
    answers their documentation allows, for kernels from 2.6.32 on. *)
From S2P Require Import Prelude Process Packet Driver Netlink.
From stdpp Require Import strings.
#[local] Open Scope Z_scope.
#[local] Open Scope list_scope.

(** ** The netlink family *)
Definition OPENNOP_A_UNSPEC : Z := 0.
Definition OPENNOP_A_MAX : Z := 1.
Inductive policy_type := NLA_UNSPEC | NLA_NUL_STRING.

Definition opennop_nl_policy (attr : Z) : policy_type :=
  if attr =? OPENNOP_A_MSG then NLA_NUL_STRING else NLA_UNSPEC.

Definition GENL_ID_GENERATE : Z := 0.
Definition VERSION_NR : Z := 1.
Record genl_family := GenlFamily { f_id : Z; hdrsize : Z; f_name : string; f_version : Z; maxattr : Z }.
Definition opennop_nl_family : genl_family := GenlFamily GENL_ID_GENERATE 0 "OPENNOP" VERSION_NR OPENNOP_A_MAX.

Definition OPENNOP_CMD_NOOP : Z := 0.
Definition OPENNOP_CMD_ECHO : Z := 1.

Inductive doit_function := nl_cmd_noop | nl_cmd_echo | nl_cmd_hb.
#[export] Instance doit_function_eq_dec : EqDecision doit_function.
Proof. solve_decision. Defined.
Record genl_ops := GenlOps { cmd : Z; flags : Z; policy : Z → policy_type; doit : doit_function }.

Definition opennop_nl_ops : list genl_ops :=
  [ GenlOps OPENNOP_CMD_NOOP 0 opennop_nl_policy nl_cmd_noop;
    GenlOps OPENNOP_CMD_ECHO 0 opennop_nl_policy nl_cmd_echo;
    GenlOps OPENNOP_CMD_HB 0 opennop_nl_policy nl_cmd_hb ].

(** ** The Netfilter hook *)
Definition NF_INET_FORWARD : Z := 2.
Definition NF_BR_FORWARD : Z := 2.
Definition PF_INET : Z := 2.
Definition NF_IP_PRI_FIRST : Z := - 2 ^ 31.
Record nf_hook_ops := NfHookOps { hooknum : Z; pf : Z; priority : Z }.
Definition opennop_hook : nf_hook_ops := NfHookOps NF_INET_FORWARD PF_INET NF_IP_PRI_FIRST.

(** ** The kernel *)

(** A message under construction. *)
Record sk_buff := SkBuff { s_cmd : Z; s_seq : Z; s_attrs : list (Z * string) }.

Inductive kcall :=
| Genlmsg_new
| Genlmsg_put (skb pid seq cmd : Z)
| Nla_put_string (skb attr : Z) (text : string)
| Genlmsg_end (skb : Z)
| Genlmsg_unicast (net : bool) (skb pid : Z)      (* [false]: NULL *)
| Nlmsg_free (skb : Z)
| Genl_register_family_with_ops (ops : list genl_ops)
| Genl_register_family
| Genl_register_ops (op : genl_ops)
| Genl_unregister_family
| Nf_register_hook (h : nf_hook_ops)
| Nf_unregister_hook
| Add_timer (expires : Z)
| Del_timer_sync.

(** The buffers that are allocated, what was sent and to whom, what is registered, whether the
    kernel has used a NULL pointer. *)
Record kernel := Kernel {
  skbs : gmap Z sk_buff; unicasts : list (Z * sk_buff);
  family : option (list genl_ops); hook : option nf_hook_ops; timer : option Z; oops : bool
}.

Definition set_skbs (k : kernel) (m : gmap Z sk_buff) : kernel := Kernel m (unicasts k) (family k) (hook k) (timer k) (oops k).
Definition set_family (k : kernel) (f : option (list genl_ops)) : kernel := Kernel (skbs k) (unicasts k) f (hook k) (timer k) (oops k).
Definition set_hook (k : kernel) (h : option nf_hook_ops) : kernel := Kernel (skbs k) (unicasts k) (family k) h (timer k) (oops k).
Definition set_timer (k : kernel) (t : option Z) : kernel := Kernel (skbs k) (unicasts k) (family k) (hook k) t (oops k).
Definition oopsed (k : kernel) : kernel := Kernel (skbs k) (unicasts k) (family k) (hook k) (timer k) true.

Definition kernel_answers (c : kcall) (k : kernel) (r : Z) (k' : kernel) : Prop :=
  match c with
  | Genlmsg_new => (r = 0 ∧ k' = k) ∨ (r ≠ 0 ∧ skbs k !! r = None ∧ k' = set_skbs k (<[r := SkBuff (-1) 0 []]> (skbs k)))
  | Genlmsg_put skb _ seq c => (r = 0 ∧ k' = k) ∨ (r ≠ 0 ∧ k' = set_skbs k (<[skb := SkBuff c seq []]> (skbs k)))
  | Nla_put_string skb a t =>
      (r < 0 ∧ k' = k) ∨
      (r = 0 ∧ k' = set_skbs k (alter (λ s, SkBuff (s_cmd s) (s_seq s) (s_attrs s ++ [(a, t)])) skb (skbs k)))
  | Genlmsg_end _ => k' = k
  | Genlmsg_unicast false _ _ => k' = oopsed k      (* net->genl_sock *)
  | Genlmsg_unicast true skb pid =>                 (* the buffer is consumed in any case *)
      (r < 0 ∧ k' = set_skbs k (delete skb (skbs k))) ∨
      (r = 0 ∧ ∃ s, skbs k !! skb = Some s
       ∧ k' = Kernel (delete skb (skbs k)) (unicasts k ++ [(pid, s)]) (family k) (hook k) (timer k) (oops k))
  | Nlmsg_free skb => k' = set_skbs k (delete skb (skbs k))
  | Genl_register_family_with_ops ops => (r < 0 ∧ k' = k) ∨ (r = 0 ∧ family k = None ∧ k' = set_family k (Some ops))
  | Genl_register_family => (r < 0 ∧ k' = k) ∨ (r = 0 ∧ family k = None ∧ k' = set_family k (Some []))
  | Genl_register_ops op => (r < 0 ∧ k' = k) ∨ (r = 0 ∧ ∃ ops, family k = Some ops ∧ k' = set_family k (Some (ops ++ [op])))
  | Genl_unregister_family => k' = set_family k None
  | Nf_register_hook h => (r < 0 ∧ k' = k) ∨ (r = 0 ∧ k' = set_hook k (Some h))
  | Nf_unregister_hook => k' = match hook k with Some _ => set_hook k None | None => oopsed k end
  | Add_timer e => k' = set_timer k (Some e)
  | Del_timer_sync => k' = set_timer k None
  end.

Class Kernel_documented (s : System kcall kernel) := kernel_keeps c k r k' : step (System := s) c k r k' → kernel_answers c k r k'.

(** ** The commands *)
Definition ENOMEM : Z := 12.
Definition EMSGSIZE : Z := 90.
Record genl_info := GenlInfo { snd_portid : Z; snd_seq : Z; attr_msg : option (list Z) }.

Definition opennop_nl_cmd_noop (info : genl_info) : process kcall Z :=
  msg ← call Genlmsg_new;
  if msg =? 0 then mret (- ENOMEM) else
  hdr ← call (Genlmsg_put msg (snd_portid info) (snd_seq info) OPENNOP_CMD_NOOP);
  if hdr =? 0 then _ ← call (Nlmsg_free msg); mret (- EMSGSIZE) else
  _ ← call (Genlmsg_end msg);
  call (Genlmsg_unicast true msg (snd_portid info)).

(** [None]: the pointer to the request is NULL.  The attribute is only printed. *)
Definition opennop_nl_cmd_echo (info : option genl_info) : process kcall Z :=
  match info with
  | None => mret 0
  | Some info =>
      skb ← call Genlmsg_new;
      if skb =? 0 then mret 0 else
      msg_head ← call (Genlmsg_put skb 0 (u32 (snd_seq info + 1)) OPENNOP_CMD_ECHO);
      if msg_head =? 0 then mret 0 else
      rc ← call (Nla_put_string skb OPENNOP_A_MSG "hello world from kernel space");
      if negb (rc =? 0) then mret 0 else
      _ ← call (Genlmsg_end skb);
      rc ← call (Genlmsg_unicast false skb (snd_portid info));
      if negb (rc =? 0) then mret 0 else mret 0
  end.

(** ** Loading and unloading *)

(** What the code distinguishes of the kernel it is built for. *)
Inductive version := Before_3_0 | Upto_3_1_2 | After_3_1_2.

Fixpoint register_ops_loop (ops : list genl_ops) : process kcall Z :=
  match ops with
  | [] => mret 0
  | op :: ops => err ← call (Genl_register_ops op); if negb (err =? 0) then mret err else register_ops_loop ops
  end.

Definition register_family (v : version) : process kcall Z :=
  match v with
  | After_3_1_2 | Upto_3_1_2 => call (Genl_register_family_with_ops opennop_nl_ops)
  | Before_3_0 =>
      err ← call Genl_register_family;
      if negb (err =? 0) then mret err else register_ops_loop opennop_nl_ops
  end.

Definition mode_hook (mode : string) : nf_hook_ops :=
  if bool_decide (mode = "bridged") then NfHookOps NF_BR_FORWARD (pf opennop_hook) (priority opennop_hook) else opennop_hook.

Definition opennopdrv_init (v : version) (mode : string) (jiffies HZ : Z) : process kcall Z :=
  let timespan := hbintervals * HBINTERVAL in
  err ← register_family v;
  if negb (err =? 0) then mret err else
  _ ← call (Nf_register_hook (mode_hook mode));
  _ ← call (Add_timer (jiffies + timespan * HZ));
  mret 0.

Definition opennopdrv_exit : process kcall unit :=
  _ ← call Genl_unregister_family;
  _ ← call Nf_unregister_hook;
  _ ← call Del_timer_sync;
  mret tt.

(** ** The kernel's side of a message

    The generic netlink layer is the kernel's: [deliver id ops bs] tells which [doit] function of
    the family with number [id] and commands [ops] it calls for the message [bs], and the
    attributes it passes, if it calls one. *)
Definition genl_layer : Type := Z → list genl_ops → list Z → option (doit_function * (Z → option (list Z))).

(** The check of an attribute against its policy: an NLA_NUL_STRING holds a NUL. *)
Definition nla_ok (t : policy_type) (data : list Z) : bool :=
  match t with NLA_NUL_STRING => bool_decide (0 ∈ data) | NLA_UNSPEC => true end.

(** What netlink(7) and the generic netlink documentation say of it: a request with one
    attribute that meets the policy reaches the function of its command; a message without
    NLM_F_REQUEST, for another family or with an attribute against the policy reaches none. *)
Class Genl_documented (deliver : genl_layer) : Prop := {
  genl_delivers id ops op bs nlmsg_flags attr data :
    NoDup (cmd <$> ops) → op ∈ ops → flags op = 0 →
    genl_message bs id nlmsg_flags (cmd op) attr data → is_request nlmsg_flags → nla_ok (policy op attr) data = true →
    deliver id ops bs = Some (doit op, λ a, if a =? attr then Some data else None);
  genl_refuses id ops op bs type flags attr data :
    NoDup (cmd <$> ops) → op ∈ ops →
    genl_message bs type flags (cmd op) attr data →
    ¬ is_request flags ∨ type ≠ id ∨ nla_ok (policy op attr) data = false →
    deliver id ops bs = None
}.

(** The module's function that is called, on the module's state. *)
Definition genl_rcv (deliver : genl_layer) (id : Z) (m : module_state) (tv_now : Z) (bs : list Z) : module_state :=
  match deliver id opennop_nl_ops bs with
  | Some (nl_cmd_hb, attrs) => opennop_nl_cmd_hb m tv_now (heartbeat_of <$> attrs OPENNOP_A_MSG)
  | Some (nl_cmd_noop, _) | Some (nl_cmd_echo, _) | None => m
  end.

(** ** The module over time *)

(** The clock in seconds, the expiry of the monitor timer, and when the last "UP" came. *)
Record driver := Driver_ { state : module_state; now : Z; expires : Z; last_up : option Z }.

Definition loaded (t : Z) : driver := Driver_ initial_module t (t + hbintervals * HBINTERVAL) None.

(** The timer runs [late] seconds after its expiry at the latest and is set again by the monitor. *)
Inductive driver_step (late : Z) : driver → driver → Prop :=
| time_passes d t : now d <= t → t <= expires d + late →
    driver_step late d (Driver_ (state d) t (expires d) (last_up d))
| timer_fires d : expires d <= now d →
    driver_step late d (Driver_ (daemonmonitor_function (state d) (now d)) (now d) (now d + hbintervals * HBINTERVAL) (last_up d))
| heartbeat_arrives d msg :
    driver_step late d (Driver_ (opennop_nl_cmd_hb (state d) (now d) msg) (now d) (expires d)
      (match msg with Some HB_UP => Some (now d) | _ => last_up d end)).

(** * Theorems *)

(** Follow a program through the documented answers of its next call. *)
Ltac kernel_call :=
  let H := fresh "Hanswer" in
  cbn [wp mbind process_bind mret process_ret call]; intros ? ? H%kernel_keeps; cbn [kernel_answers] in H;
  repeat match goal with
  | H : ∃ _, _ |- _ => destruct H
  | H : _ ∧ _ |- _ => destruct H
  | H : _ ∨ _ |- _ => destruct H
  end; subst; cbn [wp mbind process_bind mret process_ret call].
Ltac decide_answer := repeat first [progress bool_lia | progress cbn [wp mbind process_bind mret process_ret call negb] ].

Section Calls.
Context `{!System kcall kernel} `{!Kernel_documented _}.

(** ** Netlink commands *)
Lemma noop_ok info k :
  wp (opennop_nl_cmd_noop info)
    (λ r k', skbs k' = skbs k ∧ oops k' = oops k
       ∧ unicasts k' = unicasts k ++ (if r =? 0 then [(snd_portid info, SkBuff OPENNOP_CMD_NOOP (snd_seq info) [])] else []))
    (λ _ _, False) k.
Proof.
  unfold opennop_nl_cmd_noop. kernel_call; decide_answer; [by rewrite app_nil_r|].
  kernel_call; decide_answer.
  - kernel_call. cbn. split_and!; [by rewrite delete_insert_id|done|by rewrite app_nil_r].
  - kernel_call. kernel_call; cbn in *; decide_answer; rewrite insert_insert_eq in *.
    + by rewrite delete_insert_id, app_nil_r.
    + rewrite lookup_insert_eq in *. simplify_eq. by rewrite delete_insert_id.
Qed.

(** What the echo command leaves: nothing was sent; a buffer was never allocated, was lost, or the
    kernel has used a NULL pointer. *)
Lemma echo_ok info k :
  wp (opennop_nl_cmd_echo (Some info))
    (λ r k', r = 0 ∧ unicasts k' = unicasts k
       ∧ ((skbs k' = skbs k ∧ oops k' = oops k)
          ∨ (∃ skb s, skbs k !! skb = None ∧ skbs k' = <[skb := s]> (skbs k) ∧ oops k' = oops k)
          ∨ oops k' = true)) (λ _ _, False) k.
Proof.
  unfold opennop_nl_cmd_echo. kernel_call; decide_answer; [by split_and!; [..|left]|].
  kernel_call; decide_answer; [split_and!; [done..|]; right; left; by do 2 eexists|].
  kernel_call; decide_answer.
  - split_and!; [done..|]. right. left. do 2 eexists. split_and!; [done| |done]. cbn. apply insert_insert_eq.
  - kernel_call. kernel_call. case_match; (split_and!; [done..|]); by right; right.
Qed.

(** ** Registration *)
Lemma register_loop_ok ops done_ k : family k = Some done_ →
  wp (register_ops_loop ops)
    (λ r k', (r = 0 ∧ k' = set_family k (Some (done_ ++ ops))) ∨ (r < 0 ∧ ∃ f, k' = set_family k (Some f))) (λ _ _, False) k.
Proof.
  revert done_ k. induction ops as [|op ops IH]; intros done_ k Hk; cbn [register_ops_loop].
  - left. split; [done|]. rewrite app_nil_r, <-Hk. by destruct k.
  - kernel_call; decide_answer.
    + right. split; [done|]. exists done_. rewrite <-Hk. by destruct k.
    + simplify_eq. eapply wp_mono; [by apply (IH (done_ ++ [op]))| |done].
      intros r k' [[-> ->]|[Hr [f ->]]]; [left|right]; split; [done| |done|by exists f].
      by rewrite <-app_assoc.
Qed.

Lemma register_family_ok v k : family k = None →
  wp (register_family v)
    (λ r k', (r = 0 ∧ k' = set_family k (Some opennop_nl_ops))
           ∨ (r < 0 ∧ ∃ f, k' = set_family k f ∧ (v ≠ Before_3_0 → f = None))) (λ _ _, False) k.
Proof.
  intros Hk. assert (k = set_family k None) as Hsame by (rewrite <-Hk; by destruct k).
  destruct v; unfold register_family; kernel_call; decide_answer; try by (right; split; [done|]; exists None).
  - eapply wp_mono; [by apply (register_loop_ok _ [])| |done]. intros r k' [[-> ->]|[Hr [f ->]]]; [by left|right].
    split; [done|]. by exists (Some f).
  - by left.
  - by left.
Qed.

Lemma exit_ok k : hook k ≠ None →
  wp opennopdrv_exit (λ _ k', k' = set_timer (set_hook (set_family k None) None) None) (λ _ _, False) k.
Proof. intros Hh. unfold opennopdrv_exit. kernel_call. kernel_call. kernel_call. cbn. by destruct (hook k). Qed.

Lemma init_ok v mode jiffies HZ k : family k = None → hook k = None →
  wp (opennopdrv_init v mode jiffies HZ)
    (λ r k', (r = 0 ∧ ∃ h, (h = None ∨ h = Some (mode_hook mode))
                ∧ k' = set_timer (set_hook (set_family k (Some opennop_nl_ops)) h) (Some (jiffies + 15 * HZ)))
           ∨ (r < 0 ∧ ∃ f, k' = set_family k f ∧ (v ≠ Before_3_0 → f = None))) (λ _ _, False) k.
Proof.
  intros Hk Hh. unfold opennopdrv_init. apply wp_bind. eapply wp_mono; [by apply register_family_ok| |done].
  intros r k1 [[-> ->]|[Hr Hf]]; decide_answer; [|by right]. kernel_call; kernel_call; left; (split; [done|]).
  - exists None. split; [by left|]. destruct k. cbn in *. by subst.
  - eexists. by split; [right|].
Qed.
End Calls.

(** The bridged mode is the routed mode: both numbers of the hook are 2, and its protocol family stays [PF_INET]. *)
Lemma mode_ignored mode : mode_hook mode = opennop_hook.
Proof. unfold mode_hook. by destruct (bool_decide _). Qed.

(** Loading the module.  In every mode alike it registers its commands, its hook for forwarded
    IP packets and the monitor timer, due in 15 seconds, or fails with nothing left but the family
    when the kernel is older than 3.0; unloading removes all of it.
    The noop command gives back or sends its buffer and sends exactly one answer when it reports success. *)
Theorem module_load_unload (s : System kcall kernel) v mode jiffies HZ k : Kernel_documented s →
  family k = None → hook k = None → timer k = None →
  wp (opennopdrv_init v mode jiffies HZ)
    (λ r k1,
       (r = 0 ∧ family k1 = Some opennop_nl_ops ∧ timer k1 = Some (jiffies + 15 * HZ) ∧ skbs k1 = skbs k
        ∧ (hook k1 = None ∨ hook k1 = Some opennop_hook)
        ∧ (∀ info, wp (opennop_nl_cmd_noop info)
             (λ r k2, skbs k2 = skbs k1
                ∧ unicasts k2 = unicasts k1 ++ (if r =? 0 then [(snd_portid info, SkBuff OPENNOP_CMD_NOOP (snd_seq info) [])] else []))
             (λ _ _, False) k1)
        ∧ (hook k1 ≠ None → wp opennopdrv_exit (λ _ k2, k2 = k) (λ _ _, False) k1))
       ∨ (r < 0 ∧ (k1 = k ∨ v = Before_3_0 ∧ k = set_family k1 None))) (λ _ _, False) k.
Proof.
  intros Hs Hf Hh Ht. eapply wp_mono; [by apply init_ok| |done]. intros r k1 [[-> (h & Hhk & ->)]|[Hr (f & -> & Hv)]].
  - left. split_and!; [done..| | |].
    + destruct Hhk as [->| ->]; [by left|right]. cbn. by rewrite mode_ignored.
    + intros info. eapply wp_mono; [apply noop_ok| |done]. naive_solver.
    + intros Hne. eapply wp_mono; [by apply exit_ok| |done]. intros _ k2 ->. destruct k. cbn in *. by subst.
  - right. split; [done|]. destruct v; [right|left..].
    + split; [done|]. destruct k. cbn in *. by subst.
    + rewrite (Hv ltac:(done)). destruct k. cbn in *. by subst.
    + rewrite (Hv ltac:(done)). destruct k. cbn in *. by subst.
Qed.

(** The echo command never answers: it loses its buffer when the message cannot be
    built, and otherwise sends it with a NULL network namespace. *)
Theorem echo_never_answers (s : System kcall kernel) info k : Kernel_documented s →
  wp (opennop_nl_cmd_echo (Some info))
    (λ r k', r = 0 ∧ unicasts k' = unicasts k
       ∧ ((skbs k' = skbs k ∧ oops k' = oops k)
          ∨ (∃ skb s, skbs k !! skb = None ∧ skbs k' = <[skb := s]> (skbs k) ∧ oops k' = oops k)
          ∨ oops k' = true)) (λ _ _, False) k.
Proof. intros Hs. apply echo_ok. Qed.

(** ** Heartbeats *)

(** C23: A heartbeat from the daemon to the module: whatever stands on the daemon's stack, the bytes [send_hb] hands
    to the kernel for the number of the OPENNOP family are a request that a kernel with the documented
    generic netlink layer delivers to the heartbeat command, and it has exactly the effect of an UP message
    while the service runs and of a DOWN message while it stops.  For the number of any other family it has
    none. *)
Theorem heartbeat_received deliver garbage message id pid servicestate : Genl_documented deliver →
  blen garbage = 276 → blen message = 14 → 0 <= id < 2 ^ 16 →
  ∃ m bs, hb_request garbage message id pid servicestate = Ret m ∧ request_bytes m = Ret bs
    ∧ ∀ ms tv_now family, genl_rcv deliver family ms tv_now bs
        = if family =? id then opennop_nl_cmd_hb ms tv_now (Some (send_hb servicestate)) else ms.
Proof.
  intros D Hg Hm Hid. destruct (hb_request_decodes garbage message id pid servicestate Hg Hm) as (m & bs & data & H1 & H2 & H3 & H4 & H5).
  rewrite u16_small in H3 by done. exists m, bs. split_and!; [done..|]. intros ms tv_now family. unfold genl_rcv.
  set (op := GenlOps OPENNOP_CMD_HB 0 opennop_nl_policy nl_cmd_hb).
  assert (Hops : NoDup (cmd <$> opennop_nl_ops)) by (apply (bool_decide_unpack _); reflexivity).
  assert (Hop : op ∈ opennop_nl_ops) by (right; right; left).
  destruct (Z.eqb_spec family id) as [->|Hne].
  - rewrite (genl_delivers id opennop_nl_ops op bs 1 OPENNOP_A_MSG data Hops Hop) by (done || by apply bool_decide_eq_true_2).
    cbn [doit op]. change (OPENNOP_A_MSG =? OPENNOP_A_MSG) with true. cbn [fmap option_fmap option_map]. by rewrite H4.
  - by rewrite (genl_refuses family opennop_nl_ops op bs id 1 OPENNOP_A_MSG data Hops Hop H3) by auto.
Qed.

(** ** The timer *)

(** Between two runs of the monitor. *)
Record driver_inv (late : Z) (d : driver) : Prop := DriverInv {
  di_now : now d <= expires d + late;
  di_soon : expires d <= now d + hbintervals * HBINTERVAL;
  di_up : daemonstate (state d) = DAEMON_UP → last_up d = Some (tv_lasthb (state d)) ∧ expires d < tv_lasthb (state d) + 2 * (hbintervals * HBINTERVAL);
  di_last : match last_up d with Some t => t = tv_lasthb (state d) | None => tv_lasthb (state d) = 0 ∧ hbintervals * HBINTERVAL <= expires d end
}.

(** The four fields, with the numbers computed. *)
Ltac fields := split; cbn [now expires state last_up]; change (hbintervals * HBINTERVAL) with 15 in *.

Lemma driver_inv_step late d d' : 0 <= late → driver_inv late d → driver_step late d d' → driver_inv late d'.
Proof.
  intros Hlate [H1 H2 H3 H4] Hs. change (hbintervals * HBINTERVAL) with 15 in *. destruct Hs as [d t Ht Htl|d He|d msg].
  - fields; [done|lia|done|done].
  - fields; [lia|lia| |by destruct (last_up d); [|split; [apply H4|lia]]].
    cbn [daemonmonitor_function daemonstate tv_lasthb]. change (hbintervals * HBINTERVAL) with 15.
    destruct (Z.leb_spec (tv_lasthb (state d)) (now d - 15)); [done|]. intros _.
    destruct (last_up d) as [t|]; [by subst; split; [|lia]|]. lia.
  - fields; [done|lia|..]; destruct msg as [[]|]; cbn [opennop_nl_cmd_hb daemonstate tv_lasthb]; try done.
    intros _. split; [done|lia].
Qed.

(** C22: The module never trusts a silent daemon for long: at every time, whatever heartbeats came and
    however the timer ran, a packet is queued to the daemon only if a message UP arrived less than 30 seconds
    ago (and the time by which the timer may run late). *)
Theorem queueing_bounded late t0 d s : 0 <= late → 0 <= t0 → rtc (driver_step late) (loaded t0) d →
  queue_function (state d) s = NF_QUEUE → ∃ t, last_up d = Some t ∧ now d < t + 30 + late.
Proof.
  intros Hlate Ht0 Hr Hq. apply queue_iff_up in Hq as [Hup _].
  assert (driver_inv late d) as Hd.
  { revert d Hr Hup. enough (∀ d, rtc (driver_step late) (loaded t0) d → driver_inv late d) by eauto.
    apply rtc_ind_r; [|intros; by eapply driver_inv_step]. fields; cbn [loaded now expires state last_up]; try done; change (hbintervals * HBINTERVAL) with 15; try split; lia || done. }
  destruct (di_up _ _ Hd Hup) as [Hl He]. exists (tv_lasthb (state d)). split; [done|].
  pose proof (di_now _ _ Hd). unfold hbintervals, HBINTERVAL in *. lia.
Qed.

(** ** Witnesses *)

(** A kernel in which nothing fails; buffers are numbered from 1. *)
Definition kernel_table (c : kcall) (k : kernel) : Z * kernel :=
  match c with
  | Genlmsg_new => let skb := Z.pos (fresh (set_map (D := gset positive) Z.to_pos (dom (skbs k)))) in
      (skb, set_skbs k (<[skb := SkBuff (-1) 0 []]> (skbs k)))
  | Genlmsg_put skb _ seq c => (skb, if skb =? 0 then k else set_skbs k (<[skb := SkBuff c seq []]> (skbs k)))
  | Nla_put_string skb a t => (0, set_skbs k (alter (λ s, SkBuff (s_cmd s) (s_seq s) (s_attrs s ++ [(a, t)])) skb (skbs k)))
  | Genlmsg_end _ => (0, k)
  | Genlmsg_unicast false _ _ => (0, oopsed k)
  | Genlmsg_unicast true skb pid =>
      match skbs k !! skb with
      | Some s => (0, Kernel (delete skb (skbs k)) (unicasts k ++ [(pid, s)]) (family k) (hook k) (timer k) (oops k))
      | None => (-1, set_skbs k (delete skb (skbs k)))
      end
  | Nlmsg_free skb => (0, set_skbs k (delete skb (skbs k)))
  | Genl_register_family_with_ops ops => match family k with None => (0, set_family k (Some ops)) | _ => (-17, k) end
  | Genl_register_family => match family k with None => (0, set_family k (Some [])) | _ => (-17, k) end
  | Genl_register_ops op => match family k with Some ops => (0, set_family k (Some (ops ++ [op]))) | _ => (-2, k) end
  | Genl_unregister_family => (0, set_family k None)
  | Nf_register_hook h => (0, set_hook k (Some h))
  | Nf_unregister_hook => (0, match hook k with Some _ => set_hook k None | None => oopsed k end)
  | Add_timer e => (0, set_timer k (Some e))
  | Del_timer_sync => (0, set_timer k None)
  end.

Definition kernel_system : System kcall kernel := computed kernel_table.

Lemma kernel_table_documented : Kernel_documented kernel_system.
Proof.
  intros c k r k' H. unfold step, kernel_system, computed in H.
  destruct c as [|skb pid seq c|skb a t|skb|[] skb pid|skb|ops| |op| |h| |e|]; cbn [kernel_answers kernel_table] in *; repeat case_match; simplify_eq; try done; eauto 6.
  - right. split_and!; [done| |done]. apply not_elem_of_dom. intros Hin.
    eapply (is_fresh (set_map (D := gset positive) Z.to_pos (dom (skbs k)))). apply elem_of_map. eexists. split; [|exact Hin]. done.
  - left. split; [lia|done].
  - right. split; [lia|done].
  - by left.
  - by left.
  - by left.
  - by left.
Qed.

Definition empty_kernel : kernel := Kernel ∅ [] None None None false.

(** Loaded in bridged mode, pinged, unloaded. *)
Example load_ping_unload :
  exec kernel_table (
    r ← opennopdrv_init After_3_1_2 "bridged" 1000 250;
    n ← opennop_nl_cmd_noop (GenlInfo 77 5 None);
    _ ← opennopdrv_exit; mret (r, n)) empty_kernel
  = (inl (0, 0), Kernel ∅ [(77, SkBuff OPENNOP_CMD_NOOP 5 [])] None None None false).
Proof. by vm_compute. Qed.

Lemma module_load_unload_witness :
  wp (system := kernel_system) (opennopdrv_init Before_3_0 "bridged" 1000 250)
    (λ r k1, (r = 0 ∧ hook k1 ≠ None) → wp (system := kernel_system) opennopdrv_exit (λ _ k2, k2 = empty_kernel) (λ _ _, False) k1)
    (λ _ _, False) empty_kernel.
Proof.
  pose proof (module_load_unload kernel_system Before_3_0 "bridged" 1000 250 empty_kernel kernel_table_documented eq_refl eq_refl eq_refl) as H.
  eapply wp_mono; [exact H| |done]. cbv beta. intros r k1 [(_ & _ & _ & _ & _ & _ & Hx)|[Hr _]] [Hr' Hh]; [by apply Hx|lia].
Defined.

(** A generic netlink layer that reads the message at its documented places. *)
Definition plain_genl : genl_layer := λ id ops bs,
  match bs with
  | _ :: _ :: _ :: _ :: t0 :: t1 :: f0 :: _ :: _ :: _ :: _ :: _ :: _ :: _ :: _ :: _ :: c :: _ :: _ :: _
      :: n0 :: n1 :: a0 :: a1 :: rest =>
      let attr := a0 + 256 * a1 in
      let data := take (Z.to_nat (n0 + 256 * n1 - 4)) rest in
      match list_find (λ op, cmd op = c) ops with
      | Some (_, op) =>
          if (t0 + 256 * t1 =? id) && Z.testbit f0 0 && nla_ok (policy op attr) data
          then Some (doit op, λ a, if a =? attr then Some data else None) else None
      | None => None
      end
  | _ => None
  end.

Lemma find_command ops op : NoDup (cmd <$> ops) → op ∈ ops → ∃ i, list_find (λ o, cmd o = cmd op) ops = Some (i, op).
Proof.
  intros Hn (i & Hi)%list_elem_of_lookup_1. exists i. apply list_find_Some. split_and!; [done|done|].
  intros j o Hj Hlt E. assert (Hij : j = i); [|lia].
  apply (NoDup_lookup (cmd <$> ops) j i (cmd op)); [done|rewrite list_lookup_fmap, Hj; simpl; by rewrite E|].
  by rewrite list_lookup_fmap, Hi.
Qed.

Lemma plain_genl_reads id ops op bs type flags attr data :
  NoDup (cmd <$> ops) → op ∈ ops → genl_message bs type flags (cmd op) attr data →
  plain_genl id ops bs = if (type =? id) && Z.testbit flags 0 && nla_ok (policy op attr) data
                         then Some (doit op, λ a, if a =? attr then Some data else None) else None.
Proof.
  intros Hn Hop (seq & port & v & r1 & r2 & pad & Hbs & _ & _ & Ht & Hc & Ha & Hd & _).
  pose proof (blen_nonneg data) as H0. unfold le32 at 1, le16 at 1 2 in Hbs. cbn [app] in Hbs.
  generalize dependent (u8 (blen bs)). intros l0. generalize (u8 (blen bs / 256)). intros l1.
  generalize (u8 (blen bs / 65536)). intros l2. generalize (u8 (blen bs / 65536 / 256)). intros l3 Hbs.
  rewrite Hbs. unfold plain_genl, le32, le16. cbn [app]. cbv zeta.
  rewrite (u8_pair type), (u8_pair attr), (u8_pair (4 + blen data)) by (done || lia).
  replace (Z.to_nat (4 + blen data - 4)) with (length data) by (unfold blen; lia).
  rewrite take_app_length. destruct (find_command ops op Hn Hop) as [i ->].
  assert (Hf : Z.testbit (u8 flags) 0 = Z.testbit flags 0) by (unfold u8; by rewrite Z.mod_pow2_bits_low by lia).
  by rewrite Hf.
Qed.

#[export] Instance plain_genl_documented : Genl_documented plain_genl.
Proof.
  split.
  - intros id ops op bs flags attr data Hn Hop _ Hm Hr Hp. rewrite (plain_genl_reads id ops op bs id flags attr data) by done.
    by rewrite Z.eqb_refl, Hr, Hp.
  - intros id ops op bs type flags attr data Hn Hop Hm H. rewrite (plain_genl_reads id ops op bs type flags attr data) by done.
    unfold is_request in H. destruct H as [H|[H|H]].
    + destruct (Z.testbit flags 0); [done|]. by rewrite andb_false_r.
    + by rewrite (proj2 (Z.eqb_neq _ _) H).
    + rewrite H. by rewrite andb_false_r.
Qed.

Lemma heartbeat_received_witness :
  ∃ m bs, hb_request (replicate 276 7) (replicate 14 9) 27 100 1 = Ret m ∧ request_bytes m = Ret bs
    ∧ genl_rcv plain_genl 27 initial_module 1000 bs = Module_ DAEMON_UP 1000
    ∧ genl_rcv plain_genl 28 initial_module 1000 bs = initial_module.
Proof.
  destruct (heartbeat_received plain_genl (replicate 276 7) (replicate 14 9) 27 100 1 plain_genl_documented) as (m & bs & H1 & H2 & H3);
    [done..|lia|].
  exists m, bs. split_and!; [exact H1|exact H2|exact (H3 initial_module 1000 27)|exact (H3 initial_module 1000 28)].
Defined.

Lemma queueing_bounded_witness :
  ∃ d, rtc (driver_step 0) (loaded 100) d ∧ queue_function (state d) (Some (Skb true true IPPROTO_TCP)) = NF_QUEUE
    ∧ ∃ t, last_up d = Some t ∧ now d < t + 30 + 0.
Proof.
  exists (Driver_ (Module_ DAEMON_UP 100) 100 115 (Some 100)).
  assert (rtc (driver_step 0) (loaded 100) (Driver_ (Module_ DAEMON_UP 100) 100 115 (Some 100))) as Hr
    by (apply rtc_once, (heartbeat_arrives 0 (loaded 100) (Some HB_UP))).
  split_and!; [exact Hr|done|].
  by apply (queueing_bounded 0 100 _ (Some (Skb true true IPPROTO_TCP))).
Defined.

(** On a kernel before 3.0 a command that cannot be registered leaves the family behind, with
    the code of a module that is not loaded. *)
Example family_left_behind :
  let table := λ c k, match c with Genl_register_ops (GenlOps 1 _ _ _) => (-16, k) | _ => kernel_table c k end in
  match exec table (opennopdrv_init Before_3_0 "routed" 1000 250) empty_kernel with
  | (inl r, k) => r = -16 ∧ cmd <$> default [] (family k) = [OPENNOP_CMD_NOOP] ∧ hook k = None
  | _ => False
  end.
Proof. by vm_compute. Qed.
