(* ===== verification/SessionCleanup.v ===== *)
(** * Dead session detection (opennopd/subsystems/sessioncleanup.c)

    Every [cleanup_timer] seconds each bucket is walked: an idle session is
    probed with a TCP keepalive and its [deadcounter] grows, a session whose
    counter passed 2 is removed. *)
From S2P Require Import Prelude Packet TcpOptions OptionLayout OptionOps NodTag Csum Checked Dll WorkerPool Session.

Definition KEEPALIVE_BUFSIZE : nat := Z.to_nat 2048.
Definition cleanup_timer : Z := 30.

Section Cleanup.
(** [localid] is [get_opennop_id()]. *)
Context (fuel : nat) (delta : Z) (localid : list Z).

(** The bare packet, before the NOD option and the checksums. *)
Definition keepalive_headers (saddr source seq daddr dest ack_seq : Z) : outcome buffer :=
  let p := replicate KEEPALIVE_BUFSIZE 0 in
  p ← wr p 0 (5 + 16 * 4);                       (* ihl, version *)
  p ← st16 p 2 (htons 40);                       (* tot_len *)
  p ← wr p 8 64;                                 (* ttl *)
  p ← wr p 9 IPPROTO_TCP;
  p ← st32 p 12 saddr;
  p ← st32 p 16 daddr;
  p ← st16 p 20 source;
  p ← st16 p 22 dest;
  p ← st32 p 24 (htonl (u32 (seq - 1)));
  p ← st32 p 28 (htonl ack_seq);
  p ← wr p 32 (16 * 5);                          (* doff *)
  p ← wr p 33 16;                                (* ACK *)
  st16 p 34 (htons 65535).                       (* window *)

(** The bytes [sendkeepalive] hands to [sendto]. *)
Definition sendkeepalive (saddr source seq daddr dest ack_seq : Z) : outcome buffer :=
  p ← keepalive_headers saddr source seq daddr dest ack_seq;
  p ← set_nod_header_data fuel delta p ONOP localid;
  t ← tcph_of p;
  tot ← ip_tot_len p;
  let tcplen := u16 (ntohs tot - t) in
  p ← set_tcp_check p t 0;
  c ← tcp_sum_calc p tcplen 12 16 t;
  p ← set_tcp_check p t c;
  p ← set_ip_check p 0;
  c ← ip_sum_calc p t 0;
  p ← set_ip_check p c;
  tot ← ip_tot_len p;
  if in_object p 0 (ntohs tot) then Ret (sub p 0 (ntohs tot)) else Undef.

Definition set_previoussequence (e : endpoint) : endpoint :=
  Endpoint (address e) (port e) (sequence e) (sequence e) (nextsequence e) (accelerator e).

(** The idle check of one live session: the updated session and the
    keepalive sent, if any. *)
Definition probe_session (d : session) : outcome (session * list buffer) :=
  let l := larger d in
  let m := smaller d in
  '(dc, out) ←
    (if sequence l =? previoussequence l then
       k ← sendkeepalive (address m) (port m) (sequence m) (address l) (port l) (sequence l);
       Ret (u8 (deadcounter d + 1), [k])
     else if sequence m =? previoussequence m then
       k ← sendkeepalive (address l) (port l) (sequence l) (address m) (port m) (sequence m);
       Ret (u8 (deadcounter d + 1), [k])
     else Ret (0, []));
  Ret (Session (s_head d) (client d) (server d) (set_previoussequence l) (set_previoussequence m)
         dc (state d) (queue d), out).

Fixpoint cleanup_loop (n : nat) (s : smstate) (cur : option loc) (out : list buffer)
    : outcome (smstate * list buffer) :=
  match n with
  | O => Spin
  | S n' =>
      match cur with
      | None => Ret (s, out)
      | Some x =>
          nd ← load (sheap s) (Some x);
          if 2 <? deadcounter (n_data nd) then
            match n_next nd with
            | Some y =>
                ny ← load (sheap s) (Some y);
                s ← clearsession s (n_prev ny);
                cleanup_loop n' s (Some y) out
            | None => s ← clearsession s (Some x); cleanup_loop n' s None out
            end
          else
            '(d, k) ← probe_session (n_data nd);
            h ← store_data (sheap s) (Some x) d;
            cleanup_loop n' (set_sheap s h) (n_next nd) (out ++ k)
      end
  end.

(** [cleanuplist(getsessionhead(i))] *)
Definition cleanuplist (s : smstate) (i : Z) : outcome (smstate * list buffer) :=
  cleanup_loop (S (list_fuel (sheap s))) s (h_next (getsessionhead s i)) [].

Fixpoint cleanup_buckets (n : nat) (s : smstate) (i : Z) (out : list buffer)
    : outcome (smstate * list buffer) :=
  match n with
  | O => Ret (s, out)
  | S n' =>
      '(s, out) ←
        match h_next (getsessionhead s i) with
        | Some _ => '(s, k) ← cleanuplist s i; Ret (s, out ++ k)
        | None => Ret (s, out)
        end;
      cleanup_buckets n' s (i + 1) out
  end.

(** One wake-up of [cleanup_function]. *)
Definition cleanup_pass (dead_session_detection : bool) (s : smstate)
    : outcome (smstate * list buffer) :=
  if dead_session_detection then cleanup_buckets (Z.to_nat SESSIONBUCKETS) s 0 [] else Ret (s, []).
End Cleanup.

(** The CLI commands that set the switch. *)
Definition cli_dead_session_detection_enable (d : bool) : bool := true.
Definition cli_dead_session_detection_disable (d : bool) : bool := false.

(** * The keepalive packet *)
Definition keepalive_hdr (saddr source s daddr dest ack : Z) : list Z :=
  let le16 v := [u8 v; u8 (v / 256)] in
  let le32 v := le16 v ++ le16 (v / 65536) in
  [69; 0; 0; 40; 0; 0; 0; 0; 64; 6; 0; 0] ++ le32 saddr ++ le32 daddr
  ++ le16 source ++ le16 dest ++ le32 s ++ le32 ack ++ [80; 16; 255; 255; 0; 0; 0; 0].

Lemma keepalive_headers_eq saddr source seq daddr dest ack :
  keepalive_headers saddr source seq daddr dest ack
  = Ret (keepalive_hdr saddr source (htonl (u32 (seq - 1))) daddr dest (htonl ack) ++ replicate 2008 0).
Proof.
  unfold keepalive_headers, st32.
  assert (E : replicate KEEPALIVE_BUFSIZE 0 = replicate 40 0 ++ replicate 2008 0).
  { rewrite <-replicate_add. f_equal. }
  rewrite E. set (R := replicate 2008 0). clearbody R. clear E.
  set (s := htonl (u32 (seq - 1))). set (a := htonl ack). clearbody s a.
  repeat (first [rewrite wr_app_l by (rewrite ?blen_insert; change (blen (replicate 40 0)) with 40; lia)
                | rewrite st16_app_l by (rewrite ?blen_insert; change (blen (replicate 40 0)) with 40; lia)];
          cbn [mbind outcome_bind]).
  reflexivity.
Qed.

Lemma keepalive_hdr_ok saddr source s daddr dest ack :
  0 <= s < 2 ^ 32 → packet_ok (keepalive_hdr saddr source s daddr dest ack) 20 5 40 s [] [].
Proof.
  intros Hs. split; [|by split|done]. split; try done.
  - cbn. repeat (apply Forall_cons; split; [first [apply u8_bound|lia]|]). apply Forall_nil. done.
  - unfold tcp_seq, ld32, ld16. set (k := keepalive_hdr _ _ _ _ _ _).
    change (rd k (20 + 4)) with (Ret (u8 s)). change (rd k (20 + 4 + 1)) with (Ret (u8 (s / 256))).
    change (rd k (20 + 4 + 2)) with (Ret (u8 (s / 65536))). change (rd k (20 + 4 + 2 + 1)) with (Ret (u8 (s / 65536 / 256))).
    cbn [mbind outcome_bind]. f_equal. by apply u8_quad.
Qed.

(** The probe as it is sent: the tag is the only option, both checksums verify. *)
Section Keepalive.
Context (fuel : nat) (delta : Z) (localid : list Z).
Context (Hfuel : (64 <= fuel)%nat) (Hid : bytes localid) (Hlen : blen localid = 4).

Lemma sendkeepalive_spec saddr source seq daddr dest ack :
  ∃ H, sendkeepalive fuel delta localid saddr source seq daddr dest ack = Ret (pkt H [nod_tag localid] 8 [] [])
    ∧ packet_ok H 20 8 52 (htonl (u32 (seq - 1))) [nod_tag localid] []
    ∧ valid_checksums (pkt H [nod_tag localid] 8 [] []) 20
    ∧ ∀ i, 12 <= i < 24 → H @@ i = keepalive_hdr saddr source (htonl (u32 (seq - 1))) daddr dest (htonl ack) @@ i.
Proof.
  set (s := htonl (u32 (seq - 1))). set (K := keepalive_hdr saddr source s daddr dest (htonl ack)).
  assert (Hp : packet_ok K 20 5 40 s [] []) by apply keepalive_hdr_ok, ntohl_bound, u32_bound.
  destruct (set_nod_header_data_steps (S := replicate 2008 0) Hfuel delta Hp ltac:(constructor) localid 1 1 1)
    as (H1 & E1 & Hp1 & V1); [done|done|done|done|done|lia|rewrite blen_replicate; lia|lia|].
  change (1 =? 0) with false in *. cbn match in *. change (5 + (1 + 1 + 1)) with 8 in *.
  change (40 + 4 * (1 + 1 + 1)) with 52 in *. change (no_nops [] ++ [nod_tag localid]) with [nod_tag localid] in *.
  set (R := drop _ _) in E1. assert (HR : 1 <= blen R ∧ bytes R).
  { unfold R. rewrite blen_drop by (rewrite blen_replicate; lia). rewrite blen_replicate. split; [lia|].
    by apply Forall_drop, Forall_replicate. }
  clearbody R. destruct HR as [HR1 HR2]. pose proof (hdr_len _ _ _ _ _ (ok_hdr _ _ _ _ _ _ _ Hp)) as Hl0.
  assert (Hproto : rd H1 9 = Ret IPPROTO_TCP).
  { pose proof (eqv_len _ _ _ V1). rewrite rd_at by lia. rewrite (eqv_rest _ _ _ V1) by lia. done. }
  destruct (checksum_pkt Hp1 Hproto ltac:(constructor) HR2 HR1) as (H2 & E2 & Hp2 & V2 & Hval).
  pose proof (ok_hdr _ _ _ _ _ _ _ Hp1) as Hh1. pose proof (ok_hdr _ _ _ _ _ _ _ Hp2) as Hh2.
  assert (Esplit : pkt H2 [nod_tag localid] 8 [] R = pkt H2 [nod_tag localid] 8 [] [] ++ R).
  { unfold pkt. cbn [app]. by rewrite app_nil_r, <-app_assoc. }
  assert (Hb : blen (pkt H2 [nod_tag localid] 8 [] []) = 52) by (rewrite (pkt_blen Hp2); done).
  exists H2. split_and!; [|done|done|].
  - unfold sendkeepalive. rewrite keepalive_headers_eq. cbn [mbind outcome_bind]. fold s K.
    change (K ++ replicate 2008 0) with (pkt K [] 5 [] (replicate 2008 0)). rewrite E1. cbn [mbind outcome_bind].
    unfold checksum in E2. replace (ip_protocol (pkt H1 [nod_tag localid] 8 [] R)) with (Ret (A := Z) IPPROTO_TCP) in E2.
    2:{ unfold ip_protocol, pkt. pose proof (hdr_len _ _ _ _ _ Hh1). by rewrite rd_app_l by lia. }
    cbn [mbind outcome_bind] in E2. change (IPPROTO_TCP =? IPPROTO_TCP) with true in E2. cbn match in E2.
    repeat (let v := fresh "v" in let E := fresh "E" in
      apply bind_Ret in E2 as (v & E & E2); rewrite E; cbn [mbind outcome_bind]).
    rewrite E2. cbn [mbind outcome_bind].
    assert (Et : ip_tot_len (pkt H2 [nod_tag localid] 8 [] R) = Ret (htons 52)) by (unfold pkt; by opt_head Hh2).
    rewrite Et. cbn [mbind outcome_bind]. change (ntohs (htons 52)) with 52.
    rewrite Esplit. change (pkt H2 [nod_tag localid] 8 [] [] ++ R) with ([] ++ pkt H2 [nod_tag localid] 8 [] [] ++ R).
    rewrite in_object_app by done. f_equal. rewrite <-Hb. apply (sub_app []).
  - intros i Hi. destruct V2 as [_ V2]. rewrite V2 by lia. apply (eqv_rest _ _ _ V1); lia.
Qed.
End Keepalive.

(** A keepalive is a complete, valid packet on behalf of one end of the session:
    52 bytes with the addresses, ports and decremented sequence number asked for,
    both checksums right, and tagged with the local accelerator id, so that the
    next node recognises it. *)
Theorem keepalive_well_formed fuel delta localid saddr source seq daddr dest ack :
  (64 <= fuel)%nat → bytes localid → blen localid = 4 →
  0 <= saddr < 2 ^ 32 → 0 <= daddr < 2 ^ 32 → 0 <= source < 65536 → 0 <= dest < 65536 →
  ∃ k off, sendkeepalive fuel delta localid saddr source seq daddr dest ack = Ret k
    ∧ blen k = 52 ∧ ip_tot_len k = Ret (htons 52) ∧ valid_checksums k 20
    ∧ ip_saddr k = Ret saddr ∧ ip_daddr k = Ret daddr ∧ tcp_source k 20 = Ret source ∧ tcp_dest k 20 = Ret dest
    ∧ tcp_seq k 20 = Ret (htonl (u32 (seq - 1)))
    ∧ get_nod_header_data fuel delta k ONOP = Ret (4, Some off) ∧ sub k off 4 = localid.
Proof.
  intros Hfuel Hid Hlen Hsa Hda Hso Hde.
  destruct (sendkeepalive_spec fuel delta localid Hfuel Hid Hlen saddr source seq daddr dest ack)
    as (H & E & Hp & Hval & Hb).
  pose proof (ok_hdr _ _ _ _ _ _ _ Hp) as Hh. pose proof (hdr_len _ _ _ _ _ Hh) as Hl.
  destruct (tag_read (S := []) (l := []) delta localid Hfuel Hp ltac:(constructor) Hlen) as (off & Eg & _ & Es).
  set (k := pkt H [nod_tag localid] 8 [] []) in *.
  assert (Hrd : ∀ i, 12 <= i < 24 → rd k i = Ret (keepalive_hdr saddr source (htonl (u32 (seq - 1))) daddr dest (htonl ack) @@ i)).
  { intros i Hi. unfold k, pkt. rewrite rd_app_l, rd_at by lia. f_equal. by apply Hb. }
  exists k, off. split_and!; [done|unfold k; by rewrite (pkt_blen Hp)|unfold k, pkt; by opt_head Hh|done| | | | | |done|done].
  - unfold ip_saddr, ld32, ld16. rewrite !Hrd by lia. cbn [mbind outcome_bind]. f_equal. by apply u8_quad.
  - unfold ip_daddr, ld32, ld16. rewrite !Hrd by lia. cbn [mbind outcome_bind]. f_equal. by apply u8_quad.
  - unfold tcp_source, ld16. rewrite !Hrd by lia. cbn [mbind outcome_bind]. f_equal. by apply u8_pair.
  - unfold tcp_dest, ld16. rewrite !Hrd by lia. cbn [mbind outcome_bind]. f_equal. by apply u8_pair.
  - unfold k, pkt. by opt_head Hh.
Qed.

Lemma keepalive_well_formed_witness :
  ∃ k off, sendkeepalive 64 (-8) [10; 0; 0; 9] 167772161 4000 500 167772162 80 600 = Ret k
    ∧ blen k = 52 ∧ ip_tot_len k = Ret (htons 52) ∧ valid_checksums k 20
    ∧ ip_saddr k = Ret 167772161 ∧ ip_daddr k = Ret 167772162 ∧ tcp_source k 20 = Ret 4000 ∧ tcp_dest k 20 = Ret 80
    ∧ tcp_seq k 20 = Ret (htonl (u32 (500 - 1)))
    ∧ get_nod_header_data 64 (-8) k ONOP = Ret (4, Some off) ∧ sub k off 4 = [10; 0; 0; 9].
Proof.
  apply (keepalive_well_formed 64 (-8) [10; 0; 0; 9] 167772161 4000 500 167772162 80 600); try lia; [|done].
  repeat constructor; lia.
Defined.

(** * The walk over the table *)

(** No packet moved the sequence number of one of the ends since the last pass. *)
Definition idle (d : session) : bool :=
  (sequence (larger d) =? previoussequence (larger d)) || (sequence (smaller d) =? previoussequence (smaller d)).

Definition probed (d : session) : session :=
  Session (s_head d) (client d) (server d) (set_previoussequence (larger d)) (set_previoussequence (smaller d))
    (if idle d then u8 (deadcounter d + 1) else 0) (state d) (queue d).

(** What one pass makes of a session. *)
Definition after_pass (d : session) : option session := if 2 <? deadcounter d then None else Some (probed d).

Lemma probed_identity d : same_identity d (probed d).
Proof. by destruct d as [? ? ? [] [] ? ? ?]. Qed.

Section Pass.
Context (fuel : nat) (delta : Z) (localid : list Z).
Context (Hfuel : (64 <= fuel)%nat) (Hid : bytes localid) (Hlen : blen localid = 4).

Lemma probe_session_spec d :
  ∃ out, probe_session fuel delta localid d = Ret (probed d, out) ∧ length out = if idle d then 1%nat else 0%nat.
Proof.
  unfold probe_session, probed, idle.
  destruct (sequence (larger d) =? previoussequence (larger d)); cbn [orb].
  - destruct (sendkeepalive_spec fuel delta localid Hfuel Hid Hlen (address (smaller d)) (port (smaller d))
      (sequence (smaller d)) (address (larger d)) (port (larger d)) (sequence (larger d))) as (H & -> & _).
    cbn [mbind outcome_bind]. by eexists.
  - destruct (sequence (smaller d) =? previoussequence (smaller d)).
    + destruct (sendkeepalive_spec fuel delta localid Hfuel Hid Hlen (address (larger d)) (port (larger d))
        (sequence (larger d)) (address (smaller d)) (port (smaller d)) (sequence (smaller d))) as (H & -> & _).
      cbn [mbind outcome_bind]. by eexists.
    + by eexists.
Qed.

(** [s'] is [s] after the sessions of [l] were looked at. *)
Definition passed (l : list loc) (s s' : smstate) : Prop :=
  (∀ x, x ∈ l → live s' !! x = live s !! x ≫= after_pass) ∧ (∀ x, x ∉ l → live s' !! x = live s !! x).

Lemma passed_cons x l s s1 s2 :
  x ∉ l → (live s1 !! x = live s !! x ≫= after_pass) → (∀ y, y ≠ x → live s1 !! y = live s !! y) →
  passed l s1 s2 → passed (x :: l) s s2.
Proof.
  intros Hx H1 H2 [P1 P2]. split.
  - intros y [->|Hy]%elem_of_cons; [by rewrite P2|]. rewrite P1 by done. f_equal. apply H2. by intros ->.
  - intros y Hy. apply not_elem_of_cons in Hy as [Hne Hy]. rewrite P2 by done. by apply H2.
Qed.

Lemma at_node s B b l1 x l2 :
  table_inv s B → B b = l1 ++ x :: l2 →
  ∃ d, sheap s !! x = Some (Node (first l2 None) (final None l1) d) ∧ s_head d = b.
Proof.
  intros Hinv EB. destruct (inv_dll _ _ Hinv b) as (_ & _ & _ & Hs). rewrite EB in Hs.
  apply seg_app in Hs as [_ (d & Hd & [Hb _] & _)]. by exists d.
Qed.

(** The rest [l2] of a bucket. *)
Lemma cleanup_loop_spec n s B b l1 l2 out :
  table_inv s B → B b = l1 ++ l2 → (length l2 < n)%nat →
  ∃ s' B' out', cleanup_loop fuel delta localid n s (first l2 None) out = Ret (s', out')
    ∧ table_inv s' B' ∧ (∀ c, c ≠ b → B' c = B c) ∧ passed l2 s s'.
Proof.
  revert s B l1 out n. induction l2 as [|x l2 IH]; intros s B l1 out n Hinv EB Hn;
    (destruct n as [|n]; [simpl in Hn; lia|]); cbn [cleanup_loop first].
  { exists s, B, out. split_and!; [done|done|done|]. split; [by intros y ?%not_elem_of_nil|done]. }
  destruct (at_node _ _ _ _ _ _ Hinv EB) as (d & Hx & Hb).
  assert (Hlx : live s !! x = Some d) by (apply live_Some; by eexists).
  assert (HN : NoDup (l1 ++ x :: l2)) by (rewrite <-EB; by destruct (inv_dll _ _ Hinv b)).
  assert (Hx2 : x ∉ l2) by (apply NoDup_app in HN as (_ & _ & [? _]%NoDup_cons); done).
  assert (El : load (sheap s) (Some x) = Ret (Node (first l2 None) (final None l1) d)) by (unfold load, deref; by rewrite Hx). rewrite El. cbn [mbind outcome_bind n_data n_next].
  destruct (2 <? deadcounter d) eqn:Ed.
  - destruct (clearsession_inv _ _ _ _ Hinv Hlx) as (s1 & E1 & L1 & I1).
    rewrite Hb, EB, without_app in I1 by done.
    destruct (IH s1 _ l1 out n I1) as (s' & B' & out' & E' & I' & HB' & P').
    { unfold update_bucket. by rewrite decide_True. } { simpl in Hn. lia. }
    exists s', B', out'. split_and!; [|done| |].
    + destruct l2 as [|y l3]; cbn [first] in *.
      * rewrite E1. cbn [mbind outcome_bind]. done.
      * destruct (at_node s B b (l1 ++ [x]) y l3 Hinv) as (e & Hy & _); [by rewrite EB, <-app_assoc|].
        unfold load, deref. rewrite Hy. cbn [mbind outcome_bind n_prev]. rewrite final_app, E1. done.
    + intros c Hc. rewrite HB' by done. unfold update_bucket. by rewrite decide_False.
    + apply (passed_cons _ _ _ s1); [done| | |done].
      * rewrite L1, lookup_delete_eq, Hlx. cbn. unfold after_pass. by rewrite Ed.
      * intros y Hy. by rewrite L1, lookup_delete_ne.
  - destruct (probe_session_spec d) as (k & Ek & _). rewrite Ek. cbn [mbind outcome_bind].
    destruct (table_inv_update _ _ _ _ _ Hinv Hx (probed_identity d)) as [L1 I1].
    unfold store_data, deref. rewrite Hx. cbn [mbind outcome_bind n_next n_prev] in *.
    set (s1 := set_sheap s _) in *.
    destruct (IH s1 B (l1 ++ [x]) (out ++ k) n I1) as (s' & B' & out' & E' & I' & HB' & P').
    { by rewrite EB, <-app_assoc. } { simpl in Hn. lia. }
    exists s', B', out'. split_and!; [done|done|done|].
    apply (passed_cons _ _ _ s1); [done| | |done].
    + rewrite L1, lookup_insert_eq, Hlx. cbn. unfold after_pass. by rewrite Ed.
    + intros y Hy. by rewrite L1, lookup_insert_ne.
Qed.

Lemma cleanuplist_spec s B b :
  table_inv s B →
  ∃ s' B' out, cleanuplist fuel delta localid s b = Ret (s', out)
    ∧ table_inv s' B' ∧ (∀ c, c ≠ b → B' c = B c) ∧ passed (B b) s s'.
Proof.
  intros Hinv. unfold cleanuplist. pose proof (inv_dll _ _ Hinv b) as Hd.
  pose proof (dll_length _ _ _ _ Hd). destruct Hd as (_ & -> & _).
  apply (cleanup_loop_spec _ s B b []); [done|done|]. unfold list_fuel. lia.
Qed.

(** A pass over the buckets [i .. i+n-1]. *)
Definition pass_over (i n : Z) (d : session) : option session :=
  if bool_decide (i <= s_head d < i + n) then after_pass d else Some d.

Lemma after_pass_head d d' : after_pass d = Some d' → s_head d' = s_head d.
Proof. unfold after_pass. destruct (2 <? deadcounter d); [done|]. by intros [= <-]. Qed.

Lemma pass_over_step i n d : 0 <= n → pass_over i 1 d ≫= pass_over (i + 1) n = pass_over i (1 + n) d.
Proof.
  intros Hn. assert (E : ∀ j m, pass_over j m d = if decide (j <= s_head d < j + m) then after_pass d else Some d).
  { intros j m. unfold pass_over. case_bool_decide; [by rewrite decide_True|by rewrite decide_False]. }
  rewrite !E. destruct (decide (i <= s_head d < i + 1)).
  - rewrite decide_True by lia. destruct (after_pass d) as [d'|] eqn:Ea; [|done]. cbn.
    unfold pass_over. rewrite bool_decide_false; [done|]. rewrite (after_pass_head _ _ Ea). lia.
  - cbn. rewrite E. destruct (decide (i + 1 <= s_head d < i + 1 + n)); [by rewrite decide_True by lia|by rewrite decide_False by lia].
Qed.

Lemma passed_bucket s B i s' :
  table_inv s B → passed (B i) s s' → ∀ x, live s' !! x = live s !! x ≫= pass_over i 1.
Proof.
  intros Hinv [P1 P2] x. destruct (live s !! x) as [d|] eqn:E.
  - destruct (live_listed _ _ Hinv _ _ E) as [Hin _]. cbn. unfold pass_over. case_bool_decide as H1.
    + replace (s_head d) with i in Hin by lia. by rewrite P1, E.
    + rewrite P2; [done|]. intros Hx. destruct (listed_inv _ _ Hinv i x Hx) as (n & Hn & Hb & _).
      apply live_Some in E as (n' & Hn' & <-). rewrite Hn in Hn'. injection Hn' as <-. lia.
  - cbn. rewrite P2; [done|]. intros Hx. destruct (listed_inv _ _ Hinv i x Hx) as (n & Hn & _).
    assert (Hs : live s !! x = Some (n_data n)) by (apply live_Some; by eexists). by rewrite Hs in E.
Qed.

Lemma cleanup_buckets_spec n s B i out :
  table_inv s B →
  ∃ s' B' out', cleanup_buckets fuel delta localid n s i out = Ret (s', out')
    ∧ table_inv s' B' ∧ ∀ x, live s' !! x = live s !! x ≫= pass_over i (Z.of_nat n).
Proof.
  revert s B i out. induction n as [|n IH]; intros s B i out Hinv; cbn [cleanup_buckets].
  { exists s, B, out. split_and!; [done|done|]. intros x. destruct (live s !! x); [|done]. cbn.
    unfold pass_over. by rewrite bool_decide_false by lia. }
  assert (∃ s1 B1 out1, (match h_next (getsessionhead s i) with
      | Some _ => '(s, k) ← cleanuplist fuel delta localid s i; Ret (s, out ++ k)
      | None => Ret (s, out) end) = Ret (s1, out1)
    ∧ table_inv s1 B1 ∧ ∀ x, live s1 !! x = live s !! x ≫= pass_over i 1) as (s1 & B1 & out1 & E1 & I1 & L1).
  { destruct (h_next (getsessionhead s i)) as [y|] eqn:Ey.
    - destruct (cleanuplist_spec s B i Hinv) as (s1 & B1 & k & E & I & _ & P). rewrite E. cbn [mbind outcome_bind].
      exists s1, B1, (out ++ k). split_and!; [done|done|]. by apply (passed_bucket s B).
    - exists s, B, out. split_and!; [done|done|]. apply (passed_bucket s B); [done|].
      apply (dll_next_None _ _ _ _ (inv_dll _ _ Hinv i)) in Ey. rewrite Ey. split; [by intros x ?%not_elem_of_nil|done]. }
  rewrite E1. cbn [mbind outcome_bind]. destruct (IH s1 B1 (i + 1) out1 I1) as (s' & B' & out' & E' & I' & L').
  exists s', B', out'. split_and!; [done|done|]. intros x. rewrite L', L1.
  replace (Z.of_nat (S n)) with (1 + Z.of_nat n) by lia.
  destruct (live s !! x) as [d|]; [|done]. cbn. apply pass_over_step. lia.
Qed.

Lemma keys_unique_passed m m' :
  keys_unique m → (∀ x d', m' !! x = Some d' → ∃ d, m !! x = Some d ∧ key_of d' = key_of d) → keys_unique m'.
Proof.
  intros Hu Hm x y d e Hx Hy Hk. destruct (Hm _ _ Hx) as (d0 & Hx0 & K1). destruct (Hm _ _ Hy) as (e0 & Hy0 & K2).
  apply (Hu x y d0 e0); congruence.
Qed.

Lemma cleanup_pass_spec s :
  table_ok s →
  ∃ s' out, cleanup_pass fuel delta localid true s = Ret (s', out) ∧ table_ok s'
    ∧ ∀ x, live s' !! x = live s !! x ≫= after_pass.
Proof.
  intros (B & Hinv & Hu). unfold cleanup_pass.
  destruct (cleanup_buckets_spec (Z.to_nat SESSIONBUCKETS) s B 0 [] Hinv) as (s' & B' & out & E & I & L).
  assert (L' : ∀ x, live s' !! x = live s !! x ≫= after_pass).
  { intros x. rewrite L. destruct (live s !! x) as [d|] eqn:Ex; [|done]. cbn. unfold pass_over.
    destruct (live_listed _ _ Hinv _ _ Ex) as [_ (_ & Hb & _)].
    pose proof (bucket_of_range (address (larger d)) (port (larger d)) (address (smaller d)) (port (smaller d))).
    rewrite bool_decide_true; [done|]. unfold SESSIONBUCKETS in *. lia. }
  exists s', out. split_and!; [done| |done]. exists B'. split; [done|].
  apply (keys_unique_passed (live s)); [done|]. intros x d' Hx. rewrite L' in Hx.
  destruct (live s !! x) as [d|]; [|done]. cbn in Hx. unfold after_pass in Hx.
  destruct (2 <? deadcounter d); [done|]. injection Hx as <-. exists d. split; [done|]. apply probed_identity.
Qed.
End Pass.

(** [n] wake-ups of the thread with no packet in between. *)
Fixpoint passes (fuel : nat) (delta : Z) (localid : list Z) (n : nat) (s : smstate) : outcome smstate :=
  match n with
  | O => Ret s
  | S n' => '(s, _) ← cleanup_pass fuel delta localid true s; passes fuel delta localid n' s
  end.

(** C19: one pass of dead-session detection always ends, keeps the session table well
    formed, removes exactly the sessions whose counter exceeds 2 and touches every
    other one once: its counter grows if one of its ends was idle since the last
    pass and is reset otherwise.  No other session is lost. *)
Theorem cleanup_pass_refines fuel delta localid s :
  (64 <= fuel)%nat → bytes localid → blen localid = 4 → table_ok s →
  ∃ s' out, cleanup_pass fuel delta localid true s = Ret (s', out) ∧ table_ok s'
    ∧ live s' = omap after_pass (live s).
Proof.
  intros Hfuel Hid Hlen Hok.
  destruct (cleanup_pass_spec fuel delta localid Hfuel Hid Hlen s Hok) as (s' & out & E & Hok' & L).
  exists s', out. split_and!; [done|done|]. apply map_eq. intros x. by rewrite lookup_omap, L.
Qed.

Lemma cleanup_pass_refines_witness :
  ∃ s' out, cleanup_pass 64 (-8) [10; 0; 0; 9] true one_session = Ret (s', out) ∧ table_ok s'
    ∧ live s' = omap after_pass (live one_session).
Proof.
  apply (cleanup_pass_refines 64 (-8) [10; 0; 0; 9]); [lia| |done|apply one_session_ok].
  repeat constructor; lia.
Defined.

Fixpoint after_passes (n : nat) (d : session) : option session :=
  match n with O => Some d | S n' => after_pass d ≫= after_passes n' end.

Lemma passes_spec n fuel delta localid s :
  (64 <= fuel)%nat → bytes localid → blen localid = 4 → table_ok s →
  ∃ s', passes fuel delta localid n s = Ret s' ∧ table_ok s' ∧ ∀ x, live s' !! x = live s !! x ≫= after_passes n.
Proof.
  intros Hfuel Hid Hlen. revert s. induction n as [|n IH]; intros s Hok; cbn [passes].
  { exists s. split_and!; [done|done|]. intros x. by destruct (live s !! x). }
  destruct (cleanup_pass_spec fuel delta localid Hfuel Hid Hlen s Hok) as (s1 & out & E & Hok1 & L1).
  rewrite E. cbn [mbind outcome_bind]. destruct (IH s1 Hok1) as (s' & E' & Hok' & L').
  exists s'. split_and!; [done|done|]. intros x. rewrite L', L1. by destruct (live s !! x).
Qed.

Lemma probed_idle d : idle (probed d) = true.
Proof. unfold idle, probed. simpl. by rewrite Z.eqb_refl. Qed.

Lemma after_passes_quiet n d :
  idle d = true → 0 <= deadcounter d → 3 - deadcounter d < Z.of_nat n → (0 < n)%nat → after_passes n d = None.
Proof.
  revert d. induction n as [|n IH]; intros d Hi Hd Hn Hpos; [lia|]. cbn [after_passes]. unfold after_pass.
  destruct (Z.ltb_spec 2 (deadcounter d)); [done|]. cbn [mbind option_bind].
  assert (E : deadcounter (probed d) = deadcounter d + 1) by (unfold probed; simpl; rewrite Hi, u8_small; lia).
  apply IH; [apply probed_idle|lia..].
Qed.

Lemma after_passes_young n d :
  0 <= deadcounter d → deadcounter d + Z.of_nat n <= 3 → is_Some (after_passes n d).
Proof.
  revert d. induction n as [|n IH]; intros d Hd Hn; cbn [after_passes]; [by eexists|]. unfold after_pass.
  replace (2 <? deadcounter d) with false by (symmetry; apply Z.ltb_ge; lia). cbn [mbind option_bind].
  assert (Hp : 0 <= deadcounter (probed d) <= deadcounter d + 1).
  { unfold probed. simpl. destruct (idle d); [rewrite u8_small|]; lia. }
  apply IH; lia.
Qed.

(** C20: sessions nobody closes do not accumulate: without further packets, five
    passes remove every session, and no session is removed before the fourth pass
    after its last packet (which resets the counter to 0). *)
Theorem silent_sessions_removed fuel delta localid s :
  (64 <= fuel)%nat → bytes localid → blen localid = 4 → table_ok s →
  (∀ x d, live s !! x = Some d → 0 <= deadcounter d) →
  (∃ s5, passes fuel delta localid 5 s = Ret s5 ∧ live s5 = ∅)
  ∧ ∃ s3, passes fuel delta localid 3 s = Ret s3
      ∧ ∀ x d, live s !! x = Some d → deadcounter d = 0 → is_Some (live s3 !! x).
Proof.
  intros Hfuel Hid Hlen Hok Hdc. split.
  - destruct (passes_spec 5 fuel delta localid s Hfuel Hid Hlen Hok) as (s5 & E & _ & L).
    exists s5. split; [done|]. apply map_eq. intros x. rewrite L, lookup_empty.
    destruct (live s !! x) as [d|] eqn:Ex; [|done]. cbn [mbind option_bind]. pose proof (Hdc x d Ex).
    change (after_pass d ≫= after_passes 4 = None). unfold after_pass. destruct (Z.ltb_spec 2 (deadcounter d)); [done|].
    cbn [mbind option_bind]. assert (0 <= deadcounter (probed d)).
    { unfold probed. simpl. destruct (idle d); [|done]. pose proof (u8_bound (deadcounter d + 1)). lia. }
    apply after_passes_quiet; [apply probed_idle|lia..].
  - destruct (passes_spec 3 fuel delta localid s Hfuel Hid Hlen Hok) as (s3 & E & _ & L).
    exists s3. split; [done|]. intros x d Ex E0. rewrite L, Ex. apply after_passes_young; lia.
Qed.

Lemma silent_sessions_removed_witness :
  (∃ s5, passes 64 (-8) [10; 0; 0; 9] 5 one_session = Ret s5 ∧ live s5 = ∅)
  ∧ ∃ s3, passes 64 (-8) [10; 0; 0; 9] 3 one_session = Ret s3
      ∧ ∀ x d, live one_session !! x = Some d → deadcounter d = 0 → is_Some (live s3 !! x).
Proof.
  apply (silent_sessions_removed 64 (-8) [10; 0; 0; 9]); [lia| |done|apply one_session_ok|].
  - repeat constructor; lia.
  - intros x d Hx. unfold live in Hx. change (payload _) with ({[1%positive := new_session (bucket_of 20 80 10 4000) 0 20 80 10 4000]} : gmap loc session) in Hx.
    apply lookup_singleton_Some in Hx as [_ <-]. simpl. lia.
Defined.
