(* ===== verification/Worker.v ===== *)
(** * The worker threads (opennopd/subsystems/worker.c)

    A worker takes a packet off its queue, optimizes it (first accelerator on
    the path: tags it with the local id and compresses it when the far side
    has an accelerator too) or de-optimizes it (the id of a neighbor is on it:
    records the id and decompresses), tracks the session and gives the verdict. *)
From S2P Require Import Prelude Packet TcpOptions OptionLayout OptionOps NodTag RawOption Checked Csum Compression Dll.
From S2P Require Import NodeId Domain WorkerPool Session Queue Counters.
From S2P Require Import Driver.

Record wstate := WState {
  ws_sm : smstate;
  ws_heap : heap packet;
  ws_pool : pool;
  ws_metrics : workercounters;
  ws_verdicts : list verdict          (* latest first *)
}.

Section Worker.
Context `{Codec, Domain} (fuel : nat) (delta : Z) (compression have_state : bool).

Definition session_of (s : smstate) (cur : loc) : outcome session :=
  nd ← load (sheap s) (Some cur); Ret (n_data nd).

(** Whether the packet is compressed: this node is the accelerator of its
    source, another node that of its destination, and the session is open. *)
Definition should_compress (d : session) (saddr largerIP smallerIP : Z) : bool :=
  let me := Some get_opennop_id in
  let la := Some (accelerator (larger d)) in
  let sa := Some (accelerator (smaller d)) in
  (((saddr =? largerIP) && compare_opennopid la me
    && check_opennopid sa && negb (compare_opennopid sa me))
   || ((saddr =? smallerIP) && compare_opennopid sa me
       && check_opennopid la && negb (compare_opennopid la me)))
  && (state d =? TCP_ESTABLISHED).

(** Whether a compressed packet is for this node to decompress. *)
Definition should_decompress (d : session) (saddr largerIP smallerIP : Z) : bool :=
  let me := Some get_opennop_id in
  ((saddr =? largerIP) && compare_opennopid (Some (accelerator (smaller d))) me)
  || ((saddr =? smallerIP) && compare_opennopid (Some (accelerator (larger d))) me).

Definition optimize (s : smstate) (cur : loc) (p : buffer) (t lIP sIP : Z)
    : outcome (smstate * buffer) :=
  s ← with_session s (Some cur) (saveacceleratorid p lIP (Some get_opennop_id));
  p ← set_nod_header_data fuel delta p ONOP get_opennop_id;
  d ← session_of s cur;
  a ← ip_saddr p;
  let c := should_compress d a lIP sIP in
  s ← with_session s (Some cur) (updateseq p t lIP);
  if c then '(p, _) ← tcp_compress fuel compression true have_state p; Ret (s, p)
  else Ret (s, p).

(** [None] means the packet was dropped because it could not be decompressed. *)
Definition deoptimize (s : smstate) (cur : loc) (p : buffer) (t lIP sIP : Z) (remoteID : option Z)
    : outcome (smstate * buffer * bool) :=
  id ← remote_id p remoteID;
  s ← with_session s (Some cur) (saveacceleratorid p lIP id);
  flag ← __get_tcp_option fuel p COMPRESSED_OPTION;
  if flag =? 0 then
    s ← with_session s (Some cur) (updateseq p t lIP); Ret (s, p, true)
  else
    d ← session_of s cur;
    a ← ip_saddr p;
    if should_decompress d a lIP sIP then
      '(p, r) ← tcp_decompress fuel true have_state p;
      if r =? 0 then Ret (s, p, false)
      else s ← with_session s (Some cur) (updateseq p t lIP); Ret (s, p, true)
    else Ret (s, p, true).

(** RST and FIN handling; the session may be gone afterwards. *)
Definition close_session (s : smstate) (cur : loc) (flags : Z) : outcome smstate :=
  '(s, cur) ← (if rst_flag flags then s ← clearsession s (Some cur); Ret (s, None)
               else Ret (s, Some cur));
  if fin_flag flags then '(s, _) ← closingsession s cur; Ret s else Ret s.

(** What is done to the packet itself, when it has ACK but neither SYN nor FIN; [false] when it
    was dropped. *)
Definition process_packet (s : smstate) (cur : loc) (p : buffer) (t lIP sIP : Z)
    (remoteID : option Z) : outcome (smstate * buffer * bool) :=
  f ← tcp_flags p t;
  if negb (syn_flag f) && ack_flag f && negb (fin_flag f) then
    nb ← from_neighbor p remoteID;
    if (nb : bool) then deoptimize s cur p t lIP sIP remoteID
    else '(s, p) ← optimize s cur p t lIP sIP; Ret (s, p, true)
  else Ret (s, p, true).

(** A packet of a known session up to its verdict; [true] when the packet is still to be accepted. *)
Definition session_packet (s : smstate) (cur : loc) (p : buffer) (t lIP sIP : Z)
    (remoteID : option Z) : outcome (smstate * buffer * bool) :=
  '(s, p, keep) ← process_packet s cur p t lIP sIP remoteID;
  if (keep : bool) then
    f ← tcp_flags p t; s ← close_session s cur f; Ret (s, p, true)
  else Ret (s, p, false).

Definition put_back (w : wstate) (x : loc) (p : buffer) (v : verdict) : outcome wstate :=
  nd ← load (ws_heap w) (Some x);
  h ← store_data (ws_heap w) (Some x) (Packet (pk_hq (n_data nd)) (pk_id (n_data nd)) p);
  '(h, pl, _) ← put_freepacket_buffer h (ws_pool w) (Some x);
  Ret (WState (ws_sm w) h pl (ws_metrics w) (v :: ws_verdicts w)).

(** One iteration of the loop of [worker_thread] for the packet taken off the queue.  After a
    packet was dropped its flags are still read, from the buffer that is back in the pool, where
    another thread may have taken and filled it: [reused] is what it holds by then. *)
Definition worker_packet (reused : buffer → buffer) (w : wstate) (x : loc) : outcome wstate :=
  nd ← load (ws_heap w) (Some x);
  let p := pk_data (n_data nd) in
  let hq := pk_hq (n_data nd) in
  let id := pk_id (n_data nd) in
  t ← tcph_of p;
  tot ← ip_tot_len p;
  let m := ws_metrics w in
  let bytesin := add_metric (w_bytesin m) (ntohs tot) in
  '(_, remoteID) ← get_nod_header_data fuel delta p ONOP;
  sa ← ip_saddr p; so ← tcp_source p t; da ← ip_daddr p; de ← tcp_dest p t;
  let '(lIP, lPort, sIP, sPort) := sort_sockets sa so da de in
  cur ← getsession (ws_sm w) lIP lPort sIP sPort;
  match cur with
  | Some cur =>
      '(s, p, keep) ← session_packet (ws_sm w) cur p t lIP sIP remoteID;
      if (keep : bool) then
        p ← checksum p;
        tot ← ip_tot_len p;
        v ← accept_with hq id p tot;
        let m := WorkerCounters (add_metric (w_packets m) 1) bytesin
                   (add_metric (w_bytesout m) (ntohs tot)) in
        put_back (WState s (ws_heap w) (ws_pool w) m (ws_verdicts w)) x p v
      else
        let m := WorkerCounters (add_metric (w_packets m) 1) bytesin (w_bytesout m) in
        w ← put_back (WState s (ws_heap w) (ws_pool w) m (ws_verdicts w)) x p (Verdict hq id NF_DROP None);
        f ← tcp_flags (reused p) t;
        s ← close_session (ws_sm w) cur f;
        Ret (WState s (ws_heap w) (ws_pool w) (ws_metrics w) (ws_verdicts w))
  | None =>
      let m := WorkerCounters (add_metric (w_packets m) 1) bytesin
                 (add_metric (w_bytesout m) (ntohs tot)) in
      put_back (WState (ws_sm w) (ws_heap w) (ws_pool w) m (ws_verdicts w)) x p
        (Verdict hq id NF_ACCEPT None)
  end.
End Worker.

(** * Facts *)

(** ** Addresses survive everything the data path does to a header *)
Lemma eqv_saddr t H H' X sa :
  hdr_eqv t H H' → 20 <= t → blen H = t + 20 → ip_saddr (H ++ X) = Ret sa → ∀ Y, ip_saddr (H' ++ Y) = Ret sa.
Proof.
  intros [El Er _] Ht Hl E Y. rewrite <-E. unfold ip_saddr, ld32, ld16.
  rewrite !rd_app_l by lia. rewrite !rd_at by lia. by rewrite !Er by lia.
Qed.

Lemma eqv_proto t H H' v :
  hdr_eqv t H H' → 20 <= t → blen H = t + 20 → rd H 9 = Ret v → rd H' 9 = Ret v.
Proof. intros [El Er _] Ht Hl <-. rewrite !rd_at by lia. by rewrite Er by lia. Qed.

(** ** Session updates *)
Definition side_of (sa lIP : Z) : side := if sa =? lIP then LargerSide else SmallerSide.
Definition other (w : side) : side := match w with LargerSide => SmallerSide | SmallerSide => LargerSide end.

Lemma source_side_of p sa lIP : ip_saddr p = Ret sa → source_side p lIP = Ret (side_of sa lIP).
Proof. intros E. unfold source_side. by rewrite E. Qed.

Definition with_accel (d : session) (w : side) (id : list Z) : session :=
  set_endpoint d w (set_endpoint_accel (endpoint_at d w) id).

Lemma saveacceleratorid_id p sa lIP id d :
  ip_saddr p = Ret sa → lIP ≠ 0 → is_id id → length (accelerator (endpoint_at d (side_of sa lIP))) = 4%nat →
  saveacceleratorid p lIP (Some id) d = Ret (with_accel d (side_of sa lIP) id, 0).
Proof.
  intros E Hl [Hid _] Hacc. unfold saveacceleratorid. replace (lIP =? 0) with false by (symmetry; by apply Z.eqb_neq).
  rewrite (source_side_of _ _ _ E). cbn [mbind outcome_bind save_opennopid fst]. do 3 f_equal.
  unfold set_endpoint_accel. f_equal. unfold OPENNOP_IPC_ID_LENGTH in *.
  rewrite take_ge by lia. rewrite drop_ge by lia. by rewrite app_nil_r.
Qed.

Lemma with_accel_identity d w id : same_identity d (with_accel d w id).
Proof. by destruct d as [? ? ? [] [] ? ? ?], w. Qed.

Lemma with_accel_same d w id : accelerator (endpoint_at (with_accel d w id) w) = id.
Proof. by destruct w. Qed.

Lemma with_accel_other d w id : endpoint_at (with_accel d w id) (other w) = endpoint_at d (other w).
Proof. by destruct w. Qed.

Lemma __updateseq_identity seq syn len d w :
  same_identity d (__updateseq seq syn len d w)
  ∧ (∀ v, accelerator (endpoint_at (__updateseq seq syn len d w) v) = accelerator (endpoint_at d v))
  ∧ state (__updateseq seq syn len d w) = state d.
Proof.
  unfold __updateseq. destruct (_ || _); [|done]. destruct d as [? ? ? [] [] ? ? ?], w; (split; [done|]; split; [by intros []|done]).
Qed.

Lemma updateseq_total {H t dd tot sq items P S} lIP d :
  packet_ok H t dd tot sq items P →
  ∃ d' r, updateseq (pkt H items dd P S) t lIP d = Ret (d', r) ∧ same_identity d d'
    ∧ (∀ v, accelerator (endpoint_at d' v) = accelerator (endpoint_at d v)) ∧ state d' = state d.
Proof.
  intros Hp. pose proof Hp as [Hh _ _]. pose proof (hdr_len _ _ _ _ _ Hh). pose proof (hdr_t _ _ _ _ _ Hh).
  unfold updateseq. destruct (lIP =? 0); [by eexists _, _|].
  assert (Esa : ∃ sa, ip_saddr (pkt H items dd P S) = Ret sa).
  { unfold ip_saddr, ld32, ld16, pkt. rewrite !rd_app_l by lia. rewrite !rd_at by lia. by eexists. }
  destruct Esa as (sa & Esa). rewrite (source_side_of _ _ _ Esa). cbn [mbind outcome_bind].
  assert (Es : tcp_seq (pkt H items dd P S) t = Ret sq) by (unfold pkt; by opt_head Hh).
  assert (Ef : ∃ f, tcp_flags (pkt H items dd P S) t = Ret f).
  { unfold tcp_flags, pkt. rewrite rd_app_l, rd_at by lia. by eexists. }
  destruct Ef as (f & Ef). rewrite Es. cbn [mbind outcome_bind]. rewrite Ef. cbn [mbind outcome_bind].
  assert (El : payload_len (pkt H items dd P S) t = Ret (ntohs (htons tot) - t - dd * 4))
    by (unfold payload_len, pkt; by opt_head Hh).
  rewrite El. cbn [mbind outcome_bind]. eexists _, _. split; [done|]. apply __updateseq_identity.
Qed.

(** ** The two ends of an optimized session *)
Lemma is_id_blen id : is_id id → blen id = 4 ∧ bytes id.
Proof. intros [Hl Hb]. split; [|done]. unfold blen. by rewrite Hl. Qed.

Lemma with_session_total s B x d f d' r :
  table_inv s B → live s !! x = Some d → f d = Ret (d', r) → same_identity d d' →
  ∃ s', with_session s (Some x) f = Ret s' ∧ table_inv s' B ∧ live s' !! x = Some d'.
Proof.
  intros Hinv Hx Hf Hid. destruct (with_session_inv _ _ _ _ _ _ _ Hinv Hx Hf Hid) as (s' & E & L & I & _).
  exists s'. split_and!; [done|done|]. by rewrite L, lookup_insert_eq.
Qed.

Lemma session_of_live s x d : live s !! x = Some d → session_of s x = Ret d.
Proof. intros (n & Hn & <-)%live_Some. unfold session_of, load, deref. by rewrite Hn. Qed.

(** Both ends know an accelerator: [own] next to the source, [far] behind it. *)
Record accelerated (d : session) (w : side) (own far : list Z) : Prop := {
  acc_own : accelerator (endpoint_at d w) = own;
  acc_far : accelerator (endpoint_at d (other w)) = far
}.

Definition faces (sa lIP sIP : Z) : Prop := lIP ≠ 0 ∧ (sa = lIP ∨ sa ≠ lIP ∧ sa = sIP).

Lemma should_compress_yes (D : Domain) d sa lIP sIP far :
  is_id get_opennop_id → is_id far → far ≠ get_opennop_id → check_opennopid (Some far) = true →
  faces sa lIP sIP → state d = TCP_ESTABLISHED →
  accelerated d (side_of sa lIP) get_opennop_id far → should_compress d sa lIP sIP = true.
Proof.
  intros Hme Hfar Hne Hz [_ Hs] Hst [Ho Hf]. unfold should_compress, side_of in *. rewrite Hst, Z.eqb_refl.
  destruct Hs as [->|[Hne' ->]].
  - rewrite Z.eqb_refl in *. cbn [endpoint_at other] in *. rewrite Ho, Hf, Hz.
    rewrite !compare_opennopid_eq by done.
    by rewrite (bool_decide_true (get_opennop_id = get_opennop_id)), (bool_decide_false (far = get_opennop_id)) by done.
  - assert (E : sIP =? lIP = false) by (by apply Z.eqb_neq). rewrite E, Z.eqb_refl in *. cbn [endpoint_at other] in *. rewrite Ho, Hf, Hz.
    rewrite !compare_opennopid_eq by done.
    by rewrite (bool_decide_true (get_opennop_id = get_opennop_id)), (bool_decide_false (far = get_opennop_id)) by done.
Qed.

Lemma should_decompress_yes (D : Domain) d sa lIP sIP own :
  is_id get_opennop_id → faces sa lIP sIP →
  accelerated d (side_of sa lIP) own get_opennop_id → should_decompress d sa lIP sIP = true.
Proof.
  intros Hme [_ Hs] [Ho Hf]. unfold should_decompress, side_of in *. destruct Hs as [->|[Hne' ->]].
  - rewrite Z.eqb_refl in *. cbn [endpoint_at other] in *. rewrite Hf, compare_opennopid_eq by done. by rewrite bool_decide_true.
  - assert (E : sIP =? lIP = false) by (by apply Z.eqb_neq). rewrite E, Z.eqb_refl in *. cbn [endpoint_at other] in *.
    rewrite Hf. cbn [andb orb]. rewrite compare_opennopid_eq by done. by rewrite bool_decide_true.
Qed.

Lemma words_nonneg sp n : 0 <= sp → 0 <= n <= 40 → 0 <= words sp n.
Proof. intros Hs Hn. by destruct (words_spec sp n Hs Hn). Qed.

(** The options of an optimized packet, before the id of the first node. *)
Definition marked (v : Z) (items : list item) (id : list Z) : list item :=
  Opt COMPRESSED_OPTION [v] :: no_nops items ++ [nod_tag id].

Section Ends.
Context `{CodecLaws} {fuel : nat} (Hfuel : (64 <= fuel)%nat) (delta : Z).

(** What [optimize] does before it compresses: the packet carries the local id, the session knows this accelerator. *)
Lemma optimize_tags (D : Domain) s B cur d h t dd tot sq items P S sa lIP sIP far a1 :
  table_inv s B → live s !! cur = Some d →
  packet_ok h t dd tot sq items P → lacks NOD items →
  (∀ X, ip_saddr (h ++ X) = Ret sa) → faces sa lIP sIP →
  is_id get_opennop_id → is_id far → far ≠ get_opennop_id → check_opennopid (Some far) = true →
  state d = TCP_ESTABLISHED → length (accelerator (endpoint_at d (side_of sa lIP))) = 4%nat →
  accelerator (endpoint_at d (other (side_of sa lIP))) = far →
  space (no_nops items) dd < 12 → a1 = words (space (no_nops items) dd) 12 →
  dd + a1 <= 15 → 4 * a1 <= blen S → tot + 4 * a1 < 65536 →
  ∃ s' K, let p1 := pkt K (no_nops items ++ [nod_tag get_opennop_id]) (dd + a1) P (drop (Z.to_nat (4 * a1)) S) in
    optimize fuel delta true true s cur (pkt h items dd P S) t lIP sIP
      = ('(p, _) ← tcp_compress fuel true true true p1; Ret (s', p))
    ∧ packet_ok K t (dd + a1) (tot + 4 * a1) sq (no_nops items ++ [nod_tag get_opennop_id]) P
    ∧ hdr_eqv t h K ∧ table_inv s' B ∧ ∃ d', live s' !! cur = Some d' ∧ state d' = state d
        ∧ accelerated d' (side_of sa lIP) get_opennop_id far.
Proof.
  intros Hinv Hd Hp Hnod Hsa Hf Hme Hfar Hne Hz Hst Hal Hfa Hsp Ea1 Hroom HS Ht.
  pose proof (is_id_blen _ Hme) as [Hl Hb]. set (w := side_of sa lIP) in *. unfold optimize.
  destruct (with_session_total s B cur d (saveacceleratorid (pkt h items dd P S) lIP (Some get_opennop_id))
    (with_accel d w get_opennop_id) 0 Hinv Hd) as (s1 & E1 & I1 & L1);
    [apply saveacceleratorid_id; [apply Hsa|apply Hf|done|done]|apply with_accel_identity|].
  rewrite E1. cbn [mbind outcome_bind].
  destruct (set_tag_result (S := S) delta get_opennop_id a1 Hfuel Hp Hnod Hb Hl Hsp Ea1) as (K1 & E2 & Hp1 & V1); [lia|lia|lia|].
  rewrite E2. cbn [mbind outcome_bind]. rewrite (session_of_live _ _ _ L1). cbn [mbind outcome_bind].
  pose proof (hdr_len _ _ _ _ _ (ok_hdr _ _ _ _ _ _ _ Hp)) as Hlen. pose proof (hdr_t _ _ _ _ _ (ok_hdr _ _ _ _ _ _ _ Hp)) as Htb.
  assert (Hsa1 : ∀ Y, ip_saddr (K1 ++ Y) = Ret sa) by (intros Y; apply (eqv_saddr t h K1 []); [done|lia|done|apply Hsa]).
  set (p1 := pkt K1 _ _ _ _) in *. rewrite (Hsa1 _ : ip_saddr p1 = Ret sa). cbn [mbind outcome_bind].
  rewrite (should_compress_yes D _ sa lIP sIP far);
    [|done..|by destruct w|split; [apply with_accel_same|by rewrite with_accel_other]].
  destruct (updateseq_total (S := drop (Z.to_nat (4 * a1)) S) lIP (with_accel d w get_opennop_id) Hp1) as (d2 & r & E3 & I3 & A3 & S3).
  destruct (with_session_total _ _ _ _ _ _ _ I1 L1 E3 I3) as (s2 & E4 & I2 & L2).
  fold p1 in E4. rewrite E4. cbn [mbind outcome_bind]. exists s2, K1. split_and!; [done..|]. exists d2. split; [done|].
  split; [rewrite S3; by destruct w|]. split; rewrite A3; [apply with_accel_same|by rewrite with_accel_other].
Qed.

Lemma optimize_spec (D : Domain) s B cur d h t dd tot sq items P lz S sa lIP sIP far a1 a2 :
  table_inv s B → live s !! cur = Some d →
  packet_ok h t dd tot sq items P → lacks NOD items → lacks COMPRESSED_OPTION items →
  rd h 9 = Ret IPPROTO_TCP → (∀ X, ip_saddr (h ++ X) = Ret sa) → faces sa lIP sIP →
  is_id get_opennop_id → is_id far → far ≠ get_opennop_id → check_opennopid (Some far) = true →
  state d = TCP_ESTABLISHED → length (accelerator (endpoint_at d (side_of sa lIP))) = 4%nat →
  accelerator (endpoint_at d (other (side_of sa lIP))) = far →
  0 < blen P <= BUFSIZE → qlz_compress P = Ret lz → blen lz < blen P →
  space (no_nops items) dd < 12 → a1 = words (space (no_nops items) dd) 12 →
  a2 = words (space (no_nops items) dd + 4 * a1 - 12) 3 →
  dd + (a1 + a2) <= 15 → 4 * (a1 + a2) <= blen S → tot + 4 * (a1 + a2) < 65536 →
  ∃ s' K S', optimize fuel delta true true s cur (pkt h items dd P S) t lIP sIP
      = Ret (s', pkt K (marked 1 items get_opennop_id) (dd + (a1 + a2)) lz S')
    ∧ packet_ok K t (dd + (a1 + a2)) (t + 4 * (dd + (a1 + a2)) + blen lz)
        (seq_add sq SEQ_SHIFT) (marked 1 items get_opennop_id) lz
    ∧ hdr_eqv t h K ∧ table_inv s' B ∧ ∃ d', live s' !! cur = Some d' ∧ state d' = state d
        ∧ accelerated d' (side_of sa lIP) get_opennop_id far.
Proof.
  intros Hinv Hd Hp Hnod H31 Hproto Hsa Hf Hme Hfar Hne Hz Hst Hal Hfa HP Elz Hlz Hsp Ea1 Ea2 Hroom HS Ht.
  pose proof (space_nonneg (no_nops_packet_ok _ _ _ _ _ _ _ Hp)).
  pose proof (words_spec (space (no_nops items) dd) 12 ltac:(lia) ltac:(lia)) as W1. rewrite <-Ea1 in W1.
  pose proof (words_nonneg (space (no_nops items) dd + 4 * a1 - 12) 3 ltac:(lia) ltac:(lia)) as W2. rewrite <-Ea2 in W2.
  destruct (optimize_tags D s B cur d h t dd tot sq items P S sa lIP sIP far a1) as (s2 & K1 & E & Hp1 & V1 & I2 & Hd');
    [done..|lia|lia|lia|].
  assert (Hset : option_set (no_nops items ++ [nod_tag get_opennop_id]) (dd + a1) COMPRESSED_OPTION 3 1
                   (marked 1 items get_opennop_id) a2).
  { pose proof (set_new (no_nops items ++ [nod_tag get_opennop_id]) (dd + a1) COMPRESSED_OPTION 3 1 a2) as Hn.
    rewrite no_nops_tag in Hn. apply Hn; clear Hn.
    - apply Forall_app. split; [by apply no_nops_lacks|]. by repeat constructor.
    - pose proof (is_id_blen _ Hme) as [Hl Hb]. rewrite space_snoc, space_grow.
      replace (blen (enc1 (nod_tag get_opennop_id))) with 12; [done|].
      unfold nod_tag. cbn [enc1]. unfold blen in *. cbn [length]. rewrite length_app. cbn [length ONOP]. lia. }
  pose proof (hdr_len _ _ _ _ _ (ok_hdr _ _ _ _ _ _ _ Hp)). pose proof (hdr_t _ _ _ _ _ (ok_hdr _ _ _ _ _ _ _ Hp)).
  destruct (tcp_compress_pkt (S := drop (Z.to_nat (4 * a1)) S) Hfuel Hp1
    ltac:(apply (eqv_proto t h); [done|lia|done|done]) HP lz (marked 1 items get_opennop_id) a2 Elz Hlz Hset)
    as (K & S' & E5 & Hp5 & V5 & _); [lia|rewrite blen_drop by lia; lia|lia|].
  rewrite E, E5. cbn [mbind outcome_bind]. replace (dd + (a1 + a2)) with (dd + a1 + a2) by lia.
  exists s2, K, S'. split_and!; [done|done|by rewrite V1|done|done].
Qed.

(** A payload the codec does not shrink goes on as it is, behind the tag. *)
Lemma optimize_plain_spec (D : Domain) s B cur d h t dd tot sq items P S sa lIP sIP far a1 :
  table_inv s B → live s !! cur = Some d →
  packet_ok h t dd tot sq items P → lacks NOD items →
  rd h 9 = Ret IPPROTO_TCP → (∀ X, ip_saddr (h ++ X) = Ret sa) → faces sa lIP sIP →
  is_id get_opennop_id → is_id far → far ≠ get_opennop_id → check_opennopid (Some far) = true →
  state d = TCP_ESTABLISHED → length (accelerator (endpoint_at d (side_of sa lIP))) = 4%nat →
  accelerator (endpoint_at d (other (side_of sa lIP))) = far →
  blen P <= BUFSIZE → blen P = 0 ∨ (∃ lz, qlz_compress P = Ret lz ∧ blen P <= blen lz) →
  space (no_nops items) dd < 12 → a1 = words (space (no_nops items) dd) 12 →
  dd + a1 <= 15 → 4 * a1 <= blen S → tot + 4 * a1 < 65536 →
  ∃ s' K S', optimize fuel delta true true s cur (pkt h items dd P S) t lIP sIP
      = Ret (s', pkt K (no_nops items ++ [nod_tag get_opennop_id]) (dd + a1) P S')
    ∧ packet_ok K t (dd + a1) (tot + 4 * a1) sq (no_nops items ++ [nod_tag get_opennop_id]) P
    ∧ hdr_eqv t h K ∧ table_inv s' B ∧ ∃ d', live s' !! cur = Some d' ∧ state d' = state d
        ∧ accelerated d' (side_of sa lIP) get_opennop_id far.
Proof.
  intros Hinv Hd Hp Hnod Hproto Hsa Hf Hme Hfar Hne Hz Hst Hal Hfa HP Hcase Hsp Ea1 Hroom HS Ht.
  destruct (optimize_tags D s B cur d h t dd tot sq items P S sa lIP sIP far a1) as (s2 & K1 & E & Hp1 & V1 & I2 & Hd'); [done..|].
  pose proof (hdr_len _ _ _ _ _ (ok_hdr _ _ _ _ _ _ _ Hp)). pose proof (hdr_t _ _ _ _ _ (ok_hdr _ _ _ _ _ _ _ Hp)).
  rewrite E, (incompressible_untouched fuel _ _ _ _ _ _ _ _ Hp1); [|by apply (eqv_proto t h); [|lia|..]|done|done].
  cbn [mbind outcome_bind]. by eexists _, _, _.
Qed.

Lemma marked_lacks items v : lacks NOD items → lacks NOD (Opt COMPRESSED_OPTION [v] :: no_nops items).
Proof. intros Hl. constructor; [done|]. by apply no_nops_lacks. Qed.

Lemma deoptimize_spec (D : Domain) s B cur d h t dd tot sq items P lz S sa lIP sIP own off :
  table_inv s B → live s !! cur = Some d →
  packet_ok h t dd tot sq (marked 1 items own) lz → lacks NOD items →
  rd h 9 = Ret IPPROTO_TCP → (∀ X, ip_saddr (h ++ X) = Ret sa) → faces sa lIP sIP →
  is_id get_opennop_id → is_id own →
  length (accelerator (endpoint_at d (side_of sa lIP))) = 4%nat →
  accelerator (endpoint_at d (other (side_of sa lIP))) = get_opennop_id →
  remote_id (pkt h (marked 1 items own) dd lz S) (Some off) = Ret (Some own) →
  bytes P → 0 < blen P <= BUFSIZE → qlz_compress P = Ret lz → blen lz < blen P →
  t + 4 * dd + blen P < 65536 → blen P <= blen lz + blen S →
  ∃ s' K S', deoptimize fuel true s cur (pkt h (marked 1 items own) dd lz S) t lIP sIP (Some off)
      = Ret (s', pkt K (marked 0 items own) dd P S', true)
    ∧ packet_ok K t dd (t + 4 * dd + blen P) (seq_add sq (- SEQ_SHIFT)) (marked 0 items own) P
    ∧ hdr_eqv t h K ∧ table_inv s' B ∧ ∃ d', live s' !! cur = Some d'
        ∧ accelerated d' (side_of sa lIP) own get_opennop_id ∧ state d' = state d.
Proof.
  intros Hinv Hd Hp Hnod Hproto Hsa Hf Hme Hown Hal Hfa Hrid HPb HP Elz Hlz Ht HS.
  set (w := side_of sa lIP) in *. unfold deoptimize. rewrite Hrid. cbn [mbind outcome_bind].
  set (p := pkt h (marked 1 items own) dd lz S) in *. pose proof (Hsa _ : ip_saddr p = Ret sa) as Hsap.
  destruct (with_session_total s B cur d (saveacceleratorid p lIP (Some own)) (with_accel d w own) 0 Hinv Hd)
    as (s1 & E1 & I1 & L1); [apply saveacceleratorid_id; [done|apply Hf|done|done]|apply with_accel_identity|].
  rewrite E1. cbn [mbind outcome_bind].
  assert (Eg : __get_tcp_option fuel p COMPRESSED_OPTION = Ret 1).
  { by apply (get_option_present Hfuel Hp COMPRESSED_OPTION [1] [] (no_nops items ++ [nod_tag own])); constructor. }
  rewrite Eg. cbn [mbind outcome_bind]. change (1 =? 0) with false. cbn match.
  rewrite (session_of_live _ _ _ L1). cbn [mbind outcome_bind]. rewrite Hsap. cbn [mbind outcome_bind].
  assert (Hacc : accelerated (with_accel d w own) w own get_opennop_id)
    by (split; [apply with_accel_same|by rewrite with_accel_other]).
  rewrite (should_decompress_yes D _ sa lIP sIP own Hme Hf Hacc).
  assert (Hset : option_set (marked 1 items own) dd COMPRESSED_OPTION 3 0 (marked 0 items own) 0).
  { apply (set_old (marked 1 items own) dd COMPRESSED_OPTION 3 0 [] [1] (no_nops items ++ [nod_tag own])); done || constructor. }
  assert (Hlz0 : 0 < blen lz <= BUFSIZE) by (pose proof (qlz_size P lz HP Elz); lia).
  assert (Hdec : qlz_decompress (lz ++ S) = Ret P) by (by apply qlz_roundtrip).
  destruct (tcp_decompress_pkt Hfuel Hp Hproto Hlz0 P 0 (marked 0 items own) Hdec HP Hset eq_refl Ht HS)
    as (K & S' & E2 & Hp2 & V2 & _).
  unfold p. rewrite E2. cbn [mbind outcome_bind]. change (1 =? 0) with false. cbn match.
  destruct (updateseq_total (S := S') lIP (with_accel d w own) Hp2) as (d2 & r & E3 & I3 & A3 & St3).
  destruct (with_session_total _ _ _ _ _ _ _ I1 L1 E3 I3) as (s2 & E4 & I2 & L2).
  rewrite E4. cbn [mbind outcome_bind]. exists s2, K, S'. split_and!; [done|done|done|done|].
  exists d2. split; [done|]. destruct Hacc as [A1 A2]. split; [by split; rewrite A3|]. rewrite St3. by destruct w.
Qed.
End Ends.

(** Two nodes are transparent to the connection between them.  A packet of an
    established session reaches node [DA], which knows node [DB] behind it: [DA]
    tags it with its id and compresses its payload.  However the header, the
    checksums and the bytes behind the packet change on the way, [DB] reads the id
    of [DA] from it, and if it accepts that id it restores the payload and the
    sequence number and remembers [DA] as the accelerator of the source.  It holds
    for every codec and for every pair of tables, sessions and neighbor lists. *)
Theorem end_to_end_transparency `{CodecLaws} (DA DB : Domain) fuel delta sA BA cA dA sB BB cB dB
    h t dd tot sq items P lz S sa lIP sIP a1 a2 :
  let idA := get_opennop_id (Domain := DA) in
  let idB := get_opennop_id (Domain := DB) in
  let d2 := dd + (a1 + a2) in
  (64 <= fuel)%nat → faces sa lIP sIP → is_id idA → is_id idB → idB ≠ idA → check_opennopid (Some idB) = true →
  (* node A: an established session that knows B *)
  table_inv sA BA → live sA !! cA = Some dA → state dA = TCP_ESTABLISHED →
  length (accelerator (endpoint_at dA (side_of sa lIP))) = 4%nat →
  accelerator (endpoint_at dA (other (side_of sa lIP))) = idB →
  (* node B: it is the accelerator of the destination *)
  table_inv sB BB → live sB !! cB = Some dB →
  length (accelerator (endpoint_at dB (side_of sa lIP))) = 4%nat →
  accelerator (endpoint_at dB (other (side_of sa lIP))) = idB →
  (* the packet, with room for the tag and the mark *)
  packet_ok h t dd tot sq items P → lacks NOD items → lacks COMPRESSED_OPTION items →
  rd h 9 = Ret IPPROTO_TCP → (∀ X, ip_saddr (h ++ X) = Ret sa) →
  bytes P → 0 < blen P <= BUFSIZE → qlz_compress P = Ret lz → blen lz < blen P →
  space (no_nops items) dd < 12 → a1 = words (space (no_nops items) dd) 12 →
  a2 = words (space (no_nops items) dd + 4 * a1 - 12) 3 →
  d2 <= 15 → 4 * (a1 + a2) <= blen S → tot + 4 * (a1 + a2) < 65536 →
  ∃ sA' K S', optimize (H0 := DA) fuel delta true true sA cA (pkt h items dd P S) t lIP sIP
                = Ret (sA', pkt K (marked 1 items idA) d2 lz S')
    ∧ packet_ok K t d2 (t + 4 * d2 + blen lz) (seq_add sq SEQ_SHIFT) (marked 1 items idA) lz ∧ hdr_eqv t h K
    ∧ ∀ h2 S2, let q := pkt h2 (marked 1 items idA) d2 lz S2 in
        packet_ok h2 t d2 (t + 4 * d2 + blen lz) (seq_add sq SEQ_SHIFT) (marked 1 items idA) lz →
        rd h2 9 = Ret IPPROTO_TCP → (∀ X, ip_saddr (h2 ++ X) = Ret sa) → blen P <= blen lz + blen S2 →
        ∃ off, get_nod_header_data fuel delta q ONOP = Ret (4, Some off)
          ∧ from_neighbor (H := DB) q (Some off) = in_domain (Domain := DB) (Some idA)
          ∧ ∃ sB' K2 S3, deoptimize (H0 := DB) fuel true sB cB q t lIP sIP (Some off)
                           = Ret (sB', pkt K2 (marked 0 items idA) d2 P S3, true)
              ∧ packet_ok K2 t d2 (tot + 4 * (a1 + a2)) sq (marked 0 items idA) P ∧ hdr_eqv t h2 K2
              ∧ table_inv sB' BB ∧ ∃ d', live sB' !! cB = Some d' ∧ accelerated d' (side_of sa lIP) idA idB.
Proof.
  intros idA idB d2 Hfuel Hf HA HB Hne Hz IA LA HstA HalA HfaA IB LB HalB HfaB Hp Hnod H31 Hproto Hsa HPb HP Elz Hlz
    Hsp Ea1 Ea2 Hroom HS Ht.
  destruct (optimize_spec Hfuel delta DA sA BA cA dA h t dd tot sq items P lz S sa lIP sIP idB a1 a2)
    as (sA' & K & S' & E & HpK & V & _ & _); [done..|].
  exists sA', K, S'. split_and!; [done|done|done|]. intros h2 S2 q Hq Hproto2 Hsa2 HS2.
  destruct (is_id_blen _ HA) as [HlA HbA].
  destruct (tag_read (S := S2) (l := Opt COMPRESSED_OPTION [1] :: no_nops items) delta idA Hfuel Hq
    (marked_lacks items 1 Hnod) HlA) as (off & Eg & Eo & Es).
  change (in_object q off 4 = true) in Eo. change (sub q off 4 = idA) in Es.
  assert (Hrid : remote_id q (Some off) = Ret (Some idA)).
  { unfold remote_id. change (Z.of_nat OPENNOP_IPC_ID_LENGTH) with 4. by rewrite Eo, Es. }
  assert (Et : t + 4 * d2 + blen P = tot + 4 * (a1 + a2)) by (destruct Hp as [_ _ ->]; unfold d2; lia).
  exists off. split; [exact Eg|]. split; [unfold from_neighbor; by rewrite Hrid|].
  destruct (deoptimize_spec Hfuel DB sB BB cB dB h2 t d2 _ _ items P lz S2 sa lIP sIP idA off IB LB Hq Hnod Hproto2 Hsa2 Hf HB HA
    HalB HfaB Hrid HPb HP Elz Hlz ltac:(lia) HS2) as (sB' & K2 & S3 & E2 & Hp2 & V2 & I2 & d' & Ld' & Ad' & _).
  rewrite Et, seq_add_back in Hp2 by exact (hdr_seq_bound _ _ _ _ _ (ok_hdr _ _ _ _ _ _ _ Hp)).
  exists sB', K2, S3. split_and!; [done..|]. by exists d'.
Qed.

(** Two nodes and the session they share. *)
Definition demo_session : session :=
  Session (bucket_of 20 80 10 4000) None None (Endpoint 20 80 0 0 0 [10; 0; 0; 9]) (Endpoint 10 4000 0 0 0 [10; 0; 0; 8])
    0 TCP_ESTABLISHED 0.

Definition demo_table : smstate := set_sheap one_session {[1%positive := Node None None demo_session]}.

Definition demo_peer (a b : list Z) : Domain := {|
  get_opennop_id := a;
  in_domain id := Ret (bool_decide (id = Some b))
|}.

Lemma demo_table_inv : ∃ B, table_inv demo_table B ∧ live demo_table !! 1%positive = Some demo_session.
Proof.
  destruct one_session_ok as (B & Hinv & _). exists B.
  set (n := Node None None (new_session (bucket_of 20 80 10 4000) 0 20 80 10 4000)).
  assert (Hn : sheap one_session !! 1%positive = Some n) by reflexivity.
  destruct (table_inv_update one_session B 1 n demo_session Hinv Hn) as [_ I]; [by split_and!|].
  split; [|reflexivity]. replace demo_table with (set_sheap one_session (<[1%positive := Node None None demo_session]> (sheap one_session))); [done|].
  unfold demo_table. f_equal.
Qed.

Lemma end_to_end_transparency_witness :
  let DA := demo_peer [10; 0; 0; 9] [10; 0; 0; 8] in
  let DB := demo_peer [10; 0; 0; 8] [10; 0; 0; 9] in
  let lz := [1; 10; 0; 65] in
  ∃ BB sA' K S',
    optimize (H := run_codec) (H0 := DA) 64 (-8) true true demo_table 1
      (pkt (demo_header 7 58) demo_items 7 (replicate 10 65) (replicate 16 0)) 20 16777226 33554442
    = Ret (sA', pkt K (marked 1 demo_items [10; 0; 0; 9]) 11 lz S')
    ∧ packet_ok K 20 11 68 (seq_add 738263040 SEQ_SHIFT) (marked 1 demo_items [10; 0; 0; 9]) lz
    ∧ hdr_eqv 20 (demo_header 7 58) K
    ∧ ∀ h2 S2, let q := pkt h2 (marked 1 demo_items [10; 0; 0; 9]) 11 lz S2 in
        packet_ok h2 20 11 68 (seq_add 738263040 SEQ_SHIFT) (marked 1 demo_items [10; 0; 0; 9]) lz →
        rd h2 9 = Ret IPPROTO_TCP → (∀ X, ip_saddr (h2 ++ X) = Ret 16777226) → 10 <= 4 + blen S2 →
        ∃ off, get_nod_header_data 64 (-8) q ONOP = Ret (4, Some off)
          ∧ from_neighbor (H := DB) q (Some off) = in_domain (Domain := DB) (Some [10; 0; 0; 9])
          ∧ ∃ sB' K2 S3, deoptimize (H := run_codec) (H0 := DB) 64 true demo_table 1 q 20 16777226 33554442 (Some off)
                           = Ret (sB', pkt K2 (marked 0 demo_items [10; 0; 0; 9]) 11 (replicate 10 65) S3, true)
              ∧ packet_ok K2 20 11 74 738263040 (marked 0 demo_items [10; 0; 0; 9]) (replicate 10 65) ∧ hdr_eqv 20 h2 K2
              ∧ table_inv sB' BB ∧ ∃ d', live sB' !! 1%positive = Some d'
                  ∧ accelerated d' LargerSide [10; 0; 0; 9] [10; 0; 0; 8].
Proof.
  intros DA DB lz. destruct demo_table_inv as (B & I & L). exists B. pose proof run_codec_laws.
  assert (HA : is_id [10; 0; 0; 9]) by (split; [done|repeat constructor; lia]).
  assert (HB : is_id [10; 0; 0; 8]) by (split; [done|repeat constructor; lia]).
  apply (end_to_end_transparency (C := run_codec) DA DB 64 (-8) demo_table B 1%positive demo_session demo_table B 1%positive
    demo_session (demo_header 7 58) 20 7 58 738263040 demo_items (replicate 10 65) lz (replicate 16 0) 16777226 16777226 33554442 3 1);
    try done; try lia.
  - split; [done|by left].
  - split; [apply demo_hdr; lia| |done]. apply demo_syn_ok.
  - repeat constructor; done.
  - repeat constructor; done.
  - by apply Forall_replicate.
Defined.

(** * Verdicts and buffers *)
Lemma accept_pkt {H t d tot s items P S} hq id :
  packet_ok H t d tot s items P →
  accept_with hq id (pkt H items d P S) (htons tot) = Ret (Verdict hq id NF_ACCEPT (Some (pkt H items d P []))).
Proof.
  intros Hp. pose proof (hdr_totb _ _ _ _ _ (ok_hdr _ _ _ _ _ _ _ Hp)) as Hb.
  pose proof (pkt_blen (S := []) Hp) as Hl. change (blen []) with 0 in Hl. rewrite Z.add_0_r in Hl.
  unfold accept_with, htons. rewrite ntohs_invol by done.
  assert (E : pkt H items d P S = [] ++ pkt H items d P [] ++ S) by (unfold pkt; by rewrite app_nil_r, <-!app_assoc).
  rewrite E, in_object_app by done. do 3 f_equal. rewrite <-Hl. apply (sub_app []).
Qed.

Lemma fifo_store {A} (h : heap A) q l x n : fifo h q l → x ∉ l → fifo (<[x := n]> h) q l.
Proof.
  intros (HN & H1 & H2 & H3 & Hc) Hx. split_and!; [done..|]. apply (chain_ext h); [|done].
  intros y Hy. by rewrite lookup_insert_ne by set_solver.
Qed.

Lemma put_back_spec w x p v l :
  fifo (ws_heap w) (freepacketbuffers (ws_pool w)) l → x ∉ l → idle (ws_heap w) x →
  Z.of_nat (length l) + 1 < 2 ^ 32 →
  ∃ h fr, put_back w x p v
      = Ret (WState (ws_sm w) h (Pool fr (allocatedpacketbuffers (ws_pool w))) (ws_metrics w) (v :: ws_verdicts w))
    ∧ fifo h fr (l ++ [x]) ∧ ∀ y, y ∉ x :: l → h !! y = ws_heap w !! y.
Proof.
  intros Hf Hx (n & Hn & En) Hl. unfold put_back, load, store_data, deref. rewrite Hn. cbn [mbind outcome_bind].
  set (h1 := <[x := _]> (ws_heap w)).
  destruct (put_freepacket_buffer_spec h1 (ws_pool w) l x) as (h & fr & E & Hf' & Hr); [by apply fifo_store|done| |done|].
  { exists (Node (n_next n) (n_prev n) (Packet (pk_hq (n_data n)) (pk_id (n_data n)) p)).
    split; [apply lookup_insert_eq|done]. }
  rewrite E. exists h, fr. split_and!; [done..|]. intros y Hy. destruct Hr as [_ Hr]. rewrite Hr by done.
  unfold h1. by rewrite lookup_insert_ne by set_solver.
Qed.

Section Verdicts.
Context `{Codec, Domain} (fuel : nat) (delta : Z) (compression have_state : bool) (reused : buffer → buffer).
Context (w : wstate) (x : loc) (l : list loc).
Context (Hf : fifo (ws_heap w) (freepacketbuffers (ws_pool w)) l) (Hx : x ∉ l) (Hi : idle (ws_heap w) x).
Context (Hl : Z.of_nat (length l) + 1 < 2 ^ 32).

(** [w'] is the end of one iteration for the packet with id [(hq, id)]. *)
Definition concluded (hq id : Z) (w' : wstate) : Prop :=
  (∃ k data, ws_verdicts w' = Verdict hq id k data :: ws_verdicts w)
  ∧ fifo (ws_heap w') (freepacketbuffers (ws_pool w')) (l ++ [x])
  ∧ (∀ y, y ∉ x :: l → ws_heap w' !! y = ws_heap w !! y)
  ∧ w_packets (ws_metrics w') = add_metric (w_packets (ws_metrics w)) 1.

Lemma put_back_concluded s m p hq id k data w' :
  w_packets m = add_metric (w_packets (ws_metrics w)) 1 →
  put_back (WState s (ws_heap w) (ws_pool w) m (ws_verdicts w)) x p (Verdict hq id k data) = Ret w' →
  concluded hq id w'.
Proof.
  intros Hm E.
  destruct (put_back_spec (WState s (ws_heap w) (ws_pool w) m (ws_verdicts w)) x p (Verdict hq id k data) l Hf Hx Hi Hl)
    as (h & fr & E' & Hf' & Hr).
  rewrite E' in E. injection E as <-. split; [by eexists _, _|]. by split_and!.
Qed.

Lemma worker_packet_concluded n w' :
  ws_heap w !! x = Some n → worker_packet fuel delta compression have_state reused w x = Ret w' →
  concluded (pk_hq (n_data n)) (pk_id (n_data n)) w'.
Proof.
  intros Hn E. unfold worker_packet in E.
  assert (El : load (ws_heap w) (Some x) = Ret n) by (unfold load, deref; by rewrite Hn).
  rewrite El in E. cbn [mbind outcome_bind] in E.
  apply bind_Ret in E as (t & _ & E). apply bind_Ret in E as (tot & _ & E).
  apply bind_Ret in E as ([r remoteID] & _ & E). apply bind_Ret in E as (sa & _ & E). apply bind_Ret in E as (so & _ & E).
  apply bind_Ret in E as (da & _ & E). apply bind_Ret in E as (de & _ & E).
  destruct (sort_sockets sa so da de) as [[[lIP lPort] sIP] sPort].
  apply bind_Ret in E as ([cur|] & _ & E).
  - apply bind_Ret in E as ([[s p] keep] & _ & E). destruct keep.
    + apply bind_Ret in E as (p' & _ & E). apply bind_Ret in E as (tot' & _ & E). apply bind_Ret in E as (v & Ev & E).
      unfold accept_with in Ev. destruct (in_object p' 0 (ntohs tot')); [|done]. injection Ev as <-.
      by eapply put_back_concluded; [|exact E].
    + apply bind_Ret in E as (w1 & E1 & E). apply bind_Ret in E as (f & _ & E). apply bind_Ret in E as (s1 & _ & E).
      injection E as <-. eapply (put_back_concluded _ _ _ _ _ _ _ w1); [|exact E1]. done.
  - by eapply put_back_concluded; [|exact E].
Qed.
End Verdicts.
