(* ===== verification/Tunnel.v ===== *)
(** * Two nodes and the connection between them (opennopd/subsystems/worker.c)

    Both ends of a connection send segments, in any number and interleaving; each node
    optimizes what its own host sends and restores what arrives from the other node.  The network between
    the nodes may delay, reorder, repeat and lose packets, and change their TTL, type of service and checksums.
    Every segment that comes out is one that went in at the other end. *)
From S2P Require Import Prelude Packet TcpOptions OptionLayout OptionOps NodTag RawOption Checked Compression Dll NodeId Domain WorkerPool.
From S2P Require Import Session Worker.
#[local] Open Scope Z_scope.
#[local] Open Scope list_scope.

(** ** Segments *)

(** A packet by its parts, and what stands behind it in the buffer. *)
Record segment := Segment {
  sg_h : list Z; sg_t : Z; sg_dd : Z; sg_tot : Z; sg_sq : Z; sg_items : list item; sg_P : list Z; sg_S : list Z
}.
Definition segment_bytes (g : segment) : buffer := pkt (sg_h g) (sg_items g) (sg_dd g) (sg_P g) (sg_S g).

(** The words the id and the mark need. *)
Definition tag_words (g : segment) : Z := words (space (no_nops (sg_items g)) (sg_dd g)) 12.
Definition mark_words (g : segment) : Z := words (space (no_nops (sg_items g)) (sg_dd g) + 4 * tag_words g - 12) 3.

(** An acknowledging segment without SYN, FIN and RST. *)
Definition plain_flags (f : Z) : Prop := syn_flag f = false ∧ ack_flag f = true ∧ fin_flag f = false ∧ rst_flag f = false.

(** A segment from the host [sa], with any payload up to a buffer's size and room for what the node adds. *)
Record host_segment (sa : Z) (g : segment) : Prop := HostSegment {
  hs_ok : packet_ok (sg_h g) (sg_t g) (sg_dd g) (sg_tot g) (sg_sq g) (sg_items g) (sg_P g);
  hs_untagged : lacks NOD (sg_items g);
  hs_unmarked : lacks COMPRESSED_OPTION (sg_items g);
  hs_proto : rd (sg_h g) 9 = Ret IPPROTO_TCP;
  hs_saddr : ∀ X, ip_saddr (sg_h g ++ X) = Ret sa;
  hs_flags : plain_flags (sg_h g @@ (sg_t g + 13));
  hs_bytes : bytes (sg_P g);
  hs_space : space (no_nops (sg_items g)) (sg_dd g) < 12;
  hs_room : sg_dd g + (tag_words g + mark_words g) <= 15;
  hs_slack : 4 * (tag_words g + mark_words g) <= blen (sg_S g);
  hs_fits : sg_tot g + 4 * (tag_words g + mark_words g) <= BUFSIZE
}.

(** ** The network *)

(** Type of service, TTL and the two checksums. *)
Definition mutable (t i : Z) : Prop := i = 1 ∨ i = 8 ∨ i = 10 ∨ i = 11 ∨ i = t + 16 ∨ i = t + 17.

(** The packet [p] arrives as [q], in a buffer of [BUFSIZE] bytes. *)
Definition carried (p q : buffer) : Prop :=
  match tcph_of p, ip_tot_len p with
  | Ret t, Ret tot => bytes q ∧ blen q = BUFSIZE ∧ ∀ i, 0 <= i < ntohs tot → ¬ mutable t i → q @@ i = p @@ i
  | _, _ => False
  end.

(** The fields of the header the two nodes may change as well: both lengths and the sequence number. *)
Definition same_fields (t : Z) (h k : list Z) : Prop :=
  blen h = blen k ∧ ∀ i, 0 <= i < t + 20 → ¬ mutable t i → i ≠ 2 → i ≠ 3 → i ≠ t + 12 → ¬ (t + 4 <= i < t + 8) → k @@ i = h @@ i.

(** [p] is the segment [g] again: payload, sequence number, options (without padding, perhaps with more behind or
    before them) and all other fields of the header. *)
Definition restores (g : segment) (p : buffer) : Prop :=
  ∃ K pre post dd S, let items := pre ++ no_nops (sg_items g) ++ post in
    p = pkt K items dd (sg_P g) S
    ∧ packet_ok K (sg_t g) dd (sg_t g + 4 * dd + blen (sg_P g)) (sg_sq g) items (sg_P g) ∧ same_fields (sg_t g) (sg_h g) K.

(** ** A node *)
Section Node.
Context `{CodecLaws} (fuel : nat) (delta : Z).

(** What a worker does with a packet of the session [cur] between the queue and the verdict, up to the checksums. *)
Definition node_packet (D : Domain) (lIP sIP : Z) (s : smstate) (cur : loc) (p : buffer) : outcome (smstate * buffer * bool) :=
  t ← tcph_of p;
  '(_, remoteID) ← get_nod_header_data fuel delta p ONOP;
  session_packet fuel delta true true s cur p t lIP sIP remoteID.

(** The node of the id [me] has an open session with its own host on side [w] and the node [peer] on the other side. *)
Record node_ready (s : smstate) (cur : loc) (w : side) (me peer : list Z) : Prop := NodeReady {
  nr_table : ∃ B, table_inv s B;
  nr_session : ∃ d, live s !! cur = Some d ∧ state d = TCP_ESTABLISHED ∧ accelerated d w me peer
}.

(** What leaves the node for the segment [g]. *)
Inductive on_wire (g : segment) (id : list Z) : list item → Z → list Z → Z → Prop :=
| wire_compressed lz :
    0 < blen (sg_P g) → qlz_compress (sg_P g) = Ret lz → blen lz < blen (sg_P g) →
    on_wire g id (marked 1 (sg_items g) id) (sg_dd g + (tag_words g + mark_words g)) lz (seq_add (sg_sq g) SEQ_SHIFT)
| wire_plain :
    blen (sg_P g) = 0 ∨ (∃ lz, qlz_compress (sg_P g) = Ret lz ∧ blen (sg_P g) <= blen lz) →
    on_wire g id (no_nops (sg_items g) ++ [nod_tag id]) (sg_dd g + tag_words g) (sg_P g) (sg_sq g).

(** [q] is what the node [id] made of [g]; it is [tot] bytes long. *)
Definition sent_for (g : segment) (id : list Z) (q : buffer) (tot : Z) : Prop :=
  ∃ K items dd P sq S, q = pkt K items dd P S ∧ packet_ok K (sg_t g) dd tot sq items P ∧ hdr_eqv (sg_t g) (sg_h g) K
    ∧ on_wire g id items dd P sq.
End Node.

(** * Facts *)

(** ** What the network keeps *)
Lemma at_take n l i : 0 <= i < n → at_ (take (Z.to_nat n) l) i = l @@ i.
Proof.
  intros Hi. unfold at_. rewrite !nth_lookup. by rewrite lookup_take_lt by lia.
Qed.

Lemma at_drop n l i : 0 <= n → 0 <= i → at_ (drop (Z.to_nat n) l) i = l @@ (n + i).
Proof. intros Hn Hi. unfold at_. rewrite !nth_lookup, lookup_drop. do 2 f_equal. lia. Qed.

Lemma rd_agrees h k i : blen h = blen k → (0 <= i < blen h → k @@ i = h @@ i) → 0 <= i < blen h → rd k i = rd h i.
Proof. intros El E Hi. rewrite !rd_at by lia. by rewrite E. Qed.

Lemma carried_pkt t tot h items dd P S sq q :
  packet_ok h t dd tot sq items P → tot <= BUFSIZE → carried (pkt h items dd P S) q →
  ∃ h2 S2, q = pkt h2 items dd P S2 ∧ packet_ok h2 t dd tot sq items P ∧ same_fields t h h2 ∧ t + 4 * dd + blen P + blen S2 = BUFSIZE.
Proof.
  intros Hp Hfit Hc. pose proof Hp as [Hh Hf Htot]. pose proof Hh as [Hlen Hhb Ht Hth Hdo Hd Hit Htb Hsq].
  assert (∃ v, ip_tot_len (pkt h items dd P S) = Ret v ∧ ntohs v = tot) as (v & Ev & Etot).
  { exists (htons tot). split; [unfold pkt; by opt_head Hh|]. by apply ntohs_invol. }
  unfold carried in Hc. rewrite (tcph_of_pkt Hp), Ev, Etot in Hc. destruct Hc as (Hb & Hl & Hkeep).
  set (M := area items (4 * dd - 20) ++ P).
  assert (HM : blen M = 4 * dd - 20 + blen P) by (unfold M; rewrite blen_app, area_length by apply Hf; lia).
  assert (Hs : pkt h items dd P S = h ++ M ++ S) by (unfold pkt, M; by rewrite <-app_assoc).
  pose proof (blen_nonneg P) as HP0.
  set (h2 := take (Z.to_nat (t + 20)) q). set (S2 := drop (Z.to_nat tot) q).
  assert (Hh2 : blen h2 = t + 20) by (unfold h2, blen in *; rewrite length_take; lia).
  assert (HS2 : blen S2 = BUFSIZE - tot) by (unfold S2; rewrite blen_drop by lia; lia).
  assert (Hat : ∀ i, 0 <= i < t + 20 → ¬ mutable t i → h2 @@ i = h @@ i).
  { intros i Hi Hm. unfold h2. rewrite at_take, Hkeep by (done || lia). rewrite Hs. apply at_app_l. lia. }
  assert (Eq : q = h2 ++ M ++ S2).
  { apply buffer_ext; [rewrite !blen_app; lia|]. intros i Hi.
    destruct (Z.lt_ge_cases i (t + 20)); [rewrite at_app_l by lia; unfold h2; by rewrite at_take by lia|].
    replace i with (blen h2 + (i - (t + 20))) at 2 by lia. rewrite at_app_r by lia.
    destruct (Z.lt_ge_cases i tot).
    - rewrite at_app_l by lia. rewrite Hkeep by (unfold mutable; lia). rewrite Hs.
      replace i with (blen h + (i - (t + 20))) at 1 by lia. rewrite at_app_r by lia. by rewrite at_app_l by lia.
    - replace (i - (t + 20)) with (blen M + (i - tot)) by lia. rewrite at_app_r by lia. unfold S2. rewrite at_drop by lia.
      f_equal. lia. }
  exists h2, S2. split_and!; [by unfold M in Eq; rewrite Eq; unfold pkt; rewrite <-app_assoc| | |lia].
  - assert (Hrd : ∀ i, 0 <= i < t + 20 → ¬ mutable t i → rd h2 i = rd h i).
    { intros i Hi Hm. apply rd_agrees; [lia| |lia]. intros _. by apply Hat. }
    split; [|done|done]. split; [done| |done| | |done| |lia|]; unfold tcph_of, ip_ihl, tcp_doff, ip_tot_len, tcp_seq, ld32, ld16 in *.
    + unfold h2. by apply Forall_take.
    + by rewrite Hrd by (unfold mutable; lia).
    + by rewrite Hrd by (unfold mutable; lia).
    + by rewrite !Hrd by (unfold mutable; lia).
    + by rewrite !Hrd by (unfold mutable; lia).
  - split; [lia|]. intros i Hi Hm _ _ _ _. by apply Hat.
Qed.

Lemma hdr_eqv_fields t h k : hdr_eqv t h k → same_fields t h k.
Proof. intros [El Er _]. split; [done|]. intros i Hi _ H2 H3 H12 Hs. apply Er; lia. Qed.

Lemma same_fields_trans t h k l : same_fields t h k → same_fields t k l → same_fields t h l.
Proof. intros [E1 F1] [E2 F2]. split; [congruence|]. intros. rewrite F2 by done. auto. Qed.

Section Fields.
Context {t : Z} {h k : list Z} (Ht : 20 <= t) (Hl : blen h = t + 20) (Hs : same_fields t h k).

Lemma fields_rd i : 0 <= i < t + 20 → ¬ mutable t i → i ≠ 2 → i ≠ 3 → i ≠ t + 12 → ¬ (t + 4 <= i < t + 8) → rd k i = rd h i.
Proof. intros. destruct Hs as [El E]. apply rd_agrees; [done| |lia]. intros _. by apply E. Qed.

Lemma fields_proto : rd k 9 = rd h 9.
Proof. apply fields_rd; unfold mutable; lia. Qed.

Lemma fields_flags : k @@ (t + 13) = h @@ (t + 13).
Proof. destruct Hs as [_ E]. apply E; unfold mutable; lia. Qed.

Lemma fields_saddr sa : (∀ X, ip_saddr (h ++ X) = Ret sa) → ∀ X, ip_saddr (k ++ X) = Ret sa.
Proof.
  intros H X. rewrite <-(H X). destruct Hs as [El _]. unfold ip_saddr, ld32, ld16.
  rewrite !rd_app_l by lia. by rewrite !fields_rd by (unfold mutable; lia).
Qed.
End Fields.

Lemma close_plain s cur f : plain_flags f → close_session s cur f = Ret s.
Proof. intros (_ & _ & Hf & Hr). unfold close_session. by rewrite Hr, Hf. Qed.

(** ** A node among its neighbors *)
Section Nodes.
Context `{CodecLaws} {fuel : nat} (Hfuel : (64 <= fuel)%nat) (delta : Z).
Context (D : Domain) (peer : list Z) {lIP sIP : Z} (cur : loc).
Context (Hme : is_id get_opennop_id) (Hpeer : is_id peer) (Hne : peer ≠ get_opennop_id) (Hz : check_opennopid (Some peer) = true).

(** A packet with plain flags whose origin is known. *)
Lemma node_packet_plain s p t o (nb : bool) f sz :
  tcph_of p = Ret t → get_nod_header_data fuel delta p ONOP = Ret (sz, o) → tcp_flags p t = Ret f → plain_flags f →
  from_neighbor p o = Ret nb →
  node_packet fuel delta D lIP sIP s cur p
  = ('(s, p, keep) ← (if nb then deoptimize fuel true s cur p t lIP sIP o
                      else '(s, p) ← optimize fuel delta true true s cur p t lIP sIP; Ret (s, p, true));
     if keep : bool then f ← tcp_flags p t; s ← close_session s cur f; Ret (s, p, true) else Ret (s, p, false)).
Proof.
  intros Et Eo Ef (Hs & Ha & Hf & _) En. unfold node_packet. rewrite Et. cbn [mbind outcome_bind]. rewrite Eo. cbn [mbind outcome_bind].
  unfold session_packet, process_packet. rewrite Ef. cbn [mbind outcome_bind]. rewrite Hs, Ha, Hf. cbn [negb andb]. rewrite En. cbn [mbind outcome_bind].
  by destruct nb.
Qed.

Lemma flags_pkt h t items dd P S : 20 <= t → blen h = t + 20 → tcp_flags (pkt h items dd P S) t = Ret (h @@ (t + 13)).
Proof. intros Ht Hl. unfold tcp_flags, pkt. rewrite rd_app_l by lia. apply rd_at. lia. Qed.

Lemma host_words sa g : host_segment sa g → 0 <= tag_words g ∧ 0 <= mark_words g.
Proof.
  intros [Hp _ _ _ _ _ _ Hsp _ _ _]. pose proof (space_nonneg (no_nops_packet_ok _ _ _ _ _ _ _ Hp)).
  pose proof (words_spec (space (no_nops (sg_items g)) (sg_dd g)) 12 ltac:(lia) ltac:(lia)) as W. fold (tag_words g) in W.
  split; apply words_nonneg; lia.
Qed.

(** The node that is next to the sender. *)
Lemma node_sends s sa g : faces sa lIP sIP → host_segment sa g → node_ready s cur (side_of sa lIP) get_opennop_id peer →
  ∃ s' q tot, node_packet fuel delta D lIP sIP s cur (segment_bytes g) = Ret (s', q, true)
    ∧ sent_for g get_opennop_id q tot ∧ node_ready s' cur (side_of sa lIP) get_opennop_id peer.
Proof.
  intros Hf Hg [[B I] (d & Ld & Std & [Ao Af])]. pose proof (host_words _ _ Hg) as [W1 W2].
  destruct Hg as [Hp Hnod H31 Hproto Hsa Hfl HPb Hsp Hroom HS Hfit]. pose proof Hp as [Hh _ Htot].
  pose proof (hdr_len _ _ _ _ _ Hh) as Hlen. pose proof (hdr_t _ _ _ _ _ Hh) as Ht. pose proof (hdr_d _ _ _ _ _ Hh) as Hd5. unfold BUFSIZE in Hfit.
  assert (Hal : length (accelerator (endpoint_at d (side_of sa lIP))) = 4%nat) by (rewrite Ao; apply Hme).
  assert (Eo : get_nod_header_data fuel delta (segment_bytes g) ONOP = Ret (0, None)).
  { unfold get_nod_header_data, get_nod_header, segment_bytes. by rewrite (get_tcpopt_absent Hfuel Hp) by done. }
  rewrite (node_packet_plain s (segment_bytes g) (sg_t g) None false _ 0 (tcph_of_pkt Hp) Eo (flags_pkt _ _ _ _ _ _ (proj1 Ht) Hlen) Hfl eq_refl).
  assert (Hend : ∀ s' K items dd P S, hdr_eqv (sg_t g) (sg_h g) K →
    (f ← tcp_flags (pkt K items dd P S) (sg_t g); s ← close_session s' cur f; Ret (s, pkt K items dd P S, true)) = Ret (s', pkt K items dd P S, true)).
  { intros s' K items dd P S V. pose proof (eqv_len _ _ _ V). rewrite flags_pkt by lia. cbn [mbind outcome_bind].
    rewrite close_plain; [done|]. by rewrite (fields_flags (proj1 Ht) (hdr_eqv_fields _ _ _ V)). }
  assert (Hcase : (∃ lz, 0 < blen (sg_P g) ∧ qlz_compress (sg_P g) = Ret lz ∧ blen lz < blen (sg_P g))
    ∨ (blen (sg_P g) = 0 ∨ ∃ lz, qlz_compress (sg_P g) = Ret lz ∧ blen (sg_P g) <= blen lz)).
  { pose proof (blen_nonneg (sg_P g)). destruct (decide (blen (sg_P g) = 0)) as [|Hn]; [by right; left|].
    destruct (qlz_compresses (sg_P g)) as (lz & Elz & _); [unfold BUFSIZE; lia|].
    destruct (decide (blen lz < blen (sg_P g))); [left|right; right]; exists lz; (split_and!; [lia|done|lia]) || (split; [done|lia]). }
  destruct Hcase as [(lz & HP & Elz & Hlz)|Hn].
  - destruct (optimize_spec Hfuel delta D s B cur d (sg_h g) (sg_t g) (sg_dd g) (sg_tot g) (sg_sq g) (sg_items g) (sg_P g) lz (sg_S g) sa lIP sIP peer
      (tag_words g) (mark_words g)) as (s' & K & S' & E & HpK & V & I' & d' & Ld' & Sd' & Ad'); try done; try (unfold BUFSIZE; lia).
    unfold segment_bytes. rewrite E. cbn [mbind outcome_bind]. rewrite Hend by done. eexists _, _, _. split; [done|]. split.
    + eexists _, _, _, _, _, _. split; [done|]. split; [exact HpK|]. split; [done|]. by apply wire_compressed.
    + split; [by eexists|]. exists d'. split_and!; [done|by rewrite Sd'|done].
  - destruct (optimize_plain_spec Hfuel delta D s B cur d (sg_h g) (sg_t g) (sg_dd g) (sg_tot g) (sg_sq g) (sg_items g) (sg_P g) (sg_S g) sa lIP sIP peer
      (tag_words g)) as (s' & K & S' & E & HpK & V & I' & d' & Ld' & Sd' & Ad'); try done; try (unfold BUFSIZE; pose proof (blen_nonneg (sg_P g)); lia).
    unfold segment_bytes. rewrite E. cbn [mbind outcome_bind]. rewrite Hend by done. eexists _, _, _. split; [done|]. split.
    + eexists _, _, _, _, _, _. split; [done|]. split; [exact HpK|]. split; [done|]. by apply wire_plain.
    + split; [by eexists|]. exists d'. split_and!; [done|by rewrite Sd'|done].
Qed.

Lemma other_other w : other (other w) = w.
Proof. by destruct w. Qed.

(** A packet without the mark passes as it is. *)
Lemma deoptimize_plain s B d h t dd tot sq items P S sa own off :
  table_inv s B → live s !! cur = Some d → packet_ok h t dd tot sq items P → lacks COMPRESSED_OPTION items →
  (∀ X, ip_saddr (h ++ X) = Ret sa) → faces sa lIP sIP → is_id own → length (accelerator (endpoint_at d (side_of sa lIP))) = 4%nat →
  remote_id (pkt h items dd P S) (Some off) = Ret (Some own) →
  ∃ s', deoptimize fuel true s cur (pkt h items dd P S) t lIP sIP (Some off) = Ret (s', pkt h items dd P S, true) ∧ table_inv s' B
    ∧ ∃ d', live s' !! cur = Some d' ∧ accelerated d' (side_of sa lIP) own (accelerator (endpoint_at d (other (side_of sa lIP))))
        ∧ state d' = state d.
Proof.
  intros I L Hp Hl Hsa Hf Hown Hal Hrid. unfold deoptimize. rewrite Hrid. cbn [mbind outcome_bind]. set (w := side_of sa lIP) in *.
  destruct (with_session_total s B cur d (saveacceleratorid (pkt h items dd P S) lIP (Some own)) (with_accel d w own) 0 I L)
    as (s1 & E1 & I1 & L1); [apply saveacceleratorid_id; [apply Hsa|apply Hf|done|done]|apply with_accel_identity|].
  rewrite E1. cbn [mbind outcome_bind]. rewrite (get_option_absent Hfuel Hp) by done. cbn [mbind outcome_bind].
  destruct (updateseq_total (S := S) lIP (with_accel d w own) Hp) as (d2 & r & E3 & I3 & A3 & S3).
  destruct (with_session_total _ _ _ _ _ _ _ I1 L1 E3 I3) as (s2 & E4 & I2 & L2).
  change (0 =? 0) with true. cbn match. rewrite E4. cbn [mbind outcome_bind]. exists s2. split_and!; [done..|]. exists d2.
  split_and!; [done| |rewrite S3; by destruct w]. split; rewrite A3; [apply with_accel_same|by rewrite with_accel_other].
Qed.

(** What arrives has the id of the sender on it. *)
Lemma arrives sa g q tot q' : host_segment sa g → sent_for g peer q tot → carried q q' →
  ∃ h2 S2 items dd P sq off, let p := pkt h2 items dd P S2 in q' = p ∧ packet_ok h2 (sg_t g) dd tot sq items P
    ∧ same_fields (sg_t g) (sg_h g) h2 ∧ sg_t g + 4 * dd + blen P + blen S2 = BUFSIZE ∧ on_wire g peer items dd P sq
    ∧ get_nod_header_data fuel delta p ONOP = Ret (4, Some off) ∧ remote_id p (Some off) = Ret (Some peer).
Proof.
  intros Hg (K & items & dd & P & sq & S & -> & HpK & V & Hw) Hc. pose proof (host_words _ _ Hg) as [W1 W2].
  destruct Hg as [[_ _ Htot] Hnod _ _ _ _ _ _ _ _ Hfit]. pose proof HpK as [_ _ HtotK].
  assert (Hfit' : tot <= BUFSIZE) by (destruct Hw; lia).
  destruct (carried_pkt _ _ _ _ _ _ _ _ _ HpK Hfit' Hc) as (h2 & S2 & -> & Hp2 & F2 & HS2).
  assert (∃ l, items = l ++ [nod_tag peer] ∧ lacks NOD l) as (l & El & Hll).
  { destruct Hw; [exists (Opt COMPRESSED_OPTION [1] :: no_nops (sg_items g))|exists (no_nops (sg_items g))]; (split; [done|]).
    - by apply marked_lacks.
    - by apply no_nops_lacks. }
  pose proof Hp2 as Hp3. rewrite El in Hp3.
  destruct (tag_read (S := S2) (l := l) delta peer Hfuel Hp3 Hll (proj1 (is_id_blen _ Hpeer))) as (off & Eg & Eo & Es). rewrite <-El in *.
  exists h2, S2, items, dd, P, sq, off. split_and!; [done|done| |done..|].
  - by eapply same_fields_trans, F2; apply hdr_eqv_fields.
  - unfold remote_id. change (Z.of_nat OPENNOP_IPC_ID_LENGTH) with 4. by rewrite Eo, Es.
Qed.

(** The node next to the receiver. *)
Lemma node_receives s sa g q tot q' : faces sa lIP sIP → host_segment sa g → node_ready s cur (other (side_of sa lIP)) get_opennop_id peer →
  in_domain (Some peer) = Ret true → sent_for g peer q tot → carried q q' →
  ∃ s' p, node_packet fuel delta D lIP sIP s cur q' = Ret (s', p, true) ∧ restores g p
    ∧ node_ready s' cur (other (side_of sa lIP)) get_opennop_id peer.
Proof.
  intros Hf Hg [[B I] (d & Ld & Std & [Ao Af])] Hdom Hfor Hc. rewrite other_other in Af.
  destruct (arrives _ _ _ _ _ Hg Hfor Hc) as (h2 & S2 & items & dd & P & sq & off & -> & Hp2 & F & HS2 & Hw & Eg & Hrid). clear Hfor Hc q.
  pose proof (host_words _ _ Hg) as [W1 W2]. destruct Hg as [[Hh _ Htot] Hnod H31 Hproto Hsa Hfl HPb _ _ _ Hfit].
  pose proof (blen_nonneg (sg_P g)) as HP0. pose proof (hdr_len _ _ _ _ _ Hh) as Hlen. pose proof (hdr_d _ _ _ _ _ Hh) as Hd5.
  pose proof (hdr_t _ _ _ _ _ Hh) as [Ht _]. assert (Hl2 : blen h2 = sg_t g + 20) by (destruct F; lia).
  pose proof (fields_saddr Ht Hlen F sa Hsa) as Hsa2. pose proof (fields_flags Ht F) as Efl. rewrite <-(fields_proto Ht Hlen F) in Hproto.
  rewrite <-Efl in Hfl. assert (Hal : length (accelerator (endpoint_at d (side_of sa lIP))) = 4%nat) by (rewrite Af; apply Hpeer).
  assert (En : from_neighbor (pkt h2 items dd P S2) (Some off) = Ret true) by (unfold from_neighbor; by rewrite Hrid).
  rewrite (node_packet_plain s (pkt h2 items dd P S2) (sg_t g) (Some off) true _ 4 (tcph_of_pkt Hp2) Eg (flags_pkt _ _ _ _ _ _ Ht Hl2) Hfl En).
  assert (Hend : ∀ s' K2 items dd P S, same_fields (sg_t g) h2 K2 →
    (f ← tcp_flags (pkt K2 items dd P S) (sg_t g); s ← close_session s' cur f; Ret (s, pkt K2 items dd P S, true)) = Ret (s', pkt K2 items dd P S, true)).
  { intros s' K2 items2 dd2 P2 S' F3. pose proof (proj1 F3). rewrite flags_pkt by lia. cbn [mbind outcome_bind].
    rewrite close_plain; [done|]. by rewrite (fields_flags Ht F3). }
  destruct Hw as [lz HP Elz Hlz|_].
  - destruct (deoptimize_spec Hfuel D s B cur d h2 (sg_t g) (sg_dd g + (tag_words g + mark_words g)) _ _ (sg_items g) (sg_P g) _ S2 sa lIP sIP
      peer off I Ld Hp2 Hnod Hproto Hsa2 Hf Hme Hpeer Hal Ao Hrid HPb) as (s' & K2 & S3 & E & Hp3 & V3 & I' & d' & Ld' & Ad' & Sd');
      [unfold BUFSIZE in *; lia|done|done|unfold BUFSIZE in *; lia|unfold BUFSIZE in *; lia|].
    rewrite E. cbn [mbind outcome_bind]. pose proof (hdr_eqv_fields _ _ _ V3) as F3. rewrite Hend by done. eexists _, _. split; [done|]. split.
    + exists K2, [Opt COMPRESSED_OPTION [0]], [nod_tag peer], (sg_dd g + (tag_words g + mark_words g)), S3. split; [done|].
      rewrite seq_add_back in Hp3 by exact (hdr_seq_bound _ _ _ _ _ Hh). split; [exact Hp3|]. by eapply same_fields_trans.
    + split; [by eexists|]. exists d'. split_and!; [done|by rewrite Sd'|]. destruct Ad' as [A1 A2]. split; [done|by rewrite other_other].
  - destruct (deoptimize_plain s B d h2 (sg_t g) (sg_dd g + tag_words g) tot (sg_sq g) (no_nops (sg_items g) ++ [nod_tag peer]) (sg_P g) S2 sa peer off)
      as (s' & E & I' & d' & Ld' & Ad' & Sd'); try done.
    { apply Forall_app. split; [by apply no_nops_lacks|]. by repeat constructor. }
    rewrite E. cbn [mbind outcome_bind]. rewrite Hend by done. eexists _, _. split; [done|]. split.
    + exists h2, [], [nod_tag peer], (sg_dd g + tag_words g), S2. split; [done|]. split; [|done]. destruct Hp2 as [Hh2 Hf2 Ht2].
      split; [|done|done]. by rewrite Ht2 in Hh2.
    + split; [by eexists|]. exists d'. split_and!; [done|by rewrite Sd'|]. destruct Ad' as [A1 A2].
      split; [by rewrite A2|by rewrite other_other].
Qed.
End Nodes.

(** ** The tunnel *)

(** A node with what it sent and what it received, each with the segment it was made of. *)
Record node_state := NodeState { table : smstate; sent : list (segment * buffer); received : list (segment * buffer * bool) }.

Section Tunnel.
Context `{CodecLaws} (fuel : nat) (delta lIP sIP : Z) (dom : bool → Domain) (cur : bool → loc) (addr : bool → Z).

(** The id of the node [e], and its host's side of the session. *)
Definition id_of (e : bool) : list Z := get_opennop_id (Domain := dom e).
Definition host_side (e : bool) : side := side_of (addr e) lIP.

Definition set_node (st : bool → node_state) (e : bool) (n : node_state) : bool → node_state :=
  λ b, if Bool.eqb b e then n else st b.

(** The host of [e] sends a segment; the other node receives a copy of something [e] sent; or [e] works for
    other sessions, which leaves this one open. *)
Inductive tunnel_step (st : bool → node_state) : (bool → node_state) → Prop :=
| host_sends e g s q : host_segment (addr e) g →
    node_packet fuel delta (dom e) lIP sIP (table (st e)) (cur e) (segment_bytes g) = Ret (s, q, true) →
    tunnel_step st (set_node st e (NodeState s (sent (st e) ++ [(g, q)]) (received (st e))))
| node_gets e g q q' s p keep : (g, q) ∈ sent (st (negb e)) → carried q q' →
    node_packet fuel delta (dom e) lIP sIP (table (st e)) (cur e) q' = Ret (s, p, keep) →
    tunnel_step st (set_node st e (NodeState s (sent (st e)) (received (st e) ++ [(g, p, keep)])))
| other_work e s : node_ready s (cur e) (host_side e) (id_of e) (id_of (negb e)) →
    tunnel_step st (set_node st e (NodeState s (sent (st e)) (received (st e)))).

(** The nodes know each other and the hosts are the two ends of the session. *)
Record tunnel_ok : Prop := TunnelOk {
  to_ids e : is_id (id_of e) ∧ check_opennopid (Some (id_of e)) = true;
  to_apart e : id_of (negb e) ≠ id_of e;
  to_domain e : in_domain (Domain := dom e) (Some (id_of (negb e))) = Ret true;
  to_ends e : faces (addr e) lIP sIP;
  to_sides e : host_side (negb e) = other (host_side e)
}.

Definition tunnel_starts (st : bool → node_state) : Prop :=
  ∀ e, node_ready (table (st e)) (cur e) (host_side e) (id_of e) (id_of (negb e)) ∧ sent (st e) = [] ∧ received (st e) = [].

Definition node_inv (st : bool → node_state) (e : bool) : Prop :=
  node_ready (table (st e)) (cur e) (host_side e) (id_of e) (id_of (negb e))
  ∧ (∀ g q, (g, q) ∈ sent (st e) → host_segment (addr e) g ∧ ∃ tot, sent_for g (id_of e) q tot)
  ∧ ∀ g p keep, (g, p, keep) ∈ received (st e) → keep = true ∧ host_segment (addr (negb e)) g ∧ restores g p.

Context (Hfuel : (64 <= fuel)%nat) (Hok : tunnel_ok).

Lemma sends_ok st e g : node_inv st e → host_segment (addr e) g →
  ∃ s q tot, node_packet fuel delta (dom e) lIP sIP (table (st e)) (cur e) (segment_bytes g) = Ret (s, q, true)
    ∧ sent_for g (id_of e) q tot ∧ node_ready s (cur e) (host_side e) (id_of e) (id_of (negb e)).
Proof.
  intros (Hr & _ & _) Hg. destruct Hok as [Hids Hne _ Hf _]. destruct (Hids e) as [Hme _], (Hids (negb e)) as [Hpeer Hz].
  by apply (node_sends Hfuel delta (dom e) (id_of (negb e)) (cur e) Hme Hpeer (Hne e) Hz).
Qed.

Lemma gets_ok st e g q q' : (∀ b, node_inv st b) → (g, q) ∈ sent (st (negb e)) → carried q q' →
  ∃ s p, node_packet fuel delta (dom e) lIP sIP (table (st e)) (cur e) q' = Ret (s, p, true)
    ∧ restores g p ∧ node_ready s (cur e) (host_side e) (id_of e) (id_of (negb e)).
Proof.
  intros Hi Hq Hc. destruct Hok as [Hids Hne Hdom Hf Hs]. destruct (Hids e) as [Hme _], (Hids (negb e)) as [Hpeer Hz].
  destruct (Hi e) as (Hr & _ & _), (Hi (negb e)) as (_ & Hsent & _). destruct (Hsent g q Hq) as [Hg [tot Hfor]].
  assert (Eside : host_side e = other (host_side (negb e))) by by rewrite Hs, other_other.
  rewrite Eside in Hr |- *.
  by apply (node_receives Hfuel delta (dom e) (id_of (negb e)) (cur e) Hme Hpeer (table (st e)) (addr (negb e)) g q tot q').
Qed.

Lemma tunnel_step_inv st st' : (∀ e, node_inv st e) → tunnel_step st st' → ∀ e, node_inv st' e.
Proof.
  intros Hi Hs b.
  destruct Hs as [e g s q Hg E|e g q q' s p keep Hq Hc E|e s Hr]; unfold node_inv, set_node; destruct (Bool.eqb_spec b e) as [->|Hne];
    try exact (Hi b); cbn [table sent received]; destruct (Hi e) as (Hready & Hsent & Hrec).
  - destruct (sends_ok st e g (Hi e) Hg) as (s1 & q1 & tot & E1 & Hfor & Hr). rewrite E in E1. injection E1 as <- <-.
    split; [done|]. split; [|done]. intros g' q' [Hin|[= -> ->]%list_elem_of_singleton]%elem_of_app; [by apply Hsent|]. by split; [|exists tot].
  - destruct (gets_ok st e g q q' Hi Hq Hc) as (s1 & p1 & E1 & Hres & Hr). rewrite E in E1. injection E1 as <- <- ->.
    split; [done|]. split; [done|]. intros g' p' k [Hin|[= -> -> ->]%list_elem_of_singleton]%elem_of_app; [by apply Hrec|].
    split; [done|]. split; [|done]. destruct (Hi (negb e)) as (_ & Hsent' & _). by apply (Hsent' g q).
  - done.
Qed.

(** C1: the tunnel between two nodes is transparent to the connection, in both directions.  Whatever the hosts send,
    however sending, receiving and work for other sessions interleave, and whatever the network delays, reorders,
    repeats, loses and changes in TTL, type of service and checksums: neither node fails or drops a packet, and
    every packet a node hands to its host is a segment the other host sent, with its payload, sequence number, options
    and header fields. *)
Theorem tunnel_transparent start st : tunnel_starts start → rtc tunnel_step start st →
  ∀ e, (∀ g p keep, (g, p, keep) ∈ received (st e) → keep = true ∧ host_segment (addr (negb e)) g ∧ restores g p)
    ∧ (∀ g, host_segment (addr e) g → ∃ s q,
         node_packet fuel delta (dom e) lIP sIP (table (st e)) (cur e) (segment_bytes g) = Ret (s, q, true))
    ∧ (∀ g q q', (g, q) ∈ sent (st (negb e)) → carried q q' → ∃ s p,
         node_packet fuel delta (dom e) lIP sIP (table (st e)) (cur e) q' = Ret (s, p, true)).
Proof.
  intros Hstart Hr.
  assert (Hi : ∀ e, node_inv st e).
  { revert st Hr. apply (rtc_ind_r (λ st, ∀ e, node_inv st e)); [|intros st st' _ Hs Hi; by apply (tunnel_step_inv st)].
    intros e. destruct (Hstart e) as (Hr & Es & Er). split; [done|]. rewrite Es, Er.
    by split; [intros g q Hin|intros g p keep Hin]; apply elem_of_nil in Hin. }
  intros e. split_and!.
  - apply Hi.
  - intros g Hg. destruct (sends_ok st e g (Hi e) Hg) as (s & q & _ & E & _). by exists s, q.
  - intros g q q' Hq Hc. destruct (gets_ok st e g q q' Hi Hq Hc) as (s & p & E & _). by exists s, p.
Qed.
End Tunnel.

(** ** Witness: a segment of ten equal bytes, sent by the host of one node and received by the other *)
Definition ack_header : list Z :=
  [69; 0; 0; 58; 0; 0; 0; 0; 64; 6; 0; 0; 10; 0; 0; 1; 10; 0; 0; 2]
  ++ [15; 160; 0; 80; 0; 0; 1; 44; 0; 0; 0; 0; 112; 16; 250; 240; 0; 0; 0; 0].
Definition demo_segment : segment := Segment ack_header 20 7 58 738263040 demo_items (replicate 10 65) (replicate 1990 0).

Definition demo_dom (e : bool) : Domain :=
  if e then demo_peer [10; 0; 0; 9] [10; 0; 0; 8] else demo_peer [10; 0; 0; 8] [10; 0; 0; 9].
Definition demo_addr (e : bool) : Z := if e then 16777226 else 33554442.
Definition demo_start (e : bool) : node_state := NodeState demo_table [] [].

Definition demo_node (e : bool) := node_packet (C := run_codec) 64 (-8) (demo_dom e) 16777226 33554442 demo_table 1.

Lemma demo_tunnel_ok : tunnel_ok 16777226 33554442 demo_dom demo_addr.
Proof.
  split.
  - intros []; (split; [split; [done|repeat constructor; lia]|done]).
  - by intros [].
  - by intros [].
  - intros []; (split; [done|]); [by left|by right].
  - by intros [].
Qed.

Lemma ack_hdr : hdr ack_header 20 7 58 738263040.
Proof.
  split; try done; try lia. repeat first [apply Forall_cons; split; [lia|] | apply Forall_nil]; done.
Qed.

Lemma demo_host_segment : host_segment 16777226 demo_segment.
Proof.
  split; try (vm_compute; done); try done.
  - split; [apply ack_hdr|apply demo_syn_ok|done].
  - repeat constructor; done.
  - repeat constructor; done.
  - by apply Forall_replicate.
Qed.
Definition demo_wire : buffer := match demo_node true (segment_bytes demo_segment) with Ret (_, q, _) => q | _ => [] end.

Lemma demo_carried : carried demo_wire demo_wire.
Proof.
  unfold carried.
  replace (tcph_of demo_wire) with (Ret 20) by (vm_compute; reflexivity).
  replace (ip_tot_len demo_wire) with (Ret 17408) by (vm_compute; reflexivity).
  split; [|split; [vm_compute; reflexivity|done]].
  apply (bool_decide_unpack _). vm_compute. exact I.
Qed.

Lemma demo_starts : tunnel_starts 16777226 demo_dom (λ _, 1%positive) demo_addr demo_start.
Proof.
  destruct demo_table_inv as (B & I & L). intros e. split; [|done]. split; [by exists B|]. exists demo_session. split_and!; [done..|].
  destruct e; by split.
Qed.

Lemma tunnel_transparent_witness :
  ∃ st p, rtc (tunnel_step (C := run_codec) 64 (-8) 16777226 33554442 demo_dom (λ _, 1%positive) demo_addr) demo_start st
    ∧ (demo_segment, p, true) ∈ received (st false) ∧ restores demo_segment p.
Proof.
  pose proof run_codec_laws as Hc.
  pose proof (tunnel_transparent (C := run_codec) 64 (-8) 16777226 33554442 demo_dom (λ _, 1%positive) demo_addr ltac:(lia) demo_tunnel_ok
    demo_start) as T.
  destruct (T demo_start demo_starts (rtc_refl _ _) true) as (_ & Hsend & _).
  destruct (Hsend demo_segment demo_host_segment) as (s & q & E).
  assert (q = demo_wire) as ->.
  { unfold demo_wire, demo_node. change (demo_table) with (table (demo_start true)). by rewrite E. }
  set (st1 := set_node demo_start true (NodeState s (sent (demo_start true) ++ [(demo_segment, demo_wire)]) (received (demo_start true)))).
  assert (R1 : rtc (tunnel_step (C := run_codec) 64 (-8) 16777226 33554442 demo_dom (λ _, 1%positive) demo_addr) demo_start st1).
  { apply rtc_once. by apply (host_sends _ _ _ _ _ _ _ demo_start true demo_segment s demo_wire demo_host_segment). }
  destruct (T st1 demo_starts R1 false) as (_ & _ & Hget).
  destruct (Hget demo_segment demo_wire demo_wire) as (s2 & p & E2); [by left|exact demo_carried|].
  set (st2 := set_node st1 false (NodeState s2 (sent (st1 false)) (received (st1 false) ++ [(demo_segment, p, true)]))).
  assert (R2 : rtc (tunnel_step (C := run_codec) 64 (-8) 16777226 33554442 demo_dom (λ _, 1%positive) demo_addr) demo_start st2).
  { eapply rtc_r; [exact R1|]. eapply (node_gets _ _ _ _ _ _ _ st1 false demo_segment demo_wire demo_wire s2 p true); [by left|exact demo_carried|exact E2]. }
  exists st2, p. split; [exact R2|]. split; [by left|].
  destruct (T st2 demo_starts R2 false) as (Hrec & _). by apply (Hrec demo_segment p true); left.
Defined.
