(* ===== verification/WorkerVerdict.v ===== *)
(** * One packet, one verdict (opennopd/subsystems/worker.c)

    When an iteration of a worker is sure to end, and what it ends with: packets of hosts, and packets a
    neighbor's worker made, whatever the session they belong to has seen. *)
From S2P Require Import Prelude Packet TcpOptions OptionLayout OptionOps NodTag RawOption Csum Checked Compression Dll.
From S2P Require Import NodeId Domain WorkerPool Session Queue Counters Driver Worker QuicklzCodec.
#[local] Open Scope Z_scope.
#[local] Open Scope list_scope.

(** [p] is a packet that fits its buffer with a byte to spare, with the header [h] up to lengths, sequence number
    and checksums. *)
Definition intact (t : Z) (h : list Z) (p : buffer) : Prop :=
  ∃ K items d tot sq P S, p = pkt K items d P S ∧ packet_ok K t d tot sq items P ∧ hdr_eqv t h K
    ∧ bytes P ∧ bytes S ∧ 1 <= blen S.

(** ** Steps that always succeed *)
Section Steps.
Context {h : list Z} {t dd tot sq : Z} {items : list item} {P S : list Z}.
Context (Hp : packet_ok h t dd tot sq items P).

Lemma saddr_total : ∃ sa, ip_saddr (pkt h items dd P S) = Ret sa.
Proof.
  pose proof (ok_hdr _ _ _ _ _ _ _ Hp) as Hh. pose proof (hdr_len _ _ _ _ _ Hh). pose proof (hdr_t _ _ _ _ _ Hh).
  unfold ip_saddr, ld32, ld16, pkt. rewrite !rd_app_l, !rd_at by lia. by eexists.
Qed.

Lemma addresses_total :
  ∃ sa so da de, ip_saddr (pkt h items dd P S) = Ret sa ∧ tcp_source (pkt h items dd P S) t = Ret so
    ∧ ip_daddr (pkt h items dd P S) = Ret da ∧ tcp_dest (pkt h items dd P S) t = Ret de.
Proof.
  pose proof (ok_hdr _ _ _ _ _ _ _ Hp) as Hh. pose proof (hdr_len _ _ _ _ _ Hh). pose proof (hdr_t _ _ _ _ _ Hh).
  unfold ip_saddr, ip_daddr, tcp_source, tcp_dest, ld32, ld16, pkt. rewrite !rd_app_l, !rd_at by lia.
  by eexists _, _, _, _.
Qed.

Lemma flags_total : tcp_flags (pkt h items dd P S) t = Ret (h @@ (t + 13)).
Proof.
  pose proof (ok_hdr _ _ _ _ _ _ _ Hp) as Hh. pose proof (hdr_len _ _ _ _ _ Hh). pose proof (hdr_t _ _ _ _ _ Hh).
  unfold tcp_flags, pkt. rewrite rd_app_l by lia. apply rd_at. lia.
Qed.

Lemma save_total lIP id d :
  ∃ d' r, saveacceleratorid (pkt h items dd P S) lIP id d = Ret (d', r) ∧ same_identity d d'.
Proof.
  unfold saveacceleratorid. destruct (lIP =? 0); [by eexists _, _|]. destruct saddr_total as (sa & E).
  unfold source_side. rewrite E. cbn [mbind outcome_bind]. eexists _, _. split; [done|].
  destruct d as [? ? ? [] [] ? ? ?]. by destruct (sa =? lIP).
Qed.

Lemma tracked_total s B cur d lIP : table_inv s B → live s !! cur = Some d →
  ∃ s' d', with_session s (Some cur) (updateseq (pkt h items dd P S) t lIP) = Ret s' ∧ table_inv s' B ∧ live s' !! cur = Some d'.
Proof.
  intros I L. destruct (updateseq_total (S := S) lIP d Hp) as (d2 & r & E & Id & _).
  destruct (with_session_total _ _ _ _ _ _ _ I L E Id) as (s2 & E2 & I2 & L2). by exists s2, d2.
Qed.

Lemma saved_total s B cur d lIP id : table_inv s B → live s !! cur = Some d →
  ∃ s' d', with_session s (Some cur) (saveacceleratorid (pkt h items dd P S) lIP id) = Ret s' ∧ table_inv s' B
    ∧ live s' !! cur = Some d'.
Proof.
  intros I L. destruct (save_total lIP id d) as (d2 & r & E & Id).
  destruct (with_session_total _ _ _ _ _ _ _ I L E Id) as (s2 & E2 & I2 & L2). by exists s2, d2.
Qed.

(** The checksums and the bytes given to Netfilter. *)
Lemma accept_total hq id : rd h 9 = Ret IPPROTO_TCP → bytes P → bytes S → 1 <= blen S →
  ∃ p q, checksum (pkt h items dd P S) = Ret p ∧ ip_tot_len p = Ret (htons tot)
    ∧ accept_with hq id p (htons tot) = Ret (Verdict hq id NF_ACCEPT (Some q)) ∧ valid_checksums q t.
Proof.
  intros Hproto HP HS Hl. destruct (checksum_pkt Hp Hproto HP HS Hl) as (H' & E & Hp' & _ & Hv).
  eexists _, _. split; [exact E|]. split; [unfold pkt; pose proof (ok_hdr _ _ _ _ _ _ _ Hp') as Hh'; by opt_head Hh'|].
  split; [by apply (accept_pkt _ _ Hp')|done].
Qed.
End Steps.

Lemma close_total s B cur d f : table_inv s B → live s !! cur = Some d →
  ∃ s', close_session s cur f = Ret s' ∧ ∃ B', table_inv s' B'.
Proof.
  intros I L. unfold close_session. destruct (rst_flag f).
  - destruct (clearsession_inv s B cur d I L) as (s1 & -> & _ & I1). cbn [mbind outcome_bind].
    destruct (fin_flag f); (eexists; split; [done|by eexists]).
  - cbn [mbind outcome_bind]. destruct (fin_flag f); [|eexists; split; [done|by eexists]].
    destruct (closingsession_inv s B cur d I L) as (s1 & r & -> & _ & I1). by exists s1.
Qed.

Section Total.
Context `{CodecLaws} {fuel : nat} (Hfuel : (64 <= fuel)%nat) (delta : Z) (D : Domain) (compression have_state : bool).
Context (Hme : is_id get_opennop_id).

(** Compression, whatever the switches and the payload. *)
Lemma compress_total {h t dd tot sq items P S} a :
  packet_ok h t dd tot sq items P → rd h 9 = Ret IPPROTO_TCP → bytes P → bytes S → 1 <= blen S → blen P <= BUFSIZE →
  lacks COMPRESSED_OPTION items → a = words (space (no_nops items) dd) 3 → dd + a <= 15 → 4 * a + 1 <= blen S → tot + 4 * a < 65536 →
  ∃ p r, tcp_compress fuel compression true have_state (pkt h items dd P S) = Ret (p, r) ∧ intact t h p.
Proof.
  intros Hp Hproto HP HS Hl Hfit H31 Ea Hd Hroom Ht.
  assert (Hsame : intact t h (pkt h items dd P S)) by (exists h, items, dd, tot, sq, P, S; by split_and!).
  destruct compression; [|unfold tcp_compress; rewrite andb_false_r; by eexists _, _].
  destruct have_state; [|unfold tcp_compress; by eexists _, _].
  pose proof (blen_nonneg P). destruct (decide (blen P = 0)) as [E0|E0].
  { rewrite (incompressible_untouched fuel _ _ _ _ _ _ _ _ Hp) by (done || by left). by eexists _, _. }
  destruct (qlz_compresses P) as (lz & Elz & Hlz & Hb); [lia|].
  destruct (decide (blen lz < blen P)) as [Hlt|Hge].
  2:{ rewrite (incompressible_untouched fuel _ _ _ _ _ _ _ _ Hp); [by eexists _, _|done|done|].
      right. exists lz. split; [done|lia]. }
  destruct (tcp_compress_pkt (S := S) Hfuel Hp Hproto ltac:(lia) lz _ a Elz Hlt (set_new items dd COMPRESSED_OPTION 3 1 a H31 Ea) Hd)
    as (K & S' & E & HpK & V & Hlen & k & Ek); [lia|lia|].
  rewrite E. eexists _, _. split; [done|]. do 7 eexists. split; [done|]. split; [exact HpK|]. split_and!; [done|by apply Hb| |lia].
  rewrite Ek. by apply Forall_drop, bytes_app.
Qed.

Lemma optimize_total s B cur d h t dd tot sq items P S lIP sIP a1 a2 :
  table_inv s B → live s !! cur = Some d → packet_ok h t dd tot sq items P → lacks NOD items → lacks COMPRESSED_OPTION items →
  rd h 9 = Ret IPPROTO_TCP → bytes P → bytes S → blen P <= BUFSIZE →
  space (no_nops items) dd < 12 → a1 = words (space (no_nops items) dd) 12 →
  a2 = words (space (no_nops items) dd + 4 * a1 - 12) 3 → dd + (a1 + a2) <= 15 → 4 * (a1 + a2) + 1 <= blen S →
  tot + 4 * (a1 + a2) < 65536 →
  ∃ s' d' p, optimize fuel delta compression have_state s cur (pkt h items dd P S) t lIP sIP = Ret (s', p)
    ∧ intact t h p ∧ table_inv s' B ∧ live s' !! cur = Some d'.
Proof.
  intros I L Hp Hnod H31 Hproto HP HS Hfit Hsp Ea1 Ea2 Hroom Hslack Ht. destruct (is_id_blen _ Hme) as [Hl Hb].
  pose proof (space_nonneg (no_nops_packet_ok _ _ _ _ _ _ _ Hp)).
  pose proof (words_spec (space (no_nops items) dd) 12 ltac:(lia) ltac:(lia)) as W1. rewrite <-Ea1 in W1.
  pose proof (words_nonneg (space (no_nops items) dd + 4 * a1 - 12) 3 ltac:(lia) ltac:(lia)) as W2. rewrite <-Ea2 in W2.
  pose proof (hdr_len _ _ _ _ _ (ok_hdr _ _ _ _ _ _ _ Hp)). pose proof (hdr_t _ _ _ _ _ (ok_hdr _ _ _ _ _ _ _ Hp)).
  unfold optimize. destruct (saved_total (S := S) Hp s B cur d lIP (Some get_opennop_id) I L) as (s1 & d1 & E1 & I1 & L1).
  rewrite E1. cbn [mbind outcome_bind].
  destruct (set_tag_result (S := S) delta get_opennop_id a1 Hfuel Hp Hnod Hb Hl Hsp Ea1) as (K1 & E2 & Hp1 & V1); [lia|lia|lia|].
  rewrite E2. cbn [mbind outcome_bind]. rewrite (session_of_live _ _ _ L1). cbn [mbind outcome_bind].
  set (S1 := drop _ S) in *. assert (HS1 : bytes S1 ∧ blen S1 = blen S - 4 * a1)
    by (unfold S1; split; [by apply Forall_drop|rewrite blen_drop by lia; lia]). clearbody S1. destruct HS1 as [HS1 HlS1].
  destruct (saddr_total (S := S1) Hp1) as (sa & Esa). rewrite Esa. cbn [mbind outcome_bind].
  destruct (tracked_total (S := S1) Hp1 s1 B cur d1 lIP I1 L1) as (s2 & d2 & E3 & I2 & L2). rewrite E3. cbn [mbind outcome_bind].
  destruct (should_compress d1 sa lIP sIP).
  - assert (H31' : lacks COMPRESSED_OPTION (no_nops items ++ [nod_tag get_opennop_id])).
    { apply Forall_app. split; [by apply no_nops_lacks|]. by repeat constructor. }
    destruct (compress_total (S := S1) a2 Hp1) as (p & r & E4 & K & its & d4 & tot4 & sq4 & P4 & S4 & -> & HpK & V & HP4 & HS4 & Hl4); try done; try lia.
    + apply (eqv_proto t h); done || lia.
    + rewrite Ea2. f_equal. rewrite no_nops_tag, space_snoc, space_grow.
      replace (blen (enc1 (nod_tag get_opennop_id))) with 12; [done|].
      unfold nod_tag. cbn [enc1]. unfold blen in *. cbn [length]. rewrite length_app. cbn [length ONOP]. lia.
    + rewrite E4. cbn [mbind outcome_bind]. exists s2, d2. eexists. split; [done|]. split; [|done].
      exists K, its, d4, tot4, sq4, P4, S4. split_and!; try done. by rewrite V1.
  - exists s2, d2. eexists. split; [done|]. split; [|done]. do 7 eexists. split; [done|]. split; [exact Hp1|].
    split_and!; [done..|lia].
Qed.

(** A mark with the block the compressor made of [Q], and room for [Q]. *)
Definition marked_block (t dd : Z) (items : list item) (P S : list Z) : Prop :=
  ∃ rest Q, items = Opt COMPRESSED_OPTION [1] :: rest ∧ bytes Q ∧ 0 < blen Q <= BUFSIZE ∧ qlz_compress Q = Ret P ∧ blen P < blen Q
    ∧ t + 4 * dd + blen Q < 65536 ∧ blen Q + 1 <= blen P + blen S.

Lemma deoptimize_total s B cur d h t dd tot sq items P S lIP sIP off own :
  table_inv s B → live s !! cur = Some d → packet_ok h t dd tot sq items P →
  rd h 9 = Ret IPPROTO_TCP → bytes P → bytes S → 1 <= blen S →
  remote_id (pkt h items dd P S) (Some off) = Ret (Some own) →
  lacks COMPRESSED_OPTION items ∨ marked_block t dd items P S →
  ∃ s' d' p keep, deoptimize fuel have_state s cur (pkt h items dd P S) t lIP sIP (Some off) = Ret (s', p, keep)
    ∧ intact t h p ∧ table_inv s' B ∧ live s' !! cur = Some d' ∧ (have_state = true → keep = true).
Proof.
  intros I L Hp Hproto HP HS Hl Hrid Hcase. unfold deoptimize. rewrite Hrid. cbn [mbind outcome_bind].
  destruct (saved_total (S := S) Hp s B cur d lIP (Some own) I L) as (s1 & d1 & E1 & I1 & L1). rewrite E1. cbn [mbind outcome_bind].
  assert (Hsame : intact t h (pkt h items dd P S)) by (exists h, items, dd, tot, sq, P, S; by split_and!).
  destruct Hcase as [H31|(rest & Q & Ei & HQ & HQb & Elz & Hlt & Ht & Hroom)].
  - rewrite (get_option_absent Hfuel Hp) by done. cbn [mbind outcome_bind]. change (0 =? 0) with true. cbn match.
    destruct (tracked_total (S := S) Hp s1 B cur d1 lIP I1 L1) as (s2 & d2 & E2 & I2 & L2). rewrite E2. cbn [mbind outcome_bind].
    exists s2, d2. eexists _, _. by split_and!.
  - rewrite (get_option_present Hfuel Hp COMPRESSED_OPTION [1] [] rest Ei ltac:(constructor)) by done. cbn [mbind outcome_bind].
    change (be [1] =? 0) with false. cbn match. rewrite (session_of_live _ _ _ L1). cbn [mbind outcome_bind].
    destruct (saddr_total (S := S) Hp) as (sa & Esa). rewrite Esa. cbn [mbind outcome_bind].
    destruct (should_decompress d1 sa lIP sIP); [|exists s1, d1; eexists _, _; by split_and!].
    destruct have_state; [|unfold tcp_decompress; cbn [mbind outcome_bind]; exists s1, d1; eexists _, _; by split_and!].
    assert (Hset : option_set items dd COMPRESSED_OPTION 3 0 (Opt COMPRESSED_OPTION (be_bytes 1 0) :: rest) 0)
      by (by apply (set_old items dd COMPRESSED_OPTION 3 0 [] [1] rest); [|constructor|]).
    pose proof (qlz_size Q P HQb Elz) as HPb.
    destruct (tcp_decompress_pkt (S := S) Hfuel Hp Hproto ltac:(lia) Q 0 _ (qlz_roundtrip Q P S HQ HQb Elz) HQb Hset eq_refl Ht)
      as (K & S' & E2 & HpK & V & ES'); [lia|].
    rewrite E2. cbn [mbind outcome_bind]. change (1 =? 0) with false. cbn match.
    destruct (tracked_total (S := S') HpK s1 B cur d1 lIP I1 L1) as (s2 & d2 & E3 & I2 & L2). rewrite E3. cbn [mbind outcome_bind].
    exists s2, d2. eexists _, _. split; [done|]. split; [|done]. do 7 eexists. split; [done|]. split; [exact HpK|].
    split_and!; [done..| |]; rewrite ES'; [by apply Forall_drop, bytes_app|].
    replace (length Q) with (Z.to_nat (blen Q)) by (unfold blen; lia). rewrite blen_drop by (rewrite blen_app; lia).
    rewrite blen_app. lia.
Qed.
End Total.

(** ** What arrives at a worker *)
Section Verdict.
Context `{CodecLaws} (D : Domain) (fuel : nat) (delta : Z) (compression have_state : bool) (reused : buffer → buffer).

(** A packet of a host, with room for the id and the mark; or a packet a neighbor that is up has tagged, compressed
    or not. *)
Inductive arrives_from (t dd tot : Z) (items : list item) (P S : list Z) : Prop :=
| from_host a1 a2 :
    lacks NOD items → lacks COMPRESSED_OPTION items → blen P <= BUFSIZE →
    space (no_nops items) dd < 12 → a1 = words (space (no_nops items) dd) 12 →
    a2 = words (space (no_nops items) dd + 4 * a1 - 12) 3 →
    dd + (a1 + a2) <= 15 → 4 * (a1 + a2) + 1 <= blen S → tot + 4 * (a1 + a2) < 65536 → arrives_from t dd tot items P S
| from_node l own :
    items = l ++ [nod_tag own] → lacks NOD l → is_id own → in_domain (Some own) = Ret true →
    lacks COMPRESSED_OPTION items ∨ marked_block t dd items P S → arrives_from t dd tot items P S.

Lemma session_packet_total {h t dd tot sq items P S} s B cur d lIP sIP sz remoteID :
  (64 <= fuel)%nat → is_id get_opennop_id → table_inv s B → live s !! cur = Some d → packet_ok h t dd tot sq items P →
  rd h 9 = Ret IPPROTO_TCP → bytes P → bytes S → 1 <= blen S → arrives_from t dd tot items P S →
  get_nod_header_data fuel delta (pkt h items dd P S) ONOP = Ret (sz, remoteID) →
  ∃ s' p keep, session_packet fuel delta compression have_state s cur (pkt h items dd P S) t lIP sIP remoteID = Ret (s', p, keep)
    ∧ intact t h p ∧ (have_state = true → keep = true) ∧ (∃ B', table_inv s' B')
    ∧ (keep = false → ∃ d', live s' !! cur = Some d').
Proof.
  intros Hfuel Hme I L Hp Hproto HP HS Hl Hfrom Eg. unfold session_packet, process_packet. rewrite (flags_total Hp).
  cbn [mbind outcome_bind]. assert (Hsame : intact t h (pkt h items dd P S)) by (exists h, items, dd, tot, sq, P, S; by split_and!).
  assert (Hend : ∀ s1 d1 p, table_inv s1 B → live s1 !! cur = Some d1 → intact t h p →
    ∃ s', (f ← tcp_flags p t; s ← close_session s1 cur f; Ret (s, p, true)) = Ret (s', p, true) ∧ ∃ B', table_inv s' B').
  { intros s1 d1 p I1 L1 (K & its & d4 & tot4 & sq4 & P4 & S4 & -> & HpK & _). rewrite (flags_total HpK). cbn [mbind outcome_bind].
    destruct (close_total s1 B cur d1 (K @@ (t + 13)) I1 L1) as (s2 & -> & I2). by exists s2. }
  destruct (negb _ && _ && negb _).
  2:{ cbn [mbind outcome_bind]. destruct (Hend s d _ I L Hsame) as (s' & -> & I'). exists s'. eexists _, _. by split_and!. }
  destruct Hfrom as [a1 a2 Hnod H31 Hfit Hsp Ea1 Ea2 Hroom Hslack Ht|l own Ei Hll Hown Hdom Hmark].
  - assert (remoteID = None) as ->.
    { unfold get_nod_header_data, get_nod_header in Eg. rewrite (get_tcpopt_absent Hfuel Hp) in Eg by done. by injection Eg as _ <-. }
    cbn [from_neighbor mbind outcome_bind].
    destruct (optimize_total Hfuel delta D compression have_state Hme s B cur d h t dd tot sq items P S lIP sIP a1 a2)
      as (s1 & d1 & p & E & Hi & I1 & L1); [done..|]. rewrite E. cbn [mbind outcome_bind].
    destruct (Hend s1 d1 p I1 L1 Hi) as (s' & -> & I'). exists s'. eexists _, _. by split_and!.
  - pose proof Hp as Hp'. rewrite Ei in Hp'.
    destruct (tag_read (S := S) (l := l) delta own Hfuel Hp' Hll (proj1 (is_id_blen _ Hown))) as (off & Eg' & Eo & Es). rewrite <-Ei in *.
    rewrite Eg in Eg'. injection Eg' as -> ->.
    assert (Hrid : remote_id (pkt h items dd P S) (Some off) = Ret (Some own)).
    { unfold remote_id. change (Z.of_nat OPENNOP_IPC_ID_LENGTH) with 4. by rewrite Eo, Es. }
    unfold from_neighbor. rewrite Hrid. cbn [mbind outcome_bind]. rewrite Hdom. cbn [mbind outcome_bind].
    destruct (deoptimize_total Hfuel D have_state s B cur d h t dd tot sq items P S lIP sIP off own)
      as (s1 & d1 & p & keep & E & Hi & I1 & L1 & Hk); [done..|]. rewrite E. cbn [mbind outcome_bind]. destruct keep.
    + destruct (Hend s1 d1 p I1 L1 Hi) as (s' & -> & I'). exists s'. eexists _, _. by split_and!.
    + exists s1, p, false. split_and!; [done..|by exists B|]. intros _. by exists d1.
Qed.

(** The session of a packet. *)
Definition session_for (s : smstate) (p : buffer) (t : Z) : outcome (option loc) :=
  sa ← ip_saddr p; so ← tcp_source p t; da ← ip_daddr p; de ← tcp_dest p t;
  let '(lIP, lPort, sIP, sPort) := sort_sockets sa so da de in getsession s lIP lPort sIP sPort.

(** What the verdict is: without a session the packet goes on as it came; otherwise with new, valid
    checksums, unless it is compressed and the worker has no state for the decompressor. *)
Definition fair_verdict (t : Z) (cur : option loc) (v : verdict) : Prop :=
  match cur with
  | None => v_kind v = NF_ACCEPT ∧ v_data v = None
  | Some _ => (v_kind v = NF_ACCEPT ∧ ∃ q, v_data v = Some q ∧ valid_checksums q t)
              ∨ (v_kind v = NF_DROP ∧ v_data v = None ∧ have_state = false)
  end.

(** C13: A worker neither loses nor duplicates packets.  Whatever the packet is, an iteration that ends has
    given exactly one verdict with the packet's id, put the buffer behind the free ones and counted the
    packet once.  And it ends, for every packet that comes from a host with room for the id and the mark, and for
    every packet that a neighbor which is up has tagged and, if it is marked, made with the compressor: whatever
    its flags, the session table (well-formed before and after), the switches, and whatever another thread has
    done to the buffer when the flags of a dropped packet are read from it.  The packet is accepted,
    as it was when no session is known and with valid checksums otherwise; it is dropped only when it
    is compressed and the decompressor's state could not be allocated.  (For other packets an iteration may not
    end: a crafted option can hang it and a crafted block can crash it.) *)
Theorem worker_gives_one_verdict w x n l :
  fifo (ws_heap w) (freepacketbuffers (ws_pool w)) l → x ∉ l → ws_heap w !! x = Some n → n_next n = None →
  Z.of_nat (length l) + 1 < 2 ^ 32 →
  (∀ w', worker_packet fuel delta compression have_state reused w x = Ret w' →
     concluded w x l (pk_hq (n_data n)) (pk_id (n_data n)) w')
  ∧ (∀ h t dd tot sq items P S B,
     pk_data (n_data n) = pkt h items dd P S → (64 <= fuel)%nat → is_id get_opennop_id → packet_ok h t dd tot sq items P →
     rd h 9 = Ret IPPROTO_TCP → bytes P → bytes S → 1 <= blen S → arrives_from t dd tot items P S →
     table_inv (ws_sm w) B → (∀ p, blen p <= blen (reused p)) →
     ∃ w' v cur, worker_packet fuel delta compression have_state reused w x = Ret w' ∧ ws_verdicts w' = v :: ws_verdicts w
       ∧ session_for (ws_sm w) (pkt h items dd P S) t = Ret cur ∧ fair_verdict t cur v
       ∧ (∃ B', table_inv (ws_sm w') B') ∧ (cur = None → ws_sm w' = ws_sm w)).
Proof.
  intros Hf Hx Hn Hnx Hl. assert (Hi : idle (ws_heap w) x) by (by exists n).
  split; [intros w' E; by apply (worker_packet_concluded fuel delta compression have_state reused)|].
  intros h t dd tot sq items P S B Ep Hfuel Hme Hp Hproto HP HS Hroom Hfrom I Hre. unfold worker_packet, session_for.
  assert (El : load (ws_heap w) (Some x) = Ret n) by (unfold load, deref; by rewrite Hn).
  rewrite El. cbn [mbind outcome_bind]. rewrite Ep, (tcph_of_pkt Hp). cbn [mbind outcome_bind].
  pose proof (ok_hdr _ _ _ _ _ _ _ Hp) as Hh.
  assert (Et : ip_tot_len (pkt h items dd P S) = Ret (htons tot)) by (unfold pkt; by opt_head Hh).
  rewrite Et. cbn [mbind outcome_bind].
  assert (∃ sz remoteID, get_nod_header_data fuel delta (pkt h items dd P S) ONOP = Ret (sz, remoteID)) as (sz & remoteID & Eg).
  { destruct Hfrom as [a1 a2 Hnod _ _ _ _ _ _ _ _|m own Ei Hll Hown _ _].
    - unfold get_nod_header_data, get_nod_header. rewrite (get_tcpopt_absent Hfuel Hp) by done. by eexists _, _.
    - pose proof Hp as Hp'. rewrite Ei in Hp'.
      destruct (tag_read (S := S) (l := m) delta own Hfuel Hp' Hll (proj1 (is_id_blen _ Hown))) as (off & Eg' & _).
      rewrite <-Ei in Eg'. by eexists _, _. }
  rewrite Eg. cbn [mbind outcome_bind].
  destruct (addresses_total (S := S) Hp) as (sa & so & da & de & -> & -> & -> & ->). cbn [mbind outcome_bind].
  destruct (sort_sockets sa so da de) as [[[lIP lPort] sIP] sPort].
  destruct (getsession_inv (ws_sm w) B lIP lPort sIP sPort I) as (cur & -> & Hfound). cbn [mbind outcome_bind].
  destruct cur as [cur|].
  - destruct Hfound as (d & Ld & _).
    destruct (session_packet_total (ws_sm w) B cur d lIP sIP sz remoteID Hfuel Hme I Ld Hp Hproto HP HS Hroom Hfrom Eg)
      as (s' & p & keep & -> & Hint & Hk & I' & Lk). cbn [mbind outcome_bind].
    destruct Hint as (K & its & d4 & tot4 & sq4 & P4 & S4 & -> & HpK & V & HP4 & HS4 & Hl4). destruct keep.
    + pose proof (hdr_len _ _ _ _ _ Hh). pose proof (hdr_t _ _ _ _ _ Hh).
      destruct (accept_total (S := S4) HpK (pk_hq (n_data n)) (pk_id (n_data n))) as (p2 & q & E2 & Et2 & Ev & Hval);
        [apply (eqv_proto t h); done || lia|done..|]. rewrite E2. cbn [mbind outcome_bind]. rewrite Et2. cbn [mbind outcome_bind].
      rewrite Ev. cbn [mbind outcome_bind].
      match goal with |- context [put_back ?w0 x ?p ?v] => destruct (put_back_spec w0 x p v l Hf Hx Hi Hl) as (h' & fr & E & _ & _) end.
      rewrite E. eexists _, _, (Some cur). split_and!; [done|done|done| |done|done]. left. split; [done|by exists q].
    + match goal with |- context [put_back ?w0 x ?p ?v] => destruct (put_back_spec w0 x p v l Hf Hx Hi Hl) as (h' & fr & E & _ & _) end.
      rewrite E. cbn [mbind outcome_bind ws_sm]. destruct (Lk eq_refl) as (d' & Ld'). destruct I' as (B' & I').
      set (q := pkt K its d4 P4 S4) in *. pose proof (hdr_len _ _ _ _ _ (ok_hdr _ _ _ _ _ _ _ HpK)). pose proof (hdr_t _ _ _ _ _ Hh).
      assert (Hq : t + 20 <= blen q).
      { unfold q. rewrite (pkt_blen HpK). pose proof (hdr_d _ _ _ _ _ (ok_hdr _ _ _ _ _ _ _ HpK)). destruct HpK as [_ _ ->].
        pose proof (blen_nonneg P4). lia. }
      unfold tcp_flags. specialize (Hre q). rewrite rd_at by lia. cbn [mbind outcome_bind].
      destruct (close_total s' B' cur d' (reused q @@ (t + 13)) I' Ld') as (s2 & -> & I2). cbn [mbind outcome_bind].
      eexists _, _, (Some cur). split_and!; [done|done|done| |done|done]. right.
      split_and!; [done|done|]. destruct have_state; [by specialize (Hk eq_refl)|done].
  - match goal with |- context [put_back ?w0 x ?p ?v] => destruct (put_back_spec w0 x p v l Hf Hx Hi Hl) as (h' & fr & E & _ & _) end.
    rewrite E. eexists _, _, None. split_and!; [done|done|done|done|by exists B|done].
Qed.
End Verdict.

(** ** Concrete packets of the session of [demo_table] *)
Definition demo_worker (p : buffer) : wstate :=
  WState demo_table {[1%positive := Node None None (Packet 5 7 p)]}
    (Pool empty_head 0) (WorkerCounters (Metric 0 0 0) (Metric 0 0 0) (Metric 0 0 0)) [].

(** From port 80 of 20.0.0.0 to port 4000 of 10.0.0.0, with ACK. *)
Definition data_header (doff tot : Z) : list Z :=
  [69; 0; tot / 256; tot mod 256; 0; 0; 0; 0; 64; 6; 0; 0; 20; 0; 0; 0; 10; 0; 0; 0;
   80; 0; 160; 15; 0; 0; 1; 44; 0; 0; 0; 0; 16 * doff; 16; 250; 240; 0; 0; 0; 0].

Lemma host_hdr : hdr (data_header 7 58) 20 7 58 738263040.
Proof. split; try done; try lia. unfold data_header, bytes. repeat (apply Forall_cons; split; [vm_compute; by split|]). by apply Forall_nil. Qed.
Lemma node_hdr : hdr (data_header 11 68) 20 11 68 738263040.
Proof. split; try done; try lia. unfold data_header, bytes. repeat (apply Forall_cons; split; [vm_compute; by split|]). by apply Forall_nil. Qed.

Definition host_packet : buffer := pkt (data_header 7 58) demo_items 7 (replicate 10 65) (replicate 18 0).
Definition node_items : list item := marked 1 demo_items [10; 0; 0; 9].
Definition node_packet (block rest : list Z) : buffer := pkt (data_header 11 68) node_items 11 block rest.

Lemma node_items_ok : fits node_items 24.
Proof. split; [|done]. repeat constructor; vm_compute; try discriminate; done. Qed.

Lemma worker_gives_one_verdict_witness :
  (∃ w' v cur, worker_packet (H := run_codec) (H0 := demo_peer [10; 0; 0; 9] [10; 0; 0; 8]) 64 (-8) true true (λ p, p)
                 (demo_worker host_packet) 1 = Ret w'
     ∧ ws_verdicts w' = [v] ∧ session_for demo_table host_packet 20 = Ret cur ∧ cur = Some 1%positive ∧ fair_verdict true 20 cur v)
  ∧ (∃ w' v cur, worker_packet (H := run_codec) (H0 := demo_peer [10; 0; 0; 8] [10; 0; 0; 9]) 64 (-8) true true (λ p, p)
                 (demo_worker (node_packet [1; 10; 0; 65] (replicate 18 0))) 1 = Ret w'
     ∧ ws_verdicts w' = [v] ∧ session_for demo_table (node_packet [1; 10; 0; 65] (replicate 18 0)) 20 = Ret cur
     ∧ cur = Some 1%positive ∧ fair_verdict true 20 cur v).
Proof.
  destruct demo_table_inv as (B & I & _). pose proof run_codec_laws as Hc. split.
  - destruct (worker_gives_one_verdict (C := run_codec) (demo_peer [10; 0; 0; 9] [10; 0; 0; 8]) 64 (-8) true true (λ p, p)
      (demo_worker host_packet) 1 (Node None None (Packet 5 7 host_packet)) [] (fifo_nil _) (not_elem_of_nil _)
      eq_refl eq_refl eq_refl) as [_ T].
    destruct (T (data_header 7 58) 20 7 58 738263040 demo_items (replicate 10 65) (replicate 18 0) B) as (w' & v & cur & E & Ev & Es & Hv & _).
    + reflexivity.
    + lia.
    + split; [done|repeat constructor; lia].
    + split; [apply host_hdr|apply demo_syn_ok|done].
    + reflexivity.
    + by apply Forall_replicate.
    + by apply Forall_replicate.
    + done.
    + apply (from_host _ _ _ _ _ _ _ 3 1); try done; repeat constructor; done.
    + exact I.
    + done.
    + exists w', v, cur. split; [exact E|]. split; [exact Ev|]. split; [exact Es|]. split; [|exact Hv].
      vm_compute in Es. by injection Es as <-.
  - destruct (worker_gives_one_verdict (C := run_codec) (demo_peer [10; 0; 0; 8] [10; 0; 0; 9]) 64 (-8) true true (λ p, p)
      (demo_worker (node_packet [1; 10; 0; 65] (replicate 18 0))) 1 (Node None None (Packet 5 7 (node_packet [1; 10; 0; 65] (replicate 18 0)))) []
      (fifo_nil _) (not_elem_of_nil _) eq_refl eq_refl eq_refl) as [_ T].
    destruct (T (data_header 11 68) 20 11 68 738263040 node_items [1; 10; 0; 65] (replicate 18 0) B)
      as (w' & v & cur & E & Ev & Es & Hv & _).
    + reflexivity.
    + lia.
    + split; [done|repeat constructor; lia].
    + split; [apply node_hdr|apply node_items_ok|done].
    + reflexivity.
    + repeat constructor; done || lia.
    + by apply Forall_replicate.
    + done.
    + apply (from_node _ _ _ _ _ _ _ (Opt COMPRESSED_OPTION [1] :: no_nops demo_items) [10; 0; 0; 9]).
      * done.
      * repeat constructor; done.
      * split; [done|repeat constructor; lia].
      * done.
      * right. exists (no_nops demo_items ++ [nod_tag [10; 0; 0; 9]]), (replicate 10 65).
        split_and!; [done|by apply Forall_replicate|done..].
    + exact I.
    + done.
    + exists w', v, cur. split; [exact E|]. split; [exact Ev|]. split; [exact Es|]. split; [|exact Hv].
      vm_compute in Es. by injection Es as <-.
Defined.

(** With QuickLZ as the codec, the block of [QuicklzCodec.crafted_block_crashes] in a packet from a neighbor takes the
    worker down: no verdict is given. *)
Example crafted_packet_crashes :
  worker_packet (H := quicklz_codec) (H0 := demo_peer [10; 0; 0; 8] [10; 0; 0; 9]) 64 (-8) true true (λ p, p)
    (demo_worker (pkt (data_header 11 78) node_items 11 crafted_block (replicate 18 0))) 1 = Undef.
Proof. vm_compute. reflexivity. Qed.
