(* ===== verification/WorkerThread.v ===== *)
(** * The thread of a worker (opennopd/subsystems/worker.c, with queuemanager.c and memorymanager.c)

    The loop of [worker_thread] on its queue, while the fetcher takes buffers from the pool, fills
    them and queues them; and the memory of the thread.  [Worker.worker_packet] is one packet. *)
From S2P Require Import Prelude Process Packet TcpOptions OptionLayout OptionOps NodTag Compression Dll NodeId Domain WorkerPool Session Queue Counters Worker.
#[local] Open Scope Z_scope.
#[local] Open Scope list_scope.

Section Loop.
Context `{Codec, Domain} (fuel : nat) (delta : Z) (compression have_state : bool) (reused : buffer → buffer).

Definition set_heap (w : wstate) (h : heap packet) : wstate := WState (ws_sm w) h (ws_pool w) (ws_metrics w) (ws_verdicts w).

(** The two halves of an iteration, between which the fetcher may run: [dequeue_packet] (which sleeps while nothing is
    queued, and then takes nothing), and the work on the packet [cur] that was taken. *)
Definition worker_takes (w : wstate) (q : dhead) : outcome (wstate * dhead * option loc) :=
  if dequeue_waits q true then Ret (w, q, None) else
  '(h, q, thispacket) ← dequeue_packet (ws_heap w) q;
  Ret (set_heap w h, q, thispacket).

Definition worker_step (w : wstate) (q : dhead) (cur : option loc) : outcome (wstate * dhead * option loc) :=
  match cur with
  | None => worker_takes w q
  | Some x => w ← worker_packet fuel delta compression have_state reused w x; Ret (w, q, None)
  end.

(** The fetcher's side for a packet of this worker: a free buffer, or one that [newpacket] allocates at [a], is filled
    and queued; the buffer of packet [(hq, id)] gets [ret] bytes of [data]. *)
Definition fetcher_queues (w : wstate) (q : dhead) (a : option loc) (hq id ret : Z) (data : buffer) : outcome (wstate * dhead) :=
  '(h, pl, thispacket, _) ← get_freepacket_buffer (ws_heap w) (ws_pool w) a;
  h ← save_packet h thispacket hq id ret data;
  '(h, q, _) ← queue_packet h q thispacket;
  Ret (WState (ws_sm w) h pl (ws_metrics w) (ws_verdicts w), q).

Inductive worker_event := Arrives (a : option loc) (hq id ret : Z) (data : buffer) | Steps.

(** The loop of the worker, while [me->state >= STOPPING], among the deliveries of the fetcher. *)
Fixpoint worker_run (es : list worker_event) (w : wstate) (q : dhead) (cur : option loc) : outcome (wstate * dhead * option loc) :=
  match es with
  | [] => Ret (w, q, cur)
  | Arrives a hq id ret data :: es => '(w, q) ← fetcher_queues w q a hq id ret data; worker_run es w q cur
  | Steps :: es => '(w, q, cur) ← worker_step w q cur; worker_run es w q cur
  end.
End Loop.

(** ** The memory of the thread *)
Inductive worker_call :=
| Malloc_state (compress : bool)              (* a [qlz_state_compress], a [qlz_state_decompress] *)
| Calloc_lzbuffer                             (* BUFSIZE + 400 bytes *)
| Log_message
| Register_counter
| Work                                        (* the loop, while [me->state >= STOPPING] *)
| Free (p : Z).

(** What the thread has allocated, the counters registered with its metrics, and whether something that was not
    allocated was given back. *)
Record thread_memory := ThreadMemory { allocated : gset Z; registered : nat; wild_free : bool }.

Definition worker_answers (c : worker_call) (w : thread_memory) (r : Z) (w' : thread_memory) : Prop :=
  match c with
  | Malloc_state _ | Calloc_lzbuffer =>
      (r = 0 ∧ w' = w) ∨ (r ≠ 0 ∧ r ∉ allocated w ∧ w' = ThreadMemory ({[r]} ∪ allocated w) (registered w) (wild_free w))
  | Register_counter => w' = ThreadMemory (allocated w) (S (registered w)) (wild_free w)
  | Free p => w' = if p =? 0 then w else
      ThreadMemory (allocated w ∖ {[p]}) (registered w) (wild_free w || negb (bool_decide (p ∈ allocated w)))
  | Log_message | Work => w' = w
  end.

Class Malloc_documented (s : System worker_call thread_memory) :=
  malloc_keeps c w r w' : step (System := s) c w r w' → worker_answers c w r w'.

(** [worker_thread] around its loop. *)
Definition worker_thread : process worker_call Z :=
  state_compress ← call (Malloc_state true);
  state_decompress ← call (Malloc_state false);
  lzbuffer ← call Calloc_lzbuffer;
  if lzbuffer =? 0 then _ ← call Log_message; Exit 1 else
  _ ← call Register_counter;
  _ ← call Work;
  _ ← call (Free lzbuffer);
  _ ← call (Free state_compress);
  call (Free state_decompress).

(** ** Specification: what is queued, what the worker holds, what is free, and the verdicts to be given *)
Record pending := Pending { queued : list (loc * (Z * Z)); taken : option (loc * (Z * Z)); free : list loc }.

(** The packets that have no verdict yet. *)
Definition entries (p : pending) : list (loc * (Z * Z)) := option_list (taken p) ++ queued p.

(** The specification of a run: the ids in the order of their verdicts. *)
Fixpoint order_run (es : list worker_event) (p : pending) : option (pending * list (Z * Z)) :=
  match es with
  | [] => Some (p, [])
  | Arrives a hq id _ _ :: es =>
      match free p, a with
      | x :: fr, _ => order_run es (Pending (queued p ++ [(x, (hq, id))]) (taken p) fr)
      | [], Some x => if decide (x ∈ (entries p).*1) then None else order_run es (Pending (queued p ++ [(x, (hq, id))]) (taken p) [])
      | [], None => None
      end
  | Steps :: es =>
      match taken p, queued p with
      | Some (x, i), qs => '(p, ids) ← order_run es (Pending qs None (free p ++ [x])); Some (p, i :: ids)
      | None, t :: qs => order_run es (Pending qs (Some t) (free p))
      | None, [] => order_run es p
      end
  end.

(** Each buffer holds the packet with its id. *)
Definition labelled (h : heap packet) (es : list (loc * (Z * Z))) : Prop :=
  ∀ x i, (x, i) ∈ es → ∃ n, h !! x = Some n ∧ (pk_hq (n_data n), pk_id (n_data n)) = i.

(** Queue and pool hold the buffers of the specification; the one the worker holds is linked nowhere; no buffer is in two
    places. *)
Record on_track (w : wstate) (q : dhead) (p : pending) : Prop := OnTrack {
  ot_queue : fifo (ws_heap w) q (queued p).*1;
  ot_pool : fifo (ws_heap w) (freepacketbuffers (ws_pool w)) (free p);
  ot_apart : NoDup ((entries p).*1 ++ free p);
  ot_ids : labelled (ws_heap w) (entries p);
  ot_idle x i : taken p = Some (x, i) → idle (ws_heap w) x
}.

Definition verdict_ids (vs : list verdict) : list (Z * Z) := (λ v, (v_hq v, v_id v)) <$> vs.

(** ** Lemmas *)
Lemma fifo_ext {A} (h h' : heap A) q l : fifo h q l → (∀ y, y ∈ l → h' !! y = h !! y) → fifo h' q l.
Proof. intros (H1 & H2 & H3 & H4 & Hc) H. split_and!; [done..|]. by eapply chain_ext. Qed.

Lemma save_packet_stores h x n hq id ret data h' : h !! x = Some n → save_packet h (Some x) hq id ret data = Ret h' →
  ∃ d, h' = <[x := Node (n_next n) (n_prev n) (Packet hq id d)]> h.
Proof.
  intros Hx E. unfold save_packet, load, store_data, deref in E. rewrite Hx in E. cbn [mbind outcome_bind] in E.
  apply bind_Ret in E as (d & _ & E). injection E as <-. by exists d.
Qed.

Lemma labelled_ext h h' es : labelled h es → (∀ y, y ∈ es.*1 → h' !! y = h !! y) → labelled h' es.
Proof.
  intros H He x i Hx. destruct (H x i Hx) as (n & Hn & E). exists n. split; [|done]. rewrite He; [done|].
  by apply (list_elem_of_fmap_2 fst) in Hx.
Qed.

Lemma labelled_relinked h h' l es : labelled h es → relinked h h' l → labelled h' es.
Proof.
  intros H R x i Hx. destruct (H x i Hx) as (n & Hn & E). destruct (relinked_data h h' l x n R Hn) as (n' & Hn' & Ed).
  exists n'. by rewrite Ed.
Qed.

(** A buffer that is in use nowhere, filled and queued. *)
Lemma queued_on_track w q p h x hq id d q' h' n pl m fr :
  fifo h q (queued p).*1 → fifo h (freepacketbuffers pl) fr → NoDup (x :: (entries p).*1 ++ fr) →
  labelled h (entries p) → (∀ y i, taken p = Some (y, i) → idle h y) →
  h !! x = Some n → n_next n = None → Z.of_nat (length (queued p)) + 1 < 2 ^ 32 →
  queue_packet (<[x := Node (n_next n) (n_prev n) (Packet hq id d)]> h) q (Some x) = Ret (h', q', m) →
  on_track (WState (ws_sm w) h' pl (ws_metrics w) (ws_verdicts w)) q' (Pending (queued p ++ [(x, (hq, id))]) (taken p) fr).
Proof.
  intros Hq Hp HN Hids Hidle Hx Hn Hlen E. set (h1 := <[x := _]> h) in *.
  assert (Hout1 : ∀ y, y ≠ x → h1 !! y = h !! y) by (intros y Hy; unfold h1; by rewrite lookup_insert_ne).
  pose proof HN as [[Hxe Hxf]%not_elem_of_app (HNe & Hef & _)%NoDup_app]%NoDup_cons.
  assert (Hqe : (entries p).*1 = option_list (fst <$> taken p) ++ (queued p).*1).
  { unfold entries. rewrite fmap_app. by destruct (taken p) as [[]|]. }
  assert (Hxq : x ∉ (queued p).*1) by (rewrite Hqe in Hxe; set_solver).
  assert (Hq1 : fifo h1 q (queued p).*1) by (eapply fifo_ext; [exact Hq|]; intros y Hy; apply Hout1; by intros ->).
  assert (Hi : idle h1 x) by (eexists; unfold h1; rewrite lookup_insert_eq; by split).
  destruct (queue_packet_fifo h1 q _ x Hq1 Hxq Hi) as (h2 & q2 & E2 & Hf & R); [by rewrite length_fmap|].
  rewrite E in E2. injection E2 as <- <- _. pose proof R as [_ Hout]. split; cbn.
  - by rewrite fmap_app.
  - eapply fifo_ext; [exact Hp|]. intros y Hy. rewrite Hout, Hout1; [done|by intros ->|].
    intros [->|Hyq]%elem_of_cons; [done|]. apply (Hef y); [rewrite Hqe; set_solver|done].
  - unfold entries. cbn. rewrite app_assoc, fmap_app. fold (entries p). cbn. rewrite <-app_assoc. cbn.
    by rewrite <-Permutation_middle.
  - eapply labelled_relinked; [|exact R]. unfold entries. cbn. rewrite app_assoc. fold (entries p).
    intros y i [Hy|[= -> ->]%list_elem_of_singleton]%elem_of_app.
    + eapply labelled_ext; [exact Hids| |exact Hy]. intros z Hz. apply Hout1. by intros ->.
    + unfold h1. rewrite lookup_insert_eq. by eexists.
  - intros y i Hy. rewrite Hqe, Hy in HNe, Hxe. cbn in HNe, Hxe. apply NoDup_cons in HNe as [Hyq _].
    apply (idle_relinked h1 h' _ y R); [set_solver|]. destruct (Hidle y i Hy) as (ny & Hny & En). exists ny.
    rewrite Hout1 by set_solver. done.
Qed.

(** The fetcher queues a packet. *)
Lemma arrives_on_track w q p a hq id ret data w' q' : on_track w q p →
  Z.of_nat (length (queued p) + length (free p)) + 1 < 2 ^ 32 →
  fetcher_queues w q a hq id ret data = Ret (w', q') →
  ∀ x fr, match free p with x' :: fr' => x' = x ∧ fr' = fr | [] => a = Some x ∧ x ∉ (entries p).*1 ∧ fr = [] end →
  on_track w' q' (Pending (queued p ++ [(x, (hq, id))]) (taken p) fr) ∧ ws_verdicts w' = ws_verdicts w.
Proof.
  intros [Hq Hp HN Hids Hidle] Hlen E x fr Hx. unfold fetcher_queues in E.
  pose proof (get_freepacket_buffer_spec (ws_heap w) (ws_pool w) (free p) a Hp ltac:(lia)) as Hg.
  assert (Hqe : (queued p).*1 ⊆ (entries p).*1) by (unfold entries; rewrite fmap_app; set_solver).
  assert (∃ h1 pl s, get_freepacket_buffer (ws_heap w) (ws_pool w) a = Ret (h1, pl, Some x, s) ∧ fifo h1 (freepacketbuffers pl) fr
            ∧ h1 !! x = Some (Node None None zero_packet) ∧ (∀ y, y ≠ x → h1 !! y = ws_heap w !! y) ∧ NoDup (x :: (entries p).*1 ++ fr))
    as (h1 & pl & s & Eg & Hf1 & Hx1 & Hout & HN1).
  { destruct (free p) as [|x0 fr0] eqn:Ef.
    - destruct Hx as (-> & Hxe & ->). eexists _, _, _. split_and!; [exact Hg|by eapply fifo_ext; [exact Hp|intros y ?%not_elem_of_nil]|apply lookup_insert_eq| |].
      + intros y Hy. by rewrite lookup_insert_ne.
      + rewrite app_nil_r in *. by apply NoDup_cons.
    - destruct Hx as [-> ->]. destruct Hg as (h1 & fr1 & Eg & Hf1 & Hx1 & Hout). eexists _, _, _. split_and!; [exact Eg|done..|].
      by rewrite Permutation_middle. }
  rewrite Eg in E. cbn [mbind outcome_bind] in E.
  apply bind_Ret in E as (h2 & Es & E). apply bind_Ret in E as ([[h3 q3] m] & Eq & E). injection E as <- <-.
  destruct (save_packet_stores h1 x _ hq id ret data h2 Hx1 Es) as [d ->].
  pose proof HN1 as [[Hxe Hxf]%not_elem_of_app _]%NoDup_cons.
  split; [|done]. eapply (queued_on_track w q p h1 x hq id d q3 h3 _ pl m fr); try done; try lia.
  - eapply fifo_ext; [exact Hq|]. intros y Hy. apply Hout. intros ->. by apply Hxe, Hqe.
  - eapply labelled_ext; [exact Hids|]. intros y Hy. apply Hout. by intros ->.
  - intros y i Hy. destruct (Hidle y i Hy) as (ny & Hny & En). exists ny. rewrite Hout; [done|]. intros ->. apply Hxe.
    unfold entries. rewrite Hy. cbn. set_solver.
Qed.

(** The worker takes the first packet. *)
Lemma takes_on_track w q x i qs fr : on_track w q (Pending ((x, i) :: qs) None fr) → Z.of_nat (length qs) + 1 < 2 ^ 32 →
  ∃ w' q', worker_takes w q = Ret (w', q', Some x) ∧ on_track w' q' (Pending qs (Some (x, i)) fr) ∧ ws_verdicts w' = ws_verdicts w.
Proof.
  intros [Hq Hp HN Hids _] Hlen. cbn in *. unfold worker_takes, dequeue_waits.
  pose proof Hq as (_ & _ & _ & Hlen' & _). replace (h_len q =? 0) with false by (symmetry; apply Z.eqb_neq; rewrite Hlen'; cbn; lia).
  destruct (dequeue_packet_fifo _ _ _ Hq ltac:(cbn; rewrite length_fmap; lia)) as (h1 & q1 & Ed & Hq1 & R & Hi).
  cbn [andb]. rewrite Ed. cbn [mbind outcome_bind]. eexists _, _. split_and!; [done| |done]. split; cbn; [done| |done| |].
  - eapply fifo_ext; [exact Hp|]. intros y Hy. destruct R as [_ Hout]. apply Hout. intros ->%list_elem_of_singleton.
    apply NoDup_cons in HN as [Hx _]. apply Hx, elem_of_app. by right.
  - by eapply labelled_relinked.
  - by intros y j [= -> ->].
Qed.

(** The worker gives the verdict of the packet it holds, and the buffer back. *)
Lemma concludes_on_track `{Codec, Domain} fuel delta compression have_state reused w q x i qs fr w' :
  on_track w q (Pending qs (Some (x, i)) fr) → Z.of_nat (length fr) + 1 < 2 ^ 32 →
  worker_packet fuel delta compression have_state reused w x = Ret w' →
  on_track w' q (Pending qs None (fr ++ [x])) ∧ verdict_ids (ws_verdicts w') = i :: verdict_ids (ws_verdicts w).
Proof.
  intros [Hq Hp HN Hids Hidle] Hlen E. cbn in *. destruct (Hids x i) as (n & Hn & Hi); [by left|].
  pose proof HN as [[Hxq Hxf]%not_elem_of_app HN']%NoDup_cons. pose proof HN' as (_ & Hqf & _)%NoDup_app.
  destruct (worker_packet_concluded fuel delta compression have_state reused w x fr Hp Hxf (Hidle x i eq_refl) Hlen n w' Hn E)
    as ((k & data & Ev) & Hfp & Hframe & _).
  assert (Hout : ∀ y, y ∈ qs.*1 → ws_heap w' !! y = ws_heap w !! y).
  { intros y Hy. apply Hframe. intros [->|Hyf]%elem_of_cons; [done|]. by apply (Hqf y). }
  split; [|rewrite Ev; cbn; by rewrite Hi]. split; cbn; [by eapply fifo_ext|done| | |done].
  - change (NoDup (qs.*1 ++ fr ++ [x])). rewrite app_assoc. by rewrite <-Permutation_cons_append.
  - change (labelled (ws_heap w') qs). apply (labelled_ext (ws_heap w)); [|done]. intros y j Hy. apply Hids. by right.
Qed.

Lemma takes_nothing w q fr : on_track w q (Pending [] None fr) → worker_takes w q = Ret (w, q, None).
Proof. intros [(_ & _ & _ & Hn & _) _ _ _]. unfold worker_takes, dequeue_waits. by rewrite Hn. Qed.

(** ** The order of the verdicts *)

(** C12: A worker keeps the order of its packets: however the two halves of its iterations interleave with the
    fetcher's deliveries, as long as the buffers are fewer than 2^32, the verdicts are those of
    the packets that arrived first, in the order of their arrival and one for each; what is
    queued, held and free afterwards is what the specification says, so no buffer is lost
    and none is in two places; a worker that finds nothing queued changes nothing. *)
Theorem worker_keeps_order `{Codec, Domain} fuel delta compression have_state reused es w q p w' q' cur' p' ids :
  on_track w q p → Z.of_nat (length (entries p) + length (free p) + length es) < 2 ^ 32 →
  order_run es p = Some (p', ids) →
  worker_run fuel delta compression have_state reused es w q (fst <$> taken p) = Ret (w', q', cur') →
  on_track w' q' p' ∧ cur' = fst <$> taken p' ∧ verdict_ids (ws_verdicts w') = reverse ids ++ verdict_ids (ws_verdicts w).
Proof.
  revert w q p p' ids. induction es as [|[a hq id ret data|] es IH]; intros w q p p' ids Ht Hl Ho Er; cbn in *; [by simplify_eq| |].
  - apply bind_Ret in Er as ([w1 q1] & Ea & Er). unfold entries in Hl. rewrite length_app in Hl.
    assert (∃ x fr, match free p with x' :: fr' => x' = x ∧ fr' = fr | [] => a = Some x ∧ x ∉ (entries p).*1 ∧ fr = [] end
              ∧ (length fr ≤ length (free p))%nat
              ∧ order_run es (Pending (queued p ++ [(x, (hq, id))]) (taken p) fr) = Some (p', ids)) as (x & fr & Hx & Hfr & Ho').
    { destruct (free p) as [|x fr]; [|exists x, fr; cbn; split_and!; [done..|lia|done]].
      destruct a as [x|]; [|done]. destruct (decide _); [done|]. by exists x, []. }
    destruct (arrives_on_track w q p a hq id ret data w1 q1 Ht ltac:(lia) Ea x fr Hx) as (Ht1 & Ev).
    rewrite <-Ev. eapply IH; [exact Ht1| |exact Ho'|exact Er]. unfold entries. cbn. rewrite !length_app. cbn. lia.
  - apply bind_Ret in Er as ([[w1 q1] cur1] & Es & Er). destruct p as [qs [[x i]|] fr]; cbn in *.
    + apply bind_Ret in Es as (w2 & Ew & Es). injection Es as -> -> <-.
      destruct (order_run es (Pending qs None (fr ++ [x]))) as [[p1 ids1]|] eqn:Eo; [|done]. cbn in Ho. simplify_eq.
      destruct (concludes_on_track fuel delta compression have_state reused w q1 x i qs fr w1 Ht ltac:(lia) Ew) as [Ht1 Ev].
      destruct (IH w1 q1 _ _ _ Ht1 ltac:(unfold entries; cbn; rewrite length_app; cbn; lia) Eo Er) as (Ht2 & Ec & Ev2).
      by rewrite Ev2, Ev, reverse_cons, <-app_assoc.
    + destruct qs as [|[x i] qs].
      * rewrite (takes_nothing _ _ _ Ht) in Es. injection Es as <- <- <-. eapply IH; [exact Ht| |exact Ho|exact Er]. cbn. lia.
      * destruct (takes_on_track w q x i qs fr Ht ltac:(cbn in Hl; lia)) as (w2 & q2 & E & Ht1 & Ev). rewrite E in Es.
        injection Es as <- <- <-. rewrite <-Ev. eapply IH; [exact Ht1| |exact Ho|exact Er]. cbn in *. lia.
Qed.

Definition demo_idle : wstate :=
  WState (empty_table 1) ∅ (Pool empty_head 0) (WorkerCounters (Metric 0 0 0) (Metric 0 0 0) (Metric 0 0 0)) [].

Definition demo_bytes (k : Z) : buffer := pkt (demo_header 7 49) demo_items 7 [k] (replicate 14 0).

Definition demo_arrivals : list worker_event :=
  [Arrives (Some 1%positive) 5 7 63 (demo_bytes 42); Arrives (Some 2%positive) 5 8 63 (demo_bytes 43); Steps;
   Arrives (Some 3%positive) 5 9 63 (demo_bytes 44); Steps; Steps; Arrives None 5 10 63 (demo_bytes 45); Steps; Steps; Steps; Steps].

(** Three verdicts; the fourth packet, in the buffer of the first, is in the worker's hands. *)
Lemma worker_keeps_order_witness :
  match worker_run (H := run_codec) (H0 := lonely_domain [10; 0; 0; 9]) 64 (-8) true true (λ p, p) demo_arrivals demo_idle empty_head None with
  | Ret (w', q', cur') => on_track w' q' (Pending [] (Some (1%positive, (5, 10))) [2%positive; 3%positive])
      ∧ cur' = Some 1%positive ∧ verdict_ids (ws_verdicts w') = [(5, 9); (5, 8); (5, 7)]
  | _ => False
  end.
Proof.
  destruct (worker_run _ _ _ _ _ _ _ _) as [[[w' q'] cur']| |] eqn:E; [|vm_compute in E; discriminate E..].
  apply (worker_keeps_order (H := run_codec) (H0 := lonely_domain [10; 0; 0; 9]) 64 (-8) true true (λ p, p) demo_arrivals demo_idle
    empty_head (Pending [] None []) w' q' cur' (Pending [] (Some (1%positive, (5, 10))) [2%positive; 3%positive]) [(5, 7); (5, 8); (5, 9)]); [|done|vm_compute; reflexivity|exact E].
  clear E. split; cbn; try apply fifo_nil; try apply NoDup_nil_2; [by intros x i ?%not_elem_of_nil|done].
Defined.

Definition grow (p : Z) (w : thread_memory) : thread_memory :=
  if p =? 0 then w else ThreadMemory ({[p]} ∪ allocated w) (registered w) (wild_free w).
Definition shrink (p : Z) (w : thread_memory) : thread_memory :=
  if p =? 0 then w else ThreadMemory (allocated w ∖ {[p]}) (registered w) (wild_free w || negb (bool_decide (p ∈ allocated w))).

Lemma grown w p w' : (p = 0 ∧ w' = w) ∨ (p ≠ 0 ∧ p ∉ allocated w ∧ w' = ThreadMemory ({[p]} ∪ allocated w) (registered w) (wild_free w)) →
  w' = grow p w ∧ (p ≠ 0 → p ∉ allocated w).
Proof. unfold grow. intros [[-> ->]|(Hp & Hn & ->)]; [done|]. by rewrite (proj2 (Z.eqb_neq p 0) Hp). Qed.

(** Giving back the last allocation. *)
Lemma shrink_grown p w : (p ≠ 0 → p ∉ allocated w) → shrink p (grow p w) = w.
Proof.
  unfold shrink, grow. destruct (Z.eqb_spec p 0) as [->|Hp]; [done|]. intros Hn%(λ H, H Hp). destruct w as [al n wf]. cbn in *.
  rewrite bool_decide_eq_true_2 by set_solver. rewrite orb_false_r. f_equal. set_solver.
Qed.

(** Giving back the allocation below another one. *)
Lemma shrink_under p d w : (p ≠ 0 → p ∉ allocated w) → (d ≠ 0 → d ∉ allocated (grow p w)) → shrink p (grow d (grow p w)) = grow d w.
Proof.
  unfold shrink, grow. destruct (Z.eqb_spec p 0) as [->|Hp]; [done|]. intros Hn%(λ H, H Hp). cbn. destruct (Z.eqb_spec d 0) as [->|Hd]; cbn.
  - intros _. rewrite bool_decide_eq_true_2 by set_solver. destruct w as [al n wf]. cbn in *. rewrite orb_false_r. f_equal. set_solver.
  - intros Hd2%(λ H, H Hd). rewrite bool_decide_eq_true_2 by set_solver. rewrite orb_false_r. f_equal. set_solver.
Qed.

(** The thread gives back what it took, whichever of its two unchecked allocations failed, and leaves its counter
    registered; without its buffer it ends the program. *)
Lemma worker_thread_memory (s : System worker_call thread_memory) w : Malloc_documented s →
  wp worker_thread (λ _ w', w' = ThreadMemory (allocated w) (S (registered w)) (wild_free w))
    (λ status w', status = 1 ∧ registered w' = registered w) w.
Proof.
  intros Hs. unfold worker_thread. cbn [wp mbind process_bind call].
  intros a w1 [-> Ha]%malloc_keeps%grown d w2 [-> Hd]%malloc_keeps%grown b w3 [-> Hb]%malloc_keeps%grown.
  destruct (Z.eqb_spec b 0) as [->|Hb0]; cbn [wp mbind process_bind call].
  - intros r w4 ->%malloc_keeps. split; [done|]. unfold grow. by destruct (d =? 0), (a =? 0).
  - intros r1 w4 ->%malloc_keeps r2 w5 ->%malloc_keeps r3 w6 H6%malloc_keeps r4 w7 H7%malloc_keeps r5 w8 H8%malloc_keeps.
    set (w0 := ThreadMemory (allocated w) (S (registered w)) (wild_free w)).
    assert (E : ThreadMemory (allocated (grow b (grow d (grow a w)))) (S (registered (grow b (grow d (grow a w)))))
                  (wild_free (grow b (grow d (grow a w)))) = grow b (grow d (grow a w0))).
    { unfold grow, w0. by destruct (b =? 0), (d =? 0), (a =? 0). }
    assert (El : ∀ p u v, allocated u = allocated v → allocated (grow p u) = allocated (grow p v)).
    { intros p u v H. unfold grow. destruct (p =? 0); [done|]. cbn. by rewrite H. }
    rewrite E in H6. change (w6 = shrink b (grow b (grow d (grow a w0)))) in H6. rewrite shrink_grown in H6.
    2: { intros H. rewrite (El d (grow a w0) (grow a w)); [by apply Hb|by apply El]. }
    change (w7 = shrink a w6) in H7. rewrite H6, shrink_under in H7; [|done|].
    2: { intros H. rewrite (El a w0 w) by done. by apply Hd. }
    change (w8 = shrink d w7) in H8. rewrite H8, H7. apply shrink_grown. intros H Hin. apply (Hd H). unfold grow.
    destruct (a =? 0); [done|]. cbn. set_solver.
Qed.
