(* ===== verification/Fetcher.v ===== *)
(** * The fetcher (opennopd/subsystems/fetcher.c)

    [fetcher_callback] runs for each packet of the Netfilter queue: it tracks
    the TCP handshake, tags SYN packets with the local id and hands the
    packets of open sessions to the workers. *)
From S2P Require Import Prelude Packet TcpOptions OptionLayout OptionOps NodTag RawOption Csum Checked Compression Dll NodeId.
From S2P Require Import Ipc Domain WorkerPool Session Queue Counters Driver Worker.

(** The packet queues of one worker. *)
Record wqueues := WQueues { optimization : dhead; deoptimization : dhead }.

Record fstate := FState {
  servicestate : Z;
  f_metrics : fetchercounters;
  f_sm : smstate;
  f_heap : heap packet;
  f_pool : pool;
  f_queues : list wqueues;            (* of [workers[0 .. MAXWORKERS-1]] *)
  f_verdicts : list verdict           (* latest first *)
}.

(** The message Netfilter delivers: packet id (0 when there is no header), payload
    length, and the bytes from the start of the payload to the end of the receive buffer. *)
Record nfq_msg := NfqMsg { nf_hq : Z; nf_id : Z; nf_ret : Z; nf_payload : buffer }.

(** What the allocator answers in one call of the callback. *)
Record allocs := Allocs { a_session : option loc; a_packet : option loc }.

Definition set_f_sm (f : fstate) (s : smstate) : fstate :=
  FState (servicestate f) (f_metrics f) s (f_heap f) (f_pool f) (f_queues f) (f_verdicts f).
Definition add_verdict (f : fstate) (v : verdict) : fstate :=
  FState (servicestate f) (f_metrics f) (f_sm f) (f_heap f) (f_pool f) (f_queues f) (v :: f_verdicts f).
Definition count_packet (f : fstate) : fstate :=
  FState (servicestate f)
    (FetcherCounters (add_metric (f_packets (f_metrics f)) 1) (f_bytesin (f_metrics f)))
    (f_sm f) (f_heap f) (f_pool f) (f_queues f) (f_verdicts f).
Definition count_bytes (f : fstate) (n : Z) : fstate :=
  FState (servicestate f)
    (FetcherCounters (f_packets (f_metrics f)) (add_metric (f_bytesin (f_metrics f)) n))
    (f_sm f) (f_heap f) (f_pool f) (f_queues f) (f_verdicts f).

Definition get_queues (f : fstate) (q : Z) : outcome wqueues := of_option (f_queues f !! Z.to_nat q).

(** [optimize_packet] and [deoptimize_packet] of worker.c *)
Definition optimize_packet (f : fstate) (q : Z) (x : option loc) : outcome fstate :=
  w ← get_queues f q;
  '(h, hd, _) ← queue_packet (f_heap f) (optimization w) x;
  Ret (FState (servicestate f) (f_metrics f) (f_sm f) h (f_pool f)
         (<[Z.to_nat q := WQueues hd (deoptimization w)]> (f_queues f)) (f_verdicts f)).

Definition deoptimize_packet (f : fstate) (q : Z) (x : option loc) : outcome fstate :=
  w ← get_queues f q;
  '(h, hd, _) ← queue_packet (f_heap f) (deoptimization w) x;
  Ret (FState (servicestate f) (f_metrics f) (f_sm f) h (f_pool f)
         (<[Z.to_nat q := WQueues (optimization w) hd]> (f_queues f)) (f_verdicts f)).

Section Fetcher.
Context `{Domain} (fuel : nat) (delta : Z).

(** A handshake packet from outside the domain: lower the MSS by 60, add the
    local id and remember this node as the accelerator of the source. *)
Definition tag_handshake (s : smstate) (cur : loc) (p : buffer) (lIP : Z)
    : outcome (smstate * buffer * bool) :=
  v ← __get_tcp_option fuel p 2;
  let mms := u16 v in
  if 60 <? mms then
    '(p, _) ← __set_tcp_option fuel p 2 4 (mms - 60);
    p ← set_nod_header_data fuel delta p ONOP get_opennop_id;
    s ← with_session s (Some cur) (saveacceleratorid p lIP (Some get_opennop_id));
    Ret (s, p, true)
  else Ret (s, p, false).

(** The id part of a handshake packet; [true] when the packet was changed. *)
Definition handshake_id (s : smstate) (cur : loc) (p : buffer) (lIP : Z) (remoteID : option Z)
    : outcome (smstate * buffer * bool) :=
  nb ← from_neighbor p remoteID;
  if (nb : bool) then
    id ← remote_id p remoteID;
    s ← with_session s (Some cur) (saveacceleratorid p lIP id);
    Ret (s, p, false)
  else tag_handshake s cur p lIP.

(** A SYN: find or create the session, then accept the packet. *)
Definition handle_syn (f : fstate) (m : nfq_msg) (al : allocs) (p : buffer) (t : Z)
    (lIP lPort sIP sPort : Z) (remoteID : option Z) : outcome fstate :=
  cur ← getsession (f_sm f) lIP lPort sIP sPort;
  '(s, cur) ← match cur with
              | Some c => Ret (f_sm f, Some c)
              | None => insertsession (f_sm f) (a_session al) lIP lPort sIP sPort
              end;
  '(s, p) ←
    match cur with
    | Some c =>
        s ← with_session s (Some c) (sourceisclient p lIP);
        s ← with_session s (Some c) (updateseq p t lIP);
        '(s, p, changed) ← handshake_id s c p lIP remoteID;
        p ← (if (changed : bool) then checksum p else Ret p);
        s ← with_session s (Some c) (λ d, Ret (set_state d TCP_SYN_SENT, 0));
        Ret (s, p)
    | None => Ret (s, p)
    end;
  tot ← ip_tot_len p;
  v ← accept_with (nf_hq m) (nf_id m) p tot;
  Ret (add_verdict (count_packet (set_f_sm f s)) v).

(** A SYN/ACK of a known session. *)
Definition handle_synack (f : fstate) (m : nfq_msg) (cur : loc) (p : buffer) (t lIP : Z)
    (remoteID : option Z) : outcome fstate :=
  s ← with_session (f_sm f) (Some cur) (updateseq p t lIP);
  '(s, p, _) ← handshake_id s cur p lIP remoteID;
  s ← with_session s (Some cur) (λ d, Ret (set_state d TCP_ESTABLISHED, 0));
  p ← checksum p;
  tot ← ip_tot_len p;
  v ← accept_with (nf_hq m) (nf_id m) p tot;
  Ret (add_verdict (count_packet (set_f_sm f s)) v).

(** Copies the packet to a buffer and queues it; without a buffer nothing happens. *)
Definition enqueue (f : fstate) (m : nfq_msg) (al : allocs) (cur : loc) (p : buffer) (deopt : bool)
    : outcome fstate :=
  '(h, pl, x, _) ← get_freepacket_buffer (f_heap f) (f_pool f) (a_packet al);
  let f := FState (servicestate f) (f_metrics f) (f_sm f) h pl (f_queues f) (f_verdicts f) in
  match x with
  | Some x =>
      h ← save_packet (f_heap f) (Some x) (nf_hq m) (nf_id m) (nf_ret m) p;
      nd ← load (sheap (f_sm f)) (Some cur);
      let f := FState (servicestate f) (f_metrics f) (f_sm f) h (f_pool f) (f_queues f) (f_verdicts f) in
      if deopt then deoptimize_packet f (queue (n_data nd)) (Some x)
      else optimize_packet f (queue (n_data nd)) (Some x)
  | None => Ret f
  end.

(** Traffic of a known session. *)
Definition handle_data (f : fstate) (m : nfq_msg) (al : allocs) (cur : loc) (p : buffer)
    (remoteID : option Z) : outcome fstate :=
  nb ← from_neighbor p remoteID;
  f ← enqueue f m al cur p nb;
  Ret (count_packet f).

(** An ACK without a session that carries an accelerator id: start tracking it. *)
Definition handle_recovered (f : fstate) (m : nfq_msg) (al : allocs) (p : buffer)
    (lIP lPort sIP sPort : Z) (remoteID : option Z) : outcome (option fstate) :=
  '(s, cur) ← insertsession (f_sm f) (a_session al) lIP lPort sIP sPort;
  match cur with
  | None => Ret None
  | Some c =>
      s ← with_session s (Some c) (λ d, Ret (set_state d TCP_ESTABLISHED, 0));
      nb ← from_neighbor p remoteID;
      '(s, p) ←
        (if (nb : bool) then
           id ← remote_id p remoteID;
           s ← with_session s (Some c) (saveacceleratorid p lIP id); Ret (s, p)
         else
           p ← set_nod_header_data fuel delta p ONOP get_opennop_id;
           s ← with_session s (Some c) (saveacceleratorid p lIP (Some get_opennop_id));
           Ret (s, p));
      f ← enqueue (set_f_sm f s) m al c p true;
      Ret (Some (count_packet f))
  end.

Definition accept_as_is (f : fstate) (m : nfq_msg) (p : buffer) : outcome fstate :=
  tot ← ip_tot_len p;
  v ← accept_with (nf_hq m) (nf_id m) p tot;
  Ret (add_verdict (count_packet f) v).

(** A TCP packet of a running service. *)
Definition handle_tcp (f : fstate) (m : nfq_msg) (al : allocs) (p : buffer) : outcome fstate :=
  t ← tcph_of p;
  sa ← ip_saddr p; so ← tcp_source p t; da ← ip_daddr p; de ← tcp_dest p t;
  let '(lIP, lPort, sIP, sPort) := sort_sockets sa so da de in
  '(_, remoteID) ← get_nod_header_data fuel delta p ONOP;
  fl ← tcp_flags p t;
  if syn_flag fl && negb (ack_flag fl) then handle_syn f m al p t lIP lPort sIP sPort remoteID
  else
    cur ← getsession (f_sm f) lIP lPort sIP sPort;
    match cur with
    | Some c =>
        if syn_flag fl && ack_flag fl then handle_synack f m c p t lIP remoteID
        else handle_data f m al c p remoteID
    | None =>
        if negb (syn_flag fl) && ack_flag fl && negb (fin_flag fl) && bool_decide (is_Some remoteID)
        then
          r ← handle_recovered f m al p lIP lPort sIP sPort remoteID;
          match r with Some f => Ret f | None => accept_as_is f m p end
        else accept_as_is f m p
    end.

Definition accept_untouched (f : fstate) (m : nfq_msg) : fstate :=
  add_verdict (count_packet f) (Verdict (nf_hq m) (nf_id m) NF_ACCEPT None).

Definition fetcher_callback (f : fstate) (m : nfq_msg) (al : allocs) : outcome fstate :=
  if RUNNING <=? servicestate f then
    let p := nf_payload m in
    tot ← ip_tot_len p;
    let f := count_bytes f (ntohs tot) in
    proto ← ip_protocol p;
    if (proto =? IPPROTO_TCP) && negb (nf_id m =? 0) then handle_tcp f m al p
    else Ret (accept_untouched f m)
  else Ret (accept_untouched f m).
End Fetcher.

(** ** The main loop of [fetcher_function] *)

(** The queue length asked of Netfilter, from the pages of memory and their size. *)
Definition nfq_length (pagesofmem pagesize : Z) : Z := pagesofmem * pagesize / 100 * 10 / 2048.

(** The loop guard for the state and the result of [recv]. *)
Definition fetcher_loops (servicestate rv : Z) : bool :=
  (RUNNING <=? servicestate) && negb (rv =? 0) && (0 <=? rv).

(** What the end of the loop leaves in [servicestate]. *)
Definition fetcher_ended (servicestate rv : Z) : Z := if rv =? -1 then STOPPING else servicestate.

(** * Facts *)

(** ** Queueing a packet for a worker *)
Definition buffer_for (f : fstate) (al : allocs) (l : list loc) (y : loc) (rest : list loc) : Prop :=
  l = y :: rest ∨ l = [] ∧ rest = [] ∧ a_packet al = Some y ∧ f_heap f !! y = None.

(** The copy of the packet in its buffer. *)
Definition saved (m : nfq_msg) : packet := Packet (nf_hq m) (nf_id m) (put (replicate PACKET_BUFSIZE 0) 0 (sub (nf_payload m) 0 (nf_ret m))).

Definition queue_of (deopt : bool) (w : wqueues) : dhead := if deopt then deoptimization w else optimization w.

Section Enqueue.
Context (f : fstate) (m : nfq_msg) (al : allocs) (l rest lq : list loc) (y : loc) (wq : wqueues) (deopt : bool).
Context (cur : loc) (d : session).
Context (Hpool : fifo (f_heap f) (freepacketbuffers (f_pool f)) l) (Hbuf : buffer_for f al l y rest).
Context (Hlen : Z.of_nat (length l) < 2 ^ 32) (Hlenq : Z.of_nat (length lq) + 1 < 2 ^ 32).
Context (Hcur : live (f_sm f) !! cur = Some d).
Context (Hwq : f_queues f !! Z.to_nat (queue d) = Some wq).
Context (Hq : fifo (f_heap f) (queue_of deopt wq) lq) (Hy : y ∉ lq) (Hapart : ∀ z, z ∈ l → z ∉ lq).
Context (Hret : 0 <= nf_ret m <= 2048) (Hpay : nf_ret m <= blen (nf_payload m)).

(** What the pool has allocated afterwards. *)
Definition allocated_after : Z :=
  match l with [] => u32 (allocatedpacketbuffers (f_pool f) + 1) | _ => allocatedpacketbuffers (f_pool f) end.

(** The buffer comes zeroed and unlinked and leaves the pool. *)
Lemma take_buffer :
  ∃ h fr sig, get_freepacket_buffer (f_heap f) (f_pool f) (a_packet al) = Ret (h, Pool fr allocated_after, Some y, sig)
    ∧ h !! y = Some (Node None None zero_packet) ∧ (∀ z, z ≠ y → h !! z = f_heap f !! z) ∧ fifo h fr rest ∧ y ∉ rest.
Proof.
  pose proof (get_freepacket_buffer_spec _ _ l (a_packet al) Hpool Hlen) as G. unfold allocated_after.
  destruct Hbuf as [El|(El & Er & Ha & Hfr)]; rewrite El in G |- *.
  - destruct G as (h & fr & E & Hfr & Hh & Ho). exists h, fr. eexists. split_and!; [done..|].
    rewrite El in Hpool. destruct Hpool as [HN _]. by apply NoDup_cons in HN as [? _].
  - rewrite Ha in *. rewrite G, Er. eexists _, _, _. split; [done|]. split; [apply lookup_insert_eq|].
    split; [intros z Hz; by apply lookup_insert_ne|]. split; [|apply not_elem_of_nil].
    rewrite El in Hpool. destruct Hpool as (H1 & H2 & H3 & H4 & _). by split_and!.
Qed.

Lemma enqueue_spec p :
  p = nf_payload m →
  ∃ h fr hd, enqueue f m al cur p deopt
      = Ret (FState (servicestate f) (f_metrics f) (f_sm f) h (Pool fr allocated_after)
               (<[Z.to_nat (queue d) := if deopt then WQueues (optimization wq) hd else WQueues hd (deoptimization wq)]> (f_queues f))
               (f_verdicts f))
    ∧ fifo h hd (lq ++ [y]) ∧ payload h !! y = Some (saved m) ∧ fifo h fr rest
    ∧ (∀ z, z ≠ y → payload h !! z = payload (f_heap f) !! z) ∧ (∀ z, z ∉ y :: lq → h !! z = f_heap f !! z).
Proof.
  intros ->. unfold enqueue. destruct take_buffer as (h & fr & sig & E & Hh & Ho & Hfr & Hyr). rewrite E.
  cbn [mbind outcome_bind f_heap f_pool f_sm f_queues f_verdicts servicestate f_metrics].
  assert (Es : save_packet h (Some y) (nf_hq m) (nf_id m) (nf_ret m) (nf_payload m)
               = Ret (<[y := Node None None (saved m)]> h)).
  { unfold save_packet, load, store_data, deref. rewrite Hh. cbn [mbind outcome_bind n_data].
    unfold zero_packet. cbn [pk_data]. rewrite u64_small by lia. unfold copy_in.
    replace (in_object (replicate PACKET_BUFSIZE 0) 0 (nf_ret m)) with true.
    2:{ unfold in_object. rewrite blen_replicate. change (Z.of_nat PACKET_BUFSIZE) with 2048. by bool_lia. }
    replace (in_object (nf_payload m) 0 (nf_ret m)) with true by (unfold in_object; by bool_lia).
    cbn [andb mbind outcome_bind]. done. }
  rewrite Es. cbn [mbind outcome_bind].
  assert (El : load (sheap (f_sm f)) (Some cur) = Ret (Node (n_next (default (Node None None d) (sheap (f_sm f) !! cur)))
                 (n_prev (default (Node None None d) (sheap (f_sm f) !! cur))) d)).
  { apply live_Some in Hcur as (nd & Hnd & <-). unfold load, deref. rewrite Hnd. by destruct nd. }
  rewrite El. cbn [mbind outcome_bind n_data].
  set (h1 := <[y := _]> h). assert (Hq1 : fifo h1 (queue_of deopt wq) lq).
  { apply fifo_store; [|done]. destruct Hq as (HN & H1 & H2 & H3 & Hc). split_and!; [done..|].
    apply (chain_ext (f_heap f)); [|done]. intros z Hz. apply Ho. by intros ->. }
  destruct (queue_packet_fifo h1 (queue_of deopt wq) lq y Hq1 Hy) as (h2 & hd & E2 & Hf2 & R2); [|done|].
  { exists (Node None None (saved m)). split; [apply lookup_insert_eq|done]. }
  assert (Hrest : ∀ z, z ∈ rest → z ∉ y :: lq).
  { intros z Hz [->|Hzq]%elem_of_cons; [done|]. destruct Hbuf as [Elq|(_ & Er & _)]; [|by rewrite Er in Hz; apply elem_of_nil in Hz].
    apply (Hapart z); [rewrite Elq; by right|done]. }
  exists h2, fr, hd. split; [|split_and!; [done| | | |]].
  - destruct deopt; unfold deoptimize_packet, optimize_packet, get_queues; cbn [f_queues f_heap f_pool f_sm servicestate f_metrics f_verdicts];
      rewrite Hwq; cbn [of_option mbind outcome_bind]; unfold queue_of in E2; rewrite E2; done.
  - destruct R2 as [-> _]. rewrite payload_lookup. unfold h1. by rewrite lookup_insert_eq.
  - eapply fifo_relinked; [exact R2|exact Hrest|]. apply fifo_store; [done|]. done.
  - intros z Hz. destruct R2 as [-> _]. rewrite !payload_lookup. unfold h1. by rewrite lookup_insert_ne, Ho by done.
  - intros z Hz. destruct R2 as [_ R2]. rewrite R2 by done. unfold h1. rewrite lookup_insert_ne, Ho by set_solver. done.
Qed.
End Enqueue.

(** C11: traffic of a tracked session goes to exactly one worker: the callback takes one buffer
    (the first free one, or a new one when none is free), copies the packet with its id into
    it and appends it to the queue of the session's worker (the de-optimization queue when the
    packet carries the id of a neighbor that is up, the optimization queue otherwise), behind
    what is queued.  It gives no verdict and counts one packet and its bytes.  Nothing else
    changes: the buffer leaves the pool and the other free buffers stay in their order, every
    other packet keeps its contents, everything in the heap outside that queue keeps its links,
    and the session table and every other queue stay as they are. *)
Theorem tracked_packet_queued `{Domain} fuel delta f m al l rest lq y wq cur d t fl tot sa so da de r remoteID nb :
  let p := nf_payload m in
  RUNNING <= servicestate f → nf_id m ≠ 0 → ip_protocol p = Ret IPPROTO_TCP → ip_tot_len p = Ret tot →
  tcph_of p = Ret t → ip_saddr p = Ret sa → tcp_source p t = Ret so → ip_daddr p = Ret da → tcp_dest p t = Ret de →
  tcp_flags p t = Ret fl → syn_flag fl = false →
  get_nod_header_data fuel delta p ONOP = Ret (r, remoteID) → from_neighbor p remoteID = Ret nb →
  (let '(lIP, lPort, sIP, sPort) := sort_sockets sa so da de in getsession (f_sm f) lIP lPort sIP sPort = Ret (Some cur)) →
  live (f_sm f) !! cur = Some d → 0 <= queue d → f_queues f !! Z.to_nat (queue d) = Some wq →
  fifo (f_heap f) (freepacketbuffers (f_pool f)) l → buffer_for f al l y rest → Z.of_nat (length l) < 2 ^ 32 →
  fifo (f_heap f) (queue_of nb wq) lq → y ∉ lq → (∀ z, z ∈ l → z ∉ lq) → Z.of_nat (length lq) + 1 < 2 ^ 32 →
  0 <= nf_ret m <= 2048 → nf_ret m <= blen p →
  ∃ f' wq', fetcher_callback fuel delta f m al = Ret f'
    ∧ f_queues f' = <[Z.to_nat (queue d) := wq']> (f_queues f)
    ∧ fifo (f_heap f') (queue_of nb wq') (lq ++ [y]) ∧ queue_of (negb nb) wq' = queue_of (negb nb) wq
    ∧ payload (f_heap f') !! y = Some (saved m)
    ∧ fifo (f_heap f') (freepacketbuffers (f_pool f')) rest ∧ allocatedpacketbuffers (f_pool f') = allocated_after f l
    ∧ (∀ z, z ≠ y → payload (f_heap f') !! z = payload (f_heap f) !! z)
    ∧ (∀ z, z ∉ y :: lq → f_heap f' !! z = f_heap f !! z)
    ∧ f_verdicts f' = f_verdicts f ∧ f_sm f' = f_sm f ∧ servicestate f' = servicestate f
    ∧ f_metrics f' = FetcherCounters (add_metric (f_packets (f_metrics f)) 1) (add_metric (f_bytesin (f_metrics f)) (ntohs tot)).
Proof.
  intros p Hrun Hid Hproto Htot Ht Hsa Hso Hda Hde Hfl Hsyn Hg Hnb Hs Hcur _ Hwq Hpool Hbuf Hlen Hq Hy Hapart Hlq Hret Hpay.
  unfold fetcher_callback. bool_lia. fold p. rewrite Htot. cbn [mbind outcome_bind]. rewrite Hproto. cbn [mbind outcome_bind].
  change (IPPROTO_TCP =? IPPROTO_TCP) with true. replace (nf_id m =? 0) with false by (symmetry; by apply Z.eqb_neq).
  cbn [andb negb]. unfold handle_tcp. rewrite Ht. cbn [mbind outcome_bind]. rewrite Hsa. cbn [mbind outcome_bind].
  rewrite Hso. cbn [mbind outcome_bind]. rewrite Hda. cbn [mbind outcome_bind]. rewrite Hde. cbn [mbind outcome_bind].
  destruct (sort_sockets sa so da de) as [[[lIP lPort] sIP] sPort]. rewrite Hg. cbn [mbind outcome_bind].
  rewrite Hfl. cbn [mbind outcome_bind]. rewrite Hsyn. cbn [andb].
  set (f1 := count_bytes f (ntohs tot)). change (f_sm f1) with (f_sm f). rewrite Hs. cbn [mbind outcome_bind].
  unfold handle_data. rewrite Hnb. cbn [mbind outcome_bind].
  destruct (enqueue_spec f1 m al l rest lq y wq nb cur d Hpool Hbuf Hlen Hlq Hcur Hwq Hq Hy Hapart Hret Hpay p eq_refl)
    as (h & fr & hd & E & Hf & Hd & Hfr & Hpl & Hh).
  rewrite E. cbn [mbind outcome_bind].
  eexists _, (if nb then WQueues (optimization wq) hd else WQueues hd (deoptimization wq)). split; [done|].
  cbn [count_packet f_queues f_heap f_verdicts f_sm f_metrics f_packets f_pool]. destruct nb; by split_and!.
Qed.

(** What is not the daemon's business passes untouched: while the service is not
    running, and for packets that are not TCP or have no Netfilter id, the callback
    accepts the packet without changing it, touches no session, buffer or queue,
    and counts it. *)
Theorem foreign_packet_untouched `{Domain} fuel delta f m al tot proto :
  ip_tot_len (nf_payload m) = Ret tot → ip_protocol (nf_payload m) = Ret proto →
  servicestate f < RUNNING ∨ proto ≠ IPPROTO_TCP ∨ nf_id m = 0 →
  ∃ f', fetcher_callback fuel delta f m al = Ret f'
    ∧ f_verdicts f' = Verdict (nf_hq m) (nf_id m) NF_ACCEPT None :: f_verdicts f
    ∧ f_sm f' = f_sm f ∧ f_heap f' = f_heap f ∧ f_pool f' = f_pool f ∧ f_queues f' = f_queues f
    ∧ f_packets (f_metrics f') = add_metric (f_packets (f_metrics f)) 1.
Proof.
  intros Htot Hproto Hcase. unfold fetcher_callback. destruct (Z.leb_spec RUNNING (servicestate f)) as [Hr|Hr].
  - rewrite Htot. cbn [mbind outcome_bind]. rewrite Hproto. cbn [mbind outcome_bind].
    replace ((proto =? IPPROTO_TCP) && negb (nf_id m =? 0)) with false; [by eexists|].
    symmetry. destruct Hcase as [?|[?| ->]]; [lia| |by rewrite andb_false_r].
    by replace (proto =? IPPROTO_TCP) with false by (symmetry; by apply Z.eqb_neq).
  - by eexists.
Qed.

(** ** The handshake *)
Lemma updateseq_client p t lIP d d' r : updateseq p t lIP d = Ret (d', r) → client d' = client d.
Proof.
  unfold updateseq. destruct (lIP =? 0); [by intros [= <- _]|]. intros E.
  apply bind_Ret in E as (w & _ & E). apply bind_Ret in E as (sq & _ & E). apply bind_Ret in E as (fl & _ & E).
  apply bind_Ret in E as (len & _ & [= <- _]). unfold __updateseq. destruct (_ || _); [|done]. by destruct w.
Qed.

Lemma sourceisclient_side p sa lIP d :
  ip_saddr p = Ret sa → lIP ≠ 0 →
  sourceisclient p lIP d = Ret (set_client_server d (side_of sa lIP) (other (side_of sa lIP)), 0).
Proof.
  intros E Hl. unfold sourceisclient. replace (lIP =? 0) with false by (symmetry; by apply Z.eqb_neq).
  rewrite (source_side_of _ _ _ E). cbn [mbind outcome_bind]. unfold side_of. by destruct (sa =? lIP).
Qed.

Section Handshake.
Context `{Domain} {fuel : nat} (Hfuel : (64 <= fuel)%nat) (delta : Z).
Context {h : list Z} {t dd tot sq : Z} {l1 l2 : list item} {m1 m2 : Z} {P S : list Z}.
Context (sa lIP : Z) (a : Z).
Local Abbreviation mss := (256 * m1 + m2).
Local Abbreviation items := (l1 ++ Opt 2 [m1; m2] :: l2).
(** The options with the maximum segment size lowered by 60. *)
Definition lowered (l1 l2 : list item) (mss : Z) : list item := l1 ++ Opt 2 (be_bytes 2 (mss - 60)) :: l2.
Context (Hp : packet_ok h t dd tot sq items P) (Hnod : lacks NOD items) (H2 : lacks 2 l1).
Context (Hsa : ∀ X, ip_saddr (h ++ X) = Ret sa) (Hl : lIP ≠ 0) (Hme : is_id get_opennop_id) (Hmss : 60 < mss).
Context (Hsp : space (no_nops (lowered l1 l2 mss)) dd < 12).
Context (Ha : a = words (space (no_nops (lowered l1 l2 mss)) dd) 12).
Context (Hroom : dd + a <= 15) (HS : 4 * a + 1 <= blen S) (Ht : tot + 4 * a < 65536).

Lemma tag_handshake_spec s B c d :
  table_inv s B → live s !! c = Some d → length (accelerator (endpoint_at d (side_of sa lIP))) = 4%nat →
  ∃ s' K, tag_handshake fuel delta s c (pkt h items dd P S) lIP
      = Ret (s', pkt K (no_nops (lowered l1 l2 mss) ++ [nod_tag get_opennop_id]) (dd + a) P (drop (Z.to_nat (4 * a)) S), true)
    ∧ packet_ok K t (dd + a) (tot + 4 * a) sq (no_nops (lowered l1 l2 mss) ++ [nod_tag get_opennop_id]) P
    ∧ hdr_eqv t h K ∧ table_inv s' B ∧ live s' !! c = Some (with_accel d (side_of sa lIP) get_opennop_id).
Proof.
  intros Hinv Hd Hal. pose proof (is_id_blen _ Hme) as [Hml Hmb]. unfold tag_handshake.
  assert (Hopt : item_ok (Opt 2 [m1; m2])).
  { destruct Hp as [_ [Hok _] _]. apply Forall_app in Hok as [_ Hok]. by apply Forall_cons in Hok as [Hok _]. }
  assert (Hb : 0 <= m1 < 256 ∧ 0 <= m2 < 256).
  { destruct Hopt as (_ & _ & Hb). apply Forall_cons in Hb as [? Hb]. apply Forall_cons in Hb as [? _]. done. }
  rewrite (get_option_present Hfuel Hp 2 [m1; m2] l1 l2 eq_refl H2) by done. cbn [mbind outcome_bind].
  replace (be [m1; m2]) with mss by (cbn; lia). rewrite u16_small by lia. bool_lia.
  destruct (set_option_present (S := S) Hfuel Hp 2 [m1; m2] l1 l2 (mss - 60) eq_refl H2) as [E1 Hp1]; [done|].
  change (2 + blen [m1; m2]) with 4 in E1. change (length [m1; m2]) with 2%nat in *. fold (lowered l1 l2 mss) in E1, Hp1.
  rewrite E1. cbn [mbind outcome_bind].
  assert (Hnod1 : lacks NOD (lowered l1 l2 mss)).
  { apply Forall_app in Hnod as [N1 N2]. apply Forall_cons in N2 as [_ N2]. apply Forall_app. by repeat constructor. }
  destruct (set_tag_result (S := S) delta get_opennop_id a Hfuel Hp1 Hnod1 Hmb Hml Hsp Ha) as (K & E2 & Hp2 & V2); [lia|lia|lia|].
  rewrite E2. cbn [mbind outcome_bind].
  pose proof (hdr_len _ _ _ _ _ (ok_hdr _ _ _ _ _ _ _ Hp)) as Hlen. pose proof (hdr_t _ _ _ _ _ (ok_hdr _ _ _ _ _ _ _ Hp)) as Htb.
  assert (Hsa1 : ∀ Y, ip_saddr (K ++ Y) = Ret sa) by (intros Y; apply (eqv_saddr t h K []); [done|lia|done|apply Hsa]).
  match goal with |- context [saveacceleratorid ?q lIP _] =>
    destruct (with_session_total s B c d (saveacceleratorid q lIP (Some get_opennop_id))
      (with_accel d (side_of sa lIP) get_opennop_id) 0 Hinv Hd) as (s1 & E3 & I1 & L1);
      [apply saveacceleratorid_id; [apply Hsa1|done|done|done]|apply with_accel_identity|]
  end.
  rewrite E3. cbn [mbind outcome_bind]. by exists s1, K.
Qed.
End Handshake.

(** What a session update or the tagging of a packet does to the other sessions: nothing. *)
Lemma with_session_others s x f s' : with_session s (Some x) f = Ret s' → ∀ z, z ≠ x → live s' !! z = live s !! z.
Proof.
  unfold with_session, load, store_data, deref. intros E z Hz. destruct (sheap s !! x) as [n|] eqn:En; [|done].
  cbn [mbind outcome_bind] in E. apply bind_Ret in E as ([d r] & _ & E). cbn [mbind outcome_bind] in E. injection E as <-.
  unfold live. cbn [sheap set_sheap]. rewrite payload_insert. by apply lookup_insert_ne.
Qed.

Lemma handshake_others `{Domain} fuel delta s c p lIP s' p' b : tag_handshake fuel delta s c p lIP = Ret (s', p', b) →
  ∀ z, z ≠ c → live s' !! z = live s !! z.
Proof.
  unfold tag_handshake. intros E z Hz. apply bind_Ret in E as (v & _ & E). destruct (60 <? u16 v); [|by injection E as <- _ _].
  apply bind_Ret in E as ([p1 r1] & _ & E). apply bind_Ret in E as (p2 & _ & E). apply bind_Ret in E as (s1 & E1 & E).
  injection E as <- _ _. by apply (with_session_others _ _ _ _ E1).
Qed.

(** A header up to the fields the node rewrites: the lengths, the checksums and the data offset; the sequence number
    is in [packet_ok]. *)
Definition same_header (t : Z) (h K : list Z) : Prop :=
  ∀ i, 0 <= i → i ≠ 2 → i ≠ 3 → i ≠ 10 → i ≠ 11 → ¬ (t + 4 <= i < t + 8) → i ≠ t + 12 → i ≠ t + 16 → i ≠ t + 17 → K @@ i = h @@ i.

Lemma handle_syn_opens `{Domain} fuel delta f m al B x h t dd tot sq l1 m1 m2 l2 P S sa lIP lPort sIP sPort a :
  let mss := 256 * m1 + m2 in
  let items' := no_nops (lowered l1 l2 mss) ++ [nod_tag get_opennop_id] in
  (64 <= fuel)%nat →
  table_inv (f_sm f) B → Z.of_nat (size (sheap (f_sm f))) + 1 < 2 ^ 32 →
  a_session al = Some x → sheap (f_sm f) !! x = None →
  getsession (f_sm f) lIP lPort sIP sPort = Ret None → lIP ≠ 0 → is_id get_opennop_id →
  packet_ok h t dd tot sq (l1 ++ Opt 2 [m1; m2] :: l2) P → bytes P → bytes S →
  lacks NOD (l1 ++ Opt 2 [m1; m2] :: l2) → lacks 2 l1 → 60 < mss →
  rd h 9 = Ret IPPROTO_TCP → (∀ X, ip_saddr (h ++ X) = Ret sa) →
  space (no_nops (lowered l1 l2 mss)) dd < 12 → a = words (space (no_nops (lowered l1 l2 mss)) dd) 12 →
  dd + a <= 15 → 4 * a + 1 <= blen S → tot + 4 * a < 65536 →
  ∃ s' K d, handle_syn fuel delta f m al (pkt h (l1 ++ Opt 2 [m1; m2] :: l2) dd P S) t lIP lPort sIP sPort None
      = Ret (add_verdict (count_packet (set_f_sm f s')) (Verdict (nf_hq m) (nf_id m) NF_ACCEPT (Some (pkt K items' (dd + a) P []))))
    ∧ same_header t h K
    ∧ packet_ok K t (dd + a) (tot + 4 * a) sq items' P
    ∧ valid_checksums (pkt K items' (dd + a) P []) t
    ∧ (∃ B', table_inv s' B') ∧ live s' !! x = Some d
    ∧ (∀ z, z ≠ x → live s' !! z = live (f_sm f) !! z)
    ∧ key_of d = (lIP, lPort, sIP, sPort) ∧ state d = TCP_SYN_SENT ∧ client d = Some (side_of sa lIP)
    ∧ accelerator (endpoint_at d (side_of sa lIP)) = get_opennop_id.
Proof.
  intros mss items' Hfuel Hinv Hsize Hal Hx Hs Hl Hme Hp HP HSb Hnod H2 Hmss Hproto Hsa Hsp Ha Hroom HS Ht.
  set (w := side_of sa lIP). unfold handle_syn. rewrite Hs. cbn [mbind outcome_bind]. rewrite Hal.
  destruct (insertsession_inv (f_sm f) B x lIP lPort sIP sPort Hinv Hx Hsize) as (s1 & q & E1 & _ & L1 & I1 & _).
  set (d1 := new_session _ q lIP lPort sIP sPort) in *. rewrite E1. cbn [mbind outcome_bind].
  assert (Hd1 : live s1 !! x = Some d1) by (rewrite L1; apply lookup_insert_eq).
  set (p := pkt h _ dd P S).
  destruct (with_session_total _ _ x d1 (sourceisclient p lIP) (set_client_server d1 w (other w)) 0 I1 Hd1)
    as (s2 & E2 & I2 & L2); [apply sourceisclient_side; [apply Hsa|done]|done|].
  rewrite E2. cbn [mbind outcome_bind].
  destruct (updateseq_total (S := S) lIP (set_client_server d1 w (other w)) Hp) as (d3 & r3 & E3 & Id3 & A3 & _).
  destruct (with_session_total _ _ _ _ _ _ _ I2 L2 E3 Id3) as (s3 & E3' & I3 & L3).
  fold p in E3'. rewrite E3'. cbn [mbind outcome_bind]. unfold handshake_id. cbn [from_neighbor mbind outcome_bind].
  destruct (tag_handshake_spec (S := S) Hfuel delta sa lIP a Hp Hnod H2 Hsa Hl Hme Hmss Hsp Ha Hroom HS Ht s3 _ x d3 I3 L3)
    as (s4 & K1 & E4 & Hp4 & V4 & I4 & L4).
  { rewrite A3. fold w. by destruct w. }
  fold p w mss items' in E4, Hp4, L4. rewrite E4. cbn [mbind outcome_bind]. set (S' := drop _ S) in *.
  pose proof (hdr_len _ _ _ _ _ (ok_hdr _ _ _ _ _ _ _ Hp)) as Hlen. pose proof (hdr_t _ _ _ _ _ (ok_hdr _ _ _ _ _ _ _ Hp)) as Htb.
  assert (Ha0 : 0 <= a).
  { rewrite Ha. apply words_nonneg; [|lia]. destruct Hp4 as [_ _ Et]. subst mss.
    destruct (set_option_present (S := S) Hfuel Hp 2 [m1; m2] l1 l2 (256 * m1 + m2 - 60) eq_refl H2) as [_ Hp1]; [done|].
    apply (space_nonneg (no_nops_packet_ok _ _ _ _ _ _ _ Hp1)). }
  destruct (checksum_pkt (S := S') Hp4) as (K2 & E5 & Hp5 & V5 & Hval);
    [apply (eqv_proto t h); [done|lia|done|done]|done|by apply Forall_drop|unfold S'; rewrite blen_drop by lia; lia|].
  rewrite E5. cbn [mbind outcome_bind].
  set (d4 := with_accel d3 w get_opennop_id) in *.
  destruct (with_session_total s4 _ x d4 (λ d, Ret (set_state d TCP_SYN_SENT, 0)) (set_state d4 TCP_SYN_SENT) 0 I4 L4)
    as (s5 & E6 & I5 & L5); [done|done|].
  rewrite E6. cbn [mbind outcome_bind].
  assert (Et : ip_tot_len (pkt K2 items' (dd + a) P S') = Ret (htons (tot + 4 * a)))
    by (pose proof (ok_hdr _ _ _ _ _ _ _ Hp5) as Hh5; unfold pkt; by opt_head Hh5).
  rewrite Et. cbn [mbind outcome_bind]. rewrite (accept_pkt _ _ Hp5). cbn [mbind outcome_bind].
  eexists _, K2, (set_state d4 TCP_SYN_SENT). split; [done|]. split.
  { intros i Hi H3 H4 H10 H11 Hq H12 H16 H17. destruct V5 as [_ V5]. rewrite V5 by lia. by apply (eqv_rest _ _ _ V4). }
  split_and!; [done|done|by eexists|done| | |done| |].
  - intros z Hz. rewrite (with_session_others _ _ _ _ E6 z Hz), (handshake_others _ _ _ _ _ _ _ _ _ E4 z Hz).
    rewrite (with_session_others _ _ _ _ E3' z Hz), (with_session_others _ _ _ _ E2 z Hz), L1. by rewrite lookup_insert_ne.
  - pose proof (with_accel_identity d3 w get_opennop_id) as (_ & Ek & _). destruct Id3 as (_ & Ek3 & _).
    change (key_of (set_state d4 TCP_SYN_SENT)) with (key_of d4). unfold d4. rewrite Ek, Ek3. done.
  - change (client (set_state d4 TCP_SYN_SENT)) with (client d4). unfold d4.
    replace (client (with_accel d3 w get_opennop_id)) with (client d3) by (by destruct w).
    by rewrite (updateseq_client _ _ _ _ _ _ E3).
  - change (endpoint_at (set_state d4 TCP_SYN_SENT) w) with (endpoint_at d4 w). apply with_accel_same.
Qed.

(** C10: the first SYN of a connection that enters the domain here opens its session.
    [fetcher_callback], given a SYN without ACK and without the id of a node, whose ends no
    session has: a new session with the two ends is in the table, with the source as client, this
    node as the accelerator on its side and state SYN_SENT, and the other sessions are as they were; the
    SYN goes on with its maximum segment size lowered by 60 and the local id behind its other options,
    its payload, sequence number and other header fields unchanged and both checksums valid (RFC 1071), under
    exactly one verdict; no buffer and no queue is touched. *)
Theorem syn_opens_session `{Domain} fuel delta f m al B x h t dd tot sq l1 m1 m2 l2 P S sa so da de fl lIP lPort sIP sPort a :
  let mss := 256 * m1 + m2 in
  let items' := no_nops (lowered l1 l2 mss) ++ [nod_tag get_opennop_id] in
  let p := pkt h (l1 ++ Opt 2 [m1; m2] :: l2) dd P S in
  RUNNING <= servicestate f → nf_payload m = p → nf_id m ≠ 0 →
  tcp_source p t = Ret so → ip_daddr p = Ret da → tcp_dest p t = Ret de → tcp_flags p t = Ret fl →
  syn_flag fl = true → ack_flag fl = false → sort_sockets sa so da de = (lIP, lPort, sIP, sPort) →
  (64 <= fuel)%nat →
  table_inv (f_sm f) B → Z.of_nat (size (sheap (f_sm f))) + 1 < 2 ^ 32 →
  a_session al = Some x → sheap (f_sm f) !! x = None →
  getsession (f_sm f) lIP lPort sIP sPort = Ret None → lIP ≠ 0 → is_id get_opennop_id →
  packet_ok h t dd tot sq (l1 ++ Opt 2 [m1; m2] :: l2) P → bytes P → bytes S →
  lacks NOD (l1 ++ Opt 2 [m1; m2] :: l2) → lacks 2 l1 → 60 < mss →
  rd h 9 = Ret IPPROTO_TCP → (∀ X, ip_saddr (h ++ X) = Ret sa) →
  space (no_nops (lowered l1 l2 mss)) dd < 12 → a = words (space (no_nops (lowered l1 l2 mss)) dd) 12 →
  dd + a <= 15 → 4 * a + 1 <= blen S → tot + 4 * a < 65536 →
  ∃ f' K d, fetcher_callback fuel delta f m al = Ret f'
    ∧ f_verdicts f' = Verdict (nf_hq m) (nf_id m) NF_ACCEPT (Some (pkt K items' (dd + a) P [])) :: f_verdicts f
    ∧ same_header t h K
    ∧ packet_ok K t (dd + a) (tot + 4 * a) sq items' P
    ∧ valid_checksums (pkt K items' (dd + a) P []) t
    ∧ (∃ B', table_inv (f_sm f') B') ∧ live (f_sm f') !! x = Some d
    ∧ (∀ z, z ≠ x → live (f_sm f') !! z = live (f_sm f) !! z)
    ∧ key_of d = (lIP, lPort, sIP, sPort) ∧ state d = TCP_SYN_SENT ∧ client d = Some (side_of sa lIP)
    ∧ accelerator (endpoint_at d (side_of sa lIP)) = get_opennop_id
    ∧ f_heap f' = f_heap f ∧ f_pool f' = f_pool f ∧ f_queues f' = f_queues f
    ∧ f_metrics f' = FetcherCounters (add_metric (f_packets (f_metrics f)) 1) (add_metric (f_bytesin (f_metrics f)) tot).
Proof.
  intros mss items' p Hrun Epay Hid Eso Eda Ede Efl Hsyn Hack Esort Hfuel Hinv Hsize Hal Hx Hs Hl Hme Hp HP HSb Hnod H2 Hmss
    Hproto Hsa Hsp Ha Hroom HS Ht.
  pose proof (ok_hdr _ _ _ _ _ _ _ Hp) as Hh. pose proof (hdr_totb _ _ _ _ _ Hh) as Htb. unfold fetcher_callback. bool_lia. rewrite Epay.
  assert (Et : ip_tot_len p = Ret (htons tot)) by (unfold p, pkt; by opt_head Hh).
  rewrite Et. cbn [mbind outcome_bind]. assert (Enn : ntohs (htons tot) = tot) by (by apply ntohs_invol). rewrite Enn.
  unfold p. rewrite (protocol_pkt Hp Hproto). fold p. cbn [mbind outcome_bind]. change (IPPROTO_TCP =? IPPROTO_TCP) with true.
  replace (nf_id m =? 0) with false by (symmetry; by apply Z.eqb_neq). cbn [andb negb]. unfold handle_tcp.
  rewrite (tcph_of_pkt Hp : tcph_of p = Ret t). cbn [mbind outcome_bind]. assert (Esa : ip_saddr p = Ret sa) by apply Hsa.
  rewrite Esa. cbn [mbind outcome_bind]. rewrite Eso. cbn [mbind outcome_bind]. rewrite Eda. cbn [mbind outcome_bind].
  rewrite Ede. cbn [mbind outcome_bind]. rewrite Esort.
  assert (Eg : get_nod_header_data fuel delta p ONOP = Ret (0, None)).
  { unfold get_nod_header_data, get_nod_header, p. by rewrite (get_tcpopt_absent Hfuel Hp) by done. }
  rewrite Eg. cbn [mbind outcome_bind]. rewrite Efl. cbn [mbind outcome_bind]. rewrite Hsyn, Hack. cbn [andb negb].
  destruct (handle_syn_opens fuel delta (count_bytes f tot) m al B x h t dd tot sq l1 m1 m2 l2 P S sa lIP lPort sIP sPort a)
    as (s' & K & d & E & R1 & R2 & R3 & R4 & R5 & R6 & R7 & R8 & R9 & R10); [done..|]. fold p in E. rewrite E. eexists _, K, d. by split_and!.
Qed.

(** * Concrete runs *)
Definition demo_fetcher (s : smstate) : fstate :=
  FState RUNNING (FetcherCounters (Metric 0 0 0) (Metric 0 0 0)) s {[5%positive := Node None None zero_packet]}
    (Pool (DHead (Some 5%positive) (Some 5%positive) 1) 1) [WQueues empty_head empty_head] [].

(** An ACK of the demo session. *)
Definition demo_ack : buffer :=
  [69; 0; 0; 40; 0; 0; 0; 0; 64; 6; 0; 0; 20; 0; 0; 0; 10; 0; 0; 0;
   80; 0; 160; 15; 0; 0; 0; 1; 0; 0; 0; 1; 80; 16; 255; 255; 0; 0; 0; 0].

Definition demo_msg (p : buffer) : nfq_msg := NfqMsg 3 9 (blen p) p.

Lemma demo_pool_fifo s : fifo (f_heap (demo_fetcher s)) (DHead (Some 5%positive) (Some 5%positive) 1) [5%positive].
Proof.
  split_and!; [apply NoDup_singleton|done|done|done|]. split; [|done]. by exists (Node None None zero_packet).
Qed.

Lemma tracked_packet_queued_witness :
  ∃ f' wq', fetcher_callback (H := lonely_domain [10; 0; 0; 9]) 64 (-8) (demo_fetcher demo_table) (demo_msg demo_ack) (Allocs None None) = Ret f'
    ∧ f_queues f' = <[Z.to_nat 0 := wq']> [WQueues empty_head empty_head]
    ∧ fifo (f_heap f') (queue_of false wq') [5%positive] ∧ queue_of true wq' = empty_head
    ∧ payload (f_heap f') !! 5%positive = Some (saved (demo_msg demo_ack))
    ∧ fifo (f_heap f') (freepacketbuffers (f_pool f')) [] ∧ allocatedpacketbuffers (f_pool f') = 1
    ∧ (∀ z, z ≠ 5%positive → payload (f_heap f') !! z = payload (f_heap (demo_fetcher demo_table)) !! z)
    ∧ (∀ z, z ∉ [5%positive] → f_heap f' !! z = f_heap (demo_fetcher demo_table) !! z)
    ∧ f_verdicts f' = [] ∧ f_sm f' = demo_table ∧ servicestate f' = RUNNING
    ∧ f_metrics f' = FetcherCounters (add_metric (Metric 0 0 0) 1) (add_metric (Metric 0 0 0) 40).
Proof.
  apply (tracked_packet_queued (H := lonely_domain [10; 0; 0; 9]) 64 (-8) (demo_fetcher demo_table) (demo_msg demo_ack) (Allocs None None)
    [5%positive] [] [] 5 (WQueues empty_head empty_head) 1 demo_session 20 16 10240 20 80 10 4000 0 None false);
    try reflexivity; try (vm_compute; reflexivity); try done.
  - apply demo_pool_fifo.
  - by left.
  - apply fifo_nil.
  - by intros ?%not_elem_of_nil.
  - by intros z _ ?%not_elem_of_nil.
Defined.

Lemma foreign_packet_untouched_witness :
  ∃ f', fetcher_callback (H := lonely_domain [10; 0; 0; 9]) 64 (-8) (demo_fetcher demo_table) (NfqMsg 3 0 40 demo_ack) (Allocs None None) = Ret f'
    ∧ f_verdicts f' = [Verdict 3 0 NF_ACCEPT None]
    ∧ f_sm f' = demo_table ∧ f_heap f' = f_heap (demo_fetcher demo_table) ∧ f_pool f' = f_pool (demo_fetcher demo_table)
    ∧ f_queues f' = [WQueues empty_head empty_head]
    ∧ f_packets (f_metrics f') = add_metric (Metric 0 0 0) 1.
Proof.
  apply (foreign_packet_untouched (H := lonely_domain [10; 0; 0; 9]) 64 (-8) (demo_fetcher demo_table) (NfqMsg 3 0 40 demo_ack)
    (Allocs None None) 10240 6); [reflexivity|reflexivity|by right; right].
Defined.

Lemma syn_opens_session_witness :
  let p := pkt (demo_header 7 49) demo_items 7 [42] (replicate 14 0) in
  let items' := [Opt 2 [5; 120]; Opt 4 []; nod_tag [10; 0; 0; 9]] in
  ∃ f' K d, fetcher_callback (H := lonely_domain [10; 0; 0; 9]) 64 (-8) (demo_fetcher (empty_table 1)) (demo_msg p) (Allocs (Some 1%positive) None)
              = Ret f'
    ∧ f_verdicts f' = [Verdict 3 9 NF_ACCEPT (Some (pkt K items' 10 [42] []))]
    ∧ same_header 20 (demo_header 7 49) K
    ∧ packet_ok K 20 10 61 738263040 items' [42]
    ∧ valid_checksums (pkt K items' 10 [42] []) 20
    ∧ (∃ B', table_inv (f_sm f') B') ∧ live (f_sm f') !! 1%positive = Some d
    ∧ (∀ z, z ≠ 1%positive → live (f_sm f') !! z = live (empty_table 1) !! z)
    ∧ key_of d = (33554442, 20480, 16777226, 40975) ∧ state d = TCP_SYN_SENT ∧ client d = Some SmallerSide
    ∧ accelerator (endpoint_at d SmallerSide) = [10; 0; 0; 9]
    ∧ f_heap f' = f_heap (demo_fetcher (empty_table 1)) ∧ f_pool f' = f_pool (demo_fetcher (empty_table 1))
    ∧ f_queues f' = [WQueues empty_head empty_head]
    ∧ f_metrics f' = FetcherCounters (add_metric (Metric 0 0 0) 1) (add_metric (Metric 0 0 0) 49).
Proof.
  intros p items'.
  apply (syn_opens_session (H := lonely_domain [10; 0; 0; 9]) 64 (-8) (demo_fetcher (empty_table 1)) (demo_msg p) (Allocs (Some 1%positive) None)
    (λ _, []) 1 (demo_header 7 49) 20 7 49 738263040 [] 5 180 [Nop; Nop; Opt 4 []] [42] (replicate 14 0) 16777226
    40975 33554442 20480 2 33554442 20480 16777226 40975 3); try lia; try done; try (vm_compute; reflexivity).
  - apply empty_table_inv. unfold MAXWORKERS. lia.
  - split; [done|]. repeat constructor; lia.
  - apply demo_syn_ok.
  - repeat constructor; lia.
  - by apply Forall_replicate.
  - by repeat constructor; vm_compute.
  - constructor.
Defined.
