(* ===== verification/FetcherSetup.v ===== *)
(** * The thread of the fetcher around its callback (opennopd/subsystems/fetcher.c)

    Opening the Netfilter queue, the receive loop, the end of the thread and
    [fetcher_graceful_exit], as programs of calls of libnetfilter_queue.  The callback
    itself is in [Fetcher]. *)
From S2P Require Import Prelude Process Packet Compression Driver Fetcher.
#[local] Open Scope Z_scope.
#[local] Open Scope list_scope.

(** ** The library *)
Definition NFQNL_COPY_PACKET : Z := 2.

Inductive nfq_call :=
| Nfq_open
| Nfq_unbind_pf (h : Z) | Nfq_bind_pf (h : Z)            (* AF_INET *)
| Nfq_create_queue (h num : Z)
| Nfq_set_mode (qh mode range : Z)
| Sysconf_phys_pages | Sysconf_pagesize
| Nfq_set_queue_maxlen (qh len : Z)
| Nfnl_rcvbufsiz (h size : Z)
| Nfq_fd (h : Z)
| Register_counter
| Get_servicestate | Set_servicestate (v : Z)
| Recv (fd : Z)
| Nfq_handle_packet (h rv : Z)
| Nfq_destroy_queue (qh : Z) | Nfq_close (h : Z) | Close_fd (fd : Z).

Record nfq_queue := NfqQueue { q_num : Z; q_mode : Z; q_range : Z; q_maxlen : Z }.

(** The handles with their descriptors and receive buffers, the queues, the open descriptors, the
    memory of the machine, and whether something was used or given back that was not open. *)
Record nfq := Nfq {
  handles : gmap Z (Z * Z); bound : bool; queues : gmap Z nfq_queue; fds : gset Z;
  pages : Z; pagesize : Z; service : Z; counting : nat; misuse : bool
}.

Definition set_handles (w : nfq) hs : nfq := Nfq hs (bound w) (queues w) (fds w) (pages w) (pagesize w) (service w) (counting w) (misuse w).
Definition set_bound (w : nfq) b : nfq := Nfq (handles w) b (queues w) (fds w) (pages w) (pagesize w) (service w) (counting w) (misuse w).
Definition set_queues (w : nfq) qs : nfq := Nfq (handles w) (bound w) qs (fds w) (pages w) (pagesize w) (service w) (counting w) (misuse w).
Definition set_fds (w : nfq) f : nfq := Nfq (handles w) (bound w) (queues w) f (pages w) (pagesize w) (service w) (counting w) (misuse w).
Definition set_service (w : nfq) v : nfq := Nfq (handles w) (bound w) (queues w) (fds w) (pages w) (pagesize w) v (counting w) (misuse w).
Definition add_counter (w : nfq) : nfq := Nfq (handles w) (bound w) (queues w) (fds w) (pages w) (pagesize w) (service w) (S (counting w)) (misuse w).
Definition misused (w : nfq) : nfq := Nfq (handles w) (bound w) (queues w) (fds w) (pages w) (pagesize w) (service w) (counting w) true.

Definition with_handle (h : Z) (w w' : nfq) (P : Z * Z → Prop) : Prop :=
  match handles w !! h with Some x => P x | None => w' = misused w end.
Definition with_queue (qh : Z) (w w' : nfq) (P : nfq_queue → Prop) : Prop :=
  match queues w !! qh with Some q => P q | None => w' = misused w end.

(** A call that fails without effect or changes the queue. *)
Definition queue_call (qh r : Z) (w w' : nfq) (f : nfq_queue → nfq_queue) : Prop :=
  with_queue qh w w' (λ q, (r < 0 ∧ w' = w) ∨ (0 <= r ∧ w' = set_queues w (<[qh := f q]> (queues w)))).

Definition nfq_answers (c : nfq_call) (w : nfq) (r : Z) (w' : nfq) : Prop :=
  match c with
  | Nfq_open => (r = 0 ∧ w' = w) ∨
      (r ≠ 0 ∧ handles w !! r = None ∧ ∃ fd, fd ∉ fds w ∧ w' = set_fds (set_handles w (<[r := (fd, 0)]> (handles w))) ({[fd]} ∪ fds w))
  | Nfq_unbind_pf h => with_handle h w w' (λ _, (r < 0 ∧ w' = w) ∨ (0 <= r ∧ w' = set_bound w false))
  | Nfq_bind_pf h => with_handle h w w' (λ _, (r < 0 ∧ w' = w) ∨ (0 <= r ∧ w' = set_bound w true))
  | Nfq_create_queue h num => with_handle h w w' (λ _, (r = 0 ∧ w' = w) ∨
      (r ≠ 0 ∧ queues w !! r = None ∧ w' = set_queues w (<[r := NfqQueue num 0 0 0]> (queues w))))
  | Nfq_set_mode qh mode range => queue_call qh r w w' (λ q, NfqQueue (q_num q) mode range (q_maxlen q))
  | Nfq_set_queue_maxlen qh len => queue_call qh r w w' (λ q, NfqQueue (q_num q) (q_mode q) (q_range q) (u32 len))
  | Sysconf_phys_pages => w' = w ∧ (r = -1 ∨ r = pages w)
  | Sysconf_pagesize => w' = w ∧ (r = -1 ∨ r = pagesize w)
  | Nfnl_rcvbufsiz h size => with_handle h w w' (λ x, w' = set_handles w (<[h := (x.1, u32 size)]> (handles w)))
  | Nfq_fd h => with_handle h w w' (λ x, r = x.1 ∧ w' = w)
  | Register_counter => w' = add_counter w
  | Get_servicestate => w' = set_service w r               (* other threads write it *)
  | Set_servicestate v => w' = set_service w v
  | Recv fd => -1 <= r ∧ w' = if bool_decide (fd ∈ fds w) then w else misused w
  | Nfq_handle_packet h _ => with_handle h w w' (λ _, w' = w)
  | Nfq_destroy_queue qh => with_queue qh w w' (λ _, w' = set_queues w (delete qh (queues w)))
  | Nfq_close h => with_handle h w w' (λ x, w' = set_fds (set_handles w (delete h (handles w))) (fds w ∖ {[x.1]}))
  | Close_fd fd => w' = if bool_decide (fd ∈ fds w) then set_fds w (fds w ∖ {[fd]}) else misused w
  end.

Class Nfq_documented (s : System nfq_call nfq) := nfq_keeps c w r w' : step (System := s) c w r w' → nfq_answers c w r w'.

(** ** The thread *)

(** The globals [h], [qh] and [fd]. *)
Record fetcher_handles := FetcherHandles { h_ : Z; qh_ : Z; fd_ : Z }.

Definition fetcher_setup : process nfq_call fetcher_handles :=
  h ← call Nfq_open;
  if h =? 0 then Exit 1 else
  r ← call (Nfq_unbind_pf h);
  if r <? 0 then Exit 1 else
  r ← call (Nfq_bind_pf h);
  if r <? 0 then Exit 1 else
  qh ← call (Nfq_create_queue h 0);
  if qh =? 0 then Exit 1 else
  r ← call (Nfq_set_mode qh NFQNL_COPY_PACKET BUFSIZE);
  if r <? 0 then Exit 1 else
  sys_pagesofmem ← call Sysconf_phys_pages;
  sys_pagesize ← call Sysconf_pagesize;
  if (sys_pagesofmem <=? 0) || (sys_pagesize <=? 0) then Exit 1 else
  let nfqlength := nfq_length sys_pagesofmem sys_pagesize in
  r ← call (Nfq_set_queue_maxlen qh nfqlength);
  if r <? 0 then Exit 1 else
  _ ← call (Nfnl_rcvbufsiz h (nfqlength * BUFSIZE));
  fd ← call (Nfq_fd h);
  _ ← call Register_counter;
  mret (FetcherHandles h qh fd).

(** The receive loop; the result is the last [rv], [None] while it goes on after [n] rounds. *)
Fixpoint fetcher_loop (n : nat) (f : fetcher_handles) (rv : Z) : process nfq_call (option Z) :=
  match n with
  | O => mret None
  | S n =>
      servicestate ← call Get_servicestate;
      if RUNNING <=? servicestate then
        rv ← call (Recv (fd_ f));
        if fetcher_loops servicestate rv then _ ← call (Nfq_handle_packet (h_ f) rv); fetcher_loop n f rv
        else mret (Some rv)
      else mret (Some rv)
  end.

Definition fetcher_end (f : fetcher_handles) (rv : Z) : process nfq_call unit :=
  _ ← (if rv =? -1 then call (Set_servicestate STOPPING) else mret 0);
  _ ← call (Nfq_destroy_queue (qh_ f));
  _ ← call (Nfq_close (h_ f));
  mret tt.

(** Whether the thread has returned. *)
Definition fetcher_function (n : nat) : process nfq_call bool :=
  f ← fetcher_setup;
  o ← fetcher_loop n f 0;
  match o with Some rv => _ ← fetcher_end f rv; mret true | None => mret false end.

Definition fetcher_graceful_exit (f : fetcher_handles) : process nfq_call unit :=
  _ ← call (Nfq_destroy_queue (qh_ f));
  _ ← call (Nfq_close (h_ f));
  _ ← call (Close_fd (fd_ f));
  mret tt.

(** ** What holds between the calls *)

(** The queue is open, with the length and the receive buffer the memory asks for. *)
Definition fetcher_open (w : nfq) (f : fetcher_handles) (w' : nfq) : Prop :=
  let nfqlength := nfq_length (pages w) (pagesize w) in
  handles w !! h_ f = None ∧ queues w !! qh_ f = None ∧ fd_ f ∉ fds w
  ∧ handles w' = <[h_ f := (fd_ f, u32 (nfqlength * BUFSIZE))]> (handles w)
  ∧ queues w' = <[qh_ f := NfqQueue 0 NFQNL_COPY_PACKET BUFSIZE (u32 nfqlength)]> (queues w)
  ∧ fds w' = {[fd_ f]} ∪ fds w ∧ misuse w' = misuse w ∧ pages w' = pages w ∧ pagesize w' = pagesize w.

(** Follow a program through the documented answers of its next call. *)
Ltac nfq_step :=
  let H := fresh "Hanswer" in
  cbn [wp mbind process_bind mret process_ret call]; intros ? ? H%nfq_keeps;
  cbn [nfq_answers] in H; unfold queue_call, with_handle, with_queue in H;
  cbn [handles queues fds set_handles set_bound set_queues set_fds set_service add_counter] in H;
  repeat first
  [ progress rewrite ?lookup_insert_eq, ?insert_insert_eq in H
  | match goal with E : handles _ !! _ = _ |- _ => rewrite E in H end
  | match goal with E : queues _ !! _ = _ |- _ => rewrite E in H end ];
  repeat match goal with
  | H : ∃ _, _ |- _ => destruct H
  | H : _ ∧ _ |- _ => destruct H
  | H : _ ∨ _ |- _ => destruct H
  end; subst; cbn [wp mbind process_bind mret process_ret call fst snd].
Ltac nfq_test := repeat first [progress bool_lia | progress cbn [wp mbind process_bind mret process_ret call negb orb] ].

Section Calls.
Context `{!System nfq_call nfq} `{!Nfq_documented _}.

Lemma setup_ok w : wp fetcher_setup (fetcher_open w) (λ status w', status = 1 ∧ misuse w' = misuse w) w.
Proof.
  unfold fetcher_setup. nfq_step; nfq_test; [done|].
  nfq_step; nfq_test; [done|]. nfq_step; nfq_test; [done|]. nfq_step; nfq_test; [done|].
  nfq_step; nfq_test; [done|]. nfq_step; nfq_step;
    match goal with |- context [if ?b then _ else _] => destruct b eqn:Hb end; nfq_test; try done;
    try by (apply orb_false_iff in Hb as [? ?]).
  nfq_step; nfq_test; [done|]. nfq_step. nfq_step. nfq_step.
  unfold fetcher_open. cbn. rewrite ?insert_insert_eq. by split_and!.
Qed.

(** A round of the loop uses what is open and changes nothing but the clock of the service. *)
Lemma loop_ok n f rv w w0 : fetcher_open w0 f w →
  wp (fetcher_loop n f rv) (λ _ w', fetcher_open w0 f w') (λ _ _, False) w.
Proof.
  revert rv w. induction n as [|n IH]; intros rv w Hw; [done|]. pose proof Hw as (_ & _ & _ & Hh & _ & Hf & _).
  assert (handles w !! h_ f = Some (fd_ f, u32 (nfq_length (pages w0) (pagesize w0) * BUFSIZE))) as Hl by (by rewrite Hh, lookup_insert_eq).
  cbn [fetcher_loop]. nfq_step. match goal with |- context [RUNNING <=? ?r] => destruct (RUNNING <=? r) end; [|done].
  nfq_step. rewrite bool_decide_eq_true_2 by (cbn [fds set_service]; rewrite Hf; by apply elem_of_union_l, elem_of_singleton_2).
  match goal with |- context [fetcher_loops ?s ?r] => destruct (fetcher_loops s r) end; [|done].
  nfq_step. by apply IH.
Qed.

Lemma end_ok f rv w w0 : fetcher_open w0 f w →
  wp (fetcher_end f rv) (λ _ w', handles w' = handles w0 ∧ queues w' = queues w0 ∧ fds w' = fds w0 ∧ misuse w' = misuse w0)
    (λ _ _, False) w.
Proof.
  intros (H1 & H2 & H3 & H4 & H5 & H6 & H7 & _). unfold fetcher_end.
  assert (handles w !! h_ f = Some (fd_ f, u32 (nfq_length (pages w0) (pagesize w0) * BUFSIZE))) as Hl by (by rewrite H4, lookup_insert_eq).
  assert (∃ q, queues w !! qh_ f = Some q) as [q Hq] by (eexists; by rewrite H5, lookup_insert_eq).
  destruct (rv =? -1); [nfq_step|]; nfq_step; nfq_step; cbn; rewrite H4, H5, H6, !delete_insert_id by done;
    (split_and!; [done|done| |done]); apply leibniz_equiv; set_solver.
Qed.

(** After [fetcher_graceful_exit] the descriptor has been closed twice. *)
Lemma graceful_exit_misuse f w w0 : fetcher_open w0 f w →
  wp (fetcher_graceful_exit f) (λ _ w', misuse w' = true ∧ handles w' = handles w0 ∧ queues w' = queues w0) (λ _ _, False) w.
Proof.
  intros (H1 & H2 & H3 & H4 & H5 & H6 & H7 & _). unfold fetcher_graceful_exit.
  assert (handles w !! h_ f = Some (fd_ f, u32 (nfq_length (pages w0) (pagesize w0) * BUFSIZE))) as Hl by (by rewrite H4, lookup_insert_eq).
  assert (∃ q, queues w !! qh_ f = Some q) as [q Hq] by (eexists; by rewrite H5, lookup_insert_eq).
  nfq_step. nfq_step. nfq_step. rewrite bool_decide_eq_false_2 by (cbn; set_solver). cbn.
  by rewrite H4, H5, !delete_insert_id.
Qed.
End Calls.

(** The thread of the fetcher.  It exits with status 1 at the first call that fails, or runs its loop
    on queue 0 in copy mode, with room for a tenth of the memory in packets (modulo 2^32 in the
    receive buffer); it uses nothing before it is open, and when it returns everything it opened is
    closed, once. *)
Theorem fetcher_thread_balanced (s : System nfq_call nfq) n w : Nfq_documented s →
  wp fetcher_setup (λ f w1, fetcher_open w f w1
      ∧ wp (fetcher_loop n f 0) (λ _ w2, fetcher_open w f w2) (λ _ _, False) w1) (λ status w', status = 1 ∧ misuse w' = misuse w) w
  ∧ wp (fetcher_function n)
      (λ returned w', misuse w' = misuse w ∧ (returned = true → handles w' = handles w ∧ queues w' = queues w ∧ fds w' = fds w))
      (λ status w', status = 1 ∧ misuse w' = misuse w) w.
Proof.
  intros Hs. split.
  - eapply wp_mono; [apply setup_ok| |done]. intros f w1 Hw1. split; [done|by apply loop_ok].
  - unfold fetcher_function. apply wp_bind. eapply wp_mono; [apply setup_ok| |done]. intros f w1 Hw1.
    apply wp_bind. eapply wp_mono; [by apply loop_ok| |done]. intros [rv|] w2 Hw2.
    + apply wp_bind. eapply wp_mono; [by apply end_ok| |done]. intros _ w3 (? & ? & ? & ?). by split.
    + split; [apply Hw2|done].
Qed.

(** What SIGTERM does to the running fetcher: [fetcher_graceful_exit] closes the descriptor that [nfq_close] has
    closed already, and if the thread comes out of its loop afterwards it destroys and closes
    the same queue and handle again. *)
Theorem graceful_exit_closes_twice (s : System nfq_call nfq) f w w0 : Nfq_documented s → fetcher_open w0 f w →
  wp (fetcher_graceful_exit f) (λ _ w', misuse w' = true ∧ handles w' !! h_ f = None ∧ queues w' !! qh_ f = None) (λ _ _, False) w.
Proof.
  intros Hs Hw. pose proof Hw as (H1 & H2 & _). eapply wp_mono; [by eapply graceful_exit_misuse| |done].
  intros _ w' (-> & -> & ->). done.
Qed.

(** The sizes asked of Netfilter.  On a machine with at most 40 GiB the receive buffer is a tenth
    of the memory, up to less than a packet and a percent's rounding; beyond, the size is cut to 32 bits: just above 40 GiB it is 0. *)
Theorem receive_buffer_size pages_ pagesize_ :
  0 < pages_ → 0 < pagesize_ →
  let n := nfq_length pages_ pagesize_ in
  (pages_ * pagesize_ <= 40 * 2 ^ 30 →
     u32 n = n ∧ u32 (n * BUFSIZE) = n * BUFSIZE
     ∧ n * BUFSIZE <= pages_ * pagesize_ / 10 < n * BUFSIZE + BUFSIZE + 10)
  ∧ u32 (nfq_length 10485761 4096 * BUFSIZE) = 0.
Proof.
  intros Hp Hs n. split; [|done]. intros Hm. assert (0 < pages_ * pagesize_) by nia.
  unfold n, nfq_length, BUFSIZE. set (M := pages_ * pagesize_) in *. change (40 * 2 ^ 30) with 42949672960 in Hm. clearbody M.
  pose proof (Z.div_mod M 100 ltac:(done)). pose proof (Z.mod_pos_bound M 100 ltac:(done)).
  pose proof (Z.div_mod M 10 ltac:(done)). pose proof (Z.mod_pos_bound M 10 ltac:(done)).
  pose proof (Z.div_mod (M / 100 * 10) 2048 ltac:(done)). pose proof (Z.mod_pos_bound (M / 100 * 10) 2048 ltac:(done)).
  rewrite !u32_small by lia. split_and!; [done..|lia|lia].
Qed.


(** ** Witnesses *)

(** A library in which nothing fails; the handles, queues and descriptors are numbered from 1, [recv] always
    has a packet. *)
Definition next (X : gset Z) : Z := Z.pos (fresh (set_map (D := gset positive) Z.to_pos X)).

Lemma next_fresh X : next X ∉ X.
Proof.
  intros H. apply (is_fresh (set_map (D := gset positive) Z.to_pos X)), elem_of_map.
  exists (next X). split; [|done]. unfold next. done.
Qed.

Definition nfq_table (c : nfq_call) (w : nfq) : Z * nfq :=
  let on_handle h f := match handles w !! h with Some x => f x | None => (0, misused w) end in
  let on_queue qh f := match queues w !! qh with Some q => (0, set_queues w (f q)) | None => (0, misused w) end in
  match c with
  | Nfq_open => let h := next (dom (handles w)) in let fd := next (fds w) in
      (h, set_fds (set_handles w (<[h := (fd, 0)]> (handles w))) ({[fd]} ∪ fds w))
  | Nfq_unbind_pf h => on_handle h (λ _, (0, set_bound w false))
  | Nfq_bind_pf h => on_handle h (λ _, (0, set_bound w true))
  | Nfq_create_queue h num => on_handle h (λ _, let q := next (dom (queues w)) in
      (q, set_queues w (<[q := NfqQueue num 0 0 0]> (queues w))))
  | Nfq_set_mode qh mode range => on_queue qh (λ q, <[qh := NfqQueue (q_num q) mode range (q_maxlen q)]> (queues w))
  | Nfq_set_queue_maxlen qh len => on_queue qh (λ q, <[qh := NfqQueue (q_num q) (q_mode q) (q_range q) (u32 len)]> (queues w))
  | Sysconf_phys_pages => (pages w, w)
  | Sysconf_pagesize => (pagesize w, w)
  | Nfnl_rcvbufsiz h size => on_handle h (λ x, (0, set_handles w (<[h := (x.1, u32 size)]> (handles w))))
  | Nfq_fd h => on_handle h (λ x, (x.1, w))
  | Register_counter => (0, add_counter w)
  | Get_servicestate => (service w, set_service w (service w))
  | Set_servicestate v => (0, set_service w v)
  | Recv fd => (100, if bool_decide (fd ∈ fds w) then w else misused w)
  | Nfq_handle_packet h _ => on_handle h (λ _, (0, w))
  | Nfq_destroy_queue qh => on_queue qh (λ _, delete qh (queues w))
  | Nfq_close h => on_handle h (λ x, (0, set_fds (set_handles w (delete h (handles w))) (fds w ∖ {[x.1]})))
  | Close_fd fd => (0, if bool_decide (fd ∈ fds w) then set_fds w (fds w ∖ {[fd]}) else misused w)
  end.

Definition nfq_system : System nfq_call nfq := computed nfq_table.

Lemma nfq_table_documented : Nfq_documented nfq_system.
Proof.
  intros c w r w' H. unfold step, nfq_system, computed in H.
  destruct c; cbn [nfq_answers nfq_table] in *; unfold queue_call, with_handle, with_queue;
    try (destruct (handles w !! h)); try (destruct (queues w !! qh)); injection H as <- <-;
    try done; try by (right; split); try by (split; [|right]).
  - right. split_and!; [done|by apply not_elem_of_dom, next_fresh|]. eexists. split; [apply next_fresh|done].
  - right. split_and!; [done|by apply not_elem_of_dom, next_fresh|done].
  - by split; [|right].
  - by split; [|right].
Qed.

(** A machine with 4 GiB of memory. *)
Definition nfq_start : nfq := Nfq ∅ false ∅ {[0; 1; 2]} 1048576 4096 RUNNING 0 false.

Lemma fetcher_thread_balanced_witness :
  wp (system := nfq_system) (fetcher_function 3)
    (λ returned w', misuse w' = false ∧ (returned = true → handles w' = ∅ ∧ queues w' = ∅ ∧ fds w' = {[0; 1; 2]}))
    (λ status w', status = 1 ∧ misuse w' = false) nfq_start.
Proof. destruct (fetcher_thread_balanced nfq_system 3 nfq_start nfq_table_documented) as [_ H]. exact H. Defined.

Lemma graceful_exit_closes_twice_witness :
  ∃ f w, fetcher_open nfq_start f w ∧
    wp (system := nfq_system) (fetcher_graceful_exit f) (λ _ w', misuse w' = true ∧ handles w' !! h_ f = None ∧ queues w' !! qh_ f = None)
      (λ _ _, False) w.
Proof.
  pose proof (exec_wp nfq_table fetcher_setup _ _ nfq_start (setup_ok (Nfq_documented0 := nfq_table_documented) nfq_start)) as H.
  destruct (exec nfq_table fetcher_setup nfq_start) as [[f|st] w] eqn:E; [|vm_compute in E; discriminate].
  exists f, w. split; [exact H|]. by apply (graceful_exit_closes_twice nfq_system f w nfq_start nfq_table_documented).
Defined.

Lemma receive_buffer_size_witness :
  u32 (nfq_length 1048576 4096) = 209715 ∧ u32 (nfq_length 10485761 4096 * BUFSIZE) = 0.
Proof. destruct (receive_buffer_size 1048576 4096) as [H1 H2]; [done..|]. destruct (H1 ltac:(done)) as (-> & _ & _). split; [done|exact H2]. Defined.
