(* ===== verification/Lifecycle.v ===== *)
(** * Start and end of the threads
    (opennopd/subsystems/worker.c, opennopd/opennopd.c, opennopd/signals.c, and the loop guards of
    the thread functions)

    [main] creates the workers and the eight other threads, then joins them in the order of
    opennopd.c; each thread loops while its guard allows.  The threads, the main thread and the
    signals are interleaved by a step relation.  A packet queue is its head only: what the threads
    do to the packets on it is the subject of the other files, here any step may leave any head
    behind.  A thread that calls [exit] on a failing call ends the whole daemon at once; that is the
    subject of the files of those threads and no step here. *)
From S2P Require Import Prelude Dll WorkerPool Driver Fetcher.

(** * Processors and workers (include/worker.h) *)

(** Where a processor's thread is: never created, at the top of its loop, asleep
    on the signal of its queue, or returned. *)
Inductive thread := NoThread | Looping | Waiting | Ended.

Record processor := Processor { t_processor : thread; state : Z; queue : dhead }.
Record worker := WorkerSlot { optimization : processor; deoptimization : processor; sessions : Z }.

(** [initialize_worker_processor]: the queue is emptied; the state is not touched. *)
Definition initialize_worker_processor (p : processor) : processor :=
  Processor (t_processor p) (state p) empty_head.

Definition pthread_create (p : processor) : processor := Processor Looping (state p) (queue p).
Definition set_state (v : Z) (p : processor) : processor := Processor (t_processor p) v (queue p).

Definition set_worker_state_running (w : worker) : worker :=
  WorkerSlot (set_state RUNNING (optimization w)) (set_state RUNNING (deoptimization w)) (sessions w).
Definition set_worker_state_stopped (w : worker) : worker :=
  WorkerSlot (set_state STOPPED (optimization w)) (set_state STOPPED (deoptimization w)) (sessions w).

Definition create_worker (w : worker) : worker :=
  let opt := initialize_worker_processor (optimization w) in
  let deopt := initialize_worker_processor (deoptimization w) in
  set_worker_state_running (WorkerSlot (pthread_create opt) (pthread_create deopt) 0).

(** [pthread_cond_signal] on the queue of the processor. *)
Definition wake (p : processor) : processor :=
  Processor (match t_processor p with Waiting => Looping | t => t end) (state p) (queue p).

Definition wake_worker (w : worker) : worker :=
  WorkerSlot (wake (optimization w)) (wake (deoptimization w)) (sessions w).

(** [shutdown_workers]: the threads of the first [n] workers are signalled; their state stays. *)
Definition shutdown_workers (n : nat) (ws : list worker) : list worker :=
  (wake_worker <$> take n ws) ++ drop n ws.

(** The guard of the loop of [worker_thread]. *)
Definition worker_loops (p : processor) : bool := STOPPING <=? state p.

(** One round of [worker_thread]: the guard, then [dequeue_packet], which sleeps on
    an empty queue.  [q] is the queue the round leaves behind. *)
Definition worker_round (p : processor) (q : dhead) : processor :=
  match t_processor p with
  | Looping =>
      if worker_loops p
      then if h_len (queue p) =? 0 then Processor Waiting (state p) (queue p)
           else Processor Looping (state p) q
      else Processor Ended (state p) (queue p)
  | _ => p
  end.

(** [joining_worker_processor]: the thread is signalled, then [pthread_join] blocks
    until it has returned ([None]: still blocked; that the thread was woken is then a
    case of [step_packet] below). *)
Definition joining_worker_processor (p : processor) : option processor :=
  let p := wake p in
  match t_processor p with Ended => Some p | _ => None end.

(** * The other threads *)

Inductive service := t_fetcher | t_cleanup | t_healthagent | t_ipc | t_wccp | t_cli | t_counters | t_memorymanager.
#[export] Instance service_eq_dec : EqDecision service.
Proof. solve_decision. Defined.

(** The order in which [main] creates them, and joins them. *)
Definition services_in_order : list service :=
  [t_fetcher; t_cleanup; t_healthagent; t_ipc; t_wccp; t_cli; t_counters; t_memorymanager].

(** The loop guards: [while (servicestate >= ...)], the [while(1)] of [epoll_handler], and
    [start_cli_server], which goes on for every answer of [accept] but descriptor 0. *)
Definition cleanup_loops (servicestate : Z) : bool := STOPPING <=? servicestate.
Definition counters_loops (servicestate : Z) : bool := RUNNING <=? servicestate.
Definition memorymanager_loops (servicestate : Z) : bool := STOPPING <=? servicestate.
Definition epoll_handler_loops : bool := true.
Definition cli_server_loops (client_sock : Z) : bool := negb (client_sock =? 0).

(** Whether the thread goes on; [rv] is what its last [recv] or [accept] answered. *)
Definition service_loops (t : service) (servicestate rv : Z) : bool :=
  match t with
  | t_fetcher => fetcher_loops servicestate rv
  | t_cleanup => cleanup_loops servicestate
  | t_healthagent => healthagent_runs servicestate
  | t_ipc | t_wccp => epoll_handler_loops
  | t_cli => cli_server_loops rv
  | t_counters => counters_loops servicestate
  | t_memorymanager => memorymanager_loops servicestate
  end.

(** What the end of a thread leaves in [servicestate]. *)
Definition service_ended (t : service) (servicestate rv : Z) : Z :=
  match t with t_fetcher => fetcher_ended servicestate rv | _ => servicestate end.

(** * The daemon *)

(** Where the main thread is. *)
Inductive main_pc :=
| Creating (i : nat)          (* the loop around [create_worker] *)
| Starting (k : nat)          (* the creation of the other threads *)
| Joining (k : nat)           (* their joins *)
| JoinOptimization (i : nat)  (* [rejoin_worker(i)], first call *)
| JoinDeoptimization (i : nat) (* [rejoin_worker(i)], second call *)
| Exited.

Record daemon := Daemon { servicestate : Z; main : main_pc; services : service → thread; workers : list worker }.

Definition set_worker (f : worker → worker) (i : nat) (d : daemon) : daemon :=
  Daemon (servicestate d) (main d) (services d) (alter f i (workers d)).
Definition set_main (m : main_pc) (d : daemon) : daemon := Daemon (servicestate d) m (services d) (workers d).
Definition set_service (t : service) (th : thread) (d : daemon) : daemon :=
  Daemon (servicestate d) (main d) (λ u, if decide (u = t) then th else services d u) (workers d).

Definition set_optimization (p : processor) (w : worker) : worker :=
  WorkerSlot p (deoptimization w) (sessions w).
Definition set_deoptimization (p : processor) (w : worker) : worker :=
  WorkerSlot (optimization w) p (sessions w).

(** [pthread_join] of one of the other threads: [None] while it blocks. *)
Definition rejoin_service (t : service) (d : daemon) : option unit :=
  match services d t with Ended => Some () | _ => None end.

(** One step of [main] with [n] workers; [None] when it blocks. *)
Definition main_step (n : nat) (d : daemon) : option daemon :=
  match main d with
  | Creating i =>
      if (i <? n)%nat then Some (set_main (Creating (S i)) (set_worker create_worker i d))
      else Some (set_main (Starting 0) d)
  | Starting k =>
      match services_in_order !! k with
      | Some t => Some (set_main (Starting (S k)) (set_service t Looping d))
      | None => Some (set_main (Joining 0) d)
      end
  | Joining k =>
      match services_in_order !! k with
      | Some t => _ ← rejoin_service t d; Some (set_main (Joining (S k)) d)
      | None => Some (set_main (if (0 <? n)%nat then JoinOptimization 0 else Exited) d)
      end
  | JoinOptimization i =>
      w ← workers d !! i;
      p ← joining_worker_processor (optimization w);
      Some (set_main (JoinDeoptimization i) (set_worker (set_optimization p) i d))
  | JoinDeoptimization i =>
      w ← workers d !! i;
      p ← joining_worker_processor (deoptimization w);
      let d := set_worker (λ w, set_worker_state_stopped (set_deoptimization p w)) i d in
      Some (set_main (if (S i <? n)%nat then JoinOptimization (S i) else Exited) d)
  | Exited => None
  end.

(** [signal_handler] with its call of [shutdown_workers]. *)
Definition handle_signal (n : nat) (sig : signal) (d : daemon) : daemon :=
  let '(st, shutdown) := signal_handler (servicestate d) sig in
  Daemon st (main d) (services d) (if shutdown then shutdown_workers n (workers d) else workers d).

(** A thread whose guard fails runs to its end. *)
Definition end_service (t : service) (rv : Z) (d : daemon) : daemon :=
  set_service t Ended (Daemon (service_ended t (servicestate d) rv) (main d) (services d) (workers d)).

Inductive daemon_step (n : nat) : daemon → daemon → Prop :=
| step_main d d' : main_step n d = Some d' → daemon_step n d d'
| step_signal d sig : daemon_step n d (handle_signal n sig d)
| step_service d t rv :
    services d t = Looping → service_loops t (servicestate d) rv = false →
    daemon_step n d (end_service t rv d)
| step_optimization d i q :
    daemon_step n d (set_worker (λ w, set_optimization (worker_round (optimization w) q) w) i d)
| step_deoptimization d i q :
    daemon_step n d (set_worker (λ w, set_deoptimization (worker_round (deoptimization w) q) w) i d)
| step_packet d i (qo qd : dhead) : (* the fetcher queues a packet and signals *)
    daemon_step n d (set_worker (λ w, wake_worker (WorkerSlot
      (Processor (t_processor (optimization w)) (state (optimization w)) qo)
      (Processor (t_processor (deoptimization w)) (state (deoptimization w)) qd) (sessions w))) i d).

(** The zero-initialised [workers] array at the start of [main]. *)
Definition zero_processor : processor := Processor NoThread 0 empty_head.
Definition zero_worker : worker := WorkerSlot zero_processor zero_processor 0.
Definition start_daemon : daemon :=
  Daemon RUNNING (Creating 0) (λ _, NoThread) (replicate (Z.to_nat MAXWORKERS) zero_worker).

(** * Shutdown *)

(** A processor whose thread never ends. *)
Definition unstoppable (p : processor) : Prop := STOPPING <= state p ∧ t_processor p ≠ Ended.
Definition unstoppable_worker (w : worker) : Prop :=
  unstoppable (optimization w) ∧ unstoppable (deoptimization w).

Lemma wake_unstoppable p : unstoppable p → unstoppable (wake p).
Proof. intros [Hs Ht]. split; [done|]. by destruct p as [[]]. Qed.

Lemma round_unstoppable p q : unstoppable p → unstoppable (worker_round p q).
Proof.
  intros [Hs Ht]. unfold worker_round, worker_loops.
  destruct p as [[] st h]; simpl in *; try done.
  replace (STOPPING <=? st) with true by (symmetry; by apply Z.leb_le).
  by case_match.
Qed.

Lemma create_unstoppable w : unstoppable_worker (create_worker w).
Proof. by repeat split. Qed.

Lemma join_unstoppable p : unstoppable p → joining_worker_processor p = None.
Proof. intros [_ Ht]. unfold joining_worker_processor. by destruct p as [[]]. Qed.

(** [main] before it has joined a worker. *)
Definition before_workers (m : main_pc) : Prop :=
  match m with Creating _ | Starting _ | Joining _ => True | JoinOptimization i => i = 0%nat | _ => False end.

(** A signal changes neither [main] nor the other threads. *)
Lemma signal_keeps n sig d :
  main (handle_signal n sig d) = main d ∧ services (handle_signal n sig d) = services d
  ∧ (Forall unstoppable_worker (workers d) → Forall unstoppable_worker (workers (handle_signal n sig d))).
Proof.
  unfold handle_signal. destruct (signal_handler _ sig) as [st sh]. split_and!; [done..|].
  intros Hw. destruct sh; cbn; [|done]. unfold shutdown_workers. rewrite Forall_app, Forall_fmap. split; [|by apply Forall_drop].
  eapply Forall_impl; [by apply Forall_take|]. intros w [Ho He]. split; by apply wake_unstoppable.
Qed.

Lemma set_worker_unstoppable f i d :
  (∀ w, unstoppable_worker w → unstoppable_worker (f w)) →
  Forall unstoppable_worker (workers d) → Forall unstoppable_worker (workers (set_worker f i d)).
Proof. intros Hf Hw. apply Forall_alter; [done|]. intros w _ H. by apply Hf. Qed.

(** Workers that run go on running, and [main] cannot join them. *)
Lemma workers_join_blocks n d i :
  Forall unstoppable_worker (workers d) → main d = JoinOptimization i → main_step n d = None.
Proof.
  intros Hw E. unfold main_step. rewrite E. destruct (workers d !! i) as [w|] eqn:Ew; [|done].
  simpl. rewrite join_unstoppable; [done|]. by destruct (Forall_lookup_1 _ _ _ _ Hw Ew).
Qed.

Lemma main_step_workers n d d' : before_workers (main d) → main_step n d = Some d' →
  Forall unstoppable_worker (workers d) → Forall unstoppable_worker (workers d').
Proof.
  intros Hm E Hw. destruct (main d) as [i|k|k|i|i|] eqn:Em; try done.
  4: by rewrite (workers_join_blocks n d i Hw Em) in E.
  all: unfold main_step in E; rewrite Em in E; case_match; try (injection E as <-; done).
  - injection E as <-. by apply set_worker_unstoppable.
  - destruct (rejoin_service _ d); [|done]. by injection E as <-.
Qed.

Lemma step_workers n d d' : daemon_step n d d' → before_workers (main d) →
  Forall unstoppable_worker (workers d) → Forall unstoppable_worker (workers d').
Proof.
  intros Hs Hm Hw. destruct Hs as [d d' H|d sig|d t rv Ht Hl|d i q|d i q|d i qo qd].
  - by eapply main_step_workers.
  - by apply signal_keeps.
  - done.
  - apply set_worker_unstoppable; [|done]. intros w [Ho He]. split; [by apply round_unstoppable|done].
  - apply set_worker_unstoppable; [|done]. intros w [Ho He]. split; [done|by apply round_unstoppable].
  - apply set_worker_unstoppable; [|done]. intros w [Ho He]. split; by apply wake_unstoppable.
Qed.

(** What only [main] can change. *)
Lemma step_main_pc n d d' : daemon_step n d d' → main_step n d = Some d' ∨ main d' = main d.
Proof.
  intros Hs. destruct Hs as [d d' H|d sig|d t rv Ht Hl|d i q|d i q|d i qo qd]; [by left|right..]; try done.
  by apply signal_keeps.
Qed.

(** ** The join of the IPC thread *)
Definition ipc_join : nat := 3.

(** [main] at most there. *)
Definition up_to_ipc_join (m : main_pc) : Prop :=
  match m with Creating _ | Starting _ => True | Joining k => (k <= ipc_join)%nat | _ => False end.

Lemma up_to_before m : up_to_ipc_join m → before_workers m.
Proof. by destruct m. Qed.

Lemma ipc_join_blocks n d : services d t_ipc ≠ Ended → main d = Joining ipc_join → main_step n d = None.
Proof. intros Hi E. unfold main_step, rejoin_service. rewrite E. cbn. by destruct (services d t_ipc). Qed.

Lemma main_step_ipc n d d' : main_step n d = Some d' → up_to_ipc_join (main d) → services d t_ipc ≠ Ended →
  up_to_ipc_join (main d') ∧ services d' t_ipc ≠ Ended.
Proof.
  intros E Hm Hi. destruct (main d) as [i|k|k|i|i|] eqn:Em; try done.
  3: { destruct (decide (k = ipc_join)) as [->|Hk]; [by rewrite ipc_join_blocks in E|].
    assert (is_Some (services_in_order !! k)) as [t Ht] by (apply lookup_lt_is_Some; cbn in *; unfold ipc_join in *; lia).
    unfold main_step in E. rewrite Em, Ht in E. destruct (rejoin_service t d); [|done]. injection E as <-.
    split; [|done]. cbn in *. unfold ipc_join in *. lia. }
  all: unfold main_step in E; rewrite Em in E; case_match; injection E as <-; try done.
  - split; [done|]. cbn. by case_decide.
  - split; [|done]. cbn. unfold ipc_join. lia.
Qed.

(** The guard of the IPC thread never fails. *)
Lemma step_ipc n d d' : daemon_step n d d' → up_to_ipc_join (main d) → services d t_ipc ≠ Ended →
  up_to_ipc_join (main d') ∧ services d' t_ipc ≠ Ended.
Proof.
  intros Hs Hm Hi. destruct Hs as [d d' H|d sig|d t rv Ht Hl|d i q|d i q|d i qo qd]; try done.
  - by eapply main_step_ipc.
  - destruct (signal_keeps n sig d) as (-> & -> & _). done.
  - split; [done|]. cbn. case_decide as Et; [|done]. by subst t.
Qed.

Record serving_inv (d : daemon) : Prop := ServingInv {
  si_workers : Forall unstoppable_worker (workers d);
  si_main : up_to_ipc_join (main d);
  si_ipc : services d t_ipc ≠ Ended
}.

Lemma reachable_inv n d : rtc (daemon_step n) start_daemon d → serving_inv d.
Proof.
  apply (rtc_ind_r serving_inv start_daemon).
  - split; [|done..]. apply Forall_replicate. by repeat split.
  - intros d1 d2 _ Hs [Hw Hm Hi]. destruct (step_ipc n d1 d2 Hs Hm Hi) as [Hm' Hi']. split; [|done..].
    by eapply step_workers; [exact Hs|apply up_to_before|].
Qed.

(** A [main] at the first [rejoin_worker] stays there. *)
Lemma stays_at_workers n d d' : rtc (daemon_step n) d d' →
  Forall unstoppable_worker (workers d) → main d = JoinOptimization 0 →
  Forall unstoppable_worker (workers d') ∧ main d' = JoinOptimization 0.
Proof.
  intros Hr Hw Hm. revert d' Hr.
  apply (rtc_ind_r (λ d', Forall unstoppable_worker (workers d') ∧ main d' = JoinOptimization 0)); [done|].
  intros d1 d2 _ Hs [Hw1 Hm1]. split; [eapply step_workers; [done|by rewrite Hm1|done]|].
  destruct (step_main_pc n d1 d2 Hs) as [E|E]; [|by rewrite E]. by rewrite (workers_join_blocks n d1 0) in E.
Qed.

(** ** The run to the join *)

(** [main] creates the workers and the other threads. *)
Lemma creates n i d :
  (i <= n)%nat → main d = Creating i →
  ∃ d', rtc (daemon_step n) d d' ∧ main d' = Starting 0 ∧ servicestate d' = servicestate d.
Proof.
  intros Hi. remember (n - i)%nat as k eqn:Hk. revert i d Hi Hk.
  induction k as [|k IH]; intros i d Hi Hk Hm.
  - exists (set_main (Starting 0) d). split; [|done]. apply rtc_once, step_main. unfold main_step.
    rewrite Hm. by replace (i <? n)%nat with false by (symmetry; apply Nat.ltb_ge; lia).
  - destruct (IH (S i) (set_main (Creating (S i)) (set_worker create_worker i d))) as (d' & R & H1 & H2);
      [lia..|done|].
    exists d'. split_and!; [|done..]. eapply rtc_l; [|exact R]. apply step_main. unfold main_step.
    rewrite Hm. by replace (i <? n)%nat with true by (symmetry; apply Nat.ltb_lt; lia).
Qed.

Lemma starts n d : main d = Starting 0 →
  ∃ d', rtc (daemon_step n) d d' ∧ main d' = Joining 0 ∧ servicestate d' = servicestate d ∧ ∀ t, services d' t = Looping.
Proof.
  intros Hm. destruct d as [st m sv ws]. cbn in Hm. subst m. eexists. split_and!.
  - do 9 (eapply rtc_l; [by apply step_main|]). apply rtc_refl.
  - done.
  - done.
  - by intros [].
Qed.

(** The fetcher's [recv] fails and one SIGTERM follows. *)
Lemma stops n d : main d = Joining 0 → (∀ t, services d t = Looping) →
  ∃ d', rtc (daemon_step n) d d' ∧ main d' = Joining ipc_join ∧ servicestate d' = STOPPED.
Proof.
  intros Hm Hsv. destruct d as [st m sv ws]. cbn in Hm, Hsv. subst m. eexists. split_and!.
  - eapply rtc_l; [apply (step_service n _ t_fetcher (-1)); [apply Hsv|by apply andb_false_r]|].
    eapply rtc_l; [apply (step_signal n _ SIGTERM)|].
    eapply rtc_l; [apply (step_service n _ t_cleanup 0); [cbn; apply Hsv|done]|].
    eapply rtc_l; [apply (step_service n _ t_healthagent 0); [cbn; apply Hsv|done]|].
    do 3 (eapply rtc_l; [by apply step_main|]). apply rtc_refl.
  - done.
  - done.
Qed.

(** C25: The daemon does not come to the end of [main], whatever the interleaving of signals,
    packets and threads (a thread that calls [exit] on a failing call ends the daemon where it stands,
    and is not a step here).  A failed [recv] of the fetcher and one SIGTERM bring [main] to
    [rejoin_ipc]; from every state the daemon can get to, the IPC thread never ends, as
    [epoll_handler] has no way out of its loop: [main] is never past that join, blocks when it is
    there, and no thread of a worker ends.  Were [main] at the first [rejoin_worker] instead, it would
    stay there too, as that function stops the threads only after it has joined them: in both cases
    neither [clear_sessiontable] nor [exit] is reached. *)
Theorem shutdown_never_completes n :
  (n <= Z.to_nat MAXWORKERS)%nat →
  (∃ d, rtc (daemon_step n) start_daemon d ∧ main d = Joining ipc_join ∧ servicestate d = STOPPED) ∧
  ∀ d, rtc (daemon_step n) start_daemon d →
    services d t_ipc ≠ Ended
    ∧ match main d with Creating _ | Starting _ => True | Joining k => (k <= ipc_join)%nat | _ => False end
    ∧ (main d = Joining ipc_join → main_step n d = None)
    ∧ (∀ w, w ∈ workers d → t_processor (optimization w) ≠ Ended ∧ t_processor (deoptimization w) ≠ Ended)
    ∧ (∀ d', rtc (daemon_step n) (set_main (JoinOptimization 0) d) d' →
         main d' = JoinOptimization 0 ∧ main_step n d' = None).
Proof.
  intros Hmax. split.
  - destruct (creates n 0 start_daemon) as (d1 & R1 & M1 & S1); [lia|done|].
    destruct (starts n d1 M1) as (d2 & R2 & M2 & S2 & T2). destruct (stops n d2 M2 T2) as (d3 & R3 & M3 & S3).
    exists d3. split_and!; [|done..]. etrans; [exact R1|]. by etrans.
  - intros d Hr. destruct (reachable_inv n d Hr) as [Hw Hm Hi]. split_and!; [done|done| | |].
    + by apply ipc_join_blocks.
    + intros w Hin. rewrite Forall_forall in Hw. by destruct (Hw w Hin) as [[_ Ho] [_ He]].
    + intros d' Hr'. destruct (stays_at_workers n _ d' Hr') as [Hw' Hm']; [done..|].
      split; [done|]. by eapply workers_join_blocks.
Qed.

Lemma shutdown_never_completes_witness :
  (∃ d, rtc (daemon_step 2) start_daemon d ∧ main d = Joining ipc_join ∧ servicestate d = STOPPED) ∧
  ∀ d, rtc (daemon_step 2) start_daemon d →
    services d t_ipc ≠ Ended
    ∧ match main d with Creating _ | Starting _ => True | Joining k => (k <= ipc_join)%nat | _ => False end
    ∧ (main d = Joining ipc_join → main_step 2 d = None)
    ∧ (∀ w, w ∈ workers d → t_processor (optimization w) ≠ Ended ∧ t_processor (deoptimization w) ≠ Ended)
    ∧ (∀ d', rtc (daemon_step 2) (set_main (JoinOptimization 0) d) d' →
         main d' = JoinOptimization 0 ∧ main_step 2 d' = None).
Proof. apply (shutdown_never_completes 2). unfold MAXWORKERS. lia. Defined.
