(* ===== verification/Startup.v ===== *)
(** * Start-up of the daemon and its threads (opennopd/opennopd.c, help.c, and the thread functions
    of subsystems/)

    [main] from its options to its joins, the parts of the thread functions outside their loops, as
    programs of calls whose world is the order in which things were done. *)
From S2P Require Import Prelude Process Dll Tokens Cli CliMenus CliConsole CliRegister WorkerPool Queue Utility Driver.
#[local] Open Scope Z_scope.
#[local] Open Scope list_scope.

Inductive thread := t_fetcher | t_cleanup | t_healthagent | t_ipc | t_wccp | t_cli | t_counters | t_memorymanager.
#[export] Instance thread_eq_dec : EqDecision thread.
Proof. solve_decision. Defined.
Inductive signal_name := N_SIGHUP | N_SIGTERM | N_SIGINT | N_SIGQUIT | N_SIGPIPE.

Inductive main_call :=
| Signal (s : signal_name) (ignored : bool)
| Printf_usage
| Openlog
| Fork | Umask | Setsid | Chdir | Close_std (fd : Z)
| Sysconf_nprocessors
| Initialize_sessiontable
| Get_workers | Set_workers (n : Z) | Create_worker (i : Z)
| Pthread_create (t : thread)
| Generate_opennopid | Clear_ipchead | Initialize_wccp
| Register_command (g : registration)
| Pthread_join (t : thread) | Rejoin_worker (i : Z)
| Clear_sessiontable.

#[export] Instance signal_name_eq_dec : EqDecision signal_name.
Proof. solve_decision. Defined.
#[export] Instance main_call_eq_dec : EqDecision main_call.
Proof. solve_decision. Defined.

(** What was done so far with the answers, how many workers run, how many processors there are. *)
Record startup := Startup { trace : list (main_call * Z); workers_ : Z; processors : Z }.

Definition done_ (c : main_call) (r : Z) (w : startup) : startup :=
  Startup (trace w ++ [(c, r)]) (workers_ w) (processors w).

(** What is known of the answers.  Any call may be answered late or never; the join of a thread
    whose loop is [epoll_handler]'s is never answered. *)
Definition main_answers (c : main_call) (w : startup) (r : Z) (w' : startup) : Prop :=
  match c with
  | Get_workers => r = workers_ w ∧ w' = w
  | Set_workers n => w' = Startup (trace w ++ [(c, r)]) (u8 n) (processors w)
  | Sysconf_nprocessors => r = processors w ∧ w' = w
  | Pthread_join t_ipc | Pthread_join t_wccp => False
  | _ => w' = done_ c r w
  end.

Class Main_documented (s : System main_call startup) := main_keeps c w r w' : step (System := s) c w r w' → main_answers c w r w'.

(** ** Options *)

(** [PrintUsage] (help.c): [argc] is at least 1. *)
Definition PrintUsage : process main_call Z := call Printf_usage.

(** The characters [getopt] yields, and [daemonize]. *)
Fixpoint options_loop (opts : list Z) (daemonize : bool) : process main_call bool :=
  match opts with
  | [] => mret daemonize
  | c :: opts =>
      if c =? 104 then _ ← PrintUsage; Exit 0                       (* h *)
      else if c =? 110 then options_loop opts false                 (* n *)
      else _ ← PrintUsage; options_loop opts daemonize
  end.

(** ** The parts of [main] *)
Definition setup_signals : process main_call Z :=
  _ ← call (Signal N_SIGHUP false);
  _ ← call (Signal N_SIGTERM false);
  _ ← call (Signal N_SIGINT false);
  _ ← call (Signal N_SIGQUIT false);
  call (Signal N_SIGPIPE true).

Definition daemonizing : process main_call Z :=
  pid ← call Fork;
  if pid <? 0 then Exit 1 else
  if 0 <? pid then Exit 0 else
  _ ← call Umask;
  sid ← call Setsid;
  if sid <? 0 then Exit 1 else
  r ← call Chdir;
  if r <? 0 then Exit 1 else
  _ ← call (Close_std 0);
  _ ← call (Close_std 1);
  call (Close_std 2).

Fixpoint create_workers (n : nat) (i : Z) : process main_call Z :=
  match n with O => mret 0 | S n => _ ← call (Create_worker i); create_workers n (i + 1) end.

Definition worker_threads : process main_call Z :=
  n ← call Get_workers;
  _ ← (if n =? 0 then nproc ← call Sysconf_nprocessors; call (Set_workers (nproc * 2)) else mret 0);
  n ← call Get_workers;
  create_workers (Z.to_nat n) 0.

Fixpoint register_all (gs : list registration) : process main_call Z :=
  match gs with [] => mret 0 | g :: gs => _ ← call (Register_command g); register_all gs end.

(** The commands each part registers, in the order of its calls. *)
Definition detection_commands : list registration := take 3 (drop 13 program_commands).
Definition ipc_commands : list registration := take 7 (drop 16 program_commands).
Definition wccp_commands : list registration := drop 23 program_commands.
Definition main_commands : list registration := take 7 (drop 6 program_commands).

Definition create_fetcher : process main_call Z := call (Pthread_create t_fetcher).

Definition start_dead_session_detection : process main_call Z :=
  _ ← register_all detection_commands; call (Pthread_create t_cleanup).

Definition start_ipc : process main_call Z :=
  _ ← register_all ipc_commands;
  _ ← call Generate_opennopid;
  _ ← call Clear_ipchead;
  call (Pthread_create t_ipc).

Definition init_wccp : process main_call Z := _ ← call Initialize_wccp; register_all wccp_commands.
Definition start_wccp : process main_call Z := _ ← init_wccp; call (Pthread_create t_wccp).

Definition start_threads : process main_call Z :=
  _ ← create_fetcher;
  _ ← start_dead_session_detection;
  _ ← call (Pthread_create t_healthagent);
  _ ← start_ipc;
  _ ← start_wccp;
  _ ← call (Pthread_create t_cli);
  _ ← call (Pthread_create t_counters);
  call (Pthread_create t_memorymanager).

Definition rejoin_fetcher : process main_call Z := call (Pthread_join t_fetcher).
Definition rejoin_dead_session_detection : process main_call Z := call (Pthread_join t_cleanup).
Definition rejoin_ipc : process main_call Z := call (Pthread_join t_ipc).
Definition stop_wccp : process main_call Z := call (Pthread_join t_wccp).

Fixpoint rejoin_workers (n : nat) (i : Z) : process main_call Z :=
  match n with O => mret 0 | S n => _ ← call (Rejoin_worker i); rejoin_workers n (i + 1) end.

Definition join_threads : process main_call Z :=
  _ ← rejoin_fetcher;
  _ ← rejoin_dead_session_detection;
  _ ← call (Pthread_join t_healthagent);
  _ ← rejoin_ipc;
  _ ← stop_wccp;
  _ ← call (Pthread_join t_cli);
  _ ← call (Pthread_join t_counters);
  call (Pthread_join t_memorymanager).

(** [main]: [opts] is what [getopt] yields, [ifs] what [getifaddrs] finds. *)
Definition main_ (opts : list Z) (ifs : option (list interface)) : process main_call unit :=
  _ ← setup_signals;
  daemonize ← options_loop opts true;
  match get_local_ip ifs with
  | None => Exit 1
  | Some _ =>
      _ ← call Openlog;
      _ ← (if daemonize : bool then daemonizing else mret 0);
      _ ← call Initialize_sessiontable;
      _ ← worker_threads;
      _ ← start_threads;
      _ ← register_all main_commands;
      _ ← join_threads;
      n ← call Get_workers;
      _ ← rejoin_workers (Z.to_nat n) 0;
      _ ← call Clear_sessiontable;
      Exit 0
  end.

(** * Specification

    What must have happened before [main] may make a call, in the words of the design: nothing here
    is read off the text of [main]. *)

Definition wants_help (opts : list Z) : bool := existsb (Z.eqb 104) opts.
Definition foreground (opts : list Z) : bool := existsb (Z.eqb 110) opts.

(** How many workers are to run. *)
Definition worker_count (workers processors : Z) : Z := if workers =? 0 then u8 (processors * 2) else workers.

(** The workers and threads created so far, those joined, and the commands registered. *)
Definition created (cs : list main_call) : list Z := omap (λ c, match c with Create_worker i => Some i | _ => None end) cs.
Definition started (cs : list main_call) : list thread := omap (λ c, match c with Pthread_create t => Some t | _ => None end) cs.
Definition joined (cs : list main_call) : list thread := omap (λ c, match c with Pthread_join t => Some t | _ => None end) cs.
Definition registered (cs : list main_call) : list registration := omap (λ c, match c with Register_command g => Some g | _ => None end) cs.

Definition all_threads : list thread :=
  [t_fetcher; t_cleanup; t_healthagent; t_ipc; t_wccp; t_cli; t_counters; t_memorymanager].

(** The handlers of the signals: SIGPIPE alone is ignored. *)
Definition handlers : list main_call :=
  (λ s, Signal s (bool_decide (s = N_SIGPIPE))) <$> [N_SIGHUP; N_SIGTERM; N_SIGINT; N_SIGQUIT; N_SIGPIPE].

(** What a thread needs before it starts. *)
Definition needs (t : thread) : list main_call :=
  match t with
  | t_cleanup => Register_command <$> detection_commands
  | t_ipc => Generate_opennopid :: Clear_ipchead :: (Register_command <$> ipc_commands)
  | t_wccp => Initialize_wccp :: (Register_command <$> wccp_commands)
  | _ => []
  end.

(** The process is the child, the leader of its own session, in the root directory. *)
Definition is_child (tr : list (main_call * Z)) : Prop := ∃ pid, (Fork, pid) ∈ tr ∧ pid = 0.
Definition answered_well (c : main_call) (tr : list (main_call * Z)) : Prop := ∃ r, (c, r) ∈ tr ∧ 0 <= r.
Definition detached (tr : list (main_call * Z)) : Prop :=
  is_child tr ∧ Umask ∈ tr.*1 ∧ answered_well Setsid tr ∧ answered_well Chdir tr.
Definition in_background (tr : list (main_call * Z)) : Prop :=
  detached tr ∧ Forall (.∈ tr.*1) [Close_std 0; Close_std 1; Close_std 2].

(** May [main] make call [c] after [tr], with options [opts] and [n] workers to run? *)
Definition may_call (opts : list Z) (n : Z) (c : main_call) (tr : list (main_call * Z)) : Prop :=
  let cs := tr.*1 in
  match c with
  | Signal s ignored => Signal s ignored ∈ handlers
  | Printf_usage | Openlog => Forall (.∈ cs) handlers
  | Fork => foreground opts = false ∧ Forall (.∈ cs) (Openlog :: handlers)
  | Umask | Setsid => foreground opts = false ∧ is_child tr
  | Chdir => foreground opts = false ∧ is_child tr ∧ answered_well Setsid tr
  | Close_std fd => foreground opts = false ∧ detached tr ∧ 0 <= fd <= 2
  | Initialize_sessiontable =>
      Forall (.∈ cs) (Openlog :: handlers) ∧ (foreground opts = false → in_background tr)
      ∧ created cs = [] ∧ started cs = []
  | Get_workers | Sysconf_nprocessors => Initialize_sessiontable ∈ cs
  | Set_workers m => created cs = [] ∧ u8 m = n
  | Create_worker i => Initialize_sessiontable ∈ cs ∧ created cs = seqZ 0 i ∧ 0 <= i < n ∧ started cs = []
  | Generate_opennopid | Clear_ipchead => t_ipc ∉ started cs
  | Initialize_wccp => t_wccp ∉ started cs
  | Register_command g => Initialize_sessiontable ∈ cs ∧ g ∉ registered cs
  | Pthread_create t =>
      Initialize_sessiontable ∈ cs ∧ created cs = seqZ 0 n ∧ t ∉ started cs ∧ Forall (.∈ cs) (needs t)
      ∧ joined cs = []
  | Pthread_join t =>
      created cs = seqZ 0 n ∧ started cs ≡ₚ all_threads ∧ (∃ later, started cs = joined cs ++ t :: later)
      ∧ Forall (.∈ registered cs) (drop 6 program_commands)
      ∧ t_ipc ∉ joined cs
  | Rejoin_worker _ | Clear_sessiontable => False
  end.

(** When [main] may exit: nothing runs yet, and there is a reason. *)
Definition may_exit (opts : list Z) (ifs : option (list interface)) (status : Z) (tr : list (main_call * Z)) : Prop :=
  created tr.*1 = [] ∧ started tr.*1 = []
  ∧ ((status = 0 ∧ wants_help opts = true)
     ∨ wants_help opts = false ∧
       ((status = 1 ∧ get_local_ip ifs = None)
        ∨ is_Some (get_local_ip ifs) ∧ foreground opts = false ∧
          ((status = 0 ∧ ∃ pid, (Fork, pid) ∈ tr ∧ 0 < pid)
           ∨ status = 1 ∧ ∃ c r, c ∈ [Fork; Setsid; Chdir] ∧ (c, r) ∈ tr ∧ r < 0))).

(** * Facts *)

Lemma created_app cs ds : created (cs ++ ds) = created cs ++ created ds.
Proof. apply omap_app. Qed.
Lemma started_app cs ds : started (cs ++ ds) = started cs ++ started ds.
Proof. apply omap_app. Qed.
Lemma joined_app cs ds : joined (cs ++ ds) = joined cs ++ joined ds.
Proof. apply omap_app. Qed.
Lemma registered_app cs ds : registered (cs ++ ds) = registered cs ++ registered ds.
Proof. apply omap_app. Qed.

Lemma Forall_in_app {A} (l cs ds : list A) : Forall (.∈ cs) l → Forall (.∈ cs ++ ds) l.
Proof. intros H. eapply Forall_impl; [exact H|]. intros x. cbn. rewrite elem_of_app. tauto. Qed.

Section Calls.
Context `{!System main_call startup} `{!Main_documented _}.

(** The world after the calls [cs], whatever they answered. *)
Definition after (cs : list main_call) (w w' : startup) : Prop :=
  ∃ tr, trace w' = trace w ++ tr ∧ tr.*1 = cs ∧ workers_ w' = workers_ w ∧ processors w' = processors w.

Lemma after_refl w : after [] w w.
Proof. exists []. by rewrite app_nil_r. Qed.

Lemma after_trans cs ds w1 w2 w3 : after cs w1 w2 → after ds w2 w3 → after (cs ++ ds) w1 w3.
Proof.
  intros (tr1 & H1 & E1 & A1 & B1) (tr2 & H2 & E2 & A2 & B2). exists (tr1 ++ tr2).
  rewrite H2, H1, fmap_app, E1, E2, app_assoc. split_and!; [done..|congruence|congruence].
Qed.

(** Calls that do not look at the state. *)
Definition plain (c : main_call) : bool :=
  match c with Get_workers | Set_workers _ | Sysconf_nprocessors => false | _ => true end.

Lemma plain_after c w r w' : plain c = true → step c w r w' → after [c] w w' ∧ (c, r) ∈ trace w'.
Proof.
  intros Hc Hs%main_keeps. assert (w' = done_ c r w) as -> by (destruct c as [| | | | | | | | | | | | | | | | | |[]| |]; done).
  split; [by exists [(c, r)]|]. cbn. apply elem_of_app. right. by apply list_elem_of_singleton.
Qed.

(** A program that makes the calls [cs], whatever they answer. *)
Definition does {A} (p : process main_call A) (cs : list main_call) : Prop :=
  ∀ w (Q : A → startup → Prop) E B,
    (∀ i c w', cs !! i = Some c → after (take i cs) w w' → B c w') →
    (∀ a w', after cs w w' → Q a w') → wpc p Q E B w.

Lemma does_ret {A} (a : A) : does (mret a) [].
Proof. intros w Q E B _ H. apply H, after_refl. Qed.

Lemma does_call c : plain c = true → does (call c) [c].
Proof.
  intros Hc w Q E B HB H. split; [by apply (HB 0%nat); [|apply after_refl]|].
  intros r w' Hs. apply H. by eapply plain_after.
Qed.

Lemma does_bind {A B} (p : process main_call A) (f : A → process main_call B) cs ds :
  does p cs → (∀ a, does (f a) ds) → does (p ≫= f) (cs ++ ds).
Proof.
  intros Hp Hf w Q E K HK H. apply wpc_bind, Hp.
  - intros i c w' Hi Ha. apply (HK i); [by apply lookup_app_l_Some|].
    rewrite take_app_le; [done|]. apply lookup_lt_Some in Hi. lia.
  - intros a w1 H1. apply Hf.
    + intros i c w' Hi Ha. apply (HK (length cs + i)%nat); [by rewrite lookup_app_r, Nat.add_sub'  by lia|].
      rewrite take_app_add. by eapply after_trans.
    + intros b w2 H2. apply H. by eapply after_trans.
Qed.

Lemma does_cons {B} c (f : Z → process main_call B) ds : plain c = true →
  (∀ a, does (f a) ds) → does (call c ≫= f) (c :: ds).
Proof. intros Hc Hf. apply (does_bind _ _ [c]); [by apply does_call|done]. Qed.

Lemma does_register gs : does (register_all gs) (Register_command <$> gs).
Proof. induction gs as [|g gs IH]; [apply does_ret|]. by apply does_cons. Qed.

Lemma does_create n i : does (create_workers n i) (Create_worker <$> seqZ i (Z.of_nat n)).
Proof.
  revert i. induction n as [|n IH]; intros i; [apply does_ret|].
  rewrite seqZ_cons by lia. replace (Z.pred (Z.of_nat (S n))) with (Z.of_nat n) by lia. by apply does_cons.
Qed.

(** Walk through a straight program. *)
Ltac walk := repeat first
  [ done
  | apply does_ret
  | apply does_cons; [done|intros ?]
  | apply does_call; done
  | apply does_bind; [solve [apply does_register|walk]|intros ?] ].

Definition signal_calls : list main_call :=
  [Signal N_SIGHUP false; Signal N_SIGTERM false; Signal N_SIGINT false; Signal N_SIGQUIT false; Signal N_SIGPIPE true].
Definition thread_calls : list main_call :=
  [Pthread_create t_fetcher] ++ (Register_command <$> detection_commands) ++ [Pthread_create t_cleanup; Pthread_create t_healthagent]
  ++ (Register_command <$> ipc_commands) ++ [Generate_opennopid; Clear_ipchead; Pthread_create t_ipc; Initialize_wccp]
  ++ (Register_command <$> wccp_commands) ++ [Pthread_create t_wccp; Pthread_create t_cli; Pthread_create t_counters; Pthread_create t_memorymanager].

Lemma does_signals : does setup_signals signal_calls.
Proof. unfold setup_signals, signal_calls. walk. Qed.

Lemma does_threads : does start_threads thread_calls.
Proof.
  unfold start_threads, thread_calls, create_fetcher, start_dead_session_detection, start_ipc, start_wccp, init_wccp.
  walk.
Qed.

(** ** The parts of [main] against the specification *)
Context (opts : list Z) (ifs : option (list interface)) (workers procs : Z).
Notation n := (worker_count workers procs).
Notation calls w := ((trace w).*1).
Notation Exits := (λ st w, may_exit opts ifs st (trace w)).
Notation Calls := (λ c w, may_call opts n c (trace w)).

Lemma after_calls cs w w' : after cs w w' → calls w' = calls w ++ cs.
Proof. intros (tr & E & <- & _). by rewrite E, fmap_app. Qed.

Lemma after_keeps cs w w' c r : after cs w w' → (c, r) ∈ trace w → (c, r) ∈ trace w'.
Proof. intros (tr & -> & _) H. apply elem_of_app. by left. Qed.

(** Before the first worker. *)
Record quiet (w : startup) : Prop := Quiet {
  q_handlers : Forall (.∈ calls w) handlers;
  q_created : created (calls w) = []; q_started : started (calls w) = [];
  q_joined : joined (calls w) = []; q_registered : registered (calls w) = [];
  q_workers : workers_ w = workers; q_processors : processors w = procs
}.

Lemma quiet_after cs w w' : created cs = [] → started cs = [] → joined cs = [] → registered cs = [] →
  quiet w → after cs w w' → quiet w'.
Proof.
  intros H1 H2 H3 H4 [] Ha. pose proof (after_calls cs w w' Ha) as E. destruct Ha as (tr & _ & _ & Hw & Hp).
  split; rewrite ?E, ?created_app, ?started_app, ?joined_app, ?registered_app, ?H1, ?H2, ?H3, ?H4, ?app_nil_r; try done.
  - by apply Forall_in_app.
  - by rewrite Hw.
  - by rewrite Hp.
Qed.

Lemma quiet_exit w st : quiet w →
  ((st = 0 ∧ wants_help opts = true)
     ∨ wants_help opts = false ∧
       ((st = 1 ∧ get_local_ip ifs = None)
        ∨ is_Some (get_local_ip ifs) ∧ foreground opts = false ∧
          ((st = 0 ∧ ∃ pid, (Fork, pid) ∈ trace w ∧ 0 < pid)
           ∨ st = 1 ∧ ∃ c r, c ∈ [Fork; Setsid; Chdir] ∧ (c, r) ∈ trace w ∧ r < 0))) → Exits st w.
Proof. intros []. by repeat split. Qed.

(** One plain call out of a program. *)
Lemma wpc_call {A} c (f : Z → process main_call A) Q E B w : plain c = true → B c w →
  (∀ r w', after [c] w w' → (c, r) ∈ trace w' → wpc (f r) Q E B w') → wpc (call c ≫= f) Q E B w.
Proof. intros Hc HB H. split; [done|]. intros r w' Hs. by apply H; eapply plain_after. Qed.

Lemma options_ok os d w : quiet w → (wants_help os = true → wants_help opts = true) →
  wpc (options_loop os d) (λ d' w', wants_help os = false ∧ d' = d && negb (foreground os) ∧ quiet w') Exits Calls w.
Proof.
  revert d w. induction os as [|c os IH]; intros d w Hq Hh; cbn [options_loop].
  { cbn. by rewrite andb_true_r. }
  unfold wants_help, foreground in *. cbn [existsb] in *. rewrite !(Z.eqb_sym _ c) in *.
  destruct (Z.eqb_spec c 104) as [->|H1]; [|destruct (Z.eqb_spec c 110) as [->|H2]]; cbn [orb] in *.
  - unfold PrintUsage. apply wpc_call; [done|apply Hq|]. intros r w' Ha _. apply quiet_exit; [by apply (quiet_after [Printf_usage] w)|].
    left. split; [done|]. by apply Hh.
  - eapply wpc_mono; [by apply IH|]. intros d' w' (H & -> & Hq'). by rewrite andb_false_r.
  - unfold PrintUsage. apply wpc_call; [done|apply Hq|]. intros r w' Ha _. apply IH; [by apply (quiet_after [Printf_usage] w)|done].
Qed.

Lemma daemonizing_ok w : quiet w → Openlog ∈ calls w → foreground opts = false → wants_help opts = false →
  is_Some (get_local_ip ifs) →
  wpc daemonizing (λ _ w', quiet w' ∧ Openlog ∈ calls w' ∧ in_background (trace w')) Exits Calls w.
Proof.
  intros Hq Hlog Hf Hh Hip. unfold daemonizing. apply wpc_call; [done| |].
  { split; [done|]. constructor; [done|apply Hq]. }
  intros pid w1 A1 Hpid.
  assert (Q1 : quiet w1) by by apply (quiet_after [Fork] w).
  destruct (Z.ltb_spec pid 0).
  { apply quiet_exit; [done|]. right. split; [done|]. right. split_and!; [done..|]. right. split; [done|].
    exists Fork, pid. split_and!; [by apply list_elem_of_here|done..]. }
  destruct (Z.ltb_spec 0 pid).
  { apply quiet_exit; [done|]. right. split; [done|]. right. split_and!; [done..|]. left. split; [done|]. by exists pid. }
  assert (Hc1 : is_child (trace w1)) by (exists pid; split; [done|lia]).
  apply wpc_call; [done|done|]. intros r w2 A2 _.
  assert (Hc2 : is_child (trace w2)) by (destruct Hc1 as (p & ? & ?); exists p; split; [by eapply after_keeps|done]).
  apply wpc_call; [done|done|]. intros sid w3 A3 Hsid.
  assert (Hc3 : is_child (trace w3)) by (destruct Hc2 as (p & ? & ?); exists p; split; [by eapply after_keeps|done]).
  assert (Q2 : quiet w2) by by apply (quiet_after [Umask] w1).
  assert (Q3 : quiet w3) by by apply (quiet_after [Setsid] w2).
  destruct (Z.ltb_spec sid 0).
  { apply quiet_exit; [done|]. right. split; [done|]. right. split_and!; [done..|]. right. split; [done|].
    exists Setsid, sid. split_and!; [by apply list_elem_of_further, list_elem_of_here|done..]. }
  assert (Hs3 : answered_well Setsid (trace w3)) by by exists sid.
  apply wpc_call; [done|done|]. intros rc w4 A4 Hrc.
  assert (Q4 : quiet w4) by by apply (quiet_after [Chdir] w3).
  destruct (Z.ltb_spec rc 0).
  { apply quiet_exit; [done|]. right. split; [done|]. right. split_and!; [done..|]. right. split; [done|].
    exists Chdir, rc. split_and!; [by apply list_elem_of_further, list_elem_of_further, list_elem_of_here|done..]. }
  assert (Hd : detached (trace w4)).
  { split_and!.
    - destruct Hc3 as (p & ? & ?). exists p. split; [by eapply after_keeps|done].
    - rewrite (after_calls _ _ _ A4), (after_calls _ _ _ A3), (after_calls _ _ _ A2), !elem_of_app.
      left. left. right. by apply list_elem_of_singleton.
    - destruct Hs3 as (p & ? & ?). exists p. split; [by eapply after_keeps|done].
    - by exists rc. }
  assert (Hlog4 : Openlog ∈ calls w4).
  { rewrite (after_calls _ _ _ A4), (after_calls _ _ _ A3), (after_calls _ _ _ A2), (after_calls _ _ _ A1), !elem_of_app. tauto. }
  assert (does (_ ← call (Close_std 0); _ ← call (Close_std 1); call (Close_std 2)) [Close_std 0; Close_std 1; Close_std 2]) as H4 by walk.
  assert (Hk : ∀ cs w', after cs w4 w' → detached (trace w')).
  { intros cs w' Ha. destruct Hd as ((p & ? & ?) & Hu & (p1 & ? & ?) & (p2 & ? & ?)). split_and!.
    - exists p. split; [by eapply after_keeps|done].
    - rewrite (after_calls _ _ _ Ha), elem_of_app. by left.
    - exists p1. split; [by eapply after_keeps|done].
    - exists p2. split; [by eapply after_keeps|done]. }
  apply H4.
  - intros i c w' Hi Ha. apply Hk in Ha. do 3 (destruct i as [|i]; [injection Hi as <-; by split_and!|]). done.
  - intros _ w' Ha. split; [by apply (quiet_after [Close_std 0; Close_std 1; Close_std 2] w4)|]. split; [|split; [by eapply Hk|]].
    + rewrite (after_calls _ _ _ Ha), elem_of_app. by left.
    + rewrite (after_calls _ _ _ Ha). apply Forall_forall. intros c Hc. apply elem_of_app. by right.
Qed.

(** Between the creation of the workers and the first of the other threads. *)
Record manned (w : startup) : Prop := Manned {
  m_handlers : Forall (.∈ calls w) handlers; m_table : Initialize_sessiontable ∈ calls w;
  m_created : created (calls w) = seqZ 0 n; m_started : started (calls w) = [];
  m_joined : joined (calls w) = []; m_registered : registered (calls w) = []
}.

Lemma created_workers ks : created (Create_worker <$> ks) = ks.
Proof. induction ks as [|i ks IH]; [done|]. cbn. by f_equal. Qed.

Lemma others_workers ks : started (Create_worker <$> ks) = [] ∧ joined (Create_worker <$> ks) = []
  ∧ registered (Create_worker <$> ks) = [].
Proof. induction ks as [|i ks (H1 & H2 & H3)]; [done|]. by split_and!. Qed.

Lemma take_workers k (i : nat) c : (Create_worker <$> seqZ 0 k) !! i = Some c →
  c = Create_worker (Z.of_nat i) ∧ Z.of_nat i < k ∧ take i (Create_worker <$> seqZ 0 k) = Create_worker <$> seqZ 0 (Z.of_nat i).
Proof.
  rewrite list_lookup_fmap, fmap_Some. intros (x & [-> Hi]%lookup_seqZ & ->). split_and!; [f_equal; lia|lia|].
  rewrite <-fmap_take. f_equal. replace k with (Z.of_nat i + (k - Z.of_nat i)) by lia. rewrite seqZ_app by lia.
  rewrite take_app_length'; [done|]. rewrite length_seqZ. lia.
Qed.

(** The world before and after [create_workers]. *)
Lemma create_ok w (Q : Z → startup → Prop) : Forall (.∈ calls w) handlers →
  created (calls w) = [] → started (calls w) = [] → joined (calls w) = [] → registered (calls w) = [] →
  Initialize_sessiontable ∈ calls w → (∀ a w', manned w' → Q a w') →
  wpc (create_workers (Z.to_nat n) 0) Q Exits Calls w.
Proof.
  intros Hh Hc Hs Hj Hr Ht HQ. apply does_create.
  - intros i c w' Hi Ha. apply take_workers in Hi as (-> & Hi & E). rewrite E in Ha.
    pose proof (after_calls _ _ _ Ha) as Ew. destruct (others_workers (seqZ 0 (Z.of_nat i))) as (E1 & _ & _). split_and!.
    + rewrite Ew, elem_of_app. by left.
    + by rewrite Ew, created_app, Hc, created_workers.
    + lia.
    + lia.
    + by rewrite Ew, started_app, Hs, E1.
  - intros a w' Ha. apply HQ. pose proof (after_calls _ _ _ Ha) as Ew.
    destruct (others_workers (seqZ 0 (Z.of_nat (Z.to_nat n)))) as (E1 & E2 & E3). split; rewrite Ew.
    + by apply Forall_in_app.
    + rewrite elem_of_app. by left.
    + rewrite created_app, Hc, created_workers. destruct (decide (0 <= n)) as [|Hneg]; [by rewrite Z2Nat.id|].
      rewrite (seqZ_nil 0 n) by lia. rewrite seqZ_nil; [done|lia].
    + by rewrite started_app, Hs, E1.
    + by rewrite joined_app, Hj, E2.
    + by rewrite registered_app, Hr, E3.
Qed.

(** A closed stretch of calls from there on. *)
Lemma stretch cs w w' : manned w → after cs w w' →
  Forall (.∈ calls w') handlers ∧ Initialize_sessiontable ∈ calls w' ∧ created (calls w') = seqZ 0 n ++ created cs
  ∧ started (calls w') = started cs ∧ joined (calls w') = joined cs ∧ registered (calls w') = registered cs
  ∧ (∀ l, Forall (.∈ cs) l → Forall (.∈ calls w') l).
Proof.
  intros [] Ha. pose proof (after_calls _ _ _ Ha) as Ew. rewrite Ew, created_app, started_app, joined_app, registered_app.
  rewrite m_created0, m_started0, m_joined0, m_registered0. split_and!; try done.
  - by apply Forall_in_app.
  - rewrite elem_of_app. by left.
  - intros l Hl. eapply Forall_impl; [exact Hl|]. intros c Hc. apply elem_of_app. by right.
Qed.

(** The same question for a stretch, decided by computation. *)
Definition may_call_in (c : main_call) (cs : list main_call) : Prop :=
  created cs = [] ∧
  match c with
  | Generate_opennopid | Clear_ipchead => t_ipc ∉ started cs
  | Initialize_wccp => t_wccp ∉ started cs
  | Register_command g => g ∉ registered cs
  | Pthread_create t => t ∉ started cs ∧ Forall (.∈ cs) (needs t) ∧ joined cs = []
  | Pthread_join t =>
      started cs = all_threads ∧ take (length (joined cs)) all_threads = joined cs
      ∧ all_threads !! length (joined cs) = Some t
      ∧ Forall (.∈ registered cs) (drop 6 program_commands) ∧ t_ipc ∉ joined cs
  | _ => False
  end.
#[local] Instance may_call_in_dec c cs : Decision (may_call_in c cs).
Proof. destruct c; apply _. Defined.

Lemma may_call_stretch c cs w w' : manned w → after cs w w' → may_call_in c cs → may_call opts n c (trace w').
Proof.
  intros Hm Ha [Hc0 Hc]. destruct (stretch cs w w' Hm Ha) as (Hh & Ht & Hcr & Hst & Hj & Hr & Hin).
  rewrite Hc0, app_nil_r in Hcr. unfold may_call. rewrite ?Hcr, ?Hst, ?Hj, ?Hr.
  destruct c; try done.
  - destruct Hc as (? & ? & ?). split_and!; try done. by apply Hin.
  - destruct Hc as (E & Ej & El & Hreg & Hi). split_and!; try done; [by rewrite E|].
    rewrite E. exists (drop (S (length (joined cs))) all_threads).
    rewrite <-(take_drop_middle all_threads _ t El) at 1. by rewrite Ej.
Qed.

Lemma does_stretch {A} (p : process main_call A) pre cs w0 w Q : manned w0 → after pre w0 w → does p cs →
  forallb (λ i, match cs !! i with Some c => bool_decide (may_call_in c (pre ++ take i cs)) | None => true end) (seq 0 (length cs)) = true →
  (∀ a w', after (pre ++ cs) w0 w' → Q a w') → wpc p Q Exits Calls w.
Proof.
  intros Hm Ha Hd Hb HQ. apply Hd.
  - intros i c w' Hi Hw'. rewrite forallb_forall in Hb. specialize (Hb i). rewrite Hi in Hb.
    eapply may_call_stretch; [done|by eapply after_trans|]. eapply bool_decide_eq_true_1, Hb, in_seq.
    apply lookup_lt_Some in Hi. lia.
  - intros a w' Hw'. apply HQ. by eapply after_trans.
Qed.

(** The joins up to the one that is not answered. *)
Lemma joins_ok w : manned w → ∀ w1, after (thread_calls ++ (Register_command <$> main_commands)) w w1 →
  ∀ Q, wpc join_threads Q Exits Calls w1.
Proof.
  intros Hm w1 Ha Q. set (pre := thread_calls ++ (Register_command <$> main_commands)) in *.
  unfold join_threads, rejoin_fetcher, rejoin_dead_session_detection, rejoin_ipc.
  assert (Hj : ∀ t js wi, after (pre ++ (Pthread_join <$> js)) w wi →
    bool_decide (may_call_in (Pthread_join t) (pre ++ (Pthread_join <$> js))) = true → may_call opts n (Pthread_join t) (trace wi)).
  { intros t js wi Hi Hb%bool_decide_eq_true. by eapply may_call_stretch. }
  assert (Hn : ∀ t js wi wj, after (pre ++ (Pthread_join <$> js)) w wi → after [Pthread_join t] wi wj →
    after (pre ++ (Pthread_join <$> (js ++ [t]))) w wj).
  { intros t js wi wj H1 H2. rewrite fmap_app, app_assoc. by eapply after_trans. }
  assert (H0 : after (pre ++ (Pthread_join <$> [])) w w1) by (by rewrite app_nil_r).
  apply wpc_call; [done|by apply (Hj t_fetcher [])|]. intros _ w2 A2 _. apply (Hn t_fetcher [] w1) in A2; [|done].
  apply wpc_call; [done|by apply (Hj t_cleanup [t_fetcher])|]. intros _ w3 A3 _. apply (Hn t_cleanup [t_fetcher] w2) in A3; [|done].
  apply wpc_call; [done|by apply (Hj t_healthagent [t_fetcher; t_cleanup])|].
  intros _ w4 A4 _. apply (Hn t_healthagent [t_fetcher; t_cleanup] w3) in A4; [|done].
  split; [by apply (Hj t_ipc [t_fetcher; t_cleanup; t_healthagent])|]. by intros r w5 Hs%main_keeps.
Qed.
End Calls.

(** C26: The start of the daemon, from a process that has done nothing.  [main] never returns.  Whatever the calls answer,
    and whether they answer at all, it exits only before a worker or a thread runs and only for a reason: the help option,
    no local address, being the parent after [fork], or, in the background only, a [fork], [setsid] or [chdir] that failed;
    and it makes every call only where the design allows it ([may_call]): with the signal handlers in place, the session table
    set up before the workers and, in the background, by the detached child with its standard descriptors closed, the
    workers created once each in order, as many as asked for or twice the processors modulo 256, then each thread once,
    behind what it needs (its identity, lists and commands), and a join only when all threads run and all commands of
    the program but the command line's own are registered, in the order of creation.  The join of the IPC thread is
    the last call: the workers are never joined and the table never cleared. *)
Theorem startup_order (s : System main_call startup) opts ifs workers procs : Main_documented s →
  wpc (main_ opts ifs) (λ _ _, False)
    (λ status w', may_exit opts ifs status (trace w'))
    (λ c w', may_call opts (worker_count workers procs) c (trace w')) (Startup [] workers procs).
Proof.
  intros Hs. unfold main_. apply wpc_bind, does_signals.
  { intros i c w' Hi _. do 5 (destruct i as [|i]; [injection Hi as <-; cbn [may_call]; by apply (bool_decide_unpack _)|]). done. }
  intros _ w1 A1. assert (Q1 : quiet workers procs w1).
  { pose proof (after_calls _ _ _ A1) as E. destruct A1 as (tr & _ & _ & H1 & H2). split; rewrite ?E; try done.
    by apply (bool_decide_unpack _). }
  apply wpc_bind. eapply wpc_mono; [by apply (options_ok opts ifs workers procs opts true)|].
  intros d w2 (Hhelp & -> & Q2). cbn [andb]. destruct (get_local_ip ifs) as [id|] eqn:Eip.
  2: { apply (quiet_exit opts ifs workers procs); [done|]. right. split; [done|]. by left. }
  apply wpc_call; [done|apply Q2|]. intros _ w3 A3 _.
  assert (Q3 : quiet workers procs w3) by by apply (quiet_after workers procs [Openlog] w2).
  assert (L3 : Openlog ∈ (trace w3).*1).
  { rewrite (after_calls _ _ _ A3), elem_of_app. right. by apply list_elem_of_singleton. }
  apply wpc_bind. apply (wpc_mono _ (λ _ w', quiet workers procs w' ∧ Openlog ∈ (trace w').*1
      ∧ (foreground opts = false → in_background (trace w')))).
  { destruct (foreground opts) eqn:Ef; cbn [negb]; [by split_and!|].
    eapply wpc_mono; [apply (daemonizing_ok opts ifs workers procs); [done..|by rewrite Eip]|]. intros _ w' (? & ? & ?). by split_and!. }
  intros _ w4 (Q4 & L4 & D4). apply wpc_call; [done| |].
  { split_and!; [by constructor; [|apply Q4]|done|apply Q4|apply Q4]. }
  intros _ w5 A5 _. assert (Q5 : quiet workers procs w5) by by apply (quiet_after workers procs [Initialize_sessiontable] w4).
  assert (T5 : Initialize_sessiontable ∈ (trace w5).*1).
  { rewrite (after_calls _ _ _ A5), elem_of_app. right. by apply list_elem_of_singleton. }
  assert (Hwork : ∀ w, Forall (.∈ (trace w).*1) handlers → created (trace w).*1 = [] → started (trace w).*1 = [] →
      joined (trace w).*1 = [] → registered (trace w).*1 = [] → Initialize_sessiontable ∈ (trace w).*1 → 
      wpc (create_workers (Z.to_nat (worker_count workers procs)) 0)
        (λ _ w', wpc (_ ← start_threads; _ ← register_all main_commands; _ ← join_threads; n ← call Get_workers;
           _ ← rejoin_workers (Z.to_nat n) 0; _ ← call Clear_sessiontable; Exit 0 : process main_call unit) (λ _ _, False)
           (λ st w', may_exit opts ifs st (trace w')) (λ c w', may_call opts (worker_count workers procs) c (trace w')) w')
        (λ st w', may_exit opts ifs st (trace w')) (λ c w', may_call opts (worker_count workers procs) c (trace w')) w).
  { intros w Hh Hc Hst Hj Hr Ht. apply create_ok; [done..|]. intros _ w6 M6. apply wpc_bind.
    apply (does_stretch opts ifs workers procs _ [] thread_calls w6 w6); [done|apply after_refl|apply does_threads|by vm_compute|].
    intros _ w7 A7. apply wpc_bind.
    apply (does_stretch opts ifs workers procs _ thread_calls (Register_command <$> main_commands) w6); [done..|apply does_register|by vm_compute|].
    intros _ w8 A8. apply wpc_bind. by apply (joins_ok opts ifs workers procs w6). }
  apply wpc_bind. unfold worker_threads. split; [done|]. intros n w6 [-> ->]%main_keeps. rewrite (q_workers _ _ _ Q5).
  
  cbn [wpc mbind process_bind call mret process_ret]. unfold worker_count in *. destruct (workers =? 0) eqn:E0; cbn [wpc mbind process_bind call mret process_ret].
  - split; [done|]. intros nproc w6 [-> ->]%main_keeps. rewrite (q_processors _ _ _ Q5).
    split; [by split; [apply Q5|]|]. intros r w6 Hw%main_keeps. cbn in Hw. split.
    { rewrite Hw. cbn. rewrite fmap_app, elem_of_app. by left. }
    intros n w7 [-> ->]%main_keeps. rewrite Hw. cbn [workers_]. destruct Q5.
    apply Hwork; cbn [trace]; rewrite fmap_app, ?created_app, ?started_app, ?joined_app, ?registered_app, ?q_created0, ?q_started0, ?q_joined0, ?q_registered0; try done.
    + by apply Forall_in_app.
    + rewrite elem_of_app. by left.
  - split; [done|]. intros n w6 [-> ->]%main_keeps. rewrite (q_workers _ _ _ Q5). destruct Q5. by apply Hwork.
Qed.

(** Twice 128 processors are no worker at all. *)
Example no_worker_on_128 : worker_count 0 128 = 0.
Proof. reflexivity. Qed.

(** ** Witness *)

(** Everything works, and the joins that are never answered are not. *)
Definition main_table (c : main_call) (w : startup) : option (Z * startup) :=
  match c with
  | Get_workers => Some (workers_ w, w)
  | Set_workers n => Some (0, Startup (trace w ++ [(c, 0)]) (u8 n) (processors w))
  | Sysconf_nprocessors => Some (processors w, w)
  | Pthread_join t_ipc | Pthread_join t_wccp => None
  | _ => Some (0, done_ c 0 w)
  end.

Definition main_system : System main_call startup := answered main_table.

Lemma main_table_documented : Main_documented main_system.
Proof.
  intros c w r w' H. unfold step, main_system, answered in H.
  destruct c as [| | | | | | | | | | | | | | | | | |[]| |]; cbn in *; by simplify_eq.
Qed.

Definition demo_address : option (list interface) := Some [Interface (Some 33554442) true true].

(** A machine with two processors: the child in the background comes to the join of the IPC thread, with four
    workers and all threads running. *)
Lemma startup_order_witness :
  wpc (system := main_system) (main_ [] demo_address) (λ _ _, False)
    (λ status w', may_exit [] demo_address status (trace w'))
    (λ c w', may_call [] (worker_count 0 2) c (trace w')) (Startup [] 0 2)
  ∧ ∃ p w', visits (system := main_system) (main_ [] demo_address) (Startup [] 0 2) p w'
      ∧ (match p with Call (Pthread_join t_ipc) _ => True | _ => False end)
      ∧ created (trace w').*1 = [0; 1; 2; 3] ∧ started (trace w').*1 = all_threads
      ∧ joined (trace w').*1 = [t_fetcher; t_cleanup; t_healthagent] ∧ (Fork, 0) ∈ trace w'.
Proof.
  split; [apply (startup_order main_system [] demo_address 0 2 main_table_documented)|].
  exists (exec_to main_table (main_ [] demo_address) (Startup [] 0 2)).1, (exec_to main_table (main_ [] demo_address) (Startup [] 0 2)).2.
  split; [apply exec_to_visits|]. split_and!; try by vm_compute. apply (bool_decide_unpack _). by vm_compute.
Defined.
