(* ===== verification/Console.v ===== *)
(** * The daemon's own commands (clicommands.c, climanager.c, ipc.c, compression.c,
    sessioncleanup.c, version.c)

    The handlers behind the command line interface, from the words of a line to
    the state of the components, and what a client's text can do to the daemon. *)
From S2P Require Import Prelude Dll NodeId Tokens Cli CliMenus CliConsole Compression Utility Counters Session.
From S2P Require Import SessionCleanup Ipc CliShow Wccp WccpWire WccpGroups WccpHello WccpConfig WccpConsole.
From stdpp Require Import pretty.
#[local] Open Scope Z_scope.
#[local] Open Scope list_scope.

(** The part of the daemon the commands work on. *)
Record daemon := Daemon {
  d_ipc : ipcstate; d_wccp : wccpstate; d_sessions : smstate;
  d_workers : list (workercounters * workercounters); d_fetcher : fetchercounters;
  compression : bool; dead_session_detection : bool; DEBUG_IPC : Z
}.

Definition set_ipc (d : daemon) (s : ipcstate) : daemon :=
  Daemon s (d_wccp d) (d_sessions d) (d_workers d) (d_fetcher d) (compression d) (dead_session_detection d) (DEBUG_IPC d).
Definition set_wccp (d : daemon) (s : wccpstate) : daemon :=
  Daemon (d_ipc d) s (d_sessions d) (d_workers d) (d_fetcher d) (compression d) (dead_session_detection d) (DEBUG_IPC d).
Definition set_compression (d : daemon) (b : bool) : daemon :=
  Daemon (d_ipc d) (d_wccp d) (d_sessions d) (d_workers d) (d_fetcher d) b (dead_session_detection d) (DEBUG_IPC d).
Definition set_detection (d : daemon) (b : bool) : daemon :=
  Daemon (d_ipc d) (d_wccp d) (d_sessions d) (d_workers d) (d_fetcher d) (compression d) b (DEBUG_IPC d).
Definition set_debug (d : daemon) (level : Z) : daemon :=
  Daemon (d_ipc d) (d_wccp d) (d_sessions d) (d_workers d) (d_fetcher d) (compression d) (dead_session_detection d) level.

(** What the system answers in a state: the time, the address [malloc] returns for an object of
    each kind, and what it left in the id and key of a neighbor. *)
Record daemon_env := DaemonEnv {
  VERSION : string;
  time : daemon → Z;
  malloc_neighbor : daemon → loc; garbage_neighbor : daemon → list Z * list Z;
  malloc_group : daemon → loc; malloc_server : daemon → loc
}.

(** The characters of a C string. *)
Fixpoint chars (s : string) : list Z :=
  match s with EmptyString => [] | String c s => Z.of_N (N_of_ascii c) :: chars s end.

(** ** The built-in modes (clicommands.c, climanager.c) *)
Definition no_result : commandresult := CommandResult 0 None None.

Definition cli_quit : commandresult := CommandResult 1 None None.
Definition cli_mode_test : commandresult := CommandResult 0 (Some testmode) None.
Definition cli_mode_test_exit : commandresult := CommandResult 0 None None.

Fixpoint show_params_loop (i : Z) (parameters : list string) : outcome (list string) :=
  match parameters with
  | [] => Ret []
  | p :: ps =>
      msg ← sprintf 1024 ("[" +:+ pretty i +:+ "] " +:+ p +:+ newline);
      ls ← show_params_loop (i + 1) ps;
      Ret (msg :: ls)
  end.

Definition cli_show_params (parameters : list string) : outcome (commandresult * list string) :=
  ls ← show_params_loop 0 parameters; Ret (CommandResult 0 (Some testmode) None, ls).

(** ** Neighbors and the local key (ipc.c) *)
Definition cli_neighbor_help : list string := ["Usage: [no] neighbor <ip address> [key]" +:+ newline].

Definition validate_neighbor_input (s : ipcstate) (stringip : string) (k : option string)
    (neighbor_command : Z → option (list Z) → outcome ipcstate) : outcome (ipcstate * list string) :=
  match inet_pton stringip with
  | None => Ret (s, cli_neighbor_help)
  | Some neighborIP =>
      if match k with Some k => 64 <? Z.of_nat (String.length k) | None => false end
      then Ret (s, cli_neighbor_help)
      else s ← neighbor_command neighborIP (chars <$> k); Ret (s, [])
  end.

Definition cli_no_neighbor (parameters : list string) (s : ipcstate) : outcome (ipcstate * list string) :=
  match parameters with
  | [ip] => validate_neighbor_input s ip None (λ ip _, del_neighbor s ip)
  | _ => Ret (s, cli_neighbor_help)
  end.

Definition cli_neighbor (parameters : list string) (a : loc) (garbage : list Z * list Z) (now : Z) (s : ipcstate)
    : outcome (ipcstate * list string) :=
  match parameters with
  | [ip] => validate_neighbor_input s ip None (add_update_neighbor s a garbage now)
  | [ip; k] => validate_neighbor_input s ip (Some k) (add_update_neighbor s a garbage now)
  | _ => Ret (s, cli_neighbor_help)
  end.

Definition cli_show_key (s : ipcstate) : outcome (list string) :=
  msg ← sprintf 1024 ("Key: [" +:+ text_at (key s) +:+ "]" +:+ newline); Ret [msg].

(** ** Version and switches *)
Definition cli_show_version (version : string) : outcome (list string) :=
  msg ← sprintf 1024 ("Version " +:+ version +:+ "." +:+ newline); Ret [msg].

(** ** Every handler, on the state of the daemon *)
Section Run.
Context (env : daemon_env).

(** A command that only sends text. *)
Definition shows (d : daemon) (o : outcome (list string)) : outcome (daemon * commandresult * list string) :=
  ls ← o; Ret (d, no_result, ls).

Definition on_ipc (d : daemon) (o : outcome (ipcstate * list string)) : outcome (daemon * commandresult * list string) :=
  '(s, ls) ← o; Ret (set_ipc d s, no_result, ls).

Definition on_wccp (d : daemon) (o : outcome (wccpstate * commandresult * list string))
    : outcome (daemon * commandresult * list string) :=
  '(s, r, ls) ← o; Ret (set_wccp d s, r, ls).

Definition run (f : t_commandfunction) (ps : list string) (data : option loc) (d : daemon)
    : outcome (daemon * commandresult * list string) :=
  match f with
  | Cli.cli_quit => Ret (d, cli_quit, [])
  | Cli.cli_mode_test => Ret (d, cli_mode_test, [])
  | Cli.cli_mode_test_exit => Ret (d, cli_mode_test_exit, [])
  | Cli.cli_show_params => '(r, ls) ← cli_show_params ps; Ret (d, r, ls)
  | Cli.cli_show_version => shows d (cli_show_version (VERSION env))
  | Cli.cli_show_compression => shows d (Ret (CliShow.cli_show_compression (compression d)))
  | Cli.cli_show_workers => shows d (CliShow.cli_show_workers (d_workers d))
  | Cli.cli_show_fetcher => shows d (CliShow.cli_show_fetcher (d_fetcher d))
  | Cli.cli_show_sessionss => shows d (CliShow.cli_show_sessionss (opennop_localid (d_ipc d)) (d_sessions d))
  | Cli.cli_compression_enable =>
      Ret (set_compression d (Compression.cli_compression_enable (compression d)), no_result, ["compression enabled" +:+ newline])
  | Cli.cli_compression_disable =>
      Ret (set_compression d (Compression.cli_compression_disable (compression d)), no_result, ["compression disabled" +:+ newline])
  | Cli.cli_show_dead_session_detection =>
      shows d (Ret (CliShow.cli_show_dead_session_detection (dead_session_detection d)))
  | Cli.cli_dead_session_detection_enable =>
      Ret (set_detection d (SessionCleanup.cli_dead_session_detection_enable (dead_session_detection d)), no_result,
           ["dead session detection enabled" +:+ newline])
  | Cli.cli_dead_session_detection_disable =>
      Ret (set_detection d (SessionCleanup.cli_dead_session_detection_disable (dead_session_detection d)), no_result,
           ["dead session detection disabled" +:+ newline])
  | Cli.cli_neighbor =>
      on_ipc d (cli_neighbor ps (malloc_neighbor env d) (garbage_neighbor env d) (time env d) (d_ipc d))
  | Cli.cli_no_neighbor => on_ipc d (cli_no_neighbor ps (d_ipc d))
  | Cli.cli_show_neighbors => shows d (CliShow.cli_show_neighbors (d_ipc d))
  | Cli.cli_set_key => on_ipc d (s ← Ipc.cli_set_key (d_ipc d) (chars <$> ps); Ret (s, []))
  | Cli.cli_show_key => shows d (cli_show_key (d_ipc d))
  | Cli.cli_show_neighbor => shows d (CliShow.cli_show_neighbor ps (d_ipc d))
  | Cli.cli_debug_ipc => '(level, ls) ← CliShow.cli_debug_ipc ps (DEBUG_IPC d); Ret (set_debug d level, no_result, ls)
  | Cli.cli_enter_wccp_mode => on_wccp d (Wccp.cli_enter_wccp_mode ps (Some (malloc_group env d)) (d_wccp d))
  | Cli.cli_wccp_server => on_wccp d (Wccp.cli_wccp_server ps data (time env d) (Some (malloc_server env d)) (d_wccp d))
  | Cli.cli_wccp_password => on_wccp d (Wccp.cli_wccp_password (d_wccp d))
  | Cli.cli_exit_wccp_mode => on_wccp d (Wccp.cli_exit_wccp_mode (d_wccp d))
  end.
End Run.

(** * What a client's text can do *)

(** ** Characters *)
Fixpoint nul_free (s : string) : bool :=
  match s with EmptyString => true | String c s => negb (bool_decide (c = Ascii.zero)) && nul_free s end.

Lemma c_string_nul_free s : nul_free (c_string s) = true.
Proof. induction s as [|c s IH]; [done|]. simpl. case_bool_decide; [done|]. simpl. by rewrite bool_decide_false. Qed.

Lemma split_nul_free s : nul_free s = true → nul_free (split_token s).1 = true ∧ nul_free (split_token s).2 = true.
Proof.
  induction s as [|c s IH]; [done|]. simpl. intros [Hc Hs]%andb_true_iff. destruct (is_delimiter c); [done|].
  destruct (split_token s) as [t r]. simpl. rewrite Hc. by apply IH.
Qed.

Lemma skip_nul_free s : nul_free s = true → nul_free (skip_delimiters s) = true.
Proof. induction s as [|c s IH]; [done|]. simpl. intros [Hc Hs]%andb_true_iff. destruct (is_delimiter c); [auto|]. simpl. by rewrite Hc. Qed.

Lemma tokens_nul_free s : nul_free s = true → Forall (λ t, nul_free t = true) (tokens s).
Proof.
  unfold tokens. generalize (S (String.length s)) as fuel. intros fuel. revert s.
  induction fuel as [|fuel IH]; intros s Hs; [constructor|]. cbn [tokens_from]. unfold strtok_r.
  pose proof (skip_nul_free s Hs) as Hk. destruct (skip_delimiters s) as [|c s']; [constructor|].
  destruct (split_nul_free _ Hk) as [H1 H2]. destruct (split_token (String c s')) as [t r]. constructor; [done|by apply IH].
Qed.

Lemma length_tokens s : (length (tokens s) <= S (String.length s))%nat.
Proof.
  unfold tokens. generalize (S (String.length s)) as fuel. intros fuel. revert s.
  induction fuel as [|fuel IH]; intros s; [done|]. cbn [tokens_from]. destruct (strtok_r s) as [[t r]|]; simpl; [|lia].
  specialize (IH r). lia.
Qed.

Lemma length_c_string s : (String.length (c_string s) <= String.length s)%nat.
Proof. induction s as [|c s IH]; [done|]. simpl. case_bool_decide; simpl; lia. Qed.

Lemma length_substring n s : (String.length (String.substring 0 n s) <= n)%nat.
Proof. revert s. induction n as [|n IH]; intros [|c s]; simpl; try lia. specialize (IH s). lia. Qed.

Lemma length_chars s : blen (chars s) = Z.of_nat (String.length s).
Proof. unfold blen. f_equal. induction s as [|c s IH]; [done|]. simpl. by rewrite IH. Qed.

Lemma length_text_at l : (String.length (text_at l) <= length l)%nat.
Proof. induction l as [|c l IH]; [done|]. simpl. destruct (c =? 0); simpl; lia. Qed.

(** A key is read back as it was typed. *)
Lemma text_at_chars s n : nul_free s = true → text_at (chars s ++ replicate (S n) 0) = s.
Proof.
  induction s as [|c s IH]; [done|]. simpl. intros [Hc Hs]%andb_true_iff.
  assert (Hn : Z.of_N (N_of_ascii c) ≠ 0).
  { intros E. apply negb_true_iff, bool_decide_eq_false in Hc. apply Hc. rewrite <-(ascii_N_embedding c).
    by replace (N_of_ascii c) with 0%N by lia. }
  destruct (Z.eqb_spec (Z.of_N (N_of_ascii c)) 0); [done|]. f_equal; [|by apply IH].
  rewrite <-N_nat_Z, Nat2Z.id. apply ascii_nat_embedding.
Qed.

Lemma text_at_empty k : (0 < length k)%nat → key_is_empty k = true → text_at k = "".
Proof. destruct k as [|c k]; simpl; [lia|]. intros _ H. change ((c =? 0) = true) in H. by rewrite H. Qed.

Lemma text_at_new_key k : nul_free k = true → (String.length k <= 64)%nat → text_at (new_key (Some (chars k))) = k.
Proof.
  intros Hk Hl. simpl. unfold key_field. pose proof (length_chars k) as Hc. unfold blen in Hc.
  replace (OPENNOP_IPC_KEY_LENGTH - length (chars k))%nat with (S (64 - length (chars k))) by (unfold OPENNOP_IPC_KEY_LENGTH; lia).
  by apply text_at_chars.
Qed.

(** ** The neighbor commands *)

(** The configured keys, by address of the neighbor. *)
Definition keys_of (s : ipcstate) (K : gmap Z string) : Prop :=
  ∀ ip k, K !! ip = Some k ↔ ∃ x n, neighbors s !! x = Some n ∧ NeighborIP n = ip ∧ text_at (nb_key n) = k.

Inductive config_command := Add (ps : list string) | Remove (ps : list string).

Definition words_of (c : config_command) : list string :=
  match c with Add ps => "neighbor" :: ps | Remove ps => "no" :: "neighbor" :: ps end.

Definition add_key (ip : option Z) (k : string) (K : gmap Z string) : gmap Z string :=
  match ip with Some ip => <[ip := k]> K | None => K end.

(** What a neighbor command does to the configuration; anything else than an address, or an
    address and a key of at most 64 characters, is refused. *)
Definition config_effect (K : gmap Z string) (c : config_command) : gmap Z string :=
  match c with
  | Add [ip] => add_key (inet_pton ip) "" K
  | Add [ip; k] => if 64 <? Z.of_nat (String.length k) then K else add_key (inet_pton ip) k K
  | Remove [ip] => match inet_pton ip with Some ip => delete ip K | None => K end
  | _ => K
  end.

Lemma keys_of_insert s s' K x n k :
  ipc_ok s' → keys_of s K → neighbors s' = <[x := n]> (neighbors s) →
  (neighbors s !! x = None ∨ ∃ n0, neighbors s !! x = Some n0 ∧ NeighborIP n0 = NeighborIP n) →
  text_at (nb_key n) = k → keys_of s' (<[NeighborIP n := k]> K).
Proof.
  intros (l & Hi) HK E Hx Hk ip k'. rewrite E. destruct (decide (ip = NeighborIP n)) as [->|Hne].
  - rewrite lookup_insert_eq. split.
    + intros [= <-]. exists x, n. by rewrite lookup_insert_eq.
    + intros (y & m & Hy & Hip & <-). assert (y = x) as ->.
      { apply (ii_ips _ _ Hi y x m n); rewrite ?E, ?lookup_insert_eq; done. }
      rewrite lookup_insert_eq in Hy. injection Hy as <-. by rewrite Hk.
  - rewrite lookup_insert_ne by done. rewrite (HK ip k'). split; intros (y & m & Hy & Hip & Hm); exists y, m.
    + rewrite lookup_insert_ne; [done|]. intros <-. destruct Hx as [Hx|(n0 & Hx & H0)]; [congruence|].
      apply Hne. rewrite <-Hip, <-H0. congruence.
    + destruct (decide (x = y)) as [<-|Hxy]; [|by rewrite lookup_insert_ne in Hy].
      rewrite lookup_insert_eq in Hy. injection Hy as <-. by destruct Hne.
Qed.

Lemma add_neighbor_keys s a g now ip k K : ipc_ok s → keys_of s K → nheap s !! a = None → garbage_ok g →
  match k with Some k => nul_free k = true ∧ (String.length k <= 64)%nat | None => True end →
  ∃ s', add_update_neighbor s a g now ip (chars <$> k) = Ret s' ∧ ipc_ok s' ∧ keys_of s' (<[ip := default "" k]> K).
Proof.
  intros Hok HK Ha Hg Hk.
  assert (Hp : key_param_ok (chars <$> k) = true).
  { destruct k as [k|]; [|done]. simpl. rewrite length_chars. apply Z.leb_le. lia. }
  assert (Ht : text_at (new_key (chars <$> k)) = default "" k).
  { destruct k as [k|]; [|done]. apply text_at_new_key; by destruct Hk. }
  destruct (add_update_inv s a g now ip (chars <$> k) Hok Ha Hg Hp) as (s' & E & Hok' & H). exists s'. split_and!; [done..|].
  destruct H as [(x & n & Hx & <- & En)|(Hno & n & En & <- & _ & _ & He & Hkk)].
  - apply (keys_of_insert s s' K x (set_nb_key n (new_key (chars <$> k)))); [done..| |done]. right. by exists n.
  - apply (keys_of_insert s s' K a n); [done..| |].
    + left. unfold neighbors. by rewrite payload_lookup, Ha.
    + destruct k as [k|]; [by rewrite Hkk|]. assert (Hx : neighbors s' !! a = Some n) by (by rewrite En, lookup_insert_eq).
      destruct (neighbor_nb_ok s' a n Hok' Hx) as (_ & Hl & _). apply text_at_empty; [|exact He].
      rewrite Hl. unfold OPENNOP_IPC_KEY_LENGTH. lia.
Qed.

Lemma del_neighbor_keys s ip K : ipc_ok s → keys_of s K →
  ∃ s', del_neighbor s ip = Ret s' ∧ ipc_ok s' ∧ keys_of s' (delete ip K).
Proof.
  intros Hok HK. destruct (del_inv s ip Hok) as (s' & E & Hok' & H). exists s'. split_and!; [done..|].
  intros ip' k. rewrite lookup_delete_Some, (HK ip' k). split.
  - intros (Hne & x & n & Hx & <- & <-). exists x, n. split_and!; [|done..]. apply H. split; [done|congruence].
  - intros (x & n & Hx & <- & <-). apply H in Hx as [Hx Hne]. split; [done|by exists x, n].
Qed.

Lemma cli_neighbor_effect ps s a g now K : ipc_ok s → keys_of s K → nheap s !! a = None → garbage_ok g →
  Forall (λ t, nul_free t = true) ps →
  ∃ s' ls, cli_neighbor ps a g now s = Ret (s', ls) ∧ ipc_ok s' ∧ keys_of s' (config_effect K (Add ps)).
Proof.
  intros Hok HK Ha Hg Hps. destruct ps as [|ip [|k [|x ps]]]; cbn [cli_neighbor config_effect]; eauto 10;
    unfold validate_neighbor_input, add_key.
  - destruct (inet_pton ip) as [v|]; [|by eauto 10].
    destruct (add_neighbor_keys s a g now v None K) as (s' & -> & Hok' & HK'); [done..|]. cbn [mbind outcome_bind]. eauto 10.
  - apply Forall_cons in Hps as [_ [Hk _]%Forall_cons]. destruct (inet_pton ip) as [v|]; [|by case_match; eauto 10].
    destruct (Z.ltb_spec 64 (Z.of_nat (String.length k))); [by eauto 10|].
    destruct (add_neighbor_keys s a g now v (Some k) K) as (s' & -> & Hok' & HK'); [done..|split; [done|lia]|].
    cbn [mbind outcome_bind]. eauto 10.
Qed.

Lemma cli_no_neighbor_effect ps s K : ipc_ok s → keys_of s K →
  ∃ s' ls, cli_no_neighbor ps s = Ret (s', ls) ∧ ipc_ok s' ∧ keys_of s' (config_effect K (Remove ps)).
Proof.
  intros Hok HK. destruct ps as [|ip [|k ps]]; cbn [cli_no_neighbor config_effect]; eauto 10.
  unfold validate_neighbor_input. destruct (inet_pton ip) as [v|]; [|by eauto 10].
  destruct (del_neighbor_keys s v K) as (s' & -> & Hok' & HK'); [done..|]. cbn [mbind outcome_bind]. eauto 10.
Qed.

(** *** Everything else about the neighbors *)

(** The neighbors by their addresses. *)
Definition by_address (s : ipcstate) (M : gmap Z neighbor) : Prop :=
  ∀ ip n, M !! ip = Some n ↔ ∃ x, neighbors s !! x = Some n ∧ NeighborIP n = ip.

(** The node's own key and id and the messages sent. *)
Definition same_rest (s s' : ipcstate) : Prop :=
  key s' = key s ∧ opennop_localid s' = opennop_localid s ∧ sent s' = sent s.

Definition add_step (ip : Z) (k : string) (M M' : gmap Z neighbor) : Prop :=
  ∃ n, M' = <[ip := n]> M ∧ NeighborIP n = ip ∧ text_at (nb_key n) = k
    ∧ match M !! ip with
      | Some old => n = set_nb_key old (nb_key n)
      | None => nb_state n = DOWN ∧ Ipc.sock n = 0
      end.

(** One command: a neighbor that is there gets the key and keeps all its other fields, a new
    one is DOWN and without a socket, and no other neighbor is touched. *)
Definition config_step (M : gmap Z neighbor) (c : config_command) (M' : gmap Z neighbor) : Prop :=
  match c with
  | Add [ip] => match inet_pton ip with Some ip => add_step ip "" M M' | None => M' = M end
  | Add [ip; k] =>
      if 64 <? Z.of_nat (String.length k) then M' = M
      else match inet_pton ip with Some ip => add_step ip k M M' | None => M' = M end
  | Remove [ip] => match inet_pton ip with Some ip => M' = delete ip M | None => M' = M end
  | _ => M' = M
  end.

Fixpoint config_steps (M : gmap Z neighbor) (cmds : list config_command) (M' : gmap Z neighbor) : Prop :=
  match cmds with
  | [] => M' = M
  | c :: cmds => ∃ M1, config_step M c M1 ∧ config_steps M1 cmds M'
  end.

Lemma add_update_rest s a g now ip k s' : add_update_neighbor s a g now ip k = Ret s' → same_rest s s'.
Proof.
  unfold add_update_neighbor. intros ([x|] & _ & E)%bind_Ret.
  - apply bind_Ret in E as (nd & _ & (n & _ & (h & _ & E)%bind_Ret)%bind_Ret). by injection E as <-.
  - unfold add_neighbor in E. apply bind_Ret in E as (n & _ & E). unfold append_neighbor in E.
    destruct (h_next (ipchead s)); [|by injection E as <-].
    apply bind_Ret in E as (h1 & _ & (h2 & _ & E)%bind_Ret). by injection E as <-.
Qed.

Lemma del_rest s ip s' : del_neighbor s ip = Ret s' → same_rest s s'.
Proof.
  unfold del_neighbor. intros ([x|] & _ & E)%bind_Ret; [|by injection E as <-].
  apply bind_Ret in E as (nd & _ & ([h hd] & _ & (h' & _ & E)%bind_Ret)%bind_Ret). by injection E as <-.
Qed.

Lemma by_address_insert s s' M x n : ipc_ok s' → by_address s M → neighbors s' = <[x := n]> (neighbors s) →
  (neighbors s !! x = None ∨ ∃ n0, neighbors s !! x = Some n0 ∧ NeighborIP n0 = NeighborIP n) →
  by_address s' (<[NeighborIP n := n]> M).
Proof.
  intros (l & Hi) HM E Hx ip m. rewrite E. destruct (decide (ip = NeighborIP n)) as [->|Hne].
  - rewrite lookup_insert_eq. split; [intros [= <-]; exists x; by rewrite lookup_insert_eq|].
    intros (y & Hy & Hip). assert (y = x) as ->.
    { apply (ii_ips _ _ Hi y x m n); rewrite ?E, ?lookup_insert_eq; done. }
    by rewrite lookup_insert_eq in Hy.
  - rewrite lookup_insert_ne by done. rewrite (HM ip m). split; intros (y & Hy & Hip); exists y.
    + rewrite lookup_insert_ne; [done|]. intros <-. destruct Hx as [Hx|(n0 & Hx & H0)]; [congruence|].
      apply Hne. rewrite <-Hip, <-H0. congruence.
    + destruct (decide (x = y)) as [<-|Hxy]; [|by rewrite lookup_insert_ne in Hy].
      rewrite lookup_insert_eq in Hy. injection Hy as <-. by destruct Hne.
Qed.

Lemma add_update_step s a g now ip k M s' : ipc_ok s → by_address s M → nheap s !! a = None → garbage_ok g →
  match k with Some k => nul_free k = true ∧ (String.length k <= 64)%nat | None => True end →
  add_update_neighbor s a g now ip (chars <$> k) = Ret s' →
  ∃ M', by_address s' M' ∧ add_step ip (default "" k) M M'.
Proof.
  intros Hok HM Ha Hg Hk E0.
  assert (Hp : key_param_ok (chars <$> k) = true).
  { destruct k as [k|]; [|done]. simpl. rewrite length_chars. apply Z.leb_le. lia. }
  assert (Ht : text_at (new_key (chars <$> k)) = default "" k).
  { destruct k as [k|]; [|done]. apply text_at_new_key; by destruct Hk. }
  destruct (add_update_inv s a g now ip (chars <$> k) Hok Ha Hg Hp) as (s1 & E & Hok' & H).
  rewrite E0 in E. injection E as <-.
  destruct H as [(x & n & Hx & <- & En)|(Hno & n & En & <- & Hst & Hso & He & Hkk)].
  - set (n' := set_nb_key n (new_key (chars <$> k))) in *. exists (<[NeighborIP n' := n']> M). split.
    + apply (by_address_insert s s' M x n'); [done..|]. right. by exists n.
    + exists n'. split_and!; [done..|]. rewrite (proj2 (HM (NeighborIP n) n)); [done|by exists x].
  - exists (<[NeighborIP n := n]> M). split.
    + apply (by_address_insert s s' M a n); [done..|]. left. unfold neighbors. by rewrite payload_lookup, Ha.
    + exists n. split_and!; [done|done| |].
      * destruct k as [k|]; [by rewrite Hkk|]. assert (Hx : neighbors s' !! a = Some n) by (by rewrite En, lookup_insert_eq).
        destruct (neighbor_nb_ok s' a n Hok' Hx) as (_ & Hl & _). apply text_at_empty; [|exact He].
        rewrite Hl. unfold OPENNOP_IPC_KEY_LENGTH. lia.
      * destruct (M !! NeighborIP n) as [m|] eqn:Hm; [|done]. apply HM in Hm as (x & Hx & Hip). by destruct (Hno x m).
Qed.

Lemma cli_neighbor_step ps s a g now M s' ls : ipc_ok s → by_address s M → nheap s !! a = None → garbage_ok g →
  Forall (λ t, nul_free t = true) ps → cli_neighbor ps a g now s = Ret (s', ls) →
  same_rest s s' ∧ ∃ M', by_address s' M' ∧ config_step M (Add ps) M'.
Proof.
  intros Hok HM Ha Hg Hps E. assert (Hsame : s' = s → same_rest s s' ∧ ∃ M', by_address s' M' ∧ M' = M)
    by (intros ->; split; [by split_and!|by exists M]).
  destruct ps as [|ip [|k [|x ps]]]; cbn [cli_neighbor config_step] in *; try (apply Hsame; congruence);
    unfold validate_neighbor_input in E.
  - destruct (inet_pton ip) as [v|]; [|apply Hsame; congruence].
    apply bind_Ret in E as (s1 & E & E1). injection E1 as <- _. split; [by eapply add_update_rest|].
    by apply (add_update_step s a g now v None M).
  - apply Forall_cons in Hps as [_ [Hk _]%Forall_cons].
    destruct (inet_pton ip) as [v|]; [|case_match; apply Hsame; congruence].
    destruct (Z.ltb_spec 64 (Z.of_nat (String.length k))); [apply Hsame; congruence|].
    apply bind_Ret in E as (s1 & E & E1). injection E1 as <- _. split; [by eapply add_update_rest|].
    apply (add_update_step s a g now v (Some k) M); [done..|split; [done|lia]|done].
Qed.

Lemma cli_no_neighbor_step ps s M s' ls : ipc_ok s → by_address s M → cli_no_neighbor ps s = Ret (s', ls) →
  same_rest s s' ∧ ∃ M', by_address s' M' ∧ config_step M (Remove ps) M'.
Proof.
  intros Hok HM E. assert (Hsame : s' = s → same_rest s s' ∧ ∃ M', by_address s' M' ∧ M' = M)
    by (intros ->; split; [by split_and!|by exists M]).
  destruct ps as [|ip [|k ps]]; cbn [cli_no_neighbor config_step] in *; try (apply Hsame; congruence).
  unfold validate_neighbor_input in E. destruct (inet_pton ip) as [v|]; [|apply Hsame; congruence].
  apply bind_Ret in E as (s1 & E & E1). injection E1 as <- _. split; [by eapply del_rest|].
  exists (delete v M). split; [|done]. destruct (del_inv s v Hok) as (s2 & E2 & _ & H). rewrite E in E2. injection E2 as <-.
  intros ip' n. rewrite lookup_delete_Some, (HM ip' n). split.
  - intros (Hne & x & Hx & <-). exists x. split; [|done]. apply H. split; [done|congruence].
  - intros (x & Hx & <-). apply H in Hx as [Hx Hne]. split; [congruence|]. by exists x.
Qed.

(** ** Whole sessions *)
Section Client.
Context (env : daemon_env).

(** What the theorems assume of the system: fresh objects, fields of the right sizes. *)
Record env_ok : Prop := EnvOk {
  eo_version : (String.length (VERSION env) <= 1000)%nat;
  eo_neighbor d : nheap (d_ipc d) !! malloc_neighbor env d = None;
  eo_garbage d : garbage_ok (garbage_neighbor env d);
  eo_group d : gheap (d_wccp d) !! malloc_group env d = None;
  eo_server d : srvheap (d_wccp d) !! malloc_server env d = None
}.
Hypothesis Henv : env_ok.

Variables (s : clistate) (gs : list registration).
Hypothesis Hs : registered s gs.
Hypothesis Hgs : gs ≡ₚ program_commands.

Lemma program_represents : ∃ hs, hs.*1 = gs ∧ CliMenus.represents s (menus_of hs) ∧ named_list hs ∧ no_conflict hs.*1.
Proof.
  assert (Hw : forallb well_named gs = true) by (by apply (forallb_perm _ program_commands)).
  destruct (registered_represents s gs Hs Hw) as (hs & Eg & Hrep). exists hs. split_and!; [done..| |].
  - unfold named_list. rewrite Eg. apply Forall_forall. intros g Hg. rewrite forallb_forall in Hw.
    by apply Hw, list_elem_of_In.
  - rewrite Eg. apply (no_conflict_perm program_commands); [done|apply program_no_conflict].
Qed.

(** Only the words of a line matter. *)
Lemma execute_tokens m data line ws d : tokens line = ws →
  execute_commands (run env) s m data line d = execute_commands (run env) s m data (join_words ws) d.
Proof.
  intros <-. destruct program_represents as (hs & _ & Hrep & _). rewrite !(execute_commands_spec _ s _ _ _ _ _ Hrep).
  unfold console_line. by rewrite (tokens_join_words _ (tokens_are_words line)).
Qed.

(** The line of a program command in its mode. *)
Lemma program_line g ps m data line d : g ∈ program_commands → tokens line = g_words g ++ ps → default globalmode m = g_mode g →
  execute_commands (run env) s m data line d
  = ('(d, result, out) ← run env (g_handler g) (if g_params g then ps else []) data d;
     Ret (d, result, out ++ (if finished result =? 1 then [] else [cli_mode_prompt (r_mode result)]))).
Proof.
  intros Hg Ht Hm. rewrite (execute_tokens _ _ _ _ _ Ht). eapply registered_command_runs; [exact Hs| | |by rewrite Hgs| |done].
  - by apply (forallb_perm _ program_commands).
  - apply (no_conflict_perm program_commands); [done|apply program_no_conflict].
  - pose proof (tokens_are_words line) as H. rewrite Ht, forallb_app in H. by apply andb_true_iff in H as [_ ?].
Qed.

Lemma config_line line c d K M : tokens line = words_of c → nul_free line = true → ipc_ok (d_ipc d) →
  keys_of (d_ipc d) K → by_address (d_ipc d) M →
  ∀ data, ∃ s' out, execute_commands (run env) s None data line d = Ret (set_ipc d s', no_result, out)
    ∧ ipc_ok s' ∧ keys_of s' (config_effect K c)
    ∧ same_rest (d_ipc d) s' ∧ ∃ M', by_address s' M' ∧ config_step M c M'.
Proof.
  intros Ht Hl Hok HK HM data. pose proof (tokens_nul_free line Hl) as Hf. rewrite Ht in Hf. destruct c as [ps|ps].
  - apply Forall_cons in Hf as [_ Hf].
    rewrite (program_line (Reg globalmode ["neighbor"] Cli.cli_neighbor true false) ps) by (done || (unfold program_commands; set_solver)).
    cbn [g_handler g_params run].
    destruct (cli_neighbor_effect ps (d_ipc d) (malloc_neighbor env d) (garbage_neighbor env d) (time env d) K) as (s' & ls & E & Hok' & HK');
      [done|done|apply (eo_neighbor Henv)|apply (eo_garbage Henv)|done|].
    destruct (cli_neighbor_step ps (d_ipc d) _ _ _ M s' ls Hok HM (eo_neighbor Henv d) (eo_garbage Henv d) Hf E) as [Hr HM'].
    rewrite E. cbn [on_ipc mbind outcome_bind]. eauto 10.
  - rewrite (program_line (Reg globalmode ["no"; "neighbor"] Cli.cli_no_neighbor true false) ps) by (done || (unfold program_commands; set_solver)).
    cbn [g_handler g_params run].
    destruct (cli_no_neighbor_effect ps (d_ipc d) K) as (s' & ls & E & Hok' & HK'); [done..|].
    destruct (cli_no_neighbor_step ps (d_ipc d) M s' ls Hok HM E) as [Hr HM'].
    rewrite E. cbn [on_ipc mbind outcome_bind]. eauto 10.
Qed.

(** *** Safety *)

(** The invariants of the components the commands change, and a mode's pointer that leads to a group. *)
Definition daemon_ok (d : daemon) : Prop :=
  ipc_ok (d_ipc d) ∧ ∃ G, WccpGroups.represents (d_wccp d) G ∧ groups_ok G.
Definition data_ok (d : daemon) (data : option loc) : Prop :=
  match data with Some x => ∃ n, points_to_group (d_wccp d) x n | None => True end.

Definition safe (o : outcome (daemon * commandresult * list string)) : Prop :=
  ∃ d r out, o = Ret (d, r, out) ∧ daemon_ok d ∧ data_ok d (r_data r).

(** The commands whose text may not fit, and the numbers that are not an [int]. *)
Definition fits (f : t_commandfunction) (ps : list string) : Prop :=
  f ∉ [Cli.cli_show_workers; Cli.cli_show_fetcher; Cli.cli_show_sessionss; Cli.cli_show_neighbors]
  ∧ Forall (λ t, Z.of_nat (String.length t) <= 1000) ps ∧ Z.of_nat (length ps) <= 2000
  ∧ (f = Cli.cli_enter_wccp_mode → group_number ps ≠ Undef).

Lemma show_params_total ps : Forall (λ t, Z.of_nat (String.length t) <= 1000) ps →
  ∀ i, 0 <= i → i + Z.of_nat (length ps) <= 10000 → ∃ ls, show_params_loop i ps = Ret ls.
Proof.
  induction 1 as [|p ps Hp H IH]; intros i Hi Hn; [by eexists|]. cbn [show_params_loop length] in *.
  pose proof (pretty_short i 4 ltac:(change (10 ^ Z.of_nat 4) with 10000; lia) ltac:(lia)).
  rewrite sprintf_Ret.
  - cbn [mbind outcome_bind]. destruct (IH (i + 1)) as [ls ->]; [lia..|]. by eexists.
  - rewrite !length_cat. simpl. lia.
Qed.

Lemma cli_show_neighbor_total ps s0 : ipc_ok s0 → ∃ ls, CliShow.cli_show_neighbor ps s0 = Ret ls.
Proof.
  intros Hok. unfold CliShow.cli_show_neighbor. destruct (match ps with [p] => _ | _ => _ end) as [out [ip|]]; [|by eexists].
  destruct (find_by_ip s0 ip Hok) as [[-> _]|(x & n & -> & Hx & _)]; cbn [mbind outcome_bind]; [by eexists|].
  apply neighbors_node in Hx as (nd & Hnd & _). unfold load, deref. rewrite Hnd. by eexists.
Qed.

Lemma cli_set_key_total ps s0 : ipc_ok s0 → ∃ s1, Ipc.cli_set_key s0 ps = Ret s1 ∧ ipc_ok s1.
Proof.
  intros Hok.
  assert (∃ s1, Ipc.cli_set_key s0 ps = Ret s1) as [s1 E].
  { destruct ps as [|k [|]]; cbn [Ipc.cli_set_key]; [by eexists| |by eexists].
    destruct (Z.leb_spec (blen k) 64); [|by eexists]. rewrite copy_key by lia. by eexists. }
  exists s1. split; [done|].
  by apply (cli_set_key_ok s0 ps).
Qed.

Lemma cli_show_key_total s0 : ipc_ok s0 → ∃ ls, cli_show_key s0 = Ret ls.
Proof.
  intros (l & Hi). unfold cli_show_key. pose proof (length_text_at (key s0)) as H. rewrite (ii_key _ _ Hi) in H.
  unfold OPENNOP_IPC_KEY_LENGTH in H. rewrite sprintf_Ret; [by eexists|]. rewrite !length_cat. simpl. lia.
Qed.

Lemma cli_debug_ipc_total ps level : Forall (λ t, Z.of_nat (String.length t) <= 1000) ps →
  ∃ level' ls, CliShow.cli_debug_ipc ps level = Ret (level', ls).
Proof.
  intros H. destruct ps as [|p [|]]; cbn [CliShow.cli_debug_ipc]; [by eauto| |by eauto].
  apply Forall_cons in H as [H _]. rewrite sprintf_Ret; [by eauto|]. rewrite !length_cat. simpl. lia.
Qed.

Lemma safe_same d0 out r : daemon_ok d0 → r_data r = None → safe (Ret (d0, r, out)).
Proof. intros H Hr. exists d0, r, out. split_and!; [done..|]. by rewrite Hr. Qed.

Lemma safe_shows d0 o : daemon_ok d0 → (∃ ls, o = Ret ls) → safe (shows d0 o).
Proof. intros H [ls ->]. by apply safe_same. Qed.

Lemma safe_ipc d0 o : daemon_ok d0 → (∃ s1 ls, o = Ret (s1, ls) ∧ ipc_ok s1) → safe (on_ipc d0 o).
Proof. intros [_ H] (s1 & ls & -> & Hok). by apply safe_same. Qed.

Lemma safe_neighbor_command c d0 a g now : daemon_ok d0 → nheap (d_ipc d0) !! a = None → garbage_ok g →
  match c with
  | Add ps => safe (on_ipc d0 (cli_neighbor ps a g now (d_ipc d0)))
  | Remove ps => safe (on_ipc d0 (cli_no_neighbor ps (d_ipc d0)))
  end.
Proof.
  intros Hd Ha Hg. pose proof Hd as [Hok _].
  assert (A : ∀ ip k, match k with Some k => (String.length k <= 64)%nat | None => True end →
    ∃ s1, add_update_neighbor (d_ipc d0) a g now ip (chars <$> k) = Ret s1 ∧ ipc_ok s1).
  { intros ip k Hk. destruct (add_update_inv (d_ipc d0) a g now ip (chars <$> k) Hok Ha Hg) as (s1 & E & Hok' & _); [|by exists s1].
    destruct k as [k|]; [|done]. simpl. rewrite length_chars. apply Z.leb_le. lia. }
  destruct c as [ps|ps].
  - apply safe_ipc; [done|]. destruct ps as [|ip [|k [|]]]; cbn [cli_neighbor]; eauto; unfold validate_neighbor_input;
      (destruct (inet_pton ip) as [v|]; [|by eauto]).
    + destruct (A v None I) as (s1 & E & Hok'). cbn [fmap option_fmap option_map] in *. rewrite E. cbn [mbind outcome_bind]. eauto.
    + destruct (Z.ltb_spec 64 (Z.of_nat (String.length k))); [by eauto|].
      destruct (A v (Some k) ltac:(simpl; lia)) as (s1 & E & Hok'). rewrite E. cbn [mbind outcome_bind]. eauto.
  - apply safe_ipc; [done|]. destruct ps as [|ip [|]]; cbn [cli_no_neighbor]; eauto; unfold validate_neighbor_input.
    destruct (inet_pton ip) as [v|]; [|by eauto]. destruct (del_inv (d_ipc d0) v Hok) as (s1 & E & Hok' & _).
    rewrite E. cbn [mbind outcome_bind]. eauto.
Qed.

Lemma safe_wccp d0 ps data : daemon_ok d0 → data_ok d0 data →
  (group_number ps ≠ Undef → safe (on_wccp d0 (Wccp.cli_enter_wccp_mode ps (Some (malloc_group env d0)) (d_wccp d0)))) ∧
  safe (on_wccp d0 (Wccp.cli_wccp_server ps data (time env d0) (Some (malloc_server env d0)) (d_wccp d0))).
Proof.
  intros Hd Hdata. pose proof Hd as [Hok (G & R & HG)]. split.
  - intros Hn. pose proof (wccp_command _ G ps _ R (eo_group Henv d0)) as C.
    destruct (group_number ps) as [[n|]| |] eqn:En; [| |done|].
    + destruct C as (w & x & out & -> & R' & P). cbn [on_wccp mbind outcome_bind]. eexists _, _, _. split; [done|].
      split; [|by exists n]. split; [done|]. eexists. split; [exact R'|].
      apply enter_group_ok; [by eapply group_number_range|done].
    + rewrite C. cbn [on_wccp mbind outcome_bind]. apply safe_same; [|done]. by split; [|exists G].
    + destruct ps as [|p [|]]; [done| |done]. rewrite group_number_code in En. destruct (isstringdigits p); [|done].
      unfold atoi in En. by destruct (_ <? _).
  - destruct data as [x|]; [|by apply (safe_same (set_wccp d0 (d_wccp d0))); [split; [|exists G]|]].
    destruct Hdata as [n P]. pose proof (server_command _ G ps (time env d0) _ x n R (eo_server Henv d0) P) as C.
    destruct (server_address ps) as [ip|].
    + destruct C as (w & out & -> & R' & P'). cbn [on_wccp mbind outcome_bind]. eexists _, _, _. split; [done|].
      split; [|by exists n]. split; [done|]. eexists. split; [exact R'|].
      apply on_group_ok; [|by apply add_server_ok|done]. intros g. unfold add_server. by destruct (existsb _ _).
    + rewrite C. cbn [on_wccp mbind outcome_bind]. eexists _, _, _. split; [done|]. split; [|by exists n]. by split; [|exists G].
Qed.

(** Every handler whose text fits returns and keeps the invariants. *)
Lemma run_safe f ps data d0 : daemon_ok d0 → data_ok d0 data → fits f ps → safe (run env f ps data d0).
Proof.
  intros Hd Hdata (Hf & Hl & Hn & Hg). pose proof Hd as [Hok Hw]. pose proof (safe_wccp d0 ps data Hd Hdata) as [W1 W2].
  pose proof (eo_version Henv).
  destruct f; cbn [run]; try (exfalso; apply Hf, (bool_decide_unpack _); reflexivity);
    try (apply safe_same; [exact Hd|reflexivity]).
  - unfold cli_show_params. destruct (show_params_total ps Hl 0) as [ls ->]; [lia..|]. by apply safe_same.
  - apply safe_shows; [done|]. unfold cli_show_version. rewrite sprintf_Ret; [by eexists|]. rewrite !length_cat. simpl. lia.
  - by apply (safe_neighbor_command (Add ps) d0); [|apply (eo_neighbor Henv)|apply (eo_garbage Henv)].
  - by apply (safe_neighbor_command (Remove ps) d0 _ _ 0 Hd (eo_neighbor Henv d0) (eo_garbage Henv d0)).
  - apply safe_ipc; [done|]. destruct (cli_set_key_total (chars <$> ps) (d_ipc d0) Hok) as (s1 & -> & Hok'). cbn [mbind outcome_bind]. eauto.
  - apply safe_shows; [done|]. by apply cli_show_key_total.
  - apply safe_shows; [done|]. by apply cli_show_neighbor_total.
  - destruct (cli_debug_ipc_total ps (DEBUG_IPC d0) Hl) as (v & ls & ->). cbn [mbind outcome_bind]. by apply safe_same.
  - by apply W1, Hg.
  - exact W2.
Qed.

(** A line within those limits. *)
Definition harmless (ws : list string) : Prop :=
  Forall (λ t, Z.of_nat (String.length t) <= 1000) ws
  ∧ (∀ t k, ws = "show" :: t :: k → t ∉ ["workers"; "fetcher"; "sessions"; "neighbors"])
  ∧ (∀ n, ws = ["wccp"; n] → digits_value n 0 < 2 ^ 31).

Lemma harmless_fits g k : g ∈ program_commands → harmless (g_words g ++ k) → Z.of_nat (length k) <= 2000 →
  fits (g_handler g) (if g_params g then k else []).
Proof.
  intros Hg (Hl & Hsh & Hn) Hk. apply Forall_app in Hl as [_ Hl]. unfold program_commands in Hg.
  repeat (apply elem_of_cons in Hg as [->|Hg]); try (by apply not_elem_of_nil in Hg);
    cbn [g_handler g_params g_words app] in *;
    (split_and!; [|by constructor || done|by simpl; lia || done|intros Eh; try discriminate Eh]);
    try (by apply Forall_nil); try (simpl; lia); try (by set_solver);
    try (exfalso; refine (Hsh _ _ eq_refl _); set_solver).
  destruct k as [|n [|]]; [done| |done]. rewrite group_number_code. specialize (Hn n eq_refl). destruct (isstringdigits n); [|done].
  unfold atoi. destruct (Z.ltb_spec (digits_value n 0) (2 ^ 31)); [|lia]. by cbn [mbind outcome_bind].
Qed.

Lemma line_safe m data line d0 : daemon_ok d0 → data_ok d0 data → harmless (tokens line) → (String.length line <= Z.to_nat 1024)%nat →
  safe (execute_commands (run env) s m data line d0).
Proof.
  intros Hd Hdata Hh Hl. destruct program_represents as (hs & Eg & Hrep & Hn & Hc).
  rewrite (execute_commands_spec _ s _ _ _ _ _ Hrep). unfold console_line.
  destruct (menus_of hs (default globalmode m) []) as [|e mn]; [by apply safe_same|].
  destruct (dispatch (menus_of hs) (default globalmode m) [] (tokens line)) as [|mn'|f ps] eqn:E; cbn [perform mbind outcome_bind];
    [by apply safe_same..|].
  destruct (dispatch_sound hs _ f ps Hn Hc _ _ E) as (g & k & ws & Hg & _ & Et & Ew & -> & ->). rewrite Eg, Hgs in Hg.
  simpl in Ew. subst ws. rewrite Et in Hh. pose proof (length_tokens line) as Hk. rewrite Et, length_app in Hk.
  destruct (run_safe (g_handler g) (if g_params g then k else []) data d0 Hd Hdata) as (d1 & r & out & -> & Hd1 & Hr1).
  { apply harmless_fits; [done..|lia]. }
  cbn [mbind outcome_bind]. by exists d1, r; eexists.
Qed.

(** C33: What a client can type.  From any state of the daemon in which the components are well
    formed, a session of any messages of the size [recv] takes, in any modes, comes to its end
    and leaves the components well formed, provided that no word has more than 1000
    characters, no group number is beyond [int], and none of the four tables
    ([show workers], [show fetcher], [show sessions], [show neighbors]) is asked for. *)
Theorem console_safe msgs d :
  Forall (λ m, (String.length m <= Z.to_nat 1024)%nat ∧ harmless (tokens (message_line m))) msgs → daemon_ok d →
  ∃ d' out, client_handler (run env) s msgs d = Ret (d', out) ∧ daemon_ok d'.
Proof.
  intros Hm Hd. unfold client_handler.
  assert (L : ∀ m data d, daemon_ok d → data_ok d data → ∃ d' out, client_loop (run env) msgs s m data d = Ret (d', out) ∧ daemon_ok d').
  { clear d Hd. induction Hm as [|msg msgs [Hl Hh] Hm IH]; intros m data d Hd Hdata; [by exists d, []|]. cbn [client_loop].
    assert (Hll : (String.length (message_line msg) <= Z.to_nat 1024)%nat).
    { unfold message_line. etrans; [apply length_c_string|]. etrans; [apply length_substring|]. lia. }
    destruct (line_safe m data _ d Hd Hdata Hh Hll) as (d1 & r & o1 & -> & Hd1 & Hr). cbn [mbind outcome_bind].
    destruct (finished r =? 0); [|by eexists _, _].
    destruct (IH (r_mode r) (r_data r) d1 Hd1 Hr) as (d2 & o2 & -> & Hd2). cbn [mbind outcome_bind]. by eexists _, _. }
  destruct (L None None d Hd I) as (d' & out & -> & Hd'). cbn [mbind outcome_bind]. by eexists _, _.
Qed.

(** C32: Configuring neighbors from a client.  A session of lines [neighbor ...] and [no neighbor ...],
    with whatever parameters, always comes to its end, and the neighbor list then holds exactly
    the addresses and keys that the lines say, each command applied to the result of the one
    before: an address is inserted or its key replaced, removed, or the line is refused.
    Nothing else of the daemon changes: a neighbor whose key is replaced keeps its id, state,
    socket and timers, the other neighbors keep everything, and the node's own key and id, the
    messages sent and the other components stay as they are. *)
Theorem console_configures msgs cmds d K M :
  Forall2 (λ m c, tokens (message_line m) = words_of c) msgs cmds → ipc_ok (d_ipc d) →
  keys_of (d_ipc d) K → by_address (d_ipc d) M →
  ∃ s' out, client_handler (run env) s msgs d = Ret (set_ipc d s', out)
    ∧ ipc_ok s' ∧ keys_of s' (foldl config_effect K cmds)
    ∧ same_rest (d_ipc d) s' ∧ ∃ M', by_address s' M' ∧ config_steps M cmds M'.
Proof.
  intros H Hok HK HM. unfold client_handler.
  assert (L : ∀ d K M data, ipc_ok (d_ipc d) → keys_of (d_ipc d) K → by_address (d_ipc d) M →
    ∃ s' out, client_loop (run env) msgs s None data d = Ret (set_ipc d s', out) ∧ ipc_ok s' ∧ keys_of s' (foldl config_effect K cmds)
      ∧ same_rest (d_ipc d) s' ∧ ∃ M', by_address s' M' ∧ config_steps M cmds M').
  { clear d K M Hok HK HM. induction H as [|m c msgs cmds Hm H IH]; intros d K M data Hok HK HM.
    - exists (d_ipc d), []. split; [by destruct d|]. split; [done|]. split; [done|]. split; [by split_and!|by exists M].
    - cbn [client_loop foldl config_steps].
      destruct (config_line _ c d K M Hm (c_string_nul_free _) Hok HK HM data) as (s1 & o1 & -> & Hok1 & HK1 & Hr1 & M1 & HM1 & Hs1).
      cbn [mbind outcome_bind no_result finished r_mode r_data]. change (0 =? 0) with true. cbv iota.
      destruct (IH (set_ipc d s1) _ M1 None Hok1 HK1 HM1) as (s2 & o2 & -> & Hok2 & HK2 & Hr2 & M2 & HM2 & Hs2).
      cbn [mbind outcome_bind]. exists s2. eexists. split; [done|]. split; [done|]. split; [done|]. split; [|by eauto 10].
      cbn [d_ipc set_ipc] in Hr2. destruct Hr1 as (A1 & A2 & A3), Hr2 as (B1 & B2 & B3). split_and!; congruence. }
  destruct (L d K M None Hok HK HM) as (s' & out & -> & H'). cbn [mbind outcome_bind]. exists s'. by eexists.
Qed.
End Client.

(** [debug ipc] copies its parameter into 1024 bytes behind 18 characters: 1006 characters, which
    a message can hold, overrun them. *)
Example debug_ipc_overruns p :
  String.length p = Z.to_nat 1006 → String.length (join_words ["debug"; "ipc"; p] +:+ newline) = Z.to_nat 1017
  ∧ CliShow.cli_debug_ipc [p] 0 = Undef.
Proof.
  intros Hp. split.
  - rewrite length_cat. change (String.length (join_words ["debug"; "ipc"; p])) with (10 + String.length p)%nat.
    rewrite Hp. simpl (String.length newline). lia.
  - cbn [CliShow.cli_debug_ipc]. rewrite sprintf_Undef; [done|]. rewrite !length_cat, Hp. simpl String.length. lia.
Qed.

(** ** Witnesses *)
Definition demo_system : daemon_env :=
  DaemonEnv "1.0" (λ _, 100) (λ d, fresh (dom (nheap (d_ipc d)))) (λ _, zero_garbage)
    (λ d, fresh (dom (gheap (d_wccp d)))) (λ d, fresh (dom (srvheap (d_wccp d)))).

Lemma demo_system_ok : env_ok demo_system.
Proof. constructor; intros; try (apply fresh_lookup); [simpl; lia|apply zero_garbage_ok]. Qed.

Definition demo_daemon (t : smstate) : daemon :=
  Daemon (start_ipc 5) initialize_wccp_service_groups t [] (FetcherCounters (rate_metric 0) (rate_metric 0)) false true 0.

Lemma demo_configuration_ok t :
  ipc_ok (d_ipc (demo_daemon t)) ∧ keys_of (d_ipc (demo_daemon t)) ∅ ∧ by_address (d_ipc (demo_daemon t)) ∅.
Proof.
  assert (H : ∀ x n, neighbors (start_ipc 5) !! x = Some n → False).
  { intros x n (nd & Hnd & _)%neighbors_node. simpl in Hnd. by rewrite lookup_empty in Hnd. }
  split_and!; [apply start_ipc_ok| |].
  - intros ip k. rewrite lookup_empty. split; [done|]. intros (x & n & Hx & _). by destruct (H x n Hx).
  - intros ip n. rewrite lookup_empty. split; [done|]. intros (x & Hx & _). by destruct (H x n Hx).
Qed.

Lemma console_configures_witness :
  ∃ s, registered s program_commands ∧
  ∃ s' out, client_handler (run demo_system) s
      ["neighbor 10.0.0.1 secret" +:+ newline; " neighbor  10.0.0.2" +:+ newline; "no neighbor 10.0.0.2" +:+ newline;
       "neighbor 10.0.0 secret" +:+ newline] (demo_daemon (empty_table 0))
      = Ret (set_ipc (demo_daemon (empty_table 0)) s', out)
    ∧ ipc_ok s' ∧ keys_of s' {[16777226 := "secret"]} ∧ key s' = zero_key.
Proof.
  destruct (registrable program_commands) as [s Hs]; [by vm_compute|]. exists s. split; [exact Hs|].
  destruct (demo_configuration_ok (empty_table 0)) as (H1 & H2 & H3).
  destruct (console_configures demo_system demo_system_ok s program_commands Hs (reflexivity _)
    ["neighbor 10.0.0.1 secret" +:+ newline; " neighbor  10.0.0.2" +:+ newline; "no neighbor 10.0.0.2" +:+ newline;
       "neighbor 10.0.0 secret" +:+ newline]
    [Add ["10.0.0.1"; "secret"]; Add ["10.0.0.2"]; Remove ["10.0.0.2"]; Add ["10.0.0"; "secret"]]
    (demo_daemon (empty_table 0)) ∅ ∅) as (s' & out & E & Hok & HK & (Hkey & _) & _); [|exact H1|exact H2|exact H3|].
  - repeat apply Forall2_cons_2; [vm_compute; reflexivity..|constructor].
  - exists s', out. split; [exact E|]. split; [exact Hok|]. split; [exact HK|exact Hkey].
Defined.

Lemma demo_daemon_ok t : daemon_ok (demo_daemon t).
Proof.
  split; [apply start_ipc_ok|]. exists []. split; [apply represents_init|]. by split; constructor.
Qed.

Lemma harmless_line m ws : tokens (message_line m) = ws → (String.length m <=? Z.to_nat 1024)%nat = true → harmless ws →
  (String.length m <= Z.to_nat 1024)%nat ∧ harmless (tokens (message_line m)).
Proof. intros -> H%Nat.leb_le. done. Qed.

Lemma console_safe_witness :
  ∃ s, registered s program_commands ∧
  ∃ d' out, client_handler (run demo_system) s
      ["wccp 7" +:+ newline; "server 10.0.0.2" +:+ newline; "show key" +:+ newline; "quit" +:+ newline] (demo_daemon (empty_table 0))
      = Ret (d', out)
    ∧ daemon_ok d'.
Proof.
  destruct (registrable program_commands) as [s Hs]; [by vm_compute|]. exists s. split; [exact Hs|].
  apply (console_safe demo_system demo_system_ok s program_commands Hs (reflexivity _)); [|apply demo_daemon_ok].
  repeat apply Forall_cons_2; [..|constructor].
  - apply (harmless_line _ ["wccp"; "7"]); [by vm_compute..|]. split; [|split; [done|by intros n [= <-]]].
    repeat constructor; apply Z.leb_le; reflexivity.
  - apply (harmless_line _ ["server"; "10.0.0.2"]); [by vm_compute..|]. split; [|done]. repeat constructor; apply Z.leb_le; reflexivity.
  - apply (harmless_line _ ["show"; "key"]); [by vm_compute..|]. split; [|split; [|done]].
    + repeat constructor; apply Z.leb_le; reflexivity.
    + intros t k [= <- <-]. apply (bool_decide_unpack _). reflexivity.
  - apply (harmless_line _ ["quit"]); [by vm_compute..|]. split; [|done]. repeat constructor; apply Z.leb_le; reflexivity.
Defined.
